(* ===== verification/_CoqProject ===== *)
-Q . S2P
Prelude.v
Circular.v
Heap.v
EfiRing.v
EfiRingFacts.v
EfiRingOps.v
EfiRingAccess.v
EventQueue.v
RingProps.v
HandleTable.v
Mbor.v
MborProps.v
Ddi.v
DdiProps.v
PkRing.v
PkRingSafe.v
PkRingFifo.v
PkRingChannel.v
EventLogger.v
EventChannel.v
EventLoggerProps.v
EmclPacket.v
EmclPacketProps.v
EmclBounce.v
EmclBounceInv.v
EmclBounceAlloc.v
EmclBounceCopy.v
Emcl.v
EmclSafe.v
EmclSafeSend.v
EmclSafeOps.v
EmclSafeQueue.v
EmclLife.v
EmclHandles.v
EmclConcrete.v
EmclData.v
EmclFinish.v
EmclProps.v
IoMmu.v
IoMmuBitmap.v
IoMmuInv.v
IoMmuPool.v
IoMmuOps.v
IoMmuBuffer.v
IoMmuProps.v
IoMmuConcrete.v
Vmbus.v
VmbusInv.v
VmbusInterrupt.v
VmbusGpadl.v
VmbusChannels.v
VmbusRootOps.v
VmbusMachine.v
VmbusMessages.v
VmbusFlags.v
VmbusProps.v
VmbusConcrete.v
VariableDxe.v
VariableRep.v
VariableNvram.v
VariableReclaim.v
VariableUpdate.v
VariableOps.v
VariableServices.v
VariableMachine.v
VariableSpec.v
VariableRefine.v
VariableProps.v
VariableLimits.v
VariableConcrete.v
SynthKeyLayout.v
SynthKey.v
SynthKeyBuffer.v
SynthKeyTyping.v
SynthKeyEvents.v
SynthKeyDevice.v
SynthKeyLife.v
SynthKeyStart.v
SynthKeyConcrete.v
