(* ===== verification/Prelude.v ===== *)
(** * Verification of the MSVM firmware: logging, device encoding, channels, DMA,
      variables and the keyboard

    The repository is the UEFI firmware of Hyper-V virtual machines.  This
    library models, function by function, eleven parts of it that carry logic of
    their own and that handle untrusted or long-lived data:

    - the event ring ([MsvmPkg/EventLogDxe/EfiRing.c]), a ring of records
      addressed by keyed handles;
    - the handle table ([MsvmPkg/EventLogDxe/EfiHandleTable.c]), which names
      objects by opaque handles;
    - the event logger ([MsvmPkg/EventLogDxe/EventLogger.c]), the protocol that
      keeps one ring per channel, with one pending event each, and flushes
      channels to the host; it is the client of the two parts above;
    - the MBOR codec ([MsvmPkg/AziHsmDxe/AziHsmMbor.c]), the wire format of the
      HSM device's commands;
    - the HSM device's commands ([MsvmPkg/AziHsmDxe/AziHsmDdi.c]), which encode
      requests and decode responses with the codec;
    - the VMBus packet ring ([MsvmPkg/EmclDxe/RingBuffer.c] and [Init.c]), the
      shared-memory transport between guest and host;
    - the EMCL channel ([MsvmPkg/EmclDxe/Emcl.c]), the client of the packet ring:
      it frames packets, queues those that do not fit, matches completions,
      hands received packets to its own client, and in an isolated guest moves
      the data of external buffers through pages shared with the host;
    - the IOMMU driver ([MsvmPkg/IoMmuDxe/IoMmuBounce.c] and [IoMmuDxe.c]), which
      maps callers' buffers for devices, in an isolated guest through runs of
      pages of shared bounce blocks;
    - the VMBus driver ([MsvmPkg/VmbusDxe/VmbusRoot.c] and [VmbusChannel.c]),
      which negotiates with the host, turns the channels it offers into devices,
      routes its messages and interrupts, and describes memory to it (GPADLs).
      EMCL is a client of its protocol, which the class [Vmbus] of [Emcl] states;
    - the variable services ([MsvmPkg/VariableDxe/VariableDxe.c] and
      [NvramVariableDxe.c]): volatile variables in a log in runtime memory, which
      [Reclaim] compacts, and a proxy that hands the others to the host's BIOS
      device, before and after the operating system takes over;
    - the synthetic keyboard ([MsvmPkg/SynthKeyDxe]): keystrokes of the host,
      received over EMCL, become keys of the UEFI console, which applications read,
      wait for and register functions for.

    ** Conventions

    This file holds what they share.  A [UINTw] is a [Z] with its wrap-around
    written out ([u8] to [u64]); memory is a list of bytes, and [CopyMem],
    [SetMem] and field accesses are bounds-checked.  A C function is a Rocq
    function of the same name into [result]: [Ok] of its status, the updated
    objects and its out-parameters, or a [Fault] (access outside an object,
    null dereference, use or release of released memory, failed [ASSERT], the
    fail-fast on unexpected host behaviour, loop bound reached).  [BuildOptions]
    says whether [ASSERT] and [DEBUG_CODE] are compiled in; theorems without a
    build hold for all of them.  Loops that are not structural take fuel: the
    size of the ring or of the table, which bounds the iterations because every
    one consumes a record of at least four bytes or a slot; running out is the
    fault [Diverges], so a theorem that concludes [Ok] proves termination.
    Services outside the repository (allocators, timer, TPL, BIOS device,
    memory visibility, protocol installation) are arguments carrying what they
    answer; the byte-swap primitives are the class [BaseLib] with its laws; the
    opposite endpoint of a packet ring is the class [Peer], called before every
    access to shared memory.  EMCL and the IOMMU driver own memory: their state
    has maps from addresses to structures, the pool and the page allocations, so
    that leaks, double releases and accesses after release are visible.  What
    surrounds them are classes: [Services] (allocators, visibility), [Dma] (a host
    that writes shared pages at any access), [Vmbus] (GPADLs, events) and [Client]
    (callbacks) for EMCL, [Platform] for the IOMMU; [services_ok], [dma_ok],
    [vmbus_ok], [client_ok] and [platform_ok] state what the code relies on, and
    concrete instances meet them.  [EmclProcessQueue] takes fuel for the packets a
    host can keep sending; running out stands for a host that never stops, and is
    an outcome the theorems name.  The surroundings of the VMBus driver are the
    class [Hypervisor]: interrupts with flags and messages by time, a message page
    the host may rewrite between two accesses ([refetch]), and what the boot
    services and hypervisor protocols answer; [HypervisorLaws] states their shape
    and freshness.  [patience] bounds the interrupts an operation waits for and
    the posts it retries: a longer wait is [Diverges], an outcome the theorems
    name too, since the code waits for the host without a limit.  The variable
    services have the class [VariableFormat] for the layout of the upstream
    project's variable headers, [BiosDevice] for the host (what a register write
    does to it and to the shared pages) and [Firmware] for the boot services;
    [VariableFormatLaws], [DeviceLaws] and [FirmwareLaws] state what the code
    relies on.  A device that answers [EFI_NOT_READY] more than [patience] times in
    a row [stalls]; the theorems take one that does not, and then conclude [Ok].
    Walks of the store have fuel for one entry per byte.  The keyboard's class
    [KeyboardSystem] says what EMCL and the boot services answer, which packets
    arrive while the start waits and what the registered functions do; loops over the
    keys have fuel for the buffer, and the call of the registered functions for the
    list and 4096 functions more that they register meanwhile.

    ** Files

    - [Prelude]: machine integers, status codes, faults, memory, little-endian
      fields.  [Circular]: reading and writing a circular byte buffer, shared
      by both rings.  [Heap]: addresses held by maps of structures.
    - [EfiRing] (Module [EfiRing]): all 18 functions of [EfiRing.c]; the state
      is the record [EFI_RING_BUFFER], a [RING_RECORD *] is an offset.
      [EfiRingFacts]: the representation [ring_rep r recs] (the chain of records
      from [Tail] to [Head]) and the low-level copies.  [EfiRingOps]: removal
      and reservation.  [EfiRingAccess]: access through handles, enumeration,
      flattening, initialisation.  [EventQueue]: the abstract bounded queue and
      the simulation.  [RingProps]: the properties of the ring.
    - [HandleTable] (Module [HandleTable]): all five functions of
      [EfiHandleTable.c] with their properties; object pointers are numbers and
      the objects' leading bytes an argument.
    - [EventLogger] (Module [EventLogger]): [EventLogger.c].  First the
      operations on one [EVENT_CHANNEL] ([event_log] is the body of [EventLog]
      after the channel is found, and so on), then the logger: the handle table
      and the channel objects its pointers designate.  [EventChannel]: the
      abstract log [achannel], the representation [chan_rep] and the simulation
      of every operation.  [EventLoggerProps]: creation, operations through
      handles, enumeration and flush, and the properties.
    - [Mbor] (Module [Mbor]): all functions of [AziHsmMbor.c]; encoder and
      decoder have the same fields and are one record.  [MborProps]: the wire
      format as a function of the items, and the properties.
    - [Ddi] (Module [Ddi]): all functions of [AziHsmDdi.c].  [DdiProps]: the
      fields of requests and responses as items ([writes] and [reads] compose
      along them), behaviour on arbitrary input ([robust], and [robust_or] with
      the overflow of a destination), and the properties.
    - [PkRing] (Module [PkRing]): all functions of [RingBuffer.c] and [Init.c],
      in a state monad over the private context and the shared rings.
      [PkRingSafe]: behaviour against an arbitrary peer.  [PkRingFifo]: triples
      for the sender and receiver with an honest peer.  [PkRingChannel]: the
      bounded FIFO of packets and the properties.
    - EMCL: [EmclPacket] (the bytes of packets: GPA ranges, descriptors, pipe
      messages), [EmclBounce] (blocks and lists of bounce pages in a heap, copying
      through them) and [Emcl] (the channel and its operations: start, stop, send,
      complete, dispatch, process) model [Emcl.c]; each is a Module of its name.
      [EmclPacketProps]: packets in closed form, and a decoder as the host would
      have it.  [EmclBounceInv], [EmclBounceAlloc], [EmclBounceCopy]: every page
      on exactly one list, allocation and release, copying.  [EmclSafe],
      [EmclSafeSend], [EmclSafeOps], [EmclSafeQueue]: the invariant of a channel
      and a program logic in which every operation keeps it against any host.
      [EmclLife]: starting and stopping.  [EmclHandles]: the GPADL, the event and
      the interrupt routine of a start, read off its calls.  [EmclConcrete]: a
      concrete world.  [EmclData]: data of packets and shared pages.
      [EmclFinish]: what a completion gives back.  [EmclProps]: the properties.
    - IOMMU: [IoMmu] (Module [IoMmu]): all functions of both files.
      [IoMmuBitmap]: the bitmap of a block and a reference search.  [IoMmuInv]:
      the invariant (who owns which pages, what is shared, which runs are
      mapped) and the services.  [IoMmuPool], [IoMmuOps], [IoMmuBuffer]: each
      operation on the invariant.  [IoMmuProps]: the properties for every sequence
      of calls and device writes.  [IoMmuConcrete]: a concrete platform and the
      witnesses.
    - VMBus: [Vmbus] (Module [Vmbus]): the functions of both files, in a state
      monad over the root context, the tables, the contexts by address and the
      synthetic interrupt.  [VmbusInv]: the invariant [base] and the program logic
      [wp], [calm].  [VmbusInterrupt]: interrupts, late offers and waiting.
      [VmbusGpadl]: GPADLs, on the part of the state a caller can rely on
      ([observe]).  [VmbusChannels]: opening, registration of interrupts, making
      and destroying channels.  [VmbusRootOps]: negotiation, enumeration, start
      and stop.  [VmbusMachine]: all of it as a machine from boot on.
      [VmbusMessages]: the messages of a GPADL read back as the host does.
      [VmbusFlags]: what a scan of the event flags signals.  [VmbusProps]: the
      properties.  [VmbusConcrete]: a concrete host and the witnesses.
    - Variables: [VariableDxe] (Module [VariableDxe]): all functions of both
      files, in a state monad over their globals, the runtime pool, the shared
      pages, the map from virtual addresses and the device; [ExitBootServices] and
      [SetVirtualAddressMap] are what the firmware does around their handlers.
      [VariableRep]: the store as a list of entries and erased bytes ([vol]), and
      the accessors on it.  [VariableNvram]: the logic [wpv] and the commands to the
      device.  [VariableReclaim], [VariableUpdate], [VariableOps],
      [VariableServices]: each function as a function on lists of entries, with the
      invariant [inv].  [VariableMachine]: the entry point.  [VariableSpec]: the
      contract, an ordered list of variables ([v_step]) with a statement of its own
      of which calls of [SetVariable] are refused ([refused]).  [VariableRefine]: entries
      as variables.  [VariableProps]: the properties.  [VariableLimits]: what
      [Reclaim] does where the properties exclude it.  [VariableConcrete]: a
      concrete format, device and firmware, and the witnesses.
    - Keyboard: [SynthKeyLayout] (state changes and translation, with the table) and
      [SynthKey] (key buffer, text input protocols, notifications, channel, driver
      binding) model the four files; each is a Module of its name.  [SynthKeyBuffer]:
      the buffer as a queue, and reading.  [SynthKeyTyping]: tables of the keys with a
      state of their own, the history of the keys, and the letters.  [SynthKeyEvents]: from packets to queued keys.  [SynthKeyDevice]:
      the invariant [device_ok] and every operation.  [SynthKeyLife]: registration,
      stopping, and the paths that come to harm.  [SynthKeyStart]: starting.
      [SynthKeyConcrete]: a concrete system and the witnesses.

    ** What is shown

    - Refinement: the event ring implements a bounded queue ([RingProps]); a
      channel of the logger, driven through its handle, implements a log with
      at most one pending event ([EventLoggerProps]); two endpoints of a packet
      ring implement a bounded FIFO of packets ([PkRingChannel]).  Each holds
      for every sequence of operations, errors included, within the conditions
      named in its statement: records of whole four-byte units, and for a channel
      that overwrites no pending events ([chan_op_ok]).  The variable services
      implement an ordered list of variables of limited total size
      ([VariableProps]), across the end of boot services and the change of the
      address map, for every sequence of calls that does not run into one of the
      faults of [Reclaim] ([benign_run]) and a host that reports no more bytes than
      it was offered ([DeviceLaws]); what is set is read back, enumeration lists each
      variable once, and a failed call loses nothing.  The key buffer implements a
      queue that keeps the newest 255 keys, and keystroke packets append to it what
      they translate to, calling the functions that match.
    - Round trips: MBOR encoding and decoding of whole messages, reads and
      writes of ring records, descriptors of logged events.  Requests to the HSM
      device have the wire format of their fields, and its responses are read
      back whatever the order of the header's fields.
    - Safety and bounds: the packet ring against a peer that writes anything at
      any moment, decoders of items and of device responses on arbitrary
      input (except that a byte string longer than the caller's destination is
      written past it, which their theorems name as the one other outcome),
      encoders at any position, lookups with forged handles, invalidation of handles by removal.  An
      EMCL channel touches no memory but its own whatever the host writes to
      rings and shared pages; its pool is accounted for, piece by piece, and what
      stays after a stop are incoming packets, among them those that
      [EmclDispatchPacket] ignores without freeing; it starts completely or gives
      back the GPADL, the event and the routine it took; a completion finds its
      entry, returns the data and the pages, and calls its routine; what it shares of a client's buffer is exactly the buffer.  The IOMMU driver
      changes callers' memory only at the end of a write mapping, accounts for
      every page it shares, and each mapping transfers exactly its own bytes
      whatever happens to the others in between.  The VMBus driver stays within
      its objects whatever the host sends and whenever it does; its channels are
      allowed ones, and confidential only where a paravisor vouches for them;
      preparing a GPADL exposes exactly the buffer that has to be, and a GPADL
      leaves nothing behind; no registered interrupt is missed; and the host reads
      from the messages of a GPADL exactly the pages of the buffer.  The keyboard
      starts with a host that answers, its operations keep it well formed, its shift
      and lock bits are the history of its keys, and stopping it releases what it
      holds.
    - Equivalence: the search of the IOMMU bitmap finds what trying every start
      finds.
    - Where the code does not do what it means to, a theorem exhibits it: the
      skipped bytes that [RingBufferReserve] does not count (the refinement of
      the ring is therefore stated for records of whole four-byte units), also in
      overwriting rings, the destination size [AziHsmMborDecodeBytes] ignores, the GUID copied before
      its length is checked, the sealed key longer than the array it is decoded
      into, the status that ends an enumeration, pending events of
      overwriting channels, channels registered with a ring that failed to
      initialise, handles revived by a reset, the unchecked NULL of the handle
      table, booleans accepted from any marker; the lists [EmclStopChannel] empties
      through the wrong node, the completion entry released twice when the ring
      refuses a packet, the packet lost when its allocation fails, the packets that
      are ignored and kept; the buffers
      [IoMmuFreeBuffer] frees by the wrong address; the flag of a channel that does
      not exist, and the queued offers [VmbusRootDestroyContext] cannot free; the
      entry that an update deletes in place of the one it replaces, the store that
      is full to its last byte, and the space that [Reclaim] does not erase; the
      failed start of the keyboard that uses the device it freed, the device that is
      freed under its installed protocols, the function that unregisters itself, and
      the Num Lock key that is lost after a Pause.

    ** Not modelled

    Locks of the event channels (operations on a channel are taken as atomic),
    timing, and for EMCL interrupts beyond the decision to signal.  Interrupts of
    VMBus are taken while an operation waits and between operations, not between
    two statements; [VmbusRootHotAdd] runs between operations; the checks of the
    TPL are left out, and so are the driver entry, its names and the drivers
    [ConnectController] starts.  The other parts of the firmware are not modelled: the handle database of EMCL's driver binding
    ([EmclDriverStart], [EmclDriverStop], [EmclLib]) and its two getters, the transport
    and sealing of HSM commands ([AziHsmDxe/AziHsmDdiApi.c], [AziHsmBKS3.c],
    [AziHsmHci.c]), in this order of interest, and the entry point and names of the
    keyboard driver; register
    and page I/O, ACPI and SMBIOS tables, user interface and code taken over
    from the upstream firmware project are left out.

    This file: machine integers, EFI status codes, the fault monad in which the
    C functions are written, byte memory and little-endian fields. *)
From stdpp Require Import base list numbers list_numbers option.
From Stdlib Require Import ZArith Lia.

Declare Scope efi_scope.
Open Scope Z_scope.

(** [lia] with Euclidean division; used for offset arithmetic. *)
Ltac zlia := Z.div_mod_to_equations; lia.

(** ** Unsigned machine integers

    A [UINTw] is a [Z] in [0, 2^w); every C operation that can leave the range
    is followed by the wrap-around of its type. *)
Definition u8 (z : Z) : Z := z mod 2 ^ 8.
Definition u16 (z : Z) : Z := z mod 2 ^ 16.
Definition u32 (z : Z) : Z := z mod 2 ^ 32.
Definition u64 (z : Z) : Z := z mod 2 ^ 64.

Lemma u32_small z : 0 <= z < 2 ^ 32 -> u32 z = z.
Proof. apply Z.mod_small. Qed.

Lemma u32_range z : 0 <= u32 z < 2 ^ 32.
Proof. apply Z.mod_pos_bound. lia. Qed.

(** ** Status codes

    [EFI_ENCODED code] is the error with a number that has no name here. *)
Inductive EFI_STATUS : Type :=
  | EFI_SUCCESS
  | EFI_INVALID_PARAMETER
  | EFI_UNSUPPORTED
  | EFI_BAD_BUFFER_SIZE
  | EFI_BUFFER_TOO_SMALL
  | EFI_NOT_READY
  | EFI_OUT_OF_RESOURCES
  | EFI_NOT_FOUND
  | EFI_ALREADY_STARTED
  | EFI_COMPROMISED_DATA
  | EFI_END_OF_FILE
  | EFI_DEVICE_ERROR
  | EFI_PROTOCOL_ERROR
  | EFI_WRITE_PROTECTED
  | EFI_SECURITY_VIOLATION
  | EFI_NO_MAPPING
  | EFI_ENCODED (code : Z)
  | EFI_RING_CORRUPT_ERROR
  | EFI_RING_NEWLY_EMPTY
  | EFI_RING_SIGNAL_OPPOSITE_ENDPOINT.

#[export] Instance EFI_STATUS_eq_dec : EqDecision EFI_STATUS.
Proof. solve_decision. Defined.

(** Warnings (encoded with [ENCODE_WARNING]) are not errors. *)
Definition EFI_ERROR (s : EFI_STATUS) : bool :=
  match s with
  | EFI_SUCCESS | EFI_RING_NEWLY_EMPTY | EFI_RING_SIGNAL_OPPOSITE_ENDPOINT => false
  | _ => true
  end.

(** ** Faults

    A C function either returns or hits a fault: an access outside an object,
    a null dereference, an access to or a second release of a released object,
    or a failed [ASSERT] in a build that has them.  [FailFast] is the deliberate
    crash of [FAIL_FAST_UNEXPECTED_HOST_BEHAVIOR].  A loop that has not ended
    within the bound its model gives it is [Diverges]; the theorems show that
    the bound is never reached, so [Ok] is termination. *)
Inductive fault : Type :=
  OutOfBounds | NullDeref | UseAfterFree | DoubleFree | AssertFailed | FailFast | Diverges.

Inductive result (A : Type) : Type :=
  | Ok (a : A)
  | Fault (f : fault).
Arguments Ok {A} _.
Arguments Fault {A} _.

#[export] Instance result_ret : MRet result := fun A a => Ok a.
#[export] Instance result_bind : MBind result := fun A B k m =>
  match m with Ok a => k a | Fault f => Fault f end.

(** Build options: whether [ASSERT] is compiled in, and whether [DEBUG_CODE]
    blocks are. *)
Class BuildOptions := {
  asserts_enabled : bool;
  debug_code_enabled : bool
}.

Definition release_build : BuildOptions := {| asserts_enabled := false; debug_code_enabled := false |}.
Definition debug_build : BuildOptions := {| asserts_enabled := true; debug_code_enabled := true |}.

Definition ASSERT `{BuildOptions} (c : bool) : result unit :=
  if asserts_enabled && negb c then Fault AssertFailed else Ok tt.

Lemma ASSERT_true `{BuildOptions} : ASSERT true = Ok tt.
Proof. unfold ASSERT. by rewrite andb_false_r. Qed.

Lemma ASSERT_holds `{BuildOptions} c : c = true -> ASSERT c = Ok tt.
Proof. intros ->. apply ASSERT_true. Qed.

(** Sequencing of a computation known to return. *)
Lemma bind_Ok {A B} (a : A) (k : A -> result B) : (Ok a ≫= k) = k a.
Proof. done. Qed.

Create Rewrite HintDb efi.
#[export] Hint Rewrite @ASSERT_true @bind_Ok : efi.

(** ** Byte memory *)
Definition is_byte (z : Z) : Prop := 0 <= z < 256.
Definition Zlength {A} (l : list A) : Z := Z.of_nat (length l).

(** [l[off .. off+n)] for offsets known to be in range. *)
Definition zslice {A} (off n : Z) (l : list A) : list A :=
  take (Z.to_nat n) (drop (Z.to_nat off) l).

Definition in_bounds {A} (m : list A) (off n : Z) : bool :=
  (0 <=? off) && (0 <=? n) && (off + n <=? Zlength m).

Definition mem_read (m : list Z) (off n : Z) : result (list Z) :=
  if in_bounds m off n then Ok (zslice off n m) else Fault OutOfBounds.

Definition mem_write (m : list Z) (off : Z) (bs : list Z) : result (list Z) :=
  if in_bounds m off (Zlength bs)
  then Ok (take (Z.to_nat off) m ++ bs ++ drop (Z.to_nat (off + Zlength bs)) m)
  else Fault OutOfBounds.

(** [CopyMem (dst + doff, src + soff, n)]: the updated destination. *)
Definition CopyMem (dst : list Z) (doff : Z) (src : list Z) (soff n : Z) : result (list Z) :=
  bs ← mem_read src soff n; mem_write dst doff bs.

(** [SetMem (dst + doff, n, v)]. *)
Definition SetMem (dst : list Z) (doff n v : Z) : result (list Z) :=
  mem_write dst doff (replicate (Z.to_nat n) v).

(** ** Little-endian fields *)
Fixpoint le_split (n : nat) (v : Z) : list Z :=
  match n with
  | O => []
  | S n => v mod 256 :: le_split n (v / 256)
  end.

Fixpoint le_combine (bs : list Z) : Z :=
  match bs with
  | [] => 0
  | b :: bs => b + 256 * le_combine bs
  end.

Lemma length_le_split n v : length (le_split n v) = n.
Proof. revert v; induction n; intros; simpl; auto. Qed.

Lemma Zlength_le_split n v : Zlength (le_split n v) = Z.of_nat n.
Proof. unfold Zlength. by rewrite length_le_split. Qed.

Lemma le_combine_split n v : le_combine (le_split n v) = v mod 256 ^ Z.of_nat n.
Proof.
  revert v; induction n as [|n IH]; intros v; cbn [le_split le_combine].
  - by rewrite Z.mod_1_r.
  - rewrite IH, Nat2Z.inj_succ, Z.pow_succ_r by lia.
    rewrite Z.rem_mul_r by lia. lia.
Qed.

Lemma le_combine_split_small n v :
  0 <= v < 256 ^ Z.of_nat n -> le_combine (le_split n v) = v.
Proof. intros. rewrite le_combine_split. by apply Z.mod_small. Qed.

Lemma le_split_combine bs :
  Forall is_byte bs -> le_split (length bs) (le_combine bs) = bs.
Proof.
  unfold is_byte. induction 1 as [|b bs Hb Hbs IH]; cbn [length le_split le_combine]; [done|].
  rewrite (Z.mul_comm 256), Z.mod_add, Z.div_add by lia.
  rewrite Z.mod_small, Z.div_small, Z.add_0_l by lia. by rewrite IH.
Qed.

Lemma le_combine_bound bs :
  Forall is_byte bs -> 0 <= le_combine bs < 256 ^ Zlength bs.
Proof.
  unfold is_byte, Zlength. induction 1 as [|b bs Hb Hbs IH]; cbn [length le_combine]; [lia|].
  rewrite Nat2Z.inj_succ, Z.pow_succ_r by lia. nia.
Qed.

Lemma le_split_bytes n v : Forall is_byte (le_split n v).
Proof.
  revert v; induction n; intros v; simpl; constructor; auto.
  apply Z.mod_pos_bound. lia.
Qed.

(** Combining disjoint bit fields is addition. *)
Lemma lor_field_add n i k : 0 <= n -> 0 <= i < 2 ^ n -> Z.lor i (k * 2 ^ n) = i + k * 2 ^ n.
Proof.
  intros Hn Hi. assert (E : Z.land i (k * 2 ^ n) = 0).
  { apply Z.bits_inj'. intros j Hj. rewrite Z.land_spec, Z.bits_0, <- Z.shiftl_mul_pow2 by lia.
    destruct (Z.lt_ge_cases j n).
    - rewrite Z.shiftl_spec_low by lia. apply andb_false_r.
    - rewrite <- (Z.mod_small i (2 ^ n)), Z.mod_pow2_bits_high by lia. done. }
  rewrite <- Z.lxor_lor, <- Z.add_nocarry_lxor by done. done.
Qed.

Lemma land_low_mask n x : 0 <= n -> Z.land x (Z.ones n) = x mod 2 ^ n.
Proof. apply Z.land_ones. Qed.
