(* ===== verification/Circular.v ===== *)
(** Circular buffers: a byte array indexed modulo its length.  The two ring
    buffers of the firmware copy in at most two chunks, one up to the end of
    the array and one from its start; the lemmas here describe such copies
    pointwise, in unbounded (not yet reduced) positions. *)
From stdpp Require Import base list numbers list_numbers option.
From Stdlib Require Import ZArith Lia.
From S2P Require Import Prelude.
Open Scope Z_scope.

(** Total lookup at a [Z] index, and at a position modulo the length. *)
Definition zget (m : list Z) (j : Z) : Z := m !!! Z.to_nat j.
Definition cget (m : list Z) (i : Z) : Z := zget m (i mod Zlength m).
Definition cread (m : list Z) (pos n : Z) : list Z := (fun i => cget m (pos + i)) <$> seqZ 0 n.

Section ListFacts.
Context {A : Type}.
Implicit Types l : list A.

Lemma Zlength_nonneg l : 0 <= Zlength l.
Proof. unfold Zlength. lia. Qed.

Lemma Zlength_app l1 l2 : Zlength (l1 ++ l2) = Zlength l1 + Zlength l2.
Proof. unfold Zlength. rewrite length_app. lia. Qed.

Lemma Zlength_take n l : 0 <= n <= Zlength l -> Zlength (take (Z.to_nat n) l) = n.
Proof. unfold Zlength. intros. rewrite length_take. lia. Qed.

Lemma Zlength_drop n l : 0 <= n <= Zlength l -> Zlength (drop (Z.to_nat n) l) = Zlength l - n.
Proof. unfold Zlength. intros. rewrite length_drop. lia. Qed.

Lemma Zlength_replicate (x : A) n : 0 <= n -> Zlength (replicate (Z.to_nat n) x) = n.
Proof. unfold Zlength. intros. rewrite length_replicate. lia. Qed.

Lemma Zlength_zslice off n l :
  0 <= off -> 0 <= n -> off + n <= Zlength l -> Zlength (zslice off n l) = n.
Proof. unfold zslice, Zlength. intros. rewrite length_take, length_drop. lia. Qed.

Lemma in_bounds_true l off n :
  0 <= off -> 0 <= n -> off + n <= Zlength l -> in_bounds l off n = true.
Proof.
  intros. unfold in_bounds. rewrite !andb_true_iff, !Z.leb_le. auto.
Qed.

Lemma in_bounds_iff l off n :
  in_bounds l off n = true <-> 0 <= off /\ 0 <= n /\ off + n <= Zlength l.
Proof. unfold in_bounds. rewrite !andb_true_iff, !Z.leb_le. tauto. Qed.
End ListFacts.

(** ** Pointwise view of byte lists *)
Lemma zget_ext (l1 l2 : list Z) :
  Zlength l1 = Zlength l2 ->
  (forall i, 0 <= i < Zlength l1 -> zget l1 i = zget l2 i) -> l1 = l2.
Proof.
  unfold Zlength, zget. intros Hlen Hi. apply list_eq_same_length with (length l1); [lia..|].
  intros i x y Hlt Hx Hy. specialize (Hi (Z.of_nat i) ltac:(lia)).
  rewrite Nat2Z.id in Hi.
  erewrite !list_lookup_total_correct in Hi by eassumption. done.
Qed.

Lemma zget_app_l l1 l2 i : 0 <= i < Zlength l1 -> zget (l1 ++ l2) i = zget l1 i.
Proof. unfold zget, Zlength. intros. apply lookup_total_app_l. lia. Qed.

Lemma zget_app_r l1 l2 i :
  Zlength l1 <= i -> zget (l1 ++ l2) i = zget l2 (i - Zlength l1).
Proof.
  unfold zget, Zlength. intros. rewrite lookup_total_app_r by lia. f_equal. lia.
Qed.

Lemma zget_take l n i : 0 <= i < n -> zget (take (Z.to_nat n) l) i = zget l i.
Proof. unfold zget. intros. apply lookup_total_take_lt. lia. Qed.

Lemma zget_drop l n i : 0 <= n -> 0 <= i -> zget (drop (Z.to_nat n) l) i = zget l (n + i).
Proof. unfold zget. intros. rewrite lookup_total_drop. f_equal. lia. Qed.

Lemma zget_zslice l off n i :
  0 <= off -> 0 <= i < n -> zget (zslice off n l) i = zget l (off + i).
Proof. intros. unfold zslice. rewrite zget_take, zget_drop by lia. done. Qed.

Lemma zget_replicate v n i : 0 <= i < n -> zget (replicate (Z.to_nat n) v) i = v.
Proof. intros. unfold zget. apply lookup_total_replicate_2. lia. Qed.

Lemma Zlength_cread m pos n : 0 <= n -> Zlength (cread m pos n) = n.
Proof. unfold cread, Zlength. intros. rewrite length_fmap, length_seqZ. lia. Qed.

Lemma zget_cread m pos n i : 0 <= i < n -> zget (cread m pos n) i = cget m (pos + i).
Proof.
  intros. unfold zget, cread. apply list_lookup_total_correct.
  rewrite list_lookup_fmap, (proj2 (lookup_seqZ 0 n (Z.to_nat i) i)) by lia. done.
Qed.

Lemma cread_ext m m' pos pos' n :
  (forall i, 0 <= i < n -> cget m (pos + i) = cget m' (pos' + i)) ->
  cread m pos n = cread m' pos' n.
Proof.
  intros Hi. unfold cread. apply list_fmap_ext. intros k i Hk.
  apply lookup_seqZ in Hk as [-> ?]. apply Hi. lia.
Qed.

Lemma cread_app m pos n1 n2 :
  0 <= n1 -> 0 <= n2 -> cread m pos (n1 + n2) = cread m pos n1 ++ cread m (pos + n1) n2.
Proof.
  intros. unfold cread. rewrite seqZ_app, fmap_app by done. f_equal.
  replace (seqZ (0 + n1) n2) with (Z.add n1 <$> seqZ 0 n2) by (rewrite fmap_add_seqZ; f_equal; lia).
  rewrite <- list_fmap_compose. apply list_fmap_ext.
  intros k i _. unfold compose. f_equal. lia.
Qed.

Lemma cread_0 m pos : cread m pos 0 = [].
Proof. done. Qed.

Lemma cget_mod m i : cget m (i mod Zlength m) = cget m i.
Proof.
  unfold cget. destruct (decide (Zlength m = 0)) as [->|].
  - by rewrite !Z.mod_0_r.
  - by rewrite Z.mod_mod.
Qed.

Lemma cget_mod_add m i j : cget m (i mod Zlength m + j) = cget m (i + j).
Proof.
  unfold cget. f_equal. apply Zplus_mod_idemp_l.
Qed.

Lemma cread_mod m pos n : cread m (pos mod Zlength m) n = cread m pos n.
Proof. apply cread_ext. intros. apply cget_mod_add. Qed.

Lemma cget_small m i : 0 <= i < Zlength m -> cget m i = zget m i.
Proof. intros. unfold cget. by rewrite Z.mod_small. Qed.

(** Reading a contiguous region. *)
Lemma zslice_cread m off n :
  0 <= off -> 0 <= n -> off + n <= Zlength m -> zslice off n m = cread m off n.
Proof.
  intros. apply zget_ext; rewrite Zlength_zslice by lia; [by rewrite Zlength_cread|].
  intros i Hi. rewrite zget_zslice, zget_cread, cget_small by lia. done.
Qed.

Lemma mem_read_cread m off n :
  0 <= off -> 0 <= n -> off + n <= Zlength m -> mem_read m off n = Ok (cread m off n).
Proof.
  intros. unfold mem_read. rewrite in_bounds_true by done. by rewrite zslice_cread.
Qed.

Lemma cread_full m : cread m 0 (Zlength m) = m.
Proof.
  apply zget_ext; rewrite Zlength_cread by apply Zlength_nonneg; [done|].
  intros i Hi. rewrite zget_cread, cget_small by lia. done.
Qed.

(** Writing a contiguous region. *)
Lemma mem_write_zget m off bs :
  0 <= off -> off + Zlength bs <= Zlength m ->
  exists m', mem_write m off bs = Ok m' /\ Zlength m' = Zlength m /\
    forall j, 0 <= j < Zlength m ->
      zget m' j = if (off <=? j) && (j <? off + Zlength bs) then zget bs (j - off) else zget m j.
Proof.
  intros Ho Hb. pose proof (Zlength_nonneg bs).
  unfold mem_write. rewrite in_bounds_true by lia. eexists. split; [done|]. split.
  { rewrite !Zlength_app, Zlength_take, Zlength_drop by lia. lia. }
  intros j Hj.
  destruct (Z.leb_spec off j); destruct (Z.ltb_spec j (off + Zlength bs)); simpl.
  - rewrite zget_app_r; rewrite Zlength_take by lia; [|lia]. by rewrite zget_app_l by lia.
  - rewrite zget_app_r; rewrite Zlength_take by lia; [|lia].
    rewrite zget_app_r, zget_drop by lia. f_equal. lia.
  - rewrite zget_app_l, zget_take by (rewrite ?Zlength_take; lia). done.
  - lia.
Qed.

(** [m'] is [m] with the bytes [bs] stored from position [pos] on, modulo the
    length. *)
Definition cwritten (m m' : list Z) (pos : Z) (bs : list Z) : Prop :=
  Zlength m' = Zlength m /\
  forall i, cget m' (pos + i) =
    if i mod Zlength m <? Zlength bs then zget bs (i mod Zlength m) else cget m (pos + i).

Lemma cwritten_contiguous m off bs :
  0 <= off -> off + Zlength bs <= Zlength m -> 0 < Zlength m ->
  exists m', mem_write m off bs = Ok m' /\ cwritten m m' off bs.
Proof.
  intros Ho Hb HN. destruct (mem_write_zget m off bs) as (m' & Hw & Hlen & Hget); [done..|].
  pose proof (Zlength_nonneg bs).
  exists m'. split; [done|]. split; [done|]. intros i.
  unfold cget. rewrite Hlen. set (N := Zlength m) in *.
  rewrite Hget by (apply Z.mod_pos_bound; lia).
  assert (HM : i mod N = ((off + i) mod N - off) mod N) by (rewrite Zminus_mod_idemp_l; f_equal; lia).
  pose proof (Z.mod_pos_bound (off + i) N HN).
  rewrite HM. set (j := (off + i) mod N) in *.
  destruct (Z.leb_spec off j); destruct (Z.ltb_spec j (off + Zlength bs)); simpl.
  - rewrite Z.mod_small by lia. by rewrite (proj2 (Z.ltb_lt _ _)) by lia.
  - rewrite Z.mod_small by lia. by rewrite (proj2 (Z.ltb_ge _ _)) by lia.
  - replace ((j - off) mod N) with (j - off + N)
      by (apply Z.mod_unique_pos with (-1); lia).
    by rewrite (proj2 (Z.ltb_ge _ _)) by lia.
  - lia.
Qed.

(** The same position written modulo the length. *)
Lemma cwritten_mod m m' pos bs :
  cwritten m m' (pos mod Zlength m) bs <-> cwritten m m' pos bs.
Proof.
  unfold cwritten. split; intros [Hl Hg]; (split; [done|]); intros i; specialize (Hg i).
  - rewrite cget_mod_add in Hg. rewrite <- Hl in Hg at 1. rewrite cget_mod_add in Hg. done.
  - rewrite cget_mod_add. rewrite <- Hl at 1. rewrite cget_mod_add. done.
Qed.

Lemma cwritten_nil m pos : cwritten m m pos [].
Proof.
  split; [done|]. intros i. destruct (Z.ltb_spec (i mod Zlength m) (Zlength (@nil Z))) as [H|H]; [|done].
  unfold Zlength in H at 2. simpl in H.
  destruct (decide (Zlength m = 0)) as [E|E].
  - destruct m; [|unfold Zlength in E; simpl in E; lia].
    unfold cget, zget. destruct (Z.to_nat _), (Z.to_nat _); done.
  - pose proof (Zlength_nonneg m). pose proof (Z.mod_pos_bound i (Zlength m)). lia.
Qed.

(** Two adjacent writes whose total fits are one write. *)
Lemma cwritten_app m m1 m2 pos bs1 bs2 :
  0 < Zlength m -> Zlength bs1 + Zlength bs2 <= Zlength m ->
  cwritten m m1 pos bs1 -> cwritten m1 m2 (pos + Zlength bs1) bs2 ->
  cwritten m m2 pos (bs1 ++ bs2).
Proof.
  intros HN Hfit [Hl1 Hg1] [Hl2 Hg2]. split; [congruence|]. intros i.
  specialize (Hg1 i). specialize (Hg2 (i - Zlength bs1)).
  replace (pos + Zlength bs1 + (i - Zlength bs1)) with (pos + i) in Hg2 by lia.
  rewrite Hg2, Hg1. rewrite Hl1. rewrite Zlength_app.
  pose proof (Zlength_nonneg bs1). pose proof (Zlength_nonneg bs2).
  set (N := Zlength m) in *. pose proof (Z.mod_pos_bound i N HN) as Hi.
  assert (E : (i - Zlength bs1) mod N = (i mod N - Zlength bs1) mod N) by (by rewrite Zminus_mod_idemp_l).
  rewrite E. set (j := i mod N) in *. clear Hg1 Hg2 E.
  destruct (Z.ltb_spec j (Zlength bs1)) as [Hlt|Hge].
  - rewrite (proj2 (Z.ltb_lt j _)) by lia. rewrite zget_app_l by lia.
    destruct (decide (Zlength bs1 = 0)); [lia|].
    replace ((j - Zlength bs1) mod N) with (j - Zlength bs1 + N)
      by (apply Z.mod_unique_pos with (-1); lia).
    by rewrite (proj2 (Z.ltb_ge _ _)) by lia.
  - rewrite Z.mod_small by lia.
    destruct (Z.ltb_spec (j - Zlength bs1) (Zlength bs2)).
    + rewrite (proj2 (Z.ltb_lt j _)) by lia. rewrite zget_app_r by lia. done.
    + by rewrite (proj2 (Z.ltb_ge j _)) by lia.
Qed.

(** Reading back what was written, and reading elsewhere. *)
Lemma cread_cwritten m m' pos bs :
  Zlength bs <= Zlength m -> cwritten m m' pos bs -> cread m' pos (Zlength bs) = bs.
Proof.
  intros Hfit [Hl Hg]. apply zget_ext; rewrite Zlength_cread by apply Zlength_nonneg; [done|].
  intros i Hi. rewrite zget_cread by done. rewrite Hg, Z.mod_small by lia.
  by rewrite (proj2 (Z.ltb_lt _ _)) by lia.
Qed.

(** Inside one window [base, base + N) of positions, a read that does not meet
    the written range is unchanged. *)
Lemma cread_cwritten_ne base m m' pos bs p n :
  cwritten m m' pos bs ->
  base <= p -> p + n <= base + Zlength m ->
  base <= pos -> pos + Zlength bs <= base + Zlength m ->
  p + n <= pos \/ pos + Zlength bs <= p ->
  cread m' p n = cread m p n.
Proof.
  intros [Hl Hg] ? ? ? ? Hd. pose proof (Zlength_nonneg bs). apply cread_ext. intros i Hi.
  specialize (Hg (p + i - pos)). replace (pos + (p + i - pos)) with (p + i) in Hg by lia.
  rewrite Hg. set (N := Zlength m) in *. destruct Hd.
  - replace ((p + i - pos) mod N) with (p + i - pos + N)
      by (apply Z.mod_unique_pos with (-1); lia).
    by rewrite (proj2 (Z.ltb_ge _ _)) by lia.
  - rewrite Z.mod_small by lia. by rewrite (proj2 (Z.ltb_ge _ _)) by lia.
Qed.

(** A two-chunk copy out: up to the end, then from the start. *)
Lemma cread_two_chunks m off n :
  0 <= off < Zlength m -> 0 <= n <= Zlength m ->
  cread m off n =
    cread m off (Z.min (Zlength m - off) n) ++ cread m 0 (n - Z.min (Zlength m - off) n).
Proof.
  intros. destruct (Z.le_gt_cases n (Zlength m - off)).
  - rewrite Z.min_r by lia. rewrite Z.sub_diag, cread_0, app_nil_r. done.
  - rewrite Z.min_l by lia.
    replace n with ((Zlength m - off) + (n - (Zlength m - off))) at 1 by lia.
    rewrite cread_app by lia. f_equal.
    rewrite <- (cread_mod m (off + _)). f_equal.
    replace (off + (Zlength m - off)) with (Zlength m) by lia. apply Z_mod_same_full.
Qed.

(** A two-chunk copy in. *)
Lemma cwritten_two_chunks m m1 m2 off bs1 bs2 :
  0 <= off < Zlength m -> Zlength bs1 + Zlength bs2 <= Zlength m ->
  off + Zlength bs1 = Zlength m ->
  cwritten m m1 off bs1 -> cwritten m1 m2 0 bs2 -> cwritten m m2 off (bs1 ++ bs2).
Proof.
  intros Ho Hf He H1 H2. eapply cwritten_app; [lia|done|done|].
  apply cwritten_mod. destruct H1 as [Hl _]. rewrite Hl, He, Z_mod_same_full. done.
Qed.

Lemma cread_bytes m pos n : Forall is_byte m -> 0 < Zlength m -> Forall is_byte (cread m pos n).
Proof.
  intros Hm HN. unfold cread. apply Forall_fmap, Forall_true. intros i. unfold compose.
  rewrite Forall_lookup_total in Hm. apply Hm.
  pose proof (Z.mod_pos_bound (pos + i) (Zlength m) HN). unfold Zlength in *. lia.
Qed.

(** Reads and copies in bounds. *)
Lemma read_run b off n : 0 <= off -> 0 <= n -> off + n <= Zlength b -> mem_read b off n = Ok (zslice off n b).
Proof. intros. unfold mem_read. by rewrite in_bounds_true by lia. Qed.

Lemma CopyMem_ok dst doff src soff n : 0 <= doff -> 0 <= n -> doff + n <= Zlength dst -> 0 <= soff -> soff + n <= Zlength src ->
  CopyMem dst doff src soff n = Ok (take (Z.to_nat doff) dst ++ zslice soff n src ++ drop (Z.to_nat (doff + n)) dst).
Proof.
  intros. unfold CopyMem, mem_read. rewrite in_bounds_true, bind_Ok by lia. unfold mem_write.
  rewrite Zlength_zslice, in_bounds_true by lia. done.
Qed.
