(* ===== verification/Heap.v ===== *)
(** Addresses held by a heap: the keys of a map from addresses, and the
    addresses of structures together with those of the memory they own. *)
From stdpp Require Import base list numbers list_numbers option gmap fin_map_dom.
From Stdlib Require Import ZArith Lia.
Open Scope Z_scope.

(** ** Keys of maps as lists *)
Definition keys {A} (m : gmap Z A) : list Z := (map_to_list m).*1.

Lemma in_keys {A} (m : gmap Z A) p : p ∈ keys m <-> is_Some (m !! p).
Proof.
  unfold keys. rewrite list_elem_of_fmap. split.
  - intros ([k x] & -> & Hin). apply elem_of_map_to_list in Hin. by exists x.
  - intros [x E]. exists (p, x). split; [done|]. by apply elem_of_map_to_list.
Qed.

Lemma NoDup_keys {A} (m : gmap Z A) : NoDup (keys m).
Proof. apply NoDup_fst_map_to_list. Qed.

Lemma keys_insert {A} (m : gmap Z A) p x : m !! p = None -> keys (<[p := x]> m) ≡ₚ p :: keys m.
Proof. intros E. unfold keys. by rewrite map_to_list_insert. Qed.

Lemma keys_update {A} (m : gmap Z A) p x : is_Some (m !! p) -> keys (<[p := x]> m) ≡ₚ keys m.
Proof.
  intros [y E]. apply NoDup_Permutation; [apply NoDup_keys..|]. intros q. rewrite !in_keys.
  destruct (decide (q = p)) as [->|]; [rewrite lookup_insert_eq, E; split; eauto|by rewrite lookup_insert_ne].
Qed.

Lemma keys_delete {A} (m : gmap Z A) p : is_Some (m !! p) -> keys m ≡ₚ p :: keys (delete p m).
Proof.
  intros [x E]. rewrite <- (keys_insert (delete p m) p x) by apply lookup_delete_eq. by rewrite insert_delete_id.
Qed.

(** ** Structures and the memory they own *)
Definition pointers {A} (f : A -> list Z) (m : gmap Z A) : list Z := map_to_list m ≫= (fun y => y.1 :: f y.2).

Lemma pointers_insert {A} (f : A -> list Z) (m : gmap Z A) p x : m !! p = None -> pointers f (<[p := x]> m) ≡ₚ p :: f x ++ pointers f m.
Proof. intros E. unfold pointers. by rewrite map_to_list_insert. Qed.

Lemma pointers_delete {A} (f : A -> list Z) (m : gmap Z A) p x : m !! p = Some x -> pointers f m ≡ₚ p :: f x ++ pointers f (delete p m).
Proof. intros E. rewrite <- (pointers_insert f (delete p m) p x) by apply lookup_delete_eq. by rewrite insert_delete_id. Qed.

Lemma pointers_update {A} (f : A -> list Z) (m : gmap Z A) p x y : m !! p = Some x -> f y = f x -> pointers f (<[p := y]> m) ≡ₚ pointers f m.
Proof.
  intros E Hf. rewrite (pointers_delete f m p x E), <- Hf, <- (pointers_insert f (delete p m) p y) by apply lookup_delete_eq.
  by rewrite insert_delete_eq.
Qed.

Lemma in_pointers {A} (f : A -> list Z) (m : gmap Z A) q : q ∈ pointers f m <-> is_Some (m !! q) \/ exists p x, m !! p = Some x /\ q ∈ f x.
Proof.
  unfold pointers. rewrite list_elem_of_bind. split.
  - intros ([p x] & Hq & Hin). apply elem_of_map_to_list in Hin. cbn in Hq. apply elem_of_cons in Hq as [->|Hq]; [left; eauto|right; eauto].
  - intros [[x E]|(p & x & E & Hq)]; [exists (q, x)|exists (p, x)]; rewrite elem_of_map_to_list; cbn; rewrite elem_of_cons; auto.
Qed.
