(* ===== verification/EfiRing.v ===== *)
(** The event ring: [MsvmPkg/EventLogDxe/EfiRing.c] and [EfiRing.h].

    A ring of variable-length records, each a 32-bit size followed by the
    caller's data, addressed by handles that carry a key in their upper half.
    Every function of the file is modelled; a [RING_RECORD *] is the offset of
    the record in [Buffer], an optional out-parameter is always produced. *)
From stdpp Require Import base list numbers list_numbers option.
From Stdlib Require Import ZArith Lia.
From S2P Require Import Prelude.
Open Scope Z_scope.

Module EfiRing.

Record RING_BUFFER_STATS := mkStats { LostWrites : Z; Reserve : Z; Remove : Z }.

Record EFI_RING_BUFFER := mkRing {
  Size : Z; Mask : Z; Head : Z; Tail : Z; Flags : Z;
  Stats : RING_BUFFER_STATS; HandleKey : Z; Buffer : list Z }.

Inductive RING_IO_OPERATION := DataRead | DataWrite.

Definition INVALID_RING_HANDLE : Z := 2 ^ 64 - 1.
Definition RING_BUFFER_OVERWRITE : Z := 0x00000001.
Definition RING_REMOVED_SIGNATURE : Z := 0x52.
Definition RING_REMOVED_SIZE : Z := 0xFFFFFFFF.
Definition sizeof_RING_RECORD : Z := 4.

Definition RING_HANDLE_GET_OFFSET (h : Z) : Z := Z.land h 0xFFFFFFFF.
Definition RING_HANDLE_GET_KEY (h : Z) : Z := Z.shiftr h 32.
Definition RING_HANDLE_SET_KEY (off key : Z) : Z := Z.lor off (Z.shiftl key 32).

(** Field updates. *)
Definition set_Head (r : EFI_RING_BUFFER) (v : Z) : EFI_RING_BUFFER :=
  mkRing (Size r) (Mask r) v (Tail r) (Flags r) (Stats r) (HandleKey r) (Buffer r).
Definition set_Tail (r : EFI_RING_BUFFER) (v : Z) : EFI_RING_BUFFER :=
  mkRing (Size r) (Mask r) (Head r) v (Flags r) (Stats r) (HandleKey r) (Buffer r).
Definition set_HandleKey (r : EFI_RING_BUFFER) (v : Z) : EFI_RING_BUFFER :=
  mkRing (Size r) (Mask r) (Head r) (Tail r) (Flags r) (Stats r) v (Buffer r).
Definition set_Buffer (r : EFI_RING_BUFFER) (v : list Z) : EFI_RING_BUFFER :=
  mkRing (Size r) (Mask r) (Head r) (Tail r) (Flags r) (Stats r) (HandleKey r) v.
Definition set_Stats (r : EFI_RING_BUFFER) (v : RING_BUFFER_STATS) : EFI_RING_BUFFER :=
  mkRing (Size r) (Mask r) (Head r) (Tail r) (Flags r) v (HandleKey r) (Buffer r).
Definition bump_lost (s : RING_BUFFER_STATS) : RING_BUFFER_STATS :=
  mkStats (u32 (LostWrites s + 1)) (Reserve s) (Remove s).
Definition lost_write (r : EFI_RING_BUFFER) : EFI_RING_BUFFER := set_Stats r (bump_lost (Stats r)).
Definition count_reserve (r : EFI_RING_BUFFER) : EFI_RING_BUFFER :=
  set_Stats r (mkStats (LostWrites (Stats r)) (u32 (Reserve (Stats r) + 1)) (Remove (Stats r))).

Section Functions.
Context {B : BuildOptions}.
Implicit Types r : EFI_RING_BUFFER.

Definition RingBufferCurrentKey r : Z * EFI_RING_BUFFER :=
  let r := if HandleKey r =? 0 then set_HandleKey r 1 else r in
  (HandleKey r, r).

Definition RingBufferBytesFree r : Z :=
  let bytesFree := u32 (Tail r - Head r - 1) in
  if bytesFree <? Size r then bytesFree else u32 (Size r + bytesFree).

Definition RingBufferWrapIfNeeded r (Offset BytesRequired : Z) : result Z :=
  _ ← ASSERT (Offset <? Size r);
  Ok (if u32 (Size r - Offset) <? BytesRequired then 0 else Offset).

Definition RingBufferIsValidOffset r (Offset : Z) : EFI_STATUS :=
  if (Size r <? Offset) || ((Head r <=? Offset) && (Offset <? Tail r))
  then EFI_INVALID_PARAMETER else EFI_SUCCESS.

(** [header->Size] for the record whose header is at [off]. *)
Definition record_Size r (off : Z) : result Z :=
  bs ← mem_read (Buffer r) off sizeof_RING_RECORD; Ok (le_combine bs).

Definition set_record_Size r (off v : Z) : result EFI_RING_BUFFER :=
  b ← mem_write (Buffer r) off (le_split 4 v); Ok (set_Buffer r b).

(** Status, the adjusted offset, and the record found. *)
Definition RingBufferRecordAt r (Offset : Z) : result (EFI_STATUS * Z * option Z) :=
  let status := RingBufferIsValidOffset r Offset in
  if EFI_ERROR status then
    _ ← ASSERT false; Ok (status, Offset, None)
  else if Head r =? Tail r then
    Ok (EFI_NOT_FOUND, Offset, None)
  else
    Offset ← RingBufferWrapIfNeeded r Offset sizeof_RING_RECORD;
    size ← record_Size r Offset;
    if (u32 (Size r - 1) <? size) || (size <? sizeof_RING_RECORD) then
      _ ← ASSERT false; Ok (EFI_INVALID_PARAMETER, Offset, None)
    else
      let newOffset := Z.land (u32 (Offset + size)) (Mask r) in
      if (newOffset <=? Offset) && (Head r <? newOffset) then
        _ ← ASSERT false; Ok (EFI_INVALID_PARAMETER, Offset, None)
      else Ok (EFI_SUCCESS, Offset, Some Offset).

Definition RingBufferFillDataAt r (Offset Value DataSize : Z) : result (Z * EFI_RING_BUFFER) :=
  _ ← ASSERT (Offset <? Size r);
  _ ← ASSERT (DataSize <? Size r);
  let chunkSize := Z.min (u32 (Size r - Offset)) DataSize in
  b ← (if 0 <? chunkSize then SetMem (Buffer r) Offset chunkSize Value else Ok (Buffer r));
  let bytesToCopy := if 0 <? chunkSize then DataSize - chunkSize else DataSize in
  b ← (if 0 <? bytesToCopy then SetMem b 0 (Z.min (Size r) bytesToCopy) Value else Ok b);
  Ok (Z.land (u32 (Offset + DataSize)) (Mask r), set_Buffer r b).

(** [Data] is the caller's object; [src] moves through it. *)
Definition RingBufferWriteDataAt r (Offset : Z) (Data : list Z) (DataSize : Z)
  : result (Z * EFI_RING_BUFFER) :=
  _ ← ASSERT (Offset <? Size r);
  _ ← ASSERT (DataSize <? Size r);
  let chunkSize := Z.min (u32 (Size r - Offset)) DataSize in
  b ← (if 0 <? chunkSize then CopyMem (Buffer r) Offset Data 0 chunkSize else Ok (Buffer r));
  let bytesToCopy := if 0 <? chunkSize then DataSize - chunkSize else DataSize in
  let src := if 0 <? chunkSize then chunkSize else 0 in
  b ← (if 0 <? bytesToCopy then CopyMem b 0 Data src (Z.min (Size r) bytesToCopy) else Ok b);
  Ok (Z.land (u32 (Offset + DataSize)) (Mask r), set_Buffer r b).

(** The destination pointer is offset [dst] of the caller's object [Data]. *)
Definition RingBufferReadDataAt r (Offset : Z) (Data : list Z) (dst DataSize : Z)
  : result (Z * list Z) :=
  _ ← ASSERT (DataSize <? Size r);
  let chunkSize := Z.min (u32 (Size r - Offset)) DataSize in
  d ← (if 0 <? chunkSize then CopyMem Data dst (Buffer r) Offset chunkSize else Ok Data);
  let bytesToCopy := if 0 <? chunkSize then DataSize - chunkSize else DataSize in
  let dst := if 0 <? chunkSize then dst + chunkSize else dst in
  d ← (if 0 <? bytesToCopy then
         _ ← ASSERT (bytesToCopy <? Size r);
         CopyMem d dst (Buffer r) 0 (Z.min (Size r) bytesToCopy)
       else Ok d);
  Ok (Z.land (u32 (Offset + DataSize)) (Mask r), d).

(** Status, offset, record, data buffer and data size on return. *)
Definition RingBufferReadRecord r (Offset : Z) (Data : option (list Z)) (DataSize : option Z)
  : result (EFI_STATUS * Z * option Z * option (list Z) * option Z) :=
  '(status, offset, record) ← RingBufferRecordAt r Offset;
  if EFI_ERROR status then
    Ok (status, Offset, record, Data, (fun _ => 0) <$> DataSize)
  else match record with
  | None => Fault NullDeref
  | Some rec =>
    size ← record_Size r rec;
    let dataSize := u32 (size - sizeof_RING_RECORD) in
    match Data with
    | None => Ok (status, offset, record, Data, (fun _ => dataSize) <$> DataSize)
    | Some buf =>
      _ ← ASSERT (bool_decide (is_Some DataSize));
      match DataSize with
      | None => Fault NullDeref
      | Some avail =>
        if avail <? dataSize then
          Ok (EFI_BUFFER_TOO_SMALL, Offset, record, Data, Some dataSize)
        else
          let dataOffset := Z.land (offset + sizeof_RING_RECORD) (Mask r) in
          '(_, buf) ← RingBufferReadDataAt r dataOffset buf 0 dataSize;
          Ok (status, offset, record, Some buf, Some dataSize)
      end
    end
  end.

(** Status, ring, data buffer and data size on return. *)
Definition RingBufferIo r (DataHandle : Z) (Op : RING_IO_OPERATION) (Offset : Z)
    (Data : list Z) (DataSize : Z) : result (EFI_STATUS * EFI_RING_BUFFER * list Z * Z) :=
  let ringOffset := RING_HANDLE_GET_OFFSET DataHandle in
  let byteCount := DataSize in
  if negb (RING_HANDLE_GET_KEY DataHandle =? HandleKey r) then
    Ok (EFI_INVALID_PARAMETER, r, Data, DataSize)
  else
    '(status, ringOffset, record) ← RingBufferRecordAt r ringOffset;
    if EFI_ERROR status then Ok (status, r, Data, DataSize)
    else match record with
    | None => Fault NullDeref
    | Some rec =>
      size ← record_Size r rec;
      let recordDataSize := u32 (size - sizeof_RING_RECORD) in
      if recordDataSize <? Offset then Ok (EFI_INVALID_PARAMETER, r, Data, DataSize)
      else
        let ringOffset := Z.land (ringOffset + sizeof_RING_RECORD + Offset) (Mask r) in
        match Op with
        | DataWrite =>
          if recordDataSize <? u32 (Offset + byteCount) then
            Ok (EFI_BAD_BUFFER_SIZE, r, Data, DataSize)
          else
            '(_, r) ← RingBufferWriteDataAt r ringOffset Data byteCount;
            Ok (EFI_SUCCESS, r, Data, DataSize)
        | DataRead =>
          let byteCount :=
            if recordDataSize <? u32 (Offset + byteCount)
            then recordDataSize - Offset else byteCount in
          '(_, Data) ← RingBufferReadDataAt r ringOffset Data 0 byteCount;
          Ok (EFI_SUCCESS, r, Data, byteCount)
        end
    end.

(** Status, ring, data buffer and data size on return. *)
Definition RingBufferRemove r (Data : option (list Z)) (DataSize : option Z)
  : result (EFI_STATUS * EFI_RING_BUFFER * option (list Z) * option Z) :=
  '(status, offset, record, Data, DataSize) ← RingBufferReadRecord r (Tail r) Data DataSize;
  if EFI_ERROR status then Ok (status, r, Data, DataSize)
  else match record with
  | None => Fault NullDeref
  | Some rec =>
    let key := u32 (HandleKey r + 1) in
    let r := set_HandleKey r (if key =? 0 then 1 else key) in
    size ← record_Size r rec;
    let newTail := Z.land (u32 (offset + size)) (Mask r) in
    '(_, r) ← (if debug_code_enabled
               then RingBufferFillDataAt r offset RING_REMOVED_SIGNATURE size
               else Ok (0, r));
    r ← set_record_Size r rec RING_REMOVED_SIZE;
    Ok (status, set_Tail r newTail, Data, DataSize)
  end.

(** The [while] loop of [RingBufferReserve] that drops the oldest records. *)
Fixpoint reserve_overwrite (fuel : nat) r (totalSize : Z) : result EFI_RING_BUFFER :=
  if RingBufferBytesFree r <? totalSize then
    match fuel with
    | O => Fault Diverges
    | S fuel =>
      '(status, r, _, _) ← RingBufferRemove r None None;
      if EFI_ERROR status then Ok r
      else reserve_overwrite fuel (lost_write r) totalSize
    end
  else Ok r.

(** The part of [RingBufferReserve] after space has been found: write the
    header at [Head] (or at the start of the buffer) and advance [Head]. *)
Definition reserve_commit r (totalSize : Z) : result (EFI_STATUS * EFI_RING_BUFFER * Z) :=
  headerOffset ← RingBufferWrapIfNeeded r (Head r) sizeof_RING_RECORD;
  '(_, r) ← (if debug_code_enabled
             then RingBufferFillDataAt r headerOffset (u8 (HandleKey r)) totalSize
             else Ok (0, r));
  r ← set_record_Size r headerOffset totalSize;
  let r := count_reserve r in
  let r := set_Head r (Z.land (u32 (headerOffset + totalSize)) (Mask r)) in
  let (key, r) := RingBufferCurrentKey r in
  Ok (EFI_SUCCESS, r, RING_HANDLE_SET_KEY headerOffset key).

(** Status, ring and the handle stored through [DataHandle]. *)
Definition RingBufferReserve r (DataSize : Z) : result (EFI_STATUS * EFI_RING_BUFFER * Z) :=
  let totalSize := u32 (DataSize + sizeof_RING_RECORD) in
  if u32 (Size r - 1) <? totalSize then
    Ok (EFI_BAD_BUFFER_SIZE, lost_write r, INVALID_RING_HANDLE)
  else if RingBufferBytesFree r <? totalSize then
    if negb (Z.land (Flags r) RING_BUFFER_OVERWRITE =? 0) then
      r ← reserve_overwrite (Z.to_nat (Size r)) r totalSize;
      reserve_commit r totalSize
    else Ok (EFI_OUT_OF_RESOURCES, lost_write r, INVALID_RING_HANDLE)
  else reserve_commit r totalSize.

Definition RingBufferAdd r (Data : list Z) (DataSize : Z)
  : result (EFI_STATUS * EFI_RING_BUFFER * Z) :=
  '(status, r, handle) ← RingBufferReserve r DataSize;
  if EFI_ERROR status then Ok (status, r, handle)
  else
    let dataOffset := Z.land (RING_HANDLE_GET_OFFSET handle + sizeof_RING_RECORD) (Mask r) in
    '(_, r) ← RingBufferWriteDataAt r dataOffset Data DataSize;
    Ok (EFI_SUCCESS, r, handle).

(** Status, ring, enumerator, item and item size on return. *)
Definition RingBufferHandleEnumerate r (Enumerator : Z)
  : result (EFI_STATUS * EFI_RING_BUFFER * Z * Z * Z) :=
  let go enumOffset :=
    if enumOffset =? Head r then
      Ok (EFI_NOT_FOUND, r, INVALID_RING_HANDLE, INVALID_RING_HANDLE, 0)
    else
      let (currentKey, r) := RingBufferCurrentKey r in
      let itemHandle := RING_HANDLE_SET_KEY enumOffset currentKey in
      '(status, enumOffset, record) ← RingBufferRecordAt r enumOffset;
      if EFI_ERROR status then
        Ok (status, r, INVALID_RING_HANDLE, INVALID_RING_HANDLE, 0)
      else match record with
      | None => Fault NullDeref
      | Some rec =>
        size ← record_Size r rec;
        let enumOffset := Z.land (u32 (enumOffset + size)) (Mask r) in
        Ok (status, r, RING_HANDLE_SET_KEY enumOffset currentKey, itemHandle, size)
      end in
  if Enumerator =? INVALID_RING_HANDLE then go (Tail r)
  else if negb (RING_HANDLE_GET_KEY Enumerator =? HandleKey r) then
    Ok (EFI_INVALID_PARAMETER, r, INVALID_RING_HANDLE, INVALID_RING_HANDLE, 0)
  else go (RING_HANDLE_GET_OFFSET Enumerator).

Definition RingBufferHandleIsValid r (DataHandle : Z) : result EFI_STATUS :=
  let ringOffset := RING_HANDLE_GET_OFFSET DataHandle in
  if negb (RING_HANDLE_GET_KEY DataHandle =? HandleKey r) then Ok EFI_INVALID_PARAMETER
  else '(status, _, _) ← RingBufferRecordAt r ringOffset; Ok status.

(** The record loop of [RingBufferFlatten]; [curOutput] is the distance of the
    output pointer from the start of the buffer.  Status, byte count, output. *)
Fixpoint flatten_loop (fuel : nat) r (BufferSize enumOffset byteCount curOutput : Z)
    (Buf : list Z) : result (EFI_STATUS * Z * list Z) :=
  if enumOffset =? Head r then Ok (EFI_SUCCESS, byteCount, Buf)
  else match fuel with
  | O => Fault Diverges
  | S fuel =>
    '(status, enumOffset, record) ← RingBufferRecordAt r enumOffset;
    if EFI_ERROR status then Ok (status, 0, Buf)
    else match record with
    | None => Fault NullDeref
    | Some rec =>
      size ← record_Size r rec;
      let curDataSize := u32 (size - sizeof_RING_RECORD) in
      _ ← ASSERT (curDataSize <=? u64 (BufferSize - curOutput));
      let enumOffset := Z.land (enumOffset + sizeof_RING_RECORD) (Mask r) in
      '(enumOffset, Buf) ← RingBufferReadDataAt r enumOffset Buf curOutput curDataSize;
      flatten_loop fuel r BufferSize enumOffset (u32 (byteCount + curDataSize))
        (curOutput + curDataSize) Buf
    end
  end.

(** Status, buffer size and buffer on return. *)
Definition RingBufferFlatten r (BufferSize : Z) (Buf : list Z)
  : result (EFI_STATUS * Z * list Z) :=
  let byteCount := u32 (Size r - RingBufferBytesFree r) in
  if BufferSize <? byteCount then Ok (EFI_BUFFER_TOO_SMALL, byteCount, Buf)
  else flatten_loop (Z.to_nat (Size r)) r BufferSize (Tail r) 0 0 Buf.

Definition RingBufferReset r : EFI_RING_BUFFER :=
  set_Stats (set_HandleKey (set_Tail (set_Head r 0) 0) 0) (mkStats 0 0 0).

Definition RingBufferInitialize r (Capacity Flags : Z) : EFI_STATUS * EFI_RING_BUFFER :=
  if (Capacity <? sizeof_RING_RECORD + 1)
     || negb (Z.land Capacity (u32 (Capacity - 1)) =? 0)
  then (EFI_INVALID_PARAMETER, r)
  else
    let r := mkRing Capacity (u32 (Capacity - 1)) (Head r) (Tail r) Flags
               (Stats r) (HandleKey r) (Buffer r) in
    (EFI_SUCCESS, RingBufferReset r).

End Functions.
End EfiRing.
