(* ===== verification/EfiRingFacts.v ===== *)
(** Representation of the event ring's contents and the behaviour of its
    low-level functions.

    [ring_rep r recs] says that the live region of the buffer, from [Tail] to
    [Head], holds exactly the records [recs] (oldest first).  Positions are
    unbounded integers reduced modulo [Size] only when the buffer is accessed;
    a header that would straddle the end of the buffer is moved to its start
    ([wrap]), which leaves up to three unused bytes behind it ([waste]). *)
From stdpp Require Import base list numbers list_numbers option.
From Stdlib Require Import ZArith Lia.
From S2P Require Import Prelude Circular EfiRing.
Import EfiRing.
Open Scope Z_scope.

(** ** Geometry *)
Record ring_geom (r : EFI_RING_BUFFER) : Prop := {
  geom_pow : exists k, 3 <= k <= 31 /\ Size r = 2 ^ k;
  geom_mask : Mask r = Size r - 1;
  geom_buf : Zlength (Buffer r) = Size r;
  geom_head : 0 <= Head r < Size r;
  geom_tail : 0 <= Tail r < Size r;
  geom_key : 0 <= HandleKey r < 2 ^ 32
}.

Definition wrap (N pos : Z) : Z :=
  if N - pos mod N <? sizeof_RING_RECORD then pos + (N - pos mod N) else pos.

Definition waste (N pos : Z) : Z := wrap N pos - pos.

(** Where the records end, and that the buffer holds them. *)
Fixpoint chain_end (N pos : Z) (recs : list (list Z)) : Z :=
  match recs with
  | [] => pos
  | d :: ds => chain_end N (wrap N pos + sizeof_RING_RECORD + Zlength d) ds
  end.

Fixpoint chain (m : list Z) (pos : Z) (recs : list (list Z)) : Prop :=
  match recs with
  | [] => True
  | d :: ds =>
    let h := wrap (Zlength m) pos in
    cread m h sizeof_RING_RECORD = le_split 4 (sizeof_RING_RECORD + Zlength d) /\
    cread m (h + sizeof_RING_RECORD) (Zlength d) = d /\
    chain m (h + sizeof_RING_RECORD + Zlength d) ds
  end.

Record ring_rep (r : EFI_RING_BUFFER) (recs : list (list Z)) : Prop := {
  rep_geom : ring_geom r;
  rep_chain : chain (Buffer r) (Tail r) recs;
  rep_fit : chain_end (Size r) (Tail r) recs < Tail r + Size r;
  rep_head : Head r = chain_end (Size r) (Tail r) recs mod Size r
}.

Lemma geom_size_bounds r : ring_geom r -> 8 <= Size r <= 2 ^ 31.
Proof.
  intros G. destruct (geom_pow _ G) as (k & Hk & ->). split.
  - change 8 with (2 ^ 3). apply Z.pow_le_mono_r; lia.
  - apply Z.pow_le_mono_r; lia.
Qed.

Lemma land_Mask r x : ring_geom r -> Z.land x (Mask r) = x mod Size r.
Proof.
  intros G. destruct (geom_pow _ G) as (k & Hk & E). rewrite (geom_mask _ G), E.
  rewrite <- Z.land_ones by lia. rewrite Z.ones_equiv. done.
Qed.

(** Reduction of a position less than two buffers away. *)
Lemma mod_two N x : 0 <= x < 2 * N -> x mod N = if x <? N then x else x - N.
Proof.
  intros. destruct (Z.ltb_spec x N).
  - apply Z.mod_small. lia.
  - symmetry. apply Z.mod_unique_pos with 1; lia.
Qed.

(** ** Wrapping of headers *)
Section Wrap.
Context (N : Z) (HN : 8 <= N).

Lemma wrap_bounds pos : pos <= wrap N pos <= pos + 3.
Proof.
  unfold wrap, sizeof_RING_RECORD. pose proof (Z.mod_pos_bound pos N).
  destruct (Z.ltb_spec (N - pos mod N) 4); lia.
Qed.

Lemma wrap_room pos : wrap N pos mod N + 4 <= N.
Proof.
  unfold wrap, sizeof_RING_RECORD. pose proof (Z.mod_pos_bound pos N).
  destruct (Z.ltb_spec (N - pos mod N) 4); [|lia].
  replace (pos + (N - pos mod N)) with ((pos / N + 1) * N) by zlia.
  rewrite Z_mod_mult. lia.
Qed.

Lemma wrap_shift pos k : wrap N (pos + k * N) = wrap N pos + k * N.
Proof.
  unfold wrap. rewrite Z.mod_add by lia. destruct (_ <? _); lia.
Qed.

Lemma wrap_mod pos : wrap N (pos mod N) = wrap N pos - pos / N * N.
Proof.
  replace (pos mod N) with (pos + - (pos / N) * N) at 1 by zlia.
  rewrite wrap_shift. lia.
Qed.

Lemma wrap_aligned pos : N mod 4 = 0 -> pos mod 4 = 0 -> wrap N pos = pos.
Proof.
  intros HN4 Hp. unfold wrap, sizeof_RING_RECORD.
  destruct (Z.ltb_spec (N - pos mod N) 4) as [H|]; [|done].
  exfalso. pose proof (Z.mod_pos_bound pos N ltac:(lia)).
  assert ((N - pos mod N) mod 4 = 0); [|zlia].
  rewrite Zminus_mod, HN4.
  replace (pos mod N) with (pos - N * (pos / N)) by zlia.
  rewrite (Zminus_mod pos), Hp, Z.mul_mod, HN4 by lia. done.
Qed.

Lemma chain_end_ge pos recs : pos + 4 * Zlength recs <= chain_end N pos recs.
Proof.
  revert pos. induction recs as [|d ds IH]; intros pos; cbn [chain_end].
  - unfold Zlength. simpl. lia.
  - specialize (IH (wrap N pos + sizeof_RING_RECORD + Zlength d)).
    pose proof (wrap_bounds pos). pose proof (Zlength_nonneg d).
    unfold sizeof_RING_RECORD, Zlength in *. simpl length in *. lia.
Qed.

Lemma chain_end_app pos l1 l2 :
  chain_end N pos (l1 ++ l2) = chain_end N (chain_end N pos l1) l2.
Proof. revert pos. induction l1; intros; cbn [app chain_end]; auto. Qed.

Lemma chain_end_shift pos k recs : chain_end N (pos + k * N) recs = chain_end N pos recs + k * N.
Proof.
  revert pos. induction recs as [|d ds IH]; intros pos; cbn [chain_end]; [done|].
  rewrite wrap_shift, <- IH. f_equal. lia.
Qed.

Lemma chain_end_mod pos recs :
  chain_end N (pos mod N) recs = chain_end N pos recs - pos / N * N.
Proof.
  replace (pos mod N) with (pos + - (pos / N) * N) at 1 by zlia.
  rewrite chain_end_shift. lia.
Qed.
End Wrap.

(** ** The chain of records in memory *)
Lemma chain_app m pos l1 l2 :
  chain m pos (l1 ++ l2) <-> chain m pos l1 /\ chain m (chain_end (Zlength m) pos l1) l2.
Proof.
  revert pos. induction l1 as [|d ds IH]; intros pos; cbn [app chain chain_end]; [tauto|].
  rewrite IH. tauto.
Qed.

Lemma cread_shift m pos k n : cread m (pos + k * Zlength m) n = cread m pos n.
Proof.
  apply cread_ext. intros i _. unfold cget. f_equal.
  replace (pos + k * Zlength m + i) with (pos + i + k * Zlength m) by lia.
  destruct (decide (Zlength m = 0)) as [->|]; [by rewrite Z.mul_0_r, Z.add_0_r|].
  by rewrite Z.mod_add.
Qed.

Lemma chain_shift m pos k recs :
  8 <= Zlength m -> chain m (pos + k * Zlength m) recs <-> chain m pos recs.
Proof.
  intros HN. revert pos. induction recs as [|d ds IH]; intros pos; cbn [chain]; [done|].
  rewrite wrap_shift by done. set (h := wrap _ pos).
  replace (h + k * Zlength m + sizeof_RING_RECORD + Zlength d)
    with (h + sizeof_RING_RECORD + Zlength d + k * Zlength m) by lia.
  replace (h + k * Zlength m + sizeof_RING_RECORD)
    with (h + sizeof_RING_RECORD + k * Zlength m) by lia.
  rewrite IH, !cread_shift. done.
Qed.

Lemma chain_mod m pos recs :
  8 <= Zlength m -> chain m (pos mod Zlength m) recs <-> chain m pos recs.
Proof.
  intros. replace (pos mod Zlength m) with (pos + - (pos / Zlength m) * Zlength m) by zlia.
  by apply chain_shift.
Qed.

(** Writes outside the chain leave it alone. *)
Lemma chain_frame base m m' p bs pos recs :
  8 <= Zlength m -> cwritten m m' p bs ->
  base <= pos -> chain_end (Zlength m) pos recs <= base + Zlength m ->
  base <= p -> p + Zlength bs <= base + Zlength m ->
  p + Zlength bs <= pos \/ chain_end (Zlength m) pos recs <= p ->
  chain m pos recs -> chain m' pos recs.
Proof.
  intros HN Hw. assert (Hl : Zlength m' = Zlength m) by apply Hw.
  revert pos. induction recs as [|d ds IH]; intros pos Hb He Hp1 Hp2 Hd; cbn [chain chain_end] in *; [done|].
  rewrite Hl. set (h := wrap (Zlength m) pos) in *.
  pose proof (wrap_bounds _ HN pos : pos <= h <= pos + 3). pose proof (Zlength_nonneg d).
  pose proof (chain_end_ge _ HN (h + sizeof_RING_RECORD + Zlength d) ds).
  pose proof (Zlength_nonneg ds). unfold sizeof_RING_RECORD in *.
  intros (C1 & C2 & C3). split_and!.
  - rewrite <- C1. eapply cread_cwritten_ne with (base := base); [exact Hw|lia..].
  - rewrite <- C2 at 2. eapply cread_cwritten_ne with (base := base); [exact Hw|lia..].
  - apply IH; [lia..|exact C3].
Qed.

(** ** Low-level functions *)
Section LowLevel.
Context {B : BuildOptions}.
Implicit Types r : EFI_RING_BUFFER.

Lemma rep_end_bounds r recs :
  ring_rep r recs ->
  Tail r + 4 * Zlength recs <= chain_end (Size r) (Tail r) recs < Tail r + Size r.
Proof.
  intros R. split; [|apply R]. apply chain_end_ge.
  apply (geom_size_bounds _ (rep_geom _ _ R)).
Qed.

Lemma rep_empty_iff r recs : ring_rep r recs -> (Head r = Tail r <-> recs = []).
Proof.
  intros R. pose proof (rep_end_bounds _ _ R). pose proof (geom_tail _ (rep_geom _ _ R)).
  rewrite (rep_head _ _ R). split.
  - rewrite mod_two by (pose proof (Zlength_nonneg recs); lia).
    destruct recs as [|d ds]; [done|]. unfold Zlength in *. simpl length in *.
    destruct (Z.ltb_spec (chain_end (Size r) (Tail r) (d :: ds)) (Size r)); lia.
  - intros ->. cbn [chain_end] in *. apply Z.mod_small. lia.
Qed.

(** Free bytes are what the live region leaves of the buffer, less one. *)
Lemma BytesFree_rep r recs :
  ring_rep r recs ->
  RingBufferBytesFree r = Size r - 1 - (chain_end (Size r) (Tail r) recs - Tail r).
Proof.
  intros R. pose proof (rep_end_bounds _ _ R) as He. pose proof (rep_geom _ _ R) as G.
  pose proof (geom_tail _ G). pose proof (geom_size_bounds _ G). pose proof (Zlength_nonneg recs).
  unfold RingBufferBytesFree. rewrite (rep_head _ _ R), mod_two by lia.
  set (e := chain_end _ _ _) in *. destruct (Z.ltb_spec e (Size r)).
  - replace (u32 (Tail r - e - 1)) with (Tail r - e - 1 + 2 ^ 32)
      by (unfold u32; apply Z.mod_unique_pos with (-1); lia).
    rewrite (proj2 (Z.ltb_ge _ _)) by lia.
    unfold u32. symmetry. apply Z.mod_unique_pos with 1; lia.
  - rewrite u32_small by lia. rewrite (proj2 (Z.ltb_lt _ _)) by lia. lia.
Qed.

Lemma WrapIfNeeded_geom r pos :
  ring_geom r ->
  RingBufferWrapIfNeeded r (pos mod Size r) sizeof_RING_RECORD = Ok (wrap (Size r) pos mod Size r).
Proof.
  intros G. pose proof (geom_size_bounds _ G).
  pose proof (Z.mod_pos_bound pos (Size r) ltac:(lia)).
  unfold RingBufferWrapIfNeeded, wrap. rewrite ASSERT_holds by (apply Z.ltb_lt; lia).
  rewrite bind_Ok, u32_small by lia. f_equal.
  destruct (Z.ltb_spec (Size r - pos mod Size r) sizeof_RING_RECORD); [|done].
  replace (pos + (Size r - pos mod Size r)) with ((pos / Size r + 1) * Size r) by zlia.
  by rewrite Z_mod_mult.
Qed.

(** A live position is accepted. *)
Lemma IsValidOffset_rep r recs pos :
  ring_rep r recs -> Tail r <= pos < chain_end (Size r) (Tail r) recs ->
  RingBufferIsValidOffset r (pos mod Size r) = EFI_SUCCESS.
Proof.
  intros R Hp. pose proof (rep_end_bounds _ _ R). pose proof (geom_tail _ (rep_geom _ _ R)).
  pose proof (rep_head _ _ R) as HH. unfold RingBufferIsValidOffset.
  rewrite mod_two in * by lia. set (e := chain_end _ _ _) in *.
  destruct (Z.ltb_spec pos (Size r)); destruct (Z.ltb_spec e (Size r)); try lia;
    repeat match goal with |- context [?a <? ?b] => destruct (Z.ltb_spec a b); try lia
           | |- context [?a <=? ?b] => destruct (Z.leb_spec a b); try lia end; done.
Qed.

Lemma record_Size_chain r pos d ds :
  ring_geom r -> Zlength d < 2 ^ 31 -> chain (Buffer r) pos (d :: ds) ->
  record_Size r (wrap (Size r) pos mod Size r) = Ok (sizeof_RING_RECORD + Zlength d).
Proof.
  intros G Hd (C & _). pose proof (geom_size_bounds _ G). rewrite (geom_buf _ G) in C.
  pose proof (wrap_room (Size r) ltac:(lia) pos) as Hroom. pose proof (Zlength_nonneg d).
  pose proof (Z.mod_pos_bound (wrap (Size r) pos) (Size r) ltac:(lia)).
  unfold record_Size, sizeof_RING_RECORD in *.
  rewrite mem_read_cread by (rewrite ?(geom_buf _ G); lia). rewrite bind_Ok.
  rewrite <- (geom_buf _ G) in *. rewrite cread_mod, C. f_equal.
  apply le_combine_split_small. lia.
Qed.

(** The record at a live position is found, its header moved past the end if
    needed. *)
Lemma RecordAt_chain r pre d post pos :
  ring_rep r (pre ++ d :: post) -> pos = chain_end (Size r) (Tail r) pre ->
  let h := wrap (Size r) pos mod Size r in
  RingBufferRecordAt r (pos mod Size r) = Ok (EFI_SUCCESS, h, Some h) /\
  record_Size r h = Ok (sizeof_RING_RECORD + Zlength d) /\
  sizeof_RING_RECORD + Zlength d <= Size r - 1 /\
  Tail r <= pos /\
  wrap (Size r) pos + sizeof_RING_RECORD + Zlength d <=
    chain_end (Size r) (Tail r) (pre ++ d :: post).
Proof.
  intros R -> h. pose proof (rep_geom _ _ R) as G. pose proof (geom_size_bounds _ G) as HS.
  pose proof (rep_end_bounds _ _ R) as He. pose proof (rep_chain _ _ R) as C.
  pose proof (geom_tail _ G) as HT. pose proof (rep_head _ _ R) as HH.
  assert (HN : 8 <= Size r) by lia.
  apply chain_app in C as [_ C]. rewrite (geom_buf _ G) in C.
  set (pos := chain_end (Size r) (Tail r) pre) in *.
  assert (Hp : Tail r <= pos).
  { pose proof (chain_end_ge _ HN (Tail r) pre). pose proof (Zlength_nonneg pre). lia. }
  set (e := chain_end (Size r) (Tail r) (pre ++ d :: post)) in *.
  assert (Hq : wrap (Size r) pos + sizeof_RING_RECORD + Zlength d <= e).
  { unfold e. rewrite chain_end_app. cbn [chain_end]. fold pos.
    pose proof (chain_end_ge _ HN (wrap (Size r) pos + sizeof_RING_RECORD + Zlength d) post).
    pose proof (Zlength_nonneg post). lia. }
  pose proof (wrap_bounds _ HN pos) as Hw. pose proof (Zlength_nonneg d) as Hd0.
  unfold sizeof_RING_RECORD in Hq.
  assert (Hsz : record_Size r h = Ok (sizeof_RING_RECORD + Zlength d)).
  { eapply record_Size_chain; [done|lia|exact C]. }
  split_and!; [|done|unfold sizeof_RING_RECORD; lia|done|unfold sizeof_RING_RECORD; lia].
  unfold RingBufferRecordAt. rewrite (IsValidOffset_rep _ _ pos R) by (fold e; lia). cbn [EFI_ERROR].
  assert (Hne : (Head r =? Tail r) = false).
  { apply Z.eqb_neq. rewrite (rep_empty_iff _ _ R). by destruct pre. }
  rewrite Hne, WrapIfNeeded_geom, bind_Ok by done. fold h. rewrite Hsz, bind_Ok.
  unfold sizeof_RING_RECORD. rewrite u32_small by lia.
  rewrite (proj2 (Z.ltb_ge (Size r - 1) _)), (proj2 (Z.ltb_ge _ 4)) by lia. cbn [orb].
  assert (Hh : 0 <= h < Size r) by (apply Z.mod_pos_bound; lia).
  rewrite u32_small, land_Mask by (done || lia).
  assert (Hchk : ((h + (4 + Zlength d)) mod Size r <=? h)
                 && (Head r <? (h + (4 + Zlength d)) mod Size r) = false); [|by rewrite Hchk].
  apply andb_false_iff. rewrite Z.leb_gt, Z.ltb_ge. unfold h in *. clear h.
  rewrite HH. rewrite (mod_two _ e), (mod_two _ (wrap _ _)) in * by lia.
  destruct (Z.ltb_spec (wrap (Size r) pos) (Size r)); rewrite mod_two by lia;
    destruct (Z.ltb_spec e (Size r));
    match goal with |- context [if ?a <? ?b then _ else _] => destruct (Z.ltb_spec a b) end; lia.
Qed.
End LowLevel.

(** ** Copies into and out of the ring *)
Section Copies.
Context {B : BuildOptions}.
Implicit Types r : EFI_RING_BUFFER.

Lemma mem_read_zslice (m : list Z) off n :
  0 <= off -> 0 <= n -> off + n <= Zlength m -> mem_read m off n = Ok (zslice off n m).
Proof. intros. unfold mem_read. by rewrite in_bounds_true. Qed.

(** Storing [f off n], a source of bytes of any length, in two chunks. *)
Lemma two_chunk_store (m bs : list Z) off n :
  0 < Zlength m -> 0 <= off < Zlength m -> 0 <= n < Zlength m -> Zlength bs = n ->
  exists m',
    (b ← (if 0 <? Z.min (Zlength m - off) n
          then mem_write m off (zslice 0 (Z.min (Zlength m - off) n) bs) else Ok m);
     (if 0 <? (if 0 <? Z.min (Zlength m - off) n then n - Z.min (Zlength m - off) n else n)
      then mem_write b 0 (zslice (Z.min (Zlength m - off) n)
             (n - Z.min (Zlength m - off) n) bs) else Ok b)) = Ok m' /\
    cwritten m m' off bs.
Proof.
  intros HN Ho Hn Hl. set (c := Z.min (Zlength m - off) n).
  destruct (Z.ltb_spec 0 c) as [Hc|Hc].
  - assert (Hs1 : Zlength (zslice 0 c bs) = c) by (apply Zlength_zslice; lia).
    destruct (cwritten_contiguous m off (zslice 0 c bs)) as (m1 & -> & W1); [lia..|].
    rewrite bind_Ok. assert (Hl1 : Zlength m1 = Zlength m) by apply W1.
    destruct (Z.ltb_spec 0 (n - c)) as [Hr|Hr].
    + assert (Hs2 : Zlength (zslice c (n - c) bs) = n - c) by (apply Zlength_zslice; lia).
      destruct (cwritten_contiguous m1 0 (zslice c (n - c) bs)) as (m2 & E2 & W2); [lia..|].
      rewrite E2. exists m2. split; [done|].
      replace bs with (zslice 0 c bs ++ zslice c (n - c) bs).
      * eapply cwritten_two_chunks; [lia..|exact W1|exact W2].
      * unfold zslice. rewrite drop_0. rewrite (take_ge (drop _ _)); [apply take_drop|].
        unfold Zlength in *. rewrite length_drop. lia.
    + exists m1. split; [done|]. replace (zslice 0 c bs) with bs in W1; [done|].
      unfold zslice. rewrite drop_0, take_ge; [done|]. unfold Zlength in *. lia.
  - assert (n = 0) by lia. rewrite bind_Ok. rewrite (proj2 (Z.ltb_ge _ _)) by lia.
    exists m. split; [done|]. destruct bs; [apply cwritten_nil|].
    unfold Zlength in Hl. simpl in Hl. lia.
Qed.

Lemma zslice_replicate (v n o c : Z) :
  0 <= o -> 0 <= c -> o + c <= n ->
  zslice o c (replicate (Z.to_nat n) v) = replicate (Z.to_nat c) v.
Proof.
  intros. unfold zslice. rewrite drop_replicate, take_replicate. f_equal. lia.
Qed.

Lemma FillDataAt_spec r off v n :
  ring_geom r -> 0 <= off < Size r -> 0 <= n < Size r ->
  exists b, RingBufferFillDataAt r off v n = Ok ((off + n) mod Size r, set_Buffer r b) /\
    cwritten (Buffer r) b off (replicate (Z.to_nat n) v).
Proof.
  intros G Ho Hn. pose proof (geom_size_bounds _ G) as HS. pose proof (geom_buf _ G) as HB.
  destruct (two_chunk_store (Buffer r) (replicate (Z.to_nat n) v) off n) as (m' & E & W);
    [lia..|by rewrite Zlength_replicate by lia|]. rewrite HB in E.
  exists m'. split; [|done]. unfold RingBufferFillDataAt, SetMem.
  rewrite !ASSERT_holds by (apply Z.ltb_lt; lia). rewrite !bind_Ok.
  rewrite land_Mask, !u32_small by (done || lia).
  set (c := Z.min (Size r - off) n) in *.
  rewrite !zslice_replicate in E by lia.
  destruct (Z.ltb_spec 0 c).
  - destruct (mem_write (Buffer r) off (replicate (Z.to_nat c) v)) as [b|]; [|done].
    rewrite !bind_Ok in *. rewrite Z.min_r by lia.
    destruct (Z.ltb_spec 0 (n - c)); [|by simplify_eq/=].
    rewrite E. done.
  - rewrite !bind_Ok in *. rewrite (proj2 (Z.ltb_ge 0 n)) in * by lia. by simplify_eq/=.
Qed.

Lemma WriteDataAt_spec r off data n :
  ring_geom r -> 0 <= off < Size r -> 0 <= n < Size r -> n <= Zlength data ->
  exists b, RingBufferWriteDataAt r off data n = Ok ((off + n) mod Size r, set_Buffer r b) /\
    cwritten (Buffer r) b off (take (Z.to_nat n) data).
Proof.
  intros G Ho Hn Hd. pose proof (geom_size_bounds _ G) as HS. pose proof (geom_buf _ G) as HB.
  destruct (two_chunk_store (Buffer r) (take (Z.to_nat n) data) off n) as (m' & E & W);
    [lia..|by rewrite Zlength_take by lia|]. rewrite HB in E.
  exists m'. split; [|done]. unfold RingBufferWriteDataAt, CopyMem.
  rewrite !ASSERT_holds by (apply Z.ltb_lt; lia). rewrite !bind_Ok.
  rewrite land_Mask, !u32_small by (done || lia).
  set (c := Z.min (Size r - off) n) in *.
  assert (Hz : forall o k, 0 <= o -> 0 <= k -> o + k <= n ->
            mem_read data o k = Ok (zslice o k (take (Z.to_nat n) data))).
  { intros o k ? ? ?. rewrite mem_read_zslice by lia. f_equal. unfold zslice.
    rewrite skipn_firstn_comm, take_take. f_equal. lia. }
  destruct (Z.ltb_spec 0 c).
  - rewrite (Hz 0 c), bind_Ok by lia.
    destruct (mem_write (Buffer r) off (zslice 0 c (take (Z.to_nat n) data))) as [b|]; [|done].
    rewrite !bind_Ok in *. rewrite Z.min_r by lia.
    destruct (Z.ltb_spec 0 (n - c)); [|by simplify_eq/=].
    rewrite (Hz c), bind_Ok by lia. rewrite E. done.
  - rewrite !bind_Ok in *. rewrite (proj2 (Z.ltb_ge 0 n)) in * by lia. by simplify_eq/=.
Qed.

Lemma mem_write_app pre old post new :
  Zlength new = Zlength old ->
  mem_write (pre ++ old ++ post) (Zlength pre) new = Ok (pre ++ new ++ post).
Proof.
  intros Hl. pose proof (Zlength_nonneg pre). pose proof (Zlength_nonneg old).
  pose proof (Zlength_nonneg post).
  unfold mem_write. rewrite in_bounds_true by (rewrite ?Zlength_app; lia).
  f_equal. unfold Zlength in *. rewrite Nat2Z.id.
  rewrite take_app_length. do 2 f_equal.
  rewrite app_assoc, drop_app_length'; [done|]. rewrite length_app. lia.
Qed.

(** Reading puts the ring's bytes at [dst] of the caller's object. *)
Lemma ReadDataAt_spec r off pre old post n :
  ring_geom r -> 0 <= off < Size r -> 0 <= n < Size r -> Zlength old = n ->
  RingBufferReadDataAt r off (pre ++ old ++ post) (Zlength pre) n =
    Ok ((off + n) mod Size r, pre ++ cread (Buffer r) off n ++ post).
Proof.
  intros G Ho Hn Hl. pose proof (geom_size_bounds _ G) as HS. pose proof (geom_buf _ G) as HB.
  pose proof (Zlength_nonneg pre).
  unfold RingBufferReadDataAt, CopyMem.
  rewrite (ASSERT_holds (n <? Size r)) by (apply Z.ltb_lt; lia). rewrite bind_Ok.
  rewrite land_Mask, !u32_small by (done || lia).
  rewrite cread_two_chunks by lia. rewrite HB. set (c := Z.min (Size r - off) n).
  destruct (Z.ltb_spec 0 c) as [Hc|Hc].
  - rewrite (mem_read_cread (Buffer r) off c), bind_Ok by lia.
    assert (Hs : old = take (Z.to_nat c) old ++ drop (Z.to_nat c) old) by (symmetry; apply take_drop).
    rewrite Hs at 1. rewrite <- (app_assoc (take _ _)).
    rewrite mem_write_app by (rewrite Zlength_cread, Zlength_take by lia; done).
    rewrite bind_Ok. destruct (Z.ltb_spec 0 (n - c)).
    + rewrite !ASSERT_holds by (apply Z.ltb_lt; lia). rewrite bind_Ok.
      rewrite Z.min_r by lia. rewrite mem_read_cread, bind_Ok by lia.
      replace (Zlength pre + c) with (Zlength (pre ++ cread (Buffer r) off c))
        by (rewrite Zlength_app, Zlength_cread by lia; lia).
      rewrite (app_assoc pre). rewrite mem_write_app
        by (rewrite Zlength_cread, Zlength_drop by lia; lia).
      rewrite bind_Ok. by rewrite <- !app_assoc.
    + rewrite bind_Ok. rewrite drop_ge by (unfold Zlength in *; lia).
      replace (n - c) with 0 by lia. by rewrite cread_0, app_nil_r.
  - assert (n = 0) by lia. rewrite bind_Ok, (proj2 (Z.ltb_ge 0 n)), bind_Ok by lia.
    destruct old; [|unfold Zlength in Hl; simpl in Hl; lia].
    replace c with 0 by lia. replace (n - 0) with 0 by lia. by rewrite !cread_0.
Qed.

Lemma set_record_Size_spec r h v :
  ring_geom r -> 0 <= h -> h + 4 <= Size r ->
  exists b, set_record_Size r h v = Ok (set_Buffer r b) /\
    cwritten (Buffer r) b h (le_split 4 v).
Proof.
  intros G ? ?. pose proof (geom_size_bounds _ G). pose proof (geom_buf _ G).
  destruct (cwritten_contiguous (Buffer r) h (le_split 4 v)) as (b & E & W);
    [lia|rewrite Zlength_le_split; lia|lia|].
  exists b. unfold set_record_Size. by rewrite E, bind_Ok.
Qed.

Lemma geom_set_Buffer r b : ring_geom r -> Zlength b = Size r -> ring_geom (set_Buffer r b).
Proof. intros [] ?. by constructor. Qed.
End Copies.
