(* ===== verification/EfiRingOps.v ===== *)
(** Behaviour of the event ring's operations on a ring that represents a list
    of records: removal, reservation, in-place I/O, enumeration, flattening. *)
From stdpp Require Import base list numbers list_numbers option.
From Stdlib Require Import ZArith Lia.
From S2P Require Import Prelude Circular EfiRing EfiRingFacts.
Import EfiRing.
Open Scope Z_scope.

Section Ops.
Context {B : BuildOptions}.
Implicit Types r : EFI_RING_BUFFER.

Lemma rep_size r recs : ring_rep r recs -> 8 <= Size r <= 2 ^ 31.
Proof. intros R. apply geom_size_bounds, R. Qed.

Lemma rep_empty_NOT_FOUND r pos :
  ring_rep r [] -> 0 <= pos <= Size r ->
  RingBufferRecordAt r pos = Ok (EFI_NOT_FOUND, pos, None).
Proof.
  intros R Hp. pose proof (proj2 (rep_empty_iff _ _ R) eq_refl) as E.
  unfold RingBufferRecordAt, RingBufferIsValidOffset. rewrite E, Z.eqb_refl.
  rewrite (proj2 (Z.ltb_ge (Size r) pos)) by lia. cbn [orb].
  destruct (Z.leb_spec (Tail r) pos); destruct (Z.ltb_spec pos (Tail r)); try lia; done.
Qed.

(** ** Reading the record at a live position *)
Section At.
Context (r : EFI_RING_BUFFER) (pre post : list (list Z)) (d : list Z).
Context (R : ring_rep r (pre ++ d :: post)).
Let pos := chain_end (Size r) (Tail r) pre.
Let h := wrap (Size r) pos mod Size r.

Lemma at_facts :
  8 <= Size r <= 2 ^ 31 /\ Zlength (Buffer r) = Size r /\ 0 <= h /\ h + 4 <= Size r /\
  0 <= Zlength d /\ 4 + Zlength d <= Size r - 1 /\ Tail r <= pos /\ pos <= wrap (Size r) pos /\
  wrap (Size r) pos + 4 + Zlength d < Tail r + Size r.
Proof.
  pose proof (rep_size _ _ R) as HS.
  destruct (RecordAt_chain r pre d post pos R eq_refl) as (_ & _ & H1 & H2 & H3).
  pose proof (rep_fit _ _ R). unfold sizeof_RING_RECORD in *.
  pose proof (Z.mod_pos_bound (wrap (Size r) pos) (Size r) ltac:(lia)).
  pose proof (wrap_room (Size r) ltac:(lia) pos). pose proof (wrap_bounds (Size r) ltac:(lia) pos).
  pose proof (Zlength_nonneg d). rewrite (geom_buf _ (rep_geom _ _ R)). unfold h. lia.
Qed.

Lemma at_RecordAt : RingBufferRecordAt r (pos mod Size r) = Ok (EFI_SUCCESS, h, Some h).
Proof. apply (RecordAt_chain r pre d post pos R eq_refl). Qed.

Lemma at_record_Size : record_Size r h = Ok (sizeof_RING_RECORD + Zlength d).
Proof. apply (RecordAt_chain r pre d post pos R eq_refl). Qed.

(** The header offset may be used in place of the record's position. *)
Lemma at_RecordAt_header : RingBufferRecordAt r h = Ok (EFI_SUCCESS, h, Some h).
Proof.
  pose proof at_facts as F.
  assert (RingBufferIsValidOffset r h = EFI_SUCCESS) as Hv.
  { apply (IsValidOffset_rep _ _ _ R).
    destruct (RecordAt_chain r pre d post pos R eq_refl) as (_ & _ & _ & _ & H3).
    unfold sizeof_RING_RECORD in *. lia. }
  pose proof at_RecordAt as E. unfold RingBufferRecordAt in *.
  rewrite Hv. cbn [EFI_ERROR].
  assert (E1 : RingBufferIsValidOffset r (pos mod Size r) = EFI_SUCCESS).
  { apply (IsValidOffset_rep _ _ _ R).
    destruct (RecordAt_chain r pre d post pos R eq_refl) as (_ & _ & _ & _ & H3).
    unfold sizeof_RING_RECORD in *. lia. }
  rewrite E1 in E. cbn [EFI_ERROR] in E.
  destruct (Head r =? Tail r); [done|].
  rewrite WrapIfNeeded_geom in E by apply R. fold h in E.
  assert (E2 : RingBufferWrapIfNeeded r h sizeof_RING_RECORD = Ok h).
  { unfold RingBufferWrapIfNeeded. rewrite ASSERT_holds by (apply Z.ltb_lt; lia).
    rewrite bind_Ok, u32_small by lia. unfold sizeof_RING_RECORD.
    by rewrite (proj2 (Z.ltb_ge _ _)) by lia. }
  rewrite E2. exact E.
Qed.

Lemma at_data o n :
  0 <= o -> 0 <= n -> o + n <= Zlength d ->
  cread (Buffer r) ((h + sizeof_RING_RECORD + o) mod Size r) n = zslice o n d.
Proof.
  intros Ho Hn Hon. pose proof at_facts as F.
  pose proof (rep_chain _ _ R) as C. apply chain_app in C as [_ (_ & C2 & _)].
  replace (Zlength (Buffer r)) with (Size r) in C2 by lia. fold pos in C2.
  rewrite <- (geom_buf _ (rep_geom _ _ R)), cread_mod.
  replace (cread (Buffer r) (h + sizeof_RING_RECORD + o) n)
    with (cread (Buffer r) (wrap (Size r) pos + sizeof_RING_RECORD + o) n).
  2:{ unfold h. apply cread_ext. intros i _. unfold cget. f_equal.
      rewrite (geom_buf _ (rep_geom _ _ R)).
      replace (wrap (Size r) pos mod Size r + sizeof_RING_RECORD + o + i)
        with (wrap (Size r) pos mod Size r + (sizeof_RING_RECORD + o + i)) by lia.
      rewrite Zplus_mod_idemp_l. f_equal. lia. }
  apply zget_ext; rewrite Zlength_cread by done; [by rewrite Zlength_zslice|].
  intros i Hi. rewrite zget_cread, zget_zslice by lia. rewrite <- C2.
  rewrite zget_cread by lia. f_equal. lia.
Qed.
End At.

(** ** Reading and removing the oldest record *)
Lemma ReadRecord_None r pre d post :
  ring_rep r (pre ++ d :: post) ->
  let pos := chain_end (Size r) (Tail r) pre in
  let h := wrap (Size r) pos mod Size r in
  RingBufferReadRecord r (pos mod Size r) None None = Ok (EFI_SUCCESS, h, Some h, None, None).
Proof.
  intros R pos h. subst h pos. unfold RingBufferReadRecord.
  rewrite (at_RecordAt _ _ _ _ R). cbn. by rewrite (at_record_Size _ _ _ _ R).
Qed.

Lemma record_data_size r pre d post :
  ring_rep r (pre ++ d :: post) ->
  u32 (sizeof_RING_RECORD + Zlength d - sizeof_RING_RECORD) = Zlength d.
Proof.
  intros R. pose proof (at_facts _ _ _ _ R).
  unfold sizeof_RING_RECORD. rewrite u32_small; lia.
Qed.

(** With a buffer: the data when it fits, its size when it does not. *)
Lemma ReadRecord_Some r pre d post buf avail :
  ring_rep r (pre ++ d :: post) -> 0 <= avail <= Zlength buf ->
  let pos := chain_end (Size r) (Tail r) pre in
  let h := wrap (Size r) pos mod Size r in
  RingBufferReadRecord r (pos mod Size r) (Some buf) (Some avail) =
    if avail <? Zlength d
    then Ok (EFI_BUFFER_TOO_SMALL, pos mod Size r, Some h, Some buf, Some (Zlength d))
    else Ok (EFI_SUCCESS, h, Some h, Some (d ++ drop (length d) buf), Some (Zlength d)).
Proof.
  intros R Hav pos h. subst h pos. pose proof (at_facts _ _ _ _ R) as F. unfold RingBufferReadRecord.
  rewrite (at_RecordAt _ _ _ _ R), bind_Ok. cbn [EFI_ERROR].
  rewrite (at_record_Size _ _ _ _ R), bind_Ok, (record_data_size _ _ _ _ R).
  rewrite ASSERT_holds by done. rewrite bind_Ok.
  destruct (Z.ltb_spec avail (Zlength d)); [done|].
  rewrite land_Mask by apply R.
  assert (Hb : buf = [] ++ take (length d) buf ++ drop (length d) buf) by (by rewrite app_nil_l, take_drop).
  rewrite Hb at 1. change 0 with (Zlength (@nil Z)) at 1.
  rewrite ReadDataAt_spec; [|apply R|apply Z.mod_pos_bound; lia|lia|
    unfold Zlength in *; rewrite length_take; lia].
  rewrite bind_Ok. do 2 f_equal. f_equal. f_equal. rewrite app_nil_l. f_equal.
  pose proof (at_data _ _ _ _ R 0 (Zlength d)) as Hd. rewrite Z.add_0_r in Hd. rewrite Hd by lia.
  unfold zslice. rewrite drop_0. apply take_ge. unfold Zlength. lia.
Qed.

Definition next_key (k : Z) : Z := if u32 (k + 1) =? 0 then 1 else u32 (k + 1).

Lemma next_key_range k : 0 <= k < 2 ^ 32 -> 1 <= next_key k < 2 ^ 32.
Proof.
  intros. unfold next_key. pose proof (u32_range (k + 1)).
  destruct (Z.eqb_spec (u32 (k + 1)) 0); lia.
Qed.

Lemma next_key_ne k : 0 <= k < 2 ^ 32 -> next_key k <> k.
Proof.
  intros. unfold next_key, u32. destruct (Z.eqb_spec ((k + 1) mod 2 ^ 32) 0); zlia.
Qed.

(** What a successful removal leaves behind. *)
Record removed (r r' : EFI_RING_BUFFER) (ds : list (list Z)) : Prop := {
  removed_rep : ring_rep r' ds;
  removed_key : HandleKey r' = next_key (HandleKey r);
  removed_stats : Stats r' = Stats r;
  removed_flags : Flags r' = Flags r;
  removed_size : Size r' = Size r;
  removed_head : Head r' = Head r;
  removed_tail : forall d, ring_rep r (d :: ds) ->
    Tail r' = (wrap (Size r) (Tail r) + sizeof_RING_RECORD + Zlength d) mod Size r
}.

(** Moving the tail past the oldest record, after bytes of that record only
    have been overwritten. *)
Lemma rep_advance r d ds b k :
  ring_rep r (d :: ds) -> Zlength b = Size r -> 0 <= k < 2 ^ 32 ->
  (let q := wrap (Size r) (Tail r) + sizeof_RING_RECORD + Zlength d in
   chain b q ds -> ring_rep (set_Tail (set_Buffer (set_HandleKey r k) b) (q mod Size r)) ds).
Proof.
  intros R Hb Hk q C. pose proof (at_facts r [] ds d R) as F. cbn [chain_end] in F.
  pose proof (rep_geom _ _ R) as G. pose proof (rep_fit _ _ R) as Hf. pose proof (rep_head _ _ R) as HH.
  cbn [chain_end] in Hf, HH. fold q in Hf, HH.
  assert (HN : 8 <= Size r) by lia. constructor.
  - destruct G. constructor; simpl; auto. apply Z.mod_pos_bound. lia.
  - simpl. rewrite <- Hb. rewrite chain_mod by lia. exact C.
  - simpl. rewrite chain_end_mod by done. unfold q, sizeof_RING_RECORD in *. zlia.
  - simpl. rewrite chain_end_mod, HH by done.
    replace (chain_end (Size r) q ds - q / Size r * Size r)
      with (chain_end (Size r) q ds + - (q / Size r) * Size r) by lia.
    by rewrite Z.mod_add by lia.
Qed.

(** Overwriting bytes of the oldest record only leaves the others alone. *)
Lemma frame_oldest r d ds m m' bs :
  ring_rep r (d :: ds) ->
  let h := wrap (Size r) (Tail r) mod Size r in
  let q := wrap (Size r) (Tail r) + sizeof_RING_RECORD + Zlength d in
  Zlength m = Size r -> Zlength bs <= sizeof_RING_RECORD + Zlength d ->
  cwritten m m' h bs -> chain m q ds -> Zlength m' = Size r /\ chain m' q ds.
Proof.
  intros R h q Hm Hbs W Cm. pose proof (at_facts r [] ds d R) as F. cbn [chain_end] in F.
  pose proof (rep_fit _ _ R) as Hf. cbn [chain_end] in Hf. fold q in Hf.
  unfold h in W. rewrite <- Hm in W at 2. rewrite cwritten_mod in W.
  pose proof (Zlength_nonneg bs). split; [destruct W; lia|].
  apply (chain_frame (Tail r) m m' (wrap (Size r) (Tail r)) bs); rewrite ?Hm; try done;
    unfold q, sizeof_RING_RECORD in *; lia.
Qed.

(** The [DEBUG_CODE] fill, when compiled in: some bytes of one region change. *)
Lemma debug_fill_spec r off v n :
  ring_geom r -> 0 <= off < Size r -> 0 <= n < Size r ->
  exists x b bs, (if debug_code_enabled then RingBufferFillDataAt r off v n else Ok (0, r)) =
      Ok (x, set_Buffer r b) /\ Zlength bs <= n /\ cwritten (Buffer r) b off bs.
Proof.
  intros G Ho Hn. destruct debug_code_enabled.
  - destruct (FillDataAt_spec r off v n G Ho Hn) as (b & -> & W).
    eexists _, b, _. split; [done|]. split; [|exact W]. rewrite Zlength_replicate; lia.
  - exists 0, (Buffer r), []. split; [by destruct r|].
    split; [unfold Zlength; simpl; lia|apply cwritten_nil].
Qed.

Lemma Remove_after_read r d ds Data DataSize Data' DataSize' :
  ring_rep r (d :: ds) ->
  let h := wrap (Size r) (Tail r) mod Size r in
  RingBufferReadRecord r (Tail r) Data DataSize = Ok (EFI_SUCCESS, h, Some h, Data', DataSize') ->
  exists r', RingBufferRemove r Data DataSize = Ok (EFI_SUCCESS, r', Data', DataSize') /\
    removed r r' ds.
Proof.
  intros R h Hread. pose proof (at_facts r [] ds d R) as F. pose proof (rep_geom _ _ R) as G.
  pose proof (at_record_Size r [] ds d R) as Hsz. cbn [chain_end] in F, Hsz. fold h in F, Hsz.
  unfold RingBufferRemove. rewrite Hread, bind_Ok. cbn [EFI_ERROR].
  fold (next_key (HandleKey r)). set (r1 := set_HandleKey r (next_key (HandleKey r))).
  pose proof (next_key_range _ (geom_key _ G)) as Hk.
  assert (G1 : ring_geom r1) by (destruct G; constructor; simpl; auto; lia).
  change (record_Size r1 h) with (record_Size r h). rewrite Hsz, bind_Ok.
  rewrite (land_Mask _ _ G1), u32_small by (unfold sizeof_RING_RECORD; lia).
  change (Size r1) with (Size r).
  replace ((h + (sizeof_RING_RECORD + Zlength d)) mod Size r)
    with ((wrap (Size r) (Tail r) + sizeof_RING_RECORD + Zlength d) mod Size r)
    by (unfold h; rewrite Zplus_mod_idemp_l; f_equal; lia).
  pose proof (rep_chain _ _ R) as C. cbn [chain] in C.
  rewrite (geom_buf _ G) in C. destruct C as (_ & _ & C).
  destruct (debug_fill_spec r1 h RING_REMOVED_SIGNATURE (sizeof_RING_RECORD + Zlength d) G1)
    as (x & b1 & bs & -> & Hbs & W1); [simpl; lia|unfold sizeof_RING_RECORD; simpl; lia|].
  destruct (frame_oldest r d ds (Buffer r) b1 bs R) as [Hb1 C1]; [lia|lia|done|done|].
  rewrite bind_Ok. assert (G2 : ring_geom (set_Buffer r1 b1)) by (by apply geom_set_Buffer).
  destruct (set_record_Size_spec _ h RING_REMOVED_SIZE G2) as (b2 & -> & W2); [lia|simpl; lia|].
  destruct (frame_oldest r d ds b1 b2 (le_split 4 RING_REMOVED_SIZE) R) as [Hb2 C2];
    [lia|rewrite Zlength_le_split; unfold sizeof_RING_RECORD; lia|done|done|].
  rewrite bind_Ok. eexists. split; [reflexivity|]. constructor; try done.
  - apply (rep_advance r d ds b2 (next_key (HandleKey r))); [done..|lia|done].
  - intros d' R'. pose proof (at_record_Size r [] ds d' R') as E. cbn [chain_end] in E. fold h in E.
    rewrite Hsz in E. assert (Zlength d' = Zlength d) by (injection E; lia). cbn. f_equal. lia.
Qed.

Lemma rep_tail_mod r recs : ring_rep r recs -> Tail r mod Size r = Tail r.
Proof. intros R. apply Z.mod_small, R. Qed.

Lemma Remove_nodata r d ds :
  ring_rep r (d :: ds) ->
  exists r', RingBufferRemove r None None = Ok (EFI_SUCCESS, r', None, None) /\ removed r r' ds.
Proof.
  intros R. eapply Remove_after_read; [exact R|].
  pose proof (ReadRecord_None r [] d ds R) as E. cbn [chain_end] in E.
  by rewrite (rep_tail_mod _ _ R) in E.
Qed.
(** ** Reserving space *)
Lemma SET_KEY_split off key :
  0 <= off < 2 ^ 32 -> 0 <= key ->
  RING_HANDLE_GET_OFFSET (RING_HANDLE_SET_KEY off key) = off /\
  RING_HANDLE_GET_KEY (RING_HANDLE_SET_KEY off key) = key.
Proof.
  intros Ho Hk. unfold RING_HANDLE_GET_OFFSET, RING_HANDLE_GET_KEY, RING_HANDLE_SET_KEY.
  assert (Hoff : Z.land off 0xFFFFFFFF = off).
  { change 0xFFFFFFFF with (Z.ones 32). rewrite Z.land_ones by lia. by apply Z.mod_small. }
  split.
  - rewrite Z.land_lor_distr_l, Hoff. change 0xFFFFFFFF with (Z.ones 32).
    rewrite Z.land_ones, Z.shiftl_mul_pow2, Z_mod_mult, Z.lor_0_r by lia. done.
  - rewrite Z.shiftr_lor, Z.shiftr_shiftl_l by lia. rewrite Z.sub_diag, Z.shiftl_0_r.
    rewrite Z.shiftr_div_pow2, Z.div_small by lia. done.
Qed.

Lemma chain_end_snoc N pos recs d :
  chain_end N pos (recs ++ [d]) = wrap N (chain_end N pos recs) + sizeof_RING_RECORD + Zlength d.
Proof. by rewrite chain_end_app. Qed.

(** Appending a record whose header has been stored after the last one. *)
Lemma rep_append r recs d b key st :
  ring_rep r recs -> 0 <= key < 2 ^ 32 ->
  let e := chain_end (Size r) (Tail r) recs in
  let p := wrap (Size r) e in
  let total := sizeof_RING_RECORD + Zlength d in
  p + total < Tail r + Size r ->
  (exists m1 bs1 bs2, cwritten (Buffer r) m1 p bs1 /\ cwritten m1 b p bs2 /\
     Zlength bs1 <= total /\ Zlength bs2 <= total) ->
  cread b p sizeof_RING_RECORD = le_split 4 total -> cread b (p + sizeof_RING_RECORD) (Zlength d) = d ->
  ring_rep (mkRing (Size r) (Mask r) ((p + total) mod Size r) (Tail r) (Flags r) st key b) (recs ++ [d]).
Proof.
  intros R Hk e p total Hfit (m1 & bs1 & bs2 & W1 & W2 & Hl1 & Hl2) Ch Cd.
  pose proof (rep_geom _ _ R) as G. pose proof (rep_size _ _ R) as HS.
  assert (HN : 8 <= Size r) by lia. pose proof (wrap_bounds _ HN e : e <= p <= e + 3).
  pose proof (rep_end_bounds _ _ R) as He. fold e in He. pose proof (Zlength_nonneg recs).
  pose proof (Zlength_nonneg d). pose proof (geom_buf _ G) as HB. pose proof (rep_chain _ _ R) as C.
  assert (Hm1 : Zlength m1 = Size r) by (destruct W1; lia).
  assert (Hb : Zlength b = Size r) by (destruct W2; lia).
  pose proof (Zlength_nonneg bs1). pose proof (Zlength_nonneg bs2).
  assert (C1 : chain m1 (Tail r) recs).
  { apply (chain_frame (Tail r) (Buffer r) m1 p bs1); rewrite ?HB; fold e; try done; lia. }
  assert (C2 : chain b (Tail r) recs).
  { apply (chain_frame (Tail r) m1 b p bs2); rewrite ?Hm1; fold e; try done; lia. }
  constructor; cbn.
  - destruct G. constructor; cbn; auto. apply Z.mod_pos_bound. lia.
  - apply chain_app. rewrite Hb. split; [done|]. cbn [chain]. rewrite Hb. fold e. fold p. done.
  - rewrite chain_end_snoc. fold e. fold p. unfold total in Hfit. lia.
  - rewrite chain_end_snoc. fold e. fold p. f_equal. unfold total. lia.
Qed.

Definition key_or_1 (k : Z) : Z := if k =? 0 then 1 else k.

Record reserved (r r' : EFI_RING_BUFFER) (handle : Z) : Prop := {
  reserved_key : HandleKey r' = key_or_1 (HandleKey r);
  reserved_handle : handle = RING_HANDLE_SET_KEY
    (wrap (Size r) (Head r) mod Size r) (HandleKey r');
  reserved_stats : Stats r' =
    mkStats (LostWrites (Stats r)) (u32 (EfiRing.Reserve (Stats r) + 1)) (EfiRing.Remove (Stats r));
  reserved_flags : Flags r' = Flags r;
  reserved_size : Size r' = Size r;
  reserved_tail : Tail r' = Tail r
}.

(** With room for the record and for the bytes skipped before its header, the
    reservation appends a record of the requested size. *)
Lemma reserve_commit_spec r recs n :
  ring_rep r recs -> 0 <= n ->
  waste (Size r) (Head r) + sizeof_RING_RECORD + n <= RingBufferBytesFree r ->
  exists r' handle d,
    reserve_commit r (sizeof_RING_RECORD + n) = Ok (EFI_SUCCESS, r', handle) /\
    Zlength d = n /\ ring_rep r' (recs ++ [d]) /\ reserved r r' handle.
Proof.
  intros R Hn Hroom. pose proof (rep_geom _ _ R) as G. pose proof (rep_size _ _ R) as HS.
  pose proof (BytesFree_rep _ _ R) as HF. pose proof (rep_head _ _ R) as HH.
  assert (HN : 8 <= Size r) by lia. set (e := chain_end (Size r) (Tail r) recs) in *.
  pose proof (rep_end_bounds _ _ R) as He. fold e in He. pose proof (Zlength_nonneg recs).
  assert (Hw : waste (Size r) (Head r) = wrap (Size r) e - e).
  { unfold waste. rewrite HH, wrap_mod by done. zlia. }
  rewrite Hw, HF in Hroom. set (p := wrap (Size r) e) in *.
  pose proof (wrap_bounds _ HN e : e <= p <= e + 3).
  set (h := p mod Size r). pose proof (Z.mod_pos_bound p (Size r) ltac:(lia)) as Hh.
  pose proof (wrap_room _ HN e : p mod Size r + 4 <= Size r) as Hh4. fold h in Hh, Hh4.
  unfold reserve_commit. rewrite HH, WrapIfNeeded_geom, bind_Ok by done. fold p h.
  unfold sizeof_RING_RECORD in *.
  destruct (debug_fill_spec r h (u8 (HandleKey r)) (4 + n) G)
    as (x & b1 & bs1 & -> & Hbs1 & W1); [lia..|]. rewrite bind_Ok.
  assert (Hb1 : Zlength b1 = Size r) by (rewrite <- (geom_buf _ G); apply W1).
  assert (G1 : ring_geom (set_Buffer r b1)) by (by apply geom_set_Buffer).
  destruct (set_record_Size_spec _ h (4 + n) G1) as (b2 & -> & W2); [lia|simpl; lia|].
  cbn [Buffer set_Buffer] in W2. rewrite bind_Ok. cbn [Mask set_Buffer count_reserve set_Stats].
  rewrite u32_small, land_Mask by (done || lia).
  unfold h in W1, W2. rewrite <- (geom_buf _ G), cwritten_mod in W1.
  rewrite <- Hb1, cwritten_mod in W2.
  set (d := cread b2 (p + 4) n). assert (Hd : Zlength d = n) by (apply Zlength_cread; lia).
  assert (Hkey : 0 <= key_or_1 (HandleKey r) < 2 ^ 32).
  { pose proof (geom_key _ G). unfold key_or_1. destruct (_ =? _); lia. }
  pose proof (rep_append r recs d b2 (key_or_1 (HandleKey r))
    (mkStats (LostWrites (Stats r)) (u32 (EfiRing.Reserve (Stats r) + 1)) (EfiRing.Remove (Stats r)))
    R Hkey) as Happ. fold e in Happ. cbn zeta in Happ. fold p in Happ.
  rewrite Hd in Happ. unfold sizeof_RING_RECORD in Happ.
  eexists _, (RING_HANDLE_SET_KEY h (key_or_1 (HandleKey r))), d.
  split; [|split; [done|split; [apply Happ; [lia| | |done]|]]].
  - unfold RingBufferCurrentKey. cbn [HandleKey set_Head count_reserve set_Stats set_Buffer].
    replace ((h + (4 + n)) mod Size r) with ((p + (4 + n)) mod Size r)
      by (unfold h; rewrite Zplus_mod_idemp_l; done).
    unfold key_or_1. destruct (Z.eqb_spec (HandleKey r) 0) ; reflexivity.
  - exists b1, bs1, (le_split 4 (4 + n)). rewrite Zlength_le_split. split_and!; [done|done|lia|lia].
  - rewrite <- (cread_cwritten b1 b2 p (le_split 4 (4 + n))) by (rewrite ?Zlength_le_split; lia || done).
    by rewrite Zlength_le_split.
  - constructor; try done. cbn. rewrite HH. unfold h, p. f_equal.
    rewrite wrap_mod by done. replace (wrap (Size r) e - e / Size r * Size r)
      with (wrap (Size r) e + - (e / Size r) * Size r) by lia. by rewrite Z.mod_add by lia.
Qed.
Lemma rep_set_Stats r recs st : ring_rep r recs -> ring_rep (set_Stats r st) recs.
Proof. intros [[] ? ? ?]. by constructor. Qed.

(** What dropping [k] oldest records changes. *)
Record dropped (k : nat) (r r' : EFI_RING_BUFFER) : Prop := {
  dropped_size : Size r' = Size r;
  dropped_flags : Flags r' = Flags r;
  dropped_head : Head r' = Head r;
  dropped_stats : Stats r' = Nat.iter k bump_lost (Stats r);
  dropped_key : HandleKey r' = Nat.iter k next_key (HandleKey r)
}.

(** The overwrite loop ends, having dropped the least number of oldest records
    that makes room. *)
Lemma reserve_overwrite_spec fuel r recs total :
  ring_rep r recs -> total <= Size r - 1 -> (length recs <= fuel)%nat ->
  exists k r', reserve_overwrite fuel r total = Ok r' /\ (k <= length recs)%nat /\
    ring_rep r' (drop k recs) /\ total <= RingBufferBytesFree r' /\ dropped k r r' /\
    Tail r' = chain_end (Size r) (Tail r) (take k recs) mod Size r /\
    (forall j, (j < k)%nat -> Size r - 1 - (chain_end (Size r) (Tail r) recs -
       chain_end (Size r) (Tail r) (take j recs)) < total).
Proof.
  revert r recs. induction fuel as [|fuel IH]; intros r recs R Ht Hf; cbn [reserve_overwrite];
    destruct (Z.ltb_spec (RingBufferBytesFree r) total) as [Hlt|Hge].
  1,3: destruct recs as [|d ds];
    [rewrite (BytesFree_rep _ _ R) in Hlt; cbn [chain_end] in Hlt; lia|].
  1: simpl in Hf; lia.
  2,3: exists 0%nat, r; split_and!; [done|lia|done|done|done|symmetry; apply (rep_tail_mod _ _ R)|lia].
  destruct (Remove_nodata r d ds R) as (r1 & -> & D). rewrite bind_Ok. cbn [EFI_ERROR].
  destruct (IH (lost_write r1) ds) as (k & r' & E & Hk & R' & Hfree & Dr & Ht' & Hmin).
  - apply rep_set_Stats, D.
  - cbn. rewrite (removed_size _ _ _ D). done.
  - simpl in Hf. lia.
  - pose proof (rep_size _ _ R). cbn [lost_write set_Stats Size Tail] in Ht', Hmin.
    rewrite (removed_size _ _ _ D), (removed_tail _ _ _ D d R) in Ht', Hmin.
    rewrite chain_end_mod in Ht' by lia.
    exists (S k), r'. split_and!; [done|simpl; lia|done|done| | |].
    + destruct Dr as [? ? ? Hs Hky]. destruct D as [? Hk1 Hs1 ? ? ? ?]. cbn in *.
      constructor; try congruence.
      * by rewrite Hs, Nat.iter_swap, Hs1.
      * by rewrite Hky, Hk1, Nat.iter_swap.
    + rewrite Ht'. cbn [take chain_end]. rewrite Zminus_mod, Z_mod_mult, Z.sub_0_r.
      apply Z.mod_mod. lia.
    + intros j Hj. destruct j as [|j].
      * cbn [take chain_end]. rewrite (BytesFree_rep _ _ R) in Hlt. cbn [chain_end] in *. lia.
      * specialize (Hmin j ltac:(lia)). rewrite !chain_end_mod in Hmin by lia.
        cbn [take chain_end]. lia.
Qed.

(** ** [RingBufferReserve] on every branch *)
Lemma Reserve_too_big r n :
  ring_geom r -> 0 <= n -> n + sizeof_RING_RECORD < 2 ^ 32 -> Size r - 1 < n + sizeof_RING_RECORD ->
  RingBufferReserve r n = Ok (EFI_BAD_BUFFER_SIZE, lost_write r, INVALID_RING_HANDLE).
Proof.
  intros G ? Hn Hbig. pose proof (geom_size_bounds _ G). unfold RingBufferReserve, sizeof_RING_RECORD in *.
  rewrite !u32_small by lia. by rewrite (proj2 (Z.ltb_lt _ _)) by lia.
Qed.

Lemma Reserve_full r n :
  ring_geom r -> 0 <= n -> n + sizeof_RING_RECORD <= Size r - 1 ->
  RingBufferBytesFree r < n + sizeof_RING_RECORD -> Z.land (Flags r) RING_BUFFER_OVERWRITE = 0 ->
  RingBufferReserve r n = Ok (EFI_OUT_OF_RESOURCES, lost_write r, INVALID_RING_HANDLE).
Proof.
  intros G ? Hn Hfull Hfl. pose proof (geom_size_bounds _ G). unfold RingBufferReserve, sizeof_RING_RECORD in *.
  rewrite !u32_small by lia. rewrite (proj2 (Z.ltb_ge _ _)), (proj2 (Z.ltb_lt _ _)) by lia.
  by rewrite Hfl.
Qed.

Lemma Reserve_fits r recs n :
  ring_rep r recs -> 0 <= n ->
  waste (Size r) (Head r) + sizeof_RING_RECORD + n <= RingBufferBytesFree r ->
  exists r' handle d, RingBufferReserve r n = Ok (EFI_SUCCESS, r', handle) /\
    Zlength d = n /\ ring_rep r' (recs ++ [d]) /\ reserved r r' handle.
Proof.
  intros R Hn Hroom. destruct (reserve_commit_spec r recs n R Hn Hroom) as (r' & hd & d & E & D).
  exists r', hd, d. split; [|done]. pose proof (rep_size _ _ R).
  pose proof (BytesFree_rep _ _ R) as HF. pose proof (rep_end_bounds _ _ R).
  assert (0 <= waste (Size r) (Head r)).
  { unfold waste. pose proof (wrap_bounds (Size r) ltac:(lia) (Head r)). lia. }
  pose proof (Zlength_nonneg recs).
  unfold RingBufferReserve, sizeof_RING_RECORD in *. rewrite !u32_small by lia.
  rewrite !(proj2 (Z.ltb_ge _ _)) by lia. by rewrite Z.add_comm.
Qed.

(** Overwrite mode, when the header needs no wrapping at [Head]. *)
Lemma Reserve_overwrite r recs n :
  ring_rep r recs -> 0 <= n -> n + sizeof_RING_RECORD <= Size r - 1 ->
  RingBufferBytesFree r < n + sizeof_RING_RECORD ->
  Z.land (Flags r) RING_BUFFER_OVERWRITE <> 0 -> waste (Size r) (Head r) = 0 ->
  exists k r1 r' handle d, RingBufferReserve r n = Ok (EFI_SUCCESS, r', handle) /\
    Zlength d = n /\ (k <= length recs)%nat /\ ring_rep r' (drop k recs ++ [d]) /\
    dropped k r r1 /\ reserved r1 r' handle /\
    n + sizeof_RING_RECORD <= RingBufferBytesFree r1 /\ ring_rep r1 (drop k recs) /\
    Tail r1 = chain_end (Size r) (Tail r) (take k recs) mod Size r /\
    (forall j, (j < k)%nat -> Size r - 1 - (chain_end (Size r) (Tail r) recs -
       chain_end (Size r) (Tail r) (take j recs)) < n + sizeof_RING_RECORD).
Proof.
  intros R Hn Hsz Hfull Hfl Hw. pose proof (rep_size _ _ R). pose proof (rep_end_bounds _ _ R).
  assert (Hfuel : (length recs <= Z.to_nat (Size r))%nat) by (unfold Zlength in *; lia).
  destruct (reserve_overwrite_spec (Z.to_nat (Size r)) r recs (n + sizeof_RING_RECORD) R Hsz Hfuel)
    as (k & r1 & E1 & Hk & R1 & Hfree & D & Ht1 & Hmin).
  destruct (reserve_commit_spec r1 (drop k recs) n R1 Hn) as (r' & hd & d & E & Hd & R' & Rs).
  { rewrite (dropped_size _ _ _ D), (dropped_head _ _ _ D), Hw. lia. }
  exists k, r1, r', hd, d. split; [|done].
  unfold RingBufferReserve. assert (Hu : u32 (n + sizeof_RING_RECORD) = n + sizeof_RING_RECORD)
    by (apply u32_small; unfold sizeof_RING_RECORD in *; lia).
  rewrite Hu, u32_small by lia.
  rewrite (proj2 (Z.ltb_ge _ _)), (proj2 (Z.ltb_lt _ _)) by lia.
  rewrite (proj2 (Z.eqb_neq _ _)) by done. cbn [negb]. rewrite E1, bind_Ok.
  by rewrite Z.add_comm.
Qed.
End Ops.
