(* ===== verification/EfiRingAccess.v ===== *)
(** Access to the records of the event ring through handles: in-place I/O,
    appending with data, enumeration, handle validity, and flattening. *)
From stdpp Require Import base list numbers list_numbers option.
From Stdlib Require Import ZArith Lia.
From S2P Require Import Prelude Circular EfiRing EfiRingFacts EfiRingOps.
Import EfiRing.
Open Scope Z_scope.

(** [d] with [bs] stored at offset [o]. *)
Definition splice (d : list Z) (o : Z) (bs : list Z) : list Z :=
  take (Z.to_nat o) d ++ bs ++ drop (Z.to_nat (o + Zlength bs)) d.

Lemma Zlength_splice d o bs :
  0 <= o -> o + Zlength bs <= Zlength d -> Zlength (splice d o bs) = Zlength d.
Proof.
  intros. pose proof (Zlength_nonneg bs). unfold splice.
  rewrite !Zlength_app, Zlength_take, Zlength_drop by lia. lia.
Qed.

Lemma zget_splice d o bs i :
  0 <= o -> o + Zlength bs <= Zlength d -> 0 <= i < Zlength d ->
  zget (splice d o bs) i =
    if (o <=? i) && (i <? o + Zlength bs) then zget bs (i - o) else zget d i.
Proof.
  intros Ho Hb Hi. destruct (mem_write_zget d o bs) as (m' & E & _ & Hg); [done..|].
  unfold mem_write in E. pose proof (Zlength_nonneg bs).
  rewrite in_bounds_true in E by lia. simplify_eq. by apply Hg.
Qed.

Section Access.
Context {B : BuildOptions}.
Implicit Types r : EFI_RING_BUFFER.

(** ** Overwriting part of one record's data *)
Lemma rep_update r pre d post o bs b :
  ring_rep r (pre ++ d :: post) -> 0 <= o -> o + Zlength bs <= Zlength d ->
  cwritten (Buffer r) b
    (wrap (Size r) (chain_end (Size r) (Tail r) pre) + sizeof_RING_RECORD + o) bs ->
  ring_rep (set_Buffer r b) (pre ++ splice d o bs :: post).
Proof.
  intros R Ho Hob W. pose proof (at_facts _ _ _ _ R) as F. pose proof (rep_geom _ _ R) as G.
  pose proof (rep_chain _ _ R) as C. pose proof (rep_fit _ _ R) as Hf. pose proof (rep_head _ _ R) as HH.
  pose proof (Zlength_nonneg bs). assert (HN : 8 <= Size r) by lia.
  assert (Hb : Zlength b = Size r) by (destruct W; lia).
  rewrite chain_end_app in Hf, HH. cbn [chain_end] in Hf, HH.
  set (pos := chain_end (Size r) (Tail r) pre) in *. set (p := wrap (Size r) pos) in *.
  apply chain_app in C as [C1 C2]. replace (Zlength (Buffer r)) with (Size r) in C2 by lia. fold pos in C2.
  cbn [chain] in C2. replace (Zlength (Buffer r)) with (Size r) in C2 by lia. fold p in C2.
  destruct C2 as (Ch & Cd & C3). pose proof (Zlength_splice d o bs Ho Hob) as Hl.
  unfold sizeof_RING_RECORD in *.
  pose proof (chain_end_ge _ HN (p + 4 + Zlength d) post). pose proof (Zlength_nonneg post).
  constructor; cbn [set_Buffer Buffer Size Tail Head].
  - by apply geom_set_Buffer.
  - apply chain_app. rewrite Hb. fold pos. split.
    + apply (chain_frame (Tail r) (Buffer r) b (p + 4 + o) bs); try done;
        replace (Zlength (Buffer r)) with (Size r) by lia; fold pos; lia.
    + cbn [chain]. rewrite Hb. fold p. rewrite Hl. unfold sizeof_RING_RECORD. split_and!.
      * rewrite <- Ch. apply (cread_cwritten_ne (Tail r) _ _ (p + 4 + o) bs); try done; lia.
      * apply zget_ext; rewrite Zlength_cread by lia; [done|]. intros i Hi.
        rewrite zget_cread, zget_splice by lia. destruct W as [_ Wg].
        specialize (Wg (i - o)). replace (p + 4 + o + (i - o)) with (p + 4 + i) in Wg by lia. rewrite Wg.
        replace (Zlength (Buffer r)) with (Size r) by lia.
        pose proof (zget_cread (Buffer r) (p + 4) (Zlength d) i ltac:(lia)) as Ed.
        rewrite Cd in Ed. rewrite Ed.
        destruct (Z.leb_spec o i).
        -- rewrite Z.mod_small by lia.
           destruct (Z.ltb_spec (i - o) (Zlength bs)); destruct (Z.ltb_spec i (o + Zlength bs)); try lia; done.
        -- replace ((i - o) mod Size r) with (i - o + Size r) by (apply Z.mod_unique_pos with (-1); lia).
           by rewrite (proj2 (Z.ltb_ge _ _)) by lia.
      * apply (chain_frame (Tail r) (Buffer r) b (p + 4 + o) bs); try done;
          replace (Zlength (Buffer r)) with (Size r) by lia; lia.
  - rewrite chain_end_app. cbn [chain_end]. fold pos. fold p. rewrite Hl. done.
  - rewrite chain_end_app. cbn [chain_end]. fold pos. fold p. by rewrite Hl.
Qed.

(** Storing data at a record's data offset, as the ring functions compute it. *)
Lemma WriteDataAt_record r pre d post o data n :
  ring_rep r (pre ++ d :: post) -> 0 <= o -> 0 <= n -> o + n <= Zlength d -> n <= Zlength data ->
  let h := wrap (Size r) (chain_end (Size r) (Tail r) pre) mod Size r in
  exists x b, RingBufferWriteDataAt r ((h + sizeof_RING_RECORD + o) mod Size r) data n =
      Ok (x, set_Buffer r b) /\
    ring_rep (set_Buffer r b) (pre ++ splice d o (take (Z.to_nat n) data) :: post).
Proof.
  intros R Ho Hn Hon Hd h. pose proof (at_facts _ _ _ _ R) as F. pose proof (rep_geom _ _ R) as G.
  destruct (WriteDataAt_spec r ((h + sizeof_RING_RECORD + o) mod Size r) data n G) as (b & E & W);
    [apply Z.mod_pos_bound; lia|lia|lia|].
  eexists _, b. split; [exact E|].
  apply rep_update; [done..|rewrite Zlength_take; lia|].
  rewrite <- (geom_buf _ G), cwritten_mod in W. apply cwritten_mod. apply cwritten_mod in W.
  replace ((h + sizeof_RING_RECORD + o) mod Zlength (Buffer r)) with
    ((wrap (Size r) (chain_end (Size r) (Tail r) pre) + sizeof_RING_RECORD + o) mod Zlength (Buffer r)) in W;
    [done|]. unfold h. rewrite (geom_buf _ G).
  rewrite <- !Z.add_assoc, Zplus_mod_idemp_l. done.
Qed.

(** ** Handles *)

(** [handle] designates the record that follows [pre]: it carries the current
    key and the record's position, or the position of its header. *)
Definition handle_for r (pre : list (list Z)) (handle : Z) : Prop :=
  RING_HANDLE_GET_KEY handle = HandleKey r /\
  (RING_HANDLE_GET_OFFSET handle = chain_end (Size r) (Tail r) pre mod Size r \/
   RING_HANDLE_GET_OFFSET handle = wrap (Size r) (chain_end (Size r) (Tail r) pre) mod Size r).

Lemma handle_RecordAt r pre d post handle :
  ring_rep r (pre ++ d :: post) -> handle_for r pre handle ->
  let h := wrap (Size r) (chain_end (Size r) (Tail r) pre) mod Size r in
  RingBufferRecordAt r (RING_HANDLE_GET_OFFSET handle) = Ok (EFI_SUCCESS, h, Some h).
Proof.
  intros R [_ [-> | ->]]; [by apply (at_RecordAt _ _ post d)|by apply (at_RecordAt_header _ _ post d)].
Qed.

Lemma Io_write r pre d post handle o data n :
  ring_rep r (pre ++ d :: post) -> handle_for r pre handle ->
  0 <= o -> 0 <= n <= Zlength data -> o + n < 2 ^ 32 ->
  if Zlength d <? o then
    RingBufferIo r handle DataWrite o data n = Ok (EFI_INVALID_PARAMETER, r, data, n)
  else if Zlength d <? o + n then
    RingBufferIo r handle DataWrite o data n = Ok (EFI_BAD_BUFFER_SIZE, r, data, n)
  else exists b,
    RingBufferIo r handle DataWrite o data n = Ok (EFI_SUCCESS, set_Buffer r b, data, n) /\
    ring_rep (set_Buffer r b) (pre ++ splice d o (take (Z.to_nat n) data) :: post).
Proof.
  intros R Hh Ho Hn Hov. pose proof (at_facts _ _ _ _ R) as F. unfold RingBufferIo.
  rewrite (proj2 (Z.eqb_eq _ _)) by apply Hh. cbn [negb].
  rewrite (handle_RecordAt _ _ _ _ _ R Hh), bind_Ok. cbn [EFI_ERROR].
  rewrite (at_record_Size _ _ _ _ R), bind_Ok, (record_data_size _ _ _ _ R), (u32_small (o + n)) by lia.
  destruct (Z.ltb_spec (Zlength d) o); [done|].
  destruct (Z.ltb_spec (Zlength d) (o + n)); [done|].
  rewrite land_Mask by apply R.
  destruct (WriteDataAt_record r pre d post o data n R) as (x & b & -> & Rb); [lia..|].
  exists b. by rewrite bind_Ok.
Qed.

Lemma Io_read r pre d post handle o data n :
  ring_rep r (pre ++ d :: post) -> handle_for r pre handle ->
  0 <= o -> 0 <= n <= Zlength data -> o + n < 2 ^ 32 ->
  RingBufferIo r handle DataRead o data n =
    if Zlength d <? o then Ok (EFI_INVALID_PARAMETER, r, data, n)
    else
      let count := Z.min n (Zlength d - o) in
      Ok (EFI_SUCCESS, r, zslice o count d ++ drop (Z.to_nat count) data, count).
Proof.
  intros R Hh Ho Hn Hov. pose proof (at_facts _ _ _ _ R) as F. unfold RingBufferIo.
  rewrite (proj2 (Z.eqb_eq _ _)) by apply Hh. cbn [negb].
  rewrite (handle_RecordAt _ _ _ _ _ R Hh), bind_Ok. cbn [EFI_ERROR].
  rewrite (at_record_Size _ _ _ _ R), bind_Ok, (record_data_size _ _ _ _ R), (u32_small (o + n)) by lia.
  destruct (Z.ltb_spec (Zlength d) o); [done|]. cbn zeta.
  replace (if Zlength d <? o + n then Zlength d - o else n) with (Z.min n (Zlength d - o))
    by (destruct (Z.ltb_spec (Zlength d) (o + n)); lia).
  set (c := Z.min n (Zlength d - o)). rewrite land_Mask by apply R.
  assert (Hb : data = [] ++ take (Z.to_nat c) data ++ drop (Z.to_nat c) data) by (by rewrite app_nil_l, take_drop).
  rewrite Hb at 1. change 0 with (Zlength (@nil Z)) at 1.
  rewrite ReadDataAt_spec; [|apply R|apply Z.mod_pos_bound; lia|lia|rewrite Zlength_take; lia].
  rewrite bind_Ok, app_nil_l, (at_data _ _ _ _ R) by lia. done.
Qed.

(** A handle with another key is refused by every handle operation. *)
Lemma Io_stale r handle op o data n :
  RING_HANDLE_GET_KEY handle <> HandleKey r ->
  RingBufferIo r handle op o data n = Ok (EFI_INVALID_PARAMETER, r, data, n) /\
  RingBufferHandleIsValid r handle = Ok EFI_INVALID_PARAMETER.
Proof.
  intros Hk. unfold RingBufferIo, RingBufferHandleIsValid. by rewrite (proj2 (Z.eqb_neq _ _)).
Qed.

Lemma HandleIsValid_live r pre d post handle :
  ring_rep r (pre ++ d :: post) -> handle_for r pre handle ->
  RingBufferHandleIsValid r handle = Ok EFI_SUCCESS.
Proof.
  intros R Hh. unfold RingBufferHandleIsValid. rewrite (proj2 (Z.eqb_eq _ _)) by apply Hh. cbn [negb].
  by rewrite (handle_RecordAt _ _ _ _ _ R Hh), bind_Ok.
Qed.

(** The handle a reservation returns designates the new record. *)
Lemma reserved_offset r r' recs d handle :
  ring_rep r recs -> ring_rep r' (recs ++ [d]) -> reserved r r' handle ->
  RING_HANDLE_GET_KEY handle = HandleKey r' /\
  RING_HANDLE_GET_OFFSET handle = wrap (Size r') (chain_end (Size r') (Tail r') recs) mod Size r'.
Proof.
  intros R R' [_ Hh _ _ Hs Ht]. pose proof (rep_size _ _ R). pose proof (geom_key _ (rep_geom _ _ R')).
  pose proof (Z.mod_pos_bound (wrap (Size r) (Head r)) (Size r) ltac:(lia)).
  destruct (SET_KEY_split (wrap (Size r) (Head r) mod Size r) (HandleKey r')) as [E1 E2]; [lia..|].
  rewrite <- Hh in E1, E2. split; [done|]. rewrite E1, Hs, Ht, (rep_head _ _ R).
  rewrite wrap_mod by lia. set (e := chain_end _ _ _).
  replace (wrap (Size r) e - e / Size r * Size r) with (wrap (Size r) e + - (e / Size r) * Size r) by lia.
  by rewrite Z.mod_add by lia.
Qed.

Lemma reserved_handle_for r r' recs d handle :
  ring_rep r recs -> ring_rep r' (recs ++ [d]) -> reserved r r' handle -> handle_for r' recs handle.
Proof. intros R R' Rs. destruct (reserved_offset _ _ _ _ _ R R' Rs). split; auto. Qed.

(** ** [RingBufferAdd] *)
Lemma splice_full d data : Zlength data = Zlength d -> splice d 0 data = data.
Proof.
  intros. unfold splice. rewrite Z.add_0_l, drop_ge, app_nil_r; [done|]. unfold Zlength in *. lia.
Qed.

Lemma Add_after_reserve r r1 r' recs d handle data n :
  RingBufferReserve r n = Ok (EFI_SUCCESS, r', handle) ->
  ring_rep r1 recs -> ring_rep r' (recs ++ [d]) -> reserved r1 r' handle ->
  Zlength d = n -> n <= Zlength data ->
  exists b, RingBufferAdd r data n = Ok (EFI_SUCCESS, set_Buffer r' b, handle) /\
    ring_rep (set_Buffer r' b) (recs ++ [take (Z.to_nat n) data]).
Proof.
  intros E R1 R' Rs Hd Hn. destruct (reserved_offset _ _ _ _ _ R1 R' Rs) as [_ Ho].
  pose proof (at_facts _ _ _ _ R') as F. pose proof (Zlength_nonneg d).
  unfold RingBufferAdd. rewrite E, bind_Ok. cbn [EFI_ERROR]. rewrite land_Mask by apply R'. rewrite Ho.
  destruct (WriteDataAt_record r' recs d [] 0 data n R') as (x & b & Ew & Rb); [lia..|].
  rewrite Z.add_0_r in Ew. rewrite Ew, bind_Ok. exists b. split; [done|].
  by rewrite splice_full in Rb by (rewrite Zlength_take; lia).
Qed.
(** ** Enumeration *)
Definition with_key r : EFI_RING_BUFFER := snd (RingBufferCurrentKey r).

Lemma with_key_fields r :
  HandleKey (with_key r) = key_or_1 (HandleKey r) /\ fst (RingBufferCurrentKey r) = key_or_1 (HandleKey r) /\
  RingBufferCurrentKey r = (key_or_1 (HandleKey r), with_key r).
Proof. unfold with_key, RingBufferCurrentKey, key_or_1. by destruct (Z.eqb_spec (HandleKey r) 0). Qed.

Lemma with_key_rep r recs : ring_rep r recs -> ring_rep (with_key r) recs.
Proof.
  intros R. unfold with_key, RingBufferCurrentKey. destruct (HandleKey r =? 0); [|done]. cbn.
  destruct R as [[] ? ? ?]. by constructor.
Qed.

Lemma with_key_geometry r :
  Size (with_key r) = Size r /\ Tail (with_key r) = Tail r /\ Head (with_key r) = Head r.
Proof. unfold with_key, RingBufferCurrentKey. by destruct (HandleKey r =? 0). Qed.

(** The enumerator that is about to visit the record after [pre]. *)
Definition enum_at r (pre : list (list Z)) (en : Z) : Prop :=
  (pre = [] /\ en = INVALID_RING_HANDLE) \/
  (en <> INVALID_RING_HANDLE /\ RING_HANDLE_GET_KEY en = HandleKey r /\
   RING_HANDLE_GET_OFFSET en = chain_end (Size r) (Tail r) pre mod Size r).

Lemma live_not_head r pre d post :
  ring_rep r (pre ++ d :: post) -> chain_end (Size r) (Tail r) pre mod Size r <> Head r.
Proof.
  intros R. pose proof (at_facts _ _ _ _ R) as F. rewrite (rep_head _ _ R).
  destruct (RecordAt_chain r pre d post _ R eq_refl) as (_ & _ & _ & _ & H3).
  pose proof (rep_fit _ _ R). pose proof (geom_tail _ (rep_geom _ _ R)). unfold sizeof_RING_RECORD in *.
  set (e := chain_end (Size r) (Tail r) (pre ++ d :: post)) in *.
  set (pos := chain_end (Size r) (Tail r) pre) in *. rewrite !mod_two by lia.
  destruct (Z.ltb_spec pos (Size r)); destruct (Z.ltb_spec e (Size r)); lia.
Qed.

Lemma SET_KEY_not_invalid off key :
  0 <= off < 2 ^ 31 -> 0 <= key < 2 ^ 32 -> RING_HANDLE_SET_KEY off key <> INVALID_RING_HANDLE.
Proof.
  intros Ho Hk E. destruct (SET_KEY_split off key) as [E1 _]; [lia..|].
  rewrite E in E1. unfold RING_HANDLE_GET_OFFSET, INVALID_RING_HANDLE in E1. vm_compute in E1. lia.
Qed.

(** One step: the record's handle, its size with header, and an enumerator for
    what follows. *)
Lemma Enumerate_next r pre d post en :
  ring_rep r (pre ++ d :: post) -> enum_at r pre en ->
  exists en' item,
    RingBufferHandleEnumerate r en =
      Ok (EFI_SUCCESS, with_key r, en', item, sizeof_RING_RECORD + Zlength d) /\
    handle_for (with_key r) pre item /\ enum_at (with_key r) (pre ++ [d]) en'.
Proof.
  intros R Hen. pose proof (at_facts _ _ _ _ R) as F. pose proof (with_key_rep _ _ R) as R1.
  destruct (with_key_geometry r) as (Es & Et & _). destruct (with_key_fields r) as (Ek & _ & Ec).
  pose proof (geom_key _ (rep_geom _ _ R1)) as Hk. rewrite Ek in Hk.
  set (pos := chain_end (Size r) (Tail r) pre) in *. set (q := chain_end (Size r) (Tail r) (pre ++ [d])).
  assert (Hq : q = wrap (Size r) pos + sizeof_RING_RECORD + Zlength d) by apply chain_end_snoc.
  pose proof (Z.mod_pos_bound pos (Size r) ltac:(lia)) as Hp. pose proof (Z.mod_pos_bound q (Size r) ltac:(lia)) as Hqb.
  destruct (SET_KEY_split (pos mod Size r) (key_or_1 (HandleKey r))) as [O1 K1]; [lia..|].
  assert (HS31 : Size r <= 2 ^ 31) by lia.
  destruct (SET_KEY_split (q mod Size r) (key_or_1 (HandleKey r))) as [O2 K2]; [lia..|].
  exists (RING_HANDLE_SET_KEY (q mod Size r) (key_or_1 (HandleKey r))),
         (RING_HANDLE_SET_KEY (pos mod Size r) (key_or_1 (HandleKey r))).
  split; [|split].
  - pose proof (live_not_head _ _ _ _ R) as Hne. fold pos in Hne.
    pose proof (at_RecordAt _ _ _ _ R1) as Ea. rewrite Es, Et in Ea. fold pos in Ea.
    pose proof (at_record_Size _ _ _ _ R1) as Eb. rewrite Es, Et in Eb. fold pos in Eb.
    assert (Hgo : forall off, off = pos mod Size r ->
      (if off =? Head r then Ok (EFI_NOT_FOUND, r, INVALID_RING_HANDLE, INVALID_RING_HANDLE, 0)
       else let (currentKey, r) := RingBufferCurrentKey r in
            '(status, enumOffset, record) ← RingBufferRecordAt r off;
            if EFI_ERROR status then Ok (status, r, INVALID_RING_HANDLE, INVALID_RING_HANDLE, 0)
            else match record with
            | None => Fault NullDeref
            | Some rec => size ← record_Size r rec;
              Ok (status, r, RING_HANDLE_SET_KEY (Z.land (u32 (enumOffset + size)) (Mask r)) currentKey,
                  RING_HANDLE_SET_KEY off currentKey, size)
            end) = Ok (EFI_SUCCESS, with_key r, RING_HANDLE_SET_KEY (q mod Size r) (key_or_1 (HandleKey r)),
                       RING_HANDLE_SET_KEY (pos mod Size r) (key_or_1 (HandleKey r)),
                       sizeof_RING_RECORD + Zlength d)).
    { intros off ->. rewrite (proj2 (Z.eqb_neq _ _)), Ec by done. rewrite Ea, bind_Ok. cbn [EFI_ERROR].
      rewrite Eb, bind_Ok, land_Mask, Es, u32_small by (apply R1 || unfold sizeof_RING_RECORD; lia).
      do 5 f_equal. rewrite Hq, Zplus_mod_idemp_l. f_equal. lia. }
    unfold RingBufferHandleEnumerate. destruct Hen as [[-> ->]|(Hi & Hky & Hof)].
    + rewrite Z.eqb_refl. apply Hgo. unfold pos. cbn [chain_end]. symmetry. apply (rep_tail_mod _ _ R).
    + rewrite (proj2 (Z.eqb_neq _ _)), Hky, Z.eqb_refl by done. cbn [negb]. apply Hgo, Hof.
  - split; [by rewrite K1, Ek|]. left. rewrite O1, Es, Et. done.
  - right. rewrite O2, K2, Ek, Es, Et. split; [|done]. apply SET_KEY_not_invalid; lia.
Qed.

Lemma Enumerate_end r recs en :
  ring_rep r recs -> enum_at r recs en ->
  RingBufferHandleEnumerate r en = Ok (EFI_NOT_FOUND, r, INVALID_RING_HANDLE, INVALID_RING_HANDLE, 0).
Proof.
  intros R Hen. unfold RingBufferHandleEnumerate. pose proof (rep_head _ _ R) as HH.
  destruct Hen as [[-> ->]|(Hi & Hky & Hof)].
  - rewrite Z.eqb_refl. by rewrite (proj2 (rep_empty_iff _ _ R) eq_refl), Z.eqb_refl.
  - rewrite (proj2 (Z.eqb_neq _ _)), Hky, Z.eqb_refl by done. cbn [negb].
    by rewrite Hof, HH, Z.eqb_refl.
Qed.

(** ** Flattening *)
Lemma flatten_loop_spec fuel r pre post BufferSize rest :
  ring_rep r (pre ++ post) -> (length post <= fuel)%nat ->
  Zlength (concat (pre ++ post)) <= BufferSize < 2 ^ 32 ->
  Zlength (concat post) <= Zlength rest ->
  flatten_loop fuel r BufferSize (chain_end (Size r) (Tail r) pre mod Size r)
    (Zlength (concat pre)) (Zlength (concat pre)) (concat pre ++ rest) =
  Ok (EFI_SUCCESS, Zlength (concat (pre ++ post)),
      concat (pre ++ post) ++ drop (length (concat post)) rest).
Proof.
  revert pre post rest. induction fuel as [|fuel IH]; intros pre post rest R Hf HB Hr;
    destruct post as [|d post]; try (simpl in Hf; lia).
  1,2: cbn [flatten_loop]; rewrite app_nil_r in *; rewrite <- (rep_head _ _ R), Z.eqb_refl;
    by rewrite drop_0.
  pose proof (at_facts _ _ _ _ R) as F. cbn [flatten_loop].
  rewrite (proj2 (Z.eqb_neq _ _)) by apply (live_not_head _ _ _ _ R).
  rewrite (at_RecordAt _ _ _ _ R), bind_Ok. cbn [EFI_ERROR].
  rewrite (at_record_Size _ _ _ _ R), bind_Ok, (record_data_size _ _ _ _ R).
  rewrite concat_app in HB. cbn [concat] in *. rewrite !Zlength_app in *.
  pose proof (Zlength_nonneg (concat pre)). pose proof (Zlength_nonneg (concat post)).
  rewrite ASSERT_holds by (apply Z.leb_le; unfold u64; rewrite Z.mod_small by lia; lia).
  rewrite bind_Ok, land_Mask by apply R.
  assert (Hs : rest = take (length d) rest ++ drop (length d) rest) by (symmetry; apply take_drop).
  rewrite Hs at 1. rewrite ReadDataAt_spec;
    [|apply R|apply Z.mod_pos_bound; lia|lia|unfold Zlength in *; rewrite length_take; lia].
  rewrite bind_Ok. pose proof (at_data _ _ _ _ R 0 (Zlength d)) as Hd. rewrite Z.add_0_r in Hd.
  rewrite Hd by lia. replace (zslice 0 (Zlength d) d) with d
    by (unfold zslice; rewrite drop_0, take_ge; [done|unfold Zlength; lia]).
  specialize (IH (pre ++ [d]) post (drop (length d) rest)).
  rewrite <- app_assoc in IH. cbn [app] in IH. rewrite (concat_app pre [d]) in IH. cbn [concat] in IH.
  rewrite app_nil_r, Zlength_app, <- app_assoc in IH. rewrite u32_small by lia.
  assert (Hoff : ((wrap (Size r) (chain_end (Size r) (Tail r) pre) mod Size r + sizeof_RING_RECORD)
    mod Size r + Zlength d) mod Size r = chain_end (Size r) (Tail r) (pre ++ [d]) mod Size r).
  { rewrite Zplus_mod_idemp_l, <- Z.add_assoc, Zplus_mod_idemp_l, chain_end_snoc. f_equal. lia. }
  rewrite Hoff, IH; [|done|simpl in Hf; lia|rewrite concat_app; cbn [concat]; rewrite !Zlength_app; lia|
    rewrite <- (Nat2Z.id (length d)); rewrite Zlength_drop; unfold Zlength in *; lia].
  rewrite drop_drop. rewrite length_app. done.
Qed.

(** Flattening a ring concatenates its records' data; the buffer must hold the
    used part of the ring, headers included. *)
Lemma Flatten_spec r recs BufferSize buf :
  ring_rep r recs -> BufferSize <= Zlength buf -> BufferSize < 2 ^ 32 ->
  let used := chain_end (Size r) (Tail r) recs - Tail r in
  if BufferSize <? used + 1
  then RingBufferFlatten r BufferSize buf = Ok (EFI_BUFFER_TOO_SMALL, used + 1, buf)
  else RingBufferFlatten r BufferSize buf =
         Ok (EFI_SUCCESS, Zlength (concat recs), concat recs ++ drop (length (concat recs)) buf).
Proof.
  intros R HB H32 used. pose proof (rep_size _ _ R). pose proof (rep_end_bounds _ _ R).
  pose proof (Zlength_nonneg recs). unfold RingBufferFlatten. rewrite (BytesFree_rep _ _ R).
  fold used. rewrite u32_small by (unfold used; lia).
  replace (Size r - (Size r - 1 - used)) with (used + 1) by lia.
  destruct (Z.ltb_spec BufferSize (used + 1)); [done|].
  assert (Hc : forall N pos l, 8 <= N -> pos + Zlength (concat l) <= chain_end N pos l).
  { intros N pos l HN. revert pos. induction l as [|x l IHl]; intros pos; cbn [concat chain_end].
    - unfold Zlength. simpl. lia.
    - rewrite Zlength_app. specialize (IHl (wrap N pos + sizeof_RING_RECORD + Zlength x)).
      pose proof (wrap_bounds N HN pos). unfold sizeof_RING_RECORD in *. lia. }
  specialize (Hc (Size r) (Tail r) recs ltac:(lia)). pose proof (Zlength_nonneg (concat recs)).
  pose proof (flatten_loop_spec (Z.to_nat (Size r)) r [] recs BufferSize buf R) as E.
  cbn [app concat chain_end] in E. rewrite (rep_tail_mod _ _ R) in E.
  apply E; unfold used, Zlength in *; lia.
Qed.

(** ** Initialisation and reset *)
Lemma pow2_of_land c : 0 < c -> Z.land c (c - 1) = 0 -> exists k, 0 <= k /\ c = 2 ^ k.
Proof.
  intros Hc Hl. exists (Z.log2 c). split; [apply Z.log2_nonneg|].
  destruct (Z.log2_spec c Hc) as [Hlo Hhi]. destruct (Z.eq_dec c (2 ^ Z.log2 c)) as [|Hne]; [done|].
  exfalso. assert (c <> 1) by (by intros ->).
  assert (Hb1 : Z.testbit c (Z.log2 c) = true) by (apply Z.bit_log2; lia).
  assert (Hb2 : Z.testbit (c - 1) (Z.log2 c) = true).
  { replace (Z.log2 c) with (Z.log2 (c - 1)); [apply Z.bit_log2; lia|].
    apply Z.log2_unique; [apply Z.log2_nonneg|lia]. }
  assert (Hb : Z.testbit (Z.land c (c - 1)) (Z.log2 c) = true) by (by rewrite Z.land_spec, Hb1, Hb2).
  rewrite Hl, Z.bits_0 in Hb. done.
Qed.

Lemma Reset_rep r recs : ring_rep r recs -> ring_rep (RingBufferReset r) [].
Proof.
  intros [[Hp Hm Hb Hh Ht Hk] _ _ _]. constructor; cbn [RingBufferReset set_Stats set_HandleKey set_Tail set_Head
    Size Mask Head Tail Flags Stats HandleKey Buffer chain chain_end]; try done; try lia.
  constructor; cbn; auto; lia.
Qed.

Lemma Initialize_spec r cap flags :
  0 <= cap < 2 ^ 32 -> Zlength (Buffer r) = cap ->
  match RingBufferInitialize r cap flags with
  | (EFI_SUCCESS, r') => ring_rep r' [] /\ Size r' = cap /\ Flags r' = flags /\ Tail r' = 0 /\
      Stats r' = mkStats 0 0 0 /\ HandleKey r' = 0
  | (status, r') => status = EFI_INVALID_PARAMETER /\ r' = r /\
      (cap < 5 \/ forall k, 0 <= k -> cap <> 2 ^ k)
  end.
Proof.
  intros Hc Hb. unfold RingBufferInitialize, sizeof_RING_RECORD.
  destruct (Z.ltb_spec cap (4 + 1)); cbn [orb]; [split_and!; try done; left; lia|].
  rewrite u32_small by lia. destruct (Z.eqb_spec (Z.land cap (cap - 1)) 0) as [E|E]; cbn [negb].
  - split; [|done]. destruct (pow2_of_land cap) as (k & Hk & Ek); [lia|done|].
    assert (3 <= k <= 31).
    { split.
      - destruct (Z.le_gt_cases 3 k); [done|]. assert (2 ^ k <= 2 ^ 2) by (apply Z.pow_le_mono_r; lia). lia.
      - destruct (Z.le_gt_cases k 31); [done|]. assert (2 ^ 32 <= 2 ^ k) by (apply Z.pow_le_mono_r; lia). lia. }
    constructor; cbn; try done; try lia. constructor; cbn; try done; try lia. by exists k.
  - split_and!; [done|done|]. right. intros k Hk ->. apply E.
    apply Z.bits_inj'. intros n Hn. replace (2 ^ k - 1) with (Z.ones k) by apply Z.ones_equiv.
    rewrite Z.land_spec, Z.bits_0.
    destruct (Z.eq_dec n k) as [->|Hne].
    + rewrite Z.ones_spec_high by lia. apply andb_false_r.
    + rewrite Z.pow2_bits_false by lia. done.
Qed.
End Access.
