(* ===== verification/EventQueue.v ===== *)
(** The event ring as a bounded queue of records.

    [queue] is the abstract contract of [EfiRing.c]: a FIFO of byte records in
    a fixed number of bytes, each record costing its length plus a four-byte
    header, one byte always unused; when full, either the oldest records are
    dropped or the new one is refused.  A ring whose records all have a length
    that is a multiple of four implements it, for every sequence of
    operations; for other lengths the skipped bytes before a wrapped header
    are not accounted for by the code, and [unaligned_reserve_overruns] shows
    the consequence. *)
From stdpp Require Import base list numbers list_numbers option.
From Stdlib Require Import ZArith Lia.
From S2P Require Import Prelude Circular EfiRing EfiRingFacts EfiRingOps EfiRingAccess.
Import EfiRing.
Open Scope Z_scope.

(** ** The abstract queue *)
Record queue := mkQueue {
  q_cap : Z; q_over : bool; q_items : list (list Z); q_lost : Z }.

Fixpoint q_used (items : list (list Z)) : Z :=
  match items with
  | [] => 0
  | d :: ds => sizeof_RING_RECORD + Zlength d + q_used ds
  end.

(** Drop oldest records until [total] bytes are free. *)
Fixpoint make_room (cap : Z) (items : list (list Z)) (total : Z) : nat * list (list Z) :=
  if total <=? cap - 1 - q_used items then (O, items)
  else match items with
  | [] => (O, [])
  | _ :: ds => let '(k, items) := make_room cap ds total in (S k, items)
  end.

Inductive ring_op := OpAdd (data : list Z) | OpRemove (avail : Z) | OpReset.

(** What the caller observes: status, size reported, data delivered. *)
Inductive ring_out := Out (status : EFI_STATUS) (size : Z) (data : list Z).

Definition q_add (q : queue) (data : list Z) : ring_out * queue :=
  let total := sizeof_RING_RECORD + Zlength data in
  if q_cap q - 1 <? total then
    (Out EFI_BAD_BUFFER_SIZE 0 [], mkQueue (q_cap q) (q_over q) (q_items q) (q_lost q + 1))
  else if total <=? q_cap q - 1 - q_used (q_items q) then
    (Out EFI_SUCCESS 0 [], mkQueue (q_cap q) (q_over q) (q_items q ++ [data]) (q_lost q))
  else if q_over q then
    let '(k, items) := make_room (q_cap q) (q_items q) total in
    (Out EFI_SUCCESS 0 [], mkQueue (q_cap q) (q_over q) (items ++ [data]) (q_lost q + Z.of_nat k))
  else
    (Out EFI_OUT_OF_RESOURCES 0 [], mkQueue (q_cap q) (q_over q) (q_items q) (q_lost q + 1)).

Definition q_remove (q : queue) (avail : Z) : ring_out * queue :=
  match q_items q with
  | [] => (Out EFI_NOT_FOUND 0 [], q)
  | d :: ds =>
    if avail <? Zlength d then (Out EFI_BUFFER_TOO_SMALL (Zlength d) [], q)
    else (Out EFI_SUCCESS (Zlength d) d, mkQueue (q_cap q) (q_over q) ds (q_lost q))
  end.

Definition q_step (q : queue) (op : ring_op) : ring_out * queue :=
  match op with
  | OpAdd data => q_add q data
  | OpRemove avail => q_remove q avail
  | OpReset => (Out EFI_SUCCESS 0 [], mkQueue (q_cap q) (q_over q) [] 0)
  end.

Fixpoint q_run (q : queue) (ops : list ring_op) : list ring_out * queue :=
  match ops with
  | [] => ([], q)
  | op :: ops =>
    let '(o, q) := q_step q op in let '(os, q) := q_run q ops in (o :: os, q)
  end.

(** ** The same operations on the ring *)
Section Run.
Context {B : BuildOptions}.

Definition ring_step (r : EFI_RING_BUFFER) (op : ring_op) : result (ring_out * EFI_RING_BUFFER) :=
  match op with
  | OpAdd data =>
    '(status, r, _) ← RingBufferAdd r data (Zlength data); Ok (Out status 0 [], r)
  | OpRemove avail =>
    '(status, r, buf, size) ←
      RingBufferRemove r (Some (replicate (Z.to_nat avail) 0)) (Some avail);
    let size := default 0 size in
    Ok (Out status size (if EFI_ERROR status then [] else take (Z.to_nat size) (default [] buf)), r)
  | OpReset => Ok (Out EFI_SUCCESS 0 [], RingBufferReset r)
  end.

Fixpoint ring_run (r : EFI_RING_BUFFER) (ops : list ring_op)
  : result (list ring_out * EFI_RING_BUFFER) :=
  match ops with
  | [] => Ok ([], r)
  | op :: ops =>
    '(o, r) ← ring_step r op; '(os, r) ← ring_run r ops; Ok (o :: os, r)
  end.

(** Callers of the aligned contract add whole numbers of four-byte units. *)
Definition op_aligned (op : ring_op) : Prop :=
  match op with
  | OpAdd data => Zlength data mod 4 = 0 /\ Zlength data + sizeof_RING_RECORD < 2 ^ 32
  | OpRemove avail => 0 <= avail < 2 ^ 32
  | OpReset => True
  end.

Record ring_abs (r : EFI_RING_BUFFER) (q : queue) : Prop := {
  abs_rep : ring_rep r (q_items q);
  abs_cap : Size r = q_cap q;
  abs_over : q_over q = negb (Z.land (Flags r) RING_BUFFER_OVERWRITE =? 0);
  abs_lost : LostWrites (Stats r) = u32 (q_lost q);
  abs_tail : Tail r mod 4 = 0;
  abs_items : Forall (fun d => Zlength d mod 4 = 0) (q_items q)
}.

(** ** Accounting in an aligned ring *)
Lemma q_used_app l1 l2 : q_used (l1 ++ l2) = q_used l1 + q_used l2.
Proof. induction l1; cbn [app q_used]; lia. Qed.

Lemma size_mod_4 r : ring_geom r -> Size r mod 4 = 0.
Proof.
  intros G. destruct (geom_pow _ G) as (k & Hk & ->).
  replace k with (2 + (k - 2)) by lia. rewrite Z.pow_add_r by lia.
  change (2 ^ 2) with 4. rewrite Z.mul_comm. apply Z_mod_mult.
Qed.

Lemma mod_size_mod_4 r x : ring_geom r -> (x mod Size r) mod 4 = x mod 4.
Proof. intros G. apply Z.mod_mod_divide, Z.mod_divide; [lia|]. by apply size_mod_4. Qed.

Lemma chain_end_aligned N pos recs :
  8 <= N -> N mod 4 = 0 -> pos mod 4 = 0 -> Forall (fun d => Zlength d mod 4 = 0) recs ->
  chain_end N pos recs = pos + q_used recs /\ chain_end N pos recs mod 4 = 0.
Proof.
  intros HN HN4 Hp Hall. revert pos Hp.
  induction Hall as [|d ds Hd Hds IH]; intros pos Hp; cbn [chain_end q_used]; [split; [lia|done]|].
  rewrite wrap_aligned by done. unfold sizeof_RING_RECORD in *.
  destruct (IH (pos + 4 + Zlength d)) as [E1 E2]; [zlia|]. split; [lia|done].
Qed.

Lemma abs_end r q :
  ring_abs r q ->
  chain_end (Size r) (Tail r) (q_items q) = Tail r + q_used (q_items q) /\
  waste (Size r) (Head r) = 0 /\ RingBufferBytesFree r = q_cap q - 1 - q_used (q_items q).
Proof.
  intros A. pose proof (abs_rep _ _ A) as R. pose proof (rep_size _ _ R).
  destruct (chain_end_aligned (Size r) (Tail r) (q_items q)) as [E1 E2];
    [lia|apply size_mod_4, R|apply A|apply A|].
  split_and!; [done| |rewrite (BytesFree_rep _ _ R), E1, (abs_cap _ _ A); lia].
  unfold waste. rewrite wrap_aligned; [lia|lia|apply size_mod_4, R|].
  rewrite (rep_head _ _ R), mod_size_mod_4 by apply R. done.
Qed.

Lemma make_room_drop cap items total k :
  (k <= length items)%nat ->
  (forall j, (j < k)%nat -> cap - 1 - q_used (drop j items) < total) ->
  total <= cap - 1 - q_used (drop k items) ->
  make_room cap items total = (k, drop k items).
Proof.
  revert items. induction k as [|k IH]; intros items Hk Hmin Hfit.
  - rewrite drop_0 in *. destruct items; cbn [make_room]; by rewrite (proj2 (Z.leb_le _ _)) by lia.
  - destruct items as [|d ds]; [simpl in Hk; lia|]. cbn [make_room drop] in *.
    pose proof (Hmin 0%nat ltac:(lia)) as H0. rewrite drop_0 in H0.
    rewrite (proj2 (Z.leb_gt _ _)) by lia. rewrite IH; [done|simpl in Hk; lia| |done].
    intros j Hj. apply (Hmin (S j)). lia.
Qed.

Lemma iter_bump_lost k s lost :
  LostWrites s = u32 lost -> LostWrites (Nat.iter k bump_lost s) = u32 (lost + Z.of_nat k).
Proof.
  intros Hs. induction k as [|k IH]; cbn [Nat.iter]; [by rewrite Z.add_0_r|].
  cbn [Nat.iter nat_rect] in IH |- *. cbn [bump_lost LostWrites]. unfold Nat.iter in IH. rewrite IH.
  unfold u32. rewrite Zplus_mod_idemp_l. f_equal. lia.
Qed.

(** Distance from the end to the [j]-th record. *)
Lemma abs_take_end r q j :
  ring_abs r q ->
  Tail r + q_used (q_items q) - chain_end (Size r) (Tail r) (take j (q_items q)) = q_used (drop j (q_items q)).
Proof.
  intros A. pose proof (abs_rep _ _ A) as R. pose proof (rep_size _ _ R).
  destruct (chain_end_aligned (Size r) (Tail r) (take j (q_items q))) as [-> _];
    [lia|apply size_mod_4, R|apply A|apply Forall_take, A|].
  rewrite <- (take_drop j (q_items q)) at 1. rewrite q_used_app. lia.
Qed.

(** Dropping oldest records. *)
Lemma drop_abs r q k r1 :
  ring_abs r q -> q_over q = true -> dropped k r r1 -> ring_rep r1 (drop k (q_items q)) ->
  Tail r1 = chain_end (Size r) (Tail r) (take k (q_items q)) mod Size r ->
  ring_abs r1 (mkQueue (q_cap q) true (drop k (q_items q)) (q_lost q + Z.of_nat k)).
Proof.
  intros A Ho D R1 Ht. pose proof (abs_rep _ _ A) as R. pose proof (rep_size _ _ R).
  constructor; cbn [q_cap q_over q_items q_lost].
  - done.
  - rewrite (dropped_size _ _ _ D). apply A.
  - rewrite (dropped_flags _ _ _ D), <- Ho. apply A.
  - rewrite (dropped_stats _ _ _ D). apply iter_bump_lost, A.
  - rewrite Ht, mod_size_mod_4 by apply R.
    apply chain_end_aligned; [lia|apply size_mod_4, R|apply A|apply Forall_take, A].
  - apply Forall_drop, A.
Qed.

(** Refusing a record. *)
Lemma lost_abs r q :
  ring_abs r q -> ring_abs (lost_write r) (mkQueue (q_cap q) (q_over q) (q_items q) (q_lost q + 1)).
Proof.
  intros [R Hc Ho Hl Ht Hi]. constructor; try done.
  - by apply rep_set_Stats.
  - cbn. rewrite Hl. unfold u32. by rewrite Zplus_mod_idemp_l.
Qed.

(** Appending a record after a reservation. *)
Lemma push_abs r1 r' cap ov items lost data hd b :
  ring_abs r1 (mkQueue cap ov items lost) -> reserved r1 r' hd -> Zlength data mod 4 = 0 ->
  ring_rep (set_Buffer r' b) (items ++ [take (Z.to_nat (Zlength data)) data]) ->
  ring_abs (set_Buffer r' b) (mkQueue cap ov (items ++ [data]) lost).
Proof.
  intros A [_ _ Hst Hfl Hs Ht] Ha Rb. unfold Zlength in Rb. rewrite Nat2Z.id, firstn_all in Rb.
  destruct A. cbn in *. constructor; cbn; try congruence.
  - by rewrite Hst.
  - apply Forall_app; split; [done|]. by repeat constructor.
Qed.

(** ** One operation *)
Lemma add_refines r q data :
  ring_abs r q -> op_aligned (OpAdd data) ->
  exists r', ring_step r (OpAdd data) = Ok (fst (q_add q data), r') /\ ring_abs r' (snd (q_add q data)).
Proof.
  intros A [Ha Hsz]. pose proof (abs_rep _ _ A) as R. pose proof (rep_geom _ _ R) as G.
  destruct (abs_end _ _ A) as (Hend & Hw & Hfree). pose proof (abs_cap _ _ A) as Hcap.
  pose proof (Zlength_nonneg data) as Hn. cbn [ring_step]. unfold q_add.
  destruct (Z.ltb_spec (q_cap q - 1) (sizeof_RING_RECORD + Zlength data)) as [Hbig|Hok].
  { unfold RingBufferAdd. rewrite Reserve_too_big by (done || lia). cbn. eexists. split; [done|].
    by apply lost_abs. }
  destruct (Z.leb_spec (sizeof_RING_RECORD + Zlength data) (q_cap q - 1 - q_used (q_items q))) as [Hfit|Hfull].
  { destruct (Reserve_fits r (q_items q) (Zlength data) R Hn) as (r' & hd & d & E & Hd & R' & Rs);
      [rewrite Hw, Hfree; lia|].
    destruct (Add_after_reserve r r r' (q_items q) d hd data (Zlength data) E R R' Rs Hd) as (b & -> & Rb); [lia|].
    rewrite bind_Ok. eexists. split; [done|]. destruct q. by eapply push_abs. }
  pose proof (abs_over _ _ A) as Hov. destruct (q_over q) eqn:Eo.
  - destruct (Reserve_overwrite r (q_items q) (Zlength data) R Hn) as
      (k & r1 & r' & hd & d & E & Hd & Hk & R' & D & Rs & Hf1 & R1 & Ht1 & Hmin); [lia..| |done|].
    { intros E0. rewrite E0 in Hov. done. }
    destruct (Add_after_reserve r r1 r' (drop k (q_items q)) d hd data (Zlength data) E R1 R' Rs Hd)
      as (b & -> & Rb); [lia|]. rewrite bind_Ok.
    assert (A1 : ring_abs r1 (mkQueue (q_cap q) true (drop k (q_items q)) (q_lost q + Z.of_nat k)))
      by (by eapply drop_abs).
    destruct (abs_end _ _ A1) as (_ & _ & Hfree1). cbn [q_cap q_items] in Hfree1.
    rewrite (make_room_drop (q_cap q) (q_items q) (sizeof_RING_RECORD + Zlength data) k); [|done| |lia].
    2:{ intros j Hj. specialize (Hmin j Hj). rewrite Hend, (abs_take_end _ _ _ A) in Hmin. lia. }
    eexists. split; [done|]. by eapply push_abs.
  - unfold RingBufferAdd. rewrite Reserve_full; [|done|lia|lia|lia|].
    2:{ symmetry in Hov. apply negb_false_iff, Z.eqb_eq in Hov. done. }
    cbn. eexists. split; [done|]. rewrite <- Eo. by apply lost_abs.
Qed.

Lemma remove_refines r q avail :
  ring_abs r q -> op_aligned (OpRemove avail) ->
  exists r', ring_step r (OpRemove avail) = Ok (fst (q_remove q avail), r') /\
    ring_abs r' (snd (q_remove q avail)).
Proof.
  intros A Hav. cbn in Hav. pose proof (abs_rep _ _ A) as R. unfold q_remove. cbn [ring_step].
  destruct (q_items q) as [|d ds] eqn:Eq.
  - unfold RingBufferRemove, RingBufferReadRecord.
    rewrite rep_empty_NOT_FOUND by (done || pose proof (geom_tail _ (rep_geom _ _ R)); lia).
    cbn. eexists. split; [done|exact A].
  - pose proof (ReadRecord_Some r [] d ds (replicate (Z.to_nat avail) 0) avail R) as E.
    cbn [chain_end] in E. rewrite (rep_tail_mod _ _ R), Zlength_replicate in E by lia.
    specialize (E ltac:(lia)). destruct (Z.ltb_spec avail (Zlength d)) as [Hlt|Hge].
    + unfold RingBufferRemove. rewrite E. cbn. eexists. split; [done|exact A].
    + destruct (Remove_after_read r d ds _ _ _ _ R E) as (r' & -> & D). rewrite bind_Ok.
      cbn [EFI_ERROR default fst snd]. exists r'. split.
      * unfold id. rewrite take_app_length' by (unfold Zlength; lia). done.
      * pose proof (rep_size _ _ R). pose proof (abs_items _ _ A) as Hal. rewrite Eq in Hal.
        apply Forall_cons_iff in Hal as [Hd Hds]. destruct A as [_ Hc Ho Hl Ht _].
        destruct D as [R' _ Hs Hf Hsz _ Htl].
        constructor; cbn; try congruence. rewrite (Htl d R), mod_size_mod_4 by apply R.
        rewrite wrap_aligned; [unfold sizeof_RING_RECORD; zlia|lia|apply size_mod_4, R|done].
Qed.

Lemma step_refines r q op :
  ring_abs r q -> op_aligned op ->
  exists r', ring_step r op = Ok (fst (q_step q op), r') /\ ring_abs r' (snd (q_step q op)).
Proof.
  intros A Hop. destruct op as [data|avail|].
  - by apply add_refines.
  - by apply remove_refines.
  - eexists. split; [done|]. destruct A as [R Hc Ho Hl Ht Hi]. cbn.
    constructor; try done. by eapply Reset_rep.
Qed.

Lemma run_refines r q ops :
  ring_abs r q -> Forall op_aligned ops ->
  exists r', ring_run r ops = Ok (fst (q_run q ops), r') /\ ring_abs r' (snd (q_run q ops)).
Proof.
  intros A Hops. revert r q A. induction Hops as [|op ops Hop Hops IH]; intros r q A; cbn [ring_run q_run].
  - by exists r.
  - destruct (step_refines r q op A Hop) as (r1 & -> & A1). rewrite bind_Ok.
    destruct (q_step q op) as [o q1]. cbn [fst snd] in *.
    destruct (IH r1 q1 A1) as (r2 & -> & A2). rewrite bind_Ok.
    destruct (q_run q1 ops) as [os q2]. by exists r2.
Qed.

Definition empty_queue (cap flags : Z) : queue :=
  mkQueue cap (negb (Z.land flags RING_BUFFER_OVERWRITE =? 0)) [] 0.

Lemma init_abs r0 cap flags k :
  3 <= k <= 31 -> cap = 2 ^ k -> Zlength (Buffer r0) = cap ->
  ring_abs (snd (RingBufferInitialize r0 cap flags)) (empty_queue cap flags).
Proof.
  intros Hk Ek Hb. assert (0 <= cap < 2 ^ 32).
  { rewrite Ek. split; [lia|]. apply Z.pow_lt_mono_r; lia. }
  assert (8 <= cap) by (rewrite Ek; change 8 with (2 ^ 3); apply Z.pow_le_mono_r; lia).
  pose proof (Initialize_spec r0 cap flags ltac:(done) Hb) as E.
  destruct (RingBufferInitialize r0 cap flags) as [st r]. cbn [snd].
  destruct st; try (destruct E as (_ & _ & [|E]); [lia|by destruct (E k ltac:(lia))]).
  destruct E as (R & Hs & Hf & Ht & Hst & _).
  constructor; cbn; try done; [by rewrite Hf|by rewrite Hst|by rewrite Ht].
Qed.
End Run.
