(* ===== verification/RingProps.v ===== *)
(** The properties of the event ring ([EfiRing.c]) and their witnesses. *)
From stdpp Require Import base list numbers list_numbers option.
From Stdlib Require Import ZArith Lia.
From S2P Require Import Prelude Circular EfiRing EfiRingFacts EfiRingOps EfiRingAccess EventQueue.
Import EfiRing.
Open Scope Z_scope.

(** A 16-byte ring, used by the concrete instances below. *)
Definition ring16 (flags : Z) : EFI_RING_BUFFER :=
  mkRing 16 15 0 0 flags (mkStats 0 0 0) 0 (replicate 16 0).

Lemma ring16_empty flags : ring_rep (ring16 flags) [].
Proof.
  constructor; cbn; try done. constructor; cbn; try done; try lia. exists 4. split; [lia|done].
Qed.

(** Enumerating from the start and reading each item through its handle, as a
    client of the ring does; [fuel] bounds the number of items. *)
Fixpoint enum_all {B : BuildOptions} (fuel : nat) (r : EFI_RING_BUFFER) (en : Z) : result (list (list Z)) :=
  match fuel with
  | O => Fault Diverges
  | S fuel =>
    '(status, r, en, item, size) ← RingBufferHandleEnumerate r en;
    if EFI_ERROR status then Ok []
    else
      let n := size - sizeof_RING_RECORD in
      '(_, r, data, n) ← RingBufferIo r item DataRead 0 (replicate (Z.to_nat n) 0) n;
      rest ← enum_all fuel r en;
      Ok (take (Z.to_nat n) data :: rest)
  end.

Lemma enum_all_spec {B : BuildOptions} fuel r pre post en :
  ring_rep r (pre ++ post) -> enum_at r pre en -> (length post < fuel)%nat ->
  enum_all fuel r en = Ok post.
Proof.
  revert r pre post en. induction fuel as [|fuel IH]; intros r pre post en R Hen Hf; [lia|].
  cbn [enum_all]. destruct post as [|d post].
  - rewrite app_nil_r in R. by rewrite (Enumerate_end _ _ _ R Hen), bind_Ok.
  - destruct (Enumerate_next _ _ _ _ _ R Hen) as (en' & item & -> & Hit & Hen').
    rewrite bind_Ok. cbn [EFI_ERROR]. pose proof (with_key_rep _ _ R) as R1.
    pose proof (at_facts _ _ _ _ R) as F.
    replace (sizeof_RING_RECORD + Zlength d - sizeof_RING_RECORD) with (Zlength d) by lia.
    rewrite (Io_read _ _ _ _ _ _ _ _ R1 Hit) by (rewrite ?Zlength_replicate; lia).
    rewrite (proj2 (Z.ltb_ge _ 0)) by lia. cbn zeta. rewrite bind_Ok.
    replace (Z.min (Zlength d) (Zlength d - 0)) with (Zlength d) by lia.
    rewrite (IH _ (pre ++ [d]) post); [|by rewrite <- app_assoc|done|simpl in Hf; lia].
    rewrite bind_Ok. do 2 f_equal. unfold zslice, Zlength. rewrite !Nat2Z.id, drop_0, firstn_all.
    apply take_app_length.
Qed.

(** C1. Starting from [RingBufferInitialize] on a buffer whose size is a power
    of two, every sequence of additions (of records made of whole four-byte
    units), removals and resets runs without a fault in every build, returns
    exactly the statuses, sizes and data of the abstract bounded queue, and
    leaves a ring that represents the queue's contents. *)
Theorem ring_refines_queue {B : BuildOptions} r0 cap flags k ops :
  3 <= k <= 31 -> cap = 2 ^ k -> Zlength (Buffer r0) = cap -> Forall op_aligned ops ->
  exists r', ring_run (snd (RingBufferInitialize r0 cap flags)) ops =
      Ok (fst (q_run (empty_queue cap flags) ops), r') /\
    ring_abs r' (snd (q_run (empty_queue cap flags) ops)).
Proof. intros Hk Ek Hb Hops. eapply run_refines; [by eapply init_abs|done]. Qed.

Lemma ring_refines_queue_witness :
  let ops := [OpAdd [1; 2; 3; 4]; OpAdd [5; 6; 7; 8]; OpRemove 3; OpRemove 8] in
  exists r', ring_run (B := debug_build) (snd (RingBufferInitialize (ring16 0) 16 1)) ops =
      Ok (fst (q_run (empty_queue 16 1) ops), r') /\
    ring_abs r' (snd (q_run (empty_queue 16 1) ops)).
Proof.
  apply (ring_refines_queue (B := debug_build) (ring16 0) 16 1 4); [lia|done|done|].
  repeat constructor; vm_compute; congruence.
Defined.

(** Through the handle of a live record of any well-formed ring, a write
    inside the record succeeds, changes those bytes of that record and nothing
    of the others, and reading the same range back returns the bytes written. *)
Lemma io_write_then_read {B : BuildOptions} r pre d post handle o data buf :
  ring_rep r (pre ++ d :: post) -> handle_for r pre handle ->
  0 <= o -> o + Zlength data <= Zlength d -> Zlength buf = Zlength data ->
  exists r', RingBufferIo r handle DataWrite o data (Zlength data) =
      Ok (EFI_SUCCESS, r', data, Zlength data) /\
    ring_rep r' (pre ++ splice d o data :: post) /\
    RingBufferIo r' handle DataRead o buf (Zlength data) = Ok (EFI_SUCCESS, r', data, Zlength data).
Proof.
  intros R Hh Ho Hd Hb. pose proof (at_facts _ _ _ _ R) as F. pose proof (Zlength_nonneg data).
  pose proof (Io_write r pre d post handle o data (Zlength data) R Hh Ho) as W.
  rewrite !(proj2 (Z.ltb_ge _ _)) in W by lia. destruct W as (b & Ew & Rb); [lia..|].
  unfold Zlength in Rb at 1. rewrite Nat2Z.id, firstn_all in Rb.
  exists (set_Buffer r b). split_and!; [done|done|].
  rewrite (Io_read _ pre (splice d o data) post handle o buf (Zlength data)); [|done|done|lia..].
  rewrite Zlength_splice, (proj2 (Z.ltb_ge _ _)) by lia. cbn zeta.
  rewrite Z.min_l by lia. rewrite drop_ge by (unfold Zlength in *; lia).
  rewrite app_nil_r. do 3 f_equal. apply zget_ext.
  - rewrite Zlength_zslice; rewrite ?Zlength_splice; lia.
  - intros i. rewrite Zlength_zslice by (rewrite ?Zlength_splice; lia). intros Hi.
    rewrite zget_zslice, zget_splice by lia. rewrite (proj2 (Z.leb_le _ _)), (proj2 (Z.ltb_lt _ _)) by lia.
    cbn [andb]. f_equal. lia.
Qed.

(** A ring that holds one record, and its handle. *)
Definition ring16_one : EFI_RING_BUFFER :=
  mkRing 16 15 8 0 0 (mkStats 0 1 0) 1 ([8; 0; 0; 0; 1; 2; 3; 4] ++ replicate 8 0).

Lemma ring16_one_rep : ring_rep ring16_one [[1; 2; 3; 4]].
Proof.
  constructor; try done. constructor; cbn; try done; try lia. exists 4. split; [lia|done].
Qed.

(** Enumerating a well-formed ring from its start and reading every item
    through the handle enumeration returned yields the records, oldest first,
    and then ends. *)
Lemma enumeration_complete {B : BuildOptions} r recs :
  ring_rep r recs -> enum_all (S (length recs)) r INVALID_RING_HANDLE = Ok recs.
Proof. intros R. apply (enum_all_spec _ r [] recs); [done|by left|lia]. Qed.

(** [RingBufferFlatten] returns the data of all records of a well-formed
    ring, in order and without their headers, and its length; when the buffer
    is smaller than the used part of the ring it asks for that size and
    writes nothing. *)
Lemma flatten_is_concat {B : BuildOptions} r recs BufferSize buf :
  ring_rep r recs -> BufferSize <= Zlength buf -> BufferSize < 2 ^ 32 ->
  let used := chain_end (Size r) (Tail r) recs - Tail r in
  if BufferSize <? used + 1
  then RingBufferFlatten r BufferSize buf = Ok (EFI_BUFFER_TOO_SMALL, used + 1, buf)
  else RingBufferFlatten r BufferSize buf =
         Ok (EFI_SUCCESS, Zlength (concat recs), concat recs ++ drop (length (concat recs)) buf).
Proof. apply Flatten_spec. Qed.

(** Removing a record invalidates every handle: whatever handle the ring
    accepted before a successful [RingBufferRemove] is refused afterwards by
    the validity check and by reads and writes. *)
Lemma remove_invalidates_handles {B : BuildOptions} r d ds handle :
  ring_rep r (d :: ds) -> RingBufferHandleIsValid r handle = Ok EFI_SUCCESS ->
  exists r', RingBufferRemove r None None = Ok (EFI_SUCCESS, r', None, None) /\ ring_rep r' ds /\
    RingBufferHandleIsValid r' handle = Ok EFI_INVALID_PARAMETER /\
    forall op o data n, RingBufferIo r' handle op o data n = Ok (EFI_INVALID_PARAMETER, r', data, n).
Proof.
  intros R Hv. destruct (Remove_nodata r d ds R) as (r' & E & D). exists r'.
  assert (Hk : RING_HANDLE_GET_KEY handle <> HandleKey r').
  { rewrite (removed_key _ _ _ D). unfold RingBufferHandleIsValid in Hv.
    destruct (Z.eqb_spec (RING_HANDLE_GET_KEY handle) (HandleKey r)) as [->|]; [|done].
    intros E'. symmetry in E'. revert E'. apply next_key_ne. apply R. }
  split_and!; [done|apply D|apply (Io_stale _ _ DataRead 0 [] 0 Hk)|].
  intros op o data n. apply (Io_stale _ _ op o data n Hk).
Qed.

(** C33. On any well-formed ring in overwrite mode whose [Head] leaves room for
    a header before the end of the buffer, a reservation that does not fit the free
    space but fits the ring at all terminates with success in every build: it drops
    the least number of oldest records, counts each as lost, and appends one record
    of the requested size, which the returned handle designates. *)
Theorem overwrite_reserve_succeeds {B : BuildOptions} r recs n :
  ring_rep r recs -> 0 <= n -> n + sizeof_RING_RECORD <= Size r - 1 ->
  RingBufferBytesFree r < n + sizeof_RING_RECORD ->
  Z.land (Flags r) RING_BUFFER_OVERWRITE <> 0 -> Head r + sizeof_RING_RECORD <= Size r ->
  exists k r' handle d, RingBufferReserve r n = Ok (EFI_SUCCESS, r', handle) /\
    Zlength d = n /\ ring_rep r' (drop k recs ++ [d]) /\ handle_for r' (drop k recs) handle /\
    LostWrites (Stats r') = LostWrites (Nat.iter k bump_lost (Stats r)) /\
    (forall j, (j < k)%nat -> Size r - 1 - (chain_end (Size r) (Tail r) recs -
       chain_end (Size r) (Tail r) (take j recs)) < n + sizeof_RING_RECORD).
Proof.
  intros R Hn Hsz Hfull Hfl Hh. assert (Hw : waste (Size r) (Head r) = 0).
  { unfold waste, wrap. pose proof (geom_head _ (rep_geom _ _ R)). rewrite Z.mod_small by lia.
    unfold sizeof_RING_RECORD in *. by rewrite (proj2 (Z.ltb_ge _ _)) by lia; lia. }
  destruct (Reserve_overwrite r recs n R Hn Hsz Hfull Hfl Hw) as
    (k & r1 & r' & hd & d & E & Hd & Hk & R' & D & Rs & _ & R1 & _ & Hmin).
  exists k, r', hd, d. split_and!; [done|done|done|by eapply reserved_handle_for| |done].
  by rewrite (reserved_stats _ _ _ Rs), (dropped_stats _ _ _ D).
Qed.

Definition ring16_over : EFI_RING_BUFFER :=
  mkRing 16 15 8 0 1 (mkStats 0 1 0) 1 ([8; 0; 0; 0; 1; 2; 3; 4] ++ replicate 8 0).

Lemma overwrite_reserve_succeeds_witness :
  exists k r' handle d, RingBufferReserve (B := debug_build) ring16_over 8 = Ok (EFI_SUCCESS, r', handle) /\
    Zlength d = 8 /\ ring_rep r' (drop k [[1; 2; 3; 4]] ++ [d]) /\
    handle_for r' (drop k [[1; 2; 3; 4]]) handle /\
    LostWrites (Stats r') = LostWrites (Nat.iter k bump_lost (Stats ring16_over)) /\
    (forall j, (j < k)%nat -> 16 - 1 - (chain_end 16 0 [[1; 2; 3; 4]] -
       chain_end 16 0 (take j [[1; 2; 3; 4]])) < 8 + sizeof_RING_RECORD).
Proof.
  apply (overwrite_reserve_succeeds (B := debug_build) ring16_over [[1; 2; 3; 4]] 8);
    [|lia|vm_compute; congruence|reflexivity|done|vm_compute; congruence].
  constructor; try done. constructor; cbn; try done; try lia. exists 4. split; [lia|done].
Defined.

(** Without room for a header at [Head] it may fail: in an overwriting ring of 16
    bytes, after additions of 5 and of 1 byte, [Head] is two bytes before the end;
    reserving 5 bytes reports success and leaves a ring that reads as empty. *)
Lemma overwrite_without_room :
  let r0 := snd (RingBufferInitialize (ring16 0) 16 RING_BUFFER_OVERWRITE) in
  let added r data := r ← r; '(_, r, _) ← RingBufferAdd (B := release_build) r data (Zlength data); Ok r in
  let r2 := added (added (Ok r0) [1; 2; 3; 4; 5]) [6] in
  (r ← r2; Ok (Head r)) = Ok 14 /\
  (r ← r2; '(st, r, _) ← RingBufferReserve (B := release_build) r 5; Ok (st, Head r =? Tail r)) = Ok (EFI_SUCCESS, true).
Proof. split; vm_compute; reflexivity. Qed.

(** [RingBufferReserve] does not count the bytes skipped when a header is
    moved to the start of the buffer.  On a fresh 16-byte ring that refuses
    new data when full, three additions whose lengths are not multiples of
    four all report success, but the last one overwrites the header of the
    oldest live record: removing that record then fails in a release build and
    trips an assertion in a debug build, where the queue delivers its byte. *)
Lemma unaligned_reserve_overruns :
  let ops := [OpAdd [1; 2; 3; 4; 5]; OpRemove 8; OpAdd [170]; OpAdd [17; 18; 19; 20; 21; 22]; OpRemove 8] in
  let r0 := snd (RingBufferInitialize (ring16 0) 16 0) in
  (exists r', ring_run (B := release_build) r0 ops =
     Ok ([Out EFI_SUCCESS 0 []; Out EFI_SUCCESS 5 [1; 2; 3; 4; 5]; Out EFI_SUCCESS 0 [];
          Out EFI_SUCCESS 0 []; Out EFI_INVALID_PARAMETER 0 []], r')) /\
  ring_run (B := debug_build) r0 ops = Fault AssertFailed /\
  fst (q_run (empty_queue 16 0) ops) =
    [Out EFI_SUCCESS 0 []; Out EFI_SUCCESS 5 [1; 2; 3; 4; 5]; Out EFI_SUCCESS 0 [];
     Out EFI_SUCCESS 0 []; Out EFI_SUCCESS 1 [170]].
Proof. split_and!; [eexists| |]; vm_compute; reflexivity. Qed.

(** A handle survives [RingBufferReset]: after a reset and one new
    reservation the ring accepts the handle of a record that existed before
    the reset, because the handle key restarts at the same value. *)
Lemma reset_revives_handle {B : BuildOptions} :
  exists r1 handle r2 handle2,
    RingBufferAdd (ring16 0) [1; 2; 3; 4] 4 = Ok (EFI_SUCCESS, r1, handle) /\
    RingBufferHandleIsValid (RingBufferReset r1) handle = Ok EFI_INVALID_PARAMETER /\
    RingBufferAdd (RingBufferReset r1) [5; 6; 7; 8] 4 = Ok (EFI_SUCCESS, r2, handle2) /\
    RingBufferHandleIsValid r2 handle = Ok EFI_SUCCESS.
Proof.
  destruct B as [a c]; destruct a, c; do 4 eexists;
    (split; [vm_compute; reflexivity|]); (split; [vm_compute; reflexivity|]);
    (split; [vm_compute; reflexivity|vm_compute; reflexivity]).
Qed.
