(* ===== verification/HandleTable.v ===== *)
(** The handle table: [MsvmPkg/EventLogDxe/EfiHandleTable.c].

    A table slot is a pointer ([None] is NULL).  The memory the pointers
    designate belongs to the clients; the table reads only the first bytes of
    an object, its key, which [object_bytes] supplies.  Memory is obtained
    through a caller-supplied allocator, whose answer is an argument here. *)
From stdpp Require Import base list numbers list_numbers option sets.
From Stdlib Require Import ZArith Lia.
From S2P Require Import Prelude.
Open Scope Z_scope.

Module HandleTable.

Definition EFI_INVALID_HANDLE : Z := 2 ^ 64 - 1.
Definition HANDLE_TABLE_MAX_SIZE : Z := 0xFFFF - 1.
Definition HANDLE_TABLE_KEY_MASK : Z := 0x00FF0000.
Definition HANDLE_TABLE_INDEX_MASK : Z := 0x0000FFFF.

(** [Allocate] is whether the allocator pointer is non-NULL. *)
Record EFI_HANDLE_TABLE_INFO := mkInfo { Allocate : bool; ObjectKeySize : Z }.

Record EFI_HANDLE_TABLE := mkTable {
  Info : EFI_HANDLE_TABLE_INFO; Size : Z; TableKey : Z; NextFree : Z;
  Handles : list (option Z) }.

Implicit Types t : EFI_HANDLE_TABLE.

Definition HANDLE_TABLE_ENCODE t (index : Z) : Z := u32 (Z.lor index (TableKey t) + 1).
Definition HANDLE_TABLE_INDEX (h : Z) : Z := u32 (Z.land (u32 h) HANDLE_TABLE_INDEX_MASK - 1).
Definition HANDLE_TABLE_KEY (h : Z) : Z := Z.land (u32 h) HANDLE_TABLE_KEY_MASK.

(** [table->Handles[index]]. *)
Definition slot t (index : Z) : result (option Z) :=
  if index <? 0 then Fault OutOfBounds
  else match Handles t !! Z.to_nat index with
  | Some p => Ok p
  | None => Fault OutOfBounds
  end.

(** [Table] is whether the out-parameter is non-NULL; [allocated] is whether
    the allocator returned memory for the table. *)
Definition EfiHandleTableInitialize (Attributes : option EFI_HANDLE_TABLE_INFO) (size tableKey : Z)
    (Table allocated : bool) : result (EFI_STATUS * option EFI_HANDLE_TABLE) :=
  let '(status, table) :=
    match Attributes with
    | Some info =>
      if negb Table || (size =? 0) || (HANDLE_TABLE_MAX_SIZE <? size) || negb (Allocate info)
      then (EFI_INVALID_PARAMETER, None)
      else if negb allocated then (EFI_OUT_OF_RESOURCES, None)
      else (EFI_SUCCESS,
            Some (mkTable info size (u32 (Z.shiftl tableKey 16)) 0 (replicate (Z.to_nat size) None)))
    | None => (EFI_INVALID_PARAMETER, None)
    end in
  (* *Table = table *)
  if Table then Ok (status, table) else Fault NullDeref.

(** [for (index = table->NextFree; index < table->Size; index++)] *)
Fixpoint find_free (fuel : nat) t (index : Z) : result Z :=
  if index <? Size t then
    match fuel with
    | O => Fault Diverges
    | S fuel =>
      p ← slot t index;
      match p with
      | None => Ok index
      | Some _ => find_free fuel t (index + 1)
      end
    end
  else Ok index.

(** [allocated] is what the allocator returns for the object.  Status, table,
    object and handle on return. *)
Definition EfiHandleTableAllocateObject t (ObjectSize : Z) (allocated : option Z)
  : result (EFI_STATUS * EFI_HANDLE_TABLE * option Z * Z) :=
  if ObjectSize <? ObjectKeySize (Info t) then
    Ok (EFI_INVALID_PARAMETER, t, None, EFI_INVALID_HANDLE)
  else
    index ← find_free (Z.to_nat (Size t)) t (NextFree t);
    if index <? Size t then
      match allocated with
      | Some object =>
        let t' := mkTable (Info t) (Size t) (TableKey t) (u32 (NextFree t + 1))
                    (<[Z.to_nat index := Some object]> (Handles t)) in
        Ok (EFI_SUCCESS, t', Some object, HANDLE_TABLE_ENCODE t index)
      | None => Ok (EFI_OUT_OF_RESOURCES, t, None, EFI_INVALID_HANDLE)
      end
    else Ok (EFI_OUT_OF_RESOURCES, t, None, EFI_INVALID_HANDLE).

Section Lookup.
(** The bytes of the object at an address. *)
Context (object_bytes : Z -> list Z).

Fixpoint lookup_key_loop (fuel : nat) t (index : Z) (Key : list Z) (KeySize : Z)
  : result (option Z * Z) :=
  if index <? Size t then
    match fuel with
    | O => Fault Diverges
    | S fuel =>
      p ← slot t index;
      match p with
      | Some object =>
        a ← mem_read (object_bytes object) 0 KeySize;
        b ← mem_read Key 0 KeySize;
        if bool_decide (a = b) then Ok (Some object, HANDLE_TABLE_ENCODE t index)
        else lookup_key_loop fuel t (index + 1) Key KeySize
      | None => lookup_key_loop fuel t (index + 1) Key KeySize
      end
    end
  else Ok (None, EFI_INVALID_HANDLE).

(** Object and handle. *)
Definition EfiHandleTableLookupByKey t (Key : list Z) (KeySize : Z) : result (option Z * Z) :=
  if (KeySize <=? ObjectKeySize (Info t)) && (0 <? KeySize)
  then lookup_key_loop (Z.to_nat (Size t)) t 0 Key KeySize
  else Ok (None, EFI_INVALID_HANDLE).
End Lookup.

Definition EfiHandleTableLookupByHandle t (Handle : Z) : result (option Z) :=
  let index := HANDLE_TABLE_INDEX Handle in
  if negb (Handle =? EFI_INVALID_HANDLE) && (HANDLE_TABLE_KEY Handle =? TableKey t) && (index <? Size t)
  then slot t index
  else Ok None.

Section Enumerate.
(** The callback runs in the client's state. *)
Context {S : Type} (Callback : Z -> Z -> S -> result (EFI_STATUS * S)).

Fixpoint enumerate_loop (fuel : nat) t (index : Z) (status : EFI_STATUS) (s : S)
  : result (EFI_STATUS * S) :=
  if index <? Size t then
    match fuel with
    | O => Fault Diverges
    | Datatypes.S fuel =>
      p ← slot t index;
      match p with
      | Some object =>
        '(status, s) ← Callback (HANDLE_TABLE_ENCODE t index) object s;
        if EFI_ERROR status then Ok (status, s)
        else enumerate_loop fuel t (index + 1) status s
      | None => enumerate_loop fuel t (index + 1) status s
      end
    end
  else Ok (status, s).

Definition EfiHandleTableEnumerateObjects t (s : S) : result (EFI_STATUS * S) :=
  enumerate_loop (Z.to_nat (Size t)) t 0 EFI_SUCCESS s.
End Enumerate.

(** ** Well-formed tables

    Slots are filled in order and never emptied; [objects] are the pointers
    handed out so far, oldest first. *)
Record table_rep t (objects : list Z) : Prop := {
  rep_size : 0 < Size t <= HANDLE_TABLE_MAX_SIZE;
  rep_key : exists k, 0 <= k < 256 /\ TableKey t = k * 2 ^ 16;
  rep_next : NextFree t = Zlength objects;
  rep_fits : Zlength objects <= Size t;
  rep_handles : Handles t =
    map Some objects ++ replicate (Z.to_nat (Size t - Zlength objects)) None
}.

Lemma Initialize_rep info size key t :
  0 <= size -> 0 <= key < 256 ->
  EfiHandleTableInitialize (Some info) size key true true = Ok (EFI_SUCCESS, Some t) ->
  table_rep t [] /\ Size t = size /\ Info t = info /\ TableKey t = key * 2 ^ 16.
Proof.
  intros Hs Hk E. unfold EfiHandleTableInitialize in E. cbn [negb orb] in E.
  destruct (Z.eqb_spec size 0); [done|]. destruct (Z.ltb_spec HANDLE_TABLE_MAX_SIZE size); [done|].
  destruct (Allocate info); [|done]. simplify_eq/=.
  assert (Ek : u32 (Z.shiftl key 16) = key * 2 ^ 16).
  { rewrite Z.shiftl_mul_pow2 by lia. apply u32_small. lia. }
  split_and!; [|done|done|done]. split; cbn [Size TableKey NextFree Handles Zlength length map app].
  - unfold HANDLE_TABLE_MAX_SIZE in *. lia.
  - exists key. auto.
  - done.
  - unfold Zlength. simpl. lia.
  - unfold Zlength. simpl. by rewrite Z.sub_0_r.
Qed.

Lemma slot_rep t objects i :
  table_rep t objects -> 0 <= i < Size t -> slot t i = Ok (objects !! Z.to_nat i).
Proof.
  intros R Hi. unfold slot. rewrite (proj2 (Z.ltb_ge _ _)) by lia. rewrite (rep_handles _ _ R).
  pose proof (rep_fits _ _ R) as Hf. unfold Zlength in *.
  destruct (objects !! Z.to_nat i) as [p|] eqn:E.
  - rewrite lookup_app_l by (rewrite length_map; by eapply lookup_lt_Some).
    rewrite list_lookup_fmap, E. done.
  - apply lookup_ge_None in E. rewrite lookup_app_r by (rewrite length_map; lia).
    rewrite length_map, lookup_replicate_2 by lia. done.
Qed.

(** A handle is the index plus one, tagged with the table's key. *)
Lemma ENCODE_value t objects i :
  table_rep t objects -> 0 <= i < Size t -> HANDLE_TABLE_ENCODE t i = TableKey t + i + 1.
Proof.
  intros R Hi. destruct (rep_key _ _ R) as (k & Hk & Ek). pose proof (rep_size _ _ R) as Hs.
  unfold HANDLE_TABLE_MAX_SIZE in Hs. unfold HANDLE_TABLE_ENCODE. rewrite Ek.
  rewrite lor_field_add, u32_small by lia. lia.
Qed.
Lemma INDEX_ENCODE t objects i :
  table_rep t objects -> 0 <= i < Size t ->
  HANDLE_TABLE_INDEX (HANDLE_TABLE_ENCODE t i) = i /\
  HANDLE_TABLE_KEY (HANDLE_TABLE_ENCODE t i) = TableKey t /\
  HANDLE_TABLE_ENCODE t i <> EFI_INVALID_HANDLE.
Proof.
  intros R Hi. rewrite (ENCODE_value _ _ _ R Hi). destruct (rep_key _ _ R) as (k & Hk & Ek).
  pose proof (rep_size _ _ R) as Hs. unfold HANDLE_TABLE_MAX_SIZE in Hs. rewrite Ek.
  unfold HANDLE_TABLE_INDEX, HANDLE_TABLE_KEY, HANDLE_TABLE_INDEX_MASK, HANDLE_TABLE_KEY_MASK, EFI_INVALID_HANDLE.
  rewrite (u32_small (k * 2 ^ 16 + i + 1)) by lia. split_and!; [| |lia].
  - change 0x0000FFFF with (Z.ones 16). rewrite land_low_mask by lia.
    replace (k * 2 ^ 16 + i + 1) with (i + 1 + k * 2 ^ 16) by lia. rewrite Z.mod_add by lia.
    rewrite Z.mod_small, u32_small by lia. lia.
  - replace (k * 2 ^ 16 + i + 1) with (i + 1 + k * 2 ^ 16) by lia.
    rewrite <- lor_field_add, Z.land_lor_distr_l by lia.
    replace (Z.land (i + 1) 0x00FF0000) with 0.
    + rewrite Z.lor_0_l, <- Z.shiftl_mul_pow2 by lia. change 0x00FF0000 with (Z.shiftl (Z.ones 8) 16).
      rewrite <- Z.shiftl_land, land_low_mask, Z.mod_small by lia. done.
    + rewrite <- (Z.mod_small (i + 1) (2 ^ 16)) by lia. rewrite <- land_low_mask by lia.
      rewrite <- Z.land_assoc. change (Z.land (Z.ones 16) 0x00FF0000) with 0. by rewrite Z.land_0_r.
Qed.

Lemma find_free_rep t objects fuel i :
  table_rep t objects -> Zlength objects <= i <= Size t -> (Z.to_nat (Size t - i) <= fuel)%nat ->
  find_free fuel t i = Ok i.
Proof.
  intros R Hi Hf. destruct fuel as [|fuel]; cbn [find_free]; destruct (Z.ltb_spec i (Size t)); try done; [lia|].
  rewrite (slot_rep _ _ _ R) by (pose proof (Zlength objects); unfold Zlength in *; lia).
  rewrite bind_Ok, lookup_ge_None_2 by (unfold Zlength in *; lia). done.
Qed.

(** ** Allocation *)
Lemma Allocate_success t objects n p :
  table_rep t objects -> ObjectKeySize (Info t) <= n -> Zlength objects < Size t ->
  exists t', EfiHandleTableAllocateObject t n (Some p) =
      Ok (EFI_SUCCESS, t', Some p, HANDLE_TABLE_ENCODE t (Zlength objects)) /\
    table_rep t' (objects ++ [p]) /\ Size t' = Size t /\ TableKey t' = TableKey t /\ Info t' = Info t.
Proof.
  intros R Hn Hroom. unfold EfiHandleTableAllocateObject. rewrite (proj2 (Z.ltb_ge _ _)) by lia.
  assert (0 <= Zlength objects) by (unfold Zlength; lia).
  rewrite (rep_next _ _ R), (find_free_rep _ _ _ _ R), bind_Ok by lia.
  rewrite (proj2 (Z.ltb_lt _ _)) by lia. eexists. split; [done|]. split; [|done].
  pose proof (rep_size _ _ R) as Hs. unfold HANDLE_TABLE_MAX_SIZE in Hs.
  constructor; cbn; [apply R|apply R| | |].
  - rewrite u32_small by lia. unfold Zlength. rewrite length_app. simpl. lia.
  - unfold Zlength in *. rewrite length_app. simpl. lia.
  - rewrite (rep_handles _ _ R), insert_app_r_alt by (rewrite length_map; unfold Zlength; lia).
    rewrite map_app, <- app_assoc. f_equal. rewrite length_map.
    replace (Z.to_nat (Zlength objects) - length objects)%nat with 0%nat by (unfold Zlength; lia).
    replace (Z.to_nat (Size t - Zlength objects)) with
      (Datatypes.S (Z.to_nat (Size t - Zlength (objects ++ [p]))));
      [done|]. unfold Zlength in *. rewrite length_app. simpl. lia.
Qed.

Lemma Allocate_full t objects n alloc :
  table_rep t objects -> ObjectKeySize (Info t) <= n -> Zlength objects = Size t \/ alloc = None ->
  EfiHandleTableAllocateObject t n alloc = Ok (EFI_OUT_OF_RESOURCES, t, None, EFI_INVALID_HANDLE).
Proof.
  intros R Hn Hfull. unfold EfiHandleTableAllocateObject. rewrite (proj2 (Z.ltb_ge _ _)) by lia.
  pose proof (rep_fits _ _ R). assert (0 <= Zlength objects) by (unfold Zlength; lia).
  rewrite (rep_next _ _ R), (find_free_rep _ _ _ _ R), bind_Ok by lia.
  destruct (Z.ltb_spec (Zlength objects) (Size t)); [|done]. destruct Hfull as [?|?]; [lia|by subst].
Qed.

(** ** Lookup *)
Lemma LookupByHandle_encode t objects i :
  table_rep t objects -> 0 <= i < Size t ->
  EfiHandleTableLookupByHandle t (HANDLE_TABLE_ENCODE t i) = Ok (objects !! Z.to_nat i).
Proof.
  intros R Hi. destruct (INDEX_ENCODE _ _ _ R Hi) as (E1 & E2 & E3).
  unfold EfiHandleTableLookupByHandle. rewrite E1, E2, Z.eqb_refl.
  rewrite (proj2 (Z.eqb_neq _ _)) by done. rewrite (proj2 (Z.ltb_lt _ _)) by lia. cbn.
  by apply slot_rep.
Qed.

(** Any handle, foreign ones included, yields NULL or an object of the table;
    the table is never accessed outside its slots. *)
Lemma LookupByHandle_any t objects h :
  table_rep t objects ->
  exists o, EfiHandleTableLookupByHandle t h = Ok o /\
    (forall p, o = Some p -> HANDLE_TABLE_KEY h = TableKey t /\
       objects !! Z.to_nat (HANDLE_TABLE_INDEX h) = Some p).
Proof.
  intros R. unfold EfiHandleTableLookupByHandle.
  pose proof (u32_range (Z.land (u32 h) HANDLE_TABLE_INDEX_MASK - 1)) as Hr. fold (HANDLE_TABLE_INDEX h) in Hr.
  destruct (Z.eqb_spec h EFI_INVALID_HANDLE); [by exists None|].
  destruct (Z.eqb_spec (HANDLE_TABLE_KEY h) (TableKey t)); [|by exists None].
  destruct (Z.ltb_spec (HANDLE_TABLE_INDEX h) (Size t)); [|by exists None]. cbn.
  rewrite (slot_rep _ _ _ R) by lia. eexists. split; [done|]. intros p E. auto.
Qed.

(** The first object whose key matches. *)
Fixpoint find_key (object_bytes : Z -> list Z) (Key : list Z) (KeySize : Z) (objects : list Z) (i : Z)
  : option (Z * Z) :=
  match objects with
  | [] => None
  | p :: ps =>
    if bool_decide (zslice 0 KeySize (object_bytes p) = zslice 0 KeySize Key) then Some (p, i)
    else find_key object_bytes Key KeySize ps (i + 1)
  end.

Lemma find_key_spec ob Key KeySize objects k :
  (exists (i : nat) p, find_key ob Key KeySize objects k = Some (p, k + Z.of_nat i) /\ objects !! i = Some p /\
     zslice 0 KeySize (ob p) = zslice 0 KeySize Key /\
     forall j q, (j < i)%nat -> objects !! j = Some q -> zslice 0 KeySize (ob q) <> zslice 0 KeySize Key) \/
  (find_key ob Key KeySize objects k = None /\
   forall p, p ∈ objects -> zslice 0 KeySize (ob p) <> zslice 0 KeySize Key).
Proof.
  revert k. induction objects as [|p ps IH]; intros k; cbn [find_key]; [right; set_solver|].
  case_bool_decide as Hp; [left; exists 0%nat, p; split_and!; [do 2 f_equal; lia|done|done|lia]|].
  destruct (IH (k + 1)) as [(i & q & E & Hi & Hq & Hf)|[E Hn]].
  - left. exists (S i), q. split_and!; [rewrite E; do 2 f_equal; lia|done|done|].
    intros [|j] r Hj Hr; simplify_eq/=; [done|]. apply (Hf j); [lia|done].
  - right. split; [done|]. intros r [->|Hr]%elem_of_cons; auto.
Qed.

Lemma lookup_key_loop_spec t ob Key KeySize fuel pre post :
  table_rep t (pre ++ post) -> 0 <= KeySize <= Zlength Key ->
  (forall p, p ∈ post -> KeySize <= Zlength (ob p)) ->
  (Z.to_nat (Size t - Zlength pre) <= fuel)%nat ->
  lookup_key_loop ob fuel t (Zlength pre) Key KeySize =
    Ok (match find_key ob Key KeySize post (Zlength pre) with
        | Some (p, i) => (Some p, HANDLE_TABLE_ENCODE t i)
        | None => (None, EFI_INVALID_HANDLE)
        end).
Proof.
  intros R HK Hob. revert pre post R Hob.
  assert (Hempty : forall fuel i objects, table_rep t objects -> Zlength objects <= i ->
    (Z.to_nat (Size t - i) <= fuel)%nat ->
    lookup_key_loop ob fuel t i Key KeySize = Ok (None, EFI_INVALID_HANDLE)).
  { clear fuel. intros fuel. induction fuel as [|fuel IH]; intros i objects R Hi Hf; cbn [lookup_key_loop];
      destruct (Z.ltb_spec i (Size t)); try done; [lia|].
    assert (0 <= Zlength objects) by (unfold Zlength; lia).
    rewrite (slot_rep _ _ _ R) by lia. rewrite bind_Ok, lookup_ge_None_2 by (unfold Zlength in *; lia).
    apply (IH (i + 1) objects R); lia. }
  induction fuel as [|fuel IH]; intros pre post R Hob Hf; destruct post as [|p post].
  1,3: rewrite app_nil_r in R; by apply (Hempty _ _ pre R).
  - pose proof (rep_fits _ _ R) as Hfit. unfold Zlength in *. rewrite length_app in Hfit. simpl in Hfit. lia.
  - pose proof (rep_fits _ _ R) as Hfit. unfold Zlength in Hfit. rewrite length_app in Hfit. simpl in Hfit.
    cbn [lookup_key_loop find_key]. rewrite (proj2 (Z.ltb_lt _ _)) by (unfold Zlength; lia).
    rewrite (slot_rep _ _ _ R) by (unfold Zlength; lia). rewrite bind_Ok.
    rewrite list_lookup_middle by (unfold Zlength; lia).
    pose proof (Hob p ltac:(set_solver)) as Hp. unfold mem_read, in_bounds.
    rewrite !(proj2 (Z.leb_le _ _)) by lia. cbn [andb]. rewrite !bind_Ok.
    case_bool_decide; [done|].
    specialize (IH (pre ++ [p]) post). rewrite <- app_assoc in IH.
    replace (Zlength (pre ++ [p])) with (Zlength pre + 1) in IH by (unfold Zlength; rewrite length_app; simpl; lia).
    apply IH; [done|set_solver|unfold Zlength in *; lia].
Qed.

Lemma LookupByKey_spec t ob objects Key KeySize :
  table_rep t objects -> 0 < KeySize <= ObjectKeySize (Info t) -> KeySize <= Zlength Key ->
  (forall p, p ∈ objects -> KeySize <= Zlength (ob p)) ->
  EfiHandleTableLookupByKey ob t Key KeySize =
    Ok (match find_key ob Key KeySize objects 0 with
        | Some (p, i) => (Some p, HANDLE_TABLE_ENCODE t i)
        | None => (None, EFI_INVALID_HANDLE)
        end).
Proof.
  intros R HK HKl Hob. unfold EfiHandleTableLookupByKey.
  rewrite (proj2 (Z.leb_le _ _)), (proj2 (Z.ltb_lt _ _)) by lia. cbn [andb].
  apply (lookup_key_loop_spec t ob Key KeySize _ [] objects R); [lia|done|unfold Zlength; simpl; lia].
Qed.

(** ** Enumeration visits the objects in order until the callback fails *)
Fixpoint enum_spec {S} (cb : Z -> Z -> S -> result (EFI_STATUS * S)) t (objects : list Z) (i : Z)
    (status : EFI_STATUS) (s : S) : result (EFI_STATUS * S) :=
  match objects with
  | [] => Ok (status, s)
  | p :: ps =>
    '(status, s) ← cb (HANDLE_TABLE_ENCODE t i) p s;
    if EFI_ERROR status then Ok (status, s) else enum_spec cb t ps (i + 1) status s
  end.

Lemma enumerate_loop_spec {S} (cb : Z -> Z -> S -> result (EFI_STATUS * S)) t fuel pre post status s :
  table_rep t (pre ++ post) -> (Z.to_nat (Size t - Zlength pre) <= fuel)%nat ->
  enumerate_loop cb fuel t (Zlength pre) status s = enum_spec cb t post (Zlength pre) status s.
Proof.
  revert pre post status s.
  assert (Hempty : forall fuel i objects status s, table_rep t objects -> Zlength objects <= i ->
    (Z.to_nat (Size t - i) <= fuel)%nat -> enumerate_loop cb fuel t i status s = Ok (status, s)).
  { clear fuel. intros fuel. induction fuel as [|fuel IH]; intros i objects status s R Hi Hf; cbn [enumerate_loop];
      destruct (Z.ltb_spec i (Size t)); try done; [lia|].
    assert (0 <= Zlength objects) by (unfold Zlength; lia).
    rewrite (slot_rep _ _ _ R) by lia. rewrite bind_Ok, lookup_ge_None_2 by (unfold Zlength in *; lia).
    apply (IH (i + 1) objects _ _ R); lia. }
  induction fuel as [|fuel IH]; intros pre post status s R Hf; destruct post as [|p post].
  1,3: rewrite app_nil_r in R; by apply (Hempty _ _ pre _ _ R).
  - pose proof (rep_fits _ _ R) as Hfit. unfold Zlength in *. rewrite length_app in Hfit. simpl in Hfit. lia.
  - pose proof (rep_fits _ _ R) as Hfit. unfold Zlength in Hfit. rewrite length_app in Hfit. simpl in Hfit.
    cbn [enumerate_loop enum_spec]. rewrite (proj2 (Z.ltb_lt _ _)) by (unfold Zlength; lia).
    rewrite (slot_rep _ _ _ R) by (unfold Zlength; lia). rewrite bind_Ok.
    rewrite list_lookup_middle by (unfold Zlength; lia).
    destruct (cb _ _ _) as [[st s']|]; [|done]. rewrite !bind_Ok. destruct (EFI_ERROR st); [done|].
    specialize (IH (pre ++ [p]) post). rewrite <- app_assoc in IH.
    replace (Zlength (pre ++ [p])) with (Zlength pre + 1) in IH by (unfold Zlength; rewrite length_app; simpl; lia).
    apply IH; [done|unfold Zlength in *; lia].
Qed.

Lemma Enumerate_spec {S} (cb : Z -> Z -> S -> result (EFI_STATUS * S)) t objects s :
  table_rep t objects ->
  EfiHandleTableEnumerateObjects cb t s = enum_spec cb t objects 0 EFI_SUCCESS s.
Proof.
  intros R. apply (enumerate_loop_spec cb t _ [] objects); [done|unfold Zlength; simpl; lia].
Qed.

(** ** A table in use *)

(** Allocate an object for each answer of the allocator; every call's status,
    object and handle. *)
Fixpoint allocate_all t (n : Z) (ps : list Z) : result (EFI_HANDLE_TABLE * list (EFI_STATUS * option Z * Z)) :=
  match ps with
  | [] => Ok (t, [])
  | p :: ps =>
    '(st, t, o, h) ← EfiHandleTableAllocateObject t n (Some p);
    '(t, rs) ← allocate_all t n ps;
    Ok (t, (st, o, h) :: rs)
  end.
(** Calls that succeeded with the objects [ps] and the handles [hs]. *)
Definition allocated (ps hs : list Z) : list (EFI_STATUS * option Z * Z) := zip_with (fun p h => (EFI_SUCCESS, Some p, h)) ps hs.

Definition handles_from t (i n : nat) : list Z :=
  map (fun j : nat => HANDLE_TABLE_ENCODE t (Z.of_nat j)) (seq i n).

Lemma allocate_all_spec t objects n ps :
  table_rep t objects -> ObjectKeySize (Info t) <= n -> Zlength (objects ++ ps) <= Size t ->
  exists t', allocate_all t n ps = Ok (t', allocated ps (handles_from t (length objects) (length ps))) /\
    table_rep t' (objects ++ ps) /\ Size t' = Size t /\ TableKey t' = TableKey t.
Proof.
  revert t objects. induction ps as [|p ps IH]; intros t objects R Hn Hl; cbn [allocate_all].
  - exists t. by rewrite app_nil_r.
  - unfold Zlength in Hl. rewrite length_app in Hl. simpl in Hl.
    destruct (Allocate_success t objects n p R Hn) as (t1 & -> & R1 & Es & Ek & Ei); [unfold Zlength; lia|].
    rewrite bind_Ok. destruct (IH t1 (objects ++ [p]) R1) as (t' & E & R' & Es' & Ek').
    { by rewrite Ei. }
    { unfold Zlength. rewrite !length_app. simpl. lia. }
    rewrite E, bind_Ok. rewrite <- app_assoc in R'. exists t'. split_and!; [|done|congruence|congruence].
    do 2 f_equal. unfold handles_from. rewrite length_app. simpl. rewrite Nat.add_1_r. unfold allocated. cbn [zip_with]. do 2 f_equal.
    apply map_ext. intros j. unfold HANDLE_TABLE_ENCODE. by rewrite Ek.
Qed.

Lemma Allocate_Info t n p st t' o h :
  EfiHandleTableAllocateObject t n p = Ok (st, t', o, h) -> Info t' = Info t.
Proof.
  unfold EfiHandleTableAllocateObject. intros E.
  destruct (n <? _); [by simplify_eq|]. destruct (find_free _ _ _) as [i|]; [|done].
  rewrite bind_Ok in E. destruct (i <? _); [|by simplify_eq]. destruct p; by simplify_eq.
Qed.

Lemma allocate_all_Info t n ps t' hs :
  allocate_all t n ps = Ok (t', hs) -> Info t' = Info t.
Proof.
  revert t hs. induction ps as [|p ps IH]; intros t hs E; cbn [allocate_all] in E; [by simplify_eq|].
  destruct (EfiHandleTableAllocateObject t n (Some p)) as [[[[st t1] o] h]|] eqn:E1; [|done].
  rewrite bind_Ok in E. destruct (allocate_all t1 n ps) as [[t2 hs2]|] eqn:E2; [|done].
  simplify_eq/=. rewrite (IH _ _ E2). by eapply Allocate_Info.
Qed.

Lemma ENCODE_inj t objects i j :
  table_rep t objects -> 0 <= i < Size t -> 0 <= j < Size t ->
  HANDLE_TABLE_ENCODE t i = HANDLE_TABLE_ENCODE t j -> i = j.
Proof. intros R Hi Hj. rewrite !(ENCODE_value t objects) by done. lia. Qed.

Lemma handles_from_NoDup t objects i n :
  table_rep t objects -> Z.of_nat (i + n) <= Size t -> NoDup (handles_from t i n).
Proof.
  intros R Hl. apply NoDup_fmap_2_strong; [|apply NoDup_seq].
  intros x y Hx%elem_of_seq Hy%elem_of_seq E. apply (ENCODE_inj t objects) in E; [lia|done|lia|lia].
Qed.

(** C34. Allocation and lookup.  In a table freshly created with a valid size
    and an 8-bit key, allocating up to [size] objects of at least the key's size
    returns [EFI_SUCCESS] and the allocated object every time; the handles are
    pairwise distinct and the [i]-th handle looks up the [i]-th
    object afterwards.  An allocation past the size fails with
    [EFI_OUT_OF_RESOURCES] and leaves the table as it was. *)
Theorem handle_allocate_lookup info size key t0 n ps :
  0 <= size -> 0 <= key < 256 ->
  EfiHandleTableInitialize (Some info) size key true true = Ok (EFI_SUCCESS, Some t0) ->
  ObjectKeySize info <= n -> Zlength ps <= size ->
  exists t hs, allocate_all t0 n ps = Ok (t, allocated ps hs) /\ NoDup hs /\ length hs = length ps /\
    (forall i h p, hs !! i = Some h -> ps !! i = Some p ->
       EfiHandleTableLookupByHandle t h = Ok (Some p)) /\
    (Zlength ps = size -> forall p,
       EfiHandleTableAllocateObject t n (Some p) = Ok (EFI_OUT_OF_RESOURCES, t, None, EFI_INVALID_HANDLE)).
Proof.
  intros Hs Hk E Hn Hl. destruct (Initialize_rep _ _ _ _ Hs Hk E) as (R & Es & Ei & _). subst size info.
  destruct (allocate_all_spec t0 [] n ps R) as (t & Ea & Rt & Est & Ekt); [done|done|]. cbn [app length] in *.
  assert (Hfrom : handles_from t0 0 (length ps) = handles_from t 0 (length ps)).
  { apply map_ext. intros j. unfold HANDLE_TABLE_ENCODE. by rewrite Ekt. }
  rewrite Hfrom in Ea. exists t, (handles_from t 0 (length ps)). split; [done|].
  unfold Zlength in *. split_and!.
  - apply (handles_from_NoDup t ps); [done|lia].
  - unfold handles_from. by rewrite length_map, length_seq.
  - intros i h p Hh Hp. unfold handles_from in Hh. apply lookup_lt_Some in Hp as Hi.
    rewrite list_lookup_fmap, lookup_seq_lt in Hh by done. simplify_eq/=.
    rewrite (LookupByHandle_encode t ps) by (done || lia). by rewrite Nat2Z.id, Hp.
  - intros Hfull p. apply (Allocate_full t ps); [done| |left; unfold Zlength; lia].
    by rewrite (allocate_all_Info _ _ _ _ _ Ea).
Qed.

Lemma handle_allocate_lookup_witness :
  exists t hs, allocate_all (mkTable (mkInfo true 16) 3 (8 * 2 ^ 16) 0 [None; None; None]) 40 [100; 200; 300]
      = Ok (t, allocated [100; 200; 300] hs) /\ NoDup hs /\ length hs = 3%nat.
Proof.
  destruct (handle_allocate_lookup (mkInfo true 16) 3 8
    (mkTable (mkInfo true 16) 3 (8 * 2 ^ 16) 0 [None; None; None]) 40 [100; 200; 300])
    as (t & hs & E & Hd & Hl & _); [lia|lia|reflexivity|simpl; lia|unfold Zlength; simpl; lia|].
  exists t, hs. auto.
Defined.

(** Forged and foreign handles.  Whatever value a client passes as a
    handle, lookup returns (no slot outside the table is read) and yields NULL
    or an object the table itself handed out; a handle obtained from a table
    with another key is always rejected. *)
Lemma handle_lookup_total t objects t' objects' h :
  table_rep t objects -> table_rep t' objects' -> TableKey t' <> TableKey t ->
  (exists o, EfiHandleTableLookupByHandle t h = Ok o /\ forall p, o = Some p -> p ∈ objects) /\
  (forall i, 0 <= i < Size t' -> EfiHandleTableLookupByHandle t (HANDLE_TABLE_ENCODE t' i) = Ok None).
Proof.
  intros R R' Hk. split.
  - destruct (LookupByHandle_any t objects h R) as (o & E & Ho). exists o. split; [done|].
    intros p Hp. destruct (Ho p Hp) as [_ Hl]. by eapply list_elem_of_lookup_2.
  - intros i Hi. destruct (LookupByHandle_any t objects (HANDLE_TABLE_ENCODE t' i) R) as (o & -> & Ho).
    destruct o as [p|]; [|done]. destruct (Ho p eq_refl) as [E _].
    destruct (INDEX_ENCODE t' objects' i R' Hi) as (_ & E' & _). congruence.
Qed.

(** Lookup by key finds the first object, in order of allocation, whose
    leading bytes equal the key, and its handle then looks up that object; when
    no object has the key, lookup returns NULL and [EFI_INVALID_HANDLE]. *)
Lemma handle_lookup_key t ob objects Key KeySize :
  table_rep t objects -> 0 < KeySize <= ObjectKeySize (Info t) -> KeySize <= Zlength Key ->
  (forall p, p ∈ objects -> KeySize <= Zlength (ob p)) ->
  (exists i p, objects !! i = Some p /\ zslice 0 KeySize (ob p) = zslice 0 KeySize Key /\
     (forall j q, (j < i)%nat -> objects !! j = Some q -> zslice 0 KeySize (ob q) <> zslice 0 KeySize Key) /\
     EfiHandleTableLookupByKey ob t Key KeySize = Ok (Some p, HANDLE_TABLE_ENCODE t (Z.of_nat i)) /\
     EfiHandleTableLookupByHandle t (HANDLE_TABLE_ENCODE t (Z.of_nat i)) = Ok (Some p)) \/
  ((forall p, p ∈ objects -> zslice 0 KeySize (ob p) <> zslice 0 KeySize Key) /\
   EfiHandleTableLookupByKey ob t Key KeySize = Ok (None, EFI_INVALID_HANDLE)).
Proof.
  intros R HK HKl Hob. rewrite (LookupByKey_spec t ob objects) by done.
  destruct (find_key_spec ob Key KeySize objects 0) as [(i & p & -> & Hi & Hp & Hf)|[-> Hn]]; [left|by right].
  exists i, p. split_and!; try done. rewrite (LookupByHandle_encode t objects) by
    (try done; apply lookup_lt_Some in Hi; pose proof (rep_fits _ _ R); unfold Zlength in *; lia).
  by rewrite Nat2Z.id, Hi.
Qed.

(** A NULL out-parameter is diagnosed as [EFI_INVALID_PARAMETER], but the
    common exit stores through it all the same: the call never returns that
    status. *)
Lemma handle_table_null_out info size key allocated :
  EfiHandleTableInitialize info size key false allocated = Fault NullDeref.
Proof.
  unfold EfiHandleTableInitialize. destruct info as [info|]; [|done]. cbn [negb orb]. done.
Qed.
End HandleTable.
