(* ===== verification/Mbor.v ===== *)
(** The MBOR codec of the HSM driver: [MsvmPkg/AziHsmDxe/AziHsmMbor.c].

    Encoder and decoder are cursors over a caller-supplied buffer.  A pointer
    that may be NULL is an [option]; the buffer is the memory the pointer
    designates, so an access past its end faults even where the cursor's
    [Capacity] would allow it.  The supported processors (X64, AARCH64) are
    little-endian: a multi-byte variable's image is its [le_split]. *)
From stdpp Require Import base list numbers list_numbers option.
From Stdlib Require Import ZArith Lia.
From S2P Require Import Prelude Circular.
Open Scope Z_scope.

(** The byte-swapping functions of the firmware's BaseLib, with their
    documented behaviour: the bytes of the result are those of the argument in
    reverse order. *)
Class BaseLib := {
  SwapBytes16 : Z -> Z;
  SwapBytes32 : Z -> Z;
  SwapBytes64 : Z -> Z;
  SwapBytes16_rev v : 0 <= v < 2 ^ 16 ->
    0 <= SwapBytes16 v < 2 ^ 16 /\ le_split 2 (SwapBytes16 v) = reverse (le_split 2 v);
  SwapBytes32_rev v : 0 <= v < 2 ^ 32 ->
    0 <= SwapBytes32 v < 2 ^ 32 /\ le_split 4 (SwapBytes32 v) = reverse (le_split 4 v);
  SwapBytes64_rev v : 0 <= v < 2 ^ 64 ->
    0 <= SwapBytes64 v < 2 ^ 64 /\ le_split 8 (SwapBytes64 v) = reverse (le_split 8 v)
}.

Module Mbor.

Definition MBOR_U8_MARKER : Z := Z.lor 0x18 0x00.
Definition MBOR_U16_MARKER : Z := Z.lor 0x18 0x01.
Definition MBOR_U32_MARKER : Z := Z.lor 0x18 0x02.
Definition MBOR_U64_MARKER : Z := Z.lor 0x18 0x03.
Definition MBOR_MAP_MARKER : Z := 0xA0.
Definition MBOR_MAP_MARKER_MASK : Z := 0xF0.
Definition MBOR_MAP_FIELD_MASK : Z := 0x0F.
Definition MBOR_BYTES_MARKER : Z := 0x80.
Definition MBOR_BYTES_PADDING_MASK : Z := 0x03.
Definition MBOR_BOOLEAN_FALSE : Z := 0x14.
Definition MBOR_BOOLEAN_TRUE : Z := 0x15.

(** The encoder and the decoder have the same fields. *)
Record AZIHSM_MBOR_CURSOR := mkMbor { Buffer : option (list Z); Capacity : Z; Position : Z }.
Definition AZIHSM_MBOR_ENCODER := AZIHSM_MBOR_CURSOR.
Definition AZIHSM_MBOR_DECODER := AZIHSM_MBOR_CURSOR.

Definition AZIHSM_MBOR_IS_POSITION_EXCEEDS_CAPACITY (e : AZIHSM_MBOR_CURSOR) (len : Z) : bool :=
  Capacity e <? u32 (Position e + u32 len).

(** [Status = m; if (EFI_ERROR (Status)) goto Exit; k]. *)
Definition or_exit {S} (m : result (EFI_STATUS * S)) (k : S -> result (EFI_STATUS * S))
  : result (EFI_STATUS * S) :=
  '(Status, s) ← m; if EFI_ERROR Status then Ok (Status, s) else k s.
Local Notation "'try' x := m 'in' k" := (or_exit m (fun x => k)) (at level 10, x pattern, m at level 100, k at level 200).

Section Codec.
Context {B : BuildOptions} {L : BaseLib}.

Definition ConvertToBigEndian16 (Value : Z) : Z := SwapBytes16 Value.
Definition ConvertToBigEndian32 (Value : Z) : Z := SwapBytes32 Value.
Definition ConvertToBigEndian64 (Value : Z) : Z := SwapBytes64 Value.
Definition ConvertToLittleEndian16 (Value : Z) : Z := SwapBytes16 Value.
Definition ConvertToLittleEndian32 (Value : Z) : Z := SwapBytes32 Value.
Definition ConvertToLittleEndian64 (Value : Z) : Z := SwapBytes64 Value.

(** ** Encoder *)
Definition AziHsmMborEncoderInit (Encoder : option AZIHSM_MBOR_ENCODER) (buffer : option (list Z)) (capacity : Z)
  : EFI_STATUS * option AZIHSM_MBOR_ENCODER :=
  match Encoder, buffer with
  | Some e, Some _ =>
    if capacity =? 0 then (EFI_INVALID_PARAMETER, Encoder)
    else match Buffer e with
    | Some _ => (EFI_ALREADY_STARTED, Encoder)
    | None => (EFI_SUCCESS, Some (mkMbor buffer capacity 0))
    end
  | _, _ => (EFI_INVALID_PARAMETER, Encoder)
  end.

Definition AziHsmMborEncoderReset (Encoder : option AZIHSM_MBOR_ENCODER)
  : EFI_STATUS * option AZIHSM_MBOR_ENCODER :=
  match Encoder with
  | None => (EFI_INVALID_PARAMETER, None)
  | Some _ => (EFI_SUCCESS, Some (mkMbor None 0 0))
  end.

Definition AziHsmMborEncoderSkip (Encoder : option AZIHSM_MBOR_ENCODER) (Length : Z)
  : EFI_STATUS * option AZIHSM_MBOR_ENCODER :=
  match Encoder with
  | None => (EFI_INVALID_PARAMETER, None)
  | Some e =>
    if AZIHSM_MBOR_IS_POSITION_EXCEEDS_CAPACITY e Length then (EFI_BUFFER_TOO_SMALL, Encoder)
    else (EFI_SUCCESS, Some (mkMbor (Buffer e) (Capacity e) (u16 (Position e + Length))))
  end.

(** [CopyMem (e->Buffer + e->Position, src, Length)]; nothing is accessed when
    [Length] is zero. *)
Definition copy_into (e : AZIHSM_MBOR_ENCODER) (src : list Z) (Length : Z) : result (option (list Z)) :=
  match Buffer e with
  | Some m => m' ← CopyMem m (Position e) src 0 Length; Ok (Some m')
  | None => if Length =? 0 then Ok None else Fault NullDeref
  end.

Definition AziHsmMborEncoderEncode (Encoder : option AZIHSM_MBOR_ENCODER) (buffer : option (list Z)) (Length : Z)
  : result (EFI_STATUS * option AZIHSM_MBOR_ENCODER) :=
  match Encoder, buffer with
  | Some e, Some src =>
    if AZIHSM_MBOR_IS_POSITION_EXCEEDS_CAPACITY e Length then Ok (EFI_BUFFER_TOO_SMALL, Encoder)
    else
      b ← copy_into e src Length;
      Ok (EFI_SUCCESS, Some (mkMbor b (Capacity e) (u16 (Position e + Length))))
  | _, _ => Ok (EFI_INVALID_PARAMETER, Encoder)
  end.

Definition AziHsmMborEncodeMarker (Encoder : option AZIHSM_MBOR_ENCODER) (Marker : Z)
  : result (EFI_STATUS * option AZIHSM_MBOR_ENCODER) :=
  match Encoder with
  | None => Ok (EFI_INVALID_PARAMETER, Encoder)
  | Some e =>
    match Buffer e with
    | None => Ok (EFI_INVALID_PARAMETER, Encoder)
    | Some m =>
      if AZIHSM_MBOR_IS_POSITION_EXCEEDS_CAPACITY e 1 then Ok (EFI_BUFFER_TOO_SMALL, Encoder)
      else
        m' ← mem_write m (Position e) [Marker];
        Ok (EFI_SUCCESS, Some (mkMbor (Some m') (Capacity e) (u16 (Position e + 1))))
    end
  end.

Definition AziHsmMborEncodeU8 (Encoder : option AZIHSM_MBOR_ENCODER) (Value : Z)
  : result (EFI_STATUS * option AZIHSM_MBOR_ENCODER) :=
  match Encoder with
  | None => Ok (EFI_INVALID_PARAMETER, Encoder)
  | Some _ =>
    try Encoder := AziHsmMborEncodeMarker Encoder MBOR_U8_MARKER in
    AziHsmMborEncoderEncode Encoder (Some (le_split 1 Value)) 1
  end.

Definition AziHsmMborEncodeU16 (Encoder : option AZIHSM_MBOR_ENCODER) (Value : Z)
  : result (EFI_STATUS * option AZIHSM_MBOR_ENCODER) :=
  let EncodedValue := ConvertToBigEndian16 Value in
  match Encoder with
  | None => Ok (EFI_INVALID_PARAMETER, Encoder)
  | Some _ =>
    try Encoder := AziHsmMborEncodeMarker Encoder MBOR_U16_MARKER in
    AziHsmMborEncoderEncode Encoder (Some (le_split 2 EncodedValue)) 2
  end.

Definition AziHsmMborEncodeU32 (Encoder : option AZIHSM_MBOR_ENCODER) (Value : Z)
  : result (EFI_STATUS * option AZIHSM_MBOR_ENCODER) :=
  let EncodedValue := ConvertToBigEndian32 Value in
  match Encoder with
  | None => Ok (EFI_INVALID_PARAMETER, Encoder)
  | Some _ =>
    try Encoder := AziHsmMborEncodeMarker Encoder MBOR_U32_MARKER in
    AziHsmMborEncoderEncode Encoder (Some (le_split 4 EncodedValue)) 4
  end.

Definition AziHsmMborEncodeU64 (Encoder : option AZIHSM_MBOR_ENCODER) (Value : Z)
  : result (EFI_STATUS * option AZIHSM_MBOR_ENCODER) :=
  let EncodedValue := ConvertToBigEndian64 Value in
  match Encoder with
  | None => Ok (EFI_INVALID_PARAMETER, Encoder)
  | Some _ =>
    try Encoder := AziHsmMborEncodeMarker Encoder MBOR_U64_MARKER in
    AziHsmMborEncoderEncode Encoder (Some (le_split 8 EncodedValue)) 8
  end.

(** [Value] is the BOOLEAN's byte; any non-zero byte is TRUE. *)
Definition AziHsmMborEncodeBoolean (Encoder : option AZIHSM_MBOR_ENCODER) (Value : Z)
  : result (EFI_STATUS * option AZIHSM_MBOR_ENCODER) :=
  match Encoder with
  | None => Ok (EFI_INVALID_PARAMETER, Encoder)
  | Some _ =>
    let Marker := if Value =? 0 then MBOR_BOOLEAN_FALSE else MBOR_BOOLEAN_TRUE in
    AziHsmMborEncodeMarker Encoder Marker
  end.

Definition AziHsmMborEncodeMap (Encoder : option AZIHSM_MBOR_ENCODER) (FieldCount : Z)
  : result (EFI_STATUS * option AZIHSM_MBOR_ENCODER) :=
  let Marker := Z.lor MBOR_MAP_MARKER (Z.land FieldCount MBOR_MAP_FIELD_MASK) in
  if MBOR_MAP_FIELD_MASK <? FieldCount then Ok (EFI_INVALID_PARAMETER, Encoder)
  else match Encoder with
  | None => Ok (EFI_INVALID_PARAMETER, Encoder)
  | Some _ => AziHsmMborEncodeMarker Encoder Marker
  end.

Definition AziHsmMborEncodeBytes (Encoder : option AZIHSM_MBOR_ENCODER) (buffer : option (list Z)) (Length : Z)
  : result (EFI_STATUS * option AZIHSM_MBOR_ENCODER) :=
  let EncodedLength := ConvertToBigEndian16 Length in
  match Encoder, buffer with
  | Some _, Some _ =>
    try Encoder := AziHsmMborEncodeMarker Encoder MBOR_BYTES_MARKER in
    try Encoder := AziHsmMborEncoderEncode Encoder (Some (le_split 2 EncodedLength)) 2 in
    AziHsmMborEncoderEncode Encoder buffer Length
  | _, _ => Ok (EFI_INVALID_PARAMETER, Encoder)
  end.

(** [for (UINT8 i = 0; i < PaddingLength; i++)], structural in the number of
    iterations left. *)
Fixpoint encode_padding (n : nat) (Encoder : option AZIHSM_MBOR_ENCODER)
  : result (EFI_STATUS * option AZIHSM_MBOR_ENCODER) :=
  match n with
  | O => Ok (EFI_SUCCESS, Encoder)
  | S n =>
    try Encoder := AziHsmMborEncoderEncode Encoder (Some [0]) 1 in
    encode_padding n Encoder
  end.

Definition padding_length (position : Z) : Z :=
  let CurrentTotalLength := u32 (position + 1 + 2) in
  u8 ((4 - CurrentTotalLength mod 4) mod 4).

Definition AziHsmMborEncodePaddedBytes (Encoder : option AZIHSM_MBOR_ENCODER) (buffer : option (list Z)) (Length : Z)
  : result (EFI_STATUS * option AZIHSM_MBOR_ENCODER) :=
  let EncodedLength := ConvertToBigEndian16 Length in
  match Encoder, buffer with
  | Some e, Some _ =>
    let PaddingLength := padding_length (Position e) in
    if MBOR_BYTES_PADDING_MASK <? PaddingLength then Ok (EFI_INVALID_PARAMETER, Encoder)
    else
      let Marker := Z.lor MBOR_BYTES_MARKER (Z.land PaddingLength MBOR_BYTES_PADDING_MASK) in
      try Encoder := AziHsmMborEncodeMarker Encoder Marker in
      try Encoder := AziHsmMborEncoderEncode Encoder (Some (le_split 2 EncodedLength)) 2 in
      try Encoder := encode_padding (Z.to_nat PaddingLength) Encoder in
      _ ← ASSERT (match Encoder with Some e => Position e mod 4 =? 0 | None => true end);
      AziHsmMborEncoderEncode Encoder buffer Length
  | _, _ => Ok (EFI_INVALID_PARAMETER, Encoder)
  end.

(** ** Decoder *)
Definition AziHsmMborDecoderInit (Decoder : option AZIHSM_MBOR_DECODER) (buffer : option (list Z)) (capacity : Z)
  : EFI_STATUS * option AZIHSM_MBOR_DECODER :=
  match Decoder, buffer with
  | Some d, Some _ =>
    if capacity =? 0 then (EFI_INVALID_PARAMETER, Decoder)
    else match Buffer d with
    | Some _ => (EFI_ALREADY_STARTED, Decoder)
    | None => (EFI_SUCCESS, Some (mkMbor buffer capacity 0))
    end
  | _, _ => (EFI_INVALID_PARAMETER, Decoder)
  end.

Definition AziHsmMborDecoderReset (Decoder : option AZIHSM_MBOR_DECODER)
  : EFI_STATUS * option AZIHSM_MBOR_DECODER :=
  match Decoder with
  | None => (EFI_INVALID_PARAMETER, None)
  | Some _ => (EFI_SUCCESS, Some (mkMbor None 0 0))
  end.

Definition AziHsmMborDecoderSkip (Decoder : option AZIHSM_MBOR_DECODER) (Length : Z)
  : EFI_STATUS * option AZIHSM_MBOR_DECODER :=
  match Decoder with
  | None => (EFI_INVALID_PARAMETER, None)
  | Some d =>
    match Buffer d with
    | None => (EFI_NOT_READY, Decoder)
    | Some _ =>
      if AZIHSM_MBOR_IS_POSITION_EXCEEDS_CAPACITY d Length then (EFI_BUFFER_TOO_SMALL, Decoder)
      else (EFI_SUCCESS, Some (mkMbor (Buffer d) (Capacity d) (u16 (Position d + Length))))
    end
  end.

(** [out] is the destination object; it is part of the result. *)
Definition AziHsmMborDecoderDecode (Decoder : option AZIHSM_MBOR_DECODER) (out : option (list Z)) (Length : Z)
  : result (EFI_STATUS * (option AZIHSM_MBOR_DECODER * option (list Z))) :=
  match Decoder, out with
  | Some d, Some o =>
    match Buffer d with
    | None => Ok (EFI_NOT_READY, (Decoder, out))
    | Some m =>
      if AZIHSM_MBOR_IS_POSITION_EXCEEDS_CAPACITY d Length then Ok (EFI_BUFFER_TOO_SMALL, (Decoder, out))
      else
        o' ← CopyMem o 0 m (Position d) Length;
        Ok (EFI_SUCCESS, (Some (mkMbor (Buffer d) (Capacity d) (u16 (Position d + Length))), Some o'))
    end
  | _, _ => Ok (EFI_INVALID_PARAMETER, (Decoder, out))
  end.

(** Decode into a local variable of [n] bytes that starts as zero; its value. *)
Definition decode_local (Decoder : option AZIHSM_MBOR_DECODER) (n : nat)
  : result (EFI_STATUS * (option AZIHSM_MBOR_DECODER * Z)) :=
  '(Status, (Decoder, o)) ← AziHsmMborDecoderDecode Decoder (Some (replicate n 0)) (Z.of_nat n);
  Ok (Status, (Decoder, le_combine (default [] o))).

(** The decoders return the status, the decoder and the content of the
    out-parameter ([None]: the pointer is NULL). *)
Definition decode_uint (Marker : Z) (n : nat) (convert : Z -> Z)
    (Decoder : option AZIHSM_MBOR_DECODER) (Value : option Z)
  : result (EFI_STATUS * (option AZIHSM_MBOR_DECODER * option Z)) :=
  match Decoder, Value with
  | Some _, Some _ =>
    '(Status, (Decoder, marker)) ← decode_local Decoder 1;
    if EFI_ERROR Status then Ok (Status, (Decoder, Value))
    else if negb (marker =? Marker) then Ok (EFI_COMPROMISED_DATA, (Decoder, Value))
    else
      '(Status, (Decoder, DecodedValue)) ← decode_local Decoder n;
      if EFI_ERROR Status then Ok (Status, (Decoder, Value))
      else Ok (Status, (Decoder, Some (convert DecodedValue)))
  | _, _ => Ok (EFI_INVALID_PARAMETER, (Decoder, Value))
  end.

Definition AziHsmMborDecodeU8 := decode_uint MBOR_U8_MARKER 1 (fun v => v).
Definition AziHsmMborDecodeU16 := decode_uint MBOR_U16_MARKER 2 ConvertToLittleEndian16.
Definition AziHsmMborDecodeU32 := decode_uint MBOR_U32_MARKER 4 ConvertToLittleEndian32.
Definition AziHsmMborDecodeU64 := decode_uint MBOR_U64_MARKER 8 ConvertToLittleEndian64.

Definition AziHsmMborDecodeBoolean (Decoder : option AZIHSM_MBOR_DECODER) (Value : option bool)
  : result (EFI_STATUS * (option AZIHSM_MBOR_DECODER * option bool)) :=
  match Decoder, Value with
  | Some _, Some _ =>
    '(Status, (Decoder, Marker)) ← decode_local Decoder 1;
    if EFI_ERROR Status then Ok (Status, (Decoder, Value))
    else Ok (Status, (Decoder, Some (Marker =? MBOR_BOOLEAN_TRUE)))
  | _, _ => Ok (EFI_INVALID_PARAMETER, (Decoder, Value))
  end.

Definition AziHsmMborDecodeMap (Decoder : option AZIHSM_MBOR_DECODER) (FieldCount : option Z)
  : result (EFI_STATUS * (option AZIHSM_MBOR_DECODER * option Z)) :=
  match Decoder, FieldCount with
  | Some _, Some _ =>
    '(Status, (Decoder, Marker)) ← decode_local Decoder 1;
    if EFI_ERROR Status then Ok (Status, (Decoder, FieldCount))
    else if negb (Z.land Marker MBOR_MAP_MARKER_MASK =? MBOR_MAP_MARKER)
    then Ok (EFI_COMPROMISED_DATA, (Decoder, FieldCount))
    else Ok (Status, (Decoder, Some (Z.land Marker MBOR_MAP_FIELD_MASK)))
  | _, _ => Ok (EFI_INVALID_PARAMETER, (Decoder, FieldCount))
  end.

(** Decoder, destination buffer and [*Length] on return. *)
Definition bytes_state : Type := option AZIHSM_MBOR_DECODER * option (list Z) * option Z.

Definition exceeds (Decoder : option AZIHSM_MBOR_DECODER) (len : Z) : bool :=
  match Decoder with Some d => AZIHSM_MBOR_IS_POSITION_EXCEEDS_CAPACITY d len | None => false end.

Definition AziHsmMborDecodeBytes (Decoder : option AZIHSM_MBOR_DECODER) (buffer : option (list Z)) (Length : option Z)
  : result (EFI_STATUS * bytes_state) :=
  match Decoder, buffer, Length with
  | Some _, Some _, Some _ =>
    '(Status, (Decoder, Marker)) ← decode_local Decoder 1;
    if EFI_ERROR Status then Ok (Status, (Decoder, buffer, Length))
    else if negb (Marker =? MBOR_BYTES_MARKER) then Ok (EFI_COMPROMISED_DATA, (Decoder, buffer, Length))
    else
      '(Status, (Decoder, LengthBigEndian)) ← decode_local Decoder 2;
      if EFI_ERROR Status then Ok (Status, (Decoder, buffer, Length))
      else
        let length := ConvertToLittleEndian16 LengthBigEndian in
        if exceeds Decoder length then Ok (EFI_BUFFER_TOO_SMALL, (Decoder, buffer, Some length))
        else
          '(Status, (Decoder, buffer)) ← AziHsmMborDecoderDecode Decoder buffer length;
          Ok (Status, (Decoder, buffer, Some length))
  | _, _, _ => Ok (EFI_INVALID_PARAMETER, (Decoder, buffer, Length))
  end.

(** [while (NumberOfPaddedBytes > 0)], structural in the counter. *)
Fixpoint decode_padding (NumberOfPaddedBytes : nat) (Decoder : option AZIHSM_MBOR_DECODER)
  : result (EFI_STATUS * option AZIHSM_MBOR_DECODER) :=
  match NumberOfPaddedBytes with
  | O => Ok (EFI_SUCCESS, Decoder)
  | S n =>
    '(Status, (Decoder, PaddedByte)) ← decode_local Decoder 1;
    if EFI_ERROR Status then Ok (Status, Decoder)
    else if negb (PaddedByte =? 0) then Ok (EFI_COMPROMISED_DATA, Decoder)
    else decode_padding n Decoder
  end.

Definition AziHsmMborDecodePaddedBytes (Decoder : option AZIHSM_MBOR_DECODER) (buffer : option (list Z)) (Length : option Z)
  : result (EFI_STATUS * bytes_state) :=
  match Decoder, buffer, Length with
  | Some _, Some _, Some _ =>
    '(Status, (Decoder, Marker)) ← decode_local Decoder 1;
    if EFI_ERROR Status then Ok (Status, (Decoder, buffer, Length))
    else if negb (Z.land Marker (u8 (Z.lnot MBOR_BYTES_PADDING_MASK)) =? MBOR_BYTES_MARKER)
    then Ok (EFI_COMPROMISED_DATA, (Decoder, buffer, Length))
    else
      let NumberOfPaddedBytes := Z.land Marker MBOR_BYTES_PADDING_MASK in
      '(Status, (Decoder, LengthBigEndian)) ← decode_local Decoder 2;
      if EFI_ERROR Status then Ok (Status, (Decoder, buffer, Length))
      else
        let length := ConvertToLittleEndian16 LengthBigEndian in
        if exceeds Decoder (length + NumberOfPaddedBytes)
        then Ok (EFI_BUFFER_TOO_SMALL, (Decoder, buffer, Some length))
        else
          '(Status, Decoder) ← decode_padding (Z.to_nat NumberOfPaddedBytes) Decoder;
          if EFI_ERROR Status then Ok (Status, (Decoder, buffer, Some length))
          else
            '(Status, (Decoder, buffer)) ← AziHsmMborDecoderDecode Decoder buffer length;
            Ok (Status, (Decoder, buffer, Some length))
  | _, _, _ => Ok (EFI_INVALID_PARAMETER, (Decoder, buffer, Length))
  end.

Definition AziHsmMborPeekByte (Decoder : option AZIHSM_MBOR_DECODER) (Value : option Z)
  : result (EFI_STATUS * option Z) :=
  match Decoder, Value with
  | Some d, Some _ =>
    if AZIHSM_MBOR_IS_POSITION_EXCEEDS_CAPACITY d 1 then Ok (EFI_BUFFER_TOO_SMALL, Value)
    else match Buffer d with
    | None => Fault NullDeref
    | Some m => bs ← mem_read m (Position d) 1; Ok (EFI_SUCCESS, Some (le_combine bs))
    end
  | _, _ => Ok (EFI_INVALID_PARAMETER, Value)
  end.
End Codec.
End Mbor.
