(* ===== verification/MborProps.v ===== *)
(** Correctness of the MBOR codec: what each encoder writes, what each decoder
    accepts, round trips, and memory safety on untrusted input. *)
From stdpp Require Import base list numbers list_numbers option.
From Stdlib Require Import ZArith Lia.
From S2P Require Import Prelude Circular Mbor.
Open Scope Z_scope.
Import Mbor.

(** A cursor whose buffer is [pre ++ post], positioned between the two. *)
Definition cur (pre post : list Z) (cap : Z) : AZIHSM_MBOR_CURSOR :=
  mkMbor (Some (pre ++ post)) cap (Zlength pre).

Definition fits (pre post : list Z) (cap : Z) : Prop :=
  Zlength pre <= cap <= Zlength pre + Zlength post /\ cap < 2 ^ 16.

Definition big_endian (n : nat) (v : Z) : list Z := reverse (le_split n v).

Lemma Zlength_big_endian n v : Zlength (big_endian n v) = Z.of_nat n.
Proof. unfold big_endian, Zlength. by rewrite length_reverse, length_le_split. Qed.

Lemma fits_advance pre post cap w :
  fits pre post cap -> Zlength pre + Zlength w <= cap -> fits (pre ++ w) (drop (length w) post) cap.
Proof.
  unfold fits, Zlength. intros [? ?] ?. rewrite length_app, length_drop. lia.
Qed.

Lemma exceeds_cur pre post cap n :
  fits pre post cap -> 0 <= n < 2 ^ 17 ->
  AZIHSM_MBOR_IS_POSITION_EXCEEDS_CAPACITY (cur pre post cap) n = (cap <? Zlength pre + n).
Proof.
  intros [? ?] ?. unfold AZIHSM_MBOR_IS_POSITION_EXCEEDS_CAPACITY, cur. cbn.
  pose proof (Zlength_nonneg pre). by rewrite (u32_small n), u32_small by lia.
Qed.

(** Overwriting at the cursor. *)
Lemma write_cur pre post bs :
  Zlength bs <= Zlength post ->
  mem_write (pre ++ post) (Zlength pre) bs = Ok ((pre ++ bs) ++ drop (length bs) post).
Proof.
  intros H. pose proof (Zlength_nonneg pre). pose proof (Zlength_nonneg bs). unfold mem_write.
  rewrite in_bounds_true by (rewrite ?Zlength_app; lia). unfold Zlength in *.
  rewrite Nat2Z.id, take_app_length, <- app_assoc. do 3 f_equal.
  rewrite drop_app_ge by lia. f_equal. lia.
Qed.

Lemma read_cur pre post n :
  0 <= n <= Zlength post -> mem_read (pre ++ post) (Zlength pre) n = Ok (take (Z.to_nat n) post).
Proof.
  intros H. pose proof (Zlength_nonneg pre). unfold mem_read.
  rewrite in_bounds_true by (rewrite ?Zlength_app; lia). unfold zslice, Zlength.
  by rewrite (Nat2Z.id (length pre)), drop_app_length.
Qed.

Lemma read_prefix src n :
  0 <= n <= Zlength src -> mem_read src 0 n = Ok (take (Z.to_nat n) src).
Proof. apply (read_cur []). Qed.

(** ** What the encoders write

    [emits m bs pre post cap]: run at the cursor, [m] either appends [bs] and
    succeeds, or reports [EFI_BUFFER_TOO_SMALL] because [bs] does not fit,
    having written a part of it. *)
Definition emits (m : option AZIHSM_MBOR_ENCODER -> result (EFI_STATUS * option AZIHSM_MBOR_ENCODER))
    (bs pre post : list Z) (cap : Z) : Prop :=
  exists st w, m (Some (cur pre post cap)) = Ok (st, Some (cur (pre ++ w) (drop (length w) post) cap)) /\
    Zlength pre + Zlength w <= cap /\
    ((st = EFI_SUCCESS /\ w = bs) \/
     (st = EFI_BUFFER_TOO_SMALL /\ w `prefix_of` bs /\ cap < Zlength pre + Zlength bs)).

Lemma emits_ret pre post cap : fits pre post cap -> emits (fun e => Ok (EFI_SUCCESS, e)) [] pre post cap.
Proof.
  intros [? ?]. exists EFI_SUCCESS, []. rewrite app_nil_r. split_and!; [done| |by left].
  unfold Zlength at 2. simpl. lia.
Qed.

Lemma emits_seq m1 m2 bs1 bs2 pre post cap :
  emits m1 bs1 pre post cap ->
  (Zlength pre + Zlength bs1 <= cap -> emits m2 bs2 (pre ++ bs1) (drop (length bs1) post) cap) ->
  emits (fun e => or_exit (m1 e) m2) (bs1 ++ bs2) pre post cap.
Proof.
  intros (st & w & E & Hw & Hst) H2. unfold emits. rewrite E. unfold or_exit. rewrite bind_Ok.
  destruct Hst as [[-> ->]|(-> & Hp & Hl)].
  - cbn [EFI_ERROR]. destruct (H2 Hw) as (st & w & -> & Hw2 & Hst). exists st, (bs1 ++ w).
    rewrite drop_drop, <- length_app, <- app_assoc. rewrite Zlength_app in Hw2 |- *.
    split_and!; [done|lia|]. destruct Hst as [[-> ->]|(-> & Hp & Hl)]; [by left|right].
    split_and!; [done|by apply prefix_app|]. rewrite Zlength_app in Hl |- *. lia.
  - cbn [EFI_ERROR]. exists EFI_BUFFER_TOO_SMALL, w. split_and!; [done|done|right].
    split_and!; [done|by apply prefix_app_r|]. rewrite Zlength_app. pose proof (Zlength_nonneg bs2). lia.
Qed.

Section Facts.
Context {B : BuildOptions} {L : BaseLib}.

Lemma emits_marker k pre post cap :
  fits pre post cap -> emits (fun e => AziHsmMborEncodeMarker e k) [k] pre post cap.
Proof.
  intros F. unfold emits, AziHsmMborEncodeMarker. cbn [cur Buffer]. fold (cur pre post cap).
  rewrite (exceeds_cur _ _ _ _ F) by lia. destruct F as [F1 F2]. change (Zlength [k]) with 1.
  destruct (Z.ltb_spec cap (Zlength pre + 1)).
  - exists EFI_BUFFER_TOO_SMALL, []. rewrite app_nil_r. split_and!; [done| |right].
    + change (Zlength (@nil Z)) with 0. lia.
    + split_and!; [done|apply prefix_nil|lia].
  - exists EFI_SUCCESS, [k]. cbn [cur Position]. rewrite write_cur by (change (Zlength [k]) with 1; lia).
    split_and!; [|change (Zlength [k]) with 1; lia|by left]. rewrite bind_Ok. do 3 f_equal. unfold cur. f_equal.
    rewrite Zlength_app. change (Zlength [k]) with 1. pose proof (Zlength_nonneg pre). apply Z.mod_small. lia.
Qed.

Lemma emits_raw src n pre post cap :
  fits pre post cap -> 0 <= n < 2 ^ 16 -> n <= Zlength src ->
  emits (fun e => AziHsmMborEncoderEncode e (Some src) n) (take (Z.to_nat n) src) pre post cap.
Proof.
  intros F Hn Hs. unfold emits, AziHsmMborEncoderEncode.
  rewrite (exceeds_cur _ _ _ _ F) by lia. destruct F as [F1 F2].
  assert (Zlength (take (Z.to_nat n) src) = n) as Hl by (apply Zlength_take; lia).
  destruct (Z.ltb_spec cap (Zlength pre + n)).
  - exists EFI_BUFFER_TOO_SMALL, []. rewrite app_nil_r. split_and!; [done| |right].
    + change (Zlength (@nil Z)) with 0. lia.
    + split_and!; [done|apply prefix_nil|lia].
  - exists EFI_SUCCESS, (take (Z.to_nat n) src). unfold copy_into. cbn [cur Buffer Position Capacity].
    unfold CopyMem. rewrite read_prefix, bind_Ok, write_cur by lia. split_and!; [|lia|by left].
    rewrite !bind_Ok. unfold cur. do 4 f_equal. rewrite Zlength_app, Hl.
    pose proof (Zlength_nonneg pre). apply Z.mod_small. lia.
Qed.

(** A whole source object. *)
Lemma emits_object src pre post cap :
  fits pre post cap -> Zlength src < 2 ^ 16 ->
  emits (fun e => AziHsmMborEncoderEncode e (Some src) (Zlength src)) src pre post cap.
Proof.
  intros F H. pose proof (Zlength_nonneg src).
  pose proof (emits_raw src (Zlength src) pre post cap F) as E.
  rewrite take_ge in E by (unfold Zlength; lia). apply E; lia.
Qed.

Lemma emits_padding n pre post cap :
  fits pre post cap -> emits (encode_padding n) (replicate n 0) pre post cap.
Proof.
  revert pre post. induction n as [|n IH]; intros pre post F; [by apply emits_ret|].
  apply (emits_seq (fun e => AziHsmMborEncoderEncode e (Some [0]) 1) (encode_padding n) [0] (replicate n 0)).
  - by apply (emits_object [0]).
  - intros H. by apply IH, fits_advance.
Qed.

Lemma be16_bytes v : 0 <= v < 2 ^ 16 -> le_split 2 (ConvertToBigEndian16 v) = big_endian 2 v.
Proof. intros. by apply SwapBytes16_rev. Qed.
Lemma be32_bytes v : 0 <= v < 2 ^ 32 -> le_split 4 (ConvertToBigEndian32 v) = big_endian 4 v.
Proof. intros. by apply SwapBytes32_rev. Qed.
Lemma be64_bytes v : 0 <= v < 2 ^ 64 -> le_split 8 (ConvertToBigEndian64 v) = big_endian 8 v.
Proof. intros. by apply SwapBytes64_rev. Qed.

(** ** Data items *)
Inductive item : Type :=
  | U8 (v : Z) | U16 (v : Z) | U32 (v : Z) | U64 (v : Z)
  | Boolean (b : bool) | Map (fields : Z) | Bytes (bs : list Z) | PaddedBytes (bs : list Z).

Definition item_wf (i : item) : Prop :=
  match i with
  | U8 v => 0 <= v < 2 ^ 8
  | U16 v => 0 <= v < 2 ^ 16
  | U32 v => 0 <= v < 2 ^ 32
  | U64 v => 0 <= v < 2 ^ 64
  | Boolean _ => True
  | Map n => 0 <= n < 16
  | Bytes bs | PaddedBytes bs => Zlength bs < 2 ^ 16
  end.

(** Bytes needed so that the payload of a padded item starting at [pos] is
    aligned. *)
Definition padding_at (pos : Z) : Z := (- (pos + 3)) mod 4.

(** The wire format; only padding depends on the position. *)
Definition item_bytes (pos : Z) (i : item) : list Z :=
  match i with
  | U8 v => [0x18; v]
  | U16 v => 0x19 :: big_endian 2 v
  | U32 v => 0x1A :: big_endian 4 v
  | U64 v => 0x1B :: big_endian 8 v
  | Boolean b => [if b then 0x15 else 0x14]
  | Map n => [0xA0 + n]
  | Bytes bs => 0x80 :: big_endian 2 (Zlength bs) ++ bs
  | PaddedBytes bs =>
    (0x80 + padding_at pos) :: big_endian 2 (Zlength bs) ++ replicate (Z.to_nat (padding_at pos)) 0 ++ bs
  end.

Definition encode_item (i : item) (e : option AZIHSM_MBOR_ENCODER) : result (EFI_STATUS * option AZIHSM_MBOR_ENCODER) :=
  match i with
  | U8 v => AziHsmMborEncodeU8 e v
  | U16 v => AziHsmMborEncodeU16 e v
  | U32 v => AziHsmMborEncodeU32 e v
  | U64 v => AziHsmMborEncodeU64 e v
  | Boolean b => AziHsmMborEncodeBoolean e (if b then 1 else 0)
  | Map n => AziHsmMborEncodeMap e n
  | Bytes bs => AziHsmMborEncodeBytes e (Some bs) (Zlength bs)
  | PaddedBytes bs => AziHsmMborEncodePaddedBytes e (Some bs) (Zlength bs)
  end.

(** [if (EFI_ERROR (Status)) goto Exit] after each item. *)
Fixpoint encode_items (items : list item) (e : option AZIHSM_MBOR_ENCODER) : result (EFI_STATUS * option AZIHSM_MBOR_ENCODER) :=
  match items with
  | [] => Ok (EFI_SUCCESS, e)
  | i :: items => or_exit (encode_item i e) (encode_items items)
  end.

Fixpoint message_bytes (pos : Z) (items : list item) : list Z :=
  match items with
  | [] => []
  | i :: items => item_bytes pos i ++ message_bytes (pos + Zlength (item_bytes pos i)) items
  end.

Lemma padding_length_at pos : 0 <= pos < 2 ^ 16 -> padding_length pos = padding_at pos /\ 0 <= padding_at pos < 4.
Proof.
  intros H. unfold padding_length, padding_at. rewrite u32_small by lia. unfold u8. split; [|zlia].
  rewrite Z.mod_small by zlia. zlia.
Qed.

Lemma padded_marker p : 0 <= p < 4 ->
  Z.lor MBOR_BYTES_MARKER (Z.land p MBOR_BYTES_PADDING_MASK) = 0x80 + p /\
  Z.land (0x80 + p) (u8 (Z.lnot MBOR_BYTES_PADDING_MASK)) = MBOR_BYTES_MARKER /\
  Z.land (0x80 + p) MBOR_BYTES_PADDING_MASK = p.
Proof. intros H. assert (p = 0 \/ p = 1 \/ p = 2 \/ p = 3) as [->|[->|[->| ->]]] by lia; done. Qed.

Lemma map_marker n : 0 <= n < 16 ->
  Z.lor MBOR_MAP_MARKER (Z.land n MBOR_MAP_FIELD_MASK) = 0xA0 + n /\
  Z.land (0xA0 + n) MBOR_MAP_MARKER_MASK = MBOR_MAP_MARKER /\
  Z.land (0xA0 + n) MBOR_MAP_FIELD_MASK = n.
Proof.
  intros H. assert (Forall (fun n => Z.lor MBOR_MAP_MARKER (Z.land n MBOR_MAP_FIELD_MASK) = 0xA0 + n /\
    Z.land (0xA0 + n) MBOR_MAP_MARKER_MASK = MBOR_MAP_MARKER /\
    Z.land (0xA0 + n) MBOR_MAP_FIELD_MASK = n) (seqZ 0 16)) as Hall by (cbv; repeat constructor).
  rewrite Forall_forall in Hall. apply Hall, list_elem_of_In, elem_of_seqZ. lia.
Qed.

Lemma emits_marked k bs pre post cap :
  fits pre post cap -> Zlength bs < 2 ^ 16 ->
  emits (fun e => or_exit (AziHsmMborEncodeMarker e k)
           (fun e => AziHsmMborEncoderEncode e (Some bs) (Zlength bs))) (k :: bs) pre post cap.
Proof.
  intros F H. apply (emits_seq (fun e => AziHsmMborEncodeMarker e k) _ [k]); [by apply emits_marker|].
  intros Hl. apply emits_object; [by apply fits_advance|done].
Qed.

Lemma emits_padded bs pre post cap :
  fits pre post cap -> Zlength bs < 2 ^ 16 ->
  emits (fun e => AziHsmMborEncodePaddedBytes e (Some bs) (Zlength bs))
    (item_bytes (Zlength pre) (PaddedBytes bs)) pre post cap.
Proof.
  intros F H. pose proof (Zlength_nonneg pre) as Hp0. pose proof (Zlength_nonneg bs). pose proof F as [F1 F2].
  destruct (padding_length_at (Zlength pre)) as [Ep Hp]; [lia|].
  destruct (padded_marker _ Hp) as (Em & _ & _). set (p := padding_at (Zlength pre)) in *.
  assert (E : emits (fun e => or_exit (AziHsmMborEncodeMarker e (0x80 + p)) (fun e =>
      or_exit (AziHsmMborEncoderEncode e (Some (big_endian 2 (Zlength bs))) 2) (fun e =>
      or_exit (encode_padding (Z.to_nat p) e) (fun e =>
      _ ← ASSERT (match e with Some e => Position e mod 4 =? 0 | None => true end);
      AziHsmMborEncoderEncode e (Some bs) (Zlength bs))))) (item_bytes (Zlength pre) (PaddedBytes bs)) pre post cap).
  { apply (emits_seq (fun e => AziHsmMborEncodeMarker e (0x80 + p)) _ [0x80 + p]); [by apply emits_marker|].
    intros H1. apply (emits_seq (fun e => AziHsmMborEncoderEncode e (Some (big_endian 2 (Zlength bs))) 2)).
    { apply (emits_object (big_endian 2 (Zlength bs))); [by apply fits_advance|by rewrite Zlength_big_endian]. }
    intros H2. apply emits_seq; [apply emits_padding; repeat apply fits_advance; done|].
    intros H3. unfold emits. rewrite ASSERT_holds.
    - apply emits_object; [repeat apply fits_advance; done|done].
    - cbn [cur Position]. rewrite !Zlength_app, Zlength_big_endian, Zlength_replicate by lia.
      change (Zlength [0x80 + p]) with 1. apply Z.eqb_eq. subst p. unfold padding_at in *. zlia. }
  unfold emits in *. unfold AziHsmMborEncodePaddedBytes. cbn [cur Position]. fold (cur pre post cap).
  rewrite Ep, Em, be16_bytes by lia. rewrite (proj2 (Z.ltb_ge _ _)) by (unfold MBOR_BYTES_PADDING_MASK; lia).
  exact E.
Qed.

(** Every encoder writes its item's wire format. *)
Lemma emits_item i pre post cap :
  fits pre post cap -> item_wf i -> emits (encode_item i) (item_bytes (Zlength pre) i) pre post cap.
Proof.
  intros F W. destruct i as [v|v|v|v|b|n|bs|bs]; cbn [item_wf item_bytes] in *; unfold emits; cbn [encode_item].
  - pose proof (emits_marked MBOR_U8_MARKER [v] pre post cap F eq_refl) as E.
    unfold AziHsmMborEncodeU8. cbn [le_split]. by rewrite Z.mod_small by lia.
  - unfold AziHsmMborEncodeU16. rewrite be16_bytes by done.
    exact (emits_marked MBOR_U16_MARKER (big_endian 2 v) pre post cap F eq_refl).
  - unfold AziHsmMborEncodeU32. rewrite be32_bytes by done.
    exact (emits_marked MBOR_U32_MARKER (big_endian 4 v) pre post cap F eq_refl).
  - unfold AziHsmMborEncodeU64. rewrite be64_bytes by done.
    exact (emits_marked MBOR_U64_MARKER (big_endian 8 v) pre post cap F eq_refl).
  - destruct b; by apply emits_marker.
  - unfold AziHsmMborEncodeMap. destruct (map_marker n W) as (-> & _ & _).
    rewrite (proj2 (Z.ltb_ge _ _)) by (unfold MBOR_MAP_FIELD_MASK; lia). by apply emits_marker.
  - unfold AziHsmMborEncodeBytes. pose proof (Zlength_nonneg bs). rewrite be16_bytes by lia.
    apply (emits_seq (fun e => AziHsmMborEncodeMarker e MBOR_BYTES_MARKER) _ [MBOR_BYTES_MARKER]);
      [by apply emits_marker|].
    intros H1. apply (emits_seq (fun e => AziHsmMborEncoderEncode e (Some (big_endian 2 (Zlength bs))) 2)).
    { apply (emits_object (big_endian 2 (Zlength bs))); [by apply fits_advance|done]. }
    intros H2. apply emits_object; [repeat apply fits_advance; done|done].
  - by apply emits_padded.
Qed.

Lemma emits_items items pre post cap :
  fits pre post cap -> Forall item_wf items ->
  emits (encode_items items) (message_bytes (Zlength pre) items) pre post cap.
Proof.
  intros F W. revert pre post F. induction W as [|i items Wi Wis IH]; intros pre post F; [by apply emits_ret|].
  apply emits_seq; [by apply emits_item|]. intros H. rewrite <- Zlength_app. by apply IH, fits_advance.
Qed.

(** ** What the decoders accept *)
Lemma decode_raw o n pre post cap :
  fits pre post cap -> 0 <= n < 2 ^ 16 -> (Zlength pre + n <= cap -> n <= Zlength o) ->
  AziHsmMborDecoderDecode (Some (cur pre post cap)) (Some o) n =
    if cap <? Zlength pre + n then Ok (EFI_BUFFER_TOO_SMALL, (Some (cur pre post cap), Some o))
    else Ok (EFI_SUCCESS, (Some (cur (pre ++ take (Z.to_nat n) post) (drop (Z.to_nat n) post) cap),
                           Some (take (Z.to_nat n) post ++ drop (Z.to_nat n) o))).
Proof.
  intros F Hn Ho. unfold AziHsmMborDecoderDecode. cbn [cur Buffer Capacity Position]. fold (cur pre post cap).
  rewrite (exceeds_cur _ _ _ _ F) by lia. destruct F as [F1 F2].
  destruct (Z.ltb_spec cap (Zlength pre + n)); [done|]. pose proof (Zlength_nonneg pre).
  unfold CopyMem. rewrite read_cur, bind_Ok by lia.
  assert (Zlength (take (Z.to_nat n) post) = n) as Hl by (apply Zlength_take; lia).
  rewrite (write_cur [] o) by lia. rewrite bind_Ok. cbn [app].
  replace (length (take (Z.to_nat n) post)) with (Z.to_nat n) by (unfold Zlength in Hl; lia).
  do 5 f_equal. unfold cur. rewrite <- app_assoc, take_drop, Zlength_app, Hl. f_equal. apply Z.mod_small. lia.
Qed.

Lemma le_combine_zeros n : le_combine (replicate n 0) = 0.
Proof. induction n as [|n IH]; simpl; [done|]. by rewrite IH. Qed.

Lemma decode_local_spec n pre post cap :
  fits pre post cap -> Z.of_nat n < 2 ^ 16 ->
  decode_local (Some (cur pre post cap)) n =
    if cap <? Zlength pre + Z.of_nat n then Ok (EFI_BUFFER_TOO_SMALL, (Some (cur pre post cap), 0))
    else Ok (EFI_SUCCESS, (Some (cur (pre ++ take n post) (drop n post) cap), le_combine (take n post))).
Proof.
  intros F Hn. unfold decode_local. rewrite decode_raw; [|done|lia|].
  - destruct (_ <? _); rewrite bind_Ok; cbn; [by rewrite le_combine_zeros|].
    by rewrite !Nat2Z.id, (drop_ge (replicate n 0)), app_nil_r by (rewrite length_replicate; lia).
  - intros _. unfold Zlength. rewrite length_replicate. lia.
Qed.

(** The next [n] bytes of the input are [w]. *)
Lemma decode_local_app w rest pre cap :
  fits pre (w ++ rest) cap -> Zlength w < 2 ^ 16 -> Zlength pre + Zlength w <= cap ->
  decode_local (Some (cur pre (w ++ rest) cap)) (length w) =
    Ok (EFI_SUCCESS, (Some (cur (pre ++ w) rest cap), le_combine w)).
Proof.
  intros F Hw Hc. rewrite decode_local_spec by (done || (unfold Zlength in Hw; lia)).
  rewrite (proj2 (Z.ltb_ge _ _)) by (unfold Zlength in *; lia).
  by rewrite take_app_length, drop_app_length.
Qed.

Lemma decode_raw_app o w rest pre cap :
  fits pre (w ++ rest) cap -> Zlength pre + Zlength w <= cap -> Zlength w <= Zlength o ->
  AziHsmMborDecoderDecode (Some (cur pre (w ++ rest) cap)) (Some o) (Zlength w) =
    Ok (EFI_SUCCESS, (Some (cur (pre ++ w) rest cap), Some (w ++ drop (length w) o))).
Proof.
  intros F Hc Ho. pose proof (Zlength_nonneg w). pose proof (Zlength_nonneg pre). pose proof F as [_ ?].
  rewrite decode_raw by (done || lia). rewrite (proj2 (Z.ltb_ge _ _)) by lia. unfold Zlength.
  by rewrite Nat2Z.id, take_app_length, drop_app_length.
Qed.

(** Byte-swapping undoes big-endian order, in both directions. *)
Definition swaps (n : nat) (swap : Z -> Z) : Prop := forall v, 0 <= v < 256 ^ Z.of_nat n ->
  0 <= swap v < 256 ^ Z.of_nat n /\ le_split n (swap v) = reverse (le_split n v).

Lemma swaps_u8 : swaps 1 (fun v => v).
Proof. done. Qed.
Lemma swaps_u16 : swaps 2 ConvertToLittleEndian16.
Proof. exact SwapBytes16_rev. Qed.
Lemma swaps_u32 : swaps 4 ConvertToLittleEndian32.
Proof. exact SwapBytes32_rev. Qed.
Lemma swaps_u64 : swaps 8 ConvertToLittleEndian64.
Proof. exact SwapBytes64_rev. Qed.

Lemma big_endian_bytes n v : Forall is_byte (big_endian n v).
Proof. apply Forall_reverse, le_split_bytes. Qed.

Lemma swap_big_endian n swap v :
  swaps n swap -> 0 <= v < 256 ^ Z.of_nat n -> swap (le_combine (big_endian n v)) = v.
Proof.
  intros Hs Hv. pose proof (le_combine_bound _ (big_endian_bytes n v)) as Hb.
  rewrite Zlength_big_endian in Hb. destruct (Hs _ Hb) as [Hr E].
  rewrite <- (le_combine_split_small n (swap _)), E by done.
  replace (le_split n (le_combine (big_endian n v))) with (big_endian n v).
  - unfold big_endian. rewrite reverse_involutive. by apply le_combine_split_small.
  - symmetry. rewrite <- (le_split_combine (big_endian n v)) at 2 by apply big_endian_bytes.
    f_equal. unfold big_endian. by rewrite length_reverse, length_le_split.
Qed.

Lemma big_endian_swap swap w :
  swaps (length w) swap -> Forall is_byte w ->
  big_endian (length w) (swap (le_combine w)) = w /\ 0 <= swap (le_combine w) < 256 ^ Zlength w.
Proof.
  intros Hs Hw. destruct (Hs _ (le_combine_bound _ Hw)) as [Hr E]. split; [|done].
  unfold big_endian. by rewrite E, reverse_involutive, le_split_combine.
Qed.

Inductive kind : Type := KU8 | KU16 | KU32 | KU64 | KBoolean | KMap | KBytes | KPaddedBytes.

Definition kind_of (i : item) : kind :=
  match i with
  | U8 _ => KU8 | U16 _ => KU16 | U32 _ => KU32 | U64 _ => KU64
  | Boolean _ => KBoolean | Map _ => KMap | Bytes _ => KBytes | PaddedBytes _ => KPaddedBytes
  end.

(** Call the decoder of kind [k], with [o] as the destination of byte strings;
    the item decoded, on success. *)
Definition decode_item (k : kind) (o : list Z) (d : option AZIHSM_MBOR_DECODER)
  : result (EFI_STATUS * option AZIHSM_MBOR_DECODER * option item) :=
  let uint (c : Z -> item) m :=
    '(st, (d, v)) ← (m : result (EFI_STATUS * (option AZIHSM_MBOR_DECODER * option Z)));
    Ok (st, d, if EFI_ERROR st then None else c <$> v) in
  let bytes (c : list Z -> item) m :=
    '(st, (d, b, l)) ← (m : result (EFI_STATUS * bytes_state));
    Ok (st, d, if EFI_ERROR st then None else Some (c (take (Z.to_nat (default 0 l)) (default [] b)))) in
  match k with
  | KU8 => uint U8 (AziHsmMborDecodeU8 d (Some 0))
  | KU16 => uint U16 (AziHsmMborDecodeU16 d (Some 0))
  | KU32 => uint U32 (AziHsmMborDecodeU32 d (Some 0))
  | KU64 => uint U64 (AziHsmMborDecodeU64 d (Some 0))
  | KBoolean =>
    '(st, (d, v)) ← AziHsmMborDecodeBoolean d (Some false);
    Ok (st, d, if EFI_ERROR st then None else Boolean <$> v)
  | KMap => uint Map (AziHsmMborDecodeMap d (Some 0))
  | KBytes => bytes Bytes (AziHsmMborDecodeBytes d (Some o) (Some 0))
  | KPaddedBytes => bytes PaddedBytes (AziHsmMborDecodePaddedBytes d (Some o) (Some 0))
  end.

Fixpoint decode_items (ks : list kind) (o : list Z) (d : option AZIHSM_MBOR_DECODER)
  : result (EFI_STATUS * option AZIHSM_MBOR_DECODER * list item) :=
  match ks with
  | [] => Ok (EFI_SUCCESS, d, [])
  | k :: ks =>
    '(st, d, i) ← decode_item k o d;
    match i with
    | None => Ok (st, d, [])
    | Some i => '(st, d, items) ← decode_items ks o d; Ok (st, d, i :: items)
    end
  end.

Lemma fits_consume pre w rest cap :
  fits pre (w ++ rest) cap -> Zlength pre + Zlength w <= cap -> fits (pre ++ w) rest cap.
Proof. intros [F1 F2] H. unfold fits. rewrite Zlength_app in *. lia. Qed.

Lemma decode_marker_app m rest pre cap :
  fits pre (m :: rest) cap -> Zlength pre + 1 <= cap ->
  decode_local (Some (cur pre (m :: rest) cap)) 1 = Ok (EFI_SUCCESS, (Some (cur (pre ++ [m]) rest cap), m)).
Proof.
  intros F Hc. pose proof (decode_local_app [m] rest pre cap F eq_refl Hc) as E.
  cbn [le_combine] in E. by rewrite Z.mul_0_r, Z.add_0_r in E.
Qed.

Lemma decode_uint_app M n swap v v0 rest pre cap :
  swaps n swap -> 0 <= v < 256 ^ Z.of_nat n -> Z.of_nat n < 2 ^ 15 ->
  fits pre (M :: big_endian n v ++ rest) cap -> Zlength pre + 1 + Z.of_nat n <= cap ->
  decode_uint M n swap (Some (cur pre (M :: big_endian n v ++ rest) cap)) (Some v0) =
    Ok (EFI_SUCCESS, (Some (cur (pre ++ M :: big_endian n v) rest cap), Some v)).
Proof.
  intros Hs Hv Hn F Hc. unfold decode_uint. rewrite decode_marker_app, bind_Ok by (done || lia).
  cbn [EFI_ERROR]. rewrite Z.eqb_refl. cbn [negb].
  assert (length (big_endian n v) = n) as Hl by (unfold big_endian; by rewrite length_reverse, length_le_split).
  assert (F' : fits (pre ++ [M]) (big_endian n v ++ rest) cap)
    by (apply (fits_consume _ [M]); [done|change (Zlength [M]) with 1; lia]).
  pose proof (decode_local_app _ _ _ _ F') as E. rewrite Hl in E.
  rewrite E, bind_Ok; [|rewrite Zlength_big_endian; lia|].
  - cbn [EFI_ERROR]. by rewrite (swap_big_endian n swap v Hs Hv), <- app_assoc.
  - rewrite Zlength_app, Zlength_big_endian. change (Zlength [M]) with 1. lia.
Qed.

Lemma decode_padding_app n rest pre cap :
  fits pre (replicate n 0 ++ rest) cap -> Zlength pre + Z.of_nat n <= cap ->
  decode_padding n (Some (cur pre (replicate n 0 ++ rest) cap)) =
    Ok (EFI_SUCCESS, Some (cur (pre ++ replicate n 0) rest cap)).
Proof.
  revert pre. induction n as [|n IH]; intros pre F Hc; cbn [decode_padding replicate app].
  - by rewrite app_nil_r.
  - rewrite decode_marker_app, bind_Ok by (done || lia). cbn [EFI_ERROR negb Z.eqb].
    rewrite IH.
    + by rewrite <- app_assoc.
    + apply (fits_consume _ [0]); [done|change (Zlength [0]) with 1; lia].
    + rewrite Zlength_app. change (Zlength [0]) with 1. lia.
Qed.

(** The length field of byte strings. *)
Lemma decode_length_app (bs rest pre : list Z) cap :
  Zlength bs < 2 ^ 16 -> fits pre (big_endian 2 (Zlength bs) ++ rest) cap -> Zlength pre + 2 <= cap ->
  exists n, decode_local (Some (cur pre (big_endian 2 (Zlength bs) ++ rest) cap)) 2 =
    Ok (EFI_SUCCESS, (Some (cur (pre ++ big_endian 2 (Zlength bs)) rest cap), n)) /\
    ConvertToLittleEndian16 n = Zlength bs.
Proof.
  intros Hb F Hc. eexists. split; [exact (decode_local_app (big_endian 2 (Zlength bs)) rest pre cap F eq_refl Hc)|].
  apply (swap_big_endian 2); [apply swaps_u16|]. pose proof (Zlength_nonneg bs).
  change (256 ^ Z.of_nat 2) with (2 ^ 16). lia.
Qed.

Lemma take_payload (bs o : list Z) : take (Z.to_nat (Zlength bs)) (bs ++ o) = bs.
Proof. unfold Zlength. by rewrite Nat2Z.id, take_app_length. Qed.

(** [AziHsmMborDecodeBytes] up to the copy of the payload. *)
Lemma decode_bytes_prefix (bs rest pre : list Z) cap :
  Zlength bs < 2 ^ 16 ->
  fits pre (item_bytes (Zlength pre) (Bytes bs) ++ rest) cap ->
  Zlength pre + Zlength (item_bytes (Zlength pre) (Bytes bs)) <= cap ->
  forall o l, exists pre', fits pre' (bs ++ rest) cap /\ Zlength pre' + Zlength bs <= cap /\
  AziHsmMborDecodeBytes (Some (cur pre (item_bytes (Zlength pre) (Bytes bs) ++ rest) cap)) (Some o) (Some l) =
    ('(Status, (Decoder, buffer)) ← AziHsmMborDecoderDecode (Some (cur pre' (bs ++ rest) cap)) (Some o) (Zlength bs);
     Ok (Status, (Decoder, buffer, Some (Zlength bs)))) /\ pre' ++ bs = pre ++ item_bytes (Zlength pre) (Bytes bs).
Proof.
  intros Hb F Hc o l. cbn [item_bytes] in *. rewrite <- app_comm_cons, <- app_assoc in *.
  replace (Zlength (0x80 :: big_endian 2 (Zlength bs) ++ bs)) with (3 + Zlength bs) in Hc
    by (unfold Zlength; simpl; lia).
  pose proof (Zlength_nonneg bs).
  assert (F1 : fits (pre ++ [0x80]) (big_endian 2 (Zlength bs) ++ bs ++ rest) cap)
    by (apply (fits_consume _ [0x80]); [done|change (Zlength [0x80]) with 1; lia]).
  assert (F2 : fits ((pre ++ [0x80]) ++ big_endian 2 (Zlength bs)) (bs ++ rest) cap).
  { apply fits_consume; [done|]. rewrite Zlength_app, Zlength_big_endian. change (Zlength [0x80]) with 1. lia. }
  assert (HP : Zlength ((pre ++ [0x80]) ++ big_endian 2 (Zlength bs)) = Zlength pre + 3).
  { rewrite !Zlength_app, Zlength_big_endian. change (Zlength [0x80]) with 1. lia. }
  unfold AziHsmMborDecodeBytes. rewrite decode_marker_app, bind_Ok by (done || lia).
  cbn [EFI_ERROR negb MBOR_BYTES_MARKER Z.eqb Pos.eqb].
  destruct (decode_length_app bs (bs ++ rest) (pre ++ [0x80]) cap Hb F1) as (n & -> & En).
  { rewrite Zlength_app. change (Zlength [0x80]) with 1. lia. }
  rewrite bind_Ok. cbn [EFI_ERROR]. rewrite En. unfold exceeds.
  rewrite (exceeds_cur _ _ _ _ F2) by lia. rewrite (proj2 (Z.ltb_ge _ _)) by lia.
  eexists. split_and!; [exact F2|lia|done|by rewrite <- !app_assoc].
Qed.

Lemma decode_bytes_app (bs rest o : list Z) l pre cap :
  Zlength bs < 2 ^ 16 -> Zlength bs <= Zlength o ->
  fits pre (item_bytes (Zlength pre) (Bytes bs) ++ rest) cap ->
  Zlength pre + Zlength (item_bytes (Zlength pre) (Bytes bs)) <= cap ->
  AziHsmMborDecodeBytes (Some (cur pre (item_bytes (Zlength pre) (Bytes bs) ++ rest) cap)) (Some o) (Some l) =
    Ok (EFI_SUCCESS, (Some (cur (pre ++ item_bytes (Zlength pre) (Bytes bs)) rest cap),
                      Some (bs ++ drop (length bs) o), Some (Zlength bs))).
Proof.
  intros Hb Ho F Hc. destruct (decode_bytes_prefix bs rest pre cap Hb F Hc o l) as (pre' & F' & HP & -> & Ep).
  by rewrite decode_raw_app, bind_Ok, Ep by done.
Qed.

Lemma decode_padded_app (bs rest o : list Z) l pre cap :
  Zlength bs < 2 ^ 16 -> Zlength bs <= Zlength o ->
  fits pre (item_bytes (Zlength pre) (PaddedBytes bs) ++ rest) cap ->
  Zlength pre + Zlength (item_bytes (Zlength pre) (PaddedBytes bs)) <= cap ->
  AziHsmMborDecodePaddedBytes (Some (cur pre (item_bytes (Zlength pre) (PaddedBytes bs) ++ rest) cap)) (Some o) (Some l) =
    Ok (EFI_SUCCESS, (Some (cur (pre ++ item_bytes (Zlength pre) (PaddedBytes bs)) rest cap),
                      Some (bs ++ drop (length bs) o), Some (Zlength bs))).
Proof.
  intros Hb Ho F Hc. cbn [item_bytes] in *. rewrite <- app_comm_cons, <- !app_assoc in *.
  pose proof (Z.mod_pos_bound (- (Zlength pre + 3)) 4 ltac:(lia)) as Hp. fold (padding_at (Zlength pre)) in Hp.
  set (p := padding_at (Zlength pre)) in *. set (m := 0x80 + p) in *.
  destruct (padded_marker p Hp) as (_ & Em & Ep). fold m in Em, Ep.
  replace (Zlength (m :: big_endian 2 (Zlength bs) ++ replicate (Z.to_nat p) 0 ++ bs)) with (3 + p + Zlength bs) in Hc.
  2:{ change (m :: ?x) with ([m] ++ x). rewrite !Zlength_app, Zlength_big_endian, Zlength_replicate by lia.
      change (Zlength [m]) with 1. lia. }
  pose proof (Zlength_nonneg bs).
  assert (F1 : fits (pre ++ [m]) (big_endian 2 (Zlength bs) ++ replicate (Z.to_nat p) 0 ++ bs ++ rest) cap)
    by (apply (fits_consume _ [m]); [done|change (Zlength [m]) with 1; lia]).
  assert (F2 : fits ((pre ++ [m]) ++ big_endian 2 (Zlength bs)) (replicate (Z.to_nat p) 0 ++ bs ++ rest) cap).
  { apply fits_consume; [done|]. rewrite Zlength_app, Zlength_big_endian. change (Zlength [m]) with 1. lia. }
  assert (HP : Zlength ((pre ++ [m]) ++ big_endian 2 (Zlength bs)) = Zlength pre + 3).
  { rewrite !Zlength_app, Zlength_big_endian. change (Zlength [m]) with 1. lia. }
  assert (F3 : fits (((pre ++ [m]) ++ big_endian 2 (Zlength bs)) ++ replicate (Z.to_nat p) 0) (bs ++ rest) cap).
  { apply fits_consume; [done|]. rewrite HP, Zlength_replicate by lia. lia. }
  unfold AziHsmMborDecodePaddedBytes. rewrite decode_marker_app, bind_Ok by (done || lia).
  cbn [EFI_ERROR]. rewrite Em, Z.eqb_refl, Ep. cbn [negb].
  destruct (decode_length_app bs (replicate (Z.to_nat p) 0 ++ bs ++ rest) (pre ++ [m]) cap Hb F1) as (n & -> & En).
  { rewrite Zlength_app. change (Zlength [m]) with 1. lia. }
  rewrite bind_Ok. cbn [EFI_ERROR]. rewrite En. unfold exceeds.
  rewrite (exceeds_cur _ _ _ _ F2) by lia. rewrite (proj2 (Z.ltb_ge _ _)) by lia.
  rewrite decode_padding_app, bind_Ok by (done || lia). cbn [EFI_ERROR].
  rewrite decode_raw_app, bind_Ok; [by rewrite <- !app_assoc|done| |done].
  rewrite Zlength_app, HP, Zlength_replicate by lia. lia.
Qed.

(** Every decoder reads its item's wire format back. *)
Lemma decode_item_app i rest o pre cap :
  item_wf i -> cap <= Zlength o ->
  fits pre (item_bytes (Zlength pre) i ++ rest) cap ->
  Zlength pre + Zlength (item_bytes (Zlength pre) i) <= cap ->
  decode_item (kind_of i) o (Some (cur pre (item_bytes (Zlength pre) i ++ rest) cap)) =
    Ok (EFI_SUCCESS, Some (cur (pre ++ item_bytes (Zlength pre) i) rest cap), Some i).
Proof.
  intros W Ho F Hc. pose proof (Zlength_nonneg pre).
  assert (Hbytes : forall bs, (i = Bytes bs \/ i = PaddedBytes bs) -> Zlength bs <= Zlength o).
  { intros bs [-> | ->]; cbn [item_bytes] in Hc; unfold Zlength in *; cbn [length] in Hc; rewrite !length_app in Hc; lia. }
  destruct i as [v|v|v|v|b|n|bs|bs]; cbn [item_wf kind_of decode_item] in *.
  - pose proof (decode_uint_app 0x18 1 (fun v => v) v 0 rest pre cap swaps_u8 W eq_refl) as E.
    unfold big_endian in E. cbn [le_split] in E. rewrite Z.mod_small in E by lia.
    change (reverse [v]) with [v] in E. unfold AziHsmMborDecodeU8. change MBOR_U8_MARKER with 0x18. cbn [item_bytes].
    rewrite <- app_comm_cons, E; [done|exact F|]. cbn [item_bytes] in Hc. unfold Zlength in *. simpl in *. lia.
  - unfold AziHsmMborDecodeU16. change MBOR_U16_MARKER with 0x19. cbn [item_bytes].
    rewrite <- app_comm_cons, (decode_uint_app 0x19 2 _ v 0 rest pre cap swaps_u16 W eq_refl F); [done|].
    cbn [item_bytes] in Hc. unfold Zlength in *. simpl in *. lia.
  - unfold AziHsmMborDecodeU32. change MBOR_U32_MARKER with 0x1A. cbn [item_bytes].
    rewrite <- app_comm_cons, (decode_uint_app 0x1A 4 _ v 0 rest pre cap swaps_u32 W eq_refl F); [done|].
    cbn [item_bytes] in Hc. unfold Zlength in *. simpl in *. lia.
  - unfold AziHsmMborDecodeU64. change MBOR_U64_MARKER with 0x1B. cbn [item_bytes].
    rewrite <- app_comm_cons, (decode_uint_app 0x1B 8 _ v 0 rest pre cap swaps_u64 W eq_refl F); [done|].
    cbn [item_bytes] in Hc. unfold Zlength in *. simpl in *. lia.
  - unfold AziHsmMborDecodeBoolean. cbn [item_bytes app] in *. rewrite decode_marker_app by done. by destruct b.
  - unfold AziHsmMborDecodeMap. cbn [item_bytes app] in *. rewrite decode_marker_app by done. rewrite bind_Ok.
    cbn [EFI_ERROR]. destruct (map_marker n W) as (_ & -> & ->). by rewrite Z.eqb_refl.
  - rewrite decode_bytes_app by auto. rewrite bind_Ok. cbn [EFI_ERROR default]. simpl. by rewrite take_payload.
  - rewrite decode_padded_app by auto. rewrite bind_Ok. cbn [EFI_ERROR default]. simpl. by rewrite take_payload.
Qed.

Lemma decode_items_app items rest o pre cap :
  Forall item_wf items -> cap <= Zlength o ->
  fits pre (message_bytes (Zlength pre) items ++ rest) cap ->
  Zlength pre + Zlength (message_bytes (Zlength pre) items) <= cap ->
  decode_items (kind_of <$> items) o (Some (cur pre (message_bytes (Zlength pre) items ++ rest) cap)) =
    Ok (EFI_SUCCESS, Some (cur (pre ++ message_bytes (Zlength pre) items) rest cap), items).
Proof.
  intros W Ho. revert pre. induction W as [|i items Wi Wis IH]; intros pre F Hc; cbn [message_bytes fmap list_fmap decode_items].
  - by rewrite app_nil_r.
  - cbn [message_bytes] in *. rewrite Zlength_app in Hc. rewrite <- app_assoc in *.
    set (w := item_bytes (Zlength pre) i) in *.
    set (r := message_bytes (Zlength pre + Zlength w) items) in *. pose proof (Zlength_nonneg r).
    simpl. unfold w. rewrite decode_item_app by (done || (fold w; lia)). rewrite bind_Ok. fold w.
    specialize (IH (pre ++ w)). rewrite Zlength_app in IH. fold r in IH.
    rewrite IH, bind_Ok, <- app_assoc; [done| |lia].
    apply fits_consume; [done|lia].
Qed.

(** ** Untrusted input *)

(** The encodings [w] of an item that the decoders accept: the wire format,
    any marker for a boolean, any amount of zero padding for padded bytes. *)
Definition accepted (pos : Z) (i : item) (w : list Z) : Prop :=
  match i with
  | Boolean b => exists m, w = [m] /\ b = (m =? 0x15)
  | PaddedBytes bs => exists p, 0 <= p < 4 /\
      w = (0x80 + p) :: big_endian 2 (Zlength bs) ++ replicate (Z.to_nat p) 0 ++ bs
  | _ => w = item_bytes pos i
  end.

(** A call consumed [w], and either yielded an item of the kind or reported an
    error. *)
Definition outcome (k : kind) (pre post : list Z) (cap : Z)
    (r : result (EFI_STATUS * option AZIHSM_MBOR_DECODER * option item)) : Prop :=
  exists st w rest it, post = w ++ rest /\ Zlength pre + Zlength w <= cap /\
    r = Ok (st, Some (cur (pre ++ w) rest cap), it) /\
    match it with
    | Some i => st = EFI_SUCCESS /\ kind_of i = k /\ item_wf i /\ accepted (Zlength pre) i w
    | None => st = EFI_BUFFER_TOO_SMALL \/ st = EFI_COMPROMISED_DATA
    end.

(** The copy of a byte string that is longer than its destination, which the
    decoders do not prevent. *)
Definition payload (i : item) : list Z := match i with Bytes bs | PaddedBytes bs => bs | _ => [] end.
Definition overflow (k : kind) (o pre post : list Z) (cap : Z)
    (r : result (EFI_STATUS * option AZIHSM_MBOR_DECODER * option item)) : Prop :=
  r = Fault OutOfBounds /\
  exists i w rest, post = w ++ rest /\ Zlength pre + Zlength w <= cap /\
    kind_of i = k /\ item_wf i /\ accepted (Zlength pre) i w /\ Zlength o < Zlength (payload i).

Lemma decode_local_cases n pre post cap :
  fits pre post cap -> Z.of_nat n < 2 ^ 16 ->
  decode_local (Some (cur pre post cap)) n = Ok (EFI_BUFFER_TOO_SMALL, (Some (cur pre post cap), 0)) \/
  exists w rest, post = w ++ rest /\ length w = n /\ Zlength pre + Zlength w <= cap /\
    fits (pre ++ w) rest cap /\
    decode_local (Some (cur pre post cap)) n = Ok (EFI_SUCCESS, (Some (cur (pre ++ w) rest cap), le_combine w)).
Proof.
  intros F Hn. rewrite (decode_local_spec _ _ _ _ F Hn).
  destruct (Z.ltb_spec cap (Zlength pre + Z.of_nat n)); [by left|right].
  exists (take n post), (drop n post). assert (length (take n post) = n) as Hl.
  { destruct F. rewrite length_take. unfold Zlength in *. lia. }
  assert (Zlength pre + Zlength (take n post) <= cap) by (unfold Zlength in *; lia).
  split_and!; [by rewrite take_drop|done|done| |done].
  apply fits_consume; [by rewrite take_drop|done].
Qed.

Lemma length_1 {A} (w : list A) : length w = 1%nat -> exists m, w = [m].
Proof. destruct w as [|m [|]]; try done. by exists m. Qed.

Lemma fits_le pre post cap : fits pre post cap -> Zlength pre + Zlength (@nil Z) <= cap.
Proof. intros [? ?]. change (Zlength (@nil Z)) with 0. lia. Qed.

(** Failing after having consumed [w]. *)
Lemma outcome_none k pre w rest cap st :
  Zlength pre + Zlength w <= cap -> st = EFI_BUFFER_TOO_SMALL \/ st = EFI_COMPROMISED_DATA ->
  outcome k pre (w ++ rest) cap (Ok (st, Some (cur (pre ++ w) rest cap), None)).
Proof. intros. exists st, w, rest, None. auto. Qed.

Lemma outcome_start k pre post cap st :
  fits pre post cap -> st = EFI_BUFFER_TOO_SMALL \/ st = EFI_COMPROMISED_DATA ->
  outcome k pre post cap (Ok (st, Some (cur pre post cap), None)).
Proof.
  intros F H. pose proof (outcome_none k pre [] post cap st (fits_le _ _ _ F) H) as E.
  by rewrite app_nil_r in E.
Qed.

Lemma outcome_some k pre w rest cap i :
  Zlength pre + Zlength w <= cap -> kind_of i = k -> item_wf i -> accepted (Zlength pre) i w ->
  outcome k pre (w ++ rest) cap (Ok (EFI_SUCCESS, Some (cur (pre ++ w) rest cap), Some i)).
Proof. intros. exists EFI_SUCCESS, w, rest, (Some i). auto 10. Qed.

Lemma decode_uint_any k M n swap (c : Z -> item) v0 pre post cap :
  swaps n swap -> Z.of_nat n < 2 ^ 15 -> fits pre post cap -> Forall is_byte post ->
  (forall v, 0 <= v < 256 ^ Z.of_nat n -> kind_of (c v) = k /\ item_wf (c v) /\
     accepted (Zlength pre) (c v) (M :: big_endian n v)) ->
  outcome k pre post cap ('(st, (d, v)) ← decode_uint M n swap (Some (cur pre post cap)) (Some v0);
    Ok (st, d, if EFI_ERROR st then None else c <$> v)).
Proof.
  intros Hs Hn F Hb Hc. unfold decode_uint.
  destruct (decode_local_cases 1 pre post cap F eq_refl) as [->|(w & r & -> & Hw & Hl & F1 & ->)];
    rewrite bind_Ok; cbn [EFI_ERROR]; [apply outcome_start; auto|].
  destruct (length_1 w Hw) as [m ->]. cbn [le_combine]. rewrite Z.mul_0_r, Z.add_0_r.
  destruct (Z.eqb_spec m M) as [->|]; cbn [negb]; [|apply (outcome_none k pre [m]); auto].
  destruct (decode_local_cases n (pre ++ [M]) r cap F1 ltac:(lia)) as [->|(w & r2 & -> & Hw2 & Hl2 & F2 & ->)];
    rewrite bind_Ok; cbn [EFI_ERROR]; [apply (outcome_none k pre [M]); auto|].
  apply Forall_app in Hb as [_ [Hbw _]%Forall_app]. rewrite <- Hw2 in Hs.
  destruct (big_endian_swap swap w Hs Hbw) as [E Hr]. unfold Zlength in Hr. rewrite Hw2 in E, Hr.
  destruct (Hc _ Hr) as (E1 & E2 & E3). rewrite E in E3. rewrite bind_Ok, <- app_assoc. cbn [EFI_ERROR].
  apply (outcome_some k pre (M :: w) r2 cap); try done.
  rewrite Zlength_app in Hl2. change (M :: w) with ([M] ++ w). rewrite Zlength_app. lia.
Qed.

(** Reading a length field from untrusted bytes. *)
Lemma length_field w : length w = 2%nat -> Forall is_byte w ->
  0 <= ConvertToLittleEndian16 (le_combine w) < 2 ^ 16 /\ big_endian 2 (ConvertToLittleEndian16 (le_combine w)) = w.
Proof.
  intros Hw Hb. pose proof swaps_u16 as Hs. rewrite <- Hw in Hs.
  destruct (big_endian_swap _ w Hs Hb) as [E Hr]. unfold Zlength in Hr. rewrite Hw in E, Hr. auto.
Qed.

(** Reading a payload of [n] bytes, known to be available. *)
Lemma decode_payload o n pre post cap :
  fits pre post cap -> 0 <= n < 2 ^ 16 -> Zlength pre + n <= cap ->
  exists bs rest, post = bs ++ rest /\ Zlength bs = n /\
    AziHsmMborDecoderDecode (Some (cur pre post cap)) (Some o) n =
      if n <=? Zlength o then Ok (EFI_SUCCESS, (Some (cur (pre ++ bs) rest cap), Some (bs ++ drop (length bs) o)))
      else Fault OutOfBounds.
Proof.
  intros F Hn Hc. exists (take (Z.to_nat n) post), (drop (Z.to_nat n) post).
  assert (Hl : Zlength (take (Z.to_nat n) post) = n) by (destruct F; apply Zlength_take; lia).
  split_and!; [by rewrite take_drop|done|]. pose proof (Zlength_nonneg pre). destruct (Z.leb_spec n (Zlength o)).
  - rewrite decode_raw, (proj2 (Z.ltb_ge _ _)) by (done || lia).
    replace (length (take (Z.to_nat n) post)) with (Z.to_nat n) by (unfold Zlength in Hl; lia). done.
  - unfold AziHsmMborDecoderDecode. cbn [cur Buffer Capacity Position]. fold (cur pre post cap).
    rewrite (exceeds_cur _ _ _ _ F), (proj2 (Z.ltb_ge _ _)) by lia. destruct F. unfold CopyMem. rewrite read_cur, bind_Ok by lia.
    unfold mem_write. destruct (in_bounds o 0 _) eqn:E; [|done]. exfalso. apply in_bounds_iff in E. lia.
Qed.

Lemma decode_bytes_cases o pre post cap :
  fits pre post cap -> Forall is_byte post ->
  let r := decode_item KBytes o (Some (cur pre post cap)) in
  outcome KBytes pre post cap r \/ overflow KBytes o pre post cap r.
Proof.
  intros F Hb r'. subst r'. cbn [decode_item]. unfold AziHsmMborDecodeBytes.
  destruct (decode_local_cases 1 pre post cap F eq_refl) as [->|(w & r & -> & Hw & Hl & F1 & ->)];
    rewrite !bind_Ok; cbn [EFI_ERROR]; [left; apply outcome_start; auto|].
  destruct (length_1 w Hw) as [m ->]. cbn [le_combine]. rewrite Z.mul_0_r, Z.add_0_r.
  destruct (Z.eqb_spec m MBOR_BYTES_MARKER) as [->|]; cbn [negb]; [|left; apply (outcome_none _ pre [m]); auto].
  destruct (decode_local_cases 2 _ r cap F1 eq_refl) as [->|(w & r2 & -> & Hw2 & Hl2 & F2 & ->)];
    rewrite !bind_Ok; cbn [EFI_ERROR]; [left; apply (outcome_none _ pre [MBOR_BYTES_MARKER]); auto|].
  apply Forall_app in Hb as [_ [Hbw _]%Forall_app]. destruct (length_field w Hw2 Hbw) as [Hr E].
  set (n := ConvertToLittleEndian16 (le_combine w)) in *. unfold exceeds. rewrite (exceeds_cur _ _ _ _ F2) by lia.
  rewrite !Zlength_app in *. rewrite <- !app_assoc. rewrite app_assoc. change (Zlength [_]) with 1 in *.
  destruct (Z.ltb_spec cap (Zlength pre + 1 + Zlength w + n)).
  { rewrite bind_Ok. cbn [EFI_ERROR]. left. apply (outcome_none _ pre ([MBOR_BYTES_MARKER] ++ w)); [|auto].
    rewrite Zlength_app. change (Zlength [_]) with 1. lia. }
  rewrite <- app_assoc in F2. destruct (decode_payload o n _ r2 cap F2 Hr) as (bs & r3 & -> & El & ->);
    [rewrite !Zlength_app; change (Zlength [_]) with 1; lia|].
  assert (Hc : Zlength pre + Zlength (MBOR_BYTES_MARKER :: w ++ bs) <= cap).
  { change (MBOR_BYTES_MARKER :: w ++ bs) with ([MBOR_BYTES_MARKER] ++ w ++ bs). rewrite !Zlength_app. change (Zlength [_]) with 1. lia. }
  assert (Hacc : accepted (Zlength pre) (Bytes bs) (MBOR_BYTES_MARKER :: w ++ bs)) by (cbn [accepted item_bytes]; by rewrite El, E).
  assert (Hpost : [MBOR_BYTES_MARKER] ++ w ++ bs ++ r3 = (MBOR_BYTES_MARKER :: w ++ bs) ++ r3) by (simpl; by rewrite <- app_assoc).
  destruct (Z.leb_spec n (Zlength o)) as [Hf|Hf]; rewrite !bind_Ok || (right; split; [done|]); cbn [EFI_ERROR].
  - simpl. rewrite <- El, take_payload. simpl in Hpost. rewrite Hpost. left.
    replace ((pre ++ MBOR_BYTES_MARKER :: w) ++ bs) with (pre ++ MBOR_BYTES_MARKER :: w ++ bs) by (by rewrite <- app_assoc).
    apply (outcome_some KBytes pre (MBOR_BYTES_MARKER :: w ++ bs)); [done|done|cbn; lia|done].
  - exists (Bytes bs), (MBOR_BYTES_MARKER :: w ++ bs), r3. split_and!; try done; cbn; lia.
Qed.

Lemma decode_padding_any n pre post cap :
  fits pre post cap -> Zlength pre + Z.of_nat n <= cap ->
  exists w rest st, post = w ++ rest /\ decode_padding n (Some (cur pre post cap)) = Ok (st, Some (cur (pre ++ w) rest cap)) /\
    (length w <= n)%nat /\
    ((st = EFI_SUCCESS /\ w = replicate n 0) \/ st = EFI_COMPROMISED_DATA).
Proof.
  revert pre post. induction n as [|n IH]; intros pre post F Hc; cbn [decode_padding].
  - exists [], post, EFI_SUCCESS. rewrite app_nil_r. split_and!; auto.
  - rewrite decode_local_spec by (done || lia). rewrite (proj2 (Z.ltb_ge _ _)) by lia. rewrite bind_Ok. cbn [EFI_ERROR].
    destruct post as [|m post].
    { destruct F as [F _]. change (Zlength (@nil Z)) with 0 in F. lia. }
    cbn [take drop le_combine]. rewrite Z.mul_0_r, Z.add_0_r, take_0, drop_0.
    destruct (Z.eqb_spec m 0) as [->|]; cbn [negb].
    + destruct (IH (pre ++ [0]) post) as (w & rest & st & -> & -> & Hl & Hst).
      * apply (fits_consume _ [0]); [done|change (Zlength [0]) with 1; lia].
      * rewrite Zlength_app. change (Zlength [0]) with 1. lia.
      * exists (0 :: w), rest, st. rewrite <- app_assoc. simpl. split_and!; [done|done|lia|].
        destruct Hst as [[-> ->]|Hst]; auto.
    + exists [m], post, EFI_COMPROMISED_DATA. simpl. split_and!; auto with lia.
Qed.

(** A fact about all bytes, by evaluation. *)
Lemma byte_forall (f : Z -> bool) m : forallb f (seqZ 0 256) = true -> is_byte m -> f m = true.
Proof.
  intros H Hm. rewrite forallb_forall in H. apply H, list_elem_of_In, elem_of_seqZ. unfold is_byte in Hm. lia.
Qed.

Lemma padded_marker_inv m : is_byte m ->
  Z.land m (u8 (Z.lnot MBOR_BYTES_PADDING_MASK)) = MBOR_BYTES_MARKER ->
  m = 0x80 + Z.land m MBOR_BYTES_PADDING_MASK /\ 0 <= Z.land m MBOR_BYTES_PADDING_MASK < 4.
Proof.
  intros Hm E. pose proof (byte_forall (fun m =>
    implb (Z.land m (u8 (Z.lnot MBOR_BYTES_PADDING_MASK)) =? MBOR_BYTES_MARKER)
      ((m =? 0x80 + Z.land m MBOR_BYTES_PADDING_MASK) && (0 <=? Z.land m MBOR_BYTES_PADDING_MASK) &&
       (Z.land m MBOR_BYTES_PADDING_MASK <? 4))) m eq_refl Hm) as H.
  cbv beta in H. rewrite E, Z.eqb_refl in H. cbn [implb] in H. rewrite !andb_true_iff in H. lia.
Qed.

Lemma map_marker_inv m : is_byte m ->
  Z.land m MBOR_MAP_MARKER_MASK = MBOR_MAP_MARKER ->
  m = 0xA0 + Z.land m MBOR_MAP_FIELD_MASK /\ 0 <= Z.land m MBOR_MAP_FIELD_MASK < 16.
Proof.
  intros Hm E. pose proof (byte_forall (fun m =>
    implb (Z.land m MBOR_MAP_MARKER_MASK =? MBOR_MAP_MARKER)
      ((m =? 0xA0 + Z.land m MBOR_MAP_FIELD_MASK) && (0 <=? Z.land m MBOR_MAP_FIELD_MASK) &&
       (Z.land m MBOR_MAP_FIELD_MASK <? 16))) m eq_refl Hm) as H.
  cbv beta in H. rewrite E, Z.eqb_refl in H. cbn [implb] in H. rewrite !andb_true_iff in H. lia.
Qed.

Lemma decode_padded_cases o pre post cap :
  fits pre post cap -> Forall is_byte post ->
  let r := decode_item KPaddedBytes o (Some (cur pre post cap)) in
  outcome KPaddedBytes pre post cap r \/ overflow KPaddedBytes o pre post cap r.
Proof.
  intros F Hb r'. subst r'. cbn [decode_item]. unfold AziHsmMborDecodePaddedBytes.
  destruct (decode_local_cases 1 pre post cap F eq_refl) as [->|(w & r & -> & Hw & Hl & F1 & ->)];
    rewrite !bind_Ok; cbn [EFI_ERROR]; [left; apply outcome_start; auto|].
  destruct (length_1 w Hw) as [m ->]. cbn [le_combine]. rewrite Z.mul_0_r, Z.add_0_r.
  destruct (Z.eqb_spec (Z.land m (u8 (Z.lnot MBOR_BYTES_PADDING_MASK))) MBOR_BYTES_MARKER) as [Em|]; cbn [negb];
    [|left; apply (outcome_none _ pre [m]); auto].
  apply Forall_app in Hb as [Hbm Hb]. apply Forall_inv in Hbm.
  destruct (padded_marker_inv m Hbm Em) as [Em' Hp]. set (p := Z.land m MBOR_BYTES_PADDING_MASK) in *.
  destruct (decode_local_cases 2 _ r cap F1 eq_refl) as [->|(w & r2 & -> & Hw2 & Hl2 & F2 & ->)];
    rewrite !bind_Ok; cbn [EFI_ERROR]; [left; apply (outcome_none _ pre [m]); auto|].
  apply Forall_app in Hb as [Hbw _]. destruct (length_field w Hw2 Hbw) as [Hr E].
  set (n := ConvertToLittleEndian16 (le_combine w)) in *. unfold exceeds. rewrite (exceeds_cur _ _ _ _ F2) by lia.
  assert (HP : Zlength ((pre ++ [m]) ++ w) = Zlength pre + 3) by (unfold Zlength; rewrite !length_app; simpl; lia).
  rewrite HP. replace ([m] ++ w ++ r2) with (([m] ++ w) ++ r2) by (by rewrite <- app_assoc).
  destruct (Z.ltb_spec cap (Zlength pre + 3 + (n + p))).
  { rewrite bind_Ok, <- (app_assoc pre). cbn [EFI_ERROR]. left. apply (outcome_none _ pre ([m] ++ w)); [|auto].
    rewrite !Zlength_app in *. lia. }
  destruct (decode_padding_any (Z.to_nat p) _ r2 cap F2) as (z & r3 & st & -> & -> & Hz & Hst); [lia|].
  rewrite bind_Ok. destruct Hst as [[-> Ez]| ->]; cbn [EFI_ERROR].
  - assert (HZ : Zlength z = p) by (rewrite Ez; apply Zlength_replicate; lia).
    assert (F3 : fits (((pre ++ [m]) ++ w) ++ z) r3 cap) by (apply fits_consume; [done|lia]).
    destruct (decode_payload o n _ r3 cap F3 Hr) as (bs & r4 & -> & El & ->); [rewrite Zlength_app; lia|].
    assert (Hc : Zlength pre + Zlength (m :: w ++ z ++ bs) <= cap).
    { change (m :: w ++ z ++ bs) with ([m] ++ w ++ z ++ bs). rewrite !Zlength_app in *. lia. }
    assert (Hacc : accepted (Zlength pre) (PaddedBytes bs) (m :: w ++ z ++ bs)) by (exists p; split; [done|]; by rewrite El, E, <- Ez, <- Em').
    assert (Hpost : ([m] ++ w) ++ z ++ bs ++ r4 = (m :: w ++ z ++ bs) ++ r4) by (simpl; by rewrite <- !app_assoc). rewrite Hpost.
    destruct (Z.leb_spec n (Zlength o)) as [Hf|Hf]; rewrite !bind_Ok || (right; split; [done|]); cbn [EFI_ERROR].
    + simpl. rewrite <- El, take_payload. left.
      replace ((((pre ++ [m]) ++ w) ++ z) ++ bs) with (pre ++ m :: w ++ z ++ bs) by (by rewrite <- !app_assoc).
      apply (outcome_some KPaddedBytes pre (m :: w ++ z ++ bs)); [done|done|cbn; lia|done].
    + exists (PaddedBytes bs), (m :: w ++ z ++ bs), r4. split_and!; try done; cbn; lia.
  - rewrite bind_Ok. cbn [EFI_ERROR].
    replace (([m] ++ w) ++ z ++ r3) with (([m] ++ w ++ z) ++ r3) by (by rewrite <- !app_assoc).
    replace (((pre ++ [m]) ++ w) ++ z) with (pre ++ [m] ++ w ++ z) by (by rewrite <- !app_assoc).
    left. apply outcome_none; [|auto]. rewrite !Zlength_app in *. unfold Zlength in *. lia.
Qed.

Lemma decode_item_cases k o pre post cap :
  fits pre post cap -> Forall is_byte post -> let r := decode_item k o (Some (cur pre post cap)) in
  outcome k pre post cap r \/ overflow k o pre post cap r.
Proof.
  intros F Hb r0. subst r0. destruct k; try by auto using decode_bytes_cases, decode_padded_cases.
  all: left; cbn [decode_item].
  - apply (decode_uint_any _ _ _ _ _ _ _ _ _ swaps_u8); try done. intros v Hv. split_and!; [done|exact Hv|].
    cbn. rewrite Z.mod_small by lia. done.
  - by apply (decode_uint_any _ _ _ _ _ _ _ _ _ swaps_u16).
  - by apply (decode_uint_any _ _ _ _ _ _ _ _ _ swaps_u32).
  - by apply (decode_uint_any _ _ _ _ _ _ _ _ _ swaps_u64).
  - unfold AziHsmMborDecodeBoolean.
    destruct (decode_local_cases 1 pre post cap F eq_refl) as [->|(w & r & -> & Hw & Hl & F1 & ->)];
      rewrite !bind_Ok; cbn [EFI_ERROR]; [apply outcome_start; auto|].
    destruct (length_1 w Hw) as [m ->]. cbn [le_combine]. rewrite Z.mul_0_r, Z.add_0_r.
    apply outcome_some; [done..|]. by exists m.
  - unfold AziHsmMborDecodeMap.
    destruct (decode_local_cases 1 pre post cap F eq_refl) as [->|(w & r & -> & Hw & Hl & F1 & ->)];
      rewrite !bind_Ok; cbn [EFI_ERROR]; [apply outcome_start; auto|].
    destruct (length_1 w Hw) as [m ->]. cbn [le_combine]. rewrite Z.mul_0_r, Z.add_0_r.
    apply Forall_app in Hb as [Hbm _]. apply Forall_inv in Hbm.
    destruct (Z.eqb_spec (Z.land m MBOR_MAP_MARKER_MASK) MBOR_MAP_MARKER) as [Em|]; cbn [negb];
      [|apply (outcome_none _ pre [m]); auto].
    destruct (map_marker_inv m Hbm Em) as [Em' Hp].
    apply outcome_some; [done|done|done|]. cbn. by rewrite <- Em'.
Qed.

(** A destination that holds the whole input is large enough. *)
Lemma no_overflow k o pre post cap r : cap <= Zlength o -> ~ overflow k o pre post cap r.
Proof.
  intros Ho (_ & i & w & rest & _ & Hc & _ & _ & Hacc & Hl). assert (Zlength (payload i) <= Zlength w); [|pose proof (Zlength_nonneg pre); lia].
  destruct i; cbn [payload]; try apply Zlength_nonneg; cbn [accepted item_bytes] in Hacc.
  - subst w. unfold Zlength. cbn [length]. rewrite length_app. lia.
  - destruct Hacc as (p & _ & ->). unfold Zlength. cbn [length]. rewrite !length_app. lia.
Qed.

Lemma decode_item_any k o pre post cap :
  fits pre post cap -> Forall is_byte post -> cap <= Zlength o ->
  outcome k pre post cap (decode_item k o (Some (cur pre post cap))).
Proof. intros F Hb Ho. destruct (decode_item_cases k o pre post cap F Hb) as [|H]; [done|]. by apply no_overflow in H. Qed.
End Facts.

(** ** Properties *)

(** A BaseLib that meets the documented behaviour. *)
Definition swap_bytes (n : nat) (v : Z) : Z := le_combine (reverse (le_split n v)).

Lemma swap_bytes_rev n v :
  0 <= swap_bytes n v < 256 ^ Z.of_nat n /\ le_split n (swap_bytes n v) = reverse (le_split n v).
Proof.
  assert (Hb : Forall is_byte (reverse (le_split n v))) by apply Forall_reverse, le_split_bytes.
  assert (Hl : length (reverse (le_split n v)) = n) by (by rewrite length_reverse, length_le_split).
  pose proof (le_combine_bound _ Hb) as Hr. unfold Zlength in Hr. rewrite Hl in Hr.
  split; [done|]. unfold swap_bytes. rewrite <- Hl at 1. by apply le_split_combine.
Qed.

Definition reference_baselib : BaseLib := {|
  SwapBytes16 := swap_bytes 2; SwapBytes32 := swap_bytes 4; SwapBytes64 := swap_bytes 8;
  SwapBytes16_rev v _ := swap_bytes_rev 2 v;
  SwapBytes32_rev v _ := swap_bytes_rev 4 v;
  SwapBytes64_rev v _ := swap_bytes_rev 8 v |}.

(** C8. Round trip of whole messages.  Any sequence of well-formed items whose
    encoding fits the capacity is encoded successfully from a freshly
    initialised encoder, advances the position by exactly the length of the
    wire format, and decoding the buffer with the decoders of the same kinds
    yields the same items, leaving the decoder at the end of the message. *)
Theorem mbor_roundtrip {B : BuildOptions} {L : BaseLib} items buf cap dcap o e0 :
  Forall item_wf items -> 0 < cap < 2 ^ 16 -> cap <= Zlength buf ->
  Zlength (message_bytes 0 items) <= cap ->
  Zlength (message_bytes 0 items) <= dcap <= cap -> 0 < dcap -> cap <= Zlength o ->
  AziHsmMborEncoderInit (Some (mkMbor None 0 0)) (Some buf) cap = (EFI_SUCCESS, Some e0) ->
  exists e' d0 d', encode_items items (Some e0) = Ok (EFI_SUCCESS, Some e') /\
    Position e' = Zlength (message_bytes 0 items) /\
    AziHsmMborDecoderInit (Some (mkMbor None 0 0)) (Buffer e') dcap = (EFI_SUCCESS, Some d0) /\
    decode_items (kind_of <$> items) o (Some d0) = Ok (EFI_SUCCESS, Some d', items) /\
    Position d' = Position e'.
Proof.
  intros W Hcap Hbuf Hm Hd Hd0 Ho E0. unfold AziHsmMborEncoderInit in E0. cbn in E0.
  rewrite (proj2 (Z.eqb_neq _ _)) in E0 by lia. simplify_eq/=.
  change (mkMbor (Some buf) cap 0) with (cur [] buf cap).
  assert (F : fits [] buf cap) by (unfold fits; change (Zlength (@nil Z)) with 0; lia).
  destruct (emits_items items [] buf cap F W) as (st & w & E & Hw & Hst).
  change (Zlength (@nil Z)) with 0 in *. destruct Hst as [[-> ->]|(_ & _ & ?)]; [|lia].
  set (ms := message_bytes 0 items) in *. set (rest := drop (length ms) buf) in *.
  assert (Hrest : Zlength rest = Zlength buf - Zlength ms)
    by (unfold rest, Zlength in *; rewrite length_drop; lia).
  pose proof (decode_items_app items rest o [] dcap W ltac:(lia)) as D.
  change (Zlength (@nil Z)) with 0 in D. fold ms in D. exists (cur ([] ++ ms) rest cap), (cur [] (ms ++ rest) dcap).
  eexists. split_and!; [exact E|done| | |].
  - unfold AziHsmMborDecoderInit. cbn [cur Buffer]. by rewrite (proj2 (Z.eqb_neq _ _)) by lia.
  - apply D; [|lia]. unfold fits. rewrite Zlength_app. change (Zlength (@nil Z)) with 0. lia.
  - done.
Qed.

Definition sample_items : list item :=
  [Map 2; U8 1; U16 0x1234; U8 2; PaddedBytes [9; 8; 7]; Boolean true; U32 77; U64 (2 ^ 40 + 3); Bytes [1; 2]].

Lemma mbor_roundtrip_witness :
  exists e' d0 d',
    encode_items (B := debug_build) (L := reference_baselib) sample_items (Some (cur [] (replicate 64 0) 60))
      = Ok (EFI_SUCCESS, Some e') /\
    AziHsmMborDecoderInit (Some (mkMbor None 0 0)) (Buffer e') 60 = (EFI_SUCCESS, Some d0) /\
    decode_items (L := reference_baselib) (kind_of <$> sample_items) (replicate 60 0) (Some d0)
      = Ok (EFI_SUCCESS, Some d', sample_items).
Proof.
  destruct (mbor_roundtrip (B := debug_build) (L := reference_baselib) sample_items (replicate 64 0) 60 60
    (replicate 60 0) (cur [] (replicate 64 0) 60)) as (e' & d0 & d' & E1 & _ & E2 & E3 & _).
  - repeat constructor; cbn; try done; vm_compute; done.
  - lia.
  - vm_compute. done.
  - vm_compute. done.
  - vm_compute. done.
  - lia.
  - vm_compute. done.
  - reflexivity.
  - exists e', d0, d'. auto.
Defined.

(** Encoder bounds.  Encoding any well-formed item at any position returns
    normally.  It succeeds exactly when the item's wire format fits the
    remaining capacity, and then writes it at the position; otherwise it
    reports [EFI_BUFFER_TOO_SMALL], having written a proper prefix.  No byte
    before the position or beyond the capacity changes. *)
Lemma mbor_encoder_bounds {B : BuildOptions} {L : BaseLib} i pre post cap :
  fits pre post cap -> item_wf i ->
  exists st w, encode_item i (Some (cur pre post cap)) =
      Ok (st, Some (cur (pre ++ w) (drop (length w) post) cap)) /\
    Zlength pre + Zlength w <= cap /\
    if Zlength pre + Zlength (item_bytes (Zlength pre) i) <=? cap
    then st = EFI_SUCCESS /\ w = item_bytes (Zlength pre) i
    else st = EFI_BUFFER_TOO_SMALL /\ w `prefix_of` item_bytes (Zlength pre) i /\ w <> item_bytes (Zlength pre) i.
Proof.
  intros F W. destruct (emits_item i pre post cap F W) as (st & w & E & Hw & Hst).
  exists st, w. split_and!; [done|done|]. destruct Hst as [[-> ->]|(-> & Hp & Hl)].
  - by rewrite (proj2 (Z.leb_le _ _)) by done.
  - rewrite (proj2 (Z.leb_gt _ _)) by done. split_and!; [done|done|]. intros ->. lia.
Qed.

(** Alignment of padded bytes.  When [AziHsmMborEncodePaddedBytes]
    succeeds, at whatever position, the payload occupies the bytes just before
    the new position and starts at a multiple of four in the buffer; the
    function's own ASSERT never fires. *)
Lemma mbor_padded_aligned {B : BuildOptions} {L : BaseLib} bs pre post cap r :
  fits pre post cap -> Zlength bs < 2 ^ 16 ->
  AziHsmMborEncodePaddedBytes (Some (cur pre post cap)) (Some bs) (Zlength bs) = r ->
  (exists e m, r = Ok (EFI_SUCCESS, Some e) /\ Buffer e = Some m /\
     zslice (Position e - Zlength bs) (Zlength bs) m = bs /\ (Position e - Zlength bs) mod 4 = 0 /\
     Position e <= Zlength pre + 6 + Zlength bs) \/
  (exists e, r = Ok (EFI_BUFFER_TOO_SMALL, Some e) /\ cap < Zlength pre + 6 + Zlength bs).
Proof.
  intros F H <-. pose proof (Z.mod_pos_bound (- (Zlength pre + 3)) 4 ltac:(lia)) as Hp.
  fold (padding_at (Zlength pre)) in Hp. pose proof (Zlength_nonneg pre). pose proof (Zlength_nonneg bs).
  set (hd := (0x80 + padding_at (Zlength pre)) :: big_endian 2 (Zlength bs) ++ replicate (Z.to_nat (padding_at (Zlength pre))) 0).
  assert (Ehd : item_bytes (Zlength pre) (PaddedBytes bs) = hd ++ bs).
  { cbn [item_bytes]. unfold hd. by rewrite <- app_comm_cons, <- app_assoc. }
  assert (Hhd : Zlength hd = 3 + padding_at (Zlength pre)).
  { unfold hd. change (?x :: ?l) with ([x] ++ l).
    rewrite !Zlength_app, Zlength_big_endian, Zlength_replicate by lia. change (Zlength [_]) with 1. lia. }
  destruct (emits_padded bs pre post cap F H) as (st & w & -> & Hw & Hst). rewrite Ehd in Hst.
  destruct Hst as [[-> ->]|(-> & _ & Hl)]; [left|right].
  - eexists _, _. split_and!; [done|done| | |]; cbn [cur Position]; rewrite !Zlength_app, Hhd.
    + rewrite app_assoc, <- app_assoc. unfold zslice.
      replace (Z.to_nat (Zlength pre + (3 + padding_at (Zlength pre) + Zlength bs) - Zlength bs)) with (length (pre ++ hd))
        by (rewrite length_app; unfold Zlength in *; lia).
      by rewrite drop_app_length, take_payload.
    + unfold padding_at. zlia.
    + lia.
  - eexists. split; [done|]. rewrite Zlength_app, Hhd in Hl. lia.
Qed.

(** C25. Decoding untrusted input.  Whatever bytes the device returned and
    whatever the destination of byte strings, every decoder reads nothing beyond
    the capacity, consumes a prefix of the remaining input, and either reports
    [EFI_BUFFER_TOO_SMALL] or [EFI_COMPROMISED_DATA], or succeeds with a
    well-formed item of the requested kind whose accepted encoding is exactly what
    was consumed; or it writes out of bounds, and then the input holds the accepted
    encoding of a byte string, of the kind that was asked for, that is longer than
    its destination, and in no other case.  The accepted encodings are
    the wire format, any amount of zero padding, and, as the code has it against its
    own description, any marker but the one of TRUE for a FALSE. *)
Theorem mbor_decoder_total {L : BaseLib} k o pre post cap :
  fits pre post cap -> Forall is_byte post ->
  (exists st w rest it, post = w ++ rest /\ Zlength pre + Zlength w <= cap /\
    decode_item k o (Some (cur pre post cap)) = Ok (st, Some (cur (pre ++ w) rest cap), it) /\
    match it with
    | Some i => st = EFI_SUCCESS /\ kind_of i = k /\ item_wf i /\ accepted (Zlength pre) i w
    | None => st = EFI_BUFFER_TOO_SMALL \/ st = EFI_COMPROMISED_DATA
    end) \/
  (decode_item k o (Some (cur pre post cap)) = Fault OutOfBounds /\
   exists i w rest, post = w ++ rest /\ Zlength pre + Zlength w <= cap /\
     kind_of i = k /\ item_wf i /\ accepted (Zlength pre) i w /\ Zlength o < Zlength (payload i)).
Proof. apply decode_item_cases. Qed.

Lemma mbor_decoder_total_witness :
  exists st w rest it, [0x80; 0; 2; 5] = w ++ rest /\ Zlength [7] + Zlength w <= 5 /\
    decode_item (L := reference_baselib) KBytes [0] (Some (cur [7] [0x80; 0; 2; 5] 5)) =
      Ok (st, Some (cur ([7] ++ w) rest 5), it) /\
    match it with
    | Some i => st = EFI_SUCCESS /\ kind_of i = KBytes /\ item_wf i /\ accepted (Zlength [7]) i w
    | None => st = EFI_BUFFER_TOO_SMALL \/ st = EFI_COMPROMISED_DATA
    end.
Proof.
  destruct (mbor_decoder_total (L := reference_baselib) KBytes [0] [7] [0x80; 0; 2; 5] 5) as [H|[H _]].
  - vm_compute. done.
  - repeat (constructor; [vm_compute; done|]). constructor.
  - exact H.
  - vm_compute in H. done.
Defined.

(** The copy of a byte string that is longer than its destination. *)
Lemma decode_bytes_too_long {L : BaseLib} bs rest o l pre cap :
  Zlength bs < 2 ^ 16 -> Zlength o < Zlength bs ->
  fits pre (item_bytes (Zlength pre) (Bytes bs) ++ rest) cap ->
  Zlength pre + Zlength (item_bytes (Zlength pre) (Bytes bs)) <= cap ->
  AziHsmMborDecodeBytes (Some (cur pre (item_bytes (Zlength pre) (Bytes bs) ++ rest) cap)) (Some o) (Some l)
    = Fault OutOfBounds.
Proof.
  intros Hb Ho F Hc. destruct (decode_bytes_prefix bs rest pre cap Hb F Hc o l) as (pre' & F' & HP & -> & _).
  unfold AziHsmMborDecoderDecode. cbn [cur Buffer Capacity Position]. fold (cur pre' (bs ++ rest) cap).
  pose proof (Zlength_nonneg o). pose proof (Zlength_nonneg rest).
  rewrite (exceeds_cur _ _ _ _ F'), (proj2 (Z.ltb_ge _ _)) by lia. unfold CopyMem.
  rewrite read_cur, bind_Ok by (rewrite Zlength_app; lia). unfold mem_write.
  destruct (in_bounds o 0 _) eqn:E; [|done]. exfalso. apply in_bounds_iff in E.
  rewrite Zlength_take in E by (rewrite Zlength_app; lia). lia.
Qed.

(** The destination's size is not checked.  [AziHsmMborDecodeBytes] takes
    [Length] as an in-out parameter but never reads the caller's value: a
    well-formed byte string longer than the destination is copied past its
    end, whatever length the caller passed. *)
Lemma mbor_decode_bytes_overflow {L : BaseLib} bs rest o l pre cap :
  Zlength bs < 2 ^ 16 -> Zlength o < Zlength bs ->
  fits pre (item_bytes (Zlength pre) (Bytes bs) ++ rest) cap ->
  Zlength pre + Zlength (item_bytes (Zlength pre) (Bytes bs)) <= cap ->
  AziHsmMborDecodeBytes (Some (cur pre (item_bytes (Zlength pre) (Bytes bs) ++ rest) cap)) (Some o) (Some l)
    = Fault OutOfBounds.
Proof. apply decode_bytes_too_long. Qed.

(** Any marker is a boolean.  [AziHsmMborDecodeBoolean] accepts every
    byte: all but 0x15 decode as FALSE, including the markers of other types,
    where the documented behaviour is [EFI_COMPROMISED_DATA]. *)
Lemma mbor_boolean_accepts_any m rest v pre cap :
  fits pre (m :: rest) cap -> Zlength pre < cap ->
  AziHsmMborDecodeBoolean (Some (cur pre (m :: rest) cap)) (Some v) =
    Ok (EFI_SUCCESS, (Some (cur (pre ++ [m]) rest cap), Some (m =? 0x15))).
Proof.
  intros F H. unfold AziHsmMborDecodeBoolean. rewrite decode_marker_app by (done || lia). done.
Qed.
