(* ===== verification/Ddi.v ===== *)
(** The commands of the HSM device: [MsvmPkg/AziHsmDxe/AziHsmDdi.c].

    Requests are encoded and responses decoded field by field with the MBOR
    codec.  A pointer parameter is an [option]; out-parameters are returned,
    [EncodedSize] and [DecodedSize] as the content of the variable. *)
From stdpp Require Import base list numbers list_numbers option.
From Stdlib Require Import ZArith Lia.
From S2P Require Import Prelude Circular Mbor.
Open Scope Z_scope.
Import Mbor.

Module Ddi.

Definition REV_FIELD_ID : Z := 1.
Definition DDI_OP_FIELD_ID : Z := 2.
Definition SESSION_ID_FIELD_ID : Z := 3.
Definition RSP_REV_FIELD_ID : Z := 1.
Definition RSP_DDI_OP_FIELD_ID : Z := 2.
Definition RSP_SESSION_ID_FIELD_ID : Z := 3.
Definition RSP_DDI_STATUS_FIELD_ID : Z := 4.
Definition RSP_FIPS_APPROVED_FIELD_ID : Z := 5.
Definition MIN_RSP_HDR_FIELD_COUNT : Z := 3.
Definition REQ_CMD_HDR_FIELD_ID : Z := 0.
Definition REQ_CMD_DATA_FIELD_ID : Z := 1.
Definition API_REV_RESP_MIN_FIELD_ID : Z := 1.
Definition API_REV_RESP_MAX_FIELD_ID : Z := 2.
Definition API_REV_MAJOR_FIELD_ID : Z := 1.
Definition API_REV_MINOR_FIELD_ID : Z := 2.
Definition API_REV_CMD_RESP_MIN_FIELD_COUNT : Z := 2.
Definition API_REV_CMD_RESP_MAX_FIELD_COUNT : Z := 3.
Definition API_INIT_BKS3_CMD_REQ_DATA_FIELD_ID : Z := 1.
Definition API_INIT_BKS3_CMD_RESP_DATA_FIELD_ID : Z := 1.
Definition API_INIT_BKS3_CMD_RESP_GUID_FIELD_ID : Z := 2.
Definition API_SET_SEALED_BKS3_CMD_REQ_DATA_FIELD_ID : Z := 1.
Definition API_GET_SEALED_BKS3_CMD_RESP_DATA_FIELD_ID : Z := 1.
Definition AZIHSM_DDI_API_REV_FIELD_COUNT : Z := 2.
Definition AZIHSM_DDI_API_REV_RESPONSE_FIELD_COUNT : Z := 2.
Definition AZIHSM_DDI_REQ_HDR_FIELD_COUNT : Z := 3.
Definition AZIHSM_DDI_RSP_HDR_FIELD_COUNT : Z := 5.
Definition AZIHSM_DDI_INIT_BKS3_RESP_FIELD_COUNT : Z := 2.
Definition AZIHSM_DDI_INIT_BKS3_RESP_GUID_LENGTH : Z := 16.
Definition AZIHSM_DDI_SET_SEALED_BKS3_REQ_FIELD_COUNT : Z := 1.
Definition AZIHSM_DDI_GET_SEALED_BKS3_RESP_FIELD_COUNT : Z := 1.

Definition DDI_OP_GET_API_REV : Z := 1002.
Definition DDI_OP_INIT_BKS3 : Z := 1111.
Definition DDI_OP_GET_SEALED_BKS3 : Z := 1112.
Definition DDI_OP_SET_SEALED_BKS3 : Z := 1113.

Definition DDI_STATUS_SUCCESS : Z := 0.
Definition DDI_STATUS_INVALID_ARG : Z := 134217731.
Definition DDI_STATUS_INTERNAL_ERROR : Z := 134217736.
Definition DDI_STATUS_UNSUPPORTED_CMD : Z := 134217737.
Definition DDI_STATUS_DDI_ENCODE_FAILED : Z := 141033473.
Definition DDI_STATUS_DDI_DECODE_FAILED : Z := 141033474.

Record AZIHSM_DDI_API_REV := mkRev { Major : Z; Minor : Z }.
Record AZIHSM_DDI_API_REV_RESPONSE := mkRevResponse { min_rev : AZIHSM_DDI_API_REV; max_rev : AZIHSM_DDI_API_REV }.

Record AZIHSM_DDI_REQ_HDR := mkReqHdr {
  req_Revision_Valid : bool; req_Revision_Value : AZIHSM_DDI_API_REV; req_DdiOp : Z;
  req_SessionId_Valid : bool; req_SessionId_Value : Z }.

Record AZIHSM_DDI_RSP_HDR := mkRspHdr {
  Revision_Valid : bool; Revision_Value : AZIHSM_DDI_API_REV; DdiOp : Z;
  SessionId_Valid : bool; SessionId_Value : Z; DdiStatus : Z; fips_approved : bool }.

Definition zero_rev : AZIHSM_DDI_API_REV := mkRev 0 0.
Definition zero_rsp : AZIHSM_DDI_RSP_HDR := mkRspHdr false zero_rev 0 false 0 0 false.

(** [Data] is the object the pointer designates.  The requests of InitBks3
    and SetSealedBks3 and the response of GetSealedBks3 have the same fields,
    [AZIHSM_DDI_BKS3]. *)
Record AZIHSM_DDI_INIT_BKS3_RESP := mkInitResp { Bks3_Data : option (list Z); Bks3_Length : Z; Guid : list Z }.
Record AZIHSM_DDI_BKS3 := mkBks3 { Sealed_Data : option (list Z); Sealed_Length : Z }.

Definition ConvertDdiStatusToEfiStatus (status : Z) : EFI_STATUS :=
  if status =? DDI_STATUS_SUCCESS then EFI_SUCCESS
  else if status =? DDI_STATUS_INVALID_ARG then EFI_INVALID_PARAMETER
  else if status =? DDI_STATUS_INTERNAL_ERROR then EFI_DEVICE_ERROR
  else if status =? DDI_STATUS_UNSUPPORTED_CMD then EFI_UNSUPPORTED
  else if (status =? DDI_STATUS_DDI_ENCODE_FAILED) || (status =? DDI_STATUS_DDI_DECODE_FAILED) then EFI_PROTOCOL_ERROR
  else EFI_DEVICE_ERROR.

Definition Enc : Type := option AZIHSM_MBOR_ENCODER.
Definition Dec : Type := option AZIHSM_MBOR_DECODER.

(** [Status = m; if (EFI_ERROR (Status)) goto Exit; k] in an encoder. *)
Local Notation "'try' x := m 'in' k" := (or_exit m (fun x => k)) (at level 10, x pattern, m at level 100, k at level 200).

(** The same in a decoder: [v] is the variable decoded into, [s] the state of
    the out-parameters when the function exits here. *)
Definition or_exit_with {V S} (m : result (EFI_STATUS * (Dec * option V))) (s : S)
    (k : Dec -> V -> result (EFI_STATUS * (Dec * S))) : result (EFI_STATUS * (Dec * S)) :=
  '(Status, (Decoder, v)) ← m;
  if EFI_ERROR Status then Ok (Status, (Decoder, s))
  else match v with Some v => k Decoder v | None => Fault NullDeref end.
Local Notation "'get' d , v := m 'or' s 'in' k" := (or_exit_with m s (fun d v => k)) (at level 10, d name, v name, m at level 100, s at level 100, k at level 200).

(** [*EncodedSize = Encoder->Position - EncoderStartMark; return Status]. *)
Definition encoded (start : Z) (r : EFI_STATUS * Enc) : result (EFI_STATUS * (Enc * option Z)) :=
  let (Status, Encoder) := r in
  match Encoder with
  | Some e => Ok (Status, (Encoder, Some (u32 (Position e - start))))
  | None => Fault NullDeref
  end.

(** [*DecodedSize = Decoder->Position - DecoderStartMark; return Status]. *)
Definition decoded {S} (start : Z) (r : EFI_STATUS * (Dec * S)) : result (EFI_STATUS * (Dec * S * option Z)) :=
  let '(Status, (Decoder, s)) := r in
  match Decoder with
  | Some d => Ok (Status, (Decoder, s, Some (u32 (Position d - start))))
  | None => Fault NullDeref
  end.

(** Invalid parameters: the size is set to zero, with or without a check that
    its pointer is not NULL. *)
Definition invalid_unchecked {S} (s : S) (size : option Z) : result (EFI_STATUS * (S * option Z)) :=
  match size with Some _ => Ok (EFI_INVALID_PARAMETER, (s, Some 0)) | None => Fault NullDeref end.
Definition invalid_checked {S} (s : S) (size : option Z) : result (EFI_STATUS * (S * option Z)) :=
  Ok (EFI_INVALID_PARAMETER, (s, option_map (fun _ => 0) size)).

Section Commands.
Context {B : BuildOptions} {L : BaseLib}.

Definition AziHsmMborEncodeFieldId (Encoder : Enc) (FieldId : Z) : result (EFI_STATUS * Enc) :=
  match Encoder with
  | None => Ok (EFI_INVALID_PARAMETER, Encoder)
  | Some _ => AziHsmMborEncodeU8 Encoder FieldId
  end.

Definition AziHsmMborDecodeFieldId (Decoder : Dec) (FieldId : option Z) : result (EFI_STATUS * (Dec * option Z)) :=
  match Decoder, FieldId with
  | Some _, Some _ => AziHsmMborDecodeU8 Decoder FieldId
  | _, _ => Ok (EFI_INVALID_PARAMETER, (Decoder, FieldId))
  end.

(** ** Requests *)
Definition EncodeApiRevision (Encoder : Enc) (ApiRev : option AZIHSM_DDI_API_REV) (EncodedSize : option Z)
  : result (EFI_STATUS * (Enc * option Z)) :=
  match ApiRev, Encoder, EncodedSize with
  | Some rev, Some e, Some _ =>
    r ← (try Encoder := AziHsmMborEncodeMap Encoder AZIHSM_DDI_API_REV_FIELD_COUNT in
         try Encoder := AziHsmMborEncodeFieldId Encoder API_REV_MAJOR_FIELD_ID in
         try Encoder := AziHsmMborEncodeU32 Encoder (Major rev) in
         try Encoder := AziHsmMborEncodeFieldId Encoder API_REV_MINOR_FIELD_ID in
         AziHsmMborEncodeU32 Encoder (Minor rev));
    encoded (Position e) r
  | _, _, _ => invalid_unchecked Encoder EncodedSize
  end.

Definition EncodeRequestHeader (Encoder : Enc) (ReqHdr : option AZIHSM_DDI_REQ_HDR) (EncodedSize : option Z)
  : result (EFI_STATUS * (Enc * option Z)) :=
  match Encoder, ReqHdr, EncodedSize with
  | Some e, Some h, Some _ =>
    let FieldCount := 0 in
    let FieldCount := if req_Revision_Valid h then u8 (FieldCount + 1) else FieldCount in
    let FieldCount := if req_SessionId_Valid h then u8 (FieldCount + 1) else FieldCount in
    let FieldCount := u8 (FieldCount + 1) in
    r ← (if AZIHSM_DDI_REQ_HDR_FIELD_COUNT <? FieldCount then Ok (EFI_PROTOCOL_ERROR, Encoder)
         else
           try Encoder := AziHsmMborEncodeMap Encoder FieldCount in
           try Encoder := (
             if req_Revision_Valid h then
               try Encoder := AziHsmMborEncodeFieldId Encoder REV_FIELD_ID in
               '(Status, (Encoder, _)) ← EncodeApiRevision Encoder (Some (req_Revision_Value h)) (Some 0);
               Ok (Status, Encoder)
             else Ok (EFI_SUCCESS, Encoder)) in
           try Encoder := AziHsmMborEncodeFieldId Encoder DDI_OP_FIELD_ID in
           try Encoder := AziHsmMborEncodeU32 Encoder (u32 (req_DdiOp h)) in
           if req_SessionId_Valid h then
             try Encoder := AziHsmMborEncodeFieldId Encoder SESSION_ID_FIELD_ID in
             AziHsmMborEncodeU16 Encoder (req_SessionId_Value h)
           else Ok (EFI_SUCCESS, Encoder));
    encoded (Position e) r
  | _, _, _ => invalid_unchecked Encoder EncodedSize
  end.

Definition EncodeCommandRequestHeader (Encoder : Enc) (op : Z) (ApiRev : option AZIHSM_DDI_API_REV) (SessionId : option Z)
    (EncodedSize : option Z) : result (EFI_STATUS * (Enc * option Z)) :=
  match Encoder, EncodedSize with
  | Some e, Some _ =>
    let Hdr := mkReqHdr (bool_decide (is_Some ApiRev)) (default zero_rev ApiRev) op
                 (bool_decide (is_Some SessionId)) (default 0 SessionId) in
    r ← (try Encoder := AziHsmMborEncodeMap Encoder 2 in
         try Encoder := AziHsmMborEncodeFieldId Encoder REQ_CMD_HDR_FIELD_ID in
         '(Status, (Encoder, _)) ← EncodeRequestHeader Encoder (Some Hdr) (Some 0);
         Ok (Status, Encoder));
    encoded (Position e) r
  | _, _ => invalid_unchecked Encoder EncodedSize
  end.

(** The header of a request, without the size. *)
Definition request_header (Encoder : Enc) (op : Z) (ApiRev : option AZIHSM_DDI_API_REV) (SessionId : option Z)
  : result (EFI_STATUS * Enc) :=
  '(Status, (Encoder, _)) ← EncodeCommandRequestHeader Encoder op ApiRev SessionId (Some 0); Ok (Status, Encoder).

Definition AzihsmEncodeGetApiRevReq (Encoder : Enc) (ApiRev : option AZIHSM_DDI_API_REV) (SessionId : option Z)
    (EncodedSize : option Z) : result (EFI_STATUS * (Enc * option Z)) :=
  match Encoder, EncodedSize with
  | Some e, Some _ =>
    r ← (try Encoder := request_header Encoder DDI_OP_GET_API_REV ApiRev SessionId in
         try Encoder := AziHsmMborEncodeFieldId Encoder REQ_CMD_DATA_FIELD_ID in
         AziHsmMborEncodeMap Encoder 0);
    encoded (Position e) r
  | _, _ => invalid_unchecked Encoder EncodedSize
  end.

Definition AzihsmEncodeInitBks3Req (Encoder : Enc) (ApiRev : option AZIHSM_DDI_API_REV) (SessionId : option Z)
    (Request : option AZIHSM_DDI_BKS3) (EncodedSize : option Z) : result (EFI_STATUS * (Enc * option Z)) :=
  match Encoder, EncodedSize, Request with
  | Some e, Some _, Some req =>
    r ← (try Encoder := request_header Encoder DDI_OP_INIT_BKS3 ApiRev SessionId in
         try Encoder := AziHsmMborEncodeFieldId Encoder REQ_CMD_DATA_FIELD_ID in
         try Encoder := AziHsmMborEncodeMap Encoder 1 in
         try Encoder := AziHsmMborEncodeFieldId Encoder API_INIT_BKS3_CMD_REQ_DATA_FIELD_ID in
         AziHsmMborEncodePaddedBytes Encoder (Sealed_Data req) (Sealed_Length req));
    encoded (Position e) r
  | _, _, _ => invalid_checked Encoder EncodedSize
  end.

(** [Encoder->Position] is read before the parameters are checked. *)
Definition AzihsmEncodeSetSealedBks3Req (Encoder : Enc) (ApiRev : option AZIHSM_DDI_API_REV) (SessionId : option Z)
    (SealedBks3Request : option AZIHSM_DDI_BKS3) (EncodedSize : option Z) : result (EFI_STATUS * (Enc * option Z)) :=
  match Encoder with
  | None => Fault NullDeref
  | Some e =>
    match SealedBks3Request, EncodedSize with
    | Some req, Some _ =>
      r ← (try Encoder := request_header Encoder DDI_OP_SET_SEALED_BKS3 ApiRev SessionId in
           try Encoder := AziHsmMborEncodeFieldId Encoder API_SET_SEALED_BKS3_CMD_REQ_DATA_FIELD_ID in
           try Encoder := AziHsmMborEncodeMap Encoder AZIHSM_DDI_SET_SEALED_BKS3_REQ_FIELD_COUNT in
           try Encoder := AziHsmMborEncodeFieldId Encoder API_SET_SEALED_BKS3_CMD_REQ_DATA_FIELD_ID in
           AziHsmMborEncodePaddedBytes Encoder (Sealed_Data req) (Sealed_Length req));
      encoded (Position e) r
    | _, _ => invalid_checked Encoder EncodedSize
    end
  end.

(** This one reports the encoder's position itself. *)
Definition AzihsmEncodeGetSealedBks3Req (Encoder : Enc) (ApiRev : option AZIHSM_DDI_API_REV) (SessionId : option Z)
    (EncodedSize : option Z) : result (EFI_STATUS * (Enc * option Z)) :=
  match Encoder, EncodedSize with
  | Some _, Some _ =>
    r ← (try Encoder := request_header Encoder DDI_OP_GET_SEALED_BKS3 ApiRev SessionId in
         try Encoder := AziHsmMborEncodeFieldId Encoder REQ_CMD_DATA_FIELD_ID in
         AziHsmMborEncodeMap Encoder 0);
    encoded 0 r
  | _, _ => invalid_checked Encoder EncodedSize
  end.
(** ** Responses *)

(** [for (UINT8 i = 0; i < FieldCount; i++)] over the fields of an API
    revision, structural in the number of fields left. *)
Fixpoint api_rev_loop (n : nat) (Decoder : Dec) (ApiRev : AZIHSM_DDI_API_REV)
  : result (EFI_STATUS * (Dec * AZIHSM_DDI_API_REV)) :=
  match n with
  | O => Ok (EFI_SUCCESS, (Decoder, ApiRev))
  | S n =>
    get Decoder, FieldId := AziHsmMborDecodeFieldId Decoder (Some 0) or ApiRev in
    try (Decoder, ApiRev) := (
      if FieldId =? API_REV_MAJOR_FIELD_ID then
        get Decoder, v := AziHsmMborDecodeU32 Decoder (Some (Major ApiRev)) or ApiRev in
        Ok (EFI_SUCCESS, (Decoder, mkRev v (Minor ApiRev)))
      else if FieldId =? API_REV_MINOR_FIELD_ID then
        get Decoder, v := AziHsmMborDecodeU32 Decoder (Some (Minor ApiRev)) or ApiRev in
        Ok (EFI_SUCCESS, (Decoder, mkRev (Major ApiRev) v))
      else Ok (EFI_UNSUPPORTED, (Decoder, ApiRev))) in
    api_rev_loop n Decoder ApiRev
  end.

Definition DecodeApiRevision (Decoder : Dec) (ApiRev : option AZIHSM_DDI_API_REV) (DecodedSize : option Z)
  : result (EFI_STATUS * (Dec * option AZIHSM_DDI_API_REV * option Z)) :=
  match ApiRev, Decoder, DecodedSize with
  | Some rev, Some d, Some _ =>
    '(Status, (Decoder, rev)) ← (
      get Decoder, FieldCount := AziHsmMborDecodeMap Decoder (Some 0) or rev in
      if negb (FieldCount =? AZIHSM_DDI_API_REV_FIELD_COUNT) then Ok (EFI_PROTOCOL_ERROR, (Decoder, rev))
      else api_rev_loop (Z.to_nat FieldCount) Decoder rev);
    decoded (Position d) (Status, (Decoder, Some rev))
  | _, _, _ => invalid_unchecked (Decoder, ApiRev) DecodedSize
  end.

(** A call of [DecodeApiRevision] on a field of a structure. *)
Definition decode_rev (Decoder : Dec) (rev : AZIHSM_DDI_API_REV) : result (EFI_STATUS * (Dec * AZIHSM_DDI_API_REV)) :=
  '(Status, (Decoder, rev', _)) ← DecodeApiRevision Decoder (Some rev) (Some 0);
  Ok (Status, (Decoder, default rev rev')).

Fixpoint api_rev_response_loop (n : nat) (Decoder : Dec) (ApiRev : AZIHSM_DDI_API_REV_RESPONSE)
  : result (EFI_STATUS * (Dec * AZIHSM_DDI_API_REV_RESPONSE)) :=
  match n with
  | O => Ok (EFI_SUCCESS, (Decoder, ApiRev))
  | S n =>
    get Decoder, FieldId := AziHsmMborDecodeFieldId Decoder (Some 0) or ApiRev in
    try (Decoder, ApiRev) := (
      if FieldId =? API_REV_RESP_MIN_FIELD_ID then
        '(Status, (Decoder, v)) ← decode_rev Decoder (min_rev ApiRev);
        Ok (Status, (Decoder, mkRevResponse v (max_rev ApiRev)))
      else if FieldId =? API_REV_RESP_MAX_FIELD_ID then
        '(Status, (Decoder, v)) ← decode_rev Decoder (max_rev ApiRev);
        Ok (Status, (Decoder, mkRevResponse (min_rev ApiRev) v))
      else Ok (EFI_UNSUPPORTED, (Decoder, ApiRev))) in
    api_rev_response_loop n Decoder ApiRev
  end.

Definition DecodeApiRevisionResponse (Decoder : Dec) (ApiRev : option AZIHSM_DDI_API_REV_RESPONSE) (DecodedSize : option Z)
  : result (EFI_STATUS * (Dec * option AZIHSM_DDI_API_REV_RESPONSE * option Z)) :=
  match ApiRev, Decoder, DecodedSize with
  | Some rev, Some d, Some _ =>
    '(Status, (Decoder, rev)) ← (
      get Decoder, FieldCount := AziHsmMborDecodeMap Decoder (Some 0) or rev in
      if negb (FieldCount =? AZIHSM_DDI_API_REV_RESPONSE_FIELD_COUNT) then Ok (EFI_PROTOCOL_ERROR, (Decoder, rev))
      else api_rev_response_loop (Z.to_nat FieldCount) Decoder rev);
    decoded (Position d) (Status, (Decoder, Some rev))
  | _, _, _ => invalid_unchecked (Decoder, ApiRev) DecodedSize
  end.

(** The fields of the response header seen so far. *)
Record header_found := mkFound {
  RevisionFound : bool; DdiOpFound : bool; SessionIdFound : bool; DdiStatusFound : bool; FipsApprovedFound : bool }.
Definition none_found : header_found := mkFound false false false false false.

(** The [switch] on the field identifier: the flags and the header after it. *)
Definition rsp_hdr_field (FieldId : Z) (Decoder : Dec) (f : header_found) (h : AZIHSM_DDI_RSP_HDR)
  : result (EFI_STATUS * (Dec * (header_found * AZIHSM_DDI_RSP_HDR))) :=
  if FieldId =? RSP_REV_FIELD_ID then
    if RevisionFound f then Ok (EFI_PROTOCOL_ERROR, (Decoder, (f, h)))
    else
      let f := mkFound true (DdiOpFound f) (SessionIdFound f) (DdiStatusFound f) (FipsApprovedFound f) in
      '(Status, (Decoder, v)) ← decode_rev Decoder (Revision_Value h);
      Ok (Status, (Decoder, (f, mkRspHdr true v (DdiOp h) (SessionId_Valid h) (SessionId_Value h) (DdiStatus h) (fips_approved h))))
  else if FieldId =? RSP_DDI_OP_FIELD_ID then
    if DdiOpFound f then Ok (EFI_PROTOCOL_ERROR, (Decoder, (f, h)))
    else
      let f := mkFound (RevisionFound f) true (SessionIdFound f) (DdiStatusFound f) (FipsApprovedFound f) in
      get Decoder, v := AziHsmMborDecodeU32 Decoder (Some 0) or (f, h) in
      Ok (EFI_SUCCESS, (Decoder, (f, mkRspHdr (Revision_Valid h) (Revision_Value h) v (SessionId_Valid h) (SessionId_Value h) (DdiStatus h) (fips_approved h))))
  else if FieldId =? RSP_SESSION_ID_FIELD_ID then
    if SessionIdFound f then Ok (EFI_PROTOCOL_ERROR, (Decoder, (f, h)))
    else
      let f := mkFound (RevisionFound f) (DdiOpFound f) true (DdiStatusFound f) (FipsApprovedFound f) in
      get Decoder, v := AziHsmMborDecodeU16 Decoder (Some 0) or (f, h) in
      Ok (EFI_SUCCESS, (Decoder, (f, mkRspHdr (Revision_Valid h) (Revision_Value h) (DdiOp h) true v (DdiStatus h) (fips_approved h))))
  else if FieldId =? RSP_DDI_STATUS_FIELD_ID then
    if DdiStatusFound f then Ok (EFI_PROTOCOL_ERROR, (Decoder, (f, h)))
    else
      let f := mkFound (RevisionFound f) (DdiOpFound f) (SessionIdFound f) true (FipsApprovedFound f) in
      get Decoder, v := AziHsmMborDecodeU32 Decoder (Some 0) or (f, h) in
      Ok (EFI_SUCCESS, (Decoder, (f, mkRspHdr (Revision_Valid h) (Revision_Value h) (DdiOp h) (SessionId_Valid h) (SessionId_Value h) v (fips_approved h))))
  else if FieldId =? RSP_FIPS_APPROVED_FIELD_ID then
    if FipsApprovedFound f then Ok (EFI_PROTOCOL_ERROR, (Decoder, (f, h)))
    else
      let f := mkFound (RevisionFound f) (DdiOpFound f) (SessionIdFound f) (DdiStatusFound f) true in
      get Decoder, v := AziHsmMborDecodeBoolean Decoder (Some (fips_approved h)) or (f, h) in
      Ok (EFI_SUCCESS, (Decoder, (f, mkRspHdr (Revision_Valid h) (Revision_Value h) (DdiOp h) (SessionId_Valid h) (SessionId_Value h) (DdiStatus h) v)))
  else Ok (EFI_UNSUPPORTED, (Decoder, (f, h))).

Fixpoint rsp_hdr_loop (n : nat) (Decoder : Dec) (f : header_found) (h : AZIHSM_DDI_RSP_HDR)
  : result (EFI_STATUS * (Dec * (header_found * AZIHSM_DDI_RSP_HDR))) :=
  match n with
  | O => Ok (EFI_SUCCESS, (Decoder, (f, h)))
  | S n =>
    get Decoder, FieldId := AziHsmMborDecodeFieldId Decoder (Some 0) or (f, h) in
    if AZIHSM_DDI_RSP_HDR_FIELD_COUNT <? FieldId then Ok (EFI_PROTOCOL_ERROR, (Decoder, (f, h)))
    else
      try (Decoder, (f, h)) := rsp_hdr_field FieldId Decoder f h in
      rsp_hdr_loop n Decoder f h
  end.

(** [Decoder->Position] is read before the parameters are checked. *)
Definition DecodeResponseHeader (Decoder : Dec) (RspHdr : option AZIHSM_DDI_RSP_HDR) (DecodedSize : option Z)
  : result (EFI_STATUS * (Dec * option AZIHSM_DDI_RSP_HDR * option Z)) :=
  match Decoder with
  | None => Fault NullDeref
  | Some d =>
    match RspHdr, DecodedSize with
    | Some h, Some _ =>
      let h := mkRspHdr false (Revision_Value h) (DdiOp h) false (SessionId_Value h) (DdiStatus h) (fips_approved h) in
      '(Status, (Decoder, (_, h))) ← (
        get Decoder, FieldCount := AziHsmMborDecodeMap Decoder (Some 0) or (none_found, h) in
        if (AZIHSM_DDI_RSP_HDR_FIELD_COUNT <? FieldCount) || (FieldCount <? MIN_RSP_HDR_FIELD_COUNT)
        then Ok (EFI_PROTOCOL_ERROR, (Decoder, (none_found, h)))
        else
          try (Decoder, (f, h)) := rsp_hdr_loop (Z.to_nat FieldCount) Decoder none_found h in
          if negb (DdiOpFound f) || negb (DdiStatusFound f) || negb (FipsApprovedFound f)
          then Ok (EFI_PROTOCOL_ERROR, (Decoder, (f, h)))
          else Ok (EFI_SUCCESS, (Decoder, (f, h))));
      decoded (Position d) (Status, (Decoder, Some h))
    | _, _ => invalid_checked (Decoder, RspHdr) DecodedSize
    end
  end.

Definition DecodeCommandResponseHeader (Decoder : Dec) (RspHdr : option AZIHSM_DDI_RSP_HDR) (DecodedSize : option Z)
  : result (EFI_STATUS * (Dec * option AZIHSM_DDI_RSP_HDR * option Z)) :=
  match RspHdr, Decoder, DecodedSize with
  | Some h, Some d, Some _ =>
    '(Status, (Decoder, h)) ← (
      get Decoder, FieldCount := AziHsmMborDecodeMap Decoder (Some 0) or h in
      if (FieldCount <? API_REV_CMD_RESP_MIN_FIELD_COUNT) || (API_REV_CMD_RESP_MAX_FIELD_COUNT <? FieldCount)
      then Ok (EFI_PROTOCOL_ERROR, (Decoder, h))
      else
        get Decoder, FieldId := AziHsmMborDecodeFieldId Decoder (Some 0) or h in
        if negb (FieldId =? REQ_CMD_HDR_FIELD_ID) then Ok (EFI_PROTOCOL_ERROR, (Decoder, h))
        else
          '(Status, (Decoder, h', _)) ← DecodeResponseHeader Decoder (Some h) (Some 0);
          Ok (Status, (Decoder, default h h')));
    decoded (Position d) (Status, (Decoder, Some h))
  | _, _, _ => invalid_unchecked (Decoder, RspHdr) DecodedSize
  end.

(** The callers' use of it: the header is a local variable with content [h]. *)
Definition response_header (Decoder : Dec) (h : AZIHSM_DDI_RSP_HDR) : result (EFI_STATUS * (Dec * option AZIHSM_DDI_RSP_HDR)) :=
  '(Status, (Decoder, h, _)) ← DecodeCommandResponseHeader Decoder (Some h) (Some 0); Ok (Status, (Decoder, h)).

Definition DecodeApiRevisionCommandResponseData (Decoder : Dec) (ApiRevData : option AZIHSM_DDI_API_REV_RESPONSE)
    (DecodedSize : option Z) : result (EFI_STATUS * (Dec * option AZIHSM_DDI_API_REV_RESPONSE * option Z)) :=
  match ApiRevData, Decoder, DecodedSize with
  | Some rev, Some d, Some _ =>
    '(Status, (Decoder, rev)) ← (
      get Decoder, FieldId := AziHsmMborDecodeFieldId Decoder (Some 0) or rev in
      if negb (FieldId =? REQ_CMD_DATA_FIELD_ID) then Ok (EFI_PROTOCOL_ERROR, (Decoder, rev))
      else
        '(Status, (Decoder, rev', _)) ← DecodeApiRevisionResponse Decoder (Some rev) (Some 0);
        Ok (Status, (Decoder, default rev rev')));
    decoded (Position d) (Status, (Decoder, Some rev))
  | _, _, _ => invalid_unchecked (Decoder, ApiRevData) DecodedSize
  end.

(** [RspHdr] is the content of the local variable, which is not initialised. *)
Definition AzihsmDecodeGetApiRevReq (RspHdr : AZIHSM_DDI_RSP_HDR) (Decoder : Dec)
    (ApiRevData : option AZIHSM_DDI_API_REV_RESPONSE) (DecodedSize : option Z)
  : result (EFI_STATUS * (Dec * option AZIHSM_DDI_API_REV_RESPONSE * option Z)) :=
  match Decoder, ApiRevData, DecodedSize with
  | Some d, Some rev, Some _ =>
    '(Status, (Decoder, rev)) ← (
      get Decoder, h := response_header Decoder RspHdr or rev in
      if negb (DdiOp h =? DDI_OP_GET_API_REV) then Ok (EFI_PROTOCOL_ERROR, (Decoder, rev))
      else if negb (DdiStatus h =? DDI_STATUS_SUCCESS)
      then Ok (ConvertDdiStatusToEfiStatus (DdiStatus h), (Decoder, rev))
      else
        '(Status, (Decoder, rev', _)) ← DecodeApiRevisionCommandResponseData Decoder (Some rev) (Some 0);
        Ok (Status, (Decoder, default rev rev')));
    decoded (Position d) (Status, (Decoder, Some rev))
  | _, _, _ => invalid_unchecked (Decoder, ApiRevData) DecodedSize
  end.

(** [Status = AziHsmMborDecode..Bytes (Decoder, Data, &Length)]: on failure the
    function exits with the out-parameters [s] of the destination and length. *)
Definition or_exit_bytes {S} (m : result (EFI_STATUS * bytes_state)) (s : option (list Z) -> option Z -> S)
    (k : Dec -> option (list Z) -> Z -> result (EFI_STATUS * (Dec * S))) : result (EFI_STATUS * (Dec * S)) :=
  '(Status, (Decoder, b, l)) ← m;
  if EFI_ERROR Status then Ok (Status, (Decoder, s b l))
  else match l with Some l => k Decoder b l | None => Fault NullDeref end.

Definition AzihsmDecodeInitBks3Resp (Decoder : Dec) (Response : option AZIHSM_DDI_INIT_BKS3_RESP) (DecodedSize : option Z)
  : result (EFI_STATUS * (Dec * option AZIHSM_DDI_INIT_BKS3_RESP * option Z)) :=
  match Decoder, Response, DecodedSize with
  | Some d, Some r, Some _ =>
    '(Status, (Decoder, r)) ← (
      get Decoder, h := response_header Decoder zero_rsp or r in
      if negb (DdiOp h =? DDI_OP_INIT_BKS3) then Ok (EFI_PROTOCOL_ERROR, (Decoder, r))
      else if negb (DdiStatus h =? DDI_STATUS_SUCCESS)
      then Ok (ConvertDdiStatusToEfiStatus (DdiStatus h), (Decoder, r))
      else
        get Decoder, FieldId := AziHsmMborDecodeFieldId Decoder (Some 0) or r in
        if negb (FieldId =? REQ_CMD_DATA_FIELD_ID) then Ok (EFI_PROTOCOL_ERROR, (Decoder, r))
        else
          get Decoder, DataFieldCount := AziHsmMborDecodeMap Decoder (Some 0) or r in
          if negb (DataFieldCount =? AZIHSM_DDI_INIT_BKS3_RESP_FIELD_COUNT) then Ok (EFI_PROTOCOL_ERROR, (Decoder, r))
          else
            get Decoder, FieldId := AziHsmMborDecodeFieldId Decoder (Some 0) or r in
            if negb (FieldId =? API_INIT_BKS3_CMD_RESP_DATA_FIELD_ID) then Ok (EFI_PROTOCOL_ERROR, (Decoder, r))
            else
              or_exit_bytes (AziHsmMborDecodePaddedBytes Decoder (Bks3_Data r) (Some 0))
                (fun b _ => mkInitResp b (Bks3_Length r) (Guid r)) (fun Decoder b DataDecodedSize =>
              let r := mkInitResp b DataDecodedSize (Guid r) in
              get Decoder, FieldId := AziHsmMborDecodeFieldId Decoder (Some 0) or r in
              if negb (FieldId =? API_INIT_BKS3_CMD_RESP_GUID_FIELD_ID) then Ok (EFI_PROTOCOL_ERROR, (Decoder, r))
              else
                or_exit_bytes (AziHsmMborDecodeBytes Decoder (Some (Guid r)) (Some DataDecodedSize))
                  (fun g _ => mkInitResp (Bks3_Data r) (Bks3_Length r) (default (Guid r) g)) (fun Decoder g DataDecodedSize =>
                let r := mkInitResp (Bks3_Data r) (Bks3_Length r) (default (Guid r) g) in
                if negb (DataDecodedSize =? AZIHSM_DDI_INIT_BKS3_RESP_GUID_LENGTH) then Ok (EFI_PROTOCOL_ERROR, (Decoder, r))
                else Ok (EFI_SUCCESS, (Decoder, r)))));
    decoded (Position d) (Status, (Decoder, Some r))
  | _, _, _ => invalid_checked (Decoder, Response) DecodedSize
  end.

Definition AzihsmDecodeSetSealedBks3Resp (Decoder : Dec) (Response : option bool) (DecodedSize : option Z)
  : result (EFI_STATUS * (Dec * option bool * option Z)) :=
  match Decoder, Response, DecodedSize with
  | Some d, Some r, Some _ =>
    '(Status, (Decoder, r)) ← (
      get Decoder, h := response_header Decoder zero_rsp or r in
      if negb (DdiOp h =? DDI_OP_SET_SEALED_BKS3) then Ok (EFI_PROTOCOL_ERROR, (Decoder, r))
      else
        let r := (DdiStatus h =? DDI_STATUS_SUCCESS) in
        get Decoder, FieldId := AziHsmMborDecodeFieldId Decoder (Some 0) or r in
        if negb (FieldId =? REQ_CMD_DATA_FIELD_ID) then Ok (EFI_PROTOCOL_ERROR, (Decoder, r))
        else
          get Decoder, DataFieldCount := AziHsmMborDecodeMap Decoder (Some 0) or r in
          if negb (DataFieldCount =? 0) then Ok (EFI_PROTOCOL_ERROR, (Decoder, r))
          else Ok (EFI_SUCCESS, (Decoder, r)));
    decoded (Position d) (Status, (Decoder, Some r))
  | _, _, _ => invalid_checked (Decoder, Response) DecodedSize
  end.

Definition AzihsmDecodeGetSealedBks3Resp (Decoder : Dec) (Response : option AZIHSM_DDI_BKS3) (DecodedSize : option Z)
  : result (EFI_STATUS * (Dec * option AZIHSM_DDI_BKS3 * option Z)) :=
  match Decoder, Response, DecodedSize with
  | Some d, Some r, Some _ =>
    '(Status, (Decoder, r)) ← (
      get Decoder, h := response_header Decoder zero_rsp or r in
      if negb (DdiOp h =? DDI_OP_GET_SEALED_BKS3) then Ok (EFI_PROTOCOL_ERROR, (Decoder, r))
      else if negb (DdiStatus h =? DDI_STATUS_SUCCESS)
      then Ok (ConvertDdiStatusToEfiStatus (DdiStatus h), (Decoder, r))
      else
        get Decoder, FieldId := AziHsmMborDecodeFieldId Decoder (Some 0) or r in
        if negb (FieldId =? REQ_CMD_DATA_FIELD_ID) then Ok (EFI_PROTOCOL_ERROR, (Decoder, r))
        else
          get Decoder, DataFieldCount := AziHsmMborDecodeMap Decoder (Some 0) or r in
          if negb (DataFieldCount =? AZIHSM_DDI_GET_SEALED_BKS3_RESP_FIELD_COUNT) then Ok (EFI_PROTOCOL_ERROR, (Decoder, r))
          else
            get Decoder, FieldId := AziHsmMborDecodeFieldId Decoder (Some 0) or r in
            if negb (FieldId =? API_GET_SEALED_BKS3_CMD_RESP_DATA_FIELD_ID) then Ok (EFI_PROTOCOL_ERROR, (Decoder, r))
            else
              or_exit_bytes (AziHsmMborDecodePaddedBytes Decoder (Sealed_Data r) (Some (Sealed_Length r)))
                (fun b l => mkBks3 b (default (Sealed_Length r) l)) (fun Decoder b l =>
              Ok (EFI_SUCCESS, (Decoder, mkBks3 b l))));
    decoded (Position d) (Status, (Decoder, Some r))
  | _, _, _ => invalid_checked (Decoder, Response) DecodedSize
  end.
End Commands.
End Ddi.
