(* ===== verification/DdiProps.v ===== *)
(** Correctness of the HSM device commands: requests have the wire format of
    their fields, responses are read back whatever the order of the header's
    fields, failures are reported, and untrusted responses are safe. *)
From stdpp Require Import base list numbers list_numbers option.
From Stdlib Require Import ZArith Lia.
From S2P Require Import Prelude Circular Mbor MborProps Ddi.
Open Scope Z_scope.
Import Mbor Ddi.

(** The length and the concatenation of messages. *)
Lemma message_app pos a b :
  message_bytes pos (a ++ b) = message_bytes pos a ++ message_bytes (pos + Zlength (message_bytes pos a)) b.
Proof.
  revert pos. induction a as [|i a IH]; intros pos; cbn [message_bytes app].
  - change (Zlength (@nil Z)) with 0. by rewrite Z.add_0_r.
  - rewrite IH, <- app_assoc, Zlength_app. do 2 f_equal. by rewrite Z.add_assoc.
Qed.

(** ** Writing requests

    [m] writes the wire format of [items] wherever it starts. *)
Definition writes (m : Enc -> result (EFI_STATUS * Enc)) (items : list item) : Prop :=
  forall pre post cap, fits pre post cap -> emits m (message_bytes (Zlength pre) items) pre post cap.

Lemma writes_ext m m' items : (forall e, m e = m' e) -> writes m items -> writes m' items.
Proof. intros E H pre post cap F. destruct (H pre post cap F) as (st & w & ? & ?). exists st, w. by rewrite <- E. Qed.

Lemma writes_ret : writes (fun e => Ok (EFI_SUCCESS, e)) [].
Proof. intros pre post cap F. by apply emits_ret. Qed.

Lemma writes_seq m1 m2 a b : writes m1 a -> writes m2 b -> writes (fun e => or_exit (m1 e) m2) (a ++ b).
Proof.
  intros H1 H2 pre post cap F. rewrite message_app. apply emits_seq; [by apply H1|].
  intros H. rewrite <- Zlength_app. by apply H2, fits_advance.
Qed.

Section Requests.
Context {B : BuildOptions} {L : BaseLib}.

Lemma writes_item i : item_wf i -> writes (encode_item i) [i].
Proof. intros W pre post cap F. cbn [message_bytes]. rewrite app_nil_r. by apply emits_item. Qed.

Lemma writes_field v : 0 <= v < 2 ^ 8 -> writes (fun e => AziHsmMborEncodeFieldId e v) [U8 v].
Proof. intros H. apply (writes_ext (encode_item (U8 v))); [by intros []|by apply writes_item]. Qed.

(** A function that writes [items] and then reports the size, counted from
    [start] of the position it began at. *)
Definition sized_from (start : Z -> Z) (f : Enc -> result (EFI_STATUS * (Enc * option Z))) (items : list item) : Prop :=
  forall pre post cap, fits pre post cap -> exists st w,
    f (Some (cur pre post cap)) = Ok (st, (Some (cur (pre ++ w) (drop (length w) post) cap),
      Some (Zlength pre + Zlength w - start (Zlength pre)))) /\
    Zlength pre + Zlength w <= cap /\
    ((st = EFI_SUCCESS /\ w = message_bytes (Zlength pre) items) \/
     (st = EFI_BUFFER_TOO_SMALL /\ w `prefix_of` message_bytes (Zlength pre) items /\
      cap < Zlength pre + Zlength (message_bytes (Zlength pre) items))).
Definition sized : _ -> _ -> Prop := sized_from (fun pos => pos).

Lemma sized_from_intro start m1 m2 f a b :
  (forall pos, 0 <= pos -> 0 <= start pos <= pos) -> writes m1 a -> writes m2 b ->
  (forall e, f (Some e) = r ← or_exit (m1 (Some e)) m2; encoded (start (Position e)) r) -> sized_from start f (a ++ b).
Proof.
  intros Hs H1 H2 Hf pre post cap F. destruct (writes_seq _ _ _ _ H1 H2 pre post cap F) as (st & w & E & Hw & Hst).
  exists st, w. rewrite Hf, E, bind_Ok. split; [|done]. unfold encoded. cbn [cur Position]. rewrite Zlength_app.
  pose proof (Zlength_nonneg w). pose proof (Hs _ (Zlength_nonneg pre)). destruct F as [_ Hc]. do 4 f_equal.
  rewrite u32_small by lia. lia.
Qed.

Lemma sized_intro m1 m2 f a b :
  writes m1 a -> writes m2 b ->
  (forall e, f (Some e) = r ← or_exit (m1 (Some e)) m2; encoded (Position e) r) -> sized f (a ++ b).
Proof. apply (sized_from_intro (fun pos => pos)). lia. Qed.

Lemma sized_writes f items :
  sized f items -> writes (fun e => '(Status, (Encoder, _)) ← f e; Ok (Status, Encoder)) items.
Proof.
  intros H pre post cap F. destruct (H pre post cap F) as (st & w & E & Hw & Hst). exists st, w. by rewrite E.
Qed.

Definition rev_items (r : AZIHSM_DDI_API_REV) : list item := [Map 2; U8 1; U32 (Major r); U8 2; U32 (Minor r)].
Definition rev_wf (r : AZIHSM_DDI_API_REV) : Prop := 0 <= Major r < 2 ^ 32 /\ 0 <= Minor r < 2 ^ 32.

Lemma EncodeApiRevision_sized rev z :
  rev_wf rev -> sized (fun e => EncodeApiRevision e (Some rev) (Some z)) (rev_items rev).
Proof.
  intros [H1 H2]. eapply (sized_intro (encode_item (Map 2)) _ _ [_]); [by apply writes_item| |by intros e].
  apply (writes_seq _ _ [_]); [by apply writes_field|].
  apply (writes_seq (encode_item (U32 _)) _ [_]); [by apply writes_item|].
  apply (writes_seq _ _ [_]); [by apply writes_field|].
  by apply (writes_item (U32 _)).
Qed.

(** The fields of a request. *)
Definition count_some {A} (o : option A) : Z := match o with Some _ => 1 | None => 0 end.
Definition header_items (op : Z) (rev : option AZIHSM_DDI_API_REV) (sid : option Z) : list item :=
  [Map (1 + count_some rev + count_some sid)] ++
  match rev with Some r => [U8 1] ++ rev_items r | None => [] end ++ [U8 2] ++ [U32 op] ++
  match sid with Some s => [U8 3] ++ [U16 s] | None => [] end.
Definition request_items (op : Z) (rev : option AZIHSM_DDI_API_REV) (sid : option Z) (data : list item) : list item :=
  ([Map 2] ++ [U8 0] ++ header_items op rev sid) ++ [U8 1] ++ data.

Definition header_wf (op : Z) (rev : option AZIHSM_DDI_API_REV) (sid : option Z) : Prop :=
  0 <= op < 2 ^ 32 /\ match rev with Some r => rev_wf r | None => True end /\
  match sid with Some s => 0 <= s < 2 ^ 16 | None => True end.

Definition header_of (op : Z) (rev : option AZIHSM_DDI_API_REV) (sid : option Z) : AZIHSM_DDI_REQ_HDR :=
  mkReqHdr (bool_decide (is_Some rev)) (default zero_rev rev) op (bool_decide (is_Some sid)) (default 0 sid).

(** The two optional fields. *)
Lemma revision_writes rev :
  match rev with Some r => rev_wf r | None => True end ->
  writes (fun e => match rev with
    | Some r => or_exit (AziHsmMborEncodeFieldId e REV_FIELD_ID) (fun e =>
        '(Status, (Encoder, _)) ← EncodeApiRevision e (Some r) (Some 0); Ok (Status, Encoder))
    | None => Ok (EFI_SUCCESS, e)
    end) (match rev with Some r => [U8 1] ++ rev_items r | None => [] end).
Proof.
  destruct rev as [r|]; [|intros _; apply writes_ret]. intros H.
  apply (writes_seq _ _ [_]); [by apply writes_field|by apply sized_writes, EncodeApiRevision_sized].
Qed.

Lemma session_writes (sid : option Z) :
  match sid with Some s => 0 <= s < 2 ^ 16 | None => True end ->
  writes (fun e => match sid with
    | Some s => or_exit (AziHsmMborEncodeFieldId e SESSION_ID_FIELD_ID) (fun e => AziHsmMborEncodeU16 e s)
    | None => Ok (EFI_SUCCESS, e)
    end) (match sid with Some s => [U8 3] ++ [U16 s] | None => [] end).
Proof.
  destruct sid as [s|]; [|intros _; apply writes_ret]. intros H.
  apply (writes_seq _ _ [_]); [by apply writes_field|by apply (writes_item (U16 s))].
Qed.

Lemma EncodeRequestHeader_sized op rev sid z :
  header_wf op rev sid ->
  sized (fun e => EncodeRequestHeader e (Some (header_of op rev sid)) (Some z)) (header_items op rev sid).
Proof.
  intros (H1 & H2 & H3).
  assert (Hm : item_wf (Map (1 + count_some rev + count_some sid))) by (destruct rev, sid; cbn; lia).
  apply (sized_intro _ _ _ _ _ (writes_item _ Hm)
    (writes_seq _ _ _ _ (revision_writes rev H2) (writes_seq _ _ _ _ (writes_field 2 ltac:(lia))
      (writes_seq _ _ _ _ (writes_item (U32 op) H1) (session_writes sid H3))))).
  intros e. unfold EncodeRequestHeader. cbn [header_of req_DdiOp].
  rewrite (u32_small op) by lia. by destruct rev, sid.
Qed.

Lemma request_header_writes op rev sid :
  header_wf op rev sid ->
  writes (fun e => request_header e op rev sid) ([Map 2] ++ [U8 0] ++ header_items op rev sid).
Proof.
  intros H. unfold request_header. apply (sized_writes (fun e => EncodeCommandRequestHeader e op rev sid (Some 0))).
  eapply (sized_intro (encode_item (Map 2)) _ _ [_]); [by apply writes_item| |by intros e].
  apply (writes_seq _ _ [_]); [by apply writes_field|].
  by apply sized_writes, EncodeRequestHeader_sized.
Qed.

(** The four requests. *)
Inductive request : Type :=
  | GetApiRev | InitBks3 (data : list Z) | SetSealedBks3 (data : list Z) | GetSealedBks3.

Definition request_op (r : request) : Z :=
  match r with
  | GetApiRev => 1002 | InitBks3 _ => 1111 | GetSealedBks3 => 1112 | SetSealedBks3 _ => 1113
  end.
Definition request_data (r : request) : list item :=
  match r with
  | GetApiRev | GetSealedBks3 => [Map 0]
  | InitBks3 data | SetSealedBks3 data => [Map 1] ++ [U8 1] ++ [PaddedBytes data]
  end.
Definition request_wf (r : request) : Prop :=
  match r with InitBks3 data | SetSealedBks3 data => Zlength data < 2 ^ 16 | _ => True end.

(** The call that encodes a request. *)
Definition encode_request (r : request) (rev : option AZIHSM_DDI_API_REV) (sid : option Z) (size : Z) (e : Enc)
  : result (EFI_STATUS * (Enc * option Z)) :=
  match r with
  | GetApiRev => AzihsmEncodeGetApiRevReq e rev sid (Some size)
  | InitBks3 data => AzihsmEncodeInitBks3Req e rev sid (Some (mkBks3 (Some data) (Zlength data))) (Some size)
  | SetSealedBks3 data => AzihsmEncodeSetSealedBks3Req e rev sid (Some (mkBks3 (Some data) (Zlength data))) (Some size)
  | GetSealedBks3 => AzihsmEncodeGetSealedBks3Req e rev sid (Some size)
  end.

Lemma empty_data_writes : writes (fun e => or_exit (AziHsmMborEncodeFieldId e 1) (fun e => AziHsmMborEncodeMap e 0)) ([U8 1] ++ [Map 0]).
Proof. apply writes_seq; [by apply writes_field|by apply (writes_item (Map 0))]. Qed.

Lemma bytes_data_writes data :
  Zlength data < 2 ^ 16 ->
  writes (fun e => or_exit (AziHsmMborEncodeFieldId e 1) (fun e => or_exit (AziHsmMborEncodeMap e 1) (fun e =>
    or_exit (AziHsmMborEncodeFieldId e 1) (fun e => AziHsmMborEncodePaddedBytes e (Some data) (Zlength data)))))
    ([U8 1] ++ [Map 1] ++ [U8 1] ++ [PaddedBytes data]).
Proof.
  intros H. apply (writes_seq _ _ [_]); [by apply writes_field|].
  apply (writes_seq (encode_item (Map 1)) _ [_]); [by apply writes_item|].
  apply (writes_seq _ _ [_]); [by apply writes_field|by apply (writes_item (PaddedBytes data))].
Qed.

(** Where the reported size starts counting. *)
Definition request_start (r : request) (pos : Z) : Z := match r with GetSealedBks3 => 0 | _ => pos end.

Lemma request_sized r rev sid size :
  header_wf (request_op r) rev sid -> request_wf r ->
  sized_from (request_start r) (encode_request r rev sid size)
    (request_items (request_op r) rev sid (request_data r)).
Proof.
  intros H W. pose proof (request_header_writes _ _ _ H) as Hh.
  destruct r as [|data|data|]; unfold request_items; cbn [encode_request request_data request_start];
    [ apply (sized_from_intro (fun pos => pos) _ _ _ _ _ ltac:(lia) Hh empty_data_writes)
    | apply (sized_from_intro (fun pos => pos) _ _ _ _ _ ltac:(lia) Hh (bytes_data_writes data W))
    | apply (sized_from_intro (fun pos => pos) _ _ _ _ _ ltac:(lia) Hh (bytes_data_writes data W))
    | apply (sized_from_intro (fun _ => 0) _ _ _ _ _ ltac:(lia) Hh empty_data_writes) ]; by intros e.
Qed.
End Requests.

(** ** Reading responses

    [m] reads the wire format of [items] wherever it starts, succeeds and
    leaves [s]. *)
Definition reads {S} (m : Dec -> result (EFI_STATUS * (Dec * S))) (items : list item) (s : S) : Prop :=
  forall pre rest cap, let ms := message_bytes (Zlength pre) items in
    fits pre (ms ++ rest) cap -> Zlength pre + Zlength ms <= cap ->
    m (Some (cur pre (ms ++ rest) cap)) = Ok (EFI_SUCCESS, (Some (cur (pre ++ ms) rest cap), s)).

Lemma reads_ret {S} (s : S) : reads (fun d => Ok (EFI_SUCCESS, (d, s))) [] s.
Proof. intros pre rest cap ms F H. subst ms. cbn [message_bytes app]. by rewrite app_nil_r. Qed.

(** Reading the first part of a message. *)
Lemma reads_step {S T} (m : Dec -> result (EFI_STATUS * (Dec * S))) (f k : Dec -> result T) a b s pre rest cap :
  (forall d d', m d = Ok (EFI_SUCCESS, (d', s)) -> f d = k d') -> reads m a s ->
  fits pre (message_bytes (Zlength pre) (a ++ b) ++ rest) cap ->
  Zlength pre + Zlength (message_bytes (Zlength pre) (a ++ b)) <= cap ->
  exists pre', pre' = pre ++ message_bytes (Zlength pre) a /\
    message_bytes (Zlength pre) (a ++ b) = message_bytes (Zlength pre) a ++ message_bytes (Zlength pre') b /\
    fits pre' (message_bytes (Zlength pre') b ++ rest) cap /\ Zlength pre' + Zlength (message_bytes (Zlength pre') b) <= cap /\
    f (Some (cur pre (message_bytes (Zlength pre) (a ++ b) ++ rest) cap)) =
      k (Some (cur pre' (message_bytes (Zlength pre') b ++ rest) cap)).
Proof.
  intros Hf H1 F Hc. eexists. split; [done|]. rewrite Zlength_app. rewrite message_app in *. rewrite <- app_assoc in *.
  rewrite Zlength_app in Hc. set (x := message_bytes (Zlength pre) a) in *.
  set (y := message_bytes (Zlength pre + Zlength x) b) in *. pose proof (Zlength_nonneg y).
  specialize (H1 pre (y ++ rest) cap). fold x in H1. rewrite (Hf _ _ (H1 F ltac:(lia))).
  split_and!; [done| |lia|done]. apply fits_consume; [done|lia].
Qed.

Lemma reads_then {S T} (m : Dec -> result (EFI_STATUS * (Dec * S))) (f : Dec -> result (EFI_STATUS * (Dec * T))) k a b s t :
  (forall d d', m d = Ok (EFI_SUCCESS, (d', s)) -> f d = k d') ->
  reads m a s -> reads k b t -> reads f (a ++ b) t.
Proof.
  intros Hf H1 H2 pre rest cap ms F Hc. subst ms.
  destruct (reads_step m f k a b s pre rest cap Hf H1 F Hc) as (pre' & Ep & Em & F' & Hc' & ->).
  rewrite (H2 pre' rest cap F' Hc'). by rewrite Em, app_assoc, <- Ep.
Qed.

Lemma reads_get {V S} (m : Dec -> result (EFI_STATUS * (Dec * option V))) (s t : S) k a b v :
  reads m a (Some v) -> reads (fun d => k d v) b t -> reads (fun d => or_exit_with (m d) s k) (a ++ b) t.
Proof. apply reads_then. intros d d' E. unfold or_exit_with. by rewrite E. Qed.

Lemma reads_try {S} (m : Dec -> result (EFI_STATUS * (Dec * S))) k a b (s t : S) :
  reads m a s -> reads (fun d => k (d, s)) b t -> reads (fun d => or_exit (m d) k) (a ++ b) t.
Proof. apply reads_then. intros d d' E. unfold or_exit. by rewrite E. Qed.

Lemma reads_map {S T} (g : S -> T) (m : Dec -> result (EFI_STATUS * (Dec * S))) a s :
  reads m a s -> reads (fun d => '(Status, (Decoder, v)) ← m d; Ok (Status, (Decoder, g v))) a (g s).
Proof.
  intros H pre rest cap ms F Hc. subst ms. by rewrite (H pre rest cap F Hc).
Qed.

(** A function that reads [items] and then reports the size. *)
Definition sized_reads {S} (f : Dec -> result (EFI_STATUS * (Dec * option S * option Z))) (items : list item) (s : S) : Prop :=
  forall pre rest cap, let ms := message_bytes (Zlength pre) items in
    fits pre (ms ++ rest) cap -> Zlength pre + Zlength ms <= cap ->
    f (Some (cur pre (ms ++ rest) cap)) =
      Ok (EFI_SUCCESS, (Some (cur (pre ++ ms) rest cap), Some s, Some (Zlength ms))).

Lemma decoded_size {S} pre w rest cap st (s : S) :
  Zlength pre + Zlength w <= cap < 2 ^ 16 ->
  decoded (Zlength pre) (st, (Some (cur (pre ++ w) rest cap), s)) =
    Ok (st, (Some (cur (pre ++ w) rest cap), s, Some (Zlength w))).
Proof.
  intros H. unfold decoded. cbn [cur Position]. rewrite Zlength_app. pose proof (Zlength_nonneg pre).
  pose proof (Zlength_nonneg w). rewrite u32_small by lia. do 4 f_equal. lia.
Qed.

Lemma sized_reads_intro {V S} m k f a b (v : V) (s0 s : S) :
  reads m a (Some v) -> reads (fun d => k d v) b s ->
  (forall d, f (Some d) = '(Status, (Decoder, s)) ← or_exit_with (m (Some d)) s0 k;
     decoded (Position d) (Status, (Decoder, Some s))) ->
  sized_reads f (a ++ b) s.
Proof.
  intros H1 H2 Hf pre rest cap ms F Hc. subst ms. pose proof (reads_get _ s0 _ _ _ _ _ H1 H2 pre rest cap F Hc) as H.
  rewrite Hf, H, bind_Ok. apply decoded_size. destruct F. lia.
Qed.

(** A caller that ignores the size. *)
Lemma sized_reads_default {S} f items (s s0 : S) :
  sized_reads f items s ->
  reads (fun d => '(Status, (Decoder, s', _)) ← f d; Ok (Status, (Decoder, default s0 s'))) items s.
Proof. intros H pre rest cap ms F Hc. subst ms. by rewrite (H pre rest cap F Hc). Qed.

Section Responses.
Context {B : BuildOptions} {L : BaseLib}.

Lemma reads_uint M n swap v v0 i :
  swaps n swap -> 0 <= v < 256 ^ Z.of_nat n -> Z.of_nat n < 2 ^ 15 ->
  (forall pos, item_bytes pos i = M :: big_endian n v) ->
  reads (fun d => decode_uint M n swap d (Some v0)) [i] (Some v).
Proof.
  intros Hs Hv Hn Hi pre rest cap ms F Hc. subst ms. cbn [message_bytes] in *. rewrite app_nil_r, Hi in *.
  rewrite <- app_comm_cons in *. apply decode_uint_app; try done.
  change (M :: big_endian n v) with ([M] ++ big_endian n v) in Hc. rewrite Zlength_app, Zlength_big_endian in Hc.
  change (Zlength [M]) with 1 in Hc. lia.
Qed.

Lemma reads_u32 v v0 : 0 <= v < 2 ^ 32 -> reads (fun d => AziHsmMborDecodeU32 d (Some v0)) [U32 v] (Some v).
Proof. intros H. apply reads_uint; try done. apply swaps_u32. Qed.
Lemma reads_u16 v v0 : 0 <= v < 2 ^ 16 -> reads (fun d => AziHsmMborDecodeU16 d (Some v0)) [U16 v] (Some v).
Proof. intros H. apply reads_uint; try done. apply swaps_u16. Qed.
Lemma reads_field v v0 : 0 <= v < 2 ^ 8 -> reads (fun d => AziHsmMborDecodeFieldId d (Some v0)) [U8 v] (Some v).
Proof.
  intros H. apply (reads_uint MBOR_U8_MARKER 1 (fun v => v) v v0 (U8 v)); try done.
  intros pos. unfold big_endian. cbn [le_split item_bytes]. by rewrite Z.mod_small by lia.
Qed.

Lemma reads_map_marker n n0 : 0 <= n < 16 -> reads (fun d => AziHsmMborDecodeMap d (Some n0)) [Map n] (Some n).
Proof.
  intros H pre rest cap ms F Hc. subst ms. cbn [message_bytes item_bytes app] in *.
  unfold AziHsmMborDecodeMap. rewrite decode_marker_app, bind_Ok by (done || exact Hc). cbn [EFI_ERROR].
  destruct (map_marker n H) as (_ & -> & ->). by rewrite Z.eqb_refl.
Qed.

Lemma reads_boolean b b0 : reads (fun d => AziHsmMborDecodeBoolean d (Some b0)) [Boolean b] (Some b).
Proof.
  intros pre rest cap ms F Hc. subst ms. cbn [message_bytes item_bytes app] in *.
  unfold AziHsmMborDecodeBoolean. rewrite decode_marker_app, bind_Ok by (done || exact Hc). by destruct b.
Qed.

Lemma decode_rev_reads rev rev0 : rev_wf rev -> reads (fun d => decode_rev d rev0) (rev_items rev) rev.
Proof.
  intros [H1 H2]. apply sized_reads_default.
  eapply (sized_reads_intro _ _ _ [_] _ 2); [by apply reads_map_marker| |by intros d].
  apply (reads_get _ _ _ _ [_] _ 1); [by apply reads_field|].
  apply (reads_try _ _ [_] _ (mkRev (Major rev) (Minor rev0))).
  { apply (reads_get _ _ _ _ [_] []  (Major rev)); [by apply reads_u32|apply reads_ret]. }
  apply (reads_get _ _ _ _ [_] _ 2); [by apply reads_field|].
  apply (reads_try _ _ [_] [] rev); [|apply reads_ret].
  apply (reads_get _ _ _ _ [_] [] (Minor rev)); [by apply reads_u32|]. destruct rev. apply reads_ret.
Qed.

(** The fields of a response header, in the order the device sends them. *)
Inductive header_field : Type :=
  | FRevision (r : AZIHSM_DDI_API_REV) | FDdiOp (v : Z) | FSessionId (v : Z) | FDdiStatus (v : Z) | FFipsApproved (b : bool).

Definition field_id (x : header_field) : Z :=
  match x with FRevision _ => 1 | FDdiOp _ => 2 | FSessionId _ => 3 | FDdiStatus _ => 4 | FFipsApproved _ => 5 end.
Definition field_value (x : header_field) : list item :=
  match x with
  | FRevision r => rev_items r | FDdiOp v | FDdiStatus v => [U32 v] | FSessionId v => [U16 v] | FFipsApproved b => [Boolean b]
  end.
Definition field_wf (x : header_field) : Prop :=
  match x with
  | FRevision r => rev_wf r | FDdiOp v | FDdiStatus v => 0 <= v < 2 ^ 32 | FSessionId v => 0 <= v < 2 ^ 16
  | FFipsApproved _ => True
  end.

(** What reading a field does to the header and to the flags. *)
Definition set_field (h : AZIHSM_DDI_RSP_HDR) (x : header_field) : AZIHSM_DDI_RSP_HDR :=
  match x with
  | FRevision r => mkRspHdr true r (DdiOp h) (SessionId_Valid h) (SessionId_Value h) (DdiStatus h) (fips_approved h)
  | FDdiOp v => mkRspHdr (Revision_Valid h) (Revision_Value h) v (SessionId_Valid h) (SessionId_Value h) (DdiStatus h) (fips_approved h)
  | FSessionId v => mkRspHdr (Revision_Valid h) (Revision_Value h) (DdiOp h) true v (DdiStatus h) (fips_approved h)
  | FDdiStatus v => mkRspHdr (Revision_Valid h) (Revision_Value h) (DdiOp h) (SessionId_Valid h) (SessionId_Value h) v (fips_approved h)
  | FFipsApproved b => mkRspHdr (Revision_Valid h) (Revision_Value h) (DdiOp h) (SessionId_Valid h) (SessionId_Value h) (DdiStatus h) b
  end.
Definition set_found (f : header_found) (x : header_field) : header_found :=
  match x with
  | FRevision _ => mkFound true (DdiOpFound f) (SessionIdFound f) (DdiStatusFound f) (FipsApprovedFound f)
  | FDdiOp _ => mkFound (RevisionFound f) true (SessionIdFound f) (DdiStatusFound f) (FipsApprovedFound f)
  | FSessionId _ => mkFound (RevisionFound f) (DdiOpFound f) true (DdiStatusFound f) (FipsApprovedFound f)
  | FDdiStatus _ => mkFound (RevisionFound f) (DdiOpFound f) (SessionIdFound f) true (FipsApprovedFound f)
  | FFipsApproved _ => mkFound (RevisionFound f) (DdiOpFound f) (SessionIdFound f) (DdiStatusFound f) true
  end.
Definition found (f : header_found) (x : header_field) : bool :=
  match x with
  | FRevision _ => RevisionFound f | FDdiOp _ => DdiOpFound f | FSessionId _ => SessionIdFound f
  | FDdiStatus _ => DdiStatusFound f | FFipsApproved _ => FipsApprovedFound f
  end.

Lemma found_other f x y : field_id x <> field_id y -> found (set_found f x) y = found f y.
Proof. by destruct x, y. Qed.
Lemma found_kept f fs x : found f x = true -> found (foldl set_found f fs) x = true.
Proof. revert f. induction fs as [|y fs IH]; intros f H; [done|]. apply IH. by destruct x, y. Qed.
Lemma found_elem f fs x : x ∈ fs -> found (foldl set_found f fs) x = true.
Proof.
  intros H. revert f. induction H as [x fs|x y fs H IH]; intros f; [|apply IH].
  apply (found_kept (set_found f x)). by destruct x.
Qed.

Lemma header_field_reads x f h :
  field_wf x -> found f x = false ->
  reads (fun d => rsp_hdr_field (field_id x) d f h) (field_value x) (set_found f x, set_field h x).
Proof.
  intros W E. destruct x as [r|v|v|v|b]; cbn in E; unfold rsp_hdr_field; cbn [field_id field_value]; simpl; rewrite E.
  - apply (reads_map (fun v => (set_found f (FRevision r), set_field h (FRevision v)))). by apply decode_rev_reads.
  - apply (reads_get _ _ _ _ [_] [] v); [by apply reads_u32|apply reads_ret].
  - apply (reads_get _ _ _ _ [_] [] v); [by apply reads_u16|apply reads_ret].
  - apply (reads_get _ _ _ _ [_] [] v); [by apply reads_u32|apply reads_ret].
  - apply (reads_get _ _ _ _ [_] [] b); [by apply reads_boolean|apply reads_ret].
Qed.

Definition fields_items (fs : list header_field) : list item := fs ≫= fun x => [U8 (field_id x)] ++ field_value x.

Lemma header_loop_reads fs f h :
  Forall field_wf fs -> NoDup (field_id <$> fs) -> Forall (fun x => found f x = false) fs ->
  reads (fun d => rsp_hdr_loop (length fs) d f h) (fields_items fs) (foldl set_found f fs, foldl set_field h fs).
Proof.
  intros W. revert f h. induction W as [|x fs Wx Wfs IH]; intros f h ND NF; [apply reads_ret|].
  apply list.NoDup_cons in ND as [Hx ND]. apply list.Forall_cons in NF as [NFx NF].
  unfold fields_items. cbn [length rsp_hdr_loop mbind list_bind foldl]. rewrite <- app_assoc.
  apply (reads_get _ _ _ _ [_] _ (field_id x)); [apply reads_field; destruct x; cbn; lia|].
  replace (AZIHSM_DDI_RSP_HDR_FIELD_COUNT <? field_id x) with false by (by destruct x).
  apply (reads_try _ _ _ _ (set_found f x, set_field h x)); [by apply header_field_reads|].
  apply IH; [done|]. rewrite Forall_forall in NF |- *. intros y Hy. rewrite found_other; [auto|].
  intros E. apply Hx. rewrite E. by apply (list_elem_of_fmap_2 field_id), list_elem_of_In.
Qed.

(** A field keeps the one value written to it. *)
Lemma header_other {A} (get : AZIHSM_DDI_RSP_HDR -> A) i fs h :
  (forall h y, field_id y <> i -> get (set_field h y) = get h) -> i ∉ field_id <$> fs ->
  get (foldl set_field h fs) = get h.
Proof.
  intros H. revert h. induction fs as [|y fs IH]; intros h Hn; [done|]. cbn [foldl].
  apply not_elem_of_cons in Hn as [Hy Hn]. by rewrite IH, H by done.
Qed.
Lemma header_value {A} (get : AZIHSM_DDI_RSP_HDR -> A) x fs h v :
  (forall h, get (set_field h x) = v) -> (forall h y, field_id y <> field_id x -> get (set_field h y) = get h) ->
  NoDup (field_id <$> fs) -> x ∈ fs -> get (foldl set_field h fs) = v.
Proof.
  intros H1 H2 ND Hx. revert h. induction Hx as [x fs|x y fs Hx IH]; intros h; apply list.NoDup_cons in ND as [Hn ND]; cbn [foldl].
  - by rewrite (header_other get (field_id x)), H1.
  - by apply IH.
Qed.

(** A header the device may send: distinct fields, the required ones among
    them. *)
Record header_for (fs : list header_field) (op st : Z) : Prop := {
  header_fields_wf : Forall field_wf fs;
  header_distinct : NoDup (field_id <$> fs);
  header_op : FDdiOp op ∈ fs;
  header_status : FDdiStatus st ∈ fs;
  header_fips : exists b, FFipsApproved b ∈ fs }.

Lemma header_count fs op st : header_for fs op st -> 3 <= Zlength fs <= 5.
Proof.
  intros [_ ND Hop Hst [b Hb]]. apply (list_elem_of_fmap_2 field_id) in Hop, Hst, Hb.
  assert (Hlo : (length [2; 4; 5]%Z <= length (field_id <$> fs))%nat).
  { apply submseteq_length, NoDup_submseteq; [rewrite !list.NoDup_cons, !elem_of_cons, !elem_of_nil; split_and!; (apply NoDup_nil_2 || lia)|]. intros i. rewrite !elem_of_cons, elem_of_nil.
    by intros [-> | [-> | [-> | []]]]. }
  assert (Hhi : (length (field_id <$> fs) <= length (seqZ 1%Z 5%Z))%nat).
  { apply submseteq_length, NoDup_submseteq; [done|]. intros i (x & -> & _)%list_elem_of_fmap.
    apply elem_of_seqZ. destruct x; cbn; lia. }
  rewrite length_fmap in *. cbn in Hlo. rewrite length_seqZ in Hhi. unfold Zlength. lia.
Qed.

(** The header of a response, [n] being the number of parts announced. *)
Definition response_header_items (n : Z) (fs : list header_field) : list item :=
  [Map n] ++ [U8 0] ++ [Map (Zlength fs)] ++ fields_items fs.

(** The header after the flags are cleared and the fields are read. *)
Definition header_read (fs : list header_field) (h : AZIHSM_DDI_RSP_HDR) : AZIHSM_DDI_RSP_HDR :=
  foldl set_field (mkRspHdr false (Revision_Value h) (DdiOp h) false (SessionId_Value h) (DdiStatus h) (fips_approved h)) fs.

Lemma DecodeResponseHeader_reads fs op st h :
  header_for fs op st ->
  sized_reads (fun d => DecodeResponseHeader d (Some h) (Some 0)) ([Map (Zlength fs)] ++ fields_items fs)
    (header_read fs h).
Proof.
  intros H. pose proof (header_count _ _ _ H) as Hc. destruct H as [W ND Hop Hst [b Hb]].
  intros pre rest cap ms F Hl. subst ms. unfold DecodeResponseHeader.
  match goal with |- mbind _ ?m = _ => assert (Hr : m = Ok (EFI_SUCCESS, (Some (cur
    (pre ++ message_bytes (Zlength pre) ([Map (Zlength fs)] ++ fields_items fs)) rest cap),
    (foldl set_found none_found fs, header_read fs h)))) end.
  2:{ rewrite Hr, bind_Ok. apply decoded_size. destruct F. lia. }
  refine (reads_get (fun d => AziHsmMborDecodeMap d (Some 0)) _ _ _ [_] _ (Zlength fs) _ _ pre rest cap F Hl);
    [apply reads_map_marker; lia|].
  rewrite (proj2 (Z.ltb_ge _ _)), (proj2 (Z.ltb_ge _ _)) by (unfold AZIHSM_DDI_RSP_HDR_FIELD_COUNT, MIN_RSP_HDR_FIELD_COUNT; lia).
  cbn [orb]. rewrite <- (app_nil_r (fields_items fs)).
  apply (reads_try _ _ _ _ (foldl set_found none_found fs, header_read fs h)).
  - unfold Zlength. rewrite Nat2Z.id. apply header_loop_reads; [done..|]. apply Forall_true. by intros [].
  - rewrite (found_elem none_found fs (FDdiOp op) Hop : DdiOpFound _ = true),
      (found_elem none_found fs (FDdiStatus st) Hst : DdiStatusFound _ = true),
      (found_elem none_found fs (FFipsApproved b) Hb : FipsApprovedFound _ = true). apply reads_ret.
Qed.

Lemma response_header_reads n fs op st h0 :
  2 <= n <= 3 -> header_for fs op st ->
  exists h, DdiOp h = op /\ DdiStatus h = st /\
    reads (fun d => response_header d h0) (response_header_items n fs) (Some h).
Proof.
  intros Hn H. exists (header_read fs h0). split_and!.
  - apply (header_value DdiOp (FDdiOp op)); try apply H; [done|by intros ? []].
  - apply (header_value DdiStatus (FDdiStatus st)); try apply H; [done|by intros ? []].
  - assert (Hs : sized_reads (fun d => DecodeCommandResponseHeader d (Some h0) (Some 0)) (response_header_items n fs)
      (header_read fs h0)).
    { eapply (sized_reads_intro _ _ _ [_] _ n); [apply reads_map_marker; lia| |by intros d].
      cbv beta. rewrite (proj2 (Z.ltb_ge _ _)), (proj2 (Z.ltb_ge _ _))
        by (unfold API_REV_CMD_RESP_MIN_FIELD_COUNT, API_REV_CMD_RESP_MAX_FIELD_COUNT; lia). cbn [orb].
      apply (reads_get _ _ _ _ [_] _ 0); [by apply reads_field|].
      exact (sized_reads_default _ _ _ h0 (DecodeResponseHeader_reads fs op st h0 H)). }
    intros pre rest cap ms F Hc. subst ms. unfold response_header. by rewrite (Hs pre rest cap F Hc).
Qed.

(** A byte string decoder as a reader of its two results. *)
Definition bytes_pair (m : result (EFI_STATUS * bytes_state)) : result (EFI_STATUS * (Dec * (option (list Z) * option Z))) :=
  '(st, (d, b, l)) ← m; Ok (st, (d, (b, l))).

Lemma or_exit_bytes_pair {S} m (s : _ -> _ -> S) k d' b l :
  bytes_pair m = Ok (EFI_SUCCESS, (d', (b, Some l))) -> or_exit_bytes m s k = k d' b l.
Proof.
  intros E. unfold bytes_pair in E. destruct m as [[st [[d1 b1] l1]]|]; [|done]. rewrite bind_Ok in E. by simplify_eq.
Qed.

Lemma reads_padded data o l :
  Zlength data < 2 ^ 16 -> Zlength data <= Zlength o ->
  reads (fun d => bytes_pair (AziHsmMborDecodePaddedBytes d (Some o) (Some l))) [PaddedBytes data]
    (Some (data ++ drop (length data) o), Some (Zlength data)).
Proof.
  intros H Ho pre rest cap ms. subst ms. cbn [message_bytes]. rewrite app_nil_r. intros F Hc.
  by rewrite decode_padded_app.
Qed.

Lemma reads_bytes data o l :
  Zlength data < 2 ^ 16 -> Zlength data <= Zlength o ->
  reads (fun d => bytes_pair (AziHsmMborDecodeBytes d (Some o) (Some l))) [Bytes data]
    (Some (data ++ drop (length data) o), Some (Zlength data)).
Proof.
  intros H Ho pre rest cap ms. subst ms. cbn [message_bytes]. rewrite app_nil_r. intros F Hc.
  by rewrite decode_bytes_app.
Qed.

Lemma reads_bytes_then {S} (m : Dec -> result (EFI_STATUS * bytes_state)) (s : _ -> _ -> S) k a items b l t :
  reads (fun d => bytes_pair (m d)) a (b, Some l) ->
  reads (fun d => k d b l) items t -> reads (fun d => or_exit_bytes (m d) s k) (a ++ items) t.
Proof. apply reads_then. intros d d'. apply or_exit_bytes_pair. Qed.

(** The content of the four responses, after their headers. *)
Definition rev_response_items (mn mx : AZIHSM_DDI_API_REV) : list item :=
  [U8 1] ++ [Map 2] ++ [U8 1] ++ rev_items mn ++ [U8 2] ++ rev_items mx.

Lemma rev_response_reads mn mx r0 :
  rev_wf mn -> rev_wf mx ->
  reads (fun d => '(Status, (Decoder, rev', _)) ← DecodeApiRevisionCommandResponseData d (Some r0) (Some 0);
     Ok (Status, (Decoder, default r0 rev'))) (rev_response_items mn mx) (mkRevResponse mn mx).
Proof.
  intros H1 H2. apply sized_reads_default.
  eapply (sized_reads_intro _ _ _ [_] _ 1); [by apply reads_field| |by intros d].
  apply (sized_reads_default (fun d => DecodeApiRevisionResponse d (Some r0) (Some 0))).
  eapply (sized_reads_intro _ _ _ [_] _ 2); [by apply reads_map_marker| |by intros d].
  apply (reads_get _ _ _ _ [_] _ 1); [by apply reads_field|].
  apply (reads_try _ _ _ _ (mkRevResponse mn (max_rev r0))).
  { by apply (reads_map (fun v => mkRevResponse v (max_rev r0))), decode_rev_reads. }
  apply (reads_get _ _ _ _ [_] _ 2); [by apply reads_field|]. rewrite <- (app_nil_r (rev_items mx)).
  apply (reads_try _ _ _ [] (mkRevResponse mn mx)); [|apply reads_ret].
  by apply (reads_map (fun v => mkRevResponse mn v)), decode_rev_reads.
Qed.

(** The four responses. *)
Inductive response : Type :=
  | RApiRev (mn mx : AZIHSM_DDI_API_REV) | RInitBks3 (data guid : list Z) | RSetSealedBks3 | RGetSealedBks3 (data : list Z).

Definition response_op (r : response) : Z :=
  match r with RApiRev _ _ => 1002 | RInitBks3 _ _ => 1111 | RGetSealedBks3 _ => 1112 | RSetSealedBks3 => 1113 end.
Definition response_data (r : response) : list item :=
  match r with
  | RApiRev mn mx => rev_response_items mn mx
  | RInitBks3 data guid => [U8 1] ++ [Map 2] ++ [U8 1] ++ [PaddedBytes data] ++ [U8 2] ++ [Bytes guid]
  | RSetSealedBks3 => [U8 1] ++ [Map 0]
  | RGetSealedBks3 data => [U8 1] ++ [Map 1] ++ [U8 1] ++ [PaddedBytes data]
  end.
Definition response_items (n : Z) (fs : list header_field) (r : response) : list item :=
  response_header_items n fs ++ response_data r.

Lemma get_api_rev_reads n fs mn mx h0 r0 z :
  2 <= n <= 3 -> header_for fs 1002 0 -> rev_wf mn -> rev_wf mx ->
  sized_reads (fun d => AzihsmDecodeGetApiRevReq h0 d (Some r0) (Some z)) (response_items n fs (RApiRev mn mx))
    (mkRevResponse mn mx).
Proof.
  intros Hn H H1 H2. destruct (response_header_reads n fs _ _ h0 Hn H) as (h & Eo & Es & Hh).
  eapply (sized_reads_intro _ _ _ _ _ h); [exact Hh| |by intros d]. cbv beta. rewrite Eo, Es.
  by apply rev_response_reads.
Qed.

Lemma set_sealed_reads n fs st r0 z :
  2 <= n <= 3 -> header_for fs 1113 st ->
  sized_reads (fun d => AzihsmDecodeSetSealedBks3Resp d (Some r0) (Some z)) (response_items n fs RSetSealedBks3) (st =? 0).
Proof.
  intros Hn H. destruct (response_header_reads n fs _ _ zero_rsp Hn H) as (h & Eo & Es & Hh).
  eapply (sized_reads_intro _ _ _ _ _ h); [exact Hh| |by intros d]. cbv beta. rewrite Eo, Es.
  apply (reads_get _ _ _ _ [_] _ 1); [by apply reads_field|].
  apply (reads_get _ _ _ _ [_] [] 0); [by apply reads_map_marker|]. apply reads_ret.
Qed.

Lemma get_sealed_reads n fs data o l z :
  2 <= n <= 3 -> header_for fs 1112 0 -> Zlength data < 2 ^ 16 -> Zlength data <= Zlength o ->
  sized_reads (fun d => AzihsmDecodeGetSealedBks3Resp d (Some (mkBks3 (Some o) l)) (Some z))
    (response_items n fs (RGetSealedBks3 data)) (mkBks3 (Some (data ++ drop (length data) o)) (Zlength data)).
Proof.
  intros Hn H H1 H2. destruct (response_header_reads n fs _ _ zero_rsp Hn H) as (h & Eo & Es & Hh).
  eapply (sized_reads_intro _ _ _ _ _ h); [exact Hh| |by intros d]. cbv beta. rewrite Eo, Es.
  apply (reads_get _ _ _ _ [_] _ 1); [by apply reads_field|].
  apply (reads_get _ _ _ _ [_] _ 1); [by apply reads_map_marker|].
  apply (reads_get _ _ _ _ [_] _ 1); [by apply reads_field|].
  apply (reads_bytes_then _ _ _ _ [] _ _ _ (reads_padded data o l H1 H2)), reads_ret.
Qed.

Lemma init_bks3_reads n fs data guid o l g z :
  2 <= n <= 3 -> header_for fs 1111 0 -> Zlength data < 2 ^ 16 -> Zlength data <= Zlength o ->
  Zlength guid = 16 -> Zlength g = 16 ->
  sized_reads (fun d => AzihsmDecodeInitBks3Resp d (Some (mkInitResp (Some o) l g)) (Some z))
    (response_items n fs (RInitBks3 data guid)) (mkInitResp (Some (data ++ drop (length data) o)) (Zlength data) guid).
Proof.
  intros Hn H H1 H2 Hg Hg'. destruct (response_header_reads n fs _ _ zero_rsp Hn H) as (h & Eo & Es & Hh).
  assert (Hg1 : Zlength guid < 2 ^ 16) by lia. assert (Hg2 : Zlength guid <= Zlength g) by lia.
  eapply (sized_reads_intro _ _ _ _ _ h); [exact Hh| |by intros d]. cbv beta. rewrite Eo, Es.
  apply (reads_get _ _ _ _ [_] _ 1); [by apply reads_field|].
  apply (reads_get _ _ _ _ [_] _ 2); [by apply reads_map_marker|].
  apply (reads_get _ _ _ _ [_] _ 1); [by apply reads_field|].
  apply (reads_bytes_then _ _ _ _ _ _ _ _ (reads_padded data o 0 H1 H2)).
  apply (reads_get _ _ _ _ [_] _ 2); [by apply reads_field|].
  apply (reads_bytes_then _ _ _ [_] [] _ _ _ (reads_bytes guid g (Zlength data) Hg1 Hg2)).
  rewrite Hg. cbn [default]. simpl. rewrite (drop_ge g), app_nil_r by (unfold Zlength in *; lia). apply reads_ret.
Qed.

(** What a caller that passes destinations [o], [g] gets from a response. *)
Definition decodes_to (r : response) (o g : list Z) (d d' : AZIHSM_MBOR_DECODER) (size : Z) : Prop :=
  match r with
  | RApiRev mn mx => forall h0 r0 z,
      AzihsmDecodeGetApiRevReq h0 (Some d) (Some r0) (Some z) = Ok (EFI_SUCCESS, (Some d', Some (mkRevResponse mn mx), Some size))
  | RInitBks3 data guid => forall l z,
      AzihsmDecodeInitBks3Resp (Some d) (Some (mkInitResp (Some o) l g)) (Some z) =
        Ok (EFI_SUCCESS, (Some d', Some (mkInitResp (Some (data ++ drop (length data) o)) (Zlength data) guid), Some size))
  | RSetSealedBks3 => forall r0 z,
      AzihsmDecodeSetSealedBks3Resp (Some d) (Some r0) (Some z) = Ok (EFI_SUCCESS, (Some d', Some true, Some size))
  | RGetSealedBks3 data => forall l z,
      AzihsmDecodeGetSealedBks3Resp (Some d) (Some (mkBks3 (Some o) l)) (Some z) =
        Ok (EFI_SUCCESS, (Some d', Some (mkBks3 (Some (data ++ drop (length data) o)) (Zlength data)), Some size))
  end.

Definition response_wf (r : response) (o g : list Z) : Prop :=
  match r with
  | RApiRev mn mx => rev_wf mn /\ rev_wf mx
  | RInitBks3 data guid => Zlength data < 2 ^ 16 /\ Zlength data <= Zlength o /\ Zlength guid = 16 /\ Zlength g = 16
  | RSetSealedBks3 => True
  | RGetSealedBks3 data => Zlength data < 2 ^ 16 /\ Zlength data <= Zlength o
  end.
End Responses.

(** ** Untrusted responses

    On any input, [m] returns normally, consumes a prefix of it, and where it
    does not report an error, [Q] holds of what was consumed and of the
    result. *)
Definition robust {S} (cap : Z) (m : Dec -> result (EFI_STATUS * (Dec * S))) (Q : list Z -> S -> Prop) : Prop :=
  forall pre post, fits pre post cap -> Forall is_byte post ->
    exists st w rest s, post = w ++ rest /\ Zlength pre + Zlength w <= cap /\
      m (Some (cur pre post cap)) = Ok (st, (Some (cur (pre ++ w) rest cap), s)) /\ (EFI_ERROR st = false -> Q w s).

(** Sequencing, for a conclusion that does not mind what was consumed before. *)
Lemma robust_then {S T} cap (m : Dec -> result (EFI_STATUS * (Dec * S))) (f : Dec -> result (EFI_STATUS * (Dec * T)))
    k P (Q : list Z -> T -> Prop) :
  (forall d st d' s, m d = Ok (st, (d', s)) ->
     if EFI_ERROR st then exists t, f d = Ok (st, (d', t)) else (exists w, P w s) -> f d = k d' s) ->
  (forall w w' t, Q w' t -> Q (w ++ w') t) ->
  robust cap m P -> (forall s, (exists w, P w s) -> robust cap (fun d => k d s) Q) -> robust cap f Q.
Proof.
  intros Hf HQ H1 H2 pre post F Hb. destruct (H1 pre post F Hb) as (st & w & rest & s & -> & Hc & E & HP).
  specialize (Hf _ _ _ _ E). destruct (EFI_ERROR st) eqn:Est.
  - destruct Hf as [t Hf]. exists st, w, rest, t. rewrite Est. by split_and!.
  - assert (Hs : exists w, P w s) by eauto. apply Forall_app in Hb as [_ Hb].
    destruct (H2 s Hs (pre ++ w) rest (fits_consume _ _ _ _ F Hc) Hb) as (st2 & w2 & rest2 & t & -> & Hc2 & E2 & HQ2).
    exists st2, (w ++ w2), rest2, t. rewrite Hf, E2 by done. rewrite <- !app_assoc. split_and!; [done| |done|auto].
    rewrite !Zlength_app in *. lia.
Qed.

Definition has_value {V} (w : list Z) (v : option V) : Prop := is_Some v.

Lemma robust_get {V S} cap (m : Dec -> result (EFI_STATUS * (Dec * option V))) (s : S) k Q :
  (forall w w' t, Q w' t -> Q (w ++ w') t) ->
  robust cap m has_value -> (forall v, robust cap (fun d => k d v) Q) -> robust cap (fun d => or_exit_with (m d) s k) Q.
Proof.
  intros HQ H1 H2. apply (robust_then cap m _ (fun d v => match v with Some v => k d v | None => Fault NullDeref end) has_value).
  - intros d st d' v E. unfold or_exit_with. rewrite E, bind_Ok. destruct (EFI_ERROR st); [eauto|done].
  - done.
  - done.
  - intros v [w [x ->]]. apply H2.
Qed.

Lemma robust_try {S} cap (m : Dec -> result (EFI_STATUS * (Dec * S))) k Q :
  (forall w w' t, Q w' t -> Q (w ++ w') t) ->
  robust cap m (fun _ _ => True) -> (forall s, robust cap (fun d => k (d, s)) Q) -> robust cap (fun d => or_exit (m d) k) Q.
Proof.
  intros HQ H1 H2. apply (robust_then cap m _ (fun d s => k (d, s)) (fun _ _ => True)); [|done..|by intros].
  intros d st d' v E. unfold or_exit. rewrite E, bind_Ok. destruct (EFI_ERROR st); [eauto|done].
Qed.

Lemma robust_ret {S} cap st (s : S) Q : (EFI_ERROR st = false -> Q [] s) -> robust cap (fun d => Ok (st, (d, s))) Q.
Proof.
  intros H pre post F Hb. exists st, [], post, s. rewrite app_nil_r. split_and!; [done|by apply fits_le in F|done|done].
Qed.

Lemma robust_map {S T} cap (g : S -> T) (m : Dec -> result (EFI_STATUS * (Dec * S))) Q (Q' : list Z -> T -> Prop) :
  (forall w s, Q w s -> Q' w (g s)) -> robust cap m Q ->
  robust cap (fun d => '(Status, (Decoder, v)) ← m d; Ok (Status, (Decoder, g v))) Q'.
Proof.
  intros Hg H pre post F Hb. destruct (H pre post F Hb) as (st & w & rest & s & -> & Hc & E & HQ).
  exists st, w, rest, (g s). rewrite E. split_and!; auto.
Qed.

(** A function that reports the size of what it consumed. *)
Definition sized_robust {S} (cap : Z) (f : Dec -> result (EFI_STATUS * (Dec * option S * option Z))) (Q : list Z -> S -> Prop) : Prop :=
  forall pre post, fits pre post cap -> Forall is_byte post ->
    exists st w rest s, post = w ++ rest /\ Zlength pre + Zlength w <= cap /\
      f (Some (cur pre post cap)) = Ok (st, (Some (cur (pre ++ w) rest cap), Some s, Some (Zlength w))) /\
      (EFI_ERROR st = false -> Q w s).

Lemma sized_robust_intro {V S} cap m k f (s0 : S) Q :
  (forall w w' t, Q w' t -> Q (w ++ w') t) ->
  robust cap m has_value -> (forall v : V, robust cap (fun d => k d v) Q) ->
  (forall d, f (Some d) = '(Status, (Decoder, s)) ← or_exit_with (m (Some d)) s0 k;
     decoded (Position d) (Status, (Decoder, Some s))) ->
  sized_robust cap f Q.
Proof.
  intros HQ H1 H2 Hf pre post F Hb.
  destruct (robust_get cap m s0 k Q HQ H1 H2 pre post F Hb) as (st & w & rest & s & -> & Hc & E & Hs).
  exists st, w, rest, s. rewrite Hf, E, bind_Ok. split_and!; [done|done| |done]. apply decoded_size. destruct F. lia.
Qed.

Lemma sized_robust_default {S} cap f (s0 : S) Q :
  sized_robust cap f Q -> robust cap (fun d => '(Status, (Decoder, s', _)) ← f d; Ok (Status, (Decoder, default s0 s'))) Q.
Proof.
  intros H pre post F Hb. destruct (H pre post F Hb) as (st & w & rest & s & -> & Hc & E & HQ).
  exists st, w, rest, s. by rewrite E.
Qed.

(** On any input, [m] does the same or writes out of bounds, and then the input
    starts with bytes of which [O] holds. *)
Definition robust_or {S} (cap : Z) (m : Dec -> result (EFI_STATUS * (Dec * S))) (Q : list Z -> S -> Prop) (O : list Z -> Prop) : Prop :=
  forall pre post, fits pre post cap -> Forall is_byte post ->
    (exists st w rest s, post = w ++ rest /\ Zlength pre + Zlength w <= cap /\
      m (Some (cur pre post cap)) = Ok (st, (Some (cur (pre ++ w) rest cap), s)) /\ (EFI_ERROR st = false -> Q w s)) \/
    (m (Some (cur pre post cap)) = Fault OutOfBounds /\ exists w rest, post = w ++ rest /\ Zlength pre + Zlength w <= cap /\ O w).

Lemma robust_or_intro {S} cap (m : Dec -> result (EFI_STATUS * (Dec * S))) Q O : robust cap m Q -> robust_or cap m Q O.
Proof. intros H pre post F Hb. left. by apply H. Qed.

Lemma robust_or_get {V S} cap (m : Dec -> result (EFI_STATUS * (Dec * option V))) (s : S) k Q O :
  (forall w w' t, Q w' t -> Q (w ++ w') t) -> (forall w w', O w' -> O (w ++ w')) ->
  robust cap m has_value -> (forall v, robust_or cap (fun d => k d v) Q O) -> robust_or cap (fun d => or_exit_with (m d) s k) Q O.
Proof.
  intros HQ HO H1 H2 pre post F Hb. destruct (H1 pre post F Hb) as (st & w & rest & v & -> & Hc & E & HP). unfold or_exit_with. rewrite E, bind_Ok.
  destruct (EFI_ERROR st) eqn:Est.
  - left. eexists st, w, rest, s. rewrite Est. by split_and!.
  - destruct (HP eq_refl) as [x ->]. apply Forall_app in Hb as [_ Hb].
    destruct (H2 x (pre ++ w) rest (fits_consume _ _ _ _ F Hc) Hb) as [(st2 & w2 & rest2 & t & -> & Hc2 & E2 & HQ2)|(E2 & w2 & rest2 & -> & Hc2 & HO2)];
      rewrite E2, ?app_assoc; rewrite !Zlength_app in *; [left|right; split; [done|]].
    + exists st2, (w ++ w2), rest2, t. rewrite Zlength_app, <- !app_assoc. split_and!; [done|lia|done|auto].
    + exists (w ++ w2), rest2. rewrite Zlength_app. split_and!; [done|lia|auto].
Qed.

Section Robust.
Context {B : BuildOptions} {L : BaseLib}.

(** The decoders of the codec, from their outcomes. *)
Lemma robust_item {V} cap k o (m : Dec -> result (EFI_STATUS * (Dec * option V))) (c : V -> item) :
  (forall d, decode_item k o d = '(st, (d, v)) ← m d; Ok (st, d, if EFI_ERROR st then None else c <$> v)) ->
  cap <= Zlength o -> robust cap m has_value.
Proof.
  intros Hm Ho pre post F Hb. destruct (decode_item_any k o pre post cap F Hb Ho) as (st & w & rest & it & -> & Hc & E & Hi).
  rewrite Hm in E. destruct (m _) as [[st' [d v]]|] eqn:Em; [|done]. rewrite bind_Ok in E. injection E as -> -> Ei.
  exists st, w, rest, v. split_and!; [done..|]. intros Hst. rewrite Hst in Ei. unfold has_value.
  destruct v; [by eexists|]. subst it. destruct Hi as [-> | ->]; done.
Qed.

Lemma zeros cap : 0 <= cap -> cap <= Zlength (replicate (Z.to_nat cap) 0).
Proof. intros H. rewrite Zlength_replicate by lia. lia. Qed.

Lemma robust_field cap : 0 <= cap -> robust cap (fun d => AziHsmMborDecodeFieldId d (Some 0)) has_value.
Proof.
  intros H. apply (robust_item cap KU8 (replicate (Z.to_nat cap) 0) _ U8); [|by apply zeros]. by intros [].
Qed.
Lemma robust_map_marker cap : 0 <= cap -> robust cap (fun d => AziHsmMborDecodeMap d (Some 0)) has_value.
Proof. intros H. by apply (robust_item cap KMap (replicate (Z.to_nat cap) 0) _ Map); [|apply zeros]. Qed.

(** The initial content of the destination only matters on failure. *)
Lemma decode_uint_init M n c d v0 :
  decode_uint M n c d (Some v0) =
    '(st, (d, v)) ← decode_uint M n c d (Some 0); Ok (st, (d, if EFI_ERROR st then Some v0 else v)).
Proof.
  destruct d as [d|]; [|done]. unfold decode_uint. destruct (decode_local _ 1) as [[st [d1 m]]|]; [|done].
  rewrite !bind_Ok. destruct (EFI_ERROR st) eqn:E; [by rewrite bind_Ok, E|]. destruct (m =? M); [|done]. cbn [negb].
  destruct (decode_local _ n) as [[st2 [d2 v]]|]; [|done]. rewrite !bind_Ok.
  by destruct (EFI_ERROR st2) eqn:E2; rewrite bind_Ok, E2.
Qed.
Lemma decode_boolean_init d b0 :
  AziHsmMborDecodeBoolean d (Some b0) =
    '(st, (d, v)) ← AziHsmMborDecodeBoolean d (Some false); Ok (st, (d, if EFI_ERROR st then Some b0 else v)).
Proof.
  destruct d as [d|]; [|done]. unfold AziHsmMborDecodeBoolean. destruct (decode_local _ 1) as [[st [d1 m]]|]; [|done].
  rewrite !bind_Ok. by destruct (EFI_ERROR st) eqn:E; rewrite bind_Ok, E.
Qed.

Lemma robust_init {V} cap m m' (v0 : option V) :
  (forall d, m' d = '(st, (d, v)) ← m d; Ok (st, (d, if EFI_ERROR st then v0 else v))) ->
  robust cap m has_value -> robust cap m' has_value.
Proof.
  intros Hm H pre post F Hb. destruct (H pre post F Hb) as (st & w & rest & v & -> & Hc & E & Hv).
  eexists st, w, rest, _. rewrite Hm, E, bind_Ok. split_and!; [done..|]. intros Hst. rewrite Hst. auto.
Qed.

Lemma robust_u32 cap v0 : 0 <= cap -> robust cap (fun d => AziHsmMborDecodeU32 d (Some v0)) has_value.
Proof.
  intros H. eapply robust_init; [intros d; apply decode_uint_init|].
  by apply (robust_item cap KU32 (replicate (Z.to_nat cap) 0) _ U32); [|apply zeros].
Qed.
Lemma robust_u16 cap : 0 <= cap -> robust cap (fun d => AziHsmMborDecodeU16 d (Some 0)) has_value.
Proof. intros H. by apply (robust_item cap KU16 (replicate (Z.to_nat cap) 0) _ U16); [|apply zeros]. Qed.
Lemma robust_boolean cap b : 0 <= cap -> robust cap (fun d => AziHsmMborDecodeBoolean d (Some b)) has_value.
Proof.
  intros H. eapply robust_init; [intros d; apply decode_boolean_init|].
  by apply (robust_item cap KBoolean (replicate (Z.to_nat cap) 0) _ Boolean); [|apply zeros].
Qed.

Context (cap : Z) (Hcap : 0 <= cap).

Lemma robust_true {S} (m : Dec -> result (EFI_STATUS * (Dec * S))) Q :
  robust cap m Q -> robust cap m (fun _ _ => True).
Proof.
  intros H pre post F Hb. destruct (H pre post F Hb) as (st & w & rest & v & -> & Hc & E & _). by eexists st, w, rest, v.
Qed.

(** Close the leaves of a decoder: nothing is claimed of its result. *)
Ltac leaf := first
  [ by apply robust_ret | by apply robust_field | by apply robust_map_marker | by apply robust_u32 | by apply robust_u16
  | by apply robust_boolean ].

Lemma api_rev_loop_robust n rev : robust cap (fun d => api_rev_loop n d rev) (fun _ _ => True).
Proof.
  revert rev. induction n as [|n IH]; intros rev; [leaf|]. cbn [api_rev_loop].
  apply robust_get; [done|leaf|]. intros i. apply robust_try; [done| |intros; apply IH].
  case_match; [apply robust_get; [done|leaf|intros; leaf]|].
  case_match; [apply robust_get; [done|leaf|intros; leaf]|leaf].
Qed.

Lemma decode_rev_robust rev : robust cap (fun d => decode_rev d rev) (fun _ _ => True).
Proof.
  apply sized_robust_default.
  eapply (sized_robust_intro _ (fun d => AziHsmMborDecodeMap d (Some 0))); [done|leaf| |by intros d].
  intros v. cbv beta. case_match; [leaf|apply api_rev_loop_robust].
Qed.

Lemma rsp_hdr_field_robust i f h : robust cap (fun d => rsp_hdr_field i d f h) (fun _ _ => True).
Proof.
  unfold rsp_hdr_field. case_match; [|repeat case_match; try leaf].
  - case_match; [leaf|]. eapply robust_map; [done|apply decode_rev_robust].
  - apply robust_get; [done|leaf|intros; leaf].
  - apply robust_get; [done|leaf|intros; leaf].
  - apply robust_get; [done|leaf|intros; leaf].
  - apply robust_get; [done|leaf|intros; leaf].
Qed.

Lemma rsp_hdr_loop_robust n f h : robust cap (fun d => rsp_hdr_loop n d f h) (fun _ _ => True).
Proof.
  revert f h. induction n as [|n IH]; intros f h; [leaf|]. cbn [rsp_hdr_loop].
  apply robust_get; [done|leaf|]. intros i. case_match; [leaf|].
  apply robust_try; [done|apply rsp_hdr_field_robust|]. intros []. apply IH.
Qed.

Lemma DecodeResponseHeader_robust h : sized_robust cap (fun d => DecodeResponseHeader d (Some h) (Some 0)) (fun _ _ => True).
Proof.
  intros pre post F Hb. unfold DecodeResponseHeader.
  match goal with |- exists st w rest s, _ /\ _ /\ mbind _ (or_exit_with _ ?s0 ?k) = _ /\ _ =>
    destruct (robust_get cap (fun d => AziHsmMborDecodeMap d (Some 0)) s0 k (fun _ _ => True)
      ltac:(done) (robust_map_marker cap Hcap)) with pre post as (st & w & rest & [f h'] & -> & Hc & E & _); [|done|done|]
  end.
  - intros v. case_match; [leaf|]. apply robust_try; [done|apply rsp_hdr_loop_robust|].
    intros [f h']. case_match; leaf.
  - exists st, w, rest, h'. rewrite E, bind_Ok. split_and!; [done|done| |done]. apply decoded_size. destruct F. lia.
Qed.

Lemma response_header_robust h : robust cap (fun d => response_header d h) has_value.
Proof.
  assert (H : sized_robust cap (fun d => DecodeCommandResponseHeader d (Some h) (Some 0)) (fun _ _ => True)).
  { eapply (sized_robust_intro _ (fun d => AziHsmMborDecodeMap d (Some 0))); [done|leaf| |by intros d].
    intros v. cbv beta. case_match; [leaf|]. apply robust_get; [done|leaf|]. intros i. case_match; [leaf|].
    apply sized_robust_default, DecodeResponseHeader_robust. }
  intros pre post F Hb. destruct (H pre post F Hb) as (st & w & rest & s & -> & Hc & E & _).
  exists st, w, rest, (Some s). unfold response_header. rewrite E. split_and!; [done..|]. by eexists.
Qed.

(** The destination of a byte string holds the last bytes consumed. *)
Definition ends_with_data (w : list Z) (r : AZIHSM_DDI_BKS3) : Prop :=
  exists hd, w = hd ++ take (Z.to_nat (Sealed_Length r)) (default [] (Sealed_Data r)).

Lemma ends_with_data_app w w' r : ends_with_data w' r -> ends_with_data (w ++ w') r.
Proof. intros [hd ->]. exists (w ++ hd). by rewrite app_assoc. Qed.

(** Both calls stopped at the same place. *)
Ltac same_result := cbv iota; intros ?; simplify_eq; eexists; split_and!; [done|by eexists|first [done|congruence]].

Lemma decode_padded_init d o l st d' b l' :
  AziHsmMborDecodePaddedBytes d (Some o) (Some 0) = Ok (st, (d', b, l')) ->
  exists l1, AziHsmMborDecodePaddedBytes d (Some o) (Some l) = Ok (st, (d', b, l1)) /\ is_Some l' /\
    (EFI_ERROR st = false -> l1 = l').
Proof.
  unfold AziHsmMborDecodePaddedBytes. destruct d as [d|]; [|same_result].
  destruct (decode_local _ 1) as [[st1 [d1 m]]|]; [|done]. rewrite !bind_Ok.
  destruct (EFI_ERROR st1) eqn:E1; [same_result|]. case_match; [same_result|].
  destruct (decode_local _ 2) as [[st2 [d2 n]]|]; [|done]. rewrite !bind_Ok.
  destruct (EFI_ERROR st2) eqn:E2; [same_result|]. case_match; [same_result|].
  destruct (decode_padding _ _) as [[st3 d3]|]; [|done]. rewrite !bind_Ok. case_match; [same_result|].
  destruct (AziHsmMborDecoderDecode _ _ _) as [[st4 [d4 b4]]|]; [|done]. rewrite !bind_Ok. same_result.
Qed.

(** The input delivers a byte string that is longer than [o]. *)
Definition delivers_more (o w : list Z) : Prop :=
  exists hd bs enc, w = hd ++ enc /\ accepted (Zlength hd) (PaddedBytes bs) enc /\ Zlength o < Zlength bs.

Lemma delivers_more_app o w w' : delivers_more o w' -> delivers_more o (w ++ w').
Proof. intros (hd & bs & enc & -> & H). exists (w ++ hd), bs, enc. by rewrite app_assoc. Qed.

Lemma decode_padded_fault d o l : AziHsmMborDecodePaddedBytes d (Some o) (Some 0) = Fault OutOfBounds ->
  AziHsmMborDecodePaddedBytes d (Some o) (Some l) = Fault OutOfBounds.
Proof.
  unfold AziHsmMborDecodePaddedBytes. destruct d as [d|]; [|done].
  destruct (decode_local _ 1) as [[st1 [d1 m]]|]; [|done]. rewrite !bind_Ok. case_match; [done|]. case_match; [done|].
  destruct (decode_local _ 2) as [[st2 [d2 n]]|]; [|done]. rewrite !bind_Ok. case_match; [done|]. case_match; [done|].
  destruct (decode_padding _ _) as [[st3 d3]|]; [|done]. rewrite !bind_Ok. case_match; [done|].
  by destruct (AziHsmMborDecoderDecode _ _ _) as [[st4 [d4 b4]]|].
Qed.

Lemma padded_robust o l :
  robust_or cap (fun d => or_exit_bytes (AziHsmMborDecodePaddedBytes d (Some o) (Some l))
    (fun b l' => mkBks3 b (default l l')) (fun Decoder b l => Ok (EFI_SUCCESS, (Decoder, mkBks3 b l)))) ends_with_data (delivers_more o).
Proof.
  intros pre post F Hb. unfold or_exit_bytes.
  destruct (decode_padded_cases o pre post cap F Hb) as [(st & w & rest & it & -> & Hc & E & Hi)|(E & i & w & rest & -> & Hc & Hk & _ & Hacc & Hl)]; cbn [decode_item] in E.
  - left. destruct (AziHsmMborDecodePaddedBytes _ _ _) as [[st' [[d b] l']]|] eqn:Em; [|done].
    rewrite bind_Ok in E. injection E as -> -> Ei. destruct (decode_padded_init _ _ l _ _ _ _ Em) as (l1 & El & [n ->] & Hl).
    rewrite El, bind_Ok. destruct (EFI_ERROR st) eqn:Est.
    + eexists st, w, rest, _. rewrite Est. by split_and!.
    + rewrite (Hl eq_refl) in *. subst it. destruct Hi as (-> & _ & _ & p & _ & Hw).
      eexists EFI_SUCCESS, w, rest, _. split_and!; [done..|]. intros _. unfold ends_with_data. cbn [Sealed_Length Sealed_Data].
      exists ((0x80 + p) :: big_endian 2 (Zlength (take (Z.to_nat n) (default [] b))) ++ replicate (Z.to_nat p) 0).
      by rewrite Hw, <- app_comm_cons, <- app_assoc.
  - right. destruct (AziHsmMborDecodePaddedBytes _ _ _) as [[st' [[d b] l']]|] eqn:Em; [done|]. assert (f = OutOfBounds) as -> by (cbn in E; congruence).
    rewrite (decode_padded_fault _ _ l Em). split; [done|]. exists w, rest. split_and!; [done|done|].
    destruct i; try done. by exists [], bs, w.
Qed.

Lemma convert_fails st : st <> 0 -> EFI_ERROR (ConvertDdiStatusToEfiStatus st) = true.
Proof.
  intros H. unfold ConvertDdiStatusToEfiStatus. rewrite (proj2 (Z.eqb_neq st DDI_STATUS_SUCCESS) H).
  by repeat case_match.
Qed.

Lemma get_sealed_robust o l z pre post : fits pre post cap -> Forall is_byte post ->
  (exists st w rest r, post = w ++ rest /\ Zlength pre + Zlength w <= cap /\
     AzihsmDecodeGetSealedBks3Resp (Some (cur pre post cap)) (Some (mkBks3 (Some o) l)) (Some z) =
       Ok (st, (Some (cur (pre ++ w) rest cap), Some r, Some (Zlength w))) /\
     (EFI_ERROR st = false -> ends_with_data w r)) \/
  (AzihsmDecodeGetSealedBks3Resp (Some (cur pre post cap)) (Some (mkBks3 (Some o) l)) (Some z) = Fault OutOfBounds /\
   exists w rest, post = w ++ rest /\ Zlength pre + Zlength w <= cap /\ delivers_more o w).
Proof.
  intros F Hb. unfold AzihsmDecodeGetSealedBks3Resp.
  match goal with |- context [mbind ?q (or_exit_with _ ?s0 ?k)] =>
    assert (H : robust_or cap (fun d => or_exit_with (response_header d zero_rsp) s0 k) ends_with_data (delivers_more o)) end.
  { pose proof ends_with_data_app as HQ. pose proof (delivers_more_app o) as HO.
    apply robust_or_get; [done|done|apply response_header_robust|].
    intros h. case_match; [by apply robust_or_intro, robust_ret|]. case_match; [apply robust_or_intro, robust_ret|].
    { rewrite convert_fails; [done|]. intros E. rewrite E in *. done. }
    apply robust_or_get; [done|done|leaf|]. intros i. case_match; [by apply robust_or_intro, robust_ret|].
    apply robust_or_get; [done|done|leaf|]. intros n. case_match; [by apply robust_or_intro, robust_ret|].
    apply robust_or_get; [done|done|leaf|]. intros j. case_match; [by apply robust_or_intro, robust_ret|]. apply padded_robust. }
  destruct (H pre post F Hb) as [(st & w & rest & s & -> & Hc & E & Hs)|(E & Hw)]; rewrite E; [left|by right].
  exists st, w, rest, s. rewrite bind_Ok. split_and!; [done|done| |done]. apply decoded_size. destruct F. lia.
Qed.

Lemma set_sealed_robust r0 z :
  sized_robust cap (fun d => AzihsmDecodeSetSealedBks3Resp d (Some r0) (Some z)) (fun _ _ => True).
Proof.
  eapply (sized_robust_intro _ (fun d => response_header d zero_rsp)); [done|apply response_header_robust| |by intros d].
  intros h. cbv beta. case_match; [leaf|]. apply robust_get; [done|leaf|]. intros i. case_match; [leaf|].
  apply robust_get; [done|leaf|]. intros n. case_match; leaf.
Qed.

Lemma get_api_rev_robust h0 r0 z :
  sized_robust cap (fun d => AzihsmDecodeGetApiRevReq h0 d (Some r0) (Some z)) (fun _ _ => True).
Proof.
  eapply (sized_robust_intro _ (fun d => response_header d h0)); [done|apply response_header_robust| |by intros d].
  intros h. cbv beta. case_match; [leaf|]. case_match; [leaf|].
  apply (sized_robust_default _ (fun d => DecodeApiRevisionCommandResponseData d (Some r0) (Some 0))).
  eapply (sized_robust_intro _ (fun d => AziHsmMborDecodeFieldId d (Some 0))); [done|leaf| |by intros d].
  intros i. cbv beta. case_match; [leaf|].
  apply (sized_robust_default _ (fun d => DecodeApiRevisionResponse d (Some r0) (Some 0))).
  eapply (sized_robust_intro _ (fun d => AziHsmMborDecodeMap d (Some 0))); [done|leaf| |by intros d].
  intros n. cbv beta. case_match; [leaf|]. generalize (Z.to_nat n) as k. intros k. clear -Hcap.
  revert r0. induction k as [|k IH]; intros r0; [leaf|]. cbn [api_rev_response_loop].
  apply robust_get; [done|leaf|]. intros i. apply robust_try; [done| |intros; apply IH].
  case_match; [|case_match; [|leaf]].
  - by eapply (robust_map cap (fun v => mkRevResponse v (max_rev r0))), decode_rev_robust.
  - by eapply (robust_map cap (fun v => mkRevResponse (min_rev r0) v)), decode_rev_robust.
Qed.
End Robust.

(** ** Responses that are not accepted *)
Section Rejected.
Context {B : BuildOptions} {L : BaseLib}.

(** The status a decoder of command [expected] reports for a response of
    command [op] with device status [st]. *)
Definition verdict (expected op st : Z) : EFI_STATUS :=
  if op =? expected then ConvertDdiStatusToEfiStatus st else EFI_PROTOCOL_ERROR.

(** The callers' checks after the header; [k] decodes the content. *)
Lemma rejected {S} (f : Dec -> result (EFI_STATUS * (Dec * option S * option Z))) k h0 s0 expected n fs op st pre rest cap :
  (forall d : AZIHSM_MBOR_CURSOR, f (Some d) = '(Status, (Decoder, s)) ← or_exit_with (response_header (Some d) h0) s0 (fun Decoder h =>
      if negb (DdiOp h =? expected) then Ok (EFI_PROTOCOL_ERROR, (Decoder, s0))
      else if negb (DdiStatus h =? DDI_STATUS_SUCCESS) then Ok (ConvertDdiStatusToEfiStatus (DdiStatus h), (Decoder, s0))
      else k Decoder);
    decoded (Position d) (Status, (Decoder, Some s))) ->
  2 <= n <= 3 -> header_for fs op st -> op <> expected \/ st <> 0 ->
  let ms := message_bytes (Zlength pre) (response_header_items n fs) in
  fits pre (ms ++ rest) cap -> Zlength pre + Zlength ms <= cap ->
  f (Some (cur pre (ms ++ rest) cap)) =
    Ok (verdict expected op st, (Some (cur (pre ++ ms) rest cap), Some s0, Some (Zlength ms))).
Proof.
  intros Hf Hn H Hno ms F Hc. subst ms. destruct (response_header_reads n fs op st h0 Hn H) as (h & Eo & Es & Hh).
  rewrite Hf. unfold or_exit_with at 1. rewrite (Hh pre rest cap F Hc), bind_Ok. cbn [EFI_ERROR]. rewrite Eo, Es.
  unfold verdict. destruct (Z.eqb_spec op expected); cbn [negb].
  - rewrite (proj2 (Z.eqb_neq st DDI_STATUS_SUCCESS)) by (unfold DDI_STATUS_SUCCESS; lia). cbn [negb].
    rewrite bind_Ok. apply decoded_size. destruct F. lia.
  - rewrite bind_Ok. apply decoded_size. destruct F. lia.
Qed.

(** [m] writes out of bounds on the wire format of [items]. *)
Definition faults {S} (m : Dec -> result S) (items : list item) : Prop :=
  forall pre rest cap, let ms := message_bytes (Zlength pre) items in
    fits pre (ms ++ rest) cap -> Zlength pre + Zlength ms <= cap -> m (Some (cur pre (ms ++ rest) cap)) = Fault OutOfBounds.

Lemma faults_then {S T} (m : Dec -> result (EFI_STATUS * (Dec * S))) (f k : Dec -> result T) a b s :
  (forall d d', m d = Ok (EFI_SUCCESS, (d', s)) -> f d = k d') -> reads m a s -> faults k b -> faults f (a ++ b).
Proof.
  intros Hf H1 H2 pre rest cap ms F Hc. subst ms.
  destruct (reads_step m f k a b s pre rest cap Hf H1 F Hc) as (pre' & _ & _ & F' & Hc' & ->). by apply H2.
Qed.

Lemma faults_get {V S} (m : Dec -> result (EFI_STATUS * (Dec * option V))) (s : S) k a b v :
  reads m a (Some v) -> faults (fun d => k d v) b -> faults (fun d => or_exit_with (m d) s k) (a ++ b).
Proof. apply faults_then. intros d d' E. unfold or_exit_with. by rewrite E. Qed.

Lemma faults_bytes_then {S} (m : Dec -> result (EFI_STATUS * bytes_state)) (s : _ -> _ -> S) k a items b l :
  reads (fun d => bytes_pair (m d)) a (b, Some l) ->
  faults (fun d => k d b l) items -> faults (fun d => or_exit_bytes (m d) s k) (a ++ items).
Proof. apply faults_then. intros d d'. apply or_exit_bytes_pair. Qed.

Lemma init_bks3_guid_faults n fs data guid o l g z :
  2 <= n <= 3 -> header_for fs 1111 0 -> Zlength data < 2 ^ 16 -> Zlength data <= Zlength o ->
  Zlength guid < 2 ^ 16 -> Zlength g < Zlength guid ->
  faults (fun d => AzihsmDecodeInitBks3Resp d (Some (mkInitResp (Some o) l g)) (Some z))
    (response_items n fs (RInitBks3 data guid)).
Proof.
  intros Hn H H1 H2 Hg Hg'. destruct (response_header_reads n fs _ _ zero_rsp Hn H) as (h & Eo & Es & Hh).
  intros pre rest cap ms F Hc. subst ms. unfold AzihsmDecodeInitBks3Resp.
  match goal with |- mbind ?q ?m = _ => enough (E : m = Fault OutOfBounds) by (by rewrite E) end.
  refine (faults_get (fun d => response_header d zero_rsp) _ _ _ _ h Hh _ pre rest cap F Hc). clear pre rest cap F Hc.
  rewrite Eo, Es.
  apply (faults_get _ _ _ [_] _ 1); [by apply reads_field|].
  apply (faults_get _ _ _ [_] _ 2); [by apply reads_map_marker|].
  apply (faults_get _ _ _ [_] _ 1); [by apply reads_field|].
  apply (faults_bytes_then _ _ _ [_] _ _ _ (reads_padded data o 0 H1 H2)).
  apply (faults_get _ _ _ [_] _ 2); [by apply reads_field|].
  intros pre rest cap ms. subst ms. cbn [message_bytes]. rewrite app_nil_r. intros F Hc.
  by rewrite decode_bytes_too_long.
Qed.
End Rejected.

(** ** Properties *)

(** Requests.  Encoding any of the four requests with any optional
    revision and session identifier returns normally.  When the request fits
    the remaining capacity the function succeeds and has written exactly the
    wire format of its fields, in order; otherwise it reports
    [EFI_BUFFER_TOO_SMALL] with a prefix written.  The reported size is the
    number of bytes written, except that [AzihsmEncodeGetSealedBks3Req] counts
    from the start of the buffer. *)
Lemma ddi_requests_encode {B : BuildOptions} {L : BaseLib} r rev sid size pre post cap :
  header_wf (request_op r) rev sid -> request_wf r -> fits pre post cap ->
  let bs := message_bytes (Zlength pre) (request_items (request_op r) rev sid (request_data r)) in
  exists st w, encode_request r rev sid size (Some (cur pre post cap)) =
      Ok (st, (Some (cur (pre ++ w) (drop (length w) post) cap), Some (Zlength pre + Zlength w - request_start r (Zlength pre)))) /\
    Zlength pre + Zlength w <= cap /\
    if Zlength pre + Zlength bs <=? cap then st = EFI_SUCCESS /\ w = bs
    else st = EFI_BUFFER_TOO_SMALL /\ w `prefix_of` bs.
Proof.
  intros H W F bs. destruct (request_sized r rev sid size H W pre post cap F) as (st & w & E & Hw & Hst).
  exists st, w. split_and!; [done|done|]. subst bs. destruct Hst as [[-> ->]|(-> & Hp & Hl)].
  - by rewrite (proj2 (Z.leb_le _ _)).
  - by rewrite (proj2 (Z.leb_gt _ _)).
Qed.

(** C22. Responses.  A response of the command, announcing two or three parts,
    whose header carries the operation code, a zero status and the FIPS flag,
    with the optional fields or without them, in any order, is decoded
    successfully into exactly the content sent: the revisions, the key
    material with its length, the GUID.  The decoder ends after the message
    and the reported size is the message's. *)
Theorem ddi_responses_decode {L : BaseLib} r n fs o g pre rest cap :
  2 <= n <= 3 -> header_for fs (response_op r) 0 -> response_wf r o g ->
  let ms := message_bytes (Zlength pre) (response_items n fs r) in
  fits pre (ms ++ rest) cap -> Zlength pre + Zlength ms <= cap ->
  decodes_to r o g (cur pre (ms ++ rest) cap) (cur (pre ++ ms) rest cap) (Zlength ms).
Proof.
  intros Hn H W ms F Hc. destruct r as [mn mx|data guid| |data]; cbn [response_op response_wf decodes_to] in *.
  - intros h0 r0 z. by apply (get_api_rev_reads n fs mn mx h0 r0 z Hn H (proj1 W) (proj2 W)).
  - destruct W as (? & ? & ? & ?). intros l z. by apply (init_bks3_reads n fs data guid o l g z).
  - intros r0 z. by apply (set_sealed_reads n fs 0 r0 z Hn H).
  - destruct W. intros l z. by apply (get_sealed_reads n fs data o l z).
Qed.

Definition sample_header (op st : Z) : list header_field :=
  [FDdiStatus st; FSessionId 7; FFipsApproved true; FDdiOp op].

Lemma sample_header_for op st : 0 <= op < 2 ^ 32 -> 0 <= st < 2 ^ 32 -> header_for (sample_header op st) op st.
Proof.
  intros H1 H2. split.
  - repeat constructor; cbn; lia.
  - cbn. rewrite !list.NoDup_cons, !elem_of_cons, !elem_of_nil. split_and!; (apply NoDup_nil_2 || lia).
  - unfold sample_header. rewrite !elem_of_cons. tauto.
  - unfold sample_header. rewrite !elem_of_cons. tauto.
  - exists true. unfold sample_header. rewrite !elem_of_cons. tauto.
Qed.

Lemma ddi_responses_decode_witness :
  AzihsmDecodeSetSealedBks3Resp (L := reference_baselib)
    (Some (cur [] (message_bytes 0 (response_items 2 (sample_header 1113 0) RSetSealedBks3) ++ []) 29)) (Some false) (Some 0) =
    Ok (EFI_SUCCESS, (Some (cur (message_bytes 0 (response_items 2 (sample_header 1113 0) RSetSealedBks3)) [] 29), Some true,
      Some (Zlength (message_bytes 0 (response_items 2 (sample_header 1113 0) RSetSealedBks3))))).
Proof.
  apply (ddi_responses_decode (L := reference_baselib) RSetSealedBks3 2 (sample_header 1113 0) [] [] [] [] 29).
  - lia.
  - apply sample_header_for; cbn; lia.
  - exact I.
  - vm_compute. split; [split|]; done.
  - vm_compute. done.
Defined.

(** Failures.  When a well-formed header carries another operation code,
    or a status other than success, the decoders of GetApiRev, InitBks3 and
    GetSealedBks3 responses stop after the header, leave the caller's structure unchanged and report
    an error: [EFI_PROTOCOL_ERROR] for the wrong operation, otherwise the
    status's translation. *)
Lemma ddi_failures_reported {L : BaseLib} n fs op st h0 r0 i0 s0 z pre rest cap :
  2 <= n <= 3 -> header_for fs op st ->
  let ms := message_bytes (Zlength pre) (response_header_items n fs) in
  fits pre (ms ++ rest) cap -> Zlength pre + Zlength ms <= cap ->
  let d := Some (cur pre (ms ++ rest) cap) in let d' := Some (cur (pre ++ ms) rest cap) in
  (op <> DDI_OP_GET_API_REV \/ st <> 0 -> AzihsmDecodeGetApiRevReq h0 d (Some r0) (Some z) =
    Ok (verdict DDI_OP_GET_API_REV op st, (d', Some r0, Some (Zlength ms)))) /\
  (op <> DDI_OP_INIT_BKS3 \/ st <> 0 -> AzihsmDecodeInitBks3Resp d (Some i0) (Some z) =
    Ok (verdict DDI_OP_INIT_BKS3 op st, (d', Some i0, Some (Zlength ms)))) /\
  (op <> DDI_OP_GET_SEALED_BKS3 \/ st <> 0 -> AzihsmDecodeGetSealedBks3Resp d (Some s0) (Some z) =
    Ok (verdict DDI_OP_GET_SEALED_BKS3 op st, (d', Some s0, Some (Zlength ms)))) /\
  forall expected, op <> expected \/ st <> 0 -> EFI_ERROR (verdict expected op st) = true.
Proof.
  intros Hn H ms F Hc d d'. split_and!.
  - intros Hno. by eapply (rejected (fun d => AzihsmDecodeGetApiRevReq h0 d (Some r0) (Some z))); [intros e|..].
  - intros Hno. by eapply (rejected (fun d => AzihsmDecodeInitBks3Resp d (Some i0) (Some z))); [intros e|..].
  - intros Hno. by eapply (rejected (fun d => AzihsmDecodeGetSealedBks3Resp d (Some s0) (Some z))); [intros e|..].
  - intros expected Hno. unfold verdict. destruct (Z.eqb_spec op expected); [|done]. apply convert_fails. lia.
Qed.

(** C23. Untrusted responses.  Whatever bytes the device returned, and with a
    capacity within the buffer, decoding a GetApiRev or SetSealedBks3 response
    returns normally: it reads nothing beyond the capacity, consumes a prefix of
    the input, leaves the input unchanged and reports the number of bytes consumed.
    Decoding a GetSealedBks3 response, whatever the size of its destination, does
    the same and on success delivers the last part of what was consumed, or it
    writes past the destination, and then the input has a byte string longer than
    the destination, which the code does not check. *)
Theorem ddi_responses_total {L : BaseLib} h0 r0 b0 o l z pre post cap :
  fits pre post cap -> Forall is_byte post ->
  (exists st w rest r, post = w ++ rest /\ Zlength pre + Zlength w <= cap /\
     AzihsmDecodeGetApiRevReq h0 (Some (cur pre post cap)) (Some r0) (Some z) =
       Ok (st, (Some (cur (pre ++ w) rest cap), Some r, Some (Zlength w)))) /\
  (exists st w rest r, post = w ++ rest /\ Zlength pre + Zlength w <= cap /\
     AzihsmDecodeSetSealedBks3Resp (Some (cur pre post cap)) (Some b0) (Some z) =
       Ok (st, (Some (cur (pre ++ w) rest cap), Some r, Some (Zlength w)))) /\
  ((exists st w rest r, post = w ++ rest /\ Zlength pre + Zlength w <= cap /\
     AzihsmDecodeGetSealedBks3Resp (Some (cur pre post cap)) (Some (mkBks3 (Some o) l)) (Some z) =
       Ok (st, (Some (cur (pre ++ w) rest cap), Some r, Some (Zlength w))) /\
     (EFI_ERROR st = false -> ends_with_data w r)) \/
   (AzihsmDecodeGetSealedBks3Resp (Some (cur pre post cap)) (Some (mkBks3 (Some o) l)) (Some z) = Fault OutOfBounds /\
    exists w rest, post = w ++ rest /\ Zlength pre + Zlength w <= cap /\ delivers_more o w)).
Proof.
  intros F Hb. assert (Hcap : 0 <= cap) by (destruct F; pose proof (Zlength_nonneg pre); lia). split_and!.
  - destruct (get_api_rev_robust cap Hcap h0 r0 z pre post F Hb) as (st & w & rest & r & E1 & E2 & E3 & _).
    by exists st, w, rest, r.
  - destruct (set_sealed_robust cap Hcap b0 z pre post F Hb) as (st & w & rest & r & E1 & E2 & E3 & _).
    by exists st, w, rest, r.
  - by apply (get_sealed_robust cap Hcap o l z).
Qed.

Lemma ddi_responses_total_witness :
  exists st w rest r, [0xA2; 0x18; 0; 0xA3; 0x18] = w ++ rest /\ 0 + Zlength w <= 5 /\
    AzihsmDecodeSetSealedBks3Resp (L := reference_baselib) (Some (cur [] [0xA2; 0x18; 0; 0xA3; 0x18] 5)) (Some true) (Some 9) =
      Ok (st, (Some (cur ([] ++ w) rest 5), Some r, Some (Zlength w))).
Proof.
  apply (ddi_responses_total (L := reference_baselib) zero_rsp (mkRevResponse zero_rev zero_rev) true [] 0 9
    [] [0xA2; 0x18; 0; 0xA3; 0x18] 5).
  - vm_compute. split; [split|]; done.
  - repeat (constructor; [vm_compute; done|]). constructor.
Defined.

(** [AziHsmGetSealedBks3] decodes into an array of 1024 bytes; a response in one
    page that delivers 1025 bytes is written past it. *)
Lemma get_sealed_bks3_overflow :
  let ms := message_bytes 0 (response_items 2 (sample_header DDI_OP_GET_SEALED_BKS3 0) (RGetSealedBks3 (replicate 1025 7))) in
  Zlength ms <= 4096 /\
  AzihsmDecodeGetSealedBks3Resp (L := reference_baselib) (Some (cur [] ms (Zlength ms))) (Some (mkBks3 (Some (replicate 1024 0)) 1024)) (Some 0) = Fault OutOfBounds.
Proof. by vm_compute. Qed.

(** The GUID is copied before its length is checked.  In an otherwise
    correct InitBks3 response, a GUID field longer than the 16-byte array of
    the caller's structure makes [AzihsmDecodeInitBks3Resp] write past the
    array: the comparison with the expected length comes after the copy. *)
Lemma init_bks3_guid_overflow {L : BaseLib} n fs data guid o l g z pre rest cap :
  2 <= n <= 3 -> header_for fs DDI_OP_INIT_BKS3 DDI_STATUS_SUCCESS ->
  Zlength data < 2 ^ 16 -> Zlength data <= Zlength o ->
  Zlength g = AZIHSM_DDI_INIT_BKS3_RESP_GUID_LENGTH -> 16 < Zlength guid < 2 ^ 16 ->
  let ms := message_bytes (Zlength pre) (response_items n fs (RInitBks3 data guid)) in
  fits pre (ms ++ rest) cap -> Zlength pre + Zlength ms <= cap ->
  AzihsmDecodeInitBks3Resp (Some (cur pre (ms ++ rest) cap)) (Some (mkInitResp (Some o) l g)) (Some z) = Fault OutOfBounds.
Proof.
  intros Hn H H1 H2 Hg Hguid ms F Hc. unfold AZIHSM_DDI_INIT_BKS3_RESP_GUID_LENGTH in Hg.
  apply (init_bks3_guid_faults n fs data guid o l g z Hn H H1 H2); [lia|rewrite Hg; lia|done|done].
Qed.

