(* ===== verification/PkRing.v ===== *)
(** The VMBus packet rings: [MsvmPkg/EmclDxe/RingBuffer.c] and [Init.c].

    An endpoint keeps a private context; the control blocks and data pages of
    both rings are shared with the host, which may change them at any time.
    Every access to shared memory is preceded by a step of the opposite
    endpoint, an arbitrary function of the time and the shared memory supplied
    by [Peer].  Memory barriers order the accesses and have no other effect in
    this sequentially consistent model; prefetches have none at all. *)
From stdpp Require Import base list numbers list_numbers option.
From Stdlib Require Import ZArith Lia.
From S2P Require Import Prelude Circular.
Open Scope Z_scope.

Module PkRing.

Definition MAXIMUM_EXPECTED_INTERRUPT_COUNT : Z := 64.
Definition EFI_PAGE_SIZE : Z := 4096.
Definition UINT32_MAX : Z := 2 ^ 32 - 1.
Definition sizeof_PREVIOUS_PACKET_OFFSET : Z := 8.
Definition sizeof_VMPACKET_DESCRIPTOR : Z := 16.
Definition OFFSET_OF_Length8 : Z := 4.

(** [FeatureBits] is the whole union; [SupportsPendingSendSize] is its bit 0. *)
Record VMRCB := mkVMRCB { In : Z; Out : Z; InterruptMask : Z; PendingSendSize : Z; FeatureBits : Z }.

(** One ring's shared memory. *)
Record ring_memory := mkRing { Control : VMRCB; Data : list Z }.
Record shared := mkShared { outgoing : ring_memory; incoming : ring_memory }.

(** [Outgoing]/[Incoming] hold the immutable [DataBytesInRing] of each ring;
    [InterruptMaskSkips] is the counter the context's pointer designates. *)
Record PACKET_LIB_CONTEXT := mkCtx {
  Outgoing_DataBytesInRing : Z; Incoming_DataBytesInRing : Z;
  IncomingInCache : Z; IncomingOut : Z; EmptyRingBufferCount : Z; NonspuriousInterruptCount : Z;
  OutgoingIn : Z; OutgoingOutCache : Z; ctx_PendingSendSize : Z; FullRingBufferCount : Z;
  InterruptMaskSkips : Z }.

(** ** Computations of an endpoint *)
Record world := mkWorld { ctx : PACKET_LIB_CONTEXT; shm : shared; now : nat }.

Class Peer := interfere : nat -> shared -> shared.

Definition M (A : Type) : Type := world -> result (A * world).
#[export] Instance M_ret : MRet M := fun A a w => Ok (a, w).
#[export] Instance M_bind : MBind M := fun A B k m w =>
  match m w with Ok (a, w') => k a w' | Fault f => Fault f end.

Definition lift {A} (r : result A) : M A := fun w =>
  match r with Ok a => Ok (a, w) | Fault f => Fault f end.
Definition get {A} (f : PACKET_LIB_CONTEXT -> A) : M A := fun w => Ok (f (ctx w), w).
Definition modify (f : PACKET_LIB_CONTEXT -> PACKET_LIB_CONTEXT) : M unit := fun w =>
  Ok (tt, mkWorld (f (ctx w)) (shm w) (now w)).

Section Endpoint.
Context {B : BuildOptions} {P : Peer}.

(** The opposite endpoint acts, then this one reads or updates. *)
Definition read_shm {A} (f : shared -> result A) : M A := fun w =>
  let s := interfere (now w) (shm w) in
  match f s with
  | Ok a => Ok (a, mkWorld (ctx w) s (S (now w)))
  | Fault e => Fault e
  end.
Definition write_shm (f : shared -> result shared) : M unit := fun w =>
  let s := interfere (now w) (shm w) in
  match f s with
  | Ok s' => Ok (tt, mkWorld (ctx w) s' (S (now w)))
  | Fault e => Fault e
  end.

Definition read_outgoing (f : VMRCB -> Z) : M Z := read_shm (fun s => Ok (f (Control (outgoing s)))).
Definition read_incoming (f : VMRCB -> Z) : M Z := read_shm (fun s => Ok (f (Control (incoming s)))).
Definition write_outgoing (f : VMRCB -> VMRCB) : M unit := write_shm (fun s =>
  Ok (mkShared (mkRing (f (Control (outgoing s))) (Data (outgoing s))) (incoming s))).
Definition write_incoming (f : VMRCB -> VMRCB) : M unit := write_shm (fun s =>
  Ok (mkShared (outgoing s) (mkRing (f (Control (incoming s))) (Data (incoming s))))).
(** Stores to the outgoing data pages. *)
Definition store_outgoing (off : Z) (bs : list Z) : M unit := write_shm (fun s =>
  d ← mem_write (Data (outgoing s)) off bs;
  Ok (mkShared (mkRing (Control (outgoing s)) d) (incoming s))).
Definition load_incoming (off n : Z) : M (list Z) := read_shm (fun s => mem_read (Data (incoming s)) off n).

Definition set_In v (c : VMRCB) := mkVMRCB v (Out c) (InterruptMask c) (PendingSendSize c) (FeatureBits c).
Definition set_Out v (c : VMRCB) := mkVMRCB (In c) v (InterruptMask c) (PendingSendSize c) (FeatureBits c).
Definition set_InterruptMask v (c : VMRCB) := mkVMRCB (In c) (Out c) v (PendingSendSize c) (FeatureBits c).
Definition set_PendingSendSize v (c : VMRCB) := mkVMRCB (In c) (Out c) (InterruptMask c) v (FeatureBits c).
Definition set_FeatureBits v (c : VMRCB) := mkVMRCB (In c) (Out c) (InterruptMask c) (PendingSendSize c) v.

Definition set_IncomingInCache v c := mkCtx (Outgoing_DataBytesInRing c) (Incoming_DataBytesInRing c)
  v (IncomingOut c) (EmptyRingBufferCount c) (NonspuriousInterruptCount c) (OutgoingIn c) (OutgoingOutCache c)
  (ctx_PendingSendSize c) (FullRingBufferCount c) (InterruptMaskSkips c).
Definition set_IncomingOut v c := mkCtx (Outgoing_DataBytesInRing c) (Incoming_DataBytesInRing c)
  (IncomingInCache c) v (EmptyRingBufferCount c) (NonspuriousInterruptCount c) (OutgoingIn c) (OutgoingOutCache c)
  (ctx_PendingSendSize c) (FullRingBufferCount c) (InterruptMaskSkips c).
Definition set_EmptyRingBufferCount v c := mkCtx (Outgoing_DataBytesInRing c) (Incoming_DataBytesInRing c)
  (IncomingInCache c) (IncomingOut c) v (NonspuriousInterruptCount c) (OutgoingIn c) (OutgoingOutCache c)
  (ctx_PendingSendSize c) (FullRingBufferCount c) (InterruptMaskSkips c).
Definition set_OutgoingIn v c := mkCtx (Outgoing_DataBytesInRing c) (Incoming_DataBytesInRing c)
  (IncomingInCache c) (IncomingOut c) (EmptyRingBufferCount c) (NonspuriousInterruptCount c) v (OutgoingOutCache c)
  (ctx_PendingSendSize c) (FullRingBufferCount c) (InterruptMaskSkips c).
Definition set_OutgoingOutCache v c := mkCtx (Outgoing_DataBytesInRing c) (Incoming_DataBytesInRing c)
  (IncomingInCache c) (IncomingOut c) (EmptyRingBufferCount c) (NonspuriousInterruptCount c) (OutgoingIn c) v
  (ctx_PendingSendSize c) (FullRingBufferCount c) (InterruptMaskSkips c).
Definition set_ctx_PendingSendSize v c := mkCtx (Outgoing_DataBytesInRing c) (Incoming_DataBytesInRing c)
  (IncomingInCache c) (IncomingOut c) (EmptyRingBufferCount c) (NonspuriousInterruptCount c) (OutgoingIn c) (OutgoingOutCache c)
  v (FullRingBufferCount c) (InterruptMaskSkips c).
Definition set_FullRingBufferCount v c := mkCtx (Outgoing_DataBytesInRing c) (Incoming_DataBytesInRing c)
  (IncomingInCache c) (IncomingOut c) (EmptyRingBufferCount c) (NonspuriousInterruptCount c) (OutgoingIn c) (OutgoingOutCache c)
  (ctx_PendingSendSize c) v (InterruptMaskSkips c).
Definition set_InterruptMaskSkips v c := mkCtx (Outgoing_DataBytesInRing c) (Incoming_DataBytesInRing c)
  (IncomingInCache c) (IncomingOut c) (EmptyRingBufferCount c) (NonspuriousInterruptCount c) (OutgoingIn c) (OutgoingOutCache c)
  (ctx_PendingSendSize c) (FullRingBufferCount c) v.

(** ** Interrupt accounting *)
Definition PkpExpectedInterruptCount (c : PACKET_LIB_CONTEXT) : Z :=
  u32 (EmptyRingBufferCount c + FullRingBufferCount c - NonspuriousInterruptCount c).

Definition PkpExpectInterrupt (IsIncoming : bool) : M unit :=
  modify (fun c =>
    if PkpExpectedInterruptCount c <? MAXIMUM_EXPECTED_INTERRUPT_COUNT then
      if IsIncoming then set_EmptyRingBufferCount (u32 (EmptyRingBufferCount c + 1)) c
      else set_FullRingBufferCount (u32 (FullRingBufferCount c + 1)) c
    else c).

(** ** Pointer arithmetic *)
Definition PkModuloReduce (Value Modulus : Z) : result Z :=
  if Modulus <=? Value then
    let Value := u32 (Value - Modulus) in
    _ ← ASSERT (Value <? Modulus); Ok Value
  else Ok Value.

Definition PkpValidatePointer (DataBytesInRing Pointer : Z) : bool :=
  (Pointer <? DataBytesInRing) && (Pointer mod 8 =? 0).

Definition PkpDataAvailable (DataBytesInRing PreviouslyCapturedIn PreviouslyCapturedOut : Z) : result Z :=
  _ ← ASSERT (PreviouslyCapturedIn <? DataBytesInRing);
  _ ← ASSERT (PreviouslyCapturedOut <? DataBytesInRing);
  let bytesAvailable := u32 (PreviouslyCapturedIn - PreviouslyCapturedOut) in
  if bytesAvailable <? DataBytesInRing then Ok bytesAvailable
  else Ok (u32 (DataBytesInRing + bytesAvailable)).

Definition PkpFreeBytes (DataBytesInRing PreviouslyCapturedIn PreviouslyCapturedOut : Z) : result Z :=
  _ ← ASSERT (PreviouslyCapturedIn <? DataBytesInRing);
  _ ← ASSERT (PreviouslyCapturedOut <? DataBytesInRing);
  let bytesFree := u32 (PreviouslyCapturedOut - PreviouslyCapturedIn - 1) in
  if bytesFree <? DataBytesInRing then Ok bytesFree
  else Ok (u32 (DataBytesInRing + bytesFree)).

(** [ALIGN_VALUE (x, sizeof (UINT64))], before any conversion to UINT32. *)
Definition ALIGN_UP (x : Z) : Z := x + Z.land (u64 (8 - x)) 7.

(** ** Initialisation *)
Definition PkpInitRingBufferControl : M EFI_STATUS :=
  incomingIn ← read_incoming In;
  incomingOut ← read_incoming Out;
  outgoingIn ← read_outgoing In;
  outgoingOut ← read_outgoing Out;
  inBytes ← get Incoming_DataBytesInRing;
  outBytes ← get Outgoing_DataBytesInRing;
  if negb (PkpValidatePointer inBytes incomingIn) || negb (PkpValidatePointer inBytes incomingOut) ||
     negb (PkpValidatePointer outBytes outgoingIn) || negb (PkpValidatePointer outBytes outgoingOut)
  then mret EFI_RING_CORRUPT_ERROR
  else
    _ ← modify (set_IncomingInCache incomingIn);
    _ ← modify (set_IncomingOut incomingOut);
    _ ← modify (set_OutgoingIn outgoingIn);
    _ ← modify (set_OutgoingOutCache outgoingOut);
    _ ← write_outgoing (set_PendingSendSize 0);
    _ ← write_incoming (set_InterruptMask 0);
    _ ← write_outgoing (set_FeatureBits 0);
    _ ← write_outgoing (fun c => set_FeatureBits (Z.lor (FeatureBits c) 1) c);
    _ ← PkpExpectInterrupt true;
    _ ← PkpExpectInterrupt false;
    mret EFI_SUCCESS.

Definition PkInitializeSingleMappedRingBuffer (IncomingDataPageCount OutgoingDataPageCount : Z) : M EFI_STATUS :=
  _ ← modify (fun _ => mkCtx (u32 (OutgoingDataPageCount * EFI_PAGE_SIZE)) (u32 (IncomingDataPageCount * EFI_PAGE_SIZE))
                        0 0 0 0 0 0 0 0 0);
  PkpInitRingBufferControl.

(** ** Sending *)
Definition PkpCheckSendBufferFreeBytes (TotalPacketSize in_ out DataBytesInRing : Z) : M EFI_STATUS :=
  free ← lift (PkpFreeBytes DataBytesInRing in_ out);
  if negb (free <? TotalPacketSize) then mret EFI_SUCCESS
  else
    out ← read_outgoing Out;
    if negb (PkpValidatePointer DataBytesInRing out) then mret EFI_RING_CORRUPT_ERROR
    else
      _ ← modify (set_OutgoingOutCache out);
      free ← lift (PkpFreeBytes DataBytesInRing in_ out);
      if negb (free <? TotalPacketSize) then mret EFI_SUCCESS
      else if DataBytesInRing <=? TotalPacketSize then mret EFI_INVALID_PARAMETER
      else
        pending ← get ctx_PendingSendSize;
        _ ← (if pending =? 0 then PkpExpectInterrupt false else mret tt);
        outgoingIn ← get OutgoingIn;
        avail ← lift (PkpDataAvailable DataBytesInRing in_ outgoingIn);
        let pendingSendSize := u32 (avail + TotalPacketSize) in
        let pendingSendSize := if DataBytesInRing <=? pendingSendSize then u32 (DataBytesInRing - 1) else pendingSendSize in
        _ ← write_outgoing (set_PendingSendSize pendingSendSize);
        _ ← modify (set_ctx_PendingSendSize (u32 (TotalPacketSize - sizeof_PREVIOUS_PACKET_OFFSET)));
        out ← read_outgoing Out;
        if negb (PkpValidatePointer DataBytesInRing out) then mret EFI_RING_CORRUPT_ERROR
        else
          _ ← modify (set_OutgoingOutCache out);
          free ← lift (PkpFreeBytes DataBytesInRing in_ out);
          if free <? TotalPacketSize then mret EFI_BUFFER_TOO_SMALL else mret EFI_SUCCESS.

Definition PkCompleteInsertion (NewIn : Z) : M EFI_STATUS :=
  dataBytesInRing ← get Outgoing_DataBytesInRing;
  _ ← lift (ASSERT (PkpValidatePointer dataBytesInRing NewIn));
  oldIn ← get OutgoingIn;
  _ ← modify (set_OutgoingIn NewIn);
  _ ← write_outgoing (set_In NewIn);
  interruptMask ← read_outgoing InterruptMask;
  currentOut ← read_outgoing Out;
  if negb (PkpValidatePointer dataBytesInRing currentOut) then mret EFI_RING_CORRUPT_ERROR
  else
    _ ← modify (set_OutgoingOutCache currentOut);
    if oldIn =? currentOut then
      if interruptMask =? 0 then mret EFI_RING_SIGNAL_OPPOSITE_ENDPOINT
      else
        _ ← modify (fun c => set_InterruptMaskSkips (u64 (InterruptMaskSkips c + 1)) c);
        mret EFI_SUCCESS
    else mret EFI_SUCCESS.

(** Status, [*Offset], and [*Buffer] as its offset in the data pages. *)
Definition PkGetSendBuffer (Offset PacketSize : Z) : M (EFI_STATUS * Z * option Z) :=
  let PacketSize := u32 (ALIGN_UP PacketSize) in
  let totalPacketSize := u32 (PacketSize + sizeof_PREVIOUS_PACKET_OFFSET) in
  dataBytesInRing ← get Outgoing_DataBytesInRing;
  let in_ := Offset in
  out ← get OutgoingOutCache;
  r1 ← lift (PkModuloReduce (u32 (u32 (in_ + PacketSize) - 8)) dataBytesInRing);
  let PacketOneBeforeEndOffset := Z.quot (r1 - in_) 8 in
  r2 ← lift (PkModuloReduce (u32 (in_ + PacketSize)) dataBytesInRing);
  let PacketEndOffset := Z.quot (r2 - in_) 8 in
  _ ← lift (ASSERT (PacketOneBeforeEndOffset <=? UINT32_MAX));
  _ ← lift (ASSERT (PacketEndOffset <=? UINT32_MAX));
  let buffer := in_ in
  status ← PkpCheckSendBufferFreeBytes totalPacketSize in_ out dataBytesInRing;
  if EFI_ERROR status then mret (status, Offset, None)
  else
    _ ← store_outgoing (buffer + 8 * PacketOneBeforeEndOffset) (le_split 8 0);
    _ ← store_outgoing (buffer + 8 * PacketEndOffset) (le_split 4 0 ++ le_split 4 in_);
    pending ← get ctx_PendingSendSize;
    _ ← (if negb (pending =? 0) then
           _ ← modify (set_ctx_PendingSendSize 0);
           write_outgoing (set_PendingSendSize 0)
         else mret tt);
    next ← lift (PkModuloReduce (u32 (in_ + totalPacketSize)) dataBytesInRing);
    mret (EFI_SUCCESS, next, Some buffer).

(** [PacketBuf] is the object the pointer designates; [Offset] is relative to
    the data pages. *)
Definition PkWritePacketSingleMapped (PacketBuf : list Z) (PacketBufSize Offset : Z) : M unit :=
  dataBytesInRing ← get Outgoing_DataBytesInRing;
  in_ ← lift (PkModuloReduce Offset dataBytesInRing);
  let ringBufferEndOffset := u32 (dataBytesInRing - in_) in
  if ALIGN_UP PacketBufSize <=? ringBufferEndOffset then
    bs ← lift (mem_read PacketBuf 0 PacketBufSize);
    store_outgoing in_ bs
  else
    bs ← lift (mem_read PacketBuf 0 ringBufferEndOffset);
    _ ← store_outgoing in_ bs;
    bs ← lift (mem_read PacketBuf ringBufferEndOffset (u32 (PacketBufSize - ringBufferEndOffset)));
    store_outgoing 0 bs.

Definition PkSendPacketRaw (PacketBuf : list Z) (PacketBufSize : Z) : M EFI_STATUS :=
  _ ← lift (ASSERT (0 <? PacketBufSize));
  newIn ← get OutgoingIn;
  '(status, newIn, buffer) ← PkGetSendBuffer newIn PacketBufSize;
  if EFI_ERROR status then mret status
  else
    buffer ← lift (match buffer with Some b => Ok b | None => Fault NullDeref end);
    (* PkWriteRingBuffer *)
    _ ← PkWritePacketSingleMapped PacketBuf PacketBufSize (u32 buffer);
    PkCompleteInsertion newIn.

Definition PkGetOutgoingRingOffset : M Z := get OutgoingIn.
Definition PkGetIncomingRingOffset : M Z := get IncomingOut.
Definition PkGetOutgoingRingSize : M Z := get Outgoing_DataBytesInRing.

Definition PkGetOutgoingRingFreeBytes : M Z :=
  dataBytesInRing ← get Outgoing_DataBytesInRing;
  currentIn ← get OutgoingIn;
  currentOut ← read_outgoing Out;
  if negb (PkpValidatePointer dataBytesInRing currentOut) then mret 0
  else lift (PkpFreeBytes dataBytesInRing currentIn currentOut).

(** ** Receiving *)

(** Status, [*Offset], and on success [*Buffer] (as an offset) and [*Length]. *)
Definition PkGetReceiveBuffer (Offset : Z) : M (EFI_STATUS * Z * option (Z * Z)) :=
  dataBytesInRing ← get Incoming_DataBytesInRing;
  in_ ← get IncomingInCache;
  let out := Offset in
  _ ← lift (ASSERT (out <? dataBytesInRing));
  '(status, in_) ← (
    if in_ =? out then
      in_ ← read_incoming In;
      if negb (PkpValidatePointer dataBytesInRing in_) then mret (EFI_RING_CORRUPT_ERROR, in_)
      else
        _ ← modify (set_IncomingInCache in_);
        if in_ =? out then mret (EFI_END_OF_FILE, in_) else mret (EFI_SUCCESS, in_)
    else mret (EFI_SUCCESS, in_));
  if EFI_ERROR status then mret (status, Offset, None)
  else
    bytesInRing ← lift (PkpDataAvailable dataBytesInRing in_ out);
    length8 ← load_incoming (out + OFFSET_OF_Length8) 2;
    let packetLength := u32 (le_combine length8 * 8) in
    let totalPacketSize := u32 (packetLength + sizeof_PREVIOUS_PACKET_OFFSET) in
    if (packetLength <? sizeof_VMPACKET_DESCRIPTOR) || (bytesInRing <? totalPacketSize)
    then mret (EFI_RING_CORRUPT_ERROR, Offset, None)
    else
      corrupt ← (if debug_code_enabled then
          off ← lift (PkModuloReduce (u32 (out + packetLength)) dataBytesInRing);
          prev ← load_incoming (off + 4) 4;
          mret (negb (le_combine prev =? out))
        else mret false);
      if corrupt : bool then mret (EFI_RING_CORRUPT_ERROR, Offset, None)
      else
        next ← lift (PkModuloReduce (u32 (out + totalPacketSize)) dataBytesInRing);
        mret (EFI_SUCCESS, next, Some (out, packetLength)).

(** The destination [PacketBuf] after the copy. *)
Definition PkReadPacketSingleMapped (PacketBuf : list Z) (PacketBufSize Out_ : Z) : M (list Z) :=
  dataBytesInRing ← get Incoming_DataBytesInRing;
  out ← lift (PkModuloReduce Out_ dataBytesInRing);
  let ringBufferEndOffset := u32 (dataBytesInRing - out) in
  if PacketBufSize <=? ringBufferEndOffset then
    bs ← load_incoming out PacketBufSize;
    lift (mem_write PacketBuf 0 bs)
  else
    bs ← load_incoming out ringBufferEndOffset;
    buf ← lift (mem_write PacketBuf 0 bs);
    bs ← load_incoming 0 (u32 (PacketBufSize - ringBufferEndOffset));
    buf ← lift (mem_write buf ringBufferEndOffset bs);
    _ ← (if asserts_enabled then
           r ← lift (PkModuloReduce (u32 (out + PacketBufSize + sizeof_PREVIOUS_PACKET_OFFSET)) dataBytesInRing);
           lift (ASSERT (u32 (PacketBufSize - ringBufferEndOffset) + sizeof_PREVIOUS_PACKET_OFFSET =? r))
         else mret tt);
    mret buf.

Definition PkCompleteRemoval (NewOut : Z) : M EFI_STATUS :=
  dataBytesInRing ← get Incoming_DataBytesInRing;
  _ ← lift (ASSERT (PkpValidatePointer dataBytesInRing NewOut));
  i ← read_incoming In;
  _ ← (if i =? NewOut then PkpExpectInterrupt true else mret tt);
  oldOut ← get IncomingOut;
  _ ← modify (set_IncomingOut NewOut);
  _ ← write_incoming (set_Out NewOut);
  pendingSendSize ← read_incoming PendingSendSize;
  currentIn ← read_incoming In;
  if negb (PkpValidatePointer dataBytesInRing currentIn) then mret EFI_RING_CORRUPT_ERROR
  else
    _ ← modify (set_IncomingInCache currentIn);
    signal ← (if negb (pendingSendSize =? 0) then
        oldFreeBytes ← lift (PkpFreeBytes dataBytesInRing currentIn oldOut);
        newFreeBytes ← lift (PkpFreeBytes dataBytesInRing currentIn NewOut);
        mret ((pendingSendSize <=? newFreeBytes) && (oldFreeBytes <? pendingSendSize))
      else mret false);
    if signal : bool then mret EFI_RING_SIGNAL_OPPOSITE_ENDPOINT
    else if NewOut =? currentIn then mret EFI_RING_NEWLY_EMPTY
    else mret EFI_SUCCESS.
End Endpoint.
End PkRing.
