(* ===== verification/PkRingSafe.v ===== *)
(** The packet rings are safe against any opposite endpoint: a small program
    logic for endpoint computations, the invariant on the context, and the
    proof that every ring operation keeps it, whatever the peer writes to the
    shared memory. *)
From stdpp Require Import base list numbers list_numbers option.
From Stdlib Require Import ZArith Lia.
From S2P Require Import Prelude Circular PkRing.
Open Scope Z_scope.
Import PkRing.

(** ** Pointer arithmetic *)
Definition ring_size (D : Z) : Prop := 0 < D <= 2 ^ 31 /\ D mod 8 = 0.
Definition valid (D p : Z) : Prop := 0 <= p < D /\ p mod 8 = 0.

Lemma validate_spec D p : 0 <= p -> PkpValidatePointer D p = true <-> valid D p.
Proof. intros. unfold PkpValidatePointer, valid. rewrite andb_true_iff. lia. Qed.

Lemma ALIGN_UP_spec x : 0 <= x < 2 ^ 32 -> ALIGN_UP x = 8 * ((x + 7) / 8).
Proof.
  intros H. unfold ALIGN_UP. change 7 with (Z.ones 3) at 1. rewrite land_low_mask by lia.
  unfold u64. rewrite Z.mod_mod_divide by (by exists (2 ^ 61)). zlia.
Qed.

Section Arith.
Context {B : BuildOptions}.

Lemma PkModuloReduce_spec v D :
  0 <= v < 2 * D -> 0 < D <= 2 ^ 31 -> PkModuloReduce v D = Ok (v mod D).
Proof.
  intros Hv HD. unfold PkModuloReduce. destruct (Z.leb_spec D v).
  - rewrite u32_small by lia. rewrite ASSERT_holds, bind_Ok by lia. f_equal.
    rewrite <- (Z.mod_small (v - D) D) by lia. rewrite <- (Z.mod_add (v - D) 1 D) by lia. f_equal. lia.
  - by rewrite Z.mod_small by lia.
Qed.

Lemma PkpDataAvailable_spec D i o :
  0 < D <= 2 ^ 31 -> 0 <= i < D -> 0 <= o < D -> PkpDataAvailable D i o = Ok ((i - o) mod D).
Proof.
  intros HD Hi Ho. unfold PkpDataAvailable. rewrite !ASSERT_holds, !bind_Ok by lia.
  destruct (Z.le_gt_cases o i).
  - rewrite (u32_small (i - o)), (proj2 (Z.ltb_lt _ _)) by lia. by rewrite Z.mod_small by lia.
  - assert (E : u32 (i - o) = 2 ^ 32 + (i - o)).
    { unfold u32. rewrite <- (Z.mod_add _ 1), Z.mod_small by lia. lia. }
    rewrite E, (proj2 (Z.ltb_ge _ _)) by lia. f_equal. unfold u32.
    replace (D + (2 ^ 32 + (i - o))) with (D + (i - o) + 1 * 2 ^ 32) by lia.
    rewrite Z.mod_add, (Z.mod_small _ (2 ^ 32)) by lia.
    rewrite <- (Z.mod_small (D + (i - o)) D) by lia. rewrite <- (Z.mod_add (i - o) 1 D) by lia. f_equal. lia.
Qed.

(** One byte is never used, so that a full ring does not look empty. *)
Lemma PkpFreeBytes_spec D i o :
  0 < D <= 2 ^ 31 -> 0 <= i < D -> 0 <= o < D -> PkpFreeBytes D i o = Ok (D - 1 - (i - o) mod D).
Proof.
  intros HD Hi Ho. unfold PkpFreeBytes. rewrite !ASSERT_holds, !bind_Ok by lia.
  destruct (Z.lt_ge_cases i o).
  - rewrite (u32_small (o - i - 1)), (proj2 (Z.ltb_lt _ _)) by lia. f_equal.
    rewrite <- (Z.mod_add (i - o) 1 D), Z.mod_small by lia. lia.
  - assert (E : u32 (o - i - 1) = 2 ^ 32 + (o - i - 1)).
    { unfold u32. rewrite <- (Z.mod_add _ 1), Z.mod_small by lia. lia. }
    rewrite E, (proj2 (Z.ltb_ge _ _)) by lia. f_equal. unfold u32.
    replace (D + (2 ^ 32 + (o - i - 1))) with (D + (o - i - 1) + 1 * 2 ^ 32) by lia.
    rewrite Z.mod_add, (Z.mod_small _ (2 ^ 32)) by lia. rewrite (Z.mod_small (i - o)) by lia. lia.
Qed.
End Arith.

Lemma valid_mod D x : ring_size D -> x mod 8 = 0 -> valid D (x mod D).
Proof.
  intros [HD H8] Hx. split; [apply Z.mod_pos_bound; lia|].
  apply Z.mod_divide in H8 as [k ->]; [|lia]. apply Z.mod_divide; [lia|].
  apply Z.mod_divide in Hx as [j ->]; [|lia]. exists (j mod k).
  destruct (decide (k = 0)); [lia|]. by rewrite Z.mul_mod_distr_r by lia.
Qed.

(** ** Invariants *)
Definition u32_control (c : VMRCB) : Prop :=
  0 <= In c < 2 ^ 32 /\ 0 <= Out c < 2 ^ 32 /\ 0 <= InterruptMask c < 2 ^ 32 /\
  0 <= PendingSendSize c < 2 ^ 32.

(** The widths of the shared memory; nothing is assumed of its contents. *)
Definition shm_ok (Do Di : Z) (s : shared) : Prop :=
  u32_control (Control (outgoing s)) /\ u32_control (Control (incoming s)) /\
  Zlength (Data (outgoing s)) = Do /\ Zlength (Data (incoming s)) = Di /\
  Forall is_byte (Data (incoming s)).

(** The peer can write any values, but not resize the shared memory. *)
Definition peer_ok `{Peer} : Prop :=
  forall Do Di t s, shm_ok Do Di s -> shm_ok Do Di (interfere t s).

Record ctx_ok (Do Di : Z) (c : PACKET_LIB_CONTEXT) : Prop := {
  ok_do : Outgoing_DataBytesInRing c = Do;
  ok_di : Incoming_DataBytesInRing c = Di;
  ok_in_cache : valid Di (IncomingInCache c);
  ok_incoming_out : valid Di (IncomingOut c);
  ok_outgoing_in : valid Do (OutgoingIn c);
  ok_out_cache : valid Do (OutgoingOutCache c);
  ok_interrupts : PkpExpectedInterruptCount c <= MAXIMUM_EXPECTED_INTERRUPT_COUNT
}.

Definition inv (Do Di : Z) (w : world) : Prop := ctx_ok Do Di (ctx w) /\ shm_ok Do Di (shm w).

(** ** Program logic: [m] returns, keeps the invariant and yields [Q]. *)
Definition safe {A} (I : world -> Prop) (m : M A) (Q : A -> Prop) : Prop :=
  forall w, I w -> exists a w', m w = Ok (a, w') /\ I w' /\ Q a.

Lemma safe_bind {A C} I (m : M A) (k : A -> M C) Q R :
  safe I m Q -> (forall a, Q a -> safe I (k a) R) -> safe I (m ≫= k) R.
Proof.
  intros Hm Hk w Hw. destruct (Hm w Hw) as (a & w' & E & Hw' & Ha).
  unfold mbind, M_bind. rewrite E. by apply (Hk a Ha).
Qed.

Lemma safe_ret {A} I (a : A) (Q : A -> Prop) : Q a -> safe I (mret a) Q.
Proof. intros H w Hw. by exists a, w. Qed.

Lemma safe_lift {A} I (r : result A) a (Q : A -> Prop) : r = Ok a -> Q a -> safe I (lift r) Q.
Proof. intros -> H w Hw. by exists a, w. Qed.

Lemma safe_lift_eq {A} I (r : result A) a : r = Ok a -> safe I (lift r) (eq a).
Proof. intros ->. by eapply safe_lift. Qed.

Lemma safe_weaken {A} I (m : M A) (Q R : A -> Prop) : safe I m Q -> (forall a, Q a -> R a) -> safe I m R.
Proof. intros H HQ w Hw. destruct (H w Hw) as (a & w' & ? & ? & ?). exists a, w'. auto. Qed.

Lemma safe_if {A} I (b : bool) (m1 m2 : M A) Q :
  (b = true -> safe I m1 Q) -> (b = false -> safe I m2 Q) -> safe I (if b then m1 else m2) Q.
Proof. destruct b; auto. Qed.

Section Safety.
Context {B : BuildOptions} {P : Peer} (Hpeer : peer_ok) (Do Di : Z).
Context (HDo : ring_size Do) (HDi : ring_size Di).
Let I := inv Do Di.

Lemma safe_get {A} (f : PACKET_LIB_CONTEXT -> A) (Q : A -> Prop) :
  (forall c, ctx_ok Do Di c -> Q (f c)) -> safe I (get f) Q.
Proof. intros H w [Hc Hs]. exists (f (ctx w)), w. split_and!; [done|by split|auto]. Qed.

Lemma safe_modify f (Q : unit -> Prop) :
  (forall c, ctx_ok Do Di c -> ctx_ok Do Di (f c)) -> Q tt -> safe I (modify f) Q.
Proof.
  intros H HQ w [Hc Hs]. exists tt, (mkWorld (f (ctx w)) (shm w) (now w)). split_and!; [done|split; cbn; auto|done].
Qed.

Lemma safe_read {A} (f : shared -> result A) (Q : A -> Prop) :
  (forall s, shm_ok Do Di s -> exists a, f s = Ok a /\ Q a) -> safe I (read_shm f) Q.
Proof.
  intros H w [Hc Hs]. pose proof (Hpeer Do Di (now w) _ Hs) as Hs'. destruct (H _ Hs') as (a & E & HQ).
  unfold read_shm. rewrite E. eexists _, _. split_and!; [done|by split|done].
Qed.

Lemma safe_write f (Q : unit -> Prop) :
  (forall s, shm_ok Do Di s -> exists s', f s = Ok s' /\ shm_ok Do Di s') -> Q tt -> safe I (write_shm f) Q.
Proof.
  intros H HQ w [Hc Hs]. pose proof (Hpeer Do Di (now w) _ Hs) as Hs'. destruct (H _ Hs') as (s' & E & Hs'').
  unfold write_shm. rewrite E. eexists _, _. split_and!; [done|by split|done].
Qed.

Lemma safe_read_outgoing f (Q : Z -> Prop) :
  (forall c, u32_control c -> Q (f c)) -> safe I (read_outgoing f) Q.
Proof. intros H. apply safe_read. intros s (Ho & _). eexists. split; [done|auto]. Qed.
Lemma safe_read_incoming f (Q : Z -> Prop) :
  (forall c, u32_control c -> Q (f c)) -> safe I (read_incoming f) Q.
Proof. intros H. apply safe_read. intros s (_ & Hi & _). eexists. split; [done|auto]. Qed.

Lemma safe_write_outgoing f (Q : unit -> Prop) :
  (forall c, u32_control c -> u32_control (f c)) -> Q tt -> safe I (write_outgoing f) Q.
Proof.
  intros H HQ. apply safe_write; [|done]. intros s (Ho & Hi & Hl). eexists. split; [done|].
  split_and!; cbn; auto; apply Hl.
Qed.
Lemma safe_write_incoming f (Q : unit -> Prop) :
  (forall c, u32_control c -> u32_control (f c)) -> Q tt -> safe I (write_incoming f) Q.
Proof.
  intros H HQ. apply safe_write; [|done]. intros s (Ho & Hi & Hl). eexists. split; [done|].
  split_and!; cbn; auto; apply Hl.
Qed.

Lemma safe_store off bs (Q : unit -> Prop) :
  0 <= off -> off + Zlength bs <= Do -> Q tt -> safe I (store_outgoing off bs) Q.
Proof.
  intros H1 H2 HQ. apply safe_write; [|done]. intros s (Ho & Hi & Hl1 & Hl2 & Hb).
  destruct (mem_write_zget (Data (outgoing s)) off bs) as (m' & E & Hl & _); [lia|lia|].
  rewrite E. eexists. split; [done|]. split_and!; cbn; auto. lia.
Qed.

Lemma safe_load off n (Q : list Z -> Prop) :
  0 <= off -> 0 <= n -> off + n <= Di ->
  (forall bs, Zlength bs = n -> Forall is_byte bs -> Q bs) -> safe I (load_incoming off n) Q.
Proof.
  intros H1 H2 H3 HQ. apply safe_read. intros s (Ho & Hi & Hl1 & Hl2 & Hb).
  unfold mem_read. rewrite in_bounds_true by lia. eexists. split; [done|]. apply HQ.
  - apply Zlength_zslice; lia.
  - unfold zslice. by apply Forall_take, Forall_drop.
Qed.

Lemma safe_expect b (Q : unit -> Prop) : Q tt -> safe I (PkpExpectInterrupt b) Q.
Proof.
  intros HQ. apply safe_modify; [|done]. intros c Hc.
  destruct (Z.ltb_spec (PkpExpectedInterruptCount c) MAXIMUM_EXPECTED_INTERRUPT_COUNT) as [Hlt|]; [|done].
  assert (E : u32 (PkpExpectedInterruptCount c + 1) = PkpExpectedInterruptCount c + 1).
  { pose proof (u32_range (EmptyRingBufferCount c + FullRingBufferCount c - NonspuriousInterruptCount c)) as Hr.
    fold (PkpExpectedInterruptCount c) in Hr. unfold MAXIMUM_EXPECTED_INTERRUPT_COUNT in Hlt. apply u32_small. lia. }
  destruct b; (split; [apply Hc..|]); unfold PkpExpectedInterruptCount at 1; cbn; unfold u32 in *;
    unfold PkpExpectedInterruptCount, u32, MAXIMUM_EXPECTED_INTERRUPT_COUNT in *.
  - replace ((EmptyRingBufferCount c + 1) mod 2 ^ 32 + FullRingBufferCount c - NonspuriousInterruptCount c)
      with ((EmptyRingBufferCount c + 1) mod 2 ^ 32 + (FullRingBufferCount c - NonspuriousInterruptCount c)) by lia.
    rewrite Zplus_mod_idemp_l. rewrite Zplus_mod_idemp_l in E.
    replace (EmptyRingBufferCount c + 1 + (FullRingBufferCount c - NonspuriousInterruptCount c))
      with (EmptyRingBufferCount c + FullRingBufferCount c - NonspuriousInterruptCount c + 1) by lia. lia.
  - replace (EmptyRingBufferCount c + (FullRingBufferCount c + 1) mod 2 ^ 32 - NonspuriousInterruptCount c)
      with ((FullRingBufferCount c + 1) mod 2 ^ 32 + (EmptyRingBufferCount c - NonspuriousInterruptCount c)) by lia.
    rewrite Zplus_mod_idemp_l. rewrite Zplus_mod_idemp_l in E.
    replace (FullRingBufferCount c + 1 + (EmptyRingBufferCount c - NonspuriousInterruptCount c))
      with (EmptyRingBufferCount c + FullRingBufferCount c - NonspuriousInterruptCount c + 1) by lia. lia.
Qed.

(** One step of a computation; the intermediate assertion is inferred from the
    primitive. *)
Ltac sstep := eapply safe_bind.

Lemma ctx_set_OutgoingOutCache v c : valid Do v -> ctx_ok Do Di c -> ctx_ok Do Di (set_OutgoingOutCache v c).
Proof. intros Hv []. by split. Qed.
Lemma ctx_set_OutgoingIn v c : valid Do v -> ctx_ok Do Di c -> ctx_ok Do Di (set_OutgoingIn v c).
Proof. intros Hv []. by split. Qed.
Lemma ctx_set_IncomingInCache v c : valid Di v -> ctx_ok Do Di c -> ctx_ok Do Di (set_IncomingInCache v c).
Proof. intros Hv []. by split. Qed.
Lemma ctx_set_IncomingOut v c : valid Di v -> ctx_ok Do Di c -> ctx_ok Do Di (set_IncomingOut v c).
Proof. intros Hv []. by split. Qed.
Lemma ctx_set_PendingSendSize v c : ctx_ok Do Di c -> ctx_ok Do Di (set_ctx_PendingSendSize v c).
Proof. intros []. by split. Qed.
Lemma ctx_set_Skips v c : ctx_ok Do Di c -> ctx_ok Do Di (set_InterruptMaskSkips v c).
Proof. intros []. by split. Qed.

Lemma control_set_In v c : 0 <= v < 2 ^ 32 -> u32_control c -> u32_control (set_In v c).
Proof. intros Hv (? & ? & ? & ?). by split. Qed.
Lemma control_set_Out v c : 0 <= v < 2 ^ 32 -> u32_control c -> u32_control (set_Out v c).
Proof. intros Hv (? & ? & ? & ?). by split. Qed.
Lemma control_set_Pending v c : 0 <= v < 2 ^ 32 -> u32_control c -> u32_control (set_PendingSendSize v c).
Proof. intros Hv (? & ? & ? & ?). by split. Qed.

Lemma valid_u32 D v : ring_size D -> valid D v -> 0 <= v < 2 ^ 32.
Proof. unfold ring_size, valid. lia. Qed.

Lemma not_validated D p : 0 <= p < 2 ^ 32 -> negb (PkpValidatePointer D p) = false -> valid D p.
Proof. intros Hp E. apply validate_spec; [lia|]. by apply negb_false_iff. Qed.

Definition send_status (total : Z) (st : EFI_STATUS) : Prop :=
  (st = EFI_SUCCESS /\ total < Do) \/ (st = EFI_INVALID_PARAMETER /\ Do <= total) \/
  st = EFI_BUFFER_TOO_SMALL \/ st = EFI_RING_CORRUPT_ERROR.

Lemma safe_check total i o :
  0 <= total < 2 ^ 32 -> valid Do i -> valid Do o ->
  safe I (PkpCheckSendBufferFreeBytes total i o Do) (send_status total).
Proof.
  intros Ht Hi Ho. pose proof HDo as [HD H8]. unfold PkpCheckSendBufferFreeBytes, valid in *.
  assert (Hfree : forall o, valid Do o -> exists f, PkpFreeBytes Do i o = Ok f /\ f < Do).
  { intros o' [Ho' _]. rewrite PkpFreeBytes_spec by lia. eexists. split; [done|].
    pose proof (Z.mod_pos_bound (i - o') Do). lia. }
  destruct (Hfree o Ho) as (f & E & Hf). sstep; [by apply (safe_lift _ _ f (eq f))|]. intros ? <-.
  destruct (Z.ltb_spec f total); cbn [negb]; [|apply safe_ret; left; split; [done|lia]].
  sstep; [apply (safe_read_outgoing Out (fun v => 0 <= v < 2 ^ 32)); intros c Hc; apply Hc|]. intros o1 Ho1.
  apply safe_if; intros E1; [apply safe_ret; unfold send_status; auto|]. apply (not_validated Do) in E1; [|done].
  sstep; [apply (safe_modify _ (fun _ => True)); [intros c; by apply ctx_set_OutgoingOutCache|done]|]. intros _ _.
  destruct (Hfree o1 E1) as (f1 & Ef1 & Hf1). sstep; [by apply (safe_lift _ _ f1 (eq f1))|]. intros ? <-.
  destruct (Z.ltb_spec f1 total); cbn [negb]; [|apply safe_ret; left; split; [done|lia]].
  destruct (Z.leb_spec Do total); [apply safe_ret; unfold send_status; auto|].
  sstep; [by apply (safe_get _ (fun _ => True))|]. intros pending _.
  sstep; [apply (safe_if _ _ _ _ (fun _ => True)); intros _; [by apply safe_expect|by apply safe_ret]|]. intros _ _.
  sstep; [apply (safe_get _ (valid Do)); intros c Hc; apply Hc|]. intros oi [Hoi _].
  sstep; [eapply (safe_lift _ _ _ (fun _ => True)); [apply PkpDataAvailable_spec; lia|done]|]. intros avail _.
  sstep. { apply (safe_write_outgoing _ (fun _ => True)); [|done]. intros c. apply control_set_Pending.
           destruct (_ <=? _); apply u32_range. } intros _ _.
  sstep; [apply (safe_modify _ (fun _ => True)); [intros c; apply ctx_set_PendingSendSize|done]|]. intros _ _.
  sstep; [apply (safe_read_outgoing Out (fun v => 0 <= v < 2 ^ 32)); intros c Hc; apply Hc|]. intros o2 Ho2.
  apply safe_if; intros E2; [apply safe_ret; unfold send_status; auto|]. apply (not_validated Do) in E2; [|done].
  sstep; [apply (safe_modify _ (fun _ => True)); [intros c; by apply ctx_set_OutgoingOutCache|done]|]. intros _ _.
  destruct (Hfree o2 E2) as (f2 & Ef2 & Hf2). sstep; [by apply (safe_lift _ _ f2 (eq f2))|]. intros ? <-.
  destruct (Z.ltb_spec f2 total); apply safe_ret; unfold send_status; auto.
Qed.

Lemma safe_insertion i : valid Do i ->
  safe I (PkCompleteInsertion i) (fun st => st = EFI_SUCCESS \/ st = EFI_RING_SIGNAL_OPPOSITE_ENDPOINT \/ st = EFI_RING_CORRUPT_ERROR).
Proof.
  intros Hi. pose proof (valid_u32 _ _ HDo Hi) as Hi32. unfold PkCompleteInsertion.
  sstep; [apply (safe_get _ (eq Do)); intros c Hc; symmetry; apply Hc|]. intros ? <-.
  sstep; [apply (safe_lift _ _ tt (fun _ => True)); [apply ASSERT_holds, validate_spec; [lia|done]|done]|]. intros _ _.
  sstep; [by apply (safe_get _ (fun _ => True))|]. intros old _.
  sstep; [apply (safe_modify _ (fun _ => True)); [intros c; by apply ctx_set_OutgoingIn|done]|]. intros _ _.
  sstep; [apply (safe_write_outgoing _ (fun _ => True)); [intros c; by apply control_set_In|done]|]. intros _ _.
  sstep; [by apply (safe_read_outgoing _ (fun _ => True))|]. intros mask _.
  sstep; [apply (safe_read_outgoing Out (fun v => 0 <= v < 2 ^ 32)); intros c Hc; apply Hc|]. intros o1 Ho1.
  apply safe_if; intros E1; [apply safe_ret; auto|]. apply (not_validated Do) in E1; [|done].
  sstep; [apply (safe_modify _ (fun _ => True)); [intros c; by apply ctx_set_OutgoingOutCache|done]|]. intros _ _.
  apply safe_if; intros _; [|apply safe_ret; auto]. apply safe_if; intros _; [apply safe_ret; auto|].
  sstep; [apply (safe_modify _ (fun _ => True)); [intros c; apply ctx_set_Skips|done]|]. intros _ _.
  apply safe_ret. auto.
Qed.

(** Packet sizes are rounded up to whole 64-bit words. *)
Lemma aligned_size n : 0 < n <= Do ->
  u32 (ALIGN_UP n) = 8 * ((n + 7) / 8) /\ n <= 8 * ((n + 7) / 8) <= Do /\ 8 * ((n + 7) / 8) < n + 8.
Proof.
  intros Hn. destruct HDo as [HD H8]. rewrite ALIGN_UP_spec by lia. rewrite u32_small by zlia. zlia.
Qed.

Lemma quot_words a b : a mod 8 = 0 -> b mod 8 = 0 -> b + 8 * Z.quot (a - b) 8 = a.
Proof.
  intros Ha Hb. apply Z.mod_divide in Ha as [x ->]; [|lia]. apply Z.mod_divide in Hb as [y ->]; [|lia].
  rewrite <- Z.mul_sub_distr_r, Z.quot_mul by lia. lia.
Qed.

(** The offsets computed for a packet of [n] bytes at [i]. *)
Lemma send_offsets i n : valid Do i -> 0 < n <= Do ->
  let a := 8 * ((n + 7) / 8) in
  PkModuloReduce (u32 (u32 (i + a) - 8)) Do = Ok ((i + a - 8) mod Do) /\
  PkModuloReduce (u32 (i + a)) Do = Ok ((i + a) mod Do) /\
  i + 8 * Z.quot ((i + a - 8) mod Do - i) 8 = (i + a - 8) mod Do /\
  i + 8 * Z.quot ((i + a) mod Do - i) 8 = (i + a) mod Do /\
  (forall x, valid Do x -> Z.quot (x - i) 8 <= UINT32_MAX) /\
  (a + 8 < Do -> PkModuloReduce (u32 (i + u32 (a + 8))) Do = Ok ((i + a + 8) mod Do)) /\
  valid Do ((i + a - 8) mod Do) /\ valid Do ((i + a) mod Do) /\ valid Do ((i + a + 8) mod Do).
Proof.
  intros [Hi Hi8] Hn a. pose proof HDo as [HD H8].
  assert (Ha : n <= a <= Do /\ a mod 8 = 0) by (unfold a; zlia). clearbody a.
  assert (V1 : valid Do ((i + a - 8) mod Do)) by (apply valid_mod; [done|zlia]).
  assert (V2 : valid Do ((i + a) mod Do)) by (apply valid_mod; [done|zlia]).
  assert (V3 : valid Do ((i + a + 8) mod Do)) by (apply valid_mod; [done|zlia]).
  assert (8 <= a) by zlia.
  rewrite (u32_small (i + a)), (u32_small (i + a - 8)) by lia. split_and!; try done.
  - apply PkModuloReduce_spec; lia.
  - apply PkModuloReduce_spec; lia.
  - apply quot_words; [apply V1|done].
  - apply quot_words; [apply V2|done].
  - intros x [Hx _]. unfold UINT32_MAX. pose proof (Z.quot_le_mono (x - i) (2 ^ 31) 8 ltac:(lia) ltac:(lia)) as Hq.
    change (Z.quot (2 ^ 31) 8) with (2 ^ 28) in Hq. lia.
  - intros Hlt. rewrite (u32_small (a + 8)), u32_small by lia. rewrite Z.add_assoc. apply PkModuloReduce_spec; lia.
Qed.

Definition sent_buffer (i n : Z) (r : EFI_STATUS * Z * option Z) : Prop :=
  let a := 8 * ((n + 7) / 8) in
  match r with
  | (st, next, b) => send_status (a + 8) st /\
      (st = EFI_SUCCESS -> b = Some i /\ next = (i + a + 8) mod Do)
  end.

Lemma safe_send_buffer i n : valid Do i -> 0 < n <= Do ->
  safe I (PkGetSendBuffer i n) (sent_buffer i n).
Proof.
  intros Hi Hn. destruct (aligned_size n Hn) as (Ea & Hna & Hna').
  destruct (send_offsets i n Hi Hn) as (E1 & E2 & Q1 & Q2 & Hq & E3 & V1 & V2 & V3).
  unfold PkGetSendBuffer. rewrite Ea. set (a := 8 * ((n + 7) / 8)) in *. pose proof HDo as [HD H8].
  unfold sizeof_PREVIOUS_PACKET_OFFSET in *.
  sstep; [apply (safe_get _ (eq Do)); intros c Hc; symmetry; apply Hc|]. intros ? <-.
  sstep; [apply (safe_get _ (valid Do)); intros c Hc; apply Hc|]. intros out Hout.
  sstep; [eapply safe_lift_eq; exact E1|]. intros ? <-.
  sstep; [eapply safe_lift_eq; exact E2|]. intros ? <-.
  sstep; [apply (safe_lift _ _ tt (fun _ => True)); [apply ASSERT_holds; apply Z.leb_le; by apply Hq|done]|]. intros _ _.
  sstep; [apply (safe_lift _ _ tt (fun _ => True)); [apply ASSERT_holds; apply Z.leb_le; by apply Hq|done]|]. intros _ _.
  rewrite (u32_small (a + 8)) in * by lia.
  sstep; [apply safe_check; [lia|done|done]|]. intros st Hst.
  apply safe_if; intros Est.
  { apply safe_ret. split; [done|]. intros ->. done. }
  assert (a + 8 < Do /\ st = EFI_SUCCESS) as [Ha Hsucc].
  { destruct Hst as [[-> ?]|[[-> _]|[->| ->]]]; done. }
  subst st.
  rewrite Q1, Q2. unfold valid in V1, V2.
  sstep; [apply (safe_store _ _ (fun _ => True)); [lia|rewrite Zlength_le_split; zlia|done]|]. intros _ _.
  sstep; [apply (safe_store _ _ (fun _ => True)); [lia|rewrite Zlength_app, !Zlength_le_split; zlia|done]|]. intros _ _.
  sstep; [by apply (safe_get _ (fun _ => True))|]. intros pending _.
  sstep. { apply (safe_if _ _ _ _ (fun _ => True)); intros _; [|by apply safe_ret].
    sstep; [apply (safe_modify _ (fun _ => True)); [intros c; apply ctx_set_PendingSendSize|done]|]. intros _ _.
    apply safe_write_outgoing; [|done]. intros c. apply control_set_Pending. lia. } intros _ _.
  sstep; [eapply safe_lift_eq; by apply E3|]. intros ? <-.
  apply safe_ret. split; [done|]. by intros _.
Qed.

Lemma safe_write_packet buf n i : valid Do i -> 0 < n <= Do -> n <= Zlength buf ->
  safe I (PkWritePacketSingleMapped buf n i) (fun _ => True).
Proof.
  intros [Hi Hi8] Hn Hb. pose proof HDo as [HD H8]. unfold PkWritePacketSingleMapped.
  sstep; [apply (safe_get _ (eq Do)); intros c Hc; symmetry; apply Hc|]. intros ? <-.
  sstep; [eapply safe_lift_eq; apply PkModuloReduce_spec; lia|]. intros ? <-.
  rewrite Z.mod_small, u32_small by lia. rewrite ALIGN_UP_spec by lia.
  destruct (Z.leb_spec (8 * ((n + 7) / 8)) (Do - i)).
  - sstep; [eapply (safe_lift _ _ _ (fun bs => Zlength bs = n))|].
    { unfold mem_read. by rewrite in_bounds_true by lia. } { apply Zlength_zslice; lia. }
    intros bs Hl. cbv beta in Hl. apply safe_store; [lia|zlia|done].
  - assert (Do - i < n) by zlia.
    sstep; [eapply (safe_lift _ _ _ (fun bs => Zlength bs = Do - i))|].
    { unfold mem_read. by rewrite in_bounds_true by lia. } { apply Zlength_zslice; lia. }
    intros bs Hl. cbv beta in Hl. sstep; [apply (safe_store _ _ (fun _ => True)); [lia|lia|done]|]. intros _ _.
    rewrite u32_small by lia.
    sstep; [eapply (safe_lift _ _ _ (fun bs => Zlength bs = n - (Do - i)))|].
    { unfold mem_read. by rewrite in_bounds_true by lia. } { apply Zlength_zslice; lia. }
    intros bs2 Hl2. cbv beta in Hl2. apply safe_store; [lia|lia|done].
Qed.

Lemma safe_send buf n : 0 < n <= Do -> n <= Zlength buf ->
  safe I (PkSendPacketRaw buf n) (fun st => st = EFI_SUCCESS \/ st = EFI_RING_SIGNAL_OPPOSITE_ENDPOINT \/
    st = EFI_RING_CORRUPT_ERROR \/ st = EFI_BUFFER_TOO_SMALL \/ (st = EFI_INVALID_PARAMETER /\ Do < n + 16)).
Proof.
  intros Hn Hb. unfold PkSendPacketRaw.
  sstep; [apply (safe_lift _ _ tt (fun _ => True)); [apply ASSERT_holds; apply Z.ltb_lt; lia|done]|]. intros _ _.
  sstep; [apply (safe_get _ (valid Do)); intros c Hc; apply Hc|]. intros i Hi.
  sstep; [by apply safe_send_buffer|]. intros [[st next] b] [Hst Hs].
  destruct (EFI_ERROR st) eqn:E.
  - apply safe_ret. destruct Hst as [[-> _]|[[-> Hd]|[->| ->]]]; auto. do 4 right. split; [done|]. zlia.
  - assert (st = EFI_SUCCESS) as -> by (destruct Hst as [[-> ?]|[[-> _]|[->| ->]]]; done).
    destruct (Hs eq_refl) as [-> ->]. sstep; [by apply (safe_lift _ _ i (eq i))|]. intros ? <-.
    rewrite u32_small by (by apply (valid_u32 Do)).
    sstep; [by apply safe_write_packet|]. intros _ _.
    eapply safe_weaken; [apply safe_insertion|tauto].
    destruct (send_offsets i n Hi Hn) as (_ & _ & _ & _ & _ & _ & _ & _ & V3). done.
Qed.

(** What [PkGetReceiveBuffer] may return for a packet at [o]. *)
Definition received_buffer (o : Z) (r : EFI_STATUS * Z * option (Z * Z)) : Prop :=
  match r with
  | (st, next, Some (b, len)) => st = EFI_SUCCESS /\ b = o /\ 16 <= len /\ len mod 8 = 0 /\ len + 8 < Di /\
      next = (o + len + 8) mod Di
  | (st, next, None) => next = o /\ (st = EFI_END_OF_FILE \/ st = EFI_RING_CORRUPT_ERROR)
  end.

Lemma safe_receive_buffer o : valid Di o -> safe I (PkGetReceiveBuffer o) (received_buffer o).
Proof.
  intros [Ho Ho8]. pose proof HDi as [HD H8]. unfold PkGetReceiveBuffer.
  sstep; [apply (safe_get _ (eq Di)); intros c Hc; symmetry; apply Hc|]. intros ? <-.
  sstep; [apply (safe_get _ (valid Di)); intros c Hc; apply Hc|]. intros i0 Hi0.
  sstep; [apply (safe_lift _ _ tt (fun _ => True)); [apply ASSERT_holds; apply Z.ltb_lt; lia|done]|]. intros _ _.
  sstep.
  { apply (safe_if _ _ _ _ (fun r => match r with (st, i) =>
      (st = EFI_SUCCESS /\ valid Di i) \/ st = EFI_END_OF_FILE \/ st = EFI_RING_CORRUPT_ERROR end)); intros _;
      [|apply safe_ret; auto].
    sstep; [apply (safe_read_incoming In (fun v => 0 <= v < 2 ^ 32)); intros c Hc; apply Hc|]. intros i1 Hi1.
    apply safe_if; intros E1; [apply safe_ret; auto|]. apply (not_validated Di) in E1; [|done].
    sstep; [apply (safe_modify _ (fun _ => True)); [intros c; by apply ctx_set_IncomingInCache|done]|]. intros _ _.
    apply safe_if; intros _; apply safe_ret; auto. }
  intros [st i] Hst. destruct (EFI_ERROR st) eqn:E.
  { apply safe_ret. split; [done|]. destruct Hst as [[-> _]|[->| ->]]; auto. done. }
  assert (Hi : valid Di i) by (destruct Hst as [[-> ?]|[->| ->]]; done). destruct Hi as [Hi Hi8].
  sstep; [eapply safe_lift_eq; apply PkpDataAvailable_spec; lia|]. intros ? <-.
  sstep; [apply (safe_load _ _ (fun bs => 0 <= le_combine bs < 2 ^ 16)); unfold OFFSET_OF_Length8; [lia|lia|zlia|]|].
  { intros bs Hl Hb. pose proof (le_combine_bound bs Hb) as Hr. by rewrite Hl in Hr. }
  intros bs Hlen. cbv beta in Hlen. set (len := le_combine bs) in *.
  unfold sizeof_PREVIOUS_PACKET_OFFSET, sizeof_VMPACKET_DESCRIPTOR.
  rewrite (u32_small (len * 8)), (u32_small (len * 8 + 8)) by lia.
  pose proof (Z.mod_pos_bound (i - o) Di ltac:(lia)).
  destruct (Z.ltb_spec (len * 8) 16); cbn [orb]; [apply safe_ret; split; auto|].
  destruct (Z.ltb_spec ((i - o) mod Di) (len * 8 + 8)); [apply safe_ret; split; auto|].
  sstep.
  { apply (safe_if _ _ _ _ (fun _ => True)); intros _; [|by apply safe_ret].
    sstep; [eapply safe_lift_eq; rewrite u32_small by lia; apply PkModuloReduce_spec; lia|]. intros ? <-.
    destruct (valid_mod Di (o + len * 8) HDi) as [Hv Hv8]; [zlia|].
    sstep; [apply (safe_load _ _ (fun _ => True)); [lia|lia|zlia|done]|]. intros prev _. by apply safe_ret. }
  intros corrupt _. apply safe_if; intros _; [apply safe_ret; split; auto|].
  sstep; [eapply safe_lift_eq; rewrite u32_small by lia; apply PkModuloReduce_spec; lia|]. intros ? <-.
  apply safe_ret. cbn. split_and!; try done; try lia; [zlia|by rewrite Z.add_assoc].
Qed.

Lemma safe_read_packet buf n o : valid Di o -> 0 <= n -> n + 8 < Di -> n <= Zlength buf ->
  safe I (PkReadPacketSingleMapped buf n o) (fun r => Zlength r = Zlength buf /\ (Forall is_byte buf -> Forall is_byte r)).
Proof.
  intros [Ho Ho8] Hn Hn8 Hb. pose proof HDi as [HD H8]. unfold PkReadPacketSingleMapped.
  assert (Hw : forall b off bs, 0 <= off -> off + Zlength bs <= Zlength b ->
    Forall is_byte bs -> safe I (lift (mem_write b off bs)) (fun r => Zlength r = Zlength b /\ (Forall is_byte b -> Forall is_byte r))).
  { intros b off bs H1 H2 Hbs. destruct (mem_write_zget b off bs H1 H2) as (m' & E & Hl & _). eapply safe_lift; [exact E|].
    split; [done|]. intros Hbb. unfold mem_write in E. destruct (in_bounds _ _ _); [|done]. injection E as <-.
    apply list.Forall_app. split; [by apply Forall_take|]. apply list.Forall_app. split; [done|by apply Forall_drop]. }
  sstep; [apply (safe_get _ (eq Di)); intros c Hc; symmetry; apply Hc|]. intros ? <-.
  sstep; [eapply safe_lift_eq; apply PkModuloReduce_spec; lia|]. intros ? <-.
  rewrite Z.mod_small, (u32_small (Di - o)) by lia. destruct (Z.leb_spec n (Di - o)).
  - sstep; [apply (safe_load _ _ (fun bs => Zlength bs = n /\ Forall is_byte bs)); [lia|lia|lia|auto]|]. intros bs [Hl Hbs].
    apply Hw; [lia|lia|done].
  - sstep; [apply (safe_load _ _ (fun bs => Zlength bs = Di - o /\ Forall is_byte bs)); [lia|lia|lia|auto]|]. intros bs [Hl Hbs].
    sstep; [apply Hw; [lia|lia|done]|]. intros b1 [Hb1 Hf1]. rewrite (u32_small (n - (Di - o))) by lia.
    sstep; [apply (safe_load _ _ (fun bs => Zlength bs = n - (Di - o) /\ Forall is_byte bs)); [lia|lia|lia|auto]|].
    intros bs2 [Hl2 Hbs2]. sstep; [apply Hw; [lia|lia|done]|]. intros b2 [Hb2 Hf2].
    sstep; [|intros _ _; apply safe_ret; split; [lia|auto]]. apply (safe_if _ _ _ _ (fun _ => True)); intros _; [|by apply safe_ret].
    unfold sizeof_PREVIOUS_PACKET_OFFSET.
    sstep; [eapply safe_lift_eq; rewrite u32_small by lia; apply PkModuloReduce_spec; lia|]. intros ? <-.
    apply (safe_lift _ _ tt); [|done]. apply ASSERT_holds, Z.eqb_eq.
    rewrite <- (Z.mod_add _ (-1)), Z.mod_small by lia. lia.
Qed.

Lemma safe_removal o : valid Di o ->
  safe I (PkCompleteRemoval o) (fun st => st = EFI_SUCCESS \/ st = EFI_RING_SIGNAL_OPPOSITE_ENDPOINT \/
    st = EFI_RING_NEWLY_EMPTY \/ st = EFI_RING_CORRUPT_ERROR).
Proof.
  intros Ho. pose proof (valid_u32 _ _ HDi Ho) as Ho32. pose proof HDi as [HD H8]. unfold PkCompleteRemoval.
  sstep; [apply (safe_get _ (eq Di)); intros c Hc; symmetry; apply Hc|]. intros ? <-.
  sstep; [apply (safe_lift _ _ tt (fun _ => True)); [apply ASSERT_holds, validate_spec; [lia|done]|done]|]. intros _ _.
  sstep; [by apply (safe_read_incoming _ (fun _ => True))|]. intros i0 _.
  sstep; [apply (safe_if _ _ _ _ (fun _ => True)); intros _; [by apply safe_expect|by apply safe_ret]|]. intros _ _.
  sstep; [apply (safe_get _ (valid Di)); intros c Hc; apply Hc|]. intros old [Hold _].
  sstep; [apply (safe_modify _ (fun _ => True)); [intros c; by apply ctx_set_IncomingOut|done]|]. intros _ _.
  sstep; [apply (safe_write_incoming _ (fun _ => True)); [intros c; by apply control_set_Out|done]|]. intros _ _.
  sstep; [by apply (safe_read_incoming _ (fun _ => True))|]. intros pending _.
  sstep; [apply (safe_read_incoming In (fun v => 0 <= v < 2 ^ 32)); intros c Hc; apply Hc|]. intros i Hi.
  apply safe_if; intros E1; [apply safe_ret; auto|]. apply (not_validated Di) in E1; [|done].
  sstep; [apply (safe_modify _ (fun _ => True)); [intros c; by apply ctx_set_IncomingInCache|done]|]. intros _ _.
  destruct Ho as [Ho _], E1 as [Hi' _].
  sstep.
  { apply (safe_if _ _ _ _ (fun _ => True)); intros _; [|by apply safe_ret].
    sstep; [eapply safe_lift_eq; apply PkpFreeBytes_spec; lia|]. intros ? _.
    sstep; [eapply safe_lift_eq; apply PkpFreeBytes_spec; lia|]. intros ? _. by apply safe_ret. }
  intros signal _. apply safe_if; intros _; [apply safe_ret; auto|]. apply safe_if; intros _; apply safe_ret; auto.
Qed.

Lemma safe_free_bytes : safe I PkGetOutgoingRingFreeBytes (fun f => 0 <= f < Do).
Proof.
  pose proof HDo as [HD H8]. unfold PkGetOutgoingRingFreeBytes.
  sstep; [apply (safe_get _ (eq Do)); intros c Hc; symmetry; apply Hc|]. intros ? <-.
  sstep; [apply (safe_get _ (valid Do)); intros c Hc; apply Hc|]. intros i [Hi _].
  sstep; [apply (safe_read_outgoing Out (fun v => 0 <= v < 2 ^ 32)); intros c Hc; apply Hc|]. intros o Ho.
  apply safe_if; intros E1; [apply safe_ret; lia|]. apply (not_validated Do) in E1 as [E1 _]; [|done].
  eapply safe_lift; [apply PkpFreeBytes_spec; lia|]. pose proof (Z.mod_pos_bound (i - o) Do). lia.
Qed.

Lemma safe_control : safe I PkpInitRingBufferControl (fun st => st = EFI_SUCCESS \/ st = EFI_RING_CORRUPT_ERROR).
Proof.
  unfold PkpInitRingBufferControl.
  sstep; [apply (safe_read_incoming In (fun v => 0 <= v < 2 ^ 32)); intros c Hc; apply Hc|]. intros ii Hii.
  sstep; [apply (safe_read_incoming Out (fun v => 0 <= v < 2 ^ 32)); intros c Hc; apply Hc|]. intros io Hio.
  sstep; [apply (safe_read_outgoing In (fun v => 0 <= v < 2 ^ 32)); intros c Hc; apply Hc|]. intros oi Hoi.
  sstep; [apply (safe_read_outgoing Out (fun v => 0 <= v < 2 ^ 32)); intros c Hc; apply Hc|]. intros oo Hoo.
  sstep; [apply (safe_get _ (eq Di)); intros c Hc; symmetry; apply Hc|]. intros ? <-.
  sstep; [apply (safe_get _ (eq Do)); intros c Hc; symmetry; apply Hc|]. intros ? <-.
  apply safe_if; intros E; [apply safe_ret; auto|].
  apply orb_false_iff in E as [[[E1 E2]%orb_false_iff E3]%orb_false_iff E4].
  apply not_validated in E1, E2, E3, E4; try done.
  sstep; [apply (safe_modify _ (fun _ => True)); [intros c; by apply ctx_set_IncomingInCache|done]|]. intros _ _.
  sstep; [apply (safe_modify _ (fun _ => True)); [intros c; by apply ctx_set_IncomingOut|done]|]. intros _ _.
  sstep; [apply (safe_modify _ (fun _ => True)); [intros c; by apply ctx_set_OutgoingIn|done]|]. intros _ _.
  sstep; [apply (safe_modify _ (fun _ => True)); [intros c; by apply ctx_set_OutgoingOutCache|done]|]. intros _ _.
  sstep; [apply (safe_write_outgoing _ (fun _ => True)); [intros c; by apply control_set_Pending|done]|]. intros _ _.
  sstep; [apply (safe_write_incoming _ (fun _ => True)); [by intros c (? & ? & ? & ?)|done]|]. intros _ _.
  sstep; [apply (safe_write_outgoing _ (fun _ => True)); [by intros c|done]|]. intros _ _.
  sstep; [apply (safe_write_outgoing _ (fun _ => True)); [by intros c|done]|]. intros _ _.
  sstep; [by apply (safe_expect _ (fun _ => True))|]. intros _ _.
  sstep; [by apply (safe_expect _ (fun _ => True))|]. intros _ _. apply safe_ret. auto.
Qed.

(** Receive one packet the way the channel does: find it, copy it out, release
    its space. *)
Definition receive_one : M (EFI_STATUS * option (list Z)) :=
  o ← PkGetIncomingRingOffset;
  '(st, next, b) ← PkGetReceiveBuffer o;
  match b with
  | None => mret (st, None)
  | Some (buffer, len) =>
    packet ← PkReadPacketSingleMapped (replicate (Z.to_nat len) 0) len buffer;
    st ← PkCompleteRemoval next;
    mret (st, Some packet)
  end.

Definition received_packet (r : EFI_STATUS * option (list Z)) : Prop :=
  match r with
  | (st, Some p) => 16 <= Zlength p < Di - 8 /\ Zlength p mod 8 = 0 /\
      (st = EFI_SUCCESS \/ st = EFI_RING_SIGNAL_OPPOSITE_ENDPOINT \/ st = EFI_RING_NEWLY_EMPTY \/ st = EFI_RING_CORRUPT_ERROR)
  | (st, None) => st = EFI_END_OF_FILE \/ st = EFI_RING_CORRUPT_ERROR
  end.

Lemma safe_receive : safe I receive_one received_packet.
Proof.
  unfold receive_one, PkGetIncomingRingOffset.
  sstep; [apply (safe_get _ (valid Di)); intros c Hc; apply Hc|]. intros o Ho.
  sstep; [by apply safe_receive_buffer|]. intros [[st next] [[b len]|]] Hr; cbn in Hr.
  2:{ apply safe_ret. cbn. tauto. }
  destruct Hr as (-> & -> & Hlen & H8 & Hmax & ->).
  assert (Hz : Zlength (replicate (Z.to_nat len) 0) = len) by (apply Zlength_replicate; lia).
  sstep; [apply safe_read_packet; [done|lia|lia|lia]|]. intros p [Hp _].
  destruct Ho as [Ho Ho8].
  sstep; [apply safe_removal; apply valid_mod; [done|zlia]|]. intros st Hst. apply safe_ret. cbn.
  rewrite Hp, Hz. auto with lia.
Qed.

(** ** Clients *)
Inductive client_op : Type := Send (packet : list Z) | Receive | QueryFree.

Definition op_ok (o : client_op) : Prop :=
  match o with Send p => 0 < Zlength p <= Do | _ => True end.

Definition run_op (o : client_op) : M unit :=
  match o with
  | Send p => _ ← PkSendPacketRaw p (Zlength p); mret tt
  | Receive => _ ← receive_one; mret tt
  | QueryFree => _ ← PkGetOutgoingRingFreeBytes; mret tt
  end.

Fixpoint run_ops (os : list client_op) : M unit :=
  match os with
  | [] => mret tt
  | o :: os => _ ← run_op o; run_ops os
  end.

Lemma safe_run os : Forall op_ok os -> safe I (run_ops os) (fun _ => True).
Proof.
  induction 1 as [|o os Ho _ IH]; [by apply safe_ret|]. cbn [run_ops].
  apply (safe_bind _ _ _ (fun _ => True)); [|intros _ _; exact IH].
  destruct o as [p| |]; cbn [run_op] in *.
  - sstep; [by apply safe_send|]. intros _ _. by apply safe_ret.
  - sstep; [apply safe_receive|]. intros _ _. by apply safe_ret.
  - sstep; [apply safe_free_bytes|]. intros _ _. by apply safe_ret.
Qed.

(** After [ZeroMem] the context already satisfies the invariant. *)
Lemma initial_ctx : ctx_ok Do Di (mkCtx Do Di 0 0 0 0 0 0 0 0 0).
Proof.
  destruct HDo, HDi. split; try done; unfold valid; cbn; split; (lia || done).
Qed.
End Safety.

Lemma page_ring n : 0 < n <= 2 ^ 19 -> u32 (n * EFI_PAGE_SIZE) = n * EFI_PAGE_SIZE /\ ring_size (n * EFI_PAGE_SIZE).
Proof.
  intros H. unfold EFI_PAGE_SIZE. split; [apply u32_small; lia|]. split; [lia|zlia].
Qed.

(** ** Properties *)

(** C19. Robustness against the host.  Let the opposite endpoint write anything
    to the shared memory at every access.  Initialisation returns, and if it
    accepts the ring, any sequence of sends (of packets no larger than the
    ring), receives and queries returns without touching memory outside the
    rings and without tripping an ASSERT; throughout, the private copies of the
    ring pointers stay inside their ring and 8-byte aligned, and at most 64
    interrupts are expected. *)
Theorem pk_ring_robust {B : BuildOptions} {P : Peer} inPages outPages os w :
  peer_ok -> 0 < inPages <= 2 ^ 19 -> 0 < outPages <= 2 ^ 19 ->
  shm_ok (outPages * EFI_PAGE_SIZE) (inPages * EFI_PAGE_SIZE) (shm w) ->
  Forall (op_ok (outPages * EFI_PAGE_SIZE)) os ->
  exists st w1 w2, PkInitializeSingleMappedRingBuffer inPages outPages w = Ok (st, w1) /\
    (st = EFI_SUCCESS \/ st = EFI_RING_CORRUPT_ERROR) /\
    run_ops os w1 = Ok (tt, w2) /\
    ctx_ok (outPages * EFI_PAGE_SIZE) (inPages * EFI_PAGE_SIZE) (ctx w2).
Proof.
  intros HP Hi Ho Hs Hos. destruct (page_ring _ Hi) as [Ei Ri]. destruct (page_ring _ Ho) as [Eo Ro].
  unfold PkInitializeSingleMappedRingBuffer, modify, mbind, M_bind. cbn. rewrite Ei, Eo.
  destruct (safe_control HP (outPages * EFI_PAGE_SIZE) (inPages * EFI_PAGE_SIZE) (mkWorld (mkCtx (outPages * EFI_PAGE_SIZE) (inPages * EFI_PAGE_SIZE) 0 0 0 0 0 0 0 0 0) (shm w) (now w)))
    as (st & w1 & E1 & I1 & Hst); [split; [by apply initial_ctx|done]|].
  destruct (safe_run HP _ _ Ro Ri os Hos w1 I1) as ([] & w2 & E2 & [Hc _] & _). by exists st, w1, w2.
Qed.

(** A hostile host: it overwrites every field of both control blocks, with
    different values at each access. *)
Definition hostile : Peer := fun t s =>
  let v := Z.of_nat t * 1000003 mod 2 ^ 32 in
  mkShared (mkRing (mkVMRCB v v v v v) (Data (outgoing s))) (mkRing (mkVMRCB v v v v v) (Data (incoming s))).

Lemma hostile_ok : peer_ok (H := hostile).
Proof.
  intros Do Di t s (_ & _ & Ho & Hi & Hb). unfold interfere, hostile.
  pose proof (Z.mod_pos_bound (Z.of_nat t * 1000003) (2 ^ 32) ltac:(lia)).
  split_and!; cbn; try done; unfold u32_control; cbn; auto.
Qed.

Definition blank (Do Di : Z) : shared :=
  mkShared (mkRing (mkVMRCB 0 0 0 0 0) (replicate (Z.to_nat Do) 0)) (mkRing (mkVMRCB 0 0 0 0 0) (replicate (Z.to_nat Di) 0)).

Lemma blank_ok Do Di : 0 <= Do -> 0 <= Di -> shm_ok Do Di (blank Do Di).
Proof.
  intros. split_and!; cbn; try done; [by apply Zlength_replicate..|]. apply Forall_replicate. done.
Qed.

Lemma pk_ring_robust_witness :
  exists st w1 w2,
    PkInitializeSingleMappedRingBuffer (P := hostile) 1 2 (mkWorld (mkCtx 0 0 0 0 0 0 0 0 0 0 0) (blank 8192 4096) 0)
      = Ok (st, w1) /\
    run_ops (B := debug_build) (P := hostile) [Send [1; 2; 3]; Receive; Send (replicate 100 7); QueryFree; Receive] w1 = Ok (tt, w2).
Proof.
  destruct (pk_ring_robust (B := debug_build) (P := hostile) 1 2
    [Send [1; 2; 3]; Receive; Send (replicate 100 7); QueryFree; Receive]
    (mkWorld (mkCtx 0 0 0 0 0 0 0 0 0 0 0) (blank 8192 4096) 0)) as (st & w1 & w2 & E1 & _ & E2 & _).
  - apply hostile_ok.
  - lia.
  - lia.
  - apply (blank_ok 8192 4096); lia.
  - repeat constructor; vm_compute; done.
  - by exists st, w1, w2.
Defined.

(** C20. Every packet handed to the receiver is well-formed in size.  From any
    state of the shared memory, receiving returns; a packet it yields has at
    least a descriptor, is a whole number of 64-bit words and, with its
    trailer, is shorter than the ring, whatever length the host wrote in it;
    without a packet the status is [EFI_END_OF_FILE] or
    [EFI_RING_CORRUPT_ERROR]. *)
Theorem pk_receive_bounded {B : BuildOptions} {P : Peer} Do Di w :
  peer_ok -> ring_size Do -> ring_size Di -> inv Do Di w ->
  exists st packet w', receive_one w = Ok ((st, packet), w') /\ inv Do Di w' /\
    match packet with
    | Some p => 16 <= Zlength p < Di - 8 /\ Zlength p mod 8 = 0 /\
        (st = EFI_SUCCESS \/ st = EFI_RING_SIGNAL_OPPOSITE_ENDPOINT \/ st = EFI_RING_NEWLY_EMPTY \/
         st = EFI_RING_CORRUPT_ERROR)
    | None => st = EFI_END_OF_FILE \/ st = EFI_RING_CORRUPT_ERROR
    end.
Proof.
  intros HP Ho Hi Hw. destruct (safe_receive HP Do Di Hi w Hw) as ([st p] & w' & E & Hw' & Hr).
  exists st, p, w'. split_and!; [done|done|]. by destruct p.
Qed.

Lemma pk_receive_bounded_witness :
  exists st packet w', receive_one (B := debug_build) (P := hostile) (mkWorld (mkCtx 4096 64 8 0 0 0 0 0 0 0 0) (blank 4096 64) 0)
    = Ok ((st, packet), w').
Proof.
  destruct (pk_receive_bounded (B := debug_build) (P := hostile) 4096 64
    (mkWorld (mkCtx 4096 64 8 0 0 0 0 0 0 0 0) (blank 4096 64) 0)) as (st & p & w' & E & _).
  - apply hostile_ok.
  - split; [lia|done].
  - split; [lia|done].
  - split; [|apply blank_ok; lia]. split; try done; unfold valid; cbn; split; (lia || done).
  - by exists st, p, w'.
Defined.
