(* ===== verification/PkRingFifo.v ===== *)
(** The packet rings are FIFO channels between honest endpoints: what a send
    does to the ring while a consumer drains it concurrently, and what a
    receive yields while a producer fills it concurrently.

    Positions in the byte stream are unbounded integers; a ring pointer is a
    position modulo the ring size. *)
From stdpp Require Import base list numbers list_numbers option.
From Stdlib Require Import ZArith Lia.
From S2P Require Import Prelude Circular PkRing PkRingSafe.
Open Scope Z_scope.
Import PkRing.

Definition triple {A} (Pre : world -> Prop) (m : M A) (Post : A -> world -> Prop) : Prop :=
  forall w, Pre w -> exists a w', m w = Ok (a, w') /\ Post a w'.

Lemma triple_bind {A C} Pre (m : M A) (k : A -> M C) Mid Post :
  triple Pre m Mid -> (forall a, triple (Mid a) (k a) Post) -> triple Pre (m ≫= k) Post.
Proof.
  intros Hm Hk w Hw. destruct (Hm w Hw) as (a & w' & E & Ha).
  unfold mbind, M_bind. rewrite E. by apply (Hk a).
Qed.

Lemma run_bind {A C} (m : M A) (k : A -> M C) w a w' : m w = Ok (a, w') -> (m ≫= k) w = k a w'.
Proof. intros E. unfold mbind, M_bind. by rewrite E. Qed.

Lemma triple_ret {A} (Pre : world -> Prop) (a : A) (Post : A -> world -> Prop) :
  (forall w, Pre w -> Post a w) -> triple Pre (mret a) Post.
Proof. intros H w Hw. exists a, w. auto. Qed.

Lemma triple_lift {A} (Pre : world -> Prop) (r : result A) a :
  r = Ok a -> triple Pre (lift r) (fun x w => x = a /\ Pre w).
Proof. intros -> w Hw. by exists a, w. Qed.

(** Facts in the precondition that do not depend on the world. *)
Lemma triple_pure {A} (F : Prop) Pre (m : M A) Post :
  (F -> triple Pre m Post) -> triple (fun w => F /\ Pre w) m Post.
Proof. intros H w [HF Hw]. by apply (H HF). Qed.

Lemma triple_use {A} (F : Prop) Pre (m : M A) Post :
  (forall w, Pre w -> F) -> (F -> triple Pre m Post) -> triple Pre m Post.
Proof. intros HF H w Hw. by apply (H (HF w Hw)). Qed.

Lemma triple_pre {A} (Pre Pre' : world -> Prop) (m : M A) Post :
  (forall w, Pre' w -> Pre w) -> triple Pre m Post -> triple Pre' m Post.
Proof. intros HP H w Hw. by apply H, HP. Qed.

Lemma triple_ex {A X} Pre (m : M A) Post :
  (forall x : X, triple (Pre x) m Post) -> triple (fun w => exists x, Pre x w) m Post.
Proof. intros H w [x Hw]. by apply (H x). Qed.

Ltac tstep := eapply triple_bind.
Tactic Notation "tpure" simple_intropattern(p) := apply triple_pure; intros p.

(** ** Positions *)
Lemma distance D t h : 0 < D -> 0 <= t - h < D -> (t mod D - h mod D) mod D = t - h.
Proof. intros HD H. rewrite <- Zminus_mod. by apply Z.mod_small. Qed.

Lemma free_at `{BuildOptions} D t h :
  0 < D <= 2 ^ 31 -> 0 <= t - h < D -> PkpFreeBytes D (t mod D) (h mod D) = Ok (D - 1 - (t - h)).
Proof.
  intros HD H1. rewrite PkpFreeBytes_spec by (try apply Z.mod_pos_bound; lia). by rewrite distance by lia.
Qed.

Lemma avail_at `{BuildOptions} D t h :
  0 < D <= 2 ^ 31 -> 0 <= t - h < D -> PkpDataAvailable D (t mod D) (h mod D) = Ok (t - h).
Proof.
  intros HD H1. rewrite PkpDataAvailable_spec by (try apply Z.mod_pos_bound; lia). by rewrite distance by lia.
Qed.

Lemma mod_shift D t k : (t mod D + k) mod D = (t + k) mod D.
Proof. apply Zplus_mod_idemp_l. Qed.

(** ** The frame of a packet: padding to 64-bit words, then the trailer that
    records where the packet started. *)
Definition padded_size (n : Z) : Z := 8 * ((n + 7) / 8).
Definition frame (D pos : Z) (p : list Z) : list Z :=
  p ++ replicate (Z.to_nat (padded_size (Zlength p) - Zlength p)) 0 ++ le_split 4 0 ++ le_split 4 (pos mod D).

Lemma Zlength_frame D pos p : Zlength (frame D pos p) = padded_size (Zlength p) + 8.
Proof.
  unfold frame. rewrite !Zlength_app, !Zlength_le_split, Zlength_replicate by (unfold padded_size; zlia). lia.
Qed.

(** An honest consumer only moves [Out] forward, over published data. *)
Definition honest_consumer `{Peer} (D : Z) : Prop := forall n s,
  let s' := interfere n s in
  let c := Control (outgoing s) in let c' := Control (outgoing s') in
  0 <= In c < D -> 0 <= Out c < D ->
  Data (outgoing s') = Data (outgoing s) /\ In c' = In c /\
  exists k, 0 <= k <= (In c - Out c) mod D /\ k mod 8 = 0 /\ Out c' = (Out c + k) mod D.

Section Sender.
Context {B : BuildOptions} {P : Peer} (D : Z) (HD : ring_size D) (Hpeer : honest_consumer D).
(** When the consumer is idle ([still]), it stays at position [h0]. *)
Context (still : Prop) (h0 : Z) (Hstill : still -> forall n s, interfere n s = s).

(** The sender's view: everything below position [t] is published; the
    consumer has released at least everything below [h], of which the sender
    has cached [c]. *)
Record sending (d : list Z) (own t h c : Z) (w : world) : Prop := {
  s_size : Outgoing_DataBytesInRing (ctx w) = D;
  s_data : Data (outgoing (shm w)) = d;
  s_len : Zlength d = D;
  s_own : OutgoingIn (ctx w) = own mod D;
  s_in : In (Control (outgoing (shm w))) = t mod D;
  s_align : t mod 8 = 0;
  s_out : exists h', h <= h' <= t /\ h' mod 8 = 0 /\ Out (Control (outgoing (shm w))) = h' mod D /\ (still -> h' = h0);
  s_cache : c <= h /\ t - c < D /\ c mod 8 = 0 /\ OutgoingOutCache (ctx w) = c mod D
}.

Lemma interfere_sending d own t h c w n :
  sending d own t h c w -> sending d own t h c (mkWorld (ctx w) (interfere n (shm w)) (S n)).
Proof.
  intros [H1 H2 H3 H4 H5 H6 (h' & Hh & Hh8 & Eo & Hst) (Hc & Hct & Hc8 & Ec)].
  destruct HD as [HDp _].
  destruct (Hpeer n (shm w)) as (Ed & Ei & k & Hk & Hk8 & Eo');
    [rewrite H5; apply Z.mod_pos_bound; lia|rewrite Eo; apply Z.mod_pos_bound; lia|].
  rewrite H5, Eo, distance in Hk by lia. rewrite Eo in Eo'.
  split; cbn; try congruence; try done.
  exists (h' + k). rewrite Zplus_mod_idemp_l in Eo'. split_and!; [lia|lia|zlia|done|].
  intros Hs. rewrite (Hstill Hs), Eo in Eo'. rewrite <- (Hst Hs).
  pose proof (distance D (h' + k) h' ltac:(lia) ltac:(lia)) as Hd.
  rewrite <- Eo', Z.sub_diag, Z.mod_0_l in Hd by lia. lia.
Qed.

Lemma send_get {A} (f : PACKET_LIB_CONTEXT -> A) d own t h c :
  triple (sending d own t h c) (get f) (fun a w => a = f (ctx w) /\ sending d own t h c w).
Proof. intros w Hw. by exists (f (ctx w)), w. Qed.

(** Reading [Out] tells how far the consumer is at least. *)
Lemma send_read_out d own t h c :
  triple (sending d own t h c) (read_outgoing Out)
    (fun o w => exists h', h <= h' <= t /\ h' mod 8 = 0 /\ o = h' mod D /\ sending d own t h' c w).
Proof.
  intros w Hw. pose proof (interfere_sending _ _ _ _ _ _ (now w) Hw) as [H1 H2 H3 H4 H5 H6 (h' & Hh & Hh8 & Eo & Hst) (Hc & Hct & Hc8 & Ec)].
  eexists _, _. split; [done|]. exists h'. split_and!; try done; try lia.
  split; cbn; try done; [exists h'; split_and!; (done || lia)|split_and!; (done || lia)].
Qed.

Lemma send_read_mask d own t h c :
  triple (sending d own t h c) (read_outgoing InterruptMask) (fun _ => sending d own t h c).
Proof. intros w Hw. eexists _, _. split; [done|]. by apply interfere_sending. Qed.

Lemma send_set_cache d own t h c :
  triple (sending d own t h c) (modify (set_OutgoingOutCache (h mod D)))
    (fun _ w => h mod 8 = 0 -> sending d own t h h w).
Proof.
  intros w []. eexists _, _. split; [done|]. intros H8. split; cbn; try done.
  destruct s_out0 as (h' & ? & _), s_cache0 as (? & ? & _). split_and!; (done || lia).
Qed.

(** Updates that do not touch what the sender's view mentions. *)
Lemma send_modify f d own t h c :
  (forall x, Outgoing_DataBytesInRing (f x) = Outgoing_DataBytesInRing x /\ OutgoingIn (f x) = OutgoingIn x /\
     OutgoingOutCache (f x) = OutgoingOutCache x) ->
  triple (sending d own t h c) (modify f) (fun _ => sending d own t h c).
Proof.
  intros Hf w []. destruct (Hf (ctx w)) as (E1 & E2 & E3). eexists _, _. split; [done|]. split; cbn; rewrite ?E1, ?E2, ?E3; done.
Qed.

Lemma send_write_control f d own t h c :
  (forall c, In (f c) = In c /\ Out (f c) = Out c) ->
  triple (sending d own t h c) (write_outgoing f) (fun _ => sending d own t h c).
Proof.
  intros Hf w Hw. destruct (interfere_sending _ _ _ _ _ _ (now w) Hw). eexists _, _. split; [done|]. cbn in *.
  destruct (Hf (Control (outgoing (interfere (now w) (shm w))))) as [E1 E2].
  split; cbn; rewrite ?E1, ?E2; done.
Qed.

Lemma send_store off bs d own t h c pos :
  off = pos mod D -> off + Zlength bs <= D ->
  triple (sending d own t h c) (store_outgoing off bs)
    (fun _ w => exists d', cwritten d d' pos bs /\ sending d' own t h c w).
Proof.
  intros -> Hl w Hw. destruct (interfere_sending _ _ _ _ _ _ (now w) Hw). cbn in *. destruct HD as [HDp _].
  pose proof (Z.mod_pos_bound pos D ltac:(lia)).
  unfold store_outgoing, write_shm.
  destruct (cwritten_contiguous d (pos mod D) bs) as (d' & E & Hd); [lia..|].
  rewrite s_data0, E, bind_Ok. eexists _, _. split; [done|]. exists d'. split.
  - rewrite <- s_len0 in Hd. by apply cwritten_mod.
  - split; cbn; try done. by rewrite (proj1 Hd).
Qed.

(** Whether a frame of [total] bytes fits, against a concurrent consumer. *)
Definition room (total t h c : Z) (st : EFI_STATUS) : Prop :=
  (st = EFI_SUCCESS /\ total <= D - 1 - (t - c)) \/ (st = EFI_INVALID_PARAMETER /\ D <= total) \/
  (st = EFI_BUFFER_TOO_SMALL /\ total < D /\ D - 1 - (t - h) < total).

Lemma sending_gap d own t h c w : sending d own t h c w -> c <= h <= t /\ 0 <= t - c < D.
Proof. intros [_ _ _ _ _ _ (h' & ? & _) (? & ? & _)]. lia. Qed.

Lemma validate_pos h : h mod 8 = 0 -> negb (PkpValidatePointer D (h mod D)) = false.
Proof.
  intros H. rewrite (proj2 (validate_spec D (h mod D) (proj1 (Z.mod_pos_bound h D (proj1 (proj1 HD)))))); [done|].
  by apply valid_mod.
Qed.

Lemma send_check total d t h c :
  0 < total < 2 ^ 32 ->
  triple (sending d t t h c) (PkpCheckSendBufferFreeBytes total (t mod D) (c mod D) D)
    (fun st w => exists h' c', h <= h' /\ room total t h' c' st /\ sending d t t h' c' w).
Proof.
  intros Htot. pose proof HD as [HDp H8]. unfold PkpCheckSendBufferFreeBytes.
  eapply triple_use; [apply sending_gap|]. intros [Hc Hct].
  tstep; [apply triple_lift, free_at; lia|]. intros ?. tpure ->.
  destruct (Z.ltb_spec (D - 1 - (t - c)) total); cbn [negb].
  2:{ apply triple_ret. intros w Hw. exists h, c. split_and!; [lia| |done]. left. split; [done|lia]. }
  tstep; [apply send_read_out|]. intros o. apply triple_ex. intros h1. tpure Hh1. tpure Hh18. tpure ->.
  rewrite validate_pos by done. tstep; [apply send_set_cache|]. intros [].
  eapply triple_pre; [intros w Hw; exact (Hw Hh18)|]. tstep; [apply triple_lift, free_at; lia|]. intros ?. tpure ->.
  destruct (Z.ltb_spec (D - 1 - (t - h1)) total); cbn [negb].
  2:{ apply triple_ret. intros w Hw. exists h1, h1. split_and!; [lia| |done]. left. split; [done|lia]. }
  destruct (Z.leb_spec D total).
  { apply triple_ret. intros w Hw. exists h1, h1. split_and!; [lia| |done]. right. left. split; [done|lia]. }
  tstep; [apply send_get|]. intros pending. eapply triple_pre; [intros w Hw; exact (proj2 Hw)|].
  apply (triple_bind _ _ _ (fun _ => sending d t t h1 h1)).
  { destruct (pending =? 0); [|apply triple_ret; auto]. apply send_modify. intros c'. by destruct (_ <? _). }
  intros _. tstep; [apply send_get|]. intros own.
  apply (triple_use (own = t mod D)); [intros w [-> Hw]; apply Hw|]. intros ->.
  eapply triple_pre; [intros w Hw; exact (proj2 Hw)|]. tstep; [apply triple_lift, avail_at; lia|]. intros ?. tpure ->.
  tstep; [apply send_write_control; intros c'; by destruct c'|]. intros [].
  tstep; [apply send_modify; intros c'; by destruct c'|]. intros [].
  tstep; [apply send_read_out|]. intros o. apply triple_ex. intros h2. tpure Hh2. tpure Hh28. tpure ->.
  rewrite validate_pos by done. tstep; [apply send_set_cache|]. intros [].
  eapply triple_pre; [intros w Hw; exact (Hw Hh28)|]. tstep; [apply triple_lift, free_at; lia|]. intros ?. tpure ->.
  destruct (Z.ltb_spec (D - 1 - (t - h2)) total); apply triple_ret; intros w Hw; exists h2, h2; split_and!; try lia; try done.
  - right. right. split_and!; [done|lia|lia].
  - left. split; [done|lia].
Qed.

Definition trailer (t : Z) : list Z := le_split 4 0 ++ le_split 4 (t mod D).


Lemma send_buffer n d t h c :
  0 < n <= D -> t mod 8 = 0 ->
  triple (sending d t t h c) (PkGetSendBuffer (t mod D) n)
    (fun r w => match r with (st, next, b) => exists h' c' d', h <= h' /\ room (padded_size n + 8) t h' c' st /\
       sending d' t t h' c' w /\
       if EFI_ERROR st then d' = d
       else b = Some (t mod D) /\ next = (t + (padded_size n + 8)) mod D /\
         exists d1, cwritten d d1 (t + padded_size n - 8) (le_split 8 0) /\
                    cwritten d1 d' (t + padded_size n) (trailer t)
     end).
Proof.
  intros Hn Ht. pose proof HD as [HDp H8]. destruct (aligned_size D HD n Hn) as (Ea & Hna & Hna').
  destruct (send_offsets D HD (t mod D) n) as (E1 & E2 & Q1 & Q2 & Hq & E3 & V1 & V2 & V3); [by apply valid_mod|done|].
  unfold PkGetSendBuffer. rewrite Ea. unfold padded_size. set (a := 8 * ((n + 7) / 8)) in *.
  unfold sizeof_PREVIOUS_PACKET_OFFSET in *.
  tstep; [apply send_get|]. intros D'. apply (triple_use (D' = D)); [intros w [-> Hw]; apply Hw|]. intros ->.
  eapply triple_pre; [intros w Hw; exact (proj2 Hw)|].
  tstep; [apply send_get|]. intros out. apply (triple_use (out = c mod D)); [intros w [-> Hw]; apply Hw|]. intros ->.
  eapply triple_pre; [intros w Hw; exact (proj2 Hw)|].
  tstep; [apply triple_lift; exact E1|]. intros ?. tpure ->.
  tstep; [apply triple_lift; exact E2|]. intros ?. tpure ->.
  tstep; [apply triple_lift, ASSERT_holds, Z.leb_le; by apply Hq|]. intros ?. tpure _.
  tstep; [apply triple_lift, ASSERT_holds, Z.leb_le; by apply Hq|]. intros ?. tpure _.
  rewrite (u32_small (a + 8)) in * by lia.
  tstep; [apply send_check; lia|]. intros st. apply triple_ex. intros h'. apply triple_ex. intros c'. tpure Hh. tpure Hroom.
  eapply triple_use; [apply sending_gap|]. intros Hgap.
  destruct (EFI_ERROR st) eqn:Est.
  { apply triple_ret. intros w Hw. exists h', c', d. by rewrite Est. }
  assert (st = EFI_SUCCESS /\ a + 8 < D) as [-> Hfit].
  { destruct Hroom as [[-> ?]|[[-> _]|[-> _]]]; try done. split; [done|lia]. }
  rewrite Q1, Q2, <- Z.add_sub_assoc, !mod_shift, Z.add_sub_assoc in *.
  tstep; [apply (send_store _ _ _ _ _ _ _ (t + a - 8)); [done|rewrite Zlength_le_split; unfold valid in V1; zlia]|].
  intros []. apply triple_ex. intros d1. tpure Hd1.
  tstep; [apply (send_store _ _ _ _ _ _ _ (t + a)); [done|rewrite Zlength_app, !Zlength_le_split; unfold valid in V2; zlia]|].
  intros []. apply triple_ex. intros d2. tpure Hd2.
  tstep; [apply send_get|]. intros pending. eapply triple_pre; [intros w Hw; exact (proj2 Hw)|].
  apply (triple_bind _ _ _ (fun _ => sending d2 t t h' c')).
  { destruct (negb (pending =? 0)); [|apply triple_ret; auto].
    tstep; [apply send_modify; intros x; by destruct x|]. intros []. apply send_write_control. intros x. by destruct x. }
  intros _. tstep; [apply triple_lift; by apply E3|]. intros ?. tpure ->.
  apply triple_ret. intros w Hw. exists h', c', d2. cbn [EFI_ERROR]. split_and!; try done.
  - by rewrite <- Z.add_assoc, mod_shift.
  - by exists d1.
Qed.

Lemma send_write_packet p d own t h c pos :
  0 < Zlength p <= D -> pos mod 8 = 0 ->
  triple (sending d own t h c) (PkWritePacketSingleMapped p (Zlength p) (pos mod D))
    (fun _ w => exists d', cwritten d d' pos p /\ sending d' own t h c w).
Proof.
  intros Hp Hpos. pose proof HD as [HDp H8]. unfold PkWritePacketSingleMapped.
  destruct (valid_mod D pos HD Hpos) as [Hv Hv8].
  tstep; [apply send_get|]. intros D'. apply (triple_use (D' = D)); [intros w [-> Hw]; apply Hw|]. intros ->.
  apply (triple_use (Zlength d = D)); [intros w [_ Hw]; apply Hw|]. intros Hd.
  eapply triple_pre; [intros w Hw; exact (proj2 Hw)|].
  tstep; [apply triple_lift, PkModuloReduce_spec; lia|]. intros ?. tpure ->. rewrite Zmod_mod, u32_small by lia.
  rewrite ALIGN_UP_spec by lia. set (i := pos mod D) in *.
  assert (Hread : forall off n, 0 <= off -> 0 <= n -> off + n <= Zlength p -> mem_read p off n = Ok (zslice off n p)).
  { intros. unfold mem_read. by rewrite in_bounds_true by lia. }
  destruct (Z.leb_spec (8 * ((Zlength p + 7) / 8)) (D - i)).
  - tstep; [apply triple_lift, Hread; lia|]. intros ?. tpure ->.
    assert (zslice 0 (Zlength p) p = p) as -> by (unfold zslice, Zlength; by rewrite Nat2Z.id, drop_0, firstn_all).
    apply send_store; [done|zlia].
  - assert (D - i < Zlength p) by zlia. rewrite u32_small by lia.
    assert (Hp2 : zslice 0 (D - i) p ++ zslice (D - i) (Zlength p - (D - i)) p = p).
    { unfold zslice. rewrite drop_0, (take_ge (drop _ _)) by (rewrite length_drop; unfold Zlength; lia). apply take_drop. }
    assert (L1 : Zlength (zslice 0 (D - i) p) = D - i) by (apply Zlength_zslice; lia).
    assert (L2 : Zlength (zslice (D - i) (Zlength p - (D - i)) p) = Zlength p - (D - i)) by (apply Zlength_zslice; lia).
    tstep; [apply triple_lift, Hread; lia|]. intros ?. tpure ->.
    tstep; [apply (send_store _ _ _ _ _ _ _ pos); [done|lia]|]. intros []. apply triple_ex. intros d1. tpure Hd1.
    tstep; [apply triple_lift, Hread; lia|]. intros ?. tpure ->.
    intros w Hw. destruct (send_store 0 (zslice (D - i) (Zlength p - (D - i)) p) d1 own t h c 0) with (w := w)
      as (a & w' & E & d2 & Hd2 & Hw'); [done|lia|done|].
    exists a, w'. split; [done|]. exists d2. split; [|done]. rewrite <- Hp2. apply cwritten_mod. rewrite Hd.
    apply (proj2 (cwritten_mod _ _ _ _)) in Hd1. rewrite Hd in Hd1. fold i in Hd1. fold i.
    eapply cwritten_two_chunks; [lia|lia|lia|exact Hd1|exact Hd2].
Qed.

Lemma send_insertion F d t h c :
  F mod 8 = 0 -> 0 < F <= D - 1 - (t - c) -> t mod 8 = 0 ->
  triple (sending d t t h c) (PkCompleteInsertion ((t + F) mod D))
    (fun st w => exists h' c', (st = EFI_SUCCESS \/ st = EFI_RING_SIGNAL_OPPOSITE_ENDPOINT) /\ h <= h' /\
       sending d (t + F) (t + F) h' c' w).
Proof.
  intros HF8 HF Ht8. pose proof HD as [HDp H8]. unfold PkCompleteInsertion.
  tstep; [apply send_get|]. intros D'. apply (triple_use (D' = D)); [intros w [-> Hw]; apply Hw|]. intros ->.
  eapply triple_pre; [intros w Hw; exact (proj2 Hw)|].
  tstep; [apply triple_lift, ASSERT_holds; apply negb_false_iff, validate_pos; zlia|]. intros ?. tpure _.
  tstep; [apply send_get|]. intros old. eapply triple_pre; [intros w Hw; exact (proj2 Hw)|].
  apply (triple_bind _ _ _ (fun _ => sending d (t + F) t h c)).
  { intros w []. eexists _, _. split; [done|]. by split. }
  intros _. apply (triple_bind _ _ _ (fun _ => sending d (t + F) (t + F) h c)).
  { intros w Hw. destruct (interfere_sending _ _ _ _ _ _ (now w) Hw). cbn in *. eexists _, _. split; [done|].
    split; cbn; try done; [zlia| |].
    - destruct s_out0 as (h' & ? & ? & ? & ?). exists h'. split_and!; (done || lia).
    - destruct s_cache0 as (? & ? & ? & ?). split_and!; (done || lia). }
  intros _. tstep; [apply send_read_mask|]. intros mask.
  tstep; [apply send_read_out|]. intros o. apply triple_ex. intros h1. tpure Hh1. tpure Hh18. tpure ->.
  rewrite validate_pos by done. tstep; [apply send_set_cache|]. intros [].
  eapply triple_pre; [intros w Hw; exact (Hw Hh18)|].
  assert (Hdone : forall st, (st = EFI_SUCCESS \/ st = EFI_RING_SIGNAL_OPPOSITE_ENDPOINT) ->
    triple (sending d (t + F) (t + F) h1 h1) (mret st) (fun st w => exists h' c',
      (st = EFI_SUCCESS \/ st = EFI_RING_SIGNAL_OPPOSITE_ENDPOINT) /\ h <= h' /\ sending d (t + F) (t + F) h' c' w)).
  { intros st Hst. apply triple_ret. intros w Hw. exists h1, h1. split_and!; (done || lia). }
  destruct (old =? _); [|by apply Hdone; left]. destruct (mask =? 0); [by apply Hdone; right|].
  tstep; [apply send_modify; intros x; by destruct x|]. intros []. apply Hdone. by left.
Qed.

(** The three partial writes make up the frame. *)
Lemma frame_written d d1 d2 d3 t p :
  Zlength d = D -> 0 < Zlength p -> padded_size (Zlength p) + 8 < D ->
  cwritten d d1 (t + padded_size (Zlength p) - 8) (le_split 8 0) ->
  cwritten d1 d2 (t + padded_size (Zlength p)) (trailer t) ->
  cwritten d2 d3 t p -> cwritten d d3 t (frame D t p).
Proof.
  intros Hd Hp Hfit [L1 G1] [L2 G2] [L3 G3]. rewrite L1 in L2. rewrite L2 in L3. split; [done|]. intros i.
  assert (Hpad : Zlength p <= padded_size (Zlength p) < Zlength p + 8 /\ 8 <= padded_size (Zlength p)) by (unfold padded_size; zlia).
  set (a := padded_size (Zlength p)) in *. rewrite Zlength_frame. fold a. rewrite Hd.
  assert (Hcg : forall m, Zlength m = D -> cget m (t + i) = cget m (t + i mod D)).
  { intros m Hm. unfold cget. f_equal. rewrite Hm. by rewrite Zplus_mod_idemp_r. }
  rewrite (Hcg d3), (Hcg d) by congruence.
  pose proof (Z.mod_pos_bound i D ltac:(lia)) as Hr. set (r := i mod D) in *. clearbody r. clear Hcg i.
  specialize (G3 r). specialize (G2 (r - a)). specialize (G1 (r - (a - 8))).
  rewrite L2, Hd, (Z.mod_small r) in G3 by lia. rewrite L1, Hd in G2. rewrite Hd in G1.
  replace (t + a + (r - a)) with (t + r) in G2 by lia. replace (t + a - 8 + (r - (a - 8))) with (t + r) in G1 by lia.
  replace (Zlength (trailer t)) with 8 in G2 by (unfold trailer; by rewrite Zlength_app, !Zlength_le_split).
  rewrite Zlength_le_split in G1.
  assert (Hmod : forall b, 0 <= b < D -> (r - b) mod D = if r <? b then r - b + D else r - b).
  { intros b Hb. destruct (Z.ltb_spec r b); [|apply Z.mod_small; lia].
    rewrite <- (Z.mod_add _ 1), Z.mod_small by lia. lia. }
  rewrite Hmod in G1, G2 by lia. rewrite G3, G2, G1. clear G1 G2 G3. unfold frame. fold a.
  assert (Hz : forall k, 0 <= k < 8 -> zget (le_split 8 0) k = 0).
  { intros k Hk. change (le_split 8 0) with (replicate (Z.to_nat 8) 0). by apply zget_replicate. }
  destruct (Z.ltb_spec r (Zlength p)); [rewrite (proj2 (Z.ltb_lt r (a + 8))) by lia; symmetry; apply zget_app_l; lia|].
  destruct (Z.ltb_spec r a).
  - rewrite (proj2 (Z.ltb_ge _ 8)) by lia. rewrite (proj2 (Z.ltb_ge r (a - 8))) by lia.
    rewrite (proj2 (Z.ltb_lt _ 8)), (proj2 (Z.ltb_lt r (a + 8))) by lia. rewrite Hz by lia.
    rewrite zget_app_r, zget_app_l, zget_replicate by (rewrite ?Zlength_replicate; lia). done.
  - destruct (Z.ltb_spec r (a + 8)).
    + rewrite (proj2 (Z.ltb_lt _ 8)) by lia. rewrite !zget_app_r by (rewrite ?Zlength_replicate; lia).
      rewrite Zlength_replicate by lia. unfold trailer. f_equal. lia.
    + rewrite (proj2 (Z.ltb_ge _ 8)) by lia. rewrite (proj2 (Z.ltb_ge r (a - 8))), (proj2 (Z.ltb_ge _ 8)) by lia. done.
Qed.

(** A send against a concurrent honest consumer. *)
Lemma send_packet p d t h c :
  0 < Zlength p <= D -> t mod 8 = 0 ->
  triple (sending d t t h c) (PkSendPacketRaw p (Zlength p))
    (fun st w => let F := padded_size (Zlength p) + 8 in exists h' c' d' t', h <= h' /\ sending d' t' t' h' c' w /\
       (((st = EFI_SUCCESS \/ st = EFI_RING_SIGNAL_OPPOSITE_ENDPOINT) /\ t' = t + F /\ cwritten d d' t (frame D t p)) \/
        (st = EFI_BUFFER_TOO_SMALL /\ t' = t /\ d' = d /\ F < D /\ D - 1 - (t - h') < F) \/
        (st = EFI_INVALID_PARAMETER /\ t' = t /\ d' = d /\ D <= F))).
Proof.
  intros Hp Ht. pose proof HD as [HDp H8]. unfold PkSendPacketRaw. cbv zeta.
  apply (triple_use (Zlength d = D)); [intros w Hw; apply Hw|]. intros Hd.
  tstep; [apply triple_lift, ASSERT_holds, Z.ltb_lt; lia|]. intros ?. tpure _.
  tstep; [apply send_get|]. intros own. apply (triple_use (own = t mod D)); [intros w [-> Hw]; apply Hw|]. intros ->.
  eapply triple_pre; [intros w Hw; exact (proj2 Hw)|].
  tstep; [by apply send_buffer|]. intros [[st next] b].
  apply triple_ex. intros h'. apply triple_ex. intros c'. apply triple_ex. intros d2. tpure Hh. tpure Hroom.
  destruct (EFI_ERROR st) eqn:Est.
  { apply triple_ret. intros w [Hw ->]. exists h', c', d, t. split_and!; try done.
    destruct Hroom as [[-> ?]|[[-> ?]|(-> & ? & ?)]]; [done| |]; auto 10. }
  assert (st = EFI_SUCCESS) as -> by (destruct Hroom as [[-> _]|[[-> _]|[-> _]]]; done).
  destruct Hroom as [[_ Hfit]|[[? _]|[? _]]]; [|done|done].
  eapply triple_use; [intros w [Hw H]; exact (conj (sending_gap _ _ _ _ _ _ Hw) H)|].
  intros (Hgap & -> & -> & d1 & W1 & W2). eapply triple_pre; [intros w Hw; exact (proj1 Hw)|].
  tstep; [by apply triple_lift|]. intros ?. tpure ->. rewrite u32_small by (destruct (valid_mod D t HD Ht); lia).
  tstep; [by apply (send_write_packet p d2 t t h' c' t)|]. intros []. apply triple_ex. intros d3. tpure W3.
  intros w Hw. destruct (send_insertion (padded_size (Zlength p) + 8) d3 t h' c') with (w := w)
    as (st & w' & E & h2 & c2 & Hst & Hh2 & Hw'); [unfold padded_size; zlia|unfold padded_size in *; zlia|done|done|].
  exists st, w'. split; [done|]. exists h2, c2, d3, (t + (padded_size (Zlength p) + 8)). split_and!; [lia|done|].
  left. split_and!; [done|done|]. eapply frame_written; try done; lia.
Qed.
End Sender.

(** ** Packet streams *)

(** A packet whose descriptor announces its padded length. *)
Definition packet_ok (p : list Z) : Prop :=
  16 <= Zlength p /\ le_combine (zslice 4 2 p) * 8 = padded_size (Zlength p) /\ padded_size (Zlength p) < 2 ^ 19.

Definition pad (p : list Z) : list Z := p ++ replicate (Z.to_nat (padded_size (Zlength p) - Zlength p)) 0.

Fixpoint stream (D pos : Z) (ps : list (list Z)) : list Z :=
  match ps with
  | [] => []
  | p :: ps => frame D pos p ++ stream D (pos + Zlength (frame D pos p)) ps
  end.

Lemma padded_bounds n : n <= padded_size n < n + 8 /\ padded_size n mod 8 = 0.
Proof. unfold padded_size. zlia. Qed.

Lemma Zlength_pad p : Zlength (pad p) = padded_size (Zlength p).
Proof.
  pose proof (padded_bounds (Zlength p)). unfold pad. rewrite Zlength_app, Zlength_replicate by lia. lia.
Qed.

Lemma frame_pad D pos p : frame D pos p = pad p ++ le_split 4 0 ++ le_split 4 (pos mod D).
Proof. unfold frame, pad. by rewrite <- app_assoc. Qed.

Lemma stream_app D pos ps qs :
  stream D pos (ps ++ qs) = stream D pos ps ++ stream D (pos + Zlength (stream D pos ps)) qs.
Proof.
  revert pos. induction ps as [|p ps IH]; intros pos; cbn [app stream].
  - f_equal. unfold Zlength. simpl. lia.
  - rewrite IH, <- app_assoc, Zlength_app. do 3 f_equal. lia.
Qed.

Lemma stream_congr D pos pos' ps : pos mod D = pos' mod D -> stream D pos ps = stream D pos' ps.
Proof.
  revert pos pos'. induction ps as [|p ps IH]; intros pos pos' E; [done|]. cbn [stream].
  assert (frame D pos p = frame D pos' p) as -> by (unfold frame; by rewrite E). f_equal. apply IH.
  by rewrite <- (Zplus_mod_idemp_l pos), E, Zplus_mod_idemp_l.
Qed.

Lemma stream_align D pos ps : Zlength (stream D pos ps) mod 8 = 0.
Proof.
  revert pos. induction ps as [|p ps IH]; intros pos; [done|]. cbn [stream].
  rewrite Zlength_app, Zlength_frame. pose proof (padded_bounds (Zlength p)). pose proof (IH (pos + (padded_size (Zlength p) + 8))).
  zlia.
Qed.

(** An honest producer appends whole frames of well-formed packets in the free
    part of the ring. *)
Definition honest_producer `{Peer} (D : Z) : Prop := forall n s,
  let s' := interfere n s in
  let c := Control (incoming s) in let c' := Control (incoming s') in
  0 <= In c < D -> 0 <= Out c < D ->
  Out c' = Out c /\
  exists ps, Forall packet_ok ps /\
    (In c - Out c) mod D + Zlength (stream D (In c) ps) < D /\
    In c' = (In c + Zlength (stream D (In c) ps)) mod D /\
    cwritten (Data (incoming s)) (Data (incoming s')) (In c) (stream D (In c) ps).

Section Receiver.
Context {B : BuildOptions} {P : Peer} (D : Z) (HD : ring_size D) (Hpeer : honest_producer D).
(** When the producer is idle ([still]), the data is [d0] and ends at [t0]. *)
Context (still : Prop) (d0 : list Z) (t0 : Z) (Hstill : still -> forall n s, interfere n s = s).

(** The receiver's view at position [h]: at least the packets [ps] are pending,
    of which the receiver knows the first [k]. *)
Record receiving (ps : list (list Z)) (k : nat) (own h : Z) (w : world) : Prop := {
  r_size : Incoming_DataBytesInRing (ctx w) = D;
  r_len : Zlength (Data (incoming (shm w))) = D;
  r_own : IncomingOut (ctx w) = own mod D;
  r_out : Out (Control (incoming (shm w))) = h mod D;
  r_align : h mod 8 = 0;
  r_known : (k <= length ps)%nat /\ IncomingInCache (ctx w) = (h + Zlength (stream D h (take k ps))) mod D;
  r_data : exists more, Forall packet_ok (ps ++ more) /\
    let bs := stream D h (ps ++ more) in
    Zlength bs < D /\ In (Control (incoming (shm w))) = (h + Zlength bs) mod D /\
    cread (Data (incoming (shm w))) h (Zlength bs) = bs /\ (still -> h + Zlength bs = t0);
  r_still : still -> Data (incoming (shm w)) = d0
}.

(** Data at the head of the ring survives a write after its end. *)
Lemma cread_preserved d d' h n new :
  Zlength d = D -> 0 <= n -> n + Zlength new < D -> cwritten d d' (h + n) new -> cread d' h n = cread d h n.
Proof.
  intros Hd Hn Hnew [Hl Hg]. pose proof (Zlength_nonneg new). apply cread_ext. intros i Hi. specialize (Hg (i - n)).
  replace (h + n + (i - n)) with (h + i) in Hg by lia. rewrite Hg, Hd.
  rewrite <- (Z.mod_add (i - n) 1), Z.mod_small by lia. by rewrite (proj2 (Z.ltb_ge _ _)) by lia.
Qed.

Lemma interfere_receiving ps k own h w n :
  receiving ps k own h w -> receiving ps k own h (mkWorld (ctx w) (interfere n (shm w)) (S n)).
Proof.
  intros [H1 H2 H3 H4 H5 H6 (more & Hok & Hlt & Ei & Hd & Ht) Hst]. cbv zeta in *. pose proof HD as [HDp _].
  destruct (Hpeer n (shm w)) as (Eo & new & Hnew & Hfit & Ei' & Hw);
    [rewrite Ei; apply Z.mod_pos_bound; lia|rewrite H4; apply Z.mod_pos_bound; lia|]. cbv zeta in *.
  set (bs := stream D h (ps ++ more)) in *. pose proof (Zlength_nonneg bs).
  assert (Es : stream D (In (Control (incoming (shm w)))) new = stream D (h + Zlength bs) new).
  { apply stream_congr. by rewrite Ei, Zmod_mod. }
  rewrite Es, Ei, H4, distance in Hfit by lia. rewrite Es, Ei in Ei', Hw. rewrite <- H2 in Hw at 1. apply (proj1 (cwritten_mod _ _ _ _)) in Hw.
  set (nb := stream D (h + Zlength bs) new) in *. pose proof (Zlength_nonneg nb).
  assert (Happ : stream D h (ps ++ more ++ new) = bs ++ nb) by (by rewrite app_assoc, stream_app).
  split; cbn; try done; [by rewrite (proj1 Hw)|congruence| |intros Hs; rewrite (Hstill Hs); by apply Hst].
  exists (more ++ new). cbv zeta. rewrite Happ, Zlength_app. split_and!.
  - rewrite app_assoc. by apply Forall_app.
  - lia.
  - rewrite Ei', Zplus_mod_idemp_l. f_equal. lia.
  - rewrite cread_app by lia. f_equal.
    + rewrite (cread_preserved (Data (incoming (shm w))) _ h (Zlength bs) nb H2); [done|lia|lia|exact Hw].
    + eapply cread_cwritten; [|exact Hw]. lia.
  - intros Hs. rewrite (Hstill Hs), Ei in Ei'. rewrite Zplus_mod_idemp_l in Ei'. rewrite <- (Ht Hs).
    pose proof (distance D (h + Zlength bs + Zlength nb) (h + Zlength bs) ltac:(lia) ltac:(lia)) as Hdist.
    rewrite <- Ei', Z.sub_diag, Z.mod_0_l in Hdist by lia. lia.
Qed.

Lemma recv_get {A} (f : PACKET_LIB_CONTEXT -> A) ps k own h :
  triple (receiving ps k own h) (get f) (fun a w => a = f (ctx w) /\ receiving ps k own h w).
Proof. intros w Hw. by exists (f (ctx w)), w. Qed.

(** Reading [In] reveals everything published so far. *)
Lemma recv_read_in ps k own h :
  triple (receiving ps k own h) (read_incoming In)
    (fun i w => exists more, i = (h + Zlength (stream D h (ps ++ more))) mod D /\
       Zlength (stream D h (ps ++ more)) < D /\ Forall packet_ok (ps ++ more) /\ receiving (ps ++ more) k own h w).
Proof.
  intros w Hw. destruct (interfere_receiving _ _ _ _ _ (now w) Hw) as [H1 H2 H3 H4 H5 [H6 H7] (more & Hok & Hlt & Ei & Hd & Ht) Hst].
  cbv zeta in *. cbn in *. eexists _, _. split; [done|]. exists more. split_and!; try done.
  split; cbn; try done.
  - rewrite length_app. split; [lia|]. by rewrite take_app_le.
  - exists []. rewrite app_nil_r. done.
Qed.

Lemma recv_set_cache ps k own h :
  triple (receiving ps k own h) (modify (set_IncomingInCache ((h + Zlength (stream D h ps)) mod D)))
    (fun _ => receiving ps (length ps) own h).
Proof.
  intros w []. eexists _, _. split; [done|]. split; cbn; try done. by rewrite firstn_all.
Qed.

Lemma recv_read_other f ps k own h :
  triple (receiving ps k own h) (read_incoming f) (fun _ => receiving ps k own h).
Proof. intros w Hw. eexists _, _. split; [done|]. by apply interfere_receiving. Qed.

Lemma recv_modify f ps k own h :
  (forall x, Incoming_DataBytesInRing (f x) = Incoming_DataBytesInRing x /\ IncomingOut (f x) = IncomingOut x /\
     IncomingInCache (f x) = IncomingInCache x) ->
  triple (receiving ps k own h) (modify f) (fun _ => receiving ps k own h).
Proof.
  intros Hf w []. destruct (Hf (ctx w)) as (E1 & E2 & E3). eexists _, _. split; [done|].
  split; cbn; rewrite ?E1, ?E2, ?E3; done.
Qed.

(** Loading part of the pending stream. *)
Lemma recv_load off pos n ps k own h :
  off = pos mod D -> 0 <= n -> off + n <= D -> h <= pos -> pos + n <= h + Zlength (stream D h ps) ->
  triple (receiving ps k own h) (load_incoming off n)
    (fun bs w => bs = zslice (pos - h) n (stream D h ps) /\ receiving ps k own h w).
Proof.
  intros -> Hn Hoff Hpos Hend w Hw. pose proof (interfere_receiving _ _ _ _ _ (now w) Hw) as Hw'.
  destruct Hw' as [H1 H2 H3 H4 H5 H6 (more & Hok & Hlt & Ei & Hd & Ht) Hst] eqn:E'. clear E'. cbv zeta in *. cbn in *.
  pose proof HD as [HDp _]. pose proof (Z.mod_pos_bound pos D ltac:(lia)). unfold load_incoming, read_shm.
  rewrite mem_read_cread by lia. eexists _, _. split; [done|]. split; [|by apply interfere_receiving].
  set (d := Data (incoming (interfere (now w) (shm w)))) in *. pose proof (cread_mod d pos n) as Em. rewrite H2 in Em. rewrite Em. clear Em.
  rewrite stream_app in Hd. set (bs := stream D h ps) in *. set (r := stream D (h + Zlength bs) more) in *.
  rewrite Zlength_app in Hd. pose proof (Zlength_nonneg bs). pose proof (Zlength_nonneg r).
  rewrite cread_app in Hd by lia. apply app_inj_1 in Hd as [Hd _].
  2:{ pose proof (Zlength_cread d h (Zlength bs) ltac:(lia)) as Hz. by apply Nat2Z.inj. }
  replace (zslice (pos - h) n bs) with (zslice (pos - h) n (cread d h (Zlength bs))) by (by rewrite Hd).
  apply zget_ext; [rewrite Zlength_cread, Zlength_zslice; rewrite ?Zlength_cread; lia|].
  rewrite Zlength_cread by lia. intros i Hi. rewrite zget_cread, zget_zslice, zget_cread by lia. f_equal. lia.
Qed.

Lemma stream_take k h ps : Zlength (stream D h (take k ps)) <= Zlength (stream D h ps).
Proof.
  rewrite <- (take_drop k ps) at 2. rewrite stream_app, Zlength_app.
  pose proof (Zlength_nonneg (stream D (h + Zlength (stream D h (take k ps))) (drop k ps))). lia.
Qed.

Lemma receiving_facts ps k own h w : receiving ps k own h w ->
  Forall packet_ok ps /\ Zlength (stream D h ps) < D /\ (k <= length ps)%nat /\ h mod 8 = 0.
Proof.
  intros [H1 H2 H3 H4 H5 [H6 _] (more & Hok & Hlt & _) _]. cbv zeta in *. apply Forall_app in Hok as [Hok _].
  split_and!; try done. rewrite stream_app, Zlength_app in Hlt.
  pose proof (Zlength_nonneg (stream D (h + Zlength (stream D h ps)) more)). lia.
Qed.

Lemma stream_head h p ps :
  Zlength (stream D h (p :: ps)) = padded_size (Zlength p) + 8 + Zlength (stream D (h + (padded_size (Zlength p) + 8)) ps).
Proof. cbn [stream]. by rewrite Zlength_app, Zlength_frame. Qed.

(** Parts of the first frame, as they are found in the stream. *)
Lemma stream_slice h p ps off n :
  0 <= off -> 0 <= n -> off + n <= padded_size (Zlength p) + 8 ->
  zslice off n (stream D h (p :: ps)) = zslice off n (frame D h p).
Proof.
  intros H1 H2 H3. cbn [stream]. pose proof (Zlength_nonneg (stream D (h + Zlength (frame D h p)) ps)).
  apply zget_ext.
  - rewrite !Zlength_zslice; rewrite ?Zlength_app, ?Zlength_frame in *; lia.
  - rewrite Zlength_zslice by (rewrite ?Zlength_app, ?Zlength_frame in *; lia).
    intros i Hi. rewrite !zget_zslice, zget_app_l by (rewrite ?Zlength_frame; lia). done.
Qed.

Lemma frame_length8 h p : packet_ok p -> zslice 4 2 (frame D h p) = zslice 4 2 p.
Proof.
  intros (Hp & _). pose proof (padded_bounds (Zlength p)). apply zget_ext.
  - rewrite !Zlength_zslice; rewrite ?Zlength_frame; lia.
  - rewrite Zlength_zslice by (rewrite ?Zlength_frame; lia). intros i Hi. unfold frame.
    rewrite !zget_zslice, zget_app_l by lia. done.
Qed.

Lemma frame_payload h p : zslice 0 (padded_size (Zlength p)) (frame D h p) = pad p.
Proof.
  rewrite frame_pad. unfold zslice. rewrite drop_0, take_app_le; rewrite <- Zlength_pad; unfold Zlength; [|lia].
  by rewrite Nat2Z.id, firstn_all.
Qed.

Lemma frame_trailer h p : zslice (padded_size (Zlength p) + 4) 4 (frame D h p) = le_split 4 (h mod D).
Proof.
  rewrite frame_pad, app_assoc. unfold zslice.
  replace (Z.to_nat (padded_size (Zlength p) + 4)) with (length (pad p ++ le_split 4 0)).
  - rewrite drop_app_length. apply take_ge. by rewrite length_le_split.
  - rewrite length_app, length_le_split. pose proof (Zlength_pad p) as E. unfold Zlength in E at 1. lia.
Qed.

Lemma validate_mod x : x mod 8 = 0 -> negb (PkpValidatePointer D (x mod D)) = false.
Proof. apply validate_pos; done. Qed.

(** A cached [In] at the read position means that nothing is known. *)
Lemma known_empty h k ps : Zlength (stream D h ps) < D ->
  ((h + Zlength (stream D h (take k ps))) mod D =? h mod D) = (Zlength (stream D h (take k ps)) =? 0).
Proof.
  intros Hlt. pose proof (stream_take k h ps). set (n := Zlength (stream D h (take k ps))) in *.
  assert (0 <= n) by apply Zlength_nonneg. destruct HD as [HDp _].
  destruct (Z.eqb_spec n 0) as [->|Hn]; [rewrite Z.add_0_r; apply Z.eqb_refl|].
  apply Z.eqb_neq. intros E. pose proof (distance D (h + n) h ltac:(lia) ltac:(lia)) as Hd.
  rewrite E, Z.sub_diag, Z.mod_0_l in Hd by lia. lia.
Qed.

Lemma stream_nonempty h ps : Zlength (stream D h ps) = 0 -> ps = [].
Proof.
  destruct ps as [|p ps]; [done|]. rewrite stream_head.
  pose proof (Zlength_nonneg (stream D (h + (padded_size (Zlength p) + 8)) ps)).
  pose proof (padded_bounds (Zlength p)). pose proof (Zlength_nonneg p). lia.
Qed.

(** Finding the next packet. *)
Definition found (ps : list (list Z)) (h : Z) (r : EFI_STATUS * Z * option (Z * Z)) (w : world) : Prop :=
  (r = (EFI_END_OF_FILE, h mod D, None) /\ ps = [] /\ receiving [] 0 h h w) \/
  exists p qs k, ps `prefix_of` (p :: qs) /\ (0 < k)%nat /\ receiving (p :: qs) k h h w /\
    r = (EFI_SUCCESS, (h + (padded_size (Zlength p) + 8)) mod D, Some (h mod D, padded_size (Zlength p))).

Lemma recv_find ps k h :
  triple (receiving ps k h h)
    (let in_ := (h + Zlength (stream D h (take k ps))) mod D in
     if in_ =? h mod D then
       in_ ← read_incoming In;
       if negb (PkpValidatePointer D in_) then mret (EFI_RING_CORRUPT_ERROR, in_)
       else
         _ ← modify (set_IncomingInCache in_);
         if in_ =? h mod D then mret (EFI_END_OF_FILE, in_) else mret (EFI_SUCCESS, in_)
     else mret (EFI_SUCCESS, in_))
    (fun r w => (fst r = EFI_END_OF_FILE /\ ps = [] /\ receiving [] 0 h h w) \/
       exists p qs k, ps `prefix_of` (p :: qs) /\ (0 < k)%nat /\ receiving (p :: qs) k h h w /\
         r = (EFI_SUCCESS, (h + Zlength (stream D h (take k (p :: qs)))) mod D)).
Proof.
  eapply triple_use; [apply receiving_facts|]. intros (Hok & Hlt & Hk & H8). cbv zeta.
  rewrite known_empty by done. destruct (Z.eqb_spec (Zlength (stream D h (take k ps))) 0) as [E0|Hne].
  2:{ apply triple_ret. intros w Hw. right. destruct k as [|k]; [done|]. destruct ps as [|p qs]; [done|].
      exists p, qs, (S k). split_and!; [done|lia|done|done]. }
  tstep; [apply recv_read_in|]. intros i. apply triple_ex. intros more. tpure ->. tpure Hlt'. tpure Hok'.
  pose proof (stream_align D h (ps ++ more)). rewrite validate_mod by zlia.
  tstep; [apply recv_set_cache|]. intros [].
  pose proof (known_empty h (length (ps ++ more)) (ps ++ more) Hlt') as Ek. rewrite firstn_all in Ek. rewrite Ek.
  destruct (Z.eqb_spec (Zlength (stream D h (ps ++ more))) 0) as [E1|Hne]; apply triple_ret; intros w Hw.
  - apply stream_nonempty in E1. apply app_nil in E1 as [-> ->]. by left.
  - right. destruct (ps ++ more) as [|p qs] eqn:Eps; [done|]. exists p, qs, (length (p :: qs)).
    split_and!; [rewrite <- Eps; by apply prefix_app_r|simpl; lia|done|by rewrite firstn_all].
Qed.

Lemma recv_buffer ps k h :
  triple (receiving ps k h h) (PkGetReceiveBuffer (h mod D)) (found ps h).
Proof.
  pose proof HD as [HDp H8D]. unfold PkGetReceiveBuffer. pose proof (Z.mod_pos_bound h D ltac:(lia)) as Hm.
  tstep; [apply recv_get|]. intros D'. apply (triple_use (D' = D)); [intros w [-> Hw]; apply Hw|]. intros ->.
  eapply triple_pre; [intros w Hw; exact (proj2 Hw)|].
  tstep; [apply recv_get|]. intros i. apply (triple_use (i = (h + Zlength (stream D h (take k ps))) mod D));
    [intros w [-> Hw]; apply Hw|]. intros ->. eapply triple_pre; [intros w Hw; exact (proj2 Hw)|].
  tstep; [apply triple_lift, ASSERT_holds, Z.ltb_lt; lia|]. intros ?. tpure _.
  tstep; [apply recv_find|]. intros [st i].
  intros w [(E & -> & Hw)|(p & qs & k' & Hpre & Hk' & Hw & E)]; [cbn in E; subst st|simplify_eq].
  { eexists _, _. split; [done|]. left. done. }
  cbn [EFI_ERROR]. apply receiving_facts in Hw as Hfacts. destruct Hfacts as (Hok & Hlt & Hkl & H8).
  pose proof (Forall_inv Hok) as Hpok. pose proof Hpok as (Hp & Hlen & Hmax). rewrite stream_head in Hlt.
  set (F := padded_size (Zlength p)) in *. pose proof (padded_bounds (Zlength p)) as HF. fold F in HF.
  set (rest := Zlength (stream D (h + (F + 8)) qs)) in *. assert (0 <= rest) by apply Zlength_nonneg.
  assert (Hhead : F + 8 <= Zlength (stream D h (take k' (p :: qs))) < D).
  { pose proof (stream_take k' h (p :: qs)) as Hl. rewrite stream_head in Hl. fold F rest in Hl. split; [|lia].
    destruct k' as [|k']; [lia|]. cbn [take]. rewrite stream_head. fold F.
    pose proof (Zlength_nonneg (stream D (h + (F + 8)) (take k' qs))). lia. }
  destruct (valid_mod D h HD H8) as [Hv Hv8].
  revert w Hw. match goal with |- forall w, _ -> exists a w', ?m w = _ /\ _ => change (triple (receiving (p :: qs) k' h h) m (found ps h)) end.
  tstep; [apply triple_lift, avail_at; lia|]. intros ?. tpure ->.
  tstep. { apply (recv_load (h mod D + OFFSET_OF_Length8) (h + 4) 2); unfold OFFSET_OF_Length8; try lia.
    - rewrite <- Zplus_mod_idemp_l, (Z.mod_small (h mod D + 4)) by zlia. done.
    - zlia.
    - rewrite stream_head. fold F rest. lia. }
  intros bs. tpure ->. replace (h + 4 - h) with 4 by lia.
  rewrite stream_slice by (fold F; lia). rewrite (frame_length8 h p) by done. rewrite Hlen.
  unfold sizeof_PREVIOUS_PACKET_OFFSET, sizeof_VMPACKET_DESCRIPTOR. rewrite (u32_small F), (u32_small (F + 8)) by lia.
  rewrite (proj2 (Z.ltb_ge F 16)) by lia. replace (h + Zlength (stream D h (take k' (p :: qs))) - h) with
    (Zlength (stream D h (take k' (p :: qs)))) by lia. rewrite (proj2 (Z.ltb_ge _ (F + 8))) by lia. cbn [orb].
  apply (triple_bind _ _ _ (fun c w => c = false /\ receiving (p :: qs) k' h h w)).
  { destruct debug_code_enabled; [|by apply triple_ret].
    tstep; [apply triple_lift; rewrite u32_small by lia; apply PkModuloReduce_spec; lia|]. intros ?. tpure ->.
    destruct (valid_mod D (h + F) HD) as [HvF HvF8]; [zlia|]. rewrite mod_shift.
    tstep. { apply (recv_load ((h + F) mod D + 4) (h + F + 4) 4); try lia.
      - rewrite <- (Zplus_mod_idemp_l (h + F) 4), (Z.mod_small ((h + F) mod D + 4)) by zlia. done.
      - zlia.
      - rewrite stream_head. fold F rest. lia. }
    intros prev. tpure ->. replace (h + F + 4 - h) with (F + 4) by lia.
    rewrite stream_slice by (fold F; lia). unfold F. rewrite frame_trailer.
    rewrite le_combine_split_small by (change (256 ^ Z.of_nat 4) with (2 ^ 32); lia).
    apply triple_ret. intros w Hw. by rewrite Z.eqb_refl. }
  intros c. tpure ->.
  tstep; [apply triple_lift; rewrite u32_small by lia; apply PkModuloReduce_spec; lia|]. intros ?. tpure ->.
  apply triple_ret. intros w Hw. right. exists p, qs, k'. split_and!; try done. fold F. by rewrite mod_shift.
Qed.

(** Copying the packet out, in one or two pieces. *)
Lemma recv_packet p qs k h :
  let n := padded_size (Zlength p) in
  triple (receiving (p :: qs) k h h)
    (PkReadPacketSingleMapped (replicate (Z.to_nat n) 0) n (h mod D))
    (fun r w => r = pad p /\ receiving (p :: qs) k h h w).
Proof.
  intros n. pose proof HD as [HDp H8D]. unfold PkReadPacketSingleMapped.
  eapply triple_use; [apply receiving_facts|]. intros (Hok & Hlt & Hk & H8).
  pose proof (padded_bounds (Zlength p)) as Hn. pose proof (Zlength_nonneg p). fold n in Hn.
  rewrite stream_head in Hlt. fold n in Hlt. set (rest := Zlength (stream D (h + (n + 8)) qs)) in *.
  assert (0 <= rest) by apply Zlength_nonneg. destruct (valid_mod D h HD H8) as [Hv Hv8].
  tstep; [apply recv_get|]. intros D'. apply (triple_use (D' = D)); [intros w [-> Hw]; apply Hw|]. intros ->.
  eapply triple_pre; [intros w Hw; exact (proj2 Hw)|].
  tstep; [apply triple_lift, PkModuloReduce_spec; lia|]. intros ?. tpure ->. rewrite Zmod_mod, u32_small by lia.
  assert (Hs : forall off m, 0 <= off -> 0 <= m -> off + m <= n -> zslice off m (stream D h (p :: qs)) = zslice off m (pad p)).
  { intros off m H1 H2 H3. rewrite stream_slice by (fold n; lia). rewrite frame_pad.
    apply zget_ext; [rewrite !Zlength_zslice; rewrite ?Zlength_app, ?Zlength_pad, ?Zlength_le_split; fold n; lia|].
    rewrite Zlength_zslice by (rewrite ?Zlength_app, ?Zlength_pad, ?Zlength_le_split; fold n; lia).
    intros i Hi. rewrite !zget_zslice, zget_app_l by (rewrite ?Zlength_pad; fold n; lia). done. }
  assert (Hz : Zlength (replicate (Z.to_nat n) 0) = n) by (apply Zlength_replicate; lia).
  assert (Hfull : forall l : list Z, Zlength l = n -> zslice 0 n l = l).
  { intros l Hl. unfold zslice. rewrite drop_0. apply take_ge. unfold Zlength in Hl. lia. }
  destruct (Z.leb_spec n (D - h mod D)).
  - tstep; [apply (recv_load (h mod D) h n); try done; try lia; rewrite stream_head; fold n rest; lia|].
    intros bs. tpure ->. rewrite Z.sub_diag, Hs, Hfull by (rewrite ?Zlength_pad; fold n; lia).
    apply triple_lift. unfold mem_write. rewrite Zlength_pad. fold n. rewrite in_bounds_true by lia. change (Z.to_nat 0) with 0%nat. rewrite take_0. cbn [app].
    rewrite drop_ge by (rewrite length_replicate; lia). by rewrite app_nil_r.
  - set (e := D - h mod D) in *.
    tstep; [apply (recv_load (h mod D) h e); try done; try lia; rewrite stream_head; fold n rest; lia|].
    intros bs. tpure ->. rewrite Z.sub_diag, Hs by lia.
    set (b1 := zslice 0 e (pad p)). set (b2 := zslice e (n - e) (pad p)).
    assert (L1 : Zlength b1 = e) by (apply Zlength_zslice; rewrite ?Zlength_pad; fold n; lia).
    assert (L2 : Zlength b2 = n - e) by (apply Zlength_zslice; rewrite ?Zlength_pad; fold n; lia).
    assert (Eb : b1 ++ b2 = pad p).
    { unfold b1, b2, zslice. pose proof (Zlength_pad p) as Hl. fold n in Hl. unfold Zlength in Hl at 1.
      rewrite drop_0, (take_ge (drop _ _)) by (rewrite length_drop; lia). apply take_drop. }
    assert (Ee : e = Z.of_nat (length b1)) by (by rewrite <- L1).
    tstep. { apply triple_lift. unfold mem_write. rewrite in_bounds_true by lia. done. }
    intros ?. tpure ->. change (Z.to_nat 0) with 0%nat. rewrite take_0. cbn [app]. rewrite Z.add_0_l, L1, u32_small by lia.
    tstep; [apply (recv_load 0 (h + e) (n - e)); try lia; [|rewrite stream_head; fold n rest; lia]|].
    { rewrite <- Zplus_mod_idemp_l. unfold e. replace (h mod D + (D - h mod D)) with D by lia. by rewrite Z_mod_same_full. }
    intros bs2. tpure ->. replace (h + e - h) with e by lia. rewrite Hs by lia. fold b2.
    tstep. { apply triple_lift. unfold mem_write. rewrite in_bounds_true; [done|lia|lia|].
      rewrite Zlength_app, L1, Zlength_drop by lia. lia. }
    intros ?. tpure ->. rewrite L2.
    apply (triple_bind _ _ _ (fun _ => receiving (p :: qs) k h h)).
    { destruct asserts_enabled; [|by apply triple_ret].
      unfold sizeof_PREVIOUS_PACKET_OFFSET. tstep.
      { apply triple_lift. rewrite u32_small by lia. apply PkModuloReduce_spec; lia. }
      intros ?. tpure ->. intros w Hw. exists tt, w. split; [|exact Hw]. unfold lift. rewrite ASSERT_holds; [done|].
      apply Z.eqb_eq. rewrite <- (Z.mod_add _ (-1)), Z.mod_small by lia. lia. }
    intros _. apply triple_ret. intros w Hw. split; [|exact Hw]. rewrite Ee at 1.
    rewrite Nat2Z.id, take_app_length, <- Eb. f_equal. rewrite <- (app_nil_r b2) at 2. f_equal.
    apply drop_ge. rewrite length_app, length_drop, length_replicate. lia.
Qed.

(** Releasing the packet's space. *)
Lemma recv_removal p qs k h :
  (0 < k)%nat ->
  let F := padded_size (Zlength p) + 8 in
  triple (receiving (p :: qs) k h h) (PkCompleteRemoval ((h + F) mod D))
    (fun st w => (st = EFI_SUCCESS \/ st = EFI_RING_SIGNAL_OPPOSITE_ENDPOINT \/ st = EFI_RING_NEWLY_EMPTY) /\
       exists more k', receiving (qs ++ more) k' (h + F) (h + F) w).
Proof.
  intros Hk F. pose proof HD as [HDp H8D]. unfold PkCompleteRemoval.
  eapply triple_use; [apply receiving_facts|]. intros (_ & _ & _ & H8).
  assert (HF8 : F mod 8 = 0) by (pose proof (padded_bounds (Zlength p)); unfold F; zlia).
  tstep; [apply recv_get|]. intros D'. apply (triple_use (D' = D)); [intros w [-> Hw]; apply Hw|]. intros ->.
  eapply triple_pre; [intros w Hw; exact (proj2 Hw)|].
  tstep; [apply triple_lift, ASSERT_holds; apply negb_false_iff, validate_mod; zlia|]. intros ?. tpure _.
  tstep; [apply recv_read_other|]. intros i1.
  apply (triple_bind _ _ _ (fun _ => receiving (p :: qs) k h h)).
  { destruct (i1 =? _); [|apply triple_ret; auto]. apply recv_modify. intros x. by destruct (_ <? _). }
  intros _. tstep; [apply recv_get|]. intros old. apply (triple_use (old = h mod D)); [intros w [-> Hw]; apply Hw|]. intros ->.
  eapply triple_pre; [intros w Hw; exact (proj2 Hw)|].
  apply (triple_bind _ _ _ (fun _ => receiving (p :: qs) k (h + F) h)).
  { intros w []. eexists _, _. split; [done|]. by split. }
  intros _. apply (triple_bind _ _ _ (fun _ => receiving qs (k - 1) (h + F) (h + F))).
  { intros w Hw. destruct (interfere_receiving _ _ _ _ _ (now w) Hw) as [H1 H2 H3 H4 H5 [H6 H7] (more & Hok & Hlt & Ei & Hd & Ht) Hst].
    cbv zeta in *. cbn in *. eexists _, _. split; [done|].
    rewrite Zlength_app, Zlength_frame in Hlt, Ei, Hd. fold F in Hlt, Ei, Hd.
    pose proof (Zlength_nonneg (stream D (h + F) (qs ++ more))). assert (0 < F) by (pose proof (padded_bounds (Zlength p)); pose proof (Zlength_nonneg p); unfold F; lia).
    split; cbn; try done; [zlia| |].
    - split; [lia|]. destruct k as [|k]; [lia|]. rewrite H7. cbn [take stream]. rewrite Zlength_app, Zlength_frame. fold F.
      replace (S k - 1)%nat with k by lia. f_equal. lia.
    - exists more. split_and!; [by apply Forall_inv_tail in Hok|lia|rewrite Ei; f_equal; lia| |].
      2:{ intros Hs. specialize (Ht Hs). rewrite Zlength_app, Zlength_frame in Ht. fold F in Ht. lia. }
      rewrite cread_app in Hd by lia. apply app_inj_1 in Hd as [_ Hd]; [done|].
      apply Nat2Z.inj. change (Zlength (cread (Data (incoming (interfere (now w) (shm w)))) h F) = Zlength (frame D h p)).
      rewrite Zlength_cread, Zlength_frame by lia. done. }
  intros _. tstep; [apply recv_read_other|]. intros pending.
  tstep; [apply recv_read_in|]. intros i. apply triple_ex. intros more. tpure ->. tpure Hlt. tpure Hok.
  pose proof (stream_align D (h + F) (qs ++ more)). rewrite validate_mod by zlia.
  tstep; [apply recv_set_cache|]. intros [].
  apply (triple_bind _ _ _ (fun _ => receiving (qs ++ more) (length (qs ++ more)) (h + F) (h + F))).
  { destruct (negb _); [|by apply triple_ret].
    tstep; [apply triple_lift, PkpFreeBytes_spec; try apply Z.mod_pos_bound; lia|]. intros ?. tpure _.
    tstep; [apply triple_lift, PkpFreeBytes_spec; try apply Z.mod_pos_bound; lia|]. intros ?. tpure _.
    by apply triple_ret. }
  intros signal. destruct signal; [|destruct (_ =? _)]; apply triple_ret; intros w Hw; (split; [by auto|]);
    exists more, (length (qs ++ more)); exact Hw.
Qed.

(** A receive against a concurrent honest producer. *)
Lemma recv_one ps k h :
  triple (receiving ps k h h) receive_one
    (fun r w => (r = (EFI_END_OF_FILE, None) /\ ps = [] /\ receiving [] 0 h h w) \/
       exists p qs more k' st, ps `prefix_of` (p :: qs) /\ r = (st, Some (pad p)) /\
         (st = EFI_SUCCESS \/ st = EFI_RING_SIGNAL_OPPOSITE_ENDPOINT \/ st = EFI_RING_NEWLY_EMPTY) /\
         receiving (qs ++ more) k' (h + (padded_size (Zlength p) + 8)) (h + (padded_size (Zlength p) + 8)) w).
Proof.
  unfold receive_one, PkGetIncomingRingOffset.
  tstep; [apply recv_get|]. intros o. apply (triple_use (o = h mod D)); [intros w [-> Hw]; apply Hw|]. intros ->.
  eapply triple_pre; [intros w Hw; exact (proj2 Hw)|]. tstep; [apply recv_buffer|].
  intros [[st next] b] w [(E & -> & Hw)|(p & qs & k' & Hpre & Hk & Hw & E)]; simplify_eq.
  { eexists _, _. split; [done|]. by left. }
  destruct (recv_packet p qs k' h w Hw) as (buf & w1 & E1 & -> & Hw1).
  destruct (recv_removal p qs k' h Hk w1 Hw1) as (st & w2 & E2 & Hst & more & k2 & Hw2).
  exists (st, Some (pad p)), w2. split.
  - cbv beta iota. rewrite (run_bind _ _ _ _ _ E1). rewrite (run_bind _ _ _ _ _ E2). done.
  - right. exists p, qs, more, k2, st. done.
Qed.
End Receiver.
