(* ===== verification/PkRingChannel.v ===== *)
(** A VMBus channel end to end: two endpoints running the ring library over one
    shared ring refine a bounded FIFO queue of packets. *)
From stdpp Require Import base list numbers list_numbers option.
From Stdlib Require Import ZArith Lia.
From S2P Require Import Prelude Circular PkRing PkRingSafe PkRingFifo.
Open Scope Z_scope.
Import PkRing.

(** ** The abstract channel *)
Inductive chan_op : Type := CSend (p : list Z) | CReceive.
Inductive chan_obs : Type := Accepted | Full | NeverFits | Got (p : list Z) | Empty.

Definition frame_size (p : list Z) : Z := padded_size (Zlength p) + 8.
Fixpoint used (q : list (list Z)) : Z := match q with [] => 0 | p :: q => frame_size p + used q end.

(** A queue of packets bounded by the space their frames take; one byte of the
    ring is never used. *)
Definition spec_step (D : Z) (q : list (list Z)) (o : chan_op) : list (list Z) * chan_obs :=
  match o with
  | CSend p =>
    if used q + frame_size p <=? D - 1 then (q ++ [p], Accepted)
    else if D <=? frame_size p then (q, NeverFits) else (q, Full)
  | CReceive => match q with [] => ([], Empty) | p :: q => (q, Got (pad p)) end
  end.

Fixpoint spec_run (D : Z) (q : list (list Z)) (os : list chan_op) : list (list Z) * list chan_obs :=
  match os with
  | [] => (q, [])
  | o :: os => let '(q, b) := spec_step D q o in let '(q, bs) := spec_run D q os in (q, b :: bs)
  end.

(** ** The concrete channel: sender, receiver, and the ring between them *)
Record channel := mkChan { sender : PACKET_LIB_CONTEXT; receiver : PACKET_LIB_CONTEXT; wire : ring_memory }.

(** While one endpoint runs an operation, the other is idle. *)
Definition idle : Peer := fun _ s => s.
Definition unused_ring : ring_memory := mkRing (mkVMRCB 0 0 0 0 0) [].

Definition sender_world (s : channel) : world := mkWorld (sender s) (mkShared (wire s) unused_ring) 0.
Definition receiver_world (s : channel) : world := mkWorld (receiver s) (mkShared unused_ring (wire s)) 0.

Definition observe_send (st : EFI_STATUS) : option chan_obs :=
  match st with
  | EFI_SUCCESS | EFI_RING_SIGNAL_OPPOSITE_ENDPOINT => Some Accepted
  | EFI_BUFFER_TOO_SMALL => Some Full
  | EFI_INVALID_PARAMETER => Some NeverFits
  | _ => None
  end.

Section Channel.
Context {B : BuildOptions}.

Definition impl_step (s : channel) (o : chan_op) : result (channel * option chan_obs) :=
  match o with
  | CSend p =>
    '(st, w) ← PkSendPacketRaw (P := idle) p (Zlength p) (sender_world s);
    Ok (mkChan (ctx w) (receiver s) (outgoing (shm w)), observe_send st)
  | CReceive =>
    '(r, w) ← receive_one (P := idle) (receiver_world s);
    Ok (mkChan (sender s) (ctx w) (incoming (shm w)),
        match r with
        | (EFI_END_OF_FILE, None) => Some Empty
        | (_, None) => None
        | (st, Some p) => if EFI_ERROR st then None else Some (Got p)
        end)
  end.

Fixpoint impl_run (s : channel) (os : list chan_op) : result (channel * list (option chan_obs)) :=
  match os with
  | [] => Ok (s, [])
  | o :: os => '(s, b) ← impl_step s o; '(s, bs) ← impl_run s os; Ok (s, b :: bs)
  end.

Lemma idle_consumer D : ring_size D -> honest_consumer (H := idle) D.
Proof.
  intros [HD _] n s. cbv zeta. intros Hi Ho. split_and!; [done|done|]. exists 0. unfold interfere, idle.
  pose proof (Z.mod_pos_bound (In (Control (outgoing s)) - Out (Control (outgoing s))) D). split_and!; try lia; [done|].
  by rewrite Z.add_0_r, Z.mod_small.
Qed.

Lemma idle_producer D : ring_size D -> honest_producer (H := idle) D.
Proof.
  intros [HD _] n s. cbv zeta. intros Hi Ho. split; [done|]. exists []. unfold interfere, idle. cbn [stream].
  change (Zlength (@nil Z)) with 0.
  pose proof (Z.mod_pos_bound (In (Control (incoming s)) - Out (Control (incoming s))) D ltac:(lia)).
  split_and!; [done|lia|by rewrite Z.add_0_r, Z.mod_small|apply cwritten_nil].
Qed.

Lemma idle_still (n : nat) (s : shared) : interfere (Peer := idle) n s = s.
Proof. done. Qed.

(** ** Simulation

    [q] is pending; the receiver is at position [h]. *)
Definition linked (D : Z) (q : list (list Z)) (s : channel) : Prop :=
  exists h c k, let t := h + Zlength (stream D h q) in
    sending D True h (Data (wire s)) t t h c (sender_world s) /\
    receiving D True (Data (wire s)) t q k h h (receiver_world s).

Lemma Zlength_stream D h q : Zlength (stream D h q) = used q.
Proof.
  revert h. induction q as [|p q IH]; intros h; [done|]. cbn [stream used]. rewrite Zlength_app, Zlength_frame, IH. done.
Qed.

Lemma used_pos q : 0 <= used q.
Proof. rewrite <- (Zlength_stream 1 0). apply Zlength_nonneg. Qed.

Lemma used_app q1 q2 : used (q1 ++ q2) = used q1 + used q2.
Proof. induction q1 as [|p q IH]; cbn [app used]; lia. Qed.

(** The pending packets as found in the ring. *)
Lemma receiving_prefix D still d0 t0 q k own h w :
  receiving D still d0 t0 q k own h w ->
  cread (Data (incoming (shm w))) h (Zlength (stream D h q)) = stream D h q.
Proof.
  intros [H1 H2 H3 H4 H5 H6 (more & Hok & Hlt & Ei & Hd & Ht) Hst]. cbv zeta in *.
  rewrite stream_app, Zlength_app in Hd. set (bs := stream D h q) in *. set (r := stream D (h + Zlength bs) more) in *.
  pose proof (Zlength_nonneg bs). pose proof (Zlength_nonneg r). rewrite cread_app in Hd by lia.
  apply app_inj_1 in Hd as [Hd _]; [done|]. apply Nat2Z.inj. exact (Zlength_cread _ h (Zlength bs) ltac:(lia)).
Qed.

(** The sender appends a frame: the receiver sees one more packet. *)
Lemma receiving_extend D d d' t q k h c p s' ca :
  ring_size D -> packet_ok p -> Zlength d = D ->
  receiving D True d t q k h h (mkWorld c (mkShared unused_ring (mkRing ca d)) 0) ->
  t = h + Zlength (stream D h q) -> used q + frame_size p < D ->
  cwritten d d' t (frame D t p) ->
  wire s' = mkRing (Control (wire s')) d' -> receiver s' = c ->
  In (Control (wire s')) = (t + frame_size p) mod D -> Out (Control (wire s')) = h mod D ->
  receiving D True d' (t + frame_size p) (q ++ [p]) k h h (receiver_world s').
Proof.
  intros HD Hp Hd R -> Hfit Hw Ewire Erecv Ei Eo. pose proof (receiving_prefix _ _ _ _ _ _ _ _ _ R) as Hpre. cbn in Hpre.
  destruct R as [H1 H2 H3 H4 H5 [H6 H7] (more & Hok & Hlt & _) Hst]. cbv zeta in *. cbn in *.
  assert (Hs : stream D h (q ++ [p]) = stream D h q ++ frame D (h + Zlength (stream D h q)) p).
  { rewrite stream_app. cbn [stream]. by rewrite app_nil_r. }
  assert (HL : Zlength (stream D h (q ++ [p])) = used q + frame_size p).
  { rewrite Hs, Zlength_app, Zlength_frame, Zlength_stream. done. }
  pose proof (Zlength_stream D h q) as EQ. rewrite EQ in Hpre, Hw, Ei, Hs |- *. pose proof (used_pos q).
  assert (0 < frame_size p) by (unfold frame_size; pose proof (padded_bounds (Zlength p)); pose proof (Zlength_nonneg p); lia).
  split; cbn; try congruence.
  - rewrite Ewire. cbn. by rewrite (proj1 Hw).
  - rewrite length_app. split; [lia|]. rewrite Erecv, H7. by rewrite take_app_le.
  - exists []. cbv zeta. rewrite app_nil_r. split_and!.
    + apply Forall_app. split; [by apply Forall_app in Hok as [Hok _]|by constructor].
    + lia.
    + rewrite Ei, HL. f_equal. lia.
    + rewrite Ewire, Hs, Zlength_app, Zlength_frame, Zlength_stream. cbn [Data].
      rewrite cread_app by (unfold frame_size in *; lia). f_equal.
      * rewrite (cread_preserved D d d' h (used q) (frame D (h + used q) p)) by
          (done || (rewrite ?Zlength_frame; unfold frame_size in *; lia)). done.
      * rewrite <- (Zlength_frame D (h + used q) p). eapply cread_cwritten; [|exact Hw].
        rewrite Zlength_frame. unfold frame_size in *. lia.
    + intros _. rewrite HL. lia.
  - intros _. by rewrite Ewire.
Qed.

Lemma sending_transport D still h0 d t h c w w' :
  ctx w = ctx w' -> outgoing (shm w) = outgoing (shm w') ->
  sending D still h0 d t t h c w -> sending D still h0 d t t h c w'.
Proof. intros Ec Es []. split; rewrite <- ?Ec, <- ?Es; done. Qed.

Lemma sim_send D q s p :
  ring_size D -> linked D q s -> packet_ok p -> Zlength p <= D ->
  exists s', impl_step s (CSend p) = Ok (s', Some (snd (spec_step D q (CSend p)))) /\
    linked D (fst (spec_step D q (CSend p))) s'.
Proof.
  intros HD (h & c & k & HS & HR) Hp Hl. cbv zeta in *. rewrite Zlength_stream in *.
  pose proof Hp as (Hp16 & _). set (t := h + used q) in *. set (d := Data (wire s)) in *.
  assert (Ht : t mod 8 = 0) by apply HS. pose proof HS as [_ _ Hd _ _ _ _ _].
  destruct (send_packet (P := idle) D HD (idle_consumer D HD) True h (fun _ => idle_still) p d t h c) with (w := sender_world s)
    as (st & w & E & h' & c' & d' & t' & Hh' & HS' & Hcase); [lia|done|done|]. cbv zeta in Hcase. fold (frame_size p) in Hcase.
  pose proof HS' as [_ Ed' _ _ Ei' _ (h2 & Hh2 & _ & Eo2 & Eh2) (Hc' & Hct' & _)].
  specialize (Eh2 Logic.I). subst h2. assert (h' = h) as -> by lia.
  unfold impl_step. rewrite E, bind_Ok. eexists. split.
  - do 3 f_equal. cbn [spec_step]. pose proof (used_pos q).
    destruct Hcase as [(Hst & -> & _)|[(-> & _ & _ & HF & Hfull)|(-> & _ & _ & HF)]]; cbn [snd].
    + rewrite (proj2 (Z.leb_le _ _)) by lia. by destruct Hst as [-> | ->].
    + rewrite (proj2 (Z.leb_gt _ _)), (proj2 (Z.leb_gt _ _)) by lia. done.
    + rewrite (proj2 (Z.leb_gt _ _)), (proj2 (Z.leb_le _ _)) by lia. done.
  - cbn [spec_step]. pose proof (used_pos q).
    assert (Hsame : t' = t -> d' = d -> linked D q (mkChan (ctx w) (receiver s) (outgoing (shm w)))).
    { intros -> ->. exists h, c', k. cbv zeta. rewrite Zlength_stream. fold t. cbn [wire]. rewrite Ed'. split.
      - by eapply (sending_transport _ _ _ _ _ _ _ w).
      - destruct HR as [H1 H2 H3 H4 H5 H6 (more & Hok & Hlt & Ei & Hdd & Htt) Hst]. split; try done; cbn; rewrite ?Ed'; try done.
        exists more. cbv zeta in *. split_and!; try done.
        rewrite Ei'. specialize (Htt Logic.I). fold t in Htt. by rewrite Htt. }
    destruct Hcase as [(Hst & -> & HW)|[(-> & Et & Edd & HF & Hfull)|(-> & Et & Edd & HF)]].
    + rewrite (proj2 (Z.leb_le _ _)) by lia. cbn [fst]. exists h, c', k. cbv zeta.
      rewrite Zlength_stream, used_app. cbn [used]. rewrite Z.add_0_r, Z.add_assoc. fold t. cbn [wire]. rewrite Ed'. split.
      * by eapply (sending_transport _ _ _ _ _ _ _ w).
      * apply (receiving_extend D d d' t q k h (receiver s) p _ (Control (wire s))); cbn; try done; try lia.
        -- unfold receiver_world in HR. unfold d. by destruct (wire s).
        -- by rewrite Zlength_stream.
        -- rewrite <- Ed'. by destruct (outgoing (shm w)).
    + rewrite (proj2 (Z.leb_gt _ _)), (proj2 (Z.leb_gt _ _)) by lia. by apply Hsame.
    + rewrite (proj2 (Z.leb_gt _ _)), (proj2 (Z.leb_le _ _)) by lia. by apply Hsame.
Qed.

Lemma used_nil q : used q <= 0 -> q = [].
Proof.
  destruct q as [|p q]; [done|]. cbn [used]. unfold frame_size.
  pose proof (used_pos q). pose proof (padded_bounds (Zlength p)). pose proof (Zlength_nonneg p). lia.
Qed.

Lemma receiving_transport D still d0 t0 q k own h w w' :
  ctx w = ctx w' -> incoming (shm w) = incoming (shm w') ->
  receiving D still d0 t0 q k own h w -> receiving D still d0 t0 q k own h w'.
Proof. intros Ec Es []. split; rewrite <- ?Ec, <- ?Es; done. Qed.

(** After a receive the sender sees the released space. *)
Lemma sending_released D d t q k h h2 c s w :
  sending D True h d t t h c (sender_world s) -> receiving D True d t q k h2 h2 w -> h <= h2 ->
  sending D True h2 d t t h2 c (mkWorld (sender s) (mkShared (incoming (shm w)) unused_ring) 0).
Proof.
  intros [S1 S2 S3 S4 S5 S6 (h' & Hh' & _ & _ & Eh') (Hc & Hct & Hc8 & Ec)]
    [R1 R2 R3 R4 R5 R6 (more & Hok & Hlt & Ei & Hd & Ht) Hst] Hh. cbv zeta in *. specialize (Ht Logic.I).
  pose proof (Zlength_nonneg (stream D h2 (q ++ more))). split; cbn in *; try done.
  - by apply Hst.
  - by rewrite Ei, Ht.
  - exists h2. split_and!; (done || lia).
  - split_and!; (done || lia).
Qed.

Lemma sim_receive D q s :
  ring_size D -> linked D q s ->
  exists s', impl_step s CReceive = Ok (s', Some (snd (spec_step D q CReceive))) /\
    linked D (fst (spec_step D q CReceive)) s'.
Proof.
  intros HD (h & c & k & HS & HR). cbv zeta in *. rewrite Zlength_stream in *. set (t := h + used q) in *.
  destruct (recv_one (P := idle) D HD (idle_producer D HD) True (Data (wire s)) t (fun _ => idle_still) q k h _ HR)
    as (r & w & E & Hcase).
  assert (Hlink : forall q' k' h2, receiving D True (Data (wire s)) t q' k' h2 h2 w -> h <= h2 -> t = h2 + used q' ->
    linked D q' (mkChan (sender s) (ctx w) (incoming (shm w)))).
  { intros q' k' h2 HR' Hh Et. exists h2, c, k'. cbv zeta. rewrite Zlength_stream, <- Et. cbn [wire].
    rewrite (r_still _ _ _ _ _ _ _ _ _ HR' Logic.I). split.
    - exact (sending_released D _ t q' k' h h2 c s w HS HR' Hh).
    - by eapply (receiving_transport _ _ _ _ _ _ _ _ w). }
  unfold impl_step. rewrite E, bind_Ok. destruct Hcase as [(-> & -> & HR')|(p & qs & more & k' & st & [x Hx] & -> & Hst & HR')].
  - eexists. split; [done|]. apply (Hlink [] 0%nat h); [done|lia|done].
  - pose proof HR' as [_ _ _ _ _ _ (more' & _ & _ & _ & _ & Ht) _]. specialize (Ht Logic.I). fold (frame_size p) in *.
    rewrite Zlength_stream, !used_app in Ht. assert (Hu : used (p :: qs) = used q + used x) by (by rewrite Hx, used_app).
    cbn [used] in Hu. pose proof (used_pos x). pose proof (used_pos more). pose proof (used_pos more').
    assert (x = []) as -> by (apply used_nil; lia). assert (more = []) as -> by (apply used_nil; lia).
    rewrite app_nil_r in *. subst q. eexists. split.
    + do 3 f_equal. cbn. by destruct Hst as [->|[->| ->]].
    + cbn [spec_step fst]. eapply Hlink; [exact HR'| |].
      * unfold frame_size. pose proof (padded_bounds (Zlength p)). pose proof (Zlength_nonneg p). lia.
      * unfold t. cbn [used]. lia.
Qed.

Definition chan_ok (D : Z) (o : chan_op) : Prop :=
  match o with CSend p => packet_ok p /\ Zlength p <= D | CReceive => True end.

Lemma run_sim D q s os :
  ring_size D -> linked D q s -> Forall (chan_ok D) os ->
  exists s', impl_run s os = Ok (s', Some <$> snd (spec_run D q os)) /\ linked D (fst (spec_run D q os)) s'.
Proof.
  intros HD HL Hos. revert q s HL. induction Hos as [|o os Ho Hos IH]; intros q s HL; [by exists s|].
  cbn [impl_run spec_run].
  assert (exists s1, impl_step s o = Ok (s1, Some (snd (spec_step D q o))) /\ linked D (fst (spec_step D q o)) s1)
    as (s1 & E1 & L1).
  { destruct o as [p|]; [destruct Ho; by apply sim_send|by apply sim_receive]. }
  rewrite E1, bind_Ok. destruct (spec_step D q o) as [q1 b1]. cbn [fst snd] in *.
  destruct (IH q1 s1 L1) as (s2 & E2 & L2). rewrite E2, bind_Ok. destruct (spec_run D q1 os) as [q2 bs].
  by exists s2.
Qed.
End Channel.

(** ** Opening a channel *)
Definition zero_ctx : PACKET_LIB_CONTEXT := mkCtx 0 0 0 0 0 0 0 0 0 0 0.

(** Both endpoints initialise over zeroed rings of [n] pages, one for each
    direction; the channel of interest is the first endpoint's outgoing ring. *)
Definition open_channel (n : Z) : result channel :=
  let D := n * EFI_PAGE_SIZE in
  '(_, wa) ← PkInitializeSingleMappedRingBuffer (P := idle) n n (mkWorld zero_ctx (blank D D) 0);
  '(_, wb) ← PkInitializeSingleMappedRingBuffer (P := idle) n n
     (mkWorld zero_ctx (mkShared (incoming (shm wa)) (outgoing (shm wa))) 0);
  Ok (mkChan (ctx wa) (ctx wb) (incoming (shm wb))).

Ltac world_simpl :=
  cbn [ctx shm now outgoing incoming Control Data In Out InterruptMask PendingSendSize FeatureBits
    Outgoing_DataBytesInRing Incoming_DataBytesInRing IncomingInCache IncomingOut EmptyRingBufferCount
    NonspuriousInterruptCount OutgoingIn OutgoingOutCache ctx_PendingSendSize FullRingBufferCount InterruptMaskSkips
    set_PendingSendSize set_InterruptMask set_FeatureBits set_IncomingInCache set_IncomingOut set_OutgoingIn
    set_OutgoingOutCache set_EmptyRingBufferCount set_FullRingBufferCount negb orb mret M_ret].

Ltac run_step := erewrite run_bind; [|reflexivity]; cbv beta; unfold interfere, idle; world_simpl.

(** Initialisation over quiet rings whose pointers are zero. *)
Lemma init_quiet n s :
  0 < n <= 2 ^ 19 -> In (Control (outgoing s)) = 0 -> Out (Control (outgoing s)) = 0 ->
  In (Control (incoming s)) = 0 -> Out (Control (incoming s)) = 0 ->
  let D := n * EFI_PAGE_SIZE in
  exists w, PkInitializeSingleMappedRingBuffer (P := idle) n n (mkWorld zero_ctx s 0) = Ok (EFI_SUCCESS, w) /\
    ctx w = mkCtx D D 0 0 1 0 0 0 0 1 0 /\
    Data (outgoing (shm w)) = Data (outgoing s) /\ Data (incoming (shm w)) = Data (incoming s) /\
    In (Control (outgoing (shm w))) = 0 /\ Out (Control (outgoing (shm w))) = 0 /\
    In (Control (incoming (shm w))) = 0 /\ Out (Control (incoming (shm w))) = 0.
Proof.
  intros Hn E1 E2 E3 E4 D. destruct (page_ring n Hn) as [E HD]. fold D in E, HD.
  assert (V : PkpValidatePointer D 0 = true).
  { apply validate_spec; [lia|]. destruct HD. split; [lia|done]. }
  destruct s as [[[o1 o2 o3 o4 o5] od] [[i1 i2 i3 i4 i5] iD]]. cbn in E1, E2, E3, E4. subst.
  unfold PkInitializeSingleMappedRingBuffer. fold D. rewrite E. clearbody D. unfold zero_ctx.
  run_step. unfold PkpInitRingBufferControl. do 6 run_step. rewrite V. world_simpl. do 10 run_step.
  eexists. split; [reflexivity|]. cbn. done.
Qed.

Lemma open_linked n : 0 < n <= 2 ^ 19 ->
  exists s, open_channel n = Ok s /\ linked (n * EFI_PAGE_SIZE) [] s.
Proof.
  intros Hn. destruct (page_ring n Hn) as [E HD]. unfold open_channel. set (D := n * EFI_PAGE_SIZE) in *.
  assert (Z0 : 0 mod D = 0) by (apply Z.mod_0_l; destruct HD; lia).
  destruct (init_quiet n (blank D D)) as (wa & -> & Ca & Da1 & Da2 & A1 & A2 & A3 & A4); [done..|]. fold D in Ca.
  rewrite bind_Ok.
  destruct (init_quiet n (mkShared (incoming (shm wa)) (outgoing (shm wa)))) as (wb & -> & Cb & Db1 & Db2 & B1 & B2 & B3 & B4);
    [done..|]. fold D in Cb. rewrite bind_Ok. cbn [Data incoming outgoing blank] in Da1, Da2, Db1, Db2.
  eexists. split; [reflexivity|]. destruct HD as [HD1 HD2]. clearbody D. exists 0, 0, 0%nat. cbv zeta. cbn [stream].
  change (Zlength (@nil Z)) with 0. assert (L : Zlength (Data (incoming (shm wb))) = D).
  { rewrite Db2, Da1. apply Zlength_replicate. lia. }
  split; split; cbn [sender_world receiver_world wire sender receiver ctx shm outgoing incoming]; rewrite ?Ca, ?Cb; cbn; rewrite ?Z0; try done.
  - exists 0. rewrite ?Z0. split_and!; (done || lia).
  - split_and!; (done || lia).
  - exists []. cbn. change (Zlength (@nil Z)) with 0. rewrite ?Z0. split_and!; (done || lia || constructor).
Qed.

(** ** Properties *)

(** C2. Channels are FIFO queues.  Two endpoints that open a channel of [n]
    pages and exchange packets, in any order of sends and receives, observe
    exactly what a bounded queue of packets would show: every send is accepted
    when the frames in flight leave room (all but one byte of the ring is
    usable) and refused with the right status otherwise, and receives yield the
    accepted packets in order, unmodified up to zero padding to whole 64-bit
    words; no operation faults. *)
Theorem pk_channel_fifo {B : BuildOptions} n os :
  0 < n <= 2 ^ 19 -> Forall (chan_ok (n * EFI_PAGE_SIZE)) os ->
  exists s s', open_channel n = Ok s /\
    impl_run s os = Ok (s', Some <$> snd (spec_run (n * EFI_PAGE_SIZE) [] os)).
Proof.
  intros Hn Hos. destruct (open_linked n Hn) as (s & E & L). destruct (page_ring n Hn) as [_ HD].
  destruct (run_sim _ [] s os HD L Hos) as (s' & E' & _). by exists s, s'.
Qed.

(** A packet of [16 + 8 * n] bytes with the given payload byte. *)
Definition sample_packet (n : nat) (v : Z) : list Z :=
  [6; 0; 2; 0; Z.of_nat n + 2; 0; 0; 0; 1; 0; 0; 0; 0; 0; 0; 0] ++ replicate (8 * n) v.

Lemma pk_channel_fifo_witness :
  exists s s', open_channel 1 = Ok s /\
    impl_run (B := debug_build) s [CSend (sample_packet 1 5); CSend (sample_packet 200 6); CReceive; CReceive; CReceive]
      = Ok (s', [Some Accepted; Some Accepted; Some (Got (sample_packet 1 5)); Some (Got (sample_packet 200 6)); Some Empty]).
Proof.
  destruct (pk_channel_fifo (B := debug_build) 1
    [CSend (sample_packet 1 5); CSend (sample_packet 200 6); CReceive; CReceive; CReceive]) as (s & s' & E & E').
  - lia.
  - repeat constructor; vm_compute; done.
  - exists s, s'. split; [exact E|]. rewrite E'. vm_compute. reflexivity.
Defined.

(** Sending while the consumer runs.  Let an honest consumer advance [Out]
    over published data at any access.  A send of a non-empty packet no larger
    than the ring returns; it succeeds if the frame fits the space free at the
    start, and then writes exactly the packet, zero padding and the trailer at
    the old [In] before publishing the new one; otherwise it leaves data and
    [In] alone, answering [EFI_INVALID_PARAMETER] only if the frame can never
    fit and [EFI_BUFFER_TOO_SMALL] only if it does not fit yet. *)
Lemma pk_send_concurrent {B : BuildOptions} {P : Peer} D p d t h c w :
  ring_size D -> honest_consumer D -> 0 < Zlength p <= D ->
  sending D False 0 d t t h c w ->
  exists st w' d' t' h' c', PkSendPacketRaw p (Zlength p) w = Ok (st, w') /\
    h <= h' /\ sending D False 0 d' t' t' h' c' w' /\
    (((st = EFI_SUCCESS \/ st = EFI_RING_SIGNAL_OPPOSITE_ENDPOINT) /\ t' = t + frame_size p /\
      cwritten d d' t (frame D t p)) \/
     (st = EFI_BUFFER_TOO_SMALL /\ t' = t /\ d' = d /\ D - 1 - (t - h) < frame_size p < D) \/
     (st = EFI_INVALID_PARAMETER /\ t' = t /\ d' = d /\ D <= frame_size p)).
Proof.
  intros HD HP Hp HS. pose proof (s_align _ _ _ _ _ _ _ _ _ HS) as Ht.
  destruct (send_packet D HD HP False 0 ltac:(done) p d t h c Hp Ht w HS) as (st & w' & E & h' & c' & d' & t' & Hh & HS' & Hcase).
  exists st, w', d', t', h', c'. split_and!; [done|done|done|]. cbv zeta in Hcase. fold (frame_size p) in Hcase.
  destruct Hcase as [H|[(-> & -> & -> & H1 & H2)|H]]; [by left| |by right; right].
  right. left. split_and!; [done|done|done|lia|lia].
Qed.

(** A consumer that drains the ring before every access of the sender. *)
Definition eager (D : Z) : Peer := fun _ s =>
  let c := Control (outgoing s) in
  mkShared (mkRing (set_Out ((Out c + 8 * ((In c - Out c) mod D / 8)) mod D) c) (Data (outgoing s))) (incoming s).

Lemma eager_honest D : 0 < D -> honest_consumer (H := eager D) D.
Proof.
  intros HD n s. cbv zeta. intros Hi Ho. split_and!; [done|done|].
  exists (8 * ((In (Control (outgoing s)) - Out (Control (outgoing s))) mod D / 8)).
  pose proof (Z.mod_pos_bound (In (Control (outgoing s)) - Out (Control (outgoing s))) D HD). split_and!; [zlia|zlia|zlia|done].
Qed.

(** Receiving while the producer runs.  Let an honest producer append
    whole frames at any access.  If packets are pending, receiving returns the
    oldest one, padded, with a success status, and leaves the others pending
    in order; if none is, it either reports [EFI_END_OF_FILE] or returns a
    packet that the producer published meanwhile. *)
Lemma pk_receive_concurrent {B : BuildOptions} {P : Peer} D ps k h w :
  ring_size D -> honest_producer D -> receiving D False [] 0 ps k h h w ->
  exists st packet w', receive_one w = Ok ((st, packet), w') /\
    match packet with
    | None => st = EFI_END_OF_FILE /\ ps = [] /\ receiving D False [] 0 [] 0 h h w'
    | Some b => (st = EFI_SUCCESS \/ st = EFI_RING_SIGNAL_OPPOSITE_ENDPOINT \/ st = EFI_RING_NEWLY_EMPTY) /\
        exists p qs k', b = pad p /\ (ps = [] \/ exists rest more, ps = p :: rest /\ qs = rest ++ more) /\
          receiving D False [] 0 qs k' (h + frame_size p) (h + frame_size p) w'
    end.
Proof.
  intros HD HP HR. destruct (recv_one D HD HP False [] 0 ltac:(done) ps k h w HR) as (r & w' & E & Hcase).
  destruct Hcase as [(-> & -> & HR')|(p & qs & more & k' & st & [x Hx] & -> & Hst & HR')].
  - by exists EFI_END_OF_FILE, None, w'.
  - exists st, (Some (pad p)), w'. split; [done|]. split; [done|]. exists p, (qs ++ more), k'. split_and!; [done| |done].
    destruct ps as [|p' rest]; [by left|right]. simplify_eq/=. exists rest, (x ++ more). by rewrite app_assoc.
Qed.

