(* ===== verification/EventLogger.v ===== *)
(** The event logger: [MsvmPkg/EventLogDxe/EventLogger.c].

    The logger is the handle table of channels together with the channel
    objects the table's pointers designate.  Services outside the repository
    (the performance counter, the pool and page allocators, the current TPL,
    memory visibility calls and the BIOS device) are arguments: each call
    receives what they answer.  The channel lock serialises the operations on a
    channel and is not part of the state. *)
From stdpp Require Import base list numbers list_numbers option gmap.
From Stdlib Require Import ZArith Lia.
From S2P Require Import Prelude EfiRing HandleTable.
Open Scope Z_scope.
Import EfiRing.

Module EventLogger.

Definition INVALID_EVENT_HANDLE : Z := 2 ^ 64 - 1.
Definition EVENT_FLAG_PENDING : Z := 1.
Definition EVENT_FLAG_INCOMPLETE : Z := 2.
Definition EVENT_CHANNEL_FIXED_RECORDS : Z := 1.
Definition EVENT_CHANNEL_OVERWRITE_RECORDS : Z := 2.
Definition EVENT_ENUM_BUFFER_STEP_SIZE : Z := 256.
Definition sizeof_EFI_EVENT_DESCRIPTOR : Z := 64.
Definition TPL_NOTIFY : Z := 16.

Definition has_flag (flags f : Z) : bool := negb (Z.land flags f =? 0).

(** GUIDs are their 16 bytes. *)
Record EFI_EVENT_DESCRIPTOR := mkDesc {
  Producer : list Z; CorrelationId : list Z; CreateTime : Z; CommitTime : Z;
  EventId : Z; Flags_ : Z; HeaderSize : Z; DataSize : Z }.

Definition zero_desc : EFI_EVENT_DESCRIPTOR := mkDesc (replicate 16 0) (replicate 16 0) 0 0 0 0 0 0.

(** The structure's image in memory, and back. *)
Definition desc_bytes (d : EFI_EVENT_DESCRIPTOR) : list Z :=
  Producer d ++ CorrelationId d ++ le_split 8 (CreateTime d) ++ le_split 8 (CommitTime d) ++
  le_split 4 (EventId d) ++ le_split 4 (Flags_ d) ++ le_split 4 (HeaderSize d) ++ le_split 4 (DataSize d).

Definition desc_of_bytes (b : list Z) : EFI_EVENT_DESCRIPTOR :=
  mkDesc (zslice 0 16 b) (zslice 16 16 b) (le_combine (zslice 32 8 b)) (le_combine (zslice 40 8 b))
    (le_combine (zslice 48 4 b)) (le_combine (zslice 52 4 b)) (le_combine (zslice 56 4 b)) (le_combine (zslice 60 4 b)).

Definition set_desc_Flags v d := mkDesc (Producer d) (CorrelationId d) (CreateTime d) (CommitTime d) (EventId d) v (HeaderSize d) (DataSize d).
Definition set_desc_CommitTime v d := mkDesc (Producer d) (CorrelationId d) (CreateTime d) v (EventId d) (Flags_ d) (HeaderSize d) (DataSize d).

(** [Cache] is the memory the pointer designates. *)
Record EVENT_PENDING_INFO := mkPending {
  Handle : Z; Metadata : EFI_EVENT_DESCRIPTOR; CacheSize : Z; Cache : option (list Z) }.

Record EVENT_CHANNEL_INFO := mkChannelInfo { Tpl : Z; ChannelFlags : Z; RecordSize : Z; BufferSize : Z }.
Record EVENT_CHANNEL_STATISTICS := mkChannelStats { Written : Z; Lost : Z; Reset : Z; Flush : Z }.

Record EVENT_CHANNEL := mkChannel {
  Id : list Z; Attributes : EVENT_CHANNEL_INFO; Pending : EVENT_PENDING_INFO;
  ChannelStats : EVENT_CHANNEL_STATISTICS; Ring : EFI_RING_BUFFER }.

Definition set_Pending v c := mkChannel (Id c) (Attributes c) v (ChannelStats c) (Ring c).
Definition set_ChannelStats v c := mkChannel (Id c) (Attributes c) (Pending c) v (Ring c).
Definition set_Ring v c := mkChannel (Id c) (Attributes c) (Pending c) (ChannelStats c) v.
Definition set_Pending_Metadata v c :=
  set_Pending (mkPending (Handle (Pending c)) v (CacheSize (Pending c)) (Cache (Pending c))) c.

(** The message handed to the BIOS device. *)
Record BIOS_EVENT_CHANNEL := mkBios {
  bios_Channel : list Z; EventsWritten : Z; EventsLost : Z; bios_DataSize : Z; bios_Data : list Z }.

Section Channel.
Context {B : BuildOptions}.

(** ** Pending events *)
Definition EventPendingCleanup (ch : EVENT_CHANNEL) : EVENT_CHANNEL :=
  set_Pending (mkPending INVALID_RING_HANDLE zero_desc (CacheSize (Pending ch)) (Cache (Pending ch))) ch.

(** [now] is what [GetPerformanceCounter] returns. *)
Definition EventPendingCommitInternal (ch : EVENT_CHANNEL) (now : Z) : result (EFI_STATUS * EVENT_CHANNEL) :=
  let meta := Metadata (Pending ch) in
  let meta := set_desc_Flags (Z.land (Flags_ meta) (u32 (Z.lnot EVENT_FLAG_PENDING))) meta in
  let meta := set_desc_CommitTime now meta in
  let ch := set_Pending_Metadata meta ch in
  '(status, r, _, _) ← RingBufferIo (Ring ch) (Handle (Pending ch)) DataWrite 0 (desc_bytes meta) sizeof_EFI_EVENT_DESCRIPTOR;
  let ch := set_Ring r ch in
  _ ← ASSERT (negb (EFI_ERROR status));
  '(status, ch) ← (
    match Cache (Pending ch) with
    | Some cache =>
      if 0 <? DataSize meta then
        '(status, r, _, _) ← RingBufferIo (Ring ch) (Handle (Pending ch)) DataWrite sizeof_EFI_EVENT_DESCRIPTOR cache (DataSize meta);
        _ ← ASSERT (negb (EFI_ERROR status));
        Ok (status, set_Ring r ch)
      else Ok (status, ch)
    | None => Ok (status, ch)
    end);
  Ok (status, EventPendingCleanup ch).

(** Status, the metadata copied out and the cache pointer's content. *)
Definition pending_get (ch : EVENT_CHANNEL) : result (EFI_STATUS * EVENT_CHANNEL * option EFI_EVENT_DESCRIPTOR * option (list Z)) :=
  valid ← RingBufferHandleIsValid (Ring ch) (Handle (Pending ch));
  if EFI_ERROR valid then Ok (EFI_NOT_FOUND, EventPendingCleanup ch, None, None)
  else Ok (EFI_SUCCESS, ch, Some (Metadata (Pending ch)), Cache (Pending ch)).

Definition pending_commit (ch : EVENT_CHANNEL) (now : Z) : result (EFI_STATUS * EVENT_CHANNEL) :=
  valid ← RingBufferHandleIsValid (Ring ch) (Handle (Pending ch));
  if EFI_ERROR valid then Ok (EFI_NOT_FOUND, EventPendingCleanup ch)
  else EventPendingCommitInternal ch now.

(** ** Logging *)

(** [ReallocatePool (old, new size)]: the allocator's fresh memory with the old
    content copied to its front. *)
Definition ReallocatePool (old : option (list Z)) (newSize : Z) (fresh : option (list Z)) : option (list Z) :=
  match fresh with
  | None => None
  | Some m => Some (match old with
                    | Some o => take (Z.to_nat newSize) o ++ drop (length (take (Z.to_nat newSize) o)) m
                    | None => m
                    end)
  end.

(** Growing the cache for the data of a pending event; whether it succeeded. *)
Definition grow_cache (ch : EVENT_CHANNEL) (Event : EFI_EVENT_DESCRIPTOR) (Data : option (list Z))
    (tpl : Z) (fresh : option (list Z)) : result (bool * EVENT_CHANNEL) :=
  if has_flag (Flags_ Event) EVENT_FLAG_PENDING && bool_decide (is_Some Data) && negb (DataSize Event =? 0) &&
     (CacheSize (Pending ch) <? DataSize Event) then
    _ ← ASSERT (tpl <=? TPL_NOTIFY);
    match ReallocatePool (Cache (Pending ch)) (DataSize Event) fresh with
    | None => Ok (false, ch)
    | Some cacheBuffer =>
      Ok (true, set_Pending (mkPending (Handle (Pending ch)) (Metadata (Pending ch)) (DataSize Event) (Some cacheBuffer)) ch)
    end
  else Ok (true, ch).

(** The pending event, if any, is marked incomplete and committed; the status
    of the commit is ignored. *)
Definition force_commit (ch : EVENT_CHANNEL) (now : Z) : result EVENT_CHANNEL :=
  if negb (Handle (Pending ch) =? INVALID_RING_HANDLE) then
    let meta := Metadata (Pending ch) in
    let ch := set_Pending_Metadata (set_desc_Flags (Z.lor (Flags_ meta) EVENT_FLAG_INCOMPLETE) meta) ch in
    '(_, ch) ← EventPendingCommitInternal ch now; Ok ch
  else Ok ch.

(** The descriptor [EventLog] builds. *)
Definition event_meta (Event : EFI_EVENT_DESCRIPTOR) (now : Z) : EFI_EVENT_DESCRIPTOR :=
  mkDesc (Producer Event) (CorrelationId Event) now
    (if has_flag (Flags_ Event) EVENT_FLAG_PENDING then 0 else now) (EventId Event)
    (Z.land (Flags_ Event) EVENT_FLAG_PENDING) sizeof_EFI_EVENT_DESCRIPTOR (DataSize Event).

(** The data of the event: into the cache when it is pending, else into the
    ring.  [status] is the one of the descriptor's write. *)
Definition log_data (ch : EVENT_CHANNEL) (Event : EFI_EVENT_DESCRIPTOR) (Data : option (list Z))
    (eventHandle : Z) (eventMeta : EFI_EVENT_DESCRIPTOR) (status : EFI_STATUS) (commitNow : Z)
  : result (EFI_STATUS * EVENT_CHANNEL) :=
  if has_flag (Flags_ Event) EVENT_FLAG_PENDING then
    ch ← force_commit ch commitNow;
    let ch := set_Pending (mkPending eventHandle eventMeta (CacheSize (Pending ch)) (Cache (Pending ch))) ch in
    _ ← ASSERT (DataSize Event <=? CacheSize (Pending ch));
    (* CopyMem (Cache, Data, DataSize) *)
    if DataSize Event =? 0 then Ok (status, ch)
    else match Cache (Pending ch), Data with
    | Some cache, Some data =>
      cache ← CopyMem cache 0 data 0 (DataSize Event);
      Ok (status, set_Pending (mkPending eventHandle eventMeta (CacheSize (Pending ch)) (Some cache)) ch)
    | _, _ => Fault NullDeref
    end
  else match Data with
  | Some data =>
    if negb (DataSize Event =? 0) then
      '(status, r, _, _) ← RingBufferIo (Ring ch) eventHandle DataWrite sizeof_EFI_EVENT_DESCRIPTOR data (DataSize Event);
      let ch := set_Ring r ch in
      if EFI_ERROR status then _ ← ASSERT false; Ok (status, ch) else Ok (status, ch)
    else Ok (status, ch)
  | None => Ok (status, ch)
  end.

(** [EventLog] on the channel found.  [tpl], [fresh] and the two times are the
    answers of the services called. *)
Definition event_log (ch : EVENT_CHANNEL) (Event : EFI_EVENT_DESCRIPTOR) (Data : option (list Z))
    (tpl : Z) (fresh : option (list Z)) (now commitNow : Z) : result (EFI_STATUS * EVENT_CHANNEL) :=
  '(grown, ch) ← grow_cache ch Event Data tpl fresh;
  if negb grown then Ok (EFI_OUT_OF_RESOURCES, ch)
  else
    '(status, r, eventHandle) ← RingBufferReserve (Ring ch) (u32 (DataSize Event + sizeof_EFI_EVENT_DESCRIPTOR));
    let ch := set_Ring r ch in
    if EFI_ERROR status then Ok (status, ch)
    else
      let eventMeta := event_meta Event now in
      '(status, r, _, _) ← RingBufferIo (Ring ch) eventHandle DataWrite 0 (desc_bytes eventMeta) sizeof_EFI_EVENT_DESCRIPTOR;
      let ch := set_Ring r ch in
      if EFI_ERROR status then _ ← ASSERT false; Ok (status, ch)
      else
        '(status, ch) ← log_data ch Event Data eventHandle eventMeta status commitNow;
        if EFI_ERROR status then Ok (status, ch)
        else
          let s := ChannelStats ch in
          Ok (status, set_ChannelStats (mkChannelStats (u32 (Written s + 1)) (Lost s) (Reset s) (Flush s)) ch).

(** ** Reset and flush of one channel *)
Definition EventChannelResetCallback (ch : EVENT_CHANNEL) : EFI_STATUS * EVENT_CHANNEL :=
  let ch := EventPendingCleanup ch in
  let s := ChannelStats ch in
  let ch := set_ChannelStats (mkChannelStats 0 (Lost s) (u32 (Reset s + 1)) (Flush s)) ch in
  (EFI_SUCCESS, set_Ring (RingBufferReset (Ring ch)) ch).

(** [region] is the memory below 4 GB for the descriptor's [Data] ([None] when
    the allocation fails), [visible] the status of making it visible to the
    host.  The message written to the BIOS device, if any, is returned. *)
Definition EventChannelFlushCallback (isolated hostEmulatorsPresent : bool) (ch : EVENT_CHANNEL)
    (region : option (list Z)) (visible : EFI_STATUS) (now : Z)
  : result (EFI_STATUS * EVENT_CHANNEL * option BIOS_EVENT_CHANNEL) :=
  match region with
  | None => Ok (EFI_OUT_OF_RESOURCES, ch, None)
  | Some data =>
    if isolated && hostEmulatorsPresent && EFI_ERROR visible then Ok (visible, ch, None)
    else
      ch ← force_commit ch now;
      '(_, dataSize, data) ← RingBufferFlatten (Ring ch) (Size (Ring ch)) data;
      let descriptor := mkBios (Id ch) (Written (ChannelStats ch)) (LostWrites (Stats (Ring ch))) dataSize data in
      let message := if isolated && negb hostEmulatorsPresent then None else Some descriptor in
      let s := ChannelStats ch in
      Ok (EFI_SUCCESS, set_ChannelStats (mkChannelStats (Written s) (Lost s) (Reset s) (u32 (Flush s + 1))) ch, message)
  end.

(** ** Enumeration *)
Record EVENT_ENUM_CONTEXT := mkEnum { RingEnum : Z; EnumBufferSize : Z; EnumBuffer : list Z }.

(** [AllocateZeroPool] for a context, if it succeeds. *)
Definition new_context (allocated : bool) (ringEnum size : Z) : option EVENT_ENUM_CONTEXT :=
  if allocated then Some (mkEnum ringEnum size (replicate (Z.to_nat size) 0)) else None.

(** [ALIGN_VALUE (x, EVENT_ENUM_BUFFER_STEP_SIZE)], as a UINT32. *)
Definition align_step (x : Z) : Z :=
  u32 (x + Z.land (u64 (EVENT_ENUM_BUFFER_STEP_SIZE - x)) (EVENT_ENUM_BUFFER_STEP_SIZE - 1)).

(** Status, channel, enumerator, metadata and event data on return. *)
Definition enum_out : Type := EFI_STATUS * EVENT_CHANNEL * option EVENT_ENUM_CONTEXT * option EFI_EVENT_DESCRIPTOR * option (list Z).

Definition event_enumerate (ch : EVENT_CHANNEL) (Enumerator : option EVENT_ENUM_CONTEXT) (alloc1 alloc2 : bool) : result enum_out :=
  match (match Enumerator with Some c => Some c | None => new_context alloc1 INVALID_RING_HANDLE EVENT_ENUM_BUFFER_STEP_SIZE end) with
  | None => Ok (EFI_OUT_OF_RESOURCES, ch, None, None, None)
  | Some ctx =>
    '(status, r, ringEnum, curItem, _) ← RingBufferHandleEnumerate (Ring ch) (RingEnum ctx);
    let ch := set_Ring r ch in
    let ctx := mkEnum ringEnum (EnumBufferSize ctx) (EnumBuffer ctx) in
    if EFI_ERROR status then Ok (status, ch, Some ctx, None, None)
    else
      '(status, r, meta, _) ← RingBufferIo (Ring ch) curItem DataRead 0 (desc_bytes zero_desc) sizeof_EFI_EVENT_DESCRIPTOR;
      let ch := set_Ring r ch in
      if EFI_ERROR status then Ok (status, ch, Some ctx, None, None)
      else
        let eventMeta := desc_of_bytes meta in
        if has_flag (Flags_ eventMeta) EVENT_FLAG_PENDING then
          _ ← ASSERT (DataSize eventMeta <=? CacheSize (Pending ch));
          Ok (status, ch, Some ctx, Some eventMeta, Cache (Pending ch))
        else
          match (if EnumBufferSize ctx <? DataSize eventMeta
                 then new_context alloc2 (RingEnum ctx) (align_step (DataSize eventMeta)) else Some ctx) with
          | None => Ok (EFI_OUT_OF_RESOURCES, ch, Some ctx, None, None)
          | Some ctx =>
            '(status, r, buf, readSize) ← RingBufferIo (Ring ch) curItem DataRead sizeof_EFI_EVENT_DESCRIPTOR (EnumBuffer ctx) (EnumBufferSize ctx);
            let ch := set_Ring r ch in
            let ctx := mkEnum (RingEnum ctx) (EnumBufferSize ctx) buf in
            if EFI_ERROR status then Ok (status, ch, Some ctx, None, None)
            else
              _ ← ASSERT (readSize =? DataSize eventMeta);
              Ok (status, ch, Some ctx, Some eventMeta, Some buf)
          end
  end.
End Channel.

(** ** The logger *)
Record logger := mkLogger { mEventChannels : HandleTable.EFI_HANDLE_TABLE; channels : gmap Z EVENT_CHANNEL }.

Definition set_channel (lg : logger) (p : Z) (ch : EVENT_CHANNEL) : logger :=
  mkLogger (mEventChannels lg) (<[p := ch]> (channels lg)).

(** The first bytes of the object at [p]: the channel's GUID. *)
Definition channel_key (lg : logger) (p : Z) : list Z :=
  match channels lg !! p with Some ch => Id ch | None => [] end.

Definition sizeof_EFI_GUID : Z := 16.

(** On a 64-bit target; the ring's buffer follows the structure. *)
Definition sizeof_EVENT_CHANNEL : Z := 208.

Definition EventChannelFromGuid (lg : logger) (guid : list Z) : result (option Z * Z) :=
  '(channel, handle) ← HandleTable.EfiHandleTableLookupByKey (channel_key lg) (mEventChannels lg) guid sizeof_EFI_GUID;
  match channel with
  | Some p => Ok (Some p, handle)
  | None => Ok (None, INVALID_EVENT_HANDLE)
  end.

Definition EventChannelFromHandle (lg : logger) (Channel : Z) : result (option Z) :=
  if Channel =? INVALID_EVENT_HANDLE then Ok None
  else HandleTable.EfiHandleTableLookupByHandle (mEventChannels lg) Channel.

(** [*channel] for a pointer obtained from the table. *)
Definition deref (lg : logger) (p : Z) : result EVENT_CHANNEL :=
  match channels lg !! p with Some ch => Ok ch | None => Fault OutOfBounds end.

Section Logger.
Context {B : BuildOptions}.

(** The ring of a zeroed channel object. *)
Definition zero_ring (size : Z) : EFI_RING_BUFFER := mkRing 0 0 0 0 0 (mkStats 0 0 0) 0 (replicate (Z.to_nat size) 0).

(** [address] is what the pool allocator answers.  Status, logger and handle. *)
Definition EventChannelCreate (lg : logger) (Channel : list Z) (attrs : option EVENT_CHANNEL_INFO) (address : option Z)
  : result (EFI_STATUS * logger * Z) :=
  '(channel, handle) ← EventChannelFromGuid lg Channel;
  match channel with
  | Some _ => Ok (EFI_SUCCESS, lg, handle)
  | None =>
    match attrs with
    | None => Ok (EFI_NOT_FOUND, lg, handle)
    | Some a =>
      if negb (Z.land (BufferSize a) (u32 (BufferSize a - 1)) =? 0) then Ok (EFI_INVALID_PARAMETER, lg, handle)
      else if has_flag (ChannelFlags a) EVENT_CHANNEL_FIXED_RECORDS &&
              ((RecordSize a =? 0) || negb (BufferSize a mod RecordSize a =? 0))
      then Ok (EFI_INVALID_PARAMETER, lg, handle)
      else
        '(status, table, object, handle) ←
          HandleTable.EfiHandleTableAllocateObject (mEventChannels lg) (sizeof_EVENT_CHANNEL + BufferSize a) address;
        match object with
        | None => Ok (status, mkLogger table (channels lg), handle)
        | Some p =>
          let '(status, r) := RingBufferInitialize (zero_ring (BufferSize a)) (BufferSize a)
            (if has_flag (ChannelFlags a) EVENT_CHANNEL_OVERWRITE_RECORDS then RING_BUFFER_OVERWRITE else 0) in
          let ch := mkChannel Channel a (mkPending INVALID_RING_HANDLE zero_desc 0 None) (mkChannelStats 0 0 0 0) r in
          _ ← ASSERT (negb (EFI_ERROR status));
          Ok (status, mkLogger table (<[p := ch]> (channels lg)), handle)
        end
    end
  end.

(** What the services answer while a channel is flushed. *)
Record flush_env := mkFlushEnv { env_region : option (list Z); env_visible : EFI_STATUS; env_now : Z }.

Definition flush_object (isolated hostEmulators : bool) (env : Z -> flush_env) (p : Z) (s : logger * list BIOS_EVENT_CHANNEL)
  : result (EFI_STATUS * (logger * list BIOS_EVENT_CHANNEL)) :=
  let (lg, out) := s in
  ch ← deref lg p;
  '(status, ch, message) ← EventChannelFlushCallback isolated hostEmulators ch
     (env_region (env p)) (env_visible (env p)) (env_now (env p));
  Ok (status, (set_channel lg p ch, out ++ option_list message)).

(** Status, logger and the messages written to the BIOS device, in order. *)
Definition EventChannelFlush (lg : logger) (Channel : Z) (isolated hostEmulators : bool) (env : Z -> flush_env)
  : result (EFI_STATUS * (logger * list BIOS_EVENT_CHANNEL)) :=
  if Channel =? INVALID_EVENT_HANDLE then
    HandleTable.EfiHandleTableEnumerateObjects (fun _ p => flush_object isolated hostEmulators env p) (mEventChannels lg) (lg, [])
  else
    channel ← EventChannelFromHandle lg Channel;
    match channel with
    | Some p => flush_object isolated hostEmulators env p (lg, [])
    | None => Ok (EFI_NOT_FOUND, (lg, []))
    end.

Definition reset_object (p : Z) (lg : logger) : result (EFI_STATUS * logger) :=
  ch ← deref lg p;
  let (status, ch) := EventChannelResetCallback ch in
  Ok (status, set_channel lg p ch).

Definition EventChannelReset (lg : logger) (Channel : Z) : result (EFI_STATUS * logger) :=
  if Channel =? INVALID_EVENT_HANDLE then
    HandleTable.EfiHandleTableEnumerateObjects (fun _ p => reset_object p) (mEventChannels lg) lg
  else
    channel ← EventChannelFromHandle lg Channel;
    match channel with
    | Some p => reset_object p lg
    | None => Ok (EFI_NOT_FOUND, lg)
    end.

(** [Stats] is whether the out-parameter is non-NULL; its content on success. *)
Definition EventChannelStatistics (lg : logger) (Channel : Z) (Stats_ : bool) : result (EFI_STATUS * option EVENT_CHANNEL_STATISTICS) :=
  channel ← EventChannelFromHandle lg Channel;
  _ ← ASSERT Stats_;
  match channel with
  | Some p =>
    ch ← deref lg p;
    if Stats_ then
      let s := ChannelStats ch in
      Ok (EFI_SUCCESS, Some (mkChannelStats (Written s) (LostWrites (Stats (Ring ch))) (Reset s) (Flush s)))
    else Fault NullDeref
  | None => Ok (EFI_NOT_FOUND, None)
  end.

Definition EventEnumerate (lg : logger) (Channel : Z) (Enumerator : option EVENT_ENUM_CONTEXT) (alloc1 alloc2 : bool)
  : result (EFI_STATUS * logger * option EVENT_ENUM_CONTEXT * option EFI_EVENT_DESCRIPTOR * option (list Z)) :=
  channel ← EventChannelFromHandle lg Channel;
  match channel with
  | None => Ok (EFI_NOT_FOUND, lg, None, None, None)
  | Some p =>
    ch ← deref lg p;
    '(status, ch, ctx, meta, data) ← event_enumerate ch Enumerator alloc1 alloc2;
    Ok (status, set_channel lg p ch, ctx, meta, data)
  end.

Definition EventLog (lg : logger) (Channel : Z) (Event : option EFI_EVENT_DESCRIPTOR) (Data : option (list Z))
    (tpl : Z) (fresh : option (list Z)) (now commitNow : Z) : result (EFI_STATUS * logger) :=
  channel ← EventChannelFromHandle lg Channel;
  match channel, Event with
  | None, _ => Ok (EFI_NOT_FOUND, lg)
  | Some _, None => Ok (EFI_INVALID_PARAMETER, lg)
  | Some p, Some event =>
    ch ← deref lg p;
    '(status, ch) ← event_log ch event Data tpl fresh now commitNow;
    Ok (status, set_channel lg p ch)
  end.

Definition EventPendingGet (lg : logger) (Channel : Z)
  : result (EFI_STATUS * logger * option EFI_EVENT_DESCRIPTOR * option (list Z)) :=
  channel ← EventChannelFromHandle lg Channel;
  match channel with
  | None => Ok (EFI_NOT_FOUND, lg, None, None)
  | Some p =>
    ch ← deref lg p;
    '(status, ch, meta, data) ← pending_get ch;
    Ok (status, set_channel lg p ch, meta, data)
  end.

Definition EventPendingCommit (lg : logger) (Channel now : Z) : result (EFI_STATUS * logger) :=
  channel ← EventChannelFromHandle lg Channel;
  match channel with
  | None => Ok (EFI_NOT_FOUND, lg)
  | Some p =>
    ch ← deref lg p;
    '(status, ch) ← pending_commit ch now;
    Ok (status, set_channel lg p ch)
  end.

(** The table's key is 'B'; [install] is the status of the protocol
    installation. *)
Definition EventLoggerInitialize (maxChannels : Z) (allocated : bool) (install : EFI_STATUS) : result (EFI_STATUS * option logger) :=
  '(status, table) ← HandleTable.EfiHandleTableInitialize (Some (HandleTable.mkInfo true sizeof_EFI_GUID)) maxChannels 0x42 true allocated;
  if EFI_ERROR status then _ ← ASSERT false; Ok (status, option_map (fun t => mkLogger t ∅) table)
  else
    _ ← (if EFI_ERROR install then ASSERT false else Ok tt);
    Ok (install, option_map (fun t => mkLogger t ∅) table).
End Logger.
End EventLogger.
