(* ===== verification/EventChannel.v ===== *)
(** One event channel as a log of events with at most one pending.

    [achannel] is the contract of a channel of [EventLogger.c]: a bounded list
    of events, of which at most one is pending with its data in a cache the
    client may still change.  [chan_rep] relates it to the channel object: the
    ring's records are the events' descriptors followed by their data. *)
From stdpp Require Import base list numbers list_numbers option.
From Stdlib Require Import ZArith Lia.
From S2P Require Import Prelude Circular EfiRing EfiRingFacts EfiRingOps EfiRingAccess EventQueue EventLogger.
Import EfiRing EventLogger.
Open Scope Z_scope.

(** ** Descriptors in memory *)
Record desc_ok (d : EFI_EVENT_DESCRIPTOR) : Prop := {
  ok_producer : length (Producer d) = 16%nat;
  ok_correlation : length (CorrelationId d) = 16%nat;
  ok_create : 0 <= CreateTime d < 2 ^ 64;
  ok_commit : 0 <= CommitTime d < 2 ^ 64;
  ok_id : 0 <= EventId d < 2 ^ 32;
  ok_flags : 0 <= Flags_ d < 2 ^ 32;
  ok_header : 0 <= HeaderSize d < 2 ^ 32;
  ok_size : 0 <= DataSize d < 2 ^ 32
}.

Lemma Zlength_desc_bytes d : desc_ok d -> Zlength (desc_bytes d) = sizeof_EFI_EVENT_DESCRIPTOR.
Proof.
  intros []. unfold desc_bytes, Zlength, sizeof_EFI_EVENT_DESCRIPTOR. rewrite !length_app, !length_le_split. lia.
Qed.

Lemma zslice_here {A} n (l1 l2 : list A) : length l1 = Z.to_nat n -> zslice 0 n (l1 ++ l2) = l1.
Proof. intros E. unfold zslice. by rewrite drop_0, <- E, take_app_length. Qed.

Lemma zslice_skip {A} off n (l1 l2 : list A) :
  Z.of_nat (length l1) <= off -> zslice off n (l1 ++ l2) = zslice (off - Z.of_nat (length l1)) n l2.
Proof.
  intros E. unfold zslice. f_equal. rewrite drop_app_ge by lia. f_equal. lia.
Qed.

Lemma desc_of_bytes_bytes d rest : desc_ok d -> desc_of_bytes (desc_bytes d ++ rest) = d.
Proof.
  intros []. unfold desc_of_bytes, desc_bytes. rewrite <- !app_assoc.
  repeat match goal with
  | |- context [zslice 0 _ (?a ++ _)] => rewrite (zslice_here _ a) by (rewrite ?length_le_split; lia)
  | |- context [zslice ?o ?n (?a ++ ?b)] =>
      rewrite (zslice_skip o n a b) by (rewrite ?length_le_split; lia);
      rewrite ?length_le_split, ?ok_producer0, ?ok_correlation0; cbn [Z.of_nat Pos.of_succ_nat Pos.succ];
      match goal with |- context [zslice (?x - ?y) n b] =>
        let v := eval vm_compute in (x - y) in change (x - y) with v end
  end.
  rewrite !le_combine_split_small by (cbn; lia). by destruct d.
Qed.

(** ** The contract *)

(** An event in the log; its data is unknown while it is only in the cache. *)
Record slot := mkSlot { s_desc : EFI_EVENT_DESCRIPTOR; s_data : option (list Z) }.

Record achannel := mkA {
  a_id : list Z; a_cap : Z; a_over : bool; a_slots : list slot; a_pend : option nat;
  a_cache : option (list Z); a_written : Z; a_lost : Z; a_resets : Z; a_flushes : Z }.

Definition set_slots a slots pend : achannel :=
  mkA (a_id a) (a_cap a) (a_over a) slots pend (a_cache a) (a_written a) (a_lost a) (a_resets a) (a_flushes a).
Definition set_cache a cache : achannel :=
  mkA (a_id a) (a_cap a) (a_over a) (a_slots a) (a_pend a) cache (a_written a) (a_lost a) (a_resets a) (a_flushes a).
Definition add_written a n : achannel :=
  mkA (a_id a) (a_cap a) (a_over a) (a_slots a) (a_pend a) (a_cache a) (a_written a + n) (a_lost a) (a_resets a) (a_flushes a).
Definition add_lost a n : achannel :=
  mkA (a_id a) (a_cap a) (a_over a) (a_slots a) (a_pend a) (a_cache a) (a_written a) (a_lost a + n) (a_resets a) (a_flushes a).
Definition add_flushes a n : achannel :=
  mkA (a_id a) (a_cap a) (a_over a) (a_slots a) (a_pend a) (a_cache a) (a_written a) (a_lost a) (a_resets a) (a_flushes a + n).

Definition cached a : list Z := default [] (a_cache a).

(** Bytes an event takes in the ring. *)
Definition slot_size (s : slot) : Z := sizeof_RING_RECORD + sizeof_EFI_EVENT_DESCRIPTOR + DataSize (s_desc s).
Fixpoint a_used (slots : list slot) : Z :=
  match slots with [] => 0 | s :: ss => slot_size s + a_used ss end.

(** How many of the oldest events are dropped to free [total] bytes. *)
Fixpoint to_drop (cap : Z) (slots : list slot) (total : Z) : nat :=
  if total <=? cap - 1 - a_used slots then O
  else match slots with [] => O | _ :: ss => S (to_drop cap ss total) end.

(** A committed event carries no flag but possibly INCOMPLETE. *)
Definition commit_desc (incomplete : bool) (now : Z) d : EFI_EVENT_DESCRIPTOR :=
  set_desc_CommitTime now (set_desc_Flags (if incomplete then EVENT_FLAG_INCOMPLETE else 0) d).

Definition a_commit (incomplete : bool) (now : Z) (a : achannel) : achannel :=
  match a_pend a with
  | None => a
  | Some i =>
    set_slots a (alter (fun s => mkSlot (commit_desc incomplete now (s_desc s))
                   (Some (take (Z.to_nat (DataSize (s_desc s))) (cached a)))) i (a_slots a)) None
  end.

(** The descriptor under which [Event] is recorded. *)
Definition logged_desc (Event : EFI_EVENT_DESCRIPTOR) (now : Z) : EFI_EVENT_DESCRIPTOR :=
  let pending := has_flag (Flags_ Event) EVENT_FLAG_PENDING in
  mkDesc (Producer Event) (CorrelationId Event) now (if pending then 0 else now) (EventId Event)
    (if pending then EVENT_FLAG_PENDING else 0) sizeof_EFI_EVENT_DESCRIPTOR (DataSize Event).

Definition a_append (a : achannel) (Event : EFI_EVENT_DESCRIPTOR) (Data : option (list Z)) (now commitNow : Z) : achannel :=
  let data := take (Z.to_nat (DataSize Event)) (default [] Data) in
  if has_flag (Flags_ Event) EVENT_FLAG_PENDING then
    let a := a_commit true commitNow a in
    let a := set_slots a (a_slots a ++ [mkSlot (logged_desc Event now) None]) (Some (length (a_slots a))) in
    if DataSize Event =? 0 then a
    else set_cache a (Some (data ++ drop (length data) (cached a)))
  else set_slots a (a_slots a ++ [mkSlot (logged_desc Event now) (Some data)]) (a_pend a).

(** The cache grows when the new pending event needs it to. *)
Definition a_grow (a : achannel) (Event : EFI_EVENT_DESCRIPTOR) (fresh : option (list Z)) : option achannel :=
  if has_flag (Flags_ Event) EVENT_FLAG_PENDING && (Zlength (cached a) <? DataSize Event) then
    match fresh with
    | None => None
    | Some m => Some (set_cache a (Some (cached a ++ drop (length (cached a)) m)))
    end
  else Some a.

Definition a_log (a : achannel) (Event : EFI_EVENT_DESCRIPTOR) (Data fresh : option (list Z)) (now commitNow : Z)
  : EFI_STATUS * achannel :=
  match a_grow a Event fresh with
  | None => (EFI_OUT_OF_RESOURCES, a)
  | Some a =>
    let total := sizeof_RING_RECORD + sizeof_EFI_EVENT_DESCRIPTOR + DataSize Event in
    if a_cap a - 1 <? total then (EFI_BAD_BUFFER_SIZE, add_lost a 1)
    else if (total <=? a_cap a - 1 - a_used (a_slots a)) || a_over a then
      let k := to_drop (a_cap a) (a_slots a) total in
      let a := add_lost (set_slots a (drop k (a_slots a)) (a_pend a)) (Z.of_nat k) in
      (EFI_SUCCESS, add_written (a_append a Event Data now commitNow) 1)
    else (EFI_OUT_OF_RESOURCES, add_lost a 1)
  end.

Definition slot_bytes (s : slot) : list Z := desc_bytes (s_desc s) ++ default [] (s_data s).

(** What the host receives. *)
Definition a_message (a : achannel) : BIOS_EVENT_CHANNEL :=
  let data := concat (slot_bytes <$> a_slots a) in
  mkBios (a_id a) (u32 (a_written a)) (u32 (a_lost a)) (Zlength data) data.

Definition a_flush (isolated hostEmulators : bool) (visible : EFI_STATUS) (now : Z) (a : achannel)
  : EFI_STATUS * option BIOS_EVENT_CHANNEL * achannel :=
  if isolated && hostEmulators && EFI_ERROR visible then (visible, None, a)
  else
    let a := a_commit true now a in
    (EFI_SUCCESS, if isolated && negb hostEmulators then None else Some (a_message a), add_flushes a 1).

Definition a_reset (a : achannel) : achannel :=
  mkA (a_id a) (a_cap a) (a_over a) [] None (a_cache a) 0 0 (a_resets a + 1) (a_flushes a).

(** The client overwrites the data of the pending event. *)
Definition a_update (a : achannel) (bytes : list Z) : EFI_STATUS * achannel :=
  match (i ← a_pend a; a_slots a !! i) with
  | None => (EFI_NOT_FOUND, a)
  | Some s =>
    let bytes := take (Z.to_nat (DataSize (s_desc s))) bytes in
    (EFI_SUCCESS, match a_cache a with
                  | None => a
                  | Some cache => set_cache a (Some (bytes ++ drop (length bytes) cache))
                  end)
  end.

(** ** Operations on a channel, in any order *)
Inductive chan_op :=
  | CLog (Event : EFI_EVENT_DESCRIPTOR) (Data : option (list Z)) (tpl : Z) (fresh : option (list Z)) (now commitNow : Z)
  | CUpdate (bytes : list Z)
  | CCommit (now : Z)
  | CFlush (isolated hostEmulators : bool) (region : option (list Z)) (visible : EFI_STATUS) (now : Z)
  | CReset.

(** Status and, from a flush, the message with the bytes it declares. *)
Definition chan_out : Type := EFI_STATUS * option BIOS_EVENT_CHANNEL.

Definition trim_message (m : BIOS_EVENT_CHANNEL) : BIOS_EVENT_CHANNEL :=
  mkBios (bios_Channel m) (EventsWritten m) (EventsLost m) (bios_DataSize m)
    (take (Z.to_nat (bios_DataSize m)) (bios_Data m)).

Definition a_step (a : achannel) (op : chan_op) : chan_out * achannel :=
  match op with
  | CLog e d _ fresh now cnow => let (st, a) := a_log a e d fresh now cnow in ((st, None), a)
  | CUpdate bytes => let (st, a) := a_update a bytes in ((st, None), a)
  | CCommit now =>
    match a_pend a with
    | None => ((EFI_NOT_FOUND, None), a)
    | Some _ => ((EFI_SUCCESS, None), a_commit false now a)
    end
  | CFlush iso emu region visible now =>
    match region with
    | None => ((EFI_OUT_OF_RESOURCES, None), a)
    | Some _ => let '(st, m, a) := a_flush iso emu visible now a in ((st, m), a)
    end
  | CReset => ((EFI_SUCCESS, None), a_reset a)
  end.

Fixpoint a_run (a : achannel) (ops : list chan_op) : list chan_out * achannel :=
  match ops with
  | [] => ([], a)
  | op :: ops => let (o, a) := a_step a op in let (os, a) := a_run a ops in (o :: os, a)
  end.

Section Steps.
Context {B : BuildOptions}.

Definition client_update (ch : EVENT_CHANNEL) (bytes : list Z) : result (EFI_STATUS * EVENT_CHANNEL) :=
  '(status, ch, meta, data) ← pending_get ch;
  match meta, data with
  | Some d, Some cache =>
    let bytes := take (Z.to_nat (DataSize d)) bytes in
    cache ← CopyMem cache 0 bytes 0 (Zlength bytes);
    Ok (status, set_Pending (mkPending (Handle (Pending ch)) (Metadata (Pending ch)) (CacheSize (Pending ch)) (Some cache)) ch)
  | _, _ => Ok (status, ch)
  end.

Definition chan_step (ch : EVENT_CHANNEL) (op : chan_op) : result (chan_out * EVENT_CHANNEL) :=
  match op with
  | CLog e d tpl fresh now cnow => '(st, ch) ← event_log ch e d tpl fresh now cnow; Ok ((st, None), ch)
  | CUpdate bytes => '(st, ch) ← client_update ch bytes; Ok ((st, None), ch)
  | CCommit now => '(st, ch) ← pending_commit ch now; Ok ((st, None), ch)
  | CFlush iso emu region visible now =>
    '(st, ch, m) ← EventChannelFlushCallback iso emu ch region visible now; Ok ((st, option_map trim_message m), ch)
  | CReset => let (st, ch) := EventChannelResetCallback ch in Ok ((st, None), ch)
  end.

Fixpoint chan_run (ch : EVENT_CHANNEL) (ops : list chan_op) : result (list chan_out * EVENT_CHANNEL) :=
  match ops with
  | [] => Ok ([], ch)
  | op :: ops => '(o, ch) ← chan_step ch op; '(os, ch) ← chan_run ch ops; Ok (o :: os, ch)
  end.
End Steps.

(** ** Representation *)

(** The record of an event in the ring. *)
Definition slot_rep (s : slot) (rec : list Z) : Prop :=
  desc_ok (s_desc s) /\ exists raw, rec = desc_bytes (s_desc s) ++ raw /\
    Zlength raw = DataSize (s_desc s) /\ (forall d, s_data s = Some d -> raw = d).

Definition handle_at r (recs : list (list Z)) (i : nat) (h : Z) : Prop := handle_for r (take i recs) h.

(** The pending event of a channel: its slot and its live handle. *)
Definition pend_rep (ch : EVENT_CHANNEL) (recs : list (list Z)) (a : achannel) : Prop :=
  match a_pend a with
  | None => Handle (Pending ch) = INVALID_RING_HANDLE
  | Some i => exists s, a_slots a !! i = Some s /\ Metadata (Pending ch) = s_desc s /\
      Flags_ (s_desc s) = EVENT_FLAG_PENDING /\ DataSize (s_desc s) <= Zlength (cached a) /\
      Handle (Pending ch) <> INVALID_RING_HANDLE /\ handle_at (Ring ch) recs i (Handle (Pending ch))
  end.

(** [recs] are the records of the events; [extra] is a record that has just
    been appended and is not yet an event of the channel. *)
Record chan_rep (ch : EVENT_CHANNEL) (recs extra : list (list Z)) (a : achannel) : Prop := {
  cr_id : Id ch = a_id a;
  cr_ring : ring_abs (Ring ch) (mkQueue (a_cap a) (a_over a) (recs ++ extra) (a_lost a));
  cr_slots : Forall2 slot_rep (a_slots a) recs;
  cr_known : forall i s, a_slots a !! i = Some s -> s_data s = None -> a_pend a = Some i;
  cr_flags : forall i s, a_slots a !! i = Some s -> has_flag (Flags_ (s_desc s)) EVENT_FLAG_PENDING = true -> a_pend a = Some i;
  cr_cache : Cache (Pending ch) = a_cache a;
  cr_cacheSize : CacheSize (Pending ch) = Zlength (cached a);
  cr_stats : ChannelStats ch = mkChannelStats (u32 (a_written a)) 0 (u32 (a_resets a)) (u32 (a_flushes a));
  cr_key : a_over a = false -> HandleKey (Ring ch) <= 1;
  cr_live : is_Some (a_pend a) -> HandleKey (Ring ch) <> 0;
  cr_over : a_over a = true -> a_pend a = None;
  cr_pend : pend_rep ch recs a
}.

(** What a caller must respect: sizes in whole units of four bytes that do not
    wrap a UINT32, data present when its size is not zero, pending events only
    on channels that do not overwrite and at or below [TPL_NOTIFY]. *)
Definition chan_op_ok (over : bool) (cap : Z) (op : chan_op) : Prop :=
  match op with
  | CLog e d tpl fresh now cnow =>
    length (Producer e) = 16%nat /\ length (CorrelationId e) = 16%nat /\ 0 <= EventId e < 2 ^ 32 /\
    0 <= DataSize e /\ DataSize e mod 4 = 0 /\ DataSize e + 68 < 2 ^ 32 /\
    (DataSize e <> 0 -> exists data, d = Some data /\ DataSize e <= Zlength data) /\
    0 <= now < 2 ^ 64 /\ 0 <= cnow < 2 ^ 64 /\
    (has_flag (Flags_ e) EVENT_FLAG_PENDING = true -> over = false /\ tpl <= TPL_NOTIFY /\
       forall m, fresh = Some m -> Zlength m = DataSize e)
  | CUpdate _ => over = false
  | CCommit now => over = false /\ 0 <= now < 2 ^ 64
  | CFlush _ _ region _ now => 0 <= now < 2 ^ 64 /\ forall m, region = Some m -> cap <= Zlength m
  | CReset => True
  end.

(** ** Records and slots *)
Lemma slot_rep_length s rec :
  slot_rep s rec -> Zlength rec = sizeof_EFI_EVENT_DESCRIPTOR + DataSize (s_desc s) /\ 0 <= DataSize (s_desc s).
Proof.
  intros [Hd (raw & -> & Hr & _)]. rewrite Zlength_app, Zlength_desc_bytes by done.
  split; [lia|apply Hd].
Qed.

Lemma used_rep slots recs : Forall2 slot_rep slots recs -> q_used recs = a_used slots.
Proof.
  induction 1 as [|s rec slots recs Hs _ IH]; cbn [q_used a_used]; [done|].
  destruct (slot_rep_length _ _ Hs). unfold slot_size. lia.
Qed.

Lemma to_drop_rep cap slots recs total :
  Forall2 slot_rep slots recs -> fst (make_room cap recs total) = to_drop cap slots total.
Proof.
  induction 1 as [|s rec slots recs Hs Hss IH]; cbn [make_room to_drop q_used a_used].
  - by destruct (total <=? cap - 1 - 0).
  - rewrite (used_rep _ _ Hss). destruct (slot_rep_length _ _ Hs) as [-> _].
    replace (sizeof_RING_RECORD + (sizeof_EFI_EVENT_DESCRIPTOR + DataSize (s_desc s))) with (slot_size s)
      by (unfold slot_size; lia).
    destruct (_ <=? _); [done|]. destruct (make_room cap recs total) as [k items]. cbn [fst] in *. by rewrite IH.
Qed.

(** Handles depend on the lengths of the records before. *)
Lemma chain_end_lengths N pos l1 l2 :
  Forall2 (fun x y : list Z => Zlength x = Zlength y) l1 l2 -> chain_end N pos l1 = chain_end N pos l2.
Proof. intros H. revert pos. induction H as [|x y l1 l2 E _ IH]; intros pos; cbn; [done|]. by rewrite E, IH. Qed.

Lemma handle_at_ext r r' recs recs' i h :
  Size r' = Size r -> Tail r' = Tail r -> HandleKey r' = HandleKey r ->
  Forall2 (fun x y : list Z => Zlength x = Zlength y) (take i recs) (take i recs') ->
  handle_at r recs i h -> handle_at r' recs' i h.
Proof.
  intros Es Et Ek Hl. unfold handle_at, handle_for. rewrite Es, Et, Ek.
  by rewrite (chain_end_lengths _ _ _ _ Hl).
Qed.

Section Ring.
Context {B : BuildOptions}.

Lemma abs_set_Buffer r c o recs recs' l b :
  ring_abs r (mkQueue c o recs l) -> ring_rep (set_Buffer r b) recs' ->
  Forall2 (fun x y : list Z => Zlength x = Zlength y) recs recs' ->
  ring_abs (set_Buffer r b) (mkQueue c o recs' l).
Proof.
  intros [R Hc Ho Hl Ht Hi] R' HL. cbn in *. constructor; try done. cbn.
  clear -HL Hi. induction HL as [|x y l1 l2 E _ IH]; constructor; inversion Hi; subst; [by rewrite <- E|auto].
Qed.

Lemma insert_lengths (recs : list (list Z)) i rec rec' :
  recs !! i = Some rec -> Zlength rec = Zlength rec' ->
  Forall2 (fun x y : list Z => Zlength x = Zlength y) recs (<[i := rec']> recs).
Proof.
  intros Hi E. apply Forall2_same_length_lookup. split; [by rewrite length_insert|].
  intros j x y Hx Hy. destruct (decide (i = j)) as [->|Hn].
  - rewrite list_lookup_insert_eq in Hy by (by eapply lookup_lt_Some). congruence.
  - rewrite list_lookup_insert_ne in Hy by done. congruence.
Qed.

(** Writing into the [i]-th record through its handle. *)
Lemma Io_update r c o recs l i rec h off data n :
  ring_abs r (mkQueue c o recs l) -> recs !! i = Some rec -> handle_at r recs i h ->
  0 <= off -> 0 <= n <= Zlength data -> off + n <= Zlength rec ->
  exists b, RingBufferIo r h DataWrite off data n = Ok (EFI_SUCCESS, set_Buffer r b, data, n) /\
    ring_abs (set_Buffer r b) (mkQueue c o (<[i := splice rec off (take (Z.to_nat n) data)]> recs) l).
Proof.
  intros A Hi Hh Ho Hn Hle. pose proof (abs_rep _ _ A) as R. cbn in R.
  assert (Er : recs = take i recs ++ rec :: drop (S i) recs) by (by rewrite take_drop_middle).
  rewrite Er in R. pose proof (at_facts _ _ _ _ R) as F.
  pose proof (Io_write r _ rec _ h off data n R Hh Ho Hn ltac:(lia)) as W.
  rewrite !(proj2 (Z.ltb_ge _ _)) in W by lia. destruct W as (b & E & Rb). exists b. split; [done|].
  rewrite insert_take_drop by (by eapply lookup_lt_Some). eapply abs_set_Buffer; [done|done|].
  rewrite <- insert_take_drop by (by eapply lookup_lt_Some). eapply insert_lengths; [done|].
  rewrite Zlength_splice; [done|lia|]. rewrite Zlength_take by lia. lia.
Qed.

(** A reservation against the queue: refused, or appended after dropping the
    oldest records. *)
Lemma Reserve_abs r c o recs l n :
  ring_abs r (mkQueue c o recs l) -> 0 <= n -> n + sizeof_RING_RECORD < 2 ^ 32 ->
  let total := sizeof_RING_RECORD + n in
  if c - 1 <? total then RingBufferReserve r n = Ok (EFI_BAD_BUFFER_SIZE, lost_write r, INVALID_RING_HANDLE)
  else if (total <=? c - 1 - q_used recs) || o then
    let k := fst (make_room c recs total) in
    exists r1 r' h d, RingBufferReserve r n = Ok (EFI_SUCCESS, r', h) /\ Zlength d = n /\
      ring_abs r1 (mkQueue c o (drop k recs) (l + Z.of_nat k)) /\ ring_rep r' (drop k recs ++ [d]) /\
      reserved r1 r' h /\ (o = false -> r1 = r /\ k = O)
  else RingBufferReserve r n = Ok (EFI_OUT_OF_RESOURCES, lost_write r, INVALID_RING_HANDLE).
Proof.
  intros A Hn Hsz total. pose proof (abs_rep _ _ A) as R. pose proof (rep_geom _ _ R) as G.
  destruct (abs_end _ _ A) as (Hend & Hw & Hfree). pose proof (abs_cap _ _ A) as Hcap. cbn in *.
  destruct (Z.ltb_spec (c - 1) total); [apply Reserve_too_big; [done|lia..]|].
  destruct (Z.leb_spec total (c - 1 - q_used recs)) as [Hfit|Hfull]; cbn [orb].
  - destruct (Reserve_fits r recs n R Hn) as (r' & hd & d & E & Hd & R' & Rs); [lia|].
    rewrite (make_room_drop c recs total 0%nat) by (done || lia || rewrite ?drop_0; done). cbn [fst].
    exists r, r', hd, d. rewrite drop_0, Z.add_0_r. split_and!; done.
  - pose proof (abs_over _ _ A) as Hov. cbn in Hov. destruct o.
    + destruct (Reserve_overwrite r recs n R Hn) as
        (k & r1 & r' & hd & d & E & Hd & Hk & R' & D & Rs & Hf1 & R1 & Ht1 & Hmin); [lia..| |done|].
      { intros E0. by rewrite E0 in Hov. }
      pose proof (drop_abs _ _ _ _ A eq_refl D R1 Ht1) as A1. cbn in A1.
      destruct (abs_end _ _ A1) as (_ & _ & Hfree1). cbn in Hfree1.
      rewrite (make_room_drop c recs total k); [|done| |lia].
      2:{ intros j Hj. specialize (Hmin j Hj). rewrite Hend in Hmin.
          pose proof (abs_take_end _ _ j A) as E1. cbn in E1. rewrite E1 in Hmin. lia. }
      exists r1, r', hd, d. split_and!; done.
    + apply Reserve_full; [done|lia..|]. symmetry in Hov. by apply negb_false_iff, Z.eqb_eq in Hov.
Qed.
End Ring.

Section Commit.
Context {B : BuildOptions}.

Lemma reserved_abs r1 r' c o items l d h :
  ring_abs r1 (mkQueue c o items l) -> reserved r1 r' h -> ring_rep r' (items ++ [d]) -> Zlength d mod 4 = 0 ->
  ring_abs r' (mkQueue c o (items ++ [d]) l) /\ handle_at r' (items ++ [d]) (length items) h /\
  h <> INVALID_RING_HANDLE /\ HandleKey r' = key_or_1 (HandleKey r1).
Proof.
  intros A Rs R' Ha. pose proof (abs_rep _ _ A) as R. cbn in R. split_and!.
  - destruct Rs as [_ _ Hst Hfl Hs Ht]. destruct A. cbn in *. constructor; cbn; try congruence.
    + by rewrite Hst.
    + apply Forall_app; split; [done|]. by repeat constructor.
  - unfold handle_at. rewrite take_app_length. by eapply reserved_handle_for.
  - rewrite (reserved_handle _ _ _ Rs). apply SET_KEY_not_invalid; [|apply (rep_geom _ _ R')].
    destruct (geom_pow _ (rep_geom _ _ R)) as (k & Hk & Es).
    pose proof (Z.mod_pos_bound (wrap (EfiRing.Size r1) (Head r1)) (EfiRing.Size r1)).
    assert (EfiRing.Size r1 <= 2 ^ 31) by (rewrite Es; apply Z.pow_le_mono_r; lia).
    pose proof (rep_size _ _ R). lia.
  - apply Rs.
Qed.

Lemma splice_head (old new rest : list Z) : Zlength new = Zlength old -> splice (old ++ rest) 0 new = new ++ rest.
Proof.
  intros E. unfold splice. rewrite take_0, Z.add_0_l, E. unfold Zlength. by rewrite Nat2Z.id, drop_app_length.
Qed.

Lemma splice_tail (front old new : list Z) off :
  off = Zlength front -> Zlength new = Zlength old -> splice (front ++ old) off new = front ++ new.
Proof.
  intros -> E. unfold splice. rewrite E. unfold Zlength.
  rewrite Nat2Z.id, take_app_length, drop_ge by (rewrite length_app; lia). by rewrite app_nil_r.
Qed.

Definition committed (now : Z) (d : EFI_EVENT_DESCRIPTOR) : EFI_EVENT_DESCRIPTOR :=
  set_desc_CommitTime now (set_desc_Flags (Z.land (Flags_ d) (u32 (Z.lnot EVENT_FLAG_PENDING))) d).

Lemma committed_ok now d : desc_ok d -> 0 <= now < 2 ^ 64 -> desc_ok (committed now d).
Proof.
  intros [] Hn. constructor; cbn [committed set_desc_CommitTime set_desc_Flags Producer CorrelationId CreateTime CommitTime EventId Flags_ HeaderSize DataSize]; try done.
  change (u32 (Z.lnot EVENT_FLAG_PENDING)) with 4294967294. assert (E : 0 <= Z.land (Flags_ d) 4294967294) by (apply Z.land_nonneg; lia).
  split; [done|]. destruct (Z.eq_dec (Z.land (Flags_ d) 4294967294) 0) as [->|]; [lia|].
  apply Z.log2_lt_pow2; [lia|]. eapply Z.le_lt_trans; [apply Z.log2_land; lia|].
  apply Z.min_lt_iff. right. reflexivity.
Qed.

(** Committing the pending event rewrites its record with the final
    descriptor and the cached data. *)
Lemma CommitInternal_spec ch now c o recs l i s rec :
  let d := Metadata (Pending ch) in
  ring_abs (Ring ch) (mkQueue c o recs l) -> recs !! i = Some rec -> slot_rep s rec ->
  handle_at (Ring ch) recs i (Handle (Pending ch)) -> desc_ok d -> DataSize d = DataSize (s_desc s) ->
  DataSize d <= Zlength (default [] (Cache (Pending ch))) -> 0 <= now < 2 ^ 64 ->
  exists b, EventPendingCommitInternal ch now =
      Ok (EFI_SUCCESS, EventPendingCleanup (set_Ring (set_Buffer (Ring ch) b) ch)) /\
    ring_abs (set_Buffer (Ring ch) b) (mkQueue c o
      (<[i := desc_bytes (committed now d) ++ take (Z.to_nat (DataSize d)) (default [] (Cache (Pending ch)))]> recs) l).
Proof.
  intros d A Hi Hs Hh Hd Es Hc Hn. pose proof (committed_ok now d Hd Hn) as Hd'.
  pose proof (Zlength_desc_bytes _ Hd') as Ld. destruct (slot_rep_length _ _ Hs) as [Lr Hnn].
  destruct Hs as [Hsd (raw & -> & Hraw & _)]. pose proof (Zlength_desc_bytes _ Hsd) as Ls.
  destruct (Io_update (Ring ch) c o recs l i _ (Handle (Pending ch)) 0 (desc_bytes (committed now d))
    sizeof_EFI_EVENT_DESCRIPTOR A Hi Hh) as (b & E & Ab); [lia|rewrite Ld; unfold sizeof_EFI_EVENT_DESCRIPTOR; lia|lia|].
  rewrite <- Ld in Ab at 1. unfold Zlength in Ab at 1. rewrite Nat2Z.id, firstn_all in Ab.
  rewrite splice_head in Ab by lia. unfold EventPendingCommitInternal.
  change (set_desc_CommitTime now _) with (committed now d). cbn zeta. cbn [set_Pending_Metadata set_Pending Ring Pending Handle].
  rewrite E, bind_Ok. cbn [EFI_ERROR negb]. rewrite ASSERT_true, bind_Ok. change (DataSize (committed now d)) with (DataSize d).
  cbn [set_Ring Pending Cache Ring set_Pending].
  change (Cache (Pending (set_Pending_Metadata (committed now d) ch))) with (Cache (Pending ch)).
  change (Handle (Pending (set_Pending_Metadata (committed now d) ch))) with (Handle (Pending ch)).
  destruct (Z.ltb_spec 0 (DataSize d)) as [Hpos|Hz].
  - destruct (Cache (Pending ch)) as [cache|] eqn:Ec; cbn [default from_option id] in Hc |- *;
      [|unfold Zlength in Hc; cbn in Hc; lia].
    set (recs1 := <[i := _]> recs) in Ab.
    assert (Hi1 : recs1 !! i = Some (desc_bytes (committed now d) ++ raw)).
    { unfold recs1. apply list_lookup_insert_eq. by eapply lookup_lt_Some. }
    destruct (Io_update (set_Buffer (Ring ch) b) c o recs1 l i _ (Handle (Pending ch)) sizeof_EFI_EVENT_DESCRIPTOR
      cache (DataSize d) Ab Hi1) as (b2 & E2 & Ab2);
      [|unfold sizeof_EFI_EVENT_DESCRIPTOR; lia|lia|rewrite Zlength_app; lia|].
    { eapply handle_at_ext; [..|exact Hh]; try done. apply Forall2_take. eapply insert_lengths; [done|].
      rewrite !Zlength_app. lia. }
    rewrite splice_tail in Ab2 by (rewrite ?Zlength_take; lia). unfold recs1 in Ab2.
    rewrite list_insert_insert_eq in Ab2. rewrite E2, bind_Ok. cbn [EFI_ERROR negb].
    rewrite ASSERT_true, !bind_Ok. by exists b2.
  - assert (DataSize d = 0) as E0 by lia. rewrite E0. cbn [Z.to_nat take]. rewrite E0 in Es.
    assert (raw = []) as -> by (destruct raw; [done|unfold Zlength in Hraw; cbn in Hraw; lia]).
    exists b. split; [|done]. by destruct (Cache (Pending ch)).
Qed.
Lemma committed_desc (inc : bool) now s :
  Flags_ (s_desc s) = EVENT_FLAG_PENDING ->
  committed now (set_desc_Flags (if inc then Z.lor (Flags_ (s_desc s)) EVENT_FLAG_INCOMPLETE else Flags_ (s_desc s))
    (s_desc s)) = commit_desc inc now (s_desc s).
Proof. intros E. unfold committed, commit_desc. cbn. rewrite E. by destruct inc. Qed.

Lemma pending_desc_ok (inc : bool) s :
  desc_ok (s_desc s) -> Flags_ (s_desc s) = EVENT_FLAG_PENDING ->
  desc_ok (set_desc_Flags (if inc then Z.lor (Flags_ (s_desc s)) EVENT_FLAG_INCOMPLETE else Flags_ (s_desc s)) (s_desc s)).
Proof. intros [] E. constructor; cbn; try done. rewrite E. by destruct inc. Qed.

Lemma commit_slots a recs i s inc now :
  Forall2 slot_rep (a_slots a) recs -> a_slots a !! i = Some s -> Flags_ (s_desc s) = EVENT_FLAG_PENDING ->
  DataSize (s_desc s) <= Zlength (cached a) -> 0 <= now < 2 ^ 64 ->
  Forall2 slot_rep
    (alter (fun s => mkSlot (commit_desc inc now (s_desc s))
       (Some (take (Z.to_nat (DataSize (s_desc s))) (cached a)))) i (a_slots a))
    (<[i := desc_bytes (commit_desc inc now (s_desc s)) ++ take (Z.to_nat (DataSize (s_desc s))) (cached a)]> recs).
Proof.
  intros HF Hi Hfl Hc Hn. rewrite list_insert_alter. apply Forall2_alter; [done|].
  intros s' rec Hs' _ [Hd _]. assert (s' = s) as -> by congruence. split; cbn.
  - rewrite <- (committed_desc inc now s Hfl). apply committed_ok; [by apply pending_desc_ok|done].
  - eexists. split; [done|]. split; [|intros d; congruence]. rewrite Zlength_take; [done|]. split; [apply Hd|done].
Qed.

Lemma alter_lookup_inv {A} (f : A -> A) (l : list A) i j y :
  alter f i l !! j = Some y -> exists x, l !! j = Some x /\ ((j = i /\ y = f x) \/ (j <> i /\ y = x)).
Proof.
  destruct (decide (i = j)) as [->|Hn]; intros E.
  - rewrite list_lookup_alter_eq in E. destruct (l !! j) as [x|]; [|done]. injection E as <-. eauto.
  - rewrite list_lookup_alter_ne in E by done. eauto.
Qed.

(** Committing on a channel, as an ordinary or as an incomplete event. *)
Lemma commit_rep ch recs extra a i (inc : bool) now :
  chan_rep ch recs extra a -> a_pend a = Some i -> 0 <= now < 2 ^ 64 ->
  let m := Metadata (Pending ch) in
  let ch0 := set_Pending_Metadata (set_desc_Flags (if inc then Z.lor (Flags_ m) EVENT_FLAG_INCOMPLETE else Flags_ m) m) ch in
  exists b recs', EventPendingCommitInternal ch0 now =
      Ok (EFI_SUCCESS, EventPendingCleanup (set_Ring (set_Buffer (Ring ch) b) ch)) /\
    chan_rep (EventPendingCleanup (set_Ring (set_Buffer (Ring ch) b) ch)) recs' extra (a_commit inc now a) /\
    Forall2 (fun x y : list Z => Zlength x = Zlength y) recs recs'.
Proof.
  intros C Hp Hn. destruct C as [Cid Cr Cs Ckn Cfl Cc Ccs Cst Ck Cl Co Cp].
  unfold pend_rep in Cp. rewrite Hp in Cp. destruct Cp as (s & Hs & Em & Efl & Hsz & Hinv & Hh).
  destruct (Forall2_lookup_l _ _ _ _ _ Cs Hs) as (rec & Hrec & Hsr). cbn zeta. rewrite Em.
  pose proof (lookup_lt_Some _ _ _ Hrec) as Hlt. set (d0 := set_desc_Flags _ (s_desc s)).
  destruct (CommitInternal_spec (set_Pending_Metadata d0 ch) now (a_cap a) (a_over a) (recs ++ extra) (a_lost a) i s rec)
    as (b & E & Ab); [done|by rewrite lookup_app_l|done| |apply pending_desc_ok; [apply Hsr|done]|done| |done|].
  { unfold handle_at in *. by rewrite take_app_le by lia. }
  { cbn. by rewrite Cc. }
  rewrite insert_app_l in Ab by done. cbn [set_Pending_Metadata set_Pending Pending Metadata Cache Ring] in E, Ab.
  rewrite Cc in Ab. unfold d0 in Ab. rewrite committed_desc in Ab by done. cbn [set_desc_Flags DataSize] in Ab.
  change (default [] (a_cache a)) with (cached a) in Ab.
  eexists b, _. split; [exact E|]. split.
  - unfold a_commit. rewrite Hp. constructor; cbn; try done.
    + by apply commit_slots.
    + intros j s' Hj Hd. apply alter_lookup_inv in Hj as (x & Hx & [[-> ->]|[Hne ->]]); [done|].
      pose proof (Ckn _ _ Hx Hd). congruence.
    + intros j s' Hj Hf. apply alter_lookup_inv in Hj as (x & Hx & [[-> ->]|[Hne ->]]); [by destruct inc|].
      pose proof (Cfl _ _ Hx Hf). congruence.
  - eapply insert_lengths; [done|]. destruct (slot_rep_length _ _ Hsr) as [-> ?].
    pose proof (commit_slots a recs i s inc now Cs Hs Efl Hsz Hn) as F.
    destruct (Forall2_lookup_r _ _ _ i _ F (list_lookup_insert_eq _ _ _ Hlt)) as (s' & Hs' & Hr').
    rewrite list_lookup_alter_eq, Hs in Hs'. injection Hs' as <-. by destruct (slot_rep_length _ _ Hr') as [-> _].
Qed.
End Commit.

Section Operations.
Context {B : BuildOptions}.

Lemma set_Buffer_same r : set_Buffer r (Buffer r) = r.
Proof. by destruct r. Qed.

Lemma lengths_refl (l : list (list Z)) : Forall2 (fun x y : list Z => Zlength x = Zlength y) l l.
Proof. by induction l; constructor. Qed.

(** The forced commit of [EventLog] and of the flush. *)
Lemma force_commit_rep ch recs extra a now :
  chan_rep ch recs extra a -> 0 <= now < 2 ^ 64 ->
  exists ch' b recs', force_commit ch now = Ok ch' /\ Ring ch' = set_Buffer (Ring ch) b /\
    chan_rep ch' recs' extra (a_commit true now a) /\
    Forall2 (fun x y : list Z => Zlength x = Zlength y) recs recs'.
Proof.
  intros C Hn. unfold force_commit. destruct (a_pend a) as [i|] eqn:Hp.
  - pose proof (cr_pend _ _ _ _ C) as Cp. unfold pend_rep in Cp. rewrite Hp in Cp.
    destruct Cp as (s & _ & _ & _ & _ & Hinv & _). rewrite (proj2 (Z.eqb_neq _ _)) by done. cbn [negb].
    destruct (commit_rep ch recs extra a i true now C Hp Hn) as (b & recs' & E & C' & HL).
    cbn zeta in E. rewrite E, bind_Ok. by do 3 eexists.
  - pose proof (cr_pend _ _ _ _ C) as Cp. unfold pend_rep in Cp. rewrite Hp in Cp.
    rewrite Cp, Z.eqb_refl. cbn [negb]. exists ch, (Buffer (Ring ch)), recs. rewrite set_Buffer_same.
    unfold a_commit. rewrite Hp. split_and!; [done..|apply lengths_refl].
Qed.

(** ** Reset *)
Lemma reset_rep ch recs a :
  chan_rep ch recs [] a ->
  exists ch', EventChannelResetCallback ch = (EFI_SUCCESS, ch') /\ chan_rep ch' [] [] (a_reset a).
Proof.
  intros [Cid Cr Cs Ckn Cfl Cc Ccs Cst Ck Cl Co Cp]. eexists. split; [done|].
  rewrite app_nil_r in Cr. destruct Cr as [R Hc Ho Hl Ht Hi]. cbn in *.
  constructor; cbn; try done.
  - constructor; cbn; try done. by eapply Reset_rep.
  - rewrite Cst. cbn. unfold u32. rewrite Zplus_mod_idemp_l. done.
Qed.

(** ** Flush *)
Lemma known_bytes slots recs :
  Forall2 slot_rep slots recs -> (forall i s, slots !! i = Some s -> s_data s <> None) ->
  slot_bytes <$> slots = recs.
Proof.
  induction 1 as [|s rec slots recs Hs Hss IH]; intros Hk; cbn [fmap list_fmap]; [done|]. f_equal.
  - destruct Hs as [_ (raw & -> & _ & Hd)]. unfold slot_bytes. specialize (Hk O s eq_refl).
    destruct (s_data s) as [d|]; [|done]. by rewrite (Hd d).
  - apply IH. intros i s' Hi. by apply (Hk (S i)).
Qed.

Lemma commit_none inc now a : a_pend (a_commit inc now a) = None.
Proof. unfold a_commit. by destruct (a_pend a) eqn:E. Qed.

Lemma flush_rep ch recs a iso emu region visible now :
  chan_rep ch recs [] a -> chan_op_ok (a_over a) (a_cap a) (CFlush iso emu region visible now) ->
  exists ch' recs', chan_step ch (CFlush iso emu region visible now) =
      Ok (fst (a_step a (CFlush iso emu region visible now)), ch') /\
    chan_rep ch' recs' [] (snd (a_step a (CFlush iso emu region visible now))).
Proof.
  intros C [Hn Hreg]. cbn [chan_step a_step]. unfold EventChannelFlushCallback.
  destruct region as [data|]; [|cbn; eauto]. specialize (Hreg data eq_refl). unfold a_flush.
  destruct (iso && emu && EFI_ERROR visible); [cbn; eauto|].
  destruct (force_commit_rep ch recs [] a now C Hn) as (ch1 & b & recs1 & -> & _ & C1 & _). rewrite bind_Ok.
  pose proof (cr_ring _ _ _ _ C1) as A1. rewrite app_nil_r in A1. pose proof (abs_rep _ _ A1) as R1. cbn in R1.
  pose proof (abs_cap _ _ A1) as Hcap. cbn in Hcap. pose proof (rep_size _ _ R1) as Hsz. pose proof (rep_end_bounds _ _ R1) as He.
  assert (Ecap : a_cap (a_commit true now a) = a_cap a) by (unfold a_commit; by destruct (a_pend a)).
  pose proof (Flatten_spec (Ring ch1) recs1 (EfiRing.Size (Ring ch1)) data R1 ltac:(lia) ltac:(lia)) as F.
  cbn zeta in F. rewrite (proj2 (Z.ltb_ge _ _)) in F by lia. rewrite F, bind_Ok. clear F.
  assert (Eb : slot_bytes <$> a_slots (a_commit true now a) = recs1).
  { apply known_bytes; [apply C1|]. intros i s Hi Hd. pose proof (cr_known _ _ _ _ C1 i s Hi Hd) as E.
    by rewrite commit_none in E. }
  pose proof (cr_stats _ _ _ _ C1) as Est. pose proof (abs_lost _ _ A1) as Elo. cbn in Elo.
  do 2 eexists. split.
  - rewrite bind_Ok. cbn [fst]. do 2 f_equal. f_equal. destruct (iso && negb emu); [done|]. cbn [option_map]. f_equal.
    unfold a_message, trim_message. cbn [bios_Channel EventsWritten EventsLost bios_DataSize bios_Data].
    rewrite Eb, Est, Elo, (cr_id _ _ _ _ C1). cbn [Written]. f_equal. unfold Zlength. by rewrite Nat2Z.id, take_app_length.
  - cbn [snd]. destruct C1. constructor; cbn; try done. rewrite cr_stats0. cbn. unfold u32. by rewrite Zplus_mod_idemp_l.
Qed.
(** ** The pending event: validity, update, commit *)
Lemma pending_valid ch recs a :
  chan_rep ch recs [] a -> a_over a = false ->
  RingBufferHandleIsValid (Ring ch) (Handle (Pending ch)) =
    Ok (match a_pend a with Some _ => EFI_SUCCESS | None => EFI_INVALID_PARAMETER end).
Proof.
  intros [_ Cr Cs _ _ _ _ _ Ck _ _ Cp] Ho. unfold pend_rep in Cp. destruct (a_pend a) as [i|].
  - destruct Cp as (s & Hs & _ & _ & _ & _ & Hh). destruct (Forall2_lookup_l _ _ _ _ _ Cs Hs) as (rec & Hrec & _).
    pose proof (abs_rep _ _ Cr) as R. cbn in R. rewrite app_nil_r in R. rewrite <- (take_drop_middle _ _ _ Hrec) in R.
    by eapply HandleIsValid_live.
  - rewrite Cp. apply (Io_stale _ _ DataRead 0 [] 0). change (RING_HANDLE_GET_KEY INVALID_RING_HANDLE) with (2 ^ 32 - 1).
    specialize (Ck Ho). lia.
Qed.

Lemma cleanup_rep ch recs a : chan_rep ch recs [] a -> a_pend a = None -> chan_rep (EventPendingCleanup ch) recs [] a.
Proof.
  intros [Cid Cr Cs Ckn Cfl Cc Ccs Cst Ck Cl Co Cp] Hp. constructor; cbn; try done. unfold pend_rep. by rewrite Hp.
Qed.

Lemma commit_step ch recs a now :
  chan_rep ch recs [] a -> chan_op_ok (a_over a) (a_cap a) (CCommit now) ->
  exists ch' recs', chan_step ch (CCommit now) = Ok (fst (a_step a (CCommit now)), ch') /\
    chan_rep ch' recs' [] (snd (a_step a (CCommit now))).
Proof.
  intros C [Ho Hn]. cbn [chan_step a_step]. unfold pending_commit. rewrite (pending_valid _ _ _ C Ho), bind_Ok.
  destruct (a_pend a) as [i|] eqn:Hp; cbn [EFI_ERROR].
  - destruct (commit_rep ch recs [] a i false now C Hp Hn) as (b & recs' & E & C' & _). cbn zeta in E.
    replace (set_Pending_Metadata _ ch) with ch in E by (by destruct ch as [? ? [? [] ? ?] ? ?]).
    rewrite E, bind_Ok. by do 2 eexists.
  - rewrite bind_Ok. do 2 eexists. split; [done|]. by apply cleanup_rep.
Qed.

(** Replacing the cache by another of the same length. *)
Lemma cache_rep ch recs a cache cache' :
  chan_rep ch recs [] a -> a_cache a = Some cache -> Zlength cache' = Zlength cache ->
  chan_rep (set_Pending (mkPending (Handle (Pending ch)) (Metadata (Pending ch)) (CacheSize (Pending ch)) (Some cache')) ch)
    recs [] (set_cache a (Some cache')).
Proof.
  intros [Cid Cr Cs Ckn Cfl Cc Ccs Cst Ck Cl Co Cp] Ec El. unfold cached in *. rewrite Ec in *. cbn in Ccs.
  constructor; cbn; try done; [unfold cached; cbn; lia|]. unfold pend_rep, cached in *. cbn. rewrite Ec in Cp. cbn in Cp.
  destruct (a_pend a); [|done]. destruct Cp as (s & ? & ? & ? & ? & ? & ?). exists s. rewrite El. done.
Qed.

Lemma CopyMem_front (dst src : list Z) n :
  0 <= n <= Zlength src -> n <= Zlength dst ->
  CopyMem dst 0 src 0 n = Ok (take (Z.to_nat n) src ++ drop (Z.to_nat n) dst).
Proof.
  intros H1 H2. unfold CopyMem. rewrite mem_read_zslice by lia. rewrite bind_Ok. unfold mem_write.
  rewrite Zlength_zslice by lia. rewrite in_bounds_true by lia. unfold zslice. by rewrite drop_0.
Qed.

Lemma update_step ch recs a bytes :
  chan_rep ch recs [] a -> chan_op_ok (a_over a) (a_cap a) (CUpdate bytes) ->
  exists ch' recs', chan_step ch (CUpdate bytes) = Ok (fst (a_step a (CUpdate bytes)), ch') /\
    chan_rep ch' recs' [] (snd (a_step a (CUpdate bytes))).
Proof.
  intros C Ho. cbn in Ho. cbn [chan_step a_step]. unfold client_update, pending_get, a_update.
  rewrite (pending_valid _ _ _ C Ho), bind_Ok.
  destruct (a_pend a) as [i|] eqn:Hp; cbn [EFI_ERROR]; rewrite bind_Ok.
  - pose proof (cr_pend _ _ _ _ C) as Cp. unfold pend_rep in Cp. rewrite Hp in Cp.
    destruct Cp as (s & Hs & Em & _ & Hsz & _ & _). cbn [mbind option_bind]. rewrite Hs, Em, (cr_cache _ _ _ _ C).
    destruct (a_cache a) as [cache|] eqn:Ec; [|by do 2 eexists]. unfold cached in Hsz. rewrite Ec in Hsz. cbn in Hsz.
    set (bs := take _ bytes). assert (Hl : Zlength bs <= Zlength cache).
    { unfold bs, Zlength in *. rewrite length_take. lia. }
    rewrite CopyMem_front by (pose proof (Zlength_nonneg bs); lia). rewrite !bind_Ok. unfold Zlength. rewrite Nat2Z.id, firstn_all.
    do 2 eexists. split; [done|]. rewrite <- Em. cbn [snd]. eapply cache_rep; [done|done|].
    unfold Zlength in *. rewrite length_app, length_drop. lia.
  - cbn [mbind option_bind]. rewrite bind_Ok. do 2 eexists. split; [done|]. by apply cleanup_rep.
Qed.
End Operations.

Section Log.
Context {B : BuildOptions}.

Lemma cached_set a c : cached (set_cache a (Some c)) = c.
Proof. done. Qed.

Lemma grow_rep ch recs a e d tpl fresh now cnow :
  chan_rep ch recs [] a -> chan_op_ok (a_over a) (a_cap a) (CLog e d tpl fresh now cnow) ->
  match a_grow a e fresh with
  | None => grow_cache ch e d tpl fresh = Ok (false, ch)
  | Some a1 => exists ch1, grow_cache ch e d tpl fresh = Ok (true, ch1) /\ chan_rep ch1 recs [] a1 /\
      (has_flag (Flags_ e) EVENT_FLAG_PENDING = true -> DataSize e <= Zlength (cached a1))
  end.
Proof.
  intros C (_ & _ & _ & Hs0 & _ & _ & Hd & _ & _ & Hp). unfold grow_cache, a_grow.
  rewrite (cr_cacheSize _ _ _ _ C). destruct (has_flag (Flags_ e) EVENT_FLAG_PENDING) eqn:Ef; [|by eexists].
  destruct (Hp eq_refl) as (Ho & Ht & Hfr). cbn [andb]. pose proof (Zlength_nonneg (cached a)) as Hc0.
  destruct (Z.ltb_spec (Zlength (cached a)) (DataSize e)) as [Hlt|Hge].
  2:{ rewrite andb_false_r. eexists. split; [done|]. split; [done|lia]. }
  destruct Hd as (data & -> & _); [lia|]. rewrite bool_decide_true by done. rewrite (proj2 (Z.eqb_neq _ 0)) by lia.
  cbn [andb negb]. rewrite ASSERT_holds by (apply Z.leb_le; lia). rewrite bind_Ok.
  rewrite (cr_cache _ _ _ _ C). destruct fresh as [m|]; [|by destruct (a_cache a)]. specialize (Hfr m eq_refl). cbn [ReallocatePool].
  set (cache' := match a_cache a with Some _ => _ | None => _ end).
  assert (Ec : cache' = cached a ++ drop (length (cached a)) m).
  { unfold cache', cached in *. destruct (a_cache a) as [o|]; [|done]. cbn in *. unfold Zlength in Hlt. by rewrite take_ge by lia. }
  assert (El : Zlength cache' = DataSize e).
  { rewrite Ec. unfold Zlength in *. rewrite length_app, length_drop. lia. }
  rewrite Ec in *. eexists. split; [done|]. split; [|intros _; rewrite cached_set, El; lia].
  destruct C as [Cid Cr Cs Ckn Cfl Cc Ccs Cst Ck Cl Co Cp]. constructor; cbn; try done.
  unfold pend_rep in *. cbn. destruct (a_pend a); [|done]. destruct Cp as (s & ? & ? & ? & ? & ? & ?).
  exists s. split_and!; try done.
  change (DataSize (s_desc s) <= Zlength (cached a ++ drop (length (cached a)) m)). lia.
Qed.

(** Dropping the oldest events, which only happens with none pending. *)
Lemma drop_rep ch recs a k r1 :
  chan_rep ch recs [] a -> ring_abs r1 (mkQueue (a_cap a) (a_over a) (drop k recs) (a_lost a + Z.of_nat k)) ->
  (a_over a = false -> r1 = Ring ch /\ k = O) ->
  chan_rep (set_Ring r1 ch) (drop k recs) [] (add_lost (set_slots a (drop k (a_slots a)) (a_pend a)) (Z.of_nat k)).
Proof.
  intros [Cid Cr Cs Ckn Cfl Cc Ccs Cst Ck Cl Co Cp] A1 Hn. destruct (a_over a) eqn:Ho.
  - specialize (Co eq_refl). unfold pend_rep in Cp. rewrite Co in *.
    assert (Hno : forall i s, drop k (a_slots a) !! i = Some s -> a_slots a !! (k + i)%nat = Some s)
      by (intros i s; by rewrite lookup_drop).
    constructor; cbn; rewrite ?Ho; try done.
    + by rewrite app_nil_r.
    + by apply Forall2_drop.
    + intros i s Hi Hd. by specialize (Ckn _ _ (Hno i s Hi) Hd).
    + intros i s Hi Hd. by specialize (Cfl _ _ (Hno i s Hi) Hd).
  - destruct (Hn eq_refl) as [-> ->]. rewrite !drop_0. cbn [Z.of_nat].
    constructor; cbn; rewrite ?Ho; try done. by rewrite Z.add_0_r.
Qed.

(** Reserving a record. *)
Lemma reserve_rep ch recs a r' h d :
  chan_rep ch recs [] a -> reserved (Ring ch) r' h -> ring_rep r' (recs ++ [d]) -> Zlength d mod 4 = 0 ->
  chan_rep (set_Ring r' ch) recs [d] a /\ handle_at r' (recs ++ [d]) (length recs) h /\
  h <> INVALID_RING_HANDLE /\ HandleKey r' <> 0.
Proof.
  intros [Cid Cr Cs Ckn Cfl Cc Ccs Cst Ck Cl Co Cp] Rs R' Ha. rewrite app_nil_r in Cr.
  destruct (reserved_abs _ _ _ _ _ _ _ _ Cr Rs R' Ha) as (A' & Hh & Hi & Hk).
  assert (Hk0 : HandleKey r' <> 0) by (rewrite Hk; unfold key_or_1; destruct (Z.eqb_spec (HandleKey (Ring ch)) 0); lia).
  split_and!; try done. constructor; cbn; try done.
  - intros Ho. specialize (Ck Ho). rewrite Hk. unfold key_or_1. destruct (_ =? 0); lia.
  - unfold pend_rep in *. cbn. destruct (a_pend a) as [i|] eqn:Hp; [|done].
    destruct Cp as (s & ? & ? & ? & ? & ? & Hat). exists s. split_and!; try done.
    eapply handle_at_ext; [..|exact Hat]; [apply Rs|apply Rs| |apply lengths_refl].
    rewrite Hk. unfold key_or_1. rewrite (proj2 (Z.eqb_neq _ _)); [done|]. by apply Cl.
Qed.

(** Rewriting the record that has just been appended. *)
Lemma extra_rep ch recs x y a b :
  chan_rep ch recs [x] a -> ring_abs (set_Buffer (Ring ch) b) (mkQueue (a_cap a) (a_over a) (recs ++ [y]) (a_lost a)) ->
  chan_rep (set_Ring (set_Buffer (Ring ch) b) ch) recs [y] a.
Proof. intros [] A. by constructor. Qed.

Lemma extra_write ch recs x a h off data n :
  chan_rep ch recs [x] a -> handle_at (Ring ch) (recs ++ [x]) (length recs) h ->
  0 <= off -> 0 <= n <= Zlength data -> off + n <= Zlength x ->
  exists b, RingBufferIo (Ring ch) h DataWrite off data n = Ok (EFI_SUCCESS, set_Buffer (Ring ch) b, data, n) /\
    chan_rep (set_Ring (set_Buffer (Ring ch) b) ch) recs [splice x off (take (Z.to_nat n) data)] a.
Proof.
  intros C Hh Ho Hn Hle. destruct (Io_update (Ring ch) _ _ _ _ (length recs) x h off data n (cr_ring _ _ _ _ C))
    as (b & E & Ab); [by rewrite list_lookup_middle|done|lia..|]. exists b. split; [done|].
  rewrite insert_app_r_alt, Nat.sub_diag in Ab by lia. by eapply extra_rep.
Qed.
Lemma lookup_snoc_inv {A} (l : list A) x i y :
  (l ++ [x]) !! i = Some y -> l !! i = Some y \/ (i = length l /\ y = x).
Proof.
  intros E. apply lookup_app_Some in E as [E|[Hl E]]; [by left|right].
  apply list_lookup_singleton_Some in E as [Hi <-]. split; [lia|done].
Qed.

(** The appended record becomes an event: committed, or the pending one. *)
Lemma push_committed ch recs rec a s :
  chan_rep ch recs [rec] a -> slot_rep s rec -> s_data s <> None -> has_flag (Flags_ (s_desc s)) EVENT_FLAG_PENDING = false ->
  chan_rep ch (recs ++ [rec]) [] (set_slots a (a_slots a ++ [s]) (a_pend a)).
Proof.
  intros [Cid Cr Cs Ckn Cfl Cc Ccs Cst Ck Cl Co Cp] Hs Hd Hf. constructor; cbn; try done.
  - by rewrite app_nil_r.
  - apply Forall2_app; [done|by constructor].
  - intros i s' [Hi|[-> ->]]%lookup_snoc_inv Hn; [by eapply Ckn|done].
  - intros i s' [Hi|[-> ->]]%lookup_snoc_inv Hn; [by eapply Cfl|congruence].
  - unfold pend_rep in *. cbn. destruct (a_pend a) as [i|]; [|done].
    destruct Cp as (s' & Hs' & ? & ? & ? & ? & Hat). exists s'. split_and!; try done.
    + by apply lookup_app_l_Some.
    + unfold handle_at in *. rewrite take_app_le; [done|]. rewrite <- (Forall2_length Cs).
      apply lookup_lt_Some in Hs'. lia.
Qed.

Lemma push_pending ch recs rec a s h :
  chan_rep ch recs [rec] a -> slot_rep s rec -> a_pend a = None -> a_over a = false ->
  Flags_ (s_desc s) = EVENT_FLAG_PENDING -> DataSize (s_desc s) <= Zlength (cached a) ->
  h <> INVALID_RING_HANDLE -> handle_at (Ring ch) (recs ++ [rec]) (length recs) h -> HandleKey (Ring ch) <> 0 ->
  chan_rep (set_Pending (mkPending h (s_desc s) (CacheSize (Pending ch)) (Cache (Pending ch))) ch)
    (recs ++ [rec]) [] (set_slots a (a_slots a ++ [s]) (Some (length (a_slots a)))).
Proof.
  intros [Cid Cr Cs Ckn Cfl Cc Ccs Cst Ck Cl Co Cp] Hs Hp Ho Hf Hsz Hinv Hat Hk. rewrite Hp in *.
  constructor; cbn; try done.
  - by rewrite app_nil_r.
  - apply Forall2_app; [done|by constructor].
  - intros i s' [Hi|[-> ->]]%lookup_snoc_inv Hn; [by specialize (Ckn _ _ Hi Hn)|done].
  - intros i s' [Hi|[-> ->]]%lookup_snoc_inv Hn; [by specialize (Cfl _ _ Hi Hn)|done].
  - congruence.
  - unfold pend_rep. cbn. exists s. split_and!; try done.
    + by rewrite lookup_app_r, Nat.sub_diag.
    + by rewrite (Forall2_length Cs).
Qed.

Lemma written_rep ch recs a :
  chan_rep ch recs [] a ->
  let s := ChannelStats ch in
  chan_rep (set_ChannelStats (mkChannelStats (u32 (Written s + 1)) (Lost s) (Reset s) (Flush s)) ch) recs []
    (add_written a 1).
Proof.
  intros [Cid Cr Cs Ckn Cfl Cc Ccs Cst Ck Cl Co Cp]. constructor; cbn; try done.
  rewrite Cst. cbn. unfold u32. by rewrite Zplus_mod_idemp_l.
Qed.

Lemma has_pending_flag f : Z.land f EVENT_FLAG_PENDING = if has_flag f EVENT_FLAG_PENDING then EVENT_FLAG_PENDING else 0.
Proof.
  unfold has_flag. assert (E : Z.land f EVENT_FLAG_PENDING = f mod 2) by (apply (Z.land_ones f 1); lia).
  rewrite E. pose proof (Z.mod_pos_bound f 2). destruct (Z.eqb_spec (f mod 2) 0); cbn [negb]; unfold EVENT_FLAG_PENDING; lia.
Qed.

Lemma event_meta_logged e now : event_meta e now = logged_desc e now.
Proof. unfold event_meta, logged_desc. by rewrite has_pending_flag. Qed.

Lemma logged_ok over cap e d tpl fresh now cnow :
  chan_op_ok over cap (CLog e d tpl fresh now cnow) -> desc_ok (logged_desc e now).
Proof.
  intros (? & ? & ? & ? & ? & ? & _ & ? & _). constructor; cbn; try done; try lia; destruct (has_flag _ _); done.
Qed.
Lemma commit_fields inc now a :
  a_over (a_commit inc now a) = a_over a /\ a_cap (a_commit inc now a) = a_cap a /\
  a_cache (a_commit inc now a) = a_cache a /\ cached (a_commit inc now a) = cached a.
Proof. unfold a_commit, cached. by destruct (a_pend a). Qed.

(** The data of a pending event goes to the cache, after the previous pending
    event has been committed. *)
Lemma log_pending_rep ch recs rec a e d tpl fresh h now cnow :
  chan_rep ch recs [rec] a -> chan_op_ok (a_over a) (a_cap a) (CLog e d tpl fresh now cnow) ->
  has_flag (Flags_ e) EVENT_FLAG_PENDING = true -> DataSize e <= Zlength (cached a) ->
  slot_rep (mkSlot (logged_desc e now) None) rec ->
  h <> INVALID_RING_HANDLE -> handle_at (Ring ch) (recs ++ [rec]) (length recs) h -> HandleKey (Ring ch) <> 0 ->
  exists ch' recs', log_data ch e d h (logged_desc e now) EFI_SUCCESS cnow = Ok (EFI_SUCCESS, ch') /\
    chan_rep ch' recs' [] (a_append a e d now cnow).
Proof.
  intros C (_ & _ & _ & Hs0 & _ & _ & Hd & _ & Hcn & Hp) Ef Hsz Hs Hinv Hat Hk. destruct (Hp Ef) as (Ho & _).
  unfold log_data, a_append. rewrite Ef.
  destruct (force_commit_rep ch recs [rec] a cnow C Hcn) as (ch1 & b & recs1 & -> & Er & C1 & HL). rewrite bind_Ok.
  destruct (commit_fields true cnow a) as (Ho1 & _ & Hca1 & Hc1). set (a1 := a_commit true cnow a) in *.
  assert (C2 : chan_rep (set_Pending (mkPending h (logged_desc e now) (CacheSize (Pending ch1)) (Cache (Pending ch1))) ch1)
    (recs1 ++ [rec]) [] (set_slots a1 (a_slots a1 ++ [mkSlot (logged_desc e now) None]) (Some (length (a_slots a1))))).
  { apply (push_pending ch1 recs1 rec a1 (mkSlot (logged_desc e now) None)); try done.
    - apply commit_none.
    - congruence.
    - cbn. by rewrite Ef.
    - by rewrite Hc1.
    - rewrite <- (Forall2_length HL). eapply handle_at_ext; [..|exact Hat]; try (by rewrite Er).
      apply Forall2_take, Forall2_app; [done|apply lengths_refl].
    - by rewrite Er. }
  cbn zeta. rewrite ASSERT_holds
    by (cbn [set_Pending Pending CacheSize]; rewrite (cr_cacheSize _ _ _ _ C1), Hc1; apply Z.leb_le; lia).
  rewrite bind_Ok. cbn [set_Pending Pending CacheSize Cache].
  destruct (Z.eqb_spec (DataSize e) 0) as [E0|Hne]; [do 2 eexists; split; [done|exact C2]|].
  destruct Hd as (data & -> & Hdl); [done|]. pose proof (cr_cache _ _ _ _ C1) as Ec. rewrite Hca1 in Ec. rewrite Ec.
  unfold cached in Hsz. destruct (a_cache a) as [cache|] eqn:Eca; [|unfold Zlength in Hsz; cbn in Hsz; lia]. cbn in Hsz.
  rewrite CopyMem_front by lia. rewrite bind_Ok. cbn [default from_option id].
  do 2 eexists. split; [done|]. rewrite length_take, Nat.min_l by (unfold Zlength in Hdl; lia).
  replace (cached (set_slots a1 _ _)) with cache by (unfold cached; cbn; by rewrite Hca1).
  eapply (cache_rep _ _ _ cache) in C2; [exact C2|cbn; congruence|].
  unfold Zlength in *. rewrite length_app, length_take, length_drop. lia.
Qed.

(** The data of any other event goes to the ring. *)
Lemma log_direct_rep ch recs rec a e d tpl fresh h now cnow :
  chan_rep ch recs [rec] a -> chan_op_ok (a_over a) (a_cap a) (CLog e d tpl fresh now cnow) ->
  has_flag (Flags_ e) EVENT_FLAG_PENDING = false -> slot_rep (mkSlot (logged_desc e now) None) rec ->
  handle_at (Ring ch) (recs ++ [rec]) (length recs) h ->
  exists ch' recs', log_data ch e d h (logged_desc e now) EFI_SUCCESS cnow = Ok (EFI_SUCCESS, ch') /\
    chan_rep ch' recs' [] (a_append a e d now cnow).
Proof.
  intros C Hop Ef Hs Hat. pose proof (logged_ok _ _ _ _ _ _ _ _ Hop) as Hok.
  destruct Hop as (_ & _ & _ & Hs0 & _ & _ & Hd & _). unfold log_data, a_append. rewrite Ef.
  destruct (slot_rep_length _ _ Hs) as [Lr _]. destruct Hs as [_ (raw & -> & Hraw & _)]. cbn [s_desc] in *.
  change (DataSize (logged_desc e now)) with (DataSize e) in *.
  assert (Hpush : forall ch1 data, chan_rep ch1 recs [desc_bytes (logged_desc e now) ++ data] a -> Zlength data = DataSize e ->
    chan_rep ch1 (recs ++ [desc_bytes (logged_desc e now) ++ data]) []
      (set_slots a (a_slots a ++ [mkSlot (logged_desc e now) (Some data)]) (a_pend a))).
  { intros ch1 data C1 Hl. apply push_committed; [done| |done|cbn; by rewrite Ef].
    split; [done|]. exists data. split; [done|]. split; [done|]. cbn. congruence. }
  destruct (Z.eqb_spec (DataSize e) 0) as [E0|Hne].
  - assert (raw = []) as -> by (destruct raw; [done|unfold Zlength in Hraw; cbn in Hraw; lia]).
    rewrite E0. cbn [Z.to_nat take]. do 2 eexists. split; [by destruct d|]. by apply Hpush.
  - destruct Hd as (data & -> & Hdl); [done|]. cbn [negb default from_option id].
    destruct (extra_write _ _ _ _ h sizeof_EFI_EVENT_DESCRIPTOR data (DataSize e) C Hat) as (b & -> & C1);
      [unfold sizeof_EFI_EVENT_DESCRIPTOR; lia|lia|lia|]. rewrite bind_Ok. cbn [EFI_ERROR].
    rewrite splice_tail in C1 by (rewrite ?Zlength_desc_bytes, ?Zlength_take; done || lia).
    do 2 eexists. split; [done|]. apply Hpush; [done|]. by rewrite Zlength_take by lia.
Qed.
Lemma lost_rep ch recs a : chan_rep ch recs [] a -> chan_rep (set_Ring (lost_write (Ring ch)) ch) recs [] (add_lost a 1).
Proof.
  intros [Cid Cr Cs Ckn Cfl Cc Ccs Cst Ck Cl Co Cp]. constructor; cbn; try done. by apply lost_abs in Cr.
Qed.

(** A record reserved for an event, after its descriptor has been written. *)
Lemma described_rep ch recs d a h e now over cap dd tpl fresh cnow :
  chan_rep ch recs [d] a -> handle_at (Ring ch) (recs ++ [d]) (length recs) h ->
  chan_op_ok over cap (CLog e dd tpl fresh now cnow) -> Zlength d = sizeof_EFI_EVENT_DESCRIPTOR + DataSize e ->
  exists b rec, RingBufferIo (Ring ch) h DataWrite 0 (desc_bytes (logged_desc e now)) sizeof_EFI_EVENT_DESCRIPTOR =
      Ok (EFI_SUCCESS, set_Buffer (Ring ch) b, desc_bytes (logged_desc e now), sizeof_EFI_EVENT_DESCRIPTOR) /\
    chan_rep (set_Ring (set_Buffer (Ring ch) b) ch) recs [rec] a /\ slot_rep (mkSlot (logged_desc e now) None) rec /\
    handle_at (set_Buffer (Ring ch) b) (recs ++ [rec]) (length recs) h.
Proof.
  intros C Hat Hop Hl. pose proof (logged_ok _ _ _ _ _ _ _ _ Hop) as Hok. pose proof (Zlength_desc_bytes _ Hok) as Ld.
  assert (0 <= DataSize e) by apply Hop.
  destruct (extra_write _ _ _ _ h 0 (desc_bytes (logged_desc e now)) sizeof_EFI_EVENT_DESCRIPTOR C Hat) as (b & E & C1);
    [lia|rewrite Ld; unfold sizeof_EFI_EVENT_DESCRIPTOR; lia|lia|].
  rewrite take_ge in C1 by (unfold Zlength, sizeof_EFI_EVENT_DESCRIPTOR in *; lia).
  unfold splice in C1. rewrite take_0, Ld in C1. cbn [app] in C1.
  set (raw := drop _ d) in C1. exists b, (desc_bytes (logged_desc e now) ++ raw). split_and!; [done|done| |].
  - split; [done|]. exists raw. split; [done|]. split; [|done]. unfold raw. cbn [s_desc].
    rewrite Zlength_drop by (unfold sizeof_EFI_EVENT_DESCRIPTOR in *; lia). change (DataSize (logged_desc e now)) with (DataSize e). lia.
  - unfold handle_at in *. rewrite take_app_length in *. exact Hat.
Qed.

Lemma grow_fields a e fresh a1 :
  a_grow a e fresh = Some a1 -> a_over a1 = a_over a /\ a_cap a1 = a_cap a.
Proof. unfold a_grow. destruct (_ && _); [destruct fresh|]; intros [=<-]; done. Qed.

Lemma log_step ch recs a e d tpl fresh now cnow :
  chan_rep ch recs [] a -> chan_op_ok (a_over a) (a_cap a) (CLog e d tpl fresh now cnow) ->
  exists ch' recs', event_log ch e d tpl fresh now cnow = Ok (fst (a_log a e d fresh now cnow), ch') /\
    chan_rep ch' recs' [] (snd (a_log a e d fresh now cnow)).
Proof.
  intros C0 Hop. pose proof (grow_rep ch recs a e d tpl fresh now cnow C0 Hop) as G. unfold event_log, a_log.
  destruct (a_grow a e fresh) as [a1|] eqn:Eg; [|rewrite G; rewrite bind_Ok; by do 2 eexists].
  destruct G as (ch1 & -> & C & Hsz). rewrite bind_Ok. cbn [negb]. clear C0.
  destruct (grow_fields _ _ _ _ Eg) as [Eo Ecap]. rewrite <- Eo, <- Ecap in Hop. clear Eg Eo Ecap.
  pose proof Hop as (_ & _ & _ & Hs0 & Hal & Hwrap & _). rewrite u32_small by (unfold sizeof_EFI_EVENT_DESCRIPTOR; lia).
  pose proof (Reserve_abs (Ring ch1) (a_cap a1) (a_over a1) recs (a_lost a1) (DataSize e + sizeof_EFI_EVENT_DESCRIPTOR)) as RA.
  pose proof (cr_ring _ _ _ _ C) as A. rewrite app_nil_r in A.
  specialize (RA A ltac:(unfold sizeof_EFI_EVENT_DESCRIPTOR; lia) ltac:(unfold sizeof_EFI_EVENT_DESCRIPTOR, sizeof_RING_RECORD; lia)).
  cbn zeta in RA. replace (sizeof_RING_RECORD + (DataSize e + sizeof_EFI_EVENT_DESCRIPTOR))
    with (sizeof_RING_RECORD + sizeof_EFI_EVENT_DESCRIPTOR + DataSize e) in RA by lia.
  pose proof (cr_slots _ _ _ _ C) as HF. rewrite (used_rep _ _ HF), (to_drop_rep _ _ _ _ HF) in RA.
  destruct (_ <? _); [rewrite RA, bind_Ok; do 2 eexists; split; [done|by apply lost_rep]|].
  destruct (_ || _); [|rewrite RA, bind_Ok; do 2 eexists; split; [done|by apply lost_rep]].
  destruct RA as (r1 & r' & h & rec0 & -> & Hl0 & A1 & R' & Rs & Hk0). rewrite bind_Ok. cbn [EFI_ERROR].
  pose proof (drop_rep _ _ _ _ _ C A1 Hk0) as C1. set (k := to_drop _ _ _) in *. set (a2 := add_lost _ _) in *.
  destruct (reserve_rep _ _ _ r' h rec0 C1 Rs R') as (C2 & Hat & Hinv & Hkey).
  { rewrite Hl0. unfold sizeof_EFI_EVENT_DESCRIPTOR. zlia. }
  rewrite event_meta_logged. destruct (described_rep _ _ _ _ h e now _ _ _ _ _ _ C2 Hat Hop) as (b & rec & E & C3 & Hs & Hat3);
    [lia|]. cbn [set_Ring Ring] in E |- *. rewrite E, bind_Ok. cbn [EFI_ERROR].
  change (set_Ring r' (set_Ring r1 ch1)) with (set_Ring r' ch1) in C3.
  assert (exists ch' recs', log_data (set_Ring (set_Buffer r' b) (set_Ring r' ch1)) e d h (logged_desc e now) EFI_SUCCESS cnow =
    Ok (EFI_SUCCESS, ch') /\ chan_rep ch' recs' [] (a_append a2 e d now cnow)) as (ch' & recs' & El & C').
  { destruct (has_flag (Flags_ e) EVENT_FLAG_PENDING) eqn:Ef.
    - eapply log_pending_rep; try done. by apply Hsz.
    - by eapply log_direct_rep. }
  rewrite El, bind_Ok. cbn [EFI_ERROR]. do 2 eexists. split; [done|]. cbn [snd]. by apply written_rep.
Qed.

(** ** Any sequence of operations *)
Lemma step_fields a op : a_over (snd (a_step a op)) = a_over a /\ a_cap (snd (a_step a op)) = a_cap a.
Proof.
  destruct op as [e d tpl fresh now cnow|bytes|now|iso emu region visible now|]; cbn [a_step].
  - unfold a_log. destruct (a_grow a e fresh) as [a1|] eqn:Eg; [|done]. destruct (grow_fields _ _ _ _ Eg) as [<- <-].
    destruct (_ <? _); [done|]. destruct (_ || _); [|done]. cbn zeta. unfold a_append. set (a2 := add_lost _ _).
    destruct (commit_fields true cnow a2) as (Ho & Hc & _). destruct (has_flag _ _); [|done]. destruct (_ =? 0); done.
  - unfold a_update. destruct (a_pend a ≫= _); [|done]. by destruct (a_cache a).
  - destruct (a_pend a) eqn:E; [|done]. cbn [snd]. destruct (commit_fields false now a) as (-> & -> & _). done.
  - destruct region; [|done]. unfold a_flush. destruct (_ && _); [done|]. cbn.
    destruct (commit_fields true now a) as (-> & -> & _). done.
  - done.
Qed.

Lemma chan_step_rep ch recs a op :
  chan_rep ch recs [] a -> chan_op_ok (a_over a) (a_cap a) op ->
  exists ch' recs', chan_step ch op = Ok (fst (a_step a op), ch') /\ chan_rep ch' recs' [] (snd (a_step a op)).
Proof.
  intros C Hop. destruct op as [e d tpl fresh now cnow|bytes|now|iso emu region visible now|].
  - destruct (log_step ch recs a e d tpl fresh now cnow C Hop) as (ch' & recs' & E & C'). cbn [chan_step a_step].
    rewrite E, bind_Ok. destruct (a_log a e d fresh now cnow). by exists ch', recs'.
  - by eapply update_step.
  - by eapply commit_step.
  - by eapply flush_rep.
  - destruct (reset_rep _ _ _ C) as (ch' & E & C'). cbn [chan_step a_step]. rewrite E. by exists ch', [].
Qed.

Lemma chan_run_rep ch recs a ops :
  chan_rep ch recs [] a -> Forall (chan_op_ok (a_over a) (a_cap a)) ops ->
  exists ch' recs', chan_run ch ops = Ok (fst (a_run a ops), ch') /\ chan_rep ch' recs' [] (snd (a_run a ops)).
Proof.
  revert ch recs a. induction ops as [|op ops IH]; intros ch recs a C Hops; cbn [chan_run a_run]; [by do 2 eexists|].
  inversion Hops as [|? ? Hop Hops']; subst. destruct (chan_step_rep ch recs a op C Hop) as (ch1 & recs1 & -> & C1).
  rewrite bind_Ok. destruct (step_fields a op) as [Eo Ec]. destruct (a_step a op) as [o a1]. cbn [fst snd] in *.
  rewrite <- Eo, <- Ec in Hops'. destruct (IH ch1 recs1 a1 C1 Hops') as (ch2 & recs2 & -> & C2). rewrite bind_Ok.
  destruct (a_run a1 ops) as [os a2]. by exists ch2, recs2.
Qed.
End Log.
