(* ===== verification/EventLoggerProps.v ===== *)
(** The properties of the event logger ([EventLogger.c]) and their witnesses:
    a channel created through the protocol behaves, for every sequence of
    operations made with its handle, as the log of [EventChannel]. *)
From stdpp Require Import base list numbers list_numbers option gmap.
From Stdlib Require Import ZArith Lia.
From S2P Require Import Prelude Circular EfiRing EfiRingFacts EfiRingOps EfiRingAccess EventQueue HandleTable EventLogger EventChannel.
Import EfiRing EventLogger.
Open Scope Z_scope.

(** ** The logger's invariant *)

(** [ptrs] are the channel objects in the order of their creation. *)
Record logger_rep (lg : logger) (ptrs : list Z) : Prop := {
  lr_table : HandleTable.table_rep (mEventChannels lg) ptrs;
  lr_key : HandleTable.ObjectKeySize (HandleTable.Info (mEventChannels lg)) = sizeof_EFI_GUID;
  lr_objects : forall p, p ∈ ptrs -> exists ch, channels lg !! p = Some ch /\ length (Id ch) = 16%nat
}.

(** The log of a channel that has just been created. *)
Definition empty_channel (guid : list Z) (attrs : EVENT_CHANNEL_INFO) : achannel :=
  mkA guid (BufferSize attrs) (has_flag (ChannelFlags attrs) EVENT_CHANNEL_OVERWRITE_RECORDS) [] None None 0 0 0 0.

(** The attributes [EventChannelCreate] accepts for a usable channel. *)
Definition attrs_ok (attrs : EVENT_CHANNEL_INFO) : Prop :=
  (exists k, 3 <= k <= 31 /\ BufferSize attrs = 2 ^ k) /\
  (has_flag (ChannelFlags attrs) EVENT_CHANNEL_FIXED_RECORDS = true ->
   RecordSize attrs <> 0 /\ BufferSize attrs mod RecordSize attrs = 0).

(** The handle of the channel at position [i] of the table. *)
Definition channel_handle (lg : logger) (i : nat) : Z := HandleTable.HANDLE_TABLE_ENCODE (mEventChannels lg) (Z.of_nat i).

Lemma fresh_channel_rep {B : BuildOptions} guid attrs :
  attrs_ok attrs ->
  exists r, RingBufferInitialize (zero_ring (BufferSize attrs)) (BufferSize attrs)
      (if has_flag (ChannelFlags attrs) EVENT_CHANNEL_OVERWRITE_RECORDS then RING_BUFFER_OVERWRITE else 0) = (EFI_SUCCESS, r) /\
    chan_rep (mkChannel guid attrs (mkPending INVALID_RING_HANDLE zero_desc 0 None) (mkChannelStats 0 0 0 0) r) [] []
      (empty_channel guid attrs).
Proof.
  intros [(k & Hk & Ek) _].
  assert (Hb : 8 <= BufferSize attrs <= 2 ^ 31).
  { rewrite Ek. split; [change 8 with (2 ^ 3)|]; apply Z.pow_le_mono_r; lia. }
  set (flags := if has_flag _ _ then _ else _).
  assert (Hl : Zlength (Buffer (zero_ring (BufferSize attrs))) = BufferSize attrs) by (apply Zlength_replicate; lia).
  pose proof (init_abs (zero_ring (BufferSize attrs)) (BufferSize attrs) flags k Hk Ek Hl) as A.
  pose proof (Initialize_spec (zero_ring (BufferSize attrs)) (BufferSize attrs) flags ltac:(lia) Hl) as I.
  destruct (RingBufferInitialize _ _ _) as [st r]. cbn [snd] in A.
  destruct st; try (destruct I as (_ & _ & [|I]); [lia|by destruct (I k ltac:(lia))]).
  destruct I as (_ & _ & _ & _ & _ & Hkey). exists r. split; [done|].
  constructor; cbn; try done; try (by intros [? ?]); try lia.
  destruct A as [R Hc Ho Hlo Ht Hi]. constructor; try done. cbn in *. rewrite <- Ho. unfold flags.
  by destruct (has_flag _ _).
Qed.

Lemma pow2_land k : 0 <= k <= 31 -> Z.land (2 ^ k) (u32 (2 ^ k - 1)) = 0.
Proof.
  intros Hk. rewrite u32_small.
  - replace (2 ^ k - 1) with (Z.ones k) by (rewrite Z.ones_equiv; lia). rewrite Z.land_ones by lia. apply Z_mod_same_full.
  - pose proof (Z.pow_lt_mono_r 2 k 32 ltac:(lia) ltac:(lia) ltac:(lia)).
    pose proof (Z.pow_pos_nonneg 2 k ltac:(lia) ltac:(lia)). lia.
Qed.

Section Logger.
Context {B : BuildOptions}.

(** Looking a channel up by its GUID. *)
Lemma FromGuid_spec lg ptrs guid :
  logger_rep lg ptrs -> length guid = 16%nat ->
  (exists i p ch, ptrs !! i = Some p /\ channels lg !! p = Some ch /\ Id ch = guid /\
     EventChannelFromGuid lg guid = Ok (Some p, channel_handle lg i)) \/
  ((forall p ch, p ∈ ptrs -> channels lg !! p = Some ch -> Id ch <> guid) /\
   EventChannelFromGuid lg guid = Ok (None, INVALID_EVENT_HANDLE)).
Proof.
  intros L Hg. assert (Hkey : forall p, p ∈ ptrs -> exists ch, channels lg !! p = Some ch /\
      zslice 0 sizeof_EFI_GUID (channel_key lg p) = Id ch /\ Zlength (channel_key lg p) = 16).
  { intros p Hp. destruct (lr_objects _ _ L p Hp) as (ch & Hc & Hl). exists ch. unfold channel_key. rewrite Hc.
    unfold zslice, Zlength. rewrite drop_0, Hl. split_and!; [done| |done]. by apply take_ge; rewrite Hl. }
  assert (Eg : zslice 0 sizeof_EFI_GUID guid = guid) by (unfold zslice; rewrite drop_0; apply take_ge; rewrite Hg; done).
  unfold EventChannelFromGuid. rewrite (HandleTable.LookupByKey_spec _ _ ptrs); [|apply L| | |].
  - destruct (HandleTable.find_key_spec (channel_key lg) guid sizeof_EFI_GUID ptrs 0) as
      [(i & p & -> & Hi & Hs & _)|[-> Hno]]; rewrite bind_Ok.
    + left. destruct (Hkey p) as (ch & Hc & Hz & _); [by eapply list_elem_of_lookup_2|].
      exists i, p, ch. split_and!; [done|done|congruence|]. by rewrite Z.add_0_l.
    + right. split; [|done]. intros p ch Hp Hc E. destruct (Hkey p Hp) as (ch' & Hc' & Hz & _).
      apply (Hno p Hp). rewrite Hz, Eg. congruence.
  - rewrite (lr_key _ _ L). unfold sizeof_EFI_GUID. lia.
  - unfold Zlength. rewrite Hg. done.
  - intros p Hp. destruct (Hkey p Hp) as (? & _ & _ & ->). done.
Qed.
Lemma FromHandle_spec lg ptrs i :
  logger_rep lg ptrs -> Z.of_nat i < HandleTable.Size (mEventChannels lg) ->
  channel_handle lg i <> INVALID_EVENT_HANDLE /\ EventChannelFromHandle lg (channel_handle lg i) = Ok (ptrs !! i).
Proof.
  intros L Hi. unfold EventChannelFromHandle, channel_handle.
  destruct (HandleTable.INDEX_ENCODE _ _ (Z.of_nat i) (lr_table _ _ L)) as (_ & _ & Hn); [lia|].
  change HandleTable.EFI_INVALID_HANDLE with INVALID_EVENT_HANDLE in Hn. split; [done|].
  rewrite (proj2 (Z.eqb_neq _ _)) by done.
  by rewrite (HandleTable.LookupByHandle_encode _ _ _ (lr_table _ _ L)), Nat2Z.id by lia.
Qed.

Lemma logger_rep_set lg ptrs p ch ch' :
  logger_rep lg ptrs -> channels lg !! p = Some ch -> Id ch' = Id ch -> logger_rep (set_channel lg p ch') ptrs.
Proof.
  intros [Lt Lk Lo] Hp Eid. constructor; try done. intros q Hq. cbn.
  destruct (Lo q Hq) as (c & Hc & Hl). destruct (decide (p = q)) as [->|Hne].
  - exists ch'. rewrite lookup_insert_eq. split; [done|]. rewrite Eid. congruence.
  - exists c. by rewrite lookup_insert_ne.
Qed.

(** Creating a channel that does not exist. *)
Lemma Create_success lg ptrs guid attrs p :
  logger_rep lg ptrs -> attrs_ok attrs -> length guid = 16%nat ->
  (forall q ch, q ∈ ptrs -> channels lg !! q = Some ch -> Id ch <> guid) ->
  Zlength ptrs < HandleTable.Size (mEventChannels lg) -> p ∉ ptrs ->
  exists lg' ch, EventChannelCreate lg guid (Some attrs) (Some p) = Ok (EFI_SUCCESS, lg', channel_handle lg' (length ptrs)) /\
    logger_rep lg' (ptrs ++ [p]) /\ channels lg' = <[p := ch]> (channels lg) /\
    HandleTable.Size (mEventChannels lg') = HandleTable.Size (mEventChannels lg) /\
    chan_rep ch [] [] (empty_channel guid attrs).
Proof.
  intros L Ha Hg Hno Hroom Hp. destruct (FromGuid_spec lg ptrs guid L Hg) as [(i & q & ch & Hi & Hc & Hid & _)|[_ E]].
  { destruct (Hno q ch); [by eapply list_elem_of_lookup_2|done|done]. }
  unfold EventChannelCreate. rewrite E, bind_Ok. destruct (fresh_channel_rep guid attrs Ha) as (r & Er & C).
  destruct Ha as [(k & Hk & Ek) Hfix]. replace (Z.land (BufferSize attrs) (u32 (BufferSize attrs - 1))) with 0 by (rewrite Ek; by rewrite pow2_land by lia).
  cbn [Z.eqb negb].
  replace (has_flag (ChannelFlags attrs) EVENT_CHANNEL_FIXED_RECORDS && _) with false.
  2:{ destruct (has_flag _ _) eqn:Ef; [|done]. destruct (Hfix eq_refl) as [H1 H2]. cbn [andb].
      rewrite (proj2 (Z.eqb_neq _ _)) by done. by rewrite H2. }
  destruct (HandleTable.Allocate_success (mEventChannels lg) ptrs (sizeof_EVENT_CHANNEL + BufferSize attrs) p (lr_table _ _ L))
    as (t' & -> & T' & Hsz & Hkey & Hinf); [|done|].
  { rewrite (lr_key _ _ L), Ek. pose proof (Z.pow_nonneg 2 k). unfold sizeof_EFI_GUID, sizeof_EVENT_CHANNEL. lia. }
  rewrite bind_Ok, Er. cbn [EFI_ERROR negb]. cbn zeta. rewrite ASSERT_true, bind_Ok.
  set (ch := mkChannel _ _ _ _ r) in *. exists (mkLogger t' (<[p := ch]> (channels lg))), ch.
  split; [|split; [|split; [done|split; [exact Hsz|exact C]]]].
  - do 2 f_equal. unfold channel_handle, HandleTable.HANDLE_TABLE_ENCODE. cbn [mEventChannels]. by rewrite Hkey.
  - constructor; cbn; [done|by rewrite Hinf; apply L|]. intros q Hq. apply elem_of_app in Hq as [Hq| ->%list_elem_of_singleton].
    + destruct (lr_objects _ _ L q Hq) as (c & Hc & Hl). exists c. rewrite lookup_insert_ne; [done|]. by intros ->.
    + eexists. rewrite lookup_insert_eq. split; [done|]. done.
Qed.

(** Opening a channel: its GUID leads to the handle it was created with. *)
Lemma Create_opens lg ptrs guid i p ch attrs address :
  logger_rep lg ptrs -> length guid = 16%nat -> ptrs !! i = Some p -> channels lg !! p = Some ch -> Id ch = guid ->
  (forall j q c, ptrs !! j = Some q -> channels lg !! q = Some c -> Id c = guid -> j = i) ->
  EventChannelCreate lg guid attrs address = Ok (EFI_SUCCESS, lg, channel_handle lg i).
Proof.
  intros L Hg Hi Hc Hid Huniq. unfold EventChannelCreate.
  destruct (FromGuid_spec lg ptrs guid L Hg) as [(j & q & c & Hj & Hcq & Hidq & ->)|[Hno _]].
  - by rewrite bind_Ok, (Huniq j q c Hj Hcq Hidq).
  - destruct (Hno p ch); [by eapply list_elem_of_lookup_2|done|done].
Qed.
End Logger.

(** ** Operations through a handle *)
Section Handle.
Context {B : BuildOptions}.

(** The protocol calls a client makes with the handle [h].  To change the data
    of the pending event it writes through the pointer [EventPendingGet] gave. *)
Definition logger_step (lg : logger) (h : Z) (op : chan_op) : result (chan_out * logger) :=
  match op with
  | CLog e d tpl fresh now cnow => '(st, lg) ← EventLog lg h (Some e) d tpl fresh now cnow; Ok ((st, None), lg)
  | CUpdate bytes =>
    '(st, lg, meta, data) ← EventPendingGet lg h;
    match meta, data with
    | Some d, Some cache =>
      let bytes := take (Z.to_nat (DataSize d)) bytes in
      cache ← CopyMem cache 0 bytes 0 (Zlength bytes);
      channel ← EventChannelFromHandle lg h;
      match channel with
      | Some p =>
        ch ← deref lg p;
        Ok ((st, None), set_channel lg p (set_Pending
          (mkPending (Handle (Pending ch)) (Metadata (Pending ch)) (CacheSize (Pending ch)) (Some cache)) ch))
      | None => Fault NullDeref
      end
    | _, _ => Ok ((st, None), lg)
    end
  | CCommit now => '(st, lg) ← EventPendingCommit lg h now; Ok ((st, None), lg)
  | CFlush iso emu region visible now =>
    '(st, (lg, out)) ← EventChannelFlush lg h iso emu (fun _ => mkFlushEnv region visible now);
    Ok ((st, option_map trim_message (head out)), lg)
  | CReset => '(st, lg) ← EventChannelReset lg h; Ok ((st, None), lg)
  end.

Fixpoint logger_run (lg : logger) (h : Z) (ops : list chan_op) : result (list chan_out * logger) :=
  match ops with
  | [] => Ok ([], lg)
  | op :: ops => '(o, lg) ← logger_step lg h op; '(os, lg) ← logger_run lg h ops; Ok (o :: os, lg)
  end.

Lemma bind_Ok_inv {A C} (m : result A) (k : A -> result C) c : (m ≫= k) = Ok c -> exists a, m = Ok a /\ k a = Ok c.
Proof. destruct m; [|done]. intros E. by eexists. Qed.

Lemma set_channel_twice lg p c1 c2 : set_channel (set_channel lg p c1) p c2 = set_channel lg p c2.
Proof. unfold set_channel. cbn. by rewrite insert_insert_eq. Qed.

Lemma logger_step_lift lg h p ch op o ch' :
  h <> INVALID_EVENT_HANDLE -> EventChannelFromHandle lg h = Ok (Some p) -> channels lg !! p = Some ch ->
  chan_step ch op = Ok (o, ch') -> logger_step lg h op = Ok (o, set_channel lg p ch').
Proof.
  intros Hh Hp Hc E. assert (Ed : deref lg p = Ok ch) by (unfold deref; by rewrite Hc).
  assert (Eh : (h =? INVALID_EVENT_HANDLE) = false) by (by apply Z.eqb_neq).
  destruct op as [e d tpl fresh now cnow|bytes|now|iso emu region visible now|]; cbn [chan_step logger_step] in *.
  - apply bind_Ok_inv in E as ([st c] & E & [= <- <-]). unfold EventLog. by rewrite Hp, bind_Ok, Ed, bind_Ok, E.
  - apply bind_Ok_inv in E as ([st c] & E & [= <- <-]). unfold client_update in E.
    apply bind_Ok_inv in E as ([[[st' c'] meta] data] & E1 & E2). unfold EventPendingGet.
    rewrite Hp, bind_Ok, Ed, bind_Ok, E1, !bind_Ok. destruct meta as [m|]; [|by injection E2 as <- <-].
    destruct data as [cache|]; [|by injection E2 as <- <-]. apply bind_Ok_inv in E2 as (cache' & -> & [= <- <-]).
    rewrite bind_Ok. change (EventChannelFromHandle (set_channel lg p c') h) with (EventChannelFromHandle lg h).
    rewrite Hp, bind_Ok. unfold deref. cbn [set_channel channels]. rewrite lookup_insert_eq, bind_Ok.
    by rewrite (set_channel_twice lg p).
  - apply bind_Ok_inv in E as ([st c] & E & [= <- <-]). unfold EventPendingCommit. by rewrite Hp, bind_Ok, Ed, bind_Ok, E.
  - apply bind_Ok_inv in E as ([[st c] m] & E & [= <- <-]). unfold EventChannelFlush. rewrite Eh, Hp, bind_Ok.
    unfold flush_object. rewrite Ed, bind_Ok. cbn [env_region env_visible env_now]. rewrite E, !bind_Ok. by destruct m.
  - destruct (EventChannelResetCallback ch) as [st c] eqn:E'. injection E as <- <-. unfold EventChannelReset.
    rewrite Eh, Hp, bind_Ok. unfold reset_object. by rewrite Ed, bind_Ok, E'.
Qed.

Lemma logger_run_lift lg h p ch ops os ch' :
  h <> INVALID_EVENT_HANDLE -> EventChannelFromHandle lg h = Ok (Some p) -> channels lg !! p = Some ch ->
  chan_run ch ops = Ok (os, ch') -> logger_run lg h ops = Ok (os, set_channel lg p ch').
Proof.
  revert lg ch os. induction ops as [|op ops IH]; intros lg ch os Hh Hp Hc E; cbn [chan_run logger_run] in *.
  - injection E as <- <-. unfold set_channel. rewrite insert_id by done. by destruct lg.
  - apply bind_Ok_inv in E as ([o c1] & E1 & E). apply bind_Ok_inv in E as ([os1 c2] & E2 & [= <- <-]).
    rewrite (logger_step_lift lg h p ch op o c1) by done. rewrite bind_Ok.
    rewrite (IH (set_channel lg p c1) c1 os1); [|done|done|cbn; by rewrite lookup_insert_eq|done].
    by rewrite bind_Ok, set_channel_twice.
Qed.
End Handle.

(** The life of a new channel through its handle. *)
Lemma channel_lives {B : BuildOptions} lg ptrs guid attrs p ops :
  logger_rep lg ptrs -> attrs_ok attrs -> length guid = 16%nat ->
  (forall q ch, q ∈ ptrs -> channels lg !! q = Some ch -> Id ch <> guid) ->
  Zlength ptrs < HandleTable.Size (mEventChannels lg) -> p ∉ ptrs ->
  Forall (chan_op_ok (has_flag (ChannelFlags attrs) EVENT_CHANNEL_OVERWRITE_RECORDS) (BufferSize attrs)) ops ->
  exists lg' h ch recs,
    EventChannelCreate lg guid (Some attrs) (Some p) = Ok (EFI_SUCCESS, lg', h) /\
    EventChannelCreate lg' guid None None = Ok (EFI_SUCCESS, lg', h) /\
    logger_run lg' h ops = Ok (fst (a_run (empty_channel guid attrs) ops), set_channel lg' p ch) /\
    EventChannelFromHandle (set_channel lg' p ch) h = Ok (Some p) /\
    chan_rep ch recs [] (snd (a_run (empty_channel guid attrs) ops)) /\
    logger_rep lg' (ptrs ++ [p]) /\ forall q, q <> p -> channels (set_channel lg' p ch) !! q = channels lg !! q.
Proof.
  intros L Ha Hg Hno Hroom Hp Hops.
  destruct (Create_success lg ptrs guid attrs p L Ha Hg Hno Hroom Hp) as (lg' & ch0 & E & L' & Ech & Hsz & C0).
  destruct (FromHandle_spec lg' (ptrs ++ [p]) (length ptrs) L') as [Hh Hf]; [rewrite Hsz; exact Hroom|].
  rewrite lookup_app_r, Nat.sub_diag in Hf by lia. cbn in Hf.
  assert (H0 : channels lg' !! p = Some ch0) by (by rewrite Ech, lookup_insert_eq).
  destruct (chan_run_rep ch0 [] (empty_channel guid attrs) ops C0 Hops) as (ch & recs & Er & C).
  eexists lg', _, ch, recs. split_and!; [exact E| |by eapply logger_run_lift|exact Hf|done|done|].
  - eapply (Create_opens _ (ptrs ++ [p]) _ _ p ch0); [done|done| |done|apply C0|].
    + by rewrite lookup_app_r, Nat.sub_diag by lia.
    + intros j q c [Hj|[-> ->]]%lookup_snoc_inv Hc Hid; [|done]. apply list_elem_of_lookup_2 in Hj as Hq.
      rewrite Ech, lookup_insert_ne in Hc by (by intros ->). by destruct (Hno q c Hq Hc).
  - intros q Hq. cbn. by rewrite lookup_insert_ne, Ech, lookup_insert_ne by done.
Qed.

(** C7. A channel refines a log.  Let a channel be created with a GUID that no
    other channel has and acceptable attributes (a buffer of 8 to 2^31 bytes, a
    power of two) while the table has room.  Then it can be opened again under
    that GUID, and every sequence of operations made with its handle (logging,
    changing the pending event's data, committing, flushing, resetting, with any
    answers of the allocators) runs without a fault in every build, returns the
    statuses and the messages to the host of the abstract log, leaves the channel
    representing that log, and does not touch any other channel, provided the
    operations are within [chan_op_ok]: event data in whole units of four bytes
    that are there and do not wrap a UINT32, pending events, updates and commits
    only on channels that do not overwrite, pending events at or below
    [TPL_NOTIFY], and flush memory of at least the channel's size.  Outside these
    limits the code goes wrong ([overwrite_strands_pending]). *)
Theorem event_channel_refines_log {B : BuildOptions} lg ptrs guid attrs p ops :
  logger_rep lg ptrs -> attrs_ok attrs -> length guid = 16%nat ->
  (forall q ch, q ∈ ptrs -> channels lg !! q = Some ch -> Id ch <> guid) ->
  Zlength ptrs < HandleTable.Size (mEventChannels lg) -> p ∉ ptrs ->
  Forall (chan_op_ok (has_flag (ChannelFlags attrs) EVENT_CHANNEL_OVERWRITE_RECORDS) (BufferSize attrs)) ops ->
  exists lg' h lg'' ch recs,
    EventChannelCreate lg guid (Some attrs) (Some p) = Ok (EFI_SUCCESS, lg', h) /\
    EventChannelCreate lg' guid None None = Ok (EFI_SUCCESS, lg', h) /\
    logger_run lg' h ops = Ok (fst (a_run (empty_channel guid attrs) ops), lg'') /\
    channels lg'' !! p = Some ch /\ chan_rep ch recs [] (snd (a_run (empty_channel guid attrs) ops)) /\
    logger_rep lg' (ptrs ++ [p]) /\ forall q, q <> p -> channels lg'' !! q = channels lg !! q.
Proof.
  intros L Ha Hg Hno Hroom Hp Hops.
  destruct (channel_lives lg ptrs guid attrs p ops L Ha Hg Hno Hroom Hp Hops) as (lg' & h & ch & recs & E1 & E2 & E3 & _ & C & L' & Ho).
  exists lg', h, (set_channel lg' p ch), ch, recs. split_and!; try done. cbn. by rewrite lookup_insert_eq.
Qed.

(** A logger without channels, a GUID and the operations of the instances. *)
Definition logger0 : logger :=
  mkLogger (HandleTable.mkTable (HandleTable.mkInfo true 16) 2 (0x42 * 2 ^ 16) 0 [None; None]) ∅.
Definition guid0 : list Z := replicate 16 7.
Definition attrs0 : EVENT_CHANNEL_INFO := mkChannelInfo 16 0 0 512.
Definition event0 (flags size : Z) : EFI_EVENT_DESCRIPTOR :=
  mkDesc (replicate 16 1) (replicate 16 2) 0 0 5 flags 0 size.
Definition ops0 : list chan_op :=
  [CLog (event0 1 4) (Some [1; 2; 3; 4]) 16 (Some [0; 0; 0; 0]) 10 0; CUpdate [9; 9]; CLog (event0 0 8) (Some (replicate 8 3)) 16 (Some (replicate 8 0)) 20 0;
   CCommit 30; CFlush false false (Some (replicate 512 0)) EFI_SUCCESS 40; CReset].

Lemma logger0_rep : logger_rep logger0 [].
Proof.
  constructor; [|done|intros p Hp; inversion Hp]. constructor; try done. exists 0x42. split; [lia|done].
Qed.

Lemma ops0_ok : Forall (chan_op_ok false 512) ops0.
Proof.
  assert (Hlog : forall f n d m now, length d = Z.to_nat n -> 0 <= n <= 256 -> n mod 4 = 0 -> 0 <= now < 2 ^ 32 ->
    Zlength m = n -> chan_op_ok false 512 (CLog (event0 f n) (Some d) 16 (Some m) now 0)).
  { intros f n d m now Hl Hn Ha Hnow Hm. cbn. split_and!; try done; try lia.
    - intros _. exists d. split; [done|]. unfold Zlength. lia.
    - intros _. split_and!; [done|done|]. by intros ? [= <-]. }
  repeat first [apply Forall_cons; split | apply Forall_nil]; try done; try (by apply Hlog);
    (split; [done|]); intros m [= <-]; done.
Qed.

Lemma attrs0_ok : attrs_ok attrs0.
Proof. split; [exists 9; split; [lia|done]|done]. Qed.

Lemma event_channel_refines_log_witness :
  exists lg' h lg'' ch recs,
    EventChannelCreate (B := debug_build) logger0 guid0 (Some attrs0) (Some 4096) = Ok (EFI_SUCCESS, lg', h) /\
    EventChannelCreate (B := debug_build) lg' guid0 None None = Ok (EFI_SUCCESS, lg', h) /\
    logger_run (B := debug_build) lg' h ops0 = Ok (fst (a_run (empty_channel guid0 attrs0) ops0), lg'') /\
    channels lg'' !! 4096 = Some ch /\ chan_rep ch recs [] (snd (a_run (empty_channel guid0 attrs0) ops0)) /\
    logger_rep lg' [4096] /\ forall q, q <> 4096 -> channels lg'' !! q = channels logger0 !! q.
Proof.
  apply (event_channel_refines_log (B := debug_build) logger0 [] guid0 attrs0 4096 ops0);
    [apply logger0_rep|apply attrs0_ok|done|intros q ch Hq; inversion Hq|done|intros Hq; inversion Hq|apply ops0_ok].
Defined.

(** ** Enumeration *)
Section Enumerate.
Context {B : BuildOptions}.

(** The enumerator after the events whose records are [pre]. *)
Definition enum_ok (ch : EVENT_CHANNEL) (pre : list (list Z)) (ctx : EVENT_ENUM_CONTEXT) : Prop :=
  enum_at (Ring ch) pre (RingEnum ctx) /\ Zlength (EnumBuffer ctx) = EnumBufferSize ctx /\ EnumBufferSize ctx <= 2 ^ 31 + 256.

Lemma align_step_bounds x : 0 <= x <= 2 ^ 31 -> x <= align_step x <= x + 255.
Proof.
  intros Hx. unfold align_step, EVENT_ENUM_BUFFER_STEP_SIZE. change (256 - 1) with (Z.ones 8). rewrite Z.land_ones by lia.
  pose proof (Z.mod_pos_bound (u64 (256 - x)) (2 ^ 8)). rewrite u32_small by lia. lia.
Qed.

Lemma with_key_chan ch recs a :
  chan_rep ch recs [] a -> chan_rep (set_Ring (with_key (Ring ch)) ch) recs [] a.
Proof.
  intros [Cid Cr Cs Ckn Cfl Cc Ccs Cst Ck Cl Co Cp]. destruct (with_key_fields (Ring ch)) as (Hk & _).
  constructor; cbn -[with_key]; try done.
  - destruct Cr as [R Hc Ho Hl Ht Hi]. destruct (with_key_geometry (Ring ch)) as (Es & Et & _). constructor; cbn -[with_key] in *.
    + by apply with_key_rep.
    + by rewrite Es.
    + rewrite Ho. unfold with_key, RingBufferCurrentKey. by destruct (HandleKey _ =? 0).
    + rewrite <- Hl. unfold with_key, RingBufferCurrentKey. by destruct (HandleKey _ =? 0).
    + by rewrite Et.
    + done.
  - intros Ho. specialize (Ck Ho). rewrite Hk. unfold key_or_1. destruct (_ =? 0); lia.
  - intros _. rewrite Hk. unfold key_or_1. destruct (Z.eqb_spec (HandleKey (Ring ch)) 0); lia.
  - unfold pend_rep in *. cbn -[with_key]. destruct (a_pend a) as [i|]; [|done].
    replace (with_key (Ring ch)) with (Ring ch); [done|]. unfold with_key, RingBufferCurrentKey.
    rewrite (proj2 (Z.eqb_neq _ _)); [done|]. by apply Cl.
Qed.

(** What enumeration shows of an event. *)
Definition shown (a : achannel) (s : slot) : EFI_EVENT_DESCRIPTOR * list Z :=
  (s_desc s, if has_flag (Flags_ (s_desc s)) EVENT_FLAG_PENDING
             then take (Z.to_nat (DataSize (s_desc s))) (cached a) else default [] (s_data s)).

Definition observed (m : EFI_EVENT_DESCRIPTOR) (data : option (list Z)) : EFI_EVENT_DESCRIPTOR * list Z :=
  (m, take (Z.to_nat (DataSize m)) (default [] data)).
Lemma slot_read s rec :
  slot_rep s rec -> desc_of_bytes (zslice 0 sizeof_EFI_EVENT_DESCRIPTOR rec) = s_desc s.
Proof.
  intros [Hd (raw & -> & _)]. pose proof (Zlength_desc_bytes _ Hd) as Hl.
  rewrite zslice_here by (unfold Zlength, sizeof_EFI_EVENT_DESCRIPTOR in *; lia).
  rewrite <- (app_nil_r (desc_bytes _)). by apply desc_of_bytes_bytes.
Qed.

Lemma slot_read_data s rec d :
  slot_rep s rec -> s_data s = Some d -> zslice sizeof_EFI_EVENT_DESCRIPTOR (DataSize (s_desc s)) rec = d.
Proof.
  intros [Hd (raw & -> & Hr & Hk)] Es. pose proof (Zlength_desc_bytes _ Hd) as Hl. rewrite zslice_skip by (unfold Zlength in Hl; lia).
  unfold Zlength in Hl. rewrite Hl, Z.sub_diag. unfold zslice. rewrite drop_0, take_ge by (unfold Zlength in Hr; lia). by apply Hk.
Qed.

Lemma enum_at_ring ch r pre ctx : enum_ok ch pre ctx -> Ring ch = r -> enum_at r pre (RingEnum ctx).
Proof. intros [? _] <-. done. Qed.

(** The bounce buffer is reallocated when the event's data needs it. *)
Lemma grow_context ctx n :
  0 <= n <= 2 ^ 31 -> Zlength (EnumBuffer ctx) = EnumBufferSize ctx -> EnumBufferSize ctx <= 2 ^ 31 + 256 ->
  exists ctx', (if EnumBufferSize ctx <? n then new_context true (RingEnum ctx) (align_step n) else Some ctx) = Some ctx' /\
    RingEnum ctx' = RingEnum ctx /\ Zlength (EnumBuffer ctx') = EnumBufferSize ctx' /\ n <= EnumBufferSize ctx' <= 2 ^ 31 + 256.
Proof.
  intros Hn H1 H2. pose proof (align_step_bounds n Hn). destruct (Z.ltb_spec (EnumBufferSize ctx) n).
  - eexists. split; [done|]. cbn. split_and!; [done|rewrite Zlength_replicate; lia|lia|lia].
  - eexists. split; [done|]. split_and!; [done|lia|lia|lia].
Qed.

(** One call of the enumeration on an event that is left. *)
Lemma enum_step ch a pre rec post s ctx :
  chan_rep ch (pre ++ rec :: post) [] a -> a_slots a !! length pre = Some s -> enum_ok ch pre ctx ->
  exists ch' ctx' data, event_enumerate ch (Some ctx) true true =
      Ok (EFI_SUCCESS, ch', Some ctx', Some (s_desc s), data) /\
    observed (s_desc s) data = shown a s /\ enum_ok ch' (pre ++ [rec]) ctx' /\ chan_rep ch' (pre ++ rec :: post) [] a.
Proof.
  intros C Hs (He & Hb1 & Hb2). pose proof (with_key_chan _ _ _ C) as C1.
  pose proof (abs_rep _ _ (cr_ring _ _ _ _ C)) as R. cbn in R. rewrite app_nil_r in R.
  destruct (Enumerate_next _ _ _ _ _ R He) as (en' & item & E & Hit & He').
  pose proof (with_key_rep _ _ R) as R1. pose proof (at_facts _ _ _ _ R) as F.
  destruct (Forall2_lookup_l _ _ _ _ _ (cr_slots _ _ _ _ C) Hs) as (rec' & Hrec & Hsr).
  rewrite list_lookup_middle in Hrec by done. injection Hrec as <-. destruct (slot_rep_length _ _ Hsr) as [Hl Hd0].
  unfold event_enumerate. rewrite E, bind_Ok. cbn [EFI_ERROR set_Ring Ring]. unfold sizeof_EFI_EVENT_DESCRIPTOR in Hl.
  rewrite (Io_read _ _ _ _ _ _ _ _ R1 Hit) by (try rewrite Zlength_desc_bytes; unfold sizeof_EFI_EVENT_DESCRIPTOR; done || lia).
  rewrite (proj2 (Z.ltb_ge _ 0)) by lia. cbn zeta. rewrite bind_Ok. cbn [EFI_ERROR].
  rewrite Z.min_l by (unfold sizeof_EFI_EVENT_DESCRIPTOR; lia). rewrite drop_ge, app_nil_r by done.
  rewrite (slot_read _ _ Hsr). destruct (has_flag (Flags_ (s_desc s)) EVENT_FLAG_PENDING) eqn:Ef.
  - pose proof (cr_flags _ _ _ _ C _ _ Hs Ef) as Hp. pose proof (cr_pend _ _ _ _ C) as Cp. unfold pend_rep in Cp.
    rewrite Hp in Cp. destruct Cp as (s' & Hs' & _ & _ & Hsz & _). assert (s' = s) as -> by congruence.
    rewrite ASSERT_holds by (cbn; rewrite (cr_cacheSize _ _ _ _ C); apply Z.leb_le; lia). rewrite bind_Ok.
    do 3 eexists. split; [done|]. split; [|done]. unfold observed, shown. rewrite Ef. cbn. by rewrite (cr_cache _ _ _ _ C).
  - destruct (s_data s) as [d|] eqn:Ed.
    2:{ pose proof (cr_known _ _ _ _ C _ _ Hs Ed) as Hp. pose proof (cr_pend _ _ _ _ C) as Cp. unfold pend_rep in Cp.
        rewrite Hp in Cp. destruct Cp as (s' & Hs' & _ & Efl & _). assert (s' = s) as -> by congruence. by rewrite Efl in Ef. }
    set (ctx1 := mkEnum en' (EnumBufferSize ctx) (EnumBuffer ctx)).
    destruct (grow_context ctx1 (DataSize (s_desc s))) as (ctx2 & -> & Ee & Hb & Hb'); [lia|done|done|].
    rewrite (Io_read _ _ _ _ _ _ _ _ R1 Hit) by (unfold sizeof_EFI_EVENT_DESCRIPTOR; lia).
    rewrite (proj2 (Z.ltb_ge _ _)) by (unfold sizeof_EFI_EVENT_DESCRIPTOR; lia). cbn zeta. rewrite bind_Ok. cbn [EFI_ERROR].
    rewrite Z.min_r by (unfold sizeof_EFI_EVENT_DESCRIPTOR; lia).
    replace (Zlength rec - sizeof_EFI_EVENT_DESCRIPTOR) with (DataSize (s_desc s)) by (unfold sizeof_EFI_EVENT_DESCRIPTOR; lia).
    rewrite (slot_read_data _ _ _ Hsr Ed). rewrite ASSERT_holds by (by apply Z.eqb_eq). rewrite bind_Ok.
    assert (Hdl : Zlength d = DataSize (s_desc s)) by (destruct Hsr as [_ (raw & _ & Hr & Hk)]; by rewrite <- (Hk d Ed)).
    do 3 eexists. split; [done|]. split_and!; [| |done].
    + unfold observed, shown. rewrite Ef, Ed. cbn [default from_option id]. rewrite take_app_le by (unfold Zlength in Hdl; lia).
      by rewrite take_ge by (unfold Zlength in Hdl; lia).
    + split; [cbn -[with_key]; by rewrite Ee|]. cbn -[Z.pow]. rewrite Zlength_app, Zlength_drop; lia.
Qed.
Lemma enum_end ch recs a ctx :
  chan_rep ch recs [] a -> enum_ok ch recs ctx ->
  exists ctx', event_enumerate ch (Some ctx) true true =
    Ok (EFI_NOT_FOUND, set_Ring (Ring ch) ch, Some ctx', None, None).
Proof.
  intros C (He & _). pose proof (abs_rep _ _ (cr_ring _ _ _ _ C)) as R. cbn in R. rewrite app_nil_r in R.
  unfold event_enumerate. rewrite (Enumerate_end _ _ _ R He), bind_Ok. cbn. by eexists.
Qed.

(** A client reading the whole channel: the events it saw and the status that
    ended the enumeration. *)
Fixpoint read_events (fuel : nat) (lg : logger) (h : Z) (en : option EVENT_ENUM_CONTEXT)
  : result (list (EFI_EVENT_DESCRIPTOR * list Z) * EFI_STATUS) :=
  match fuel with
  | O => Fault Diverges
  | S fuel =>
    '(status, lg, en, meta, data) ← EventEnumerate lg h en true true;
    match meta with
    | Some m => '(rest, last) ← read_events fuel lg h en; Ok (observed m data :: rest, last)
    | None => Ok ([], status)
    end
  end.

Lemma read_events_spec fuel lg h p ch a recs pre post en :
  EventChannelFromHandle lg h = Ok (Some p) -> channels lg !! p = Some ch -> chan_rep ch recs [] a ->
  recs = pre ++ post -> (length post < fuel)%nat ->
  (exists ctx, event_enumerate ch en true true = event_enumerate ch (Some ctx) true true /\ enum_ok ch pre ctx) ->
  read_events fuel lg h en = Ok (shown a <$> drop (length pre) (a_slots a), EFI_NOT_FOUND).
Proof.
  revert lg ch pre post en. induction fuel as [|fuel IH]; intros lg ch pre post en Hf Hc C Er Hfu (ctx & Een & Hok); [lia|].
  cbn [read_events]. unfold EventEnumerate. rewrite Hf, bind_Ok. unfold deref. rewrite Hc, bind_Ok, Een. clear Een.
  pose proof (Forall2_length _ _ _ (cr_slots _ _ _ _ C)) as Hlen. subst recs. destruct post as [|rec post].
  - rewrite app_nil_r in *. destruct (enum_end _ _ _ _ C Hok) as (ctx' & ->). rewrite !bind_Ok.
    by rewrite drop_ge by lia.
  - rewrite length_app in Hlen. cbn in Hlen. destruct (lookup_lt_is_Some_2 (a_slots a) (length pre)) as [s Hs]; [lia|].
    destruct (enum_step ch a pre rec post s ctx C Hs Hok) as (ch' & ctx' & data & -> & Eo & Hok' & C'). rewrite !bind_Ok.
    rewrite (IH _ ch' (pre ++ [rec]) post (Some ctx')); [|done|cbn; by rewrite lookup_insert_eq|done| |cbn in Hfu; lia|by exists ctx'].
    2:{ by rewrite <- app_assoc. }
    rewrite bind_Ok, Eo, length_app. cbn [length]. by rewrite (drop_S _ _ _ Hs), Nat.add_1_r.
Qed.
End Enumerate.

(** The whole enumeration of a channel that represents a log; it ends with
    EFI_NOT_FOUND, where the protocol documents EFI_END_OF_FILE. *)
Lemma enumeration_ends_not_found {B : BuildOptions} lg h p ch recs a :
  EventChannelFromHandle lg h = Ok (Some p) -> channels lg !! p = Some ch -> chan_rep ch recs [] a ->
  read_events (S (length (a_slots a))) lg h None = Ok (shown a <$> a_slots a, EFI_NOT_FOUND).
Proof.
  intros Hf Hc C. pose proof (Forall2_length _ _ _ (cr_slots _ _ _ _ C)) as Hl.
  rewrite (read_events_spec _ lg h p ch a recs [] recs None); [by rewrite drop_0|done|done|done|done|lia|].
  exists (mkEnum INVALID_RING_HANDLE EVENT_ENUM_BUFFER_STEP_SIZE (replicate 256 0)). split; [done|]. split; [by left|done].
Qed.

(** C24. Enumeration shows the log.  After any operations within [chan_op_ok] on a
    new channel (the conditions are those of the refinement of the log), a client
    that enumerates the channel with its handle from the start, and whose
    enumerator's allocations succeed, is given every event of the abstract log,
    oldest first, each with its descriptor and data (for the pending event the data
    in the cache, as the client last left it), whatever the sizes; one more call
    gives no event and an error. *)
Theorem enumeration_shows_log {B : BuildOptions} lg ptrs guid attrs p ops :
  logger_rep lg ptrs -> attrs_ok attrs -> length guid = 16%nat ->
  (forall q ch, q ∈ ptrs -> channels lg !! q = Some ch -> Id ch <> guid) ->
  Zlength ptrs < HandleTable.Size (mEventChannels lg) -> p ∉ ptrs ->
  Forall (chan_op_ok (has_flag (ChannelFlags attrs) EVENT_CHANNEL_OVERWRITE_RECORDS) (BufferSize attrs)) ops ->
  let a := snd (a_run (empty_channel guid attrs) ops) in
  exists lg' h lg'' st,
    EventChannelCreate lg guid (Some attrs) (Some p) = Ok (EFI_SUCCESS, lg', h) /\
    logger_run lg' h ops = Ok (fst (a_run (empty_channel guid attrs) ops), lg'') /\
    read_events (S (length (a_slots a))) lg'' h None = Ok (shown a <$> a_slots a, st) /\ EFI_ERROR st = true.
Proof.
  intros L Ha Hg Hno Hroom Hp Hops a.
  destruct (channel_lives lg ptrs guid attrs p ops L Ha Hg Hno Hroom Hp Hops) as (lg' & h & ch & recs & E1 & _ & E3 & Hf & C & _).
  exists lg', h, (set_channel lg' p ch), EFI_NOT_FOUND. split_and!; [done|done| |done].
  apply (enumeration_ends_not_found _ h p ch recs); [done|by apply lookup_insert_eq|done].
Qed.

Lemma enumeration_shows_log_witness :
  exists lg' h lg'' events st,
    EventChannelCreate (B := debug_build) logger0 guid0 (Some attrs0) (Some 4096) = Ok (EFI_SUCCESS, lg', h) /\
    logger_run (B := debug_build) lg' h (take 3 ops0) = Ok (fst (a_run (empty_channel guid0 attrs0) (take 3 ops0)), lg'') /\
    read_events (B := debug_build) 3 lg'' h None = Ok (events, st) /\ snd <$> events = [[9; 9; 3; 4]; replicate 8 3].
Proof.
  destruct (enumeration_shows_log (B := debug_build) logger0 [] guid0 attrs0 4096 (take 3 ops0)) as (lg' & h & lg'' & st & E1 & E2 & E3 & _);
    [apply logger0_rep|apply attrs0_ok|done|intros q ch Hq; inversion Hq|done|intros Hq; inversion Hq|apply Forall_take, ops0_ok|].
  set (a := snd (a_run (empty_channel guid0 attrs0) (take 3 ops0))) in E3.
  assert (Hn : length (a_slots a) = 2%nat) by (vm_compute; reflexivity). rewrite Hn in E3.
  exists lg', h, lg'', (shown a <$> a_slots a), st. split; [exact E1|]. split; [exact E2|]. split; [exact E3|]. vm_compute. reflexivity.
Defined.

(** ** Flushing every channel *)
Section FlushAll.
Context {B : BuildOptions}.
Context (A : Z -> achannel) (env : Z -> flush_env) (emu : bool).

(** The log of the channel at [p], and memory for its message. *)
Definition flushable (lg : logger) (p : Z) : Prop :=
  exists ch recs m, channels lg !! p = Some ch /\ chan_rep ch recs [] (A p) /\
    env_region (env p) = Some m /\ a_cap (A p) <= Zlength m /\ 0 <= env_now (env p) < 2 ^ 64.

Definition flushed (p : Z) : achannel := a_commit true (env_now (env p)) (A p).

Lemma flush_object_spec lg p out :
  flushable lg p ->
  exists ch recs m, flush_object false emu env p (lg, out) = Ok (EFI_SUCCESS, (set_channel lg p ch, out ++ [m])) /\
    chan_rep ch recs [] (add_flushes (flushed p) 1) /\ trim_message m = a_message (flushed p).
Proof.
  intros (ch & recs & m & Hc & C & Hr & Hcap & Hn). unfold flush_object, deref. rewrite Hc, bind_Ok, Hr.
  destruct (flush_rep ch recs (A p) false emu (Some m) (env_visible (env p)) (env_now (env p)) C) as (ch' & recs' & E & C').
  { split; [done|]. by intros ? [= <-]. }
  cbn [chan_step] in E. apply bind_Ok_inv in E as ([[st c] msg] & E & E2). rewrite E, bind_Ok.
  cbn -[a_message a_commit trim_message] in E2.
  destruct msg as [msg|]; [|done]. cbn [option_map] in E2. exists c, recs', msg. unfold flushed.
  remember (trim_message msg) as m1. remember (a_message _) as m2. injection E2 as -> <- <-. done.
Qed.

Lemma flush_all_spec t ps lg out i :
  NoDup ps -> (forall p, p ∈ ps -> flushable lg p) ->
  exists lg' msgs, HandleTable.enum_spec (fun _ p => flush_object false emu env p) t ps i EFI_SUCCESS (lg, out) =
      Ok (EFI_SUCCESS, (lg', out ++ msgs)) /\ mEventChannels lg' = mEventChannels lg /\
    trim_message <$> msgs = (fun p => a_message (flushed p)) <$> ps /\
    (forall p, p ∈ ps -> exists ch recs, channels lg' !! p = Some ch /\ chan_rep ch recs [] (add_flushes (flushed p) 1)) /\
    (forall q, q ∉ ps -> channels lg' !! q = channels lg !! q).
Proof.
  revert lg out i. induction ps as [|p ps IH]; intros lg out i Hnd Hall; cbn [HandleTable.enum_spec].
  - exists lg, []. rewrite app_nil_r. split_and!; try done. intros p Hp. inversion Hp.
  - apply NoDup_cons in Hnd as [Hp Hnd]. destruct (flush_object_spec lg p out) as (ch & recs & m & -> & C & Em).
    { apply Hall. by left. }
    rewrite bind_Ok. cbn [EFI_ERROR].
    destruct (IH (set_channel lg p ch) (out ++ [m]) (i + 1) Hnd) as (lg' & msgs & -> & Et & Ems & Hin & Hout).
    { intros q Hq. destruct (Hall q) as (c & rs & mm & Hc & Hrest); [by right|]. exists c, rs, mm. split; [|done].
      cbn. rewrite lookup_insert_ne; [done|]. by intros ->. }
    exists lg', (m :: msgs). rewrite <- app_assoc. split_and!; [done|done|cbn; by rewrite Em, Ems| |].
    + intros q Hq. apply elem_of_cons in Hq as [->|Hq]; [|by apply Hin]. exists ch, recs. split; [|done].
      rewrite Hout by done. cbn. by rewrite lookup_insert_eq.
    + intros q Hq. rewrite Hout by (intros ?; apply Hq; by right). cbn. apply lookup_insert_ne. intros ->. apply Hq. by left.
Qed.
End FlushAll.

(** Flushing with the invalid handle writes to the host, for every
    channel in the order of creation, one message that carries the channel's
    GUID, its counters and exactly the bytes of all its events, a pending one
    being committed as incomplete; all events stay in the channels. *)
Lemma flush_all_messages {B : BuildOptions} lg ptrs A env emu :
  logger_rep lg ptrs -> NoDup ptrs -> (forall p, p ∈ ptrs -> flushable A env lg p) ->
  exists lg' msgs, EventChannelFlush lg INVALID_EVENT_HANDLE false emu env = Ok (EFI_SUCCESS, (lg', msgs)) /\
    trim_message <$> msgs = (fun p => a_message (flushed A env p)) <$> ptrs /\
    forall p, p ∈ ptrs -> exists ch recs, channels lg' !! p = Some ch /\ chan_rep ch recs [] (add_flushes (flushed A env p) 1).
Proof.
  intros L Hnd Hall. unfold EventChannelFlush. rewrite Z.eqb_refl, (HandleTable.Enumerate_spec _ _ ptrs) by apply L.
  destruct (flush_all_spec A env emu (mEventChannels lg) ptrs lg [] 0 Hnd Hall) as (lg' & msgs & -> & _ & Em & Hin & _).
  by exists lg', msgs.
Qed.

(** [EventChannelCreate] lets a buffer size of 4 through its own checks
    although the ring needs at least 5 bytes.  In a build without assertions it
    reports EFI_INVALID_PARAMETER but has registered the channel: the same
    GUID is then opened with success, and the handle leads to a channel whose
    ring was never initialised (its size is 0).  A debug build stops in the
    assertion. *)
Lemma create_small_buffer_registered :
  let attrs := mkChannelInfo 16 0 0 4 in
  EventChannelCreate (B := debug_build) logger0 guid0 (Some attrs) (Some 4096) = Fault AssertFailed /\
  exists lg h ch, EventChannelCreate (B := release_build) logger0 guid0 (Some attrs) (Some 4096) = Ok (EFI_INVALID_PARAMETER, lg, h) /\
    EventChannelCreate (B := release_build) lg guid0 None None = Ok (EFI_SUCCESS, lg, h) /\
    EventChannelFromHandle lg h = Ok (Some 4096) /\ channels lg !! 4096 = Some ch /\ EfiRing.Size (Ring ch) = 0.
Proof.
  split; [vm_compute; reflexivity|]. do 3 eexists. split; [vm_compute; reflexivity|].
  split; [vm_compute; reflexivity|]. split; [vm_compute; reflexivity|]. split; vm_compute; reflexivity.
Qed.

(** A channel of 256 bytes that overwrites, and four events of which the
    second is pending; the fourth drops the first. *)
Definition over_attrs : EVENT_CHANNEL_INFO := mkChannelInfo 16 EVENT_CHANNEL_OVERWRITE_RECORDS 0 256.
Definition over_ops : list chan_op :=
  (fun i => CLog (event0 (if i =? 2 then 1 else 0) 4) (Some (replicate 4 i)) 16 (Some (replicate 4 0)) i 0) <$> [1; 2; 3; 4].
Definition over_run (B : BuildOptions) (ops : list chan_op)
  : result (list EFI_STATUS * (EFI_STATUS * option Z)) :=
  '(_, lg, h) ← EventChannelCreate logger0 guid0 (Some over_attrs) (Some 4096);
  '(outs, lg) ← logger_run lg h (over_ops ++ ops);
  '(status, _, _, meta, _) ← EventEnumerate lg h None true true;
  Ok (map fst outs, (status, option_map Flags_ meta)).

(** On a channel that overwrites, dropping any event invalidates the
    handle of the pending one although its record stays in the log.  Then the
    commit reports EFI_NOT_FOUND and the event, now the oldest, keeps its
    pending flag for good; a flush, which ignores the failing commit, stops in
    an assertion in a debug build and otherwise reports success with the
    event still flagged pending. *)
Lemma overwrite_strands_pending :
  let flush := CFlush false false (Some (replicate 256 0)) EFI_SUCCESS 9 in
  let ok := replicate 4 EFI_SUCCESS in
  over_run debug_build [CCommit 9] = Ok (ok ++ [EFI_NOT_FOUND], (EFI_SUCCESS, Some EVENT_FLAG_PENDING)) /\
  over_run debug_build [flush] = Fault AssertFailed /\
  over_run release_build [flush] = Ok (ok ++ [EFI_SUCCESS], (EFI_SUCCESS, Some EVENT_FLAG_PENDING)).
Proof. split_and!; vm_compute; reflexivity. Qed.
