(* ===== verification/EmclPacket.v ===== *)
(** The packets EMCL builds: [MsvmPkg/EmclDxe/Emcl.c], from [EmclGpaRangesSize]
    to [EmclWriteGpaDirectPacket] and the first case of [EmclpSendPacket], with the packed structures of
    [Include/Vmbus/VmbusPacketFormat.h].  A packet under construction is the
    list of its bytes; fields are stored at their offsets, bounds-checked. *)
From stdpp Require Import base list numbers list_numbers option.
From Stdlib Require Import ZArith Lia.
From S2P Require Import Prelude Circular PkRing.
Open Scope Z_scope.

Module EmclPacket.
Import PkRing.

Definition EFI_PAGE_MASK : Z := 4095.
Definition EFI_PAGE_SHIFT : Z := 12.

(** [Buffer] is the guest-physical (identity-mapped) address. *)
Record EFI_EXTERNAL_BUFFER := mkExternal { Buffer : Z; BufferSize : Z }.
#[global] Instance EFI_EXTERNAL_BUFFER_eq_dec : EqDecision EFI_EXTERNAL_BUFFER.
Proof. solve_decision. Defined.

Definition VmbusPacketTypeDataInBand : Z := 6.
Definition VmbusPacketTypeDataUsingTransferPages : Z := 7.
Definition VmbusPacketTypeDataUsingGpaDirect : Z := 9.
Definition VmbusPacketTypeCompletion : Z := 11.
Definition VMBUS_DATA_PACKET_FLAG_COMPLETION_REQUESTED : Z := 1.
Definition VmPipeMessageData : Z := 1.
Definition VmPipeMessageSetupGpaDirect : Z := 3.
Definition VmPipeMessageTeardownGpaDirect : Z := 4.

(** ** Layout of the packed structures *)
Definition off_Type : Z := 0.
Definition off_DataOffset8 : Z := 2.
Definition off_Length8 : Z := 4.
Definition off_Flags : Z := 6.
Definition off_TransactionId : Z := 8.
Definition off_GPA_RangeCount : Z := 20.
Definition off_GPA_Range : Z := 24.
Definition off_TransferPageSetId : Z := 16.
Definition off_Transfer_RangeCount : Z := 20.
Definition off_Transfer_Ranges : Z := 24.
Definition sizeof_VMTRANSFER_PAGE_RANGE : Z := 8.
Definition sizeof_VMPIPE_PROTOCOL_HEADER : Z := 8.
Definition off_Setup_IsWritable : Z := 4.
Definition off_Setup_RangeCount : Z := 5.
Definition off_Setup_Range : Z := 9.
Definition sizeof_TEARDOWN : Z := 4.

(** Storing and loading an [n]-byte little-endian field. *)
Definition store (n : nat) (buf : list Z) (off v : Z) : result (list Z) := mem_write buf off (le_split n v).
Definition load (n : nat) (buf : list Z) (off : Z) : result Z :=
  bs ← mem_read buf off (Z.of_nat n); Ok (le_combine bs).

(** [ALIGN_VALUE (x, EFI_PAGE_SIZE)] on [UINTN]. *)
Definition ALIGN_PAGE (x : Z) : Z := x + Z.land (u64 (EFI_PAGE_SIZE - x)) EFI_PAGE_MASK.

Definition ADDRESS_AND_SIZE_TO_SPAN_PAGES (Addr Size : Z) : Z :=
  Z.shiftr (ALIGN_PAGE (Z.land Addr EFI_PAGE_MASK + Size)) EFI_PAGE_SHIFT.

(** [VARIABLE_STRUCT_SIZE (GPA_RANGE, PfnArray, n)]. *)
Definition gpa_range_size (n : Z) : Z := 8 + 8 * n.

(** ** GPA ranges *)
Fixpoint ranges_size (headerSize : Z) (ExternalBuffers : list EFI_EXTERNAL_BUFFER) : Z :=
  match ExternalBuffers with
  | [] => headerSize
  | b :: bs =>
    ranges_size (u32 (headerSize + gpa_range_size (ADDRESS_AND_SIZE_TO_SPAN_PAGES (Buffer b) (BufferSize b)))) bs
  end.

Definition EmclGpaRangesSize (ExternalBuffers : list EFI_EXTERNAL_BUFFER) : Z := ranges_size 0 ExternalBuffers.

(** The inner loop: [n] page numbers from [pfnIndex] on, at [Range->PfnArray]. *)
Fixpoint write_pfns (buf : list Z) (Range Addr pfnIndex : Z) (n : nat) : result (list Z) :=
  match n with
  | O => Ok buf
  | S n =>
    buf ← store 8 buf (Range + 8 + 8 * pfnIndex) (u64 (Z.shiftr Addr EFI_PAGE_SHIFT + pfnIndex));
    write_pfns buf Range Addr (pfnIndex + 1) n
  end.

(** [Range] is an offset into the buffer. *)
Fixpoint EmclpInitializeGpaRanges (buf : list Z) (Range : Z) (ExternalBuffers : list EFI_EXTERNAL_BUFFER)
  : result (list Z) :=
  match ExternalBuffers with
  | [] => Ok buf
  | b :: bs =>
    buf ← store 4 buf Range (BufferSize b);
    buf ← store 4 buf (Range + 4) (Z.land (Buffer b) EFI_PAGE_MASK);
    let pfnCount := u32 (ADDRESS_AND_SIZE_TO_SPAN_PAGES (Buffer b) (BufferSize b)) in
    buf ← write_pfns buf Range (Buffer b) 0 (Z.to_nat pfnCount);
    EmclpInitializeGpaRanges buf (Range + gpa_range_size pfnCount) bs
  end.

(** ** GPA direct packets *)

(** The descriptor of a GPA direct packet, as both writers fill it in. *)
Definition write_gpa_descriptor (OutputBuffer : list Z) (headerSize InlineBufferLength TransactionId : Z)
  (RequestCompletion : bool) (RangeCount : Z) : result (list Z) :=
  buf ← store 2 OutputBuffer off_Type VmbusPacketTypeDataUsingGpaDirect;
  buf ← store 2 buf off_DataOffset8 (u16 (headerSize / 8));
  buf ← store 2 buf off_Length8 (u16 (ALIGN_UP (u32 (headerSize + InlineBufferLength)) / 8));
  buf ← store 2 buf off_Flags (if RequestCompletion then VMBUS_DATA_PACKET_FLAG_COMPLETION_REQUESTED else 0);
  buf ← store 8 buf off_TransactionId TransactionId;
  store 4 buf off_GPA_RangeCount RangeCount.

Definition EmclWriteGpaDirectPacket (InlineBuffer : list Z) (InlineBufferLength : Z)
  (ExternalBuffers : list EFI_EXTERNAL_BUFFER) (TransactionId : Z) (RequestCompletion : bool)
  (OutputBuffer : list Z) : result (list Z) :=
  let headerSize := u32 (off_GPA_Range + EmclGpaRangesSize ExternalBuffers) in
  buf ← write_gpa_descriptor OutputBuffer headerSize InlineBufferLength TransactionId RequestCompletion
          (Zlength ExternalBuffers);
  buf ← EmclpInitializeGpaRanges buf off_GPA_Range ExternalBuffers;
  CopyMem buf headerSize InlineBuffer 0 InlineBufferLength.

(** ** In-band and completion packets: the first case of [EmclpSendPacket]. *)
Definition write_inline_packet (IsPipe : bool) (PacketType PipePacketType TransactionId : Z)
  (RequestCompletion : bool) (InlineBuffer : list Z) (InlineBufferLength packetSize : Z) (packetBuffer : list Z)
  : result (list Z) :=
  buf ← store 2 packetBuffer off_Type PacketType;
  buf ← store 2 buf off_DataOffset8 (u16 (sizeof_VMPACKET_DESCRIPTOR / 8));
  buf ← store 2 buf off_Flags (if RequestCompletion then VMBUS_DATA_PACKET_FLAG_COMPLETION_REQUESTED else 0);
  buf ← store 2 buf off_Length8 (u16 (ALIGN_UP packetSize / 8));
  buf ← store 8 buf off_TransactionId TransactionId;
  if IsPipe then
    let pipeHeader := sizeof_VMPACKET_DESCRIPTOR in
    buf ← store 4 buf (pipeHeader + 4) InlineBufferLength;
    buf ← store 4 buf pipeHeader PipePacketType;
    CopyMem buf (pipeHeader + sizeof_VMPIPE_PROTOCOL_HEADER) InlineBuffer 0 InlineBufferLength
  else CopyMem buf sizeof_VMPACKET_DESCRIPTOR InlineBuffer 0 InlineBufferLength.

(** The body of [EmclCreateGpaRange]'s message and of [EmclDestroyGpaRange]'s. *)
Definition setup_message (Handle : Z) (ExternalBuffers : list EFI_EXTERNAL_BUFFER) (Writable : bool)
  (setupMessage : list Z) : result (list Z) :=
  buf ← store 4 setupMessage 0 Handle;
  buf ← store 1 buf off_Setup_IsWritable (if Writable then 1 else 0);
  buf ← store 4 buf off_Setup_RangeCount (Zlength ExternalBuffers);
  EmclpInitializeGpaRanges buf off_Setup_Range ExternalBuffers.

Definition teardown_message (Handle : Z) : list Z := le_split 4 Handle.

End EmclPacket.
