(* ===== verification/EmclPacketProps.v ===== *)
(** What the packets of [EmclPacket] contain: their bytes in closed form, that
    they fit the buffer allocated for them, and that the page numbers of a GPA
    range designate exactly the client's buffer. *)
From stdpp Require Import base list numbers list_numbers option.
From Stdlib Require Import ZArith Lia.
From S2P Require Import Prelude Circular PkRing PkRingSafe PkRingFifo EmclPacket.
Open Scope Z_scope.
Import PkRing EmclPacket.

(** ** Overwriting a part of a buffer *)
Lemma mem_write_prefix p old r bs off :
  off = Zlength p -> Zlength old = Zlength bs -> mem_write (p ++ old ++ r) off bs = Ok (p ++ bs ++ r).
Proof.
  intros -> Hl. pose proof (Zlength_nonneg p). pose proof (Zlength_nonneg bs). pose proof (Zlength_nonneg r).
  unfold mem_write. rewrite in_bounds_true by (rewrite ?Zlength_app; lia).
  rewrite take_app_length' by (unfold Zlength; lia). do 3 f_equal. rewrite app_assoc.
  apply drop_app_length'. unfold Zlength in *. rewrite length_app. lia.
Qed.

Lemma split_at (l : list Z) n : 0 <= n <= Zlength l -> l = take (Z.to_nat n) l ++ drop (Z.to_nat n) l.
Proof. intros. by rewrite take_drop. Qed.

(** A buffer whose first bytes are known: [n] more are written. *)
Lemma mem_write_tail p r bs off :
  off = Zlength p -> Zlength bs <= Zlength r ->
  mem_write (p ++ r) off bs = Ok (p ++ bs ++ drop (length bs) r).
Proof.
  intros -> Hl. rewrite <- (take_drop (length bs) r) at 1. apply mem_write_prefix; [done|].
  unfold Zlength in *. rewrite length_take. lia.
Qed.

Lemma CopyMem_tail p r src n off :
  off = Zlength p -> 0 <= n <= Zlength src -> n <= Zlength r ->
  CopyMem (p ++ r) off src 0 n = Ok (p ++ take (Z.to_nat n) src ++ drop (Z.to_nat n) r).
Proof.
  intros Ho Hs Hr. unfold CopyMem, mem_read. rewrite in_bounds_true by lia. rewrite bind_Ok.
  unfold zslice. change (drop (Z.to_nat 0) src) with src. assert (E : Zlength (take (Z.to_nat n) src) = n) by (by apply Zlength_take).
  rewrite mem_write_tail by lia. do 3 f_equal. f_equal. unfold Zlength in E. lia.
Qed.

(** The copy that fills the rest of a buffer. *)
Lemma CopyMem_exact p r src off :
  off = Zlength p -> Zlength r = Zlength src -> CopyMem (p ++ r) off src 0 (Zlength src) = Ok (p ++ src).
Proof.
  intros Ho Hr. pose proof (Zlength_nonneg src). rewrite CopyMem_tail by (done || lia).
  rewrite (firstn_all2 (n := Z.to_nat (Zlength src))) by (unfold Zlength; lia).
  rewrite (skipn_all2 (n := Z.to_nat (Zlength src))) by (unfold Zlength in *; lia). by rewrite app_nil_r.
Qed.

(** ** Spanned pages *)
Lemma ALIGN_PAGE_spec x : 0 <= x < 2 ^ 33 -> ALIGN_PAGE x = 4096 * ((x + 4095) / 4096).
Proof.
  intros H. unfold ALIGN_PAGE, EFI_PAGE_SIZE, EFI_PAGE_MASK. change 4095 with (Z.ones 12) at 1.
  rewrite land_low_mask by lia. unfold u64. rewrite Z.mod_mod_divide by (by exists (2 ^ 52)). zlia.
Qed.

Lemma span_spec a n : 0 <= n < 2 ^ 32 ->
  ADDRESS_AND_SIZE_TO_SPAN_PAGES a n = (a mod 4096 + n + 4095) / 4096.
Proof.
  intros Hn. unfold ADDRESS_AND_SIZE_TO_SPAN_PAGES, EFI_PAGE_MASK, EFI_PAGE_SHIFT.
  change 4095 with (Z.ones 12) at 1. rewrite land_low_mask by lia. change (2 ^ 12) with 4096.
  pose proof (Z.mod_pos_bound a 4096 ltac:(lia)).
  rewrite ALIGN_PAGE_spec, Z.shiftr_div_pow2, (Z.mul_comm 4096) by lia. by rewrite Z.div_mul by lia.
Qed.

Definition external_ok (b : EFI_EXTERNAL_BUFFER) : Prop :=
  0 <= Buffer b /\ Buffer b + BufferSize b < 2 ^ 64 /\ 0 <= BufferSize b < 2 ^ 32.

(** Number of pages of a buffer. *)
Definition pages_of (b : EFI_EXTERNAL_BUFFER) : Z := (Buffer b mod 4096 + BufferSize b + 4095) / 4096.

Lemma pages_of_bound b : external_ok b -> 0 <= pages_of b <= 2 ^ 20 + 1.
Proof. intros (H1 & H2 & H3). unfold pages_of. zlia. Qed.

Lemma span_pages b : external_ok b -> ADDRESS_AND_SIZE_TO_SPAN_PAGES (Buffer b) (BufferSize b) = pages_of b.
Proof. intros (H1 & H2 & H3). by apply span_spec. Qed.

(** ** GPA ranges *)
Definition range_bytes (b : EFI_EXTERNAL_BUFFER) (pfns : list Z) : list Z :=
  le_split 4 (BufferSize b) ++ le_split 4 (Buffer b mod 4096) ++ concat (le_split 8 <$> pfns).

Definition direct_pfns (b : EFI_EXTERNAL_BUFFER) : list Z := seqZ (Buffer b / 4096) (pages_of b).

Definition ranges_bytes (bs : list EFI_EXTERNAL_BUFFER) : list Z :=
  concat ((fun b => range_bytes b (direct_pfns b)) <$> bs).

Lemma Zlength_pfn_bytes pfns : Zlength (concat (le_split 8 <$> pfns)) = 8 * Zlength pfns.
Proof.
  induction pfns as [|v l IH]; [done|]. rewrite fmap_cons. cbn [concat]. rewrite Zlength_app, IH, Zlength_le_split.
  unfold Zlength. cbn [length]. lia.
Qed.

Lemma Zlength_range_bytes b pfns : Zlength (range_bytes b pfns) = 8 + 8 * Zlength pfns.
Proof. unfold range_bytes. rewrite !Zlength_app, !Zlength_le_split, Zlength_pfn_bytes. lia. Qed.

Lemma Zlength_direct_pfns b : external_ok b -> Zlength (direct_pfns b) = pages_of b.
Proof. intros H. pose proof (pages_of_bound b H). unfold direct_pfns, Zlength. rewrite length_seqZ. lia. Qed.

Lemma ranges_size_spec bs : Forall external_ok bs -> forall h, 0 <= h -> h + Zlength (ranges_bytes bs) < 2 ^ 32 ->
  ranges_size h bs = h + Zlength (ranges_bytes bs).
Proof.
  unfold ranges_bytes. induction 1 as [|b bs Hb _ IH]; intros h Hh; rewrite ?fmap_nil, ?fmap_cons; cbn [concat ranges_size].
  - intros _. unfold Zlength. cbn. lia.
  - rewrite Zlength_app, Zlength_range_bytes, Zlength_direct_pfns by done. intros Hs.
    pose proof (pages_of_bound b Hb). pose proof (Zlength_nonneg (concat ((fun b => range_bytes b (direct_pfns b)) <$> bs))).
    rewrite span_pages by done. unfold gpa_range_size. rewrite u32_small by lia. rewrite IH by lia. lia.
Qed.

Lemma EmclGpaRangesSize_spec bs : Forall external_ok bs -> Zlength (ranges_bytes bs) < 2 ^ 32 ->
  EmclGpaRangesSize bs = Zlength (ranges_bytes bs).
Proof. intros. unfold EmclGpaRangesSize. rewrite ranges_size_spec by (done || lia). lia. Qed.

Lemma store_tail n p r off v : off = Zlength p -> Z.of_nat n <= Zlength r ->
  store n (p ++ r) off v = Ok ((p ++ le_split n v) ++ drop n r).
Proof.
  intros -> Hn. unfold store. rewrite mem_write_tail by (try rewrite Zlength_le_split; done).
  by rewrite length_le_split, app_assoc.
Qed.

Lemma write_pfns_spec p a i n r range :
  0 <= a < 2 ^ 64 -> 0 <= i -> a / 4096 + i + Z.of_nat n <= 2 ^ 64 -> Zlength p = range + 8 + 8 * i ->
  8 * Z.of_nat n <= Zlength r ->
  write_pfns (p ++ r) range a i n =
    Ok ((p ++ concat (le_split 8 <$> seqZ (a / 4096 + i) (Z.of_nat n))) ++ drop (8 * n) r).
Proof.
  revert p i r. induction n as [|n IH]; intros p i r Ha Hi Hv Hp Hr; cbn [write_pfns].
  { cbn. by rewrite app_nil_r. }
  unfold EFI_PAGE_SHIFT. rewrite Z.shiftr_div_pow2 by lia. change (2 ^ 12) with 4096.
  assert (0 <= a / 4096) by (apply Z.div_pos; lia).
  assert (E : u64 (a / 4096 + i) = a / 4096 + i) by (apply Z.mod_small; lia). rewrite E.
  rewrite store_tail, bind_Ok by lia. rewrite IH; try lia.
  - rewrite (seqZ_cons (a / 4096 + i)) by lia. rewrite fmap_cons. cbn [concat]. rewrite <- !app_assoc, drop_drop.
    replace (Z.succ (a / 4096 + i)) with (a / 4096 + (i + 1)) by lia.
    replace (Z.pred (Z.of_nat (S n))) with (Z.of_nat n) by lia. do 4 f_equal. f_equal. lia.
  - rewrite Zlength_app, Zlength_le_split. lia.
  - unfold Zlength in *. rewrite length_drop. lia.
Qed.

Lemma land_mask a : Z.land a EFI_PAGE_MASK = a mod 4096.
Proof. unfold EFI_PAGE_MASK. change 4095 with (Z.ones 12). by rewrite land_low_mask by lia. Qed.

Lemma pfn_range b : external_ok b -> Buffer b / 4096 + pages_of b <= 2 ^ 64.
Proof. intros (H1 & H2 & H3). unfold pages_of. zlia. Qed.

Lemma init_ranges_spec bs : Forall external_ok bs -> forall p r range,
  Zlength p = range -> Zlength (ranges_bytes bs) <= Zlength r ->
  EmclpInitializeGpaRanges (p ++ r) range bs =
    Ok ((p ++ ranges_bytes bs) ++ drop (length (ranges_bytes bs)) r).
Proof.
  unfold ranges_bytes.
  induction 1 as [|b bs Hb _ IH]; intros p r range Hp Hr; rewrite ?fmap_nil, ?fmap_cons in *; cbn [EmclpInitializeGpaRanges concat] in *.
  { cbn. by rewrite app_nil_r. }
  pose proof (pages_of_bound b Hb) as Hpg. pose proof (pfn_range b Hb).
  rewrite Zlength_app, Zlength_range_bytes, Zlength_direct_pfns in Hr by done.
  set (rest := concat ((fun b => range_bytes b (direct_pfns b)) <$> bs)) in *. pose proof (Zlength_nonneg rest).
  assert (Hd : forall k, Z.of_nat k <= Zlength r -> Zlength (drop k r) = Zlength r - Z.of_nat k).
  { intros k Hk. unfold Zlength in *. rewrite length_drop. lia. }
  rewrite store_tail, bind_Ok by lia.
  rewrite store_tail, bind_Ok by (rewrite ?Zlength_app, ?Zlength_le_split, ?Hd; lia).
  rewrite span_pages, u32_small, land_mask, drop_drop by (done || lia).
  rewrite write_pfns_spec; rewrite ?Zlength_app, ?Zlength_le_split, ?Hd by lia; try lia; [|destruct Hb; lia].
  rewrite bind_Ok. unfold gpa_range_size. rewrite Z.add_0_r, Z2Nat.id by lia.
  replace (((p ++ le_split 4 (BufferSize b)) ++ le_split 4 (Buffer b mod 4096)) ++
    concat (le_split 8 <$> seqZ (Buffer b / 4096) (pages_of b))) with (p ++ range_bytes b (direct_pfns b))
    by (unfold range_bytes; by rewrite <- !app_assoc).
  rewrite drop_drop, IH.
  - rewrite <- !app_assoc, drop_drop. do 4 f_equal. f_equal. rewrite length_app.
    pose proof (Zlength_range_bytes b (direct_pfns b)). rewrite Zlength_direct_pfns in * by done. unfold Zlength in *. lia.
  - rewrite Zlength_app, Zlength_range_bytes, Zlength_direct_pfns by done. lia.
  - rewrite Hd by lia. lia.
Qed.

(** ** Whole packets *)
Definition descriptor (Type_ DataOffset8 Length8 Flags TransactionId : Z) : list Z :=
  le_split 2 Type_ ++ le_split 2 DataOffset8 ++ le_split 2 Length8 ++ le_split 2 Flags ++ le_split 8 TransactionId.

Definition flags_of (RequestCompletion : bool) : Z := if RequestCompletion then 1 else 0.

(** A GPA direct packet with the given ranges, [n] of them. *)
Definition gpa_packet (n : Z) (ranges : list Z) (rc : bool) (tid : Z) (inline : list Z) : list Z :=
  descriptor 9 ((24 + Zlength ranges) / 8) ((24 + Zlength ranges + Zlength inline + 7) / 8) (flags_of rc) tid ++
  replicate 4 0 ++ le_split 4 n ++ ranges ++ inline.

(** An in-band or completion packet; [pipe] is the pipe message type. *)
Definition inline_packet (pipe : option Z) (ty : Z) (rc : bool) (tid : Z) (inline : list Z) : list Z :=
  let body := match pipe with
    | Some m => le_split 4 m ++ le_split 4 (Zlength inline) ++ inline
    | None => inline
    end in
  descriptor ty 2 ((16 + Zlength body + 7) / 8) (flags_of rc) tid ++ body.

(** A buffer seen as a sequence of fields, one of which is stored. *)
Lemma store_field k n fs off v :
  off = Zlength (concat (take k fs)) -> length <$> fs !! k = Some n ->
  store n (concat fs) off v = Ok (concat (<[k := le_split n v]> fs)).
Proof.
  intros Ho Hk. destruct (fs !! k) as [f|] eqn:E; [|done]. injection Hk as Hk.
  rewrite insert_take_drop by (by eapply lookup_lt_Some).
  rewrite <- (take_drop_middle fs k f E) at 1. rewrite !concat_app. cbn [concat]. unfold store.
  apply mem_write_prefix; [done|]. rewrite Zlength_le_split. unfold Zlength. lia.
Qed.

Definition blank_fields (ns : list nat) (r : list Z) : list (list Z) := ((fun n => replicate n 0) <$> ns) ++ [r].

Lemma blank_split ns k m : k = Z.of_nat (sum_list ns) -> 0 <= m ->
  replicate (Z.to_nat (k + m)) 0 = concat (blank_fields ns (replicate (Z.to_nat m) 0)).
Proof.
  intros -> Hm. unfold blank_fields. rewrite concat_app. cbn [concat]. rewrite app_nil_r.
  rewrite Z2Nat.inj_add, Nat2Z.id, replicate_add by lia. f_equal.
  induction ns as [|n ns IH]; [done|]. rewrite fmap_cons. cbn [concat sum_list]. by rewrite replicate_add, IH.
Qed.

Lemma ALIGN_words x : 0 <= x < 2 ^ 19 - 8 -> u16 (ALIGN_UP x / 8) = (x + 7) / 8.
Proof.
  intros H. rewrite ALIGN_UP_spec by lia. rewrite (Z.mul_comm 8), Z.div_mul by lia. apply Z.mod_small. zlia.
Qed.

(** Sizes up to [2^19 - 8] fit the 16-bit count of 64-bit words. *)
Lemma gpa_descriptor_spec h n tid rc rcount m :
  24 <= h -> 0 <= n -> h + n < 2 ^ 19 - 8 -> h mod 8 = 0 -> 0 <= m ->
  write_gpa_descriptor (replicate (Z.to_nat (24 + m)) 0) h n tid rc rcount =
    Ok (descriptor 9 (h / 8) ((h + n + 7) / 8) (flags_of rc) tid ++ replicate 4 0 ++ le_split 4 rcount ++
        replicate (Z.to_nat m) 0).
Proof.
  intros Hh Hn Hs H8 Hm. unfold write_gpa_descriptor. rewrite u32_small, ALIGN_words by lia.
  replace (u16 (h / 8)) with (h / 8) by (symmetry; apply Z.mod_small; zlia).
  rewrite (blank_split [2; 2; 2; 2; 8; 4; 4]%nat 24 m eq_refl Hm). unfold blank_fields. cbn [fmap list_fmap app].
  rewrite (store_field 0), bind_Ok by reflexivity. cbn [insert list_insert].
  rewrite (store_field 1), bind_Ok by reflexivity. cbn [insert list_insert].
  rewrite (store_field 2), bind_Ok by reflexivity. cbn [insert list_insert].
  rewrite (store_field 3), bind_Ok by reflexivity. cbn [insert list_insert].
  rewrite (store_field 4), bind_Ok by reflexivity. cbn [insert list_insert].
  rewrite (store_field 6) by reflexivity. cbn [insert list_insert concat].
  unfold descriptor. rewrite <- !app_assoc, app_nil_r. by destruct rc.
Qed.

Lemma Zlength_ranges_align bs : Forall external_ok bs -> Zlength (ranges_bytes bs) mod 8 = 0.
Proof.
  unfold ranges_bytes. induction 1 as [|b bs Hb _ IH]; [done|]. rewrite fmap_cons. cbn [concat].
  rewrite Zlength_app, Zlength_range_bytes. zlia.
Qed.

Lemma Zlength_descriptor t o l f i : Zlength (descriptor t o l f i) = 16.
Proof. reflexivity. Qed.

(** The size [EmclpSendPacket] allocates for a GPA direct packet is exactly the
    size of the packet that is written. *)
Lemma EmclWriteGpaDirectPacket_spec inline bs tid rc :
  Forall external_ok bs -> 24 + Zlength (ranges_bytes bs) + Zlength inline < 2 ^ 19 - 8 ->
  EmclWriteGpaDirectPacket inline (Zlength inline) bs tid rc
    (replicate (Z.to_nat (24 + Zlength (ranges_bytes bs) + Zlength inline)) 0) =
    Ok (gpa_packet (Zlength bs) (ranges_bytes bs) rc tid inline).
Proof.
  intros Hb Hs. pose proof (Zlength_nonneg (ranges_bytes bs)). pose proof (Zlength_nonneg inline).
  pose proof (Zlength_ranges_align bs Hb).
  unfold EmclWriteGpaDirectPacket, off_GPA_Range. rewrite EmclGpaRangesSize_spec, u32_small by (done || lia).
  rewrite <- Z.add_assoc, gpa_descriptor_spec, bind_Ok by (lia || zlia). rewrite !app_assoc.
  rewrite init_ranges_spec, bind_Ok; [|done|by rewrite !Zlength_app, Zlength_descriptor, Zlength_le_split|].
  2:{ rewrite Zlength_replicate by lia. lia. }
  rewrite CopyMem_exact; [|by rewrite !Zlength_app, Zlength_descriptor, Zlength_le_split|].
  - unfold gpa_packet. by rewrite <- !app_assoc.
  - rewrite drop_replicate. unfold Zlength. rewrite length_replicate. unfold Zlength in *. lia.
Qed.

Lemma write_inline_packet_spec isPipe ty pty tid rc inline :
  let size := 16 + (if isPipe : bool then 8 else 0) + Zlength inline in
  size < 2 ^ 19 - 8 ->
  write_inline_packet isPipe ty pty tid rc inline (Zlength inline) size (replicate (Z.to_nat size) 0) =
    Ok (inline_packet (if isPipe then Some pty else None) ty rc tid inline).
Proof.
  intros size Hs. pose proof (Zlength_nonneg inline). unfold write_inline_packet. rewrite ALIGN_words by (destruct isPipe; lia).
  change (u16 (sizeof_VMPACKET_DESCRIPTOR / 8)) with 2.
  destruct isPipe; subst size; [rewrite (blank_split [2; 2; 2; 2; 8; 4; 4]%nat) by done|
    rewrite (blank_split [2; 2; 2; 2; 8]%nat) by done]; unfold blank_fields; cbn [fmap list_fmap app];
  rewrite (store_field 0), bind_Ok by reflexivity; cbn [insert list_insert];
  rewrite (store_field 1), bind_Ok by reflexivity; cbn [insert list_insert];
  rewrite (store_field 3), bind_Ok by reflexivity; cbn [insert list_insert];
  rewrite (store_field 2), bind_Ok by reflexivity; cbn [insert list_insert];
  rewrite (store_field 4), bind_Ok by reflexivity; cbn [insert list_insert].
  - rewrite (store_field 6), bind_Ok by reflexivity; cbn [insert list_insert].
    rewrite (store_field 5), bind_Ok by reflexivity; cbn [insert list_insert concat].
    rewrite app_nil_r, !app_assoc, CopyMem_exact by (rewrite ?Zlength_replicate; reflexivity || lia).
    unfold inline_packet, descriptor. rewrite !Zlength_app, !Zlength_le_split, <- !app_assoc.
    by replace (16 + (Z.of_nat 4 + (Z.of_nat 4 + Zlength inline))) with (16 + 8 + Zlength inline) by lia.
  - cbn [concat]. rewrite app_nil_r, !app_assoc, CopyMem_exact by (rewrite ?Zlength_replicate; reflexivity || lia).
    unfold inline_packet, descriptor. rewrite <- !app_assoc. by rewrite Z.add_0_r.
Qed.

(** ** The host's reading of a packet

    A reference decoder, in the terms of the packet format: the descriptor says
    where the inline data starts, and each range lists as many page numbers as
    its offset and byte count span. *)
Record host_range := mkHostRange { hr_ByteCount : Z; hr_ByteOffset : Z; hr_Pfns : list Z }.

Definition field (off n : Z) (bs : list Z) : Z := le_combine (zslice off n bs).

Fixpoint host_pfns (n : nat) (bs : list Z) : list Z :=
  match n with O => [] | S n => field 0 8 bs :: host_pfns n (drop 8 bs) end.

Fixpoint host_ranges (n : nat) (bs : list Z) : list host_range :=
  match n with
  | O => []
  | S n =>
    let count := field 0 4 bs in
    let offset := field 4 4 bs in
    let pages := Z.to_nat ((offset + count + 4095) / 4096) in
    mkHostRange count offset (host_pfns pages (drop 8 bs)) :: host_ranges n (drop (8 + 8 * pages) bs)
  end.

Definition host_decode_gpa (p : list Z) : list host_range * list Z :=
  (host_ranges (Z.to_nat (field 20 4 p)) (drop 24 p),
   drop (Z.to_nat (8 * field 2 2 p)) (take (Z.to_nat (8 * field 4 2 p)) p)).

(** Guest-physical address of byte [j] of a range. *)
Definition host_address (r : host_range) (j : Z) : Z :=
  (hr_Pfns r !!! Z.to_nat ((hr_ByteOffset r + j) / 4096)) * 4096 + (hr_ByteOffset r + j) mod 4096.

Lemma field_at p n v q r off sz :
  off = Zlength p -> sz = Z.of_nat n -> q = p ++ le_split n v ++ r -> 0 <= v < 256 ^ Z.of_nat n ->
  field off sz q = v.
Proof.
  intros -> -> -> Hv. unfold field, zslice. rewrite drop_app_length' by (unfold Zlength; lia).
  rewrite Nat2Z.id, take_app_length' by (by rewrite length_le_split). by apply le_combine_split_small.
Qed.

Lemma field_0 n v q r sz : sz = Z.of_nat n -> q = le_split n v ++ r -> 0 <= v < 256 ^ Z.of_nat n -> field 0 sz q = v.
Proof. intros. by apply (field_at [] n v q r). Qed.

Lemma host_pfns_spec pfns r : Forall (fun v => 0 <= v < 2 ^ 64) pfns ->
  host_pfns (length pfns) (concat (le_split 8 <$> pfns) ++ r) = pfns.
Proof.
  induction 1 as [|v l Hv _ IH]; [done|]. rewrite fmap_cons. cbn [concat length host_pfns]. rewrite <- app_assoc.
  rewrite (field_0 8 v _ _ 8 eq_refl eq_refl) by done. f_equal.
  rewrite drop_app_length' by (by rewrite length_le_split). done.
Qed.

Definition range_of (b : EFI_EXTERNAL_BUFFER) (pfns : list Z) : host_range :=
  mkHostRange (BufferSize b) (Buffer b mod 4096) pfns.

Lemma host_range_spec b pfns n r : external_ok b -> Zlength pfns = pages_of b -> Forall (fun v => 0 <= v < 2 ^ 64) pfns ->
  host_ranges (S n) (range_bytes b pfns ++ r) = range_of b pfns :: host_ranges n r.
Proof.
  intros Hb Hl Hp. pose proof Hb as (H1 & H2 & H3). cbn [host_ranges]. unfold range_bytes. rewrite <- !app_assoc.
  rewrite (field_0 4 (BufferSize b) _ _ 4 eq_refl eq_refl) by done.
  rewrite (field_at (le_split 4 (BufferSize b)) 4 (Buffer b mod 4096) _ _ 4 4 eq_refl eq_refl eq_refl) by zlia.
  fold (pages_of b). rewrite <- Hl. unfold Zlength. rewrite Nat2Z.id. f_equal.
  - unfold range_of. f_equal. rewrite app_assoc, drop_app_length' by done. by apply host_pfns_spec.
  - f_equal. rewrite !app_assoc. apply drop_app_length'. rewrite !length_app, !length_le_split.
    pose proof (Zlength_pfn_bytes pfns). unfold Zlength in *. lia.
Qed.

Lemma direct_pfns_range b : external_ok b -> Forall (fun v => 0 <= v < 2 ^ 64) (direct_pfns b).
Proof.
  intros Hb. pose proof (pfn_range b Hb). destruct Hb as (H1 & _). apply list.Forall_forall. intros v Hv.
  unfold direct_pfns in Hv. apply elem_of_seqZ in Hv. assert (0 <= Buffer b / 4096) by (apply Z.div_pos; lia). lia.
Qed.

Lemma host_ranges_spec bs r : Forall external_ok bs ->
  host_ranges (length bs) (ranges_bytes bs ++ r) = (fun b => range_of b (direct_pfns b)) <$> bs.
Proof.
  unfold ranges_bytes. induction 1 as [|b bs Hb _ IH]; [done|]. rewrite !fmap_cons. cbn [concat length].
  rewrite <- app_assoc, host_range_spec; [|done|by apply Zlength_direct_pfns|by apply direct_pfns_range]. by rewrite IH.
Qed.

Lemma direct_address b j : external_ok b -> 0 <= j < BufferSize b ->
  host_address (range_of b (direct_pfns b)) j = Buffer b + j.
Proof.
  intros Hb Hj. pose proof Hb as (H1 & H2 & H3). unfold host_address, direct_pfns. cbn.
  erewrite list_lookup_total_correct; [|apply lookup_seqZ; split; [reflexivity|]].
  - pose proof (Z.mod_pos_bound (Buffer b) 4096 ltac:(lia)). rewrite Z2Nat.id by zlia. zlia.
  - unfold pages_of. zlia.
Qed.

(** Decoding a GPA direct packet gives back its ranges and its inline data,
    padded to whole words by what follows it on the ring. *)
Lemma host_decode_spec n ranges rc tid inline rs tail :
  0 <= n < 2 ^ 32 -> Zlength ranges mod 8 = 0 -> 24 + Zlength ranges + Zlength inline < 2 ^ 19 - 8 ->
  (forall r, host_ranges (Z.to_nat n) (ranges ++ r) = rs) ->
  Zlength tail = - (24 + Zlength ranges + Zlength inline) mod 8 ->
  host_decode_gpa (gpa_packet n ranges rc tid inline ++ tail) = (rs, inline ++ tail).
Proof.
  intros Hn H8 Hs Hr Ht. pose proof (Zlength_nonneg ranges). pose proof (Zlength_nonneg inline).
  unfold host_decode_gpa, gpa_packet, descriptor. set (h := 24 + Zlength ranges) in *.
  rewrite <- !app_assoc.
  rewrite (field_at (le_split 2 9) 2 (h / 8) _ _ 2 2 eq_refl eq_refl eq_refl) by zlia.
  erewrite (field_at (le_split 2 9 ++ le_split 2 (h / 8)) 2 ((h + Zlength inline + 7) / 8) _ _ 4 2 eq_refl eq_refl);
    [|rewrite <- app_assoc; reflexivity|zlia].
  set (pre := le_split 2 9 ++ le_split 2 (h / 8) ++ le_split 2 ((h + Zlength inline + 7) / 8) ++
    le_split 2 (flags_of rc) ++ le_split 8 tid ++ replicate 4 0).
  assert (Hpre : Zlength pre = 20) by reflexivity.
  rewrite (field_at pre 4 n _ (ranges ++ inline ++ tail) 20 4 eq_refl eq_refl) by (unfold pre; by rewrite <- ?app_assoc).
  f_equal.
  - rewrite <- (Hr (inline ++ tail)). f_equal.
  - rewrite firstn_all2.
    + match goal with |- drop _ ?l = _ => replace l with ((pre ++ le_split 4 n ++ ranges) ++ inline ++ tail)
        by (unfold pre; by rewrite <- !app_assoc) end.
      apply drop_app_length'. rewrite !length_app. unfold Zlength in *. rewrite length_le_split. zlia.
    + rewrite !length_app, !length_le_split, length_replicate. unfold Zlength in *. zlia.
Qed.

Lemma load_run n b off : Forall is_byte b -> 0 <= off -> off + Z.of_nat n <= Zlength b ->
  exists v, load n b off = Ok v /\ 0 <= v < 256 ^ Z.of_nat n.
Proof.
  intros Hb H1 H2. unfold load, mem_read. rewrite in_bounds_true by lia. eexists. split; [done|].
  assert (Forall is_byte (zslice off (Z.of_nat n) b)) as Hs by (unfold zslice; by apply Forall_take, Forall_drop).
  pose proof (le_combine_bound _ Hs) as H. by rewrite Zlength_zslice in H by lia.
Qed.

