(* ===== verification/EmclBounce.v ===== *)
(** Bounce pages: [MsvmPkg/EmclDxe/Emcl.c], from [EmclpAllocateBounceBlock] to
    the end, and [EmclWriteGpaDirectPacketBounce].  In an isolated VM the host
    cannot read the guest's memory, so the data of a GPA direct packet travels
    through pages shared with the host.  Blocks of such pages are allocated when
    needed; the free pages of a block and the pages held by a packet are singly
    linked lists through [NextBouncePage].

    The heap is explicit: [pool] is the set of live pool allocations, [blocks]
    and [pages] the live structures by address (the structure at index [i] of a
    [BouncePageStructureBase] [b] has address [(b, i)]), [page_allocs] the live
    page allocations, [frames] the contents of the shared pages by virtual
    address and [client] the client's buffers by address.  Dereferencing or
    releasing what is not live is a fault.  What the memory, visibility and
    platform services answer is the class [Services]; [Dma] is the host, which
    may rewrite a shared page before every access to it. *)
From stdpp Require Import base list numbers list_numbers option gmap.
From Stdlib Require Import ZArith Lia.
From S2P Require Import Prelude Circular PkRing EmclPacket.
Open Scope Z_scope.

Module EmclBounce.
Import PkRing EmclPacket.

Abbreviation page_ptr := (Z * Z)%type.

Record EMCL_BOUNCE_BLOCK := mkBlock {
  FreePageListHead : option page_ptr; InUsePageCount : Z; IsHostVisible : bool;
  BlockBase : Z; BlockPageCount : Z; ProtectionHandle : Z; BouncePageStructureBase : Z }.

Record EMCL_BOUNCE_PAGE := mkPage {
  NextBouncePage : option page_ptr; BounceBlock : Z; PageVA : Z; HostVisiblePA : Z }.

Record memory := mkMem {
  pool : gset Z; page_allocs : gmap Z Z;
  blocks : gmap Z EMCL_BOUNCE_BLOCK; pages : gmap page_ptr EMCL_BOUNCE_PAGE;
  frames : gmap Z (list Z); client : gmap Z (list Z);
  BounceBlockListHead : list Z; tick : nat }.

(** [AllocatePool] and [AllocatePages] answer an address, 0 for NULL, from the
    time, the live allocations and the size. *)
Class Services := {
  AllocatePool_answer : nat -> gset Z -> Z -> Z;
  AllocatePages_answer : nat -> gmap Z Z -> Z -> Z;
  MakeAddressRangeHostVisible_answer : nat -> Z -> EFI_STATUS * Z;
  IsIsolated : bool;
  PcdIsolationSharedGpaBoundary : Z;
  PcdIsolationSharedGpaCanonicalizationBitmask : Z
}.
Class Dma := dma : nat -> Z -> list Z -> list Z.

(** ** Computations on the heap *)
Definition H (A : Type) : Type := memory -> result (A * memory).
#[export] Instance H_ret : MRet H := fun A a m => Ok (a, m).
#[export] Instance H_bind : MBind H := fun A B k c m =>
  match c m with Ok (a, m') => k a m' | Fault f => Fault f end.
Definition hlift {A} (r : result A) : H A := fun m =>
  match r with Ok a => Ok (a, m) | Fault f => Fault f end.
Definition hget {A} (f : memory -> A) : H A := fun m => Ok (f m, m).
Definition hmod (f : memory -> memory) : H unit := fun m => Ok (tt, f m).

Definition set_pool v m := mkMem v (page_allocs m) (blocks m) (pages m) (frames m) (client m) (BounceBlockListHead m) (tick m).
Definition set_page_allocs v m := mkMem (pool m) v (blocks m) (pages m) (frames m) (client m) (BounceBlockListHead m) (tick m).
Definition set_blocks v m := mkMem (pool m) (page_allocs m) v (pages m) (frames m) (client m) (BounceBlockListHead m) (tick m).
Definition set_pages v m := mkMem (pool m) (page_allocs m) (blocks m) v (frames m) (client m) (BounceBlockListHead m) (tick m).
Definition set_frames v m := mkMem (pool m) (page_allocs m) (blocks m) (pages m) v (client m) (BounceBlockListHead m) (tick m).
Definition set_client v m := mkMem (pool m) (page_allocs m) (blocks m) (pages m) (frames m) v (BounceBlockListHead m) (tick m).
Definition set_BlockList v m := mkMem (pool m) (page_allocs m) (blocks m) (pages m) (frames m) (client m) v (tick m).
Definition set_tick v m := mkMem (pool m) (page_allocs m) (blocks m) (pages m) (frames m) (client m) (BounceBlockListHead m) v.

Definition set_Free v b := mkBlock v (InUsePageCount b) (IsHostVisible b) (BlockBase b) (BlockPageCount b) (ProtectionHandle b) (BouncePageStructureBase b).
Definition set_InUse v b := mkBlock (FreePageListHead b) v (IsHostVisible b) (BlockBase b) (BlockPageCount b) (ProtectionHandle b) (BouncePageStructureBase b).
Definition set_Visible v h b := mkBlock (FreePageListHead b) (InUsePageCount b) v (BlockBase b) (BlockPageCount b) h (BouncePageStructureBase b).
Definition set_Base v n b := mkBlock (FreePageListHead b) (InUsePageCount b) (IsHostVisible b) v n (ProtectionHandle b) (BouncePageStructureBase b).
Definition set_Structs v b := mkBlock (FreePageListHead b) (InUsePageCount b) (IsHostVisible b) (BlockBase b) (BlockPageCount b) (ProtectionHandle b) v.
Definition set_Next v p := mkPage v (BounceBlock p) (PageVA p) (HostVisiblePA p).

Definition sizeof_EMCL_BOUNCE_BLOCK : Z := 64.
Definition sizeof_EMCL_BOUNCE_PAGE : Z := 32.

Section Heap.
Context {B : BuildOptions} {S : Services} {D : Dma}.

(** ** Allocation and dereference *)
Definition AllocatePool (size : Z) : H Z := fun m =>
  let p := AllocatePool_answer (tick m) (pool m) size in
  let m := set_tick (Datatypes.S (tick m)) m in
  if p =? 0 then Ok (0, m) else Ok (p, set_pool ({[p]} ∪ pool m) m).

Definition FreePool (p : Z) : H unit := fun m =>
  if decide (p ∈ pool m) then Ok (tt, set_pool (pool m ∖ {[p]}) m) else Fault DoubleFree.

Definition AllocatePages (n : Z) : H Z := fun m =>
  let p := AllocatePages_answer (tick m) (page_allocs m) n in
  let m := set_tick (Datatypes.S (tick m)) m in
  if p =? 0 then Ok (0, m) else Ok (p, set_page_allocs (<[p := n]> (page_allocs m)) m).

(** The pages must be released with the count they were allocated with. *)
Definition FreePages (p n : Z) : H unit := fun m =>
  match page_allocs m !! p with
  | None => Fault DoubleFree
  | Some k => if k =? n then Ok (tt, set_page_allocs (delete p (page_allocs m)) m) else Fault OutOfBounds
  end.

Definition get_block (p : Z) : H EMCL_BOUNCE_BLOCK := fun m =>
  match blocks m !! p with Some b => Ok (b, m) | None => Fault UseAfterFree end.
Definition upd_block (p : Z) (f : EMCL_BOUNCE_BLOCK -> EMCL_BOUNCE_BLOCK) : H unit :=
  b ← get_block p; hmod (fun m => set_blocks (<[p := f b]> (blocks m)) m).
Definition get_page (p : page_ptr) : H EMCL_BOUNCE_PAGE := fun m =>
  match pages m !! p with Some b => Ok (b, m) | None => Fault UseAfterFree end.
Definition upd_page (p : page_ptr) (f : EMCL_BOUNCE_PAGE -> EMCL_BOUNCE_PAGE) : H unit :=
  b ← get_page p; hmod (fun m => set_pages (<[p := f b]> (pages m)) m).

(** A shared page is read and replaced; the host acts first. *)
Definition with_frame {A} (va : Z) (f : list Z -> result (A * list Z)) : H A := fun m =>
  match frames m !! va with
  | None => Fault UseAfterFree
  | Some c =>
    match f (dma (tick m) va c) with
    | Ok (a, c') => Ok (a, set_tick (Datatypes.S (tick m)) (set_frames (<[va := c']> (frames m)) m))
    | Fault e => Fault e
    end
  end.
Definition write_frame (va : Z) (f : list Z -> result (list Z)) : H unit :=
  with_frame va (fun c => c' ← f c; Ok (tt, c')).
Definition get_client (p : Z) : H (list Z) := fun m =>
  match client m !! p with Some b => Ok (b, m) | None => Fault UseAfterFree end.

(** ** Releasing blocks *)
Definition block_frames (va n : Z) : list Z := (fun i => va + 4096 * i) <$> seqZ 0 n.

(** The virtual address through which a page at [a] is accessed. *)
Definition shared_pa (a : Z) : Z := if IsIsolated then u64 (a + PcdIsolationSharedGpaBoundary) else a.
Definition shared_va (a : Z) : Z :=
  if IsIsolated then Z.lor PcdIsolationSharedGpaCanonicalizationBitmask (shared_pa a) else a.

Definition EmclpFreeBounceBlock (Block : Z) : H unit :=
  b ← get_block Block;
  (* MakeAddressRangeNotHostVisible when IsHostVisible: no effect on the heap *)
  _ ← (if negb (BouncePageStructureBase b =? 0) then
         _ ← FreePool (BouncePageStructureBase b);
         _ ← hmod (fun m => set_pages (filter (fun kv => kv.1.1 <> BouncePageStructureBase b) (pages m)) m);
         upd_block Block (set_Structs 0)
       else mret tt);
  _ ← (if negb (BlockBase b =? 0) then
         _ ← FreePages (BlockBase b) (BlockPageCount b);
         _ ← hmod (fun m => set_frames (filter (fun kv => kv.1 ∉ block_frames (shared_va (BlockBase b)) (BlockPageCount b)) (frames m)) m);
         upd_block Block (set_Base 0 0)
       else mret tt);
  _ ← FreePool Block;
  hmod (fun m => set_blocks (delete Block (blocks m)) m).

Fixpoint free_blocks (bs : list Z) : H unit :=
  match bs with
  | [] => mret tt
  | b :: bs =>
    _ ← hmod (set_BlockList bs);
    _ ← EmclpFreeBounceBlock b;
    free_blocks bs
  end.
Definition EmclpFreeAllBounceBlocks : H unit := bs ← hget BounceBlockListHead; free_blocks bs.

(** ** Allocating blocks *)

(** The initialisation loop, from index [i]; the pages' contents are the zeros
    of [ZeroMem (BlockBase)], seen through [PageVA]. *)
Fixpoint init_pages (n : nat) (i pageCount base Block nextVa nextPa : Z) : H unit :=
  match n with
  | O => mret tt
  | Datatypes.S n =>
    let next := if i =? pageCount - 1 then None else Some (base, i + 1) in
    _ ← hmod (fun m => set_pages (<[(base, i) := mkPage next Block nextVa nextPa]> (pages m)) m);
    _ ← hmod (fun m => set_frames (<[nextVa := replicate 4096 0]> (frames m)) m);
    init_pages n (i + 1) pageCount base Block (u64 (nextVa + EFI_PAGE_SIZE)) (u64 (nextPa + EFI_PAGE_SIZE))
  end.

Definition make_visible (Block base : Z) : H EFI_STATUS :=
  if IsIsolated then
    t ← hget tick;
    let '(status, handle) := MakeAddressRangeHostVisible_answer t base in
    _ ← hmod (set_tick (Datatypes.S t));
    if EFI_ERROR status then mret status
    else _ ← upd_block Block (set_Visible true handle); mret EFI_SUCCESS
  else mret EFI_SUCCESS.

(** The steps between the allocation of the block and [Cleanup]. *)
Definition fill_block (bounceBlock pageCount : Z) : H EFI_STATUS :=
  base ← AllocatePages pageCount;
  if base =? 0 then mret EFI_OUT_OF_RESOURCES
  else
    _ ← upd_block bounceBlock (set_Base base pageCount);
    structs ← AllocatePool (u32 (pageCount * sizeof_EMCL_BOUNCE_PAGE));
    if structs =? 0 then mret EFI_OUT_OF_RESOURCES
    else
      _ ← upd_block bounceBlock (set_Structs structs);
      _ ← upd_block bounceBlock (set_Free (Some (structs, 0)));
      status ← make_visible bounceBlock base;
      if EFI_ERROR status then mret status
      else
        _ ← init_pages (Z.to_nat pageCount) 0 pageCount structs bounceBlock (shared_va base) (shared_pa base);
        _ ← hmod (fun m => set_BlockList (BounceBlockListHead m ++ [bounceBlock]) m);
        mret EFI_SUCCESS.

Definition EmclpAllocateBounceBlock (BlockByteCount : Z) : H EFI_STATUS :=
  if negb (BlockByteCount mod EFI_PAGE_SIZE =? 0) then mret EFI_INVALID_PARAMETER
  else
    let pageCount := BlockByteCount / EFI_PAGE_SIZE in
    bounceBlock ← AllocatePool sizeof_EMCL_BOUNCE_BLOCK;
    if bounceBlock =? 0 then mret EFI_OUT_OF_RESOURCES
    else
      _ ← hmod (fun m => set_blocks (<[bounceBlock := mkBlock None 0 false 0 0 0 0]> (blocks m)) m);
      status ← fill_block bounceBlock pageCount;
      if EFI_ERROR status then _ ← EmclpFreeBounceBlock bounceBlock; mret status
      else mret status.

(** ** Releasing and acquiring pages *)

(** One pass along a list of pages, at most [fuel] of them. *)
Fixpoint release_loop (fuel : nat) (BounceListHead : option page_ptr) : H unit :=
  match BounceListHead with
  | None => mret tt
  | Some page =>
    match fuel with
    | O => hlift (Fault Diverges)
    | Datatypes.S fuel =>
      p ← get_page page;
      let BounceListHead := NextBouncePage p in
      _ ← upd_block (BounceBlock p) (fun b => set_InUse (u32 (InUsePageCount b - 1)) b);
      b ← get_block (BounceBlock p);
      _ ← upd_page page (set_Next (FreePageListHead b));
      _ ← upd_block (BounceBlock p) (set_Free (Some page));
      release_loop fuel BounceListHead
    end
  end.

Definition EmclpReleaseBouncePages (BounceListHead : option page_ptr) : H unit :=
  n ← hget (fun m => size (pages m)); release_loop n BounceListHead.

(** The inner loop of [EmclpAcquireBouncePages]: the new list and [pagesToGo]. *)
Fixpoint take_pages (pagesToGo : nat) (bounceBlock : Z) (listHead : option page_ptr) : H (option page_ptr * nat) :=
  match pagesToGo with
  | O => mret (listHead, O)
  | Datatypes.S n =>
    b ← get_block bounceBlock;
    match FreePageListHead b with
    | None => mret (listHead, pagesToGo)
    | Some bouncePage =>
      p ← get_page bouncePage;
      _ ← upd_block bounceBlock (set_Free (NextBouncePage p));
      _ ← upd_page bouncePage (set_Next listHead);
      _ ← upd_block bounceBlock (fun b => set_InUse (u32 (InUsePageCount b + 1)) b);
      take_pages n bounceBlock (Some bouncePage)
    end
  end.

Fixpoint acquire_loop (bs : list Z) (pagesToGo : nat) (listHead : option page_ptr) : H (option page_ptr * nat) :=
  match bs with
  | [] => mret (listHead, pagesToGo)
  | b :: bs =>
    '(listHead, pagesToGo) ← take_pages pagesToGo b listHead;
    if (pagesToGo =? 0)%nat then mret (listHead, pagesToGo) else acquire_loop bs pagesToGo listHead
  end.

Definition EmclpAcquireBouncePages (PageCount : Z) : H (option page_ptr) :=
  bs ← hget BounceBlockListHead;
  '(listHead, pagesToGo) ← acquire_loop bs (Z.to_nat PageCount) None;
  if negb (pagesToGo =? 0)%nat then _ ← EmclpReleaseBouncePages listHead; mret None
  else mret listHead.

(** ** Copying *)
Fixpoint copy_loop (fuel : nat) (Buffer_ : Z) (bouncePage : option page_ptr) (pageOffset extOff transferToGo : Z)
  (CopyToBounce : bool) : H (option page_ptr) :=
  if transferToGo =? 0 then mret bouncePage
  else
    match fuel with
    | O => hlift (Fault Diverges)
    | Datatypes.S fuel =>
      _ ← hlift (ASSERT (match bouncePage with Some _ => true | None => false end));
      match bouncePage with
      | None => hlift (Fault NullDeref)
      | Some q =>
        p ← get_page q;
        _ ← (if CopyToBounce && negb (pageOffset =? 0)
             then write_frame (PageVA p) (fun c => SetMem c 0 pageOffset 0) else mret tt);
        let copySize := Z.min (EFI_PAGE_SIZE - pageOffset) transferToGo in
        let bounceBufferEnd := u64 (PageVA p + pageOffset + copySize) in
        ext ← get_client Buffer_;
        _ ← (if CopyToBounce then write_frame (PageVA p) (fun c => CopyMem c pageOffset ext extOff copySize)
             else
               ext ← with_frame (PageVA p) (fun c => e ← CopyMem ext extOff c pageOffset copySize; Ok (e, c));
               hmod (fun m => set_client (<[Buffer_ := ext]> (client m)) m));
        let transferToGo := transferToGo - copySize in
        let endOffset := bounceBufferEnd mod EFI_PAGE_SIZE in
        _ ← (if (transferToGo =? 0) && CopyToBounce && negb (endOffset =? 0)
             then write_frame (PageVA p) (fun c => SetMem c (pageOffset + copySize) (EFI_PAGE_SIZE - endOffset) 0)
             else mret tt);
        copy_loop fuel Buffer_ (NextBouncePage p) 0 (extOff + copySize) transferToGo CopyToBounce
      end
    end.

Definition EmclpCopyBouncePagesToExternalBuffer (ExternalBuffer : EFI_EXTERNAL_BUFFER) (BouncePageList : option page_ptr)
  (CopyToBounce : bool) : H unit :=
  _ ← hlift (ASSERT (match BouncePageList with Some _ => true | None => false end));
  bouncePage ← copy_loop (Z.to_nat (BufferSize ExternalBuffer / EFI_PAGE_SIZE + 2)) (Buffer ExternalBuffer) BouncePageList
    (Buffer ExternalBuffer mod EFI_PAGE_SIZE) 0 (BufferSize ExternalBuffer) CopyToBounce;
  hlift (ASSERT (match bouncePage with Some _ => false | None => true end)).

Fixpoint zero_loop (fuel : nat) (bouncePage : option page_ptr) : H unit :=
  match bouncePage with
  | None => mret tt
  | Some q =>
    match fuel with
    | O => hlift (Fault Diverges)
    | Datatypes.S fuel =>
      p ← get_page q;
      _ ← write_frame (PageVA p) (fun c => SetMem c 0 EFI_PAGE_SIZE 0);
      zero_loop fuel (NextBouncePage p)
    end
  end.

Definition EmclpZeroBouncePageList (BouncePageList : option page_ptr) : H unit :=
  n ← hget (fun m => size (pages m)); zero_loop n BouncePageList.

(** ** The packet that names bounce pages *)
Fixpoint write_bounce_pfns (buf : list Z) (Range pfnIndex : Z) (n : nat) (bouncePage : option page_ptr)
  : H (list Z * option page_ptr) :=
  match n with
  | O => mret (buf, bouncePage)
  | Datatypes.S n =>
    _ ← hlift (ASSERT (match bouncePage with Some _ => true | None => false end));
    match bouncePage with
    | None => hlift (Fault NullDeref)
    | Some q =>
      p ← get_page q;
      buf ← hlift (store 8 buf (Range + 8 + 8 * pfnIndex) (Z.shiftr (HostVisiblePA p) EFI_PAGE_SHIFT));
      write_bounce_pfns buf Range (pfnIndex + 1) n (NextBouncePage p)
    end
  end.

Definition EmclWriteGpaDirectPacketBounce (InlineBuffer : list Z) (InlineBufferLength : Z)
  (ExternalBuffer : EFI_EXTERNAL_BUFFER) (BouncePageList : option page_ptr) (TransactionId : Z)
  (RequestCompletion : bool) (OutputBuffer : list Z) : H (list Z) :=
  let pfnCount := u32 (ADDRESS_AND_SIZE_TO_SPAN_PAGES (Buffer ExternalBuffer) (BufferSize ExternalBuffer)) in
  let headerSize := u32 (off_GPA_Range + gpa_range_size pfnCount) in
  buf ← hlift (write_gpa_descriptor OutputBuffer headerSize InlineBufferLength TransactionId RequestCompletion 1);
  buf ← hlift (store 4 buf off_GPA_Range (BufferSize ExternalBuffer));
  buf ← hlift (store 4 buf (off_GPA_Range + 4) (Z.land (Buffer ExternalBuffer) EFI_PAGE_MASK));
  '(buf, bouncePage) ← write_bounce_pfns buf off_GPA_Range 0 (Z.to_nat pfnCount) BouncePageList;
  _ ← hlift (ASSERT (match bouncePage with Some _ => false | None => true end));
  hlift (CopyMem buf headerSize InlineBuffer 0 InlineBufferLength).

End Heap.
End EmclBounce.
