(* ===== verification/EmclBounceInv.v ===== *)
(** The bounce pages as linked lists: the representation of a list of pages in
    the heap, the invariant that every page is on exactly one list, a block's
    free list or the list of a packet, and its preservation by acquisition,
    release and allocation. *)
From stdpp Require Import base list numbers list_numbers option gmap fin_map_dom functions.
From Stdlib Require Import ZArith Lia.
From S2P Require Import Prelude Circular PkRing EmclPacket EmclBounce.
Open Scope Z_scope.
Import EmclPacket EmclBounce.

(** ** Lists of pages *)
Fixpoint plist (pg : gmap page_ptr EMCL_BOUNCE_PAGE) (hd : option page_ptr) (l : list page_ptr) : Prop :=
  match l with
  | [] => hd = None
  | q :: l => hd = Some q /\ exists p, pg !! q = Some p /\ plist pg (NextBouncePage p) l
  end.

Lemma plist_head pg hd l : plist pg hd l -> hd = head l.
Proof. destruct l; cbn; [done|by intros [-> _]]. Qed.

Lemma plist_insert pg hd l q p : q ∉ l -> plist pg hd l -> plist (<[q := p]> pg) hd l.
Proof.
  revert hd. induction l as [|q' l IH]; intros hd Hq Hp; [done|]. destruct Hp as (-> & p' & Hl & Hr).
  apply not_elem_of_cons in Hq as [Hne Hq]. split; [done|]. exists p'. split; [by rewrite lookup_insert_ne|]. auto.
Qed.

Lemma plist_lookup pg hd l q : plist pg hd l -> q ∈ l -> is_Some (pg !! q).
Proof.
  revert hd. induction l as [|q' l IH]; intros hd Hp Hq; [by apply not_elem_of_nil in Hq|].
  destruct Hp as (_ & p' & Hl & Hr). apply elem_of_cons in Hq as [->|Hq]; [by exists p'|eauto].
Qed.

(** The free lists seen from one block: its own, and the rest. *)
Lemma free_lists_at (fl : Z -> list page_ptr) bs b : NoDup bs -> b ∈ bs -> exists rest,
  (forall l, concat ((<[b := l]> fl) <$> bs) ≡ₚ l ++ rest) /\ concat (fl <$> bs) ≡ₚ fl b ++ rest /\
  (forall b' q, b' ∈ bs -> b' <> b -> q ∈ fl b' -> q ∈ rest).
Proof.
  intros Hn Hb. apply list_elem_of_split in Hb as (bs1 & bs2 & ->).
  apply list.NoDup_app in Hn as (H1 & Hd & H2). apply list.NoDup_cons in H2 as [Hb2 H2].
  assert (Hb1 : b ∉ bs1) by (intros Hin; apply (Hd b Hin); apply elem_of_cons; by left).
  assert (Hsame : forall l (bs : list Z), b ∉ bs -> <[b := l]> fl <$> bs = fl <$> bs).
  { intros l bs Hni. apply list_fmap_ext. intros i b' E. apply fn_lookup_insert_ne. intros ->.
    apply Hni. by eapply list_elem_of_lookup_2. }
  exists (concat (fl <$> bs1) ++ concat (fl <$> bs2)). split_and!.
  - intros l. rewrite fmap_app, fmap_cons, !Hsame, fn_lookup_insert, concat_app by done. cbn [concat].
    rewrite !app_assoc. f_equiv. apply Permutation_app_comm.
  - rewrite fmap_app, fmap_cons, concat_app. cbn [concat]. rewrite !app_assoc. f_equiv. apply Permutation_app_comm.
  - intros b' q Hb' Hne Hq. apply elem_of_app in Hb'. apply elem_of_app.
    assert (Hc : forall bs : list Z, b' ∈ bs -> q ∈ concat (fl <$> bs)).
    { intros bs Hin. apply list_elem_of_In, in_concat. exists (fl b'). rewrite <- !list_elem_of_In.
      split; [by apply list_elem_of_fmap_2|done]. }
    destruct Hb' as [Hb'|Hb']; [left; auto|]. apply elem_of_cons in Hb' as [->|Hb']; [done|right; auto].
Qed.

(** ** The invariant *)

(** What the services promise: allocations are fresh, page allocations are
    aligned and disjoint from the live ones, and shared addresses are the
    private ones shifted by a whole number of pages. *)
Record services_ok `{Services} : Prop := {
  pool_fresh : forall t live n, AllocatePool_answer t live n <> 0 -> AllocatePool_answer t live n ∉ live;
  pages_fresh : forall t live n, 0 < n -> AllocatePages_answer t live n <> 0 ->
    let a := AllocatePages_answer t live n in
    0 < a /\ a mod 4096 = 0 /\ a + 4096 * n < 2 ^ 47 /\ live !! a = None /\
    forall b k, live !! b = Some k -> a + 4096 * n <= b \/ b + 4096 * k <= a;
  shared_shift : exists K P, K mod 4096 = 0 /\ P mod 4096 = 0 /\ forall a, 0 <= a < 2 ^ 47 ->
    shared_va a = a + K /\ shared_pa a = a + P /\ 0 <= a + K < 2 ^ 64 - 2 ^ 12 /\ 0 <= a + P < 2 ^ 64 - 2 ^ 12
}.

Definition dma_ok `{Dma} : Prop := forall t va c, Zlength (dma t va c) = Zlength c.

Section Inv.
Context {B : BuildOptions} {S : Services} {D : Dma}.

Definition all_pages (fl : Z -> list page_ptr) (held : list (list page_ptr)) (bs : list Z) : list page_ptr :=
  concat held ++ concat (fl <$> bs).

(** A block in use, with free list [l]. *)
Record block_ok (m : memory) (b : Z) (blk : EMCL_BOUNCE_BLOCK) (l : list page_ptr) : Prop := {
  bo_free : plist (pages m) (FreePageListHead blk) l;
  bo_own : forall q p, q ∈ l -> pages m !! q = Some p -> BounceBlock p = b;
  bo_inuse : InUsePageCount blk = BlockPageCount blk - Zlength l;
  bo_count : 0 < BlockPageCount blk < 2 ^ 20;
  bo_base : 0 < BlockBase blk /\ BlockBase blk mod 4096 = 0 /\ BlockBase blk + 4096 * BlockPageCount blk < 2 ^ 47;
  bo_structs : BouncePageStructureBase blk <> 0;
  bo_alloc : page_allocs m !! BlockBase blk = Some (BlockPageCount blk)
}.

(** The page structure at [q] belongs to block [b]. *)
Definition page_of (q : page_ptr) (p : EMCL_BOUNCE_PAGE) (b : Z) (blk : EMCL_BOUNCE_BLOCK) : Prop :=
  q.1 = BouncePageStructureBase blk /\ 0 <= q.2 < BlockPageCount blk /\ BounceBlock p = b /\
  PageVA p = shared_va (BlockBase blk) + 4096 * q.2 /\ HostVisiblePA p = shared_pa (BlockBase blk) + 4096 * q.2.

(** The pool allocations of the blocks: each block and its array of structures. *)
Definition structs_at (m : memory) (b : Z) : Z := default 0 (BouncePageStructureBase <$> blocks m !! b).
Definition block_ptrs (m : memory) : list Z := BounceBlockListHead m ++ (structs_at m <$> BounceBlockListHead m).

Record bounce_inv (fl : Z -> list page_ptr) (held : list (list page_ptr)) (m : memory) : Prop := {
  bi_ptrs : NoDup (block_ptrs m);
  bi_pool : forall p, p ∈ block_ptrs m -> p ∈ pool m;
  bi_blocks : forall b, b ∈ BounceBlockListHead m -> exists blk, blocks m !! b = Some blk /\ block_ok m b blk (fl b);
  bi_held : Forall (fun l => plist (pages m) (head l) l) held;
  bi_once : NoDup (all_pages fl held (BounceBlockListHead m));
  bi_all : dom (pages m) = list_to_set (all_pages fl held (BounceBlockListHead m));
  bi_home : forall q p, pages m !! q = Some p -> exists blk, BounceBlock p ∈ BounceBlockListHead m /\
    blocks m !! BounceBlock p = Some blk /\ page_of q p (BounceBlock p) blk;
  bi_full : forall b blk i, b ∈ BounceBlockListHead m -> blocks m !! b = Some blk -> 0 <= i < BlockPageCount blk ->
    exists p, pages m !! (BouncePageStructureBase blk, i) = Some p /\ BounceBlock p = b;
  bi_disjoint : forall b b' blk blk', b ∈ BounceBlockListHead m -> b' ∈ BounceBlockListHead m -> b <> b' ->
    blocks m !! b = Some blk -> blocks m !! b' = Some blk' ->
    BlockBase blk + 4096 * BlockPageCount blk <= BlockBase blk' \/ BlockBase blk' + 4096 * BlockPageCount blk' <= BlockBase blk;
  bi_frames : forall q p, pages m !! q = Some p -> exists c, frames m !! PageVA p = Some c /\ Zlength c = 4096
}.

Lemma bi_nodup fl held m : bounce_inv fl held m -> NoDup (BounceBlockListHead m).
Proof. intros Hi. pose proof (bi_ptrs _ _ _ Hi) as Hn. by apply list.NoDup_app in Hn as [? _]. Qed.

(** ** Running heap computations *)
Lemma hbind_Ok {A C} (c : H A) (k : A -> H C) m a m' : c m = Ok (a, m') -> (c ≫= k) m = k a m'.
Proof. intros E. unfold mbind, H_bind. by rewrite E. Qed.

Lemma get_block_ok b m blk : blocks m !! b = Some blk -> get_block b m = Ok (blk, m).
Proof. intros E. unfold get_block. by rewrite E. Qed.

Lemma upd_block_ok b m f blk : blocks m !! b = Some blk ->
  upd_block b f m = Ok (tt, set_blocks (<[b := f blk]> (blocks m)) m).
Proof. intros E. unfold upd_block. by erewrite hbind_Ok by (by apply get_block_ok). Qed.

Lemma get_page_ok q m p : pages m !! q = Some p -> get_page q m = Ok (p, m).
Proof. intros E. unfold get_page. by rewrite E. Qed.

Lemma upd_page_ok q m f p : pages m !! q = Some p ->
  upd_page q f m = Ok (tt, set_pages (<[q := f p]> (pages m)) m).
Proof. intros E. unfold upd_page. by erewrite hbind_Ok by (by apply get_page_ok). Qed.

(** ** Moving one page between lists *)

(** The heap after page [q] of block [b] was relinked. *)
Definition relinked (m : memory) (q : page_ptr) (p : EMCL_BOUNCE_PAGE) (next : option page_ptr)
  (b : Z) (blk : EMCL_BOUNCE_BLOCK) (free : option page_ptr) (inuse : Z) : memory :=
  set_blocks (<[b := set_InUse inuse (set_Free free blk)]> (blocks m)) (set_pages (<[q := set_Next next p]> (pages m)) m).

Lemma relink_structs m q p next b blk free inuse b' : blocks m !! b = Some blk ->
  structs_at (relinked m q p next b blk free inuse) b' = structs_at m b'.
Proof.
  intros E. unfold structs_at, relinked. cbn. destruct (decide (b' = b)) as [->|Hne].
  - by rewrite lookup_insert_eq, E.
  - by rewrite lookup_insert_ne.
Qed.

Lemma relink_ptrs m q p next b blk free inuse : blocks m !! b = Some blk ->
  block_ptrs (relinked m q p next b blk free inuse) = block_ptrs m.
Proof.
  intros E. unfold block_ptrs. cbn. f_equal. apply list_fmap_ext. intros i b' _. by apply relink_structs.
Qed.

(** The blocks of a relinked heap differ from those of the heap in their free
    list and count only. *)
Lemma relink_lookup m q p next b blk free inuse b' blk' : blocks m !! b = Some blk ->
  blocks (relinked m q p next b blk free inuse) !! b' = Some blk' -> exists blk0, blocks m !! b' = Some blk0 /\
    BlockBase blk' = BlockBase blk0 /\ BlockPageCount blk' = BlockPageCount blk0 /\
    BouncePageStructureBase blk' = BouncePageStructureBase blk0.
Proof.
  intros E. unfold relinked. cbn. destruct (decide (b' = b)) as [->|Hne].
  - rewrite lookup_insert_eq. intros [= <-]. by exists blk.
  - rewrite lookup_insert_ne by done. intros E'. by exists blk'.
Qed.

Lemma relink_inv fl held m q p next b blk free inuse fl' held' :
  bounce_inv fl held m -> pages m !! q = Some p -> BounceBlock p = b -> blocks m !! b = Some blk ->
  let m' := relinked m q p next b blk free inuse in
  all_pages fl' held' (BounceBlockListHead m) ≡ₚ all_pages fl held (BounceBlockListHead m) ->
  (forall b', b' <> b -> b' ∈ BounceBlockListHead m -> fl' b' = fl b' /\ q ∉ fl b') ->
  plist (pages m') free (fl' b) -> (forall q' p', q' ∈ fl' b -> pages m !! q' = Some p' -> BounceBlock p' = b) -> inuse = BlockPageCount blk - Zlength (fl' b) ->
  Forall (fun l => plist (pages m') (head l) l) held' ->
  bounce_inv fl' held' m'.
Proof.
  intros I Hq Hb Eb m' Hperm Hoth Hfree Hown Hin Hheld.
  assert (Hpg : forall q' p', pages m' !! q' = Some p' -> exists p0, pages m !! q' = Some p0 /\ BounceBlock p' = BounceBlock p0 /\
    PageVA p' = PageVA p0 /\ HostVisiblePA p' = HostVisiblePA p0).
  { intros q' p'. subst m'. cbn. destruct (decide (q' = q)) as [->|Hne].
    - rewrite lookup_insert_eq. intros [= <-]. by exists p.
    - rewrite lookup_insert_ne by done. intros E. by exists p'. }
  assert (Hpg' : forall q' p0, pages m !! q' = Some p0 -> exists p', pages m' !! q' = Some p' /\ BounceBlock p' = BounceBlock p0).
  { intros q' p'. subst m'. cbn. destruct (decide (q' = q)) as [->|Hne].
    - rewrite lookup_insert_eq, Hq. intros [= <-]. eexists. split; [done|]. done.
    - rewrite lookup_insert_ne by done. intros E. by exists p'. }
  assert (Hbk : forall b' blk', blocks m !! b' = Some blk' -> exists blk2, blocks m' !! b' = Some blk2 /\ BlockBase blk2 = BlockBase blk' /\
    BlockPageCount blk2 = BlockPageCount blk' /\ BouncePageStructureBase blk2 = BouncePageStructureBase blk').
  { intros b' blk'. subst m'. cbn. destruct (decide (b' = b)) as [->|Hne].
    - rewrite lookup_insert_eq, Eb. intros [= <-]. by eexists.
    - rewrite lookup_insert_ne by done. intros E. by exists blk'. }
  split.
  - subst m'. rewrite relink_ptrs by done. apply I.
  - subst m'. rewrite relink_ptrs by done. apply I.
  - intros b' Hb'. destruct (bi_blocks _ _ _ I b' Hb') as (blk' & E' & Ok'). subst m'. cbn.
    destruct (decide (b' = b)) as [->|Hne].
    + rewrite lookup_insert_eq. eexists. split; [done|]. assert (blk' = blk) as -> by congruence.
      split; try apply Ok'; try done. intros q' p' Hq' E2. destruct (Hpg q' p' E2) as (p0 & E0 & -> & _). eauto.
    + rewrite lookup_insert_ne by done. exists blk'. split; [done|]. destruct (Hoth b' Hne Hb') as [-> Hni].
      split; try apply Ok'; [cbn; apply plist_insert; [done|]; apply Ok'|].
      intros q' p' Hq' E2. destruct (Hpg q' p' E2) as (p0 & E0 & -> & _). by apply (bo_own _ _ _ _ Ok' q').
  - done.
  - subst m'. cbn. rewrite Hperm. apply I.
  - subst m'. cbn. rewrite dom_insert_lookup_L by (by exists p). rewrite (bi_all _ _ _ I).
    apply list_to_set_perm_L. by symmetry.
  - intros q' p' E. destruct (Hpg q' p' E) as (p0 & E0 & HBB & HVA & HPA).
    destruct (bi_home _ _ _ I q' p0 E0) as (blk0 & Hin0 & Eb0 & H1 & H2 & H3 & H4 & H5).
    destruct (Hbk _ _ Eb0) as (blk2 & E2 & B1 & B2 & B3). exists blk2. split_and!; [by rewrite HBB|by rewrite HBB|].
    unfold page_of. by rewrite B1, B2, B3, HVA, HPA, HBB.
  - intros b' blk' i Hb' Eb' Hi'. destruct (relink_lookup _ _ _ _ _ _ _ _ _ _ Eb Eb') as (blk0 & E0 & B1 & B2 & B3).
    rewrite B2 in Hi'. destruct (bi_full _ _ _ I b' blk0 i Hb' E0 Hi') as (p0 & Ep & Hbb). rewrite B3.
    destruct (Hpg' _ _ Ep) as (p' & Ep' & Hbb'). exists p'. split; [done|congruence].
  - intros b1 b2 blk1 blk2 Hb1 Hb2 Hne E1 E2. destruct (relink_lookup _ _ _ _ _ _ _ _ _ _ Eb E1) as (k1 & K1 & -> & -> & _).
    destruct (relink_lookup _ _ _ _ _ _ _ _ _ _ Eb E2) as (k2 & K2 & -> & -> & _). by apply (bi_disjoint _ _ _ I b1 b2).
  - intros q' p' E. destruct (Hpg q' p' E) as (p0 & E0 & _ & -> & _). by apply (bi_frames _ _ _ I q').
Qed.

(** No more pages of a block than it has. *)
Lemma pages_bound fl held m b blk (l : list page_ptr) :
  bounce_inv fl held m -> blocks m !! b = Some blk -> NoDup l ->
  (forall q, q ∈ l -> exists p, pages m !! q = Some p /\ BounceBlock p = b) -> Zlength l <= Z.max 0 (BlockPageCount blk).
Proof.
  intros I Eb Hn Hl.
  assert (Hs : l ⊆+ (fun i => (BouncePageStructureBase blk, i)) <$> seqZ 0 (BlockPageCount blk)).
  { apply NoDup_submseteq; [done|]. intros q Hq. destruct (Hl q Hq) as (p & Ep & Hb).
    destruct (bi_home _ _ _ I q p Ep) as (blk' & _ & Eb' & H1 & H2 & _). rewrite Hb, Eb in Eb'. injection Eb' as <-.
    apply list_elem_of_fmap. exists q.2. split; [destruct q; cbn in *; congruence|]. apply elem_of_seqZ. lia. }
  apply submseteq_length in Hs. rewrite length_fmap, length_seqZ in Hs. unfold Zlength. lia.
Qed.

Lemma plist_relinked m q p next b blk free inuse hd l :
  q ∉ l -> plist (pages m) hd l -> plist (pages (relinked m q p next b blk free inuse)) hd l.
Proof. intros. cbn. by apply plist_insert. Qed.

Lemma held_relinked m q p next b blk free inuse held :
  q ∉ concat held -> Forall (fun l => plist (pages m) (head l) l) held ->
  Forall (fun l => plist (pages (relinked m q p next b blk free inuse)) (head l) l) held.
Proof.
  intros Hq Hh. apply list.Forall_forall. intros l Hl. rewrite list.Forall_forall in Hh. apply plist_relinked; [|auto].
  intros Hin. apply Hq. apply list_elem_of_In, in_concat. exists l. by rewrite <- !list_elem_of_In.
Qed.

(** Taking the first free page of a block onto the list being built. *)
Lemma take_one fl held m b q t l :
  bounce_inv fl (l :: held) m -> b ∈ BounceBlockListHead m -> fl b = q :: t ->
  exists p blk, pages m !! q = Some p /\ blocks m !! b = Some blk /\ FreePageListHead blk = Some q /\
    bounce_inv (<[b := t]> fl) ((q :: l) :: held)
      (relinked m q p (head l) b blk (NextBouncePage p) (u32 (InUsePageCount blk + 1))).
Proof.
  intros I Hb Hfl. pose proof (bi_nodup _ _ _ I) as Hnd.
  destruct (bi_blocks _ _ _ I b Hb) as (blk & Eb & Ob). pose proof (bo_free _ _ _ _ Ob) as Hf. rewrite Hfl in Hf.
  destruct Hf as (Hhd & p & Ep & Hnext). exists p, blk. split_and!; [done..|].
  destruct (free_lists_at fl _ b Hnd Hb) as (rest & R1 & R2 & R3).
  pose proof (bi_once _ _ _ I) as Ho. unfold all_pages in Ho. rewrite R2, Hfl in Ho. cbn [concat] in Ho.
  assert (Hp : ((l ++ concat held) ++ (q :: t) ++ rest) ≡ₚ (q :: (l ++ concat held ++ t ++ rest))) by solve_Permutation.
  assert (Hq : (q ∉ l) /\ (q ∉ concat held) /\ (q ∉ t) /\ (q ∉ rest)).
  { rewrite Hp in Ho. apply list.NoDup_cons in Ho as [Ho _]. rewrite !elem_of_app in Ho. tauto. }
  destruct Hq as (Hql & Hqh & Hqt & Hqr).
  assert (Hhome : BounceBlock p = b) by (apply (bo_own _ _ _ _ Ob q); [rewrite Hfl; apply elem_of_cons; by left|done]).
  pose proof (bi_held _ _ _ I) as Hh. apply list.Forall_cons in Hh as [Hl Hh].
  assert (Hlen : Zlength (q :: t) <= BlockPageCount blk).
  { pose proof (bo_count _ _ _ _ Ob). etransitivity; [eapply (pages_bound _ _ m b blk)|lia]; [done|done| |].
    - apply list.NoDup_app in Ho as (_ & _ & Ho). by apply list.NoDup_app in Ho as [? _].
    - intros q' Hq'. rewrite <- Hfl in Hq'. destruct (plist_lookup _ _ _ q' (bo_free _ _ _ _ Ob) Hq') as [p' Ep'].
      exists p'. split; [done|]. by apply (bo_own _ _ _ _ Ob q'). }
  assert (Hu : u32 (InUsePageCount blk + 1) = BlockPageCount blk - Zlength t).
  { rewrite (bo_inuse _ _ _ _ Ob), Hfl. pose proof (bo_count _ _ _ _ Ob). pose proof (Zlength_nonneg t).
    assert (E : Zlength (q :: t) = 1 + Zlength t) by (unfold Zlength; cbn [length]; lia). rewrite E in *.
    rewrite u32_small; lia. }
  apply (relink_inv fl (l :: held) m q p (head l) b blk); try done.
  - unfold all_pages. rewrite R1, R2, Hfl. cbn [concat]. solve_Permutation.
  - intros b' Hne Hb'. rewrite fn_lookup_insert_ne by done. split; [done|]. intros Hin. by apply Hqr, (R3 b').
  - rewrite fn_lookup_insert. by apply plist_relinked.
  - rewrite fn_lookup_insert. intros q' p' Hq' E'. apply (bo_own _ _ _ _ Ob q'); [|done]. rewrite Hfl. by apply elem_of_cons; right.
  - by rewrite fn_lookup_insert.
  - apply list.Forall_cons. split; [|by apply held_relinked]. cbn [head plist]. split; [done|]. cbn.
    exists (set_Next (head l) p). rewrite lookup_insert_eq. split; [done|]. by apply plist_insert.
Qed.

(** Returning the first page of a list to its block. *)
Lemma release_one fl held m q l :
  bounce_inv fl ((q :: l) :: held) m ->
  exists p blk, pages m !! q = Some p /\ blocks m !! BounceBlock p = Some blk /\ NextBouncePage p = head l /\
    bounce_inv (<[BounceBlock p := q :: fl (BounceBlock p)]> fl) (l :: held)
      (relinked m q p (FreePageListHead blk) (BounceBlock p) blk (Some q) (u32 (InUsePageCount blk - 1))).
Proof.
  intros I. pose proof (bi_nodup _ _ _ I) as Hnd.
  pose proof (bi_held _ _ _ I) as Hh. apply list.Forall_cons in Hh as [Hl Hh].
  destruct Hl as (_ & p & Ep & Hl). destruct (bi_home _ _ _ I q p Ep) as (blk & Hb & Eb & _).
  exists p, blk. split_and!; [done|done|by apply plist_head in Hl|]. set (b := BounceBlock p) in *.
  destruct (bi_blocks _ _ _ I b Hb) as (blk' & Eb' & Ob). assert (blk' = blk) as -> by congruence.
  destruct (free_lists_at fl _ b Hnd Hb) as (rest & R1 & R2 & R3).
  pose proof (bi_once _ _ _ I) as Ho. unfold all_pages in Ho. rewrite R2 in Ho. cbn [concat app] in Ho.
  assert (Hq : (q ∉ l) /\ (q ∉ concat held) /\ (q ∉ fl b) /\ (q ∉ rest)).
  { apply list.NoDup_cons in Ho as [Ho _]. rewrite !elem_of_app in Ho. tauto. }
  destruct Hq as (Hql & Hqh & Hqt & Hqr).
  assert (Hlen : Zlength (q :: fl b) <= BlockPageCount blk).
  { pose proof (bo_count _ _ _ _ Ob). etransitivity; [eapply (pages_bound _ _ m b blk)|lia]; [done|done| |].
    - apply list.NoDup_cons. split; [done|]. apply list.NoDup_cons in Ho as [_ Ho].
      apply list.NoDup_app in Ho as (_ & _ & Ho). by apply list.NoDup_app in Ho as [? _].
    - intros q' Hq'. apply elem_of_cons in Hq' as [->|Hq']; [by exists p|].
      destruct (plist_lookup _ _ _ q' (bo_free _ _ _ _ Ob) Hq') as [p' Ep'].
      exists p'. split; [done|]. by apply (bo_own _ _ _ _ Ob q'). }
  assert (Hu : u32 (InUsePageCount blk - 1) = BlockPageCount blk - Zlength (q :: fl b)).
  { rewrite (bo_inuse _ _ _ _ Ob). pose proof (bo_count _ _ _ _ Ob). pose proof (Zlength_nonneg (fl b)).
    assert (E : Zlength (q :: fl b) = 1 + Zlength (fl b)) by (unfold Zlength; cbn [length]; lia). rewrite E in *.
    rewrite u32_small; lia. }
  apply (relink_inv fl ((q :: l) :: held) m q p (FreePageListHead blk) b blk); try done.
  - unfold all_pages. rewrite R1, R2. cbn [concat]. solve_Permutation.
  - intros b' Hne Hb'. rewrite fn_lookup_insert_ne by done. split; [done|]. intros Hin. by apply Hqr, (R3 b').
  - rewrite fn_lookup_insert. split; [done|]. exists (set_Next (FreePageListHead blk) p). cbn. rewrite lookup_insert_eq.
    split; [done|]. apply plist_insert; [done|]. apply Ob.
  - rewrite fn_lookup_insert. intros q' p' Hq' E'. apply elem_of_cons in Hq' as [->|Hq']; [rewrite Ep in E'; by injection E' as <-|].
    by apply (bo_own _ _ _ _ Ob q').
  - by rewrite fn_lookup_insert.
  - apply list.Forall_cons. split; [|by apply held_relinked]. apply plist_relinked; [done|].
    by rewrite <- (plist_head _ _ _ Hl).
Qed.

(** ** Loops over lists *)

(** What acquiring and releasing leave as it was: everything but the links and
    the counts. *)
Definition geometry (blk : EMCL_BOUNCE_BLOCK) := (BlockBase blk, BlockPageCount blk, BouncePageStructureBase blk).
Definition identity (p : EMCL_BOUNCE_PAGE) := (BounceBlock p, PageVA p, HostVisiblePA p).

Record relinks (m m' : memory) : Prop := {
  rl_pool : pool m' = pool m;
  rl_allocs : page_allocs m' = page_allocs m;
  rl_frames : frames m' = frames m;
  rl_client : client m' = client m;
  rl_list : BounceBlockListHead m' = BounceBlockListHead m;
  rl_tick : tick m' = tick m;
  rl_blocks : forall b, geometry <$> blocks m' !! b = geometry <$> blocks m !! b;
  rl_pages : forall q, identity <$> pages m' !! q = identity <$> pages m !! q
}.

#[export] Instance relinks_preorder : PreOrder relinks.
Proof. split; [by split|]. intros m1 m2 m3 H1 H2. destruct H1, H2. split; intros; etransitivity; eauto. Qed.

Lemma relinked_relinks m q p next b blk free inuse :
  pages m !! q = Some p -> blocks m !! b = Some blk -> relinks m (relinked m q p next b blk free inuse).
Proof.
  intros Ep Eb. split; try done; [intros b'|intros q']; cbn.
  - destruct (decide (b' = b)) as [->|]; [by rewrite lookup_insert_eq, Eb|by rewrite lookup_insert_ne].
  - destruct (decide (q' = q)) as [->|]; [by rewrite lookup_insert_eq, Ep|by rewrite lookup_insert_ne].
Qed.

Lemma relinks_ptrs m m' : relinks m m' -> block_ptrs m' = block_ptrs m.
Proof.
  intros R. unfold block_ptrs. rewrite (rl_list _ _ R). f_equal. apply list_fmap_ext. intros i b _.
  pose proof (rl_blocks _ _ R b) as E. unfold structs_at. destruct (blocks m' !! b), (blocks m !! b); simplify_eq/=; congruence.
Qed.

Lemma relinks_size m m' : relinks m m' -> size (pages m') = size (pages m).
Proof.
  intros R. rewrite <- !size_dom. f_equal. apply set_eq. intros q. rewrite !elem_of_dom.
  pose proof (rl_pages _ _ R q) as E. destruct (pages m' !! q), (pages m !! q); simplify_eq/=; split; intros [? ?]; eauto; done.
Qed.

Lemma bounce_nil fl held m : bounce_inv fl ([] :: held) m <-> bounce_inv fl held m.
Proof.
  split; intros [? ? ? Hh ? ? ? ? ? ?]; split; try done; [by apply list.Forall_cons in Hh as [_ ?]|by apply list.Forall_cons].
Qed.

Lemma bounce_swap fl held held' m : held ≡ₚ held' -> bounce_inv fl held m -> bounce_inv fl held' m.
Proof.
  intros Hp [? ? ? Hh Ho Ha ? ? ? ?].
  assert (Hc : all_pages fl held' (BounceBlockListHead m) ≡ₚ all_pages fl held (BounceBlockListHead m)).
  { unfold all_pages. by rewrite Hp. }
  split; try done; [by rewrite <- Hp|by rewrite Hc|]. rewrite Ha. apply list_to_set_perm_L. by symmetry.
Qed.

Definition free_total (fl : Z -> list page_ptr) (m : memory) : nat := length (concat (fl <$> BounceBlockListHead m)).

Lemma bounce_count fl held m : bounce_inv fl held m -> size (pages m) = (length (concat held) + free_total fl m)%nat.
Proof.
  intros I. rewrite <- size_dom, (bi_all _ _ _ I), size_list_to_set by apply I. unfold all_pages, free_total. by rewrite length_app.
Qed.

Lemma release_loop_ok l : forall fuel fl held m, bounce_inv fl (l :: held) m -> (length l <= fuel)%nat ->
  exists fl' m', release_loop fuel (head l) m = Ok (tt, m') /\ bounce_inv fl' held m' /\ relinks m m'.
Proof.
  induction l as [|q l IH]; intros fuel fl held m I Hf.
  - exists fl, m. split_and!; [by destruct fuel|by apply bounce_nil|done].
  - destruct fuel as [|fuel]; [cbn in Hf; lia|]. cbn [release_loop head].
    destruct (release_one fl held m q l I) as (p & blk & Ep & Eb & Hn & I').
    destruct (IH fuel _ _ _ I') as (fl' & m' & E & I2 & R2); [cbn in Hf; lia|].
    exists fl', m'. split_and!; [|done|etransitivity; [by apply relinked_relinks|done]].
    rewrite (hbind_Ok _ _ m p m) by (by apply get_page_ok).
    erewrite hbind_Ok by (by apply upd_block_ok).
    erewrite hbind_Ok by (apply get_block_ok; cbn; apply lookup_insert_eq).
    erewrite hbind_Ok by (apply upd_page_ok; cbn; exact Ep).
    erewrite hbind_Ok by (apply upd_block_ok; cbn; apply lookup_insert_eq).
    rewrite Hn, <- E. f_equal. unfold relinked, set_blocks, set_pages. cbn. by rewrite insert_insert_eq.
Qed.

Lemma release_ok fl l held m : bounce_inv fl (l :: held) m ->
  exists fl' m', EmclpReleaseBouncePages (head l) m = Ok (tt, m') /\ bounce_inv fl' held m' /\ relinks m m'.
Proof.
  intros I. apply (release_loop_ok l _ fl held m I). rewrite (bounce_count _ _ _ I). cbn [concat]. rewrite length_app. lia.
Qed.

Lemma take_pages_ok n : forall l fl held m b, bounce_inv fl (l :: held) m -> b ∈ BounceBlockListHead m ->
  exists n' l' fl' m', take_pages n b (head l) m = Ok ((head l', n'), m') /\ bounce_inv fl' (l' :: held) m' /\ relinks m m' /\
    (length l' + n' = length l + n)%nat /\ (n' = 0%nat \/ fl' b = []) /\ forall b', b' <> b -> fl' b' = fl b'.
Proof.
  induction n as [|n IH]; intros l fl held m b I Hb; cbn [take_pages].
  { exists 0%nat, l, fl, m. split_and!; auto; done. }
  destruct (bi_blocks _ _ _ I b Hb) as (blk & Eb & Ob). erewrite hbind_Ok by (by apply get_block_ok).
  destruct (fl b) as [|q t] eqn:Hfl.
  - exists (Datatypes.S n), l, fl, m. pose proof (bo_free _ _ _ _ Ob) as Hf. cbn in Hf. rewrite Hf. split_and!; auto; done.
  - destruct (take_one fl held m b q t l I Hb Hfl) as (p & blk' & Ep & Eb' & Hhd & I').
    assert (blk' = blk) as -> by congruence. rewrite Hhd.
    destruct (IH (q :: l) _ _ _ b I') as (n' & l' & fl' & m' & E & I2 & R2 & Hc & Hz & Ho); [done|].
    exists n', l', fl', m'. split_and!; try done.
    + rewrite (hbind_Ok _ _ m p m) by (by apply get_page_ok).
      erewrite hbind_Ok by (by apply upd_block_ok).
      erewrite hbind_Ok by (apply upd_page_ok; cbn; exact Ep).
      erewrite hbind_Ok by (apply upd_block_ok; cbn; apply lookup_insert_eq).
      rewrite <- E. cbn [head]. f_equal. unfold relinked, set_blocks, set_pages. cbn. by rewrite insert_insert_eq.
    + etransitivity; [by apply relinked_relinks|done].
    + cbn [length] in Hc. lia.
    + intros b' Hne. rewrite Ho by done. by apply fn_lookup_insert_ne.
Qed.

Lemma acquire_loop_ok bs : forall n l fl held m, bounce_inv fl (l :: held) m -> NoDup bs -> (forall b, b ∈ bs -> b ∈ BounceBlockListHead m) ->
  exists n' l' fl' m', acquire_loop bs n (head l) m = Ok ((head l', n'), m') /\ bounce_inv fl' (l' :: held) m' /\ relinks m m' /\
    (length l' + n' = length l + n)%nat /\ (n' = 0%nat \/ forall b, b ∈ bs -> fl' b = []) /\ forall b, b ∉ bs -> fl' b = fl b.
Proof.
  induction bs as [|b bs IH]; intros n l fl held m I Hn Hin; cbn [acquire_loop].
  { exists n, l, fl, m. split_and!; auto; try done. right. intros b Hb. by apply not_elem_of_nil in Hb. }
  apply list.NoDup_cons in Hn as [Hb Hn].
  destruct (take_pages_ok n l fl held m b I) as (n1 & l1 & fl1 & m1 & E1 & I1 & R1 & C1 & Z1 & O1); [apply Hin, elem_of_cons; auto|].
  rewrite (hbind_Ok _ _ _ _ _ E1). destruct (Nat.eqb_spec n1 0) as [->|Hz].
  - exists 0%nat, l1, fl1, m1. split_and!; auto; try done. intros b' Hb'. apply O1. intros ->. apply Hb', elem_of_cons; auto.
  - destruct (IH n1 l1 fl1 held m1 I1 Hn) as (n' & l' & fl' & m' & E & I2 & R2 & C2 & Z2 & O2).
    { intros b' Hb'. rewrite (rl_list _ _ R1). apply Hin, elem_of_cons; auto. }
    exists n', l', fl', m'. split_and!; try done; [by etransitivity|lia| |].
    + destruct Z2 as [|Z2]; [by left|]. right. intros b' Hb'. apply elem_of_cons in Hb' as [->|Hb']; [|auto].
      rewrite O2 by done. destruct Z1; done.
    + intros b' Hb'. apply not_elem_of_cons in Hb' as [Hne Hb']. rewrite O2, O1; done.
Qed.

(** Acquisition either yields [PageCount] pages on a list of their own, or finds
    fewer free pages than that and puts back what it took. *)
Lemma acquire_ok fl held m n : bounce_inv fl held m -> 0 < n ->
  exists r fl' m', EmclpAcquireBouncePages n m = Ok (r, m') /\ relinks m m' /\
    match r with
    | Some _ => exists l, r = head l /\ Zlength l = n /\ bounce_inv fl' (l :: held) m'
    | None => (Z.of_nat (free_total fl m) < n)%Z /\ bounce_inv fl' held m'
    end.
Proof.
  intros I Hn. unfold EmclpAcquireBouncePages.
  rewrite (hbind_Ok _ _ m (BounceBlockListHead m) m) by done.
  destruct (acquire_loop_ok (BounceBlockListHead m) (Z.to_nat n) [] fl held m) as (n' & l & fl1 & m1 & E & I1 & R1 & C1 & Z1 & _);
    [by apply bounce_nil|by apply (bi_nodup _ _ _ I)|done|].
  cbn [head length] in E, C1. rewrite (hbind_Ok _ _ _ _ _ E). destruct (Nat.eqb_spec n' 0) as [->|Hz]; cbn [negb].
  - exists (head l), fl1, m1. split_and!; [done|done|]. assert (Zlength l = n) by (unfold Zlength; lia).
    destruct l as [|q l]; [unfold Zlength in *; cbn in *; lia|]. cbn [head]. by exists (q :: l).
  - destruct Z1 as [|Z1]; [done|]. destruct (release_ok fl1 l held m1 I1) as (fl2 & m2 & E2 & I2 & R2).
    exists None, fl2, m2. rewrite (hbind_Ok _ _ _ _ _ E2). split_and!; [done|by etransitivity| |done].
    pose proof (bounce_count _ _ _ I) as K. pose proof (bounce_count _ _ _ I1) as K1.
    rewrite (relinks_size _ _ R1) in K1. cbn [concat] in K1. rewrite length_app in K1.
    assert (Hz0 : free_total fl1 m1 = 0%nat).
    { unfold free_total. rewrite (rl_list _ _ R1). clear -Z1. induction (BounceBlockListHead m) as [|b bs IH]; [done|].
      rewrite fmap_cons. cbn [concat]. rewrite length_app, IH, Z1; [done|apply elem_of_cons; auto|].
      intros b' Hb'. apply Z1, elem_of_cons; auto. }
    lia.
Qed.
End Inv.
