(* ===== verification/EmclBounceAlloc.v ===== *)
(** Allocation and release of blocks of bounce pages: a new block adds its pages
    to the free ones, a failed allocation leaves nothing behind, and releasing
    all blocks returns everything they own. *)
From stdpp Require Import base list numbers list_numbers option gmap fin_map_dom functions.
From Stdlib Require Import ZArith Lia.
From S2P Require Import Prelude Circular PkRing EmclPacket EmclBounce EmclBounceInv.
Open Scope Z_scope.
Import EmclPacket EmclBounce.

(** Pool pointers as sets, 0 standing for none. *)
Definition one_ptr (s : Z) : gset Z := if s =? 0 then ∅ else {[s]}.

Lemma undo_pool (s b : Z) (P : gset Z) : b ∉ P -> s = 0 \/ ((s ∉ P) /\ s <> b) ->
  (one_ptr s ∪ ({[b]} ∪ P)) ∖ one_ptr s ∖ {[b]} = P.
Proof.
  unfold one_ptr. intros Hb Hs. destruct (Z.eqb_spec s 0) as [E|E]; [clear Hs; set_solver|].
  destruct Hs as [|[H1 H2]]; [done|]. clear E. set_solver.
Qed.

Lemma in_new (s b : Z) (P : gset Z) : b ∈ one_ptr s ∪ ({[b]} ∪ P).
Proof. set_solver. Qed.

Lemma in_one_ptr (s : Z) (P : gset Z) : s <> 0 -> s ∈ one_ptr s ∪ P.
Proof. unfold one_ptr. intros Hs. destruct (Z.eqb_spec s 0); [done|set_solver]. Qed.

Section Alloc.
Context {B : BuildOptions} {S : Services} {D : Dma} (HS : services_ok).

(** ** The allocators *)
Definition ticked (m : memory) : memory := set_tick (Datatypes.S (tick m)) m.

Lemma AllocatePool_ok n m : exists p, (p = 0 /\ AllocatePool n m = Ok (0, ticked m)) \/
  (p <> 0 /\ (p ∉ pool m) /\ AllocatePool n m = Ok (p, set_pool ({[p]} ∪ pool m) (ticked m))).
Proof.
  pose proof (pool_fresh HS (tick m) (pool m) n) as Hf. unfold AllocatePool. exists (AllocatePool_answer (tick m) (pool m) n).
  destruct (Z.eqb_spec (AllocatePool_answer (tick m) (pool m) n) 0) as [->|Hne]; [by left|]. right. auto.
Qed.

Definition fresh_pages (m : memory) (a n : Z) : Prop :=
  0 < a /\ a mod 4096 = 0 /\ a + 4096 * n < 2 ^ 47 /\ page_allocs m !! a = None /\
  forall b k, page_allocs m !! b = Some k -> a + 4096 * n <= b \/ b + 4096 * k <= a.

Lemma AllocatePages_ok n m : 0 < n -> exists a, (a = 0 /\ AllocatePages n m = Ok (0, ticked m)) \/
  (fresh_pages m a n /\ AllocatePages n m = Ok (a, set_page_allocs (<[a := n]> (page_allocs m)) (ticked m))).
Proof.
  intros Hn. pose proof (pages_fresh HS (tick m) (page_allocs m) n Hn) as Hf. unfold AllocatePages.
  exists (AllocatePages_answer (tick m) (page_allocs m) n).
  destruct (Z.eqb_spec (AllocatePages_answer (tick m) (page_allocs m) n) 0) as [->|Hne]; [by left|]. right. split; [by apply Hf|done].
Qed.

(** ** Releasing a block *)
Definition freed_pages (m : memory) (structs : Z) : gmap page_ptr EMCL_BOUNCE_PAGE :=
  if structs =? 0 then pages m else filter (fun kv => kv.1.1 <> structs) (pages m).
Definition freed_frames (m : memory) (a n : Z) : gmap Z (list Z) :=
  if a =? 0 then frames m else filter (fun kv => kv.1 ∉ block_frames (shared_va a) n) (frames m).

Lemma FreePool_ok p m : p ∈ pool m -> FreePool p m = Ok (tt, set_pool (pool m ∖ {[p]}) m).
Proof. intros Hp. unfold FreePool. by rewrite decide_True. Qed.

Lemma free_block_ok b m blk :
  blocks m !! b = Some blk -> b ∈ pool m ->
  (BouncePageStructureBase blk = 0 \/ BouncePageStructureBase blk ∈ pool m /\ BouncePageStructureBase blk <> b) ->
  (BlockBase blk = 0 \/ page_allocs m !! BlockBase blk = Some (BlockPageCount blk)) ->
  EmclpFreeBounceBlock b m = Ok (tt, mkMem
    (pool m ∖ one_ptr (BouncePageStructureBase blk) ∖ {[b]})
    (if BlockBase blk =? 0 then page_allocs m else delete (BlockBase blk) (page_allocs m))
    (delete b (blocks m)) (freed_pages m (BouncePageStructureBase blk))
    (freed_frames m (BlockBase blk) (BlockPageCount blk)) (client m) (BounceBlockListHead m) (tick m)).
Proof.
  intros Eb Hb Hs Ha. unfold EmclpFreeBounceBlock. rewrite (hbind_Ok _ _ _ _ _ (get_block_ok _ _ _ Eb)).
  set (s := BouncePageStructureBase blk) in *. set (a := BlockBase blk) in *. set (n := BlockPageCount blk) in *.
  set (blk1 := if s =? 0 then blk else set_Structs 0 blk).
  set (m1 := mkMem (pool m ∖ one_ptr s) (page_allocs m) (<[b := blk1]> (blocks m)) (freed_pages m s)
    (frames m) (client m) (BounceBlockListHead m) (tick m)).
  set (blk2 := if a =? 0 then blk1 else set_Base 0 0 blk1).
  set (m2 := mkMem (pool m1) (if a =? 0 then page_allocs m else delete a (page_allocs m)) (<[b := blk2]> (blocks m)) (pages m1)
    (freed_frames m a n) (client m) (BounceBlockListHead m) (tick m)).
  rewrite (hbind_Ok _ _ m tt m1).
  2:{ subst m1 blk1. unfold freed_pages, one_ptr. destruct (Z.eqb_spec s 0) as [|Hs0]; cbn [negb].
      - unfold mret, H_ret. rewrite difference_empty_L, insert_id by done. by destruct m.
      - destruct Hs as [|[Hs Hsb]]; [done|]. rewrite (hbind_Ok _ _ _ _ _ (FreePool_ok s m Hs)).
        erewrite hbind_Ok by done. by erewrite upd_block_ok. }
  rewrite (hbind_Ok _ _ m1 tt m2).
  2:{ subst m2 blk2. unfold freed_frames. destruct (Z.eqb_spec a 0) as [|Ha0]; cbn [negb]; [done|].
      destruct Ha as [|Ha]; [done|]. unfold FreePages.
      erewrite hbind_Ok by (cbn; by rewrite Ha, Z.eqb_refl). erewrite hbind_Ok by done.
      erewrite upd_block_ok by (cbn; apply lookup_insert_eq). unfold set_blocks. cbn. by rewrite insert_insert_eq. }
  rewrite (hbind_Ok _ _ m2 tt (set_pool (pool m2 ∖ {[b]}) m2)).
  - unfold hmod, set_blocks, m2. cbn. by rewrite delete_insert_eq.
  - apply FreePool_ok. subst m2 m1. cbn. unfold one_ptr. destruct (Z.eqb_spec s 0) as [Hs0|Hs0]; [set_solver|].
    destruct Hs as [|[_ Hsb]]; [done|set_solver].
Qed.

(** ** Changes around the blocks *)
Lemma bounce_transport fl held m m' :
  bounce_inv fl held m -> BounceBlockListHead m' = BounceBlockListHead m -> pages m' = pages m ->
  (forall b, b ∈ BounceBlockListHead m -> blocks m' !! b = blocks m !! b) ->
  (forall p, p ∈ block_ptrs m -> p ∈ pool m') ->
  (forall b blk, b ∈ BounceBlockListHead m -> blocks m !! b = Some blk ->
    page_allocs m !! BlockBase blk = Some (BlockPageCount blk) -> page_allocs m' !! BlockBase blk = Some (BlockPageCount blk)) ->
  (forall q p c, pages m !! q = Some p -> frames m !! PageVA p = Some c ->
    exists c', frames m' !! PageVA p = Some c' /\ Zlength c' = Zlength c) ->
  block_ptrs m' = block_ptrs m /\ bounce_inv fl held m'.
Proof.
  intros I Hl Hp Hb Hpool Hal Hf.
  assert (E : block_ptrs m' = block_ptrs m).
  { unfold block_ptrs. rewrite Hl. f_equal. apply list_fmap_ext. intros i b Ei. unfold structs_at.
    rewrite Hb; [done|]. by eapply list_elem_of_lookup_2. }
  split; [done|]. split; rewrite ?E, ?Hl, ?Hp; try apply I; [done| | | | |].
  - intros b Hin. destruct (bi_blocks _ _ _ I b Hin) as (blk & Eb & Ob). rewrite Hb by done. exists blk. split; [done|].
    split; try apply Ob; [rewrite Hp; apply Ob..|]. eapply Hal; [done..|]. apply Ob.
  - intros q p Eq. destruct (bi_home _ _ _ I q p Eq) as (blk & Hin & Eb & Ho). exists blk. by rewrite Hb.
  - intros b blk i Hin. rewrite Hb by done. by apply I.
  - intros b b' blk blk' Hin Hin' Hne. rewrite !Hb by done. by apply I.
  - intros q p Eq. destruct (bi_frames _ _ _ I q p Eq) as (c & Ec & Hc). destruct (Hf q p c Eq Ec) as (c' & Ec' & Hc').
    exists c'. split; [done|congruence].
Qed.

(** Addresses of shared pages. *)
Lemma shared_distinct a a' i j n n' : 0 <= a -> 0 <= a' -> a + 4096 * n < 2 ^ 47 -> a' + 4096 * n' < 2 ^ 47 ->
  0 <= i < n -> 0 <= j < n' -> a + 4096 * n <= a' \/ a' + 4096 * n' <= a ->
  shared_va a + 4096 * i <> shared_va a' + 4096 * j.
Proof.
  intros. destruct (shared_shift HS) as (K & P & _ & _ & Hk). destruct (Hk a) as [-> _]; [lia|].
  destruct (Hk a') as [-> _]; [lia|]. lia.
Qed.

Lemma in_block_frames va n x : x ∈ block_frames va n <-> exists i, 0 <= i < n /\ x = va + 4096 * i.
Proof.
  unfold block_frames. rewrite list_elem_of_fmap. split.
  - intros (i & -> & Hi). apply elem_of_seqZ in Hi. exists i. split; [lia|done].
  - intros (i & Hi & ->). exists i. split; [done|]. apply elem_of_seqZ. lia.
Qed.

(** Releasing pages that are fresh to the blocks does not touch their frames. *)
Lemma freed_frames_fresh fl held m a n q p c : bounce_inv fl held m -> fresh_pages m a n -> 0 < n ->
  pages m !! q = Some p -> frames m !! PageVA p = Some c -> freed_frames m a n !! PageVA p = Some c.
Proof.
  intros I (Ha & _ & Hb & _ & Hd) Hn Eq Ec. unfold freed_frames. destruct (Z.eqb_spec a 0); [lia|].
  apply map_lookup_filter_Some. split; [done|]. cbn. rewrite in_block_frames. intros (i & Hi & Ei).
  destruct (bi_home _ _ _ I q p Eq) as (blk & Hin & Eb & H1 & H2 & _ & HVA & _).
  destruct (bi_blocks _ _ _ I _ Hin) as (blk' & Eb' & Ob). assert (blk' = blk) as -> by congruence.
  pose proof (Hd _ _ (bo_alloc _ _ _ _ Ob)) as Hdis. destruct (bo_base _ _ _ _ Ob) as (B1 & B2 & B3).
  rewrite HVA in Ei. revert Ei. apply (shared_distinct _ _ _ _ (BlockPageCount blk) n); try lia.
Qed.

Lemma freed_pages_fresh fl held m s : bounce_inv fl held m -> s ∉ pool m -> freed_pages m s = pages m.
Proof.
  intros I Hs. unfold freed_pages. destruct (Z.eqb_spec s 0); [done|]. apply map_filter_id. intros q p Eq. cbn.
  destruct (bi_home _ _ _ I q p Eq) as (blk & Hin & Eb & H1 & _). intros Hq. apply Hs. rewrite <- Hq, H1.
  apply (bi_pool _ _ _ I). apply elem_of_app. right. apply list_elem_of_fmap. exists (BounceBlock p).
  unfold structs_at. by rewrite Eb.
Qed.

(** ** Initialising a block *)
Definition new_page (pc s b va pa i : Z) : EMCL_BOUNCE_PAGE :=
  mkPage (if i =? pc - 1 then None else Some (s, i + 1)) b (va + 4096 * i) (pa + 4096 * i).

Lemma init_pages_ok n : forall i pc s b va pa m,
  0 <= i -> 0 <= va + 4096 * i -> 0 <= pa + 4096 * i -> va + 4096 * (i + Z.of_nat n) < 2 ^ 64 -> pa + 4096 * (i + Z.of_nat n) < 2 ^ 64 ->
  exists pgs frs, init_pages n i pc s b (va + 4096 * i) (pa + 4096 * i) m = Ok (tt, set_frames frs (set_pages pgs m)) /\
    (forall j, i <= j < i + Z.of_nat n -> pgs !! (s, j) = Some (new_page pc s b va pa j) /\ frs !! (va + 4096 * j) = Some (replicate 4096 0)) /\
    (forall q, (forall j, i <= j < i + Z.of_nat n -> q <> (s, j)) -> pgs !! q = pages m !! q) /\
    (forall x, (forall j, i <= j < i + Z.of_nat n -> x <> va + 4096 * j) -> frs !! x = frames m !! x).
Proof.
  induction n as [|n IH]; intros i pc s b va pa m Hi Hv Hp Hv2 Hp2; cbn [init_pages].
  { exists (pages m), (frames m). split_and!; [by destruct m|intros; lia|done|done]. }
  unfold hmod at 1. erewrite hbind_Ok by done. erewrite hbind_Ok by done.
  set (m1 := set_frames (<[va + 4096 * i := replicate 4096 0]> (frames m))
    (set_pages (<[(s, i) := mkPage (if i =? pc - 1 then None else Some (s, i + 1)) b (va + 4096 * i) (pa + 4096 * i)]> (pages m)) m)).
  change PkRing.EFI_PAGE_SIZE with 4096.
  replace (u64 (va + 4096 * i + 4096)) with (va + 4096 * (i + 1)) by (unfold u64; rewrite Z.mod_small; lia).
  replace (u64 (pa + 4096 * i + 4096)) with (pa + 4096 * (i + 1)) by (unfold u64; rewrite Z.mod_small; lia).
  destruct (IH (i + 1) pc s b va pa m1) as (pgs & frs & E & Hin & Hq & Hx); [lia..|].
  exists pgs, frs. split_and!; [exact E| | |].
  - intros j Hj. destruct (decide (j = i)) as [->|Hne].
    + rewrite Hq, Hx.
      * subst m1. cbn. rewrite !lookup_insert_eq. done.
      * intros j' Hj' E'. lia.
      * intros j' Hj' [= E']. lia.
    + apply Hin. lia.
  - intros q Hn. rewrite Hq by (intros j Hj; apply Hn; lia). subst m1. cbn. rewrite lookup_insert_ne; [done|].
    intros E'. by apply (Hn i); [lia|].
  - intros x Hn. rewrite Hx by (intros j Hj; apply Hn; lia). subst m1. cbn. rewrite lookup_insert_ne; [done|].
    intros E'. by apply (Hn i); [lia|].
Qed.

Definition page_array (s n : Z) : list page_ptr := (fun i => (s, i)) <$> seqZ 0 n.

Lemma in_page_array s n q : q ∈ page_array s n <-> q.1 = s /\ 0 <= q.2 < n.
Proof.
  unfold page_array. rewrite list_elem_of_fmap. setoid_rewrite elem_of_seqZ. split.
  - intros (i & -> & Hi). cbn. split; [done|lia].
  - intros [H1 H2]. exists q.2. split; [destruct q; cbn in *; congruence|lia].
Qed.

Lemma page_array_plist pgs pc s b va pa :
  (forall j, 0 <= j < pc -> pgs !! (s, j) = Some (new_page pc s b va pa j)) -> 0 < pc ->
  plist pgs (Some (s, 0)) (page_array s pc).
Proof.
  intros Hp Hpc. unfold page_array.
  assert (Hg : forall k i, 0 <= i -> i + Z.of_nat k + 1 = pc ->
    plist pgs (Some (s, i)) ((fun i => (s, i)) <$> seqZ i (Z.of_nat k + 1))).
  { induction k as [|k IH]; intros i Hi Hk; rewrite seqZ_cons by lia; rewrite fmap_cons; cbn [plist]; split; try done;
      eexists; (split; [apply Hp; lia|]); cbn; destruct (Z.eqb_spec i (pc - 1)); try lia.
    - done.
    - replace (Z.pred (Z.of_nat (Datatypes.S k) + 1)) with (Z.of_nat k + 1) by lia.
      replace (Z.succ i) with (i + 1) by lia. apply IH; lia. }
  replace pc with (Z.of_nat (Z.to_nat (pc - 1)) + 1) at 1 by lia. apply Hg; lia.
Qed.

Section AddBlock.
Context (fl : Z -> list page_ptr) (held : list (list page_ptr)) (m m' : memory) (b s a n h : Z) (vis : bool).
Context (I : bounce_inv fl held m) (Hb : b ∉ pool m) (Hs : s ∉ pool m) (Hbs : b <> s) (Hs0 : s <> 0) (Hn : 0 < n < 2 ^ 20)
  (Ha : fresh_pages m a n).
Context (El : BounceBlockListHead m' = BounceBlockListHead m ++ [b]) (Ep : pool m' = {[s]} ∪ ({[b]} ∪ pool m))
  (Ea : page_allocs m' = <[a := n]> (page_allocs m))
  (Eb : blocks m' !! b = Some (mkBlock (Some (s, 0)) 0 vis a n h s))
  (Eb' : forall b', b' <> b -> blocks m' !! b' = blocks m !! b').
Context (Hpg : forall j, 0 <= j < n -> pages m' !! (s, j) = Some (new_page n s b (shared_va a) (shared_pa a) j) /\
    frames m' !! (shared_va a + 4096 * j) = Some (replicate 4096 0))
  (Hpg' : forall q, (forall j, 0 <= j < n -> q <> (s, j)) -> pages m' !! q = pages m !! q)
  (Hfr' : forall x, (forall j, 0 <= j < n -> x <> shared_va a + 4096 * j) -> frames m' !! x = frames m !! x).

Let l := page_array s n.
Let fl' := <[b := l]> fl.

Lemma new_not_listed : b ∉ BounceBlockListHead m.
Proof. intros Hin. apply Hb, (bi_pool _ _ _ I). apply elem_of_app. by left. Qed.

Lemma old_not_new q p : pages m !! q = Some p -> forall j, q <> (s, j).
Proof.
  intros Eq j ->. destruct (bi_home _ _ _ I _ _ Eq) as (blk & Hin & E & H1 & _). cbn in H1.
  apply Hs, (bi_pool _ _ _ I). apply elem_of_app. right. apply list_elem_of_fmap. exists (BounceBlock p). unfold structs_at. by rewrite E.
Qed.

Lemma old_pages q p : pages m !! q = Some p -> pages m' !! q = Some p.
Proof. intros Eq. rewrite Hpg'; [done|]. intros j _. by apply (old_not_new q p). Qed.

Lemma add_pages_cases q p : pages m' !! q = Some p ->
  (exists j, 0 <= j < n /\ q = (s, j) /\ p = new_page n s b (shared_va a) (shared_pa a) j) \/ pages m !! q = Some p.
Proof.
  intros Eq. destruct (decide (q ∈ page_array s n)) as [Hin|Hni].
  - apply in_page_array in Hin as [H1 H2]. left. exists q.2. destruct q as [q1 j]; cbn in *. subst q1.
    destruct (Hpg j H2) as [E _]. split_and!; [lia|lia|done|congruence].
  - right. rewrite <- Hpg'; [done|]. intros j Hj ->. apply Hni, in_page_array. done.
Qed.

Lemma plist_grow hd l0 : plist (pages m) hd l0 -> plist (pages m') hd l0.
Proof.
  revert hd. induction l0 as [|q l0 IH]; intros hd Hp; [done|]. destruct Hp as (-> & p & Eq & Hr). split; [done|].
  exists p. split; [by apply old_pages|auto].
Qed.

Lemma add_ptrs : block_ptrs m' ≡ₚ [b; s] ++ block_ptrs m.
Proof.
  unfold block_ptrs. rewrite El, fmap_app. cbn [fmap list_fmap]. unfold structs_at at 2. rewrite Eb. cbn [fmap option_fmap option_map default].
  replace (structs_at m' <$> BounceBlockListHead m) with (structs_at m <$> BounceBlockListHead m).
  - cbn. solve_Permutation.
  - apply list_fmap_ext. intros i b' Ei. unfold structs_at. rewrite Eb'; [done|]. intros E. apply new_not_listed.
    rewrite <- E. by eapply list_elem_of_lookup_2.
Qed.

Lemma fl_old : fl' <$> BounceBlockListHead m = fl <$> BounceBlockListHead m.
Proof.
  apply list_fmap_ext. intros i b' Ei. apply fn_lookup_insert_ne. intros E. apply new_not_listed.
  rewrite E. by eapply list_elem_of_lookup_2.
Qed.

Lemma add_all : all_pages fl' held (BounceBlockListHead m') ≡ₚ l ++ all_pages fl held (BounceBlockListHead m).
Proof.
  unfold all_pages. rewrite El, fmap_app, fl_old, concat_app. cbn [fmap list_fmap concat].
  unfold fl' at 1. rewrite fn_lookup_insert. solve_Permutation.
Qed.

Lemma old_dom q : q ∈ all_pages fl held (BounceBlockListHead m) <-> is_Some (pages m !! q).
Proof. by rewrite <- elem_of_dom, (bi_all _ _ _ I), elem_of_list_to_set. Qed.

Lemma old_block_alloc b' blk : b' ∈ BounceBlockListHead m -> blocks m !! b' = Some blk ->
  a + 4096 * n <= BlockBase blk \/ BlockBase blk + 4096 * BlockPageCount blk <= a.
Proof.
  intros Hin E. destruct (bi_blocks _ _ _ I b' Hin) as (blk' & E' & Ob). assert (blk' = blk) as -> by congruence.
  destruct Ha as (_ & _ & _ & _ & Hd). apply Hd. apply Ob.
Qed.

Lemma add_block_ok : bounce_inv fl' held m'.
Proof.
  pose proof new_not_listed as Hnl. pose proof Ha as (A1 & A2 & A3 & _ & A4).
  assert (Hlist : forall b', b' ∈ BounceBlockListHead m' -> b' = b \/ (b' ∈ BounceBlockListHead m /\ b' <> b)).
  { intros b'. rewrite El, elem_of_app, list_elem_of_singleton. intros [Hin|Hin]; [right|by left]. split; [done|]. by intros ->. }
  split.
  - rewrite add_ptrs. cbn. apply list.NoDup_cons. split.
    { rewrite elem_of_cons. intros [|Hin]; [done|]. by apply Hb, (bi_pool _ _ _ I). }
    apply list.NoDup_cons. split; [intros Hin; by apply Hs, (bi_pool _ _ _ I)|apply I].
  - intros p. rewrite add_ptrs. cbn. rewrite !elem_of_cons, Ep, !elem_of_union, !elem_of_singleton.
    intros [->|[->|Hin]]; [tauto..|]. right; right. by apply (bi_pool _ _ _ I).
  - intros b' Hin'. destruct (Hlist b' Hin') as [->|[Hin Hne]].
    + eexists. split; [exact Eb|]. unfold fl'. rewrite fn_lookup_insert.
      assert (Hl : Zlength l = n) by (unfold l, page_array, Zlength; rewrite length_fmap, length_seqZ; lia).
      split; cbn; try done.
      * apply (page_array_plist _ n s b (shared_va a) (shared_pa a)); [|lia]. intros j Hj. by apply Hpg.
      * intros q p Hq Eq. apply in_page_array in Hq as [H1 H2]. destruct q as [q1 j]; cbn in *. subst q1.
        destruct (Hpg j H2) as [E _]. rewrite E in Eq. by injection Eq as <-.
      * lia.
      * by rewrite Ea, lookup_insert_eq.
    + destruct (bi_blocks _ _ _ I b' Hin) as (blk & E & Ob). exists blk. rewrite Eb' by done. split; [done|].
      unfold fl'. rewrite fn_lookup_insert_ne by done. split; try apply Ob.
      * apply plist_grow, Ob.
      * intros q p Hq Eq. destruct (plist_lookup _ _ _ q (bo_free _ _ _ _ Ob) Hq) as [p' Eq'].
        rewrite (old_pages _ _ Eq') in Eq. injection Eq as <-. by apply (bo_own _ _ _ _ Ob q).
      * rewrite Ea, lookup_insert_ne; [apply Ob|]. pose proof (old_block_alloc b' blk Hin E).
        pose proof (bo_count _ _ _ _ Ob). lia.
  - eapply list.Forall_impl; [apply (bi_held _ _ _ I)|]. intros l0 Hl0. by apply plist_grow.
  - rewrite add_all. apply list.NoDup_app. split_and!; [|..|apply I].
    + unfold l, page_array. apply NoDup_fmap_2; [intros i j [= E]; exact E|apply NoDup_seqZ].
    + intros q Hq Hq'. apply old_dom in Hq' as [p Eq]. apply in_page_array in Hq as [H1 H2].
      apply (old_not_new q p Eq q.2). destruct q; cbn in *; congruence.
  - apply set_eq. intros q. rewrite elem_of_dom, elem_of_list_to_set, add_all, elem_of_app, old_dom. split.
    + intros [p Eq]. destruct (add_pages_cases q p Eq) as [(j & Hj & -> & _)|E]; [left; by apply in_page_array|right; by exists p].
    + intros [Hq|[p Eq]]; [|exists p; by apply old_pages]. apply in_page_array in Hq as [H1 H2].
      destruct q as [q1 j]; cbn in *. subst q1. eexists. by apply Hpg.
  - intros q p Eq. destruct (add_pages_cases q p Eq) as [(j & Hj & -> & ->)|E].
    + cbn. eexists. rewrite El, Eb, elem_of_app, list_elem_of_singleton. split; [by right|]. split; [done|]. unfold page_of. cbn. split_and!; (done || lia).
    + destruct (bi_home _ _ _ I q p E) as (blk & Hin & E2 & Ho). exists blk. rewrite El, elem_of_app.
      rewrite Eb' by (by intros <-). auto.
  - intros b' blk i Hin' E Hi. destruct (Hlist b' Hin') as [->|[Hin Hne]].
    + rewrite Eb in E. injection E as <-. cbn in *. eexists. by split; [apply Hpg|].
    + rewrite Eb' in E by done. destruct (bi_full _ _ _ I b' blk i Hin E Hi) as (p & Eq & Hp).
      exists p. split; [by apply old_pages|done].
  - intros b1 b2 blk1 blk2 H1 H2 Hne E1 E2.
    destruct (Hlist b1 H1) as [->|[Hin1 Hne1]], (Hlist b2 H2) as [->|[Hin2 Hne2]]; [done| | |].
    + rewrite Eb in E1. injection E1 as <-. rewrite Eb' in E2 by done. cbn. by apply (old_block_alloc b2).
    + rewrite Eb in E2. injection E2 as <-. rewrite Eb' in E1 by done. cbn.
      destruct (old_block_alloc b1 blk1 Hin1 E1); auto.
    + rewrite Eb' in E1, E2 by done. by apply (bi_disjoint _ _ _ I b1 b2).
  - intros q p Eq. destruct (add_pages_cases q p Eq) as [(j & Hj & -> & ->)|E].
    + exists (replicate 4096 0). split; [by apply Hpg|done].
    + destruct (bi_frames _ _ _ I q p E) as (c & Ec & Hc). exists c. split; [|done]. rewrite Hfr'; [done|].
      destruct (bi_home _ _ _ I q p E) as (blk & Hin & E2 & H1 & H2 & _ & HVA & _). intros j Hj. rewrite HVA.
      destruct (bi_blocks _ _ _ I _ Hin) as (blk' & E2' & Ob). assert (blk' = blk) as -> by congruence.
      destruct (bo_base _ _ _ _ Ob) as (B1 & B2 & B3). pose proof (old_block_alloc _ _ Hin E2).
      apply (shared_distinct _ _ _ _ (BlockPageCount blk) n); try lia.
Qed.

Lemma add_block_free : free_total fl' m' = (free_total fl m + Z.to_nat n)%nat.
Proof.
  unfold free_total. rewrite El, fmap_app, fl_old, concat_app, length_app. cbn [fmap list_fmap concat].
  unfold fl'. rewrite fn_lookup_insert, app_nil_r. unfold l, page_array. by rewrite length_fmap, length_seqZ.
Qed.
End AddBlock.

(** ** [EmclpAllocateBounceBlock] *)

(** What a failed allocation leaves as it was. *)
Record untouched (m m' : memory) : Prop := {
  un_pool : pool m' = pool m;
  un_allocs : page_allocs m' = page_allocs m;
  un_client : client m' = client m;
  un_list : BounceBlockListHead m' = BounceBlockListHead m;
  un_ptrs : block_ptrs m' = block_ptrs m
}.

(** Releasing a block that was not yet listed. *)
Lemma undo_block fl held m x b blk : bounce_inv fl held m -> b ∉ pool m ->
  let s := BouncePageStructureBase blk in let a := BlockBase blk in let n := BlockPageCount blk in
  x.(blocks) = <[b := blk]> (blocks m) -> pages x = pages m -> frames x = frames m -> client x = client m ->
  BounceBlockListHead x = BounceBlockListHead m ->
  pool x = one_ptr s ∪ ({[b]} ∪ pool m) -> s = 0 \/ ((s ∉ pool m) /\ s <> b) ->
  page_allocs x = (if a =? 0 then page_allocs m else <[a := n]> (page_allocs m)) -> a = 0 \/ (fresh_pages m a n /\ 0 < n) ->
  exists m', EmclpFreeBounceBlock b x = Ok (tt, m') /\ untouched m m' /\ bounce_inv fl held m'.
Proof.
  intros I Hb s a n Eb Ep Ef Ec El Epl Hs Ea Ha.
  assert (Hbl : b ∉ BounceBlockListHead m) by (intros Hin; apply Hb, (bi_pool _ _ _ I), elem_of_app; by left).
  eexists. split; [apply free_block_ok|]; fold s; fold a; fold n.
  - by rewrite Eb, lookup_insert_eq.
  - rewrite Epl. apply in_new.
  - destruct (decide (s = 0)) as [|Hs0]; [by left|right]. destruct Hs as [|[Hs Hsb]]; [done|]. split; [|done].
    rewrite Epl. by apply in_one_ptr.
  - destruct Ha as [|[Ha _]]; [by left|right]. rewrite Ea. destruct (Z.eqb_spec a 0); [destruct Ha; lia|]. apply lookup_insert_eq.
  - match goal with |- untouched m ?m' /\ _ => set (z := m') end.
    assert (Hpool : pool z = pool m).
    { subst z. cbn. rewrite Epl. by apply undo_pool. }
    assert (Hall : page_allocs z = page_allocs m).
    { subst z. cbn. fold a. rewrite Ea. destruct (Z.eqb_spec a 0); [done|]. destruct Ha as [|[(_ & _ & _ & Hn & _) _]]; [done|].
      by rewrite delete_insert_eq, delete_id. }
    destruct (bounce_transport fl held m z) as [Hptrs I']; subst z; cbn in *; try done.
    + fold s. unfold freed_pages. rewrite Ep. destruct Hs as [Hs|[Hs _]]; [by rewrite Hs|]. by apply (freed_pages_fresh fl held m).
    + intros b' Hin. rewrite Eb, delete_insert_eq. apply lookup_delete_ne. by intros <-.
    + intros p Hp. rewrite Hpool. by apply (bi_pool _ _ _ I).
    + intros b' blk' _ _ Hal. by rewrite Hall.
    + intros q p c Eq Ecc. exists c. split; [|done]. fold a n. unfold freed_frames. rewrite Ef.
      destruct Ha as [Ha|[Ha Hn]]; [by rewrite Ha|]. by apply (freed_frames_fresh fl held m a n q p c).
Qed.

Record added (m m' : memory) (b s a n : Z) : Prop := {
  ad_b : b ∉ pool m;
  ad_s : s ∉ pool m;
  ad_ne : b <> s /\ b <> 0 /\ s <> 0;
  ad_pages : fresh_pages m a n;
  ad_pool : pool m' = {[s]} ∪ ({[b]} ∪ pool m);
  ad_allocs : page_allocs m' = <[a := n]> (page_allocs m);
  ad_client : client m' = client m;
  ad_list : BounceBlockListHead m' = BounceBlockListHead m ++ [b];
  ad_ptrs : block_ptrs m' ≡ₚ [b; s] ++ block_ptrs m;
  ad_base : BlockBase <$> blocks m' !! b = Some a;
  ad_old : forall b', b' ∈ BounceBlockListHead m -> blocks m' !! b' = blocks m !! b'
}.

(** The heap while block [b] is being filled in. *)
Record filling (m x : memory) (b : Z) (blk : EMCL_BOUNCE_BLOCK) : Prop := {
  fi_blocks : blocks x = <[b := blk]> (blocks m);
  fi_pages : pages x = pages m;
  fi_frames : frames x = frames m;
  fi_client : client x = client m;
  fi_list : BounceBlockListHead x = BounceBlockListHead m;
  fi_pool : pool x = one_ptr (BouncePageStructureBase blk) ∪ ({[b]} ∪ pool m);
  fi_structs : BouncePageStructureBase blk = 0 \/
    ((BouncePageStructureBase blk ∉ pool m) /\ BouncePageStructureBase blk <> b);
  fi_allocs : page_allocs x =
    (if BlockBase blk =? 0 then page_allocs m else <[BlockBase blk := BlockPageCount blk]> (page_allocs m));
  fi_fresh : BlockBase blk = 0 \/ (fresh_pages m (BlockBase blk) (BlockPageCount blk) /\ 0 < BlockPageCount blk)
}.

Lemma filling_upd m x b blk f : filling m x b blk ->
  upd_block b f x = Ok (tt, set_blocks (<[b := f blk]> (blocks m)) x).
Proof.
  intros F. erewrite upd_block_ok by (by rewrite (fi_blocks _ _ _ _ F), lookup_insert_eq).
  rewrite (fi_blocks _ _ _ _ F). by rewrite insert_insert_eq.
Qed.

(** A step that keeps the block's allocations. *)
Lemma filling_step m x b blk blk' y : filling m x b blk ->
  BouncePageStructureBase blk' = BouncePageStructureBase blk -> BlockBase blk' = BlockBase blk ->
  BlockPageCount blk' = BlockPageCount blk ->
  y = set_blocks (<[b := blk']> (blocks m)) (set_tick (tick y) x) -> filling m y b blk'.
Proof. intros [] E1 E2 E3 ->. split; cbn; rewrite ?E1, ?E2, ?E3; done. Qed.

Lemma make_visible_ok m x b blk : filling m x b blk ->
  exists st y blk', make_visible b (BlockBase blk) x = Ok (st, y) /\ filling m y b blk' /\
    FreePageListHead blk' = FreePageListHead blk /\ InUsePageCount blk' = InUsePageCount blk /\
    BouncePageStructureBase blk' = BouncePageStructureBase blk /\ BlockBase blk' = BlockBase blk /\
    BlockPageCount blk' = BlockPageCount blk /\ (EFI_ERROR st = false -> st = EFI_SUCCESS).
Proof.
  intros F. unfold make_visible. destruct IsIsolated.
  - rewrite (hbind_Ok _ _ x (tick x) x) by done.
    destruct (MakeAddressRangeHostVisible_answer (tick x) (BlockBase blk)) as [st h]. erewrite hbind_Ok by done.
    assert (F1 : filling m (set_tick (Datatypes.S (tick x)) x) b blk).
    { eapply filling_step; [exact F|done..|]. cbn. rewrite <- (fi_blocks _ _ _ _ F). by destruct x. }
    destruct (EFI_ERROR st) eqn:Est.
    + exists st, (set_tick (Datatypes.S (tick x)) x), blk. split_and!; try done. by rewrite Est.
    + rewrite (hbind_Ok _ _ _ _ _ (filling_upd _ _ _ _ _ F1)). eexists EFI_SUCCESS, _, (set_Visible true h blk).
      split_and!; try done. by eapply filling_step; [exact F|..].
  - exists EFI_SUCCESS, x, blk. by split_and!.
Qed.

Lemma fill_pages_ok fl held m x b s a n : bounce_inv fl held m -> b ∉ pool m -> b <> 0 -> 0 < n < 2 ^ 20 ->
  fresh_pages m a n -> s ∉ pool m -> s <> b -> s <> 0 -> filling m x b (mkBlock (Some (s, 0)) 0 false a n 0 s) ->
  exists st y, (status ← make_visible b a;
      if EFI_ERROR status then mret status
      else
        _ ← init_pages (Z.to_nat n) 0 n s b (shared_va a) (shared_pa a);
        _ ← hmod (fun m => set_BlockList (BounceBlockListHead m ++ [b]) m);
        mret EFI_SUCCESS) x = Ok (st, y) /\
    if EFI_ERROR st then exists blk, filling m y b blk
    else st = EFI_SUCCESS /\ exists s a fl', added m y b s a n /\ bounce_inv fl' held y /\
      free_total fl' y = (free_total fl m + Z.to_nat n)%nat.
Proof.
  intros I Hb Hb0 Hn Ha Hs Hsb Hs0 F.
  destruct (make_visible_ok _ _ _ _ F) as (st & y & blk & E & F1 & B1 & B2 & B3 & B4 & B5 & Hst). cbn in *.
  rewrite (hbind_Ok _ _ _ _ _ E). destruct (EFI_ERROR st) eqn:Est.
  { exists st, y. split; [done|]. rewrite Est. by exists blk. }
  destruct (shared_shift HS) as (K & P & _ & _ & Hk). pose proof Ha as (A1 & A2 & A3 & A4 & A5).
  destruct (Hk a ltac:(lia)) as (V1 & V2 & V3 & V4). destruct (Hk (a + 4096 * n) ltac:(lia)) as (_ & _ & V5 & V6).
  destruct (init_pages_ok (Z.to_nat n) 0 n s b (shared_va a) (shared_pa a) y) as (pgs & frs & E2 & Hin & Hq & Hx); [lia..|].
  rewrite !Z.mul_0_r, !Z.add_0_r in E2. rewrite (hbind_Ok _ _ _ _ _ E2). erewrite hbind_Ok by done.
  rewrite Z2Nat.id, Z.add_0_l in * by lia.
  eexists EFI_SUCCESS, _. split; [done|]. cbn. split; [done|].
  match goal with |- exists _ _ _, added m ?z _ _ _ _ /\ _ => set (z' := z) end.
  destruct F1 as [G1 G2 G3 G4 G5 G6 G7 G8 G9]. rewrite B3, B4, B5 in *.
  assert (Epool : pool z' = {[s]} ∪ ({[b]} ∪ pool m)).
  { subst z'. cbn. rewrite G6. unfold one_ptr. by destruct (Z.eqb_spec s 0). }
  assert (Eallocs : page_allocs z' = <[a := n]> (page_allocs m)).
  { subst z'. cbn. rewrite G8. destruct (Z.eqb_spec a 0); [lia|done]. }
  assert (Eblk : blocks z' !! b = Some (mkBlock (Some (s, 0)) 0 (IsHostVisible blk) a n (ProtectionHandle blk) s)).
  { subst z'. cbn. rewrite G1, lookup_insert_eq. f_equal. destruct blk; cbn in *; congruence. }
  assert (Eold : forall b', b' <> b -> blocks z' !! b' = blocks m !! b').
  { intros b' Hne. subst z'. cbn. by rewrite G1, lookup_insert_ne. }
  assert (Elist : BounceBlockListHead z' = BounceBlockListHead m ++ [b]) by (subst z'; cbn; by rewrite G5).
  rewrite G2 in Hq. rewrite G3 in Hx.
  exists s, a, (<[b := page_array s n]> fl). split_and!.
  - split; try done; [|by rewrite Eblk|].
    + by apply (add_ptrs fl held m z' b s a n (ProtectionHandle blk) (IsHostVisible blk)).
    + intros b' Hin'. apply Eold. intros ->. by apply (new_not_listed fl held m b I Hb).
  - by apply (add_block_ok fl held m z' b s a n (ProtectionHandle blk) (IsHostVisible blk)).
  - change (free_total (<[b := page_array s n]> fl) z' = (free_total fl m + Z.to_nat n)%nat). by eapply add_block_free.
Qed.

Lemma fill_block_ok fl held m x b n : bounce_inv fl held m -> b ∉ pool m -> b <> 0 -> 0 < n < 2 ^ 20 ->
  filling m x b (mkBlock None 0 false 0 0 0 0) ->
  exists st y, fill_block b n x = Ok (st, y) /\
    if EFI_ERROR st then exists blk, filling m y b blk
    else st = EFI_SUCCESS /\ exists s a fl', added m y b s a n /\ bounce_inv fl' held y /\
      free_total fl' y = (free_total fl m + Z.to_nat n)%nat.
Proof.
  intros I Hb Hb0 Hn F. unfold fill_block.
  destruct (AllocatePages_ok n x ltac:(lia)) as (a & [[-> E]|[Ha E]]); rewrite (hbind_Ok _ _ _ _ _ E); clear E.
  { exists EFI_OUT_OF_RESOURCES, (ticked x). split; [done|]. eexists. eapply filling_step; [exact F|done..|].
    cbn. rewrite <- (fi_blocks _ _ _ _ F). by destruct x. }
  assert (Ha' : fresh_pages m a n) by (unfold fresh_pages in *; by rewrite (fi_allocs _ _ _ _ F) in Ha).
  destruct (Z.eqb_spec a 0) as [|Ha0]; [destruct Ha; lia|].
  erewrite hbind_Ok by (erewrite upd_block_ok by (cbn; rewrite (fi_blocks _ _ _ _ F); apply lookup_insert_eq); done).
  match goal with |- context [mbind _ _ ?z] => set (x1 := z) end.
  assert (F1 : filling m x1 b (mkBlock None 0 false a n 0 0)).
  { destruct F as [F1 F2 F3 F4 F5 F6 F7 F8 F9]. split; subst x1; cbn in *; try done.
    - by rewrite F1, insert_insert_eq.
    - rewrite F8. by destruct (Z.eqb_spec a 0).
    - right. split; [done|lia]. }
  clearbody x1. clear F x Ha. rename F1 into F, x1 into x.
  destruct (AllocatePool_ok (u32 (n * sizeof_EMCL_BOUNCE_PAGE)) x) as (s & [[-> E]|(Hs0 & Hs & E)]);
    rewrite (hbind_Ok _ _ _ _ _ E); clear E.
  { exists EFI_OUT_OF_RESOURCES, (ticked x). split; [done|]. eexists. eapply filling_step; [exact F|done..|].
    cbn. rewrite <- (fi_blocks _ _ _ _ F). by destruct x. }
  destruct (Z.eqb_spec s 0) as [|_]; [done|].
  assert (Hs' : (s ∉ pool m) /\ s <> b).
  { rewrite (fi_pool _ _ _ _ F), !elem_of_union, elem_of_singleton in Hs. tauto. }
  erewrite hbind_Ok by (erewrite upd_block_ok by (cbn; rewrite (fi_blocks _ _ _ _ F); apply lookup_insert_eq); done).
  erewrite hbind_Ok by (erewrite upd_block_ok by (cbn; apply lookup_insert_eq); done).
  match goal with |- context [mbind _ _ ?z] => set (x1 := z) end.
  assert (F1 : filling m x1 b (mkBlock (Some (s, 0)) 0 false a n 0 s)).
  { destruct F as [F1 F2 F3 F4 F5 F6 F7 F8 F9]. split; subst x1; cbn in *; try done; [| |tauto].
    - by rewrite F1, !insert_insert_eq.
    - rewrite F6. unfold one_ptr at 1. change (one_ptr 0) with (∅ : gset Z). rewrite (left_id_L ∅ (∪)). unfold one_ptr. by destruct (Z.eqb_spec s 0). }
  apply (fill_pages_ok fl held m x1 b s a n); tauto.
Qed.

(** Allocating a block of [n] pages: on success its pages join the free ones, on
    failure nothing remains allocated. *)
Lemma allocate_ok fl held m n : bounce_inv fl held m -> 0 < n < 2 ^ 20 ->
  exists st m', EmclpAllocateBounceBlock (4096 * n) m = Ok (st, m') /\
    if EFI_ERROR st then untouched m m' /\ bounce_inv fl held m'
    else st = EFI_SUCCESS /\ exists b s a fl', added m m' b s a n /\ bounce_inv fl' held m' /\
      free_total fl' m' = (free_total fl m + Z.to_nat n)%nat.
Proof.
  intros I Hn. unfold EmclpAllocateBounceBlock. change PkRing.EFI_PAGE_SIZE with 4096.
  rewrite Z.mul_comm, Z.mod_mul, Z.div_mul by lia. cbn [negb Z.eqb].
  destruct (AllocatePool_ok sizeof_EMCL_BOUNCE_BLOCK m) as (b & [[-> E]|(Hb0 & Hb & E)]); rewrite (hbind_Ok _ _ _ _ _ E); clear E.
  { exists EFI_OUT_OF_RESOURCES, (ticked m). split; [done|]. cbn. destruct (bounce_transport fl held m (ticked m)) as [Hp I'];
      [done|done|done|done|apply I|done|eauto|]. by split. }
  destruct (Z.eqb_spec b 0); [done|]. erewrite hbind_Ok by done.
  match goal with |- context [mbind _ _ ?z] => set (x := z) end.
  assert (F : filling m x b (mkBlock None 0 false 0 0 0 0)).
  { split; subst x; cbn; auto. change (one_ptr 0) with (∅ : gset Z). by rewrite (left_id_L ∅ (∪)). }
  destruct (fill_block_ok fl held m x b n I Hb Hb0 Hn F) as (st & y & E & Hy). rewrite (hbind_Ok _ _ _ _ _ E).
  destruct (EFI_ERROR st) eqn:Est.
  - destruct Hy as (blk & [F1 F2 F3 F4 F5 F6 F7 F8 F9]).
    destruct (undo_block fl held m y b blk) as (m' & E' & U & I'); try done.
    exists st, m'. rewrite (hbind_Ok _ _ _ _ _ E'), Est. done.
  - destruct Hy as (-> & s & a & fl' & Hy). exists EFI_SUCCESS, y. split; [done|]. cbn. split; [done|]. by exists b, s, a, fl'.
Qed.
End Alloc.
