(* ===== verification/EmclBounceCopy.v ===== *)
(** Copying between a client's buffer and bounce pages: never outside either,
    whatever the host does to the shared pages meanwhile; and when the host is
    quiet, exactly the buffer's bytes, the rest of the pages being zero. *)
From stdpp Require Import base list numbers list_numbers option gmap fin_map_dom functions.
From Stdlib Require Import ZArith Lia.
From S2P Require Import Prelude Circular PkRing EmclPacket EmclPacketProps EmclBounce EmclBounceInv EmclBounceAlloc.
Open Scope Z_scope.
Import EmclPacket EmclBounce.

(** What copying leaves as it was: all but the bytes of pages and buffers. *)
Record copied (m m' : memory) : Prop := {
  co_pool : pool m' = pool m;
  co_allocs : page_allocs m' = page_allocs m;
  co_blocks : blocks m' = blocks m;
  co_pages : pages m' = pages m;
  co_list : BounceBlockListHead m' = BounceBlockListHead m;
  co_frames : forall va c, frames m !! va = Some c -> exists c', frames m' !! va = Some c' /\ Zlength c' = Zlength c;
  co_client : forall a c, client m !! a = Some c -> exists c', client m' !! a = Some c' /\ Zlength c' = Zlength c
}.

#[export] Instance copied_preorder : PreOrder copied.
Proof.
  split; [by split; eauto|]. intros m1 m2 m3 [? ? ? ? ? F1 C1] [? ? ? ? ? F2 C2]. split; try congruence.
  - intros va c E. destruct (F1 va c E) as (c1 & E1 & L1). destruct (F2 va c1 E1) as (c2 & E2 & L2). exists c2. split; [done|congruence].
  - intros va c E. destruct (C1 va c E) as (c1 & E1 & L1). destruct (C2 va c1 E1) as (c2 & E2 & L2). exists c2. split; [done|congruence].
Qed.

Section Copy.
Context {B : BuildOptions} {S : Services} {D : Dma} (HS : services_ok).

Lemma copied_inv fl held m m' : bounce_inv fl held m -> copied m m' -> block_ptrs m' = block_ptrs m /\ bounce_inv fl held m'.
Proof.
  intros I [C1 C2 C3 C4 C5 C6 C7]. apply (bounce_transport fl held m m'); try done.
  - intros b _. by rewrite C3.
  - intros p Hp. rewrite C1. by apply (bi_pool _ _ _ I).
  - intros b blk _ _ E. by rewrite C2.
  - intros q p c _ E. by apply C6.
Qed.

(** A page whose frame can be accessed. *)
Definition ready (m : memory) (q : page_ptr) : Prop := exists p c, pages m !! q = Some p /\ frames m !! PageVA p = Some c /\
  Zlength c = 4096 /\ PageVA p mod 4096 = 0 /\ 0 <= PageVA p < 2 ^ 64 - 2 ^ 12.

Lemma ready_inv fl held m q p : bounce_inv fl held m -> pages m !! q = Some p -> ready m q.
Proof.
  intros I Ep. destruct (bi_frames _ _ _ I q p Ep) as (c & Ec & Hc). exists p, c. split_and!; try done.
  all: destruct (bi_home _ _ _ I q p Ep) as (blk & Hin & Eb & H1 & H2 & _ & HVA & _); rewrite HVA;
    destruct (bi_blocks _ _ _ I _ Hin) as (blk' & Eb' & Ob); assert (blk' = blk) as -> by congruence;
    destruct (bo_base _ _ _ _ Ob) as (B1 & B2 & B3); destruct (shared_shift HS) as (K & P & HK & HP & Hk);
    destruct (Hk (BlockBase blk) ltac:(lia)) as (V1 & _ & V3 & _); rewrite V1;
    destruct (Hk (BlockBase blk + 4096 * q.2) ltac:(lia)) as (_ & _ & V4 & _); lia || zlia.
Qed.

Lemma ready_list fl l held m : bounce_inv fl (l :: held) m -> Forall (ready m) l /\ plist (pages m) (head l) l.
Proof.
  intros I. pose proof (bi_held _ _ _ I) as Hh. apply list.Forall_cons in Hh as [Hl _]. split; [|done].
  apply list.Forall_forall. intros q Hq. destruct (plist_lookup _ _ _ q Hl Hq) as [p Ep]. by apply (ready_inv _ _ _ _ _ I Ep).
Qed.

Lemma ready_copied m m' q : copied m m' -> ready m q -> ready m' q.
Proof.
  intros C (p & c & Ep & Ec & Hc & Hm & Hb). destruct (co_frames _ _ C _ _ Ec) as (c' & Ec' & Hc').
  exists p, c'. rewrite (co_pages _ _ C). split_and!; try done; [congruence|lia|lia].
Qed.

(** ** Accesses *)
Definition framed (m : memory) (va : Z) (c : list Z) : memory := set_tick (Datatypes.S (tick m)) (set_frames (<[va := c]> (frames m)) m).

Lemma framed_copied m va c c' : frames m !! va = Some c -> Zlength c' = Zlength c -> copied m (framed m va c').
Proof.
  intros E Hl. split; try done; [|by eauto]. intros va2 c2 E2. cbn. destruct (decide (va2 = va)) as [->|Hne].
  - rewrite lookup_insert_eq. exists c'. split; [done|congruence].
  - rewrite lookup_insert_ne by done. eauto.
Qed.

Lemma write_frame_ok m va c f c' : frames m !! va = Some c -> f (dma (tick m) va c) = Ok c' ->
  write_frame va f m = Ok (tt, framed m va c').
Proof. intros E Ef. unfold write_frame, with_frame. rewrite E, Ef. done. Qed.

Lemma SetMem_ok c off n v : 0 <= off -> 0 <= n -> off + n <= Zlength c ->
  SetMem c off n v = Ok (take (Z.to_nat off) c ++ replicate (Z.to_nat n) v ++ drop (Z.to_nat (off + n)) c).
Proof.
  intros. unfold SetMem, mem_write. rewrite Zlength_replicate, in_bounds_true by lia. done.
Qed.

Lemma Zlength_patch {A} (c : list A) off n x : 0 <= off -> Zlength x = n -> off + n <= Zlength c ->
  Zlength (take (Z.to_nat off) c ++ x ++ drop (Z.to_nat (off + n)) c) = Zlength c.
Proof. intros H1 <- H2. pose proof (Zlength_nonneg x). rewrite !Zlength_app, Zlength_take, Zlength_drop by lia. lia. Qed.

(** ** Safety *)
Context (HD : dma_ok).

Lemma write_frame_safe m va c f : frames m !! va = Some c ->
  (forall c1, Zlength c1 = Zlength c -> exists c2, f c1 = Ok c2 /\ Zlength c2 = Zlength c1) ->
  exists m', write_frame va f m = Ok (tt, m') /\ copied m m'.
Proof.
  intros E Hf. destruct (Hf (dma (tick m) va c) (HD _ _ _)) as (c2 & E2 & L2).
  exists (framed m va c2). split; [by eapply write_frame_ok|]. eapply framed_copied; [done|]. rewrite L2. apply HD.
Qed.

Lemma copy_out_safe m va c buf ext extOff off n : frames m !! va = Some c -> client m !! buf = Some ext ->
  0 <= off -> 0 <= n -> off + n <= Zlength c -> 0 <= extOff -> extOff + n <= Zlength ext ->
  exists m', (ext ← with_frame va (fun c => e ← CopyMem ext extOff c off n; Ok (e, c));
      hmod (fun m => set_client (<[buf := ext]> (client m)) m)) m = Ok (tt, m') /\ copied m m'.
Proof.
  intros E Ee H1 H2 H3 H4 H5. pose proof (HD (tick m) va c) as Hl.
  set (e' := take (Z.to_nat extOff) ext ++ zslice off n (dma (tick m) va c) ++ drop (Z.to_nat (extOff + n)) ext).
  assert (Le : Zlength e' = Zlength ext) by (apply Zlength_patch; [lia|apply Zlength_zslice; lia|lia]).
  exists (set_client (<[buf := e']> (client m)) (framed m va (dma (tick m) va c))). split.
  - erewrite hbind_Ok by (unfold with_frame; rewrite E, CopyMem_ok by lia; done). done.
  - pose proof (framed_copied m va c (dma (tick m) va c) E Hl) as [? ? ? ? ? ? ?]. split; try done. intros a2 c2 E2. cbn.
    destruct (decide (a2 = buf)) as [->|Hne].
    + rewrite lookup_insert_eq. exists e'. split; [done|congruence].
    + rewrite lookup_insert_ne by done. eauto.
Qed.

Lemma if_safe (b : bool) (c : H unit) m : (b = true -> exists m', c m = Ok (tt, m') /\ copied m m') ->
  exists m', (if b then c else mret tt) m = Ok (tt, m') /\ copied m m'.
Proof. destruct b; [auto|]. intros _. by exists m. Qed.

Lemma copy_loop_safe dir buf : forall fuel l hd off extOff toGo ext m,
  plist (pages m) hd l -> Forall (ready m) l -> client m !! buf = Some ext ->
  0 <= off < 4096 -> 0 <= toGo -> 0 <= extOff -> extOff + toGo <= Zlength ext -> 0 < toGo \/ off = 0 ->
  (off + toGo + 4095) / 4096 = Zlength l -> Zlength l <= Z.of_nat fuel ->
  exists m', copy_loop fuel buf hd off extOff toGo dir m = Ok (None, m') /\ copied m m'.
Proof.
  induction fuel as [|fuel IH]; intros l hd off extOff toGo ext m Hp Hr He Ho Ht Hx Hxe Hz Hn Hf;
    cbn [copy_loop]; destruct (Z.eqb_spec toGo 0) as [->|Ht0].
  - assert (l = []) as -> by (destruct l; [done|]; unfold Zlength in *; cbn [length] in *; zlia).
    cbn in Hp. subst hd. by exists m.
  - exfalso. pose proof (Zlength_nonneg l). zlia.
  - assert (l = []) as -> by (destruct l; [done|]; unfold Zlength in *; cbn [length] in *; zlia).
    cbn in Hp. subst hd. by exists m.
  - destruct l as [|q l]; [unfold Zlength in Hn; cbn in Hn; zlia|].
    assert (Hl : Zlength (q :: l) = 1 + Zlength l) by (unfold Zlength; cbn [length]; lia). rewrite Hl in *.
    destruct Hp as (-> & p0 & Ep & Hp). apply list.Forall_cons in Hr as [(p & c & Ep' & Ec & Hc & Hm & Hb) Hr].
    assert (p0 = p) as -> by congruence. rewrite ASSERT_true. erewrite hbind_Ok by done.
    rewrite (hbind_Ok _ _ _ _ _ (get_page_ok _ _ _ Ep)). change PkRing.EFI_PAGE_SIZE with 4096.
    set (n := Z.min (4096 - off) toGo). assert (Hnn : 0 < n <= 4096 - off /\ n <= toGo) by lia.
    destruct (if_safe (dir && negb (off =? 0)) (write_frame (PageVA p) (fun c => SetMem c 0 off 0)) m) as (m1 & E1 & C1).
    { intros _. eapply write_frame_safe; [done|]. intros c1 Hc1. rewrite SetMem_ok by lia. eexists. split; [done|].
      apply Zlength_patch; [lia|apply Zlength_replicate; lia|lia]. }
    rewrite (hbind_Ok _ _ _ _ _ E1).
    destruct (co_frames _ _ C1 _ _ Ec) as (c1 & Ec1 & Hc1). destruct (co_client _ _ C1 _ _ He) as (e1 & Ee1 & He1).
    rewrite (hbind_Ok _ _ m1 e1 m1) by (unfold get_client; by rewrite Ee1).
    assert (exists m2, (if dir then write_frame (PageVA p) (fun c => CopyMem c off e1 extOff n)
      else ext ← with_frame (PageVA p) (fun c => e ← CopyMem e1 extOff c off n; Ok (e, c));
           hmod (fun m => set_client (<[buf := ext]> (client m)) m)) m1 = Ok (tt, m2) /\ copied m1 m2) as (m2 & E2 & C2).
    { destruct dir.
      - eapply write_frame_safe; [done|]. intros c2 Hc2. rewrite CopyMem_ok by lia. eexists. split; [done|].
        apply Zlength_patch; [lia|apply Zlength_zslice; lia|lia].
      - eapply copy_out_safe; try done; lia. }
    rewrite (hbind_Ok _ _ _ _ _ E2). destruct (co_frames _ _ C2 _ _ Ec1) as (c2 & Ec2 & Hc2).
    assert (Hend : u64 (PageVA p + off + n) mod 4096 = (off + n) mod 4096).
    { unfold u64. rewrite Z.mod_mod_divide by (by exists (2 ^ 52)). zlia. }
    rewrite Hend. edestruct (if_safe) as (m3 & E3 & C3); [|rewrite (hbind_Ok _ _ _ _ _ E3)].
    { intros Hcond. assert ((off + n) mod 4096 <> 0) by (destruct (Z.eqb_spec ((off + n) mod 4096) 0); [|done]; by rewrite andb_false_r in Hcond).
      eapply write_frame_safe; [done|]. intros c3 Hc3. rewrite SetMem_ok by zlia. eexists. split; [done|].
      apply Zlength_patch; [lia|apply Zlength_replicate; zlia|zlia]. }
    assert (C : copied m m3) by (etransitivity; [exact C1|]; by etransitivity).
    destruct (co_client _ _ C _ _ He) as (e3 & Ee3 & He3).
    destruct (IH l (NextBouncePage p) 0 (extOff + n) (toGo - n) e3 m3) as (m4 & E4 & C4); try lia; try done.
    + by rewrite (co_pages _ _ C).
    + eapply list.Forall_impl; [exact Hr|]. intros q' Hq'. by eapply ready_copied.
    + unfold n in *. zlia.
    + exists m4. split; [exact E4|by etransitivity].
Qed.

Lemma copy_safe fl held m l b ext dir : bounce_inv fl (l :: held) m -> client m !! Buffer b = Some ext ->
  external_ok b -> 0 < BufferSize b <= Zlength ext -> Zlength l = pages_of b ->
  exists m', EmclpCopyBouncePagesToExternalBuffer b (head l) dir m = Ok (tt, m') /\ copied m m'.
Proof.
  intros I He (H1 & H2 & H3) Hs Hl. destruct (ready_list _ _ _ _ I) as [Hr Hp]. unfold pages_of in Hl.
  unfold EmclpCopyBouncePagesToExternalBuffer. change PkRing.EFI_PAGE_SIZE with 4096.
  destruct (copy_loop_safe dir (Buffer b) (Z.to_nat (BufferSize b / 4096 + 2)) l (head l) (Buffer b mod 4096) 0 (BufferSize b) ext m)
    as (m' & E & C); try done; try lia; try zlia.
  destruct l as [|q l]; [unfold Zlength in Hl; cbn in Hl; zlia|]. cbn [head] in *. rewrite ASSERT_true.
  erewrite hbind_Ok by done. rewrite (hbind_Ok _ _ _ _ _ E). rewrite ASSERT_true. by exists m'.
Qed.

Lemma zero_loop_safe fuel : forall l hd m, plist (pages m) hd l -> Forall (ready m) l -> (length l <= fuel)%nat ->
  exists m', zero_loop fuel hd m = Ok (tt, m') /\ copied m m'.
Proof.
  induction fuel as [|fuel IH]; intros [|q l] hd m Hp Hr Hf; cbn [length] in Hf; cbn in Hp; try (subst hd; by exists m); [lia|].
  destruct Hp as (-> & p0 & Ep & Hp). apply list.Forall_cons in Hr as [(p & c & Ep' & Ec & Hc & Hm & Hb) Hr].
  assert (p0 = p) as -> by congruence. cbn [zero_loop]. rewrite (hbind_Ok _ _ _ _ _ (get_page_ok _ _ _ Ep)).
  destruct (write_frame_safe m (PageVA p) c (fun c => SetMem c 0 PkRing.EFI_PAGE_SIZE 0) Ec) as (m1 & E1 & C1).
  { intros c1 Hc1. change PkRing.EFI_PAGE_SIZE with 4096. rewrite SetMem_ok by lia. eexists. split; [done|].
    apply Zlength_patch; [lia|apply Zlength_replicate; lia|lia]. }
  rewrite (hbind_Ok _ _ _ _ _ E1). destruct (IH l (NextBouncePage p) m1) as (m2 & E2 & C2); [|..|lia|].
  - by rewrite (co_pages _ _ C1).
  - eapply list.Forall_impl; [exact Hr|]. intros q' Hq'. by eapply ready_copied.
  - exists m2. split; [done|by etransitivity].
Qed.

Lemma zero_safe fl held m l : bounce_inv fl (l :: held) m ->
  exists m', EmclpZeroBouncePageList (head l) m = Ok (tt, m') /\ copied m m'.
Proof.
  intros I. destruct (ready_list _ _ _ _ I) as [Hr Hp]. unfold EmclpZeroBouncePageList.
  rewrite (hbind_Ok _ _ m (size (pages m)) m) by done. apply (zero_loop_safe _ l); try done.
  rewrite (bounce_count _ _ _ I). cbn [concat]. rewrite length_app. lia.
Qed.
End Copy.

(** ** What is copied when the host is quiet *)
Definition va_of (m : memory) (q : page_ptr) : Z := default 0 (PageVA <$> pages m !! q).
Definition frame_of (m : memory) (q : page_ptr) : list Z := default [] (frames m !! va_of m q).

(** The bytes of a list of pages, in order. *)
Definition page_data (m : memory) (l : list page_ptr) : list Z := concat (frame_of m <$> l).

(** Only frames have changed. *)
Definition only_frames (m m' : memory) : Prop := m' = set_tick (tick m') (set_frames (frames m') m).

Lemma only_frames_trans m1 m2 m3 : only_frames m1 m2 -> only_frames m2 m3 -> only_frames m1 m3.
Proof. intros E1 E2. hnf in *. rewrite E2, E1. by destruct m1, m2, m3. Qed.

Section Quiet.
Context {B : BuildOptions} {S : Services} {D : Dma} (HS : services_ok) (HQ : forall t va c, dma t va c = c).

Lemma write_stage (b : bool) m va c f c' : frames m !! va = Some c ->
  (if b then f c = Ok c' else c' = c) ->
  exists m', (if b then write_frame va f else mret tt) m = Ok (tt, m') /\ only_frames m m' /\ frames m' = <[va := c']> (frames m).
Proof.
  intros E Hf. destruct b.
  - exists (framed m va c'). split_and!; [|done|done]. eapply write_frame_ok; [done|]. by rewrite HQ.
  - subst c'. exists m. split_and!; [done|by destruct m|by rewrite insert_id].
Qed.

Lemma stage_frame m m' va c : frames m' = <[va := c]> (frames m) -> frames m' !! va = Some c.
Proof. intros ->. apply lookup_insert_eq. Qed.

(** The frame after the three writes of one iteration. *)
Definition filled (off n extOff : Z) (ext : list Z) : list Z :=
  replicate (Z.to_nat off) 0 ++ zslice extOff n ext ++ replicate (Z.to_nat (4096 - off - n)) 0.

Lemma filled_spec c ext off extOff n : Zlength c = 4096 -> 0 <= off -> 0 < n -> off + n <= 4096 -> 0 <= extOff -> extOff + n <= Zlength ext ->
  let c1 := replicate (Z.to_nat off) 0 ++ drop (Z.to_nat off) c in
  let c2 := replicate (Z.to_nat off) 0 ++ zslice extOff n ext ++ drop (Z.to_nat (off + n)) c in
  (off <> 0 -> SetMem c 0 off 0 = Ok c1) /\ (off = 0 -> c1 = c) /\
  CopyMem c1 off ext extOff n = Ok c2 /\
  (off + n <> 4096 -> SetMem c2 (off + n) (4096 - (off + n)) 0 = Ok (filled off n extOff ext)) /\
  (off + n = 4096 -> filled off n extOff ext = c2).
Proof.
  intros Hc Ho Hn Hon Hx Hxe c1 c2.
  assert (L1 : Zlength c1 = 4096) by (unfold c1; rewrite Zlength_app, Zlength_replicate, Zlength_drop by lia; lia).
  assert (L0 : length (zslice extOff n ext) = Z.to_nat n).
  { pose proof (Zlength_zslice extOff n ext ltac:(lia) ltac:(lia) ltac:(lia)). unfold Zlength in *. lia. }
  assert (L2 : Zlength c2 = 4096).
  { unfold c2. rewrite !Zlength_app, Zlength_replicate, Zlength_zslice, Zlength_drop by lia. lia. }
  split_and!.
  - intros _. rewrite SetMem_ok by lia. done.
  - intros ->. done.
  - rewrite CopyMem_ok by lia. unfold c1, c2. f_equal.
    rewrite take_app_length' by (rewrite length_replicate; lia). do 2 f_equal.
    rewrite drop_app_ge by (rewrite length_replicate; lia). rewrite drop_drop, length_replicate. f_equal. lia.
  - intros Hne. rewrite SetMem_ok by lia. rewrite (drop_ge c2) by (unfold Zlength in L2; lia).
    unfold c2, filled. f_equal. rewrite (app_assoc (replicate (Z.to_nat off) 0)), take_app_length' by (rewrite length_app, length_replicate; lia).
    rewrite app_nil_r, <- app_assoc. do 3 f_equal. lia.
  - intros E. unfold filled, c2. do 2 f_equal. rewrite drop_ge by (unfold Zlength in *; lia).
    replace (4096 - off - n) with 0 by lia. done.
Qed.

Lemma va_frame m q p : pages m !! q = Some p -> va_of m q = PageVA p.
Proof. intros E. unfold va_of. by rewrite E. Qed.

Lemma only_va m m' q : only_frames m m' -> va_of m' q = va_of m q.
Proof. intros E. hnf in E. by rewrite E. Qed.

Lemma ready_only m m' q va c : only_frames m m' -> frames m' = <[va := c]> (frames m) -> Zlength c = 4096 -> ready m q -> ready m' q.
Proof.
  intros E Ef Hc (p & c0 & Ep & Ec & Hl & Hm & Hb). hnf in E. exists p.
  destruct (decide (PageVA p = va)) as [<-|Hne].
  - exists c. rewrite Ef, lookup_insert_eq. rewrite E. split_and!; try done; lia.
  - exists c0. rewrite Ef, lookup_insert_ne by done. rewrite E. split_and!; try done; lia.
Qed.

Lemma data_cons m q l : page_data m (q :: l) = frame_of m q ++ page_data m l.
Proof. done. Qed.

Lemma zslice_split (l : list Z) off n k : 0 <= off -> 0 <= n -> 0 <= k -> zslice off (n + k) l = zslice off n l ++ zslice (off + n) k l.
Proof.
  intros. unfold zslice. rewrite !Z2Nat.inj_add by lia. rewrite <- drop_drop. symmetry. rewrite <- (take_drop (Z.to_nat n) (drop (Z.to_nat off) l)) at 3.
  destruct (decide (Z.to_nat n <= length (drop (Z.to_nat off) l))%nat) as [Hle|Hgt].
  - rewrite take_app_ge by (rewrite length_take; lia). do 2 f_equal. rewrite length_take. lia.
  - rewrite (drop_ge (drop _ _)) by lia. rewrite take_nil, !app_nil_r. symmetry. apply firstn_all2. rewrite length_take. lia.
Qed.

(** Copying into the pages: zeros up to the buffer's offset, its bytes, zeros to
    the end; no other frame changes. *)
Lemma copy_loop_in buf : forall fuel l hd off extOff toGo ext m,
  plist (pages m) hd l -> Forall (ready m) l -> NoDup (va_of m <$> l) -> client m !! buf = Some ext ->
  0 <= off < 4096 -> 0 <= toGo -> 0 <= extOff -> extOff + toGo <= Zlength ext -> 0 < toGo \/ off = 0 ->
  (off + toGo + 4095) / 4096 = Zlength l -> Zlength l <= Z.of_nat fuel ->
  exists m', copy_loop fuel buf hd off extOff toGo true m = Ok (None, m') /\ only_frames m m' /\
    page_data m' l = replicate (Z.to_nat off) 0 ++ zslice extOff toGo ext ++ replicate (Z.to_nat (4096 * Zlength l - off - toGo)) 0 /\
    forall va, va ∉ (va_of m <$> l) -> frames m' !! va = frames m !! va.
Proof.
  induction fuel as [|fuel IH]; intros l hd off extOff toGo ext m Hp Hr Hnd He Ho Ht Hx Hxe Hz Hn Hf;
    cbn [copy_loop]; destruct (Z.eqb_spec toGo 0) as [->|Ht0].
  - assert (l = []) as -> by (destruct l; [done|]; unfold Zlength in *; cbn [length] in *; zlia).
    cbn in Hp. subst hd. assert (off = 0) as -> by lia. exists m. split_and!; [done|by destruct m|done|done].
  - exfalso. pose proof (Zlength_nonneg l). zlia.
  - assert (l = []) as -> by (destruct l; [done|]; unfold Zlength in *; cbn [length] in *; zlia).
    cbn in Hp. subst hd. assert (off = 0) as -> by lia. exists m. split_and!; [done|by destruct m|done|done].
  - destruct l as [|q l]; [unfold Zlength in Hn; cbn in Hn; zlia|].
    assert (Hl : Zlength (q :: l) = 1 + Zlength l) by (unfold Zlength; cbn [length]; lia). rewrite Hl in *.
    destruct Hp as (-> & p0 & Ep & Hp). apply list.Forall_cons in Hr as [(p & c & Ep' & Ec & Hc & Hm & Hb) Hr].
    assert (p0 = p) as -> by congruence. rewrite ASSERT_true. erewrite hbind_Ok by done.
    rewrite (hbind_Ok _ _ _ _ _ (get_page_ok _ _ _ Ep)). change PkRing.EFI_PAGE_SIZE with 4096. cbn [andb].
    set (n := Z.min (4096 - off) toGo). assert (Hnn : 0 < n <= 4096 - off /\ n <= toGo) by lia.
    destruct (filled_spec c ext off extOff n) as (S1 & S1' & S2 & S3 & S3'); [lia..|].
    set (c1 := replicate (Z.to_nat off) 0 ++ drop (Z.to_nat off) c) in *.
    set (c2 := replicate (Z.to_nat off) 0 ++ zslice extOff n ext ++ drop (Z.to_nat (off + n)) c) in *.
    set (c3 := filled off n extOff ext) in *.
    destruct (write_stage (negb (off =? 0)) m (PageVA p) c (fun c => SetMem c 0 off 0) c1 Ec) as (m1 & E1 & O1 & F1).
    { destruct (Z.eqb_spec off 0); cbn [negb]; auto. }
    rewrite (hbind_Ok _ _ _ _ _ E1).
    rewrite (hbind_Ok _ _ m1 ext m1) by (unfold get_client; hnf in O1; rewrite O1; cbn; by rewrite He).
    destruct (write_stage true m1 (PageVA p) c1 (fun c => CopyMem c off ext extOff n) c2 (stage_frame _ _ _ _ F1) S2) as (m2 & E2 & O2 & F2).
    cbn iota in E2. rewrite (hbind_Ok _ _ _ _ _ E2).
    assert (Hend : u64 (PageVA p + off + n) mod 4096 = (off + n) mod 4096).
    { unfold u64. rewrite Z.mod_mod_divide by (by exists (2 ^ 52)). zlia. }
    rewrite Hend. set (cond := (toGo - n =? 0) && true && negb ((off + n) mod 4096 =? 0)).
    assert (Hcond : cond = negb (off + n =? 4096)).
    { unfold cond. destruct (Z.eqb_spec (off + n) 4096) as [->|Hne].
      - change (4096 mod 4096) with 0. cbn. by rewrite andb_false_r.
      - destruct (Z.eqb_spec (toGo - n) 0) as [_|Hbad]; [|lia]. destruct (Z.eqb_spec ((off + n) mod 4096) 0) as [Hz0|]; [zlia|done]. }
    destruct (write_stage cond m2 (PageVA p) c2 (fun c => SetMem c (off + n) (4096 - (off + n) mod 4096) 0) c3 (stage_frame _ _ _ _ F2))
      as (m3 & E3 & O3 & F3).
    { rewrite Hcond. destruct (Z.eqb_spec (off + n) 4096) as [|Hne]; cbn [negb]; [auto|]. rewrite Z.mod_small by lia. auto. }
    rewrite (hbind_Ok _ _ _ _ _ E3).
    assert (O : only_frames m m3) by (eapply only_frames_trans; [exact O1|]; by eapply only_frames_trans).
    assert (F : frames m3 = <[PageVA p := c3]> (frames m)) by (by rewrite F3, F2, F1, !insert_insert_eq).
    assert (Lc3 : Zlength c3 = 4096).
    { unfold c3, filled. rewrite !Zlength_app, !Zlength_replicate, Zlength_zslice by lia. lia. }
    rewrite fmap_cons, (va_frame m q p Ep) in *. apply list.NoDup_cons in Hnd as [Hni Hnd].
    assert (Ev : va_of m3 <$> l = va_of m <$> l) by (apply list_fmap_ext; intros; by apply only_va).
    destruct (IH l (NextBouncePage p) 0 (extOff + n) (toGo - n) ext m3) as (m4 & E4 & O4 & D4 & F4); try lia.
    + by rewrite O.
    + eapply list.Forall_impl; [exact Hr|]. intros q' Hq'. by eapply ready_only.
    + by rewrite Ev.
    + by rewrite O.
    + unfold n in *. zlia.
    + exists m4. split_and!; [exact E4|by eapply only_frames_trans| |].
      * rewrite data_cons, D4. unfold frame_of at 1.
        rewrite (only_va m m4 q), (va_frame m q p Ep) by (by eapply only_frames_trans).
        rewrite F4 by (by rewrite Ev). rewrite F, lookup_insert_eq. cbn [from_option id]. unfold c3, filled.
        replace (zslice extOff toGo ext) with (zslice extOff n ext ++ zslice (extOff + n) (toGo - n) ext)
          by (rewrite <- zslice_split by lia; f_equal; lia). rewrite <- !app_assoc. do 2 f_equal.
        destruct (decide (off + n = 4096)) as [E0|E0].
        -- replace (4096 - off - n) with 0 by lia. change (replicate (Z.to_nat 0) 0) with (@nil Z). rewrite !app_nil_l.
           do 2 f_equal. lia.
        -- assert (toGo = n) by lia. replace (toGo - n) with 0 by lia. change (zslice (extOff + n) 0 ext) with (@nil Z).
           change (replicate (Z.to_nat 0) 0) with (@nil Z). rewrite !app_nil_l, <- replicate_add. f_equal. zlia.
      * intros va Hva. rewrite not_elem_of_cons in Hva. destruct Hva as [Hva1 Hva2].
        rewrite F4 by (by rewrite Ev). by rewrite F, lookup_insert_ne.
Qed.

Lemma zslice_app (c r : list Z) off n : 0 <= off <= Zlength c -> 0 <= n ->
  zslice off n (c ++ r) = zslice off (Z.min (Zlength c - off) n) c ++ zslice 0 (n - Z.min (Zlength c - off) n) r.
Proof.
  intros Ho Hn. unfold zslice. change (drop (Z.to_nat 0) r) with r. rewrite drop_app_le by (unfold Zlength in *; lia).
  rewrite take_app. f_equal.
  - destruct (Z.min_spec (Zlength c - off) n) as [[Hlt ->]|[_ ->]]; [|done].
    by rewrite (firstn_all2 (n := Z.to_nat (Zlength c - off))) by (rewrite length_drop; unfold Zlength in *; lia);
      rewrite firstn_all2 by (rewrite length_drop; unfold Zlength in *; lia).
  - f_equal. rewrite length_drop. unfold Zlength in *. lia.
Qed.

Definition patched (ext : list Z) (extOff : Z) (bs : list Z) : list Z :=
  take (Z.to_nat extOff) ext ++ bs ++ drop (Z.to_nat (extOff + Zlength bs)) ext.

Lemma patched_app ext extOff b1 b2 : 0 <= extOff -> extOff + Zlength b1 + Zlength b2 <= Zlength ext ->
  patched (patched ext extOff b1) (extOff + Zlength b1) b2 = patched ext extOff (b1 ++ b2).
Proof.
  intros H1 H2. pose proof (Zlength_nonneg b1). pose proof (Zlength_nonneg b2). unfold patched at 1 3.
  assert (L1 : length (take (Z.to_nat extOff) ext) = Z.to_nat extOff) by (rewrite length_take; unfold Zlength in *; lia).
  assert (E1 : take (Z.to_nat (extOff + Zlength b1)) (patched ext extOff b1) = take (Z.to_nat extOff) ext ++ b1).
  { unfold patched. rewrite app_assoc. apply take_app_length'. rewrite length_app, L1. unfold Zlength. lia. }
  assert (E2 : drop (Z.to_nat (extOff + Zlength b1 + Zlength b2)) (patched ext extOff b1) =
    drop (Z.to_nat (extOff + Zlength (b1 ++ b2))) ext).
  { unfold patched. rewrite app_assoc, drop_app_ge by (rewrite length_app, L1; unfold Zlength in *; lia).
    rewrite drop_drop, length_app, L1, Zlength_app. f_equal. unfold Zlength in *. lia. }
  by rewrite E1, E2, <- !app_assoc.
Qed.

Lemma Zlength_page_data m l : Forall (ready m) l -> Zlength (page_data m l) = 4096 * Zlength l.
Proof.
  induction 1 as [|q l (p & c & Ep & Ec & Hc & _) _ IH]; [done|].
  rewrite data_cons, Zlength_app, IH. unfold frame_of. rewrite (va_frame m q p Ep), Ec. cbn [from_option id].
  unfold Zlength in *. cbn [length]. lia.
Qed.

(** Copying out: the buffer's bytes become those of the pages at its offset. *)
Lemma copy_loop_out buf : forall fuel l hd off extOff toGo ext m,
  plist (pages m) hd l -> Forall (ready m) l -> client m !! buf = Some ext ->
  0 <= off < 4096 -> 0 <= toGo -> 0 <= extOff -> extOff + toGo <= Zlength ext -> 0 < toGo \/ off = 0 ->
  (off + toGo + 4095) / 4096 = Zlength l -> Zlength l <= Z.of_nat fuel ->
  exists m', copy_loop fuel buf hd off extOff toGo false m = Ok (None, m') /\
    m' = set_tick (tick m') (set_client (<[buf := patched ext extOff (zslice off toGo (page_data m l))]> (client m)) m).
Proof.
  assert (Hnil : forall m ext extOff off, client m !! buf = Some ext -> 0 <= extOff <= Zlength ext ->
    m = set_tick (tick m) (set_client (<[buf := patched ext extOff (zslice off 0 (page_data m []))]> (client m)) m)).
  { intros m ext extOff off He Hx. unfold patched. change (zslice off 0 (page_data m [])) with (@nil Z).
    change (Zlength []) with 0. rewrite Z.add_0_r, app_nil_l, take_drop, insert_id by done. by destruct m. }
  induction fuel as [|fuel IH]; intros l hd off extOff toGo ext m Hp Hr He Ho Ht Hx Hxe Hz Hn Hf;
    cbn [copy_loop]; destruct (Z.eqb_spec toGo 0) as [->|Ht0].
  - assert (l = []) as -> by (destruct l; [done|]; unfold Zlength in *; cbn [length] in *; zlia).
    cbn in Hp. subst hd. exists m. split; [done|]. apply Hnil; [done|lia].
  - exfalso. pose proof (Zlength_nonneg l). zlia.
  - assert (l = []) as -> by (destruct l; [done|]; unfold Zlength in *; cbn [length] in *; zlia).
    cbn in Hp. subst hd. exists m. split; [done|]. apply Hnil; [done|lia].
  - destruct l as [|q l]; [unfold Zlength in Hn; cbn in Hn; zlia|].
    assert (Hl : Zlength (q :: l) = 1 + Zlength l) by (unfold Zlength; cbn [length]; lia). rewrite Hl in *.
    pose proof Hr as Hr0.
    destruct Hp as (-> & p0 & Ep & Hp). apply list.Forall_cons in Hr as [(p & c & Ep' & Ec & Hc & Hm & Hb) Hr].
    assert (p0 = p) as -> by congruence. rewrite ASSERT_true. erewrite hbind_Ok by done.
    rewrite (hbind_Ok _ _ _ _ _ (get_page_ok _ _ _ Ep)). change PkRing.EFI_PAGE_SIZE with 4096. cbn [andb].
    rewrite (hbind_Ok _ _ m tt m) by done.
    set (n := Z.min (4096 - off) toGo). assert (Hnn : 0 < n <= 4096 - off /\ n <= toGo) by lia.
    rewrite (hbind_Ok _ _ m ext m) by (unfold get_client; by rewrite He).
    assert (Lz : Zlength (zslice off n c) = n) by (apply Zlength_zslice; lia).
    set (e1 := patched ext extOff (zslice off n c)).
    set (m1 := set_tick (Datatypes.S (tick m)) (set_client (<[buf := e1]> (client m)) m)).
    rewrite (hbind_Ok _ _ m tt m1).
    2:{ erewrite hbind_Ok by (unfold with_frame; rewrite Ec, HQ, CopyMem_ok by lia; done). unfold hmod, m1, e1, patched.
        rewrite Lz. unfold set_client, set_tick, set_frames. cbn. by rewrite insert_id. }
    rewrite andb_false_r. cbn [andb]. rewrite (hbind_Ok _ _ m1 tt m1) by done.
    assert (Le : Zlength e1 = Zlength ext) by (unfold e1, patched; apply Zlength_patch; lia).
    destruct (IH l (NextBouncePage p) 0 (extOff + n) (toGo - n) e1 m1) as (m2 & E2 & H2); try lia; try done.
    + cbn. by rewrite lookup_insert_eq.
    + unfold n in *. zlia.
    + exists m2. split; [exact E2|]. rewrite H2 at 1.
      assert (Ed : patched e1 (extOff + n) (zslice 0 (toGo - n) (page_data m1 l)) =
        patched ext extOff (zslice off toGo (page_data m (q :: l)))).
      { rewrite data_cons. unfold frame_of. rewrite (va_frame m q p Ep), Ec. cbn [from_option id].
        rewrite zslice_app by lia. rewrite Hc. fold n. change (page_data m1 l) with (page_data m l).
        replace (extOff + n) with (extOff + Zlength (zslice off n c)) by lia. unfold e1.
        apply patched_app; [lia|]. rewrite Lz. rewrite Zlength_zslice; [lia|lia|lia|].
        rewrite (Zlength_page_data m l Hr). unfold n in *. zlia. }
      rewrite Ed. unfold m1, set_tick, set_client. cbn. by rewrite insert_insert_eq.
Qed.
End Quiet.
