(* ===== verification/Emcl.v ===== *)
(** The EMCL channel: [MsvmPkg/EmclDxe/Emcl.c], the channel operations from
    [EmclDestroyPacketLibrary] to [EmclInitializeContext].  A channel sends
    packets through a packet ring (module [PkRing]), keeps those that do not fit
    in a queue, matches completions to the packets that asked for one, and hands
    received packets to its client.

    The state [emcl] holds the context ([EMCL_CONTEXT], with [VmbusFlags] for
    [VmbusProtocol->Flags]), the ring ([pk], the [PkLibContext] and the shared
    memory), the heap (module [EmclBounce]), the completion entries and incoming
    packets by address, the two globals, and the trace of calls to the outside.
    The client's callbacks are the class [Client]; what VMBus and the boot
    services answer is the class [Vmbus].  Raising the TPL keeps an operation
    from being interrupted and has no effect here, where operations do not
    interleave.  [EmclProcessQueue] runs as long as the host sends packets: it
    takes the number of iterations it is allowed. *)
From stdpp Require Import base list numbers list_numbers option gmap.
From Stdlib Require Import ZArith Lia.
From S2P Require Import Prelude Circular PkRing EmclPacket EmclBounce.
Open Scope Z_scope.

Module Emcl.
Import PkRing EmclPacket EmclBounce.

Record EMCL_COMPLETION_ENTRY := mkEntry {
  CompletionRoutine : Z; CompletionContext : Z; OriginalBuffer : EFI_EXTERNAL_BUFFER;
  EmclBouncePageList : option page_ptr; SendPacketFlags : Z; TransactionId : Z }.

(** [out_this] and [out_buffer_ptr] are the addresses of the structure and of
    its buffer, [out_Buffer] the buffer's bytes. *)
Record EMCL_OUTGOING_PACKET := mkOutgoing {
  out_this : Z; out_buffer_ptr : Z; out_Buffer : list Z; out_BufferSize : Z }.

Record EMCL_CONTEXT := mkContext {
  VmbusFlags : Z; IsPipe : bool;
  IncomingPageCount : Z; OutgoingPageCount : Z; RingBufferPages : Z; RingBufferGpadl : Z;
  ReceiveEvent : Z; ReceiveCallback : Z; ReceiveContext : Z; ReceiveTpl : Z; AllocationFailure : bool;
  CompletionEntries : list Z; OutgoingQueue : list EMCL_OUTGOING_PACKET;
  IsRunning : bool; InterruptDeferred : bool }.

(** Calls to VMBus, the boot services and the client. *)
Inductive event : Type :=
  | SendInterrupt
  | SignalEvent (e : Z)
  | PrepareGpadl (buffer size flags : Z) (status : EFI_STATUS) (gpadl : Z)
  | CreateGpadl (gpadl : Z) (status : EFI_STATUS)
  | DestroyGpadl (gpadl : Z) (status : EFI_STATUS)
  | CreateEvent (tpl : Z) (status : EFI_STATUS) (e : Z)
  | CloseEvent (e : Z)
  | RegisterIsr (e : Z) (status : EFI_STATUS)
  | OpenChannel (gpadl pages : Z) (status : EFI_STATUS)
  | CloseChannel (status : EFI_STATUS)
  | Completed (routine context : Z) (data : list Z)
  | Received (callback context packet : Z) (data : list Z) (setId : Z) (ranges : list Z).

Record emcl := mkEmcl {
  pk : world; heap : memory; ctxt : EMCL_CONTEXT;
  entries : gmap Z EMCL_COMPLETION_ENTRY; IncomingPackets : gmap Z (list Z);
  mUseBounceBuffer : bool; mCurrentTransactionId : Z; trace : list event }.

Definition set_IncomingPageCount v c := mkContext (VmbusFlags c) (IsPipe c) v (OutgoingPageCount c) (RingBufferPages c) (RingBufferGpadl c) (ReceiveEvent c) (ReceiveCallback c) (ReceiveContext c) (ReceiveTpl c) (AllocationFailure c) (CompletionEntries c) (OutgoingQueue c) (IsRunning c) (InterruptDeferred c).
Definition set_OutgoingPageCount v c := mkContext (VmbusFlags c) (IsPipe c) (IncomingPageCount c) v (RingBufferPages c) (RingBufferGpadl c) (ReceiveEvent c) (ReceiveCallback c) (ReceiveContext c) (ReceiveTpl c) (AllocationFailure c) (CompletionEntries c) (OutgoingQueue c) (IsRunning c) (InterruptDeferred c).
Definition set_RingBufferPages v c := mkContext (VmbusFlags c) (IsPipe c) (IncomingPageCount c) (OutgoingPageCount c) v (RingBufferGpadl c) (ReceiveEvent c) (ReceiveCallback c) (ReceiveContext c) (ReceiveTpl c) (AllocationFailure c) (CompletionEntries c) (OutgoingQueue c) (IsRunning c) (InterruptDeferred c).
Definition set_RingBufferGpadl v c := mkContext (VmbusFlags c) (IsPipe c) (IncomingPageCount c) (OutgoingPageCount c) (RingBufferPages c) v (ReceiveEvent c) (ReceiveCallback c) (ReceiveContext c) (ReceiveTpl c) (AllocationFailure c) (CompletionEntries c) (OutgoingQueue c) (IsRunning c) (InterruptDeferred c).
Definition set_ReceiveEvent v c := mkContext (VmbusFlags c) (IsPipe c) (IncomingPageCount c) (OutgoingPageCount c) (RingBufferPages c) (RingBufferGpadl c) v (ReceiveCallback c) (ReceiveContext c) (ReceiveTpl c) (AllocationFailure c) (CompletionEntries c) (OutgoingQueue c) (IsRunning c) (InterruptDeferred c).
Definition set_ReceiveCallback v c := mkContext (VmbusFlags c) (IsPipe c) (IncomingPageCount c) (OutgoingPageCount c) (RingBufferPages c) (RingBufferGpadl c) (ReceiveEvent c) v (ReceiveContext c) (ReceiveTpl c) (AllocationFailure c) (CompletionEntries c) (OutgoingQueue c) (IsRunning c) (InterruptDeferred c).
Definition set_ReceiveContext v c := mkContext (VmbusFlags c) (IsPipe c) (IncomingPageCount c) (OutgoingPageCount c) (RingBufferPages c) (RingBufferGpadl c) (ReceiveEvent c) (ReceiveCallback c) v (ReceiveTpl c) (AllocationFailure c) (CompletionEntries c) (OutgoingQueue c) (IsRunning c) (InterruptDeferred c).
Definition set_ReceiveTpl v c := mkContext (VmbusFlags c) (IsPipe c) (IncomingPageCount c) (OutgoingPageCount c) (RingBufferPages c) (RingBufferGpadl c) (ReceiveEvent c) (ReceiveCallback c) (ReceiveContext c) v (AllocationFailure c) (CompletionEntries c) (OutgoingQueue c) (IsRunning c) (InterruptDeferred c).
Definition set_AllocationFailure v c := mkContext (VmbusFlags c) (IsPipe c) (IncomingPageCount c) (OutgoingPageCount c) (RingBufferPages c) (RingBufferGpadl c) (ReceiveEvent c) (ReceiveCallback c) (ReceiveContext c) (ReceiveTpl c) v (CompletionEntries c) (OutgoingQueue c) (IsRunning c) (InterruptDeferred c).
Definition set_CompletionEntries v c := mkContext (VmbusFlags c) (IsPipe c) (IncomingPageCount c) (OutgoingPageCount c) (RingBufferPages c) (RingBufferGpadl c) (ReceiveEvent c) (ReceiveCallback c) (ReceiveContext c) (ReceiveTpl c) (AllocationFailure c) v (OutgoingQueue c) (IsRunning c) (InterruptDeferred c).
Definition set_OutgoingQueue v c := mkContext (VmbusFlags c) (IsPipe c) (IncomingPageCount c) (OutgoingPageCount c) (RingBufferPages c) (RingBufferGpadl c) (ReceiveEvent c) (ReceiveCallback c) (ReceiveContext c) (ReceiveTpl c) (AllocationFailure c) (CompletionEntries c) v (IsRunning c) (InterruptDeferred c).
Definition set_IsRunning v c := mkContext (VmbusFlags c) (IsPipe c) (IncomingPageCount c) (OutgoingPageCount c) (RingBufferPages c) (RingBufferGpadl c) (ReceiveEvent c) (ReceiveCallback c) (ReceiveContext c) (ReceiveTpl c) (AllocationFailure c) (CompletionEntries c) (OutgoingQueue c) v (InterruptDeferred c).
Definition set_InterruptDeferred v c := mkContext (VmbusFlags c) (IsPipe c) (IncomingPageCount c) (OutgoingPageCount c) (RingBufferPages c) (RingBufferGpadl c) (ReceiveEvent c) (ReceiveCallback c) (ReceiveContext c) (ReceiveTpl c) (AllocationFailure c) (CompletionEntries c) (OutgoingQueue c) (IsRunning c) v.

Definition set_pk v s := mkEmcl v (heap s) (ctxt s) (entries s) (IncomingPackets s) (mUseBounceBuffer s) (mCurrentTransactionId s) (trace s).
Definition set_heap v s := mkEmcl (pk s) v (ctxt s) (entries s) (IncomingPackets s) (mUseBounceBuffer s) (mCurrentTransactionId s) (trace s).
Definition set_ctxt v s := mkEmcl (pk s) (heap s) v (entries s) (IncomingPackets s) (mUseBounceBuffer s) (mCurrentTransactionId s) (trace s).
Definition set_entries v s := mkEmcl (pk s) (heap s) (ctxt s) v (IncomingPackets s) (mUseBounceBuffer s) (mCurrentTransactionId s) (trace s).
Definition set_IncomingPackets v s := mkEmcl (pk s) (heap s) (ctxt s) (entries s) v (mUseBounceBuffer s) (mCurrentTransactionId s) (trace s).
Definition set_mUseBounceBuffer v s := mkEmcl (pk s) (heap s) (ctxt s) (entries s) (IncomingPackets s) v (mCurrentTransactionId s) (trace s).
Definition set_mCurrentTransactionId v s := mkEmcl (pk s) (heap s) (ctxt s) (entries s) (IncomingPackets s) (mUseBounceBuffer s) v (trace s).
Definition set_trace v s := mkEmcl (pk s) (heap s) (ctxt s) (entries s) (IncomingPackets s) (mUseBounceBuffer s) (mCurrentTransactionId s) v.

Definition set_BouncePages v e :=
  mkEntry (CompletionRoutine e) (CompletionContext e) (OriginalBuffer e) v (SendPacketFlags e) (TransactionId e).
Definition set_Original v e :=
  mkEntry (CompletionRoutine e) (CompletionContext e) v (EmclBouncePageList e) (SendPacketFlags e) (TransactionId e).

(** ** Computations of a channel *)
Definition E (A : Type) : Type := emcl -> result (A * emcl).
#[export] Instance E_ret : MRet E := fun A a s => Ok (a, s).
#[export] Instance E_bind : MBind E := fun A B k c s =>
  match c s with Ok (a, s') => k a s' | Fault f => Fault f end.
Definition elift {A} (r : result A) : E A := fun s =>
  match r with Ok a => Ok (a, s) | Fault f => Fault f end.
Definition eget {A} (f : emcl -> A) : E A := fun s => Ok (f s, s).
Definition emod (f : emcl -> emcl) : E unit := fun s => Ok (tt, f s).
Definition cget {A} (f : EMCL_CONTEXT -> A) : E A := eget (fun s => f (ctxt s)).
Definition cmod (f : EMCL_CONTEXT -> EMCL_CONTEXT) : E unit := emod (fun s => set_ctxt (f (ctxt s)) s).
Definition on_pk {A} (m : M A) : E A := fun s =>
  match m (pk s) with Ok (a, w) => Ok (a, set_pk w s) | Fault f => Fault f end.
Definition on_heap {A} (h : H A) : E A := fun s =>
  match h (heap s) with Ok (a, m) => Ok (a, set_heap m s) | Fault f => Fault f end.
Definition log (e : event) : E unit := emod (fun s => set_trace (trace s ++ [e]) s).
Definition now_tick : E nat := eget (fun s => tick (heap s)).
Definition advance : E unit := emod (fun s => set_heap (set_tick (Datatypes.S (tick (heap s))) (heap s)) s).

Definition FAIL_FAST_UNEXPECTED_HOST_BEHAVIOR {A} : E A := elift (Fault FailFast).

Definition get_entry (p : Z) : E EMCL_COMPLETION_ENTRY := fun s =>
  if p =? 0 then Fault NullDeref
  else match entries s !! p with Some e => Ok (e, s) | None => Fault UseAfterFree end.
Definition upd_entry (p : Z) (f : EMCL_COMPLETION_ENTRY -> EMCL_COMPLETION_ENTRY) : E unit :=
  e ← get_entry p; emod (fun s => set_entries (<[p := f e]> (entries s)) s).
Definition get_packet (p : Z) : E (list Z) := fun s =>
  if p =? 0 then Fault NullDeref
  else match IncomingPackets s !! p with Some b => Ok (b, s) | None => Fault UseAfterFree end.
Definition free_entry (p : Z) : E unit :=
  _ ← on_heap (FreePool p); emod (fun s => set_entries (delete p (entries s)) s).
Definition free_packet (p : Z) : E unit :=
  _ ← on_heap (FreePool p); emod (fun s => set_IncomingPackets (delete p (IncomingPackets s)) s).

(** The client: what its receive callback and completion routines do, given the
    context, the packet and the data they are called with. *)
Class Client := {
  on_receive : Z -> Z -> Z -> list Z -> Z -> list Z -> E unit;
  on_complete : Z -> Z -> list Z -> E unit
}.

Inductive service : Type := SvPrepareGpadl | SvCreateGpadl | SvDestroyGpadl | SvCreateEvent | SvRegisterIsr | SvOpenChannel | SvCloseChannel.

(** Answers of VMBus and the boot services, by time: a status, the handle
    created on success, and the shared memory of a new ring buffer. *)
Class Vmbus := {
  service_status : nat -> service -> EFI_STATUS;
  service_handle : nat -> service -> Z;
  ring_buffer : nat -> Z -> Z -> shared
}.

Definition EFI_VMBUS_PROTOCOL_FLAGS_CONFIDENTIAL_EXTERNAL_MEMORY : Z := 2.
Definition EMCL_SEND_FLAG_DATA_IN_ONLY : Z := 1.
Definition EMCL_SEND_FLAG_DATA_OUT_ONLY : Z := 2.
Definition EFI_VMBUS_PREPARE_GPADL_FLAG_ZERO_PAGES : Z := 1.
Definition EFI_VMBUS_PREPARE_GPADL_FLAG_RING_BUFFER : Z := 2.
Definition TPL_EMCL : Z := 30.
Definition UINT64_MAX : Z := 2 ^ 64 - 1.
Definition sizeof_EMCL_COMPLETION_ENTRY : Z := 72.
Definition sizeof_EMCL_OUTGOING_PACKET : Z := 32.

Section Channel.
Context {B : BuildOptions} {P : Peer} {S : Services} {D : Dma} {C : Client} {V : Vmbus}.

(** ** Outgoing packets *)
Definition EmclDestroyOutgoingPacket (Packet : EMCL_OUTGOING_PACKET) : E unit :=
  if negb (out_buffer_ptr Packet =? 0) then on_heap (FreePool (out_buffer_ptr Packet)) else mret tt.

(** The destruction of a packet and the release of its structure. *)
Definition destroy_outgoing (Packet : EMCL_OUTGOING_PACKET) : E unit :=
  _ ← EmclDestroyOutgoingPacket Packet; on_heap (FreePool (out_this Packet)).

(** The [while] loop of [EmclpSendPacket] that acquires bounce pages: a block is
    allocated as long as there are too few. *)
Fixpoint acquire_for (fuel : nat) (CompletionEntry pageCount : Z) : E unit :=
  e ← get_entry CompletionEntry;
  match EmclBouncePageList e with
  | Some _ => mret tt
  | None =>
    match fuel with
    | O => elift (Fault Diverges)
    | Datatypes.S fuel =>
      let allocSize := Z.max (u32 (pageCount * EFI_PAGE_SIZE)) (32 * EFI_PAGE_SIZE) in
      status ← on_heap (EmclpAllocateBounceBlock allocSize);
      if EFI_ERROR status then FAIL_FAST_UNEXPECTED_HOST_BEHAVIOR
      else
        l ← on_heap (EmclpAcquireBouncePages pageCount);
        _ ← upd_entry CompletionEntry (set_BouncePages l);
        acquire_for fuel CompletionEntry pageCount
    end
  end.

(** The GPA direct case through bounce pages: acquire, fill or zero them, and
    write the packet that names them. *)
Definition write_bounced (InlineBuffer : list Z) (InlineBufferLength : Z) (ExternalBuffers : list EFI_EXTERNAL_BUFFER)
  (TransactionId_ CompletionEntry : Z) (packetBuffer : list Z) : E (list Z) :=
  external ← elift (match ExternalBuffers with b :: _ => Ok b | [] => Fault OutOfBounds end);
  let pageCount := u32 (ADDRESS_AND_SIZE_TO_SPAN_PAGES (Buffer external) (BufferSize external)) in
  l ← on_heap (EmclpAcquireBouncePages pageCount);
  _ ← upd_entry CompletionEntry (set_BouncePages l);
  _ ← acquire_for (Datatypes.S (Z.to_nat pageCount)) CompletionEntry pageCount;
  _ ← upd_entry CompletionEntry (set_Original external);
  e ← get_entry CompletionEntry;
  _ ← (if negb (Z.land (SendPacketFlags e) EMCL_SEND_FLAG_DATA_IN_ONLY =? 0)
       then on_heap (EmclpZeroBouncePageList (EmclBouncePageList e))
       else on_heap (EmclpCopyBouncePagesToExternalBuffer external (EmclBouncePageList e) true));
  on_heap (EmclWriteGpaDirectPacketBounce InlineBuffer InlineBufferLength external (EmclBouncePageList e) TransactionId_
             (negb (CompletionEntry =? 0)) packetBuffer).

(** The [switch] of [EmclpSendPacket]: the packet's bytes. *)
Definition write_packet (InlineBuffer : list Z) (InlineBufferLength : Z) (ExternalBuffers : list EFI_EXTERNAL_BUFFER)
  (PacketType PipePacketType TransactionId_ CompletionEntry packetSize : Z) (packetBuffer : list Z) : E (list Z) :=
  if (PacketType =? VmbusPacketTypeDataInBand) || (PacketType =? VmbusPacketTypeCompletion) then
    isPipe ← cget IsPipe;
    elift (write_inline_packet isPipe PacketType PipePacketType TransactionId_ (negb (CompletionEntry =? 0))
             InlineBuffer InlineBufferLength packetSize packetBuffer)
  else if PacketType =? VmbusPacketTypeDataUsingGpaDirect then
    useBounce ← eget mUseBounceBuffer;
    flags ← cget VmbusFlags;
    if useBounce && (Z.land flags EFI_VMBUS_PROTOCOL_FLAGS_CONFIDENTIAL_EXTERNAL_MEMORY =? 0) then
      write_bounced InlineBuffer InlineBufferLength ExternalBuffers TransactionId_ CompletionEntry packetBuffer
    else
      elift (EmclWriteGpaDirectPacket InlineBuffer InlineBufferLength ExternalBuffers TransactionId_
               (negb (CompletionEntry =? 0)) packetBuffer)
  else _ ← elift (ASSERT false); mret packetBuffer.

(** Sending the written packet or queueing it, at [TPL_EMCL]. *)
Definition submit_packet (outgoingPacket : EMCL_OUTGOING_PACKET) (CompletionEntry : Z) (DeferInterrupt : bool) : E EFI_STATUS :=
  _ ← (if negb (CompletionEntry =? 0)
       then cmod (fun c => set_CompletionEntries (CompletionEntries c ++ [CompletionEntry]) c) else mret tt);
  status ← on_pk (PkSendPacketRaw (out_Buffer outgoingPacket) (out_BufferSize outgoingPacket));
  deferred ← cget InterruptDeferred;
  _ ← (if bool_decide (status = EFI_RING_SIGNAL_OPPOSITE_ENDPOINT) || deferred then
         _ ← (if negb DeferInterrupt then log SendInterrupt else mret tt);
         cmod (set_InterruptDeferred DeferInterrupt)
       else mret tt);
  if decide (status = EFI_BUFFER_TOO_SMALL) then
    _ ← cmod (fun c => set_OutgoingQueue (OutgoingQueue c ++ [outgoingPacket]) c);
    deferred ← cget InterruptDeferred;
    _ ← (if deferred : bool then _ ← log SendInterrupt; cmod (set_InterruptDeferred false) else mret tt);
    mret EFI_SUCCESS
  else if EFI_ERROR status then
    _ ← (if negb (CompletionEntry =? 0) then
           e ← get_entry CompletionEntry;
           _ ← cmod (fun c => set_CompletionEntries (filter (fun p => p <> CompletionEntry) (CompletionEntries c)) c);
           _ ← (match EmclBouncePageList e with
                | Some _ => on_heap (EmclpReleaseBouncePages (EmclBouncePageList e))
                | None => mret tt
                end);
           free_entry CompletionEntry
         else mret tt);
    _ ← destroy_outgoing outgoingPacket;
    mret status
  else _ ← destroy_outgoing outgoingPacket; mret EFI_SUCCESS.

(** [ExternalBuffers] is NULL or an array of [ExternalBufferCount] buffers;
    [CompletionEntry] is an address, 0 for NULL. *)
Definition EmclpSendPacket (InlineBuffer : list Z) (InlineBufferLength : Z)
  (ExternalBuffers : option (list EFI_EXTERNAL_BUFFER)) (PacketType PipePacketType TransactionId_ CompletionEntry : Z)
  (DeferInterrupt : bool) : E EFI_STATUS :=
  let externals := default [] ExternalBuffers in
  let ExternalBufferCount := Zlength externals in
  let isNull := match ExternalBuffers with None => true | Some _ => false end in
  _ ← elift (ASSERT (((ExternalBufferCount =? 0) && isNull && negb (PacketType =? VmbusPacketTypeDataUsingGpaDirect)) ||
               (negb (ExternalBufferCount =? 0) && negb isNull && (PacketType =? VmbusPacketTypeDataUsingGpaDirect) &&
                negb (CompletionEntry =? 0))));
  let packetSize := u32 ((if ExternalBufferCount =? 0 then sizeof_VMPACKET_DESCRIPTOR
                          else off_GPA_Range + EmclGpaRangesSize externals) + InlineBufferLength) in
  isPipe ← cget IsPipe;
  packetSize ← (if isPipe : bool then
                  _ ← elift (ASSERT (ExternalBufferCount =? 0)); mret (u32 (packetSize + sizeof_VMPIPE_PROTOCOL_HEADER))
                else mret packetSize);
  ringSize ← on_pk PkGetOutgoingRingSize;
  if ringSize <? packetSize then mret EFI_INVALID_PARAMETER
  else
    outgoingPacket ← on_heap (AllocatePool sizeof_EMCL_OUTGOING_PACKET);
    if outgoingPacket =? 0 then mret EFI_OUT_OF_RESOURCES
    else
      packetBuffer ← on_heap (AllocatePool packetSize);
      if packetBuffer =? 0 then _ ← destroy_outgoing (mkOutgoing outgoingPacket 0 [] 0); mret EFI_OUT_OF_RESOURCES
      else
        bytes ← write_packet InlineBuffer InlineBufferLength externals PacketType PipePacketType TransactionId_ CompletionEntry
                  packetSize (replicate (Z.to_nat packetSize) 0);
        submit_packet (mkOutgoing outgoingPacket packetBuffer bytes packetSize) CompletionEntry DeferInterrupt.

(** ** Incoming packets *)

(** The search through [CompletionEntries]: the last entry looked at, 0 when
    there is none; the search ends at one with the transaction's id. *)
Fixpoint find_completion (l : list Z) (completionEntry TransactionId_ : Z) : E Z :=
  match l with
  | [] => mret completionEntry
  | p :: l =>
    e ← get_entry p;
    if TransactionId e =? TransactionId_ then
      _ ← cmod (fun c => set_CompletionEntries (filter (fun q => q <> p) (CompletionEntries c)) c);
      mret p
    else find_completion l p TransactionId_
  end.

(** A completion packet: the bounce pages are copied back and released, the
    routine is called, entry and packet are freed. *)
Definition dispatch_completion (Packet TransactionId_ : Z) (inline : list Z) : E unit :=
  l ← cget CompletionEntries;
  completionEntry ← find_completion l 0 TransactionId_;
  _ ← (if completionEntry =? 0 then FAIL_FAST_UNEXPECTED_HOST_BEHAVIOR
       else
         e ← get_entry completionEntry;
         if negb (TransactionId e =? TransactionId_) then FAIL_FAST_UNEXPECTED_HOST_BEHAVIOR else mret tt);
  e ← get_entry completionEntry;
  _ ← (match EmclBouncePageList e with
       | Some _ =>
         _ ← (if Z.land (SendPacketFlags e) EMCL_SEND_FLAG_DATA_OUT_ONLY =? 0
              then on_heap (EmclpCopyBouncePagesToExternalBuffer (OriginalBuffer e) (EmclBouncePageList e) false)
              else mret tt);
         _ ← on_heap (EmclpReleaseBouncePages (EmclBouncePageList e));
         upd_entry completionEntry (set_BouncePages None)
       | None => mret tt
       end);
  _ ← log (Completed (CompletionRoutine e) (CompletionContext e) inline);
  _ ← on_complete (CompletionRoutine e) (CompletionContext e) inline;
  _ ← free_entry completionEntry;
  free_packet Packet.

(** An in-band packet: on a pipe, the data is what the pipe header delimits;
    other pipe messages are ignored. *)
Definition dispatch_in_band (Packet : Z) (bytes : list Z) (inlineBuffer inlineBufferLength : Z) : E unit :=
  callback ← cget ReceiveCallback;
  if callback =? 0 then mret tt
  else
    context ← cget ReceiveContext;
    isPipe ← cget IsPipe;
    if isPipe : bool then
      if inlineBufferLength <? sizeof_VMPIPE_PROTOCOL_HEADER then FAIL_FAST_UNEXPECTED_HOST_BEHAVIOR
      else
        packetType ← elift (load 4 bytes inlineBuffer);
        if negb (packetType =? VmPipeMessageData) then mret tt
        else
          dataSize ← elift (load 4 bytes (inlineBuffer + 4));
          if inlineBufferLength - sizeof_VMPIPE_PROTOCOL_HEADER <? dataSize then FAIL_FAST_UNEXPECTED_HOST_BEHAVIOR
          else
            data ← elift (mem_read bytes (inlineBuffer + sizeof_VMPIPE_PROTOCOL_HEADER) dataSize);
            _ ← log (Received callback context Packet data 0 []);
            on_receive callback context Packet data 0 []
    else
      data ← elift (mem_read bytes inlineBuffer inlineBufferLength);
      _ ← log (Received callback context Packet data 0 []);
      on_receive callback context Packet data 0 [].

(** A transfer-page packet: the ranges the callback is given are the bytes from
    [Ranges] on, [RangeCount] of them. *)
Definition dispatch_transfer_pages (Packet : Z) (bytes : list Z) (DataOffset8 inlineBuffer inlineBufferLength : Z) : E unit :=
  callback ← cget ReceiveCallback;
  if callback =? 0 then mret tt
  else
    context ← cget ReceiveContext;
    if DataOffset8 * 8 <? off_Transfer_Ranges then FAIL_FAST_UNEXPECTED_HOST_BEHAVIOR
    else
      let expectedRangeCount := (DataOffset8 * 8 - off_Transfer_Ranges) / sizeof_VMTRANSFER_PAGE_RANGE in
      rangeCount ← elift (load 4 bytes off_Transfer_RangeCount);
      if negb (rangeCount =? expectedRangeCount) then FAIL_FAST_UNEXPECTED_HOST_BEHAVIOR
      else
        data ← elift (mem_read bytes inlineBuffer inlineBufferLength);
        setId ← elift (load 2 bytes off_TransferPageSetId);
        ranges ← elift (mem_read bytes off_Transfer_Ranges (sizeof_VMTRANSFER_PAGE_RANGE * rangeCount));
        _ ← log (Received callback context Packet data setId ranges);
        on_receive callback context Packet data setId ranges.

Definition EmclDispatchPacket (Packet : Z) : E unit :=
  bytes ← get_packet Packet;
  length8 ← elift (load 2 bytes off_Length8);
  dataOffset8 ← elift (load 2 bytes off_DataOffset8);
  if (length8 * 8 <? sizeof_VMPACKET_DESCRIPTOR) || (length8 <? dataOffset8) then FAIL_FAST_UNEXPECTED_HOST_BEHAVIOR
  else
    let inlineBuffer := dataOffset8 * 8 in
    let inlineBufferLength := (length8 - dataOffset8) * 8 in
    ty ← elift (load 2 bytes off_Type);
    if ty =? VmbusPacketTypeCompletion then
      tid ← elift (load 8 bytes off_TransactionId);
      inline ← elift (mem_read bytes inlineBuffer inlineBufferLength);
      dispatch_completion Packet tid inline
    else if ty =? VmbusPacketTypeDataInBand then dispatch_in_band Packet bytes inlineBuffer inlineBufferLength
    else if ty =? VmbusPacketTypeDataUsingTransferPages then
      dispatch_transfer_pages Packet bytes dataOffset8 inlineBuffer inlineBufferLength
    else mret tt.

(** ** Processing the rings *)

(** The inner receive loop: the ring offset reached and the packets received. *)
Fixpoint receive_loop (fuel : nat) (ringOffset receivedCount : Z) : E (Z * Z) :=
  match fuel with
  | O => elift (Fault Diverges)
  | Datatypes.S fuel =>
    let currentOffset := ringOffset in
    '(status, ringOffset, buffer) ← on_pk (PkGetReceiveBuffer ringOffset);
    if EFI_ERROR status then mret (ringOffset, receivedCount)
    else
      bufferLength ← elift (match buffer with Some (_, n) => Ok n | None => Fault NullDeref end);
      incomingPacket ← on_heap (AllocatePool bufferLength);
      if incomingPacket =? 0 then
        _ ← cmod (set_AllocationFailure true); mret (ringOffset, receivedCount)
      else
        _ ← cmod (set_AllocationFailure false);
        bytes ← on_pk (PkReadPacketSingleMapped (replicate (Z.to_nat bufferLength) 0) bufferLength currentOffset);
        bytes ← elift (store 2 bytes off_Length8 (u16 (bufferLength / 8)));
        _ ← emod (fun s => set_IncomingPackets (<[incomingPacket := bytes]> (IncomingPackets s)) s);
        _ ← EmclDispatchPacket incomingPacket;
        receive_loop fuel ringOffset (u32 (receivedCount + 1))
  end.

(** The [do ... while] loop. *)
Fixpoint receive_all (fuel : nat) (ringOffset : Z) : E unit :=
  match fuel with
  | O => elift (Fault Diverges)
  | Datatypes.S fuel' =>
    '(ringOffset, receivedCount) ← receive_loop fuel ringOffset 0;
    if 0 <? receivedCount then
      status ← on_pk (PkCompleteRemoval ringOffset);
      if decide (status = EFI_RING_SIGNAL_OPPOSITE_ENDPOINT) then
        _ ← log SendInterrupt; receive_all fuel' ringOffset
      else if EFI_ERROR status then mret tt
      else receive_all fuel' ringOffset
    else mret tt
  end.

(** The outgoing queue, at most [n] packets of it. *)
Fixpoint flush_queue (n : nat) : E unit :=
  q ← cget OutgoingQueue;
  match q, n with
  | [], _ => mret tt
  | _, O => elift (Fault Diverges)
  | outgoingPacket :: _, Datatypes.S n =>
    deferred ← cget InterruptDeferred;
    _ ← elift (ASSERT (negb deferred));
    status ← on_pk (PkSendPacketRaw (out_Buffer outgoingPacket) (out_BufferSize outgoingPacket));
    _ ← (if decide (status = EFI_RING_SIGNAL_OPPOSITE_ENDPOINT) then log SendInterrupt else mret tt);
    if EFI_ERROR status then mret tt
    else
      _ ← cmod (fun c => set_OutgoingQueue (tail (OutgoingQueue c)) c);
      _ ← destroy_outgoing outgoingPacket;
      flush_queue n
  end.

Definition EmclProcessQueue (fuel : nat) : E unit :=
  ringOffset ← on_pk PkGetIncomingRingOffset;
  _ ← receive_all fuel ringOffset;
  q ← cget OutgoingQueue;
  flush_queue (length q).

(** ** The protocol's send operations *)
Definition EmclCreateGpaRange (Handle : Z) (ExternalBuffers : list EFI_EXTERNAL_BUFFER) (Writable : bool) : E EFI_STATUS :=
  let setupMessageSize := u32 (off_Setup_Range + EmclGpaRangesSize ExternalBuffers) in
  setupMessage ← on_heap (AllocatePool setupMessageSize);
  if setupMessage =? 0 then mret EFI_OUT_OF_RESOURCES
  else
    bytes ← elift (setup_message Handle ExternalBuffers Writable (replicate (Z.to_nat setupMessageSize) 0));
    status ← EmclpSendPacket bytes setupMessageSize None VmbusPacketTypeDataInBand VmPipeMessageSetupGpaDirect 0 0 true;
    _ ← on_heap (FreePool setupMessage);
    mret status.

Definition EmclDestroyGpaRange (Handle : Z) : E EFI_STATUS :=
  EmclpSendPacket (teardown_message Handle) sizeof_TEARDOWN None VmbusPacketTypeDataInBand VmPipeMessageTeardownGpaDirect 0 0 true.

(** Cleanup of [EmclSendPacketEx]. *)
Definition send_cleanup (completionEntry : Z) (status : EFI_STATUS) : E EFI_STATUS :=
  if EFI_ERROR status then
    _ ← (if negb (completionEntry =? 0) then free_entry completionEntry else mret tt); mret status
  else mret status.

(** [CompletionRoutine_] is the client's name for its routine, 0 for NULL. *)
Definition EmclSendPacketEx (InlineBuffer : list Z) (InlineBufferLength : Z) (ExternalBuffers : option (list EFI_EXTERNAL_BUFFER))
  (SendPacketFlags_ CompletionRoutine_ CompletionRoutineContext : Z) : E EFI_STATUS :=
  running ← cget IsRunning;
  _ ← elift (ASSERT running);
  if existsb (fun b => (Buffer b =? 0) || (BufferSize b =? 0)) (default [] ExternalBuffers) then mret EFI_INVALID_PARAMETER
  else
    '(status, completionEntry, tid) ← (
      if negb (CompletionRoutine_ =? 0) then
        p ← on_heap (AllocatePool sizeof_EMCL_COMPLETION_ENTRY);
        if p =? 0 then mret (EFI_OUT_OF_RESOURCES, 0, 0)
        else
          current ← eget mCurrentTransactionId;
          if current =? UINT64_MAX then FAIL_FAST_UNEXPECTED_HOST_BEHAVIOR
          else
            _ ← emod (set_mCurrentTransactionId (current + 1));
            _ ← emod (fun s => set_entries (<[p := mkEntry CompletionRoutine_ CompletionRoutineContext (mkExternal 0 0) None
                                                     SendPacketFlags_ (current + 1)]> (entries s)) s);
            mret (EFI_SUCCESS, p, current + 1)
      else mret (EFI_SUCCESS, 0, 0));
    if EFI_ERROR status then mret status
    else
      status ← EmclpSendPacket InlineBuffer InlineBufferLength ExternalBuffers
                 (match ExternalBuffers with None => VmbusPacketTypeDataInBand | Some _ => VmbusPacketTypeDataUsingGpaDirect end)
                 VmPipeMessageData tid completionEntry false;
      send_cleanup completionEntry status.

Definition EmclSendPacket (InlineBuffer : list Z) (InlineBufferLength : Z) (ExternalBuffers : option (list EFI_EXTERNAL_BUFFER))
  (CompletionRoutine_ CompletionRoutineContext : Z) : E EFI_STATUS :=
  EmclSendPacketEx InlineBuffer InlineBufferLength ExternalBuffers 0 CompletionRoutine_ CompletionRoutineContext.

Definition EmclCompletePacket (PacketContext : Z) (Buffer_ : list Z) (BufferLength : Z) : E EFI_STATUS :=
  bytes ← get_packet PacketContext;
  flags ← elift (load 2 bytes off_Flags);
  status ← (if negb (Z.land flags VMBUS_DATA_PACKET_FLAG_COMPLETION_REQUESTED =? 0) then
              tid ← elift (load 8 bytes off_TransactionId);
              EmclpSendPacket Buffer_ BufferLength None VmbusPacketTypeCompletion 0 tid 0 false
            else mret EFI_SUCCESS);
  _ ← free_packet PacketContext;
  failed ← cget AllocationFailure;
  _ ← (if failed : bool then e ← cget ReceiveEvent; log (SignalEvent e) else mret tt);
  mret status.

Definition EmclSetReceiveCallback (ReceiveCallback_ ReceiveContext_ Tpl : Z) : E EFI_STATUS :=
  running ← cget IsRunning;
  _ ← elift (ASSERT (negb running));
  e ← cget ReceiveEvent;
  _ ← elift (ASSERT (e =? 0));
  old ← cget ReceiveCallback;
  _ ← (if negb (old =? 0) then
         cmod (fun c => set_ReceiveTpl 0 (set_ReceiveContext 0 (set_ReceiveCallback 0 c)))
       else mret tt);
  _ ← (if negb (ReceiveCallback_ =? 0) then
         cmod (fun c => set_ReceiveTpl Tpl (set_ReceiveContext ReceiveContext_ (set_ReceiveCallback ReceiveCallback_ c)))
       else mret tt);
  mret EFI_SUCCESS.

(** ** Calls to VMBus *)
Definition call (sv : service) : E (EFI_STATUS * Z) :=
  t ← now_tick; _ ← advance; mret (service_status t sv, service_handle t sv).

Definition vm_DestroyGpadl (g : Z) : E EFI_STATUS := '(st, _) ← call SvDestroyGpadl; _ ← log (DestroyGpadl g st); mret st.
Definition vm_CreateGpadl (g : Z) : E EFI_STATUS := '(st, _) ← call SvCreateGpadl; _ ← log (CreateGpadl g st); mret st.
Definition vm_RegisterIsr (e : Z) : E EFI_STATUS := '(st, _) ← call SvRegisterIsr; _ ← log (RegisterIsr e st); mret st.
Definition vm_OpenChannel (g n : Z) : E EFI_STATUS := '(st, _) ← call SvOpenChannel; _ ← log (OpenChannel g n st); mret st.
Definition vm_CloseChannel : E EFI_STATUS := '(st, _) ← call SvCloseChannel; _ ← log (CloseChannel st); mret st.
(** A new GPADL is returned on success only. *)
Definition vm_PrepareGpadl (buffer size flags : Z) : E (EFI_STATUS * Z) :=
  '(st, g) ← call SvPrepareGpadl;
  let g := if EFI_ERROR st then 0 else g in
  _ ← log (PrepareGpadl buffer size flags st g); mret (st, g).
Definition bs_CreateEvent (tpl : Z) : E (EFI_STATUS * Z) :=
  '(st, e) ← call SvCreateEvent;
  let e := if EFI_ERROR st then 0 else e in
  _ ← log (CreateEvent tpl st e); mret (st, e).

(** The client's GPADLs.  [Gpadl] is returned as well. *)
Definition EmclCreateGpadl (Buffer_ BufferLength : Z) : E (EFI_STATUS * option Z) :=
  '(status, vmbusGpadl) ← vm_PrepareGpadl Buffer_ BufferLength 0;
  if EFI_ERROR status then
    _ ← (if negb (vmbusGpadl =? 0) then vm_DestroyGpadl vmbusGpadl else mret EFI_SUCCESS); mret (status, None)
  else
    status ← vm_CreateGpadl vmbusGpadl;
    if EFI_ERROR status then
      _ ← (if negb (vmbusGpadl =? 0) then vm_DestroyGpadl vmbusGpadl else mret EFI_SUCCESS); mret (status, None)
    else mret (EFI_SUCCESS, Some vmbusGpadl).

Definition EmclDestroyGpadl (Gpadl : Z) : E EFI_STATUS :=
  if negb (Gpadl =? 0) then vm_DestroyGpadl Gpadl else mret EFI_SUCCESS.

(** ** Starting and stopping *)
Definition EmclDestroyPacketLibrary : E unit :=
  g ← cget RingBufferGpadl;
  _ ← (if negb (g =? 0) then _ ← vm_DestroyGpadl g; cmod (set_RingBufferGpadl 0) else mret tt);
  pages_ ← cget RingBufferPages;
  _ ← (if negb (pages_ =? 0) then
         i ← cget IncomingPageCount;
         o ← cget OutgoingPageCount;
         _ ← on_heap (FreePages pages_ (u32 (i + o)));
         cmod (fun c => set_OutgoingPageCount 0 (set_IncomingPageCount 0 (set_RingBufferPages 0 c)))
       else mret tt);
  on_heap EmclpFreeAllBounceBlocks.

Definition EmclInitializePacketLibrary (IncomingRingBufferPageCount OutgoingRingBufferPageCount : Z) : E EFI_STATUS :=
  status ← (
    let pageCount := u32 (IncomingRingBufferPageCount + OutgoingRingBufferPageCount + 2) in
    pages_ ← on_heap (AllocatePages pageCount);
    _ ← cmod (set_RingBufferPages pages_);
    if pages_ =? 0 then mret EFI_OUT_OF_RESOURCES
    else
      _ ← cmod (set_IncomingPageCount (u32 (IncomingRingBufferPageCount + 1)));
      _ ← cmod (set_OutgoingPageCount (u32 (OutgoingRingBufferPageCount + 1)));
      t ← now_tick;
      '(status, g) ← vm_PrepareGpadl pages_ (u32 (pageCount * EFI_PAGE_SIZE))
                       (Z.lor EFI_VMBUS_PREPARE_GPADL_FLAG_ZERO_PAGES EFI_VMBUS_PREPARE_GPADL_FLAG_RING_BUFFER);
      if EFI_ERROR status then mret status
      else
        _ ← cmod (set_RingBufferGpadl g);
        (* the buffer of the GPADL, split into the two rings *)
        let shm := ring_buffer t OutgoingRingBufferPageCount IncomingRingBufferPageCount in
        _ ← emod (fun s => set_pk (mkWorld (PkRing.ctx (pk s)) shm (now (pk s))) s);
        on_pk (PkInitializeSingleMappedRingBuffer IncomingRingBufferPageCount OutgoingRingBufferPageCount));
  if EFI_ERROR status then _ ← EmclDestroyPacketLibrary; mret status else mret EFI_SUCCESS.

(** The steps of [EmclStartChannel] up to [Cleanup], with [isrRegistered]. *)
Definition start_steps (IncomingRingBufferPageCount OutgoingRingBufferPageCount : Z) : E (EFI_STATUS * bool) :=
  status ← EmclInitializePacketLibrary IncomingRingBufferPageCount OutgoingRingBufferPageCount;
  if EFI_ERROR status then mret (status, false)
  else
    g ← cget RingBufferGpadl;
    status ← vm_CreateGpadl g;
    if EFI_ERROR status then mret (status, false)
    else
      e ← cget ReceiveEvent;
      _ ← elift (ASSERT (e =? 0));
      callback ← cget ReceiveCallback;
      tpl ← cget ReceiveTpl;
      '(status, e) ← bs_CreateEvent (if callback =? 0 then TPL_EMCL else tpl);
      if EFI_ERROR status then mret (status, false)
      else
        _ ← cmod (set_ReceiveEvent e);
        _ ← (if callback =? 0 then cmod (set_ReceiveTpl TPL_EMCL) else mret tt);
        status ← vm_RegisterIsr e;
        if EFI_ERROR status then mret (status, false)
        else
          n ← cget OutgoingPageCount;
          status ← vm_OpenChannel g n;
          if EFI_ERROR status then mret (status, true)
          else _ ← cmod (set_IsRunning true); mret (EFI_SUCCESS, true).

Definition EmclStartChannel (IncomingRingBufferPageCount OutgoingRingBufferPageCount : Z) : E EFI_STATUS :=
  running ← cget IsRunning;
  _ ← elift (ASSERT (negb running));
  '(status, isrRegistered) ← start_steps IncomingRingBufferPageCount OutgoingRingBufferPageCount;
  if EFI_ERROR status then
    g ← cget RingBufferGpadl;
    _ ← (if negb (g =? 0) then _ ← vm_DestroyGpadl g; cmod (set_RingBufferGpadl 0) else mret tt);
    _ ← (if isrRegistered : bool then vm_RegisterIsr 0 else mret EFI_SUCCESS);
    e ← cget ReceiveEvent;
    _ ← (if negb (e =? 0) then _ ← log (CloseEvent e); cmod (set_ReceiveEvent 0) else mret tt);
    _ ← EmclDestroyPacketLibrary;
    mret status
  else mret status.

(** Emptying the queue of outgoing packets and the list of completions.
    [RemoveEntryList] of the base library unlinks a node and returns the node
    after it, which is the list's head when there is none.  The loops treat what
    it returns as the node removed: the packet or entry they release is the next
    one, still in the list, and behind the last one it is the list's head, which
    lies in the context and is no packet or entry. *)
Definition linked (p : Z) : E unit := fun s => if decide (p ∈ pool (heap s)) then Ok (tt, s) else Fault UseAfterFree.

Fixpoint drop_queue (n : nat) : E unit :=
  q ← cget OutgoingQueue;
  match q, n with
  | [], _ => mret tt
  | _, O => elift (Fault Diverges)
  | first :: q, Datatypes.S n =>
    _ ← linked (out_this first);
    _ ← cmod (set_OutgoingQueue q);
    packet ← elift (match q with packet :: _ => Ok packet | [] => Fault OutOfBounds end);
    _ ← destroy_outgoing packet;
    drop_queue n
  end.

Fixpoint drop_completions (n : nat) : E unit :=
  l ← cget CompletionEntries;
  match l, n with
  | [], _ => mret tt
  | _, O => elift (Fault Diverges)
  | first :: l, Datatypes.S n =>
    _ ← linked first;
    _ ← cmod (set_CompletionEntries l);
    completionEntry ← elift (match l with p :: _ => Ok p | [] => Fault OutOfBounds end);
    e ← get_entry completionEntry;
    _ ← (match EmclBouncePageList e with
         | Some _ =>
           _ ← on_heap (EmclpReleaseBouncePages (EmclBouncePageList e)); upd_entry completionEntry (set_BouncePages None)
         | None => mret tt
         end);
    _ ← free_entry completionEntry;
    drop_completions n
  end.

Definition EmclStopChannel (currentTpl : Z) : E unit :=
  running ← cget IsRunning;
  _ ← elift (ASSERT running);
  tpl ← cget ReceiveTpl;
  _ ← elift (ASSERT (currentTpl <=? tpl));
  status ← vm_CloseChannel;
  _ ← elift (ASSERT (negb (EFI_ERROR status)));
  status ← vm_RegisterIsr 0;
  _ ← elift (ASSERT (negb (EFI_ERROR status)));
  g ← cget RingBufferGpadl;
  status ← vm_DestroyGpadl g;
  _ ← elift (ASSERT (negb (EFI_ERROR status)));
  _ ← cmod (set_RingBufferGpadl 0);
  e ← cget ReceiveEvent;
  _ ← log (CloseEvent e);
  _ ← cmod (set_ReceiveEvent 0);
  q ← cget OutgoingQueue;
  _ ← drop_queue (length q);
  l ← cget CompletionEntries;
  _ ← drop_completions (length l);
  _ ← EmclDestroyPacketLibrary;
  cmod (set_IsRunning false).

(** [EmclInitializeContext], and the fields [EmclDriverStart] sets after it. *)
Definition EmclInitializeContext (flags : Z) : EMCL_CONTEXT :=
  mkContext flags (negb (Z.land flags 1 =? 0)) 0 0 0 0 0 0 0 0 false [] [] false false.
End Channel.
End Emcl.
