(* ===== verification/EmclSafe.v ===== *)
(** EMCL against an arbitrary host: the invariant of a channel, a program logic
    for its computations, and the proof that sending, completing and processing
    keep the invariant and touch no memory they do not own, whatever the host
    writes to the rings and to the shared pages. *)
From stdpp Require Import base list numbers list_numbers option gmap fin_map_dom functions.
From Stdlib Require Import ZArith Lia.
From S2P Require Import Prelude Circular PkRing PkRingSafe EmclPacket EmclPacketProps EmclBounce EmclBounceInv EmclBounceAlloc EmclBounceCopy Emcl Heap.
Open Scope Z_scope.
Import PkRing EmclPacket EmclBounce Emcl.

(** ** Program logic: [c] started in [P] ends in [Q] or with a fault of [F]. *)
Definition esafe {A} (F : fault -> Prop) (P : emcl -> Prop) (c : E A) (Q : A -> emcl -> Prop) : Prop :=
  forall s, P s -> match c s with Ok (a, s') => Q a s' | Fault f => F f end.

Section Logic.
Context {A C : Type} (F : fault -> Prop).

Lemma esafe_bind P (c : E A) (k : A -> E C) Q R :
  esafe F P c Q -> (forall a, esafe F (Q a) (k a) R) -> esafe F P (c ≫= k) R.
Proof.
  intros Hc Hk s Hs. specialize (Hc s Hs). unfold mbind, E_bind. destruct (c s) as [[a s']|f]; [|done]. by apply Hk.
Qed.

Lemma esafe_ret (P : emcl -> Prop) (a : A) Q : (forall s, P s -> Q a s) -> esafe F P (mret a) Q.
Proof. intros H s Hs. by apply H. Qed.

Lemma esafe_lift (P : emcl -> Prop) (r : result A) a (Q : A -> emcl -> Prop) : r = Ok a -> (forall s, P s -> Q a s) -> esafe F P (elift r) Q.
Proof. intros -> H s Hs. by apply H. Qed.

Lemma esafe_fault (P : emcl -> Prop) f (Q : A -> emcl -> Prop) : F f -> esafe F P (elift (Fault f)) Q.
Proof. intros H s Hs. done. Qed.

Lemma esafe_pre (P P' : emcl -> Prop) (c : E A) Q : (forall s, P s -> P' s) -> esafe F P' c Q -> esafe F P c Q.
Proof. intros H Hc s Hs. by apply Hc, H. Qed.

Lemma esafe_post (P : emcl -> Prop) (c : E A) (Q Q' : A -> emcl -> Prop) : (forall a s, Q a s -> Q' a s) -> esafe F P c Q -> esafe F P c Q'.
Proof. intros H Hc s Hs. specialize (Hc s Hs). destruct (c s) as [[a s']|f]; auto. Qed.

Lemma esafe_if (b : bool) (P : emcl -> Prop) (c1 c2 : E A) Q :
  (b = true -> esafe F P c1 Q) -> (b = false -> esafe F P c2 Q) -> esafe F P (if b then c1 else c2) Q.
Proof. destruct b; auto. Qed.

(** A fact of the state that does not change. *)
Lemma esafe_pure (X : Prop) P (c : E A) Q : (X -> esafe F P c Q) -> esafe F (fun s => X /\ P s) c Q.
Proof. intros H s [HX Hs]. by apply H. Qed.
Lemma esafe_ex {X} (P : X -> emcl -> Prop) (c : E A) Q : (forall x, esafe F (P x) c Q) -> esafe F (fun s => exists x, P x s) c Q.
Proof. intros H s [x Hs]. by apply (H x). Qed.

Lemma esafe_get (f : emcl -> A) (P : emcl -> Prop) : esafe F P (eget f) (fun a s => a = f s /\ P s).
Proof. intros s Hs. done. Qed.

Lemma esafe_mod f (P : emcl -> Prop) (Q : unit -> emcl -> Prop) : (forall s, P s -> Q tt (f s)) -> esafe F P (emod f) Q.
Proof. intros H s Hs. by apply H. Qed.

Lemma esafe_heap (h : EmclBounce.H A) (P : emcl -> Prop) (Q : A -> emcl -> Prop) :
  (forall s, P s -> exists a m, h (heap s) = Ok (a, m) /\ Q a (set_heap m s)) -> esafe F P (on_heap h) Q.
Proof. intros H s Hs. destruct (H s Hs) as (a & m & E & HQ). unfold on_heap. by rewrite E. Qed.

Lemma esafe_pk (m : M A) (P : emcl -> Prop) (Q : A -> emcl -> Prop) :
  (forall s, P s -> exists a w, m (pk s) = Ok (a, w) /\ Q a (set_pk w s)) -> esafe F P (on_pk m) Q.
Proof. intros H s Hs. destruct (H s Hs) as (a & m' & E & HQ). unfold on_pk. by rewrite E. Qed.
End Logic.

(** ** The invariant of a channel *)
Definition queue_ptrs (q : list EMCL_OUTGOING_PACKET) : list Z := concat ((fun o => [out_this o; out_buffer_ptr o]) <$> q).

(** Everything in the pool that the channel owns: its blocks, completion
    entries, incoming packets and queued packets, and [loc], what an operation
    in progress holds. *)
Definition owned (loc : list Z) (s : emcl) : list Z :=
  block_ptrs (heap s) ++ keys (entries s) ++ keys (IncomingPackets s) ++ queue_ptrs (OutgoingQueue (ctxt s)) ++ loc.

(** An entry whose packet was sent through the bounce pages [l]. *)
Definition bounced (m : memory) (e : EMCL_COMPLETION_ENTRY) (l : list page_ptr) : Prop :=
  external_ok (OriginalBuffer e) /\ 0 < BufferSize (OriginalBuffer e) /\ Zlength l = pages_of (OriginalBuffer e) /\
  exists c, client m !! Buffer (OriginalBuffer e) = Some c /\ BufferSize (OriginalBuffer e) <= Zlength c.

Definition queued_ok (Do : Z) (o : EMCL_OUTGOING_PACKET) : Prop :=
  out_BufferSize o = Zlength (out_Buffer o) /\ 0 < out_BufferSize o <= Do /\ out_buffer_ptr o <> 0.

(** The pages allocated for the blocks. *)
Definition base_at (m : memory) (b : Z) : Z := default 0 (BlockBase <$> blocks m !! b).
Definition bases (m : memory) : list Z := base_at m <$> BounceBlockListHead m.

Lemma relinks_bases `{BuildOptions, Services, Dma} m m' : relinks m m' -> bases m' = bases m.
Proof.
  intros R. unfold bases. rewrite (rl_list _ _ R). apply list_fmap_ext. intros i b _. unfold base_at.
  pose proof (rl_blocks _ _ R b) as Hg. destruct (blocks m' !! b), (blocks m !! b); cbn in *; try done. unfold geometry in Hg. congruence.
Qed.

Lemma copied_bases m m' : copied m m' -> bases m' = bases m.
Proof. intros R. unfold bases, base_at. by rewrite (co_list _ _ R), (co_blocks _ _ R). Qed.

Definition ring_fields (c : EMCL_CONTEXT) : Z * Z * Z := (RingBufferPages c, IncomingPageCount c, OutgoingPageCount c).

(** What an operation leaves alone: the entries of the operations that wait for
    it, the allocations of the pool and of pages that are not the channel's, and
    the place of the ring buffer. *)
Record frame := mkFrame { idle : list Z; foreign : gset Z; foreign_allocs : gmap Z Z; buffer : Z * Z * Z }.

Section Safety.
Context {B : BuildOptions} {P : Peer} {S : Services} {D : Dma} {C : Client} {V : Vmbus}.
Context (HP : peer_ok) (HS : services_ok) (HD : dma_ok) (Do Di : Z) (HDo : ring_size Do) (HDi : ring_size Di)
  (pi : frame).

(** The bounce pages of every entry; those listed know their buffer. *)
Definition entries_bounced (s : emcl) (m : memory) (fl hl : Z -> list page_ptr) : Prop :=
  bounce_inv fl (hl <$> keys (entries s)) m /\
  forall p e, entries s !! p = Some e -> EmclBouncePageList e = head (hl p) /\
    (p ∈ CompletionEntries (ctxt s) -> hl p <> [] -> bounced m e (hl p)).

(** A packet that is kept: completions are not. *)
Definition not_completion (b : list Z) : Prop := load 2 b off_Type <> Ok VmbusPacketTypeCompletion.

(** [pe] are entries and [pp] packets lent to an operation in progress: they
    stay allocated, and the entries stay out of [CompletionEntries].  So do the
    entries [idle pi] of operations that wait for this one; they hold no pages.
    No completion packet stays but those lent.
    The pool holds what the channel owns and [foreign pi], nothing else; so do
    the page allocations with the blocks and [foreign_allocs pi]. *)
Record emcl_inv (loc pe pp : list Z) (s : emcl) : Prop := {
  ei_ring : inv Do Di (pk s);
  ei_bounce : exists fl hl, entries_bounced s (heap s) fl hl;
  ei_once : NoDup (owned loc s);
  ei_pool : forall p, p ∈ owned loc s -> p ∈ pool (heap s) /\ p <> 0;
  ei_others : forall p, p ∈ foreign pi <-> p ∈ pool (heap s) /\ p ∉ owned loc s;
  ei_allocs : forall a n, foreign_allocs pi !! a = Some n <-> page_allocs (heap s) !! a = Some n /\ a ∉ bases (heap s);
  ei_nodup : NoDup (CompletionEntries (ctxt s));
  ei_listed : forall p, p ∈ CompletionEntries (ctxt s) -> is_Some (entries s !! p);
  ei_queue : Forall (queued_ok Do) (OutgoingQueue (ctxt s));
  ei_packets : forall k b, IncomingPackets s !! k = Some b -> 16 <= Zlength b /\ Forall is_byte b /\ (k ∈ pp \/ not_completion b);
  ei_lent_e : NoDup pe /\ forall p, p ∈ pe -> is_Some (entries s !! p) /\ p ∉ CompletionEntries (ctxt s);
  ei_idle : NoDup (idle pi) /\ forall p, p ∈ idle pi -> (exists e, entries s !! p = Some e /\ EmclBouncePageList e = None) /\
    (p ∉ CompletionEntries (ctxt s)) /\ p ∉ pe;
  ei_all : forall p, is_Some (entries s !! p) -> p ∈ CompletionEntries (ctxt s) \/ p ∈ pe \/ p ∈ idle pi;
  ei_running : IsRunning (ctxt s) = true;
  ei_buffer : ring_fields (ctxt s) = buffer pi /\ RingBufferPages (ctxt s) <> 0 /\
    foreign_allocs pi !! RingBufferPages (ctxt s) = Some (u32 (IncomingPageCount (ctxt s) + OutgoingPageCount (ctxt s)));
  ei_lent_p : NoDup pp /\ forall k, k ∈ pp -> is_Some (IncomingPackets s !! k);
  ei_tids : 0 <= mCurrentTransactionId s < 2 ^ 64 /\
    (forall p e, entries s !! p = Some e -> 0 < TransactionId e <= mCurrentTransactionId s) /\
    forall p p' e e', entries s !! p = Some e -> entries s !! p' = Some e' -> TransactionId e = TransactionId e' -> p = p'
}.
Implicit Types loc pe pp : list Z.
Implicit Types s : emcl.

(** ** Parts of the state the invariant does not mention, or only loosely *)
Lemma inv_pk loc pe pp s w : emcl_inv loc pe pp s -> inv Do Di w -> emcl_inv loc pe pp (set_pk w s).
Proof. intros [] Hw. by split. Qed.

Lemma inv_trace loc pe pp s t : emcl_inv loc pe pp s -> emcl_inv loc pe pp (set_trace t s).
Proof. intros []. by split. Qed.

Lemma inv_ctxt loc pe pp s c : CompletionEntries c = CompletionEntries (ctxt s) -> OutgoingQueue c = OutgoingQueue (ctxt s) ->
  IsRunning c = IsRunning (ctxt s) -> ring_fields c = ring_fields (ctxt s) -> emcl_inv loc pe pp s -> emcl_inv loc pe pp (set_ctxt c s).
Proof.
  intros E1 E2 E3 [= E4 E5 E6] []. split; try done; unfold owned, entries_bounced, ring_fields in *; cbn; rewrite ?E1, ?E2, ?E3, ?E4, ?E5, ?E6; try done.
Qed.

Lemma owned_heap loc s m : block_ptrs m ≡ₚ block_ptrs (heap s) -> owned loc (set_heap m s) ≡ₚ owned loc s.
Proof. intros H. unfold owned. cbn. by rewrite H. Qed.

(** Another heap with the same blocks; what the operation holds may change. *)
Lemma inv_heap_loc loc loc' pe pp s m : emcl_inv loc pe pp s -> block_ptrs m ≡ₚ block_ptrs (heap s) -> NoDup (owned loc' s) ->
  (forall p, p ∈ owned loc' s -> p ∈ pool m /\ p <> 0) -> (forall p, p ∈ foreign pi <-> p ∈ pool m /\ p ∉ owned loc' s) ->
  page_allocs m = page_allocs (heap s) -> bases m = bases (heap s) -> (exists fl hl, entries_bounced s m fl hl) ->
  emcl_inv loc' pe pp (set_heap m s).
Proof.
  intros I Hb Hn Hp Hf Ha Hbs He. split; try apply I; [done| | | |].
  - by rewrite owned_heap.
  - intros p. rewrite owned_heap by done. apply Hp.
  - intros p. rewrite owned_heap by done. apply Hf.
  - intros a n. cbn. rewrite Ha, Hbs. apply I.
Qed.

Lemma inv_heap loc pe pp s m : emcl_inv loc pe pp s -> block_ptrs m ≡ₚ block_ptrs (heap s) -> pool m = pool (heap s) ->
  page_allocs m = page_allocs (heap s) -> bases m = bases (heap s) -> (exists fl hl, entries_bounced s m fl hl) ->
  emcl_inv loc pe pp (set_heap m s).
Proof.
  intros I Hb Hp Ha Hbs He. apply (inv_heap_loc loc); try done; [apply I|rewrite Hp; apply I..].
Qed.

Lemma bounced_client m m' e l : (forall a c, client m !! a = Some c -> exists c', client m' !! a = Some c' /\ Zlength c' = Zlength c) ->
  bounced m e l -> bounced m' e l.
Proof.
  intros H (H1 & H2 & H3 & c & Ec & Hc). destruct (H _ _ Ec) as (c' & Ec' & Hl). split_and!; try done. exists c'. split; [done|lia].
Qed.

(** Heap changes that keep every list of pages. *)
Lemma entries_bounced_heap s m m' fl hl fl' : entries_bounced s m fl hl ->
  (forall a c, client m !! a = Some c -> exists c', client m' !! a = Some c' /\ Zlength c' = Zlength c) ->
  (bounce_inv fl (hl <$> keys (entries s)) m -> bounce_inv fl' (hl <$> keys (entries s)) m') ->
  entries_bounced s m' fl' hl.
Proof.
  intros [I He] Hc Hi. split; [by apply Hi|]. intros p e Ep. destruct (He p e Ep) as [H1 H2]. split; [done|].
  intros Hin Hn. eapply bounced_client; [done|auto].
Qed.

(** ** Pool allocations *)
Lemma inv_loc loc loc' pe pp s : loc ≡ₚ loc' -> emcl_inv loc pe pp s -> emcl_inv loc' pe pp s.
Proof.
  intros H I. assert (E : owned loc' s ≡ₚ owned loc s) by (unfold owned; by rewrite H).
  split; try apply I; [rewrite E; apply I|..]; intros p; rewrite E; apply I.
Qed.

Lemma pool_transport fl held m m' : bounce_inv fl held m -> blocks m' = blocks m -> pages m' = pages m -> frames m' = frames m ->
  page_allocs m' = page_allocs m -> BounceBlockListHead m' = BounceBlockListHead m ->
  (forall p, p ∈ block_ptrs m -> p ∈ pool m') -> block_ptrs m' = block_ptrs m /\ bounce_inv fl held m'.
Proof.
  intros I E1 E2 E3 E4 E5 Hp. apply (bounce_transport fl held m m'); try done.
  - intros b _. by rewrite E1.
  - intros b blk _ _. by rewrite E4.
  - intros q p c _ E. exists c. by rewrite E3.
Qed.

(** Allocating gives the operation one more pointer, or nothing. *)
Lemma safe_alloc F loc pe pp n : esafe F (emcl_inv loc pe pp) (on_heap (AllocatePool n))
  (fun p s => (p = 0 /\ emcl_inv loc pe pp s) \/ (p <> 0 /\ emcl_inv (p :: loc) pe pp s)).
Proof.
  apply esafe_heap. intros s I. destruct (ei_bounce _ _ _ _ I) as (fl & hl & HB).
  destruct (AllocatePool_ok HS n (heap s)) as (p & [[-> E]|(Hp0 & Hp & E)]); rewrite E; eexists _, _; (split; [reflexivity|]).
  - left. split; [done|]. destruct (pool_transport fl _ (heap s) (ticked (heap s)) (proj1 HB)) as [Hb Hi]; try done; [apply HB|].
    apply inv_heap; [done|by rewrite Hb|done..|]. exists fl, hl. eapply entries_bounced_heap; [done|by eauto|done].
  - right. split; [done|]. set (m := set_pool ({[p]} ∪ pool (heap s)) (ticked (heap s))).
    assert (Hpool : forall q, q ∈ pool m <-> q = p \/ q ∈ pool (heap s)) by (intros q; cbn; by rewrite elem_of_union, elem_of_singleton).
    destruct (pool_transport fl _ (heap s) m (proj1 HB)) as [Hb Hi]; try done; [intros q Hq; apply Hpool; right; by apply HB|].
    assert (Ho : owned (p :: loc) s ≡ₚ p :: owned loc s) by (unfold owned; solve_Permutation).
    assert (Hpo : p ∉ owned loc s) by (intros Hin; by apply Hp, (ei_pool _ _ _ _ I)).
    apply (inv_heap_loc loc); [done|by rewrite Hb|rewrite Ho; apply list.NoDup_cons; split; [done|apply I]| | |done..|].
    + intros q. rewrite Ho, elem_of_cons, Hpool. intros [->|Hq]; [auto|]. destruct (ei_pool _ _ _ _ I q Hq). auto.
    + intros q. rewrite Ho, elem_of_cons, Hpool, (ei_others _ _ _ _ I). split; [|tauto]. intros [H1 H2]. split; [auto|]. intros [->|?]; auto.
    + exists fl, hl. eapply entries_bounced_heap; [done|by eauto|done].
Qed.

(** Releasing a pointer the operation holds. *)
Lemma safe_free F loc pe pp p : esafe F (emcl_inv (p :: loc) pe pp) (on_heap (FreePool p)) (fun _ => emcl_inv loc pe pp).
Proof.
  apply esafe_heap. intros s I. destruct (ei_bounce _ _ _ _ I) as (fl & hl & HB).
  assert (Ho : owned (p :: loc) s ≡ₚ p :: owned loc s) by (unfold owned; solve_Permutation).
  pose proof (ei_once _ _ _ _ I) as Hn. rewrite Ho in Hn. apply list.NoDup_cons in Hn as [Hni Hn].
  assert (Hin : forall q, q ∈ owned loc s -> q ∈ pool (heap s) /\ q <> 0).
  { intros q Hq. apply (ei_pool _ _ _ _ I). rewrite Ho. by apply elem_of_cons; right. }
  rewrite FreePool_ok by (apply (ei_pool _ _ _ _ I); rewrite Ho; apply elem_of_cons; by left).
  eexists _, _. split; [reflexivity|]. set (m := set_pool (pool (heap s) ∖ {[p]}) (heap s)).
  assert (Hpool : forall q, q ∈ pool m <-> q ∈ pool (heap s) /\ q <> p) by (intros q; cbn; by rewrite elem_of_difference, elem_of_singleton).
  assert (Hp : forall q, q ∈ owned loc s -> q ∈ pool m) by (intros q Hq; apply Hpool; split; [by apply Hin|by intros ->]).
  destruct (pool_transport fl _ (heap s) m (proj1 HB)) as [Hb Hi]; try done.
  { intros q Hq. apply Hp. unfold owned. apply elem_of_app. by left. }
  apply (inv_heap_loc (p :: loc)); [done|by rewrite Hb|done| | |done..|].
  - intros q Hq. split; [by apply Hp|by apply Hin].
  - intros q. rewrite (ei_others _ _ _ _ I), Ho, not_elem_of_cons, Hpool. tauto.
  - exists fl, hl. eapply entries_bounced_heap; [done|by eauto|done].
Qed.

(** ** Completion entries *)
Lemma owned_parts loc s p : p ∈ owned loc s <-> p ∈ block_ptrs (heap s) \/ is_Some (entries s !! p) \/ is_Some (IncomingPackets s !! p) \/
  p ∈ queue_ptrs (OutgoingQueue (ctxt s)) \/ p ∈ loc.
Proof. unfold owned. rewrite !elem_of_app, !in_keys. tauto. Qed.

(** A pointer held by the operation is in no structure. *)
Lemma loc_fresh loc pe pp s p : emcl_inv (p :: loc) pe pp s ->
  entries s !! p = None /\ IncomingPackets s !! p = None /\ p <> 0 /\ (p ∉ CompletionEntries (ctxt s)) /\ (p ∉ pe) /\ (p ∉ pp) /\ p ∉ idle pi.
Proof.
  intros I. assert (Ho : owned (p :: loc) s ≡ₚ p :: owned loc s) by (unfold owned; solve_Permutation).
  pose proof (ei_once _ _ _ _ I) as Hn. rewrite Ho in Hn. apply list.NoDup_cons in Hn as [Hni _]. rewrite owned_parts in Hni.
  assert (He : entries s !! p = None) by (destruct (entries s !! p) eqn:E; [|done]; exfalso; apply Hni; eauto).
  assert (Hk : IncomingPackets s !! p = None) by (destruct (IncomingPackets s !! p) eqn:E; [|done]; exfalso; apply Hni; eauto).
  split_and!; [done|done| | | | |].
  - apply (ei_pool _ _ _ _ I). rewrite Ho. by apply elem_of_cons; left.
  - intros Hin. destruct (ei_listed _ _ _ _ I p Hin) as [? E]. congruence.
  - intros Hin. destruct (proj2 (ei_lent_e _ _ _ _ I) p Hin) as [[? E] _]. congruence.
  - intros Hin. destruct (proj2 (ei_lent_p _ _ _ _ I) p Hin) as [? E]. congruence.
  - intros Hin. destruct (proj2 (ei_idle _ _ _ _ I) p Hin) as [(? & E & _) _]. congruence.
Qed.

Lemma inv_new_entry loc pe pp s p r c fl :
  emcl_inv (p :: loc) pe pp s -> mCurrentTransactionId s + 1 < 2 ^ 64 ->
  emcl_inv loc (p :: pe) pp
    (set_entries (<[p := mkEntry r c (mkExternal 0 0) None fl (mCurrentTransactionId s + 1)]> (entries s))
      (set_mCurrentTransactionId (mCurrentTransactionId s + 1) s)).
Proof.
  intros I Hm. destruct (loc_fresh _ _ _ _ _ I) as (He & Hk & H0 & Hl & Hpe & Hpp & Hpi).
  match goal with |- emcl_inv _ _ _ ?z => set (s' := z) end.
  assert (Ho : owned loc s' ≡ₚ owned (p :: loc) s).
  { subst s'. unfold owned. cbn. rewrite keys_insert by done. solve_Permutation. }
  assert (Hs : forall q e, entries s' !! q = Some e -> (q = p /\ TransactionId e = mCurrentTransactionId s + 1) \/ (q <> p /\ entries s !! q = Some e)).
  { intros q e. subst s'. cbn. destruct (decide (q = p)) as [->|Hne]; [rewrite lookup_insert_eq; intros [= <-]; auto|].
    rewrite lookup_insert_ne by done. auto. }
  destruct (ei_tids _ _ _ _ I) as (T1 & T2 & T3).
  split; try apply I.
  - destruct (ei_bounce _ _ _ _ I) as (fl0 & hl & Hb & Hh). exists fl0, (<[p := []]> hl). split.
    + eapply bounce_swap; [|apply bounce_nil; exact Hb]. subst s'. cbn. rewrite keys_insert by done.
      rewrite fmap_cons, fn_lookup_insert. f_equiv. assert (Eq : <[p := []]> hl <$> keys (entries s) = hl <$> keys (entries s)); [|by rewrite Eq].
      apply list_fmap_ext. intros i q Eq. apply fn_lookup_insert_ne. intros ->. apply list_elem_of_lookup_2, in_keys in Eq.
      rewrite He in Eq. by destruct Eq.
    + intros q e Eq. subst s'. cbn in Eq. destruct (decide (q = p)) as [->|Hne].
      * rewrite lookup_insert_eq in Eq. injection Eq as <-. rewrite fn_lookup_insert. done.
      * rewrite lookup_insert_ne in Eq by done. rewrite fn_lookup_insert_ne by done. by apply Hh.
  - rewrite Ho. apply I.
  - intros q. rewrite Ho. apply I.
  - intros q. rewrite Ho. apply I.
  - intros q Hq. destruct (ei_listed _ _ _ _ I q Hq) as [e Eq]. subst s'. cbn. rewrite lookup_insert_ne by (by intros <-). eauto.
  - destruct (ei_lent_e _ _ _ _ I) as [N1 N2]. split; [by apply list.NoDup_cons|]. intros q Hq. apply elem_of_cons in Hq as [->|Hq].
    + subst s'. cbn. rewrite lookup_insert_eq. eauto.
    + destruct (N2 q Hq) as [[e Eq] Hn]. split; [|done]. subst s'. cbn. rewrite lookup_insert_ne by (by intros <-). eauto.
  - destruct (ei_idle _ _ _ _ I) as [N1 N2]. split; [done|]. intros q Hq. destruct (N2 q Hq) as ((e & Eq & Hb) & Hn & Hn').
    assert (q <> p) by (by intros ->). split_and!; [|done|by apply not_elem_of_cons]. subst s'. cbn. rewrite lookup_insert_ne by done. eauto.
  - intros q [e Eq]. rewrite elem_of_cons. destruct (Hs q e Eq) as [[-> _]|[_ Eq']]; [auto|]. destruct (ei_all _ _ _ _ I q) as [?|[?|?]]; eauto.
  - split; [subst s'; cbn; lia|]. split.
    + intros q e Eq. cbn. destruct (Hs q e Eq) as [[-> ->]|[_ Eq']]; [lia|]. specialize (T2 q e Eq'). lia.
    + intros q q' e e' Eq Eq' Ht. destruct (Hs q e Eq) as [[-> H1]|[_ E1]], (Hs q' e' Eq') as [[-> H2]|[_ E2]]; [done| | |by eapply T3].
      * specialize (T2 _ _ E2). lia.
      * specialize (T2 _ _ E1). lia.
Qed.

Lemma inv_drop_entry loc pe pp s p e : emcl_inv loc (p :: pe) pp s -> entries s !! p = Some e -> EmclBouncePageList e = None ->
  emcl_inv (p :: loc) pe pp (set_entries (delete p (entries s)) s).
Proof.
  intros I Ep Hb. destruct (ei_lent_e _ _ _ _ I) as [N1 N2]. apply list.NoDup_cons in N1 as [Hni N1].
  destruct (N2 p) as [_ Hl]; [by apply elem_of_cons; left|].
  match goal with |- emcl_inv _ _ _ ?z => set (s' := z) end.
  assert (Ho : owned (p :: loc) s' ≡ₚ owned loc s).
  { subst s'. unfold owned. cbn. rewrite (keys_delete (entries s) p) by eauto. solve_Permutation. }
  assert (Hs : forall q e, entries s' !! q = Some e -> q <> p /\ entries s !! q = Some e).
  { intros q e'. subst s'. cbn. rewrite lookup_delete_Some. intros [Hne E]. by split. }
  destruct (ei_tids _ _ _ _ I) as (T1 & T2 & T3).
  split; try apply I.
  - destruct (ei_bounce _ _ _ _ I) as (fl0 & hl & HB & Hh). exists fl0, hl. split.
    + destruct (Hh p e Ep) as [Hhd _]. rewrite Hb in Hhd. assert (hl p = []) as Hnil by (by destruct (hl p)).
      apply bounce_nil. eapply bounce_swap; [|exact HB]. rewrite (keys_delete (entries s) p) by eauto. subst s'. cbn. by rewrite Hnil.
    + intros q e' Eq. destruct (Hs q e' Eq) as [_ Eq']. by apply Hh.
  - rewrite Ho. apply I.
  - intros q. rewrite Ho. apply I.
  - intros q. rewrite Ho. apply I.
  - intros q Hq. destruct (ei_listed _ _ _ _ I q Hq) as [e' Eq]. subst s'. cbn. rewrite lookup_delete_ne by (by intros <-). eauto.
  - split; [done|]. intros q Hq. destruct (N2 q) as [[e' Eq] Hn]; [by apply elem_of_cons; right|]. split; [|done].
    subst s'. cbn. rewrite lookup_delete_ne by (by intros <-). eauto.
  - destruct (ei_idle _ _ _ _ I) as [M1 M2]. split; [done|]. intros q Hq. destruct (M2 q Hq) as ((e' & Eq & Hb') & Hn & Hn').
    apply not_elem_of_cons in Hn' as [Hne Hn']. split_and!; [|done|done]. subst s'. cbn. rewrite lookup_delete_ne by done. eauto.
  - intros q [e' Eq]. destruct (Hs q e' Eq) as [Hne Eq']. destruct (ei_all _ _ _ _ I q) as [?|[Hq|?]]; [eauto|auto| |auto].
    apply elem_of_cons in Hq as [?|?]; [done|auto].
  - split; [exact T1|]. split.
    + intros q e' Eq. destruct (Hs q e' Eq) as [_ Eq']. by apply (T2 q).
    + intros q q' e1 e2 E1 E2 Ht. destruct (Hs q e1 E1) as [_ E1'], (Hs q' e2 E2) as [_ E2']. by eapply T3.
Qed.

(** [FreePool] before or after the map is updated: the heap is the same. *)
Lemma safe_free_entry F loc pe pp p :
  esafe F (fun s => emcl_inv loc (p :: pe) pp s /\ exists e, entries s !! p = Some e /\ EmclBouncePageList e = None)
    (free_entry p) (fun _ => emcl_inv loc pe pp).
Proof.
  intros s [I (e & Ep & Hb)]. pose proof (inv_drop_entry _ _ _ _ _ _ I Ep Hb) as I'.
  pose proof (safe_free F loc pe pp p _ I') as Hf. unfold free_entry, mbind, E_bind, on_heap in *. cbn in *.
  by destruct (FreePool p (heap s)) as [[u m]|f].
Qed.

(** ** Incoming packets *)
Lemma inv_new_packet loc pe pp s p b : emcl_inv (p :: loc) pe pp s -> 16 <= Zlength b -> Forall is_byte b ->
  emcl_inv loc pe (p :: pp) (set_IncomingPackets (<[p := b]> (IncomingPackets s)) s) /\ p ∉ pp.
Proof.
  intros I Hb Hbytes. destruct (loc_fresh _ _ _ _ _ I) as (He & Hk & H0 & Hl & Hpe & Hpp & Hpi). split; [|done].
  match goal with |- emcl_inv _ _ _ ?z => set (s' := z) end.
  assert (Ho : owned loc s' ≡ₚ owned (p :: loc) s).
  { subst s'. unfold owned. cbn. rewrite keys_insert by done. solve_Permutation. }
  split; try apply I.
  - rewrite Ho. apply I.
  - intros q. rewrite Ho. apply I.
  - intros q. rewrite Ho. apply I.
  - intros k c. subst s'. cbn. rewrite elem_of_cons. destruct (decide (k = p)) as [->|Hne]; [rewrite lookup_insert_eq; intros [= <-]; auto|].
    rewrite lookup_insert_ne by done. intros E. destruct (ei_packets _ _ _ _ I k c E) as (? & ? & ?). tauto.
  - destruct (ei_lent_p _ _ _ _ I) as [N1 N2]. split; [by apply list.NoDup_cons|]. intros k Hin. subst s'. cbn.
    destruct (decide (k = p)) as [->|Hne]; [rewrite lookup_insert_eq; eauto|]. apply elem_of_cons in Hin as [->|Hin]; [done|].
    rewrite lookup_insert_ne by done. by apply N2.
Qed.

Lemma safe_free_packet F loc pe pp k : esafe F (emcl_inv loc pe (k :: pp)) (free_packet k) (fun _ => emcl_inv loc pe pp).
Proof.
  intros s I. destruct (ei_lent_p _ _ _ _ I) as [N1 N2]. apply list.NoDup_cons in N1 as [Hk N1].
  assert (Hs : is_Some (IncomingPackets s !! k)) by (apply N2, elem_of_cons; by left). set (s' := set_IncomingPackets (delete k (IncomingPackets s)) s).
  assert (I' : emcl_inv (k :: loc) pe pp s').
  { assert (Ho : owned (k :: loc) s' ≡ₚ owned loc s).
    { subst s'. unfold owned. cbn. rewrite (keys_delete (IncomingPackets s) k) by done. solve_Permutation. }
    split; try apply I.
    - rewrite Ho. apply I.
    - intros q. rewrite Ho. apply I.
    - intros q. rewrite Ho. apply I.
    - intros q c. subst s'. cbn. rewrite lookup_delete_Some. intros [Hq E]. destruct (ei_packets _ _ _ _ I q c E) as (? & ? & Hc).
      rewrite elem_of_cons in Hc. naive_solver.
    - split; [done|]. intros q Hin. subst s'. cbn.
      rewrite lookup_delete_ne by (by intros <-). apply N2, elem_of_cons. by right. }
  pose proof (safe_free F loc pe pp k s' I') as Hf. unfold free_packet, mbind, E_bind, on_heap in *. cbn in *.
  by destruct (FreePool k (heap s)) as [[u m]|f].
Qed.

(** Lending a packet, and getting it back. *)
Lemma inv_lend loc pe pp s k : emcl_inv loc pe pp s -> is_Some (IncomingPackets s !! k) -> k ∉ pp -> emcl_inv loc pe (k :: pp) s.
Proof.
  intros I Hs Hk. split; try apply I.
  { intros q b E. destruct (ei_packets _ _ _ _ I q b E) as (? & ? & ?). rewrite elem_of_cons. tauto. }
  destruct (ei_lent_p _ _ _ _ I) as [N1 N2]. split; [by apply list.NoDup_cons|].
  intros q Hq. apply elem_of_cons in Hq as [->|Hq]; auto.
Qed.

Lemma inv_unlend loc pe pp s k b : emcl_inv loc pe (k :: pp) s -> IncomingPackets s !! k = Some b -> not_completion b ->
  emcl_inv loc pe pp s /\ k ∉ pp.
Proof.
  intros I Ek Hnc. destruct (ei_lent_p _ _ _ _ I) as [N1 N2]. apply list.NoDup_cons in N1 as [Hni N1]. split; [|done].
  split; try apply I.
  - intros q c E. destruct (ei_packets _ _ _ _ I q c E) as (? & ? & Hc). rewrite elem_of_cons in Hc. naive_solver.
  - split; [done|]. intros q Hq. apply N2, elem_of_cons. by right.
Qed.

(** ** The queue of outgoing packets *)
Lemma inv_enqueue loc pe pp s o : emcl_inv (out_this o :: out_buffer_ptr o :: loc) pe pp s -> queued_ok Do o ->
  emcl_inv loc pe pp (set_ctxt (set_OutgoingQueue (OutgoingQueue (ctxt s) ++ [o]) (ctxt s)) s).
Proof.
  intros I Hq. match goal with |- emcl_inv _ _ _ ?z => set (s' := z) end.
  assert (Ho : owned loc s' ≡ₚ owned (out_this o :: out_buffer_ptr o :: loc) s).
  { subst s'. unfold owned, queue_ptrs. cbn. rewrite fmap_app, concat_app. cbn. solve_Permutation. }
  split; try apply I.
  - rewrite Ho. apply I.
  - intros q. rewrite Ho. apply I.
  - intros q. rewrite Ho. apply I.
  - subst s'. cbn. apply list.Forall_app. split; [apply I|by apply list.Forall_singleton].
Qed.

Lemma inv_dequeue loc pe pp s o q : emcl_inv loc pe pp s -> OutgoingQueue (ctxt s) = o :: q ->
  emcl_inv (out_this o :: out_buffer_ptr o :: loc) pe pp (set_ctxt (set_OutgoingQueue q (ctxt s)) s) /\ queued_ok Do o.
Proof.
  intros I Eq. match goal with |- emcl_inv _ _ _ ?z /\ _ => set (s' := z) end.
  assert (Ho : owned (out_this o :: out_buffer_ptr o :: loc) s' ≡ₚ owned loc s).
  { subst s'. unfold owned, queue_ptrs. cbn. rewrite Eq, fmap_cons. cbn. solve_Permutation. }
  pose proof (ei_queue _ _ _ _ I) as Hq. rewrite Eq in Hq. apply list.Forall_cons in Hq as [Hq1 Hq2]. split; [|done].
  split; try apply I; [| | |done].
  - rewrite Ho. apply I.
  - intros p. rewrite Ho. apply I.
  - intros p. rewrite Ho. apply I.
Qed.

Lemma safe_destroy F loc pe pp o : out_buffer_ptr o <> 0 ->
  esafe F (emcl_inv (out_this o :: out_buffer_ptr o :: loc) pe pp) (destroy_outgoing o) (fun _ => emcl_inv loc pe pp).
Proof.
  intros H0. unfold destroy_outgoing, EmclDestroyOutgoingPacket. destruct (Z.eqb_spec (out_buffer_ptr o) 0); [done|]. cbn [negb].
  apply (esafe_bind F _ _ _ (fun _ => emcl_inv (out_this o :: loc) pe pp)); [|intros _; apply safe_free].
  eapply esafe_pre; [|apply safe_free]. intros s. apply inv_loc. apply Permutation_swap.
Qed.

(** ** The list of completions *)

(** Entry [p] is either without bounce pages or knows its buffer. *)
Definition entry_ready (p : Z) (s : emcl) : Prop := exists fl hl, entries_bounced s (heap s) fl hl /\
  forall e, entries s !! p = Some e -> hl p <> [] -> bounced (heap s) e (hl p).

Lemma inv_list loc pe pp s p : emcl_inv loc (p :: pe) pp s -> entry_ready p s ->
  emcl_inv loc pe pp (set_ctxt (set_CompletionEntries (CompletionEntries (ctxt s) ++ [p]) (ctxt s)) s).
Proof.
  intros I (fl & hl & [HB Hh] & Hr). destruct (ei_lent_e _ _ _ _ I) as [N1 N2]. apply list.NoDup_cons in N1 as [Hni N1].
  destruct (N2 p) as [Hp Hl]; [by apply elem_of_cons; left|].
  split; try apply I; cbn.
  - exists fl, hl. split; [done|]. intros q e Eq. destruct (Hh q e Eq) as [H1 H2]. split; [done|]. cbn.
    rewrite elem_of_app, list_elem_of_singleton. intros [Hin|Hq]; [auto|]. subst q. auto.
  - apply list.NoDup_app. split_and!; [apply I| |apply NoDup_singleton]. intros q Hq. rewrite list_elem_of_singleton. by intros ->.
  - intros q. rewrite elem_of_app, list_elem_of_singleton. intros [Hin|Hq]; [by apply I|by rewrite Hq].
  - split; [done|]. intros q Hq. destruct (N2 q) as [E1 E2]; [by apply elem_of_cons; right|]. split; [done|].
    rewrite elem_of_app, list_elem_of_singleton. intros [Hin|Hqp]; [done|]. by subst q.
  - destruct (ei_idle _ _ _ _ I) as [M1 M2]. split; [done|]. intros q Hq. destruct (M2 q Hq) as (He & Hn & Hn').
    apply not_elem_of_cons in Hn' as [Hne Hn']. split_and!; [done| |done]. rewrite elem_of_app, list_elem_of_singleton. tauto.
  - intros q Hq. rewrite elem_of_app, list_elem_of_singleton. destruct (ei_all _ _ _ _ I q Hq) as [?|[Hpe|?]]; [auto| |auto].
    apply elem_of_cons in Hpe as [?|?]; auto.
Qed.

Lemma inv_unlist loc pe pp s p : emcl_inv loc pe pp s -> p ∈ CompletionEntries (ctxt s) ->
  let s' := set_ctxt (set_CompletionEntries (filter (fun q => q <> p) (CompletionEntries (ctxt s))) (ctxt s)) s in
  emcl_inv loc (p :: pe) pp s' /\ entry_ready p s'.
Proof.
  intros I Hp s'. destruct (ei_lent_e _ _ _ _ I) as [N1 N2]. destruct (ei_bounce _ _ _ _ I) as (fl & hl & HB & Hh).
  assert (HB' : entries_bounced s' (heap s') fl hl).
  { split; [done|]. intros q e Eq. destruct (Hh q e Eq) as [H1 H2]. split; [done|]. cbn. rewrite list_elem_of_filter. tauto. }
  split.
  - split; try apply I; cbn.
    + by exists fl, hl.
    + apply list.NoDup_filter, I.
    + intros q. rewrite list_elem_of_filter. intros [_ Hin]. by apply I.
    + split.
      * apply list.NoDup_cons. split; [|done]. intros Hin. by apply (N2 p Hin).
      * intros q Hq. rewrite list_elem_of_filter. apply elem_of_cons in Hq as [->|Hq].
        -- split; [by apply (ei_listed _ _ _ _ I)|]. intros [? _]. done.
        -- destruct (N2 q Hq) as [E1 E2]. split; [done|]. by intros [_ ?].
    + destruct (ei_idle _ _ _ _ I) as [M1 M2]. split; [done|]. intros q Hq. destruct (M2 q Hq) as (He & Hn & Hn').
      split_and!; [done| |]; [rewrite list_elem_of_filter; by intros [_ ?]|]. apply not_elem_of_cons. split; [by intros ->|done].
    + intros q Hq. rewrite list_elem_of_filter, elem_of_cons. destruct (ei_all _ _ _ _ I q Hq) as [?|[?|?]]; [|auto|auto].
      destruct (decide (q = p)); auto.
  - exists fl, hl. split; [done|]. intros e Ep Hn. by apply (Hh p e Ep).
Qed.

(** ** Bounce pages of an entry *)
Lemma hl_at (hl : Z -> list page_ptr) (m : gmap Z EMCL_COMPLETION_ENTRY) p l : is_Some (m !! p) ->
  <[p := l]> hl <$> keys m ≡ₚ l :: (hl <$> keys (delete p m)).
Proof.
  intros Hp. rewrite (keys_delete m p) by done. rewrite fmap_cons, fn_lookup_insert. f_equiv.
  assert (E : <[p := l]> hl <$> keys (delete p m) = hl <$> keys (delete p m)); [|by rewrite E].
  apply list_fmap_ext. intros i q Eq. apply fn_lookup_insert_ne. intros ->. apply list_elem_of_lookup_2, in_keys in Eq.
  rewrite lookup_delete_eq in Eq. by destruct Eq.
Qed.

Lemma hl_own (hl : Z -> list page_ptr) (m : gmap Z EMCL_COMPLETION_ENTRY) p : is_Some (m !! p) ->
  hl <$> keys m ≡ₚ hl p :: (hl <$> keys (delete p m)).
Proof. intros Hp. by rewrite (keys_delete m p). Qed.

(** Entry [p] now holds the pages [l] instead of its own. *)
Lemma entries_bounced_set s m m' fl hl fl' p e l : entries_bounced s m fl hl -> entries s !! p = Some e ->
  p ∉ CompletionEntries (ctxt s) ->
  (forall a c, client m !! a = Some c -> exists c', client m' !! a = Some c' /\ Zlength c' = Zlength c) ->
  bounce_inv fl' (l :: (hl <$> keys (delete p (entries s)))) m' ->
  entries_bounced (set_entries (<[p := set_BouncePages (head l) e]> (entries s)) (set_heap m' s)) m' fl' (<[p := l]> hl).
Proof.
  intros [HB Hh] Ep Hp Hc HB'. split.
  - eapply bounce_swap; [|exact HB']. cbn. rewrite keys_update by eauto. symmetry. apply hl_at. eauto.
  - intros q e' Eq. cbn in *. destruct (decide (q = p)) as [->|Hne].
    + rewrite lookup_insert_eq in Eq. injection Eq as <-. rewrite fn_lookup_insert. split; [done|]. intros Hin. done.
    + rewrite lookup_insert_ne in Eq by done. rewrite fn_lookup_insert_ne by done. destruct (Hh q e' Eq) as [H1 H2].
      split; [done|]. intros Hin Hn. eapply bounced_client; [done|auto].
Qed.

(** Changing an entry that was lent. *)
Lemma inv_entry loc pe pp s m p e e' : emcl_inv loc (p :: pe) pp s -> entries s !! p = Some e -> TransactionId e' = TransactionId e ->
  block_ptrs m ≡ₚ block_ptrs (heap s) -> pool m = pool (heap s) -> page_allocs m = page_allocs (heap s) -> bases m = bases (heap s) ->
  let s' := set_entries (<[p := e']> (entries s)) (set_heap m s) in
  (exists fl hl, entries_bounced s' m fl hl) -> emcl_inv loc (p :: pe) pp s'.
Proof.
  intros I Ep Ht Hb Hp Ha Hbs s' He.
  assert (Ho : owned loc s' ≡ₚ owned loc s) by (subst s'; unfold owned; cbn; rewrite Hb, keys_update by eauto; done).
  assert (Hs : forall q, is_Some (entries s' !! q) <-> is_Some (entries s !! q)).
  { intros q. subst s'. cbn. destruct (decide (q = p)) as [->|Hne]; [rewrite lookup_insert_eq, Ep; split; eauto|by rewrite lookup_insert_ne]. }
  assert (Hq : forall q x, entries s' !! q = Some x -> exists y, entries s !! q = Some y /\ TransactionId x = TransactionId y).
  { intros q x. subst s'. cbn. destruct (decide (q = p)) as [->|Hne].
    - rewrite lookup_insert_eq. intros [= <-]. by exists e.
    - rewrite lookup_insert_ne by done. eauto. }
  destruct (ei_tids _ _ _ _ I) as (T1 & T2 & T3).
  split; try apply I; [done| | | | | | | | |].
  - rewrite Ho. apply I.
  - intros q. rewrite Ho. cbn. rewrite Hp. apply I.
  - intros q. rewrite Ho. cbn. rewrite Hp. apply I.
  - intros a n. cbn. rewrite Ha, Hbs. apply I.
  - intros q Hin. apply Hs. by apply (ei_listed _ _ _ _ I).
  - destruct (ei_lent_e _ _ _ _ I) as [N1 N2]. split; [done|]. intros q Hin. rewrite Hs. by apply N2.
  - destruct (ei_idle _ _ _ _ I) as [M1 M2]. split; [done|]. intros q Hq'. destruct (M2 q Hq') as ((x & Ex & Hx) & Hn & Hn').
    split_and!; [|done|done]. apply not_elem_of_cons in Hn' as [Hne _]. exists x. subst s'. cbn. by rewrite lookup_insert_ne.
  - intros q Hx. apply (ei_all _ _ _ _ I). by apply Hs.
  - split; [exact T1|]. split.
    + intros q x Eq. destruct (Hq q x Eq) as (y & Ey & ->). by apply (T2 q).
    + intros q q' x x' Eq Eq' E. destruct (Hq q x Eq) as (y & Ey & Hy), (Hq q' x' Eq') as (y' & Ey' & Hy'). eapply T3; eauto. congruence.
Qed.
End Safety.
