(* ===== verification/EmclSafeSend.v ===== *)
(** Sending is safe: packets are written within the buffer allocated for them,
    bounce pages are acquired for the entry of the packet, and whatever the ring
    answers, the channel's invariant holds again. *)
From stdpp Require Import base list numbers list_numbers option gmap fin_map_dom functions.
From Stdlib Require Import ZArith Lia.
From S2P Require Import Prelude Circular PkRing PkRingSafe EmclPacket EmclPacketProps EmclBounce EmclBounceInv EmclBounceAlloc EmclBounceCopy Emcl Heap EmclSafe.
Open Scope Z_scope.
Import PkRing EmclPacket EmclBounce Emcl.

(** ** Writers keep the size of the buffer *)
Definition keeps (buf : list Z) (r : result (list Z)) : Prop := exists buf', r = Ok buf' /\ Zlength buf' = Zlength buf.

Lemma keeps_bind buf (r : result (list Z)) k : keeps buf r ->
  (forall buf', Zlength buf' = Zlength buf -> keeps buf' (k buf')) -> keeps buf (r ≫= k).
Proof.
  intros (b1 & -> & L1) Hk. destruct (Hk b1 L1) as (b2 & E2 & L2). exists b2. split; [done|congruence].
Qed.

Lemma store_keeps n buf off v : 0 <= off -> off + Z.of_nat n <= Zlength buf -> keeps buf (store n buf off v).
Proof.
  intros H1 H2. unfold store. destruct (mem_write_zget buf off (le_split n v)) as (m & E & L & _);
    [lia|rewrite Zlength_le_split; lia|]. by exists m.
Qed.

Lemma CopyMem_keeps buf off src n : 0 <= off -> 0 <= n -> off + n <= Zlength buf -> n <= Zlength src -> keeps buf (CopyMem buf off src 0 n).
Proof.
  intros. rewrite CopyMem_ok by lia. eexists. split; [done|]. apply Zlength_patch; [lia|apply Zlength_zslice; lia|lia].
Qed.

Lemma gpa_descriptor_keeps buf h n tid rc k : 24 <= Zlength buf -> keeps buf (write_gpa_descriptor buf h n tid rc k).
Proof.
  intros H. unfold write_gpa_descriptor, off_Type, off_DataOffset8, off_Length8, off_Flags, off_TransactionId, off_GPA_RangeCount.
  repeat (apply keeps_bind; [apply store_keeps; lia|intros ? ?]). apply store_keeps; lia.
Qed.

Lemma write_pfns_keeps a range : forall n buf i, 0 <= range -> 0 <= i -> range + 8 + 8 * (i + Z.of_nat n) <= Zlength buf ->
  keeps buf (write_pfns buf range a i n).
Proof.
  induction n as [|n IH]; intros buf i Hr Hi Hl; cbn [write_pfns]; [by exists buf|].
  apply keeps_bind; [apply store_keeps; lia|]. intros buf' L. apply IH; lia.
Qed.

Lemma init_ranges_keeps bs : Forall external_ok bs -> forall buf range, 0 <= range -> range + Zlength (ranges_bytes bs) <= Zlength buf ->
  keeps buf (EmclpInitializeGpaRanges buf range bs).
Proof.
  unfold ranges_bytes. induction 1 as [|b bs Hb _ IH]; intros buf range Hr Hl; cbn [EmclpInitializeGpaRanges]; [by exists buf|].
  rewrite fmap_cons in Hl. cbn [concat] in Hl. rewrite Zlength_app, Zlength_range_bytes, Zlength_direct_pfns in Hl by done.
  pose proof (pages_of_bound b Hb). pose proof (Zlength_nonneg (concat ((fun b => range_bytes b (direct_pfns b)) <$> bs))).
  rewrite span_pages, u32_small by (done || lia). unfold gpa_range_size.
  apply keeps_bind; [apply store_keeps; lia|]. intros b1 L1. apply keeps_bind; [apply store_keeps; lia|]. intros b2 L2.
  apply keeps_bind; [apply write_pfns_keeps; lia|]. intros b3 L3. apply IH; lia.
Qed.

Lemma gpa_direct_keeps inline n bs tid rc buf : Forall external_ok bs -> 0 <= n <= Zlength inline ->
  24 + Zlength (ranges_bytes bs) + n < 2 ^ 32 -> 24 + Zlength (ranges_bytes bs) + n <= Zlength buf ->
  keeps buf (EmclWriteGpaDirectPacket inline n bs tid rc buf).
Proof.
  intros Hb Hn Hs Hl. pose proof (Zlength_nonneg (ranges_bytes bs)). unfold EmclWriteGpaDirectPacket, off_GPA_Range.
  rewrite EmclGpaRangesSize_spec, u32_small by (done || lia).
  apply keeps_bind; [apply gpa_descriptor_keeps; lia|]. intros b1 L1.
  apply keeps_bind; [apply init_ranges_keeps; [done|lia|lia]|]. intros b2 L2. apply CopyMem_keeps; lia.
Qed.

Lemma inline_keeps isPipe ty pty tid rc inline n size buf : 0 <= n <= Zlength inline ->
  16 + (if isPipe : bool then 8 else 0) + n <= Zlength buf ->
  keeps buf (write_inline_packet isPipe ty pty tid rc inline n size buf).
Proof.
  intros Hn Hl. unfold write_inline_packet, off_Type, off_DataOffset8, off_Length8, off_Flags, off_TransactionId,
    sizeof_VMPACKET_DESCRIPTOR, sizeof_VMPIPE_PROTOCOL_HEADER.
  repeat (apply keeps_bind; [apply store_keeps; destruct isPipe; lia|intros ? ?]).
  destruct isPipe; [|apply CopyMem_keeps; lia].
  repeat (apply keeps_bind; [apply store_keeps; lia|intros ? ?]). apply CopyMem_keeps; lia.
Qed.

Lemma setup_keeps h bs w buf : Forall external_ok bs -> 9 + Zlength (ranges_bytes bs) <= Zlength buf ->
  keeps buf (setup_message h bs w buf).
Proof.
  intros Hb Hl. pose proof (Zlength_nonneg (ranges_bytes bs)).
  unfold setup_message, off_Setup_IsWritable, off_Setup_RangeCount, off_Setup_Range.
  repeat (apply keeps_bind; [apply store_keeps; lia|intros ? ?]). apply init_ranges_keeps; [done|lia|lia].
Qed.

(** ** The packet that names bounce pages *)
Section Bounce.
Context {B : BuildOptions} {S : Services} {D : Dma}.

Lemma bounce_pfns_keeps : forall n l hd buf i m, plist (pages m) hd l -> length l = n -> 0 <= i ->
  24 + 8 + 8 * (i + Z.of_nat n) <= Zlength buf ->
  exists buf', write_bounce_pfns buf 24 i n hd m = Ok ((buf', None), m) /\ Zlength buf' = Zlength buf.
Proof.
  induction n as [|n IH]; intros [|q l] hd buf i m Hp Hn Hi Hl; try done; cbn [write_bounce_pfns].
  - cbn in Hp. subst hd. by exists buf.
  - destruct Hp as (-> & p & Ep & Hp). rewrite ASSERT_true. erewrite hbind_Ok by done.
    rewrite (hbind_Ok _ _ _ _ _ (get_page_ok _ _ _ Ep)).
    destruct (store_keeps 8 buf (24 + 8 + 8 * i) (Z.shiftr (HostVisiblePA p) EFI_PAGE_SHIFT)) as (b1 & E1 & L1); [lia|lia|].
    rewrite E1. erewrite hbind_Ok by done. destruct (IH l (NextBouncePage p) b1 (i + 1) m) as (b2 & E2 & L2); try done; try lia.
    { injection Hn as Hn. done. }
    exists b2. split; [exact E2|congruence].
Qed.

Lemma gpa_bounce_keeps m l inline n b tid rc buf : plist (pages m) (head l) l -> external_ok b -> Zlength l = pages_of b ->
  0 <= n <= Zlength inline -> 32 + 8 * pages_of b + n < 2 ^ 32 -> 32 + 8 * pages_of b + n <= Zlength buf ->
  exists buf', EmclWriteGpaDirectPacketBounce inline n b (head l) tid rc buf m = Ok (buf', m) /\ Zlength buf' = Zlength buf.
Proof.
  intros Hp Hb Hl Hn Hs Hbuf. pose proof (pages_of_bound b Hb). unfold EmclWriteGpaDirectPacketBounce, off_GPA_Range, gpa_range_size.
  rewrite span_pages, (u32_small (pages_of b)), u32_small by (done || lia).
  destruct (gpa_descriptor_keeps buf (24 + (8 + 8 * pages_of b)) n tid rc 1) as (b1 & -> & L1); [lia|]. erewrite hbind_Ok by done.
  destruct (store_keeps 4 b1 24 (BufferSize b)) as (b2 & -> & L2); [lia|lia|]. erewrite hbind_Ok by done.
  destruct (store_keeps 4 b2 (24 + 4) (Z.land (Buffer b) EFI_PAGE_MASK)) as (b3 & -> & L3); [lia|lia|]. erewrite hbind_Ok by done.
  destruct (bounce_pfns_keeps (Z.to_nat (pages_of b)) l (head l) b3 0 m) as (b4 & E4 & L4); [done|unfold Zlength in Hl; lia|lia|lia|].
  rewrite (hbind_Ok _ _ _ _ _ E4), ASSERT_true. erewrite hbind_Ok by done.
  destruct (CopyMem_keeps b4 (24 + (8 + 8 * pages_of b)) inline n) as (b5 & -> & L5); [lia..|].
  exists b5. split; [done|congruence].
Qed.
End Bounce.

Section Send.
Context {B : BuildOptions} {P : Peer} {S : Services} {D : Dma} {C : Client} {V : Vmbus}.
Context (HP : peer_ok) (HS : services_ok) (HD : dma_ok) (Do Di : Z) (HDo : ring_size Do) (HDi : ring_size Di)
  (pi : frame).
Abbreviation Inv := (emcl_inv Do Di pi).
Implicit Types loc pe pp : list Z.
Implicit Types s : emcl.

Lemma ebind_Ok {A R} (c : E A) (k : A -> E R) s a s' : c s = Ok (a, s') -> (c ≫= k) s = k a s'.
Proof. intros E. unfold mbind, E_bind. by rewrite E. Qed.
Lemma ebind_Fault {A R} (c : E A) (k : A -> E R) s f : c s = Fault f -> (c ≫= k) s = Fault f.
Proof. intros E. unfold mbind, E_bind. by rewrite E. Qed.

Lemma entry_nonzero loc pe pp s p : Inv loc pe pp s -> is_Some (entries s !! p) -> p <> 0.
Proof. intros I Hp. apply (ei_pool _ _ _ _ _ _ _ I). apply owned_parts. auto. Qed.

Lemma run_get_entry loc pe pp s p e : Inv loc pe pp s -> entries s !! p = Some e -> get_entry p s = Ok (e, s).
Proof.
  intros I Ep. unfold get_entry. destruct (Z.eqb_spec p 0) as [E|_]; [|by rewrite Ep].
  exfalso. by eapply (entry_nonzero loc pe pp s p).
Qed.

Lemma run_upd_entry loc pe pp s p e f : Inv loc pe pp s -> entries s !! p = Some e ->
  upd_entry p f s = Ok (tt, set_entries (<[p := f e]> (entries s)) s).
Proof. intros I Ep. unfold upd_entry. rewrite (ebind_Ok _ _ _ _ _ (run_get_entry _ _ _ _ _ _ I Ep)). done. Qed.

Definition has_pages (p n : Z) (s : emcl) : Prop := exists fl hl, entries_bounced s (heap s) fl hl /\ Zlength (hl p) = n.

(** What a step on the bounce pages of entry [p] leaves alone. *)
Record around (p : Z) (s s' : emcl) : Prop := {
  ar_ctxt : ctxt s' = ctxt s;
  ar_pk : pk s' = pk s;
  ar_packets : IncomingPackets s' = IncomingPackets s;
  ar_bounce : mUseBounceBuffer s' = mUseBounceBuffer s;
  ar_client : forall a c, client (heap s) !! a = Some c -> exists c', client (heap s') !! a = Some c' /\ Zlength c' = Zlength c
}.

Lemma around_trans p s1 s2 s3 : around p s1 s2 -> around p s2 s3 -> around p s1 s3.
Proof.
  intros [? ? ? ? C1] [? ? ? ? C2]. split; try congruence. intros a c E. destruct (C1 a c E) as (c1 & E1 & L1).
  destruct (C2 a c1 E1) as (c2 & E2 & L2). exists c2. split; [done|congruence].
Qed.

Lemma run_acquire loc pe pp s p e fl hl n : Inv loc (p :: pe) pp s -> entries s !! p = Some e -> EmclBouncePageList e = None ->
  entries_bounced s (heap s) fl hl -> 0 < n ->
  exists r s1 s2, on_heap (EmclpAcquireBouncePages n) s = Ok (r, s1) /\ upd_entry p (set_BouncePages r) s1 = Ok (tt, s2) /\
    Inv loc (p :: pe) pp s2 /\ entries s2 !! p = Some (set_BouncePages r e) /\ around p s s2 /\
    match r with Some _ => has_pages p n s2 | None => Z.of_nat (free_total fl (heap s)) < n /\ exists fl' hl', entries_bounced s2 (heap s2) fl' hl' end.
Proof.
  intros I Ep Hb HB Hn. destruct HB as [HB Hh]. destruct (Hh p e Ep) as [Hhd _]. rewrite Hb in Hhd.
  assert (Hnil : hl p = []) by (by destruct (hl p)).
  destruct (ei_lent_e _ _ _ _ _ _ _ I) as [_ N2]. destruct (N2 p) as [_ Hl]; [by apply elem_of_cons; left|].
  assert (HB0 : bounce_inv fl (hl <$> keys (delete p (entries s))) (heap s)).
  { apply bounce_nil. eapply bounce_swap; [|exact HB]. rewrite (hl_own hl (entries s) p) by eauto. by rewrite Hnil. }
  destruct (acquire_ok fl _ (heap s) n HB0 Hn) as (r & fl' & m & E & R & Hr).
  assert (Hc : forall a c, client (heap s) !! a = Some c -> exists c', client m !! a = Some c' /\ Zlength c' = Zlength c).
  { intros a c Ec. rewrite (rl_client _ _ R). eauto. }
  assert (Hlist : exists l, r = head l /\ bounce_inv fl' (l :: (hl <$> keys (delete p (entries s)))) m /\ (is_Some r -> Zlength l = n) /\
    (r = None -> Z.of_nat (free_total fl (heap s)) < n)).
  { destruct r as [q|].
    - destruct Hr as (l & H1 & H2 & H3). exists l. split_and!; [done|done|done|done].
    - destruct Hr as [H1 H2]. exists []. split_and!; [done|by apply bounce_nil| |done]. by intros [? ?]. }
  destruct Hlist as (l & -> & HBl & Hlen & Hfree).
  pose proof (entries_bounced_set s (heap s) m fl hl fl' p e l (conj HB Hh) Ep Hl Hc HBl) as HB2.
  set (s2 := set_entries (<[p := set_BouncePages (head l) e]> (entries s)) (set_heap m s)) in *.
  assert (I2 : Inv loc (p :: pe) pp s2).
  { apply (inv_entry Do Di pi loc pe pp s m p e); try done.
    - by rewrite (relinks_ptrs _ _ R).
    - apply R.
    - apply R.
    - by apply relinks_bases.
    - eauto. }
  exists (head l), (set_heap m s), s2. split_and!.
  - unfold on_heap. by rewrite E.
  - unfold upd_entry, get_entry. unfold mbind, E_bind. destruct (Z.eqb_spec p 0) as [E0|_].
    + exfalso. apply (entry_nonzero loc (p :: pe) pp s p); eauto.
    + cbn. by rewrite Ep.
  - done.
  - cbn. by rewrite lookup_insert_eq.
  - by split.
  - destruct (head l) as [q|] eqn:Ehd.
    + exists fl', (<[p := l]> hl). split; [done|]. rewrite fn_lookup_insert. by apply Hlen.
    + split; [by apply Hfree|]. eauto.
Qed.

Lemma added_bases m m' b x a n : added m m' b x a n -> bases m' = bases m ++ [a].
Proof.
  intros A. unfold bases. rewrite (ad_list _ _ _ _ _ _ A), fmap_app. f_equal.
  - apply list_fmap_ext. intros i b' E. unfold base_at. rewrite (ad_old _ _ _ _ _ _ A); [done|by eapply list_elem_of_lookup_2].
  - cbn. unfold base_at. pose proof (ad_base _ _ _ _ _ _ A) as Hb. destruct (blocks m' !! b); [|done]. cbn in *. by injection Hb as ->.
Qed.

(** A new block. *)
Lemma inv_grow loc pe pp s m b x a n : Inv loc pe pp s -> added (heap s) m b x a n ->
  (exists fl hl, entries_bounced s m fl hl) -> Inv loc pe pp (set_heap m s).
Proof.
  intros I A He. destruct (ad_ne _ _ _ _ _ _ A) as (Hbx & Hb0 & Hx0). pose proof (ad_b _ _ _ _ _ _ A) as Hb. pose proof (ad_s _ _ _ _ _ _ A) as Hx.
  assert (Ho : owned loc (set_heap m s) ≡ₚ b :: x :: owned loc s).
  { unfold owned. cbn. rewrite (ad_ptrs _ _ _ _ _ _ A). solve_Permutation. }
  assert (Hpool : forall q, q ∈ pool m <-> q = x \/ q = b \/ q ∈ pool (heap s)).
  { intros q. rewrite (ad_pool _ _ _ _ _ _ A), !elem_of_union, !elem_of_singleton. done. }
  assert (Hin : forall q, q ∈ owned loc s -> q ∈ pool (heap s) /\ q <> 0) by apply I.
  split; try apply I; [done| | | |].
  - rewrite Ho. apply list.NoDup_cons. rewrite elem_of_cons. split; [intros [?|Hq]; [done|by apply Hb, Hin]|].
    apply list.NoDup_cons. split; [intros Hq; by apply Hx, Hin|apply I].
  - intros q. rewrite Ho, !elem_of_cons. cbn. rewrite Hpool. intros [->|[->|Hq]]; [auto|auto|]. destruct (Hin q Hq). auto.
  - intros q. rewrite Ho, !not_elem_of_cons. cbn. rewrite Hpool, (ei_others _ _ _ _ _ _ _ I). split; [|tauto].
    intros [H1 H2]. split_and!; [auto|by intros ->|by intros ->|done].
  - intros a' k. cbn. rewrite (ad_allocs _ _ _ _ _ _ A), (added_bases _ _ _ _ _ _ A), elem_of_app, list_elem_of_singleton, (ei_allocs _ _ _ _ _ _ _ I).
    destruct (decide (a' = a)) as [->|Hne].
    + rewrite lookup_insert_eq. destruct (ad_pages _ _ _ _ _ _ A) as (_ & _ & _ & Hno & _). rewrite Hno. split; [by intros [? _]|tauto].
    + rewrite lookup_insert_ne by done. tauto.
Qed.

Lemma run_allocate loc pe pp s p fl hl n : Inv loc pe pp s -> entries_bounced s (heap s) fl hl -> 0 < n < 2 ^ 20 ->
  exists st s1, on_heap (EmclpAllocateBounceBlock (4096 * n)) s = Ok (st, s1) /\
    (EFI_ERROR st = false -> Inv loc pe pp s1 /\ entries s1 = entries s /\ around p s s1 /\
      exists fl', entries_bounced s1 (heap s1) fl' hl /\ n <= Z.of_nat (free_total fl' (heap s1))).
Proof.
  intros I [HB Hh] Hn. destruct (allocate_ok HS fl _ (heap s) n HB Hn) as (st & m & E & Hst).
  exists st, (set_heap m s). split; [unfold on_heap; by rewrite E|]. intros Hok. rewrite Hok in Hst.
  destruct Hst as (_ & b & x & a & fl' & A & HB' & Hf).
  assert (Hc : forall a c, client (heap s) !! a = Some c -> exists c', client m !! a = Some c' /\ Zlength c' = Zlength c).
  { intros a' c Ec. rewrite (ad_client _ _ _ _ _ _ A). eauto. }
  assert (HB2 : entries_bounced s m fl' hl) by (by apply (entries_bounced_heap s (heap s) m fl hl fl' (conj HB Hh))).
  split_and!.
  - eapply inv_grow; [done|exact A|eauto].
  - done.
  - by split.
  - exists fl'. split; [done|]. cbn. rewrite Hf. lia.
Qed.

(** Entry [p] of [s0] now has [n] bounce pages. *)
Definition acquired (loc pe pp : list Z) (p n : Z) (e0 : EMCL_COMPLETION_ENTRY) (s0 s : emcl) : Prop :=
  Inv loc (p :: pe) pp s /\ around p s0 s /\ has_pages p n s /\
  exists q, entries s !! p = Some (set_BouncePages (Some q) e0).

Lemma run_acquire_for loc pe pp s0 s p n e0 r fuel : Inv loc (p :: pe) pp s -> around p s0 s ->
  entries s !! p = Some (set_BouncePages r e0) -> (is_Some r -> has_pages p n s) -> 0 < n < 2 ^ 20 -> (0 < fuel)%nat ->
  match acquire_for fuel p n s with Ok (_, s') => acquired loc pe pp p n e0 s0 s' | Fault f => f = FailFast end.
Proof.
  intros I Ha Ep Hr Hn Hf.
  assert (Hdone : forall k s q, Inv loc (p :: pe) pp s -> around p s0 s -> entries s !! p = Some (set_BouncePages (Some q) e0) ->
    has_pages p n s -> match acquire_for k p n s with Ok (_, s') => acquired loc pe pp p n e0 s0 s' | Fault f => f = FailFast end).
  { clear -HS. intros k s q I Ha Ep Hp.
    assert (E : acquire_for k p n s = Ok (tt, s)).
    { destruct k; cbn [acquire_for]; rewrite (ebind_Ok _ _ _ _ _ (run_get_entry _ _ _ _ _ _ I Ep)); done. }
    rewrite E. split_and!; eauto. }
  destruct r as [q|]; [eapply Hdone; eauto|]. destruct fuel as [|fuel]; [lia|]. cbn [acquire_for].
  rewrite (ebind_Ok _ _ _ _ _ (run_get_entry _ _ _ _ _ _ I Ep)). cbn [EmclBouncePageList set_BouncePages].
  change EFI_PAGE_SIZE with 4096. rewrite u32_small by lia.
  replace (Z.max (n * 4096) (32 * 4096)) with (4096 * Z.max n 32) by lia.
  destruct (ei_bounce _ _ _ _ _ _ _ I) as (fl & hl & HB).
  destruct (run_allocate loc (p :: pe) pp s p fl hl (Z.max n 32) I HB) as (st & s1 & E1 & Hst); [lia|].
  rewrite (ebind_Ok _ _ _ _ _ E1). destruct (EFI_ERROR st) eqn:Est; [done|].
  destruct (Hst eq_refl) as (I1 & Ent & A1 & fl1 & HB1 & Hfree). rewrite <- Ent in Ep.
  destruct (run_acquire loc pe pp s1 p _ fl1 hl n I1 Ep) as (r & s2 & s3 & E2 & E3 & I3 & Ep3 & A3 & Hr3); [done|done|lia|].
  rewrite (ebind_Ok _ _ _ _ _ E2), (ebind_Ok _ _ _ _ _ E3). destruct r as [q|]; [|lia].
  apply (Hdone fuel s3 q); [done| |done|done]. eapply around_trans; [exact Ha|]. by eapply around_trans.
Qed.

(** Copying and zeroing keep the invariant. *)
Lemma inv_copied loc pe pp s m : Inv loc pe pp s -> copied (heap s) m -> Inv loc pe pp (set_heap m s) /\
  (forall fl hl, entries_bounced s (heap s) fl hl -> entries_bounced s m fl hl).
Proof.
  intros I Hc.
  assert (HB : forall fl hl, entries_bounced s (heap s) fl hl -> entries_bounced s m fl hl).
  { intros fl hl HB. eapply entries_bounced_heap; [exact HB|apply Hc|]. intros Hi. by apply (copied_inv _ _ (heap s)). }
  split; [|done]. destruct (ei_bounce _ _ _ _ _ _ _ I) as (fl & hl & HB0).
  apply inv_heap; [done| |apply Hc|apply Hc|by apply copied_bases|by exists fl, hl; apply HB].
  by rewrite (proj1 (copied_inv _ _ (heap s) m (proj1 HB0) Hc)).
Qed.

Lemma copied_around p s m : copied (heap s) m -> around p s (set_heap m s).
Proof. intros Hc. split; try done. apply Hc. Qed.

(** A client buffer that can be sent. *)
Definition sendable (s : emcl) (b : EFI_EXTERNAL_BUFFER) : Prop :=
  external_ok b /\ 0 < Buffer b /\ 0 < BufferSize b /\ pages_of b < 2 ^ 20 /\
  exists c, client (heap s) !! Buffer b = Some c /\ BufferSize b <= Zlength c.

Lemma sendable_around p s s' b : around p s s' -> sendable s b -> sendable s' b.
Proof.
  intros A (H1 & H2 & H3 & H4 & c & Ec & Hc). destruct (ar_client _ _ _ A _ _ Ec) as (c' & Ec' & Hl).
  split_and!; try done. exists c'. split; [done|lia].
Qed.

Lemma pages_of_pos b : external_ok b -> 0 < BufferSize b -> 0 < pages_of b.
Proof. intros (H1 & H2 & H3) H. unfold pages_of. zlia. Qed.

Lemma run_write_bounced loc pe pp s p e0 inline n b bs tid buf : Inv loc (p :: pe) pp s ->
  entries s !! p = Some e0 -> EmclBouncePageList e0 = None -> sendable s b -> 0 <= n <= Zlength inline ->
  32 + 8 * pages_of b + n < 2 ^ 32 -> 32 + 8 * pages_of b + n <= Zlength buf ->
  match write_bounced inline n (b :: bs) tid p buf s with
  | Ok (buf', s') => Zlength buf' = Zlength buf /\ Inv loc (p :: pe) pp s' /\ entry_ready p s' /\ around p s s'
  | Fault f => f = FailFast
  end.
Proof.
  intros I Ep Hb Hs Hn Hsz Hbuf. pose proof Hs as (Hext & _ & Hpos & Hpg & _). pose proof (pages_of_pos b Hext Hpos).
  unfold write_bounced. rewrite (ebind_Ok _ _ s b s) by done. rewrite span_pages, u32_small by (done || lia).
  destruct (ei_bounce _ _ _ _ _ _ _ I) as (fl & hl & HB).
  destruct (run_acquire loc pe pp s p e0 fl hl (pages_of b) I Ep Hb HB) as (r & s1 & s2 & E1 & E2 & I2 & Ep2 & A2 & Hr2); [lia|].
  rewrite (ebind_Ok _ _ _ _ _ E1), (ebind_Ok _ _ _ _ _ E2).
  pose proof (run_acquire_for loc pe pp s s2 p (pages_of b) e0 r (Datatypes.S (Z.to_nat (pages_of b))) I2 A2 Ep2) as Haf.
  unfold mbind at 1, E_bind at 1. destruct (acquire_for _ p (pages_of b) s2) as [[[] s3]|f].
  2:{ apply Haf; [|lia|lia]. intros [q ->]. done. }
  destruct Haf as (I3 & A3 & (fl3 & hl3 & HB3 & Hlen3) & q & Ep3); [intros [q ->]; done|lia|lia|].
  rewrite (ebind_Ok _ _ _ _ _ (run_upd_entry _ _ _ _ _ _ (set_Original b) I3 Ep3)).
  set (e4 := set_Original b (set_BouncePages (Some q) e0)). set (s4 := set_entries _ s3).
  assert (Hhl : hl3 p = [] -> False) by (intros E; rewrite E in Hlen3; unfold Zlength in Hlen3; cbn in Hlen3; lia).
  assert (HB4 : entries_bounced s4 (heap s4) fl3 hl3).
  { destruct HB3 as [HB3 Hh3]. split; [subst s4; cbn; eapply bounce_swap; [|exact HB3]; by rewrite keys_update by eauto|].
    intros q' e' Eq. subst s4. cbn in Eq |- *. destruct (decide (q' = p)) as [->|Hne].
    - rewrite lookup_insert_eq in Eq. injection Eq as <-. destruct (Hh3 p _ Ep3) as [H1 H2]. split; [exact H1|].
      intros Hin. destruct (ei_lent_e _ _ _ _ _ _ _ I3) as [_ N2]. destruct (N2 p) as [_ Hno]; [by apply elem_of_cons; left|done].
    - rewrite lookup_insert_ne in Eq by done. by apply Hh3. }
  assert (I4 : Inv loc (p :: pe) pp s4).
  { apply (inv_entry Do Di pi loc pe pp s3 (heap s3) p _ e4 I3 Ep3); try done.
    by exists fl3, hl3. }
  assert (Ep4 : entries s4 !! p = Some e4) by (subst s4; cbn; by rewrite lookup_insert_eq).
  rewrite (ebind_Ok _ _ _ _ _ (run_get_entry _ _ _ _ _ _ I4 Ep4)).
  assert (A4 : around p s s4) by (eapply around_trans; [exact A3|by split; eauto]).
  destruct (sendable_around _ _ _ _ A4 Hs) as (_ & _ & _ & _ & c & Ec & Hc).
  assert (Hhd : EmclBouncePageList e4 = head (hl3 p)) by (by apply HB4).
  assert (HBp : bounce_inv fl3 (hl3 p :: (hl3 <$> keys (delete p (entries s4)))) (heap s4)).
  { eapply bounce_swap; [|exact (proj1 HB4)]. apply hl_own. by exists e4. }
  assert (exists s5, (if negb (Z.land (SendPacketFlags e4) EMCL_SEND_FLAG_DATA_IN_ONLY =? 0)
       then on_heap (EmclpZeroBouncePageList (EmclBouncePageList e4))
       else on_heap (EmclpCopyBouncePagesToExternalBuffer b (EmclBouncePageList e4) true)) s4 = Ok (tt, s5) /\
      exists m, s5 = set_heap m s4 /\ copied (heap s4) m) as (s5 & E5 & m5 & -> & C5).
  { rewrite Hhd. destruct (negb _).
    - destruct (zero_safe HS HD fl3 _ (heap s4) (hl3 p) HBp) as (m & E & Hcp).
      exists (set_heap m s4). unfold on_heap. rewrite E. eauto.
    - destruct (copy_safe HS HD fl3 _ (heap s4) (hl3 p) b c true HBp) as (m & E & Hcp); try done.
      exists (set_heap m s4). unfold on_heap. rewrite E. eauto. }
  rewrite (ebind_Ok _ _ _ _ _ E5). destruct (inv_copied _ _ _ _ _ I4 C5) as [I5 HB5].
  pose proof (HB5 _ _ HB4) as HB5'.
  assert (HBp5 : bounce_inv fl3 (hl3 p :: (hl3 <$> keys (delete p (entries s4)))) m5).
  { eapply bounce_swap; [|exact (proj1 HB5')]. apply hl_own. by exists e4. }
  destruct (ready_list HS fl3 _ _ _ HBp5) as [_ Hpl].
  destruct (gpa_bounce_keeps m5 (hl3 p) inline n b tid (negb (p =? 0)) buf Hpl) as (buf' & E6 & L6); try done.
  rewrite Hhd. unfold on_heap. cbn [heap set_heap]. rewrite E6. split; [done|].
  assert (Es : set_heap m5 (set_heap m5 s4) = set_heap m5 s4) by done. rewrite Es. split; [done|]. split.
  - exists fl3, hl3. split; [done|]. intros e' E'. cbn in E'. rewrite lookup_insert_eq in E'. injection E' as <-. intros _.
    split_and!; try done. cbn. destruct (co_client _ _ C5 _ _ Ec) as (c' & Ec' & Hl'). exists c'. split; [done|lia].
  - eapply around_trans; [exact A4|]. by apply copied_around.
Qed.

(** ** Releasing what an entry holds *)
Lemma run_release_entry loc pe pp s p e : Inv loc (p :: pe) pp s -> entries s !! p = Some e ->
  exists m, EmclpReleaseBouncePages (EmclBouncePageList e) (heap s) = Ok (tt, m) /\ client m = client (heap s) /\
    Inv loc (p :: pe) pp (set_entries (<[p := set_BouncePages None e]> (entries s)) (set_heap m s)).
Proof.
  intros I Ep. destruct (ei_bounce _ _ _ _ _ _ _ I) as (fl & hl & HB & Hh). destruct (Hh p e Ep) as [Hhd _].
  destruct (ei_lent_e _ _ _ _ _ _ _ I) as [_ N2]. destruct (N2 p) as [_ Hl]; [by apply elem_of_cons; left|].
  assert (HBp : bounce_inv fl (hl p :: (hl <$> keys (delete p (entries s)))) (heap s)).
  { eapply bounce_swap; [|exact HB]. apply hl_own. eauto. }
  destruct (release_ok fl (hl p) _ (heap s) HBp) as (fl' & m & E & HB' & R). exists m. rewrite Hhd. split_and!; [done|apply R|].
  apply (inv_entry Do Di pi loc pe pp s m p e); try done.
  - by rewrite (relinks_ptrs _ _ R).
  - apply R.
  - apply R.
  - by apply relinks_bases.
  - exists fl', (<[p := []]> hl).
    apply (entries_bounced_set s (heap s) m fl hl fl' p e []); [by split|done|done|rewrite (rl_client _ _ R); eauto|by apply bounce_nil].
Qed.

(** An entry that is given up: its pages are released and it is freed. *)
Definition drop_entry (p : Z) (e : EMCL_COMPLETION_ENTRY) : E unit :=
  _ ← (match EmclBouncePageList e with
       | Some _ => on_heap (EmclpReleaseBouncePages (EmclBouncePageList e))
       | None => mret tt
       end);
  free_entry p.

Lemma free_entry_state p s s' : free_entry p s = Ok (tt, s') -> p ∉ pool (heap s').
Proof.
  unfold free_entry, mbind, E_bind, on_heap, FreePool. case_decide; [|done]. intros [= <-]. cbn.
  rewrite elem_of_difference, elem_of_singleton. tauto.
Qed.

Lemma safe_drop_entry F loc pe pp p e : esafe F (fun s => Inv loc (p :: pe) pp s /\ entries s !! p = Some e) (drop_entry p e)
  (fun _ s => Inv loc pe pp s /\ p ∉ pool (heap s)).
Proof.
  intros s [I Ep]. unfold drop_entry. destruct (run_release_entry _ _ _ _ _ _ I Ep) as (m & E & _ & I').
  assert (E1 : (match EmclBouncePageList e with
     | Some _ => on_heap (EmclpReleaseBouncePages (EmclBouncePageList e)) | None => mret tt end) s = Ok (tt, set_heap m s)).
  { destruct (EmclBouncePageList e) as [q|] eqn:Hb; [unfold on_heap; by rewrite E|]. unfold EmclpReleaseBouncePages in E.
    rewrite (hbind_Ok _ _ (heap s) (size (pages (heap s))) (heap s)) in E by done.
    destruct (size (pages (heap s))); cbn in E; injection E as <-; by destruct s. }
  rewrite (ebind_Ok _ _ _ _ _ E1).
  pose proof (safe_free_entry Do Di pi F loc pe pp p _ (conj I' (ex_intro _ _ (conj (lookup_insert_eq _ _ _) eq_refl)))) as Hf.
  assert (Eq : free_entry p (set_heap m s) = free_entry p (set_entries (<[p := set_BouncePages None e]> (entries s)) (set_heap m s))).
  { unfold free_entry, mbind, E_bind, on_heap. cbn. destruct (FreePool p m) as [[u m']|f]; [|done]. unfold emod. cbn.
    by rewrite delete_insert_eq. }
  rewrite Eq. destruct (free_entry p _) as [[[] s']|f] eqn:E2; [|done]. split; [done|]. by eapply free_entry_state.
Qed.

Lemma destroy_shrinks o s s' : destroy_outgoing o s = Ok (tt, s') -> pool (heap s') ⊆ pool (heap s).
Proof.
  assert (Hf : forall q s s', on_heap (FreePool q) s = Ok (tt, s') -> pool (heap s') ⊆ pool (heap s)).
  { intros q t t'. unfold on_heap, FreePool. case_decide; [|done]. intros [= <-]. cbn. set_solver. }
  unfold destroy_outgoing, EmclDestroyOutgoingPacket, mbind, E_bind.
  destruct (negb (out_buffer_ptr o =? 0)); [|unfold mret, E_ret; apply Hf].
  destruct (on_heap (FreePool (out_buffer_ptr o)) s) as [[[] s1]|f] eqn:E1; [|done]. intros E2.
  etransitivity; [by eapply Hf|by eapply Hf].
Qed.

(** ** Sending or queueing a written packet *)
Definition lent (p : Z) (pe : list Z) : list Z := if p =? 0 then pe else p :: pe.

Lemma safe_submit F loc pe pp o p defer : queued_ok Do o ->
  esafe F (fun s => Inv (out_this o :: out_buffer_ptr o :: loc) (lent p pe) pp s /\ (p <> 0 -> entry_ready p s))
    (submit_packet o p defer)
    (fun st s => Inv loc pe pp s /\ (EFI_ERROR st = true -> p <> 0 -> p ∉ pool (heap s))).
Proof.
  intros Ho. pose proof Ho as (Hsz & Hrange & Hbp). unfold submit_packet, lent.
  set (L := out_this o :: out_buffer_ptr o :: loc).
  set (J := fun s => Inv L pe pp s /\ (p <> 0 -> p ∈ CompletionEntries (ctxt s))).
  apply (esafe_bind F _ _ _ (fun _ => J)).
  { destruct (Z.eqb_spec p 0) as [->|Hp0]; cbn [negb].
    - apply esafe_ret. intros s [I _]. split; [done|]. done.
    - apply esafe_mod. intros s [I Hr]. split; [apply inv_list; auto|]. intros _. cbn. apply elem_of_app. right. by apply list_elem_of_singleton. }
  intros _. apply (esafe_bind F _ _ _ (fun st s => J s)).
  { apply esafe_pk. intros s [I Hl].
    destruct (safe_send HP Do Di HDo (out_Buffer o) (out_BufferSize o) ltac:(lia) ltac:(lia) (pk s)) as (st & w & E & Hw & _); [apply I|].
    exists st, w. split; [done|]. split; [by apply inv_pk|done]. }
  intros st. apply (esafe_bind F _ _ _ (fun _ => J)).
  { eapply esafe_post; [|apply esafe_get]. by intros ? ? [_ ?]. }
  intros deferred. apply (esafe_bind F _ _ _ (fun _ => J)).
  { apply esafe_if; intros _; [|by apply esafe_ret]. apply (esafe_bind F _ _ _ (fun _ => J)).
    - apply esafe_if; intros _; [|by apply esafe_ret]. apply esafe_mod. intros s [I Hl]. split; [by apply inv_trace|done].
    - intros _. apply esafe_mod. intros s [I Hl]. split; [by apply inv_ctxt|done]. }
  intros _. case_decide as Hfull.
  - apply (esafe_bind F _ _ _ (fun _ => Inv loc pe pp)).
    { apply esafe_mod. intros s [I Hl]. by apply inv_enqueue. }
    intros _. apply (esafe_bind F _ _ _ (fun _ => Inv loc pe pp)); [eapply esafe_post; [|apply esafe_get]; by intros ? ? [_ ?]|].
    intros d. apply (esafe_bind F _ _ _ (fun _ => Inv loc pe pp)).
    { apply esafe_if; intros _; [|by apply esafe_ret]. apply (esafe_bind F _ _ _ (fun _ => Inv loc pe pp));
        [apply esafe_mod; intros s I; by apply inv_trace|intros _; apply esafe_mod; intros s I; by apply inv_ctxt]. }
    intros _. apply esafe_ret. done.
  - apply esafe_if; intros Herr.
    + apply (esafe_bind F _ _ _ (fun _ s => Inv L pe pp s /\ (p <> 0 -> p ∉ pool (heap s)))).
      { destruct (Z.eqb_spec p 0) as [->|Hp0]; cbn [negb]; [apply esafe_ret; by intros s [I _]|].
        apply (esafe_bind F _ _ _ (fun e s => Inv L pe pp s /\ p ∈ CompletionEntries (ctxt s) /\ entries s !! p = Some e)).
        { intros s [I Hl]. destruct (ei_listed _ _ _ _ _ _ _ I p (Hl Hp0)) as [e Ep]. rewrite (run_get_entry _ _ _ _ _ _ I Ep). auto. }
        intros e. apply (esafe_bind F _ _ _ (fun _ s => Inv L (p :: pe) pp s /\ entries s !! p = Some e)).
        { apply esafe_mod. intros s (I & Hl & Ep). split; [|done]. by apply inv_unlist. }
        intros _. eapply esafe_post; [|apply safe_drop_entry]. intros _ s [? ?]. auto. }
      intros _. apply (esafe_bind F _ _ _ (fun _ s => Inv loc pe pp s /\ (p <> 0 -> p ∉ pool (heap s)))).
      { intros s [I Hno]. pose proof (safe_destroy Do Di pi F loc pe pp o Hbp s I) as Hd.
        destruct (destroy_outgoing o s) as [[[] s']|f] eqn:Ed; [|done]. split; [done|]. intros Hp0 Hin.
        by apply (Hno Hp0), (destroy_shrinks _ _ _ Ed). }
      intros _. apply esafe_ret. tauto.
    + apply (esafe_bind F _ _ _ (fun _ => Inv loc pe pp)).
      * eapply esafe_pre; [|by apply safe_destroy]. by intros s [I _].
      * intros _. apply esafe_ret. done.
Qed.

(** ** [EmclpSendPacket] *)
Definition fresh_entry (p : Z) (s : emcl) : Prop := p <> 0 -> exists e, entries s !! p = Some e /\ EmclBouncePageList e = None.

Definition send_ok (inline : list Z) (n : Z) (ext : option (list EFI_EXTERNAL_BUFFER)) (ty p : Z) (s : emcl) : Prop :=
  0 <= n <= Zlength inline /\ 32 + Zlength (ranges_bytes (default [] ext)) + n < 2 ^ 32 /\
  match ext with
  | None => ty = VmbusPacketTypeDataInBand \/ ty = VmbusPacketTypeCompletion
  | Some bs => bs <> [] /\ ty = VmbusPacketTypeDataUsingGpaDirect /\ p <> 0 /\ IsPipe (ctxt s) = false /\ Forall (sendable s) bs
  end.

Lemma ready_fresh loc pe pp p s : Inv loc (lent p pe) pp s -> fresh_entry p s -> p <> 0 -> entry_ready p s.
Proof.
  intros I Hf Hp0. destruct (Hf Hp0) as (e & Ep & Hb). destruct (ei_bounce _ _ _ _ _ _ _ I) as (fl & hl & HB & Hh).
  exists fl, hl. split; [by split|]. intros e' E'. destruct (Hh p e' E') as [H1 _]. assert (e' = e) as -> by congruence.
  rewrite Hb in H1. by destruct (hl p).
Qed.

Definition packet_size (isPipe : bool) (ext : option (list EFI_EXTERNAL_BUFFER)) (n : Z) : Z :=
  (match ext with None => 16 | Some bs => 24 + Zlength (ranges_bytes bs) end) + n + (if isPipe then 8 else 0).

Lemma sendable_external s bs : Forall (sendable s) bs -> Forall external_ok bs.
Proof. intros H. eapply list.Forall_impl; [exact H|]. by intros b [? _]. Qed.

Lemma first_range b bs : external_ok b -> 8 + 8 * pages_of b <= Zlength (ranges_bytes (b :: bs)).
Proof.
  intros Hb. unfold ranges_bytes. rewrite fmap_cons. cbn [concat]. rewrite Zlength_app, Zlength_range_bytes, Zlength_direct_pfns by done.
  pose proof (Zlength_nonneg (concat ((fun b => range_bytes b (direct_pfns b)) <$> bs))). lia.
Qed.

Lemma safe_pack (F : fault -> Prop) loc pe pp inline n ext ty pty tid p size isPipe : F FailFast ->
  size = packet_size isPipe ext n ->
  esafe F (fun s => Inv loc (lent p pe) pp s /\ fresh_entry p s /\ send_ok inline n ext ty p s /\ IsPipe (ctxt s) = isPipe)
    (write_packet inline n (default [] ext) ty pty tid p size (replicate (Z.to_nat size) 0))
    (fun bytes s => Zlength bytes = size /\ Inv loc (lent p pe) pp s /\ (p <> 0 -> entry_ready p s)).
Proof.
  intros HF Hsize s (I & Hf & (Hn & Hsz & Hext) & Hpipe). unfold write_packet.
  assert (Hz : Zlength (replicate (Z.to_nat size) 0) = size).
  { apply Zlength_replicate. rewrite Hsize. unfold packet_size. destruct ext as [bs|], isPipe; try lia;
      pose proof (Zlength_nonneg (ranges_bytes bs)); lia. }
  destruct ext as [bs|]; cbn [from_option id] in *.
  - destruct Hext as (Hbs & -> & Hp0 & Hnp & Hsend). cbn [orb]. change (_ || _) with false. cbn iota.
    change (VmbusPacketTypeDataUsingGpaDirect =? VmbusPacketTypeDataUsingGpaDirect) with true. cbn iota.
    rewrite (ebind_Ok _ _ s _ s) by done. rewrite (ebind_Ok _ _ s _ s) by done.
    assert (isPipe = false) as -> by congruence. destruct (mUseBounceBuffer s && _).
    + destruct bs as [|b bs]; [done|]. apply list.Forall_cons in Hsend as [Hb Hsend]. destruct (Hf Hp0) as (e & Ep & Hlist).
      unfold lent in *. destruct (Z.eqb_spec p 0) as [|_]; [done|]. pose proof (first_range b bs (proj1 Hb)).
      pose proof (run_write_bounced loc pe pp s p e inline n b bs tid (replicate (Z.to_nat size) 0) I Ep Hlist Hb Hn) as Hw.
      destruct (write_bounced _ _ _ _ _ _ s) as [[bytes s']|f].
      * destruct Hw as (L & I' & Hr & _); [lia|rewrite Hz, Hsize; unfold packet_size; lia|]. split_and!; [congruence|done|done].
      * rewrite Hw; [done|lia|rewrite Hz, Hsize; unfold packet_size; lia].
    + pose proof (sendable_external _ _ Hsend) as He.
      destruct (gpa_direct_keeps inline n bs tid (negb (p =? 0)) (replicate (Z.to_nat size) 0) He Hn) as (bytes & -> & L);
        [lia|rewrite Hz, Hsize; unfold packet_size; lia|].
      cbn. split_and!; [lia|done|]. by apply (ready_fresh loc pe pp).
  - assert ((ty =? VmbusPacketTypeDataInBand) || (ty =? VmbusPacketTypeCompletion) = true) as -> by (by destruct Hext as [->| ->]).
    rewrite (ebind_Ok _ _ s isPipe s) by (unfold cget, eget; by rewrite Hpipe).
    destruct (inline_keeps isPipe ty pty tid (negb (p =? 0)) inline n size (replicate (Z.to_nat size) 0) Hn) as (bytes & -> & L).
    { rewrite Hz, Hsize. unfold packet_size. lia. }
    cbn. split_and!; [lia|done|]. by apply (ready_fresh loc pe pp).
Qed.

(** What [EmclpSendPacket] leaves: on success the entry is the channel's; on
    failure it is still the caller's, or was freed. *)
Definition sent (loc pe pp : list Z) (p : Z) (st : EFI_STATUS) (s : emcl) : Prop :=
  if EFI_ERROR st then (Inv loc (lent p pe) pp s /\ fresh_entry p s) \/ (Inv loc pe pp s /\ (p <> 0 -> p ∉ pool (heap s)))
  else Inv loc pe pp s.

Definition size_assert (ext : option (list EFI_EXTERNAL_BUFFER)) (ty p : Z) : bool :=
  ((Zlength (default [] ext) =? 0) && (match ext with None => true | Some _ => false end) && negb (ty =? VmbusPacketTypeDataUsingGpaDirect)) ||
  (negb (Zlength (default [] ext) =? 0) && negb (match ext with None => true | Some _ => false end) && (ty =? VmbusPacketTypeDataUsingGpaDirect) && negb (p =? 0)).

Lemma send_ok_assert inline n ext ty p s : send_ok inline n ext ty p s -> size_assert ext ty p = true.
Proof.
  intros (_ & _ & Hext). unfold size_assert. destruct ext as [bs|]; cbn [from_option id].
  - destruct Hext as (Hbs & -> & Hp0 & _). destruct bs; [done|]. change (Zlength (e :: bs) =? 0) with false. cbn.
    by destruct (Z.eqb_spec p 0).
  - by destruct Hext as [->| ->].
Qed.

Lemma send_ok_size inline n ext ty p s : send_ok inline n ext ty p s ->
  u32 ((if Zlength (default [] ext) =? 0 then 16 else 24 + EmclGpaRangesSize (default [] ext)) + n) = packet_size false ext n.
Proof.
  intros (Hn & Hsz & Hext). destruct ext as [bs|]; cbn [from_option id packet_size] in *.
  - destruct Hext as (Hbs & _ & _ & _ & Hs). destruct bs as [|b bs]; [done|]. change (Zlength (b :: bs) =? 0) with false. cbn iota.
    pose proof (Zlength_nonneg (ranges_bytes (b :: bs))).
    rewrite EmclGpaRangesSize_spec, u32_small by (try (by eapply sendable_external); lia). unfold packet_size. lia.
  - change (Zlength [] =? 0) with true. cbn iota. pose proof (Zlength_nonneg (ranges_bytes [])). rewrite u32_small by lia. unfold packet_size. lia.
Qed.

Lemma send_ok_heap inline n ext ty p s s' : ctxt s' = ctxt s -> client (heap s') = client (heap s) ->
  send_ok inline n ext ty p s -> send_ok inline n ext ty p s'.
Proof. unfold send_ok, sendable. intros -> ->. done. Qed.

(** Allocation next to facts that only the client's memory and the rest of the
    state bear on. *)
Definition stable (R : emcl -> Prop) : Prop := forall s m, client m = client (heap s) -> R s -> R (set_heap m s).

Lemma safe_alloc_with F loc pe pp n R : stable R ->
  esafe F (fun s => Inv loc pe pp s /\ R s) (on_heap (AllocatePool n))
    (fun p s => ((p = 0 /\ Inv loc pe pp s) \/ (p <> 0 /\ Inv (p :: loc) pe pp s)) /\ R s).
Proof.
  intros HR s [I Hr]. pose proof (safe_alloc HS Do Di pi F loc pe pp n s I) as Ha.
  unfold on_heap in *. destruct (AllocatePool n (heap s)) as [[p m]|f] eqn:E; [|done]. split; [done|]. apply HR; [|done].
  unfold AllocatePool in E. by destruct (_ =? 0); injection E as _ <-.
Qed.

Lemma stable_send inline n ext ty p b : stable (fun s => fresh_entry p s /\ send_ok inline n ext ty p s /\ IsPipe (ctxt s) = b).
Proof. intros s m Hm (H1 & H2 & H3). split_and!; [done| |done]. by apply (send_ok_heap _ _ _ _ _ s). Qed.

(** From the allocation of the packet on. *)
Lemma safe_build (F : fault -> Prop) loc pe pp inline n ext ty pty tid p defer size isPipe : F FailFast ->
  size = packet_size isPipe ext n -> 0 < size <= Do ->
  esafe F (fun s => Inv loc (lent p pe) pp s /\ fresh_entry p s /\ send_ok inline n ext ty p s /\ IsPipe (ctxt s) = isPipe)
    (outgoingPacket ← on_heap (AllocatePool sizeof_EMCL_OUTGOING_PACKET);
     if outgoingPacket =? 0 then mret EFI_OUT_OF_RESOURCES
     else
       packetBuffer ← on_heap (AllocatePool size);
       if packetBuffer =? 0 then _ ← destroy_outgoing (mkOutgoing outgoingPacket 0 [] 0); mret EFI_OUT_OF_RESOURCES
       else
         bytes ← write_packet inline n (default [] ext) ty pty tid p size (replicate (Z.to_nat size) 0);
         submit_packet (mkOutgoing outgoingPacket packetBuffer bytes size) p defer) (sent loc pe pp p).
Proof.
  intros HF Hsize Hrange.
  eapply esafe_bind; [apply safe_alloc_with, stable_send|]. intros op.
  destruct (Z.eqb_spec op 0) as [->|Hop].
  { apply esafe_ret. intros s ([[_ I]|[? _]] & Hf & _); [|done]. left. by split. }
  eapply esafe_bind; [eapply esafe_pre; [|apply (safe_alloc_with F (op :: loc) (lent p pe) pp size), stable_send]|].
  { intros s ([[? _]|[_ I]] & HR); [done|]. split; [exact I|exact HR]. }
  intros bp. destruct (Z.eqb_spec bp 0) as [->|Hbp].
  { intros s ([[_ I]|[? _]] & Hf & _); [|done]. pose proof (safe_free Do Di pi F loc (lent p pe) pp op s I) as Hfree.
    assert (Ed : destroy_outgoing (mkOutgoing op 0 [] 0) s = on_heap (FreePool op) s) by done.
    unfold mbind, E_bind. rewrite Ed. clear Ed. unfold on_heap in *. destruct (FreePool op (heap s)) as [[u m]|f]; [|done]. left. split; [done|exact Hf]. }
  eapply esafe_bind; [eapply esafe_pre; [|apply (safe_pack F (bp :: op :: loc) pe pp inline n ext ty pty tid p size isPipe HF Hsize)]|].
  { intros s ([[? _]|[_ I]] & HR); [done|]. by split. }
  intros bytes. apply (esafe_pure F (Zlength bytes = size)). intros Hlen.
  eapply esafe_post; [|eapply esafe_pre; [|apply (safe_submit F loc pe pp (mkOutgoing op bp bytes size) p defer)]].
  - intros st s [I Hno]. unfold sent. destruct (EFI_ERROR st); [right; split; [done|auto]|done].
  - intros s [I Hr]. split; [|done]. cbn. eapply inv_loc; [|exact I]. apply Permutation_swap.
  - unfold queued_ok; cbn; split_and!; (done || lia).
Qed.

Lemma safe_send_packet (F : fault -> Prop) loc pe pp inline n ext ty pty tid p defer : F FailFast ->
  esafe F (fun s => Inv loc (lent p pe) pp s /\ fresh_entry p s /\ send_ok inline n ext ty p s)
    (EmclpSendPacket inline n ext ty pty tid p defer) (sent loc pe pp p).
Proof.
  intros HF s (I & Hf & Hok). unfold EmclpSendPacket. fold (size_assert ext ty p).
  rewrite (send_ok_assert _ _ _ _ _ _ Hok), ASSERT_true. rewrite (ebind_Ok _ _ s tt s) by done.
  unfold sizeof_VMPACKET_DESCRIPTOR, off_GPA_Range. rewrite (send_ok_size _ _ _ _ _ _ Hok).
  rewrite (ebind_Ok _ _ s (IsPipe (ctxt s)) s) by done. pose proof Hok as (Hn & Hsz & Hext).
  set (size := packet_size (IsPipe (ctxt s)) ext n).
  assert (Hsize : 0 < size < 2 ^ 32).
  { unfold size, packet_size. pose proof (Zlength_nonneg (ranges_bytes (default [] ext))).
    destruct ext as [bs|], (IsPipe (ctxt s)); cbn [from_option id] in *; lia. }
  rewrite (ebind_Ok _ _ s size s).
  2:{ unfold size, packet_size, sizeof_VMPIPE_PROTOCOL_HEADER in *. destruct (IsPipe (ctxt s)) eqn:Hpipe; [|done].
      destruct ext as [bs|]; [by destruct Hext as (_ & _ & _ & Hnp & _)|].
      change (Zlength (default [] None) =? 0) with true. rewrite ASSERT_true, (ebind_Ok _ _ s tt s) by done.
      rewrite u32_small by lia. unfold mret, E_ret. do 2 f_equal. lia. }
  assert (Hring : PkGetOutgoingRingSize (pk s) = Ok (Do, pk s)).
  { unfold PkGetOutgoingRingSize, get. destruct (ei_ring _ _ _ _ _ _ _ I) as [Hc _]. by rewrite (ok_do _ _ _ Hc). }
  rewrite (ebind_Ok _ _ s Do s) by (unfold on_pk; rewrite Hring; by destruct s).
  destruct (Z.ltb_spec Do size) as [|Hle]; [left; by split|].
  apply (safe_build F loc pe pp inline n ext ty pty tid p defer size (IsPipe (ctxt s)) HF); [done|lia|done].
Qed.
End Send.
