(* ===== verification/EmclSafeOps.v ===== *)
(** The operations of a channel keep its invariant against any host: the
    protocol's send and complete operations, the dispatch of a received packet
    whatever its bytes, and the processing of the rings; the client enters by
    what its callbacks promise. *)
From stdpp Require Import base list numbers list_numbers option gmap fin_map_dom functions.
From Stdlib Require Import ZArith Lia.
From S2P Require Import Prelude Circular PkRing PkRingSafe EmclPacket EmclPacketProps EmclBounce EmclBounceInv EmclBounceAlloc EmclBounceCopy Emcl Heap EmclSafe EmclSafeSend.
Open Scope Z_scope.
Import PkRing EmclPacket EmclBounce Emcl.

Section Ops.
Context {B : BuildOptions} {P : Peer} {S : Services} {D : Dma} {C : Client} {V : Vmbus}.
Context (HP : peer_ok) (HS : services_ok) (HD : dma_ok) (Do Di : Z) (HDo : ring_size Do) (HDi : ring_size Di).
Context (F : fault -> Prop) (HFF : F FailFast).

Section Send.
Context (pi : frame).
Abbreviation Inv := (emcl_inv Do Di pi).
Implicit Types loc pe pp : list Z.

(** What a caller of [EmclSendPacketEx] must ensure. *)
Definition ex_ok (inline : list Z) (n : Z) (ext : option (list EFI_EXTERNAL_BUFFER)) (routine : Z) (s : emcl) : Prop :=
  0 <= n <= Zlength inline /\ 32 + Zlength (ranges_bytes (default [] ext)) + n < 2 ^ 32 /\
  match ext with
  | None => True
  | Some bs => bs <> [] /\ routine <> 0 /\ IsPipe (ctxt s) = false /\ Forall (sendable s) bs
  end.

Lemma sendable_exists s bs : Forall (sendable s) bs -> existsb (fun b => (Buffer b =? 0) || (BufferSize b =? 0)) bs = false.
Proof.
  induction 1 as [|b bs (H1 & H2 & H3 & _) _ IH]; [done|]. cbn. rewrite IH.
  destruct (Z.eqb_spec (Buffer b) 0), (Z.eqb_spec (BufferSize b) 0); try done; lia.
Qed.

(** The entry of a packet that asks for a completion, when the routine is not NULL. *)
Lemma safe_cleanup loc pe pp p st : F DoubleFree -> esafe F (sent Do Di pi loc pe pp p st) (send_cleanup p st) (fun _ => Inv loc pe pp).
Proof.
  intros HFD s Hs. unfold send_cleanup, sent, lent in *. destruct (EFI_ERROR st); [|done].
  destruct (Z.eqb_spec p 0) as [->|Hp0]; cbn [negb].
  - rewrite (ebind_Ok _ _ s tt s) by done. cbn. tauto.
  - destruct Hs as [[I Hf]|[I Hno]].
    + pose proof (safe_free_entry Do Di pi F loc pe pp p s (conj I (Hf Hp0))) as Hd. unfold mbind, E_bind.
      by destruct (free_entry p s) as [[[] s']|f].
    + unfold free_entry, mbind, E_bind, on_heap, FreePool. rewrite decide_False by auto. done.
Qed.

Lemma send_ok_of_ex inline n ext routine p s s' : ctxt s' = ctxt s -> client (heap s') = client (heap s) -> (routine <> 0 -> p <> 0) ->
  ex_ok inline n ext routine s ->
  send_ok inline n ext (match ext with None => VmbusPacketTypeDataInBand | Some _ => VmbusPacketTypeDataUsingGpaDirect end) p s'.
Proof.
  intros E1 E2 Hp (H1 & H2 & H3). split_and!; [lia|lia|lia|]. destruct ext as [bs|]; [|by left].
  destruct H3 as (H3 & H4 & H5 & H6). rewrite E1. split_and!; try done; [by apply Hp|].
  eapply list.Forall_impl; [exact H6|]. intros b. unfold sendable. by rewrite E2.
Qed.

(** The completion entry made for a routine that is not NULL. *)
Definition entry_made (loc pe pp : list Z) (routine : Z) (s : emcl) (r : EFI_STATUS * Z * Z) (s' : emcl) : Prop :=
  let '(st, p, tid) := r in ctxt s' = ctxt s /\ client (heap s') = client (heap s) /\
  ((EFI_ERROR st = true /\ Inv loc pe pp s') \/
   (EFI_ERROR st = false /\ (routine <> 0 -> p <> 0) /\ Inv loc (lent p pe) pp s' /\ fresh_entry p s')).

Lemma safe_make_entry loc pe pp routine context flags s : Inv loc pe pp s ->
  match (if negb (routine =? 0) then
        p ← on_heap (AllocatePool sizeof_EMCL_COMPLETION_ENTRY);
        if p =? 0 then mret (EFI_OUT_OF_RESOURCES, 0, 0)
        else
          current ← eget mCurrentTransactionId;
          if current =? UINT64_MAX then FAIL_FAST_UNEXPECTED_HOST_BEHAVIOR
          else
            _ ← emod (set_mCurrentTransactionId (current + 1));
            _ ← emod (fun s => set_entries (<[p := mkEntry routine context (mkExternal 0 0) None
                                                     flags (current + 1)]> (entries s)) s);
            mret (EFI_SUCCESS, p, current + 1)
      else mret (EFI_SUCCESS, 0, 0)) s with
  | Ok (r, s') => entry_made loc pe pp routine s r s' | Fault f => F f end.
Proof.
  intros I. destruct (Z.eqb_spec routine 0) as [->|Hr]; cbn [negb].
  { cbn. split_and!; try done. right. split_and!; try done. by intros []. }
  pose proof (safe_alloc HS Do Di pi F loc pe pp sizeof_EMCL_COMPLETION_ENTRY s I) as Ha.
  assert (Hcl : forall p s1, on_heap (AllocatePool sizeof_EMCL_COMPLETION_ENTRY) s = Ok (p, s1) ->
    ctxt s1 = ctxt s /\ client (heap s1) = client (heap s)).
  { intros p s1. unfold on_heap, AllocatePool. destruct (_ =? 0); intros [= _ <-]; done. }
  unfold mbind at 1, E_bind at 1. destruct (on_heap (AllocatePool _) s) as [[p s1]|f] eqn:E1; [|done].
  destruct (Hcl _ _ eq_refl) as [Hc1 Hc2]. destruct (Z.eqb_spec p 0) as [->|Hp0].
  { destruct Ha as [[_ Ha]|[? _]]; [|done]. split_and!; try done. by left. }
  destruct Ha as [[? _]|[_ I1]]; [done|]. rewrite (ebind_Ok _ _ s1 (mCurrentTransactionId s1) s1) by done.
  destruct (Z.eqb_spec (mCurrentTransactionId s1) UINT64_MAX) as [|Hmax]; [done|].
  destruct (ei_tids _ _ _ _ _ _ _ I1) as (Ht & _). unfold UINT64_MAX in Hmax.
  pose proof (inv_new_entry Do Di pi loc pe pp s1 p routine context flags I1 ltac:(lia)) as I2.
  cbn. split_and!; [done|done|]. right. unfold lent. destruct (Z.eqb_spec p 0); [done|].
  split_and!; [done|done|exact I2|]. intros _. eexists. split; [cbn; apply lookup_insert_eq|done].
Qed.

Lemma safe_send_ex loc pe pp inline n ext flags routine context : F DoubleFree ->
  esafe F (fun s => Inv loc pe pp s /\ ex_ok inline n ext routine s)
    (EmclSendPacketEx inline n ext flags routine context) (fun _ => Inv loc pe pp).
Proof.
  intros HFD s [I Hok]. unfold EmclSendPacketEx. rewrite (ebind_Ok _ _ s true s) by (unfold cget, eget; by rewrite (ei_running _ _ _ _ _ _ _ I)).
  rewrite ASSERT_true, (ebind_Ok _ _ s tt s) by done.
  assert (He : existsb (fun b => (Buffer b =? 0) || (BufferSize b =? 0)) (default [] ext) = false).
  { destruct ext as [bs|]; [|done]. destruct Hok as (_ & _ & _ & _ & _ & Hs). by apply (sendable_exists s). }
  rewrite He. apply (esafe_bind F (fun s' => s' = s) _ _ (entry_made loc pe pp routine s)); [|intros [[st p] tid]|done].
  - intros ? ->. by apply safe_make_entry.
  - intros s1 (E1 & E2 & [[Hst I1]|(Hst & Hp & I1 & Hf)]); rewrite Hst; [done|].
    apply (esafe_bind F (fun s' => s' = s1) _ _ (sent Do Di pi loc pe pp p)); [|intros st'; by apply safe_cleanup|done].
    intros ? ->. apply (safe_send_packet HP HS HD Do Di HDo HDi pi F); [done|]. split_and!; [done|done|].
    by apply (send_ok_of_ex inline n ext routine p s).
Qed.

(** A packet that carries no entry keeps the invariant, whatever the status. *)
Lemma sent_none loc pe pp st s : sent Do Di pi loc pe pp 0 st s -> Inv loc pe pp s.
Proof. unfold sent, lent. cbn. destruct (EFI_ERROR st); [intros [[? _]|[? _]]|]; done. Qed.

Lemma safe_send_inline loc pe pp inline n ty pty tid defer : ty = VmbusPacketTypeDataInBand \/ ty = VmbusPacketTypeCompletion ->
  0 <= n <= Zlength inline -> 32 + n < 2 ^ 32 ->
  esafe F (Inv loc pe pp) (EmclpSendPacket inline n None ty pty tid 0 defer) (fun _ => Inv loc pe pp).
Proof.
  intros Hty Hn Hsz. eapply esafe_post; [|eapply esafe_pre; [|by apply (safe_send_packet HP HS HD Do Di HDo HDi pi F loc pe pp)]].
  - intros st s. apply sent_none.
  - intros s I. split_and!; [exact I|by intros []|]. split_and!; [lia|lia| |done]. change (Zlength (ranges_bytes (default [] None))) with 0. lia.
Qed.

Lemma safe_destroy_range loc pe pp h : esafe F (Inv loc pe pp) (EmclDestroyGpaRange h) (fun _ => Inv loc pe pp).
Proof. apply safe_send_inline; [by left| |by vm_compute]. unfold teardown_message. rewrite Zlength_le_split. by vm_compute. Qed.

Lemma safe_create_range loc pe pp h bs w : Forall external_ok bs -> 41 + Zlength (ranges_bytes bs) < 2 ^ 32 ->
  esafe F (Inv loc pe pp) (EmclCreateGpaRange h bs w) (fun _ => Inv loc pe pp).
Proof.
  intros Hbs Hsz. unfold EmclCreateGpaRange. pose proof (Zlength_nonneg (ranges_bytes bs)).
  rewrite EmclGpaRangesSize_spec by (done || lia). unfold off_Setup_Range. rewrite u32_small by lia.
  set (size := 9 + Zlength (ranges_bytes bs)) in *.
  eapply esafe_bind; [apply safe_alloc; exact HS|]. intros q. destruct (Z.eqb_spec q 0) as [->|Hq].
  { apply esafe_ret. intros s [[_ I]|[? _]]; done. }
  destruct (setup_keeps h bs w (replicate (Z.to_nat size) 0) Hbs) as (bytes & E & L).
  { rewrite Zlength_replicate by lia. lia. }
  rewrite Zlength_replicate in L by lia.
  apply (esafe_bind F _ _ _ (fun b s => b = bytes /\ Inv (q :: loc) pe pp s)).
  { eapply esafe_lift; [exact E|]. intros s [[? _]|[_ I]]; done. }
  intros b. apply (esafe_pure F (b = bytes)). intros ->.
  eapply esafe_bind; [apply safe_send_inline; [by left|lia|lia]|]. intros st.
  apply (esafe_bind F _ _ _ (fun _ => Inv loc pe pp)); [apply safe_free|]. intros _. by apply esafe_ret.
Qed.

(** ** Completing a received packet *)
Lemma packet_run loc pe pp s k b : Inv loc pe pp s -> IncomingPackets s !! k = Some b -> get_packet k s = Ok (b, s).
Proof.
  intros I E. unfold get_packet. rewrite E. destruct (Z.eqb_spec k 0) as [->|]; [|done].
  destruct (ei_pool _ _ _ _ _ _ _ I 0) as [_ ?]; [|done]. apply owned_parts. right. right. left. eauto.
Qed.

Lemma safe_complete loc pe pp k buf n : k ∉ pp -> 0 <= n <= Zlength buf -> 32 + n < 2 ^ 32 ->
  esafe F (fun s => Inv loc pe pp s /\ is_Some (IncomingPackets s !! k)) (EmclCompletePacket k buf n) (fun _ => Inv loc pe pp).
Proof.
  intros Hk Hn Hsz s [I [b Eb]]. destruct (ei_packets _ _ _ _ _ _ _ I k b Eb) as (Hlen & Hbytes & _). unfold EmclCompletePacket.
  rewrite (ebind_Ok _ _ _ _ _ (packet_run _ _ _ _ _ _ I Eb)).
  destruct (load_run 2 b off_Flags) as (fl & Efl & _); [done|unfold off_Flags; lia..|].
  rewrite (ebind_Ok _ _ s fl s) by (by rewrite Efl).
  destruct (load_run 8 b off_TransactionId) as (tid & Et & _); [done|unfold off_TransactionId; lia..|].
  apply (esafe_bind F (fun s' => s' = s) _ _ (fun _ => Inv loc pe (k :: pp))); [| |done].
  { intros ? ->. pose proof (inv_lend _ _ _ _ _ _ _ _ I (ex_intro _ _ Eb) Hk) as I'. destruct (negb _); [|done].
    rewrite (ebind_Ok _ _ s tid s) by (by rewrite Et). apply safe_send_inline; [by right|done|done|exact I']. }
  intros st. apply (esafe_bind F _ _ _ (fun _ => Inv loc pe pp)).
  { apply safe_free_packet. }
  intros _. apply (esafe_bind F _ _ _ (fun _ => Inv loc pe pp)); [eapply esafe_post; [|apply esafe_get]; by intros ? ? [_ ?]|].
  intros f. apply (esafe_bind F _ _ _ (fun _ => Inv loc pe pp)); [|intros _; by apply esafe_ret].
  apply esafe_if; intros _; [|by apply esafe_ret]. apply (esafe_bind F _ _ _ (fun _ => Inv loc pe pp));
    [eapply esafe_post; [|apply esafe_get]; by intros ? ? [_ ?]|intros e; apply esafe_mod; intros s' I'; by apply inv_trace].
Qed.
End Send.
End Ops.
