(* ===== verification/EmclSafeQueue.v ===== *)
(** Processing the rings of a channel against any host: the dispatch of a packet
    whatever its bytes, the receive loop, and the queue of outgoing packets. *)
From stdpp Require Import base list numbers list_numbers option gmap fin_map_dom functions.
From Stdlib Require Import ZArith Lia.
From S2P Require Import Prelude Circular PkRing PkRingSafe EmclPacket EmclPacketProps EmclBounce EmclBounceInv EmclBounceAlloc EmclBounceCopy Emcl Heap EmclSafe EmclSafeSend EmclSafeOps.
Open Scope Z_scope.
Import PkRing EmclPacket EmclBounce Emcl.

Section Queue.
Context {B : BuildOptions} {P : Peer} {S : Services} {D : Dma} {C : Client} {V : Vmbus}.
Context (HP : peer_ok) (HS : services_ok) (HD : dma_ok) (Do Di : Z) (HDo : ring_size Do) (HDi : ring_size Di).
Context (F : fault -> Prop) (HFF : F FailFast).
Abbreviation Inv := (emcl_inv Do Di).
Implicit Types (pi : frame) (loc pe pp : list Z).

(** What a client's callbacks promise: they keep the invariant, whatever is
    lent to the operations in progress. *)
Record client_ok : Prop := {
  cl_receive : forall pi loc pe pp cb cx k data setId ranges, k ∉ pp ->
    esafe F (fun s => Inv pi loc pe pp s /\ is_Some (IncomingPackets s !! k)) (on_receive cb cx k data setId ranges)
      (fun _ => Inv pi loc pe pp);
  cl_complete : forall pi loc pe pp r cx data,
    esafe F (Inv pi loc pe pp) (on_complete r cx data) (fun _ => Inv pi loc pe pp)
}.
Context (HC : client_ok).

(** ** Completions *)

Definition park (p : Z) (pi : frame) : frame := mkFrame (p :: idle pi) (foreign pi) (foreign_allocs pi) (buffer pi).

(** An entry without pages waits aside while its routine runs. *)
Lemma inv_park pi loc pe pp s p e : Inv pi loc (p :: pe) pp s -> entries s !! p = Some e -> EmclBouncePageList e = None ->
  Inv (park p pi) loc pe pp s.
Proof.
  intros I Ep Hb. destruct (ei_lent_e _ _ _ _ _ _ _ I) as [N1 N2]. apply list.NoDup_cons in N1 as [Hni N1].
  destruct (N2 p) as [_ Hl]; [by apply elem_of_cons; left|]. destruct (ei_idle _ _ _ _ _ _ _ I) as [M1 M2].
  split; try apply I.
  - split; [done|]. intros q Hq. apply N2, elem_of_cons. by right.
  - split.
    + apply list.NoDup_cons. split; [|done]. intros Hin. destruct (M2 p Hin) as (_ & _ & Hn). apply Hn, elem_of_cons. by left.
    + cbn [idle park]. intros q Hq. apply elem_of_cons in Hq as [->|Hq]; [split_and!; eauto|]. destruct (M2 q Hq) as (H1 & H2 & H3).
      apply not_elem_of_cons in H3 as [_ H3]. done.
  - intros q Hq. cbn [idle park]. rewrite elem_of_cons. destruct (ei_all _ _ _ _ _ _ _ I q Hq) as [?|[Hpe|?]]; [auto| |auto].
    apply elem_of_cons in Hpe as [?|?]; auto.
Qed.

Lemma inv_unpark pi loc pe pp s p : Inv (park p pi) loc pe pp s ->
  Inv pi loc (p :: pe) pp s /\ exists e, entries s !! p = Some e /\ EmclBouncePageList e = None.
Proof.
  intros I. destruct (ei_lent_e _ _ _ _ _ _ _ I) as [N1 N2]. destruct (ei_idle _ _ _ _ _ _ _ I) as [M1 M2]. cbn [idle park] in M1, M2.
  apply list.NoDup_cons in M1 as [Hni M1]. destruct (M2 p) as ((e & Ep & Hb) & Hl & Hn); [by apply elem_of_cons; left|].
  split; [|eauto]. split; try apply I.
  - split; [by apply list.NoDup_cons|]. intros q Hq. apply elem_of_cons in Hq as [->|Hq]; [eauto|auto].
  - split; [done|]. intros q Hq. destruct (M2 q) as (H1 & H2 & H3); [by apply elem_of_cons; right|].
    split_and!; [done|done|]. apply not_elem_of_cons. split; [by intros ->|done].
  - intros q Hq. cbn [idle park]. rewrite elem_of_cons. destruct (ei_all _ _ _ _ _ _ _ I q Hq) as [?|[?|Hpi]]; [auto|auto|].
    cbn [idle park] in Hpi; apply elem_of_cons in Hpi as [?|?]; auto.
Qed.

Definition unlisted (p : Z) (s : emcl) : emcl :=
  set_ctxt (set_CompletionEntries (filter (fun q => q <> p) (CompletionEntries (ctxt s))) (ctxt s)) s.

(** The entry found has the transaction's id; otherwise none of the list has. *)
Lemma find_run pi loc pe pp s tid : Inv pi loc pe pp s -> forall l c,
  (forall q, q ∈ l -> q ∈ CompletionEntries (ctxt s)) ->
  (c = 0 \/ exists e, entries s !! c = Some e /\ TransactionId e <> tid) ->
  (exists p e, find_completion l c tid s = Ok (p, unlisted p s) /\ p ∈ l /\ entries s !! p = Some e /\ TransactionId e = tid) \/
  (exists p, find_completion l c tid s = Ok (p, s) /\ (p = 0 \/ exists e, entries s !! p = Some e /\ TransactionId e <> tid) /\
    forall q e, q ∈ l -> entries s !! q = Some e -> TransactionId e <> tid).
Proof.
  intros I. induction l as [|p l IH]; intros c Hl Hc; cbn [find_completion].
  { right. exists c. split_and!; [done|done|]. intros q e Hq. by apply not_elem_of_nil in Hq. }
  destruct (ei_listed _ _ _ _ _ _ _ I p) as [e Ep]; [by apply Hl, elem_of_cons; left|].
  rewrite (ebind_Ok _ _ _ _ _ (run_get_entry _ _ _ _ _ _ _ _ _ I Ep)). destruct (Z.eqb_spec (TransactionId e) tid) as [Ht|Ht].
  { left. exists p, e. split_and!; [done|by apply elem_of_cons; left|done|done]. }
  destruct (IH p) as [(q & e' & E & Hq & H)|(q & E & Hq & H)]; [intros q Hq; apply Hl, elem_of_cons; by right|right; eauto| |].
  - left. exists q, e'. split_and!; [done|by apply elem_of_cons; right|apply H|apply H].
  - right. exists q. split_and!; [done|done|]. intros x e' Hx Ex. apply elem_of_cons in Hx as [->|Hx]; [congruence|by apply (H x)].
Qed.

(** The pages of a completed entry are copied back and released. *)
Definition finish_entry (p : Z) (e : EMCL_COMPLETION_ENTRY) : E unit :=
  match EmclBouncePageList e with
  | Some _ =>
    _ ← (if Z.land (SendPacketFlags e) EMCL_SEND_FLAG_DATA_OUT_ONLY =? 0
         then on_heap (EmclpCopyBouncePagesToExternalBuffer (OriginalBuffer e) (EmclBouncePageList e) false)
         else mret tt);
    _ ← on_heap (EmclpReleaseBouncePages (EmclBouncePageList e));
    upd_entry p (set_BouncePages None)
  | None => mret tt
  end.

Lemma run_finish pi loc pe pp s p e : Inv pi loc (p :: pe) pp s -> entry_ready p s -> entries s !! p = Some e ->
  exists m, let s' := set_entries (<[p := set_BouncePages None e]> (entries s)) (set_heap m s) in
    finish_entry p e s = Ok (tt, s') /\ Inv (park p pi) loc pe pp s'.
Proof.
  intros I (fl & hl & HB & Hr) Ep. unfold finish_entry. destruct (EmclBouncePageList e) as [q|] eqn:Hb.
  2:{ exists (heap s). assert (Es : set_entries (<[p := set_BouncePages None e]> (entries s)) (set_heap (heap s) s) = s).
      { assert (set_BouncePages None e = e) as -> by (destruct e; cbn in *; by subst). rewrite insert_id by done. by destruct s. }
      cbn zeta. rewrite Es. split; [done|]. by eapply inv_park. }
  assert (Hhd : Some q = head (hl p)) by (rewrite <- Hb; by apply HB).
  destruct (Hr e Ep) as (H1 & H2 & H3 & c & Ec & Hc); [by intros En; rewrite En in Hhd|].
  assert (HBp : bounce_inv fl (hl p :: (hl <$> keys (delete p (entries s)))) (heap s)).
  { eapply bounce_swap; [|exact (proj1 HB)]. apply hl_own. eauto. }
  assert (exists m1, (if Z.land (SendPacketFlags e) EMCL_SEND_FLAG_DATA_OUT_ONLY =? 0
      then on_heap (EmclpCopyBouncePagesToExternalBuffer (OriginalBuffer e) (Some q) false) else mret tt) s = Ok (tt, set_heap m1 s) /\
      Inv pi loc (p :: pe) pp (set_heap m1 s)) as (m1 & E1 & I1).
  { destruct (_ =? 0); [|exists (heap s); by destruct s]. rewrite Hhd.
    destruct (copy_safe HS HD fl _ (heap s) (hl p) (OriginalBuffer e) c false HBp Ec H1) as (m & E & Hcp); [lia|done|].
    exists m. split; [unfold on_heap; by rewrite E|]. by apply inv_copied. }
  rewrite (ebind_Ok _ _ _ _ _ E1).
  destruct (run_release_entry _ _ _ _ _ _ _ _ _ I1 Ep) as (m & E2 & _ & I2). rewrite Hb in E2. cbn in E2.
  rewrite (ebind_Ok _ _ (set_heap m1 s) tt (set_heap m s)) by (unfold on_heap; cbn; by rewrite E2).
  exists m. split; [|apply (inv_park _ _ _ _ _ _ _ I2 (lookup_insert_eq _ _ _)); done].
  assert (p <> 0). { destruct (ei_pool _ _ _ _ _ _ _ I1 p) as [_ ?]; [|done]. apply owned_parts. right. left. eauto. }
  unfold upd_entry, get_entry, mbind, E_bind. destruct (Z.eqb_spec p 0); [done|]. cbn. by rewrite Ep.
Qed.

(** The state in which the routine of entry [p] is called. *)
Definition completing (p : Z) (e : EMCL_COMPLETION_ENTRY) (inline : list Z) (m : memory) (s : emcl) : emcl :=
  set_trace (trace s ++ [Completed (CompletionRoutine e) (CompletionContext e) inline])
    (set_entries (<[p := set_BouncePages None e]> (entries s)) (set_heap m (unlisted p s))).

Lemma run_completion pi loc pe pp s k tid inline : Inv pi loc pe pp s ->
  (exists p e m, p ∈ CompletionEntries (ctxt s) /\ entries s !! p = Some e /\ TransactionId e = tid /\
    finish_entry p e (unlisted p s) = Ok (tt, set_entries (<[p := set_BouncePages None e]> (entries s)) (set_heap m (unlisted p s))) /\
    dispatch_completion k tid inline s =
      (_ ← on_complete (CompletionRoutine e) (CompletionContext e) inline; _ ← free_entry p; free_packet k) (completing p e inline m s) /\
    Inv (park p pi) loc pe pp (completing p e inline m s)) \/
  (dispatch_completion k tid inline s = Fault FailFast /\
    forall q e, q ∈ CompletionEntries (ctxt s) -> entries s !! q = Some e -> TransactionId e <> tid).
Proof.
  intros I. unfold dispatch_completion. rewrite (ebind_Ok _ _ s (CompletionEntries (ctxt s)) s) by done.
  destruct (find_run _ _ _ _ _ tid I (CompletionEntries (ctxt s)) 0) as [(p & e & E & Hp & Ep & Ht)|(p & E & Hp & Hno)]; [done|by left| |];
    rewrite (ebind_Ok _ _ _ _ _ E).
  2:{ right. split; [|done]. rewrite (ebind_Fault _ _ s FailFast); [done|]. destruct (Z.eqb_spec p 0) as [|H0]; [done|].
      destruct Hp as [|(e & Ep & Ht)]; [done|]. rewrite (ebind_Ok _ _ _ _ _ (run_get_entry _ _ _ _ _ _ _ _ _ I Ep)).
      by destruct (Z.eqb_spec (TransactionId e) tid). }
  left. destruct (inv_unlist _ _ _ _ _ _ _ _ I Hp) as [I1 R1]. fold (unlisted p s) in I1, R1.
  assert (Ep1 : entries (unlisted p s) !! p = Some e) by done.
  assert (Hg : get_entry p (unlisted p s) = Ok (e, unlisted p s)) by (by eapply run_get_entry).
  rewrite (ebind_Ok _ _ (unlisted p s) tt (unlisted p s)).
  2:{ destruct (Z.eqb_spec p 0) as [->|H0].
      - unfold get_entry in Hg. by cbn in Hg.
      - rewrite (ebind_Ok _ _ _ _ _ Hg), Ht, Z.eqb_refl. done. }
  rewrite (ebind_Ok _ _ _ _ _ Hg). destruct (run_finish _ _ _ _ _ _ _ I1 R1 Ep1) as (m & E2 & I2).
  exists p, e, m. split_and!; [done|done|done|done| |].
  - fold (finish_entry p e). rewrite (ebind_Ok _ _ _ _ _ E2). unfold log. rewrite (ebind_Ok _ _ _ tt _ eq_refl). done.
  - by apply (inv_trace _ _ _ _ _ _ _ (trace s ++ [Completed (CompletionRoutine e) (CompletionContext e) inline])) in I2.
Qed.

Lemma safe_dispatch_completion pi loc pe pp k tid inline :
  esafe F (Inv pi loc pe (k :: pp)) (dispatch_completion k tid inline) (fun _ => Inv pi loc pe pp).
Proof.
  intros s I.
  destruct (run_completion _ _ _ _ _ k tid inline I) as [(p & e & m & _ & _ & _ & _ & -> & I2)|[-> _]]; [|done].
  apply (esafe_bind F (fun s' => s' = completing p e inline m s) _ _ (fun _ => Inv (park p pi) loc pe (k :: pp)));
    [intros ? ->; by apply HC| |done].
  intros _. apply (esafe_bind F _ _ _ (fun _ => Inv pi loc pe (k :: pp))).
  { eapply esafe_pre; [|apply safe_free_entry]. intros s4 I4. by apply inv_unpark. }
  intros _. apply safe_free_packet.
Qed.

(** ** Data packets *)
Lemma safe_deliver pi loc pe pp k cb cx data setId ranges : k ∉ pp ->
  esafe F (fun s => Inv pi loc pe pp s /\ is_Some (IncomingPackets s !! k))
    (_ ← log (Received cb cx k data setId ranges); on_receive cb cx k data setId ranges) (fun _ => Inv pi loc pe pp).
Proof.
  intros Hk. apply (esafe_bind F _ _ _ (fun _ s => Inv pi loc pe pp s /\ is_Some (IncomingPackets s !! k))).
  - apply esafe_mod. intros s [I Hs]. split; [by apply inv_trace|done].
  - intros _. by apply HC.
Qed.

Lemma safe_dispatch_in_band pi loc pe pp k b off n : k ∉ pp -> Forall is_byte b -> 0 <= off -> 0 <= n -> off + n <= Zlength b ->
  esafe F (fun s => Inv pi loc pe pp s /\ is_Some (IncomingPackets s !! k)) (dispatch_in_band k b off n) (fun _ => Inv pi loc pe pp).
Proof.
  intros Hk Hb Ho Hn Hl s [I Hs]. unfold dispatch_in_band. rewrite (ebind_Ok _ _ s (ReceiveCallback (ctxt s)) s) by done.
  destruct (_ =? 0); [done|]. rewrite (ebind_Ok _ _ s (ReceiveContext (ctxt s)) s) by done.
  rewrite (ebind_Ok _ _ s (IsPipe (ctxt s)) s) by done. destruct (IsPipe (ctxt s)).
  - unfold sizeof_VMPIPE_PROTOCOL_HEADER. destruct (Z.ltb_spec n 8); [done|].
    destruct (load_run 4 b off) as (ty & E1 & _); [done|lia..|]. rewrite (ebind_Ok _ _ s ty s) by (by rewrite E1).
    destruct (negb _); [done|].
    destruct (load_run 4 b (off + 4)) as (size & E2 & H2); [done|lia..|]. rewrite (ebind_Ok _ _ s size s) by (by rewrite E2).
    destruct (Z.ltb_spec (n - 8) size); [done|]. rewrite read_run by lia. rewrite (ebind_Ok _ _ s _ s) by done. by apply safe_deliver.
  - rewrite read_run by lia. rewrite (ebind_Ok _ _ s _ s) by done. by apply safe_deliver.
Qed.

Lemma safe_dispatch_transfer pi loc pe pp k b d off n : k ∉ pp -> Forall is_byte b -> 0 <= d -> off = d * 8 -> 0 <= n ->
  off + n <= Zlength b -> 16 <= Zlength b ->
  esafe F (fun s => Inv pi loc pe pp s /\ is_Some (IncomingPackets s !! k)) (dispatch_transfer_pages k b d off n) (fun _ => Inv pi loc pe pp).
Proof.
  intros Hk Hb Hd -> Hn Hl Hl16 s [I Hs]. unfold dispatch_transfer_pages. rewrite (ebind_Ok _ _ s (ReceiveCallback (ctxt s)) s) by done.
  destruct (_ =? 0); [done|]. rewrite (ebind_Ok _ _ s (ReceiveContext (ctxt s)) s) by done.
  unfold off_Transfer_Ranges, off_Transfer_RangeCount, off_TransferPageSetId, sizeof_VMTRANSFER_PAGE_RANGE.
  destruct (Z.ltb_spec (d * 8) 24); [done|].
  destruct (load_run 4 b 20) as (cnt & E1 & H1); [done|lia..|]. rewrite (ebind_Ok _ _ s cnt s) by (by rewrite E1).
  destruct (Z.eqb_spec cnt ((d * 8 - 24) / 8)) as [Hc|]; cbn [negb]; [|done].
  rewrite (read_run b (d * 8) n) by lia. rewrite (ebind_Ok _ _ s _ s) by done.
  destruct (load_run 2 b 16) as (sid & E2 & H2); [done|lia..|]. rewrite (ebind_Ok _ _ s sid s) by (by rewrite E2).
  rewrite (read_run b 24 (8 * cnt)) by zlia. rewrite (ebind_Ok _ _ s _ s) by done. by apply safe_deliver.
Qed.

Lemma safe_dispatch pi loc pe pp k b l8 : load 2 b off_Length8 = Ok l8 -> l8 * 8 <= Zlength b ->
  esafe F (fun s => Inv pi loc pe (k :: pp) s /\ IncomingPackets s !! k = Some b) (EmclDispatchPacket k) (fun _ => Inv pi loc pe pp).
Proof.
  intros E1 Hl s [I Hs]. unfold EmclDispatchPacket. rewrite (ebind_Ok _ _ _ _ _ (packet_run _ _ _ _ _ _ _ _ _ I Hs)).
  destruct (ei_packets _ _ _ _ _ _ _ I k b Hs) as (Hlen & Hbytes & _).
  rewrite (ebind_Ok _ _ s l8 s) by (by rewrite E1).
  destruct (load_run 2 b off_DataOffset8) as (d & E2 & H2); [done|unfold off_DataOffset8; lia..|].
  rewrite (ebind_Ok _ _ s d s) by (by rewrite E2). unfold sizeof_VMPACKET_DESCRIPTOR. destruct (Z.ltb_spec (l8 * 8) 16); [done|].
  destruct (Z.ltb_spec l8 d); [done|]. cbn [orb].
  destruct (load_run 2 b off_Type) as (ty & E3 & _); [done|unfold off_Type; lia..|]. rewrite (ebind_Ok _ _ s ty s) by (by rewrite E3).
  destruct (Z.eqb_spec ty VmbusPacketTypeCompletion) as [|Hty].
  { destruct (load_run 8 b off_TransactionId) as (tid & E4 & _); [done|unfold off_TransactionId; lia..|].
    rewrite (ebind_Ok _ _ s tid s) by (by rewrite E4). rewrite read_run by lia. rewrite (ebind_Ok _ _ s _ s) by done.
    by apply safe_dispatch_completion. }
  destruct (inv_unlend _ _ _ _ _ _ _ _ _ I Hs) as [I' Hk]; [unfold not_completion; rewrite E3; congruence|].
  assert (Hs' : is_Some (IncomingPackets s !! k)) by eauto.
  destruct (_ =? _); [apply safe_dispatch_in_band; [done|done|lia..|done]|].
  destruct (_ =? _); [apply safe_dispatch_transfer; [done|done|lia..|done]|done].
Qed.
(** ** The receive loop *)
Lemma safe_on_pk {A} pi loc pe pp (m : M A) (Q : A -> Prop) : safe (inv Do Di) m Q ->
  esafe F (Inv pi loc pe pp) (on_pk m) (fun a s => Q a /\ Inv pi loc pe pp s).
Proof.
  intros Hm. apply esafe_pk. intros s I. destruct (Hm (pk s)) as (a & w & E & Hw & HQ); [apply I|].
  exists a, w. split; [done|]. split; [done|]. by apply inv_pk.
Qed.

Lemma store_length8 bytes n : Forall is_byte bytes -> Zlength bytes = n -> 16 <= n -> n mod 8 = 0 ->
  exists b l8, store 2 bytes off_Length8 (u16 (n / 8)) = Ok b /\ Zlength b = n /\ Forall is_byte b /\
    load 2 b off_Length8 = Ok l8 /\ l8 * 8 <= n.
Proof.
  intros Hb Hn H16 H8. set (v := u16 (n / 8)). assert (0 <= v < 2 ^ 16 /\ v * 8 <= n) as [Hv Hv8].
  { unfold v, u16. split; [apply Z.mod_pos_bound; lia|]. pose proof (Z.mod_le (n / 8) (2 ^ 16) ltac:(zlia) ltac:(lia)). zlia. }
  unfold store, off_Length8. rewrite (split_at bytes 4), mem_write_tail.
  2:{ unfold Zlength in *. rewrite length_take. lia. }
  2:{ rewrite Zlength_le_split. unfold Zlength in *. rewrite length_drop. lia. }
  2:{ unfold Zlength in *; lia. }
  change (Z.to_nat 4) with 4%nat. rewrite length_le_split. rewrite drop_drop. change (4 + 2)%nat with 6%nat.
  set (b := take 4 bytes ++ le_split 2 v ++ drop 6 bytes).
  exists b, v. assert (Hlb : Zlength b = n).
  { unfold b. rewrite !Zlength_app, Zlength_le_split. unfold Zlength in *. rewrite length_take, length_drop. lia. }
  split_and!; [done|done| | |done].
  - unfold b. apply list.Forall_app. split; [by apply Forall_take|]. apply list.Forall_app. split; [apply le_split_bytes|by apply Forall_drop].
  - unfold load. rewrite read_run by lia. unfold b.
    assert (E : zslice 4 (Z.of_nat 2) (take 4 bytes ++ le_split 2 v ++ drop 6 bytes) = le_split 2 v).
    { unfold zslice. change (Z.to_nat 4) with 4%nat. rewrite drop_app_length' by (rewrite length_take; unfold Zlength in *; lia).
      apply take_app_length'. by rewrite length_le_split. }
    rewrite E. change (Ok (le_combine (le_split 2 v)) = Ok v). by rewrite le_combine_split_small by (cbn; lia).
Qed.

Lemma safe_receive_loop pi loc pe pp : F Diverges -> forall fuel o n, valid Di o ->
  esafe F (Inv pi loc pe pp) (receive_loop fuel o n) (fun r s => valid Di r.1 /\ Inv pi loc pe pp s).
Proof.
  intros HFD. induction fuel as [|fuel IH]; intros o n Ho; cbn [receive_loop]; [by apply esafe_fault|].
  eapply esafe_bind; [apply safe_on_pk, (safe_receive_buffer HP Do Di HDi); done|]. intros [[st next] r]. apply esafe_pure. intros Hr.
  destruct r as [[b len]|]; cbn in Hr.
  2:{ destruct Hr as [-> Hst]. assert (EFI_ERROR st = true) as -> by (by destruct Hst as [->| ->]). by apply esafe_ret. }
  destruct Hr as (-> & -> & H16 & H8 & Hmax & ->). cbn [EFI_ERROR].
  assert (Hnext : valid Di ((o + len + 8) mod Di)) by (apply valid_mod; [done|destruct Ho; zlia]).
  apply (esafe_bind F _ _ _ (fun l s => l = len /\ Inv pi loc pe pp s)); [by eapply esafe_lift|].
  intros l. apply (esafe_pure F (l = len)). intros ->.
  eapply esafe_bind; [apply (safe_alloc HS Do Di pi F)|]. intros q. destruct (Z.eqb_spec q 0) as [->|Hq].
  { apply (esafe_bind F _ _ _ (fun _ => Inv pi loc pe pp)); [|intros _; by apply esafe_ret].
    apply esafe_mod. intros s [[_ I]|[? _]]; [|done]. by apply inv_ctxt. }
  apply (esafe_bind F _ _ _ (fun _ => Inv pi (q :: loc) pe pp)).
  { apply esafe_mod. intros s [[? _]|[_ I]]; [done|]. by apply inv_ctxt. }
  intros _. assert (Hz : Zlength (replicate (Z.to_nat len) 0) = len) by (apply Zlength_replicate; lia).
  eapply esafe_bind; [apply safe_on_pk, (safe_read_packet HP Do Di HDi); [done|lia|lia|lia]|]. intros bytes. apply esafe_pure.
  intros [Hlen Hbytes]. assert (Forall is_byte bytes) as Hb by (apply Hbytes, Forall_replicate; by vm_compute).
  destruct (store_length8 bytes len Hb) as (b & l8 & E & Lb & Hbb & El & Hl8); [lia|lia|done|].
  apply (esafe_bind F _ _ _ (fun b' s => b' = b /\ Inv pi (q :: loc) pe pp s)); [by eapply esafe_lift|].
  intros b'. apply (esafe_pure F (b' = b)). intros ->.
  apply (esafe_bind F _ _ _ (fun _ s => Inv pi loc pe (q :: pp) s /\ IncomingPackets s !! q = Some b)).
  { apply esafe_mod. intros s I. destruct (inv_new_packet _ _ _ _ _ _ _ _ b I) as [I' Hn]; [lia|done|].
    split; [done|]. cbn. apply lookup_insert_eq. }
  intros _. apply (esafe_bind F _ _ _ (fun _ => Inv pi loc pe pp)); [|intros _; by apply IH].
  eapply safe_dispatch; [exact El|lia].
Qed.

Lemma safe_receive_all pi loc pe pp : F Diverges -> forall fuel o, valid Di o ->
  esafe F (Inv pi loc pe pp) (receive_all fuel o) (fun _ => Inv pi loc pe pp).
Proof.
  intros HFD. induction fuel as [|fuel IH]; intros o Ho; cbn [receive_all]; [by apply esafe_fault|].
  eapply esafe_bind; [by apply safe_receive_loop|]. intros [o' cnt]. apply esafe_pure. intros Ho'. cbn in Ho'.
  apply esafe_if; intros _; [|by apply esafe_ret].
  eapply esafe_bind; [apply safe_on_pk, (safe_removal HP Do Di HDi); done|]. intros st. apply esafe_pure. intros _.
  case_decide.
  - apply (esafe_bind F _ _ _ (fun _ => Inv pi loc pe pp)); [apply esafe_mod; intros s I; by apply inv_trace|]. intros _. by apply IH.
  - apply esafe_if; intros _; [by apply esafe_ret|by apply IH].
Qed.

(** ** The outgoing queue *)
Lemma flush_step pi loc pe pp o q : F AssertFailed ->
  esafe F (fun s => Inv pi loc pe pp s /\ OutgoingQueue (ctxt s) = o :: q)
    (deferred ← cget InterruptDeferred;
     _ ← elift (ASSERT (negb deferred));
     status ← on_pk (PkSendPacketRaw (out_Buffer o) (out_BufferSize o));
     _ ← (if decide (status = EFI_RING_SIGNAL_OPPOSITE_ENDPOINT) then log SendInterrupt else mret tt);
     mret status) (fun _ s => Inv pi loc pe pp s /\ OutgoingQueue (ctxt s) = o :: q).
Proof.
  intros HFA. set (J := fun s => Inv pi loc pe pp s /\ OutgoingQueue (ctxt s) = o :: q).
  apply (esafe_bind F _ _ _ (fun _ => J)); [eapply esafe_post; [|apply esafe_get]; by intros ? ? [_ ?]|]. intros d.
  apply (esafe_bind F _ _ _ (fun _ => J)).
  { intros s Hs. unfold elift, ASSERT. by destruct asserts_enabled, (negb d). }
  intros _. apply (esafe_bind F _ _ _ (fun _ => J)).
  { apply esafe_pk. intros s [I Eq]. pose proof (ei_queue _ _ _ _ _ _ _ I) as Hq. rewrite Eq in Hq.
    apply list.Forall_cons in Hq as [(H1 & H2 & _) _].
    destruct (safe_send HP Do Di HDo (out_Buffer o) (out_BufferSize o) ltac:(lia) ltac:(lia) (pk s)) as (st & w & E & Hw & _); [apply I|].
    exists st, w. split; [done|]. split; [by apply inv_pk|done]. }
  intros st. apply (esafe_bind F _ _ _ (fun _ => J)); [|intros _; by apply esafe_ret].
  case_decide; [|by apply esafe_ret]. apply esafe_mod. intros s [I Eq]. split; [by apply inv_trace|done].
Qed.

Lemma safe_flush pi loc pe pp : F AssertFailed -> forall n,
  esafe F (fun s => Inv pi loc pe pp s /\ (length (OutgoingQueue (ctxt s)) <= n)%nat) (flush_queue n) (fun _ => Inv pi loc pe pp).
Proof.
  intros HFA. induction n as [|n IH]; intros s [I Hn]; cbn [flush_queue]; rewrite (ebind_Ok _ _ s (OutgoingQueue (ctxt s)) s) by done;
    destruct (OutgoingQueue (ctxt s)) as [|o q] eqn:Eq; try done; cbn in Hn; [lia|].
  pose proof (flush_step pi loc pe pp o q HFA s (conj I Eq)) as Hs. unfold mbind, E_bind in *.
  destruct (cget InterruptDeferred s) as [[d s1]|f]; [|done]. destruct (elift (ASSERT (negb d)) s1) as [[[] s2]|f]; [|done].
  destruct (on_pk _ s2) as [[st s3]|f]; [|done].
  destruct ((if decide (st = EFI_RING_SIGNAL_OPPOSITE_ENDPOINT) then log SendInterrupt else mret tt) s3) as [[[] s4]|f]; [|done].
  destruct Hs as [I4 Eq4]. destruct (EFI_ERROR st); [done|].
  destruct (inv_dequeue _ _ _ _ _ _ _ _ _ I4 Eq4) as [I5 (_ & _ & Hp)]. cbn [cmod emod]. unfold cmod, emod. rewrite Eq4. cbn [tail].
  set (s5 := set_ctxt _ s4) in *. pose proof (safe_destroy Do Di pi F loc pe pp o Hp s5 I5) as Hd.
  destruct (destroy_outgoing o s5) as [[[] s6]|f] eqn:Ed; [|done]. apply IH. split; [done|].
  assert (ctxt s6 = ctxt s5) as ->; [|cbn; lia]. clear -Ed. revert Ed.
  unfold destroy_outgoing, EmclDestroyOutgoingPacket, mbind, E_bind, on_heap. destruct (negb _); cbn.
  - destruct (FreePool _ _) as [[[] m]|f]; [|done]. cbn. destruct (FreePool _ m) as [[[] m']|f]; [|done]. by intros [= <-].
  - destruct (FreePool _ _) as [[[] m]|f]; [|done]. by intros [= <-].
Qed.

Lemma safe_process pi loc pe pp fuel : F Diverges -> F AssertFailed ->
  esafe F (Inv pi loc pe pp) (EmclProcessQueue fuel) (fun _ => Inv pi loc pe pp).
Proof.
  intros HFD HFA. unfold EmclProcessQueue, PkGetIncomingRingOffset.
  eapply esafe_bind; [apply safe_on_pk, (safe_get Do Di IncomingOut (valid Di)); intros c Hc; apply Hc|].
  intros o. apply esafe_pure. intros Ho. apply (esafe_bind F _ _ _ (fun _ => Inv pi loc pe pp)); [by apply safe_receive_all|].
  intros _ s I. rewrite (ebind_Ok _ _ s (OutgoingQueue (ctxt s)) s) by done. by apply safe_flush.
Qed.
End Queue.
