(* ===== verification/EmclLife.v ===== *)
(** The life of a channel: what [EmclStartChannel] establishes and
    [EmclStopChannel] gives back.  A stopped channel owns nothing but the packets
    its client has not completed. *)
From stdpp Require Import base list numbers list_numbers option gmap fin_map_dom functions.
From Stdlib Require Import ZArith Lia.
From S2P Require Import Prelude Circular PkRing PkRingSafe EmclPacket EmclPacketProps EmclBounce EmclBounceInv EmclBounceAlloc EmclBounceCopy Emcl Heap EmclSafe EmclSafeSend EmclSafeOps EmclSafeQueue.
Open Scope Z_scope.
Import PkRing EmclPacket EmclBounce Emcl.

Section Life.
Context {B : BuildOptions} {P : Peer} {S : Services} {D : Dma} {C : Client} {V : Vmbus}.
Context (HP : peer_ok) (HS : services_ok) (HD : dma_ok).
Context (F : fault -> Prop) (HFF : F FailFast) (HFA : asserts_enabled = true -> F AssertFailed).

(** ** Releasing every block *)
Definition can_free (m : memory) (b : Z) : Prop := exists blk, blocks m !! b = Some blk /\ b ∈ pool m /\
  BouncePageStructureBase blk <> 0 /\ BouncePageStructureBase blk ∈ pool m /\
  BlockBase blk <> 0 /\ page_allocs m !! BlockBase blk = Some (BlockPageCount blk).

(** What remains of the heap without the blocks [bs]. *)
Record freed (bs : list Z) (m m' : memory) : Prop := {
  fr_list : BounceBlockListHead m' = [];
  fr_client : client m' = client m;
  fr_pool : forall p, p ∈ pool m' <-> p ∈ pool m /\ p ∉ bs ++ (structs_at m <$> bs);
  fr_allocs : forall a n, page_allocs m' !! a = Some n <-> page_allocs m !! a = Some n /\ a ∉ base_at m <$> bs;
  fr_pages : forall q p, pages m' !! q = Some p -> pages m !! q = Some p /\ q.1 ∉ structs_at m <$> bs
}.

Lemma free_blocks_ok : forall bs m, BounceBlockListHead m = bs -> NoDup (bs ++ (structs_at m <$> bs)) -> NoDup (base_at m <$> bs) ->
  (forall b, b ∈ bs -> can_free m b) -> exists m', free_blocks bs m = Ok (tt, m') /\ freed bs m m'.
Proof.
  induction bs as [|b bs IH]; intros m Hl Hn Hb Hc; cbn [free_blocks].
  { exists m. split; [done|]. pose proof (not_elem_of_nil (A := Z)).
    split; try done; intros; cbn; rewrite ?elem_of_nil; try tauto; split; auto. }
  destruct (Hc b) as (blk & Eb & Hp & Hs0 & Hs & Ha0 & Ha); [by apply elem_of_cons; left|].
  assert (Est : structs_at m b = BouncePageStructureBase blk) by (unfold structs_at; by rewrite Eb).
  assert (Eba : base_at m b = BlockBase blk) by (unfold base_at; by rewrite Eb).
  rewrite fmap_cons, Est in Hn. rewrite fmap_cons, Eba in Hb. apply list.NoDup_cons in Hb as [Hba Hb].
  cbn [app] in Hn. apply list.NoDup_cons in Hn as [Hnb Hn]. rewrite elem_of_app, elem_of_cons in Hnb.
  apply list.NoDup_app in Hn as (Hn1 & Hn2 & Hn3). apply list.NoDup_cons in Hn3 as [Hn4 Hn3].
  rewrite (hbind_Ok _ _ m tt (set_BlockList bs m)) by done.
  assert (Hsb : BouncePageStructureBase blk <> b) by (intros E; apply Hnb; auto).
  pose proof (free_block_ok HS b (set_BlockList bs m) blk Eb Hp (or_intror (conj Hs Hsb)) (or_intror Ha)) as Hfree.
  match type of Hfree with _ = Ok (tt, ?z) => set (x := z) in Hfree end. rewrite (hbind_Ok _ _ _ _ _ Hfree).
  assert (Hbl : forall b', b' ∈ bs -> blocks x !! b' = blocks m !! b').
  { intros b' Hin. subst x. cbn. apply lookup_delete_ne. intros <-. tauto. }
  assert (Hst : structs_at x <$> bs = structs_at m <$> bs).
  { apply list_fmap_ext. intros i b' E. unfold structs_at. rewrite Hbl; [done|by eapply list_elem_of_lookup_2]. }
  assert (Hbs : base_at x <$> bs = base_at m <$> bs).
  { apply list_fmap_ext. intros i b' E. unfold base_at. rewrite Hbl; [done|by eapply list_elem_of_lookup_2]. }
  assert (Hpool : forall p, p ∈ pool x <-> p ∈ pool m /\ p <> BouncePageStructureBase blk /\ p <> b).
  { intros p. subst x. cbn. unfold one_ptr. destruct (Z.eqb_spec (BouncePageStructureBase blk) 0); [done|].
    rewrite !elem_of_difference, !elem_of_singleton. tauto. }
  assert (Hal : forall a n, page_allocs x !! a = Some n <-> page_allocs m !! a = Some n /\ a <> BlockBase blk).
  { intros a n. subst x. cbn. destruct (Z.eqb_spec (BlockBase blk) 0); [done|]. rewrite lookup_delete_Some. split; intros [? ?]; auto. }
  destruct (IH x) as (m' & E & R); [done| |by rewrite Hbs| |].
  { rewrite Hst. apply list.NoDup_app. split_and!; [done| |done]. intros p Hin. by destruct (proj1 (not_elem_of_cons _ _ _) (Hn2 p Hin)). }
  { intros b' Hin. destruct (Hc b') as (blk' & Eb' & H1 & H2 & H3 & H4 & H5); [by apply elem_of_cons; right|].
    exists blk'. rewrite Hbl, !Hpool, Hal by done.
    assert (structs_at m b' ∈ structs_at m <$> bs) as Hm by (by apply list_elem_of_fmap_2).
    assert (base_at m b' ∈ base_at m <$> bs) as Hm' by (by apply list_elem_of_fmap_2).
    unfold structs_at at 1 in Hm. unfold base_at at 1 in Hm'. rewrite Eb' in Hm, Hm'. cbn in Hm, Hm'.
    split_and!; try done.
    - intros ->. apply (Hn2 _ Hin). by apply elem_of_cons; left.
    - intros ->. tauto.
    - intros Heq. rewrite Heq in Hm. done.
    - intros Heq. rewrite Heq in Hm. apply Hnb. auto.
    - intros Heq. by rewrite Heq in Hm'. }
  exists m'. split; [done|]. destruct R as [R1 R2 R3 R4 R5]. rewrite Hst in R3, R5. rewrite Hbs in R4. split; [done|done|..].
  - intros p. rewrite R3, Hpool, fmap_cons, Est. rewrite !elem_of_app, !elem_of_cons. tauto.
  - intros a n. rewrite R4, Hal, fmap_cons, Eba, not_elem_of_cons. tauto.
  - intros q p Eq. destruct (R5 q p Eq) as [E1 E2]. revert E1. subst x. cbn. unfold freed_pages.
    destruct (Z.eqb_spec (BouncePageStructureBase blk) 0); [done|]. rewrite map_lookup_filter_Some. cbn. intros [E1 E3].
    split; [done|]. rewrite Est, not_elem_of_cons. done.
Qed.

Lemma free_all_ok fl held m : bounce_inv fl held m ->
  exists m', EmclpFreeAllBounceBlocks m = Ok (tt, m') /\ freed (BounceBlockListHead m) m m' /\ pages m' = ∅.
Proof.
  intros I. unfold EmclpFreeAllBounceBlocks. rewrite (hbind_Ok _ _ m (BounceBlockListHead m) m) by done.
  destruct (free_blocks_ok (BounceBlockListHead m) m) as (m' & E & R); [done|apply I| | |].
  - apply NoDup_fmap_2_strong; [|by eapply bi_nodup]. intros b b' Hb Hb' Heq.
    destruct (bi_blocks _ _ _ I b Hb) as (blk & E1 & O1), (bi_blocks _ _ _ I b' Hb') as (blk' & E2 & O2).
    destruct (decide (b = b')) as [|Hne]; [done|]. pose proof (bi_disjoint _ _ _ I b b' blk blk' Hb Hb' Hne E1 E2) as Hd.
    unfold base_at in Heq. rewrite E1, E2 in Heq. cbn in Heq. pose proof (bo_count _ _ _ _ O1). pose proof (bo_count _ _ _ _ O2). lia.
  - intros b Hb. destruct (bi_blocks _ _ _ I b Hb) as (blk & E1 & O1). exists blk. pose proof (bo_base _ _ _ _ O1).
    split_and!; [done| |apply O1| |lia|apply O1]; apply (bi_pool _ _ _ I); apply elem_of_app; [by left|right].
    assert (structs_at m b = BouncePageStructureBase blk) as <- by (unfold structs_at; by rewrite E1). by apply list_elem_of_fmap_2.
  - exists m'. split_and!; [done|done|]. apply map_empty. intros q. destruct (pages m' !! q) as [p|] eqn:Eq; [|done].
    destruct (fr_pages _ _ _ R q p Eq) as [E1 Hno]. destruct (bi_home _ _ _ I q p E1) as (blk & Hb & E2 & Hq & _).
    exfalso. apply Hno. rewrite Hq. assert (structs_at m (BounceBlock p) = BouncePageStructureBase blk) as <- by (unfold structs_at; by rewrite E2).
    by apply list_elem_of_fmap_2.
Qed.
(** ** Computations that leave the context alone *)
Definition keeps_ctxt {A} (c : E A) : Prop := forall s a s', c s = Ok (a, s') -> ctxt s' = ctxt s.

Lemma keeps_ctxt_bind {A R} (c : E A) (k : A -> E R) : keeps_ctxt c -> (forall a, keeps_ctxt (k a)) -> keeps_ctxt (c ≫= k).
Proof.
  intros Hc Hk s a s'. unfold mbind, E_bind. destruct (c s) as [[x s1]|f] eqn:E1; [|done]. intros E2.
  by rewrite (Hk _ _ _ _ E2), (Hc _ _ _ E1).
Qed.
Lemma keeps_ctxt_ret {A} (a : A) : keeps_ctxt (mret a).
Proof. by intros s x s' [= _ <-]. Qed.
Lemma keeps_ctxt_heap {A} (h : EmclBounce.H A) : keeps_ctxt (on_heap h).
Proof. intros s a s'. unfold on_heap. destruct (h (heap s)) as [[x m]|f]; [|done]. by intros [= _ <-]. Qed.
Lemma keeps_ctxt_mod f : (forall s, ctxt (f s) = ctxt s) -> keeps_ctxt (emod f).
Proof. intros H s a s' [= _ <-]. apply H. Qed.
Lemma keeps_ctxt_get {A} (f : emcl -> A) : keeps_ctxt (eget f).
Proof. by intros s a s' [= _ <-]. Qed.
Lemma keeps_ctxt_lift {A} (r : result A) : keeps_ctxt (elift r).
Proof. intros s a s'. unfold elift. destruct r; [|done]. by intros [= _ <-]. Qed.
Lemma keeps_ctxt_entry p : keeps_ctxt (get_entry p).
Proof. intros s a s'. unfold get_entry. destruct (_ =? _); [done|]. destruct (entries s !! p); [|done]. by intros [= _ <-]. Qed.

Lemma esafe_ctxt {A} Q (c : E A) R (X : EMCL_CONTEXT -> Prop) : keeps_ctxt c -> esafe F Q c R ->
  esafe F (fun s => Q s /\ X (ctxt s)) c (fun a s => R a s /\ X (ctxt s)).
Proof.
  intros Hk Hc s [HQ HX]. specialize (Hc s HQ). destruct (c s) as [[a s']|f] eqn:E; [|done]. split; [done|]. by rewrite (Hk _ _ _ E).
Qed.

Ltac keeps_ctxt := repeat (apply keeps_ctxt_ret || apply keeps_ctxt_heap || apply keeps_ctxt_lift || apply keeps_ctxt_entry ||
  (apply keeps_ctxt_get) || (apply keeps_ctxt_mod; done) || (apply keeps_ctxt_bind; [|intros ?]) ||
  match goal with |- keeps_ctxt (match ?x with _ => _ end) => destruct x end).

Lemma destroy_ctxt o : keeps_ctxt (destroy_outgoing o).
Proof. unfold destroy_outgoing, EmclDestroyOutgoingPacket. keeps_ctxt. Qed.

Lemma log_ctxt e : keeps_ctxt (log e).
Proof. unfold log. keeps_ctxt. Qed.

Lemma call_ctxt sv : keeps_ctxt (call sv).
Proof. unfold call, now_tick, advance. keeps_ctxt. Qed.

(** ** Calls to VMBus keep the invariant *)
Section Stop.
Context (Do Di : Z) (HDo : ring_size Do) (HDi : ring_size Di) (pi : frame).
Abbreviation Inv := (emcl_inv Do Di pi).

Lemma inv_tick loc pe pp s t : Inv loc pe pp s -> Inv loc pe pp (set_heap (set_tick t (heap s)) s).
Proof.
  intros I. destruct (ei_bounce _ _ _ _ _ _ _ I) as (fl & hl & HB).
  destruct (pool_transport fl _ (heap s) (set_tick t (heap s)) (proj1 HB)) as [Hb Hi]; try done; [apply HB|].
  apply inv_heap; [done|by rewrite Hb|done..|]. exists fl, hl. eapply entries_bounced_heap; [done|by eauto|done].
Qed.

Lemma safe_log loc pe pp e : esafe F (Inv loc pe pp) (log e) (fun _ => Inv loc pe pp).
Proof. apply esafe_mod. intros s I. by apply inv_trace. Qed.

Lemma safe_call loc pe pp sv : esafe F (Inv loc pe pp) (call sv) (fun _ => Inv loc pe pp).
Proof.
  unfold call. apply (esafe_bind F _ _ _ (fun _ => Inv loc pe pp)); [eapply esafe_post; [|apply esafe_get]; by intros ? ? [_ ?]|].
  intros t. apply (esafe_bind F _ _ _ (fun _ => Inv loc pe pp)); [|intros _; by apply esafe_ret].
  apply esafe_mod. intros s I. by apply inv_tick.
Qed.

Lemma safe_called loc pe pp sv (e : EFI_STATUS * Z -> event) {A} (r : EFI_STATUS * Z -> A) :
  esafe F (Inv loc pe pp) (x ← call sv; _ ← log (e x); mret (r x)) (fun _ => Inv loc pe pp).
Proof.
  apply (esafe_bind F _ _ _ (fun _ => Inv loc pe pp)); [apply safe_call|]. intros x.
  apply (esafe_bind F _ _ _ (fun _ => Inv loc pe pp)); [apply safe_log|]. intros _. by apply esafe_ret.
Qed.

(** ** Emptying the queue and the list of completions *)
Definition quiet (pages_ i o : Z) (c : EMCL_CONTEXT) : Prop :=
  RingBufferGpadl c = 0 /\ ReceiveEvent c = 0 /\ ring_fields c = (pages_, i, o).

Lemma inv_linked loc pe pp s p : Inv loc pe pp s -> p ∈ owned loc s -> linked p s = Ok (tt, s).
Proof. intros I Hp. unfold linked. rewrite decide_True; [done|]. by apply (ei_pool _ _ _ _ _ _ _ I). Qed.

(** A queue that is not empty is never emptied: the list's head is taken for a
    packet, or a packet is released before it is unlinked. *)
Definition wild (f : fault) : Prop := f = OutOfBounds \/ f = UseAfterFree.

Lemma linked_freed p s : p ∉ pool (heap s) -> linked p s = Fault UseAfterFree.
Proof. intros Hp. unfold linked. by rewrite decide_False. Qed.

Lemma run_destroy o s : out_buffer_ptr o <> 0 -> out_this o <> out_buffer_ptr o -> out_buffer_ptr o ∈ pool (heap s) -> out_this o ∈ pool (heap s) ->
  exists m, destroy_outgoing o s = Ok (tt, set_heap m s) /\ out_this o ∉ pool m.
Proof.
  clear HP HD HFF HFA HDo HDi. intros H0 Hne Hb Ht. unfold destroy_outgoing, EmclDestroyOutgoingPacket. destruct (Z.eqb_spec (out_buffer_ptr o) 0); [done|]. cbn [negb].
  erewrite ebind_Ok by (unfold on_heap, FreePool; rewrite decide_True by done; reflexivity).
  eexists. split; [unfold on_heap, FreePool; cbn; rewrite decide_True by set_solver; reflexivity|cbn; set_solver].
Qed.

Lemma drop_queue_wild n s : Inv [] [] [] s -> OutgoingQueue (ctxt s) <> [] -> (length (OutgoingQueue (ctxt s)) <= n)%nat ->
  exists f, drop_queue n s = Fault f /\ wild f.
Proof.
  clear HP HD HFF HFA HDo HDi. intros I Hne Hn. destruct (OutgoingQueue (ctxt s)) as [|o [|o' q]] eqn:Eq; [done|..]; (destruct n as [|n]; [cbn in Hn; lia|]); cbn [drop_queue];
    rewrite (ebind_Ok _ _ s (OutgoingQueue (ctxt s)) s), Eq by done;
    (rewrite (ebind_Ok _ _ s tt s); [|eapply inv_linked; [done|]; apply owned_parts; rewrite Eq; cbn; set_solver]);
    (erewrite ebind_Ok; [|reflexivity]).
  { exists OutOfBounds. split; [done|by left]. }
  destruct (inv_dequeue _ _ _ _ _ _ _ _ _ I Eq) as [I1 _]. destruct (inv_dequeue _ _ _ _ _ _ _ _ _ I1 eq_refl) as [I2 (_ & _ & Hp)].
  set (s1 := set_ctxt _ s) in *. rewrite (ebind_Ok _ _ s1 o' s1) by done.
  destruct (run_destroy o' s1) as (m & E & Hm); [done|..].
  - pose proof (ei_once _ _ _ _ _ _ _ I2) as Hnd. unfold owned in Hnd. rewrite !app_assoc in Hnd. apply list.NoDup_app in Hnd as (_ & _ & Hnd).
    apply list.NoDup_cons in Hnd as [Hni _]. set_solver.
  - apply (ei_pool _ _ _ _ _ _ _ I2), owned_parts. set_solver.
  - apply (ei_pool _ _ _ _ _ _ _ I2), owned_parts. set_solver.
  - rewrite (ebind_Ok _ _ _ _ _ E). destruct n as [|n]; [cbn in Hn; lia|]. cbn [drop_queue].
    rewrite (ebind_Ok _ _ (set_heap m s1) (o' :: q) (set_heap m s1)) by done. rewrite (ebind_Fault _ _ _ _ (linked_freed _ (set_heap m s1) Hm)).
    exists UseAfterFree. split; [done|by right].
Qed.

Lemma drop_completions_wild n s : Inv [] [] [] s -> CompletionEntries (ctxt s) <> [] -> (length (CompletionEntries (ctxt s)) <= n)%nat ->
  exists f, drop_completions n s = Fault f /\ wild f.
Proof.
  clear HP HD HFF HFA HDo HDi. intros I Hne Hn. pose proof (fun p => ei_listed _ _ _ _ _ _ _ I p) as Hl.
  destruct (CompletionEntries (ctxt s)) as [|p [|p' l]] eqn:El; [done|..]; (destruct n as [|n]; [cbn in Hn; lia|]); cbn [drop_completions];
    rewrite (ebind_Ok _ _ s (CompletionEntries (ctxt s)) s), El by done;
    (rewrite (ebind_Ok _ _ s tt s); [|eapply inv_linked; [done|]; apply owned_parts; right; left; apply Hl; set_solver]);
    (erewrite ebind_Ok; [|reflexivity]).
  { exists OutOfBounds. split; [done|by left]. }
  assert (Hin : p' ∈ CompletionEntries (ctxt s)) by (rewrite El; set_solver). destruct (Hl p') as [e Ep]; [set_solver|].
  destruct (inv_unlist _ _ _ _ _ _ _ _ I Hin) as [I1 _].
  pose proof (run_get_entry _ _ _ _ _ _ _ _ _ I Ep) as Hg. set (s1 := set_ctxt _ s).
  rewrite (ebind_Ok _ _ s1 p' s1) by done.
  assert (Hg' : forall m, get_entry p' (set_heap m s1) = Ok (e, set_heap m s1)).
  { intros m. unfold get_entry in *. destruct (p' =? 0); [done|]. change (entries (set_heap m s1)) with (entries s). by rewrite Ep. }
  rewrite (ebind_Ok _ _ s1 e s1) by (destruct s; apply (Hg' (heap s1))).
  destruct (run_release_entry _ _ _ _ _ _ _ _ _ I1 Ep) as (m & E2 & _ & I2).
  change (EmclpReleaseBouncePages (EmclBouncePageList e) (heap s1) = Ok (tt, m)) in E2.
  assert (Hstep : exists m' s2, (match EmclBouncePageList e with
    | Some _ => _ ← on_heap (EmclpReleaseBouncePages (EmclBouncePageList e)); upd_entry p' (set_BouncePages None)
    | None => mret tt end) s1 = Ok (tt, s2) /\ heap s2 = m' /\ CompletionEntries (ctxt s2) = p' :: l /\ p' ∈ pool m').
  { destruct (EmclBouncePageList e) as [q|] eqn:Hb.
    - rewrite (ebind_Ok _ _ s1 tt (set_heap m s1)) by (unfold on_heap; by rewrite E2).
      unfold upd_entry. rewrite (ebind_Ok _ _ _ _ _ (Hg' m)). eexists _, _. split; [reflexivity|]. split_and!; try done. cbn.
      apply (ei_pool _ _ _ _ _ _ _ I2), owned_parts. right. left. cbn. rewrite lookup_insert_eq. eauto.
    - exists (heap s), s1. split_and!; try done. apply (ei_pool _ _ _ _ _ _ _ I), owned_parts. eauto. }
  destruct Hstep as (m' & s2 & E3 & <- & Hl2 & Hp2). rewrite (ebind_Ok _ _ _ _ _ E3).
  erewrite ebind_Ok.
  2:{ unfold free_entry. erewrite ebind_Ok by (unfold on_heap, FreePool; rewrite decide_True by done; reflexivity). reflexivity. }
  destruct n as [|n]; [cbn in Hn; lia|]. cbn [drop_completions]. erewrite ebind_Ok by reflexivity. cbn -[linked]. rewrite Hl2.
  erewrite ebind_Fault by (apply linked_freed; cbn; set_solver). exists UseAfterFree. split; [done|by right].
Qed.
End Stop.
(** ** The stopped channel *)

(** Between stop and start the channel owns the packets not yet completed, and
    nothing else: the rest of the pool is [Fp], the allocated pages are [Fa]. *)
Record idle_inv (Fp : gset Z) (Fa : gmap Z Z) (s : emcl) : Prop := {
  si_running : IsRunning (ctxt s) = false;
  si_entries : CompletionEntries (ctxt s) = [] /\ entries s = ∅;
  si_queue : OutgoingQueue (ctxt s) = [];
  si_blocks : BounceBlockListHead (heap s) = [] /\ pages (heap s) = ∅;
  si_pool : forall p, p ∈ pool (heap s) <-> p ∈ keys (IncomingPackets s) \/ p ∈ Fp;
  si_apart : forall p, p ∈ keys (IncomingPackets s) -> (p ∉ Fp) /\ p <> 0;
  si_allocs : page_allocs (heap s) = Fa;
  si_packets : forall k b, IncomingPackets s !! k = Some b -> 16 <= Zlength b /\ Forall is_byte b /\ not_completion b;
  si_tids : 0 <= mCurrentTransactionId s < 2 ^ 64
}.

Definition stopped (Fp : gset Z) (Fa : gmap Z Z) (s : emcl) : Prop := idle_inv Fp Fa s /\
  RingBufferPages (ctxt s) = 0 /\ RingBufferGpadl (ctxt s) = 0 /\ ReceiveEvent (ctxt s) = 0.

(** Releasing the ring and the blocks of a channel that has been emptied. *)
Lemma run_destroy_library Do Di pi s : emcl_inv Do Di pi [] [] [] s -> idle pi = [] -> CompletionEntries (ctxt s) = [] -> OutgoingQueue (ctxt s) = [] ->
  RingBufferGpadl (ctxt s) = 0 -> ReceiveEvent (ctxt s) = 0 ->
  exists s', EmclDestroyPacketLibrary s = Ok (tt, s') /\
    stopped (foreign pi) (delete (RingBufferPages (ctxt s)) (foreign_allocs pi)) (set_ctxt (set_IsRunning false (ctxt s')) s').
Proof.
  intros I Hid Hc Hq Hg He. destruct (ei_buffer _ _ _ _ _ _ _ I) as (_ & Hr0 & Hr). set (a := RingBufferPages (ctxt s)) in *.
  unfold EmclDestroyPacketLibrary. rewrite (ebind_Ok _ _ s 0 s) by (unfold cget, eget; by rewrite Hg). cbn [Z.eqb negb].
  rewrite (ebind_Ok _ _ s tt s) by done. rewrite (ebind_Ok _ _ s a s) by done.
  destruct (proj1 (ei_allocs _ _ _ _ _ _ _ I a _) Hr) as [Ha Hab].
  set (m1 := set_page_allocs (delete a (page_allocs (heap s))) (heap s)).
  set (s1 := set_ctxt (set_OutgoingPageCount 0 (set_IncomingPageCount 0 (set_RingBufferPages 0 (ctxt s)))) (set_heap m1 s)).
  rewrite (ebind_Ok _ _ s tt s1).
  2:{ destruct (Z.eqb_spec a 0); [done|]. cbn [negb]. rewrite (ebind_Ok _ _ s _ s) by done. rewrite (ebind_Ok _ _ s _ s) by done.
      rewrite (ebind_Ok _ _ s tt (set_heap m1 s)); [done|]. unfold on_heap, FreePages. by rewrite Ha, Z.eqb_refl. }
  assert (Hent : entries s = ∅).
  { apply map_empty. intros p. destruct (entries s !! p) as [e|] eqn:Ep; [|done]. exfalso.
    destruct (ei_all _ _ _ _ _ _ _ I p) as [H|[H|H]]; [by exists e|rewrite Hc in H|..|rewrite Hid in H]; by apply elem_of_nil in H. }
  destruct (ei_bounce _ _ _ _ _ _ _ I) as (fl & hl & HB & _).
  assert (HB1 : bounce_inv fl (hl <$> keys (entries s)) m1).
  { apply (bounce_transport fl _ (heap s) m1 HB); try done; [apply HB| |by eauto].
    intros b blk Hb Eb Hal. cbn. rewrite lookup_delete_ne; [done|]. intros Hax. apply Hab. apply list_elem_of_fmap. exists b.
    split; [|done]. unfold base_at. by rewrite Eb. }
  destruct (free_all_ok fl _ m1 HB1) as (m2 & E2 & [R1 R2 R3 R4 R5] & Hpg). exists (set_heap m2 s1).
  split; [unfold on_heap; cbn; by rewrite E2|]. split; [|done].
  assert (Hown : forall p, p ∈ owned [] s <-> p ∈ block_ptrs (heap s) \/ p ∈ keys (IncomingPackets s)).
  { intros p. rewrite owned_parts, in_keys, Hent, lookup_empty, Hq. cbn. rewrite !elem_of_nil. split; [|tauto].
    intros [?|[[? ?]|[?|[?|?]]]]; try done; auto. }
  split; cbn; try done.
  - intros p. rewrite R3. change (pool m1) with (pool (heap s)). fold (block_ptrs (heap s)) in *.
    change (BounceBlockListHead m1 ++ (structs_at m1 <$> BounceBlockListHead m1)) with (block_ptrs (heap s)).
    rewrite (ei_others _ _ _ _ _ _ _ I), Hown.
    assert (Hd : p ∈ keys (IncomingPackets s) -> p ∈ pool (heap s) /\ p ∉ block_ptrs (heap s)).
    { intros Hp. split; [apply (ei_pool _ _ _ _ _ _ _ I), Hown; auto|]. intros Hb. pose proof (ei_once _ _ _ _ _ _ _ I) as Hn.
      unfold owned in Hn. apply list.NoDup_app in Hn as (_ & Hn & _). apply (Hn p Hb). rewrite !elem_of_app. auto. }
    destruct (decide (p ∈ keys (IncomingPackets s))); tauto.
  - intros p Hp. rewrite (ei_others _ _ _ _ _ _ _ I), Hown. split; [tauto|]. apply (ei_pool _ _ _ _ _ _ _ I), Hown. auto.
  - apply map_eq. intros x. apply option_eq. intros n. rewrite R4, lookup_delete_Some, (ei_allocs _ _ _ _ _ _ _ I). cbn.
    rewrite lookup_delete_Some. change (base_at m1 <$> BounceBlockListHead m1) with (bases (heap s)). split; intros; split_and!; try tauto; intros ->; tauto.
  - intros k b E. destruct (ei_packets _ _ _ _ _ _ _ I k b E) as (? & ? & [Hx|?]); [by apply elem_of_nil in Hx|done].
  - apply I.
Qed.
(** An ASSERT that holds. *)
Lemma safe_asserted {A R} (f : emcl -> A) (b : A -> bool) (Q : emcl -> Prop) (k : A -> E R) T :
  (forall s, Q s -> b (f s) = true) -> (forall a, esafe F Q (k a) T) -> esafe F Q (a ← eget f; _ ← elift (ASSERT (b a)); k a) T.
Proof.
  intros Hb Hk s Hs. rewrite (ebind_Ok _ _ s (f s) s) by done. rewrite (Hb s Hs), ASSERT_true, (ebind_Ok _ _ s tt s) by done. by apply Hk.
Qed.

(** ** Stopping *)
Lemma safe_assert (b : bool) (Q : emcl -> Prop) : esafe F Q (elift (ASSERT b)) (fun _ => Q).
Proof. intros s Hs. unfold elift, ASSERT. destruct asserts_enabled eqn:E, b; cbn; auto. Qed.

Lemma safe_eget {A} (f : emcl -> A) (Q : emcl -> Prop) : esafe F Q (eget f) (fun _ => Q).
Proof. eapply esafe_post; [|apply esafe_get]. by intros ? ? [_ ?]. Qed.

(** What [EmclStopChannel] does once the channel is closed. *)
Definition stop_tail : E unit :=
  q ← cget OutgoingQueue;
  _ ← drop_queue (length q);
  l ← cget CompletionEntries;
  _ ← drop_completions (length l);
  _ ← EmclDestroyPacketLibrary;
  cmod (set_IsRunning false).

Lemma stop_prefix Do Di pi tpl a q l T :
  esafe F (fun s => emcl_inv Do Di pi [] [] [] s /\ (exists i o, quiet a i o (ctxt s)) /\ OutgoingQueue (ctxt s) = q /\ CompletionEntries (ctxt s) = l) stop_tail T ->
  esafe F (fun s => emcl_inv Do Di pi [] [] [] s /\ RingBufferPages (ctxt s) = a /\ OutgoingQueue (ctxt s) = q /\ CompletionEntries (ctxt s) = l) (EmclStopChannel tpl) T.
Proof.
  intros Htail. set (X := fun c => RingBufferPages c = a /\ OutgoingQueue c = q /\ CompletionEntries c = l).
  set (J := fun s => emcl_inv Do Di pi [] [] [] s /\ X (ctxt s)).
  set (X1 := fun c => RingBufferGpadl c = 0 /\ X c). set (J1 := fun s => emcl_inv Do Di pi [] [] [] s /\ X1 (ctxt s)).
  assert (Hcall : forall sv (e : EFI_STATUS * Z -> event) (Y : EMCL_CONTEXT -> Prop),
    esafe F (fun s => emcl_inv Do Di pi [] [] [] s /\ Y (ctxt s)) (x ← call sv; _ ← log (e x); mret x.1) (fun _ s => emcl_inv Do Di pi [] [] [] s /\ Y (ctxt s))).
  { intros sv e Y. apply (esafe_ctxt _ _ (fun _ => emcl_inv Do Di pi [] [] [])); [|apply safe_called].
    apply keeps_ctxt_bind; [apply call_ctxt|]. intros x. apply keeps_ctxt_bind; [apply log_ctxt|]. intros _. apply keeps_ctxt_ret. }
  assert (Hpair : forall sv (e : EFI_STATUS * Z -> event) (Y : EMCL_CONTEXT -> Prop),
    esafe F (fun s => emcl_inv Do Di pi [] [] [] s /\ Y (ctxt s)) ('(st, z) ← call sv; _ ← log (e (st, z)); mret st) (fun _ s => emcl_inv Do Di pi [] [] [] s /\ Y (ctxt s))).
  { intros sv e Y s Hs. specialize (Hcall sv e Y s Hs). unfold mbind, E_bind in *. destruct (call sv s) as [[[st z] s1]|f]; done. }
  unfold EmclStopChannel.
  apply (esafe_bind F _ _ _ (fun _ => J)); [apply safe_eget|]. intros r. apply (esafe_bind F _ _ _ (fun _ => J)); [apply safe_assert|].
  intros _. apply (esafe_bind F _ _ _ (fun _ => J)); [apply safe_eget|]. intros t. apply (esafe_bind F _ _ _ (fun _ => J)); [apply safe_assert|].
  intros _. apply (esafe_bind F _ _ _ (fun _ => J)); [apply (Hpair _ (fun x => CloseChannel x.1))|]. intros st1.
  apply (esafe_bind F _ _ _ (fun _ => J)); [apply safe_assert|]. intros _.
  apply (esafe_bind F _ _ _ (fun _ => J)); [apply (Hpair _ (fun x => RegisterIsr 0 x.1))|]. intros st2.
  apply (esafe_bind F _ _ _ (fun _ => J)); [apply safe_assert|]. intros _.
  apply (esafe_bind F _ _ _ (fun _ => J)); [apply safe_eget|]. intros g.
  apply (esafe_bind F _ _ _ (fun _ => J)); [apply (Hpair _ (fun x => DestroyGpadl g x.1))|]. intros st3.
  apply (esafe_bind F _ _ _ (fun _ => J)); [apply safe_assert|]. intros _.
  apply (esafe_bind F _ _ _ (fun _ => J1)).
  { apply esafe_mod. intros s [I Ha]. split; [by apply inv_ctxt|]. by split. }
  intros _. apply (esafe_bind F _ _ _ (fun _ => J1)); [apply safe_eget|]. intros e.
  apply (esafe_bind F _ _ _ (fun _ => J1)).
  { apply (esafe_ctxt _ _ (fun _ => emcl_inv Do Di pi [] [] [])); [apply log_ctxt|apply safe_log]. }
  intros _. apply (esafe_bind F _ _ _ (fun _ s => emcl_inv Do Di pi [] [] [] s /\ (exists i o, quiet a i o (ctxt s)) /\ OutgoingQueue (ctxt s) = q /\ CompletionEntries (ctxt s) = l));
    [|intros ?; exact Htail].
  apply esafe_mod. intros s [I (Hg & Ha & Hq & Hl)]. split; [by apply inv_ctxt|]. split_and!; [|done|done].
  exists (IncomingPageCount (ctxt s)), (OutgoingPageCount (ctxt s)). split_and!; [done|done|]. unfold ring_fields. cbn. by rewrite Ha.
Qed.

Lemma safe_stop Do Di pi tpl a : idle pi = [] ->
  esafe F (fun s => emcl_inv Do Di pi [] [] [] s /\ RingBufferPages (ctxt s) = a /\ OutgoingQueue (ctxt s) = [] /\ CompletionEntries (ctxt s) = [])
    (EmclStopChannel tpl) (fun _ => stopped (foreign pi) (delete a (foreign_allocs pi))).
Proof.
  intros Hid. apply stop_prefix. intros s (I & (i & o & Hg & He & Hr) & Hq & Hc). injection Hr as Hr _ _. unfold stop_tail.
  erewrite ebind_Ok by reflexivity. rewrite Hq. rewrite (ebind_Ok _ _ s tt s) by (cbn; unfold mbind, E_bind, cget, eget; by rewrite Hq).
  erewrite ebind_Ok by reflexivity. rewrite Hc. rewrite (ebind_Ok _ _ s tt s) by (cbn; unfold mbind, E_bind, cget, eget; by rewrite Hc).
  destruct (run_destroy_library Do Di pi s I Hid Hc Hq Hg He) as (s4 & E4 & H4). rewrite (ebind_Ok _ _ _ _ _ E4). by rewrite Hr in H4.
Qed.

(** With packets queued or completions outstanding it does not return. *)
Lemma wild_stop Do Di pi tpl a q l : (forall f, wild f -> F f) -> q <> [] \/ l <> [] ->
  esafe F (fun s => emcl_inv Do Di pi [] [] [] s /\ RingBufferPages (ctxt s) = a /\ OutgoingQueue (ctxt s) = q /\ CompletionEntries (ctxt s) = l)
    (EmclStopChannel tpl) (fun _ _ => False).
Proof.
  intros HW Hor. apply stop_prefix. intros s (I & _ & Hq & Hc). unfold stop_tail. erewrite ebind_Ok by reflexivity. rewrite Hq.
  destruct (decide (q = [])) as [->|Hne].
  - rewrite (ebind_Ok _ _ s tt s) by (cbn; unfold mbind, E_bind, cget, eget; by rewrite Hq). erewrite ebind_Ok by reflexivity. rewrite Hc.
    destruct (drop_completions_wild Do Di pi (length l) s I) as (f & E & Hf); [rewrite Hc; tauto|by rewrite Hc|].
    rewrite (ebind_Fault _ _ _ _ E). by apply HW.
  - destruct (drop_queue_wild Do Di pi (length q) s I) as (f & E & Hf); [by rewrite Hq|by rewrite Hq|]. rewrite (ebind_Fault _ _ _ _ E). by apply HW.
Qed.

(** ** Starting *)
Definition ring_alloc (Fa : gmap Z Z) (c : EMCL_CONTEXT) : gmap Z Z :=
  if RingBufferPages c =? 0 then Fa else <[RingBufferPages c := u32 (IncomingPageCount c + OutgoingPageCount c)]> Fa.

Context (Fp : gset Z) (Fa : gmap Z Z).

(** A channel being started: at most the ring's pages are allocated. *)
Definition starting (s : emcl) : Prop := idle_inv Fp (ring_alloc Fa (ctxt s)) s /\
  (RingBufferPages (ctxt s) <> 0 -> Fa !! RingBufferPages (ctxt s) = None).

Lemma starting_ctxt s c : starting s -> CompletionEntries c = CompletionEntries (ctxt s) -> OutgoingQueue c = OutgoingQueue (ctxt s) ->
  IsRunning c = IsRunning (ctxt s) -> ring_fields c = ring_fields (ctxt s) -> starting (set_ctxt c s).
Proof.
  intros [I Hf] E1 E2 E3 [= E4 E5 E6]. split; [|cbn; by rewrite E4].
  destruct I. split; cbn; rewrite ?E1, ?E2, ?E3; try done. unfold ring_alloc in *. by rewrite E4, E5, E6.
Qed.

Lemma starting_trace s t : starting s -> starting (set_trace t s).
Proof. intros [[] Hf]. by split. Qed.
Lemma starting_tick s t : starting s -> starting (set_heap (set_tick t (heap s)) s).
Proof. intros [[] Hf]. by split. Qed.
Lemma starting_pk s w : starting s -> starting (set_pk w s).
Proof. intros [[] Hf]. by split. Qed.

Lemma start_log (Y : EMCL_CONTEXT * world -> Prop) e : esafe F (fun s => starting s /\ Y (ctxt s, pk s)) (log e) (fun _ s => starting s /\ Y (ctxt s, pk s)).
Proof. apply esafe_mod. intros s [I Hy]. split; [by apply starting_trace|done]. Qed.

Lemma start_call (Y : EMCL_CONTEXT * world -> Prop) sv : esafe F (fun s => starting s /\ Y (ctxt s, pk s)) (call sv) (fun _ s => starting s /\ Y (ctxt s, pk s)).
Proof.
  unfold call. apply (esafe_bind F _ _ _ (fun _ s => starting s /\ Y (ctxt s, pk s))); [apply safe_eget|]. intros t.
  apply (esafe_bind F _ _ _ (fun _ s => starting s /\ Y (ctxt s, pk s))); [|intros _; by apply esafe_ret].
  apply esafe_mod. intros s [I Hy]. split; [by apply starting_tick|done].
Qed.

Lemma start_called (Y : EMCL_CONTEXT * world -> Prop) {A} sv (e : EFI_STATUS -> Z -> event) (r : EFI_STATUS -> Z -> A) :
  esafe F (fun s => starting s /\ Y (ctxt s, pk s)) ('(st, z) ← call sv; _ ← log (e st z); mret (r st z)) (fun _ s => starting s /\ Y (ctxt s, pk s)).
Proof.
  apply (esafe_bind F _ _ _ (fun _ s => starting s /\ Y (ctxt s, pk s))); [apply start_call|]. intros [st z].
  apply (esafe_bind F _ _ _ (fun _ s => starting s /\ Y (ctxt s, pk s))); [apply start_log|]. intros _. by apply esafe_ret.
Qed.

(** Giving back the GPADL. *)
Lemma start_gpadl (Y : EMCL_CONTEXT -> Prop) : (forall c, Y c -> Y (set_RingBufferGpadl 0 c)) ->
  esafe F (fun s => starting s /\ Y (ctxt s))
    (g ← cget RingBufferGpadl; if negb (g =? 0) then _ ← vm_DestroyGpadl g; cmod (set_RingBufferGpadl 0) else mret tt)
    (fun _ s => starting s /\ Y (ctxt s) /\ RingBufferGpadl (ctxt s) = 0).
Proof.
  intros HY s [I Hy]. rewrite (ebind_Ok _ _ s (RingBufferGpadl (ctxt s)) s) by done.
  destruct (Z.eqb_spec (RingBufferGpadl (ctxt s)) 0) as [Hg|Hg]; cbn [negb]; [done|].
  apply (esafe_bind F (fun s' => s' = s) _ _ (fun _ s => starting s /\ Y (ctxt s))); [|intros _|done].
  - intros ? ->. by apply (start_called (fun x => Y x.1) _ (fun st _ => DestroyGpadl (RingBufferGpadl (ctxt s)) st) (fun st _ => st)).
  - apply esafe_mod. intros s1 [I1 Hy1]. split_and!; [by apply starting_ctxt|by apply HY|done].
Qed.
Lemma esafe_assoc {A A' R} (Q : emcl -> Prop) (c : E A) (b : A -> E A') (k : A' -> E R) T :
  esafe F Q ((c ≫= b) ≫= k) T -> esafe F Q (c ≫= (fun x => b x ≫= k)) T.
Proof. intros H s Hs. specialize (H s Hs). unfold mbind, E_bind in *. by destruct (c s) as [[x s1]|f]. Qed.

Lemma start_destroy (Y : EMCL_CONTEXT -> Prop) : (forall c, Y c -> Y (set_RingBufferGpadl 0 c)) ->
  (forall c, Y c -> Y (set_OutgoingPageCount 0 (set_IncomingPageCount 0 (set_RingBufferPages 0 c)))) ->
  esafe F (fun s => starting s /\ Y (ctxt s)) EmclDestroyPacketLibrary
    (fun _ s => idle_inv Fp Fa s /\ RingBufferPages (ctxt s) = 0 /\ RingBufferGpadl (ctxt s) = 0 /\ Y (ctxt s)).
Proof.
  intros HY1 HY2. unfold EmclDestroyPacketLibrary. apply esafe_assoc.
  eapply esafe_bind; [by apply (start_gpadl Y)|]. intros _ s (I & Hy & Hg).
  rewrite (ebind_Ok _ _ s (RingBufferPages (ctxt s)) s) by done. destruct I as [I Hfr]. unfold ring_alloc in I.
  assert (Hend : forall s1, idle_inv Fp Fa s1 -> RingBufferPages (ctxt s1) = 0 -> RingBufferGpadl (ctxt s1) = 0 -> Y (ctxt s1) ->
    on_heap EmclpFreeAllBounceBlocks s1 = Ok (tt, s1)).
  { intros s1 I1 _ _ _. unfold on_heap, EmclpFreeAllBounceBlocks. rewrite (hbind_Ok _ _ (heap s1) [] (heap s1)).
    - cbn. by destruct s1.
    - unfold hget. by rewrite (proj1 (si_blocks _ _ _ I1)). }
  destruct (Z.eqb_spec (RingBufferPages (ctxt s)) 0) as [Hr|Hr]; cbn [negb].
  - rewrite (ebind_Ok _ _ s tt s) by done. rewrite Hend by done. done.
  - set (a := RingBufferPages (ctxt s)) in *. set (m1 := set_page_allocs Fa (heap s)).
    set (s1 := set_ctxt (set_OutgoingPageCount 0 (set_IncomingPageCount 0 (set_RingBufferPages 0 (ctxt s)))) (set_heap m1 s)).
    assert (I1 : idle_inv Fp Fa s1) by (destruct I; by split).
    assert (Hy1 : Y (ctxt s1)) by (by apply HY2).
    rewrite (ebind_Ok _ _ s tt s1); [by rewrite Hend|].
    rewrite (ebind_Ok _ _ s _ s) by done. rewrite (ebind_Ok _ _ s _ s) by done.
    rewrite (ebind_Ok _ _ s tt (set_heap m1 s)); [done|]. unfold on_heap, FreePages.
    rewrite (si_allocs _ _ _ I), lookup_insert_eq, Z.eqb_refl, delete_insert_id by auto. done.
Qed.

(** The shared memory of a new ring buffer has the size of its pages. *)
Definition vmbus_ok : Prop := forall t o i, 0 < o -> 0 < i -> shm_ok (o * EFI_PAGE_SIZE) (i * EFI_PAGE_SIZE) (ring_buffer t o i).
Context (HV : vmbus_ok) (inPages outPages : Z) (Hin : 0 < inPages <= 2 ^ 19) (Hout : 0 < outPages <= 2 ^ 19).

(** The library initialised: the ring is allocated and the packet library's
    invariant holds. *)
Definition ring_set (c : EMCL_CONTEXT) : Prop := RingBufferPages c <> 0 /\
  IncomingPageCount c = u32 (inPages + 1) /\ OutgoingPageCount c = u32 (outPages + 1).
Definition library_ready (s : emcl) : Prop := starting s /\ ring_set (ctxt s) /\
  inv (outPages * EFI_PAGE_SIZE) (inPages * EFI_PAGE_SIZE) (pk s).

Lemma pk_init_ready w : shm_ok (outPages * EFI_PAGE_SIZE) (inPages * EFI_PAGE_SIZE) (shm w) ->
  exists st w', PkInitializeSingleMappedRingBuffer inPages outPages w = Ok (st, w') /\
    inv (outPages * EFI_PAGE_SIZE) (inPages * EFI_PAGE_SIZE) w'.
Proof.
  intros Hs. destruct (page_ring _ Hin) as [Ei Ri]. destruct (page_ring _ Hout) as [Eo Ro].
  unfold PkInitializeSingleMappedRingBuffer, modify, mbind, M_bind. cbn. rewrite Ei, Eo.
  destruct (safe_control HP (outPages * EFI_PAGE_SIZE) (inPages * EFI_PAGE_SIZE) (mkWorld (mkCtx (outPages * EFI_PAGE_SIZE) (inPages * EFI_PAGE_SIZE) 0 0 0 0 0 0 0 0 0) (shm w) (now w)))
    as (st & w1 & E1 & I1 & Hst); [split; [by apply initial_ctx|done]|]. by exists st, w1.
Qed.

(** The allocation of the ring buffer. *)
Lemma start_pages (Y : EMCL_CONTEXT -> Prop) n : n = inPages + outPages + 2 ->
  (forall c v, Y c -> Y (set_RingBufferPages v c)) -> (forall c v, Y c -> Y (set_IncomingPageCount v c)) ->
  (forall c v, Y c -> Y (set_OutgoingPageCount v c)) ->
  esafe F (fun s => starting s /\ RingBufferPages (ctxt s) = 0 /\ Y (ctxt s))
    (pages_ ← on_heap (AllocatePages n);
     _ ← cmod (set_RingBufferPages pages_);
     if pages_ =? 0 then mret 0
     else
       _ ← cmod (set_IncomingPageCount (u32 (inPages + 1)));
       _ ← cmod (set_OutgoingPageCount (u32 (outPages + 1)));
       mret pages_)
    (fun a s => starting s /\ RingBufferPages (ctxt s) = a /\ Y (ctxt s)).
Proof.
  intros Hn HY1 HY2 HY3 s ([I Hfr] & Hr & Hy). unfold ring_alloc in I. rewrite Hr in I. cbn in I.
  destruct (AllocatePages_ok HS n (heap s)) as (a & [[-> E]|(Hfresh & E)]); [lia| |].
  - rewrite (ebind_Ok _ _ s 0 (set_heap (ticked (heap s)) s)) by (unfold on_heap; by rewrite E).
    unfold cmod, emod. rewrite (ebind_Ok _ _ _ tt _ eq_refl). cbn. split_and!; [|done|by apply HY1].
    split; [|done]. destruct I. by split.
  - destruct Hfresh as (Ha & _ & _ & Hno & _). rewrite (si_allocs _ _ _ I) in Hno.
    rewrite (ebind_Ok _ _ s a _) by (unfold on_heap; by rewrite E).
    unfold cmod, emod. rewrite (ebind_Ok _ _ _ tt _ eq_refl). destruct (Z.eqb_spec a 0); [lia|].
    rewrite (ebind_Ok _ _ _ tt _ eq_refl), (ebind_Ok _ _ _ tt _ eq_refl). cbn. split_and!; [|done|by apply HY3, HY2, HY1].
    split; [|by cbn]. destruct I. split; cbn; try done. unfold ring_alloc. cbn. destruct (Z.eqb_spec a 0); [done|].
    rewrite si_allocs0. f_equal. rewrite (u32_small (inPages + 1)), (u32_small (outPages + 1)), u32_small by lia. lia.
Qed.
Lemma safe_init (e : Z) : esafe F (fun s => starting s /\ RingBufferPages (ctxt s) = 0 /\ ReceiveEvent (ctxt s) = e)
  (EmclInitializePacketLibrary inPages outPages)
  (fun st s => if EFI_ERROR st then idle_inv Fp Fa s /\ RingBufferPages (ctxt s) = 0 /\ RingBufferGpadl (ctxt s) = 0 /\ ReceiveEvent (ctxt s) = e
    else library_ready s /\ ReceiveEvent (ctxt s) = e).
Proof.
  set (Y := fun c => ReceiveEvent c = e). unfold EmclInitializePacketLibrary. change EFI_PAGE_SIZE with 4096.
  apply (esafe_bind F _ _ _ (fun st s => if EFI_ERROR st then starting s /\ Y (ctxt s) else library_ready s /\ Y (ctxt s))).
  - rewrite (u32_small (inPages + outPages + 2)) by lia. intros s Hs.
    pose proof (start_pages Y (inPages + outPages + 2) eq_refl ltac:(done) ltac:(done) ltac:(done) s Hs) as Hp.
    unfold mbind at 1 2, E_bind at 1 2 in Hp. unfold mbind at 1 2, E_bind at 1 2.
    destruct (on_heap (AllocatePages _) s) as [[a s1]|f]; [|done]. unfold cmod in *. unfold emod at 1. unfold emod at 1 in Hp.
    destruct (Z.eqb_spec a 0) as [->|Ha]; [by destruct Hp as (? & _ & ?)|].
    unfold emod in *. erewrite ebind_Ok by reflexivity. erewrite ebind_Ok by reflexivity.
    erewrite ebind_Ok in Hp by reflexivity. erewrite ebind_Ok in Hp by reflexivity. cbn in Hp.
    set (s3 := set_ctxt _ _) in Hp. change (match (t ← now_tick; '(status, g) ← vm_PrepareGpadl a (u32 ((inPages + outPages + 2) * 4096)) 3;
      if EFI_ERROR status then mret status else
        _ ← cmod (set_RingBufferGpadl g);
        _ ← emod (fun s => set_pk (mkWorld (PkRing.ctx (pk s)) (ring_buffer t outPages inPages) (now (pk s))) s);
        on_pk (PkInitializeSingleMappedRingBuffer inPages outPages)) s3 with
      | Ok (st, s') => if EFI_ERROR st then starting s' /\ Y (ctxt s') else library_ready s' /\ Y (ctxt s') | Fault f => F f end).
    destruct Hp as (Hst & Hra & Hy).
    set (Y' := fun c => ring_set c /\ Y c).
    assert (Hrs : ring_set (ctxt s3)) by (by split_and!).
    rewrite (ebind_Ok _ _ s3 (tick (heap s3)) s3) by done. set (t := tick (heap s3)).
    apply (esafe_bind F (fun s' => s' = s3) _ _ (fun _ s => starting s /\ Y' (ctxt s))); [intros ? ->|intros [st g]|done].
    { unfold vm_PrepareGpadl. pose proof (start_called (fun x => Y' x.1) SvPrepareGpadl
        (fun st z => PrepareGpadl a (u32 ((inPages + outPages + 2) * 4096)) 3 st (if EFI_ERROR st then 0 else z)) (fun st z => (st, if EFI_ERROR st then 0 else z)) s3) as Hc.
      exact (Hc (conj Hst (conj Hrs Hy))). }
    apply esafe_if; intros Hst'; [apply esafe_ret; rewrite Hst'; by intros s' [? [_ ?]]|].
    apply (esafe_bind F _ _ _ (fun _ s => starting s /\ Y' (ctxt s))).
    { apply esafe_mod. intros s' [I' [H1 H2]]. split; [by apply starting_ctxt|]. by split. }
    intros _. apply (esafe_bind F _ _ _ (fun _ s => (starting s /\ Y' (ctxt s)) /\ shm_ok (outPages * EFI_PAGE_SIZE) (inPages * EFI_PAGE_SIZE) (shm (pk s)))).
    { apply esafe_mod. intros s' [I' H']. split; [split; [by apply starting_pk|done]|]. apply HV; lia. }
    intros _. apply esafe_pk. intros s' [[I' [H1 H2]] Hshm]. destruct (pk_init_ready (pk s') Hshm) as (st' & w & E & Hw).
    exists st', w. split; [done|]. destruct (EFI_ERROR st'); [split; [by apply starting_pk|done]|].
    split; [|done]. split; [by apply starting_pk|]. by split.
  - intros st. apply esafe_if; intros Hst; rewrite Hst.
    + apply (esafe_bind F _ _ _ (fun _ s => idle_inv Fp Fa s /\ RingBufferPages (ctxt s) = 0 /\ RingBufferGpadl (ctxt s) = 0 /\ Y (ctxt s)));
        [by apply start_destroy|]. intros _. apply esafe_ret. by rewrite Hst.
    + by apply esafe_ret.
Qed.
(** What a started channel is: running, with the ring's pages besides [Fa]. *)
Definition started (s : emcl) : Prop := exists a i o, Fa !! a = None /\
  emcl_inv (outPages * EFI_PAGE_SIZE) (inPages * EFI_PAGE_SIZE) (mkFrame [] Fp (<[a := u32 (i + o)]> Fa) (a, i, o)) [] [] [] s.

Lemma no_blocks m : BounceBlockListHead m = [] -> pages m = ∅ -> bounce_inv (fun _ => []) [] m.
Proof.
  intros Hb Hp. assert (Hno : forall x : Z, x ∈ [] -> False) by (intros x Hx; by apply elem_of_nil in Hx).
  assert (Hpg : forall q p, pages m !! q = Some p -> False) by (intros q p; by rewrite Hp, lookup_empty).
  split; unfold block_ptrs, all_pages; rewrite ?Hb; cbn.
  - constructor.
  - intros p Hx. by apply Hno in Hx.
  - intros b Hx. by apply Hno in Hx.
  - constructor.
  - constructor.
  - by rewrite Hp, dom_empty_L.
  - intros q p E. by apply Hpg in E.
  - intros b blk i Hx. by apply Hno in Hx.
  - intros b b' blk blk' Hx. by apply Hno in Hx.
  - intros q p E. by apply Hpg in E.
Qed.

Lemma ready_started s : library_ready s -> started (set_ctxt (set_IsRunning true (ctxt s)) s).
Proof.
  intros ([[I1 [I2 I3] I4 [I5 I6] I7 I8 I9 I10 I11] Hfr] & (Hr & _) & Hw). unfold ring_alloc in I9.
  destruct (Z.eqb_spec (RingBufferPages (ctxt s)) 0); [done|]. exists (RingBufferPages (ctxt s)), (IncomingPageCount (ctxt s)), (OutgoingPageCount (ctxt s)). split; [by apply Hfr|].
  assert (Hown : owned [] (set_ctxt (set_IsRunning true (ctxt s)) s) = keys (IncomingPackets s)).
  { assert (Hk : keys (∅ : gmap Z EMCL_COMPLETION_ENTRY) = []) by (unfold keys; by rewrite map_to_list_empty).
    unfold owned, block_ptrs. cbn. rewrite I5, I3, I4, Hk. cbn. by rewrite app_nil_r. }
  assert (Hno : forall x : Z, x ∈ [] -> False) by (intros x Hx; by apply elem_of_nil in Hx).
  assert (Hent : forall p e, entries s !! p = Some e -> False) by (intros p e; by rewrite I3, lookup_empty).
  split; rewrite ?Hown; cbn -[owned]; rewrite ?I2, ?I4.
  - done.
  - exists (fun _ => []), (fun _ => []). split; [|cbn; intros p e E].
    { cbn. rewrite I3. unfold keys. rewrite map_to_list_empty. by apply no_blocks. }
    by apply Hent in E.
  - apply NoDup_keys.
  - intros p Hp. split; [apply I7; auto|by apply I8].
  - intros p. rewrite I7. split; [intros Hp; split; [auto|]; intros Hk; destruct (I8 p Hk) as [Hn _]; by apply Hn|tauto].
  - intros a n'. rewrite I9. unfold bases. rewrite I5. cbn. rewrite elem_of_nil. tauto.
  - constructor.
  - intros p Hx. by apply Hno in Hx.
  - constructor.
  - intros k b E. destruct (I10 k b E) as (? & ? & ?). auto.
  - split; [constructor|]. intros p Hx. by apply Hno in Hx.
  - split; [constructor|]. intros p Hx. by apply Hno in Hx.
  - intros p [e E]. by apply Hent in E.
  - done.
  - split_and!; [done|done|]. apply lookup_insert_eq.
  - split; [constructor|]. intros p Hx. by apply Hno in Hx.
  - split; [done|]. split; [intros p e E|intros p p' e e' E]; by apply Hent in E.
Qed.
Lemma ready_called {A} sv (e : EFI_STATUS -> Z -> event) (r : EFI_STATUS -> Z -> A) :
  esafe F library_ready ('(st, z) ← call sv; _ ← log (e st z); mret (r st z)) (fun _ => library_ready).
Proof.
  apply (start_called (fun x => ring_set x.1 /\ inv (outPages * EFI_PAGE_SIZE) (inPages * EFI_PAGE_SIZE) x.2) sv e r).
Qed.

(** The same before the receive event exists. *)
Definition no_event (s : emcl) : Prop := library_ready s /\ ReceiveEvent (ctxt s) = 0.

Lemma no_event_called {A} sv (e : EFI_STATUS -> Z -> event) (r : EFI_STATUS -> Z -> A) :
  esafe F no_event ('(st, z) ← call sv; _ ← log (e st z); mret (r st z)) (fun _ => no_event).
Proof.
  set (Y := fun x : EMCL_CONTEXT * world =>
    (ring_set x.1 /\ inv (outPages * EFI_PAGE_SIZE) (inPages * EFI_PAGE_SIZE) x.2) /\ ReceiveEvent x.1 = 0).
  eapply esafe_post; [|eapply esafe_pre; [|apply (start_called Y sv e r)]].
  - intros a s (H1 & (H2 & H3) & H4). by repeat (split; [done|]).
  - intros s ((H1 & H2 & H3) & H4). by repeat (split; [done|]).
Qed.

Lemma ready_ctxt s c : library_ready s -> CompletionEntries c = CompletionEntries (ctxt s) -> OutgoingQueue c = OutgoingQueue (ctxt s) ->
  IsRunning c = IsRunning (ctxt s) -> ring_fields c = ring_fields (ctxt s) -> library_ready (set_ctxt c s).
Proof. intros (H1 & H2 & H3) E1 E2 E3 E4. split; [by apply starting_ctxt|]. injection E4 as E4 E5 E6. split; [|done]. unfold ring_set. cbn. by rewrite E4, E5, E6. Qed.

(** The last step. *)
Definition set_running (s : emcl) : Prop := exists s1, s = set_ctxt (set_IsRunning true (ctxt s1)) s1 /\ library_ready s1.

(** The steps up to [Cleanup]: the channel runs, or it is still being started. *)
Lemma safe_start_steps : esafe F (fun s => starting s /\ RingBufferPages (ctxt s) = 0 /\ ReceiveEvent (ctxt s) = 0)
  (start_steps inPages outPages) (fun r s => if EFI_ERROR r.1 then starting s else set_running s).
Proof.
  unfold start_steps.
  assert (Hready : forall st s, EFI_ERROR st = true -> library_ready s -> if EFI_ERROR st then starting s else set_running s).
  { intros st s -> (H & _). done. }
  eapply esafe_bind; [apply safe_init|]. intros st. apply esafe_if; intros Hst; rewrite Hst.
  { apply esafe_ret. intros s (I & Hr & _). cbn. rewrite Hst. split; [unfold ring_alloc; by rewrite Hr|done]. }
  apply (esafe_bind F _ _ _ (fun _ => no_event)); [apply safe_eget|]. intros g.
  apply (esafe_bind F _ _ _ (fun _ => no_event)); [apply no_event_called|]. intros st1.
  apply esafe_if; intros Hst1; [apply esafe_ret; intros s [H _]; by apply Hready|].
  apply (safe_asserted (fun s => ReceiveEvent (ctxt s)) (fun e => e =? 0)); [intros s [_ He]; by rewrite He|]. intros e0.
  eapply esafe_pre; [by intros s [H _]; exact H|].
  apply (esafe_bind F _ _ _ (fun _ => library_ready)); [apply safe_eget|]. intros cb.
  apply (esafe_bind F _ _ _ (fun _ => library_ready)); [apply safe_eget|]. intros tpl.
  apply (esafe_bind F _ _ _ (fun _ => library_ready)).
  { unfold bs_CreateEvent. apply (ready_called SvCreateEvent (fun st z => CreateEvent _ st (if EFI_ERROR st then 0 else z)) (fun st z => (st, if EFI_ERROR st then 0 else z))). }
  intros [st2 e]. apply esafe_if; intros Hst2; [apply esafe_ret; intros s; by apply Hready|].
  apply (esafe_bind F _ _ _ (fun _ => library_ready)); [apply esafe_mod; intros s Hs; by apply ready_ctxt|]. intros _.
  apply (esafe_bind F _ _ _ (fun _ => library_ready)).
  { apply esafe_if; intros _; [apply esafe_mod; intros s Hs; by apply ready_ctxt|by apply esafe_ret]. }
  intros _. apply (esafe_bind F _ _ _ (fun _ => library_ready)); [apply ready_called|]. intros st3.
  apply esafe_if; intros Hst3; [apply esafe_ret; intros s; by apply Hready|].
  apply (esafe_bind F _ _ _ (fun _ => library_ready)); [apply safe_eget|]. intros n.
  apply (esafe_bind F _ _ _ (fun _ => library_ready)); [apply ready_called|]. intros st4.
  apply esafe_if; intros Hst4; [apply esafe_ret; intros s; by apply Hready|].
  apply (esafe_bind F _ _ _ (fun _ => set_running)); [apply esafe_mod; intros s Hs; by exists s|].
  intros _. by apply esafe_ret.
Qed.

Lemma safe_start : esafe F (stopped Fp Fa) (EmclStartChannel inPages outPages)
  (fun st s => if EFI_ERROR st then stopped Fp Fa s else set_running s).
Proof.
  unfold EmclStartChannel. set (J := fun s => starting s /\ RingBufferPages (ctxt s) = 0 /\ ReceiveEvent (ctxt s) = 0).
  apply (esafe_pre F _ J).
  { intros s (I & Hr & _ & He). split_and!; [|done|done]. split; [unfold ring_alloc; by rewrite Hr|done]. }
  apply (safe_asserted (fun s => IsRunning (ctxt s)) negb); [intros s [[I _] _]; by rewrite (si_running _ _ _ I)|]. intros run.
  eapply esafe_bind; [apply safe_start_steps|]. intros [st isr]. cbn [fst].
  apply esafe_if; intros Hst; rewrite Hst; [|apply esafe_ret; by rewrite Hst].
  apply esafe_assoc. apply (esafe_bind F _ _ _ (fun _ s => starting s /\ True /\ RingBufferGpadl (ctxt s) = 0)).
  { eapply esafe_pre; [|apply (start_gpadl (fun _ => True)); done]. done. }
  intros _. apply (esafe_bind F _ _ _ (fun _ s => starting s /\ True)).
  { destruct isr; [|apply esafe_ret; tauto].
    eapply esafe_pre; [|apply (start_called (fun _ => True) SvRegisterIsr (fun st _ => RegisterIsr 0 st) (fun st _ => st))]. tauto. }
  intros _ s [Hs _]. rewrite (ebind_Ok _ _ s (ReceiveEvent (ctxt s)) s) by done.
  set (Y := fun c => ReceiveEvent c = 0).
  apply (esafe_bind F (fun s' => s' = s) _ _ (fun _ s => starting s /\ Y (ctxt s))); [intros ? ->|intros _|done].
  { destruct (Z.eqb_spec (ReceiveEvent (ctxt s)) 0) as [He|He]; cbn [negb]; [done|].
    unfold log, emod at 1. erewrite ebind_Ok by reflexivity. cbn. split; [|done]. apply starting_ctxt; [by apply starting_trace|done..]. }
  apply (esafe_bind F _ _ _ (fun _ s => idle_inv Fp Fa s /\ RingBufferPages (ctxt s) = 0 /\ RingBufferGpadl (ctxt s) = 0 /\ Y (ctxt s)));
    [by apply start_destroy|]. intros _. apply esafe_ret. rewrite Hst. intros s1 (H1 & H2 & H3 & H4). by split_and!.
Qed.
End Life.
