(* ===== verification/EmclHandles.v ===== *)
(** The handles of a channel: which GPADLs and events a sequence of calls to VMBus
    and the boot services leaves open and which event it leaves registered for
    interrupts, and that the context of a channel accounts for them while it is
    started. *)
From stdpp Require Import base list numbers list_numbers option gmap.
From Stdlib Require Import ZArith Lia.
From S2P Require Import Prelude PkRing EmclPacket EmclBounce Emcl EmclSafe.
Open Scope Z_scope.
Import PkRing EmclPacket EmclBounce Emcl.

(** ** Calls and what they open *)
Definition total (f : event -> Z) (tr : list event) : Z := foldr (fun ev n => f ev + n) 0 tr.

(** How often GPADL [h] was prepared, less how often it was destroyed. *)
Definition open_gpadl (h : Z) : list event -> Z := total (fun ev =>
  match ev with
  | PrepareGpadl _ _ _ st g => if negb (EFI_ERROR st) && (g =? h) then 1 else 0
  | DestroyGpadl g _ => if g =? h then -1 else 0
  | _ => 0
  end).
(** How often event [h] was created, less how often it was closed. *)
Definition open_event (h : Z) : list event -> Z := total (fun ev =>
  match ev with
  | CreateEvent _ st e => if negb (EFI_ERROR st) && (e =? h) then 1 else 0
  | CloseEvent e => if e =? h then -1 else 0
  | _ => 0
  end).
(** The event registered for interrupts; NULL ends the registration. *)
Definition non_null (e : Z) : option Z := if e =? 0 then None else Some e.
Definition registered : list event -> option Z := foldl (fun r ev =>
  match ev with
  | RegisterIsr e st => if (e =? 0) || negb (EFI_ERROR st) then non_null e else r
  | _ => r
  end) None.

(** What the calls [tr] leave open: at most a GPADL [g], an event [e] and a registration. *)
Definition leaves (g e : Z) (r : option Z) (tr : list event) : Prop :=
  (forall h, h <> 0 -> open_gpadl h tr = if h =? g then 1 else 0) /\
  (forall h, h <> 0 -> open_event h tr = if h =? e then 1 else 0) /\
  registered tr = r.

Lemma total_snoc f tr ev : total f (tr ++ [ev]) = total f tr + f ev.
Proof. unfold total. induction tr as [|x tr IH]; cbn; [lia|]. rewrite IH. lia. Qed.
Lemma registered_snoc tr ev : registered (tr ++ [ev]) =
  match ev with RegisterIsr e st => if (e =? 0) || negb (EFI_ERROR st) then non_null e else registered tr | _ => registered tr end.
Proof. unfold registered. by rewrite foldl_app. Qed.

Lemma leaves_snoc g e r tr ev g' e' r' : leaves g e r tr ->
  (forall h, h <> 0 -> (if h =? g' then 1 else 0) = (if h =? g then 1 else 0) + open_gpadl h [ev]) ->
  (forall h, h <> 0 -> (if h =? e' then 1 else 0) = (if h =? e then 1 else 0) + open_event h [ev]) ->
  (match ev with RegisterIsr e st => if (e =? 0) || negb (EFI_ERROR st) then non_null e else r | _ => r end) = r' -> leaves g' e' r' (tr ++ [ev]).
Proof.
  intros (Hg & He & Hr) Hg' He' <-. split_and!.
  - intros h Hh. rewrite Hg' by done. rewrite <- Hg by done. unfold open_gpadl. rewrite total_snoc. cbn. lia.
  - intros h Hh. rewrite He' by done. rewrite <- He by done. unfold open_event. rewrite total_snoc. cbn. lia.
  - rewrite registered_snoc. by rewrite Hr.
Qed.

(** ** The context accounts for the handles *)
Definition tally (t0 : list event) (g e : Z) (r : option Z) (s : emcl) : Prop :=
  RingBufferGpadl (ctxt s) = g /\ ReceiveEvent (ctxt s) = e /\ exists tr, trace s = t0 ++ tr /\ leaves g e r tr.

(** Computations that call nothing and leave the two handles alone. *)
Definition inert {A} (c : E A) : Prop := forall s a s', c s = Ok (a, s') ->
  trace s' = trace s /\ RingBufferGpadl (ctxt s') = RingBufferGpadl (ctxt s) /\ ReceiveEvent (ctxt s') = ReceiveEvent (ctxt s).

Lemma inert_bind {A R} (c : E A) (k : A -> E R) : inert c -> (forall a, inert (k a)) -> inert (c ≫= k).
Proof.
  intros Hc Hk s a s'. unfold mbind, E_bind. destruct (c s) as [[x s1]|f] eqn:E1; [|done]. intros E2.
  destruct (Hk _ _ _ _ E2) as (-> & -> & ->). by apply (Hc _ _ _ E1).
Qed.
Lemma inert_ret {A} (a : A) : inert (mret a).
Proof. by intros s x s' [= _ <-]. Qed.
Lemma inert_heap {A} (h : EmclBounce.H A) : inert (on_heap h).
Proof. intros s a s'. unfold on_heap. destruct (h (heap s)) as [[x m]|f]; [|done]. by intros [= _ <-]. Qed.
Lemma inert_pk {A} (m : M A) : inert (on_pk m).
Proof. intros s a s'. unfold on_pk. destruct (m (pk s)) as [[x w]|f]; [|done]. by intros [= _ <-]. Qed.
Lemma inert_get {A} (f : emcl -> A) : inert (eget f).
Proof. by intros s a s' [= _ <-]. Qed.
Lemma inert_lift {A} (r : result A) : inert (elift r).
Proof. intros s a s'. unfold elift. destruct r; [|done]. by intros [= _ <-]. Qed.
Lemma inert_mod f : (forall s, trace (f s) = trace s /\ RingBufferGpadl (ctxt (f s)) = RingBufferGpadl (ctxt s) /\ ReceiveEvent (ctxt (f s)) = ReceiveEvent (ctxt s)) ->
  inert (emod f).
Proof. intros H s a s' [= _ <-]. apply H. Qed.

Ltac inert := repeat (apply inert_ret || apply inert_heap || apply inert_pk || apply inert_lift || apply inert_get ||
  (apply inert_mod; done) || (apply inert_bind; [|intros ?]) ||
  match goal with |- inert (if ?x then _ else _) => destruct x end).

(** Whatever faults: only what is returned matters here. *)
Definition any_fault (f : fault) : Prop := True.

Section Start.
Context {B : BuildOptions} {P : Peer} {S : Services} {D : Dma} {C : Client} {V : Vmbus} (t0 : list event).

Lemma tally_inert {A} g e r (c : E A) : inert c -> esafe any_fault (tally t0 g e r) c (fun _ => tally t0 g e r).
Proof.
  intros Hc s (Hg & He & tr & Ht & Hl). destruct (c s) as [[a s']|f] eqn:E; [|done]. destruct (Hc _ _ _ E) as (E1 & E2 & E3).
  split_and!; [congruence|congruence|]. exists tr. by rewrite E1.
Qed.

Lemma tally_seq {A R} g e r (c : E A) (k : A -> E R) Q : inert c -> (forall a, esafe any_fault (tally t0 g e r) (k a) Q) -> esafe any_fault (tally t0 g e r) (c ≫= k) Q.
Proof. intros Hc Hk. eapply esafe_bind; [by apply tally_inert|]. exact Hk. Qed.

Lemma call_inert sv : inert (call sv).
Proof. unfold call, now_tick, advance. inert. Qed.

(** A call that is logged; it leaves what the log shows. *)
Lemma tally_called {A} g e r sv (ev : EFI_STATUS -> Z -> event) (res : EFI_STATUS -> Z -> A) (Q : A -> emcl -> Prop) :
  (forall st z s tr, RingBufferGpadl (ctxt s) = g -> ReceiveEvent (ctxt s) = e -> trace s = t0 ++ tr ++ [ev st z] -> leaves g e r tr -> Q (res st z) s) ->
  esafe any_fault (tally t0 g e r) ('(st, z) ← call sv; _ ← log (ev st z); mret (res st z)) Q.
Proof.
  intros HQ. apply tally_seq; [apply call_inert|]. intros [st z] s (Hg & He & tr & Ht & Hl). cbn.
  eapply (HQ st z _ tr); try done. cbn. by rewrite Ht, app_assoc.
Qed.

(** A call that opens and closes nothing. *)
Lemma tally_neutral g e r sv (ev : EFI_STATUS -> Z -> event) :
  (forall st z h, open_gpadl h [ev st z] = 0 /\ open_event h [ev st z] = 0) -> (forall st z, match ev st z with RegisterIsr _ _ => False | _ => True end) ->
  esafe any_fault (tally t0 g e r) ('(st, z) ← call sv; _ ← log (ev st z); mret st) (fun _ => tally t0 g e r).
Proof.
  intros H0 H1. apply (tally_called g e r sv ev (fun st _ => st)). intros st z s tr Hg He Ht Hl. split_and!; [done|done|]. exists (tr ++ [ev st z]). split; [done|].
  eapply leaves_snoc; [exact Hl|..]; [intros h _; rewrite (proj1 (H0 st z h)); lia|intros h _; rewrite (proj2 (H0 st z h)); lia|].
  specialize (H1 st z). by destruct (ev st z).
Qed.

(** Reading a handle from the context. *)
Lemma tally_gpadl {R} g e r (k : Z -> E R) Q : esafe any_fault (tally t0 g e r) (k g) Q -> esafe any_fault (tally t0 g e r) (cget RingBufferGpadl ≫= k) Q.
Proof. intros Hk s Hs. pose proof Hs as (Hg & _). specialize (Hk s Hs). unfold mbind, E_bind, cget, eget. by rewrite Hg. Qed.
Lemma tally_event {R} g e r (k : Z -> E R) Q : esafe any_fault (tally t0 g e r) (k e) Q -> esafe any_fault (tally t0 g e r) (cget ReceiveEvent ≫= k) Q.
Proof. intros Hk s Hs. pose proof Hs as (_ & He & _). specialize (Hk s Hs). unfold mbind, E_bind, cget, eget. by rewrite He. Qed.

(** ** Giving back *)
Lemma tally_destroy g e r :
  esafe any_fault (tally t0 g e r) (if negb (g =? 0) then _ ← vm_DestroyGpadl g; cmod (set_RingBufferGpadl 0) else mret tt) (fun _ => tally t0 0 e r).
Proof.
  destruct (Z.eqb_spec g 0) as [->|Hg0]; cbn [negb]; [by apply esafe_ret|].
  apply (esafe_bind any_fault _ _ _ (fun _ s => tally t0 0 e r (set_ctxt (set_RingBufferGpadl 0 (ctxt s)) s))); [|intros ?; by apply esafe_mod].
  apply (tally_called g e r SvDestroyGpadl (fun st _ => DestroyGpadl g st) (fun st _ => st)). intros st z s tr Hg He Ht Hl. split_and!; [done|done|].
  exists (tr ++ [DestroyGpadl g st]). split; [done|]. eapply leaves_snoc; [exact Hl|..|done]; intros h Hh; cbn; [|lia].
  destruct (Z.eqb_spec h g), (Z.eqb_spec g h), (Z.eqb_spec h 0); lia.
Qed.

Lemma tally_close g e r :
  esafe any_fault (tally t0 g e r) (if negb (e =? 0) then _ ← log (CloseEvent e); cmod (set_ReceiveEvent 0) else mret tt) (fun _ => tally t0 g 0 r).
Proof.
  destruct (Z.eqb_spec e 0) as [->|He0]; cbn [negb]; [by apply esafe_ret|]. intros s (Hg & He & tr & Ht & Hl). cbn. split_and!; [done|done|].
  exists (tr ++ [CloseEvent e]). cbn. split; [by rewrite Ht, app_assoc|]. eapply leaves_snoc; [exact Hl|..|done]; intros h Hh; cbn; [lia|].
  destruct (Z.eqb_spec h e), (Z.eqb_spec e h), (Z.eqb_spec h 0); lia.
Qed.

Lemma tally_library g e r : esafe any_fault (tally t0 g e r) EmclDestroyPacketLibrary (fun _ => tally t0 0 e r).
Proof.
  unfold EmclDestroyPacketLibrary. apply tally_gpadl. eapply esafe_bind; [apply tally_destroy|]. intros ?. cbv beta.
  apply tally_inert. unfold cget, cmod. inert.
Qed.

Lemma tally_deregister g e r (b : bool) : (b = false -> r = None) ->
  esafe any_fault (tally t0 g e r) (if b then vm_RegisterIsr 0 else mret EFI_SUCCESS) (fun _ => tally t0 g e None).
Proof.
  intros Hb. destruct b; [|rewrite Hb by done; by apply esafe_ret].
  apply (tally_called g e r SvRegisterIsr (fun st _ => RegisterIsr 0 st) (fun st _ => st)). intros st z s tr Hg He Ht Hl. split_and!; [done|done|].
  exists (tr ++ [RegisterIsr 0 st]). split; [done|]. eapply leaves_snoc; [exact Hl|..|done]; intros h Hh; cbn; lia.
Qed.

(** ** Starting *)
Lemma tally_initialize i o : esafe any_fault (tally t0 0 0 None) (EmclInitializePacketLibrary i o)
  (fun st s => if EFI_ERROR st then tally t0 0 0 None s else exists g, tally t0 g 0 None s).
Proof.
  unfold EmclInitializePacketLibrary. apply (esafe_bind any_fault _ _ _ (fun _ s => exists g, tally t0 g 0 None s)).
  - apply tally_seq; [inert|]. intros a. apply tally_seq; [unfold cmod; inert|]. intros _.
    destruct (a =? 0); [apply esafe_ret; eauto|]. apply tally_seq; [unfold cmod; inert|]. intros _. apply tally_seq; [unfold cmod; inert|]. intros _.
    apply tally_seq; [unfold now_tick; inert|]. intros t.
    apply (esafe_bind any_fault _ _ _ (fun x s => if EFI_ERROR x.1 then tally t0 0 0 None s else tally t0 x.2 0 None (set_ctxt (set_RingBufferGpadl x.2 (ctxt s)) s))).
    + apply (tally_called 0 0 None SvPrepareGpadl _ (fun st z => (st, if EFI_ERROR st then 0 else z))). intros st z s tr Hg He Ht Hl. cbn [fst snd].
      destruct (EFI_ERROR st) eqn:E; (split_and!; [done|done|]); eexists; (split; [exact Ht|]); (eapply leaves_snoc; [exact Hl|..|done]); intros h Hh; cbn; rewrite ?E; cbn; try lia.
      destruct (Z.eqb_spec h z), (Z.eqb_spec z h), (Z.eqb_spec h 0); lia.
    + intros [st g]. cbn [fst snd]. destruct (EFI_ERROR st); [apply esafe_ret; eauto|].
      apply (esafe_bind any_fault _ _ _ (fun _ => tally t0 g 0 None)); [by apply esafe_mod|]. intros _.
      eapply esafe_post; [|apply tally_inert; inert]. cbn. eauto.
  - intros st. apply esafe_ex. intros g. destruct (EFI_ERROR st) eqn:E.
    + eapply esafe_bind; [apply tally_library|]. intros ?. cbv beta. apply esafe_ret. intros s Hs. by rewrite E.
    + apply esafe_ret. cbn. eauto.
Qed.

Definition stepped (st : EFI_STATUS) (b : bool) (s : emcl) : Prop :=
  exists g e r, tally t0 g e r s /\ (b = false -> r = None) /\ (EFI_ERROR st = false -> r = non_null e).

Lemma tally_steps i o : esafe any_fault (tally t0 0 0 None) (start_steps i o) (fun x s => stepped x.1 x.2 s).
Proof.
  assert (Hret : forall g e st s, tally t0 g e None s -> EFI_ERROR st = true -> stepped (st, false).1 (st, false).2 s).
  { intros g e st s Hs E. exists g, e, None. cbn. split_and!; [done|done|congruence]. }
  unfold start_steps. eapply esafe_bind; [apply tally_initialize|]. intros st. cbv beta. destruct (EFI_ERROR st) eqn:E1; [apply esafe_ret; intros s Hs; by apply (Hret _ _ _ _ Hs)|].
  apply esafe_ex. intros g. apply tally_gpadl.
  eapply esafe_bind; [by apply (tally_neutral g 0 None SvCreateGpadl (fun st _ => CreateGpadl g st))|]. intros st1. cbv beta.
  destruct (EFI_ERROR st1) eqn:E2; [apply esafe_ret; intros s Hs; by apply (Hret _ _ _ _ Hs)|]. apply tally_event. apply tally_seq; [inert|]. intros _.
  apply tally_seq; [unfold cget; inert|]. intros cb. apply tally_seq; [unfold cget; inert|]. intros tpl.
  apply (esafe_bind any_fault _ _ _ (fun x s => if EFI_ERROR x.1 then tally t0 g 0 None s else tally t0 g x.2 None (set_ctxt (set_ReceiveEvent x.2 (ctxt s)) s))).
  { apply (tally_called g 0 None SvCreateEvent _ (fun st z => (st, if EFI_ERROR st then 0 else z))). intros st2 z s tr Hg He Ht Hl. cbn [fst snd].
    destruct (EFI_ERROR st2) eqn:E; (split_and!; [done|done|]); eexists; (split; [exact Ht|]); (eapply leaves_snoc; [exact Hl|..|done]); intros h Hh; cbn; rewrite ?E; cbn; try lia.
    destruct (Z.eqb_spec h z), (Z.eqb_spec z h), (Z.eqb_spec h 0); lia. }
  intros [st2 e]. cbn [fst snd]. destruct (EFI_ERROR st2) eqn:E3; [apply esafe_ret; intros s Hs; by apply (Hret _ _ _ _ Hs)|].
  apply (esafe_bind any_fault _ _ _ (fun _ => tally t0 g e None)); [by apply esafe_mod|]. intros _.
  apply tally_seq; [unfold cmod; inert|]. intros _.
  apply (esafe_bind any_fault _ _ _ (fun st s => tally t0 g e (if EFI_ERROR st then None else non_null e) s)).
  { apply (tally_called g e None SvRegisterIsr (fun st _ => RegisterIsr e st) (fun st _ => st)). intros st3 z s tr Hg He Ht Hl. split_and!; [done|done|].
    eexists. split; [exact Ht|]. eapply leaves_snoc; [exact Hl|..]; [intros h Hh; cbn; lia..|]. cbn. unfold non_null.
    by destruct (Z.eqb_spec e 0), (EFI_ERROR st3). }
  intros st3. destruct (EFI_ERROR st3) eqn:E4; [apply esafe_ret; intros s Hs; by apply (Hret _ _ _ _ Hs)|]. apply tally_seq; [unfold cget; inert|]. intros n.
  eapply esafe_bind; [by apply (tally_neutral g e (non_null e) SvOpenChannel (fun st _ => OpenChannel g n st))|]. intros st4. cbv beta.
  destruct (EFI_ERROR st4) eqn:E5; [apply esafe_ret; by exists g, e, (non_null e)|].
  apply tally_seq; [unfold cmod; inert|]. intros _. apply esafe_ret. intros s Hs. by exists g, e, (non_null e).
Qed.

Lemma tally_stopped s : trace s = t0 -> RingBufferGpadl (ctxt s) = 0 -> ReceiveEvent (ctxt s) = 0 -> tally t0 0 0 None s.
Proof.
  intros Ht Hg He. split_and!; [done|done|]. exists []. rewrite app_nil_r. split; [done|]. split_and!; [..|done];
    intros h Hh; destruct (Z.eqb_spec h 0); done.
Qed.

(** On an error nothing is left open; on success what the context holds is. *)
Lemma tally_start i o : esafe any_fault (tally t0 0 0 None) (EmclStartChannel i o)
  (fun st s => if EFI_ERROR st then tally t0 0 0 None s else exists g e, tally t0 g e (non_null e) s).
Proof.
  unfold EmclStartChannel. apply tally_seq; [unfold cget; inert|]. intros running. apply tally_seq; [inert|]. intros _.
  eapply esafe_bind; [apply tally_steps|]. intros [st b]. cbn [fst snd]. unfold stepped. apply esafe_ex. intros g. apply esafe_ex. intros e. apply esafe_ex. intros r.
  intros s (Hs & Hb & Hr). destruct (EFI_ERROR st) eqn:E; [|rewrite (Hr eq_refl) in Hs; cbn; rewrite E; by exists g, e].
  revert s Hs. apply tally_gpadl. eapply esafe_bind; [apply tally_destroy|]. intros ?. cbv beta.
  eapply esafe_bind; [by apply tally_deregister|]. intros ?. cbv beta. apply tally_event. eapply esafe_bind; [apply tally_close|]. intros ?. cbv beta.
  eapply esafe_bind; [apply tally_library|]. intros ?. cbv beta. apply esafe_ret. intros s Hs. by rewrite E.
Qed.
End Start.
