(* ===== verification/EmclConcrete.v ===== *)
(** A concrete world for a channel: services, a host, VMBus and a client that
    meet what the properties of the channel assume of them. *)
From stdpp Require Import base list numbers list_numbers option gmap fin_map_dom functions.
From Stdlib Require Import ZArith Lia.
From S2P Require Import Prelude Circular PkRing PkRingSafe EmclPacket EmclPacketProps EmclBounce EmclBounceInv EmclBounceAlloc EmclBounceCopy Emcl Heap EmclSafe EmclSafeSend EmclSafeOps EmclSafeQueue EmclLife.
Open Scope Z_scope.
Import PkRing EmclPacket EmclBounce Emcl.

(** Allocators that hand out a new address each time, if it is free. *)
Definition bump_pool (t : nat) (live : gset Z) (n : Z) : Z :=
  let c := 4096 + 16 * Z.of_nat t in if decide (c ∈ live) then 0 else c.

Definition pages_apart (live : gmap Z Z) (a n : Z) : Prop :=
  a + 4096 * n < 2 ^ 47 /\ live !! a = None /\ map_Forall (fun b k => a + 4096 * n <= b \/ b + 4096 * k <= a) live.
Definition bump_pages (t : nat) (live : gmap Z Z) (n : Z) : Z :=
  let a := 2 ^ 32 + 2 ^ 24 * Z.of_nat t in if decide (pages_apart live a n) then a else 0.

#[export] Instance bump : Services := {|
  AllocatePool_answer := bump_pool; AllocatePages_answer := bump_pages;
  MakeAddressRangeHostVisible_answer := fun t _ => (EFI_SUCCESS, Z.of_nat t);
  IsIsolated := true; PcdIsolationSharedGpaBoundary := 2 ^ 48; PcdIsolationSharedGpaCanonicalizationBitmask := 0 |}.

Lemma bump_ok : services_ok.
Proof.
  split; cbn.
  - intros t live n. unfold bump_pool. by case_decide.
  - intros t live n Hn. unfold bump_pages. case_decide as Hd; [|done]. intros _. destruct Hd as (H1 & H2 & H3).
    split_and!; [lia|zlia|done|done|]. intros b k E. by apply (H3 b k).
  - exists (2 ^ 48), (2 ^ 48). split_and!; [done|done|]. intros a Ha. unfold shared_va, shared_pa. cbn.
    unfold u64. rewrite Z.mod_small by lia. rewrite Z.lor_0_l. split_and!; lia.
Qed.

(** A host that leaves the shared pages alone, and one that scrambles them. *)
Definition calm : Dma := fun _ _ c => c.
Definition scramble : Dma := fun t _ c => (fun x => (x + Z.of_nat t) mod 256) <$> c.
Lemma calm_ok : dma_ok (H0 := calm).
Proof. done. Qed.
Lemma scramble_ok : dma_ok (H0 := scramble).
Proof. intros t va c. unfold dma, scramble, Zlength. by rewrite length_fmap. Qed.

(** VMBus grants everything; the rings it makes are zeroed. *)
#[export] Instance generous : Vmbus := {|
  service_status := fun _ _ => EFI_SUCCESS; service_handle := fun t _ => 1 + Z.of_nat t;
  ring_buffer := fun _ o i => blank (o * EFI_PAGE_SIZE) (i * EFI_PAGE_SIZE) |}.
Lemma generous_ok : vmbus_ok.
Proof. intros t o i Ho Hi. apply blank_ok; unfold EFI_PAGE_SIZE; lia. Qed.

(** A client that completes every packet it receives at once. *)
Definition prompt {B : BuildOptions} {P : Peer} {S : Services} {D : Dma} : Client := {|
  on_receive := fun _ _ k _ _ _ => _ ← EmclCompletePacket k [] 0; mret tt;
  on_complete := fun _ _ _ => mret tt |}.

Lemma prompt_ok {B : BuildOptions} {P : Peer} {S : Services} {D : Dma} F Do Di : peer_ok -> services_ok -> dma_ok -> F FailFast ->
  ring_size Do -> ring_size Di -> client_ok (C := prompt) Do Di F.
Proof.
  intros HP HS HD HF HDo HDi. split; cbn.
  - intros. apply (esafe_bind F _ _ _ (fun _ => emcl_inv Do Di pi loc pe pp)); [|intros _; by apply esafe_ret].
    apply safe_complete; try done.
  - intros. by apply esafe_ret.
Qed.

(** A client that keeps every packet for later. *)
Definition keeper : Client := {| on_receive := fun _ _ _ _ _ _ => mret tt; on_complete := fun _ _ _ => mret tt |}.

(** A channel before its first start: [bounce] tells whether data goes through
    shared pages, [bufs] are the client's buffers. *)
Definition fresh_channel (flags : Z) (bounce : bool) (bufs : gmap Z (list Z)) : emcl :=
  mkEmcl (mkWorld (mkCtx 0 0 0 0 0 0 0 0 0 0 0) (blank 0 0) 0) (mkMem ∅ ∅ ∅ ∅ ∅ bufs [] 0) (EmclInitializeContext flags)
    ∅ ∅ bounce 0 [].

Lemma fresh_stopped flags bounce bufs : stopped ∅ ∅ (fresh_channel flags bounce bufs).
Proof.
  assert (Hk : keys (∅ : gmap Z (list Z)) = []) by (unfold keys; by rewrite map_to_list_empty).
  split; [|done]. split; cbn; rewrite ?Hk; try done.
  - intros p. rewrite elem_of_nil. set_solver.
  - intros p Hp. by apply elem_of_nil in Hp.
Qed.

(** ** A session *)

(** A host that leaves the rings alone until the guest has sent its first
    packet, and then puts the completion of transaction 1 in the incoming ring. *)
Definition completion_packet : list Z := descriptor VmbusPacketTypeCompletion 2 3 0 1 ++ le_split 8 99.
Definition reply_ring (d : list Z) : list Z :=
  if 32 <=? Zlength d then completion_packet ++ replicate 8 0 ++ drop 32 d else d.
Definition replying : Peer := fun t s =>
  if (t <? 14)%nat then s
  else mkShared (outgoing s) (mkRing (mkVMRCB 32 (Out (Control (incoming s))) 0 0 0) (reply_ring (Data (incoming s)))).

Lemma replying_ok : peer_ok (H := replying).
Proof.
  intros Do Di t s (Ho & Hi & Lo & Li & Hb). unfold interfere, replying. destruct (t <? 14)%nat; [done|].
  assert (Hc : Zlength completion_packet = 24) by done. assert (Forall is_byte completion_packet) as Hcb.
  { unfold completion_packet, descriptor. repeat (apply list.Forall_app; split); apply le_split_bytes. }
  split_and!; cbn; try done.
  - destruct Hi as (H1 & H2 & _). unfold u32_control; cbn; lia.
  - unfold reply_ring. destruct (Z.leb_spec 32 (Zlength (Data (incoming s)))); [|done].
    rewrite !Zlength_app, Hc. change (Zlength (replicate 8 0)) with 8. unfold Zlength in *. rewrite length_drop. lia.
  - unfold reply_ring. destruct (_ <=? _); [|done]. apply list.Forall_app. split; [done|]. apply list.Forall_app.
    split; [by apply Forall_replicate|by apply Forall_drop].
Qed.
