(* ===== verification/EmclData.v ===== *)
(** What the host can see of a client's buffer, and what the client gets back:
    GPA direct packets read by the reference decoder of [EmclPacketProps], and
    the contents of the bounce pages they name. *)
From stdpp Require Import base list numbers list_numbers option gmap fin_map_dom functions.
From Stdlib Require Import ZArith Lia.
From S2P Require Import Prelude Circular PkRing PkRingSafe EmclPacket EmclPacketProps EmclBounce EmclBounceInv EmclBounceAlloc EmclBounceCopy EmclLife EmclConcrete.
Open Scope Z_scope.
Import PkRing EmclPacket EmclBounce.

Definition pa_of (m : memory) (q : page_ptr) : Z := default 0 (HostVisiblePA <$> pages m !! q).

(** The page numbers a packet names for the bounce pages [l]. *)
Definition bounce_pfns (m : memory) (l : list page_ptr) : list Z := (fun q => pa_of m q / 4096) <$> l.

Section Packets.
Context {B : BuildOptions} {S : Services} {D : Dma}.

Lemma write_bounce_pfns_spec m : forall l hd p i r, plist (pages m) hd l -> Zlength p = 32 + 8 * i -> 8 * Zlength l <= Zlength r ->
  write_bounce_pfns (p ++ r) 24 i (length l) hd m =
    Ok ((p ++ concat (le_split 8 <$> bounce_pfns m l)) ++ drop (8 * length l) r, None, m).
Proof.
  induction l as [|q l IH]; intros hd p i r Hl Hp Hr; cbn [length write_bounce_pfns].
  { cbn in Hl. subst hd. cbn. by rewrite app_nil_r. }
  destruct Hl as (-> & pg & Eq & Hl). rewrite ASSERT_true. erewrite hbind_Ok by done.
  rewrite (hbind_Ok _ _ _ _ _ (get_page_ok _ _ _ Eq)). unfold EFI_PAGE_SHIFT. rewrite Z.shiftr_div_pow2 by lia. change (2 ^ 12) with 4096.
  assert (Hlen : Zlength (q :: l) = 1 + Zlength l) by (unfold Zlength; cbn [length]; lia). rewrite Hlen in Hr. pose proof (Zlength_nonneg l).
  rewrite store_tail by lia. erewrite hbind_Ok by done. rewrite IH; [|done|rewrite Zlength_app, Zlength_le_split; lia|unfold Zlength in *; rewrite length_drop; lia].
  unfold bounce_pfns. rewrite fmap_cons, (fmap_cons (le_split 8)). cbn [concat]. unfold pa_of at 2. rewrite Eq. cbn [fmap option_fmap option_map from_option id].
  rewrite <- !app_assoc, drop_drop. do 7 f_equal. lia.
Qed.

Lemma Zlength_bounce_pfns m l : Zlength (bounce_pfns m l) = Zlength l.
Proof. unfold bounce_pfns, Zlength. by rewrite length_fmap. Qed.

(** The packet written for bounce pages: as for a direct one, with the numbers
    of the bounce pages. *)
Lemma EmclWriteGpaDirectPacketBounce_spec m l inline b tid rc : plist (pages m) (head l) l -> external_ok b -> Zlength l = pages_of b ->
  32 + 8 * pages_of b + Zlength inline < 2 ^ 19 - 8 ->
  EmclWriteGpaDirectPacketBounce inline (Zlength inline) b (head l) tid rc (replicate (Z.to_nat (32 + 8 * pages_of b + Zlength inline)) 0) m =
    Ok (gpa_packet 1 (range_bytes b (bounce_pfns m l)) rc tid inline, m).
Proof.
  intros Hp Hb Hl Hs. pose proof (pages_of_bound b Hb) as Hpg. pose proof (Zlength_nonneg inline).
  unfold EmclWriteGpaDirectPacketBounce, off_GPA_Range, gpa_range_size.
  rewrite span_pages, (u32_small (pages_of b)), u32_small by (done || lia).
  replace (32 + 8 * pages_of b + Zlength inline) with (24 + (8 + 8 * pages_of b + Zlength inline)) by lia.
  rewrite gpa_descriptor_spec by (lia || zlia). erewrite hbind_Ok by done. rewrite !app_assoc.
  set (p := (descriptor _ _ _ _ _ ++ _) ++ _). assert (Lp : Zlength p = 24) by done. set (r := replicate _ 0).
  assert (Lr : Zlength r = 8 + 8 * pages_of b + Zlength inline) by (apply Zlength_replicate; lia).
  assert (Hd : forall k, Z.of_nat k <= Zlength r -> Zlength (drop k r) = Zlength r - Z.of_nat k).
  { intros k Hk. unfold Zlength in *. rewrite length_drop. lia. }
  rewrite store_tail by lia. erewrite hbind_Ok by done.
  rewrite store_tail by (rewrite ?Zlength_app, ?Zlength_le_split, ?Hd; lia). erewrite hbind_Ok by done. rewrite land_mask, drop_drop.
  replace (Z.to_nat (pages_of b)) with (length l) by (unfold Zlength in Hl; lia).
  set (p' := (p ++ _) ++ le_split 4 (Buffer b mod 4096)).
  assert (Lp' : Zlength p' = 32) by (unfold p'; rewrite !Zlength_app, !Zlength_le_split; lia).
  assert (E := write_bounce_pfns_spec m l (head l) p' 0 (drop (4 + 4) r) Hp). rewrite Hd in E by lia.
  erewrite hbind_Ok by (apply E; lia). cbn beta iota.
  rewrite ASSERT_true. erewrite hbind_Ok by done. rewrite drop_drop.
  rewrite CopyMem_exact.
  - unfold gpa_packet, range_bytes, p', p. rewrite !Zlength_app, !Zlength_le_split, Zlength_pfn_bytes, Zlength_bounce_pfns, Hl, <- !app_assoc.
    change (Z.of_nat 4) with 4. replace (24 + (4 + (4 + 8 * pages_of b))) with (24 + (8 + 8 * pages_of b)) by lia. done.
  - rewrite Zlength_app, Lp', Zlength_pfn_bytes, Zlength_bounce_pfns. lia.
  - rewrite Hd by (unfold Zlength in *; lia). unfold Zlength in *. lia.
Qed.
End Packets.

(** ** Addresses *)
Section Addresses.
Context {B : BuildOptions} {S : Services} {D : Dma} (HS : services_ok).

(** Where a page is: a multiple of the page size below [2^64], for the host too,
    and no other page is there. *)
Lemma page_place fl held m q p : bounce_inv fl held m -> pages m !! q = Some p -> exists K P blk, K mod 4096 = 0 /\ P mod 4096 = 0 /\
  BounceBlock p ∈ BounceBlockListHead m /\ blocks m !! BounceBlock p = Some blk /\ q.1 = BouncePageStructureBase blk /\
  0 <= q.2 < BlockPageCount blk /\ PageVA p = BlockBase blk + 4096 * q.2 + K /\ HostVisiblePA p = BlockBase blk + 4096 * q.2 + P /\
  BlockBase blk mod 4096 = 0 /\ 0 <= HostVisiblePA p < 2 ^ 64 /\ forall a, 0 <= a < 2 ^ 47 -> shared_va a = a + K.
Proof.
  intros I Ep. destruct (bi_home _ _ _ I q p Ep) as (blk & Hin & Eb & H1 & H2 & _ & HVA & HPA).
  destruct (bi_blocks _ _ _ I _ Hin) as (blk' & Eb' & Ob). assert (blk' = blk) as -> by congruence.
  destruct (bo_base _ _ _ _ Ob) as (B1 & B2 & B3). destruct (shared_shift HS) as (K & P & HK & HP & Hk).
  destruct (Hk (BlockBase blk) ltac:(lia)) as (V1 & V2 & _). destruct (Hk (BlockBase blk + 4096 * q.2) ltac:(lia)) as (_ & _ & _ & V4).
  exists K, P, blk. rewrite HVA, HPA, V1, V2. split_and!; try done; try lia. intros a Ha. by apply Hk.
Qed.

Lemma va_inj fl held m q q' p p' : bounce_inv fl held m -> pages m !! q = Some p -> pages m !! q' = Some p' -> PageVA p = PageVA p' -> q = q'.
Proof.
  intros I Ep Ep' E. destruct (page_place _ _ _ _ _ I Ep) as (K & _ & blk & _ & _ & Hin & Eb & H1 & H2 & HV & _ & _ & _ & HK).
  destruct (page_place _ _ _ _ _ I Ep') as (K' & _ & blk' & _ & _ & Hin' & Eb' & H1' & H2' & HV' & _ & _ & _ & HK').
  assert (K = K') as <- by (pose proof (HK 0 ltac:(lia)); pose proof (HK' 0 ltac:(lia)); lia).
  destruct (decide (BounceBlock p = BounceBlock p')) as [Eq|Hne].
  - rewrite Eq in Eb. assert (blk' = blk) as -> by congruence. destruct q, q'; cbn in *. f_equal; lia.
  - pose proof (bi_disjoint _ _ _ I _ _ _ _ Hin Hin' Hne Eb Eb'). lia.
Qed.

Lemma NoDup_va fl l held m : bounce_inv fl (l :: held) m -> NoDup (va_of m <$> l).
Proof.
  intros I. pose proof (bi_once _ _ _ I) as Hn. unfold all_pages in Hn. cbn [concat] in Hn. rewrite <- app_assoc in Hn.
  apply list.NoDup_app in Hn as [Hn _]. pose proof (bi_held _ _ _ I) as Hh. apply list.Forall_cons in Hh as [Hl _].
  apply NoDup_fmap_2_strong; [|done]. intros q q' Hq Hq' E.
  destruct (plist_lookup _ _ _ q Hl Hq) as [p Ep], (plist_lookup _ _ _ q' Hl Hq') as [p' Ep'].
  unfold va_of in E. rewrite Ep, Ep' in E. by eapply va_inj.
Qed.

(** The address the host computes for byte [j] of a bounced buffer. *)
Lemma bounce_address fl l held m b j : bounce_inv fl (l :: held) m -> external_ok b -> Zlength l = pages_of b -> 0 <= j < BufferSize b ->
  let k := Buffer b mod 4096 + j in
  exists q p, l !! Z.to_nat (k / 4096) = Some q /\ pages m !! q = Some p /\
    host_address (range_of b (bounce_pfns m l)) j = HostVisiblePA p + k mod 4096.
Proof.
  intros I Hb Hl Hj k. pose proof (bi_held _ _ _ I) as Hh. apply list.Forall_cons in Hh as [Hp _].
  assert (Hk : 0 <= k / 4096 < Zlength l) by (rewrite Hl; unfold k, pages_of; zlia).
  destruct (lookup_lt_is_Some_2 l (Z.to_nat (k / 4096))) as [q Eq]; [unfold Zlength in Hk; lia|].
  destruct (plist_lookup _ _ _ q Hp) as [p Ep]; [by eapply list_elem_of_lookup_2|]. exists q, p. split_and!; [done|done|].
  destruct (page_place _ _ _ _ _ I Ep) as (K & P & blk & HK & HP & _ & _ & _ & _ & _ & HPA & HB & _).
  unfold host_address, range_of. cbn [hr_Pfns hr_ByteOffset]. fold k.
  erewrite list_lookup_total_correct by (unfold bounce_pfns; rewrite list_lookup_fmap, Eq; reflexivity).
  unfold pa_of. rewrite Ep. cbn. f_equal. rewrite HPA. zlia.
Qed.

Lemma bounce_pfns_range fl l held m : bounce_inv fl (l :: held) m -> Forall (fun v => 0 <= v < 2 ^ 64) (bounce_pfns m l).
Proof.
  intros I. pose proof (bi_held _ _ _ I) as Hh. apply list.Forall_cons in Hh as [Hp _]. apply list.Forall_forall. intros v Hv.
  apply list_elem_of_fmap in Hv as (q & -> & Hq). destruct (plist_lookup _ _ _ q Hp Hq) as [p Ep].
  destruct (page_place _ _ _ _ _ I Ep) as (_ & _ & _ & _ & _ & _ & _ & _ & _ & _ & _ & _ & HR & _).
  unfold pa_of. rewrite Ep. cbn. split; [apply Z.div_pos; lia|]. apply Z.div_lt_upper_bound; lia.
Qed.
End Addresses.

(** ** Whole copies *)
Section Copies.
Context {B : BuildOptions} {S : Services} {D : Dma} (HS : services_ok) (HQ : forall t va c, dma t va c = c).

Lemma copy_in_ok fl l held m b ext : bounce_inv fl (l :: held) m -> client m !! Buffer b = Some ext -> external_ok b ->
  0 < BufferSize b <= Zlength ext -> Zlength l = pages_of b ->
  exists m', EmclpCopyBouncePagesToExternalBuffer b (head l) true m = Ok (tt, m') /\ only_frames m m' /\
    page_data m' l = replicate (Z.to_nat (Buffer b mod 4096)) 0 ++ take (Z.to_nat (BufferSize b)) ext ++
      replicate (Z.to_nat (4096 * Zlength l - Buffer b mod 4096 - BufferSize b)) 0 /\
    forall va, va ∉ (va_of m <$> l) -> frames m' !! va = frames m !! va.
Proof.
  intros I He (H1 & H2 & H3) Hs Hl. destruct (ready_list HS _ _ _ _ I) as [Hr Hp]. unfold pages_of in Hl.
  unfold EmclpCopyBouncePagesToExternalBuffer. change EFI_PAGE_SIZE with 4096.
  destruct (copy_loop_in HQ (Buffer b) (Z.to_nat (BufferSize b / 4096 + 2)) l (head l) (Buffer b mod 4096) 0 (BufferSize b) ext m)
    as (m' & E & C & Hd & Ho); try done; try lia; try zlia; [by eapply NoDup_va|].
  destruct l as [|q l]; [unfold Zlength in Hl; cbn in Hl; zlia|]. cbn [head] in *. rewrite ASSERT_true.
  erewrite hbind_Ok by done. rewrite (hbind_Ok _ _ _ _ _ E). rewrite ASSERT_true. exists m'. split_and!; try done.
Qed.

Lemma copy_out_ok fl l held m b ext : bounce_inv fl (l :: held) m -> client m !! Buffer b = Some ext -> external_ok b ->
  0 < BufferSize b <= Zlength ext -> Zlength l = pages_of b ->
  exists m', EmclpCopyBouncePagesToExternalBuffer b (head l) false m = Ok (tt, m') /\
    m' = set_tick (tick m') (set_client (<[Buffer b := zslice (Buffer b mod 4096) (BufferSize b) (page_data m l) ++
      drop (Z.to_nat (BufferSize b)) ext]> (client m)) m).
Proof.
  intros I He (H1 & H2 & H3) Hs Hl. destruct (ready_list HS _ _ _ _ I) as [Hr Hp]. pose proof (Zlength_page_data m l Hr) as Hpd. unfold pages_of in Hl.
  unfold EmclpCopyBouncePagesToExternalBuffer. change EFI_PAGE_SIZE with 4096.
  destruct (copy_loop_out HQ (Buffer b) (Z.to_nat (BufferSize b / 4096 + 2)) l (head l) (Buffer b mod 4096) 0 (BufferSize b) ext m)
    as (m' & E & Em); try done; try lia; try zlia.
  unfold patched in Em. rewrite Zlength_zslice in Em by (rewrite ?Hpd; zlia).
  destruct l as [|q l]; [unfold Zlength in Hl; cbn in Hl; zlia|]. cbn [head] in *. rewrite ASSERT_true.
  erewrite hbind_Ok by done. rewrite (hbind_Ok _ _ _ _ _ E). rewrite ASSERT_true. by exists m'.
Qed.
End Copies.

(** As many ranges as buffers fit in the bytes of the ranges. *)
Lemma count_ranges bs : Forall external_ok bs -> 8 * Zlength bs <= Zlength (ranges_bytes bs).
Proof.
  unfold ranges_bytes. induction 1 as [|b bs Hb _ IH]; [done|]. rewrite fmap_cons. cbn [concat].
  rewrite Zlength_app, Zlength_range_bytes, Zlength_direct_pfns by done. pose proof (pages_of_bound b Hb).
  unfold Zlength in *. cbn [length]. lia.
Qed.

(** ** Properties *)

(** C16. A GPA direct packet names the client's buffers exactly.  Written for
    any list of buffers and any inline data up to 512 KB, with whatever bytes
    pad it to a whole word on the ring, the packet read by the host's decoder
    gives one range per buffer, in order; byte [j] of the range is at address
    [Buffer + j] for every byte of the buffer, wherever it crosses a page; and
    the inline data is what the client passed. *)
Theorem gpa_direct_decodes (inline : list Z) bs tid rc tail :
  Forall external_ok bs -> 24 + Zlength (ranges_bytes bs) + Zlength inline < 2 ^ 19 - 8 ->
  Zlength tail = - (24 + Zlength (ranges_bytes bs) + Zlength inline) mod 8 ->
  exists packet rs,
    EmclWriteGpaDirectPacket inline (Zlength inline) bs tid rc
      (replicate (Z.to_nat (24 + EmclGpaRangesSize bs + Zlength inline)) 0) = Ok packet /\
    host_decode_gpa (packet ++ tail) = (rs, inline ++ tail) /\
    Forall2 (fun b r => hr_ByteCount r = BufferSize b /\ forall j, 0 <= j < BufferSize b -> host_address r j = Buffer b + j) bs rs.
Proof.
  intros Hb Hs Ht. pose proof (Zlength_nonneg inline). pose proof (Zlength_nonneg (ranges_bytes bs)).
  rewrite EmclGpaRangesSize_spec by (done || lia). eexists _, _. split; [by apply EmclWriteGpaDirectPacket_spec|]. split.
  - apply host_decode_spec; [|by apply Zlength_ranges_align|done| |done].
    + pose proof (count_ranges bs Hb). pose proof (Zlength_nonneg bs). lia.
    + intros r. unfold Zlength. rewrite Nat2Z.id. by apply host_ranges_spec.
  - clear -Hb. induction Hb as [|b bs Hb _ IH]; [constructor|]. constructor; [|done]. split; [done|]. intros j Hj. by apply direct_address.
Qed.

Lemma gpa_direct_decodes_witness : exists packet rs,
  EmclWriteGpaDirectPacket [1; 2; 3] 3 [mkExternal 5000 4000; mkExternal 8192 1] 7 true (replicate 67 0) = Ok packet /\
  host_decode_gpa (packet ++ [9; 9; 9; 9; 9]) = (rs, [1; 2; 3; 9; 9; 9; 9; 9]) /\ (fun r => host_address r 3999) <$> rs !! 0%nat = Some 8999.
Proof.
  destruct (gpa_direct_decodes [1; 2; 3] [mkExternal 5000 4000; mkExternal 8192 1] 7 true [9; 9; 9; 9; 9]) as (packet & rs & E1 & E2 & E3).
  - repeat constructor; by vm_compute.
  - by vm_compute.
  - by vm_compute.
  - exists packet, rs. split; [exact E1|]. split; [exact E2|]. inversion E3 as [|? r ? rs' [_ Hr] H1 H2]; subst. cbn [lookup list_lookup fmap option_fmap option_map]. f_equal. rewrite Hr; [done|cbn; lia].
Defined.

(** C14. Through bounce pages the host sees the client's buffer and nothing
    else.  Let the host leave the pages alone while they are filled.  After
    [EmclpCopyBouncePagesToExternalBuffer] the pages of a packet hold zeros up to
    the buffer's offset, the buffer's bytes, and zeros to the end, so no earlier
    contents remain; no other shared page changes; and the packet then written,
    read by the host's decoder, gives one range whose byte [j] is at the
    host-visible address of the page and offset where byte [j] of the buffer
    was put. *)
Theorem bounce_exposes_buffer {B : BuildOptions} {S : Services} {D : Dma} fl l held m b ext inline tid rc tail :
  services_ok -> (forall t va c, dma t va c = c) -> bounce_inv fl (l :: held) m -> client m !! Buffer b = Some ext ->
  external_ok b -> 0 < BufferSize b <= Zlength ext -> Zlength l = pages_of b ->
  32 + 8 * pages_of b + Zlength inline < 2 ^ 19 - 8 -> Zlength tail = - Zlength inline mod 8 ->
  exists m' packet r,
    EmclpCopyBouncePagesToExternalBuffer b (head l) true m = Ok (tt, m') /\
    page_data m' l = replicate (Z.to_nat (Buffer b mod 4096)) 0 ++ take (Z.to_nat (BufferSize b)) ext ++
      replicate (Z.to_nat (4096 * Zlength l - Buffer b mod 4096 - BufferSize b)) 0 /\
    (forall va, va ∉ (va_of m <$> l) -> frames m' !! va = frames m !! va) /\
    EmclWriteGpaDirectPacketBounce inline (Zlength inline) b (head l) tid rc
      (replicate (Z.to_nat (32 + 8 * pages_of b + Zlength inline)) 0) m' = Ok (packet, m') /\
    host_decode_gpa (packet ++ tail) = ([r], inline ++ tail) /\ hr_ByteCount r = BufferSize b /\
    (forall j, 0 <= j < BufferSize b -> let k := Buffer b mod 4096 + j in
      exists q p, l !! Z.to_nat (k / 4096) = Some q /\ pages m' !! q = Some p /\ host_address r j = HostVisiblePA p + k mod 4096).
Proof.
  intros HS HQ I He Hb Hs Hl Hsz Ht. pose proof (Zlength_nonneg inline). pose proof (pages_of_bound b Hb).
  destruct (copy_in_ok HS HQ fl l held m b ext I He Hb Hs Hl) as (m' & E1 & Hof & Hd & Ho).
  assert (Epg : pages m' = pages m) by (hnf in Hof; by rewrite Hof).
  pose proof (bi_held _ _ _ I) as Hh. apply list.Forall_cons in Hh as [Hp _].
  assert (Epf : bounce_pfns m' l = bounce_pfns m l) by (unfold bounce_pfns, pa_of; by rewrite Epg).
  assert (Lr : Zlength (range_bytes b (bounce_pfns m l)) = 8 + 8 * pages_of b) by (rewrite Zlength_range_bytes, Zlength_bounce_pfns; lia).
  eexists m', _, (range_of b (bounce_pfns m l)). split_and!; [done|done|done| | |done|].
  - apply EmclWriteGpaDirectPacketBounce_spec; [by rewrite Epg|done|done|done].
  - rewrite Epf. apply host_decode_spec; [lia|rewrite Lr; zlia|lia| |].
    + intros r. change (Z.to_nat 1) with 1%nat.
      rewrite host_range_spec; [done|done|by rewrite Zlength_bounce_pfns|by eapply bounce_pfns_range].
    + rewrite Lr, Ht. zlia.
  - intros j Hj. rewrite Epg. by apply (bounce_address HS fl l held).
Qed.

(** Two pages of a new block, and a buffer of 5000 bytes that spans them. *)
#[local] Existing Instance debug_build.
#[local] Existing Instance calm.
Definition two_page_buffer : EFI_EXTERNAL_BUFFER := mkExternal 65636 5000.
Definition two_page_mem : memory := mkMem ∅ ∅ ∅ ∅ ∅ {[ 65636 := replicate 5000 7 ]} [] 0.

Lemma two_pages_free : exists fl m, bounce_inv fl [] m /\ free_total fl m = 2%nat /\ client m = client two_page_mem.
Proof.
  assert (I0 : bounce_inv (fun _ => []) [] two_page_mem) by (by apply no_blocks).
  destruct (allocate_ok bump_ok _ _ two_page_mem 2 I0) as (st & m1 & E & Hst); [lia|].
  assert (Est : match EmclpAllocateBounceBlock (4096 * 2) two_page_mem with Ok (st, _) => EFI_ERROR st | Fault _ => true end = false)
    by (vm_compute; reflexivity).
  rewrite E in Est. rewrite Est in Hst. destruct Hst as (_ & b & x & a & fl & A & I1 & Hf).
  exists fl, m1. split_and!; [done|by rewrite Hf|apply A].
Qed.

Lemma two_pages_held : exists fl l m, bounce_inv fl [l] m /\ Zlength l = 2 /\ client m = client two_page_mem.
Proof.
  destruct two_pages_free as (fl & m1 & I1 & Hf & Hc).
  destruct (acquire_ok fl [] m1 2 I1) as (r & fl' & m2 & _ & R & Hr); [lia|]. destruct r as [q|].
  - destruct Hr as (l & _ & Hl & I2). exists fl', l, m2. split_and!; [done|done|]. by rewrite (rl_client _ _ R).
  - destruct Hr as [Hr _]. rewrite Hf in Hr. lia.
Qed.

Lemma bounce_exposes_buffer_witness : exists l m m' packet r,
  EmclpCopyBouncePagesToExternalBuffer two_page_buffer (head l) true m = Ok (tt, m') /\
  page_data m' l = replicate 100 0 ++ replicate 5000 7 ++ replicate 3092 0 /\
  host_decode_gpa (packet ++ [0; 0; 0; 0; 0]) = ([r], [1; 2; 3; 0; 0; 0; 0; 0]).
Proof.
  destruct two_pages_held as (fl & l & m & I & Hl & Hc).
  destruct (bounce_exposes_buffer fl l [] m two_page_buffer (replicate 5000 7) [1; 2; 3] 1 true [0; 0; 0; 0; 0])
    as (m' & packet & r & E1 & E2 & _ & _ & E3 & _).
  - apply bump_ok.
  - done.
  - exact I.
  - rewrite Hc. done.
  - by vm_compute.
  - by vm_compute.
  - exact Hl.
  - by vm_compute.
  - by vm_compute.
  - exists l, m, m', packet, r. split; [exact E1|]. split; [|exact E3]. rewrite E2, Hl. vm_compute. reflexivity.
Defined.

(** Data comes back as the host left it.  Copying the pages of a packet
    back to the client returns and replaces exactly the bytes of the buffer, by
    those of the pages at the buffer's offset, whatever the host wrote there
    before the copy; the rest of the client's memory is untouched.  In
    particular copying out and back without the host leaves the client's memory
    as it was. *)
Lemma bounce_copies_back {B : BuildOptions} {S : Services} {D : Dma} fl l held m b ext :
  services_ok -> (forall t va c, dma t va c = c) -> bounce_inv fl (l :: held) m -> client m !! Buffer b = Some ext ->
  external_ok b -> 0 < BufferSize b <= Zlength ext -> Zlength l = pages_of b ->
  (exists m1, EmclpCopyBouncePagesToExternalBuffer b (head l) false m = Ok (tt, m1) /\ pages m1 = pages m /\ frames m1 = frames m /\
    client m1 = <[Buffer b := zslice (Buffer b mod 4096) (BufferSize b) (page_data m l) ++ drop (Z.to_nat (BufferSize b)) ext]> (client m)) /\
  (exists m1 m2, EmclpCopyBouncePagesToExternalBuffer b (head l) true m = Ok (tt, m1) /\
    EmclpCopyBouncePagesToExternalBuffer b (head l) false m1 = Ok (tt, m2) /\ client m2 = client m).
Proof.
  intros HS HQ I He Hb Hs Hl. split.
  - destruct (copy_out_ok HS HQ fl l held m b ext I He Hb Hs Hl) as (m1 & E & Em). exists m1. rewrite Em at 2 3 4. done.
  - destruct (copy_in_ok HS HQ fl l held m b ext I He Hb Hs Hl) as (m1 & E1 & Hof & Hd & _).
    assert (I1 : bounce_inv fl (l :: held) m1).
    { destruct (copy_safe HS (fun t va c => eq_ind_r (fun z => Zlength z = Zlength c) eq_refl (HQ t va c)) fl held m l b ext true I He Hb Hs Hl)
        as (mx & Ex & Cx). assert (mx = m1) as -> by congruence. by apply (copied_inv fl (l :: held) m m1). }
    assert (Ec : client m1 = client m) by (hnf in Hof; by rewrite Hof).
    rewrite <- Ec in He. destruct (copy_out_ok HS HQ fl l held m1 b ext I1 He Hb Hs Hl) as (m2 & E2 & Em).
    exists m1, m2. split_and!; [done|done|]. rewrite Em. cbn. rewrite <- Ec. apply insert_id. rewrite He. f_equal.
    rewrite Hd. unfold zslice. rewrite drop_app_length' by (by rewrite length_replicate).
    rewrite take_app_length' by (rewrite length_take; unfold Zlength in *; lia). by rewrite take_drop.
Qed.

(** Bounce pages are neither lost nor handed out twice.  With [free_total]
    pages free, a request for [n] pages succeeds exactly if [n] do not exceed
    them.  On success it yields a list of [n] distinct pages, none of them held
    by another packet, and [n] pages less are free; releasing the list makes as
    many pages free as before.  On failure no page changes hands: as many are
    free as before, and the lists held by other packets are intact. *)
Lemma bounce_acquire_exact {B : BuildOptions} {S : Services} {D : Dma} fl held m n : bounce_inv fl held m -> 0 < n ->
  exists r fl' m', EmclpAcquireBouncePages n m = Ok (r, m') /\ client m' = client m /\ frames m' = frames m /\
    if decide (n <= Z.of_nat (free_total fl m)) then
      exists l fl'' m'', r = head l /\ Zlength l = n /\ NoDup l /\ (forall q, q ∈ l -> q ∉ concat held) /\
        bounce_inv fl' (l :: held) m' /\ Z.of_nat (free_total fl' m') = Z.of_nat (free_total fl m) - n /\
        EmclpReleaseBouncePages r m' = Ok (tt, m'') /\ bounce_inv fl'' held m'' /\ free_total fl'' m'' = free_total fl m
    else r = None /\ bounce_inv fl' held m' /\ free_total fl' m' = free_total fl m.
Proof.
  intros I Hn. destruct (acquire_ok fl held m n I Hn) as (r & fl' & m' & E & R & Hr). exists r, fl', m'.
  split_and!; [done|apply R|apply R|]. pose proof (bounce_count _ _ _ I) as C0. pose proof (relinks_size _ _ R) as Hsz.
  destruct r as [q|].
  - destruct Hr as (l & Hl & Hz & I1). pose proof (bounce_count _ _ _ I1) as C1. cbn [concat] in C1. rewrite length_app in C1.
    assert (Z.of_nat (length l) = n) by (unfold Zlength in Hz; lia). rewrite decide_True by lia.
    destruct (release_ok fl' l held m' I1) as (fl'' & m'' & E2 & I2 & R2). pose proof (bounce_count _ _ _ I2) as C2.
    pose proof (relinks_size _ _ R2) as Hsz2. exists l, fl'', m''.
    pose proof (bi_once _ _ _ I1) as Hnd. unfold all_pages in Hnd. cbn [concat] in Hnd. rewrite <- app_assoc in Hnd.
    apply list.NoDup_app in Hnd as (N1 & N2 & _). split_and!; try done; try lia.
    + intros x Hx Hc. apply (N2 x Hx). apply elem_of_app. by left.
    + by rewrite Hl.
  - destruct Hr as [Hlt I1]. rewrite decide_False by lia. pose proof (bounce_count _ _ _ I1) as C1. split_and!; [done|done|lia].
Qed.

