(* ===== verification/EmclFinish.v ===== *)
(** What the completion of a packet gives back: its bounce pages are free again,
    its data is in the client's buffer, and nothing else of the heap changes. *)
From stdpp Require Import base list numbers list_numbers option gmap fin_map_dom functions.
From Stdlib Require Import ZArith Lia.
From S2P Require Import Prelude Circular PkRing PkRingSafe EmclPacket EmclPacketProps EmclBounce EmclBounceInv EmclBounceAlloc EmclBounceCopy Emcl Heap EmclSafe EmclSafeSend EmclSafeOps EmclSafeQueue EmclData.
Open Scope Z_scope.
Import PkRing EmclPacket EmclBounce Emcl.

(** Whether the data is copied back. *)
Definition copies_back (e : EMCL_COMPLETION_ENTRY) : bool := Z.land (SendPacketFlags e) EMCL_SEND_FLAG_DATA_OUT_ONLY =? 0.

(** The client's memory with the bytes [data] of the pages in the buffer. *)
Definition delivered (b : EFI_EXTERNAL_BUFFER) (data : list Z) (c : gmap Z (list Z)) : gmap Z (list Z) :=
  match c !! Buffer b with
  | Some ext => <[Buffer b := zslice (Buffer b mod 4096) (BufferSize b) data ++ drop (Z.to_nat (BufferSize b)) ext]> c
  | None => c
  end.

(** From heap [m] to heap [m'] the completion of [e] gives back its pages [l]: they
    were held by [e] and by no other packet, and are free.  No memory is allocated or
    released; only the buffer of [e] changes, if at all, and while the host leaves
    the pages alone it gets exactly the bytes of the pages at the offset of the
    buffer. *)
Definition gives_back {S : Services} {D : Dma} (e : EMCL_COMPLETION_ENTRY) (m m' : memory) : Prop :=
  match EmclBouncePageList e with
  | None => m' = m
  | Some _ => exists fl fl' l held, EmclBouncePageList e = head l /\ Zlength l = pages_of (OriginalBuffer e) /\
      bounce_inv fl (l :: held) m /\ bounce_inv fl' held m' /\ free_total fl' m' = (free_total fl m + length l)%nat /\
      pool m' = pool m /\ page_allocs m' = page_allocs m /\
      (forall a, a <> Buffer (OriginalBuffer e) -> client m' !! a = client m !! a) /\
      (copies_back e = false -> client m' = client m) /\
      (copies_back e = true -> (forall t va c, dma t va c = c) -> client m' = delivered (OriginalBuffer e) (page_data m l) (client m))
  end.

(** ** The memory of the client *)
Definition elsewhere (buf : Z) (m m' : memory) : Prop := forall a, a <> buf -> client m' !! a = client m !! a.

#[export] Instance elsewhere_preorder buf : PreOrder (elsewhere buf).
Proof. split; [by intros m a|]. intros m1 m2 m3 H1 H2 a Ha. rewrite (H2 a Ha). by apply H1. Qed.

Definition local {A} (buf : Z) (c : EmclBounce.H A) : Prop := forall m a m', c m = Ok (a, m') -> elsewhere buf m m'.

Section Finish.
Context {B : BuildOptions} {S : Services} {D : Dma} (HS : services_ok) (HD : dma_ok).

Lemma local_bind {A R} buf (c : EmclBounce.H A) (k : A -> EmclBounce.H R) : local buf c -> (forall a, local buf (k a)) -> local buf (c ≫= k).
Proof.
  intros Hc Hk m a m'. unfold mbind, H_bind. destruct (c m) as [[x m1]|f] eqn:E; [|done]. intros E'.
  transitivity m1; [by apply (Hc _ _ _ E)|by apply (Hk _ _ _ _ E')].
Qed.
Lemma local_ret {A} buf (a : A) : local buf (mret a).
Proof. by intros m x m' [= _ <-]. Qed.
Lemma local_lift {A} buf (r : result A) : local buf (hlift r).
Proof. intros m a m'. unfold hlift. destruct r; [|done]. by intros [= _ <-]. Qed.
Lemma local_page buf q : local buf (get_page q).
Proof. intros m a m'. unfold get_page. destruct (pages m !! q); [|done]. by intros [= _ <-]. Qed.
Lemma local_client buf b : local buf (get_client b).
Proof. intros m a m'. unfold get_client. destruct (client m !! b); [|done]. by intros [= _ <-]. Qed.
Lemma local_frame {A} buf va (f : list Z -> result (A * list Z)) : local buf (with_frame va f).
Proof. intros m a m'. unfold with_frame. destruct (frames m !! va); [|done]. destruct (f _) as [[x c]|]; [|done]. by intros [= _ <-]. Qed.
Lemma local_insert buf ext : local buf (hmod (fun m => set_client (<[buf := ext]> (client m)) m)).
Proof. intros m a m' [= _ <-] x Hx. cbn. by rewrite lookup_insert_ne. Qed.

Ltac local := repeat (apply local_ret || apply local_lift || apply local_page || apply local_client || apply local_frame || apply local_insert ||
  (apply local_bind; [|intros ?]) || match goal with |- local _ (if ?x then _ else _) => destruct x end).

Lemma copy_loop_local fuel : forall buf hd off extOff toGo dir, local buf (copy_loop fuel buf hd off extOff toGo dir).
Proof.
  induction fuel as [|fuel IH]; intros; cbn [copy_loop]; (destruct (_ =? 0); [apply local_ret|]); [apply local_lift|].
  apply local_bind; [apply local_lift|]. intros _. destruct hd as [q|]; [|apply local_lift]. unfold write_frame. local. apply IH.
Qed.

Lemma copy_local b hd dir : local (Buffer b) (EmclpCopyBouncePagesToExternalBuffer b hd dir).
Proof. unfold EmclpCopyBouncePagesToExternalBuffer. local. apply copy_loop_local. Qed.

(** ** Finishing an entry *)
Context (Do Di : Z).
Abbreviation Inv := (emcl_inv Do Di).

(** The copy back, if there is one. *)
Lemma run_copy_back e fl l held m : bounce_inv fl (l :: held) m -> bounced m e l ->
  exists m1, (if copies_back e then EmclpCopyBouncePagesToExternalBuffer (OriginalBuffer e) (head l) false else mret tt) m = Ok (tt, m1) /\
    copied m m1 /\ elsewhere (Buffer (OriginalBuffer e)) m m1 /\ (copies_back e = false -> client m1 = client m) /\
    (copies_back e = true -> (forall t va c, dma t va c = c) -> client m1 = delivered (OriginalBuffer e) (page_data m l) (client m)).
Proof.
  intros I (H1 & H2 & H3 & c & Ec & Hc). destruct (copies_back e); [|exists m; split_and!; done].
  destruct (copy_safe HS HD fl _ m l (OriginalBuffer e) c false I Ec H1) as (m1 & E & C); [lia|done|]. exists m1. split_and!; try done.
  - by eapply copy_local.
  - intros _ HQ. destruct (copy_out_ok HS HQ fl l held m (OriginalBuffer e) c I Ec H1) as (m2 & E2 & Em); [lia|done|].
    assert (m2 = m1) as -> by congruence. rewrite Em. unfold delivered. by rewrite Ec.
Qed.

Lemma finish_gives_back pi loc pe pp s p e s' : Inv pi loc (p :: pe) pp s -> entry_ready p s -> entries s !! p = Some e ->
  finish_entry p e s = Ok (tt, s') -> gives_back e (heap s) (heap s').
Proof.
  intros I (fl & hl & HB & Hr) Ep. unfold finish_entry, gives_back. destruct (EmclBouncePageList e) as [q|] eqn:Hb; [|by intros [= <-]].
  assert (Hhd : Some q = head (hl p)) by (rewrite <- Hb; by apply HB).
  assert (Hbd : bounced (heap s) e (hl p)) by (apply Hr; [done|]; by intros En; rewrite En in Hhd).
  assert (HBp : bounce_inv fl (hl p :: (hl <$> keys (delete p (entries s)))) (heap s)).
  { eapply bounce_swap; [|exact (proj1 HB)]. apply hl_own. eauto. }
  rewrite Hhd in *. set (l := hl p) in *. set (held := hl <$> _) in *.
  destruct (run_copy_back e fl l held (heap s) HBp Hbd) as (m1 & E1 & C & Hel & Hno & Hyes). fold (copies_back e).
  rewrite (ebind_Ok _ _ s tt (set_heap m1 s)).
  2:{ destruct (copies_back e); [unfold on_heap; by rewrite E1|]. injection E1 as <-. by destruct s. }
  destruct (copied_inv fl (l :: held) (heap s) m1 HBp C) as [_ I1].
  destruct (release_ok fl l held m1 I1) as (fl' & m2 & E2 & I2 & R).
  rewrite (ebind_Ok _ _ (set_heap m1 s) tt (set_heap m2 s)) by (unfold on_heap; cbn; by rewrite E2).
  unfold upd_entry, get_entry, mbind, E_bind. destruct (p =? 0); [done|]. cbn. rewrite Ep. intros [= <-]. cbn.
  exists fl, fl', l, held. pose proof (rl_client _ _ R) as Ec. split_and!; try done; [apply Hbd|..].
  - pose proof (bounce_count _ _ _ HBp) as N1. pose proof (bounce_count _ _ _ I2) as N2. rewrite (relinks_size _ _ R), (co_pages _ _ C), N1 in N2.
    cbn [concat] in N2. rewrite length_app in N2. lia.
  - by rewrite (rl_pool _ _ R), (co_pool _ _ C).
  - by rewrite (rl_allocs _ _ R), (co_allocs _ _ C).
  - intros a Ha. rewrite Ec. by apply Hel.
  - rewrite Ec. auto.
  - rewrite Ec. auto.
Qed.
End Finish.
