(* ===== verification/EmclProps.v ===== *)
(** Properties of the EMCL channel as a whole: what a client that keeps to the
    protocol can rely on, whatever the host does. *)
From stdpp Require Import base list numbers list_numbers option gmap fin_map_dom functions.
From Stdlib Require Import ZArith Lia.
From S2P Require Import Prelude Circular PkRing PkRingSafe EmclPacket EmclPacketProps EmclBounce EmclBounceInv EmclBounceAlloc EmclBounceCopy Emcl Heap EmclSafe EmclSafeSend EmclSafeOps EmclSafeQueue EmclLife EmclConcrete EmclData EmclFinish EmclHandles.
Open Scope Z_scope.
Import PkRing EmclPacket EmclBounce Emcl.

(** ** A channel and its calls *)

(** The calls a channel sees: the protocol's operations, and the event that
    processes the rings. *)
Inductive emcl_call : Type :=
  | CallStart (inPages outPages : Z)
  | CallStop (tpl : Z)
  | CallSend (inline : list Z) (n : Z) (ext : option (list EFI_EXTERNAL_BUFFER)) (flags routine context : Z)
  | CallComplete (packet : Z) (buf : list Z) (n : Z)
  | CallCreateRange (handle : Z) (bs : list EFI_EXTERNAL_BUFFER) (writable : bool)
  | CallDestroyRange (handle : Z)
  | CallSetCallback (callback context tpl : Z)
  | CallProcess (fuel : nat).

Definition forget {A} (c : E A) : E unit := _ ← c; mret tt.

Definition run_call {B : BuildOptions} {P : Peer} {S : Services} {D : Dma} {C : Client} {V : Vmbus} (c : emcl_call) : E unit :=
  match c with
  | CallStart i o => forget (EmclStartChannel i o)
  | CallStop tpl => EmclStopChannel tpl
  | CallSend inline n ext flags routine cx => forget (EmclSendPacketEx inline n ext flags routine cx)
  | CallComplete k buf n => forget (EmclCompletePacket k buf n)
  | CallCreateRange h bs w => forget (EmclCreateGpaRange h bs w)
  | CallDestroyRange h => forget (EmclDestroyGpaRange h)
  | CallSetCallback cb cx tpl => forget (EmclSetReceiveCallback cb cx tpl)
  | CallProcess fuel => EmclProcessQueue fuel
  end.

(** What the protocol asks of the caller.  A channel is started when stopped
    and used when running; the buffers passed exist and have the length given,
    and packet sizes fit in 32 bits; a received packet is completed once.  The
    channel is stopped when nothing is queued and no completion is outstanding
    ([emcl_stop_outstanding] shows why). *)
Definition admissible (c : emcl_call) (s : emcl) : Prop :=
  match c with
  | CallStart i o => IsRunning (ctxt s) = false /\ 0 < i <= 2 ^ 19 /\ 0 < o <= 2 ^ 19
  | CallSetCallback _ _ _ => IsRunning (ctxt s) = false
  | CallStop _ => IsRunning (ctxt s) = true /\ OutgoingQueue (ctxt s) = [] /\ CompletionEntries (ctxt s) = []
  | CallSend inline n ext flags routine cx => IsRunning (ctxt s) = true /\ ex_ok inline n ext routine s
  | CallComplete k buf n => IsRunning (ctxt s) = true /\ is_Some (IncomingPackets s !! k) /\ 0 <= n <= Zlength buf /\ 32 + n < 2 ^ 32
  | CallCreateRange _ bs _ => IsRunning (ctxt s) = true /\ Forall external_ok bs /\ 41 + Zlength (ranges_bytes bs) < 2 ^ 32
  | CallDestroyRange _ | CallProcess _ => IsRunning (ctxt s) = true
  end.

(** The faults that are not errors of memory: the deliberate fail-fast on a
    misbehaving host, ASSERTs, a host that never stops sending, and the release
    of a completion entry that [EmclpSendPacket] has released already. *)
Definition tolerated (f : fault) : Prop :=
  match f with OutOfBounds | NullDeref | UseAfterFree => False | DoubleFree | AssertFailed | FailFast | Diverges => True end.

Section Channel.
Context {B : BuildOptions} {P : Peer} {S : Services} {D : Dma} {C : Client} {V : Vmbus}.

Inductive reachable (s0 : emcl) : emcl -> Prop :=
  | reach_init : reachable s0 s0
  | reach_call s c s' : reachable s0 s -> admissible c s -> run_call c s = Ok (tt, s') -> reachable s0 s'.

Context (HP : peer_ok) (HS : services_ok) (HD : dma_ok) (HV : vmbus_ok).
Context (HC : forall Do Di, ring_size Do -> ring_size Di -> client_ok Do Di tolerated).
Context (Fp : gset Z) (Fa : gmap Z Z).

Definition channel_inv (s : emcl) : Prop :=
  stopped Fp Fa s \/ exists i o, 0 < i <= 2 ^ 19 /\ 0 < o <= 2 ^ 19 /\ started Fp Fa i o s.

Lemma started_running i o s : started Fp Fa i o s -> IsRunning (ctxt s) = true.
Proof. intros (a & ip & op & _ & I). apply I. Qed.

Lemma inv_running s : channel_inv s -> IsRunning (ctxt s) = true -> exists i o, 0 < i <= 2 ^ 19 /\ 0 < o <= 2 ^ 19 /\ started Fp Fa i o s.
Proof. intros [[I _]|H] Hr; [|done]. pose proof (si_running _ _ _ I). congruence. Qed.

Lemma inv_stopped s : channel_inv s -> IsRunning (ctxt s) = false -> stopped Fp Fa s.
Proof. intros [I|(i & o & _ & _ & H)] Hr; [done|]. apply started_running in H. congruence. Qed.

(** A call on a running channel. *)
Lemma started_call {A} (c : E A) (X : emcl -> Prop) :
  (forall Do Di pi, ring_size Do -> ring_size Di -> esafe tolerated (fun s => emcl_inv Do Di pi [] [] [] s /\ X s) c (fun _ => emcl_inv Do Di pi [] [] [])) ->
  esafe tolerated (fun s => channel_inv s /\ IsRunning (ctxt s) = true /\ X s) c (fun _ => channel_inv).
Proof.
  intros Hc s (I & Hr & HX). destruct (inv_running s I Hr) as (i & o & Hi & Ho & a & ip & op & Hfr & I').
  destruct (page_ring _ Hi) as [_ Ri]. destruct (page_ring _ Ho) as [_ Ro].
  specialize (Hc _ _ _ Ro Ri s (conj I' HX)). destruct (c s) as [[x s']|f]; [|done]. right. exists i, o. split_and!; try lia. by exists a, ip, op.
Qed.

Lemma esafe_forget {A} (Q : emcl -> Prop) (c : E A) (R : emcl -> Prop) : esafe tolerated Q c (fun _ => R) -> esafe tolerated Q (forget c) (fun _ => R).
Proof. intros Hc. apply (esafe_bind tolerated _ _ _ (fun _ => R)); [done|]. intros _. by apply esafe_ret. Qed.

Lemma stopped_ctxt s c : stopped Fp Fa s -> CompletionEntries c = CompletionEntries (ctxt s) -> OutgoingQueue c = OutgoingQueue (ctxt s) ->
  IsRunning c = IsRunning (ctxt s) -> RingBufferPages c = RingBufferPages (ctxt s) -> RingBufferGpadl c = RingBufferGpadl (ctxt s) ->
  ReceiveEvent c = ReceiveEvent (ctxt s) -> stopped Fp Fa (set_ctxt c s).
Proof. intros [[] (H1 & H2 & H3)] E1 E2 E3 E4 E5 E6. split; [split|]; cbn; rewrite ?E1, ?E2, ?E3, ?E4, ?E5, ?E6; done. Qed.

Lemma safe_set_callback cb cx tpl : esafe tolerated (stopped Fp Fa) (EmclSetReceiveCallback cb cx tpl) (fun _ => stopped Fp Fa).
Proof.
  unfold EmclSetReceiveCallback. set (J := stopped Fp Fa).
  apply (esafe_bind _ _ _ _ (fun _ => J)); [apply safe_eget|]. intros r. apply (esafe_bind _ _ _ _ (fun _ => J)); [by apply safe_assert|]. intros _.
  apply (esafe_bind _ _ _ _ (fun _ => J)); [apply safe_eget|]. intros e. apply (esafe_bind _ _ _ _ (fun _ => J)); [by apply safe_assert|]. intros _.
  apply (esafe_bind _ _ _ _ (fun _ => J)); [apply safe_eget|]. intros old.
  apply (esafe_bind _ _ _ _ (fun _ => J)).
  { apply esafe_if; intros _; [|by apply esafe_ret]. apply esafe_mod. intros s Hs. by apply stopped_ctxt. }
  intros _. apply (esafe_bind _ _ _ _ (fun _ => J)); [|intros _; by apply esafe_ret].
  apply esafe_if; intros _; [|by apply esafe_ret]. apply esafe_mod. intros s Hs. by apply stopped_ctxt.
Qed.

Lemma call_safe c : esafe tolerated (fun s => channel_inv s /\ admissible c s) (run_call c) (fun _ => channel_inv).
Proof.
  assert (T1 : tolerated FailFast) by done. assert (T2 : tolerated DoubleFree) by done.
  assert (T3 : tolerated AssertFailed) by done. assert (T4 : tolerated Diverges) by done.
  destruct c as [i o|tpl|inline n ext flags routine cx|k buf n|h bs w|h|cb cx tpl|fuel]; cbn [run_call admissible].
  - apply esafe_forget. intros s (I & Hr & Hi & Ho). pose proof (inv_stopped s I Hr) as Hs.
    pose proof (safe_start HP HS tolerated Fp Fa HV i o Hi Ho s Hs) as Hst. destruct (EmclStartChannel i o s) as [[st s']|f]; [|done].
    destruct (EFI_ERROR st); [by left|]. right. exists i, o. split_and!; try lia. destruct Hst as (s1 & -> & Hst). by apply ready_started.
  - intros s (I & Hr & Hq & Hl). destruct (inv_running s I Hr) as (i & o & Hi & Ho & a & ip & op & Hfr & I').
    destruct (ei_buffer _ _ _ _ _ _ _ I') as (Hb & _). injection Hb as Hb _ _.
    pose proof (safe_stop HS tolerated (fun _ => T3) _ _ (mkFrame [] Fp (<[a := u32 (ip + op)]> Fa) (a, ip, op)) tpl a eq_refl s (conj I' (conj Hb (conj Hq Hl)))) as Hst.
    destruct (EmclStopChannel tpl s) as [[[] s']|f]; [|done]. left. cbn in Hst. by rewrite delete_insert_id in Hst.
  - apply esafe_forget. apply (started_call _ (ex_ok inline n ext routine)). intros Do Di pi HDo HDi. by apply safe_send_ex.
  - apply esafe_forget. intros s (I & Hr & Hk & Hn & Hsz).
    refine (started_call _ (fun s => is_Some (IncomingPackets s !! k)) _ s (conj I (conj Hr Hk))). intros Do Di pi HDo HDi.
    apply safe_complete; try done. apply not_elem_of_nil.
  - apply esafe_forget. intros s (I & Hr & Hbs & Hsz).
    refine (started_call _ (fun _ => True) _ s (conj I (conj Hr Logic.I))). intros Do Di pi HDo HDi.
    eapply esafe_pre; [|by apply safe_create_range]. by intros ? [? _].
  - apply esafe_forget. intros s [I Hr]. refine (started_call _ (fun _ => True) _ s (conj I (conj Hr Logic.I))). intros Do Di pi HDo HDi.
    eapply esafe_pre; [|by apply safe_destroy_range]. by intros ? [? _].
  - apply esafe_forget. intros s (I & Hr). pose proof (safe_set_callback cb cx tpl s (inv_stopped s I Hr)) as Hc.
    destruct (EmclSetReceiveCallback cb cx tpl s) as [[st s']|f]; [by left|done].
  - intros s [I Hr]. refine (started_call _ (fun _ => True) _ s (conj I (conj Hr Logic.I))). intros Do Di pi HDo HDi.
    eapply esafe_pre; [|apply safe_process; try done; by apply HC]. by intros ? [? _].
Qed.

Lemma reachable_inv s0 s : stopped Fp Fa s0 -> reachable s0 s -> channel_inv s.
Proof.
  intros H0 Hr. induction Hr as [|s c s' _ IH Ha E]; [by left|]. pose proof (call_safe c s (conj IH Ha)) as Hc. by rewrite E in Hc.
Qed.
End Channel.

(** ** Sequences of calls *)
Fixpoint run_calls {B : BuildOptions} {P : Peer} {S : Services} {D : Dma} {C : Client} {V : Vmbus} (cs : list emcl_call) (s : emcl) : result emcl :=
  match cs with
  | [] => Ok s
  | c :: cs => match run_call c s with Ok (_, s') => run_calls cs s' | Fault f => Fault f end
  end.

Fixpoint admissible_run {B : BuildOptions} {P : Peer} {S : Services} {D : Dma} {C : Client} {V : Vmbus} (cs : list emcl_call) (s : emcl) : Prop :=
  match cs with
  | [] => True
  | c :: cs => admissible c s /\ match run_call c s with Ok (_, s') => admissible_run cs s' | Fault f => False end
  end.

Lemma reachable_run {B : BuildOptions} {P : Peer} {S : Services} {D : Dma} {C : Client} {V : Vmbus} s0 cs : forall s s',
  reachable s0 s -> admissible_run cs s -> run_calls cs s = Ok s' -> reachable s0 s'.
Proof.
  induction cs as [|c cs IH]; intros s s' Hr Ha; cbn in *; [by intros [= <-]|].
  destruct Ha as [Ha Hn]. destruct (run_call c s) as [[[] s1]|f] eqn:E; [|done]. intros E2. eapply IH; [|exact Hn|exact E2].
  by eapply reach_call.
Qed.

(** ** Properties *)

(** C4. Memory safety of a channel.  Let the host write anything to the rings
    and to the shared pages at every access, let the allocators fail at will and
    VMBus refuse anything; let the client's callbacks keep the channel's
    invariant.  From a stopped channel, whatever calls the client made before
    and however they ended, an admissible call returns, or ends in the fail-fast
    on a misbehaving host, an ASSERT, the loop over a host that never stops
    sending, or the second release of a completion entry: it never reads or
    writes outside a buffer, a ring or a page, and never touches NULL or memory
    that was released. *)
Theorem emcl_memory_safe {B : BuildOptions} {P : Peer} {S : Services} {D : Dma} {C : Client} {V : Vmbus} Fp Fa s0 s c :
  peer_ok -> services_ok -> dma_ok -> vmbus_ok ->
  (forall Do Di, ring_size Do -> ring_size Di -> client_ok Do Di tolerated) ->
  stopped Fp Fa s0 -> reachable s0 s -> admissible c s ->
  (exists s', run_call c s = Ok (tt, s')) \/
  (exists f, run_call c s = Fault f /\ f <> OutOfBounds /\ f <> NullDeref /\ f <> UseAfterFree).
Proof.
  intros HP HS HD HV HC H0 Hr Ha. pose proof (reachable_inv HP HS HD HV HC Fp Fa s0 s H0 Hr) as I.
  pose proof (call_safe HP HS HD HV HC Fp Fa c s (conj I Ha)) as Hc. destruct (run_call c s) as [[[] s']|f]; [left; eauto|right].
  exists f. by destruct f.
Qed.

(** A session with a calm host that scrambles the shared pages: the client
    sends a buffer of 100 bytes through bounce pages, the host completes it. *)
Definition session : list emcl_call :=
  [CallStart 1 1; CallSend [1; 2; 3] 3 (Some [mkExternal 65536 100]) 0 5 6; CallProcess 3].
Definition session_start : emcl := fresh_channel 0 true {[ 65536 := replicate 100 7 ]}.

#[local] Existing Instance debug_build.
#[local] Existing Instance replying.
#[local] Existing Instance scramble.
#[local] Existing Instance prompt.

Definition session_at (n : nat) : emcl := match run_calls (take n session) session_start with Ok s => s | Fault _ => session_start end.

Lemma session_sends : reachable session_start (session_at 2).
Proof.
  apply (reach_call _ (session_at 1) (CallSend [1; 2; 3] 3 (Some [mkExternal 65536 100]) 0 5 6)); [| |vm_compute; reflexivity].
  - apply (reach_call _ (session_at 0) (CallStart 1 1)); [apply reach_init|by vm_compute|vm_compute; reflexivity].
  - split; [vm_compute; reflexivity|]. split; [by vm_compute|]. split; [by vm_compute|]. split; [done|]. split; [done|].
    split; [vm_compute; reflexivity|]. apply list.Forall_singleton. split; [by vm_compute|]. split; [done|]. split; [done|].
    split; [by vm_compute|]. exists (replicate 100 7). split; [vm_compute; reflexivity|by vm_compute].
Qed.

Lemma session_completes : reachable session_start (session_at 3) /\
  trace (session_at 3) !! 6%nat = Some (Completed 5 6 (le_split 8 99)).
Proof.
  split; [|vm_compute; reflexivity].
  apply (reach_call _ (session_at 2) (CallProcess 3)); [apply session_sends|vm_compute; reflexivity..].
Qed.

Lemma session_client Do Di : ring_size Do -> ring_size Di -> client_ok Do Di tolerated.
Proof. apply prompt_ok; [apply replying_ok|apply bump_ok|apply scramble_ok|done]. Qed.

Lemma emcl_memory_safe_witness :
  (exists s', run_call (CallStop 0) (session_at 3) = Ok (tt, s')) \/
  (exists f, run_call (CallStop 0) (session_at 3) = Fault f /\ f <> OutOfBounds /\ f <> NullDeref /\ f <> UseAfterFree).
Proof.
  apply (emcl_memory_safe ∅ ∅ session_start (session_at 3) (CallStop 0)).
  - apply replying_ok.
  - apply bump_ok.
  - apply scramble_ok.
  - apply generous_ok.
  - apply session_client.
  - apply fresh_stopped.
  - apply session_completes.
  - vm_compute. done.
Defined.

(** Completing a packet frees it. *)
Lemma complete_frees {B : BuildOptions} {P : Peer} {S : Services} {D : Dma} k buf n s st s' :
  EmclCompletePacket k buf n s = Ok (st, s') -> IncomingPackets s' !! k = None /\ k ∉ pool (heap s').
Proof.
  unfold EmclCompletePacket, mbind, E_bind. destruct (get_packet k s) as [[b s1]|]; [|done]. destruct (elift _ s1) as [[fl s2]|]; [|done].
  match goal with |- match ?c with _ => _ end = _ -> _ => destruct c as [[st1 s3]|]; [|done] end.
  unfold free_packet, mbind, E_bind, on_heap, FreePool. case_decide; [|done]. cbn.
  destruct (AllocationFailure (ctxt s3)); intros [= _ <-]; cbn; (split; [apply lookup_delete_eq|set_solver]).
Qed.

(** C11. The memory of a channel is accounted for.  In every reachable state the
    pool holds exactly the memory that was there before the channel ([Fp]) and
    what the channel owns, each piece once: while it runs, its blocks, its
    completion entries, incoming packets and the queued packets; while it is
    stopped, incoming packets only, and all page allocations are those from before
    ([Fa]).  None of these incoming packets is a completion, and one that the client
    completes is freed by that call; those that stay are the packets handed to the
    client and not completed, and those that [EmclDispatchPacket] ignores, which it
    neither hands over nor frees.  While the channel runs, the list of completions
    holds each live entry once, and no two entries share a transaction id. *)
Theorem emcl_memory_accounted {B : BuildOptions} {P : Peer} {S : Services} {D : Dma} {C : Client} {V : Vmbus} Fp Fa s0 s :
  peer_ok -> services_ok -> dma_ok -> vmbus_ok ->
  (forall Do Di, ring_size Do -> ring_size Di -> client_ok Do Di tolerated) ->
  stopped Fp Fa s0 -> reachable s0 s ->
  (forall k b, IncomingPackets s !! k = Some b -> not_completion b) /\
  (forall k buf n st s', EmclCompletePacket k buf n s = Ok (st, s') -> IncomingPackets s' !! k = None /\ k ∉ pool (heap s')) /\
  if IsRunning (ctxt s) then
    NoDup (owned [] s) /\ (forall p, p ∈ pool (heap s) <-> p ∈ owned [] s \/ p ∈ Fp) /\
    NoDup (CompletionEntries (ctxt s)) /\ (forall p, p ∈ CompletionEntries (ctxt s) <-> is_Some (entries s !! p)) /\
    (forall p q e e', entries s !! p = Some e -> entries s !! q = Some e' -> TransactionId e = TransactionId e' -> p = q)
  else
    (forall p, p ∈ pool (heap s) <-> is_Some (IncomingPackets s !! p) \/ p ∈ Fp) /\ page_allocs (heap s) = Fa /\
    entries s = ∅ /\ OutgoingQueue (ctxt s) = [] /\ BounceBlockListHead (heap s) = [].
Proof.
  intros HP HS HD HV HC H0 Hr. pose proof (reachable_inv HP HS HD HV HC Fp Fa s0 s H0 Hr) as I.
  destruct (IsRunning (ctxt s)) eqn:Er.
  - destruct (inv_running Fp Fa s I Er) as (i & o & _ & _ & a & ip & op & _ & I'). split; [|split; [intros; by eapply complete_frees|]].
    { intros k b E. destruct (ei_packets _ _ _ _ _ _ _ I' k b E) as (_ & _ & [Hx|?]); [by apply elem_of_nil in Hx|done]. }
    split_and!; try apply I'.
    + intros p. pose proof (ei_others _ _ _ _ _ _ _ I' p) as Ho. pose proof (ei_pool _ _ _ _ _ _ _ I' p) as Hp. cbn in Ho.
      destruct (decide (p ∈ owned [] s)); tauto.
    + intros p. split; [apply I'|]. intros Hp. destruct (ei_all _ _ _ _ _ _ _ I' p Hp) as [?|[Hx|Hx]]; [done|..]; by apply elem_of_nil in Hx.
  - destruct (inv_stopped Fp Fa s I Er) as [[] _]. split; [intros k b E; by destruct (si_packets k b E) as (_ & _ & ?)|].
    split; [intros; by eapply complete_frees|]. split_and!; try tauto. intros p. by rewrite si_pool, in_keys.
Qed.

Lemma emcl_memory_accounted_witness :
  NoDup (owned [] (session_at 2)) /\ pool (heap (session_at 2)) = {[ 4192; 4240; 4272 ]}.
Proof.
  pose proof (emcl_memory_accounted ∅ ∅ session_start (session_at 2) replying_ok bump_ok scramble_ok generous_ok session_client (fresh_stopped _ _ _) session_sends) as H.
  assert (Er : IsRunning (ctxt (session_at 2)) = true) by (vm_compute; reflexivity). rewrite Er in H.
  split; [exact (proj1 (proj2 (proj2 H)))|]. vm_compute. reflexivity.
Defined.

(** A packet that is no completion and comes without a receive callback, or has a
    type that is not supported, is ignored: it is neither handed over nor freed. *)
Lemma emcl_ignored_packet_kept {B : BuildOptions} {S : Services} {D : Dma} {C : Client} k b l8 d ty s :
  k <> 0 -> IncomingPackets s !! k = Some b -> load 2 b off_Length8 = Ok l8 -> load 2 b off_DataOffset8 = Ok d -> load 2 b off_Type = Ok ty ->
  16 <= l8 * 8 -> d <= l8 -> ty <> VmbusPacketTypeCompletion ->
  ReceiveCallback (ctxt s) = 0 \/ (ty <> VmbusPacketTypeDataInBand /\ ty <> VmbusPacketTypeDataUsingTransferPages) ->
  EmclDispatchPacket k s = Ok (tt, s).
Proof.
  intros Hk Ek E1 E2 E3 H1 H2 Hc Hty. unfold EmclDispatchPacket. rewrite (ebind_Ok _ _ s b s) by (unfold get_packet; rewrite (proj2 (Z.eqb_neq k 0) Hk); by rewrite Ek).
  rewrite (ebind_Ok _ _ s l8 s) by (by rewrite E1). rewrite (ebind_Ok _ _ s d s) by (by rewrite E2). unfold sizeof_VMPACKET_DESCRIPTOR.
  rewrite (proj2 (Z.ltb_ge (l8 * 8) 16)) by lia. rewrite (proj2 (Z.ltb_ge l8 d)) by lia. cbn [orb].
  rewrite (ebind_Ok _ _ s ty s) by (by rewrite E3). rewrite (proj2 (Z.eqb_neq ty VmbusPacketTypeCompletion) Hc).
  destruct Hty as [Hcb|[Ht1 Ht2]].
  - unfold dispatch_in_band, dispatch_transfer_pages, mbind, E_bind, cget, eget. destruct (ty =? VmbusPacketTypeDataInBand); [by rewrite Hcb|]. destruct (ty =? _); [by rewrite Hcb|done].
  - by rewrite (proj2 (Z.eqb_neq _ _) Ht1), (proj2 (Z.eqb_neq _ _) Ht2).
Qed.

(** C18. Starting a channel is all or nothing.  [EmclStartChannel] on a stopped
    channel returns, whichever allocation or VMBus call fails and whatever the
    host wrote to the rings.  On an error the channel is stopped as before: the
    ring's pages are released, the pool and the page allocations are what they
    were, and among the calls it has made every GPADL that was prepared is
    destroyed, once, every event created is closed, once, and the interrupt
    routine is deregistered if it was registered.  On success it runs, the rings
    satisfy the packet library's invariant, the one new allocation is the ring
    buffer, of two pages more than the rings' data, and the calls leave exactly the
    GPADL and the event of the context open and that event registered.  (The
    status with which VMBus answers the calls that give back is ignored, as in the
    code.) *)
Theorem emcl_start_all_or_nothing {B : BuildOptions} {P : Peer} {S : Services} {V : Vmbus} Fp Fa i o s :
  peer_ok -> services_ok -> vmbus_ok -> 0 < i <= 2 ^ 19 -> 0 < o <= 2 ^ 19 -> stopped Fp Fa s ->
  exists st s' tr, EmclStartChannel i o s = Ok (st, s') /\ trace s' = trace s ++ tr /\
    (forall p, p ∈ pool (heap s') <-> is_Some (IncomingPackets s' !! p) \/ p ∈ Fp) /\
    if EFI_ERROR st then stopped Fp Fa s' /\ leaves 0 0 None tr
    else IsRunning (ctxt s') = true /\ inv (o * EFI_PAGE_SIZE) (i * EFI_PAGE_SIZE) (pk s') /\
      leaves (RingBufferGpadl (ctxt s')) (ReceiveEvent (ctxt s')) (non_null (ReceiveEvent (ctxt s'))) tr /\
      entries s' = ∅ /\ exists a, Fa !! a = None /\ page_allocs (heap s') = <[a := i + o + 2]> Fa.
Proof.
  intros HP HS HV Hi Ho Hs. pose proof (safe_start HP HS (fun _ => False) Fp Fa HV i o Hi Ho s Hs) as Hst.
  destruct Hs as (_ & _ & Hg & He). pose proof (tally_start (trace s) i o s (tally_stopped (trace s) s eq_refl Hg He)) as Ht.
  destruct (EmclStartChannel i o s) as [[st s']|f]; [|done]. exists st, s'. destruct (EFI_ERROR st).
  - destruct Ht as (_ & _ & tr & Ht & Hl). exists tr. split_and!; try done. destruct Hst as [[] _]. intros p. by rewrite si_pool, in_keys.
  - destruct Ht as (g & e & Eg & Ee & tr & Ht & Hl). exists tr. rewrite Eg, Ee.
    destruct Hst as (s1 & -> & [[] Hfr] & (Hr & E1 & E2) & Hw). split; [done|]. split; [done|]. split; [intros p; cbn; by rewrite si_pool, in_keys|].
    split_and!; [done|done|done|by destruct si_entries|]. exists (RingBufferPages (ctxt s1)). split; [by apply Hfr|]. cbn. rewrite si_allocs.
    unfold ring_alloc. destruct (Z.eqb_spec (RingBufferPages (ctxt s1)) 0); [done|]. f_equal.
    rewrite E1, E2, (u32_small (i + 1)), (u32_small (o + 1)), u32_small by lia. lia.
Qed.

(** With a hostile host the rings are rejected, and everything is given back. *)
Lemma emcl_start_all_or_nothing_witness : exists st s',
  EmclStartChannel (P := hostile) 1 2 session_start = Ok (st, s') /\
  (forall p, p ∈ pool (heap s') <-> is_Some (IncomingPackets s' !! p) \/ p ∈ (∅ : gset Z)).
Proof.
  destruct (emcl_start_all_or_nothing (P := hostile) ∅ ∅ 1 2 session_start) as (st & s' & tr & E & _ & H & _).
  - apply hostile_ok.
  - apply bump_ok.
  - apply generous_ok.
  - lia.
  - lia.
  - apply fresh_stopped.
  - exists st, s'. split; [exact E|exact H].
Defined.

(** C17. Completions are matched exactly.  In a reachable running channel, let
    the host complete transaction [tid].  If a live entry has that id, it is the
    only one, and the packet is handled by calling that entry's routine with its
    context and the packet's data, once, and by freeing entry and packet after it.
    The routine is called in a state in which the entry is off the list and every
    other entry, packet and queued packet is as before; the bounce pages of the
    entry, as many as its buffer spans, are free again and those of all other
    packets are held as before; no memory was allocated or released; unless it was
    sent as data for the host only, the client's buffer holds exactly the bytes of
    the pages (when the host leaves them alone during the copy), and all other
    memory of the client is unchanged.  If no live entry has the id, the host
    misbehaves and the channel fails fast. *)
Theorem emcl_completion_exact {B : BuildOptions} {P : Peer} {S : Services} {D : Dma} {C : Client} {V : Vmbus} Fp Fa s0 s k tid inline :
  peer_ok -> services_ok -> dma_ok -> vmbus_ok ->
  (forall Do Di, ring_size Do -> ring_size Di -> client_ok Do Di tolerated) ->
  stopped Fp Fa s0 -> reachable s0 s -> IsRunning (ctxt s) = true ->
  (exists p e s1, entries s !! p = Some e /\ TransactionId e = tid /\
    (forall p' e', entries s !! p' = Some e' -> TransactionId e' = tid -> p' = p) /\
    dispatch_completion k tid inline s =
      (_ ← on_complete (CompletionRoutine e) (CompletionContext e) inline; _ ← free_entry p; free_packet k) s1 /\
    trace s1 = trace s ++ [Completed (CompletionRoutine e) (CompletionContext e) inline] /\
    CompletionEntries (ctxt s1) = filter (fun q => q <> p) (CompletionEntries (ctxt s)) /\
    entries s1 = <[p := set_BouncePages None e]> (entries s) /\ gives_back e (heap s) (heap s1) /\
    IncomingPackets s1 = IncomingPackets s /\ OutgoingQueue (ctxt s1) = OutgoingQueue (ctxt s) /\ pk s1 = pk s) \/
  ((forall p e, entries s !! p = Some e -> TransactionId e <> tid) /\ dispatch_completion k tid inline s = Fault FailFast).
Proof.
  intros HP HS HD HV HC H0 Hr Er. pose proof (reachable_inv HP HS HD HV HC Fp Fa s0 s H0 Hr) as I.
  destruct (inv_running Fp Fa s I Er) as (i & o & _ & _ & a & ip & op & _ & I'). destruct (ei_tids _ _ _ _ _ _ _ I') as (_ & _ & Hu).
  destruct (run_completion HS HD _ _ _ _ _ _ s k tid inline I') as [(p & e & m & Hp & Ep & Ht & Ef & E & _)|[E Hno]].
  - left. exists p, e, (completing p e inline m s). split_and!; try done; [intros p' e' Ep' Ht'; eapply Hu; eauto; congruence|].
    destruct (inv_unlist _ _ _ _ _ _ _ _ I' Hp) as [I1 R1]. exact (finish_gives_back HS HD _ _ _ _ _ _ (unlisted p s) p e _ I1 R1 Ep Ef).
  - right. split; [|done]. intros p e Ep. apply (Hno p e); [|done].
    destruct (ei_all _ _ _ _ _ _ _ I' p) as [?|[Hx|Hx]]; [by exists e|done|..]; by apply elem_of_nil in Hx.
Qed.

Lemma emcl_completion_exact_witness : exists s1,
  dispatch_completion 77 1 [9] (session_at 2) = (_ ← on_complete 5 6 [9]; _ ← free_entry 4192; free_packet 77) s1 /\
  trace s1 = trace (session_at 2) ++ [Completed 5 6 [9]].
Proof.
  assert (Er : IsRunning (ctxt (session_at 2)) = true) by (vm_compute; reflexivity).
  assert (Ek : keys (entries (session_at 2)) = [4192]) by (vm_compute; reflexivity).
  assert (Ee : (fun e => (CompletionRoutine e, CompletionContext e, TransactionId e)) <$> entries (session_at 2) !! 4192 = Some (5, 6, 1))
    by (vm_compute; reflexivity).
  destruct (emcl_completion_exact ∅ ∅ session_start (session_at 2) 77 1 [9] replying_ok bump_ok scramble_ok generous_ok session_client
    (fresh_stopped _ _ _) session_sends Er) as [(p & e & s1 & Ep & Ht & _ & E & Htr & _)|[Hno _]].
  - assert (p = 4192) as -> by (apply list_elem_of_singleton; rewrite <- Ek; apply in_keys; eauto).
    rewrite Ep in Ee. injection Ee as E5 E6 _. exists s1. rewrite E5, E6 in E, Htr. split; [exact E|exact Htr].
  - exfalso. destruct (entries (session_at 2) !! 4192) as [e|] eqn:Ep; [|done]. injection Ee as _ _ E1. by apply (Hno 4192 e Ep).
Defined.

(** Stopping a channel with work outstanding.  Both loops of
    [EmclStopChannel] that empty a list take the node [RemoveEntryList] returns,
    which is the next one, for the node it removed.  In every reachable running
    channel with a queued packet or an outstanding completion, [EmclStopChannel]
    never returns: unless an ASSERT stops it before, it takes the list's head for
    a packet or a completion entry, or unlinks one it has released. *)
Lemma emcl_stop_outstanding {B : BuildOptions} {P : Peer} {S : Services} {D : Dma} {C : Client} {V : Vmbus} Fp Fa s0 s tpl :
  peer_ok -> services_ok -> dma_ok -> vmbus_ok ->
  (forall Do Di, ring_size Do -> ring_size Di -> client_ok Do Di tolerated) ->
  stopped Fp Fa s0 -> reachable s0 s -> IsRunning (ctxt s) = true ->
  OutgoingQueue (ctxt s) <> [] \/ CompletionEntries (ctxt s) <> [] ->
  EmclStopChannel tpl s = Fault OutOfBounds \/ EmclStopChannel tpl s = Fault UseAfterFree \/
  (asserts_enabled = true /\ EmclStopChannel tpl s = Fault AssertFailed).
Proof.
  intros HP HS HD HV HC H0 Hr Er Hne. pose proof (reachable_inv HP HS HD HV HC Fp Fa s0 s H0 Hr) as I.
  destruct (inv_running Fp Fa s I Er) as (i & o & _ & _ & a & ip & op & _ & I').
  set (G := fun f => wild f \/ (asserts_enabled = true /\ f = AssertFailed)).
  pose proof (wild_stop HS G (fun H => or_intror (conj H eq_refl)) _ _ _ tpl (RingBufferPages (ctxt s)) _ _
    (fun f Hf => or_introl Hf) Hne s (conj I' (conj eq_refl (conj eq_refl eq_refl)))) as Hw.
  destruct (EmclStopChannel tpl s) as [r|f] eqn:Es; [by destruct r|]. destruct Hw as [[ -> | -> ]|[Ha -> ]]; auto.
Qed.

(** ** Defects *)

(** A packet that needs all but a few bytes of the ring passes the size check
    of [EmclpSendPacket] and is refused by the packet library; the completion
    entry, released there, is released again by [EmclSendPacketEx]. *)
Lemma emcl_send_double_free : admissible_run [CallStart 1 1] session_start /\
  run_calls [CallStart 1 1; CallSend (replicate 4080 0) 4080 None 0 5 6] session_start = Fault DoubleFree.
Proof. split; [|vm_compute; reflexivity]. split; [by vm_compute|]. vm_compute. exact Logic.I. Qed.

(** Two packets are in the incoming ring and the allocation of the second one
    fails.  The flag that asks for a retry is set, but the ring offset already
    covers the second packet, so both are removed: the client sees the first
    and the second is lost. *)
Definition two_packets : list Z :=
  descriptor VmbusPacketTypeDataInBand 2 3 0 1 ++ le_split 8 11 ++ replicate 8 0 ++
  descriptor VmbusPacketTypeDataInBand 2 5 0 2 ++ replicate 24 22 ++ le_split 4 0 ++ le_split 4 32.
Definition two_sender : Peer := fun t s =>
  if (t <? 8)%nat then s
  else mkShared (outgoing s) (mkRing (mkVMRCB 80 (Out (Control (incoming s))) 0 0 0) (two_packets ++ drop 80 (Data (incoming s)))).
Definition no_forty : Services := {|
  AllocatePool_answer := fun t live n => if n =? 40 then 0 else bump_pool t live n; AllocatePages_answer := bump_pages;
  MakeAddressRangeHostVisible_answer := fun t _ => (EFI_SUCCESS, Z.of_nat t);
  IsIsolated := true; PcdIsolationSharedGpaBoundary := 2 ^ 48; PcdIsolationSharedGpaCanonicalizationBitmask := 0 |}.

Definition received_data (t : list event) : list (list Z) :=
  omap (fun e => match e with Received _ _ _ data _ _ => Some data | _ => None end) t.

Definition two_packet_run (S : Services) : option (list (list Z) * bool * Z) :=
  match run_calls (P := two_sender) (S := S) (C := keeper) [CallSetCallback 3 4 8; CallStart 1 1; CallProcess 5] session_start with
  | Ok s => Some (received_data (trace s), AllocationFailure (ctxt s), IncomingOut (PkRing.ctx (pk s)))
  | Fault _ => None
  end.

Lemma emcl_alloc_failure_loses_packet :
  two_packet_run bump = Some ([le_split 8 11; replicate 24 22], false, 80) /\
  two_packet_run no_forty = Some ([le_split 8 11], true, 80).
Proof. split; vm_compute; reflexivity. Qed.
