(* ===== verification/IoMmu.v ===== *)
(** The IOMMU driver: [MsvmPkg/IoMmuDxe/IoMmuBounce.c] and [IoMmuDxe.c].  It
    hands out memory through which devices reach a guest: in an isolated guest
    the pages of bounce blocks, which are shared with the host, otherwise the
    caller's own memory or, for devices limited to 32-bit addresses, a copy of
    it below 4GB.

    The state [iommu] holds the driver's globals, its structures by address (the
    words of a block's bitmap with the block), the pool and the page allocations,
    the memory callers own ([client], base and length), the bytes of the guest's
    memory by physical address ([ram]), and the ranges shared with the host or
    pinned.  The answers of the boot services and of the hypervisor protocol are
    the class [Platform]. *)
From stdpp Require Import base list numbers list_numbers option gmap.
From Stdlib Require Import ZArith Lia.
From S2P Require Import Prelude PkRing EmclPacket.
Open Scope Z_scope.

Module IoMmu.
Import PkRing EmclPacket.

(** ** Data *)
Definition IOMMU_BOUNCE_MODE_NONE : Z := 0.
Definition IOMMU_BOUNCE_MODE_BOUNCE : Z := 1.
Definition IOMMU_BOUNCE_MODE_HOST_VISIBILITY : Z := 2.
Definition IOMMU_BOUNCE_MODE_PINNING : Z := 4.
Definition IOMMU_BOUNCE_INITIAL_BLOCK_PAGES : Z := 1024.
Definition IOMMU_BOUNCE_GROWTH_BLOCK_PAGES : Z := 32.
Definition SIZE_4GB : Z := 2 ^ 32.
Definition MAX_UINT32 : Z := 2 ^ 32 - 1.
Definition MAX_UINTN : Z := 2 ^ 64 - 1.
Definition EDKII_IOMMU_ATTRIBUTE_DUAL_ADDRESS_CYCLE : Z := 32768.

(** [SIGNATURE_32]. *)
Definition IOMMU_BOUNCE_BLOCK_SIGNATURE : Z := le_combine [105; 111; 109; 98].
Definition IOMMU_MAP_CONTEXT_SIGNATURE : Z := le_combine [105; 111; 109; 99].
Definition sizeof_IOMMU_BOUNCE_BLOCK : Z := 80.
Definition sizeof_IOMMU_MAP_CONTEXT : Z := 56.
Definition sizeof_IOMMU_ALLOC_CONTEXT : Z := 56.

Definition EFI_SIZE_TO_PAGES (n : Z) : Z := Z.shiftr n EFI_PAGE_SHIFT + (if Z.land n EFI_PAGE_MASK =? 0 then 0 else 1).

Inductive EDKII_IOMMU_OPERATION : Type :=
  | BusMasterRead | BusMasterWrite | BusMasterCommonBuffer
  | BusMasterRead64 | BusMasterWrite64 | BusMasterCommonBuffer64.
#[global] Instance operation_eq_dec : EqDecision EDKII_IOMMU_OPERATION.
Proof. solve_decision. Defined.

Inductive EFI_ALLOCATE_TYPE : Type := AllocateAnyPages | AllocateMaxAddress | AllocateAddress.

Record IOMMU_DMA_RANGE_CONTEXT := mkDma {
  RangeProtectionHandle : Z; BaseAddress : Z; PageCount : Z; PinApplied : bool }.

Record IOMMU_BOUNCE_BLOCK := mkBounceBlock {
  bb_Signature : Z; BlockBase : Z; BlockPageCount : Z; BitmapWordCount : Z;
  AllocBitmap_ptr : Z; AllocBitmap : list Z; InUsePageCount : Z; IsPreparedForDma : bool;
  bb_DmaContext : IOMMU_DMA_RANGE_CONTEXT }.

Record IOMMU_MAP_CONTEXT := mkMap {
  mc_Signature : Z; Operation : EDKII_IOMMU_OPERATION; HostAddress : Z; NumberOfBytes : Z;
  BounceBase : Z; BouncePageCount : Z; BounceBlock : Z; BounceStartPage : Z }.

Record IOMMU_ALLOC_CONTEXT := mkAlloc { OriginalAddress : Z; Pages : Z; ac_DmaContext : IOMMU_DMA_RANGE_CONTEXT }.

Record iommu := mkIommu {
  mBounceMode : Z; mHvIvm : bool; mSharedGpaBoundary : Z; mCanonicalizationMask : Z;
  mAllocContextListHead : list Z; mBounceBlockListHead : list Z;
  blocks : gmap Z IOMMU_BOUNCE_BLOCK; maps : gmap Z IOMMU_MAP_CONTEXT; allocs : gmap Z IOMMU_ALLOC_CONTEXT;
  pool : gset Z; page_allocs : gmap Z Z; client : gmap Z Z; ram : Z -> Z;
  visible : gmap Z (Z * Z); pinned : gmap Z Z; tick : nat }.

Definition set_mode v h s := mkIommu v h (mSharedGpaBoundary s) (mCanonicalizationMask s) (mAllocContextListHead s) (mBounceBlockListHead s) (blocks s) (maps s) (allocs s) (pool s) (page_allocs s) (client s) (ram s) (visible s) (pinned s) (tick s).
Definition set_geometry b m s := mkIommu (mBounceMode s) (mHvIvm s) b m (mAllocContextListHead s) (mBounceBlockListHead s) (blocks s) (maps s) (allocs s) (pool s) (page_allocs s) (client s) (ram s) (visible s) (pinned s) (tick s).
Definition set_alloc_list v s := mkIommu (mBounceMode s) (mHvIvm s) (mSharedGpaBoundary s) (mCanonicalizationMask s) v (mBounceBlockListHead s) (blocks s) (maps s) (allocs s) (pool s) (page_allocs s) (client s) (ram s) (visible s) (pinned s) (tick s).
Definition set_block_list v s := mkIommu (mBounceMode s) (mHvIvm s) (mSharedGpaBoundary s) (mCanonicalizationMask s) (mAllocContextListHead s) v (blocks s) (maps s) (allocs s) (pool s) (page_allocs s) (client s) (ram s) (visible s) (pinned s) (tick s).
Definition set_blocks v s := mkIommu (mBounceMode s) (mHvIvm s) (mSharedGpaBoundary s) (mCanonicalizationMask s) (mAllocContextListHead s) (mBounceBlockListHead s) v (maps s) (allocs s) (pool s) (page_allocs s) (client s) (ram s) (visible s) (pinned s) (tick s).
Definition set_maps v s := mkIommu (mBounceMode s) (mHvIvm s) (mSharedGpaBoundary s) (mCanonicalizationMask s) (mAllocContextListHead s) (mBounceBlockListHead s) (blocks s) v (allocs s) (pool s) (page_allocs s) (client s) (ram s) (visible s) (pinned s) (tick s).
Definition set_allocs v s := mkIommu (mBounceMode s) (mHvIvm s) (mSharedGpaBoundary s) (mCanonicalizationMask s) (mAllocContextListHead s) (mBounceBlockListHead s) (blocks s) (maps s) v (pool s) (page_allocs s) (client s) (ram s) (visible s) (pinned s) (tick s).
Definition set_pool v s := mkIommu (mBounceMode s) (mHvIvm s) (mSharedGpaBoundary s) (mCanonicalizationMask s) (mAllocContextListHead s) (mBounceBlockListHead s) (blocks s) (maps s) (allocs s) v (page_allocs s) (client s) (ram s) (visible s) (pinned s) (tick s).
Definition set_page_allocs v s := mkIommu (mBounceMode s) (mHvIvm s) (mSharedGpaBoundary s) (mCanonicalizationMask s) (mAllocContextListHead s) (mBounceBlockListHead s) (blocks s) (maps s) (allocs s) (pool s) v (client s) (ram s) (visible s) (pinned s) (tick s).
Definition set_ram v s := mkIommu (mBounceMode s) (mHvIvm s) (mSharedGpaBoundary s) (mCanonicalizationMask s) (mAllocContextListHead s) (mBounceBlockListHead s) (blocks s) (maps s) (allocs s) (pool s) (page_allocs s) (client s) v (visible s) (pinned s) (tick s).
Definition set_visible v s := mkIommu (mBounceMode s) (mHvIvm s) (mSharedGpaBoundary s) (mCanonicalizationMask s) (mAllocContextListHead s) (mBounceBlockListHead s) (blocks s) (maps s) (allocs s) (pool s) (page_allocs s) (client s) (ram s) v (pinned s) (tick s).
Definition set_pinned v s := mkIommu (mBounceMode s) (mHvIvm s) (mSharedGpaBoundary s) (mCanonicalizationMask s) (mAllocContextListHead s) (mBounceBlockListHead s) (blocks s) (maps s) (allocs s) (pool s) (page_allocs s) (client s) (ram s) (visible s) v (tick s).
Definition next_tick s := mkIommu (mBounceMode s) (mHvIvm s) (mSharedGpaBoundary s) (mCanonicalizationMask s) (mAllocContextListHead s) (mBounceBlockListHead s) (blocks s) (maps s) (allocs s) (pool s) (page_allocs s) (client s) (ram s) (visible s) (pinned s) (Datatypes.S (tick s)).

Definition set_AllocBitmap v n b := mkBounceBlock (bb_Signature b) (BlockBase b) (BlockPageCount b) (BitmapWordCount b) (AllocBitmap_ptr b) v n (IsPreparedForDma b) (bb_DmaContext b).

(** What the platform answers, by time: allocators and hypervisor calls (with
    the contents a range has after its visibility changed), and the settings. *)
Class Platform := {
  AllocatePool_answer : nat -> gset Z -> Z -> Z;
  AllocatePages_answer : nat -> gmap Z Z -> EFI_ALLOCATE_TYPE -> Z -> Z -> EFI_STATUS * Z;
  MakeVisible_answer : nat -> gmap Z (Z * Z) -> Z -> Z -> EFI_STATUS * Z;
  revealed : nat -> Z -> Z;
  Pin_answer : nat -> Z -> Z -> EFI_STATUS * bool;
  LocateHvIvm_answer : EFI_STATUS;
  Install_answer : EFI_STATUS;
  IsIsolated : bool;
  PcdDmaPinningRequired : bool;
  PcdForceDmaBounceEnabled : bool;
  PcdIsolationSharedGpaBoundary : Z;
  PcdIsolationSharedGpaCanonicalizationBitmask : Z
}.

(** ** The monad *)
Definition I (A : Type) : Type := iommu -> result (A * iommu).
#[export] Instance I_ret : MRet I := fun A a s => Ok (a, s).
#[export] Instance I_bind : MBind I := fun A B k c s =>
  match c s with Ok (a, s') => k a s' | Fault f => Fault f end.
Definition ilift {A} (r : result A) : I A := fun s => match r with Ok a => Ok (a, s) | Fault f => Fault f end.
Definition iget {A} (f : iommu -> A) : I A := fun s => Ok (f s, s).
Definition imod (f : iommu -> iommu) : I unit := fun s => Ok (tt, f s).

Section Driver.
Context {B : BuildOptions} {PL : Platform}.

(** ** Services *)
Definition AllocatePool (size : Z) : I Z := fun s =>
  let p := AllocatePool_answer (tick s) (pool s) size in
  let s := next_tick s in
  if p =? 0 then Ok (0, s) else Ok (p, set_pool ({[p]} ∪ pool s) s).
Definition FreePool (p : Z) : I unit := fun s =>
  if decide (p ∈ pool s) then Ok (tt, set_pool (pool s ∖ {[p]}) s) else Fault DoubleFree.

(** [gBS->AllocatePages]; [Memory] is the address asked for or the highest one
    allowed, by [Type_]. *)
Definition AllocatePages (Type_ : EFI_ALLOCATE_TYPE) (Memory n : Z) : I (EFI_STATUS * Z) := fun s =>
  let '(status, p) := AllocatePages_answer (tick s) (page_allocs s) Type_ Memory n in
  let s := next_tick s in
  if EFI_ERROR status then Ok (status, Memory, s) else Ok (status, p, set_page_allocs (<[p := n]> (page_allocs s)) s).
(** [gBS->FreePages] of a whole allocation, the only use the driver makes of it;
    pages it did not allocate are reported. *)
Definition FreePages (p n : Z) : I EFI_STATUS := fun s =>
  if decide (page_allocs s !! p = Some n) then Ok (EFI_SUCCESS, set_page_allocs (delete p (page_allocs s)) s)
  else Ok (EFI_NOT_FOUND, s).

(** The memory an address reaches: a shared alias, at or above the boundary,
    reaches the page of its private address. *)
Definition physical (s : iommu) (a : Z) : Z :=
  let a := Z.land a (Z.lnot (mCanonicalizationMask s)) in
  if (0 <? mSharedGpaBoundary s) && (mSharedGpaBoundary s <=? a) then a - mSharedGpaBoundary s else a.
Definition accessible (s : iommu) (a n : Z) : bool :=
  (n =? 0) ||
  existsb (fun '(b, k) => (b <=? a) && (a + n <=? b + 4096 * k)) (map_to_list (page_allocs s)) ||
  existsb (fun '(b, k) => (b <=? a) && (a + n <=? b + k)) (map_to_list (client s)).
Definition within (a n x : Z) : bool := (a <=? x) && (x <? a + n).

Definition CopyMem (dst src n : Z) : I unit := fun s =>
  let d := physical s dst in let a := physical s src in
  if accessible s d n && accessible s a n
  then Ok (tt, set_ram (fun x => if within d n x then ram s (a + (x - d)) else ram s x) s) else Fault OutOfBounds.
Definition ZeroMem (dst n : Z) : I unit := fun s =>
  let d := physical s dst in
  if accessible s d n then Ok (tt, set_ram (fun x => if within d n x then 0 else ram s x) s) else Fault OutOfBounds.

(** The hypervisor protocol, reached through [mHvIvm]. *)
Definition hv : I unit := fun s => if mHvIvm s then Ok (tt, s) else Fault NullDeref.
Definition MakeAddressRangeHostVisible (base n : Z) : I (EFI_STATUS * Z) := fun s =>
  let t := tick s in
  let '(status, h) := MakeVisible_answer t (visible s) base n in
  let s := next_tick s in
  if EFI_ERROR status then Ok (status, 0, s)
  else Ok (status, h, set_ram (fun x => if within base n x then revealed t x else ram s x) (set_visible (<[h := (base, n)]> (visible s)) s)).
(** A handle that names no range is a fail-fast. *)
Definition MakeAddressRangeNotHostVisible (h : Z) : I unit := fun s =>
  match visible s !! h with
  | Some (base, n) => Ok (tt, set_ram (fun x => if within base n x then revealed (tick s) x else ram s x)
                                (next_tick (set_visible (delete h (visible s)) s)))
  | None => Fault FailFast
  end.
Definition PinAddressRange (base n : Z) : I (EFI_STATUS * bool) := fun s =>
  let '(status, applied) := Pin_answer (tick s) base n in
  let s := next_tick s in
  if EFI_ERROR status then Ok (status, false, s)
  else Ok (status, applied, if applied then set_pinned (<[base := n]> (pinned s)) s else s).
Definition UnpinAddressRange (base n : Z) : I unit := imod (fun s => set_pinned (delete base (pinned s)) s).

Definition get_bounce_block (p : Z) : I IOMMU_BOUNCE_BLOCK := fun s =>
  if p =? 0 then Fault NullDeref else match blocks s !! p with Some b => Ok (b, s) | None => Fault UseAfterFree end.
Definition put_block (p : Z) (b : IOMMU_BOUNCE_BLOCK) : I unit := imod (fun s => set_blocks (<[p := b]> (blocks s)) s).
Definition get_map (p : Z) : I IOMMU_MAP_CONTEXT := fun s =>
  match maps s !! p with Some m => Ok (m, s) | None => Fault UseAfterFree end.
Definition free_map (p : Z) : I unit := _ ← FreePool p; imod (fun s => set_maps (delete p (maps s)) s).
Definition get_alloc (p : Z) : I IOMMU_ALLOC_CONTEXT := fun s =>
  match allocs s !! p with Some a => Ok (a, s) | None => Fault UseAfterFree end.

(** ** Modes and addresses *)
Definition IoMmuComputeBounceMode : Z :=
  let Mode := IOMMU_BOUNCE_MODE_NONE in
  let Mode := if IsIsolated then Z.lor Mode (Z.lor IOMMU_BOUNCE_MODE_BOUNCE IOMMU_BOUNCE_MODE_HOST_VISIBILITY) else Mode in
  let Mode := if PcdDmaPinningRequired then Z.lor Mode (Z.lor IOMMU_BOUNCE_MODE_BOUNCE IOMMU_BOUNCE_MODE_PINNING) else Mode in
  if PcdForceDmaBounceEnabled then Z.lor Mode IOMMU_BOUNCE_MODE_BOUNCE else Mode.

Definition IoMmuIsBounceActive (s : iommu) : bool := negb (Z.land (mBounceMode s) IOMMU_BOUNCE_MODE_BOUNCE =? 0).
Definition IoMmuRequiresHostVisibility (s : iommu) : bool := negb (Z.land (mBounceMode s) IOMMU_BOUNCE_MODE_HOST_VISIBILITY =? 0).
Definition IoMmuRequiresPinning (s : iommu) : bool := negb (Z.land (mBounceMode s) IOMMU_BOUNCE_MODE_PINNING =? 0).

Definition IoMmuGetSharedPa (s : iommu) (Address : Z) : Z :=
  let Addr := Z.land Address (u64 (Z.lnot (mCanonicalizationMask s))) in
  if Addr <? mSharedGpaBoundary s then u64 (Addr + mSharedGpaBoundary s) else Addr.
Definition IoMmuGetSharedVa (s : iommu) (Address : Z) : Z :=
  Z.lor (IoMmuGetSharedPa s Address) (mCanonicalizationMask s).

Definition IoMmuInitializeBounce : I EFI_STATUS :=
  _ ← imod (set_alloc_list []);
  _ ← imod (set_block_list []);
  _ ← imod (set_geometry PcdIsolationSharedGpaBoundary PcdIsolationSharedGpaCanonicalizationBitmask);
  vis ← iget IoMmuRequiresHostVisibility;
  pin ← iget IoMmuRequiresPinning;
  if negb vis && negb pin then _ ← imod (fun s => set_mode (mBounceMode s) false s); mret EFI_SUCCESS
  else
    _ ← imod (fun s => set_mode (mBounceMode s) (negb (EFI_ERROR LocateHvIvm_answer)) s);
    mret LocateHvIvm_answer.

(** ** Sharing a range *)

(** The context is returned with the status. *)
Definition IoMmuPrepareAddressRangeForDma (BaseAddress_ PageCount_ : Z) : I (EFI_STATUS * IOMMU_DMA_RANGE_CONTEXT) :=
  let ctx := mkDma 0 BaseAddress_ PageCount_ false in
  vis ← iget IoMmuRequiresHostVisibility;
  '(status, handle) ← (if vis : bool then
      _ ← hv; MakeAddressRangeHostVisible BaseAddress_ (u32 (PageCount_ * EFI_PAGE_SIZE))
    else mret (EFI_SUCCESS, 0));
  if EFI_ERROR status then mret (status, ctx)
  else
    pin ← iget IoMmuRequiresPinning;
    if pin : bool then
      '(status, applied) ← (_ ← hv; PinAddressRange BaseAddress_ (u32 (PageCount_ * EFI_PAGE_SIZE)));
      if EFI_ERROR status then
        _ ← (if vis : bool then MakeAddressRangeNotHostVisible handle else mret tt);
        mret (status, mkDma 0 BaseAddress_ PageCount_ applied)
      else mret (EFI_SUCCESS, mkDma handle BaseAddress_ PageCount_ applied)
    else mret (EFI_SUCCESS, mkDma handle BaseAddress_ PageCount_ false).

Definition IoMmuReleaseAddressRangeFromDma (DmaContext : IOMMU_DMA_RANGE_CONTEXT) : I unit :=
  _ ← (if PinApplied DmaContext then
         _ ← hv; UnpinAddressRange (BaseAddress DmaContext) (u32 (PageCount DmaContext * EFI_PAGE_SIZE))
       else mret tt);
  vis ← iget IoMmuRequiresHostVisibility;
  if vis : bool then _ ← hv; MakeAddressRangeNotHostVisible (RangeProtectionHandle DmaContext) else mret tt.

(** ** The bitmap of a block *)
Definition bitmap_word (Bitmap : list Z) (Bit : Z) : result Z :=
  match Bitmap !! Z.to_nat (Z.shiftr Bit 6) with Some w => Ok w | None => Fault OutOfBounds end.
Definition bit_mask (Bit : Z) : Z := Z.shiftl 1 (Z.land Bit 63).

(** The loop from bit [i] on, [n] bits to go. *)
Fixpoint find_run (n : nat) (Bitmap : list Z) (RunLength i Run : Z) : result (option Z) :=
  match n with
  | O => Ok None
  | Datatypes.S n =>
    w ← bitmap_word Bitmap i;
    if Z.land w (bit_mask i) =? 0 then
      if Run + 1 =? RunLength then Ok (Some (i + 1 - RunLength))
      else find_run n Bitmap RunLength (i + 1) (Run + 1)
    else find_run n Bitmap RunLength (i + 1) 0
  end.

Definition FindFreeRun (Bitmap : list Z) (BitmapSize RunLength : Z) : result (option Z) :=
  if (RunLength =? 0) || (BitmapSize <? RunLength) then Ok None
  else find_run (Z.to_nat BitmapSize) Bitmap RunLength 0 0.

Fixpoint update_run (n : nat) (Bitmap : list Z) (Bit : Z) (Set_ : bool) : result (list Z) :=
  match n with
  | O => Ok Bitmap
  | Datatypes.S n =>
    w ← bitmap_word Bitmap Bit;
    let w := if Set_ then Z.lor w (bit_mask Bit) else Z.land w (u64 (Z.lnot (bit_mask Bit))) in
    update_run n (<[Z.to_nat (Z.shiftr Bit 6) := w]> Bitmap) (Bit + 1) Set_
  end.
Definition UpdateBitmapRun (Bitmap : list Z) (Start Count : Z) (Set_ : bool) : result (list Z) :=
  update_run (Z.to_nat Count) Bitmap Start Set_.

(** ** The pool of blocks *)
Definition IoMmuPreAllocateBounceBlock (PageCount_ : Z) : I (EFI_STATUS * Z) :=
  _ ← ilift (ASSERT (0 <? PageCount_));
  Block ← AllocatePool sizeof_IOMMU_BOUNCE_BLOCK;
  if Block =? 0 then mret (EFI_OUT_OF_RESOURCES, 0)
  else
    let words := u32 (PageCount_ + 63) / 64 in
    bitmap ← AllocatePool (words * 8);
    if bitmap =? 0 then _ ← FreePool Block; mret (EFI_OUT_OF_RESOURCES, 0)
    else
      '(status, PhysicalAddress) ← AllocatePages AllocateMaxAddress (SIZE_4GB - 1) PageCount_;
      if EFI_ERROR status then _ ← FreePool bitmap; _ ← FreePool Block; mret (status, 0)
      else
        '(status, ctx) ← IoMmuPrepareAddressRangeForDma PhysicalAddress PageCount_;
        if EFI_ERROR status then
          _ ← FreePages PhysicalAddress PageCount_; _ ← FreePool bitmap; _ ← FreePool Block; mret (status, 0)
        else
          _ ← put_block Block (mkBounceBlock IOMMU_BOUNCE_BLOCK_SIGNATURE PhysicalAddress PageCount_ words bitmap
                                 (replicate (Z.to_nat words) 0) 0 true ctx);
          _ ← imod (fun s => set_block_list (mBounceBlockListHead s ++ [Block]) s);
          mret (EFI_SUCCESS, Block).

(** The search of the pool: the block and the first page of the run taken. *)
Fixpoint acquire_from (l : list Z) (PageCount_ : Z) : I (option (Z * Z * Z)) :=
  match l with
  | [] => mret None
  | p :: l =>
    b ← get_bounce_block p;
    if BlockPageCount b <? PageCount_ then acquire_from l PageCount_
    else
      run ← ilift (FindFreeRun (AllocBitmap b) (BlockPageCount b) PageCount_);
      match run with
      | Some StartBit =>
        bitmap ← ilift (UpdateBitmapRun (AllocBitmap b) StartBit PageCount_ true);
        _ ← put_block p (set_AllocBitmap bitmap (u32 (InUsePageCount b + PageCount_)) b);
        mret (Some (p, StartBit, BlockBase b + StartBit * EFI_PAGE_SIZE))
      | None => acquire_from l PageCount_
      end
  end.

Definition IoMmuAcquireBouncePages (PageCount_ : Z) : I (EFI_STATUS * option (Z * Z * Z)) :=
  if PageCount_ =? 0 then mret (EFI_INVALID_PARAMETER, None)
  else
    l ← iget mBounceBlockListHead;
    r ← acquire_from l PageCount_;
    match r with
    | Some x => mret (EFI_SUCCESS, Some x)
    | None =>
      let NewBlockPages := if PageCount_ <? IOMMU_BOUNCE_GROWTH_BLOCK_PAGES then IOMMU_BOUNCE_GROWTH_BLOCK_PAGES else PageCount_ in
      '(status, p) ← IoMmuPreAllocateBounceBlock NewBlockPages;
      if EFI_ERROR status then mret (status, None)
      else
        b ← get_bounce_block p;
        bitmap ← ilift (UpdateBitmapRun (AllocBitmap b) 0 PageCount_ true);
        _ ← put_block p (set_AllocBitmap bitmap PageCount_ b);
        mret (EFI_SUCCESS, Some (p, 0, BlockBase b))
    end.

Definition IoMmuReleaseBouncePages (Block StartPageIndex PageCount_ : Z) : I unit :=
  _ ← ilift (ASSERT (negb (Block =? 0)));
  b ← get_bounce_block Block;
  _ ← ilift (ASSERT (bb_Signature b =? IOMMU_BOUNCE_BLOCK_SIGNATURE));
  _ ← ilift (ASSERT (0 <? PageCount_));
  _ ← ilift (ASSERT (u32 (StartPageIndex + PageCount_) <=? BlockPageCount b));
  bitmap ← ilift (UpdateBitmapRun (AllocBitmap b) StartPageIndex PageCount_ false);
  put_block Block (set_AllocBitmap bitmap (u32 (InUsePageCount b - PageCount_)) b).

(** ** The protocol *)
Definition IoMmuSetAttribute (DeviceHandle Mapping IoMmuAccess : Z) : I EFI_STATUS := mret EFI_SUCCESS.

Definition is_common (op : EDKII_IOMMU_OPERATION) : bool :=
  match op with BusMasterCommonBuffer | BusMasterCommonBuffer64 => true | _ => false end.
Definition is_read (op : EDKII_IOMMU_OPERATION) : bool :=
  match op with BusMasterRead | BusMasterRead64 => true | _ => false end.
Definition is_write (op : EDKII_IOMMU_OPERATION) : bool :=
  match op with BusMasterWrite | BusMasterWrite64 => true | _ => false end.
Definition is_wide (op : EDKII_IOMMU_OPERATION) : bool :=
  match op with BusMasterRead64 | BusMasterWrite64 => true | _ => false end.

(** What [IoMmuMap] returns: the status, [*NumberOfBytes], and [*DeviceAddress]
    and [*Mapping] where it stores them. *)
Record map_result := mkMapResult { mr_status : EFI_STATUS; mr_bytes : Z; mr_device : option Z; mr_mapping : option Z }.

(** Without bouncing: a copy below 4GB for a 32-bit device, else the buffer itself. *)
Definition map_direct (op : EDKII_IOMMU_OPERATION) (HostAddress_ n : Z) : I map_result :=
  if negb (is_common op) && negb (is_wide op) && (SIZE_4GB <? u64 (HostAddress_ + n)) then
    let pages := EFI_SIZE_TO_PAGES n in
    '(status, MappedAddress) ← AllocatePages AllocateMaxAddress (SIZE_4GB - 1) pages;
    if EFI_ERROR status then mret (mkMapResult status 0 None None)
    else
      _ ← (if is_read op then CopyMem MappedAddress HostAddress_ n else mret tt);
      p ← AllocatePool sizeof_IOMMU_MAP_CONTEXT;
      if p =? 0 then _ ← FreePages MappedAddress pages; mret (mkMapResult EFI_OUT_OF_RESOURCES 0 None None)
      else
        _ ← imod (fun s => set_maps (<[p := mkMap IOMMU_MAP_CONTEXT_SIGNATURE op HostAddress_ n MappedAddress (u32 pages) 0 0]> (maps s)) s);
        mret (mkMapResult EFI_SUCCESS n (Some MappedAddress) (Some p))
  else mret (mkMapResult EFI_SUCCESS n (Some HostAddress_) (Some 0)).

(** Through the pages of a bounce block. *)
Definition map_bounced (op : EDKII_IOMMU_OPERATION) (HostAddress_ n : Z) : I map_result :=
  let RequestedPages := EFI_SIZE_TO_PAGES n in
  if MAX_UINT32 <? RequestedPages then mret (mkMapResult EFI_OUT_OF_RESOURCES n None None)
  else
    '(status, run) ← IoMmuAcquireBouncePages RequestedPages;
    if EFI_ERROR status then mret (mkMapResult EFI_OUT_OF_RESOURCES n None None)
    else
      '(b, start, base) ← ilift (match run with Some x => Ok x | None => Fault NullDeref end);
      va ← iget (fun s => IoMmuGetSharedVa s base);
      _ ← ZeroMem va (RequestedPages * EFI_PAGE_SIZE);
      _ ← (if is_read op then CopyMem va HostAddress_ n else mret tt);
      pa ← iget (fun s => IoMmuGetSharedPa s base);
      p ← AllocatePool sizeof_IOMMU_MAP_CONTEXT;
      if p =? 0 then
        _ ← IoMmuReleaseBouncePages b start RequestedPages; mret (mkMapResult EFI_OUT_OF_RESOURCES n (Some pa) None)
      else
        _ ← imod (fun s => set_maps (<[p := mkMap IOMMU_MAP_CONTEXT_SIGNATURE op HostAddress_ n base RequestedPages b start]> (maps s)) s);
        mret (mkMapResult EFI_SUCCESS n (Some pa) (Some p)).

Definition IoMmuMap (op : EDKII_IOMMU_OPERATION) (HostAddress_ n : Z) : I map_result :=
  active ← iget IoMmuIsBounceActive;
  if negb active then map_direct op HostAddress_ n
  else if is_common op then
    pa ← iget (fun s => IoMmuGetSharedPa s HostAddress_);
    mret (mkMapResult EFI_SUCCESS n (Some pa) (Some 0))
  else map_bounced op HostAddress_ n.

Definition IoMmuUnmap (Mapping : Z) : I EFI_STATUS :=
  if Mapping =? 0 then mret EFI_SUCCESS
  else
    m ← get_map Mapping;
    _ ← ilift (ASSERT (mc_Signature m =? IOMMU_MAP_CONTEXT_SIGNATURE));
    if BounceBlock m =? 0 then
      _ ← (if is_write (Operation m) then CopyMem (HostAddress m) (BounceBase m) (NumberOfBytes m) else mret tt);
      _ ← FreePages (BounceBase m) (BouncePageCount m);
      _ ← free_map Mapping;
      mret EFI_SUCCESS
    else
      va ← iget (fun s => IoMmuGetSharedVa s (BounceBase m));
      _ ← (if is_write (Operation m) then CopyMem (HostAddress m) va (NumberOfBytes m) else mret tt);
      if negb (is_common (Operation m)) then
        _ ← IoMmuReleaseBouncePages (BounceBlock m) (BounceStartPage m) (BouncePageCount m);
        _ ← free_map Mapping;
        mret EFI_SUCCESS
      else mret EFI_SUCCESS.

(** The function up to [End]; [*HostAddress] is returned with the status. *)
Definition allocate_buffer (This : Z) (Type_ : EFI_ALLOCATE_TYPE) (Pages_ HostAddress_ Attributes : Z) : I (EFI_STATUS * option Z) :=
  if (This =? 0) || (Pages_ =? 0) || (HostAddress_ =? 0) then mret (EFI_INVALID_PARAMETER, None)
  else
    let narrow := Z.land Attributes EDKII_IOMMU_ATTRIBUTE_DUAL_ADDRESS_CYCLE =? 0 in
    '(status, PhysicalAddress) ← AllocatePages (if narrow then AllocateMaxAddress else Type_) (if narrow then SIZE_4GB - 1 else MAX_UINTN) Pages_;
    if EFI_ERROR status then mret (status, None)
    else
      active ← iget IoMmuIsBounceActive;
      if negb active then mret (status, Some PhysicalAddress)
      else
        '(status, ctx) ← IoMmuPrepareAddressRangeForDma PhysicalAddress (u32 Pages_);
        if EFI_ERROR status then _ ← FreePages PhysicalAddress Pages_; mret (status, None)
        else
          p ← AllocatePool sizeof_IOMMU_ALLOC_CONTEXT;
          if p =? 0 then
            _ ← IoMmuReleaseAddressRangeFromDma ctx; _ ← FreePages PhysicalAddress Pages_; mret (EFI_OUT_OF_RESOURCES, None)
          else
            _ ← imod (fun s => set_allocs (<[p := mkAlloc PhysicalAddress Pages_ ctx]> (allocs s)) s);
            _ ← imod (fun s => set_alloc_list (mAllocContextListHead s ++ [p]) s);
            va ← iget (fun s => IoMmuGetSharedVa s PhysicalAddress);
            mret (status, Some va).

Definition IoMmuAllocateBuffer (This : Z) (Type_ : EFI_ALLOCATE_TYPE) (Pages_ HostAddress_ Attributes : Z) : I (EFI_STATUS * option Z) :=
  '(status, va) ← allocate_buffer This Type_ Pages_ HostAddress_ Attributes;
  _ ← ilift (ASSERT (negb (EFI_ERROR status)));
  mret (status, va).

Fixpoint forget_alloc (l : list Z) (HostAddress_ : Z) : I unit :=
  match l with
  | [] => mret tt
  | p :: l =>
    a ← get_alloc p;
    va ← iget (fun s => IoMmuGetSharedVa s (OriginalAddress a));
    if va =? HostAddress_ then
      _ ← imod (fun s => set_alloc_list (filter (fun q => q <> p) (mAllocContextListHead s)) s);
      _ ← IoMmuReleaseAddressRangeFromDma (ac_DmaContext a);
      _ ← FreePool p;
      imod (fun s => set_allocs (delete p (allocs s)) s)
    else forget_alloc l HostAddress_
  end.

Definition IoMmuFreeBuffer (Pages_ HostAddress_ : Z) : I EFI_STATUS :=
  active ← iget IoMmuIsBounceActive;
  if negb active then FreePages HostAddress_ Pages_
  else
    l ← iget mAllocContextListHead;
    _ ← forget_alloc l HostAddress_;
    _ ← FreePages HostAddress_ Pages_;
    mret EFI_SUCCESS.

Definition IoMmuDxeEntryPoint : I EFI_STATUS :=
  let installed := if EFI_ERROR Install_answer then Install_answer else EFI_SUCCESS in
  _ ← imod (fun s => set_mode IoMmuComputeBounceMode (mHvIvm s) s);
  active ← iget IoMmuIsBounceActive;
  if active : bool then
    status ← IoMmuInitializeBounce;
    if EFI_ERROR status then mret status
    else
      _ ← IoMmuPreAllocateBounceBlock IOMMU_BOUNCE_INITIAL_BLOCK_PAGES;
      mret installed
  else mret installed.

End Driver.
End IoMmu.
