(* ===== verification/IoMmuBitmap.v ===== *)
(** The bitmap of a bounce block: bits of a list of 64-bit words, what the two
    loops over them compute, and a reference definition of the search. *)
From stdpp Require Import base list numbers list_numbers option gmap.
From Stdlib Require Import ZArith Lia.
From S2P Require Import Prelude Circular PkRing EmclPacket IoMmu.
Open Scope Z_scope.
Import IoMmu.

Definition bit (l : list Z) (i : Z) : bool :=
  match l !! Z.to_nat (i / 64) with Some w => Z.testbit w (i mod 64) | None => false end.

(** The lowest run of [n] clear bits among the first [size], by trying every
    start. *)
Definition clear_run (l : list Z) (start n : Z) : bool := forallb (fun j => negb (bit l j)) (seqZ start n).
Definition lowest_run (l : list Z) (size n : Z) : option Z := List.find (fun start => clear_run l start n) (seqZ 0 (size - n + 1)).

(** The number of set bits among the first [size]. *)
Definition used (l : list Z) (size : Z) : Z := Zlength (filter (fun j => bit l j = true) (seqZ 0 size)).

Lemma clear_run_iff l start n : clear_run l start n = true <-> forall j, start <= j < start + n -> bit l j = false.
Proof.
  unfold clear_run. rewrite forallb_forall. split.
  - intros Hc j Hj. apply negb_true_iff, Hc. rewrite <- list_elem_of_In, elem_of_seqZ. lia.
  - intros Hc j Hj. rewrite <- list_elem_of_In, elem_of_seqZ in Hj. apply negb_true_iff, Hc. lia.
Qed.

Lemma clear_run_false l start n j : start <= j < start + n -> bit l j = true -> clear_run l start n = false.
Proof. intros Hj Hb. apply not_true_iff_false. rewrite clear_run_iff. intros Hc. rewrite Hc in Hb by done. done. Qed.

(** ** One bit *)
Lemma shift_6 i : Z.shiftr i 6 = i / 64.
Proof. by rewrite Z.shiftr_div_pow2. Qed.
Lemma land_63 i : Z.land i 63 = i mod 64.
Proof. apply (Z.land_ones i 6). lia. Qed.

Lemma word_at l i : 0 <= i < 64 * Zlength l -> exists w, l !! Z.to_nat (i / 64) = Some w /\ bitmap_word l i = Ok w.
Proof.
  intros Hi. destruct (lookup_lt_is_Some_2 l (Z.to_nat (i / 64))) as [w Ew]; [unfold Zlength in *; zlia|].
  exists w. split; [done|]. unfold bitmap_word. by rewrite shift_6, Ew.
Qed.

Lemma land_bit w i : 0 <= i -> (Z.land w (bit_mask i) =? 0) = negb (Z.testbit w (i mod 64)).
Proof.
  intros Hi. unfold bit_mask. rewrite land_63. pose proof (Z.mod_pos_bound i 64 eq_refl) as Hm. set (k := i mod 64) in *.
  assert (E : Z.land w (Z.shiftl 1 k) = if Z.testbit w k then Z.shiftl 1 k else 0).
  { apply Z.bits_inj'. intros j Hj. rewrite Z.land_spec. destruct (Z.eq_dec j k) as [->|Hne].
    - rewrite Z.shiftl_spec, Z.sub_diag by lia. destruct (Z.testbit w k); [|by rewrite Z.bits_0].
      rewrite Z.shiftl_spec, Z.sub_diag by lia. done.
    - assert (Z.testbit (Z.shiftl 1 k) j = false) as ->.
      { destruct (Z.lt_ge_cases j k); [by apply Z.shiftl_spec_low|]. rewrite Z.shiftl_spec by lia. apply (Z.bits_above_log2 1); cbn; lia. }
      rewrite andb_false_r. destruct (Z.testbit w k); [|by rewrite Z.bits_0]. symmetry.
      destruct (Z.lt_ge_cases j k); [by apply Z.shiftl_spec_low|]. rewrite Z.shiftl_spec by lia. apply (Z.bits_above_log2 1); cbn; lia. }
  rewrite E. destruct (Z.testbit w k); [|done]. cbn. apply Z.eqb_neq. rewrite Z.shiftl_1_l. pose proof (Z.pow_pos_nonneg 2 k). lia.
Qed.

Lemma test_bit l i : 0 <= i < 64 * Zlength l -> exists w, bitmap_word l i = Ok w /\ (Z.land w (bit_mask i) =? 0) = negb (bit l i).
Proof.
  intros Hi. destruct (word_at l i Hi) as (w & Ew & Hw). exists w. split; [done|]. rewrite land_bit by lia. unfold bit. by rewrite Ew.
Qed.

Definition words_ok (l : list Z) : Prop := Forall (fun w => 0 <= w < 2 ^ 64) l.

Lemma bit_mask_testbit i j : 0 <= i -> 0 <= j -> Z.testbit (bit_mask i) j = (j =? i mod 64).
Proof.
  intros Hi Hj. unfold bit_mask. rewrite land_63, Z.shiftl_1_l. pose proof (Z.mod_pos_bound i 64 eq_refl).
  rewrite Z.pow2_bits_eqb by lia. apply Z.eqb_sym.
Qed.

Lemma bounded_bits w k : 0 <= k -> (0 <= w < 2 ^ k <-> 0 <= w /\ forall j, k <= j -> Z.testbit w j = false).
Proof.
  intros Hk. split.
  - intros [H0 Hw]. split; [done|]. intros j Hj. destruct (Z.eq_dec w 0) as [->|]; [apply Z.bits_0|].
    apply Z.bits_above_log2; [done|]. apply Z.log2_lt_pow2 in Hw; lia.
  - intros [H0 Hb]. split; [done|]. destruct (Z.eq_dec w 0) as [->|Hne]; [by apply Z.pow_pos_nonneg|].
    apply Z.log2_lt_pow2; [lia|]. destruct (Z.lt_ge_cases (Z.log2 w) k); [done|].
    pose proof (Z.bit_log2 w ltac:(lia)) as Hb1. by rewrite Hb in Hb1.
Qed.

Definition updated (w i : Z) (b : bool) : Z := if b then Z.lor w (bit_mask i) else Z.land w (u64 (Z.lnot (bit_mask i))).

Lemma updated_spec w i b j : 0 <= w < 2 ^ 64 -> 0 <= i -> 0 <= j -> Z.testbit (updated w i b) j = if j =? i mod 64 then b else Z.testbit w j.
Proof.
  intros Hw Hi Hj. pose proof (Z.mod_pos_bound i 64 eq_refl) as Hm. unfold updated. destruct b.
  - rewrite Z.lor_spec, bit_mask_testbit by done. destruct (j =? i mod 64); [apply orb_true_r|apply orb_false_r].
  - rewrite Z.land_spec. unfold u64. destruct (Z.lt_ge_cases j 64) as [Hlt|Hge].
    + rewrite Z.mod_pow2_bits_low, Z.lnot_spec, bit_mask_testbit by lia. destruct (j =? i mod 64); [apply andb_false_r|apply andb_true_r].
    + rewrite Z.mod_pow2_bits_high by lia. rewrite andb_false_r. destruct (Z.eqb_spec j (i mod 64)); [lia|].
      symmetry. by apply (proj1 (bounded_bits w 64 ltac:(lia)) Hw).
Qed.

Lemma updated_range w i b : 0 <= w < 2 ^ 64 -> 0 <= i -> 0 <= updated w i b < 2 ^ 64.
Proof.
  intros Hw Hi. pose proof (Z.mod_pos_bound i 64 eq_refl) as Hm. apply bounded_bits; [lia|]. split.
  - unfold updated. destruct b; [|apply Z.land_nonneg; left; lia]. apply Z.lor_nonneg. split; [lia|]. unfold bit_mask. rewrite land_63, Z.shiftl_1_l. lia.
  - intros j Hj. rewrite updated_spec by lia. destruct (Z.eqb_spec j (i mod 64)); [lia|]. by apply (proj1 (bounded_bits w 64 ltac:(lia)) Hw).
Qed.

(** ** Runs of bits *)
Lemma update_bit l i b w : words_ok l -> 0 <= i -> l !! Z.to_nat (i / 64) = Some w ->
  let l' := <[Z.to_nat (i / 64) := updated w i b]> l in
  words_ok l' /\ Zlength l' = Zlength l /\ forall j, 0 <= j -> bit l' j = if j =? i then b else bit l j.
Proof.
  intros Hl Hi Ew l'. assert (Hw : 0 <= w < 2 ^ 64) by (exact (Forall_lookup_1 (fun w => 0 <= w < 2 ^ 64) l _ w Hl Ew)).
  split_and!.
  - apply Forall_insert; [done|by apply updated_range].
  - unfold Zlength, l'. by rewrite length_insert.
  - intros j Hj. unfold bit, l'. destruct (decide (Z.to_nat (j / 64) = Z.to_nat (i / 64))) as [Heq|Hne].
    + rewrite Heq, list_lookup_insert_eq by (by apply lookup_lt_Some in Ew). rewrite Ew.
      rewrite updated_spec by zlia. assert (j / 64 = i / 64) by zlia.
      destruct (Z.eqb_spec (j mod 64) (i mod 64)), (Z.eqb_spec j i); try done; zlia.
    + rewrite list_lookup_insert_ne by done. destruct (Z.eqb_spec j i) as [->|]; [done|done].
Qed.

Lemma update_run_spec b : forall n l i, words_ok l -> 0 <= i -> i + Z.of_nat n <= 64 * Zlength l ->
  exists l', update_run n l i b = Ok l' /\ words_ok l' /\ Zlength l' = Zlength l /\
    forall j, 0 <= j -> bit l' j = if (i <=? j) && (j <? i + Z.of_nat n) then b else bit l j.
Proof.
  induction n as [|n IH]; intros l i Hl Hi Hn; cbn [update_run].
  - exists l. split_and!; try done. intros j Hj. destruct (Z.leb_spec i j), (Z.ltb_spec j (i + Z.of_nat 0)); cbn; try done; lia.
  - destruct (word_at l i) as (w & Ew & Hw); [lia|]. rewrite Hw, bind_Ok, shift_6.
    destruct (update_bit l i b w Hl Hi Ew) as (Hl1 & L1 & B1). fold (updated w i b).
    destruct (IH (<[Z.to_nat (i / 64) := updated w i b]> l) (i + 1)) as (l' & E & Hl2 & L2 & B2); [done|lia|rewrite L1; lia|].
    exists l'. split_and!; [done|done|by rewrite L2|]. intros j Hj. rewrite B2, B1 by done.
    destruct (Z.leb_spec (i + 1) j), (Z.leb_spec i j), (Z.ltb_spec j (i + 1 + Z.of_nat n)), (Z.ltb_spec j (i + Z.of_nat (S n))), (Z.eqb_spec j i);
      cbn; try done; lia.
Qed.

Lemma UpdateBitmapRun_spec l i n b : words_ok l -> 0 <= i -> 0 <= n -> i + n <= 64 * Zlength l ->
  exists l', UpdateBitmapRun l i n b = Ok l' /\ words_ok l' /\ Zlength l' = Zlength l /\
    forall j, 0 <= j -> bit l' j = if (i <=? j) && (j <? i + n) then b else bit l j.
Proof.
  intros Hl Hi Hn Hb. destruct (update_run_spec b (Z.to_nat n) l i Hl Hi) as (l' & E & H1 & H2 & H3); [lia|].
  rewrite Z2Nat.id in H3 by lia. eauto.
Qed.

Lemma find_app_none {A} (f : A -> bool) l l' : List.find f l = None -> List.find f (l ++ l') = List.find f l'.
Proof. induction l as [|a l IH]; cbn; [done|]. by destruct (f a). Qed.

Lemma find_none {A} (f : A -> bool) l : (forall x, x ∈ l -> f x = false) -> List.find f l = None.
Proof.
  induction l as [|a l IH]; cbn; [done|]. intros Hf. rewrite (Hf a), IH; [done| |by apply elem_of_cons; left].
  intros x Hx. apply Hf. by apply elem_of_cons; right.
Qed.

(** The search, from bit [i] on: [run] clear bits end there, and every earlier
    run of [len] bits has a set one. *)
Lemma find_run_spec l len size : 0 < len -> size <= 64 * Zlength l -> forall n i run,
  i + Z.of_nat n = size -> 0 <= run < len -> 0 <= i - run ->
  (forall j, i - run <= j < i -> bit l j = false) ->
  (forall start, 0 <= start < i - run -> clear_run l start len = false) ->
  find_run n l len i run = Ok (lowest_run l size len).
Proof.
  intros Hlen Hsize. induction n as [|n IH]; intros i run Hi Hrun Hir Hclear Hearly; cbn [find_run].
  - f_equal. symmetry. apply find_none. intros start Hs%elem_of_seqZ. apply Hearly. lia.
  - destruct (test_bit l i) as (w & Ew & Hb); [lia|]. rewrite Ew, bind_Ok, Hb. destruct (bit l i) eqn:Hbit; cbn [negb].
    + apply IH; try lia. intros start Hs. destruct (Z.lt_ge_cases start (i - run)); [by apply Hearly; lia|].
      apply (clear_run_false l start len i); [lia|done].
    + assert (Hc1 : forall j, i - run <= j < i + 1 -> bit l j = false).
      { intros j Hj. destruct (Z.eq_dec j i) as [->|]; [done|]. apply Hclear. lia. }
      destruct (Z.eqb_spec (run + 1) len) as [He|Hne].
      * f_equal. unfold lowest_run. set (st := i + 1 - len).
        replace (size - len + 1) with (st + (1 + (size - len - st))) by lia. rewrite seqZ_app by lia.
        rewrite find_app_none; [|apply find_none; intros start Hs%elem_of_seqZ; apply Hearly; lia].
        rewrite seqZ_app by lia. assert (seqZ (0 + st) 1 = [st]) as -> by (unfold seqZ; cbn; f_equal; lia). cbn [app List.find].
        assert (clear_run l st len = true) as ->; [|done]. apply clear_run_iff. intros j Hj. apply Hc1. lia.
      * apply IH; try lia; [intros j Hj; apply Hc1; lia|]. intros start Hs. apply Hearly. lia.
Qed.

Lemma lowest_run_some l size n start : lowest_run l size n = Some start -> 0 <= start /\ start + n <= size /\ clear_run l start n = true.
Proof.
  intros Hf. apply find_some in Hf as [Hin Hc]. rewrite <- list_elem_of_In, elem_of_seqZ in Hin. split_and!; [lia|lia|done].
Qed.

Lemma FindFreeRun_spec l size n : 0 <= n -> 0 <= size <= 64 * Zlength l -> 0 < n -> FindFreeRun l size n = Ok (lowest_run l size n).
Proof.
  intros Hn Hs Hpos. unfold FindFreeRun. destruct (Z.eqb_spec n 0); [lia|]. cbn [orb]. destruct (Z.ltb_spec size n).
  - unfold lowest_run. by rewrite seqZ_nil by lia.
  - apply find_run_spec; try lia.
Qed.

(** ** Counting *)
Lemma seqZ_split a n start k : 0 <= start - a -> 0 <= k -> start + k <= a + n ->
  seqZ a n = seqZ a (start - a) ++ seqZ start k ++ seqZ (start + k) (a + n - start - k).
Proof.
  intros H1 H2 H3. replace n with (start - a + (k + (a + n - start - k))) at 1 by lia.
  rewrite seqZ_app, seqZ_app by lia. by replace (a + (start - a)) with start by lia.
Qed.

Lemma filter_ext_on (f g : Z -> Prop) `{forall x, Decision (f x)} `{forall x, Decision (g x)} (l : list Z) :
  (forall x, x ∈ l -> f x <-> g x) -> filter f l = filter g l.
Proof.
  induction l as [|a l IH]; intros Hfg; [done|]. rewrite !filter_cons, IH by (intros x Hx; apply Hfg; by apply elem_of_cons; right).
  pose proof (Hfg a ltac:(by apply elem_of_cons; left)) as Ha. repeat case_decide; tauto.
Qed.

Lemma filter_all (f : Z -> Prop) `{forall x, Decision (f x)} (l : list Z) : (forall x, x ∈ l -> f x) -> filter f l = l.
Proof.
  induction l as [|a l IH]; intros Hf; [done|]. rewrite filter_cons_True by (apply Hf; by apply elem_of_cons; left). f_equal. apply IH.
  intros x Hx. apply Hf. by apply elem_of_cons; right.
Qed.

Lemma filter_none (f : Z -> Prop) `{forall x, Decision (f x)} (l : list Z) : (forall x, x ∈ l -> ~ f x) -> filter f l = [].
Proof.
  induction l as [|a l IH]; intros Hf; [done|]. rewrite filter_cons_False by (apply Hf; by apply elem_of_cons; left). apply IH.
  intros x Hx. apply Hf. by apply elem_of_cons; right.
Qed.

(** Setting a clear run, or clearing a set one, changes the count by its length. *)
Lemma used_run l l' size start n : 0 <= start -> 0 <= n -> start + n <= size ->
  (forall j, start <= j < start + n -> bit l j = false) ->
  (forall j, 0 <= j -> bit l' j = if (start <=? j) && (j <? start + n) then true else bit l j) -> used l' size = used l size + n.
Proof.
  intros H1 H2 H3 Hc Hb. unfold used. rewrite (seqZ_split 0 size start n) by lia. rewrite !filter_app, !Zlength_app, (Z.sub_0_r start).
  assert (Ho : forall a k, 0 <= a -> (a + k <= start \/ start + n <= a) ->
    filter (fun j => bit l' j = true) (seqZ a k) = filter (fun j => bit l j = true) (seqZ a k)).
  { intros a k Ha Hor. apply filter_ext_on. intros x Hx%elem_of_seqZ. rewrite Hb by lia.
    destruct (Z.leb_spec start x), (Z.ltb_spec x (start + n)); cbn; try done; lia. }
  rewrite (Ho 0 start), (Ho (start + n)) by lia.
  rewrite (filter_all (fun j => bit l' j = true)), (filter_none (fun j => bit l j = true) (seqZ start n)).
  - unfold Zlength at 2 5. rewrite length_seqZ. cbn. lia.
  - intros x Hx%elem_of_seqZ. rewrite Hc by lia. done.
  - intros x Hx%elem_of_seqZ. rewrite Hb by lia. destruct (Z.leb_spec start x), (Z.ltb_spec x (start + n)); cbn; try done; lia.
Qed.

Lemma used_bounds l size : 0 <= size -> 0 <= used l size <= size.
Proof.
  intros Hs. unfold used, Zlength. pose proof (length_filter (fun j => bit l j = true) (seqZ 0 size)). rewrite length_seqZ in *. lia.
Qed.

Lemma bit_zeros n j : bit (replicate n 0) j = false.
Proof.
  unfold bit. destruct (replicate n 0 !! Z.to_nat (j / 64)) as [w|] eqn:E; [|done]. apply lookup_replicate in E as [-> _]. apply Z.bits_0.
Qed.

Lemma used_zeros n size : used (replicate n 0) size = 0.
Proof. unfold used. rewrite filter_none; [done|]. intros x _. by rewrite bit_zeros. Qed.
