(* ===== verification/IoMmuInv.v ===== *)
(** The invariant of the IOMMU driver while bouncing is active, and what its
    helpers do to it: who owns which pages, which of them are shared with the
    host, and which runs of a block are mapped. *)
From stdpp Require Import base list numbers list_numbers option gmap fin_map_dom.
From Stdlib Require Import ZArith Lia.
From S2P Require Import Prelude Circular PkRing EmclPacket Heap IoMmu IoMmuBitmap.
Open Scope Z_scope.
Import PkRing EmclPacket IoMmu.

(** ** Addresses *)

(** Without isolation there is no shared alias; with it the alias is one bit
    above all memory, and the bits added for canonical form lie above that. *)
Definition geometry (boundary mask : Z) : Prop :=
  (boundary = 0 /\ mask = 0) \/
  (exists k, 32 <= k <= 62 /\ boundary = 2 ^ k /\ 0 <= mask < 2 ^ 64 /\ Z.land mask (Z.ones (k + 1)) = 0).

(** The end of the guest's memory. *)
Definition memory_top (boundary : Z) : Z := if 0 <? boundary then boundary else 2 ^ 64.

Lemma land_clear x k mask : 0 <= k -> 0 <= x < 2 ^ k -> Z.land mask (Z.ones k) = 0 -> Z.land x (Z.lnot mask) = x.
Proof.
  intros Hk Hx Hm. apply Z.bits_inj'. intros j Hj. rewrite Z.land_spec, Z.lnot_spec by done.
  destruct (Z.lt_ge_cases j k) as [Hlt|Hge].
  - assert (Z.testbit mask j = false) as ->; [|apply andb_true_r].
    pose proof (f_equal (fun z => Z.testbit z j) Hm) as Hb. cbn beta in Hb. rewrite Z.land_spec, Z.bits_0, Z.ones_spec_low in Hb by lia.
    by rewrite andb_true_r in Hb.
  - assert (Z.testbit x j = false) as ->; [|done]. by apply (proj1 (bounded_bits x k Hk) Hx).
Qed.

Lemma land_lnot_u64 x mask : 0 <= x < 2 ^ 64 -> Z.land x (u64 (Z.lnot mask)) = Z.land x (Z.lnot mask).
Proof.
  intros Hx. apply Z.bits_inj'. intros j Hj. rewrite !Z.land_spec. unfold u64. destruct (Z.lt_ge_cases j 64).
  - by rewrite Z.mod_pow2_bits_low.
  - assert (Z.testbit x j = false) as ->; [|done]. by apply (proj1 (bounded_bits x 64 ltac:(lia)) Hx).
Qed.

Lemma lor_land_lnot x mask : Z.land (Z.lor x mask) (Z.lnot mask) = Z.land x (Z.lnot mask).
Proof.
  apply Z.bits_inj'. intros j Hj. rewrite !Z.land_spec, Z.lor_spec, Z.lnot_spec by done.
  destruct (Z.testbit x j), (Z.testbit mask j); done.
Qed.

Definition geometry_of (s : iommu) : Prop := geometry (mSharedGpaBoundary s) (mCanonicalizationMask s).
Definition top (s : iommu) : Z := memory_top (mSharedGpaBoundary s).

Lemma pow2_le k : 0 <= k <= 63 -> 0 < 2 ^ k <= 2 ^ 63.
Proof. intros. split; [lia|]. apply Z.pow_le_mono_r; lia. Qed.

Lemma shared_pa s a : geometry_of s -> 0 <= a < top s -> IoMmuGetSharedPa s a = a + mSharedGpaBoundary s.
Proof.
  intros [[Hb Hm]|(k & Hk & Hb & Hm & Hl)] Ha; unfold IoMmuGetSharedPa, top, memory_top in *; rewrite Hb in *.
  - rewrite Hm. change (u64 (Z.lnot 0)) with (Z.ones 64). rewrite Z.land_ones, Z.mod_small by (cbn in Ha; lia). destruct (Z.ltb_spec a 0); lia.
  - pose proof (pow2_le k ltac:(lia)). destruct (Z.ltb_spec 0 (2 ^ k)); [|lia].
    assert (2 ^ (k + 1) = 2 * 2 ^ k) by (rewrite Z.pow_add_r by lia; lia).
    rewrite land_lnot_u64 by lia. rewrite (land_clear a (k + 1)) by (done || lia). destruct (Z.ltb_spec a (2 ^ k)); [|lia].
    unfold u64. rewrite Z.mod_small by lia. done.
Qed.

Lemma physical_shared s a : geometry_of s -> 0 <= a < top s -> physical s (IoMmuGetSharedVa s a) = a.
Proof.
  intros G Ha. unfold IoMmuGetSharedVa, physical. rewrite (shared_pa s a G Ha), lor_land_lnot.
  destruct G as [[Hb Hm]|(k & Hk & Hb & Hm & Hl)]; unfold top, memory_top in *; rewrite Hb in *.
  - rewrite Hm, Z.lnot_0, Z.land_m1_r. cbn. lia.
  - pose proof (pow2_le k ltac:(lia)). destruct (Z.ltb_spec 0 (2 ^ k)); [|lia].
    assert (2 ^ (k + 1) = 2 * 2 ^ k) by (rewrite Z.pow_add_r by lia; lia).
    rewrite (land_clear (a + 2 ^ k) (k + 1)) by (done || lia). cbn [andb]. destruct (Z.leb_spec (2 ^ k) (a + 2 ^ k)); lia.
Qed.

Lemma physical_private s a : geometry_of s -> 0 <= a < top s -> physical s a = a.
Proof.
  intros G Ha. unfold physical. destruct G as [[Hb Hm]|(k & Hk & Hb & Hm & Hl)]; unfold top, memory_top in *; rewrite Hb in *.
  - by rewrite Hm, Z.lnot_0, Z.land_m1_r.
  - pose proof (pow2_le k ltac:(lia)). destruct (Z.ltb_spec 0 (2 ^ k)); [|lia].
    assert (2 ^ (k + 1) = 2 * 2 ^ k) by (rewrite Z.pow_add_r by lia; lia).
    rewrite (land_clear a (k + 1)) by (done || lia). cbn [andb]. destruct (Z.leb_spec (2 ^ k) a); lia.
Qed.

(** ** What the platform promises *)
Class platform_ok {PL : Platform} (cl : gmap Z Z) : Prop := {
  po_geometry : geometry PcdIsolationSharedGpaBoundary PcdIsolationSharedGpaCanonicalizationBitmask;
  po_client : forall b k, cl !! b = Some k -> 0 <= b /\ 0 <= k /\ b + k <= memory_top PcdIsolationSharedGpaBoundary;
  po_pool : forall t live n, AllocatePool_answer t live n <> 0 -> AllocatePool_answer t live n ∉ live;
  po_pages : forall t live ty a n st p, AllocatePages_answer t live ty a n = (st, p) -> EFI_ERROR st = false ->
    0 < n /\ 0 < p /\ p mod 4096 = 0 /\ p + 4096 * n <= memory_top PcdIsolationSharedGpaBoundary /\
    (ty = AllocateMaxAddress -> p + 4096 * n <= a + 1) /\
    (forall b k, live !! b = Some k -> b + 4096 * k <= p \/ p + 4096 * n <= b) /\
    (forall b k, cl !! b = Some k -> b + k <= p \/ p + 4096 * n <= b);
  po_visible : forall t live b n st h, MakeVisible_answer t live b n = (st, h) -> EFI_ERROR st = false -> live !! h = None
}.

(** ** The invariant *)
Section Inv.
Context {B : BuildOptions} {PL : Platform}.

Definition range_of (s : iommu) (p : Z) : option (IOMMU_DMA_RANGE_CONTEXT * Z) :=
  match blocks s !! p with
  | Some b => Some (bb_DmaContext b, BlockPageCount b)
  | None => (fun a => (ac_DmaContext a, Pages a)) <$> allocs s !! p
  end.

(** Ranges prepared for DMA, by owner: a block, a buffer, or the operation under
    way. *)
Definition range_at (pend : option (IOMMU_DMA_RANGE_CONTEXT * Z)) (s : iommu) (o : option Z) : option (IOMMU_DMA_RANGE_CONTEXT * Z) :=
  match o with Some p => range_of s p | None => pend end.

Record block_ok (p : Z) (b : IOMMU_BOUNCE_BLOCK) : Prop := {
  bk_null : p <> 0;
  bk_sig : bb_Signature b = IOMMU_BOUNCE_BLOCK_SIGNATURE;
  bk_base : BaseAddress (bb_DmaContext b) = BlockBase b;
  bk_low : BlockBase b + 4096 * BlockPageCount b <= 2 ^ 32;
  bk_words : words_ok (AllocBitmap b);
  bk_size : BlockPageCount b <= 64 * Zlength (AllocBitmap b);
  bk_used : InUsePageCount b = used (AllocBitmap b) (BlockPageCount b)
}.

(** The caller's buffer. *)
Definition buffer_ok (cl : gmap Z Z) (a n : Z) : Prop := exists b k, cl !! b = Some k /\ b <= a /\ a + n <= b + k.

Record map_ok (bl : gmap Z IOMMU_BOUNCE_BLOCK) (cl : gmap Z Z) (c : IOMMU_MAP_CONTEXT) : Prop := {
  mk_sig : mc_Signature c = IOMMU_MAP_CONTEXT_SIGNATURE;
  mk_op : is_common (Operation c) = false;
  mk_block : exists b, bl !! BounceBlock c = Some b /\ BounceStartPage c + BouncePageCount c <= BlockPageCount b /\
    BounceBase c = BlockBase b + BounceStartPage c * 4096;
  mk_run : 0 <= BounceStartPage c /\ 0 < BouncePageCount c;
  mk_bytes : 0 < NumberOfBytes c <= 4096 * BouncePageCount c;
  mk_buffer : buffer_ok cl (HostAddress c) (NumberOfBytes c)
}.

(** Who holds page [i] of block [p]: a mapping, or the operation under way,
    which holds the run [hold]. *)
Definition holds (c : IOMMU_MAP_CONTEXT) (p i : Z) : Prop :=
  BounceBlock c = p /\ BounceStartPage c <= i < BounceStartPage c + BouncePageCount c.
Definition holder (hold : option (Z * Z * Z)) (ms : gmap Z IOMMU_MAP_CONTEXT) (o : option Z) (p i : Z) : Prop :=
  match o with
  | Some m => exists c, ms !! m = Some c /\ holds c p i
  | None => exists start n, hold = Some (p, start, n) /\ start <= i < start + n
  end.

(** Pool memory the driver owns, and what the operation under way holds. *)
Definition owned (loc : list Z) (s : iommu) : list Z :=
  pointers (fun b => [AllocBitmap_ptr b]) (blocks s) ++ keys (maps s) ++ keys (allocs s) ++ loc.

(** The mode, and the memory of the guest. *)
Record memory_inv (s : iommu) : Prop := {
  mi_active : IoMmuIsBounceActive s = true;
  mi_hv : IoMmuRequiresHostVisibility s = true \/ IoMmuRequiresPinning s = true -> mHvIvm s = true;
  mi_geometry : geometry_of s;
  mi_boundary : mSharedGpaBoundary s = PcdIsolationSharedGpaBoundary;
  mi_pages : forall b k, page_allocs s !! b = Some k -> 0 < b /\ b mod 4096 = 0 /\ 0 < k /\ b + 4096 * k <= top s;
  mi_client : forall b k, client s !! b = Some k -> 0 <= b /\ 0 <= k /\ b + k <= top s;
  mi_pp : forall b k b' k', page_allocs s !! b = Some k -> page_allocs s !! b' = Some k' -> b <> b' -> b + 4096 * k <= b' \/ b' + 4096 * k' <= b;
  mi_pc : forall b k b' k', page_allocs s !! b = Some k -> client s !! b' = Some k' -> b + 4096 * k <= b' \/ b' + k' <= b
}.

(** What is shared with the host is exactly the memory of the owners. *)
Record shared_inv (pend : option (IOMMU_DMA_RANGE_CONTEXT * Z)) (s : iommu) : Prop := {
  si_ranges : forall o c n, range_at pend s o = Some (c, n) -> page_allocs s !! BaseAddress c = Some n /\ PageCount c = u32 n /\
    (PinApplied c = true -> IoMmuRequiresPinning s = true) /\
    (IoMmuRequiresHostVisibility s = true -> visible s !! RangeProtectionHandle c = Some (BaseAddress c, u32 (PageCount c * EFI_PAGE_SIZE)));
  si_apart : forall o o' c n c' n', o <> o' -> range_at pend s o = Some (c, n) -> range_at pend s o' = Some (c', n') ->
    BaseAddress c <> BaseAddress c' /\ (IoMmuRequiresHostVisibility s = true -> RangeProtectionHandle c <> RangeProtectionHandle c');
  si_visible : forall h r, visible s !! h = Some r -> IoMmuRequiresHostVisibility s = true /\
    exists o c n, range_at pend s o = Some (c, n) /\ RangeProtectionHandle c = h
}.

(** Blocks and their bitmaps, and the mappings. *)
Record blocks_inv (hold : option (Z * Z * Z)) (s : iommu) : Prop := {
  bi_list : NoDup (mBounceBlockListHead s) /\ forall p, p ∈ mBounceBlockListHead s <-> is_Some (blocks s !! p);
  bi_block : forall p b, blocks s !! p = Some b -> block_ok p b;
  bi_map : forall m c, maps s !! m = Some c -> map_ok (blocks s) (client s) c;
  bi_bits : forall p b i, blocks s !! p = Some b -> 0 <= i < BlockPageCount b ->
    (bit (AllocBitmap b) i = true <-> exists o, holder hold (maps s) o p i);
  bi_hold : forall p start n, hold = Some (p, start, n) -> exists b, blocks s !! p = Some b /\ 0 <= start /\ 0 < n /\ start + n <= BlockPageCount b;
  bi_runs : forall o o' p i, holder hold (maps s) o p i -> holder hold (maps s) o' p i -> o = o'
}.

Record allocs_inv (s : iommu) : Prop := {
  ai_list : NoDup (mAllocContextListHead s) /\ forall p, p ∈ mAllocContextListHead s <-> is_Some (allocs s !! p);
  ai_base : forall p a, allocs s !! p = Some a -> BaseAddress (ac_DmaContext a) = OriginalAddress a
}.

Record iommu_inv (loc : list Z) (pend : option (IOMMU_DMA_RANGE_CONTEXT * Z)) (hold : option (Z * Z * Z)) (s : iommu) : Prop := {
  ii_memory : memory_inv s;
  ii_shared : shared_inv pend s;
  ii_blocks : blocks_inv hold s;
  ii_allocs : allocs_inv s;
  ii_once : NoDup (owned loc s);
  ii_pool : forall p, p ∈ owned loc s -> p ∈ pool s /\ p <> 0
}.

(** Changes the invariant does not see. *)
Definition with_hv r v pn t s := mkIommu (mBounceMode s) (mHvIvm s) (mSharedGpaBoundary s) (mCanonicalizationMask s) (mAllocContextListHead s) (mBounceBlockListHead s) (blocks s) (maps s) (allocs s) (pool s) (page_allocs s) (client s) r v pn t.

Ltac inv_split I := destruct I as [[] [] [] [] ? ?]; split; [split|split|split|split|..].

Lemma inv_ram loc pend hold s r pn t : iommu_inv loc pend hold s -> iommu_inv loc pend hold (with_hv r (visible s) pn t s).
Proof. intros I. by inv_split I. Qed.

Lemma inv_permute loc loc' pend hold s : loc ≡ₚ loc' -> iommu_inv loc pend hold s -> iommu_inv loc' pend hold s.
Proof.
  intros Hp I. assert (Ho : owned loc' s ≡ₚ owned loc s) by (unfold owned; by rewrite Hp).
  split; try apply I; [rewrite Ho; apply I|]. intros p. rewrite Ho. apply I.
Qed.

(** ** Allocators *)
Lemma run_pool `{!platform_ok cl} loc pend hold s n : client s = cl -> iommu_inv loc pend hold s ->
  exists p, (p = 0 /\ AllocatePool n s = Ok (0, next_tick s) /\ iommu_inv loc pend hold (next_tick s)) \/
    (p <> 0 /\ let s' := set_pool ({[p]} ∪ pool s) (next_tick s) in AllocatePool n s = Ok (p, s') /\ iommu_inv (p :: loc) pend hold s').
Proof.
  intros Hcl I. exists (AllocatePool_answer (tick s) (pool s) n). pose proof (po_pool (tick s) (pool s) n) as Hf. unfold AllocatePool.
  set (p := AllocatePool_answer _ _ _) in *. destruct (Z.eqb_spec p 0) as [He|Hne]; [left|right].
  - split_and!; [done|done|]. by apply (inv_ram _ _ _ s (ram s) (pinned s) (Datatypes.S (tick s))).
  - specialize (Hf Hne). split; [done|]. set (s' := set_pool _ _). split; [done|]. assert (Ho : owned (p :: loc) s' ≡ₚ p :: owned loc s) by (unfold owned; solve_Permutation).
    assert (Hni : p ∉ owned loc s) by (intros Hi; by apply (ii_pool _ _ _ _ I) in Hi as [? _]).
    split; [by destruct I as [[] _ _ _ _ _]|by destruct I as [_ [] _ _ _ _]|by destruct I as [_ _ [] _ _ _]|by destruct I as [_ _ _ [] _ _]|..].
    + rewrite Ho. constructor; [done|apply I].
    + intros q. rewrite Ho, elem_of_cons. intros [->|Hq]; cbn; rewrite elem_of_union, elem_of_singleton; [by auto|].
      destruct (ii_pool _ _ _ _ I q Hq). auto.
Qed.

Lemma run_free loc pend hold s p : iommu_inv (p :: loc) pend hold s ->
  let s' := set_pool (pool s ∖ {[p]}) s in FreePool p s = Ok (tt, s') /\ iommu_inv loc pend hold s'.
Proof.
  intros I s'. assert (Ho : owned (p :: loc) s ≡ₚ p :: owned loc s') by (unfold owned; solve_Permutation).
  pose proof (ii_once _ _ _ _ I) as Hn. rewrite Ho in Hn. apply list.NoDup_cons in Hn as [Hni Hn].
  destruct (ii_pool _ _ _ _ I p) as [Hp _]; [rewrite Ho; by apply elem_of_cons; left|].
  split; [unfold FreePool; by rewrite decide_True|].
  split; [by destruct I as [[] _ _ _ _ _]|by destruct I as [_ [] _ _ _ _]|by destruct I as [_ _ [] _ _ _]|by destruct I as [_ _ _ [] _ _]|done|].
  intros q Hq. destruct (ii_pool _ _ _ _ I q) as [Hq' ?]; [rewrite Ho; by apply elem_of_cons; right|]. split; [|done].
  cbn. apply elem_of_difference. split; [done|]. intros ->%elem_of_singleton. done.
Qed.

(** ** Pages *)
Lemma run_pages `{!platform_ok cl} loc pend hold s ty a n : client s = cl -> iommu_inv loc pend hold s ->
  (exists st, EFI_ERROR st = true /\ AllocatePages ty a n s = Ok ((st, a), next_tick s) /\ iommu_inv loc pend hold (next_tick s)) \/
  (exists st p, EFI_ERROR st = false /\ let s' := set_page_allocs (<[p := n]> (page_allocs s)) (next_tick s) in
    AllocatePages ty a n s = Ok ((st, p), s') /\ iommu_inv loc pend hold s' /\ page_allocs s !! p = None /\ 0 < n /\ p + 4096 * n <= top s /\
    (ty = AllocateMaxAddress -> p + 4096 * n <= a + 1) /\
    (forall b k, page_allocs s !! b = Some k -> b + 4096 * k <= p \/ p + 4096 * n <= b) /\
    (forall b k, client s !! b = Some k -> b + k <= p \/ p + 4096 * n <= b)).
Proof.
  intros Hcl I. unfold AllocatePages. destruct (AllocatePages_answer (tick s) (page_allocs s) ty a n) as [st p] eqn:E.
  destruct (EFI_ERROR st) eqn:Est; [left|right]; exists st.
  { split_and!; try done. by apply (inv_ram _ _ _ s (ram s) (pinned s) (Datatypes.S (tick s))). }
  destruct (po_pages _ _ _ _ _ _ _ E Est) as (H1 & H2 & H3 & H4 & H5 & H6 & H7). subst cl.
  pose proof (ii_memory _ _ _ _ I) as M. rewrite <- (mi_boundary _ M) in H4. fold (top s) in H4.
  assert (Hnew : page_allocs s !! p = None).
  { destruct (page_allocs s !! p) as [k|] eqn:Ep; [|done]. destruct (mi_pages _ M p k Ep). destruct (H6 p k Ep); lia. }
  exists p. split; [done|]. set (s' := set_page_allocs _ _). split_and!; try done. destruct I as [[] [] [] [] ? ?]. split; [split|split|split|split|..]; try done; cbn.
  - intros b k. rewrite lookup_insert_Some. intros [[<- <-]|[_ Hb]]; [done|by apply mi_pages0].
  - intros b k b' k'. rewrite !lookup_insert_Some. intros [[<- <-]|[_ Hb]] [[<- <-]|[_ Hb']] Hne; try done; [|by apply H6|by apply mi_pp0].
    destruct (H6 b' k' Hb'); auto.
  - intros b k b' k'. rewrite lookup_insert_Some. intros [[<- <-]|[_ Hb]] Hb'; [destruct (H7 b' k' Hb'); auto|by eapply mi_pc0].
  - intros o c k Ho. destruct (si_ranges0 o c k Ho) as (Hp & ?). split; [|done]. rewrite lookup_insert_ne; [done|]. intros ->. congruence.
Qed.

Lemma run_free_pages loc pend hold s p n : iommu_inv loc pend hold s -> page_allocs s !! p = Some n ->
  (forall o c k, range_at pend s o = Some (c, k) -> BaseAddress c <> p) ->
  let s' := set_page_allocs (delete p (page_allocs s)) s in FreePages p n s = Ok (EFI_SUCCESS, s') /\ iommu_inv loc pend hold s'.
Proof.
  intros I Ep Hno s'. split; [unfold FreePages; by rewrite decide_True|]. destruct I as [[] [] [] [] ? ?]. split; [split|split|split|split|..]; try done; cbn.
  - intros b k [_ Hb]%lookup_delete_Some. by apply mi_pages0.
  - intros b k b' k' [_ Hb]%lookup_delete_Some [_ Hb']%lookup_delete_Some. by apply mi_pp0.
  - intros b k b' k' [_ Hb]%lookup_delete_Some. by apply mi_pc0.
  - intros o c k Ho. destruct (si_ranges0 o c k Ho) as (Hp & ?). split; [|done]. rewrite lookup_delete_ne; [done|]. intros ->. by eapply Hno.
Qed.

(** ** Sharing a range with the host *)
Lemma ibind_Ok {A R} (c : I A) (k : A -> I R) s a s' : c s = Ok (a, s') -> (c ≫= k) s = k a s'.
Proof. intros E. unfold mbind, I_bind. by rewrite E. Qed.

Lemma run_hv loc pend hold s : iommu_inv loc pend hold s -> IoMmuRequiresHostVisibility s = true \/ IoMmuRequiresPinning s = true -> hv s = Ok (tt, s).
Proof. intros I Hor. unfold hv. by rewrite (mi_hv _ (ii_memory _ _ _ _ I) Hor). Qed.

(** The new range joins those shared, as the pending one. *)
Lemma inv_share loc hold s base n c r v pn t : iommu_inv loc None hold s -> page_allocs s !! base = Some n ->
  (forall p c k, range_of s p = Some (c, k) -> BaseAddress c <> base) ->
  BaseAddress c = base -> PageCount c = u32 n -> (PinApplied c = true -> IoMmuRequiresPinning s = true) ->
  (if IoMmuRequiresHostVisibility s then visible s !! RangeProtectionHandle c = None /\ v = <[RangeProtectionHandle c := (base, u32 (u32 n * EFI_PAGE_SIZE))]> (visible s)
   else v = visible s) ->
  iommu_inv loc (Some (c, n)) hold (with_hv r v pn t s).
Proof.
  intros I Ep Hno Hb Hc Hpin Hv. destruct I as [M [] Bk Al ? ?].
  assert (Hold : forall o c' k, range_at None s o = Some (c', k) -> exists p, o = Some p /\ range_of s p = Some (c', k)).
  { intros [p|] c' k Ho; [by exists p|done]. }
  split; [by destruct M|split|by destruct Bk|by destruct Al|done|done]; cbn.
  - intros o c' k Ho. change (range_at (Some (c, n)) s o = Some (c', k)) in Ho.
    change (IoMmuRequiresPinning (with_hv r v pn t s)) with (IoMmuRequiresPinning s).
    change (IoMmuRequiresHostVisibility (with_hv r v pn t s)) with (IoMmuRequiresHostVisibility s). destruct o as [p|]; cbn in Ho.
    + destruct (si_ranges0 (Some p) c' k Ho) as (H1 & H2 & H3 & H4). split_and!; try done. intros Hvis. rewrite Hvis in Hv. destruct Hv as [Hn ->].
      rewrite lookup_insert_ne; [auto|]. intros Heq. specialize (H4 Hvis). rewrite <- Heq in H4. congruence.
    + injection Ho as <- <-. rewrite Hb. split_and!; try done. intros Hvis. rewrite Hvis in Hv. destruct Hv as [Hn ->]. rewrite Hc. apply lookup_insert_eq.
  - change (IoMmuRequiresHostVisibility (with_hv r v pn t s)) with (IoMmuRequiresHostVisibility s).
    assert (Hpn : forall p c' k, range_of s p = Some (c', k) -> BaseAddress c' <> base /\
      (IoMmuRequiresHostVisibility s = true -> RangeProtectionHandle c' <> RangeProtectionHandle c)).
    { intros p c' k Hp. split; [by eapply Hno|]. intros Hvis Heq. rewrite Hvis in Hv. destruct Hv as [Hn _].
      destruct (si_ranges0 (Some p) c' k Hp) as (_ & _ & _ & H4). rewrite Heq, Hn in H4. by specialize (H4 Hvis). }
    intros o o' c1 n1 c2 n2 Hne H1 H2. change (range_at (Some (c, n)) s o = Some (c1, n1)) in H1. change (range_at (Some (c, n)) s o' = Some (c2, n2)) in H2.
    destruct o as [p|], o' as [p'|]; cbn in H1, H2; try done.
    + by apply (si_apart0 (Some p) (Some p') c1 n1 c2 n2).
    + injection H2 as <- <-. rewrite Hb. by eapply Hpn.
    + injection H1 as <- <-. rewrite Hb. destruct (Hpn p' c2 n2 H2) as [Ha Hc']. split; [auto|]. intros Hvis. by apply not_eq_sym, Hc'.
  - intros h x Hh. change (IoMmuRequiresHostVisibility (with_hv r v pn t s)) with (IoMmuRequiresHostVisibility s).
    assert (Hcase : visible s !! h = Some x \/ (IoMmuRequiresHostVisibility s = true /\ h = RangeProtectionHandle c)).
    { destruct (IoMmuRequiresHostVisibility s); [|subst v; by left]. destruct Hv as [_ ->]. apply lookup_insert_Some in Hh as [[<- _]|[_ ?]]; auto. }
    destruct Hcase as [Hx|[Hvis ->]].
    + destruct (si_visible0 h x Hx) as (Hvis & [p|] & c' & k & Ho & Hh'); [|done]. split; [done|]. exists (Some p), c', k. done.
    + split; [done|]. exists None, c, n. done.
Qed.

Lemma len_le n : 0 <= n -> 0 <= u32 (u32 n * EFI_PAGE_SIZE) <= 4096 * n.
Proof.
  intros Hn. unfold u32, EFI_PAGE_SIZE. pose proof (Z.mod_le n (2 ^ 32) Hn eq_refl). pose proof (Z.mod_pos_bound n (2 ^ 32) eq_refl).
  pose proof (Z.mod_le (n mod 2 ^ 32 * 4096) (2 ^ 32) ltac:(lia) eq_refl). pose proof (Z.mod_pos_bound (n mod 2 ^ 32 * 4096) (2 ^ 32) eq_refl). lia.
Qed.

Lemma within_sub base m n x : m <= n -> within base n x = false -> within base m x = false.
Proof. unfold within. intros Hm. destruct (Z.leb_spec base x), (Z.ltb_spec x (base + n)), (Z.ltb_spec x (base + m)); cbn; try done; lia. Qed.

(** Only the memory in the range, and what the hypervisor knows, may change. *)
Definition touched s base n r : Prop := forall x, within base (4096 * n) x = false -> r x = ram s x.
Definition made_visible s base n h v : Prop :=
  if IoMmuRequiresHostVisibility s then visible s !! h = None /\ v = <[h := (base, u32 (u32 n * EFI_PAGE_SIZE))]> (visible s) else v = visible s.

Lemma run_visible `{!platform_ok cl} loc hold s base n : iommu_inv loc None hold s -> 0 < n ->
  exists st h r v pn t, (if IoMmuRequiresHostVisibility s then _ ← hv; MakeAddressRangeHostVisible base (u32 (u32 n * EFI_PAGE_SIZE)) else mret (EFI_SUCCESS, 0)) s
    = Ok ((st, h), with_hv r v pn t s) /\ touched s base n r /\ if EFI_ERROR st then v = visible s else made_visible s base n h v.
Proof.
  intros I Hn. pose proof (len_le n ltac:(lia)) as Hlen. set (len := u32 (u32 n * EFI_PAGE_SIZE)) in *. unfold made_visible. fold len.
  destruct (IoMmuRequiresHostVisibility s) eqn:Hvis; [|exists EFI_SUCCESS, 0, (ram s), (visible s), (pinned s), (tick s); by destruct s].
  rewrite (ibind_Ok _ _ s tt s) by (apply (run_hv _ _ _ _ I); auto). unfold MakeAddressRangeHostVisible.
  destruct (MakeVisible_answer (tick s) (visible s) base len) as [st h] eqn:E. exists st. destruct (EFI_ERROR st) eqn:Est.
  - exists 0, (ram s), (visible s), (pinned s), (Datatypes.S (tick s)). done.
  - eexists h, _, _, _, _. split; [reflexivity|]. split.
    + intros x Hx. cbn. rewrite (within_sub base len (4096 * n)) by (done || lia). done.
    + split; [by eapply po_visible|done].
Qed.

Lemma run_hidden s h base len : visible s !! h = Some (base, len) ->
  MakeAddressRangeNotHostVisible h s =
    Ok (tt, with_hv (fun x => if within base len x then revealed (tick s) x else ram s x) (delete h (visible s)) (pinned s) (Datatypes.S (tick s)) s).
Proof. intros E. unfold MakeAddressRangeNotHostVisible. by rewrite E. Qed.

Definition prepared loc hold s base n (st : EFI_STATUS) c s' : Prop :=
  (exists r v pn t, s' = with_hv r v pn t s /\ touched s base n r) /\
  (if EFI_ERROR st then iommu_inv loc None hold s' else iommu_inv loc (Some (c, n)) hold s' /\ BaseAddress c = base).

Lemma run_prepare `{!platform_ok cl} loc hold s base n : iommu_inv loc None hold s -> page_allocs s !! base = Some n ->
  (forall p c k, range_of s p = Some (c, k) -> BaseAddress c <> base) ->
  exists st c s', IoMmuPrepareAddressRangeForDma base (u32 n) s = Ok ((st, c), s') /\ prepared loc hold s base n st c s'.
Proof.
  intros I Ep Hno. destruct (mi_pages _ (ii_memory _ _ _ _ I) base n Ep) as (_ & _ & Hn & _). pose proof (len_le n ltac:(lia)) as Hlen.
  unfold IoMmuPrepareAddressRangeForDma. rewrite (ibind_Ok _ _ s (IoMmuRequiresHostVisibility s) s) by done.
  destruct (run_visible loc hold s base n I Hn) as (st & h & r & v & pn & t & E & Hr & Hv). rewrite (ibind_Ok _ _ _ _ _ E).
  destruct (EFI_ERROR st) eqn:Est.
  { eexists st, _, _. split; [reflexivity|]. split; [by exists r, v, pn, t|]. rewrite Est, Hv. by apply inv_ram. }
  set (s1 := with_hv r v pn t s) in *. rewrite (ibind_Ok _ _ s1 (IoMmuRequiresPinning s) s1) by done.
  assert (Hsh : forall c r' pn' t', BaseAddress c = base -> PageCount c = u32 n -> RangeProtectionHandle c = h ->
    (PinApplied c = true -> IoMmuRequiresPinning s = true) -> iommu_inv loc (Some (c, n)) hold (with_hv r' v pn' t' s)).
  { intros c r' pn' t' Hb Hc Hh Hp. apply inv_share with (base := base); try done. rewrite Hh. exact Hv. }
  destruct (IoMmuRequiresPinning s) eqn:Hpin.
  - assert (Hhv : hv s1 = Ok (tt, s1)) by (unfold hv; cbn; rewrite (mi_hv _ (ii_memory _ _ _ _ I)); auto).
    assert (Epin : exists st2 a pn' t', (_ ← hv; PinAddressRange base (u32 (u32 n * EFI_PAGE_SIZE))) s1 = Ok ((st2, a), with_hv r v pn' t' s)).
    { rewrite (ibind_Ok _ _ _ _ _ Hhv). unfold PinAddressRange. destruct (Pin_answer _ _ _) as [st2 a]. exists st2.
      destruct (EFI_ERROR st2); [by eexists false, _, _|]. exists a. destruct a; by eexists _, _. }
    destruct Epin as (st2 & a & pn' & t' & Epin). rewrite (ibind_Ok _ _ _ _ _ Epin). destruct (EFI_ERROR st2) eqn:Est2.
    + unfold made_visible in Hv. destruct (IoMmuRequiresHostVisibility s) eqn:Hvis.
      * destruct Hv as [Hf ->]. rewrite (ibind_Ok _ _ _ _ _ (run_hidden _ h base (u32 (u32 n * EFI_PAGE_SIZE)) (lookup_insert_eq _ _ _))).
        cbn. rewrite delete_insert_id by done. eexists st2, _, _. split; [reflexivity|]. split.
        -- eexists _, _, _, _. split; [reflexivity|]. intros x Hx. cbn. rewrite (within_sub _ _ (4096 * n)) by (done || lia). by apply Hr.
        -- rewrite Est2. apply (inv_ram _ _ _ s _ _ _ I).
      * subst v. rewrite (ibind_Ok _ _ _ tt _) by reflexivity. eexists st2, _, _. split; [reflexivity|].
        split; [by eexists _, _, _, _|]. rewrite Est2. by apply inv_ram.
    + eexists EFI_SUCCESS, _, _. split; [reflexivity|]. split; [by eexists _, _, _, _|]. split; [by apply Hsh|done].
  - eexists EFI_SUCCESS, _, _. split; [reflexivity|]. split; [by eexists _, _, _, _|]. split; [by apply Hsh|done].
Qed.

(** Taking a range back. *)
Definition released (c : IOMMU_DMA_RANGE_CONTEXT) (s : iommu) : iommu :=
  let pn := if PinApplied c then delete (BaseAddress c) (pinned s) else pinned s in
  if IoMmuRequiresHostVisibility s
  then with_hv (fun x => if within (BaseAddress c) (u32 (PageCount c * EFI_PAGE_SIZE)) x then revealed (tick s) x else ram s x)
         (delete (RangeProtectionHandle c) (visible s)) pn (Datatypes.S (tick s)) s
  else with_hv (ram s) (visible s) pn (tick s) s.

Lemma run_release s c : (IoMmuRequiresHostVisibility s = true \/ IoMmuRequiresPinning s = true -> mHvIvm s = true) ->
  (PinApplied c = true -> IoMmuRequiresPinning s = true) ->
  (IoMmuRequiresHostVisibility s = true -> visible s !! RangeProtectionHandle c = Some (BaseAddress c, u32 (PageCount c * EFI_PAGE_SIZE))) ->
  IoMmuReleaseAddressRangeFromDma c s = Ok (tt, released c s).
Proof.
  intros Hhv Hpin Hvis. unfold IoMmuReleaseAddressRangeFromDma, released.
  assert (Hhv' : mHvIvm s = true -> forall r v pn t, hv (with_hv r v pn t s) = Ok (tt, with_hv r v pn t s)) by (intros E ? ? ? ?; unfold hv; cbn; by rewrite E).
  set (pn := if PinApplied c then delete _ _ else _). rewrite (ibind_Ok _ _ s tt (with_hv (ram s) (visible s) pn (tick s) s)).
  2:{ subst pn. destruct (PinApplied c); [|by destruct s]. rewrite (ibind_Ok _ _ s tt s) by (unfold hv; rewrite Hhv; auto). done. }
  rewrite (ibind_Ok _ _ _ (IoMmuRequiresHostVisibility s) (with_hv (ram s) (visible s) pn (tick s) s)) by done.
  destruct (IoMmuRequiresHostVisibility s) eqn:Ev; [|done]. rewrite (ibind_Ok _ _ _ _ _ (Hhv' (Hhv (or_introl eq_refl)) _ _ _ _)).
  rewrite (run_hidden _ _ (BaseAddress c) (u32 (PageCount c * EFI_PAGE_SIZE))); [done|]. by apply Hvis.
Qed.

Lemma inv_release loc hold s c n : iommu_inv loc (Some (c, n)) hold s ->
  IoMmuReleaseAddressRangeFromDma c s = Ok (tt, released c s) /\ iommu_inv loc None hold (released c s) /\
  forall x, within (BaseAddress c) (4096 * n) x = false -> ram (released c s) x = ram s x.
Proof.
  intros I. destruct (si_ranges _ _ (ii_shared _ _ _ _ I) None c n eq_refl) as (Hp & Hc & Hpin & Hvis).
  destruct (mi_pages _ (ii_memory _ _ _ _ I) _ _ Hp) as (_ & _ & Hn & _). pose proof (len_le n ltac:(lia)) as Hlen.
  split; [apply run_release; try done; apply (ii_memory _ _ _ _ I)|]. split.
  - unfold released. set (pn := if PinApplied c then delete _ _ else _). destruct (IoMmuRequiresHostVisibility s) eqn:Ev.
    2:{ destruct I as [M [] Bk Al ? ?]. split; [by destruct M|split|by destruct Bk|by destruct Al|done|done]; cbn.
        - intros [p|] c' k Ho; [|done]. by apply (si_ranges0 (Some p)).
        - intros [p|] [p'|] c1 n1 c2 n2 Hne H1 H2; try done. by apply (si_apart0 (Some p) (Some p') c1 n1 c2 n2).
        - intros h x Hh. destruct (si_visible0 h x Hh). congruence. }
    destruct I as [M [] Bk Al ? ?]. split; [by destruct M|split|by destruct Bk|by destruct Al|done|done]; cbn.
    + intros [p|] c' k Ho; [|done]. destruct (si_ranges0 (Some p) c' k Ho) as (H1 & H2 & H3 & H4). split_and!; try done. intros Hv.
      destruct (si_apart0 (Some p) None c' k c n ltac:(done) Ho eq_refl) as [_ Hne]. rewrite lookup_delete_ne; [auto|]. apply not_eq_sym. auto.
    + intros [p|] [p'|] c1 n1 c2 n2 Hne H1 H2; try done. by apply (si_apart0 (Some p) (Some p') c1 n1 c2 n2).
    + intros h x [Hne Hh]%lookup_delete_Some. destruct (si_visible0 h x Hh) as (Hv & [p|] & c' & k & Ho & Hh'); [|injection Ho as <- <-; congruence].
      split; [done|]. exists (Some p), c', k. done.
  - intros x Hx. unfold released. destruct (IoMmuRequiresHostVisibility s); [|done]. cbn. rewrite Hc.
    rewrite (within_sub _ _ (4096 * n)) by (done || lia). done.
Qed.
End Inv.
