(* ===== verification/IoMmuPool.v ===== *)
(** The pool of bounce blocks: what allocating a block, taking a run of pages
    and giving it back do to the invariant. *)
From stdpp Require Import base list numbers list_numbers option gmap fin_map_dom.
From Stdlib Require Import ZArith Lia.
From S2P Require Import Prelude Circular PkRing EmclPacket Heap IoMmu IoMmuBitmap IoMmuInv.
Open Scope Z_scope.
Import PkRing EmclPacket IoMmu.

Section Pool.
Context {B : BuildOptions} {PL : Platform} {cl : gmap Z Z} {PO : platform_ok cl}.

Lemma local_fresh loc pend hold s p : iommu_inv loc pend hold s -> p ∈ loc -> blocks s !! p = None /\ maps s !! p = None /\ allocs s !! p = None /\ p <> 0.
Proof.
  intros I Hp. destruct (proj1 (elem_of_Permutation loc p) Hp) as (loc' & Hperm). apply (inv_permute _ _ _ _ _ Hperm) in I.
  pose proof (ii_once _ _ _ _ I) as Hn. assert (Ho : owned (p :: loc') s ≡ₚ p :: owned loc' s) by (unfold owned; solve_Permutation).
  rewrite Ho in Hn. apply list.NoDup_cons in Hn as [Hni _]. unfold owned in Hni. rewrite !elem_of_app, in_pointers, !in_keys in Hni.
  split_and!; try (apply eq_None_not_Some; tauto). apply (ii_pool _ _ _ _ I p). rewrite Ho. by apply elem_of_cons; left.
Qed.

Definition new_block (c : IOMMU_DMA_RANGE_CONTEXT) (n words q : Z) : IOMMU_BOUNCE_BLOCK :=
  mkBounceBlock IOMMU_BOUNCE_BLOCK_SIGNATURE (BaseAddress c) n words q (replicate (Z.to_nat words) 0) 0 true c.

Lemma inv_new_block loc s p q c n words : iommu_inv (q :: p :: loc) (Some (c, n)) None s ->
  BaseAddress c + 4096 * n <= 2 ^ 32 -> n <= 64 * words ->
  iommu_inv loc None None (set_block_list (mBounceBlockListHead s ++ [p]) (set_blocks (<[p := new_block c n words q]> (blocks s)) s)).
Proof.
  intros I Hlow Hw. set (s' := set_block_list _ _). destruct (local_fresh _ _ _ _ p I) as (Hpb & Hpm & Hpa & Hp0); [by apply list_elem_of_further, list_elem_of_here|].
  assert (Hnp : p ∉ mBounceBlockListHead s) by (rewrite (proj2 (bi_list _ _ (ii_blocks _ _ _ _ I))), Hpb; by intros [? ?]).
  assert (Hr : forall o, range_at None s' o = match o with Some p' => if decide (p' = p) then Some (c, n) else range_of s p' | None => None end).
  { intros [p'|]; [|done]. cbn. unfold range_of. cbn. destruct (decide (p' = p)) as [->|]; [by rewrite lookup_insert_eq|by rewrite lookup_insert_ne]. }
  assert (Hr' : forall o c' k, range_at None s' o = Some (c', k) -> exists o', range_at (Some (c, n)) s o' = Some (c', k) /\
    (o = Some p /\ o' = None \/ o <> Some p /\ o' = o)).
  { intros [p'|] c' k; [|done]. rewrite Hr. case_decide; [subst; intros [= <- <-]; exists None; auto|]. intros Ho. exists (Some p'). split; [done|right].
    split; [congruence|done]. }
  assert (Ho : owned loc s' ≡ₚ owned (q :: p :: loc) s).
  { unfold owned. subst s'. cbn. rewrite pointers_insert by done. cbn. solve_Permutation. }
  assert (Hnone : forall o i, ~ holder None (maps s) o p i).
  { intros [m|] i; cbn; [|by intros (? & ? & ? & _)]. intros (c' & Em & Hb & _).
    destruct (mk_block _ _ _ (bi_map _ _ (ii_blocks _ _ _ _ I) m c' Em)) as (b & Eb & _). rewrite Hb, Hpb in Eb. done. }
  destruct I as [M [] Bk Al ? ?]. split.
  - by destruct M.
  - split.
    + intros o c' k Hk. destruct (Hr' o c' k Hk) as (o' & Hk' & _). by apply (si_ranges o').
    + intros o1 o2 c1 n1 c2 n2 Hne H1 H2. destruct (Hr' _ _ _ H1) as (o1' & H1' & Hc1), (Hr' _ _ _ H2) as (o2' & H2' & Hc2).
      apply (si_apart o1' o2' c1 n1 c2 n2); try done. naive_solver.
    + intros h x Hh. destruct (si_visible h x Hh) as (Hv & o & c' & k & Hk & Hc). split; [done|]. destruct o as [p'|].
      * exists (Some p'), c', k. split; [|done]. rewrite Hr. rewrite decide_False; [done|]. intros ->. cbn in Hk. unfold range_of in Hk. by rewrite Hpb, Hpa in Hk.
      * exists (Some p), c', k. split; [|done]. rewrite Hr, decide_True by done. exact Hk.
  - destruct Bk. split; cbn.
    + destruct bi_list as [N E]. split.
      * apply list.NoDup_app. split_and!; [done| |apply NoDup_singleton]. intros x Hx ->%list_elem_of_singleton. done.
      * intros x. rewrite elem_of_app, list_elem_of_singleton, E. destruct (decide (x = p)) as [->|Hne]; [rewrite lookup_insert_eq; naive_solver|].
        rewrite lookup_insert_ne by done. naive_solver.
    + intros x b. rewrite lookup_insert_Some. intros [[<- <-]|[_ Hb]]; [|by apply bi_block]. split; try done; cbn.
      * apply Forall_replicate. lia.
      * unfold Zlength. rewrite length_replicate. lia.
      * by rewrite used_zeros.
    + intros m c' Em. destruct (bi_map m c' Em). split; try done. destruct mk_block as (b & Eb & Hb). exists b. split; [|done].
      rewrite lookup_insert_ne; [done|]. intros Heq. rewrite <- Heq, Hpb in Eb. done.
    + intros x b i. rewrite lookup_insert_Some. intros [[<- <-]|[_ Hb]] Hi; [|by apply bi_bits]. cbn. rewrite bit_zeros. split; [done|].
      intros (o & Hh). by apply Hnone in Hh.
    + done.
    + done.
  - by destruct Al.
  - by rewrite Ho.
  - intros x. rewrite Ho. auto.
Qed.

(** What an operation on the pool leaves alone: the mappings, and the memory
    that was in use. *)
Definition in_use (s : iommu) (x : Z) : Prop :=
  (exists b k, page_allocs s !! b = Some k /\ b <= x < b + 4096 * k) \/ (exists b k, client s !! b = Some k /\ b <= x < b + k).

Record kept (s s' : iommu) : Prop := {
  kp_mode : mBounceMode s' = mBounceMode s;
  kp_boundary : mSharedGpaBoundary s' = mSharedGpaBoundary s;
  kp_mask : mCanonicalizationMask s' = mCanonicalizationMask s;
  kp_maps : maps s' = maps s;
  kp_allocs : allocs s' = allocs s;
  kp_client : client s' = client s;
  kp_pages : forall b k, page_allocs s !! b = Some k -> page_allocs s' !! b = Some k;
  kp_blocks : forall p b, blocks s !! p = Some b -> exists b', blocks s' !! p = Some b' /\ BlockBase b' = BlockBase b /\ BlockPageCount b' = BlockPageCount b;
  kp_ram : forall x, in_use s x -> ram s' x = ram s x
}.

Lemma kept_refl s : kept s s.
Proof. split; eauto. Qed.
Lemma kept_trans s1 s2 s3 : kept s1 s2 -> kept s2 s3 -> kept s1 s3.
Proof.
  intros K1 K2. split; [etransitivity; [apply K2|apply K1]..| | |].
  - intros b k Hb. by apply K2, K1.
  - intros p b Hp. destruct (kp_blocks _ _ K1 p b Hp) as (b1 & H1 & E1 & E2). destruct (kp_blocks _ _ K2 p b1 H1) as (b2 & H2 & E3 & E4).
    exists b2. split_and!; [done|congruence|congruence].
  - intros x Hx. rewrite (kp_ram _ _ K2); [by apply K1|]. destruct Hx as [(b & k & Hb & Hx)|(b & k & Hb & Hx)]; [left|right]; exists b, k; split; try done.
    + by apply K1. + by rewrite (kp_client _ _ K1).
Qed.

Lemma kept_same s s' : mBounceMode s' = mBounceMode s -> mSharedGpaBoundary s' = mSharedGpaBoundary s -> mCanonicalizationMask s' = mCanonicalizationMask s ->
  maps s' = maps s -> allocs s' = allocs s -> client s' = client s -> page_allocs s' = page_allocs s -> blocks s' = blocks s -> ram s' = ram s -> kept s s'.
Proof. intros H1 H2 H3 H4 H5 H5' H6 H7 H8. split; try done; rewrite ?H6, ?H7, ?H8; eauto. Qed.

(** Memory that was not in use may change. *)
Lemma kept_fresh s base n r v pn t : (forall b k, page_allocs s !! b = Some k -> b + 4096 * k <= base \/ base + 4096 * n <= b) ->
  (forall b k, client s !! b = Some k -> b + k <= base \/ base + 4096 * n <= b) ->
  (forall x, within base (4096 * n) x = false -> r x = ram s x) -> kept s (with_hv r v pn t s).
Proof.
  intros Hp Hc Hr. split; try done; [eauto|]. intros x Hx. cbn. apply Hr. unfold within. apply andb_false_iff.
  destruct (Z.leb_spec base x); [|by left]. destruct (Z.ltb_spec x (base + 4096 * n)); [|by right]. exfalso.
  destruct Hx as [(b & k & Hb & Hx)|(b & k & Hb & Hx)]; [destruct (Hp b k Hb)|destruct (Hc b k Hb)]; lia.
Qed.

Definition block_added (s s' : iommu) (p n : Z) : Prop := blocks s !! p = None /\ mBounceBlockListHead s' = mBounceBlockListHead s ++ [p] /\
  exists b, blocks s' = <[p := b]> (blocks s) /\ BlockPageCount b = n /\ AllocBitmap b = replicate (Z.to_nat ((n + 63) / 64)) 0.

Lemma run_preallocate s n : client s = cl -> 0 < n < 2 ^ 32 -> iommu_inv [] None None s ->
  exists st p s', IoMmuPreAllocateBounceBlock n s = Ok ((st, p), s') /\ iommu_inv [] None None s' /\ kept s s' /\
    if EFI_ERROR st then blocks s' = blocks s else block_added s s' p n.
Proof.
  intros Hcl Hn I. unfold IoMmuPreAllocateBounceBlock. rewrite (ibind_Ok _ _ s tt s).
  2:{ unfold ilift. rewrite ASSERT_holds; [done|]. apply Z.ltb_lt. lia. }
  destruct (run_pool _ _ _ _ sizeof_IOMMU_BOUNCE_BLOCK Hcl I) as (p & [(-> & E & I1)|(Hp & E & I1)]); rewrite (ibind_Ok _ _ _ _ _ E).
  { exists EFI_OUT_OF_RESOURCES, 0. eexists. split; [reflexivity|]. split_and!; [done|by apply kept_same|done]. }
  destruct (Z.eqb_spec p 0); [done|]. set (s1 := set_pool _ _) in *.
  set (words := u32 (n + 63) / 64).
  destruct (run_pool _ _ _ s1 (words * 8) Hcl I1) as (q & [(-> & E2 & I2)|(Hq & E2 & I2)]); rewrite (ibind_Ok _ _ _ _ _ E2).
  { cbn [Z.eqb]. destruct (run_free _ _ _ _ _ I2) as [E3 I3]. rewrite (ibind_Ok _ _ _ _ _ E3).
    exists EFI_OUT_OF_RESOURCES, 0. eexists. split; [reflexivity|]. split_and!; [done|by apply kept_same|done]. }
  destruct (Z.eqb_spec q 0); [done|]. set (s2 := set_pool _ (next_tick s1)) in *.
  assert (Hundo : forall s3 (st : EFI_STATUS), iommu_inv [q; p] None None s3 -> blocks s3 = blocks s -> kept s s3 ->
    exists s4, ((_ ← FreePool q; _ ← FreePool p; mret (st, 0)) : IoMmu.I (EFI_STATUS * Z)) s3 = Ok ((st, 0), s4) /\ iommu_inv [] None None s4 /\ kept s s4 /\ blocks s4 = blocks s).
  { intros s3 st I3 Hb K. destruct (run_free _ _ _ _ _ I3) as [E3 I4]. rewrite (ibind_Ok _ _ _ _ _ E3).
    destruct (run_free _ _ _ _ _ I4) as [E4 I5]. rewrite (ibind_Ok _ _ _ _ _ E4). eexists. split; [reflexivity|].
    split_and!; [done| |done]. eapply kept_trans; [exact K|]. by apply kept_same. }
  destruct (run_pages _ _ _ s2 AllocateMaxAddress (SIZE_4GB - 1) n Hcl I2) as
    [(st & Est & E3 & I3)|(st & base & Est & E3 & I3 & Hfree & _ & _ & Hmax & Hpp & Hpc)]; rewrite (ibind_Ok _ _ _ _ _ E3); rewrite Est.
  { destruct (Hundo _ st I3) as (s4 & E4 & I4 & K4 & B4); [done|by apply kept_same|]. exists st, 0, s4. rewrite Est. auto. }
  specialize (Hmax eq_refl). unfold SIZE_4GB in Hmax. set (s3 := set_page_allocs _ _) in *.
  assert (Ebase : page_allocs s3 !! base = Some n) by apply lookup_insert_eq.
  assert (K3 : kept s s3).
  { split; try done; [|by eauto]. intros b k Hb. cbn. rewrite lookup_insert_ne; [done|]. intros ->. cbn in Hfree. congruence. }
  destruct (mi_pages _ (ii_memory _ _ _ _ I3) _ _ Ebase) as (Hb0 & _).
  assert (Hown : forall o c k, range_at None s3 o = Some (c, k) -> BaseAddress c <> base).
  { intros o c k Ho <-. destruct (si_ranges _ _ (ii_shared _ _ _ _ I2) o c k Ho) as [Hx _]. congruence. }
  destruct (run_prepare _ _ s3 base n I3 Ebase) as (st4 & c & s4 & E4 & (r & v & pn & t & -> & Hr) & I4).
  { intros p' c k Ho. by apply (Hown (Some p') c k). }
  rewrite (u32_small n) in E4 by lia. rewrite (ibind_Ok _ _ _ _ _ E4). set (s4 := with_hv r v pn t s3) in *.
  assert (K4 : kept s s4).
  { apply (kept_trans _ (with_hv r (visible s) (pinned s) (tick s) s)); [by apply (kept_fresh s base n)|].
    split; try done; [|by eauto]. intros b k Hb. by apply (kp_pages _ _ K3). }
  destruct (EFI_ERROR st4) eqn:Est4.
  { destruct (run_free_pages _ _ _ _ base n I4 Ebase Hown) as [E5 I5]. rewrite (ibind_Ok _ _ _ _ _ E5). set (s5 := set_page_allocs _ s4) in *.
    destruct (Hundo s5 st4 I5) as (s6 & E6 & I6 & K6 & B6); [done| |exists st4, 0, s6; rewrite Est4; auto].
    split; try done; [|by eauto|apply K4]. intros b k Hb. cbn. rewrite delete_insert_id by done. done. }
  destruct I4 as [I4 Hc]. rewrite <- Hc.
  assert (Hw : words = (n + 63) / 64) by (unfold words; rewrite u32_small by lia; done).
  pose proof (inv_new_block [] s4 p q c n words I4 ltac:(lia) ltac:(zlia)) as I5.
  erewrite ibind_Ok by reflexivity. erewrite ibind_Ok by reflexivity. eexists EFI_SUCCESS, p, _. split; [reflexivity|].
  split_and!; [exact I5| |].
  - eapply kept_trans; [exact K4|]. split; try done. intros p' b Hb. exists b. split; [|done]. cbn. rewrite lookup_insert_ne; [done|].
    intros <-. destruct (local_fresh _ _ _ _ p I4) as (Hx & _); [by apply list_elem_of_further, list_elem_of_here|]. congruence.
  - cbn. unfold block_added. split_and!; [|done|].
    + destruct (local_fresh _ _ _ _ p I4) as (Hx & _); [by apply list_elem_of_further, list_elem_of_here|]. done.
    + eexists. split; [reflexivity|]. rewrite Hw. done.
Qed.

(** ** Runs of pages *)

(** A new bitmap for block [p], for other holders of its pages. *)
Lemma inv_bitmap loc pend hold hold' s p b l' u : iommu_inv loc pend hold s -> blocks s !! p = Some b ->
  words_ok l' -> Zlength l' = Zlength (AllocBitmap b) -> u = used l' (BlockPageCount b) ->
  (forall q i, q <> p -> (exists o, holder hold (maps s) o q i) <-> exists o, holder hold' (maps s) o q i) ->
  (forall i, 0 <= i < BlockPageCount b -> bit l' i = true <-> exists o, holder hold' (maps s) o p i) ->
  (forall o o' q i, holder hold' (maps s) o q i -> holder hold' (maps s) o' q i -> o = o') ->
  (forall q start n, hold' = Some (q, start, n) -> exists b, blocks s !! q = Some b /\ 0 <= start /\ 0 < n /\ start + n <= BlockPageCount b) ->
  iommu_inv loc pend hold' (set_blocks (<[p := set_AllocBitmap l' u b]> (blocks s)) s).
Proof.
  intros I Eb Hw Hl Hu Hoth Hbits Hruns Hhold. set (s' := set_blocks _ s).
  assert (Hr : forall o, range_at pend s' o = range_at pend s o).
  { intros [x|]; [|done]. cbn. unfold range_of. cbn. destruct (decide (x = p)) as [->|]; [by rewrite lookup_insert_eq, Eb|by rewrite lookup_insert_ne]. }
  assert (Ho : owned loc s' ≡ₚ owned loc s) by (unfold owned; cbn; by rewrite (pointers_update _ _ _ b)).
  destruct I as [M [] Bk Al ? ?]. split.
  - by destruct M.
  - split.
    + intros o c k. rewrite Hr. apply si_ranges.
    + intros o o' c k c' k'. rewrite !Hr. apply si_apart.
    + intros h x Hx. destruct (si_visible h x Hx) as (Hv & o & c & k & Hk & Hh). split; [done|]. exists o, c, k. by rewrite Hr.
  - destruct Bk. split; cbn.
    + destruct bi_list as [N E]. split; [done|]. intros x. rewrite E. destruct (decide (x = p)) as [->|]; [rewrite lookup_insert_eq, Eb; split; eauto|].
      by rewrite lookup_insert_ne.
    + intros x b'. rewrite lookup_insert_Some. intros [[<- <-]|[_ Hb]]; [|by apply bi_block]. destruct (bi_block p b Eb). split; try done; cbn.
      rewrite Hl. done.
    + intros m c Em. destruct (bi_map m c Em). split; try done. destruct mk_block as (b' & Eb' & Hb').
      destruct (decide (BounceBlock c = p)) as [Heq|Hne].
      * rewrite Heq, lookup_insert_eq. rewrite Heq, Eb in Eb'. injection Eb' as <-. eexists. split; [done|]. exact Hb'.
      * exists b'. by rewrite lookup_insert_ne.
    + intros x b' i. rewrite lookup_insert_Some. intros [[<- <-]|[Hne Hb]] Hi; [by apply Hbits|].
      rewrite (bi_bits x b' i Hb Hi). apply Hoth. congruence.
    + intros q start n Hq. destruct (Hhold q start n Hq) as (b' & Eb' & H1). destruct (decide (q = p)) as [->|].
      * rewrite lookup_insert_eq. rewrite Eb in Eb'. injection Eb' as <-. eexists. split; [done|]. exact H1.
      * exists b'. by rewrite lookup_insert_ne.
    + done.
  - by destruct Al.
  - by rewrite Ho.
  - intros x. rewrite Ho. auto.
Qed.

Lemma block_facts loc pend hold s p b : iommu_inv loc pend hold s -> blocks s !! p = Some b ->
  block_ok p b /\ page_allocs s !! BlockBase b = Some (BlockPageCount b) /\ 0 < BlockBase b /\ 0 < BlockPageCount b < 2 ^ 20 /\
  BlockBase b + 4096 * BlockPageCount b <= top s /\ BlockBase b mod 4096 = 0.
Proof.
  intros I Eb. pose proof (bi_block _ _ (ii_blocks _ _ _ _ I) p b Eb) as Bk. split; [done|].
  destruct (si_ranges _ _ (ii_shared _ _ _ _ I) (Some p) (bb_DmaContext b) (BlockPageCount b)) as [Hp _]; [cbn; unfold range_of; by rewrite Eb|].
  rewrite (bk_base _ _ Bk) in Hp. destruct (mi_pages _ (ii_memory _ _ _ _ I) _ _ Hp) as (H1 & H2 & H3 & H4). pose proof (bk_low _ _ Bk).
  split_and!; try done; lia.
Qed.

Lemma inv_hold loc pend s p b start n l' : iommu_inv loc pend None s -> blocks s !! p = Some b -> 0 <= start -> 0 < n -> start + n <= BlockPageCount b ->
  (forall j, start <= j < start + n -> bit (AllocBitmap b) j = false) -> words_ok l' -> Zlength l' = Zlength (AllocBitmap b) ->
  (forall j, 0 <= j -> bit l' j = if (start <=? j) && (j <? start + n) then true else bit (AllocBitmap b) j) ->
  iommu_inv loc pend (Some (p, start, n)) (set_blocks (<[p := set_AllocBitmap l' (u32 (InUsePageCount b + n)) b]> (blocks s)) s).
Proof.
  intros I Eb Hs Hn He Hc Hw Hl Hb. destruct (block_facts _ _ _ _ _ _ I Eb) as (Bk & _ & _ & Hcnt & _).
  pose proof (used_run (AllocBitmap b) l' (BlockPageCount b) start n Hs ltac:(lia) He Hc Hb) as Hu.
  pose proof (used_bounds l' (BlockPageCount b) ltac:(lia)). pose proof (used_bounds (AllocBitmap b) (BlockPageCount b) ltac:(lia)).
  pose proof (bi_bits _ _ (ii_blocks _ _ _ _ I) p b) as Hbits. pose proof (bi_runs _ _ (ii_blocks _ _ _ _ I)) as Hruns.
  assert (Hno : forall o i, start <= i < start + n -> ~ holder None (maps s) o p i).
  { intros o i Hi Hh. assert (Ht : bit (AllocBitmap b) i = true) by (apply (Hbits i Eb); [lia|eauto]). rewrite Hc in Ht by done. done. }
  assert (Hsplit : forall o q i, holder (Some (p, start, n)) (maps s) o q i <-> holder None (maps s) o q i \/ (o = None /\ q = p /\ start <= i < start + n)).
  { intros [m|] q i; cbn; [naive_solver|]. split; [|naive_solver]. intros (st & k & [= <- <- <-] & Hi). auto. }
  eapply inv_bitmap with (hold := None); try done.
  - rewrite (bk_used _ _ Bk), Hu, u32_small by lia. done.
  - intros q i Hne. setoid_rewrite Hsplit. naive_solver.
  - intros i Hi. rewrite Hb by lia. setoid_rewrite Hsplit. destruct (Z.leb_spec start i), (Z.ltb_spec i (start + n)); cbn;
      [split; [intros _; exists None; auto|done]|rewrite (Hbits i Eb Hi); naive_solver lia..].
  - intros o o' q i. rewrite !Hsplit. intros [H1|(E1 & E1' & H1)] [H2|(E2 & E2' & H2)]; subst; [by eapply Hruns|by apply Hno in H1|by apply Hno in H2|done].
  - intros q st k [= <- <- <-]. eauto.
Qed.

Lemma inv_drop loc pend s p b start n l' : iommu_inv loc pend (Some (p, start, n)) s -> blocks s !! p = Some b ->
  words_ok l' -> Zlength l' = Zlength (AllocBitmap b) ->
  (forall j, 0 <= j -> bit l' j = if (start <=? j) && (j <? start + n) then false else bit (AllocBitmap b) j) ->
  iommu_inv loc pend None (set_blocks (<[p := set_AllocBitmap l' (u32 (InUsePageCount b - n)) b]> (blocks s)) s).
Proof.
  intros I Eb Hw Hl Hb. destruct (block_facts _ _ _ _ _ _ I Eb) as (Bk & _ & _ & Hcnt & _).
  destruct (bi_hold _ _ (ii_blocks _ _ _ _ I) _ _ _ eq_refl) as (b' & Eb' & Hs & Hn & He). rewrite Eb in Eb'. injection Eb' as <-.
  pose proof (bi_bits _ _ (ii_blocks _ _ _ _ I) p b) as Hbits. pose proof (bi_runs _ _ (ii_blocks _ _ _ _ I)) as Hruns.
  assert (Hmine : forall i, start <= i < start + n -> holder (Some (p, start, n)) (maps s) None p i) by (intros i Hi; by exists start, n).
  pose proof (used_run l' (AllocBitmap b) (BlockPageCount b) start n Hs ltac:(lia) He) as Hu.
  rewrite (bk_used _ _ Bk), Hu.
  2:{ intros j Hj. rewrite Hb by lia. destruct (Z.leb_spec start j), (Z.ltb_spec j (start + n)); cbn; try done; lia. }
  2:{ intros j Hj. rewrite Hb by done. destruct (Z.leb_spec start j), (Z.ltb_spec j (start + n)); cbn; try done.
      apply (Hbits j Eb); [lia|eauto]. }
  pose proof (used_bounds l' (BlockPageCount b) ltac:(lia)).
  assert (Hsplit : forall o q i, holder (Some (p, start, n)) (maps s) o q i <-> holder None (maps s) o q i \/ (o = None /\ q = p /\ start <= i < start + n)).
  { intros [m|] q i; cbn; [naive_solver|]. split; [|naive_solver]. intros (st & k & [= <- <- <-] & Hi). auto. }
  assert (Hno : forall o i, start <= i < start + n -> ~ holder None (maps s) o p i).
  { intros [m|] i Hi Hh; [|destruct Hh as (? & ? & ? & _); done].
    assert (Some m = None) by (apply (Hruns _ _ p i); [apply Hsplit; by left|by apply Hmine]). done. }
  eapply inv_bitmap with (hold := Some (p, start, n)); try done.
  - rewrite u32_small by lia. lia.
  - intros q i Hne. setoid_rewrite Hsplit. naive_solver.
  - intros i Hi. rewrite Hb by lia. destruct (Z.leb_spec start i), (Z.ltb_spec i (start + n)); cbn.
    + split; [done|]. intros (o & Hh). by apply Hno in Hh.
    + rewrite (Hbits i Eb Hi). setoid_rewrite Hsplit. naive_solver lia.
    + rewrite (Hbits i Eb Hi). setoid_rewrite Hsplit. naive_solver lia.
    + lia.
  - intros o o' q i H1 H2. apply (Hruns o o' q i); apply Hsplit; by left.
Qed.

Lemma kept_bitmap s p b l u : blocks s !! p = Some b -> kept s (set_blocks (<[p := set_AllocBitmap l u b]> (blocks s)) s).
Proof.
  intros Eb. split; try done. intros q b' Eq. cbn. destruct (decide (q = p)) as [->|]; [|rewrite lookup_insert_ne by done; eauto].
  rewrite lookup_insert_eq. rewrite Eb in Eq. injection Eq as <-. eauto.
Qed.

Lemma run_get_block loc pend hold s p b : iommu_inv loc pend hold s -> blocks s !! p = Some b -> get_bounce_block p s = Ok (b, s).
Proof.
  intros I Eb. unfold get_bounce_block. destruct (Z.eqb_spec p 0) as [E|_]; [|by rewrite Eb].
  exfalso. by apply (bk_null _ _ (bi_block _ _ (ii_blocks _ _ _ _ I) p b Eb)).
Qed.

Definition taken (s s' : iommu) (n : Z) (x : Z * Z * Z) : Prop := let '(p, start, base) := x in
  iommu_inv [] None (Some (p, start, n)) s' /\ kept s s' /\ exists b, blocks s' !! p = Some b /\ base = BlockBase b + start * EFI_PAGE_SIZE.

Lemma run_acquire_from s n : 0 < n -> iommu_inv [] None None s -> forall l, (forall p, p ∈ l -> is_Some (blocks s !! p)) ->
  acquire_from l n s = Ok (None, s) \/ exists x s', acquire_from l n s = Ok (Some x, s') /\ taken s s' n x.
Proof.
  intros Hn I. induction l as [|p l IH]; intros Hl; cbn [acquire_from]; [by left|].
  destruct (Hl p) as [b Eb]; [by apply elem_of_cons; left|]. rewrite (ibind_Ok _ _ _ _ _ (run_get_block _ _ _ _ _ _ I Eb)).
  assert (IH' : acquire_from l n s = Ok (None, s) \/ exists x s', acquire_from l n s = Ok (Some x, s') /\ taken s s' n x).
  { apply IH. intros q Hq. apply Hl. by apply elem_of_cons; right. }
  destruct (Z.ltb_spec (BlockPageCount b) n) as [_|Hle]; [done|].
  destruct (block_facts _ _ _ _ _ _ I Eb) as ([] & _ & _ & Hcnt & _). cbn in *.
  rewrite (ibind_Ok _ _ s (lowest_run (AllocBitmap b) (BlockPageCount b) n) s) by (unfold ilift; by rewrite FindFreeRun_spec by lia).
  destruct (lowest_run (AllocBitmap b) (BlockPageCount b) n) as [start|] eqn:El; [|done]. right.
  destruct (lowest_run_some _ _ _ _ El) as (H1 & H2 & H3). rewrite clear_run_iff in H3.
  destruct (UpdateBitmapRun_spec (AllocBitmap b) start n true bk_words H1 ltac:(lia) ltac:(lia)) as (l' & El' & Hw & HL & Hb).
  rewrite (ibind_Ok _ _ s l' s) by (unfold ilift; by rewrite El'). erewrite ibind_Ok by reflexivity.
  eexists _, _. split; [reflexivity|]. split_and!.
  - by apply inv_hold.
  - by apply kept_bitmap.
  - eexists. split; [cbn; apply lookup_insert_eq|done].
Qed.

Lemma run_acquire_pages s n : client s = cl -> 0 <= n < 2 ^ 32 -> iommu_inv [] None None s ->
  exists st r s', IoMmuAcquireBouncePages n s = Ok ((st, r), s') /\
    if EFI_ERROR st then iommu_inv [] None None s' /\ kept s s' else exists x, r = Some x /\ taken s s' n x.
Proof.
  intros Hcl Hn I. unfold IoMmuAcquireBouncePages. destruct (Z.eqb_spec n 0) as [->|Hne].
  { eexists _, _, s. split; [reflexivity|]. split; [done|apply kept_refl]. }
  rewrite (ibind_Ok _ _ s (mBounceBlockListHead s) s) by done.
  destruct (run_acquire_from s n ltac:(lia) I (mBounceBlockListHead s)) as [E|(x & s' & E & Hx)]; [apply I| |]; rewrite (ibind_Ok _ _ _ _ _ E).
  2:{ eexists EFI_SUCCESS, _, s'. split; [reflexivity|]. by exists x. }
  set (m := if n <? IOMMU_BOUNCE_GROWTH_BLOCK_PAGES then _ else _).
  assert (Hm : n <= m /\ 0 < m < 2 ^ 32) by (unfold m, IOMMU_BOUNCE_GROWTH_BLOCK_PAGES; destruct (Z.ltb_spec n 32); lia).
  destruct (run_preallocate s m Hcl ltac:(lia) I) as (st & p & s1 & E1 & I1 & K1 & Hres). rewrite (ibind_Ok _ _ _ _ _ E1).
  destruct (EFI_ERROR st) eqn:Est; [eexists st, None, s1; split; [reflexivity|]; by rewrite Est|].
  destruct Hres as (_ & _ & b & Hbs & Hcnt & Hbm). assert (Eb : blocks s1 !! p = Some b) by (rewrite Hbs; apply lookup_insert_eq).
  rewrite (ibind_Ok _ _ _ _ _ (run_get_block _ _ _ _ _ _ I1 Eb)).
  destruct (block_facts _ _ _ _ _ _ I1 Eb) as ([] & _ & _ & Hc & _). rewrite Hcnt in *.
  destruct (UpdateBitmapRun_spec (AllocBitmap b) 0 n true bk_words ltac:(lia) ltac:(lia) ltac:(lia)) as (l' & El' & Hw & HL & Hb).
  rewrite (ibind_Ok _ _ s1 l' s1) by (unfold ilift; by rewrite El'). erewrite ibind_Ok by reflexivity.
  eexists EFI_SUCCESS, _, _. split; [reflexivity|]. eexists. split; [done|].
  assert (Hz : forall j, bit (AllocBitmap b) j = false) by (intros j; rewrite Hbm; apply bit_zeros).
  assert (Hu : u32 (InUsePageCount b + n) = n) by (rewrite bk_used, Hbm, used_zeros, u32_small by lia; lia).
  split_and!.
  - rewrite <- Hu at 2. apply inv_hold; try done; try lia.
  - eapply kept_trans; [exact K1|]. by apply kept_bitmap.
  - eexists. split; [cbn; apply lookup_insert_eq|]. cbn. lia.
Qed.

(** ** Mappings *)
Lemma run_release_pages loc s p start n : iommu_inv loc None (Some (p, start, n)) s ->
  exists b l', blocks s !! p = Some b /\ let s' := set_blocks (<[p := set_AllocBitmap l' (u32 (InUsePageCount b - n)) b]> (blocks s)) s in
    IoMmuReleaseBouncePages p start n s = Ok (tt, s') /\ iommu_inv loc None None s'.
Proof.
  intros I. destruct (bi_hold _ _ (ii_blocks _ _ _ _ I) _ _ _ eq_refl) as (b & Eb & Hs & Hn & He).
  destruct (block_facts _ _ _ _ _ _ I Eb) as ([] & _ & _ & Hc & _).
  destruct (UpdateBitmapRun_spec (AllocBitmap b) start n false bk_words Hs ltac:(lia) ltac:(lia)) as (l' & El' & Hw & HL & Hb).
  exists b, l'. split; [done|]. set (s' := set_blocks _ s). split; [|by apply (inv_drop _ _ _ _ _ start)].
  assert (Ha : forall c, c = true -> ilift (ASSERT c) s = Ok (tt, s)) by (intros c ->; unfold ilift; by rewrite ASSERT_true).
  unfold IoMmuReleaseBouncePages. rewrite (ibind_Ok _ _ _ _ _ (Ha _ (proj2 (negb_true_iff _) (proj2 (Z.eqb_neq _ _) bk_null)))).
  rewrite (ibind_Ok _ _ _ _ _ (run_get_block _ _ _ _ _ _ I Eb)).
  rewrite (ibind_Ok _ _ _ _ _ (Ha _ (proj2 (Z.eqb_eq _ _) bk_sig))). rewrite (ibind_Ok _ _ _ _ _ (Ha _ (proj2 (Z.ltb_lt _ _) Hn))).
  rewrite (ibind_Ok _ _ s tt s) by (apply Ha, Z.leb_le; rewrite u32_small by lia; lia).
  rewrite (ibind_Ok _ _ s l' s) by (unfold ilift; by rewrite El'). done.
Qed.

(** The run held becomes a mapping, and back. *)
Lemma inv_map loc s m c : iommu_inv (m :: loc) None (Some (BounceBlock c, BounceStartPage c, BouncePageCount c)) s ->
  mc_Signature c = IOMMU_MAP_CONTEXT_SIGNATURE -> is_common (Operation c) = false -> 0 < NumberOfBytes c <= 4096 * BouncePageCount c ->
  buffer_ok (client s) (HostAddress c) (NumberOfBytes c) ->
  (exists b, blocks s !! BounceBlock c = Some b /\ BounceBase c = BlockBase b + BounceStartPage c * 4096) ->
  iommu_inv loc None None (set_maps (<[m := c]> (maps s)) s).
Proof.
  intros I Hsig Hop Hbytes Hbuf (b & Eb & Hbase). destruct (local_fresh _ _ _ _ m I) as (Hmb & Hmm & Hma & Hm0); [by apply list_elem_of_here|].
  set (hold := Some (BounceBlock c, BounceStartPage c, BouncePageCount c)) in *.
  set (f := fun o : option Z => match o with Some x => if decide (x = m) then None else Some x | None => Some m end).
  assert (Hto : forall o p i, holder None (<[m := c]> (maps s)) o p i -> exists x, o = Some x /\ holder hold (maps s) (if decide (x = m) then None else Some x) p i).
  { intros [x|] p i; cbn; [|by intros (? & ? & ? & _)]. intros (c' & Ex & Hh). exists x. split; [done|]. case_decide as Hx.
    - subst x. rewrite lookup_insert_eq in Ex. injection Ex as <-. destruct Hh as [<- Hi]. by exists (BounceStartPage c), (BouncePageCount c).
    - rewrite lookup_insert_ne in Ex by done. by exists c'. }
  assert (Hfrom : forall o p i, holder hold (maps s) o p i -> exists o', holder None (<[m := c]> (maps s)) o' p i).
  { intros [x|] p i; cbn.
    - intros (c' & Ex & Hh). exists (Some x), c'. split; [|done]. rewrite lookup_insert_ne; [done|]. intros ->. congruence.
    - intros (st & k & [= <- <- <-] & Hi). exists (Some m), c. split; [apply lookup_insert_eq|]. by split. }
  assert (Ho : owned loc (set_maps (<[m := c]> (maps s)) s) ≡ₚ owned (m :: loc) s) by (unfold owned; cbn; rewrite keys_insert by done; solve_Permutation).
  destruct I as [M Sh Bk Al ? ?]. split; [by destruct M|by destruct Sh| |by destruct Al|by rewrite Ho|intros x; rewrite Ho; auto].
  destruct Bk. split; cbn; try done.
  - intros x c'. rewrite lookup_insert_Some. intros [[<- <-]|[_ Ex]]; [|by eapply bi_map].
    destruct (bi_hold _ _ _ eq_refl) as (b' & Eb' & H1 & H2 & H3). split; try done. exists b'. rewrite Eb in Eb'. injection Eb' as <-. done.
  - intros p b' i Ep Hi. rewrite (bi_bits p b' i Ep Hi). split; intros (o & Hh); [by eapply Hfrom|]. destruct (Hto _ _ _ Hh) as (x & -> & Hh'). eauto.
  - intros o o' p i H1 H2. destruct (Hto _ _ _ H1) as (x & -> & H1'), (Hto _ _ _ H2) as (x' & -> & H2').
    pose proof (bi_runs _ _ _ _ H1' H2') as He. repeat case_decide; congruence.
Qed.

Lemma inv_unmap loc s m c : iommu_inv loc None None s -> maps s !! m = Some c ->
  iommu_inv (m :: loc) None (Some (BounceBlock c, BounceStartPage c, BouncePageCount c)) (set_maps (delete m (maps s)) s).
Proof.
  intros I Em. set (hold := Some (BounceBlock c, BounceStartPage c, BouncePageCount c)). set (s' := set_maps _ s).
  assert (Hto : forall o p i, holder hold (delete m (maps s)) o p i -> holder None (maps s) (Some (default m o)) p i /\ o <> Some m).
  { intros [x|] p i; cbn.
    - intros (c' & [Hne Ex]%lookup_delete_Some & Hh). split; [by exists c'|congruence].
    - intros (st & k & [= <- <- <-] & Hi). split; [|done]. exists c. split; [done|]. by split. }
  assert (Hfrom : forall o p i, holder None (maps s) o p i -> exists o', holder hold (delete m (maps s)) o' p i).
  { intros [x|] p i; cbn; [|by intros (? & ? & ? & _)]. intros (c' & Ex & Hh). destruct (decide (x = m)) as [->|Hne].
    - rewrite Em in Ex. injection Ex as <-. destruct Hh as [<- Hi]. exists None. by exists (BounceStartPage c), (BouncePageCount c).
    - exists (Some x), c'. by rewrite lookup_delete_ne. }
  assert (Ho : owned (m :: loc) s' ≡ₚ owned loc s) by (unfold owned; cbn; rewrite (keys_delete (maps s) m) by eauto; solve_Permutation).
  destruct I as [M Sh Bk Al ? ?]. split; [by destruct M|by destruct Sh| |by destruct Al|by rewrite Ho|intros x; rewrite Ho; auto].
  destruct Bk. split; cbn; try done.
  - intros x c' [_ Ex]%lookup_delete_Some. by apply bi_map in Ex.
  - intros p b' i Ep Hi. rewrite (bi_bits p b' i Ep Hi). split; intros (o & Hh); [by eapply Hfrom|]. apply Hto in Hh as [Hh _]. eauto.
  - intros p st k [= <- <- <-]. destruct (bi_map m c Em). destruct mk_block as (b & Eb & H1 & H2). exists b. split_and!; try done; apply mk_run.
  - intros o o' p i H1 H2. apply Hto in H1 as [H1 N1], H2 as [H2 N2]. pose proof (bi_runs _ _ _ _ H1 H2) as He. destruct o, o'; cbn in *; congruence.
Qed.
End Pool.
