(* ===== verification/IoMmuOps.v ===== *)
(** The operations of the IOMMU protocol on a driver that satisfies its
    invariant: each returns, keeps the invariant, and disturbs no memory that
    belongs to a mapping, a buffer or a caller. *)
From stdpp Require Import base list numbers list_numbers option gmap fin_map_dom.
From Stdlib Require Import ZArith Lia.
From S2P Require Import Prelude Circular PkRing EmclPacket Heap IoMmu IoMmuBitmap IoMmuInv IoMmuPool.
Open Scope Z_scope.
Import PkRing EmclPacket IoMmu.

Lemma size_to_pages n : 0 <= n -> EFI_SIZE_TO_PAGES n = (n + 4095) / 4096.
Proof.
  intros Hn. unfold EFI_SIZE_TO_PAGES, EFI_PAGE_SHIFT, EFI_PAGE_MASK. rewrite Z.shiftr_div_pow2 by lia.
  change 4095 with (Z.ones 12) at 1. rewrite Z.land_ones by lia. change (2 ^ 12) with 4096. destruct (Z.eqb_spec (n mod 4096) 0); zlia.
Qed.

Lemma within_iff a n x : within a n x = true <-> a <= x < a + n.
Proof. unfold within. rewrite andb_true_iff, Z.leb_le, Z.ltb_lt. lia. Qed.
Lemma within_not a n x : within a n x = false <-> x < a \/ a + n <= x.
Proof. unfold within. rewrite andb_false_iff, Z.leb_gt, Z.ltb_ge. lia. Qed.

Section Ops.
Context {B : BuildOptions} {PL : Platform} {cl : gmap Z Z} {PO : platform_ok cl}.

(** Memory that belongs to a mapping, to a buffer, or to a caller. *)
Definition map_at (c : IOMMU_MAP_CONTEXT) (x : Z) : Prop := BounceBase c <= x < BounceBase c + 4096 * BouncePageCount c.
Definition busy (s : iommu) (x : Z) : Prop :=
  (exists m c, maps s !! m = Some c /\ map_at c x) \/
  (exists p a, allocs s !! p = Some a /\ OriginalAddress a <= x < OriginalAddress a + 4096 * Pages a) \/
  (exists b k, client s !! b = Some k /\ b <= x < b + k).

Lemma map_facts loc pend hold s m c : iommu_inv loc pend hold s -> maps s !! m = Some c ->
  exists b, blocks s !! BounceBlock c = Some b /\ BounceBase c = BlockBase b + BounceStartPage c * 4096 /\ 0 <= BounceStartPage c /\
    0 < BouncePageCount c /\ BounceStartPage c + BouncePageCount c <= BlockPageCount b.
Proof. intros I Em. destruct (bi_map _ _ (ii_blocks _ _ _ _ I) m c Em). destruct mk_block as (b & ? & ? & ?). exists b. split_and!; try done; apply mk_run. Qed.

Lemma alloc_not_block loc pend hold s p a : iommu_inv loc pend hold s -> allocs s !! p = Some a -> blocks s !! p = None.
Proof.
  intros I Ea. destruct (blocks s !! p) as [b|] eqn:Eb; [|done]. exfalso. pose proof (ii_once _ _ _ _ I) as Hn. unfold owned in Hn.
  apply list.NoDup_app in Hn as (_ & Hd & _). apply (Hd p); [apply in_pointers; eauto|]. rewrite !elem_of_app, !in_keys. eauto.
Qed.

Lemma alloc_facts loc pend hold s p a : iommu_inv loc pend hold s -> allocs s !! p = Some a ->
  range_of s p = Some (ac_DmaContext a, Pages a) /\ page_allocs s !! OriginalAddress a = Some (Pages a).
Proof.
  intros I Ea. pose proof (alloc_not_block _ _ _ _ _ _ I Ea) as Hb.
  assert (Hr : range_of s p = Some (ac_DmaContext a, Pages a)) by (unfold range_of; by rewrite Hb, Ea). split; [done|].
  destruct (si_ranges _ _ (ii_shared _ _ _ _ I) (Some p) _ _ Hr) as [Hp _]. by rewrite (ai_base _ (ii_allocs _ _ _ _ I) p a Ea) in Hp.
Qed.

Lemma busy_in_use loc pend hold s x : iommu_inv loc pend hold s -> busy s x -> in_use s x.
Proof.
  intros I [(m & c & Em & Hx)|[(p & a & Ea & Hx)|Hx]]; [left|left|by right].
  - destruct (map_facts _ _ _ _ _ _ I Em) as (b & Eb & Hb & H1 & H2 & H3). destruct (block_facts _ _ _ _ _ _ I Eb) as (_ & Hp & _).
    exists (BlockBase b), (BlockPageCount b). split; [done|]. unfold map_at in Hx. lia.
  - destruct (alloc_facts _ _ _ _ _ _ I Ea) as [_ Hp]. eauto.
Qed.

(** Owners hold different pages. *)
Lemma ranges_apart loc pend hold s o o' c n c' n' : iommu_inv loc pend hold s -> o <> o' ->
  range_at pend s o = Some (c, n) -> range_at pend s o' = Some (c', n') ->
  BaseAddress c + 4096 * n <= BaseAddress c' \/ BaseAddress c' + 4096 * n' <= BaseAddress c.
Proof.
  intros I Hne H1 H2. destruct (si_ranges _ _ (ii_shared _ _ _ _ I) _ _ _ H1) as [P1 _], (si_ranges _ _ (ii_shared _ _ _ _ I) _ _ _ H2) as [P2 _].
  destruct (si_apart _ _ (ii_shared _ _ _ _ I) _ _ _ _ _ _ Hne H1 H2) as [Hd _]. by apply (mi_pp _ (ii_memory _ _ _ _ I)).
Qed.

Lemma block_range (s : iommu) p b : blocks s !! p = Some b -> range_of s p = Some (bb_DmaContext b, BlockPageCount b).
Proof. intros E. unfold range_of. by rewrite E. Qed.

(** The run an operation holds belongs to nobody else. *)
Lemma run_apart loc pend s p b start n x : iommu_inv loc pend (Some (p, start, n)) s -> blocks s !! p = Some b ->
  BlockBase b + start * 4096 <= x < BlockBase b + start * 4096 + 4096 * n -> ~ busy s x.
Proof.
  intros I Eb Hx. destruct (bi_hold _ _ (ii_blocks _ _ _ _ I) _ _ _ eq_refl) as (b' & Eb' & Hs & Hn & He). rewrite Eb in Eb'. injection Eb' as <-.
  destruct (block_facts _ _ _ _ _ _ I Eb) as (Bk & Hp & _). pose proof (bk_base _ _ Bk) as Hbase.
  intros [(m & c & Em & Hm)|[(q & a & Ea & Hm)|(cb & k & Ec & Hm)]].
  - destruct (map_facts _ _ _ _ _ _ I Em) as (b' & Eb' & Hb & H1 & H2 & H3). unfold map_at in Hm.
    destruct (decide (BounceBlock c = p)) as [Heq|Hne].
    + rewrite Heq, Eb in Eb'. injection Eb' as <-. set (i := (x - BlockBase b) / 4096).
      assert (Hc : Some m = None); [|done]. apply (bi_runs _ _ (ii_blocks _ _ _ _ I) _ _ p i).
      * exists c. split; [done|]. split; [done|]. unfold i. zlia.
      * exists start, n. split; [done|]. unfold i. zlia.
    + destruct (block_facts _ _ _ _ _ _ I Eb') as (Bk' & _). pose proof (bk_base _ _ Bk') as Hbase'.
      destruct (ranges_apart _ _ _ _ (Some p) (Some (BounceBlock c)) _ _ _ _ I ltac:(congruence) (block_range _ _ _ Eb) (block_range _ _ _ Eb')); lia.
  - destruct (alloc_facts _ _ _ _ _ _ I Ea) as [Hr _]. pose proof (alloc_not_block _ _ _ _ _ _ I Ea) as Hnb.
    pose proof (ai_base _ (ii_allocs _ _ _ _ I) q a Ea) as Hbase'.
    destruct (ranges_apart _ _ _ _ (Some p) (Some q) _ _ _ _ I ltac:(congruence) (block_range _ _ _ Eb) Hr); lia.
  - destruct (mi_pc _ (ii_memory _ _ _ _ I) _ _ _ _ Hp Ec); lia.
Qed.

(** Nor does a buffer. *)
Lemma alloc_apart loc pend hold s p a x : iommu_inv loc pend hold s -> allocs s !! p = Some a ->
  OriginalAddress a <= x < OriginalAddress a + 4096 * Pages a ->
  (forall m c, maps s !! m = Some c -> ~ map_at c x) /\ (forall b k, client s !! b = Some k -> ~ (b <= x < b + k)) /\
  (forall q a', allocs s !! q = Some a' -> q <> p -> ~ (OriginalAddress a' <= x < OriginalAddress a' + 4096 * Pages a')).
Proof.
  intros I Ea Hx. destruct (alloc_facts _ _ _ _ _ _ I Ea) as [Hr Hp]. pose proof (alloc_not_block _ _ _ _ _ _ I Ea) as Hnb.
  pose proof (ai_base _ (ii_allocs _ _ _ _ I) p a Ea) as Hbase. split_and!.
  - intros m c Em Hm. destruct (map_facts _ _ _ _ _ _ I Em) as (b & Eb & Hb & H1 & H2 & H3). unfold map_at in Hm.
    destruct (block_facts _ _ _ _ _ _ I Eb) as (Bk & _). pose proof (bk_base _ _ Bk).
    destruct (ranges_apart _ _ _ _ (Some p) (Some (BounceBlock c)) _ _ _ _ I ltac:(congruence) Hr (block_range _ _ _ Eb)); lia.
  - intros b k Hc Hb. destruct (mi_pc _ (ii_memory _ _ _ _ I) _ _ _ _ Hp Hc); lia.
  - intros q a' Ea' Hne Hx'. destruct (alloc_facts _ _ _ _ _ _ I Ea') as [Hr' _]. pose proof (ai_base _ (ii_allocs _ _ _ _ I) q a' Ea').
    destruct (ranges_apart _ _ _ _ (Some p) (Some q) _ _ _ _ I ltac:(congruence) Hr Hr'); lia.
Qed.

(** ** Access to memory *)
Lemma page_accessible s b k a n : page_allocs s !! b = Some k -> b <= a -> a + n <= b + 4096 * k -> accessible s a n = true.
Proof.
  intros Hp Ha Hn. unfold accessible. apply orb_true_iff; left. apply orb_true_iff; right. apply existsb_exists. exists (b, k).
  split; [by apply list_elem_of_In, elem_of_map_to_list|]. rewrite andb_true_iff, !Z.leb_le. lia.
Qed.
Lemma client_accessible s a n : buffer_ok (client s) a n -> accessible s a n = true.
Proof.
  intros (b & k & Hc & Ha & Hn). unfold accessible. apply orb_true_iff; right. apply existsb_exists. exists (b, k).
  split; [by apply list_elem_of_In, elem_of_map_to_list|]. rewrite andb_true_iff, !Z.leb_le. lia.
Qed.

Lemma buffer_private loc pend hold s a n : iommu_inv loc pend hold s -> buffer_ok (client s) a n -> 0 < n -> physical s a = a.
Proof.
  intros I (b & k & Hc & Ha & Hn) Hpos. pose proof (ii_memory _ _ _ _ I) as M. destruct (mi_client _ M b k Hc) as (H1 & H2 & H3).
  apply physical_private; [apply M|lia].
Qed.

(** The run of a block that is held or mapped, reached through its shared alias. *)
Lemma run_reach loc pend hold s p b start n : iommu_inv loc pend hold s -> blocks s !! p = Some b -> 0 <= start -> 0 <= n -> start + n <= BlockPageCount b ->
  let base := BlockBase b + start * 4096 in
  (n <> 0 -> physical s (IoMmuGetSharedVa s base) = base /\ IoMmuGetSharedPa s base = base + mSharedGpaBoundary s) /\
  (forall k, k <= 4096 * n -> accessible s base k = true) /\ base mod 4096 = 0 /\ base + 4096 * n <= 2 ^ 32.
Proof.
  intros I Eb Hs Hn He base. destruct (block_facts _ _ _ _ _ _ I Eb) as (Bk & Hp & H0 & Hc & Ht & Ha). pose proof (ii_memory _ _ _ _ I) as M.
  pose proof (bk_low _ _ Bk). split_and!.
  - intros Hne. assert (0 <= base < top s) by (unfold base; lia). split; [by apply physical_shared; [apply M|]|by apply shared_pa; [apply M|]].
  - intros k Hk. apply (page_accessible s (BlockBase b) (BlockPageCount b)); [done|unfold base; lia|unfold base; lia].
  - unfold base. rewrite Z.mod_add by lia. done.
  - unfold base. lia.
Qed.

Lemma run_zero s dst d n : physical s dst = d -> accessible s d n = true ->
  ZeroMem dst n s = Ok (tt, set_ram (fun x => if within d n x then 0 else ram s x) s).
Proof. intros Hd Ha. unfold ZeroMem. by rewrite Hd, Ha. Qed.
Lemma run_copy s dst src d a n : physical s dst = d -> physical s src = a -> accessible s d n = true -> accessible s a n = true ->
  IoMmu.CopyMem dst src n s = Ok (tt, set_ram (fun x => if within d n x then ram s (a + (x - d)) else ram s x) s).
Proof. intros Hd Ha H1 H2. unfold IoMmu.CopyMem. by rewrite Hd, Ha, H1, H2. Qed.

(** ** Map *)
Lemma run_fill s p b start k op a n : iommu_inv [] None (Some (p, start, k)) s -> blocks s !! p = Some b ->
  buffer_ok (client s) a n -> 0 < n <= 4096 * k ->
  let base := BlockBase b + start * 4096 in
  exists z f, ZeroMem (IoMmuGetSharedVa s base) (k * EFI_PAGE_SIZE) s = Ok (tt, set_ram z s) /\
    (if is_read op then IoMmu.CopyMem (IoMmuGetSharedVa s base) a n else mret tt) (set_ram z s) = Ok (tt, set_ram f s) /\
    forall x, f x = if within base (4096 * k) x then (if is_read op && (x - base <? n) then ram s (a + (x - base)) else 0) else ram s x.
Proof.
  intros I Eb Hbuf Hn base. destruct (bi_hold _ _ (ii_blocks _ _ _ _ I) _ _ _ eq_refl) as (b' & Eb' & Hs & Hk & He). rewrite Eb in Eb'. injection Eb' as <-.
  destruct (run_reach _ _ _ s p b start k I Eb Hs ltac:(lia) He) as (Hpa & Hacc & _). destruct (Hpa ltac:(lia)) as [Hph _]. fold base in Hph, Hacc.
  set (z := fun x => if within base (k * EFI_PAGE_SIZE) x then 0 else ram s x). exists z.
  assert (Hz : forall x, z x = if within base (4096 * k) x then 0 else ram s x) by (intros x; unfold z, EFI_PAGE_SIZE; by rewrite (Z.mul_comm k)).
  assert (Hsrc : forall x, a <= x < a + n -> z x = ram s x).
  { intros x Hx. rewrite Hz. destruct (within base (4096 * k) x) eqn:Ew; [|done]. apply within_iff in Ew. exfalso.
    apply (run_apart _ _ _ _ _ _ _ x I Eb Ew). right; right. destruct Hbuf as (cb & ck & Hc & H1 & H2). exists cb, ck. split; [done|lia]. }
  destruct (is_read op) eqn:Er; cbn [andb].
  - eexists. split; [by apply run_zero; [|apply Hacc; unfold EFI_PAGE_SIZE; lia]|]. split.
    + apply (run_copy (set_ram z s) _ _ base a); [exact Hph| |by apply Hacc; lia|by apply client_accessible].
      apply (buffer_private _ _ _ _ _ _ I Hbuf). lia.
    + intros x. cbn [ram set_ram]. destruct (within base n x) eqn:Ew; [apply within_iff in Ew|apply within_not in Ew].
      * assert (within base (4096 * k) x = true) as -> by (apply within_iff; lia). destruct (Z.ltb_spec (x - base) n); [|lia]. apply Hsrc. lia.
      * rewrite Hz. destruct (within base (4096 * k) x) eqn:Ew'; [|done]. apply within_iff in Ew'. by destruct (Z.ltb_spec (x - base) n); [lia|].
  - exists z. split; [by apply run_zero; [|apply Hacc; unfold EFI_PAGE_SIZE; lia]|]. split; [done|exact Hz].
Qed.

(** What every call leaves alone: the mode and geometry, and the callers' memory map. *)
Record undisturbed (s s' : iommu) : Prop := {
  un_mode : mBounceMode s' = mBounceMode s;
  un_boundary : mSharedGpaBoundary s' = mSharedGpaBoundary s;
  un_mask : mCanonicalizationMask s' = mCanonicalizationMask s;
  un_client : client s' = client s
}.

Definition mapped (s s' : iommu) (op : EDKII_IOMMU_OPERATION) (a n : Z) (r : map_result) : Prop :=
  exists m c, mr_status r = EFI_SUCCESS /\ mr_bytes r = n /\ mr_mapping r = Some m /\ mr_device r = Some (BounceBase c + mSharedGpaBoundary s) /\
    m <> 0 /\ maps s !! m = None /\ maps s' = <[m := c]> (maps s) /\ Operation c = op /\ HostAddress c = a /\ NumberOfBytes c = n /\
    BounceBase c mod 4096 = 0 /\ BounceBase c + 4096 * BouncePageCount c <= 2 ^ 32 /\ BouncePageCount c = (n + 4095) / 4096 /\
    (forall x, map_at c x -> ~ busy s x) /\
    forall x, map_at c x -> ram s' x = if is_read op && (x - BounceBase c <? n) then ram s (a + (x - BounceBase c)) else 0.

Lemma run_map_bounced s op a n : client s = cl -> iommu_inv [] None None s -> is_common op = false -> buffer_ok (client s) a n -> 0 <= n < 2 ^ 64 ->
  exists r s', map_bounced op a n s = Ok (r, s') /\ iommu_inv [] None None s' /\ undisturbed s s' /\ allocs s' = allocs s /\
    (forall x, busy s x -> ram s' x = ram s x) /\ page_allocs s ⊆ page_allocs s' /\
    if EFI_ERROR (mr_status r) then maps s' = maps s /\ mr_mapping r = None else mapped s s' op a n r.
Proof.
  intros Hcl I Hop Hbuf Hn. setoid_rewrite map_subseteq_spec. unfold map_bounced. rewrite size_to_pages by lia. set (k := (n + 4095) / 4096).
  destruct (Z.ltb_spec MAX_UINT32 k) as [_|Hk].
  { eexists _, s. split; [reflexivity|]. by split_and!; try done. }
  unfold MAX_UINT32 in Hk. assert (Hk0 : 0 <= k) by (unfold k; zlia).
  assert (Hbusy : forall x, busy s x -> in_use s x) by (intros x; by apply (busy_in_use _ _ _ _ _ I)).
  destruct (run_acquire_pages s k Hcl ltac:(lia) I) as (st & run & s1 & E1 & H1). rewrite (ibind_Ok _ _ _ _ _ E1). destruct (EFI_ERROR st).
  { destruct H1 as [I1 K1]. eexists _, s1. split; [reflexivity|]. split_and!; try done; [by split; apply K1|apply K1| |apply K1|by split; [apply K1|]].
    intros x Hx. by apply (kp_ram _ _ K1), Hbusy. }
  destruct H1 as ([[p start] base] & -> & I1 & K1 & b & Eb & Hbase). change (start * EFI_PAGE_SIZE) with (start * 4096) in Hbase.
  rewrite (ibind_Ok _ _ s1 (p, start, base) s1) by done. rewrite (ibind_Ok _ _ s1 (IoMmuGetSharedVa s1 base) s1) by done.
  destruct (bi_hold _ _ (ii_blocks _ _ _ _ I1) _ _ _ eq_refl) as (b' & Eb' & Hs & Hkp & He). rewrite Eb in Eb'. injection Eb' as <-.
  assert (Hnk : 0 < n <= 4096 * k) by (unfold k in *; zlia).
  assert (Hbuf1 : buffer_ok (client s1) a n) by (by rewrite (kp_client _ _ K1)).
  destruct (run_fill s1 p b start k op a n I1 Eb Hbuf1 Hnk) as (z & f & E2 & E3 & Hf). rewrite <- Hbase in *.
  rewrite (ibind_Ok _ _ _ _ _ E2), (ibind_Ok _ _ _ _ _ E3). clear E2 E3 z. set (s2 := set_ram f s1) in *.
  destruct (run_reach _ _ _ s1 p b start k I1 Eb Hs ltac:(lia) He) as (Hpa & _ & Hal & Hlow). destruct (Hpa ltac:(lia)) as [_ Hpa']. clear Hpa. rewrite <- Hbase in *.
  rewrite (ibind_Ok _ _ s2 (base + mSharedGpaBoundary s) s2).
  2:{ unfold iget. f_equal. f_equal. rewrite <- (kp_boundary _ _ K1). exact Hpa'. }
  assert (I2 : iommu_inv [] None (Some (p, start, k)) s2) by (exact (inv_ram _ _ _ s1 f (pinned s1) (tick s1) I1)).
  assert (Hap : forall x, within base (4096 * k) x = true -> ~ busy s x).
  { intros x Hx Hb. apply within_iff in Hx. rewrite Hbase in Hx. apply (run_apart _ _ _ _ _ _ _ x I1 Eb Hx).
    destruct Hb as [Hb|[Hb|Hb]]; [left|right; left|right; right]; by rewrite ?(kp_maps _ _ K1), ?(kp_allocs _ _ K1), ?(kp_client _ _ K1). }
  assert (Hkeep : forall x, busy s x -> f x = ram s x).
  { intros x Hx. rewrite Hf. destruct (within base (4096 * k) x) eqn:Ew; [by apply Hap in Ew|]. by apply (kp_ram _ _ K1), Hbusy. }
  assert (Hcl2 : client s2 = cl) by (by rewrite <- Hcl, <- (kp_client _ _ K1)).
  destruct (run_pool _ _ _ s2 sizeof_IOMMU_MAP_CONTEXT Hcl2 I2) as (m & [(-> & E & I3)|(Hm & E & I3)]); rewrite (ibind_Ok _ _ _ _ _ E).
  - cbn [Z.eqb]. destruct (run_release_pages _ _ _ _ _ I3) as (b3 & l' & Eb3 & E3 & I4). rewrite (ibind_Ok _ _ _ _ _ E3).
    eexists _, _. split; [reflexivity|]. split_and!; try done; [by split; apply K1|apply K1|apply K1|by split; [apply K1|]].
  - destruct (Z.eqb_spec m 0); [done|]. set (s3 := set_pool _ _) in *. set (c := mkMap _ _ _ _ _ _ _ _).
    assert (I4 : iommu_inv [] None None (set_maps (<[m := c]> (maps s3)) s3)) by (apply inv_map; try done; by exists b).
    destruct (local_fresh _ _ _ _ m I3) as (_ & Hmm & _); [by apply list_elem_of_here|].
    erewrite ibind_Ok by reflexivity. eexists _, _. split; [reflexivity|]. split_and!; try done; [by split; apply K1|apply K1|apply K1|].
    exists m, c. cbn in Hmm. rewrite (kp_maps _ _ K1) in Hmm. split_and!; try done.
    + cbn. by rewrite (kp_maps _ _ K1).
    + intros x Hx. by apply Hap, within_iff.
    + intros x Hx. cbn [ram set_maps s3 s2 set_pool set_ram next_tick BounceBase c]. unfold map_at in Hx. cbn in Hx. rewrite Hf.
      assert (within base (4096 * k) x = true) as -> by (by apply within_iff). destruct (is_read op && (x - base <? n)) eqn:Er; [|done].
      apply andb_true_iff in Er as [_ Er%Z.ltb_lt]. apply (kp_ram _ _ K1). right. destruct Hbuf as (cb & ck & Hc & H1 & H2). exists cb, ck. split; [done|lia].
Qed.

(** ** Unmap *)
Lemma release_maps v p start n s : IoMmuReleaseBouncePages p start n (set_maps v s) =
  match IoMmuReleaseBouncePages p start n s with Ok (u, s') => Ok (u, set_maps v s') | Fault f => Fault f end.
Proof.
  unfold IoMmuReleaseBouncePages, mbind, I_bind, ilift, get_bounce_block, put_block, imod. destruct (ASSERT _); [|done]. cbn [blocks set_maps].
  destruct (p =? 0); [done|]. destruct (blocks s !! p) as [b|]; [|done]. do 3 (destruct (ASSERT _); [|done]).
  by destruct (UpdateBitmapRun (AllocBitmap b) start n false).
Qed.

Lemma run_unmap s m c : client s = cl -> iommu_inv [] None None s -> maps s !! m = Some c ->
  exists s', IoMmuUnmap m s = Ok (EFI_SUCCESS, s') /\ iommu_inv [] None None s' /\ undisturbed s s' /\ allocs s' = allocs s /\
    maps s' = delete m (maps s) /\ page_allocs s' = page_allocs s /\
    forall x, ram s' x = if is_write (Operation c) && within (HostAddress c) (NumberOfBytes c) x then ram s (BounceBase c + (x - HostAddress c)) else ram s x.
Proof.
  intros Hcl I Em. destruct (bi_map _ _ (ii_blocks _ _ _ _ I) m c Em) as [Hsig Hop (b & Eb & He & Hbase) [Hs Hk] Hbytes Hbuf].
  pose proof (bk_null _ _ (bi_block _ _ (ii_blocks _ _ _ _ I) _ _ Eb)) as Hnull.
  destruct (run_reach _ _ _ s _ b _ (BouncePageCount c) I Eb Hs ltac:(lia) He) as (Hpa & Hacc & _). destruct (Hpa ltac:(lia)) as [Hph _]. rewrite <- Hbase in Hph, Hacc.
  assert (Hm0 : m <> 0) by (apply (ii_pool _ _ _ _ I m); unfold owned; rewrite !elem_of_app, !in_keys; eauto).
  unfold IoMmuUnmap. destruct (Z.eqb_spec m 0); [done|]. rewrite (ibind_Ok _ _ s c s) by (unfold get_map; by rewrite Em).
  rewrite (ibind_Ok _ _ s tt s) by (unfold ilift; by rewrite Hsig, Z.eqb_refl, ASSERT_true).
  destruct (Z.eqb_spec (BounceBlock c) 0); [done|]. rewrite (ibind_Ok _ _ s (IoMmuGetSharedVa s (BounceBase c)) s) by done.
  assert (Hcopy : exists f, (if is_write (Operation c) then IoMmu.CopyMem (HostAddress c) (IoMmuGetSharedVa s (BounceBase c)) (NumberOfBytes c) else mret tt) s
    = Ok (tt, set_ram f s) /\ forall x, f x = if is_write (Operation c) && within (HostAddress c) (NumberOfBytes c) x then ram s (BounceBase c + (x - HostAddress c)) else ram s x).
  { destruct (is_write (Operation c)); cbn [andb]; [|exists (ram s); split; [by destruct s|done]]. eexists. split; [|reflexivity].
    apply run_copy; [apply (buffer_private _ _ _ _ _ _ I Hbuf); lia|done|by apply client_accessible|apply Hacc; lia]. }
  destruct Hcopy as (f & Ef & Hf). rewrite (ibind_Ok _ _ _ _ _ Ef), Hop. cbn [negb]. set (s1 := set_ram f s).
  assert (I1 : iommu_inv [] None None s1) by (exact (inv_ram _ _ _ s f (pinned s) (tick s) I)).
  pose proof (inv_unmap _ s1 m c I1 Em) as I2. destruct (run_release_pages _ _ _ _ _ I2) as (b2 & l' & _ & E2 & I3).
  rewrite release_maps in E2. destruct (IoMmuReleaseBouncePages (BounceBlock c) (BounceStartPage c) (BouncePageCount c) s1) as [[[] s2]|] eqn:E3; [|done].
  apply (f_equal (fun r => match r with Ok (_, t) => t | Fault _ => s1 end)) in E2. cbn beta iota in E2.
  rewrite (ibind_Ok _ _ _ _ _ E3). rewrite <- E2 in I3. clear E2. destruct (run_free _ _ _ _ _ I3) as [E4 I4].
  assert (E5 : free_map m s2 = Ok (tt, set_pool (pool s2 ∖ {[m]}) (set_maps (delete m (maps s2)) s2))).
  { unfold free_map. unfold FreePool in E4. cbn in E4. unfold mbind, I_bind, FreePool. destruct (decide (m ∈ pool s2)); [done|done]. }
  assert (Hs2 : maps s2 = maps s /\ page_allocs s2 = page_allocs s /\ allocs s2 = allocs s /\ ram s2 = f /\ undisturbed s s2).
  { unfold IoMmuReleaseBouncePages, mbind, I_bind, ilift, get_bounce_block, put_block, imod in E3. destruct (ASSERT _); [|done].
    destruct (_ =? 0); [done|]. destruct (blocks s1 !! _); [|done]. do 3 (destruct (ASSERT _); [|done]).
    destruct (UpdateBitmapRun _ _ _ false); [|done]. injection E3 as <-. by split_and!. }
  destruct Hs2 as (H1 & H2 & H3 & H4 & U). rewrite (ibind_Ok _ _ _ _ _ E5). eexists. split; [reflexivity|]. rewrite H1. split_and!; try done.
  - by destruct U; split.
  - intros x. cbn. rewrite H4. apply Hf.
Qed.
End Ops.
