(* ===== verification/IoMmuBuffer.v ===== *)
(** Buffers of the IOMMU protocol, and the driver's entry point, on the
    invariant: allocating a buffer shares new pages with the host and records
    them, freeing it takes them back. *)
From stdpp Require Import base list numbers list_numbers option gmap fin_map_dom.
From Stdlib Require Import ZArith Lia.
From S2P Require Import Prelude Circular PkRing EmclPacket Heap IoMmu IoMmuBitmap IoMmuInv IoMmuPool IoMmuOps.
Open Scope Z_scope.
Import PkRing EmclPacket IoMmu.

Section Buffer.
Context {B : BuildOptions} {PL : Platform} {cl : gmap Z Z} {PO : platform_ok cl}.

(** The pending range becomes a buffer, and back. *)
Lemma inv_new_alloc s p c n : iommu_inv [p] (Some (c, n)) None s ->
  iommu_inv [] None None (set_alloc_list (mAllocContextListHead s ++ [p]) (set_allocs (<[p := mkAlloc (BaseAddress c) n c]> (allocs s)) s)).
Proof.
  intros I. set (s' := set_alloc_list _ _). destruct (local_fresh _ _ _ _ p I) as (Hpb & _ & Hpa & _); [by apply list_elem_of_here|].
  assert (Hnp : p ∉ mAllocContextListHead s) by (rewrite (proj2 (ai_list _ (ii_allocs _ _ _ _ I))), Hpa; by intros [? ?]).
  assert (Hr : forall o, range_at None s' o = match o with Some q => if decide (q = p) then Some (c, n) else range_of s q | None => None end).
  { intros [q|]; [|done]. cbn. unfold range_of. cbn. destruct (decide (q = p)) as [->|]; [by rewrite Hpb, lookup_insert_eq|by rewrite lookup_insert_ne]. }
  assert (Hr' : forall o c' k, range_at None s' o = Some (c', k) -> exists o', range_at (Some (c, n)) s o' = Some (c', k) /\
    (o = Some p /\ o' = None \/ o <> Some p /\ o' = o)).
  { intros [q|] c' k; [|done]. rewrite Hr. case_decide; [subst; intros [= <- <-]; exists None; auto|]. intros Ho. exists (Some q). split; [done|right].
    split; [congruence|done]. }
  assert (Ho : owned [] s' ≡ₚ owned [p] s) by (unfold owned; subst s'; cbn; rewrite keys_insert by done; solve_Permutation).
  destruct I as [M [] Bk Al ? ?]. split; [by destruct M|split|by destruct Bk| |by rewrite Ho|intros x; rewrite Ho; auto].
  - intros o c' k Hk. destruct (Hr' o c' k Hk) as (o' & Hk' & _). by apply (si_ranges o').
  - intros o1 o2 c1 n1 c2 n2 Hne H1 H2. destruct (Hr' _ _ _ H1) as (o1' & H1' & Hc1), (Hr' _ _ _ H2) as (o2' & H2' & Hc2).
    apply (si_apart o1' o2' c1 n1 c2 n2); try done. naive_solver.
  - intros h x Hh. destruct (si_visible h x Hh) as (Hv & o & c' & k & Hk & Hc). split; [done|]. destruct o as [q|].
    + exists (Some q), c', k. split; [|done]. rewrite Hr, decide_False; [done|]. intros ->. cbn in Hk. unfold range_of in Hk. by rewrite Hpb, Hpa in Hk.
    + exists (Some p), c', k. split; [|done]. rewrite Hr, decide_True by done. exact Hk.
  - destruct Al as [[N E] Hb]. split; cbn.
    + split.
      * apply list.NoDup_app. split_and!; [done| |apply NoDup_singleton]. intros x Hx ->%list_elem_of_singleton. done.
      * intros x. rewrite elem_of_app, list_elem_of_singleton, E. destruct (decide (x = p)) as [->|Hne]; [rewrite lookup_insert_eq; naive_solver|].
        rewrite lookup_insert_ne by done. naive_solver.
    + intros q a. rewrite lookup_insert_Some. intros [[<- <-]|[_ Ha]]; [done|by apply (Hb q)].
Qed.

Lemma inv_forget s p a : iommu_inv [] None None s -> allocs s !! p = Some a ->
  iommu_inv [p] (Some (ac_DmaContext a, Pages a)) None
    (set_alloc_list (filter (fun q => q <> p) (mAllocContextListHead s)) (set_allocs (delete p (allocs s)) s)).
Proof.
  intros I Ea. set (s' := set_alloc_list _ _). destruct (alloc_facts _ _ _ _ _ _ I Ea) as [Hra _]. pose proof (alloc_not_block _ _ _ _ _ _ I Ea) as Hpb.
  set (r := (ac_DmaContext a, Pages a)) in *.
  assert (Hr : forall o, range_at (Some r) s' o = match o with Some q => if decide (q = p) then None else range_of s q | None => Some r end).
  { intros [q|]; [|done]. cbn. unfold range_of. cbn. destruct (decide (q = p)) as [->|]; [by rewrite Hpb, lookup_delete_eq|by rewrite lookup_delete_ne]. }
  assert (Hr' : forall o c' k, range_at (Some r) s' o = Some (c', k) -> range_of s (default p o) = Some (c', k) /\ o <> Some p).
  { intros [q|] c' k; rewrite Hr; cbn; [case_decide; [done|]; split; [done|congruence]|]. intros <-. done. }
  assert (Ho : owned [p] s' ≡ₚ owned [] s) by (unfold owned; subst s'; cbn; rewrite (keys_delete (allocs s) p) by eauto; solve_Permutation).
  destruct I as [M [] Bk Al ? ?]. split; [by destruct M|split|by destruct Bk| |by rewrite Ho|intros x; rewrite Ho; auto].
  - intros o c' k Hk. destruct (Hr' o c' k Hk) as (Hk' & _). by apply (si_ranges (Some (default p o))).
  - intros o1 o2 c1 n1 c2 n2 Hne H1 H2. destruct (Hr' _ _ _ H1) as (H1' & Hc1), (Hr' _ _ _ H2) as (H2' & Hc2).
    apply (si_apart (Some (default p o1)) (Some (default p o2)) c1 n1 c2 n2); try done. destruct o1, o2; cbn; congruence.
  - intros h x Hh. destruct (si_visible h x Hh) as (Hv & [q|] & c' & k & Hk & Hc); [|done]. split; [done|]. destruct (decide (q = p)) as [->|Hne].
    + exists None, c', k. split; [|done]. cbn in Hk. cbn. congruence.
    + exists (Some q), c', k. split; [|done]. by rewrite Hr, decide_False.
  - destruct Al as [[N E] Hb]. split; cbn.
    + split; [by apply list.NoDup_filter|]. intros x. rewrite list_elem_of_filter, E. destruct (decide (x = p)) as [->|Hne]; [rewrite lookup_delete_eq; naive_solver|].
      rewrite lookup_delete_ne by done. naive_solver.
    + intros q a' [_ Ha]%lookup_delete_Some. by apply (Hb q).
Qed.

(** ** AllocateBuffer *)
Definition narrow (Attributes : Z) : bool := Z.land Attributes EDKII_IOMMU_ATTRIBUTE_DUAL_ADDRESS_CYCLE =? 0.

Definition allocated (s s' : iommu) (k attr : Z) (r : option Z) : Prop :=
  exists p a, allocs s !! p = None /\ allocs s' = <[p := a]> (allocs s) /\ Pages a = k /\ r = Some (IoMmuGetSharedVa s (OriginalAddress a)) /\
    OriginalAddress a mod 4096 = 0 /\ (narrow attr = true -> OriginalAddress a + 4096 * k <= 2 ^ 32) /\
    forall x, OriginalAddress a <= x < OriginalAddress a + 4096 * k -> ~ busy s x.

Lemma run_allocate_buffer s this ty k host attr : client s = cl -> iommu_inv [] None None s -> 0 <= k ->
  exists st r s', allocate_buffer this ty k host attr s = Ok ((st, r), s') /\ iommu_inv [] None None s' /\ undisturbed s s' /\ maps s' = maps s /\
    (forall x, busy s x -> ram s' x = ram s x) /\ page_allocs s ⊆ page_allocs s' /\
    if EFI_ERROR st then r = None /\ allocs s' = allocs s else allocated s s' k attr r.
Proof.
  intros Hcl I Hk. unfold allocate_buffer. destruct (_ || _ || _).
  { exists EFI_INVALID_PARAMETER, None, s. by split_and!. }
  fold (narrow attr). set (ty' := if narrow attr then _ else _). set (max := if narrow attr then _ else _).
  destruct (run_pages _ _ _ s ty' max k Hcl I) as [(st & Est & E & I1)|(st & base & Est & E & I1 & Hnew & Hkp & Htop & Hmax & Hpp & Hpc)];
    rewrite (ibind_Ok _ _ _ _ _ E), Est.
  { eexists st, None, _. split; [reflexivity|]. rewrite Est. by split_and!. }
  set (s1 := set_page_allocs _ _) in *. rewrite (ibind_Ok _ _ s1 true s1) by (unfold iget; by rewrite (mi_active _ (ii_memory _ _ _ _ I1))). cbn [negb].
  assert (Ebase : page_allocs s1 !! base = Some k) by apply lookup_insert_eq. assert (Hsub : page_allocs s ⊆ page_allocs s1) by (by apply insert_subseteq).
  assert (Hdel : page_allocs s ⊆ delete base (page_allocs s1)) by (cbn; by rewrite delete_insert_id).
  assert (Hown : forall o c k, range_at None s1 o = Some (c, k) -> BaseAddress c <> base).
  { intros o c j Ho <-. destruct (si_ranges _ _ (ii_shared _ _ _ _ I) o c j Ho) as [Hx _]. congruence. }
  assert (Hap : forall x, base <= x < base + 4096 * k -> ~ busy s x).
  { intros x Hx Hb. destruct (busy_in_use _ _ _ _ _ I Hb) as [(b & j & Hj & Hx')|(b & j & Hj & Hx')]; [destruct (Hpp b j Hj)|destruct (Hpc b j Hj)]; lia. }
  destruct (run_prepare _ _ s1 base k I1 Ebase) as (st2 & c & s2 & E2 & (r & v & pn & t & -> & Hr) & I2); [intros p c j Ho; by apply (Hown (Some p) c j)|].
  rewrite (ibind_Ok _ _ _ _ _ E2). set (s2 := with_hv r v pn t s1) in *.
  assert (Hram : forall x, busy s x -> r x = ram s x).
  { intros x Hx. apply Hr. apply within_not. destruct (Z.lt_ge_cases x base); [by left|right]. destruct (Z.le_gt_cases (base + 4096 * k) x); [done|].
    exfalso. by apply (Hap x); [lia|]. }
  destruct (EFI_ERROR st2) eqn:Est2.
  { destruct (run_free_pages _ _ _ s2 base k I2 Ebase Hown) as [E3 I3]. rewrite (ibind_Ok _ _ _ _ _ E3). eexists st2, None, _. split; [reflexivity|].
    rewrite Est2. by split_and!. }
  destruct I2 as [I2 Hc].
  destruct (run_pool _ _ _ s2 sizeof_IOMMU_ALLOC_CONTEXT Hcl I2) as (p & [(-> & E3 & I3)|(Hp & E3 & I3)]); rewrite (ibind_Ok _ _ _ _ _ E3).
  - cbn [Z.eqb]. destruct (inv_release _ _ _ _ _ I3) as (E4 & I4 & Hr4). rewrite (ibind_Ok _ _ _ _ _ E4). set (s4 := released c _) in *.
    assert (Hs4 : exists r v pn t, s4 = with_hv r v pn t s1) by (subst s4; unfold released; destruct (IoMmuRequiresHostVisibility _); by eexists _, _, _, _).
    destruct Hs4 as (r4 & v4 & pn4 & t4 & Hs4). rewrite Hs4 in *.
    destruct (run_free_pages _ _ _ _ base k I4 Ebase Hown) as [E5 I5]. rewrite (ibind_Ok _ _ _ _ _ E5). eexists EFI_OUT_OF_RESOURCES, None, _. split; [reflexivity|].
    split_and!; try done. intros x Hx. etransitivity; [apply Hr4|by apply Hram]. rewrite Hc. apply within_not.
    destruct (Z.lt_ge_cases x base); [by left|right]. destruct (Z.le_gt_cases (base + 4096 * k) x); [done|]. exfalso. by apply (Hap x); [lia|].
  - destruct (Z.eqb_spec p 0); [done|]. erewrite ibind_Ok by reflexivity. erewrite ibind_Ok by reflexivity. erewrite ibind_Ok by reflexivity.
    pose proof (inv_new_alloc _ _ _ _ I3) as I4. rewrite Hc in I4. destruct (local_fresh _ _ _ _ p I3) as (_ & _ & Hpa & _); [by apply list_elem_of_here|].
    eexists st2, _, _. split; [reflexivity|]. rewrite Est2. split_and!; try done. exists p. eexists. split_and!; try done.
    + by destruct (mi_pages _ (ii_memory _ _ _ _ I1) _ _ Ebase) as (_ & ? & _).
    + intros Hnar. specialize (Hmax ltac:(unfold ty'; by rewrite Hnar)). unfold max in Hmax. rewrite Hnar in Hmax. unfold SIZE_4GB in Hmax. cbn [OriginalAddress]. lia.
Qed.

(** ** FreeBuffer *)
Lemma lor_ge x m : 0 <= x -> 0 <= m -> x <= Z.lor x m.
Proof.
  intros Hx Hm. assert (E : Z.lor x m - x = Z.ldiff (Z.lor x m) x).
  { apply Z.sub_nocarry_ldiff. apply Z.bits_inj'. intros j Hj. rewrite Z.ldiff_spec, Z.lor_spec, Z.bits_0. by destruct (Z.testbit x j). }
  assert (0 <= Z.ldiff (Z.lor x m) x); [|lia]. apply Z.ldiff_nonneg. left. apply Z.lor_nonneg. done.
Qed.

Lemma shared_va_inj s a b : geometry_of s -> 0 <= a < top s -> 0 <= b < top s -> IoMmuGetSharedVa s a = IoMmuGetSharedVa s b -> a = b.
Proof. intros G Ha Hb He. rewrite <- (physical_shared s a G Ha), He. by apply physical_shared. Qed.

Lemma alloc_base loc pend hold s p a : iommu_inv loc pend hold s -> allocs s !! p = Some a -> 0 < OriginalAddress a /\ 0 < Pages a /\ OriginalAddress a + 4096 * Pages a <= top s.
Proof.
  intros I Ea. destruct (alloc_facts _ _ _ _ _ _ I Ea) as [_ Hp]. by destruct (mi_pages _ (ii_memory _ _ _ _ I) _ _ Hp) as (? & _ & ? & ?).
Qed.

(** The record with that address is the buffer's own. *)
Definition forgotten (p : Z) (a : IOMMU_ALLOC_CONTEXT) (s : iommu) : iommu :=
  let s1 := released (ac_DmaContext a) (set_alloc_list (filter (fun q => q <> p) (mAllocContextListHead s)) s) in
  set_allocs (delete p (allocs s)) (set_pool (pool s ∖ {[p]}) s1).

Lemma inv_forgotten s p a : iommu_inv [] None None s -> allocs s !! p = Some a ->
  IoMmuReleaseAddressRangeFromDma (ac_DmaContext a) (set_alloc_list (filter (fun q => q <> p) (mAllocContextListHead s)) s)
    = Ok (tt, released (ac_DmaContext a) (set_alloc_list (filter (fun q => q <> p) (mAllocContextListHead s)) s)) /\
  p ∈ pool s /\ iommu_inv [] None None (forgotten p a s) /\
  forall x, within (OriginalAddress a) (4096 * Pages a) x = false -> ram (forgotten p a s) x = ram s x.
Proof.
  intros I Ea. pose proof (inv_forget s p a I Ea) as I1. destruct (inv_release _ _ _ _ _ I1) as (_ & I2 & Hr). destruct (run_free _ _ _ _ _ I2) as [_ I3].
  destruct (alloc_facts _ _ _ _ _ _ I Ea) as [Hra _]. destruct (si_ranges _ _ (ii_shared _ _ _ _ I) (Some p) _ _ Hra) as (_ & _ & Hpin & Hvis).
  rewrite (ai_base _ (ii_allocs _ _ _ _ I) p a Ea) in Hr. split_and!.
  - apply run_release; try done. apply (ii_memory _ _ _ _ I).
  - apply (ii_pool _ _ _ _ I p). unfold owned. rewrite !elem_of_app, !in_keys. eauto.
  - unfold forgotten. unfold released in *. destruct (IoMmuRequiresHostVisibility s) eqn:Ev;
      change (IoMmuRequiresHostVisibility (set_alloc_list (filter (fun q => q <> p) (mAllocContextListHead s)) s)) with (IoMmuRequiresHostVisibility s);
      change (IoMmuRequiresHostVisibility (set_alloc_list (filter (fun q => q <> p) (mAllocContextListHead s)) (set_allocs (delete p (allocs s)) s))) with (IoMmuRequiresHostVisibility s) in I3;
      rewrite Ev in *; exact I3.
  - intros x Hx. specialize (Hr x Hx). unfold forgotten. unfold released in *.
    change (IoMmuRequiresHostVisibility (set_alloc_list (filter (fun q => q <> p) (mAllocContextListHead s)) s)) with (IoMmuRequiresHostVisibility s).
    change (IoMmuRequiresHostVisibility (set_alloc_list (filter (fun q => q <> p) (mAllocContextListHead s)) (set_allocs (delete p (allocs s)) s))) with (IoMmuRequiresHostVisibility s) in Hr.
    by destruct (IoMmuRequiresHostVisibility s).
Qed.

Lemma run_forget s p a : iommu_inv [] None None s -> allocs s !! p = Some a -> forall l, p ∈ l -> (forall q, q ∈ l -> is_Some (allocs s !! q)) ->
  forget_alloc l (IoMmuGetSharedVa s (OriginalAddress a)) s = Ok (tt, forgotten p a s).
Proof.
  intros I Ea. destruct (inv_forgotten s p a I Ea) as (E & Hp & _ & _). pose proof (ii_memory _ _ _ _ I) as M.
  induction l as [|q l IH]; [by intros ?%elem_of_nil|]. intros Hin Hall. cbn [forget_alloc].
  destruct (Hall q) as [a' Eq]; [by apply elem_of_cons; left|]. rewrite (ibind_Ok _ _ s a' s) by (unfold get_alloc; by rewrite Eq).
  rewrite (ibind_Ok _ _ s (IoMmuGetSharedVa s (OriginalAddress a')) s) by done. destruct (Z.eqb_spec (IoMmuGetSharedVa s (OriginalAddress a')) (IoMmuGetSharedVa s (OriginalAddress a))) as [He|Hne].
  - assert (Hqp : q = p).
    { destruct (alloc_base _ _ _ _ _ _ I Ea) as (H1 & H2 & H3), (alloc_base _ _ _ _ _ _ I Eq) as (H1' & H2' & H3').
      apply shared_va_inj in He; [|apply M|lia|lia]. destruct (decide (q = p)) as [|Hd]; [done|exfalso].
      destruct (alloc_apart _ _ _ _ p a (OriginalAddress a) I Ea ltac:(lia)) as (_ & _ & Hno). apply (Hno q a' Eq Hd). lia. }
    subst q. rewrite Ea in Eq. injection Eq as <-. erewrite ibind_Ok by reflexivity. rewrite (ibind_Ok _ _ _ _ _ E).
    set (s1 := released _ _). assert (Hs1 : pool s1 = pool s /\ allocs s1 = allocs s) by (subst s1; unfold released; by destruct (IoMmuRequiresHostVisibility _)).
    destruct Hs1 as [Hs1 Hs2]. rewrite (ibind_Ok _ _ s1 tt (set_pool (pool s ∖ {[p]}) s1)) by (unfold FreePool; by rewrite Hs1, decide_True).
    unfold forgotten, imod. fold s1. cbn [allocs set_pool]. by rewrite Hs2.
  - apply IH; [|intros x Hx; apply Hall; by apply elem_of_cons; right]. apply elem_of_cons in Hin as [->|]; [|done]. rewrite Ea in Eq. by injection Eq as ->.
Qed.

(** With a shared alias the pages are freed by the wrong address. *)
Lemma run_free_buffer s p a : iommu_inv [] None None s -> allocs s !! p = Some a ->
  exists s', IoMmuFreeBuffer (Pages a) (IoMmuGetSharedVa s (OriginalAddress a)) s = Ok (EFI_SUCCESS, s') /\ iommu_inv [] None None s' /\
    undisturbed s s' /\ maps s' = maps s /\ allocs s' = delete p (allocs s) /\ blocks s' = blocks s /\
    (forall x, within (OriginalAddress a) (4096 * Pages a) x = false -> ram s' x = ram s x) /\
    page_allocs s' = if mSharedGpaBoundary s =? 0 then delete (OriginalAddress a) (page_allocs s) else page_allocs s.
Proof.
  intros I Ea. pose proof (ii_memory _ _ _ _ I) as M. unfold IoMmuFreeBuffer. rewrite (ibind_Ok _ _ s true s) by (unfold iget; by rewrite (mi_active _ M)). cbn [negb].
  rewrite (ibind_Ok _ _ s (mAllocContextListHead s) s) by done. destruct (inv_forgotten s p a I Ea) as (_ & _ & I1 & Hr).
  pose proof (ai_list _ (ii_allocs _ _ _ _ I)) as [_ Hl].
  rewrite (ibind_Ok _ _ s tt (forgotten p a s)) by (apply run_forget; try done; [apply Hl; eauto|intros q; apply Hl]).
  destruct (alloc_base _ _ _ _ _ _ I Ea) as (H1 & H2 & H3). destruct (alloc_facts _ _ _ _ _ _ I Ea) as [Hra Hpg]. set (s1 := forgotten p a s) in *.
  assert (Hs1 : page_allocs s1 = page_allocs s /\ maps s1 = maps s /\ allocs s1 = delete p (allocs s) /\ undisturbed s s1 /\ blocks s1 = blocks s).
  { unfold s1, forgotten, released. by destruct (IoMmuRequiresHostVisibility _); split_and!. }
  clearbody s1. destruct Hs1 as (Hpa & Hm & Ha & [] & Hbl). pose proof (shared_pa s (OriginalAddress a) (mi_geometry _ M) ltac:(lia)) as Hspa.
  destruct (mi_geometry _ M) as [[Hb Hmask]|(j & Hj & Hb & Hmask & _)].
  - assert (Hva : IoMmuGetSharedVa s (OriginalAddress a) = OriginalAddress a) by (unfold IoMmuGetSharedVa; rewrite Hspa, Hmask, Z.lor_0_r; lia). rewrite Hva.
    destruct (run_free_pages _ _ _ s1 (OriginalAddress a) (Pages a) I1) as [E2 I2]; [by rewrite Hpa| |].
    { intros [q|] c k Ho; [|done]. cbn in Ho. destruct (decide (q = p)) as [->|Hne].
      - unfold range_of in Ho. by rewrite Hbl, Ha, (alloc_not_block _ _ _ _ _ _ I Ea), lookup_delete_eq in Ho.
      - assert (Ho' : range_of s q = Some (c, k)) by (unfold range_of in *; by rewrite Hbl, Ha, lookup_delete_ne in Ho).
        destruct (si_apart _ _ (ii_shared _ _ _ _ I) (Some q) (Some p) _ _ _ _ ltac:(congruence) Ho' Hra) as [Hd _].
        by rewrite (ai_base _ (ii_allocs _ _ _ _ I) p a Ea) in Hd. }
    rewrite (ibind_Ok _ _ _ _ _ E2). eexists. split; [reflexivity|]. rewrite Hb. split_and!; try done. cbn. by rewrite Hpa.
  - pose proof (pow2_le j ltac:(lia)). assert (Hge : mSharedGpaBoundary s <= IoMmuGetSharedVa s (OriginalAddress a)).
    { unfold IoMmuGetSharedVa. rewrite Hspa. transitivity (OriginalAddress a + mSharedGpaBoundary s); [lia|].
      apply lor_ge; lia. }
    assert (Hnone : page_allocs s !! IoMmuGetSharedVa s (OriginalAddress a) = None).
    { destruct (page_allocs s !! IoMmuGetSharedVa s (OriginalAddress a)) as [k|] eqn:Ek; [|done]. destruct (mi_pages _ M _ _ Ek) as (_ & _ & ? & Ht). unfold top, memory_top in Ht.
      revert Ht. destruct (Z.ltb_spec 0 (mSharedGpaBoundary s)); intros; exfalso; lia. }
    rewrite (ibind_Ok _ _ s1 EFI_NOT_FOUND s1) by (unfold FreePages; rewrite Hpa, Hnone; by rewrite decide_False).
    eexists. split; [reflexivity|]. destruct (Z.eqb_spec (mSharedGpaBoundary s) 0); [lia|]. by split_and!.
Qed.

(** ** The entry point *)

(** The driver's state when it is loaded. *)
Definition unloaded (r : Z -> Z) : iommu := mkIommu 0 false 0 0 [] [] ∅ ∅ ∅ ∅ ∅ cl r ∅ ∅ 0.

Lemma inv_unloaded mode hv r : let s := set_mode mode hv (set_geometry PcdIsolationSharedGpaBoundary PcdIsolationSharedGpaCanonicalizationBitmask (unloaded r)) in
  IoMmuIsBounceActive s = true -> (IoMmuRequiresHostVisibility s = true \/ IoMmuRequiresPinning s = true -> hv = true) -> iommu_inv [] None None s.
Proof.
  intros s Ha Hh. assert (Hno : forall o, range_at None s o = None) by (intros [p|]; [|done]; cbn; unfold range_of; cbn; by rewrite !lookup_empty).
  split; [split|split|split|split|..]; try done.
  - apply po_geometry.
  - intros b k Hb. exact (po_client b k Hb).
  - intros o c n. by rewrite Hno.
  - intros o o' c n c' n' _. by rewrite Hno.
  - split; [constructor|]. intros p. cbn. rewrite elem_of_nil, lookup_empty. split; [done|by intros [? ?]].
  - intros [m|] o' p i Hh1; [|by destruct Hh1 as (? & ? & ? & _)]. destruct Hh1 as (c & Hc & _). cbn in Hc. by rewrite lookup_empty in Hc.
  - split; [constructor|]. intros p. cbn. rewrite elem_of_nil, lookup_empty. split; [done|by intros [? ?]].
  - constructor.
  - intros p Hp. by apply elem_of_nil in Hp.
Qed.

Lemma run_entry r : negb (Z.land IoMmuComputeBounceMode IOMMU_BOUNCE_MODE_BOUNCE =? 0) = true ->
  exists st s, IoMmuDxeEntryPoint (unloaded r) = Ok (st, s) /\
    (EFI_ERROR st = false -> iommu_inv [] None None s /\ client s = cl /\ maps s = ∅ /\ allocs s = ∅ /\ mBounceMode s = IoMmuComputeBounceMode).
Proof.
  intros Ha. unfold IoMmuDxeEntryPoint. set (ret := if EFI_ERROR Install_answer then Install_answer else EFI_SUCCESS). cbv zeta. set (mode := IoMmuComputeBounceMode) in *. erewrite ibind_Ok by reflexivity.
  rewrite (ibind_Ok _ _ _ true (set_mode mode false (unloaded r))) by (unfold iget; by rewrite <- Ha). cbv iota.
  unfold IoMmuInitializeBounce. set (g := fun hv => set_mode mode hv (set_geometry PcdIsolationSharedGpaBoundary PcdIsolationSharedGpaCanonicalizationBitmask (unloaded r))).
  set (vis := negb (Z.land mode IOMMU_BOUNCE_MODE_HOST_VISIBILITY =? 0)). set (pin := negb (Z.land mode IOMMU_BOUNCE_MODE_PINNING =? 0)).
  assert (Hpre : forall hv, (vis || pin = true -> hv = true) -> exists st s, (_ ← IoMmuPreAllocateBounceBlock IOMMU_BOUNCE_INITIAL_BLOCK_PAGES; mret ret) (g hv) = Ok (st, s) /\
    (EFI_ERROR st = false -> iommu_inv [] None None s /\ client s = cl /\ maps s = ∅ /\ allocs s = ∅ /\ mBounceMode s = mode)).
  { intros hv Hhv. destruct (run_preallocate (g hv) IOMMU_BOUNCE_INITIAL_BLOCK_PAGES) as (st & p & s & E & I & K & _); [done|done| |].
    - apply inv_unloaded; [done|]. intros Hor. apply Hhv, orb_true_iff, Hor.
    - rewrite (ibind_Ok _ _ _ _ _ E). exists ret, s. split; [done|]. intros _. split_and!; [done|apply K..]. }
  destruct (negb vis && negb pin) eqn:Eb.
  - destruct (Hpre false) as (st & s & E & H); [by destruct vis, pin|]. exists st, s. split; [|done]. rewrite <- E.
    rewrite (ibind_Ok _ _ _ EFI_SUCCESS (g false)); [done|]. do 5 (erewrite ibind_Ok by reflexivity).
    cbn [IoMmuRequiresHostVisibility IoMmuRequiresPinning mBounceMode set_mode set_geometry set_block_list set_alloc_list unloaded].
    change (IoMmuRequiresHostVisibility _) with vis. change (IoMmuRequiresPinning _) with pin. by rewrite Eb.
  - set (ok := negb (EFI_ERROR LocateHvIvm_answer)). rewrite (ibind_Ok _ _ _ LocateHvIvm_answer (g ok)).
    2:{ do 5 (erewrite ibind_Ok by reflexivity). change (IoMmuRequiresHostVisibility _) with vis. change (IoMmuRequiresPinning _) with pin. by rewrite Eb. }
    destruct (EFI_ERROR LocateHvIvm_answer) eqn:El; [exists LocateHvIvm_answer; eexists; split; [reflexivity|by rewrite El]|].
    apply Hpre. intros _. unfold ok. done.
Qed.
End Buffer.
