(* ===== verification/IoMmuProps.v ===== *)
(** What the IOMMU driver guarantees while bouncing is active, for every
    sequence of protocol calls and device accesses: no call faults, callers'
    memory changes only where a mapping asks for it, what is shared with the host
    is accounted for page by page, and each mapping transfers exactly its own
    bytes.  Also the search of the bitmap against its reference definition, and
    the pages [IoMmuFreeBuffer] never gives back. *)
From stdpp Require Import base list numbers list_numbers option gmap fin_map_dom.
From Stdlib Require Import ZArith Lia.
From S2P Require Import Prelude Circular PkRing EmclPacket Heap IoMmu IoMmuBitmap IoMmuInv IoMmuPool IoMmuOps IoMmuBuffer.
Open Scope Z_scope.
Import PkRing EmclPacket IoMmu.

(** C32. [FindFreeRun] returns the start of the lowest run of clear bits of the
    length asked for, as found by trying every start in turn, and nothing when
    there is none or the length is zero; it reads no word outside the bitmap. *)
Theorem find_free_run_lowest l size n : 0 <= n -> 0 <= size <= 64 * Zlength l ->
  FindFreeRun l size n = Ok (if n =? 0 then None else lowest_run l size n).
Proof.
  intros Hn Hs. destruct (Z.eqb_spec n 0) as [->|Hne]; [done|]. apply FindFreeRun_spec; lia.
Qed.

(** 70 pages, of which 0 to 63 but 10 and 11, and 65, are in use: two pages are
    found at 10, three at 66. *)
Lemma find_free_run_lowest_witness :
  FindFreeRun [2 ^ 64 - 1 - 2 ^ 10 - 2 ^ 11; 2] 70 2 = Ok (Some 10) /\ FindFreeRun [2 ^ 64 - 1 - 2 ^ 10 - 2 ^ 11; 2] 70 3 = Ok (Some 66).
Proof. split; (etransitivity; [apply find_free_run_lowest; [lia|done]|vm_compute; reflexivity]). Defined.

(** ** Steps *)

(** The protocol calls, and a byte written by a device through DMA address [d]. *)
Inductive io_op : Type :=
  | DoMap (op : EDKII_IOMMU_OPERATION) (a n : Z)
  | DoUnmap (m : Z)
  | DoAllocate (this : Z) (ty : EFI_ALLOCATE_TYPE) (k host attr : Z)
  | DoFree (k host : Z)
  | DeviceWrite (d v : Z).

Section Props.
Context {B : BuildOptions} {PL : Platform} {cl : gmap Z Z} {PO : platform_ok cl}.

Definition exec (o : io_op) : IoMmu.I unit :=
  match o with
  | DoMap op a n => _ ← IoMmuMap op a n; mret tt
  | DoUnmap m => _ ← IoMmuUnmap m; mret tt
  | DoAllocate this ty k host attr => _ ← IoMmuAllocateBuffer this ty k host attr; mret tt
  | DoFree k host => _ ← IoMmuFreeBuffer k host; mret tt
  | DeviceWrite d v => imod (fun s => set_ram (fun x => if x =? d - mSharedGpaBoundary s then v else ram s x) s)
  end.

(** Memory within the reach of devices: the blocks and the buffers. *)
Definition exposed (s : iommu) (x : Z) : Prop :=
  (exists p b, blocks s !! p = Some b /\ BlockBase b <= x < BlockBase b + 4096 * BlockPageCount b) \/
  (exists p a, allocs s !! p = Some a /\ OriginalAddress a <= x < OriginalAddress a + 4096 * Pages a).

(** Callers map their own memory, and unmap and free what they were given. *)
Definition admissible (s : iommu) (o : io_op) : Prop :=
  match o with
  | DoMap op a n => 0 <= n < 2 ^ 64 /\ (is_common op = false -> buffer_ok (client s) a n)
  | DoUnmap m => m = 0 \/ is_Some (maps s !! m)
  | DoAllocate _ _ k _ _ => 0 <= k < 2 ^ 64
  | DoFree k host => exists p a, allocs s !! p = Some a /\ k = Pages a /\ host = IoMmuGetSharedVa s (OriginalAddress a)
  | DeviceWrite d _ => exposed s (d - mSharedGpaBoundary s)
  end.

Inductive steps : iommu -> list io_op -> iommu -> Prop :=
  | steps_nil s : steps s [] s
  | steps_cons s o s1 os s2 : admissible s o -> exec o s = Ok (tt, s1) -> steps s1 os s2 -> steps s (o :: os) s2.

(** States reached from the entry point, bouncing active. *)
Definition reachable (s : iommu) : Prop :=
  exists r st s0 os, negb (Z.land IoMmuComputeBounceMode IOMMU_BOUNCE_MODE_BOUNCE =? 0) = true /\
    IoMmuDxeEntryPoint (unloaded (cl := cl) r) = Ok (st, s0) /\ EFI_ERROR st = false /\ steps s0 os s.

(** ** One step *)
Definition caller_byte (s : iommu) (x : Z) : Prop := exists b k, client s !! b = Some k /\ b <= x < b + k.

(** What a step leaves in a byte of a caller's memory: only the end of a write
    mapping changes it. *)
Definition delivered (s : iommu) (o : io_op) (x : Z) : Z :=
  match o with
  | DoUnmap m =>
    match maps s !! m with
    | Some c => if is_write (Operation c) && within (HostAddress c) (NumberOfBytes c) x then ram s (BounceBase c + (x - HostAddress c)) else ram s x
    | None => ram s x
    end
  | _ => ram s x
  end.

(** What a step leaves in a byte of a mapping's pages, by the DMA address of
    the byte: only devices change it. *)
Definition overlay (o : io_op) (d v : Z) : Z := match o with DeviceWrite d' v' => if d =? d' then v' else v | _ => v end.

Record stepped (s : iommu) (o : io_op) (s' : iommu) : Prop := {
  sd_inv : iommu_inv [] None None s';
  sd_same : undisturbed s s';
  sd_callers : forall x, caller_byte s x -> ram s' x = delivered s o x;
  sd_maps : forall m c, maps s !! m = Some c -> o <> DoUnmap m -> maps s' !! m = Some c /\
    forall x, map_at c x -> ram s' x = overlay o (x + mSharedGpaBoundary s) (ram s x);
  sd_pages : mSharedGpaBoundary s <> 0 -> page_allocs s ⊆ page_allocs s'
}.

Lemma caller_hidden s x : iommu_inv [] None None s -> caller_byte s x -> ~ exposed s x.
Proof.
  intros I (b & k & Hb & Hx) [(p & bk & Hp & Hx')|(p & a & Hp & Hx')].
  - destruct (block_facts _ _ _ _ _ _ I Hp) as (_ & Hpg & _). destruct (mi_pc _ (ii_memory _ _ _ _ I) _ _ _ _ Hpg Hb); lia.
  - destruct (alloc_facts _ _ _ _ _ _ I Hp) as [_ Hpg]. destruct (mi_pc _ (ii_memory _ _ _ _ I) _ _ _ _ Hpg Hb); lia.
Qed.

Lemma map_exposed s m c x : iommu_inv [] None None s -> maps s !! m = Some c -> map_at c x -> exposed s x.
Proof.
  intros I Em Hx. destruct (map_facts _ _ _ _ _ _ I Em) as (b & Eb & Hb & H1 & H2 & H3). left. exists (BounceBlock c), b. split; [done|].
  unfold map_at in Hx. lia.
Qed.

(** A step that disturbs no busy memory. *)
Lemma stepped_quiet s o s' : iommu_inv [] None None s -> iommu_inv [] None None s' -> undisturbed s s' -> (forall x, busy s x -> ram s' x = ram s x) ->
  (forall m c, maps s !! m = Some c -> maps s' !! m = Some c) -> page_allocs s ⊆ page_allocs s' ->
  match o with DoMap _ _ _ | DoAllocate _ _ _ _ _ => True | DoUnmap m => m = 0 | _ => False end -> stepped s o s'.
Proof.
  intros I I' U Hram Hmaps Hpages Ho. split; try done.
  - intros x (b & k & Hb & Hx). rewrite Hram by (right; right; eauto). destruct o; try done. cbn. subst. destruct (maps s !! 0) as [c|] eqn:E0; [|done].
    exfalso. destruct (ii_pool _ _ _ _ I 0) as [_ Hn]; [|done]. unfold owned. rewrite !elem_of_app, !in_keys. eauto.
  - intros m c Em _. split; [by apply Hmaps|]. intros x Hx. rewrite Hram by (left; eauto). by destruct o.
Qed.

Lemma step_map s op a n : client s = cl -> iommu_inv [] None None s -> admissible s (DoMap op a n) ->
  exists r s', IoMmuMap op a n s = Ok (r, s') /\ stepped s (DoMap op a n) s' /\
    (is_common op = false -> EFI_ERROR (mr_status r) = false -> mapped s s' op a n r).
Proof.
  intros Hcl I [Hn Hbuf]. unfold IoMmuMap. rewrite (ibind_Ok _ _ s true s) by (unfold iget; by rewrite (mi_active _ (ii_memory _ _ _ _ I))). cbn [negb].
  destruct (is_common op) eqn:Eo.
  - erewrite ibind_Ok by reflexivity. eexists _, s. split; [reflexivity|]. split; [|done]. by apply stepped_quiet.
  - destruct (run_map_bounced s op a n Hcl I Eo (Hbuf eq_refl) Hn) as (r & s' & E & I' & U & Ha & Hr & Hp & Hres). exists r, s'.
    split; [done|]. split; [|intros _ He; by rewrite He in Hres]. apply stepped_quiet; try done. intros m c Em. destruct (EFI_ERROR (mr_status r)).
    + destruct Hres as [-> _]. done.
    + destruct Hres as (m' & c' & _ & _ & _ & _ & _ & Hm' & -> & _). rewrite lookup_insert_ne; [done|]. intros ->. congruence.
Qed.

Lemma step_unmap s m c : client s = cl -> iommu_inv [] None None s -> maps s !! m = Some c ->
  exists s', IoMmuUnmap m s = Ok (EFI_SUCCESS, s') /\ stepped s (DoUnmap m) s' /\ maps s' = delete m (maps s).
Proof.
  intros Hcl I Em. destruct (run_unmap s m c Hcl I Em) as (s' & E & I' & U & Ha & Hm & Hp & Hr). exists s'. split; [done|]. split; [|done]. split; try done.
  - intros x _. cbn. by rewrite Em, Hr.
  - intros m' c' Em' Hne. split; [rewrite Hm, lookup_delete_ne; [done|congruence]|]. intros x Hx. cbn. rewrite Hr.
    destruct (is_write (Operation c)); [|done]. cbn [andb]. destruct (within _ _ x) eqn:Ew; [|done]. exfalso. apply within_iff in Ew.
    destruct (mk_buffer _ _ _ (bi_map _ _ (ii_blocks _ _ _ _ I) m c Em)) as (b & k & Hb & H1 & H2).
    apply (caller_hidden s x I); [exists b, k; split; [done|lia]|]. by eapply map_exposed.
  - by rewrite Hp.
Qed.

Lemma step_free s p a : client s = cl -> iommu_inv [] None None s -> allocs s !! p = Some a ->
  exists s', IoMmuFreeBuffer (Pages a) (IoMmuGetSharedVa s (OriginalAddress a)) s = Ok (EFI_SUCCESS, s') /\ allocs s' = delete p (allocs s) /\ blocks s' = blocks s /\
    stepped s (DoFree (Pages a) (IoMmuGetSharedVa s (OriginalAddress a))) s'.
Proof.
  intros Hcl I Ea. destruct (run_free_buffer s p a I Ea) as (s' & E & I' & U & Hm & Ha & Hbl & Hr & Hp). exists s'. do 3 (split; [done|]).
  assert (Hout : forall x, ~ (OriginalAddress a <= x < OriginalAddress a + 4096 * Pages a) -> ram s' x = ram s x).
  { intros x Hx. apply Hr, within_not. lia. }
  split; try done.
  - intros x (b & k & Hb & Hx). apply Hout. intros Hx'. destruct (alloc_apart _ _ _ _ p a x I Ea Hx') as (_ & Hc & _). by apply (Hc b k).
  - intros m c Em _. rewrite Hm. split; [done|]. intros x Hx. apply Hout. intros Hx'. destruct (alloc_apart _ _ _ _ p a x I Ea Hx') as (Hc & _). by apply (Hc m c).
  - intros Hb. rewrite Hp. by destruct (Z.eqb_spec (mSharedGpaBoundary s) 0).
Qed.

Lemma step_device s d v : iommu_inv [] None None s -> exposed s (d - mSharedGpaBoundary s) ->
  stepped s (DeviceWrite d v) (set_ram (fun x => if x =? d - mSharedGpaBoundary s then v else ram s x) s).
Proof.
  intros I He. split; try done.
  - exact (inv_ram _ _ _ s _ (pinned s) (tick s) I).
  - intros x Hx. cbn. destruct (Z.eqb_spec x (d - mSharedGpaBoundary s)) as [->|]; [|done]. by apply caller_hidden in Hx.
  - intros m c Em _. split; [done|]. intros x Hx. cbn. destruct (Z.eqb_spec x (d - mSharedGpaBoundary s)), (Z.eqb_spec (x + mSharedGpaBoundary s) d); try done; lia.
Qed.

(** An allocation that fails ends in [ASSERT_EFI_ERROR]. *)
Definition allocation_asserts (s : iommu) (o : io_op) : Prop :=
  exists this ty k host attr st r s', o = DoAllocate this ty k host attr /\ asserts_enabled = true /\
    allocate_buffer this ty k host attr s = Ok ((st, r), s') /\ EFI_ERROR st = true.

Lemma step_any s o : client s = cl -> iommu_inv [] None None s -> admissible s o ->
  (exists s', exec o s = Ok (tt, s') /\ stepped s o s') \/ (exec o s = Fault AssertFailed /\ allocation_asserts s o).
Proof.
  intros Hcl I Ha. destruct o as [op a n|m|this ty k host attr|k host|d v]; cbn in Ha.
  - left. destruct (step_map s op a n Hcl I Ha) as (r & s' & E & S & _). exists s'. split; [|done]. cbn. by rewrite (ibind_Ok _ _ _ _ _ E).
  - left. destruct Ha as [->|[c Em]].
    + exists s. split; [done|]. by apply stepped_quiet.
    + destruct (step_unmap s m c Hcl I Em) as (s' & E & S & _). exists s'. split; [|done]. cbn. by rewrite (ibind_Ok _ _ _ _ _ E).
  - destruct (run_allocate_buffer s this ty k host attr Hcl I ltac:(lia)) as (st & r & s' & E & I' & U & Hm & Hr & Hp & Hres).
    assert (S : stepped s (DoAllocate this ty k host attr) s') by (apply stepped_quiet; try done; by rewrite Hm).
    cbn. unfold IoMmuAllocateBuffer. destruct (negb (EFI_ERROR st) || negb asserts_enabled) eqn:Eas.
    + left. exists s'. split; [|done]. rewrite (ibind_Ok _ _ s (st, r) s'); [done|]. rewrite (ibind_Ok _ _ _ _ _ E).
      rewrite (ibind_Ok _ _ s' tt s'); [done|]. unfold ilift, ASSERT. by destruct asserts_enabled, (EFI_ERROR st).
    + right. destruct (EFI_ERROR st) eqn:Est; [|done]. destruct asserts_enabled eqn:Eon; [|done]. split.
      * unfold mbind, I_bind. rewrite E. unfold ilift, ASSERT. by rewrite Eon, Est.
      * by exists this, ty, k, host, attr, st, r, s'.
  - left. destruct Ha as (p & a & Ea & -> & ->). destruct (step_free s p a Hcl I Ea) as (s' & E & _ & _ & S). exists s'. split; [|done].
    cbn. by rewrite (ibind_Ok _ _ _ _ _ E).
  - left. eexists. split; [reflexivity|]. by apply step_device.
Qed.

Lemma step_inv s o s' : client s = cl -> iommu_inv [] None None s -> admissible s o -> exec o s = Ok (tt, s') -> stepped s o s'.
Proof. intros Hcl I Ha E. destruct (step_any s o Hcl I Ha) as [(s1 & E1 & S)|[E1 _]]; rewrite E in E1; [by injection E1 as <-|done]. Qed.

Lemma steps_inv s os s' : steps s os s' -> client s = cl -> iommu_inv [] None None s -> iommu_inv [] None None s' /\ undisturbed s s'.
Proof.
  induction 1 as [s|s o s1 os s2 Ha E _ IH]; intros Hcl I; [split; [done|by split]|]. destruct (step_inv s o s1 Hcl I Ha E) as [I1 U _ _ _].
  destruct IH as [I2 U2]; [by rewrite (un_client _ _ U)|done|]. split; [done|]. destruct U, U2. split; congruence.
Qed.

Lemma iommu_reachable s : reachable s -> iommu_inv [] None None s /\ client s = cl.
Proof.
  intros (r & st & s0 & os & Hm & E & Est & Hs). destruct (run_entry r Hm) as (st' & s0' & E' & H). rewrite E in E'. injection E' as <- <-.
  destruct (H Est) as (I & Hcl & _). destruct (steps_inv _ _ _ Hs Hcl I) as [I' U]. split; [done|]. by rewrite (un_client _ _ U).
Qed.

(** ** The theorems *)

(** C6. On a driver reached from its entry point, with bouncing active and a
    platform whose allocators hand out fresh memory, every admissible call
    returns, whatever the host answers and devices write; only the failure of
    [IoMmuAllocateBuffer] ends in its [ASSERT_EFI_ERROR], in builds that have it.
    A caller's memory changes in no step but the end of a write mapping, which
    stores the mapping's bytes in the mapped buffer and nothing elsewhere. *)
Theorem iommu_protects_callers s o : reachable s -> admissible s o ->
  (exists s', exec o s = Ok (tt, s') /\ forall x, caller_byte s x -> ram s' x = delivered s o x) \/
  (exec o s = Fault AssertFailed /\ allocation_asserts s o).
Proof.
  intros (I & Hcl)%iommu_reachable Ha. destruct (step_any s o Hcl I Ha) as [(s' & E & S)|H]; [left|by right].
  exists s'. split; [done|]. apply S.
Qed.

(** Every page of the driver accounted for. *)
Record accounted (s : iommu) : Prop := {
  ac_blocks : NoDup (mBounceBlockListHead s) /\ forall p, p ∈ mBounceBlockListHead s <-> is_Some (blocks s !! p);
  ac_bits : forall p b i, blocks s !! p = Some b -> 0 <= i < BlockPageCount b ->
    (bit (AllocBitmap b) i = true <-> exists m c, maps s !! m = Some c /\ holds c p i);
  ac_count : forall p b, blocks s !! p = Some b -> InUsePageCount b = used (AllocBitmap b) (BlockPageCount b);
  ac_maps : forall m c m' c' x, maps s !! m = Some c -> maps s !! m' = Some c' -> m <> m' -> map_at c x -> ~ map_at c' x;
  ac_buffers : forall p a m c x, allocs s !! p = Some a -> maps s !! m = Some c -> map_at c x ->
    ~ (OriginalAddress a <= x < OriginalAddress a + 4096 * Pages a);
  ac_private : forall x, caller_byte s x -> ~ exposed s x;
  ac_shared : IoMmuRequiresHostVisibility s = true -> forall h base len,
    visible s !! h = Some (base, len) <->
    exists p c n, range_of s p = Some (c, n) /\ RangeProtectionHandle c = h /\ BaseAddress c = base /\ len = u32 (u32 n * EFI_PAGE_SIZE);
  ac_hidden : IoMmuRequiresHostVisibility s = false -> visible s = ∅
}.

(** C13. In every reachable state the pool is accounted for page by page: the
    bits set in the bitmap of a block are exactly the pages of live mappings, the
    count of pages in use is their number, mappings, buffers and callers' memory
    are pairwise disjoint, and the ranges visible to the host are exactly those of
    the blocks and buffers, each under its own handle. *)
Theorem iommu_pages_accounted s : reachable s -> accounted s.
Proof.
  intros (I & _)%iommu_reachable. pose proof (ii_blocks _ _ _ _ I) as Bk. pose proof (ii_shared _ _ _ _ I) as Sh. split.
  - apply Bk.
  - intros p b i Eb Hi. rewrite (bi_bits _ _ Bk p b i Eb Hi). split; [|intros (m & c & H); by exists (Some m), c].
    intros ([m|] & Hh); [destruct Hh as (c & Hh); eauto|by destruct Hh as (? & ? & ? & _)].
  - intros p b Eb. apply (bk_used _ _ (bi_block _ _ Bk p b Eb)).
  - intros m c m' c' x Em Em' Hne Hx Hx'. pose proof (inv_unmap _ s m c I Em) as I1. destruct (map_facts _ _ _ _ _ _ I Em) as (b & Eb & Hb & _).
    apply (run_apart _ _ _ _ b _ _ x I1 Eb); [unfold map_at in Hx; lia|]. left. exists m', c'. split; [|done]. cbn. by rewrite lookup_delete_ne.
  - intros p a m c x Ea Em Hx Hx'. destruct (alloc_apart _ _ _ _ p a x I Ea Hx') as (Hc & _). by apply (Hc m c).
  - intros x. by apply caller_hidden.
  - intros Hv h base len. split.
    + intros Hh. destruct (si_visible _ _ Sh h _ Hh) as (_ & [p|] & c & n & Hr & Hc); [|done]. destruct (si_ranges _ _ Sh (Some p) c n Hr) as (_ & Hn & _ & Hvis).
      specialize (Hvis Hv). rewrite Hc, Hh, Hn in Hvis. injection Hvis as -> ->. by exists p, c, n.
    + intros (p & c & n & Hr & <- & <- & ->). destruct (si_ranges _ _ Sh (Some p) c n Hr) as (_ & Hn & _ & Hvis). rewrite <- Hn. by apply Hvis.
  - intros Hv. apply map_empty. intros h. destruct (visible s !! h) as [r|] eqn:E; [|done]. destruct (si_visible _ _ Sh h r E). congruence.
Qed.

(** Mapping a caller's buffer on a reachable driver returns; on an error
    nothing is mapped.  On success the device gets a page-aligned address of pages
    below 4GB that belong to no mapping, buffer or caller, just enough for the
    buffer, which hold the buffer's bytes if the device is to read them and zeroes
    everywhere else: no other data of the guest is in them.  In either case no byte
    of a mapping, a buffer or a caller changes. *)
Lemma iommu_map_exposes_buffer s op a n : reachable s -> admissible s (DoMap op a n) -> is_common op = false ->
  exists r s', IoMmuMap op a n s = Ok (r, s') /\ (forall x, busy s x -> ram s' x = ram s x) /\ allocs s' = allocs s /\
    if EFI_ERROR (mr_status r) then maps s' = maps s /\ mr_mapping r = None else mapped s s' op a n r.
Proof.
  intros (I & Hcl)%iommu_reachable [Hn Hbuf] Ho. unfold IoMmuMap.
  rewrite (ibind_Ok _ _ s true s) by (unfold iget; by rewrite (mi_active _ (ii_memory _ _ _ _ I))). rewrite Ho. cbn [negb].
  destruct (run_map_bounced s op a n Hcl I Ho (Hbuf Ho) Hn) as (r & s' & E & I' & U & Ha & Hr & Hp & Hres). by exists r, s'.
Qed.

(** What devices leave at DMA address [d] in a sequence of steps. *)
Definition device_value (os : list io_op) (d v : Z) : Z := foldl (fun v o => overlay o d v) v os.

Lemma steps_map m c s os s' : steps s os s' -> client s = cl -> iommu_inv [] None None s -> maps s !! m = Some c -> DoUnmap m ∉ os ->
  maps s' !! m = Some c /\ forall x, map_at c x -> ram s' x = device_value os (x + mSharedGpaBoundary s) (ram s x).
Proof.
  induction 1 as [s|s o s1 os s2 Ha E _ IH]; intros Hcl I Em Hno; [done|]. apply not_elem_of_cons in Hno as [Ho Hno].
  destruct (step_inv s o s1 Hcl I Ha E) as [I1 U _ Hm _]. destruct (Hm m c Em (not_eq_sym Ho)) as [Em1 Hr1].
  destruct IH as [Em2 Hr2]; [by rewrite (un_client _ _ U)|done|done|done|]. split; [done|]. intros x Hx. rewrite Hr2, Hr1 by done.
  by rewrite (un_boundary _ _ U).
Qed.

Lemma steps_pages s os s' : steps s os s' -> client s = cl -> iommu_inv [] None None s -> mSharedGpaBoundary s <> 0 -> page_allocs s ⊆ page_allocs s'.
Proof.
  induction 1 as [s|s o s1 os s2 Ha E _ IH]; intros Hcl I Hb; [done|]. destruct (step_inv s o s1 Hcl I Ha E) as [I1 U _ _ Hp].
  etransitivity; [by apply Hp|]. apply IH; [by rewrite (un_client _ _ U)|done|by rewrite (un_boundary _ _ U)].
Qed.

(** C9. A mapping transfers its own bytes and nothing else.  Between
    [IoMmuMap] and [IoMmuUnmap], whatever other mappings and buffers come and go
    and wherever devices write, the byte at each DMA address of the mapping is
    what devices last wrote there, or else the buffer's byte (for a device that
    reads) or zero; unmapping succeeds and leaves exactly those bytes in the
    caller's buffer (for a device that writes), and no other byte of a caller
    changes. *)
Theorem iommu_transfer s op a n r s1 os s2 : reachable s -> is_common op = false -> admissible s (DoMap op a n) ->
  IoMmuMap op a n s = Ok (r, s1) -> EFI_ERROR (mr_status r) = false -> steps s1 os s2 ->
  (forall m, mr_mapping r = Some m -> DoUnmap m ∉ os) ->
  exists m d s3, mr_mapping r = Some m /\ mr_device r = Some d /\ IoMmuUnmap m s2 = Ok (EFI_SUCCESS, s3) /\ maps s3 = delete m (maps s2) /\
    (forall i, 0 <= i < n -> ram s2 (d - mSharedGpaBoundary s + i) = device_value os (d + i) (if is_read op then ram s (a + i) else 0)) /\
    (forall i, 0 <= i < n -> ram s3 (a + i) = if is_write op then device_value os (d + i) 0 else ram s2 (a + i)) /\
    (forall x, caller_byte s x -> ~ (a <= x < a + n) -> ram s3 x = ram s2 x).
Proof.
  intros (I & Hcl)%iommu_reachable Ho Ha E Hst Hsteps Hno. destruct (step_map s op a n Hcl I Ha) as (r' & s1' & E' & S & Hm). rewrite E in E'.
  injection E' as <- <-. destruct (Hm Ho Hst) as (m & c & _ & _ & Hmap & Hdev & _ & Hnew & Hmaps & <- & <- & <- & Hal & _ & Hpc & _ & Hram). clear Hm.
  destruct S as [I1 U1 _ _ _]. assert (Hcl1 : client s1 = cl) by (by rewrite (un_client _ _ U1)).
  assert (Em : maps s1 !! m = Some c) by (rewrite Hmaps; apply lookup_insert_eq).
  destruct (steps_map m c _ _ _ Hsteps Hcl1 I1 Em (Hno m Hmap)) as [Em2 Hr2]. destruct (steps_inv _ _ _ Hsteps Hcl1 I1) as [I2 U2].
  assert (Hcl2 : client s2 = cl) by (by rewrite (un_client _ _ U2)). destruct (step_unmap s2 m c Hcl2 I2 Em2) as (s3 & E3 & S3 & Hm3).
  assert (Hb : mSharedGpaBoundary s1 = mSharedGpaBoundary s) by apply U1.
  assert (Hi : forall i, 0 <= i < NumberOfBytes c -> ram s2 (BounceBase c + i) =
    device_value os (BounceBase c + mSharedGpaBoundary s + i) (if is_read (Operation c) then ram s (HostAddress c + i) else 0)).
  { intros i Hi. assert (Hat : map_at c (BounceBase c + i)) by (unfold map_at; rewrite Hpc; zlia). rewrite Hr2, Hb, Hram by done.
    replace (BounceBase c + i - BounceBase c) with i by lia. destruct (Z.ltb_spec i (NumberOfBytes c)); [|lia]. rewrite andb_true_r. f_equal. lia. }
  exists m, (BounceBase c + mSharedGpaBoundary s), s3. split_and!; try done.
  - intros i Hi'. rewrite <- Hi by done. f_equal. lia.
  - intros i Hi'. destruct Ha as [_ Hbuf]. destruct (Hbuf Ho) as (b & k & Hbk & H1 & H2).
    rewrite (sd_callers _ _ _ S3) by (exists b, k; rewrite Hcl2, <- Hcl; split; [done|lia]). cbn. rewrite Em2.
    destruct (is_write (Operation c)) eqn:Ew; [|done]. cbn [andb]. assert (within (HostAddress c) (NumberOfBytes c) (HostAddress c + i) = true) as -> by (apply within_iff; lia).
    replace (HostAddress c + i - HostAddress c) with i by lia. rewrite Hi by done. by destruct (Operation c).
  - intros x (b & k & Hbk & Hx) Hout. rewrite (sd_callers _ _ _ S3) by (exists b, k; rewrite Hcl2, <- Hcl; done). cbn. rewrite Em2.
    assert (within (HostAddress c) (NumberOfBytes c) x = false) as -> by (apply within_not; lia). by rewrite andb_false_r.
Qed.

(** Where buffers are reached through a shared alias, [IoMmuFreeBuffer]
    takes a buffer back from the host and reports success, but passes the alias
    to [FreePages]: the pages stay allocated in every state that follows, and no
    block or buffer of the driver holds them any more. *)
Lemma iommu_free_leaks s p a : reachable s -> mSharedGpaBoundary s <> 0 -> allocs s !! p = Some a ->
  exists s', IoMmuFreeBuffer (Pages a) (IoMmuGetSharedVa s (OriginalAddress a)) s = Ok (EFI_SUCCESS, s') /\ allocs s' = delete p (allocs s) /\
    (forall x, OriginalAddress a <= x < OriginalAddress a + 4096 * Pages a -> ~ exposed s' x) /\
    forall os s'', steps s' os s'' -> page_allocs s'' !! OriginalAddress a = Some (Pages a).
Proof.
  intros (I & Hcl)%iommu_reachable Hb Ea. destruct (step_free s p a Hcl I Ea) as (s' & E & Ha & Hbl & S). exists s'. split_and!; [done|done| |].
  - intros x Hx Hex. pose proof (alloc_apart _ _ _ _ p a x I Ea Hx) as (_ & _ & Hno).
    destruct (alloc_facts _ _ _ _ _ _ I Ea) as [Hr _]. pose proof (ai_base _ (ii_allocs _ _ _ _ I) p a Ea).
    destruct Hex as [(q & b & Hq & Hx')|(q & a' & Hq & Hx')].
    + rewrite Hbl in Hq. destruct (block_facts _ _ _ _ _ _ I Hq) as (Bk & _). pose proof (bk_base _ _ Bk). pose proof (alloc_not_block _ _ _ _ _ _ I Ea).
      destruct (ranges_apart _ _ _ _ (Some p) (Some q) _ _ _ _ I ltac:(congruence) Hr (block_range _ _ _ Hq)); lia.
    + rewrite Ha in Hq. apply lookup_delete_Some in Hq as [Hne Hq]. by apply (Hno q a' Hq).
  - intros os s'' Hs. destruct S as [I' U _ _ Hp]. destruct (alloc_facts _ _ _ _ _ _ I Ea) as [_ Hpg].
    assert (Hcl' : client s' = cl) by (by rewrite (un_client _ _ U)).
    pose proof (steps_pages _ _ _ Hs Hcl' I' ltac:(by rewrite (un_boundary _ _ U))) as Hsub. by apply (lookup_weaken (page_allocs s') _ _ _ (lookup_weaken _ _ _ _ Hpg (Hp Hb))).
Qed.

(** ** Without bouncing *)

(** The driver as its entry point leaves it when bouncing is off, but for the
    mappings made since. *)
Record direct_ok (s : iommu) : Prop := {
  do_mode : IoMmuIsBounceActive s = false;
  do_geometry : mSharedGpaBoundary s = 0 /\ mCanonicalizationMask s = 0;
  do_client : client s = cl;
  do_maps : forall m, is_Some (maps s !! m) -> m ∈ pool s;
  do_pages : forall b k, page_allocs s !! b = Some k -> 0 < k
}.

Lemma direct_physical s x : mSharedGpaBoundary s = 0 -> mCanonicalizationMask s = 0 -> physical s x = x.
Proof. intros Hb Hm. unfold physical. by rewrite Hb, Hm, Z.lnot_0, Z.land_m1_r. Qed.


(** The pages taken for a 32-bit device. *)
Lemma direct_pages s k : direct_ok s ->
  (exists st, EFI_ERROR st = true /\ AllocatePages AllocateMaxAddress (SIZE_4GB - 1) k s = Ok ((st, SIZE_4GB - 1), next_tick s)) \/
  (exists st d, EFI_ERROR st = false /\
    AllocatePages AllocateMaxAddress (SIZE_4GB - 1) k s = Ok ((st, d), set_page_allocs (<[d := k]> (page_allocs s)) (next_tick s)) /\
    0 < d /\ d mod 4096 = 0 /\ d + 4096 * k <= 2 ^ 32 /\ page_allocs s !! d = None /\
    forall b j, cl !! b = Some j -> b + j <= d \/ d + 4096 * k <= b).
Proof.
  intros D. unfold AllocatePages. destruct (AllocatePages_answer (tick s) (page_allocs s) AllocateMaxAddress (SIZE_4GB - 1) k) as [st d] eqn:Ea.
  destruct (EFI_ERROR st) eqn:Est; [left; by exists st|right]. destruct (po_pages _ _ _ _ _ _ _ Ea Est) as (H1 & H2 & H3 & _ & H5 & H6 & H7).
  specialize (H5 eq_refl). unfold SIZE_4GB in H5. exists st, d. split_and!; try done; try lia.
  destruct (page_allocs s !! d) as [j|] eqn:Ej; [|done]. pose proof (do_pages _ D _ _ Ej). destruct (H6 _ _ Ej); lia.
Qed.

(** Nothing is left of a mapping. *)
Definition given_back (s s' : iommu) : Prop := page_allocs s' = page_allocs s /\ pool s' = pool s /\ maps s' = maps s.

(** The transfer of a mapping at [d]: what devices leave in its pages reaches
    the caller, if they are to write, and everything is given back. *)
Definition direct_unmaps (s s1 : iommu) (op : EDKII_IOMMU_OPERATION) (a n m d : Z) : Prop :=
  forall r, (forall x, x < d \/ d + 4096 * ((n + 4095) / 4096) <= x -> r x = ram s1 x) ->
  exists s2, IoMmuUnmap m (set_ram r s1) = Ok (EFI_SUCCESS, s2) /\ given_back s s2 /\
    forall x, caller_byte s x -> ram s2 x = if is_write op && within a n x then r (d + (x - a)) else ram s x.

Lemma direct_unmap s s1 op a n m d k : direct_ok s -> is_common op = false -> buffer_ok cl a n -> 0 < n -> k = (n + 4095) / 4096 ->
  0 < d -> d + 4096 * k <= 2 ^ 32 -> page_allocs s !! d = None -> maps s !! m = None -> m <> 0 -> m ∉ pool s ->
  (forall b j, cl !! b = Some j -> b + j <= d \/ d + 4096 * k <= b) ->
  mSharedGpaBoundary s1 = 0 -> mCanonicalizationMask s1 = 0 -> client s1 = cl -> page_allocs s1 = <[d := k]> (page_allocs s) -> pool s1 = {[m]} ∪ pool s ->
  maps s1 = <[m := mkMap IOMMU_MAP_CONTEXT_SIGNATURE op a n d (u32 k) 0 0]> (maps s) -> (forall x, caller_byte s x -> ram s1 x = ram s x) -> 0 < k ->
  direct_unmaps s s1 op a n m d.
Proof.
  intros D Ho Hbuf Hn -> Hd0 Hlow Hd Hm Hm0 Hmp Hc Hb1 Hk1 Hcl1 Hp1 Hpool1 Hm1 Hr1 Hkp r Hr. set (k := (n + 4095) / 4096) in *. set (s1r := set_ram r s1).
  unfold IoMmuUnmap. destruct (Z.eqb_spec m 0); [done|]. set (c := mkMap IOMMU_MAP_CONTEXT_SIGNATURE op a n d (u32 k) 0 0) in *.
  rewrite (ibind_Ok _ _ s1r c s1r) by (unfold get_map; cbn; by rewrite Hm1, lookup_insert_eq).
  rewrite (ibind_Ok _ _ s1r tt s1r) by (unfold ilift; cbn [mc_Signature c]; by rewrite Z.eqb_refl, ASSERT_true). cbn [BounceBlock c Z.eqb].
  set (f := fun x => if is_write op && within a n x then r (d + (x - a)) else r x).
  assert (Hcopy : exists f', (if is_write (Operation c) then IoMmu.CopyMem (HostAddress c) (BounceBase c) (NumberOfBytes c) else mret tt) s1r = Ok (tt, set_ram f' s1r) /\ forall x, f' x = f x).
  { cbn [Operation HostAddress BounceBase NumberOfBytes c]. unfold f. destruct (is_write op); cbn [andb]; [|by exists r].
    eexists. split; [|reflexivity]. apply run_copy; [by apply direct_physical|by apply direct_physical|by apply client_accessible; cbn; rewrite Hcl1|].
    apply (page_accessible _ d k); [cbn; rewrite Hp1; apply lookup_insert_eq|lia|unfold k; zlia]. }
  destruct Hcopy as (f' & Ef & Hf). rewrite (ibind_Ok _ _ _ _ _ Ef). set (s2 := set_ram f' s1r).
  cbn [BounceBase BouncePageCount c]. rewrite (u32_small k) by lia.
  rewrite (ibind_Ok _ _ s2 EFI_SUCCESS (set_page_allocs (page_allocs s) s2)).
  2:{ unfold FreePages. cbn [page_allocs s2 set_ram s1r]. rewrite Hp1, decide_True by apply lookup_insert_eq. by rewrite delete_insert_id. }
  set (s3 := set_page_allocs _ s2). rewrite (ibind_Ok _ _ s3 tt (set_maps (maps s) (set_pool (pool s) s3))).
  2:{ assert (Hpd : ({[m]} ∪ pool s) ∖ {[m]} = pool s) by set_solver. unfold free_map, FreePool, mbind, I_bind.
      cbn [pool s3 s2 s1r set_page_allocs set_ram]. rewrite Hpool1, decide_True by set_solver. unfold imod. cbn [maps set_pool s3 s2 s1r set_page_allocs set_ram].
      by rewrite Hm1, delete_insert_id, Hpd by done. }
  eexists. split; [reflexivity|]. split; [done|]. intros x Hx. cbn [ram set_maps set_pool s3 s2 set_page_allocs set_ram]. rewrite Hf. unfold f.
  destruct (is_write op && within a n x); [done|]. rewrite Hr; [by apply Hr1|]. destruct Hx as (b & j & Hbj & Hx). rewrite (do_client _ D) in Hbj.
  destruct (Hc b j Hbj); lia.
Qed.

(** Without bouncing, a buffer that a 32-bit device cannot reach is copied
    below 4GB: mapping returns, on an error with everything given back and zero
    bytes mapped; on success the device reads the caller's bytes, and after
    whatever it wrote in the mapped pages, unmapping stores exactly those bytes
    in the caller's buffer if the device was to write, changes no other byte of
    a caller and gives everything back.  Any other buffer is mapped as it is. *)
Lemma iommu_direct_transfer s op a n : direct_ok s -> buffer_ok cl a n -> 0 < n -> a + n < 2 ^ 64 ->
  exists r s1, IoMmuMap op a n s = Ok (r, s1) /\
    if negb (is_common op) && negb (is_wide op) && (SIZE_4GB <? a + n) then
      (forall x, caller_byte s x -> ram s1 x = ram s x) /\
      if EFI_ERROR (mr_status r) then mr_bytes r = 0 /\ mr_mapping r = None /\ given_back s s1
      else exists m d, mr_mapping r = Some m /\ mr_device r = Some d /\ mr_bytes r = n /\ d mod 4096 = 0 /\ d + n <= 2 ^ 32 /\
        (is_read op = true -> forall i, 0 <= i < n -> ram s1 (d + i) = ram s (a + i)) /\ direct_unmaps s s1 op a n m d
    else s1 = s /\ r = mkMapResult EFI_SUCCESS n (Some a) (Some 0).
Proof.
  intros D Hbuf Hn Hmax. pose proof D as [Hmode [Hb0 Hk0] Hcl Hmaps Hpages]. unfold IoMmuMap. rewrite (ibind_Ok _ _ s false s) by (unfold iget; by rewrite Hmode). cbn [negb].
  unfold map_direct. assert (Hsum : u64 (a + n) = a + n).
  { destruct Hbuf as (b & k & Hbk & H1 & H2). destruct (po_client b k Hbk) as (H3 & H4 & H5). unfold u64. apply Z.mod_small.
    lia. }
  rewrite Hsum. destruct (negb (is_common op) && negb (is_wide op) && (SIZE_4GB <? a + n)) eqn:Econd; [|by eexists _, s].
  rewrite !andb_true_iff, negb_true_iff in Econd. destruct Econd as [[Ho _] _]. rewrite size_to_pages by lia. set (k := (n + 4095) / 4096).
  assert (Hk : 0 < k /\ n <= 4096 * k) by (unfold k; split; zlia).
  destruct (direct_pages s k D) as [(st & Est & E)|(st & d & Est & E & Hd0 & Hal & Hlow & Hd & Hc)]; rewrite (ibind_Ok _ _ _ _ _ E), Est.
  { eexists _, _. split; [reflexivity|]. split; [done|]. cbn [mr_status]. by rewrite Est. }
  set (s1 := set_page_allocs _ _). set (f := fun x => if is_read op && within d n x then ram s (a + (x - d)) else ram s x).
  assert (Hcopy : exists f', (if is_read op then IoMmu.CopyMem d a n else mret tt) s1 = Ok (tt, set_ram f' s1) /\ forall x, f' x = f x).
  { unfold f. destruct (is_read op); cbn [andb]; [|exists (ram s); split; [by destruct s|done]].
    exists (fun x => if within d n x then ram s1 (a + (x - d)) else ram s1 x). split; [|done].
    apply run_copy; [by apply direct_physical|by apply direct_physical| |by apply client_accessible; cbn; rewrite Hcl].
    apply (page_accessible _ d k); [apply lookup_insert_eq|lia|lia]. }
  destruct Hcopy as (f' & Ef & Hf). rewrite (ibind_Ok _ _ _ _ _ Ef). set (s2 := set_ram f' s1).
  assert (Hcall : forall x, caller_byte s x -> f' x = ram s x).
  { intros x (b & j & Hbj & Hx). rewrite Hf. unfold f. rewrite Hcl in Hbj. destruct (within d n x) eqn:Ew; [|by rewrite andb_false_r].
    apply within_iff in Ew. destruct (Hc b j Hbj); lia. }
  pose proof (po_pool (tick s2) (pool s2) sizeof_IOMMU_MAP_CONTEXT) as Hfresh. set (m := AllocatePool_answer _ _ _) in Hfresh.
  rewrite (ibind_Ok _ _ s2 m (if m =? 0 then next_tick s2 else set_pool ({[m]} ∪ pool s2) (next_tick s2))).
  2:{ unfold AllocatePool. fold m. destruct (Z.eqb_spec m 0) as [->|]; done. }
  destruct (Z.eqb_spec m 0) as [Em|Hm0].
  - rewrite (ibind_Ok _ _ _ EFI_SUCCESS (set_page_allocs (page_allocs s) (next_tick s2))).
    2:{ unfold FreePages. cbn [page_allocs s2 set_ram s1 set_page_allocs next_tick]. rewrite decide_True by apply lookup_insert_eq. by rewrite delete_insert_id. }
    eexists _, _. split; [reflexivity|]. by split_and!.
  - specialize (Hfresh Hm0). erewrite ibind_Ok by reflexivity. eexists _, _. split; [reflexivity|]. split; [done|]. exists m, d. split_and!; try done; [lia| |].
    + intros Hrd i Hi. cbn [ram set_maps set_pool next_tick s2 set_ram]. rewrite Hf. unfold f. rewrite Hrd.
      assert (within d n (d + i) = true) as -> by (apply within_iff; lia). cbn [andb]. f_equal. lia.
    + assert (Hmm : maps s !! m = None) by (apply eq_None_not_Some; intros Hs; by apply Hfresh, Hmaps).
      apply (direct_unmap s _ op a n m d k); try done; lia.
Qed.
End Props.
