(* ===== verification/IoMmuConcrete.v ===== *)
(** A concrete platform for the IOMMU driver, and witnesses of its properties: an
    isolated guest with one caller's buffer above 4GB. *)
From stdpp Require Import base list numbers list_numbers option gmap fin_map_dom.
From Stdlib Require Import ZArith Lia.
From S2P Require Import Prelude Circular PkRing EmclPacket Heap IoMmu IoMmuBitmap IoMmuInv IoMmuPool IoMmuOps IoMmuBuffer IoMmuProps.
Open Scope Z_scope.
Import PkRing EmclPacket IoMmu.

(** Allocators that hand out a new address each time, if it is free. *)
Definition next_pool (t : nat) (live : gset Z) (n : Z) : Z :=
  let c := 4096 + 64 * Z.of_nat t in if decide (c ∈ live) then 0 else c.
Definition pages_fit (live : gmap Z Z) (max p n : Z) : Prop :=
  0 < n /\ p + 4096 * n <= max + 1 /\ p + 4096 * n <= 2 ^ 32 /\ map_Forall (fun b k => b + 4096 * k <= p \/ p + 4096 * n <= b) live.
Definition next_pages (t : nat) (live : gmap Z Z) (ty : EFI_ALLOCATE_TYPE) (max n : Z) : EFI_STATUS * Z :=
  let p := 2 ^ 24 * (1 + Z.of_nat t) in if decide (pages_fit live max p n) then (EFI_SUCCESS, p) else (EFI_OUT_OF_RESOURCES, 0).
Definition next_handle (t : nat) (live : gmap Z (Z * Z)) (base n : Z) : EFI_STATUS * Z :=
  let h := 1 + Z.of_nat t in if decide (live !! h = None) then (EFI_SUCCESS, h) else (EFI_OUT_OF_RESOURCES, 0).

(** With [isolated], the pages are shared with the host through an alias;
    otherwise buffers are used as they are. *)
Definition guest (isolated : bool) : Platform := {|
  AllocatePool_answer := next_pool; AllocatePages_answer := next_pages; MakeVisible_answer := next_handle;
  revealed := fun _ _ => 165; Pin_answer := fun _ _ _ => (EFI_SUCCESS, true);
  LocateHvIvm_answer := EFI_SUCCESS; Install_answer := EFI_SUCCESS; IsIsolated := isolated; PcdDmaPinningRequired := false; PcdForceDmaBounceEnabled := false;
  PcdIsolationSharedGpaBoundary := if isolated then 2 ^ 46 else 0;
  PcdIsolationSharedGpaCanonicalizationBitmask := if isolated then 2 ^ 64 - 2 ^ 47 else 0 |}.

(** The caller's memory, 8KB at 8GB. *)
Definition caller : gmap Z Z := {[ 2 ^ 33 := 8192 ]}.

Lemma guest_ok isolated : platform_ok (PL := guest isolated) caller.
Proof.
  assert (Htop : memory_top (if isolated then 2 ^ 46 else 0) >= 2 ^ 46) by (by destruct isolated). split; cbn.
  - destruct isolated; [right; exists 46; split_and!; try done; lia|by left].
  - unfold caller. intros b k [<- <-]%lookup_singleton_Some. split_and!; lia.
  - intros t live n. unfold next_pool. by case_decide.
  - intros t live ty a n st p. unfold next_pages. case_decide as Hf; intros [= <- <-]; [|done]. intros _. destruct Hf as (H1 & H2 & H3 & H4).
    split_and!; [done|lia| |lia|done|by apply H4|].
    + replace (2 ^ 24 * (1 + Z.of_nat t)) with (4096 * (1 + Z.of_nat t) * 4096) by lia. apply Z.mod_mul. lia.
    + unfold caller. intros b k [<- <-]%lookup_singleton_Some. right. lia.
  - intros t live b n st h. unfold next_handle. by case_decide; intros [= <- <-].
Qed.

#[local] Existing Instance debug_build.
#[local] Existing Instance guest_ok.
#[local] Instance isolated_guest : Platform := guest true.

(** Memory at the start, and the states of a session. *)
Definition start_ram (x : Z) : Z := x mod 256.
Definition booted : iommu := match IoMmuDxeEntryPoint (unloaded (cl := caller) start_ram) with Ok (_, s) => s | Fault _ => unloaded (cl := caller) start_ram end.
Definition after (o : io_op) (s : iommu) : iommu := match exec o s with Ok (_, s') => s' | Fault _ => s end.
Definition returns (o : io_op) (s : iommu) : bool := match exec o s with Ok _ => true | Fault _ => false end.

Lemma exec_after o s : returns o s = true -> exec o s = Ok (tt, after o s).
Proof. unfold returns, after. by destruct (exec o s) as [[[] s']|]. Qed.

Lemma returns_fault o s f : exec o s = Fault f -> returns o s = false.
Proof. intros E. unfold returns. by rewrite E. Qed.

(** A device writes two bytes into a mapping of five; meanwhile a buffer is
    allocated and another buffer mapped for a device to read. *)
Definition session : list io_op := [
  DoMap BusMasterWrite (2 ^ 33 + 100) 5;
  DeviceWrite (2 ^ 46 + 50331648 + 1) 7;
  DoAllocate 1 AllocateAnyPages 3 1 0;
  DoMap BusMasterRead64 (2 ^ 33 + 4000) 200;
  DeviceWrite (2 ^ 46 + 50331648 + 3) 9].
Definition session_at (n : nat) : iommu := foldl (fun s o => after o s) booted (take n session).

Lemma caller_buffer a n : 2 ^ 33 <= a -> a + n <= 2 ^ 33 + 8192 -> buffer_ok caller a n.
Proof. intros H1 H2. exists (2 ^ 33), 8192. split; [apply lookup_singleton_eq|lia]. Qed.

Lemma session_caller n : (n <= 5)%nat -> client (session_at n) = caller.
Proof. intros Hn. do 6 (destruct n as [|n]; [vm_compute; reflexivity|]). lia. Qed.

Lemma session_step n o : session !! n = Some o -> admissible (session_at n) o /\ returns o (session_at n) = true.
Proof.
  intros Hn. assert (Hb : forall k x, (k <= 5)%nat -> 50331648 <= x < 50331648 + 4096 -> exposed (session_at k) x).
  { intros k x Hk Hx. left. exists 4096. do 6 (destruct k as [|k]; [eexists; split; [vm_compute; reflexivity|cbn; lia]|]). lia. }
  destruct n as [|[|[|[|[|n]]]]]; cbn in Hn; [injection Hn as <-; (split; [|vm_compute; reflexivity]); cbn [admissible]..|done].
  - split; [lia|]. intros _. rewrite session_caller by lia. apply caller_buffer; lia.
  - apply (Hb 1%nat); [lia|]. assert (mSharedGpaBoundary (session_at 1) = 2 ^ 46) as -> by (vm_compute; reflexivity). lia.
  - lia.
  - split; [lia|]. intros _. rewrite session_caller by lia. apply caller_buffer; lia.
  - apply (Hb 4%nat); [lia|]. assert (mSharedGpaBoundary (session_at 4) = 2 ^ 46) as -> by (vm_compute; reflexivity). lia.
Qed.

Lemma session_steps_at n o : session !! n = Some o -> session_at (S n) = after o (session_at n).
Proof. intros Ho. unfold session_at. rewrite (take_S_r _ _ _ Ho), foldl_app. done. Qed.

Lemma session_steps n k : (n + k <= 5)%nat -> steps (session_at n) (take k (drop n session)) (session_at (n + k)).
Proof.
  revert n. induction k as [|k IH]; intros n Hk; [rewrite Nat.add_0_r; apply steps_nil|].
  destruct (lookup_lt_is_Some_2 session n) as [o Ho]; [cbn; lia|]. rewrite (drop_S _ _ _ Ho). cbn [take].
  destruct (session_step n o Ho) as [Ha Hr]. pose proof (session_steps_at n o Ho) as Hnext.
  eapply steps_cons; [done|by apply exec_after|]. rewrite <- Hnext, <- Nat.add_succ_comm. apply IH. lia.
Qed.

Lemma foldl_start {A R} (f : R -> A -> R) (x : R) (l : list A) : foldl f x (take 0 l) = x.
Proof. by destruct l. Qed.
Lemma session_0 : session_at 0 = booted.
Proof. apply foldl_start. Qed.

Lemma session_reachable n : (n <= 5)%nat -> reachable (cl := caller) (session_at n).
Proof.
  intros Hn. exists start_ram, EFI_SUCCESS, booted, (take n session). split_and!; [done| |done|].
  - assert (Hst : match IoMmuDxeEntryPoint (unloaded (cl := caller) start_ram) with Ok (EFI_SUCCESS, _) => true | _ => false end = true) by (vm_compute; reflexivity).
    unfold booted. destruct (IoMmuDxeEntryPoint (unloaded start_ram)) as [[[] s]|]; done.
  - pose proof (session_steps 0 n ltac:(lia)) as Hs. by rewrite drop_0, Nat.add_0_l, session_0 in Hs.
Qed.

(** ** Witnesses *)
Lemma session_byte n x : (n <= 5)%nat -> 2 ^ 33 <= x < 2 ^ 33 + 8192 -> caller_byte (session_at n) x.
Proof. intros Hn Hx. exists (2 ^ 33), 8192. rewrite session_caller by done. split; [apply lookup_singleton_eq|lia]. Qed.

(** Ending the first mapping stores the byte the device wrote, and leaves the
    byte before the buffer alone. *)
Lemma iommu_protects_callers_witness : exists s', exec (DoUnmap 4352) (session_at 5) = Ok (tt, s') /\
  ram s' (2 ^ 33 + 101) = 7 /\ ram s' (2 ^ 33 + 99) = 99.
Proof.
  destruct (iommu_protects_callers (session_at 5) (DoUnmap 4352)) as [(s' & E & H)|[E _]].
  - apply session_reachable. lia.
  - right. eexists. vm_compute. reflexivity.
  - exists s'. split; [exact E|]. split; rewrite H by (apply session_byte; lia); vm_compute; reflexivity.
  - exfalso. assert (Hr : returns (DoUnmap 4352) (session_at 5) = true) by (vm_compute; reflexivity). rewrite (returns_fault _ _ _ E) in Hr. discriminate.
Defined.

Lemma iommu_pages_accounted_witness : accounted (session_at 5) /\ (InUsePageCount <$> blocks (session_at 5) !! 4096) = Some 2.
Proof. split; [apply iommu_pages_accounted, session_reachable; lia|vm_compute; reflexivity]. Defined.

Definition answer {PL : Platform} (op : EDKII_IOMMU_OPERATION) (a n : Z) (s : iommu) : map_result :=
  match IoMmuMap op a n s with Ok (r, _) => r | Fault _ => mkMapResult EFI_SUCCESS 0 None None end.
Lemma map_after op a n s : returns (DoMap op a n) s = true -> IoMmuMap op a n s = Ok (answer op a n s, after (DoMap op a n) s).
Proof. unfold returns, answer, after. cbn [exec]. unfold mbind, I_bind. by destruct (IoMmuMap op a n s) as [[r s']|]. Qed.

Lemma answer_is {PL : Platform} op a n s r s' : IoMmuMap op a n s = Ok (r, s') -> answer op a n s = r.
Proof. intros E. unfold answer. by rewrite E. Qed.

(** The second mapping of the session, 200 bytes for a device to read. *)
Lemma iommu_map_exposes_buffer_witness : exists r s', IoMmuMap BusMasterRead64 (2 ^ 33 + 4000) 200 (session_at 3) = Ok (r, s') /\
  mapped (session_at 3) s' BusMasterRead64 (2 ^ 33 + 4000) 200 r.
Proof.
  destruct (iommu_map_exposes_buffer (session_at 3) BusMasterRead64 (2 ^ 33 + 4000) 200) as (r & s' & E & _ & _ & H).
  - apply session_reachable. lia.
  - apply (session_step 3). reflexivity.
  - reflexivity.
  - exists r, s'. split; [exact E|]. assert (Hr : EFI_ERROR (mr_status (answer BusMasterRead64 (2 ^ 33 + 4000) 200 (session_at 3))) = false) by (vm_compute; reflexivity).
    rewrite (answer_is _ _ _ _ _ _ E) in Hr. rewrite Hr in H. exact H.
Defined.

(** The first mapping, from start to end: the five bytes the caller receives. *)
Lemma iommu_transfer_witness : exists s3, IoMmuUnmap 4352 (session_at 5) = Ok (EFI_SUCCESS, s3) /\
  map (fun i => ram s3 (2 ^ 33 + 100 + i)) [0; 1; 2; 3; 4] = [0; 7; 0; 9; 0].
Proof.
  pose proof (session_step 0 (DoMap BusMasterWrite (2 ^ 33 + 100) 5) eq_refl) as [Ha Hr].
  assert (Hm : mr_mapping (answer BusMasterWrite (2 ^ 33 + 100) 5 (session_at 0)) = Some 4352) by (vm_compute; reflexivity).
  assert (Hd : mr_device (answer BusMasterWrite (2 ^ 33 + 100) 5 (session_at 0)) = Some (2 ^ 46 + 50331648)) by (vm_compute; reflexivity).
  destruct (iommu_transfer (session_at 0) BusMasterWrite (2 ^ 33 + 100) 5 _ _ (take 4 (drop 1 session)) (session_at 5)
    ltac:(apply session_reachable; lia) eq_refl Ha (map_after _ _ _ _ Hr)) as (m & d & s3 & Em & Ed & E & _ & _ & H & _).
  - vm_compute. reflexivity.
  - rewrite <- (session_steps_at 0 _ eq_refl). apply (session_steps 1 4). lia.
  - intros m Hm' Hin. rewrite Hm in Hm'. injection Hm' as <-. vm_compute in Hin. repeat (apply elem_of_cons in Hin as [Hin|Hin]; [discriminate|]). by apply elem_of_nil in Hin.
  - rewrite Hm in Em. rewrite Hd in Ed. injection Em as <-. injection Ed as <-. exists s3. split; [exact E|]. cbn [map].
    rewrite !H by lia. vm_compute. reflexivity.
Defined.

(** The buffer of the session is freed, and its three pages stay allocated. *)
Lemma iommu_free_leaks_witness : exists s', IoMmuFreeBuffer 3 (2 ^ 64 - 2 ^ 46 + 100663296) (session_at 5) = Ok (EFI_SUCCESS, s') /\
  page_allocs s' !! 100663296 = Some 3.
Proof.
  destruct (allocs (session_at 5) !! 4544) as [a|] eqn:Ea; [|exfalso; revert Ea; vm_compute; discriminate].
  assert (Hb : mSharedGpaBoundary (session_at 5) <> 0) by (vm_compute; discriminate).
  destruct (iommu_free_leaks (session_at 5) 4544 a ltac:(apply session_reachable; lia) Hb Ea) as (s' & E & _ & _ & H).
  assert (Hp : (fun a => (Pages a, IoMmuGetSharedVa (session_at 5) (OriginalAddress a), OriginalAddress a)) <$> allocs (session_at 5) !! 4544 = Some (3, 2 ^ 64 - 2 ^ 46 + 100663296, 100663296)) by (vm_compute; reflexivity).
  rewrite Ea in Hp. injection Hp as Hp1 Hp2 Hp3. rewrite Hp1, Hp2 in E. exists s'. split; [exact E|]. rewrite <- Hp1, <- Hp3. apply (H [] s'). apply steps_nil.
Defined.

(** A guest that does not bounce, with the caller's buffer above 4GB. *)
Definition plain : iommu := set_mode 0 false (unloaded (cl := caller) start_ram).
Lemma plain_ok : direct_ok (cl := caller) plain.
Proof. split; try done. intros m [x Hx]. cbn in Hx. by rewrite lookup_empty in Hx. Qed.

(** The device fills the page of a 5-byte mapping, and the caller receives the
    first five bytes of it, none of its neighbours changed. *)
Lemma iommu_direct_transfer_witness : exists r s1 s2, IoMmuMap (PL := guest false) BusMasterWrite (2 ^ 33 + 100) 5 plain = Ok (r, s1) /\
  r = mkMapResult EFI_SUCCESS 5 (Some 16777216) (Some 4160) /\
  IoMmuUnmap 4160 (set_ram (fun x => if within 16777216 4096 x then x - 16777215 else ram s1 x) s1) = Ok (EFI_SUCCESS, s2) /\
  map (fun i => ram s2 (2 ^ 33 + 100 + i)) [-1; 0; 1; 2; 3; 4; 5] = [99; 1; 2; 3; 4; 5; 105].
Proof.
  destruct (iommu_direct_transfer (PL := guest false) plain BusMasterWrite (2 ^ 33 + 100) 5 plain_ok) as (r & s1 & E & H).
  - apply caller_buffer; lia.
  - lia.
  - lia.
  - change (negb (is_common BusMasterWrite) && negb (is_wide BusMasterWrite) && (SIZE_4GB <? 2 ^ 33 + 100 + 5)) with true in H. cbv iota in H. destruct H as [_ H].
    assert (Hr : answer (PL := guest false) BusMasterWrite (2 ^ 33 + 100) 5 plain = mkMapResult EFI_SUCCESS 5 (Some 16777216) (Some 4160)) by (vm_compute; reflexivity).
    rewrite (answer_is _ _ _ _ _ _ E) in Hr. subst r. cbn [mr_status mr_mapping mr_device EFI_ERROR] in H. destruct H as (m & d & [= <-] & [= <-] & _ & _ & _ & _ & H).
    destruct (H (fun x => if within 16777216 4096 x then x - 16777215 else ram s1 x)) as (s2 & E2 & _ & H2).
    { intros x Hx. assert (within 16777216 4096 x = false) as -> by (apply within_not; exact Hx). reflexivity. }
    eexists _, s1, s2. split; [exact E|]. split; [reflexivity|]. split; [exact E2|]. cbn [map].
    rewrite !H2 by (exists (2 ^ 33), 8192; split; [apply lookup_singleton_eq|lia]). vm_compute. reflexivity.
Defined.
