(* ===== verification/Vmbus.v ===== *)
(** VMBus: [MsvmPkg/VmbusDxe/VmbusRoot.c] and [VmbusChannel.c].  The root device
    negotiates with the host, turns the channels it offers into contexts with a
    protocol each, and routes the host's messages and interrupts; a channel
    describes memory to the host (GPADLs), and is opened and closed.

    The state [vmbus] holds the root context, the channel contexts, GPADLs and
    queued hot-add messages by address, the pool, the events that exist and that
    are signalled, the message slot and the flag pages of the synthetic interrupt,
    and what was sent.  Interrupts are taken while an operation waits for the
    host, and between operations ([take_interrupt]); the host may rewrite the
    message page between any two accesses ([refetch]). *)
From stdpp Require Import base list numbers list_numbers option gmap.
From Stdlib Require Import ZArith Lia.
From S2P Require Import Prelude Circular PkRing EmclPacket.
Open Scope Z_scope.

Module Vmbus.
Import PkRing EmclPacket.

(** ** Messages *)
Definition MAXIMUM_SYNIC_MESSAGE_BYTES : Z := 240.
Definition VMBUS_MESSAGE_TYPE : Z := 1.
Definition VMBUS_MAX_GPADLS : Z := 256.
Definition VMBUS_MAX_CHANNELS : Z := 2048.
Definition VMBUS_MAKE_VERSION (Major Minor : Z) : Z := Z.lor (Z.shiftl Major 16) Minor.
Definition VMBUS_VERSION_WIN8_1 : Z := VMBUS_MAKE_VERSION 3 0.
Definition VMBUS_VERSION_COPPER : Z := VMBUS_MAKE_VERSION 6 0.
Definition VMBUS_FEATURE_FLAG_CLIENT_ID : Z := 8.
Definition VMBUS_FEATURE_FLAG_CONFIDENTIAL_CHANNELS : Z := 16.
Definition VMBUS_SUPPORTED_FEATURE_FLAGS : Z := VMBUS_FEATURE_FLAG_CLIENT_ID.
Definition VMBUS_SUPPORTED_FEATURE_FLAGS_PARAVISOR : Z := VMBUS_FEATURE_FLAG_CONFIDENTIAL_CHANNELS.

Definition ChannelMessageOfferChannel : Z := 1.
Definition ChannelMessageRescindChannelOffer : Z := 2.
Definition ChannelMessageRequestOffers : Z := 3.
Definition ChannelMessageAllOffersDelivered : Z := 4.
Definition ChannelMessageOpenChannel : Z := 5.
Definition ChannelMessageOpenChannelResult : Z := 6.
Definition ChannelMessageCloseChannel : Z := 7.
Definition ChannelMessageGpadlHeader : Z := 8.
Definition ChannelMessageGpadlBody : Z := 9.
Definition ChannelMessageGpadlCreated : Z := 10.
Definition ChannelMessageGpadlTeardown : Z := 11.
Definition ChannelMessageGpadlTorndown : Z := 12.
Definition ChannelMessageInitiateContact : Z := 14.
Definition ChannelMessageVersionResponse : Z := 15.
Definition ChannelMessageUnload : Z := 16.
Definition ChannelMessageUnloadComplete : Z := 17.

(** Sizes of the packed message structures, and the offsets of their fields. *)
Definition sizeof_HEADER : Z := 8.
Definition sizeof_OFFER : Z := 196.
Definition offer_InterfaceType : Z := 8.
Definition offer_InterfaceInstance : Z := 24.
Definition offer_Flags : Z := 56.
Definition offer_ChildRelId : Z := 184.
Definition offer_ConnectionId : Z := 192.
Definition sizeof_OPEN : Z := 156.
Definition open_ChildRelId : Z := 8.
Definition open_RingBufferGpadlHandle : Z := 16.
Definition open_TargetVp : Z := 20.
Definition open_DownstreamRingBufferPageOffset : Z := 24.
Definition sizeof_OPEN_RESULT : Z := 20.
Definition result_ChildRelId : Z := 8.
Definition result_Status : Z := 16.
Definition sizeof_CLOSE : Z := 12.
Definition close_ChildRelId : Z := 8.
Definition header_ChildRelId : Z := 8.
Definition header_Gpadl : Z := 12.
Definition header_RangeBufLen : Z := 16.
Definition header_RangeCount : Z := 18.
Definition header_Range : Z := 20.
Definition range_PfnArray : Z := 8.
Definition sizeof_GPA_RANGE : Z := 16.
Definition body_Gpadl : Z := 12.
Definition body_Pfn : Z := 16.
Definition sizeof_CREATED : Z := 20.
Definition created_ChildRelId : Z := 8.
Definition created_Gpadl : Z := 12.
Definition created_CreationStatus : Z := 16.
Definition sizeof_TEARDOWN : Z := 16.
Definition teardown_ChildRelId : Z := 8.
Definition teardown_Gpadl : Z := 12.
Definition sizeof_TORNDOWN : Z := 12.
Definition torndown_Gpadl : Z := 8.
Definition sizeof_CONTACT : Z := 56.
Definition VMBUS_CHANNEL_INITIATE_CONTACT_MIN_SIZE : Z := 40.
Definition contact_Version : Z := 8.
Definition contact_TargetMessageVp : Z := 12.
Definition contact_FeatureFlags : Z := 20.
Definition contact_ClientId : Z := 40.
Definition sizeof_VERSION_RESPONSE : Z := 20.
Definition VMBUS_CHANNEL_VERSION_RESPONSE_MIN_SIZE : Z := 16.
Definition version_VersionSupported : Z := 8.
Definition version_ConnectionState : Z := 9.
Definition version_SupportedFeatures : Z := 16.

Definition VMBUS_OFFER_FLAG_CONFIDENTIAL_RING_BUFFER : Z := 2.
Definition VMBUS_OFFER_FLAG_CONFIDENTIAL_EXTERNAL_MEMORY : Z := 4.
Definition VMBUS_OFFER_FLAG_NAMED_PIPE_MODE : Z := 16.
Definition EFI_VMBUS_PROTOCOL_FLAGS_PIPE_MODE : Z := 1.
Definition EFI_VMBUS_PROTOCOL_FLAGS_CONFIDENTIAL_EXTERNAL_MEMORY : Z := 2.
Definition EFI_VMBUS_PREPARE_GPADL_FLAG_ZERO_PAGES : Z := 1.
Definition EFI_VMBUS_PREPARE_GPADL_FLAG_RING_BUFFER : Z := 2.
Definition EFI_VMBUS_PREPARE_GPADL_FLAGS : Z := 3.

Record VMBUS_MESSAGE := mkMessage { Size : Z; Data : list Z }.
Record VMBUS_MESSAGE_RESPONSE := mkResponse { Event : Z; Message : VMBUS_MESSAGE }.
Record HV_MESSAGE := mkHv { MessageType : Z; PayloadSize : Z; Payload : list Z }.

(** [GUID]s are their 16 bytes. *)
Record VMBUS_CHANNEL_CONTEXT := mkChannel {
  Handle : Z; VmbusFlags : Z; LegacyFlags : Z; InterfaceType : list Z; InterfaceInstance : list Z;
  ChannelId : Z; ConnectionId : Z; Response : VMBUS_MESSAGE_RESPONSE; Interrupt : Z; ConfidentialRing : bool }.

Record EFI_VMBUS_GPADL := mkGpadl {
  AllocatedBuffer : Z; VisibleBufferPA : Z; BufferLength : Z; NumberOfPages : Z;
  GpadlHandle : Z; ProtectionHandle : Z; Legacy : bool }.

Record VMBUS_ROOT_CONTEXT := mkRoot {
  WaitForMessage : Z; ExitBootEvent : Z; HotAllocationEvent : Z; HotEvent : Z; HotMessageList : list Z;
  Confidential : bool; SintConnected : bool; ContactInitiated : bool; OffersDelivered : bool;
  GpadlTable : list VMBUS_MESSAGE_RESPONSE; Channels : list Z; MaxInterruptUsed : Z; FeatureFlags : Z }.

Definition set_WaitForMessage v r := mkRoot v (ExitBootEvent r) (HotAllocationEvent r) (HotEvent r) (HotMessageList r) (Confidential r) (SintConnected r) (ContactInitiated r) (OffersDelivered r) (GpadlTable r) (Channels r) (MaxInterruptUsed r) (FeatureFlags r).
Definition set_ExitBootEvent v r := mkRoot (WaitForMessage r) v (HotAllocationEvent r) (HotEvent r) (HotMessageList r) (Confidential r) (SintConnected r) (ContactInitiated r) (OffersDelivered r) (GpadlTable r) (Channels r) (MaxInterruptUsed r) (FeatureFlags r).
Definition set_HotAllocationEvent v r := mkRoot (WaitForMessage r) (ExitBootEvent r) v (HotEvent r) (HotMessageList r) (Confidential r) (SintConnected r) (ContactInitiated r) (OffersDelivered r) (GpadlTable r) (Channels r) (MaxInterruptUsed r) (FeatureFlags r).
Definition set_HotEvent v r := mkRoot (WaitForMessage r) (ExitBootEvent r) (HotAllocationEvent r) v (HotMessageList r) (Confidential r) (SintConnected r) (ContactInitiated r) (OffersDelivered r) (GpadlTable r) (Channels r) (MaxInterruptUsed r) (FeatureFlags r).
Definition set_HotMessageList v r := mkRoot (WaitForMessage r) (ExitBootEvent r) (HotAllocationEvent r) (HotEvent r) v (Confidential r) (SintConnected r) (ContactInitiated r) (OffersDelivered r) (GpadlTable r) (Channels r) (MaxInterruptUsed r) (FeatureFlags r).
Definition set_Confidential v r := mkRoot (WaitForMessage r) (ExitBootEvent r) (HotAllocationEvent r) (HotEvent r) (HotMessageList r) v (SintConnected r) (ContactInitiated r) (OffersDelivered r) (GpadlTable r) (Channels r) (MaxInterruptUsed r) (FeatureFlags r).
Definition set_SintConnected v r := mkRoot (WaitForMessage r) (ExitBootEvent r) (HotAllocationEvent r) (HotEvent r) (HotMessageList r) (Confidential r) v (ContactInitiated r) (OffersDelivered r) (GpadlTable r) (Channels r) (MaxInterruptUsed r) (FeatureFlags r).
Definition set_ContactInitiated v r := mkRoot (WaitForMessage r) (ExitBootEvent r) (HotAllocationEvent r) (HotEvent r) (HotMessageList r) (Confidential r) (SintConnected r) v (OffersDelivered r) (GpadlTable r) (Channels r) (MaxInterruptUsed r) (FeatureFlags r).
Definition set_OffersDelivered v r := mkRoot (WaitForMessage r) (ExitBootEvent r) (HotAllocationEvent r) (HotEvent r) (HotMessageList r) (Confidential r) (SintConnected r) (ContactInitiated r) v (GpadlTable r) (Channels r) (MaxInterruptUsed r) (FeatureFlags r).
Definition set_GpadlTable v r := mkRoot (WaitForMessage r) (ExitBootEvent r) (HotAllocationEvent r) (HotEvent r) (HotMessageList r) (Confidential r) (SintConnected r) (ContactInitiated r) (OffersDelivered r) v (Channels r) (MaxInterruptUsed r) (FeatureFlags r).
Definition set_Channels v r := mkRoot (WaitForMessage r) (ExitBootEvent r) (HotAllocationEvent r) (HotEvent r) (HotMessageList r) (Confidential r) (SintConnected r) (ContactInitiated r) (OffersDelivered r) (GpadlTable r) v (MaxInterruptUsed r) (FeatureFlags r).
Definition set_MaxInterruptUsed v r := mkRoot (WaitForMessage r) (ExitBootEvent r) (HotAllocationEvent r) (HotEvent r) (HotMessageList r) (Confidential r) (SintConnected r) (ContactInitiated r) (OffersDelivered r) (GpadlTable r) (Channels r) v (FeatureFlags r).
Definition set_FeatureFlags v r := mkRoot (WaitForMessage r) (ExitBootEvent r) (HotAllocationEvent r) (HotEvent r) (HotMessageList r) (Confidential r) (SintConnected r) (ContactInitiated r) (OffersDelivered r) (GpadlTable r) (Channels r) (MaxInterruptUsed r) v.

Definition set_Message m r := mkResponse (Event r) m.
Definition set_Handle v c := mkChannel v (VmbusFlags c) (LegacyFlags c) (InterfaceType c) (InterfaceInstance c) (ChannelId c) (ConnectionId c) (Response c) (Interrupt c) (ConfidentialRing c).
Definition set_Response v c := mkChannel (Handle c) (VmbusFlags c) (LegacyFlags c) (InterfaceType c) (InterfaceInstance c) (ChannelId c) (ConnectionId c) v (Interrupt c) (ConfidentialRing c).
Definition set_Interrupt v c := mkChannel (Handle c) (VmbusFlags c) (LegacyFlags c) (InterfaceType c) (InterfaceInstance c) (ChannelId c) (ConnectionId c) (Response c) v (ConfidentialRing c).
Definition set_GpadlHandle v g := mkGpadl (AllocatedBuffer g) (VisibleBufferPA g) (BufferLength g) (NumberOfPages g) v (ProtectionHandle g) (Legacy g).

(** ** The state and its surroundings *)
Record vmbus := mkVmbus {
  root : VMBUS_ROOT_CONTEXT; channels : gmap Z VMBUS_CHANNEL_CONTEXT; gpadls : gmap Z EFI_VMBUS_GPADL; hots : gmap Z VMBUS_MESSAGE;
  pool : gset Z; events : gset Z; signaled : gset Z; published : gset Z; visible : gmap Z (Z * Z); zeroed : list (Z * Z);
  slot : option HV_MESSAGE; host_flags : list Z; paravisor_flags : list Z;
  sent : list (list Z); interrupted : list Z; tick : nat }.

Definition set_root v s := mkVmbus v (channels s) (gpadls s) (hots s) (pool s) (events s) (signaled s) (published s) (visible s) (zeroed s) (slot s) (host_flags s) (paravisor_flags s) (sent s) (interrupted s) (tick s).
Definition set_channels v s := mkVmbus (root s) v (gpadls s) (hots s) (pool s) (events s) (signaled s) (published s) (visible s) (zeroed s) (slot s) (host_flags s) (paravisor_flags s) (sent s) (interrupted s) (tick s).
Definition set_gpadls v s := mkVmbus (root s) (channels s) v (hots s) (pool s) (events s) (signaled s) (published s) (visible s) (zeroed s) (slot s) (host_flags s) (paravisor_flags s) (sent s) (interrupted s) (tick s).
Definition set_hots v s := mkVmbus (root s) (channels s) (gpadls s) v (pool s) (events s) (signaled s) (published s) (visible s) (zeroed s) (slot s) (host_flags s) (paravisor_flags s) (sent s) (interrupted s) (tick s).
Definition set_pool v s := mkVmbus (root s) (channels s) (gpadls s) (hots s) v (events s) (signaled s) (published s) (visible s) (zeroed s) (slot s) (host_flags s) (paravisor_flags s) (sent s) (interrupted s) (tick s).
Definition set_events v w s := mkVmbus (root s) (channels s) (gpadls s) (hots s) (pool s) v w (published s) (visible s) (zeroed s) (slot s) (host_flags s) (paravisor_flags s) (sent s) (interrupted s) (tick s).
Definition set_published v s := mkVmbus (root s) (channels s) (gpadls s) (hots s) (pool s) (events s) (signaled s) v (visible s) (zeroed s) (slot s) (host_flags s) (paravisor_flags s) (sent s) (interrupted s) (tick s).
Definition set_visible v s := mkVmbus (root s) (channels s) (gpadls s) (hots s) (pool s) (events s) (signaled s) (published s) v (zeroed s) (slot s) (host_flags s) (paravisor_flags s) (sent s) (interrupted s) (tick s).
Definition set_zeroed v s := mkVmbus (root s) (channels s) (gpadls s) (hots s) (pool s) (events s) (signaled s) (published s) (visible s) v (slot s) (host_flags s) (paravisor_flags s) (sent s) (interrupted s) (tick s).
Definition set_slot v s := mkVmbus (root s) (channels s) (gpadls s) (hots s) (pool s) (events s) (signaled s) (published s) (visible s) (zeroed s) v (host_flags s) (paravisor_flags s) (sent s) (interrupted s) (tick s).
Definition set_flags v w s := mkVmbus (root s) (channels s) (gpadls s) (hots s) (pool s) (events s) (signaled s) (published s) (visible s) (zeroed s) (slot s) v w (sent s) (interrupted s) (tick s).
Definition set_sent v s := mkVmbus (root s) (channels s) (gpadls s) (hots s) (pool s) (events s) (signaled s) (published s) (visible s) (zeroed s) (slot s) (host_flags s) (paravisor_flags s) v (interrupted s) (tick s).
Definition set_interrupted v s := mkVmbus (root s) (channels s) (gpadls s) (hots s) (pool s) (events s) (signaled s) (published s) (visible s) (zeroed s) (slot s) (host_flags s) (paravisor_flags s) (sent s) v (tick s).
Definition next_tick s := mkVmbus (root s) (channels s) (gpadls s) (hots s) (pool s) (events s) (signaled s) (published s) (visible s) (zeroed s) (slot s) (host_flags s) (paravisor_flags s) (sent s) (interrupted s) (Datatypes.S (tick s)).

(** An interrupt: the flags it sets, and the message it brings if the slot is
    free. *)
Record hv_interrupt := mkInterrupt { in_flags : list Z; in_paravisor_flags : list Z; in_message : option HV_MESSAGE }.

(** The host, the hypervisor and the boot services, by time; [patience] bounds
    the interrupts an operation waits for. *)
Class Hypervisor := {
  host : nat -> hv_interrupt;
  refetch : nat -> HV_MESSAGE -> HV_MESSAGE;
  patience : nat;
  PostMessage_answer : nat -> EFI_STATUS;
  ConnectSint_answer : nat -> EFI_STATUS;
  CompleteSint_answer : nat -> EFI_STATUS;
  SignalHost_answer : nat -> EFI_STATUS;
  CurrentVpIndex : Z;
  AllocatePool_answer : nat -> gset Z -> Z -> Z;
  CreateEvent_answer : nat -> gset Z -> EFI_STATUS * Z;
  Install_answer : nat -> EFI_STATUS * Z;
  Uninstall_answer : nat -> EFI_STATUS;
  OpenProtocol_answer : nat -> EFI_STATUS;
  LocateProtocol_answer : nat -> EFI_STATUS;
  MakeVisible_answer : nat -> gmap Z (Z * Z) -> EFI_STATUS * Z;
  IsIsolated : bool;
  IsHardwareIsolated : bool;
  IsParavisorPresent : bool;
  PcdEnableIMCWhenIsolated : bool;
  mSharedGpaBoundary : Z;
  mCanonicalizationMask : Z;
  gMsvmVmbusClientGuid : list Z
}.

(** ** The monad *)
Definition V (A : Type) : Type := vmbus -> result (A * vmbus).
#[export] Instance V_ret : MRet V := fun A a s => Ok (a, s).
#[export] Instance V_bind : MBind V := fun A B k c s =>
  match c s with Ok (a, s') => k a s' | Fault f => Fault f end.
Definition vlift {A} (r : result A) : V A := fun s => match r with Ok a => Ok (a, s) | Fault f => Fault f end.
Definition vget {A} (f : vmbus -> A) : V A := fun s => Ok (f s, s).
Definition vmod (f : vmbus -> vmbus) : V unit := fun s => Ok (tt, f s).
Definition rget {A} (f : VMBUS_ROOT_CONTEXT -> A) : V A := fun s => Ok (f (root s), s).
Definition rmod (f : VMBUS_ROOT_CONTEXT -> VMBUS_ROOT_CONTEXT) : V unit := fun s => Ok (tt, set_root (f (root s)) s).
Definition FAIL_FAST_IF_FALSE (c : bool) : V unit := fun s => if c then Ok (tt, s) else Fault FailFast.
(** An answer of the surroundings at the present time. *)
Definition ask {A} (f : nat -> A) : V A := fun s => Ok (f (tick s), next_tick s).

Section Driver.
Context {B : BuildOptions} {HV : Hypervisor}.

(** ** Services *)
Definition AllocatePool (size : Z) : V Z := fun s =>
  let p := AllocatePool_answer (tick s) (pool s) size in
  let s := next_tick s in
  if p =? 0 then Ok (0, s) else Ok (p, set_pool ({[p]} ∪ pool s) s).
Definition FreePool (p : Z) : V unit := fun s =>
  if decide (p ∈ pool s) then Ok (tt, set_pool (pool s ∖ {[p]}) s) else Fault DoubleFree.
Definition CreateEvent : V (EFI_STATUS * Z) := fun s =>
  let '(status, e) := CreateEvent_answer (tick s) (events s) in
  let s := next_tick s in
  if EFI_ERROR status then Ok (status, 0, s) else Ok (status, e, set_events ({[e]} ∪ events s) (signaled s) s).
Definition CloseEvent (e : Z) : V unit := vmod (fun s => set_events (events s ∖ {[e]}) (signaled s ∖ {[e]}) s).
(** An address that is no event is refused. *)
Definition SignalEvent (e : Z) : V unit :=
  vmod (fun s => if decide (e ∈ events s) then set_events (events s) ({[e]} ∪ signaled s) s else s).
Definition consume (e : Z) : V bool := fun s =>
  if decide (e ∈ signaled s) then Ok (true, set_events (events s) (signaled s ∖ {[e]}) s) else Ok (false, s).

(** An entry of an array; the index is checked. *)
Definition entry {A} (l : list A) (i : Z) : result A :=
  if i <? 0 then Fault OutOfBounds else match l !! Z.to_nat i with Some a => Ok a | None => Fault OutOfBounds end.
Definition get_context (p : Z) : V VMBUS_CHANNEL_CONTEXT := fun s =>
  if p =? 0 then Fault NullDeref else match channels s !! p with Some c => Ok (c, s) | None => Fault UseAfterFree end.
Definition upd_context (p : Z) (f : VMBUS_CHANNEL_CONTEXT -> VMBUS_CHANNEL_CONTEXT) : V unit :=
  c ← get_context p; vmod (fun s => set_channels (<[p := f c]> (channels s)) s).
(** [RootContext->Channels[i]]. *)
Definition channel_at (i : Z) : V Z := l ← rget Channels; vlift (entry l i).
Definition gpadl_entry (i : Z) : V VMBUS_MESSAGE_RESPONSE := l ← rget GpadlTable; vlift (entry l i).
Definition set_gpadl_entry (i : Z) (r : VMBUS_MESSAGE_RESPONSE) : V unit :=
  _ ← gpadl_entry i; rmod (fun c => set_GpadlTable (<[Z.to_nat i := r]> (GpadlTable c)) c).

(** ** Sending *)
Definition VmbusRootInitializeMessage (Type_ Size_ : Z) : VMBUS_MESSAGE :=
  mkMessage Size_ (le_split 4 Type_ ++ replicate 236 0).
Definition put (n : nat) (off v : Z) (m : VMBUS_MESSAGE) : V VMBUS_MESSAGE :=
  d ← vlift (store n (Data m) off v); mret (mkMessage (Size m) d).
Definition field (n : nat) (off : Z) (m : VMBUS_MESSAGE) : V Z := vlift (load n (Data m) off).

Fixpoint post (n : nat) (m : VMBUS_MESSAGE) : V EFI_STATUS :=
  match n with
  | O => vlift (Fault Diverges)
  | Datatypes.S n =>
    status ← ask PostMessage_answer;
    bytes ← vlift (mem_read (Data m) 0 (Size m));
    if decide (status = EFI_NOT_READY) then post n m
    else if EFI_ERROR status then mret status
    else _ ← vmod (fun s => set_sent (sent s ++ [bytes]) s); mret status
  end.
Definition VmbusRootSendMessage (m : VMBUS_MESSAGE) : V EFI_STATUS := post patience m.

(** ** Interrupts *)

(** An access to the message page. *)
Definition fetch {A} (f : HV_MESSAGE -> A) : V A := fun s =>
  match slot s with
  | None => Fault NullDeref
  | Some m => let m := refetch (tick s) m in Ok (f m, next_tick (set_slot (Some m) s))
  end.
Definition fetch_field (n : nat) (off : Z) : V Z := r ← fetch (fun m => load n (Payload m) off); vlift r.
Definition CompleteSintMessage : V EFI_STATUS := _ ← vmod (set_slot None); ask CompleteSint_answer.

Definition BitScanForward64 (w : Z) : option Z := List.find (fun i => Z.testbit w i) (seqZ 0 64).

(** [InterlockedExchange64 (&flags[i], 0)]. *)
Definition exchange_flags (paravisor : bool) (i : Z) : V Z :=
  l ← vget (if paravisor then paravisor_flags else host_flags);
  w ← vlift (entry l i);
  let l := <[Z.to_nat i := 0]> l in
  _ ← vmod (fun s => if paravisor then set_flags (host_flags s) l s else set_flags l (paravisor_flags s) s);
  mret w.

Fixpoint scan_bits (n : nat) (wordIndex currentWord : Z) : V unit :=
  match BitScanForward64 currentWord with
  | None => mret tt
  | Some bitIndex =>
    match n with
    | O => vlift (Fault Diverges)
    | Datatypes.S n =>
      p ← channel_at (wordIndex * 64 + bitIndex);
      c ← get_context p;
      _ ← SignalEvent (Interrupt c);
      scan_bits n wordIndex (Z.land currentWord (u64 (Z.lnot (Z.shiftl 1 bitIndex))))
    end
  end.

Fixpoint scan_words (n : nat) (paravisor : bool) (wordIndex : Z) : V unit :=
  match n with
  | O => mret tt
  | Datatypes.S n =>
    w ← exchange_flags paravisor wordIndex;
    _ ← scan_bits 64 wordIndex w;
    scan_words n paravisor (wordIndex + 1)
  end.

Definition VmbusRootScanEventFlags (paravisor : bool) : V unit :=
  max ← rget MaxInterruptUsed;
  scan_words (Z.to_nat (max / 64 + 1)) paravisor 0.

Definition VmbusRootValidateGpadl (h : Z) : V bool := e ← gpadl_entry h; mret (negb (Event e =? 0)).

(** The copy of the message into a response. *)
Definition respond (r : VMBUS_MESSAGE_RESPONSE) : V VMBUS_MESSAGE_RESPONSE :=
  size ← fetch PayloadSize;
  _ ← FAIL_FAST_IF_FALSE (size <=? MAXIMUM_SYNIC_MESSAGE_BYTES);
  payload ← fetch Payload;
  d ← vlift (CopyMem (Data (Message r)) 0 payload 0 size);
  _ ← SignalEvent (Event r);
  mret (mkResponse (Event r) (mkMessage size d)).
Definition respond_gpadl (off : Z) : V bool :=
  gpadl ← fetch_field 4 off;
  _ ← FAIL_FAST_IF_FALSE (gpadl <? VMBUS_MAX_GPADLS);
  valid ← VmbusRootValidateGpadl gpadl;
  _ ← FAIL_FAST_IF_FALSE valid;
  r ← gpadl_entry gpadl;
  r ← respond r;
  _ ← set_gpadl_entry gpadl r;
  mret true.

Definition VmbusRootDispatchMessage : V bool :=
  ty ← fetch MessageType;
  _ ← FAIL_FAST_IF_FALSE (ty =? VMBUS_MESSAGE_TYPE);
  mt ← fetch_field 4 0;
  delivered ← rget OffersDelivered;
  if (mt =? ChannelMessageOfferChannel) && delivered then
    e ← rget HotAllocationEvent; _ ← SignalEvent e; mret false
  else if (mt =? ChannelMessageOfferChannel) || (mt =? ChannelMessageVersionResponse) ||
          (mt =? ChannelMessageAllOffersDelivered) || (mt =? ChannelMessageUnloadComplete) then
    e ← rget WaitForMessage; _ ← SignalEvent e; mret false
  else if mt =? ChannelMessageOpenChannelResult then
    childId ← fetch_field 4 result_ChildRelId;
    _ ← FAIL_FAST_IF_FALSE (childId <? VMBUS_MAX_CHANNELS);
    p ← channel_at childId;
    c ← get_context p;
    r ← respond (Response c);
    _ ← upd_context p (set_Response r);
    mret true
  else if mt =? ChannelMessageGpadlTorndown then respond_gpadl torndown_Gpadl
  else if mt =? ChannelMessageGpadlCreated then respond_gpadl created_Gpadl
  else if mt =? ChannelMessageRescindChannelOffer then mret true
  else _ ← vlift (ASSERT false); mret true.

Definition VmbusRootSintNotify : V unit :=
  _ ← VmbusRootScanEventFlags false;
  confidential ← rget Confidential;
  _ ← (if confidential : bool then VmbusRootScanEventFlags true else mret tt);
  m ← vget slot;
  match m with
  | None => mret tt
  | Some _ =>
    complete ← VmbusRootDispatchMessage;
    if complete : bool then status ← CompleteSintMessage; vlift (ASSERT (negb (EFI_ERROR status))) else mret tt
  end.

(** ** Channels offered *)
Definition guid (a b c : Z) (d : list Z) : list Z := le_split 4 a ++ le_split 2 b ++ le_split 2 c ++ d.
Definition gAllowedGuids : list (bool * list Z) := [
  (true, guid 0xba6163d9 0x04a1 0x4d29 [0xb6; 0x05; 0x72; 0xe2; 0xff; 0xb1; 0xdc; 0x7f]);
  (true, guid 0xf8615163 0xdf3e 0x46c5 [0x91; 0x3f; 0xf2; 0xd2; 0xf9; 0x65; 0xed; 0xe]);
  (true, guid 0x44c4f61d 0x4444 0x4400 [0x9d; 0x52; 0x80; 0x2e; 0x27; 0xed; 0xe1; 0x9f]);
  (false, guid 0xda0a7802 0xe377 0x4aac [0x8e; 0x77; 0x05; 0x58; 0xeb; 0x10; 0x73; 0xf8]);
  (false, guid 0xc376c1c3 0xd276 0x48d2 [0x90; 0xa9; 0xc0; 0x47; 0x48; 0x07; 0x2c; 0x60]);
  (false, guid 0xf912ad6d 0x2b17 0x48ea [0xbd; 0x65; 0xf9; 0x27; 0xa6; 0x1c; 0x76; 0x84])].
Definition gVmbfsChannelGuid : list Z := guid 0xc376c1c3 0xd276 0x48d2 [0x90; 0xa9; 0xc0; 0x47; 0x48; 0x07; 0x2c; 0x60].

Fixpoint allowed_loop (l : list (bool * list Z)) (type : list Z) : bool :=
  match l with
  | [] => false
  | (when_isolated, g) :: l =>
    if IsIsolated && negb when_isolated then allowed_loop l type
    else if bool_decide (type = g) then true else allowed_loop l type
  end.
Definition VmbusRootIsChannelAllowed (type : list Z) : bool :=
  if allowed_loop gAllowedGuids type then true
  else IsIsolated && PcdEnableIMCWhenIsolated && bool_decide (type = gVmbfsChannelGuid).
Definition offer_type (m : VMBUS_MESSAGE) : V (list Z) := vlift (mem_read (Data m) offer_InterfaceType 16).

(** ** Hot added channels *)
Definition sizeof_HOT_MESSAGE : Z := 264.

(** After the pool has given [hotMessage]. *)
Definition hot_add_message (hotMessage : Z) : V unit :=
  size ← fetch PayloadSize;
  payload ← fetch Payload;
  d ← vlift (CopyMem (replicate 240 0) 0 payload 0 sizeof_OFFER);
  let m := mkMessage size d in
  mt ← field 4 0 m;
  childId ← field 4 offer_ChildRelId m;
  _ ← FAIL_FAST_IF_FALSE ((mt =? ChannelMessageOfferChannel) && (size =? sizeof_OFFER) && (childId <? VMBUS_MAX_CHANNELS));
  p ← channel_at childId;
  _ ← FAIL_FAST_IF_FALSE (p =? 0);
  type ← offer_type m;
  if VmbusRootIsChannelAllowed type then
    _ ← vmod (fun s => set_hots (<[hotMessage := m]> (hots s)) s);
    _ ← rmod (fun c => set_HotMessageList (HotMessageList c ++ [hotMessage]) c);
    e ← rget HotEvent;
    SignalEvent e
  else FreePool hotMessage.
Definition VmbusRootHotAddAllocation : V unit :=
  m ← vget slot;
  _ ← FAIL_FAST_IF_FALSE (match m with Some _ => true | None => false end);
  hotMessage ← AllocatePool sizeof_HOT_MESSAGE;
  _ ← (if hotMessage =? 0 then mret tt else hot_add_message hotMessage);
  status ← CompleteSintMessage;
  vlift (ASSERT (negb (EFI_ERROR status))).

(** An interrupt, with the notification of [HotAllocationEvent], which runs as
    soon as the interrupt returns. *)
Definition merge_flags (l l' : list Z) : list Z := imap (fun i w => Z.lor w (default 0 (l' !! i))) l.
Definition take_interrupt : V unit :=
  i ← ask host;
  _ ← vmod (fun s => set_slot (match slot s with None => in_message i | m => m end)
              (set_flags (merge_flags (host_flags s) (in_flags i)) (merge_flags (paravisor_flags s) (in_paravisor_flags i)) s));
  _ ← VmbusRootSintNotify;
  e ← rget HotAllocationEvent;
  hot ← consume e;
  if hot : bool then VmbusRootHotAddAllocation else mret tt.

(** ** Waiting *)
Fixpoint wait_event (n : nat) (e : Z) : V unit :=
  done ← consume e;
  if done : bool then mret tt
  else match n with O => vlift (Fault Diverges) | Datatypes.S n => _ ← take_interrupt; wait_event n e end.
Fixpoint poll_slot (n : nat) : V unit :=
  m ← vget slot;
  match m, n with
  | Some _, _ => mret tt
  | None, O => vlift (Fault Diverges)
  | None, Datatypes.S n => _ ← take_interrupt; poll_slot n
  end.

Definition VmbusRootWaitForMessage (PollForMessage : bool) (m : VMBUS_MESSAGE) : V VMBUS_MESSAGE :=
  connected ← rget SintConnected;
  _ ← vlift (ASSERT connected);
  e ← rget WaitForMessage;
  _ ← (if PollForMessage then mret tt else wait_event patience e);
  _ ← poll_slot patience;
  size ← fetch PayloadSize;
  _ ← FAIL_FAST_IF_FALSE (size <=? MAXIMUM_SYNIC_MESSAGE_BYTES);
  payload ← fetch Payload;
  d ← vlift (CopyMem (Data m) 0 payload 0 size);
  status ← CompleteSintMessage;
  _ ← vlift (ASSERT (negb (EFI_ERROR status)));
  mret (mkMessage size d).

Definition VmbusRootWaitForChannelResponse (p : Z) : V VMBUS_MESSAGE :=
  c ← get_context p;
  _ ← wait_event patience (Event (Response c));
  c ← get_context p;
  mret (Message (Response c)).

Definition VmbusRootWaitForGpadlResponse (h : Z) : V (EFI_STATUS * option VMBUS_MESSAGE) :=
  r ← gpadl_entry h;
  if Event r =? 0 then mret (EFI_INVALID_PARAMETER, None)
  else
    _ ← wait_event patience (Event r);
    r ← gpadl_entry h;
    mret (EFI_SUCCESS, Some (Message r)).

(** ** GPADL handles *)
Fixpoint find_gpadl (n : nat) (l : list VMBUS_MESSAGE_RESPONSE) (index : Z) : result Z :=
  match n with
  | O => Ok index
  | Datatypes.S n =>
    r ← entry l index;
    if Event r =? 0 then Ok index else find_gpadl n l (index + 1)
  end.
Definition VmbusRootGetFreeGpadl : V (EFI_STATUS * Z) :=
  '(status, event) ← CreateEvent;
  if EFI_ERROR status then mret (status, 0)
  else
    l ← rget GpadlTable;
    index ← vlift (find_gpadl 255 l 1);
    if index =? VMBUS_MAX_GPADLS then _ ← CloseEvent event; mret (EFI_OUT_OF_RESOURCES, 0)
    else
      r ← gpadl_entry index;
      _ ← set_gpadl_entry index (mkResponse event (Message r));
      mret (EFI_SUCCESS, index).
Definition VmbusRootReclaimGpadl (h : Z) : V unit :=
  r ← gpadl_entry h;
  if Event r =? 0 then mret tt
  else _ ← CloseEvent (Event r); set_gpadl_entry h (mkResponse 0 (Message r)).

(** ** The channel protocol: memory *)
Definition sizeof_GPADL : Z := 48.
Definition MakeAddressRangeHostVisible (base n : Z) : V (EFI_STATUS * Z) := fun s =>
  let '(status, h) := MakeVisible_answer (tick s) (visible s) in
  let s := next_tick s in
  if EFI_ERROR status then Ok (status, 0, s) else Ok (status, h, set_visible (<[h := (base, n)]> (visible s)) s).
Definition MakeAddressRangeNotHostVisible (h : Z) : V unit := fun s =>
  match visible s !! h with Some _ => Ok (tt, set_visible (delete h (visible s)) s) | None => Fault FailFast end.
(** [ZeroPages] of the protocol, or [ZeroMem]. *)
Definition zero_range (zero : bool) (base n : Z) : V unit :=
  if zero then vmod (fun s => set_zeroed ((base, n) :: zeroed s) s) else mret tt.

Definition VmbusChannelPrepareGpadl (This Buffer_ BufferLength_ Flags : Z) : V (EFI_STATUS * Z) :=
  if BufferLength_ =? 0 then mret (EFI_INVALID_PARAMETER, 0)
  else if negb (Z.land Buffer_ (EFI_PAGE_SIZE - 1) =? 0) || negb (Z.land BufferLength_ (EFI_PAGE_SIZE - 1) =? 0) then mret (EFI_INVALID_PARAMETER, 0)
  else if negb (Z.land Flags (u32 (Z.lnot EFI_VMBUS_PREPARE_GPADL_FLAGS)) =? 0) then mret (EFI_INVALID_PARAMETER, 0)
  else
    c ← get_context This;
    gpadl ← AllocatePool sizeof_GPADL;
    if gpadl =? 0 then mret (EFI_OUT_OF_RESOURCES, 0)
    else
      let zeroPages := negb (Z.land Flags EFI_VMBUS_PREPARE_GPADL_FLAG_ZERO_PAGES =? 0) in
      let isRing := negb (Z.land Flags EFI_VMBUS_PREPARE_GPADL_FLAG_RING_BUFFER =? 0) in
      let g := mkGpadl Buffer_ 0 BufferLength_ (u32 (Z.shiftr BufferLength_ EFI_PAGE_SHIFT)) 0 0 false in
      '(status, pa, handle) ←
        (if IsIsolated && ((isRing && negb (ConfidentialRing c)) ||
           (negb isRing && (Z.land (VmbusFlags c) EFI_VMBUS_PROTOCOL_FLAGS_CONFIDENTIAL_EXTERNAL_MEMORY =? 0))) then
           '(status, h) ← MakeAddressRangeHostVisible Buffer_ BufferLength_;
           if EFI_ERROR status then mret (status, 0, 0)
           else _ ← zero_range zeroPages Buffer_ BufferLength_; mret (EFI_SUCCESS, u64 (Buffer_ + mSharedGpaBoundary), h)
         else _ ← zero_range zeroPages Buffer_ BufferLength_; mret (EFI_SUCCESS, Buffer_, 0));
      if EFI_ERROR status then _ ← FreePool gpadl; mret (status, 0)
      else
        _ ← vmod (fun s => set_gpadls (<[gpadl := mkGpadl Buffer_ pa BufferLength_ (NumberOfPages g) 0 handle false]> (gpadls s)) s);
        mret (EFI_SUCCESS, gpadl).

(** [n] page numbers from [pfn] on, stored from offset [off] on. *)
Fixpoint fill_pfns (n : nat) (off pfn : Z) (m : VMBUS_MESSAGE) : V VMBUS_MESSAGE :=
  match n with
  | O => mret m
  | Datatypes.S n => m ← put 8 off (u64 pfn) m; fill_pfns n (off + 8) (pfn + 1) m
  end.

Definition numPfnInHeader : Z := (MAXIMUM_SYNIC_MESSAGE_BYTES - header_Range - range_PfnArray) / 8.
Definition numPfnInBody : Z := (MAXIMUM_SYNIC_MESSAGE_BYTES - body_Pfn) / 8.

(** The loop that sends the page numbers behind the first [pfnSent]. *)
Fixpoint send_bodies (n : nat) (g : EFI_VMBUS_GPADL) (pfnSent : Z) : V unit :=
  let left := u32 (NumberOfPages g - pfnSent) in
  if left =? 0 then mret tt
  else match n with
  | O => vlift (Fault Diverges)
  | Datatypes.S n =>
    let count := Z.min left numPfnInBody in
    m ← put 4 body_Gpadl (GpadlHandle g) (VmbusRootInitializeMessage ChannelMessageGpadlBody MAXIMUM_SYNIC_MESSAGE_BYTES);
    m ← fill_pfns (Z.to_nat count) body_Pfn (Z.shiftr (VisibleBufferPA g) EFI_PAGE_SHIFT + pfnSent) m;
    _ ← VmbusRootSendMessage m;
    send_bodies n g (u32 (pfnSent + count))
  end.

Definition send_gpadl (channelId : Z) (g : EFI_VMBUS_GPADL) : V unit :=
  let count := Z.min (NumberOfPages g) numPfnInHeader in
  m ← put 4 header_ChildRelId channelId (VmbusRootInitializeMessage ChannelMessageGpadlHeader MAXIMUM_SYNIC_MESSAGE_BYTES);
  m ← put 4 header_Gpadl (GpadlHandle g) m;
  m ← put 2 header_RangeCount 1 m;
  m ← put 2 header_RangeBufLen (u16 (sizeof_GPA_RANGE + u32 (NumberOfPages g - 1) * 8)) m;
  m ← put 4 header_Range (BufferLength g) m;
  m ← put 4 (header_Range + 4) (Z.land (VisibleBufferPA g) EFI_PAGE_MASK) m;
  m ← fill_pfns (Z.to_nat count) (header_Range + range_PfnArray) (Z.shiftr (VisibleBufferPA g) EFI_PAGE_SHIFT) m;
  _ ← VmbusRootSendMessage m;
  send_bodies (Z.to_nat (NumberOfPages g)) g count.

(** On the structure itself, which is a local of the legacy calls. *)
Definition create_gpadl (This : Z) (g : EFI_VMBUS_GPADL) : V (EFI_STATUS * EFI_VMBUS_GPADL) :=
  if negb (GpadlHandle g =? 0) then mret (EFI_INVALID_PARAMETER, g)
  else
    c ← get_context This;
    '(status, h) ← VmbusRootGetFreeGpadl;
    if EFI_ERROR status then mret (status, g)
    else
      let g := set_GpadlHandle h g in
      _ ← send_gpadl (ChannelId c) g;
      '(status, r) ← VmbusRootWaitForGpadlResponse h;
      _ ← vlift (ASSERT (negb (EFI_ERROR status)));
      m ← vlift (match r with Some m => Ok m | None => Fault NullDeref end);
      mt ← field 4 0 m; gpadl ← field 4 created_Gpadl m; childId ← field 4 created_ChildRelId m; st ← field 4 created_CreationStatus m;
      _ ← FAIL_FAST_IF_FALSE (mt =? ChannelMessageGpadlCreated);
      _ ← FAIL_FAST_IF_FALSE (Size m =? sizeof_CREATED);
      _ ← FAIL_FAST_IF_FALSE (gpadl =? h);
      _ ← FAIL_FAST_IF_FALSE (childId =? ChannelId c);
      if negb (st =? 0) then _ ← VmbusRootReclaimGpadl h; mret (EFI_OUT_OF_RESOURCES, set_GpadlHandle 0 g)
      else mret (EFI_SUCCESS, g).

Definition get_gpadl (p : Z) : V EFI_VMBUS_GPADL := fun s =>
  if p =? 0 then Fault NullDeref else match gpadls s !! p with Some g => Ok (g, s) | None => Fault UseAfterFree end.
Definition VmbusChannelCreateGpadl (This Gpadl : Z) : V EFI_STATUS :=
  g ← get_gpadl Gpadl;
  '(status, g) ← create_gpadl This g;
  _ ← vmod (fun s => set_gpadls (<[Gpadl := g]> (gpadls s)) s);
  mret status.
Definition VmbusChannelCreateGpadlLegacy (This Buffer_ BufferLength_ : Z) : V (EFI_STATUS * Z) :=
  if BufferLength_ =? 0 then mret (EFI_INVALID_PARAMETER, 0)
  else
    let pages := Z.shiftr (u32 (Z.land Buffer_ EFI_PAGE_MASK + BufferLength_ + EFI_PAGE_SIZE - 1)) EFI_PAGE_SHIFT in
    '(status, g) ← create_gpadl This (mkGpadl Buffer_ Buffer_ BufferLength_ pages 0 0 true);
    if EFI_ERROR status then mret (status, 0) else mret (status, GpadlHandle g).

(** The part that talks to the host. *)
Definition teardown (channelId h : Z) : V unit :=
  m ← put 4 teardown_ChildRelId channelId (VmbusRootInitializeMessage ChannelMessageGpadlTeardown sizeof_TEARDOWN);
  m ← put 4 teardown_Gpadl h m;
  _ ← VmbusRootSendMessage m;
  '(status, r) ← VmbusRootWaitForGpadlResponse h;
  _ ← vlift (ASSERT (negb (EFI_ERROR status)));
  m ← vlift (match r with Some m => Ok m | None => Fault NullDeref end);
  mt ← field 4 0 m; gpadl ← field 4 torndown_Gpadl m;
  _ ← FAIL_FAST_IF_FALSE (Size m =? sizeof_TORNDOWN);
  _ ← FAIL_FAST_IF_FALSE (mt =? ChannelMessageGpadlTorndown);
  _ ← FAIL_FAST_IF_FALSE (gpadl =? h);
  VmbusRootReclaimGpadl h.
Definition VmbusChannelDestroyGpadl (This Gpadl : Z) : V EFI_STATUS :=
  c ← get_context This;
  g ← get_gpadl Gpadl;
  valid ← (if GpadlHandle g =? 0 then mret true else VmbusRootValidateGpadl (GpadlHandle g));
  if negb valid then mret EFI_INVALID_PARAMETER
  else
    _ ← (if GpadlHandle g =? 0 then mret tt
         else _ ← teardown (ChannelId c) (GpadlHandle g); vmod (fun s => set_gpadls (<[Gpadl := set_GpadlHandle 0 g]> (gpadls s)) s));
    _ ← (if IsIsolated && negb (Legacy g) && negb (ProtectionHandle g =? 0) then MakeAddressRangeNotHostVisible (ProtectionHandle g) else mret tt);
    _ ← (if Legacy g then mret tt else _ ← FreePool Gpadl; vmod (fun s => set_gpadls (delete Gpadl (gpadls s)) s));
    mret EFI_SUCCESS.
Definition VmbusChannelDestroyGpadlLegacy (This h : Z) : V EFI_STATUS :=
  c ← get_context This;
  valid ← (if h =? 0 then mret true else VmbusRootValidateGpadl h);
  if negb valid then mret EFI_INVALID_PARAMETER
  else _ ← (if h =? 0 then mret tt else teardown (ChannelId c) h); mret EFI_SUCCESS.

Definition VmbusChannelGetGpadlHandle (Gpadl : Z) : V Z := g ← get_gpadl Gpadl; mret (GpadlHandle g).
Definition VmbusChannelGetGpadlBuffer (Gpadl : Z) : V Z :=
  g ← get_gpadl Gpadl;
  mret (if mSharedGpaBoundary <=? VisibleBufferPA g then Z.lor (VisibleBufferPA g) mCanonicalizationMask else VisibleBufferPA g).

(** ** The channel protocol: opening and interrupts *)
Definition open_channel (This RingBufferGpadlHandle RingBufferPageOffset : Z) : V EFI_STATUS :=
  c ← get_context This;
  m ← put 4 open_ChildRelId (ChannelId c) (VmbusRootInitializeMessage ChannelMessageOpenChannel sizeof_OPEN);
  m ← put 4 open_RingBufferGpadlHandle RingBufferGpadlHandle m;
  m ← put 4 open_DownstreamRingBufferPageOffset RingBufferPageOffset m;
  m ← put 4 open_TargetVp CurrentVpIndex m;
  _ ← VmbusRootSendMessage m;
  r ← VmbusRootWaitForChannelResponse This;
  mt ← field 4 0 r; childId ← field 4 result_ChildRelId r; st ← field 4 result_Status r;
  _ ← FAIL_FAST_IF_FALSE (Size r =? sizeof_OPEN_RESULT);
  _ ← FAIL_FAST_IF_FALSE (mt =? ChannelMessageOpenChannelResult);
  _ ← FAIL_FAST_IF_FALSE (childId =? ChannelId c);
  mret (if st =? 0 then EFI_SUCCESS else EFI_OUT_OF_RESOURCES).
Definition VmbusChannelOpenChannel (This RingBufferGpadl RingBufferPageOffset : Z) : V EFI_STATUS :=
  g ← get_gpadl RingBufferGpadl; open_channel This (GpadlHandle g) RingBufferPageOffset.
Definition VmbusChannelOpenChannelLegacy (This RingBufferGpadlHandle RingBufferPageOffset : Z) : V EFI_STATUS :=
  open_channel This RingBufferGpadlHandle RingBufferPageOffset.
Definition VmbusChannelCloseChannel (This : Z) : V EFI_STATUS :=
  c ← get_context This;
  m ← put 4 close_ChildRelId (ChannelId c) (VmbusRootInitializeMessage ChannelMessageCloseChannel sizeof_CLOSE);
  _ ← VmbusRootSendMessage m;
  mret EFI_SUCCESS.

Definition VmbusRootSetInterruptEntry (channelId event : Z) : V unit :=
  _ ← vlift (ASSERT (channelId <? VMBUS_MAX_CHANNELS));
  _ ← rmod (fun c => if MaxInterruptUsed c <? channelId then set_MaxInterruptUsed channelId c else c);
  p ← channel_at channelId;
  upd_context p (set_Interrupt event).

(** From [index] down to the first channel with an interrupt, or 0. *)
Fixpoint scan_back (n : nat) (index : Z) : V Z :=
  match n with
  | O => mret index
  | Datatypes.S n =>
    p ← channel_at index;
    if p =? 0 then scan_back n (index - 1)
    else
      c ← get_context p;
      if Interrupt c =? 0 then scan_back n (index - 1) else mret index
  end.
Definition VmbusRootClearInterruptEntry (channelId : Z) : V unit :=
  _ ← vlift (ASSERT (channelId <? VMBUS_MAX_CHANNELS));
  p ← channel_at channelId;
  _ ← upd_context p (set_Interrupt 0);
  max ← rget MaxInterruptUsed;
  if channelId =? max then
    index ← scan_back (Z.to_nat max) max;
    rmod (set_MaxInterruptUsed index)
  else mret tt.
Definition VmbusChannelRegisterIsr (This event : Z) : V EFI_STATUS :=
  c ← get_context This;
  _ ← (if event =? 0 then VmbusRootClearInterruptEntry (ChannelId c) else VmbusRootSetInterruptEntry (ChannelId c) event);
  mret EFI_SUCCESS.
Definition VmbusChannelSendInterrupt (This : Z) : V EFI_STATUS :=
  c ← get_context This;
  _ ← vmod (fun s => set_interrupted (interrupted s ++ [ConnectionId c]) s);
  ask SignalHost_answer.

(** The legacy protocol forwards these. *)
Definition VmbusChannelCloseChannelLegacy (This : Z) : V EFI_STATUS := VmbusChannelCloseChannel This.
Definition VmbusChannelRegisterIsrLegacy (This event : Z) : V EFI_STATUS := VmbusChannelRegisterIsr This event.
Definition VmbusChannelSendInterruptLegacy (This : Z) : V EFI_STATUS := VmbusChannelSendInterrupt This.

(** ** Contexts of channels *)
Definition VmbusRootSupportsFeatureFlag (c : VMBUS_ROOT_CONTEXT) (flag : Z) : bool := negb (Z.land (FeatureFlags c) flag =? 0).

(** [VmbusChannelInitializeContext], the context returned. *)
Definition VmbusChannelInitializeContext (offer : VMBUS_MESSAGE) : V VMBUS_CHANNEL_CONTEXT :=
  type ← offer_type offer;
  instance ← vlift (mem_read (Data offer) offer_InterfaceInstance 16);
  id ← field 4 offer_ChildRelId offer;
  connection ← field 4 offer_ConnectionId offer;
  flags ← field 2 offer_Flags offer;
  '(_, event) ← CreateEvent;
  c ← vget root;
  let pipe := if negb (Z.land flags VMBUS_OFFER_FLAG_NAMED_PIPE_MODE =? 0) then EFI_VMBUS_PROTOCOL_FLAGS_PIPE_MODE else 0 in
  let confidential := VmbusRootSupportsFeatureFlag c VMBUS_FEATURE_FLAG_CONFIDENTIAL_CHANNELS in
  let external := if confidential && negb (Z.land flags VMBUS_OFFER_FLAG_CONFIDENTIAL_EXTERNAL_MEMORY =? 0)
                  then EFI_VMBUS_PROTOCOL_FLAGS_CONFIDENTIAL_EXTERNAL_MEMORY else 0 in
  mret (mkChannel 0 (Z.lor pipe external) pipe type instance id connection (mkResponse event (mkMessage 0 (replicate 240 0))) 0
          (confidential && negb (Z.land flags VMBUS_OFFER_FLAG_CONFIDENTIAL_RING_BUFFER =? 0))).
Definition VmbusChannelDestroyContext (p : Z) : V unit :=
  c ← get_context p;
  if Event (Response c) =? 0 then mret tt
  else _ ← CloseEvent (Event (Response c)); upd_context p (set_Response (mkResponse 0 (Message (Response c)))).

Definition VmbusRootDestroyChannel (p : Z) : V EFI_STATUS :=
  c ← get_context p;
  status ← ask Uninstall_answer;
  if EFI_ERROR status then mret status
  else
    _ ← vmod (fun s => set_published (published s ∖ {[p]}) s);
    status ← ask Uninstall_answer;
    if EFI_ERROR status then mret status
    else
      q ← channel_at (ChannelId c);
      _ ← vlift (ASSERT (negb (q =? 0)));
      _ ← rmod (fun r => set_Channels (<[Z.to_nat (ChannelId c) := 0]> (Channels r)) r);
      _ ← VmbusChannelDestroyContext p;
      _ ← FreePool p;
      _ ← vmod (fun s => set_channels (delete p (channels s)) s);
      mret EFI_SUCCESS.

Definition sizeof_CHANNEL_CONTEXT : Z := 512.
Definition VmbusRootCreateChannel (offer : VMBUS_MESSAGE) : V (EFI_STATUS * Z) :=
  p ← AllocatePool sizeof_CHANNEL_CONTEXT;
  if p =? 0 then mret (EFI_OUT_OF_RESOURCES, 0)
  else
    c ← VmbusChannelInitializeContext offer;
    _ ← vmod (fun s => set_channels (<[p := c]> (channels s)) s);
    _ ← vlift (ASSERT (ChannelId c <? VMBUS_MAX_CHANNELS));
    q ← channel_at (ChannelId c);
    _ ← FAIL_FAST_IF_FALSE (q =? 0);
    _ ← rmod (fun r => set_Channels (<[Z.to_nat (ChannelId c) := p]> (Channels r)) r);
    '(status, h) ← ask Install_answer;
    _ ← vlift (ASSERT (negb (EFI_ERROR status)));
    _ ← (if EFI_ERROR status then mret tt else _ ← upd_context p (set_Handle h); vmod (fun s => set_published ({[p]} ∪ published s) s));
    '(status, _) ← ask Install_answer;
    _ ← vlift (ASSERT (negb (EFI_ERROR status)));
    status ← ask OpenProtocol_answer;
    if EFI_ERROR status then _ ← VmbusRootDestroyChannel p; mret (status, 0)
    else mret (EFI_SUCCESS, p).

Fixpoint hot_add (l : list Z) : V unit :=
  match l with
  | [] => mret tt
  | p :: l =>
    m ← (fun s => match hots s !! p with Some m => Ok (m, s) | None => Fault UseAfterFree end);
    mt ← field 4 0 m;
    _ ← vlift (ASSERT (mt =? ChannelMessageOfferChannel));
    _ ← vlift (ASSERT (Size m =? sizeof_OFFER));
    _ ← VmbusRootCreateChannel m;
    _ ← FreePool p;
    _ ← vmod (fun s => set_hots (delete p (hots s)) s);
    hot_add l
  end.
Definition VmbusRootHotAdd : V unit :=
  l ← rget HotMessageList;
  _ ← rmod (set_HotMessageList []);
  hot_add l.

(** ** The root device *)
Definition VmbusRootSendUnload : V unit :=
  let m := VmbusRootInitializeMessage ChannelMessageUnload sizeof_HEADER in
  _ ← VmbusRootSendMessage m;
  m ← (fix ignore (n : nat) (m : VMBUS_MESSAGE) : V VMBUS_MESSAGE :=
         match n with
         | O => vlift (Fault Diverges)
         | Datatypes.S n =>
           m ← VmbusRootWaitForMessage true m;
           mt ← field 4 0 m;
           if mt =? ChannelMessageUnloadComplete then mret m else ignore n m
         end) patience m;
  FAIL_FAST_IF_FALSE (Size m =? sizeof_HEADER).
Definition VmbusRootExitBootServices : V unit := VmbusRootSendUnload.

Definition ConnectSint : V EFI_STATUS := ask ConnectSint_answer.
(** Disconnecting has no effect on this state. *)
Definition VmbusRootConnectSint (Reconnect : bool) : V EFI_STATUS := ConnectSint.

Fixpoint await_version (n : nat) (m : VMBUS_MESSAGE) : V VMBUS_MESSAGE :=
  match n with
  | O => vlift (Fault Diverges)
  | Datatypes.S n =>
    m ← VmbusRootWaitForMessage false m;
    mt ← field 4 0 m;
    if mt =? ChannelMessageVersionResponse then mret m else await_version n m
  end.

(** After the request was sent. *)
Definition contact_response (RequestedVersion : Z) (m : VMBUS_MESSAGE) : V EFI_STATUS :=
  m ← await_version patience m;
  _ ← FAIL_FAST_IF_FALSE (VMBUS_CHANNEL_VERSION_RESPONSE_MIN_SIZE <=? Size m);
  supported ← field 1 version_VersionSupported m;
  state ← field 1 version_ConnectionState m;
  if (supported =? 0) || negb (state =? 0) then mret EFI_PROTOCOL_ERROR
  else
    _ ← rmod (set_ContactInitiated true);
    _ ← (if VMBUS_VERSION_COPPER <=? RequestedVersion then
           _ ← FAIL_FAST_IF_FALSE (sizeof_VERSION_RESPONSE <=? Size m);
           features ← field 4 version_SupportedFeatures m;
           rmod (fun c => set_FeatureFlags (Z.land (FeatureFlags c) features) c)
         else mret tt);
    mret EFI_SUCCESS.

Definition VmbusRootInitiateContact (RequestedVersion : Z) : V EFI_STATUS :=
  connected ← rget SintConnected;
  _ ← vlift (ASSERT connected);
  let copper := VMBUS_VERSION_COPPER <=? RequestedVersion in
  let size := if copper then sizeof_CONTACT else VMBUS_CHANNEL_INITIATE_CONTACT_MIN_SIZE in
  confidential ← rget Confidential;
  let flags := if copper then Z.lor VMBUS_SUPPORTED_FEATURE_FLAGS (if confidential : bool then VMBUS_SUPPORTED_FEATURE_FLAGS_PARAVISOR else 0) else 0 in
  m ← put 4 contact_Version RequestedVersion (VmbusRootInitializeMessage ChannelMessageInitiateContact size);
  m ← put 4 contact_TargetMessageVp CurrentVpIndex m;
  m ← (if copper then d ← vlift (mem_write (Data m) contact_ClientId gMsvmVmbusClientGuid); mret (mkMessage (Size m) d) else mret m);
  m ← put 4 contact_FeatureFlags flags m;
  _ ← rmod (set_FeatureFlags flags);
  status ← VmbusRootSendMessage m;
  if EFI_ERROR status then
    if negb confidential then mret status
    else
      _ ← rmod (set_Confidential false);
      status ← VmbusRootConnectSint true;
      if EFI_ERROR status then mret status
      else
        m ← (if copper then
               m ← put 4 contact_FeatureFlags VMBUS_SUPPORTED_FEATURE_FLAGS m;
               _ ← rmod (set_FeatureFlags VMBUS_SUPPORTED_FEATURE_FLAGS); mret m
             else mret m);
        status ← VmbusRootSendMessage m;
        if EFI_ERROR status then mret status else contact_response RequestedVersion m
  else contact_response RequestedVersion m.

Definition gVmbusSupportedVersions : list Z := [VMBUS_VERSION_COPPER; VMBUS_VERSION_WIN8_1].
Fixpoint negotiate (l : list Z) (status : EFI_STATUS) : V EFI_STATUS :=
  match l with
  | [] => mret status
  | version :: l =>
    status ← VmbusRootInitiateContact version;
    if decide (status = EFI_PROTOCOL_ERROR) then negotiate l status else mret status
  end.
Definition VmbusRootNegotiateVersion : V EFI_STATUS := negotiate gVmbusSupportedVersions EFI_PROTOCOL_ERROR.

Fixpoint enumerate (n : nat) (m : VMBUS_MESSAGE) : V EFI_STATUS :=
  match n with
  | O => vlift (Fault Diverges)
  | Datatypes.S n =>
    m ← VmbusRootWaitForMessage false m;
    mt ← field 4 0 m;
    if (Size m =? sizeof_HEADER) && (mt =? ChannelMessageAllOffersDelivered) then
      _ ← rmod (set_OffersDelivered true); mret EFI_SUCCESS
    else if negb (Size m =? sizeof_OFFER) || negb (mt =? ChannelMessageOfferChannel) then mret EFI_PROTOCOL_ERROR
    else
      id ← field 4 offer_ChildRelId m;
      _ ← FAIL_FAST_IF_FALSE (id <? VMBUS_MAX_CHANNELS);
      p ← channel_at id;
      _ ← FAIL_FAST_IF_FALSE (p =? 0);
      type ← offer_type m;
      if negb (VmbusRootIsChannelAllowed type) then enumerate n m
      else
        '(status, _) ← VmbusRootCreateChannel m;
        if EFI_ERROR status then mret status else enumerate n m
  end.
Definition VmbusRootEnumerateChildren : V EFI_STATUS :=
  let m := VmbusRootInitializeMessage ChannelMessageRequestOffers sizeof_HEADER in
  _ ← VmbusRootSendMessage m;
  enumerate patience m.

(** ** Starting and stopping *)
Definition no_response : VMBUS_MESSAGE_RESPONSE := mkResponse 0 (mkMessage 0 (replicate 240 0)).

(** The channels from [index] on. *)
Fixpoint destroy_channels (n : nat) (index : Z) : V EFI_STATUS :=
  match n with
  | O => mret EFI_SUCCESS
  | Datatypes.S n =>
    p ← channel_at index;
    if p =? 0 then destroy_channels n (index + 1)
    else
      status ← VmbusRootDestroyChannel p;
      if EFI_ERROR status then mret status
      else
        q ← channel_at index;
        _ ← vlift (ASSERT (q =? 0));
        destroy_channels n (index + 1)
  end.

(** [RemoveEntryList] returns the entry behind the one it removes, and that one
    is freed; behind the last one comes the head of the list, which is part of
    the root context. *)
Fixpoint drop_hot_messages (n : nat) : V unit :=
  l ← rget HotMessageList;
  match l, n with
  | [], _ => mret tt
  | _, O => vlift (Fault Diverges)
  | first :: l, Datatypes.S n =>
    _ ← (fun s => if decide (first ∈ pool s) then Ok (tt, s) else Fault UseAfterFree);
    _ ← rmod (set_HotMessageList l);
    hotMessage ← vlift (match l with p :: _ => Ok p | [] => Fault OutOfBounds end);
    _ ← FreePool hotMessage;
    _ ← vmod (fun s => set_hots (delete hotMessage (hots s)) s);
    drop_hot_messages n
  end.

Fixpoint reclaim_gpadls (n : nat) (index : Z) : V unit :=
  match n with
  | O => mret tt
  | Datatypes.S n =>
    valid ← VmbusRootValidateGpadl index;
    _ ← vlift (ASSERT (negb valid));
    _ ← VmbusRootReclaimGpadl index;
    reclaim_gpadls n (index + 1)
  end.

Definition close_root_event (get : VMBUS_ROOT_CONTEXT -> Z) (set : Z -> VMBUS_ROOT_CONTEXT -> VMBUS_ROOT_CONTEXT) : V unit :=
  e ← rget get;
  if e =? 0 then mret tt else _ ← CloseEvent e; rmod (set 0).

Definition VmbusRootDestroyContext : V EFI_STATUS :=
  contact ← rget ContactInitiated;
  _ ← (if contact : bool then
         _ ← VmbusRootSendUnload;
         _ ← rmod (set_ContactInitiated false);
         rmod (set_OffersDelivered false)
       else mret tt);
  connected ← rget SintConnected;
  _ ← (if connected : bool then rmod (set_SintConnected false) else mret tt);
  status ← destroy_channels (Z.to_nat VMBUS_MAX_CHANNELS) 0;
  if EFI_ERROR status then mret status
  else
    _ ← close_root_event WaitForMessage set_WaitForMessage;
    _ ← close_root_event ExitBootEvent set_ExitBootEvent;
    _ ← close_root_event HotEvent set_HotEvent;
    _ ← close_root_event HotAllocationEvent set_HotAllocationEvent;
    l ← rget HotMessageList;
    _ ← drop_hot_messages (length l);
    _ ← reclaim_gpadls (Z.to_nat VMBUS_MAX_GPADLS) 0;
    mret EFI_SUCCESS.

(** One of the events of the root context. *)
Definition create_root_event (set : Z -> VMBUS_ROOT_CONTEXT -> VMBUS_ROOT_CONTEXT) : V EFI_STATUS :=
  '(status, e) ← CreateEvent;
  _ ← (if EFI_ERROR status then mret tt else rmod (set e));
  mret status.
Definition root_events : V EFI_STATUS :=
  status ← create_root_event set_WaitForMessage;
  if EFI_ERROR status then mret status
  else
    status ← create_root_event set_HotEvent;
    if EFI_ERROR status then mret status else create_root_event set_HotAllocationEvent.
Definition VmbusRootInitializeContext : V EFI_STATUS :=
  _ ← rmod (fun _ => mkRoot 0 0 0 0 [] (IsHardwareIsolated && IsParavisorPresent) false false false
                       (replicate 256 no_response) (replicate 2048 0) 0 0);
  status ← root_events;
  if EFI_ERROR status then _ ← VmbusRootDestroyContext; mret status else mret EFI_SUCCESS.

(** Behind [VmbusRootInitializeContext], up to its [Cleanup]. *)
Definition start_root : V EFI_STATUS :=
  status ← VmbusRootConnectSint false;
  if EFI_ERROR status then mret status
  else
    _ ← rmod (set_SintConnected true);
    status ← VmbusRootNegotiateVersion;
    if EFI_ERROR status then mret status
    else
      status ← create_root_event set_ExitBootEvent;
      if EFI_ERROR status then mret status
      else
        status ← VmbusRootEnumerateChildren;
        if EFI_ERROR status then mret status else ask OpenProtocol_answer.
Definition VmbusRootDriverStart : V EFI_STATUS :=
  status ← ask LocateProtocol_answer;
  if EFI_ERROR status then mret status
  else
    status ← ask LocateProtocol_answer;
    if EFI_ERROR status then mret status
    else
      status ← VmbusRootInitializeContext;
      if EFI_ERROR status then mret status
      else
        status ← start_root;
        if EFI_ERROR status then _ ← VmbusRootDestroyContext; mret status else mret EFI_SUCCESS.

(** The channel of a child handle, from [index] on. *)
Fixpoint stop_child (n : nat) (index child : Z) : V EFI_STATUS :=
  match n with
  | O => _ ← vlift (ASSERT false); mret EFI_SUCCESS
  | Datatypes.S n =>
    p ← channel_at index;
    found ← (if p =? 0 then mret false else c ← get_context p; mret (Handle c =? child));
    if found : bool then
      status ← VmbusRootDestroyChannel p;
      if EFI_ERROR status then mret status
      else q ← channel_at index; _ ← vlift (ASSERT (q =? 0)); mret EFI_SUCCESS
    else stop_child n (index + 1) child
  end.
Fixpoint stop_children (l : list Z) : V EFI_STATUS :=
  match l with
  | [] => mret EFI_SUCCESS
  | child :: l =>
    status ← stop_child (Z.to_nat VMBUS_MAX_CHANNELS) 0 child;
    if EFI_ERROR status then mret status else stop_children l
  end.
Definition VmbusRootDriverStop (children : list Z) : V EFI_STATUS :=
  match children with [] => VmbusRootDestroyContext | _ => stop_children children end.
End Driver.
End Vmbus.
