(* ===== verification/VmbusInv.v ===== *)
(** The invariant of the VMBus driver and a program logic for it: [wp c Q s] says
    that [c], run in [s], returns with [Q], or stops with a fault that the host
    can cause and that ends the machine ([tolerated]); an access outside an
    object, to a freed one, or a second free is never tolerated.  An interrupt,
    whatever the host sends with it, keeps the invariant [base] and changes
    nothing but the responses and the queue of offers ([quiet]). *)
From stdpp Require Import base list numbers list_numbers option gmap fin_maps.
From Stdlib Require Import ZArith Lia.
From S2P Require Import Prelude Circular PkRing EmclPacket EmclPacketProps Vmbus.
Open Scope Z_scope.

Module VmbusInv.
Import PkRing EmclPacket Vmbus.

(** ** The logic *)
Definition tolerated (f : fault) : Prop :=
  match f with FailFast | Diverges | AssertFailed | NullDeref => True | _ => False end.

Definition wp {A} (c : V A) (Q : A -> vmbus -> Prop) (s : vmbus) : Prop :=
  match c s with Ok (a, s') => Q a s' | Fault f => tolerated f end.

Lemma wp_mono {A} (c : V A) (P Q : A -> vmbus -> Prop) s : wp c P s -> (forall a s', P a s' -> Q a s') -> wp c Q s.
Proof. unfold wp. destruct (c s) as [[a s']|f]; auto. Qed.
Lemma wp_bind {A B} (c : V A) (k : A -> V B) Q s : wp c (fun a s' => wp (k a) Q s') s -> wp (c ≫= k) Q s.
Proof. unfold wp, mbind, V_bind. by destruct (c s) as [[a s']|f]. Qed.
Lemma wp_seq {A B} (c : V A) (k : A -> V B) P Q s :
  wp c P s -> (forall a s', P a s' -> wp (k a) Q s') -> wp (c ≫= k) Q s.
Proof. intros H K. apply wp_bind. by eapply wp_mono. Qed.
Lemma wp_ret {A} (a : A) (Q : A -> vmbus -> Prop) s : Q a s -> wp (mret a) Q s.
Proof. done. Qed.
Lemma wp_vmod f (Q : unit -> vmbus -> Prop) s : Q tt (f s) -> wp (vmod f) Q s.
Proof. done. Qed.
Lemma wp_rmod f (Q : unit -> vmbus -> Prop) s : Q tt (set_root (f (root s)) s) -> wp (rmod f) Q s.
Proof. done. Qed.
Lemma wp_vget {A} (f : vmbus -> A) (Q : A -> vmbus -> Prop) s : Q (f s) s -> wp (vget f) Q s.
Proof. done. Qed.
Lemma wp_rget {A} (f : VMBUS_ROOT_CONTEXT -> A) (Q : A -> vmbus -> Prop) s : Q (f (root s)) s -> wp (rget f) Q s.
Proof. done. Qed.
Lemma wp_ask {A} (f : nat -> A) (Q : A -> vmbus -> Prop) s : Q (f (tick s)) (next_tick s) -> wp (ask f) Q s.
Proof. done. Qed.
Lemma wp_lift {A} (r : result A) (Q : A -> vmbus -> Prop) s :
  match r with Ok a => Q a s | Fault f => tolerated f end -> wp (vlift r) Q s.
Proof. unfold wp, vlift. by destruct r. Qed.
Lemma wp_lift_ok {A} (r : result A) a (Q : A -> vmbus -> Prop) s : r = Ok a -> Q a s -> wp (vlift r) Q s.
Proof. by intros ->. Qed.
Lemma wp_fault {A} f (Q : A -> vmbus -> Prop) s : tolerated f -> wp (vlift (Fault f)) Q s.
Proof. done. Qed.
Lemma wp_assert `{BuildOptions} c (Q : unit -> vmbus -> Prop) s : (asserts_enabled = true -> c = true -> Q tt s) -> (asserts_enabled = false -> Q tt s) -> wp (vlift (ASSERT c)) Q s.
Proof. intros H1 H2. unfold wp, vlift, ASSERT. destruct asserts_enabled, c; simpl; auto. Qed.
Lemma wp_any_assert `{BuildOptions} c (Q : unit -> vmbus -> Prop) s : Q tt s -> wp (vlift (ASSERT c)) Q s.
Proof. intros. by apply wp_assert. Qed.
Lemma wp_failfast c (Q : unit -> vmbus -> Prop) s : (c = true -> Q tt s) -> wp (FAIL_FAST_IF_FALSE c) Q s.
Proof. unfold wp, FAIL_FAST_IF_FALSE. destruct c; simpl; auto. Qed.

Create HintDb vmbus.
#[export] Hint Resolve wp_ret wp_vmod wp_rmod wp_vget wp_rget wp_ask wp_any_assert : vmbus.

(** ** What the surroundings promise *)
Definition wf_message (m : VMBUS_MESSAGE) : Prop := length (Data m) = 240%nat /\ Forall is_byte (Data m).
(** A message page has 240 bytes of payload. *)
Definition wf_hv (m : HV_MESSAGE) : Prop := 0 <= PayloadSize m /\ length (Payload m) = 240%nat /\ Forall is_byte (Payload m).

Class HypervisorLaws `{Hypervisor} : Prop := {
  host_wf : forall n m, in_message (host n) = Some m -> wf_hv m;
  refetch_wf : forall n m, wf_hv m -> wf_hv (refetch n m);
  alloc_fresh : forall n P k, AllocatePool_answer n P k <> 0 -> AllocatePool_answer n P k ∉ P;
  event_fresh : forall n E st e, CreateEvent_answer n E = (st, e) -> EFI_ERROR st = false -> e <> 0 /\ e ∉ E;
  visible_fresh : forall n v st h, MakeVisible_answer n v = (st, h) -> EFI_ERROR st = false -> h <> 0 /\ v !! h = None;
  client_guid : length gMsvmVmbusClientGuid = 16%nat /\ Forall is_byte gMsvmVmbusClientGuid
}.

Section Inv.
Context {B : BuildOptions} {HV : Hypervisor}.

(** ** The invariant *)
Definition confidential (c : VMBUS_CHANNEL_CONTEXT) : bool :=
  ConfidentialRing c || negb (Z.land (VmbusFlags c) EFI_VMBUS_PROTOCOL_FLAGS_CONFIDENTIAL_EXTERNAL_MEMORY =? 0).

(** A context: its slot of the table points back to it, its interface is one that
    is allowed, its interrupt is within the part of the flags that is scanned, and
    it is confidential only on a confidential connection. *)
Record wf_context (s : vmbus) (p : Z) (c : VMBUS_CHANNEL_CONTEXT) : Prop := {
  ctx_addr : p <> 0;
  ctx_pool : p ∈ pool s;
  ctx_id : 0 <= ChannelId c < VMBUS_MAX_CHANNELS;
  ctx_entry : Channels (root s) !! Z.to_nat (ChannelId c) = Some p;
  ctx_data : wf_message (Message (Response c));
  ctx_allowed : VmbusRootIsChannelAllowed (InterfaceType c) = true;
  ctx_interrupt : Interrupt c <> 0 -> ChannelId c <= MaxInterruptUsed (root s);
  ctx_confidential : confidential c = true -> Confidential (root s) = true
}.

Definition wf_offer (m : VMBUS_MESSAGE) : Prop :=
  wf_message m /\
  VmbusRootIsChannelAllowed (zslice offer_InterfaceType 16 (Data m)) = true /\
  (forall id, load 4 (Data m) offer_ChildRelId = Ok id -> 0 <= id < VMBUS_MAX_CHANNELS).

(** A GPADL that was prepared: it holds the visibility of its buffer, if any. *)
Record wf_gpadl (s : vmbus) (g : EFI_VMBUS_GPADL) : Prop := {
  gp_legacy : Legacy g = false;
  gp_handle : 0 <= GpadlHandle g < VMBUS_MAX_GPADLS;
  gp_pages : 0 <= NumberOfPages g < 2 ^ 32;
  gp_visible : ProtectionHandle g <> 0 -> visible s !! ProtectionHandle g = Some (AllocatedBuffer g, BufferLength g)
}.

Record base (s : vmbus) : Prop := {
  b_channels : length (Channels (root s)) = 2048%nat;
  b_table : length (GpadlTable (root s)) = 256%nat;
  b_responses : Forall (fun r => wf_message (Message r)) (GpadlTable (root s));
  b_contexts : map_Forall (wf_context s) (channels s);
  b_entries : forall i p, Channels (root s) !! i = Some p -> p = 0 \/ exists c, channels s !! p = Some c /\ ChannelId c = Z.of_nat i;
  b_max : 0 <= MaxInterruptUsed (root s) < VMBUS_MAX_CHANNELS;
  b_flags : length (host_flags s) = 32%nat /\ length (paravisor_flags s) = 32%nat;
  b_slot : forall m, slot s = Some m -> wf_hv m;
  b_hots : forall p m, hots s !! p = Some m -> p ∈ pool s /\ channels s !! p = None /\ gpadls s !! p = None /\ wf_offer m;
  b_queue : NoDup (HotMessageList (root s)) /\ Forall (fun p => is_Some (hots s !! p)) (HotMessageList (root s));
  b_gpadls : forall p g, gpadls s !! p = Some g -> p <> 0 /\ p ∈ pool s /\ channels s !! p = None /\ wf_gpadl s g;
  b_protect : forall p p' g g', gpadls s !! p = Some g -> gpadls s !! p' = Some g' ->
    ProtectionHandle g <> 0 -> ProtectionHandle g = ProtectionHandle g' -> p = p'
}.

(** ** Frames *)

(** Only the slot, the flags, the signals and the time differ. *)
Record still (s s' : vmbus) : Prop := {
  st_root : root s' = root s; st_channels : channels s' = channels s; st_gpadls : gpadls s' = gpadls s;
  st_hots : hots s' = hots s; st_pool : pool s' = pool s; st_events : events s' = events s;
  st_published : published s' = published s; st_visible : visible s' = visible s; st_zeroed : zeroed s' = zeroed s;
  st_sent : sent s' = sent s; st_interrupted : interrupted s' = interrupted s
}.

(** What an interrupt leaves alone. *)
Definition skeleton (r : VMBUS_ROOT_CONTEXT) : VMBUS_ROOT_CONTEXT := set_GpadlTable [] (set_HotMessageList [] r).
Definition strip (c : VMBUS_CHANNEL_CONTEXT) : VMBUS_CHANNEL_CONTEXT :=
  set_Response (mkResponse (Event (Response c)) (mkMessage 0 [])) c.
Record quiet (s s' : vmbus) : Prop := {
  q_root : skeleton (root s') = skeleton (root s);
  q_table : map Event (GpadlTable (root s')) = map Event (GpadlTable (root s));
  q_channels : strip <$> channels s' = strip <$> channels s;
  q_gpadls : gpadls s' = gpadls s; q_events : events s' = events s; q_published : published s' = published s;
  q_visible : visible s' = visible s; q_zeroed : zeroed s' = zeroed s;
  q_queue : HotMessageList (root s) `prefix_of` HotMessageList (root s');
  q_sent : sent s `prefix_of` sent s'; q_interrupted : interrupted s' = interrupted s
}.

Lemma still_quiet s s' : still s s' -> quiet s s'.
Proof. intros [E]. split; try congruence; [by rewrite E|]. by exists []; rewrite app_nil_r. Qed.
Lemma still_refl s : still s s.
Proof. by split. Qed.
Lemma still_trans s s' s'' : still s s' -> still s' s'' -> still s s''.
Proof. intros [] []. split; congruence. Qed.
Lemma quiet_refl s : quiet s s.
Proof. apply still_quiet, still_refl. Qed.
Lemma quiet_trans s s' s'' : quiet s s' -> quiet s' s'' -> quiet s s''.
Proof. intros [] []. split; try congruence; by etrans. Qed.

Lemma still_base s s' : still s s' -> (forall m, slot s' = Some m -> wf_hv m) ->
  length (host_flags s') = 32%nat -> length (paravisor_flags s') = 32%nat -> base s -> base s'.
Proof.
  intros S Hm Hf Hp [H1 H2 H3 H4 H5 H6 H7 H8 H9 H10 H11 H12].
  destruct S as [Er Ec Eg Eh Ep Ee Epub Ev Ez Es Ei].
  split; rewrite ?Er, ?Ec, ?Eg, ?Eh, ?Ep; auto.
  - intros p c Hc. destruct (H4 p c Hc). split; rewrite ?Er, ?Ep; auto.
  - intros p g Hg. destruct (H11 p g Hg) as (? & ? & ? & [? ? ? ?]). split_and!; auto.
    split; auto. by rewrite Ev.
Qed.

(** Reading a context through a quiet change. *)
Lemma quiet_context s s' p c : quiet s s' -> channels s !! p = Some c -> exists c', channels s' !! p = Some c' /\ strip c' = strip c.
Proof.
  intros Q Hc. assert (E : (strip <$> channels s') !! p = Some (strip c)).
  { rewrite (q_channels _ _ Q), lookup_fmap, Hc. done. }
  rewrite lookup_fmap in E. destruct (channels s' !! p) as [c'|]; [|done]. exists c'. split; [done|]. cbn in E. congruence.
Qed.
Lemma quiet_no_context s s' p : quiet s s' -> channels s !! p = None -> channels s' !! p = None.
Proof.
  intros Q Hc. assert (E : (strip <$> channels s') !! p = None).
  { by rewrite (q_channels _ _ Q), lookup_fmap, Hc. }
  rewrite lookup_fmap in E. by destruct (channels s' !! p).
Qed.
Lemma quiet_entry s s' i r : quiet s s' -> GpadlTable (root s) !! i = Some r ->
  exists r', GpadlTable (root s') !! i = Some r' /\ Event r' = Event r.
Proof.
  intros Q Hr. assert (E : map Event (GpadlTable (root s')) !! i = Some (Event r)).
  { rewrite (q_table _ _ Q), list_lookup_fmap, Hr. done. }
  rewrite list_lookup_fmap in E. destruct (GpadlTable (root s') !! i) as [r'|]; [|done]. exists r'. split; [done|]. cbn in E. congruence.
Qed.
Lemma quiet_field {A} (f : VMBUS_ROOT_CONTEXT -> A) s s' :
  (forall r, f (skeleton r) = f r) -> quiet s s' -> f (root s') = f (root s).
Proof. intros F Q. rewrite <- (F (root s')), <- (F (root s)). by rewrite (q_root _ _ Q). Qed.

(** ** Calm computations: they keep [base] and are quiet *)
Definition calm {A} (c : V A) (Q : A -> vmbus -> Prop) (s : vmbus) : Prop :=
  wp c (fun a s' => base s' /\ quiet s s' /\ Q a s') s.

Lemma calm_bind {A C} (c : V A) (k : A -> V C) P Q s :
  calm c P s -> (forall a s', base s' -> quiet s s' -> P a s' -> calm (k a) Q s') -> calm (c ≫= k) Q s.
Proof.
  intros H K. eapply wp_seq; [apply H|]. intros a s' (Hb & Hq & HP).
  eapply wp_mono; [by apply K|]. intros a' s'' (? & ? & ?). eauto using quiet_trans.
Qed.
Lemma calm_shift {A} (c : V A) Q s s1 : quiet s s1 -> calm c Q s1 -> wp c (fun a s' => base s' /\ quiet s s' /\ Q a s') s1.
Proof. intros Hq H. eapply wp_mono; [apply H|]. intros a s' (? & ? & ?). eauto using quiet_trans. Qed.
Lemma calm_here {A} (c : V A) (Q : A -> vmbus -> Prop) s :
  base s -> wp c (fun a s' => s' = s /\ Q a s) s -> calm c Q s.
Proof. intros H W. eapply wp_mono; [apply W|]. intros a s' [-> ?]. auto using quiet_refl. Qed.
Lemma calm_mono {A} (c : V A) (P Q : A -> vmbus -> Prop) s : calm c P s -> (forall a s', quiet s s' -> P a s' -> Q a s') -> calm c Q s.
Proof. intros H K. eapply wp_mono; [apply H|]. intros a s' (? & ? & ?). auto. Qed.
Lemma calm_ret {A} (a : A) (Q : A -> vmbus -> Prop) s : base s -> Q a s -> calm (mret a) Q s.
Proof. intros. apply calm_here; [done|]. by apply wp_ret. Qed.
Lemma calm_still {A} (c : V A) (Q : A -> vmbus -> Prop) s :
  base s -> wp c (fun a s' => still s s' /\ slot s' = slot s /\ host_flags s' = host_flags s /\ paravisor_flags s' = paravisor_flags s /\ Q a s') s -> calm c Q s.
Proof.
  intros H W. eapply wp_mono; [apply W|]. intros a s' (S & Es & Eh & Ep & ?). split_and!; auto using still_quiet.
  apply (still_base s); [done|rewrite Es; apply H|rewrite Eh; apply H|rewrite Ep; apply H|done].
Qed.
End Inv.
End VmbusInv.
