(* ===== verification/VmbusInterrupt.v ===== *)
(** Interrupts of the VMBus driver, and waiting for them: whatever the host puts
    into the flags and the message slot, at whatever time, they keep the
    invariant and leave the rest of the state alone. *)
From stdpp Require Import base list numbers list_numbers option gmap fin_maps.
From Stdlib Require Import ZArith Lia.
From S2P Require Import Prelude Circular PkRing EmclPacket EmclPacketProps Vmbus VmbusInv.
Open Scope Z_scope.

Module VmbusInterrupt.
Import PkRing EmclPacket Vmbus VmbusInv.

(** ** Arrays and messages *)
Lemma entry_ok {A} (l : list A) i : 0 <= i < Zlength l -> exists a, entry l i = Ok a /\ l !! Z.to_nat i = Some a.
Proof.
  intros H. destruct (lookup_lt_is_Some_2 l (Z.to_nat i)) as [a E]; [unfold Zlength in H; lia|].
  exists a. split; [|done]. unfold entry. rewrite E. by destruct (Z.ltb_spec i 0); [lia|].
Qed.
Lemma Zlength_240 (l : list Z) : length l = 240%nat -> Zlength l = 240.
Proof. unfold Zlength. lia. Qed.
Lemma field_ok n off m : wf_message m -> 0 <= off -> off + Z.of_nat n <= 240 ->
  exists v, load n (Data m) off = Ok v /\ 0 <= v < 256 ^ Z.of_nat n.
Proof. intros [H1 H2] ? ?. apply load_run; [done|done|]. by rewrite (Zlength_240 _ H1). Qed.
Lemma copy_wf d src n : length d = 240%nat -> Forall is_byte d -> length src = 240%nat -> Forall is_byte src -> 0 <= n <= 240 ->
  exists d', CopyMem d 0 src 0 n = Ok d' /\ length d' = 240%nat /\ Forall is_byte d' /\ take (Z.to_nat n) d' = take (Z.to_nat n) src.
Proof.
  intros H1 H2 H3 H4 Hn. rewrite CopyMem_ok by (rewrite ?Zlength_240 by done; lia).
  eexists. split; [done|]. unfold zslice. rewrite Z.add_0_l. change (Z.to_nat 0) with O. rewrite drop_0, take_0, app_nil_l. split_and!.
  - rewrite length_app, length_take, length_drop. lia.
  - apply Forall_app. auto using Forall_take, Forall_drop.
  - rewrite take_app_le by (rewrite length_take; lia). by rewrite take_take, Nat.min_id.
Qed.

Section Interrupt.
Context {B : BuildOptions} {HV : Hypervisor} {HL : HypervisorLaws}.

(** ** Primitives *)
Lemma calm_rget {A} (f : VMBUS_ROOT_CONTEXT -> A) s : base s -> calm (rget f) (fun a s' => a = f (root s')) s.
Proof. intros. by apply calm_here; [|apply wp_rget]. Qed.
Lemma calm_vget {A} (f : vmbus -> A) s : base s -> calm (vget f) (fun a s' => a = f s') s.
Proof. intros. by apply calm_here; [|apply wp_vget]. Qed.
Lemma calm_fail c s : base s -> calm (FAIL_FAST_IF_FALSE c) (fun _ _ => c = true) s.
Proof. intros. apply calm_here; [done|]. by apply wp_failfast. Qed.
Lemma calm_lift {A} (r : result A) (P : A -> Prop) s :
  base s -> match r with Ok a => P a | Fault f => tolerated f end -> calm (vlift r) (fun a _ => P a) s.
Proof. intros H Hr. apply calm_here; [done|]. apply wp_lift. by destruct r. Qed.
Lemma calm_lift_ok {A} (r : result A) a s : base s -> r = Ok a -> calm (vlift r) (fun x _ => x = a) s.
Proof. intros H ->. apply calm_lift; done. Qed.
Lemma calm_assert c s : base s -> calm (vlift (ASSERT c)) (fun _ _ => True) s.
Proof. intros. apply calm_here; [done|]. by apply wp_any_assert. Qed.
Lemma calm_signal e s : base s -> calm (SignalEvent e) (fun _ _ => True) s.
Proof. intros. apply calm_still; [done|]. apply wp_vmod. destruct (decide _); by split_and!. Qed.
Lemma calm_consume e s : base s -> calm (consume e) (fun _ _ => True) s.
Proof. intros. apply calm_still; [done|]. unfold wp, consume. destruct (decide _); by split_and!. Qed.
Lemma calm_ask {A} (f : nat -> A) s : base s -> calm (ask f) (fun a _ => exists n, a = f n) s.
Proof. intros. apply calm_still; [done|]. apply wp_ask. split_and!; eauto. by split. Qed.

(** An access to the message page sees a message of its shape, and changes the
    page at most. *)
Lemma wp_fetch {A} (f : HV_MESSAGE -> A) s : base s ->
  wp (fetch f) (fun a s' => base s' /\ still s s' /\ exists m, wf_hv m /\ a = f m) s.
Proof.
  intros H. unfold wp, fetch. destruct (slot s) as [m|] eqn:E; [|done].
  assert (W : wf_hv (refetch (tick s) m)) by (apply refetch_wf, H, E).
  assert (S : still s (next_tick (set_slot (Some (refetch (tick s) m)) s))) by by split.
  split_and!; [|done|eauto]. apply (still_base s); [done| |apply H|apply H|done].
  intros m' E'. simpl in E'. by simplify_eq.
Qed.
Lemma calm_fetch {A} (f : HV_MESSAGE -> A) s : base s -> calm (fetch f) (fun a _ => exists m, wf_hv m /\ a = f m) s.
Proof. intros H. eapply wp_mono; [by apply wp_fetch|]. intros a s' (? & ? & ?). auto using still_quiet. Qed.
Lemma calm_fetch_field n off s : base s -> 0 <= off -> off + Z.of_nat n <= 240 ->
  calm (fetch_field n off) (fun v _ => 0 <= v < 256 ^ Z.of_nat n) s.
Proof.
  intros H H1 H2. eapply calm_bind; [by apply calm_fetch|cbv beta]. intros r s' Hb _ (m & (? & Hl & Hy) & ->).
  destruct (load_run n (Payload m) off) as (v & E & Hv); [done|done|by rewrite Zlength_240 by done|].
  apply calm_lift; [done|]. by rewrite E.
Qed.
Lemma wp_complete s : base s -> wp CompleteSintMessage (fun _ s' => base s' /\ still s s') s.
Proof.
  intros H. unfold CompleteSintMessage. apply wp_bind, wp_vmod, wp_ask.
  assert (S : still s (next_tick (set_slot None s))) by by split. split; [|done].
  apply (still_base s); [done|done|apply H|apply H|done].
Qed.
Lemma calm_complete s : base s -> calm (st ← CompleteSintMessage; vlift (ASSERT (negb (EFI_ERROR st)))) (fun _ _ => True) s.
Proof.
  intros H. eapply (calm_bind _ _ (fun _ _ => True)).
  - eapply wp_mono; [by apply wp_complete|]. intros _ s' (? & ?). auto using still_quiet.
  - intros a s' Hb _ _. by apply calm_assert.
Qed.

Lemma wp_channel_at i Q s : base s -> 0 <= i < VMBUS_MAX_CHANNELS ->
  (forall p, Channels (root s) !! Z.to_nat i = Some p -> Q p s) -> wp (channel_at i) Q s.
Proof.
  intros H Hi K. unfold channel_at. apply wp_bind, wp_rget.
  destruct (entry_ok (Channels (root s)) i) as (p & E & El); [unfold Zlength; rewrite (b_channels _ H); done|].
  apply (wp_lift_ok _ p); auto.
Qed.
Lemma wp_gpadl_entry i Q s : base s -> 0 <= i < VMBUS_MAX_GPADLS ->
  (forall r, GpadlTable (root s) !! Z.to_nat i = Some r -> Q r s) -> wp (gpadl_entry i) Q s.
Proof.
  intros H Hi K. unfold gpadl_entry. apply wp_bind, wp_rget.
  destruct (entry_ok (GpadlTable (root s)) i) as (p & E & El); [unfold Zlength; rewrite (b_table _ H); done|].
  apply (wp_lift_ok _ p); auto.
Qed.
Lemma wp_get_context p c (Q : VMBUS_CHANNEL_CONTEXT -> vmbus -> Prop) s : channels s !! p = Some c -> Q c s -> wp (get_context p) Q s.
Proof. intros E K. unfold wp, get_context. rewrite E. by destruct (p =? 0). Qed.

Lemma calm_channel_at i s : base s -> 0 <= i < VMBUS_MAX_CHANNELS ->
  calm (channel_at i) (fun p s' => Channels (root s') !! Z.to_nat i = Some p) s.
Proof. intros H Hi. apply calm_here; [done|]. by apply wp_channel_at. Qed.
(** A context found in the table exists. *)
Lemma calm_get_entry i p s : base s -> Channels (root s) !! i = Some p ->
  calm (get_context p) (fun c s' => channels s' !! p = Some c /\ ChannelId c = Z.of_nat i) s.
Proof.
  intros H E. apply calm_here; [done|]. unfold wp, get_context.
  destruct (b_entries _ H i p E) as [->|(c & Hc & Hi)]; [done|]. rewrite Hc. by destruct (p =? 0).
Qed.
Lemma calm_get_context p c s : base s -> channels s !! p = Some c -> calm (get_context p) (fun x s' => x = c /\ channels s' !! p = Some c) s.
Proof. intros H E. apply calm_here; [done|]. unfold wp, get_context. rewrite E. by destruct (p =? 0). Qed.
Lemma calm_gpadl_entry i s : base s -> 0 <= i < VMBUS_MAX_GPADLS ->
  calm (gpadl_entry i) (fun r s' => GpadlTable (root s') !! Z.to_nat i = Some r) s.
Proof. intros H Hi. apply calm_here; [done|]. by apply wp_gpadl_entry. Qed.
Lemma entry_wf i r s : base s -> GpadlTable (root s) !! i = Some r -> wf_message (Message r).
Proof. intros H E. pose proof (b_responses _ H) as F. rewrite Forall_lookup in F. by apply (F i). Qed.

(** ** Responses *)
(** A context changes, but not what the invariant says of it. *)
Lemma base_update p c c' s : base s -> channels s !! p = Some c -> ChannelId c' = ChannelId c -> InterfaceType c' = InterfaceType c ->
  Interrupt c' = Interrupt c -> confidential c' = confidential c -> wf_message (Message (Response c')) ->
  base (set_channels (<[p := c']> (channels s)) s).
Proof.
  intros H Hc Ei Et En Ec Hm. pose proof H as [H1 H2 H3 H4 H5 H6 H7 H8 H9 H10 H11 H12].
  assert (N : forall q, channels s !! q = None -> <[p := c']> (channels s) !! q = None).
  { intros q Hq. destruct (decide (p = q)) as [->|]; [congruence|]. by rewrite lookup_insert_ne. }
  split; simpl; auto.
  - apply map_Forall_insert_2; [|intros q d Hd; destruct (H4 q d Hd); by split].
    destruct (H4 p c Hc). split; simpl; rewrite ?Ei, ?Et, ?En, ?Ec; auto.
  - intros i q Hq. destruct (H5 i q Hq) as [->|(d & Hd & Hi)]; [by left|right].
    destruct (decide (p = q)) as [->|].
    + exists c'. rewrite lookup_insert_eq. split; [done|congruence].
    + exists d. by rewrite lookup_insert_ne.
  - intros q m Hm'. destruct (H9 q m Hm') as (? & ? & ? & ?). auto.
  - intros q g Hg. destruct (H11 q g Hg) as (? & ? & ? & [? ? ? ?]). split_and!; auto. by split.
Qed.
Lemma calm_upd_response p c r s : base s -> channels s !! p = Some c -> Event r = Event (Response c) -> wf_message (Message r) ->
  calm (upd_context p (set_Response r)) (fun _ _ => True) s.
Proof.
  intros H Hc He Hm. unfold upd_context. eapply calm_bind; [by eapply calm_get_context|].
  intros x s' Hb _ [-> Hc']. apply wp_vmod. split_and!; [by apply (base_update p c)| |done].
  split; simpl; try done. rewrite fmap_insert. apply map_eq. intros q. destruct (decide (p = q)) as [->|].
  - rewrite lookup_insert_eq, lookup_fmap, Hc'. simpl. unfold strip, set_Response. simpl. by rewrite He.
  - by rewrite lookup_insert_ne.
Qed.
Lemma calm_set_entry i r s : base s -> 0 <= i < VMBUS_MAX_GPADLS -> wf_message (Message r) ->
  (forall r', GpadlTable (root s) !! Z.to_nat i = Some r' -> Event r = Event r') ->
  calm (set_gpadl_entry i r) (fun _ _ => True) s.
Proof.
  intros H Hi Hm He. unfold set_gpadl_entry. apply wp_bind, wp_gpadl_entry; [done..|]. intros r' E. apply wp_rmod. pose proof H as [H1 H2 H3 H4 H5 H6 H7 H8 H9 H10 H11 H12]. split_and!; [| |done].
  - split; simpl; auto.
    + by rewrite length_insert.
    + by apply Forall_insert.
    + intros q d Hd. destruct (H4 q d Hd). by split.
    + intros q g Hg. destruct (H11 q g Hg) as (? & ? & ? & [? ? ? ?]). split_and!; auto. by split.
  - split; simpl; try done. apply list_eq. intros j. rewrite !list_lookup_fmap.
    destruct (decide (j = Z.to_nat i)) as [->|].
    + rewrite list_lookup_insert_eq by (apply lookup_lt_is_Some; eauto). rewrite E. simpl. by rewrite (He r').
    + by rewrite list_lookup_insert_ne.
Qed.
(** ** Flags *)
Lemma scan_forward w b : BitScanForward64 w = Some b -> 0 <= b < 64 /\ Z.testbit w b = true.
Proof. intros E. apply List.find_some in E. destruct E as [E1 E2]. apply list_elem_of_In, elem_of_seqZ in E1. split; [lia|done]. Qed.

Lemma calm_exchange paravisor i s : base s -> 0 <= i < 32 -> calm (exchange_flags paravisor i) (fun _ _ => True) s.
Proof.
  intros H Hi. unfold exchange_flags. destruct (b_flags _ H) as [F1 F2].
  assert (E : exists w, entry (if paravisor then paravisor_flags s else host_flags s) i = Ok w).
  { destruct (entry_ok (if paravisor then paravisor_flags s else host_flags s) i) as (w & ? & _); [|eauto].
    unfold Zlength. destruct paravisor; lia. }
  destruct E as [w E]. eapply (wp_seq _ _ (fun l s' => l = (if paravisor then paravisor_flags s else host_flags s) /\ s' = s)); [by destruct paravisor|].
  intros l s' [-> ->]. eapply wp_seq; [apply (wp_lift_ok _ w (fun x s' => x = w /\ s' = s)); done|]. intros x s' [-> ->].
  apply wp_bind, wp_vmod, wp_ret.
  match goal with |- base ?x /\ _ => assert (S : still s x) by (destruct paravisor; by split) end.
  split_and!; [|by apply still_quiet|done].
  destruct paravisor; (apply (still_base s); [done|apply H|simpl; by rewrite ?length_insert|simpl; by rewrite ?length_insert|done]).
Qed.
Lemma calm_scan_bits n i w s : base s -> 0 <= i < 32 -> calm (scan_bits n i w) (fun _ _ => True) s.
Proof.
  intros H Hi. revert w s H. induction n as [|n IH]; intros w s H; cbn [scan_bits];
    (destruct (BitScanForward64 w) as [b|] eqn:E; [|by apply calm_ret]).
  { by apply (calm_lift _ (fun _ => True)). }
  destruct (scan_forward w b E) as [Hb _].
  eapply calm_bind; [apply calm_channel_at; [done|unfold VMBUS_MAX_CHANNELS; lia]|cbv beta]. intros p s1 H1 _ Ep.
  eapply calm_bind; [apply (calm_get_entry _ _ _ H1 Ep)|cbv beta]. intros c s2 H2 _ _.
  eapply calm_bind; [by apply calm_signal|cbv beta]. intros _ s3 H3 _ _. by apply IH.
Qed.
Lemma calm_scan_words n paravisor i s : base s -> 0 <= i -> i + Z.of_nat n <= 32 -> calm (scan_words n paravisor i) (fun _ _ => True) s.
Proof.
  revert i s. induction n as [|n IH]; intros i s H Hi Hn; cbn [scan_words]; [by apply calm_ret|].
  eapply calm_bind; [apply calm_exchange; [done|lia]|cbv beta]. intros w s1 H1 _ _.
  eapply calm_bind; [apply calm_scan_bits; [done|lia]|cbv beta]. intros _ s2 H2 _ _. apply IH; [done|lia|lia].
Qed.
Lemma calm_scan paravisor s : base s -> calm (VmbusRootScanEventFlags paravisor) (fun _ _ => True) s.
Proof.
  intros H. unfold VmbusRootScanEventFlags. eapply calm_bind; [by apply calm_rget|cbv beta]. intros m s1 H1 _ ->.
  pose proof (b_max _ H1) as Hm. unfold VMBUS_MAX_CHANNELS in Hm. apply calm_scan_words; [done|lia|zlia].
Qed.

(** ** Messages *)
Lemma calm_respond r s : base s -> wf_message (Message r) ->
  calm (respond r) (fun r' _ => Event r' = Event r /\ wf_message (Message r')) s.
Proof.
  intros H [Hl Hy]. unfold respond. eapply calm_bind; [by apply calm_fetch|cbv beta]. intros size s1 H1 _ (m & (Hs & _) & ->).
  eapply calm_bind; [by apply calm_fail|cbv beta]. intros [] s2 H2 _ Hc. apply Z.leb_le in Hc.
  eapply calm_bind; [by apply calm_fetch|cbv beta]. intros payload s3 H3 _ (m' & (_ & Hl' & Hy') & ->).
  destruct (copy_wf (Data (Message r)) (Payload m') (PayloadSize m)) as (d & E & Hd & Hd2 & _); [done..|].
  eapply calm_bind; [by apply (calm_lift_ok _ d)|cbv beta]. intros x s4 H4 _ ->.
  eapply calm_bind; [by apply calm_signal|cbv beta]. intros _ s5 H5 _ _. apply calm_ret; [done|]. by split_and!.
Qed.
Lemma calm_respond_gpadl off s : base s -> 0 <= off -> off + 4 <= 240 -> calm (respond_gpadl off) (fun _ _ => True) s.
Proof.
  intros H Ho Ho'. unfold respond_gpadl. eapply calm_bind; [by apply calm_fetch_field|cbv beta]. intros h s1 H1 _ Hh.
  eapply calm_bind; [by apply calm_fail|cbv beta]. intros [] s2 H2 _ Hlt. apply Z.ltb_lt in Hlt. unfold VMBUS_MAX_GPADLS, VMBUS_MAX_CHANNELS in Hlt.
  unfold VmbusRootValidateGpadl. eapply calm_bind.
  { eapply (calm_bind _ _ _ (fun _ _ => True)); [apply calm_gpadl_entry; [done|unfold VMBUS_MAX_GPADLS, VMBUS_MAX_CHANNELS; lia]|cbv beta]. intros e s3 H3 _ _. by apply calm_ret. }
  intros v s3 H3 _ _. eapply calm_bind; [by apply calm_fail|cbv beta]. intros _ s4 H4 _ _.
  eapply calm_bind; [apply calm_gpadl_entry; [done|unfold VMBUS_MAX_GPADLS, VMBUS_MAX_CHANNELS; lia]|cbv beta]. intros r s5 H5 _ Er.
  eapply calm_bind; [apply calm_respond; [done|apply (entry_wf _ _ _ H5 Er)]|cbv beta]. intros r' s6 H6 Q [Ee Hm].
  eapply calm_bind; [apply calm_set_entry; [done|unfold VMBUS_MAX_GPADLS, VMBUS_MAX_CHANNELS; lia|done|]|].
  - intros r2 Er2. destruct (quiet_entry _ _ _ _ Q Er) as (r3 & Er3 & Ee3). simplify_eq. congruence.
  - intros _ s7 H7 _ _. by apply calm_ret.
Qed.
Lemma calm_dispatch s : base s -> calm VmbusRootDispatchMessage (fun _ _ => True) s.
Proof.
  intros H. unfold VmbusRootDispatchMessage. eapply calm_bind; [by apply calm_fetch|cbv beta]. intros ty s1 H1 _ _.
  eapply calm_bind; [by apply calm_fail|cbv beta]. intros _ s2 H2 _ _.
  eapply calm_bind; [by apply calm_fetch_field|cbv beta]. intros mt s3 H3 _ _.
  eapply calm_bind; [by apply calm_rget|cbv beta]. intros d s4 H4 _ _.
  assert (Sig : forall f, calm (e ← rget f; _ ← SignalEvent e; mret false) (fun _ _ => True) s4).
  { intros f. eapply calm_bind; [by apply calm_rget|cbv beta]. intros e s5 H5 _ _.
    eapply calm_bind; [by apply calm_signal|cbv beta]. intros _ s6 H6 _ _. by apply calm_ret. }
  destruct (_ && _); [apply Sig|]. destruct (_ || _); [apply Sig|]. destruct (_ =? _).
  { eapply calm_bind; [by apply calm_fetch_field|cbv beta]. intros id s5 H5 _ Hid.
    eapply calm_bind; [by apply calm_fail|cbv beta]. intros [] s6 H6 _ Hlt. apply Z.ltb_lt in Hlt. unfold VMBUS_MAX_GPADLS, VMBUS_MAX_CHANNELS in Hlt.
    eapply calm_bind; [apply calm_channel_at; [done|unfold VMBUS_MAX_GPADLS, VMBUS_MAX_CHANNELS; lia]|cbv beta]. intros p s7 H7 _ Ep.
    eapply calm_bind; [apply (calm_get_entry _ _ _ H7 Ep)|cbv beta]. intros c s8 H8 _ [Hc _].
    eapply calm_bind; [apply calm_respond; [done|by destruct (b_contexts _ H8 p c Hc)]|cbv beta]. intros r s9 H9 Q [Ee Hm].
    destruct (quiet_context _ _ _ _ Q Hc) as (c' & Hc' & Es).
    eapply calm_bind; [eapply calm_upd_response; [done|done| |done]|].
    - rewrite Ee. by apply (f_equal (fun c => Event (Response c))) in Es.
    - intros _ s10 H10 _ _. by apply calm_ret. }
  destruct (_ =? _); [by apply calm_respond_gpadl|]. destruct (_ =? _); [by apply calm_respond_gpadl|].
  destruct (_ =? _); [by apply calm_ret|].
  eapply calm_bind; [by apply calm_assert|cbv beta]. intros _ s5 H5 _ _. by apply calm_ret.
Qed.
Lemma calm_notify s : base s -> calm VmbusRootSintNotify (fun _ _ => True) s.
Proof.
  intros H. unfold VmbusRootSintNotify. eapply calm_bind; [by apply calm_scan|cbv beta]. intros _ s1 H1 _ _.
  eapply calm_bind; [by apply calm_rget|cbv beta]. intros c s2 H2 _ _.
  eapply (calm_bind _ _ (fun _ _ => True)); [destruct c; [by apply calm_scan|by apply calm_ret]|cbv beta]. intros _ s3 H3 _ _.
  eapply calm_bind; [by apply calm_vget|cbv beta]. intros [m|] s4 H4 _ _; [|by apply calm_ret].
  eapply calm_bind; [by apply calm_dispatch|cbv beta]. intros [] s5 H5 _ _; [by apply calm_complete|by apply calm_ret].
Qed.
(** ** Pool memory *)
(** Memory that was allocated and holds nothing yet. *)
Record owned (s : vmbus) (p : Z) : Prop := {
  own_addr : p <> 0; own_pool : p ∈ pool s; own_channels : channels s !! p = None;
  own_gpadls : gpadls s !! p = None; own_hots : hots s !! p = None
}.
Lemma owned_still s s' p : still s s' -> owned s p -> owned s' p.
Proof. intros [] []. split; congruence. Qed.

Lemma base_pool P s : base s ->
  (forall p, p ∈ pool s -> is_Some (channels s !! p) \/ is_Some (gpadls s !! p) \/ is_Some (hots s !! p) -> p ∈ P) -> base (set_pool P s).
Proof.
  intros [H1 H2 H3 H4 H5 H6 H7 H8 H9 H10 H11 H12] HP. split; simpl; auto.
  - intros p c Hc. destruct (H4 p c Hc). split; simpl; eauto 6.
  - intros p m Hm. destruct (H9 p m Hm) as (? & ? & ? & ?). split_and!; eauto 6.
  - intros p g Hg. destruct (H11 p g Hg) as (? & ? & ? & [? ? ? ?]). split_and!; [done|apply HP; eauto|done|by split].
Qed.
Lemma wp_alloc k (Q : Z -> vmbus -> Prop) s : base s -> (base (next_tick s) -> Q 0 (next_tick s)) ->
  (forall p, let s' := set_pool ({[p]} ∪ pool s) (next_tick s) in p <> 0 -> base s' -> owned s' p -> Q p s') -> wp (AllocatePool k) Q s.
Proof.
  intros H K0 K1. unfold wp, AllocatePool. set (p := AllocatePool_answer _ _ _).
  assert (H' : base (next_tick s)) by (apply (still_base s); [by split|apply H|apply H|apply H|done]).
  destruct (Z.eqb_spec p 0) as [E|E]; [auto|]. pose proof (alloc_fresh (tick s) (pool s) k E) as F. fold p in F. apply K1; [done|..].
  - apply base_pool; [done|]. intros q Hq _. set_solver.
  - split; simpl; [done|set_solver| | |]; apply eq_None_not_Some; intros [x Hx]; apply F.
    + by destruct (b_contexts _ H p x Hx).
    + by apply (b_gpadls _ H p x Hx).
    + by apply (b_hots _ H p x Hx).
Qed.
Lemma calm_alloc k s : base s -> calm (AllocatePool k) (fun p s' => p = 0 \/ owned s' p) s.
Proof.
  intros H. apply wp_alloc; [done|..].
  - intros H'. split_and!; [done| |by left]. by apply still_quiet.
  - intros p s' Hp H' O. split_and!; [done| |by right]. by split.
Qed.
Lemma calm_free p s : base s -> owned s p -> calm (FreePool p) (fun _ _ => True) s.
Proof.
  intros H [Ha Hp Hc Hg Hh]. unfold calm, wp, FreePool. rewrite decide_True by done. split_and!; [|by split|done].
  apply base_pool; [done|]. intros q Hq Hu. apply elem_of_difference. split; [done|].
  rewrite elem_of_singleton. intros ->. rewrite Hc, Hg, Hh in Hu. destruct Hu as [[]|[[]|[]]]; done.
Qed.

(** ** Offers that arrive late *)
Lemma base_hot p m s : base s -> owned s p -> wf_offer m ->
  base (set_root (set_HotMessageList (HotMessageList (root s) ++ [p]) (root s)) (set_hots (<[p := m]> (hots s)) s)).
Proof.
  intros [H1 H2 H3 H4 H5 H6 H7 H8 H9 [H10 H10'] H11 H12] [Ha Hp Hc Hg Hh] Hm. split; simpl; auto.
  - intros q c Hq. destruct (H4 q c Hq). by split.
  - intros q m' Hq. destruct (decide (p = q)) as [->|].
    + rewrite lookup_insert_eq in Hq. by simplify_eq.
    + rewrite lookup_insert_ne in Hq by done. by apply H9.
  - rewrite NoDup_app, Forall_app. rewrite Forall_forall in H10'. split_and!; auto.
    + intros q Hq. rewrite list_elem_of_singleton. intros ->. destruct (H10' p Hq). congruence.
    + apply NoDup_singleton.
    + rewrite Forall_forall. intros q Hq. destruct (decide (p = q)) as [->|]; [by rewrite lookup_insert_eq|].
      rewrite lookup_insert_ne by done. by apply H10'.
    + constructor; [by rewrite lookup_insert_eq|constructor].
  - intros q g Hq. destruct (H11 q g Hq) as (? & ? & ? & [? ? ? ?]). split_and!; auto. by split.
Qed.
Lemma wf_offer_intro m type id : wf_message m -> offer_InterfaceType + 16 <= 240 -> mem_read (Data m) offer_InterfaceType 16 = Ok type ->
  VmbusRootIsChannelAllowed type = true -> load 4 (Data m) offer_ChildRelId = Ok id -> 0 <= id < VMBUS_MAX_CHANNELS -> wf_offer m.
Proof.
  intros Hm Ho Ht Ha Hi Hid. split; [done|]. rewrite read_run in Ht by (destruct Hm as [Hl _]; rewrite ?(Zlength_240 _ Hl); done).
  split; [by simplify_eq|]. intros id' E. rewrite Hi in E. injection E as <-. done.
Qed.

Lemma calm_hot_message p s : base s -> owned s p -> calm (hot_add_message p) (fun _ _ => True) s.
Proof.
  intros H O. unfold hot_add_message.
  eapply wp_seq; [by apply wp_fetch|]. intros size s1 (H1 & S1 & m0 & W0 & ->).
  eapply wp_seq; [by apply wp_fetch|]. intros payload s2 (H2 & S2 & m & W & ->).
  pose proof (still_trans _ _ _ S1 S2) as S. pose proof (owned_still _ _ _ S O) as O2.
  apply calm_shift; [by apply still_quiet|].
  clear S S1 S2. destruct W as (_ & Hl & Hy).
  destruct (copy_wf (replicate 240 0) (Payload m) sizeof_OFFER) as (d & E & Hd & Hdy & _);
    [by rewrite length_replicate|by apply Forall_replicate|done|done|done|].
  rewrite E. set (msg := mkMessage (PayloadSize m0) d). assert (Wm : wf_message msg) by by split.
  destruct (field_ok 4 0 msg) as (mt & Et & _); [done|done|done|].
  destruct (field_ok 4 offer_ChildRelId msg) as (id & Ei & Hi); [done|done|done|].
  apply wp_bind, (wp_lift_ok _ d); [done|]. fold msg. unfold field, offer_type.
  apply wp_bind, (wp_lift_ok _ mt); [done|]. apply wp_bind, (wp_lift_ok _ id); [done|].
  apply wp_bind, wp_failfast. intros Hc. apply andb_prop in Hc as [_ Hc]. apply Z.ltb_lt in Hc.
  apply wp_bind, wp_channel_at; [done|lia|]. intros q Eq. apply wp_bind, wp_failfast. intros _.
  assert (Er : mem_read (Data msg) offer_InterfaceType 16 = Ok (zslice offer_InterfaceType 16 d)).
  { apply read_run; [done|done|]. by rewrite (Zlength_240 _ Hd). }
  apply wp_bind, (wp_lift_ok _ _ _ _ Er). destruct (VmbusRootIsChannelAllowed _) eqn:Ha; [|by apply calm_free].
  apply wp_bind, wp_vmod, wp_bind, wp_rmod, wp_bind, wp_rget.
  assert (W : wf_offer msg) by (eapply wf_offer_intro; try done; lia).
  pose proof (base_hot p msg _ H2 O2 W) as Hb. eapply wp_mono; [by apply calm_signal|].
  intros a s' (Kb & Kq & KT). split_and!; [done| |done]. eapply quiet_trans; [|exact Kq]. split; try done. simpl. by apply prefix_app_r.
Qed.
Lemma calm_hot_allocation s : base s -> calm VmbusRootHotAddAllocation (fun _ _ => True) s.
Proof.
  intros H. unfold VmbusRootHotAddAllocation. eapply calm_bind; [by apply calm_vget|cbv beta]. intros m s1 H1 _ _.
  eapply calm_bind; [by apply calm_fail|cbv beta]. intros _ s2 H2 _ _.
  eapply calm_bind; [by apply calm_alloc|cbv beta]. intros p s3 H3 _ Hp.
  eapply (calm_bind _ _ (fun _ _ => True)).
  - destruct (Z.eqb_spec p 0); [by apply calm_ret|]. destruct Hp; [done|]. by apply calm_hot_message.
  - intros _ s4 H4 _ _. by apply calm_complete.
Qed.

(** ** Interrupts and waiting *)
Lemma length_merge l l' : length (merge_flags l l') = length l.
Proof. apply length_imap. Qed.
Lemma calm_interrupt s : base s -> calm take_interrupt (fun _ _ => True) s.
Proof.
  intros H. unfold take_interrupt. eapply calm_bind; [by apply calm_ask|cbv beta]. intros i s1 H1 _ [n ->].
  eapply (calm_bind _ _ (fun _ _ => True)).
  { apply wp_vmod. match goal with |- base ?x /\ _ => assert (S : still s1 x) by by split end.
    split_and!; [|by apply still_quiet|done]. apply (still_base s1); [done| |simpl; rewrite length_merge; apply H1..|done].
    simpl. intros m Em. destruct (slot s1) as [m'|] eqn:E; [apply H1; congruence|by apply (host_wf n)]. }
  intros _ s2 H2 _ _. eapply calm_bind; [by apply calm_notify|cbv beta]. intros _ s3 H3 _ _.
  eapply calm_bind; [by apply calm_rget|cbv beta]. intros e s4 H4 _ _.
  eapply calm_bind; [by apply calm_consume|cbv beta]. intros [] s5 H5 _ _; [by apply calm_hot_allocation|by apply calm_ret].
Qed.
Lemma calm_wait n e s : base s -> calm (wait_event n e) (fun _ _ => True) s.
Proof.
  revert s. induction n as [|n IH]; intros s H; cbn [wait_event];
    (eapply calm_bind; [by apply calm_consume|cbv beta]; intros [] s1 H1 _ _; [by apply calm_ret|]).
  - by apply (calm_lift _ (fun _ => True)).
  - eapply calm_bind; [by apply calm_interrupt|cbv beta]. intros _ s2 H2 _ _. by apply IH.
Qed.
Lemma calm_poll n s : base s -> calm (poll_slot n) (fun _ _ => True) s.
Proof.
  revert s. induction n as [|n IH]; intros s H; cbn [poll_slot];
    (eapply calm_bind; [by apply calm_vget|cbv beta]; intros [m|] s1 H1 _ _; [by apply calm_ret|]).
  - by apply (calm_lift _ (fun _ => True)).
  - eapply calm_bind; [by apply calm_interrupt|cbv beta]. intros _ s2 H2 _ _. by apply IH.
Qed.
Lemma calm_wait_message poll m s : base s -> wf_message m -> calm (VmbusRootWaitForMessage poll m) (fun m' _ => wf_message m') s.
Proof.
  intros H [Hl Hy]. unfold VmbusRootWaitForMessage. eapply calm_bind; [by apply calm_rget|cbv beta]. intros c s1 H1 _ _.
  eapply calm_bind; [by apply calm_assert|cbv beta]. intros _ s2 H2 _ _.
  eapply calm_bind; [by apply calm_rget|cbv beta]. intros e s3 H3 _ _.
  eapply (calm_bind _ _ (fun _ _ => True)); [destruct poll; [by apply calm_ret|by apply calm_wait]|]. intros _ s4 H4 _ _.
  eapply calm_bind; [by apply calm_poll|cbv beta]. intros _ s5 H5 _ _.
  eapply calm_bind; [by apply calm_fetch|cbv beta]. intros size s6 H6 _ (m1 & (Hs & _) & ->).
  eapply calm_bind; [by apply calm_fail|cbv beta]. intros [] s7 H7 _ Hc. apply Z.leb_le in Hc.
  eapply calm_bind; [by apply calm_fetch|cbv beta]. intros payload s8 H8 _ (m2 & (_ & Hl' & Hy') & ->).
  destruct (copy_wf (Data m) (Payload m2) (PayloadSize m1)) as (d & E & Hd & Hd2 & _); [done..|].
  eapply calm_bind; [by apply (calm_lift_ok _ d)|cbv beta]. intros x s9 H9 _ ->.
  eapply (calm_bind _ _ (fun _ _ => True)).
  { eapply wp_mono; [by apply wp_complete|]. intros st s10 [K1 K2]. auto using still_quiet. }
  intros st s10 H10 _ _. eapply calm_bind; [by apply calm_assert|cbv beta]. intros _ s11 H11 _ _. by apply calm_ret.
Qed.
End Interrupt.
End VmbusInterrupt.
