(* ===== verification/VmbusGpadl.v ===== *)
(** GPADLs: the part of the VMBus state a caller can rely on ([observe]), and what
    reserving, describing, tearing down and preparing a GPADL do to it, whatever
    interrupts arrive meanwhile. *)
From stdpp Require Import base list numbers list_numbers option gmap fin_maps.
From Stdlib Require Import ZArith Lia.
From S2P Require Import Prelude Circular PkRing EmclPacket EmclPacketProps Vmbus VmbusInv VmbusInterrupt.
Open Scope Z_scope.

Module VmbusGpadl.
Import PkRing EmclPacket Vmbus VmbusInv VmbusInterrupt.

(** ** The view of a caller *)
Record view := mkView {
  v_root : VMBUS_ROOT_CONTEXT; v_table : list Z; v_channels : gmap Z VMBUS_CHANNEL_CONTEXT; v_gpadls : gmap Z EFI_VMBUS_GPADL;
  v_events : gset Z; v_published : gset Z; v_visible : gmap Z (Z * Z); v_zeroed : list (Z * Z); v_interrupted : list Z }.
Definition observe (s : vmbus) : view :=
  mkView (skeleton (root s)) (map Event (GpadlTable (root s))) (strip <$> channels s) (gpadls s)
    (events s) (published s) (visible s) (zeroed s) (interrupted s).

Lemma quiet_observe s s' : quiet s s' -> observe s' = observe s.
Proof. intros []. unfold observe. congruence. Qed.
Lemma observe_quiet s s' : observe s' = observe s -> HotMessageList (root s') = HotMessageList (root s) -> sent s `prefix_of` sent s' -> quiet s s'.
Proof.
  intros E Eq ?. split; [exact (f_equal v_root E)|exact (f_equal v_table E)|exact (f_equal v_channels E)|exact (f_equal v_gpadls E)
    |exact (f_equal v_events E)|exact (f_equal v_published E)|exact (f_equal v_visible E)|exact (f_equal v_zeroed E)|by rewrite Eq|done
    |exact (f_equal v_interrupted E)].
Qed.

(** A handle is free when its entry has no event. *)
Definition free_handle (v : view) (h : Z) : Prop := v_table v !! Z.to_nat h = Some 0.
(** Handle [h] is taken, with the event [e]; and given back. *)
Definition taken (h e : Z) (v : view) : view :=
  mkView (v_root v) (<[Z.to_nat h := e]> (v_table v)) (v_channels v) (v_gpadls v) ({[e]} ∪ v_events v)
    (v_published v) (v_visible v) (v_zeroed v) (v_interrupted v).
Definition dropped (h : Z) (v : view) : view :=
  let e := default 0 (v_table v !! Z.to_nat h) in
  if e =? 0 then v
  else mkView (v_root v) (<[Z.to_nat h := 0]> (v_table v)) (v_channels v) (v_gpadls v) (v_events v ∖ {[e]})
    (v_published v) (v_visible v) (v_zeroed v) (v_interrupted v).
Definition view_gpadls (m : gmap Z EFI_VMBUS_GPADL) (v : view) : view :=
  mkView (v_root v) (v_table v) (v_channels v) m (v_events v) (v_published v) (v_visible v) (v_zeroed v) (v_interrupted v).
Definition view_visible (m : gmap Z (Z * Z)) (v : view) : view :=
  mkView (v_root v) (v_table v) (v_channels v) (v_gpadls v) (v_events v) (v_published v) m (v_zeroed v) (v_interrupted v).
Definition view_zeroed (l : list (Z * Z)) (v : view) : view :=
  mkView (v_root v) (v_table v) (v_channels v) (v_gpadls v) (v_events v) (v_published v) (v_visible v) l (v_interrupted v).

Lemma drop_taken h e v : free_handle v h -> e <> 0 -> e ∉ v_events v -> dropped h (taken h e v) = v.
Proof.
  intros Hf He Hn. unfold dropped, taken. destruct v as [r t c g ev pub vis z i]. unfold free_handle in Hf. simpl in *.
  rewrite list_lookup_insert_eq by (apply lookup_lt_is_Some; eauto). simpl. destruct (Z.eqb_spec e 0); [done|].
  rewrite list_insert_insert_eq, list_insert_id by done. f_equal. set_solver.
Qed.

Section Gpadl.
Context {B : BuildOptions} {HV : Hypervisor} {HL : HypervisorLaws}.

(** ** The invariant, again *)
Lemma base_ext s s' : root s' = root s -> channels s' = channels s -> gpadls s' = gpadls s -> hots s' = hots s -> pool s' = pool s ->
  visible s' = visible s -> slot s' = slot s -> host_flags s' = host_flags s -> paravisor_flags s' = paravisor_flags s -> base s -> base s'.
Proof.
  intros Er Ec Eg Eh Ep Ev Es Ef Epf [H1 H2 H3 H4 H5 H6 H7 H8 H9 H10 H11 H12].
  split; rewrite ?Er, ?Ec, ?Eg, ?Eh, ?Ep, ?Es, ?Ef, ?Epf; auto.
  - intros p c Hc. destruct (H4 p c Hc). split; rewrite ?Er, ?Ep; auto.
  - intros p g Hg. destruct (H11 p g Hg) as (? & ? & ? & [? ? ? ?]). split_and!; auto. split; auto. by rewrite Ev.
Qed.
Lemma base_entry i r s : base s -> wf_message (Message r) ->
  base (set_root (set_GpadlTable (<[i := r]> (GpadlTable (root s))) (root s)) s).
Proof.
  intros [H1 H2 H3 H4 H5 H6 H7 H8 H9 H10 H11 H12] Hm. split; simpl; auto.
  - by rewrite length_insert.
  - by apply Forall_insert.
  - intros q d Hd. destruct (H4 q d Hd). by split.
  - intros q g Hg. destruct (H11 q g Hg) as (? & ? & ? & [? ? ? ?]). split_and!; auto. by split.
Qed.
Lemma observe_entry i r s :
  observe (set_root (set_GpadlTable (<[i := r]> (GpadlTable (root s))) (root s)) s) =
  mkView (v_root (observe s)) (<[i := Event r]> (v_table (observe s))) (v_channels (observe s)) (v_gpadls (observe s))
    (v_events (observe s)) (v_published (observe s)) (v_visible (observe s)) (v_zeroed (observe s)) (v_interrupted (observe s)).
Proof. unfold observe. simpl. f_equal. apply list_fmap_insert. Qed.

(** ** Building and sending messages *)
Lemma init_wf t n : wf_message (VmbusRootInitializeMessage t n).
Proof.
  unfold VmbusRootInitializeMessage. split; cbn [Data].
  - by rewrite length_app, length_le_split, length_replicate.
  - apply Forall_app. split; [apply le_split_bytes|]. by apply Forall_replicate.
Qed.
Lemma wp_put n off v m Q s : wf_message m -> 0 <= off -> off + Z.of_nat n <= 240 ->
  (forall m', wf_message m' -> Size m' = Size m -> Q m' s) -> wp (put n off v m) Q s.
Proof.
  intros [Hl Hy] H1 H2 K. unfold put, store, mem_write. rewrite Zlength_le_split, in_bounds_true by (rewrite ?(Zlength_240 _ Hl); lia).
  apply wp_bind, (wp_lift_ok _ _ _ _ eq_refl), wp_ret, K; [|done]. split; simpl.
  - rewrite !length_app, length_take, length_drop, length_le_split. lia.
  - rewrite !Forall_app. auto using Forall_take, Forall_drop, le_split_bytes.
Qed.
Lemma wp_field n off m Q s : wf_message m -> 0 <= off -> off + Z.of_nat n <= 240 ->
  (forall v, load n (Data m) off = Ok v -> 0 <= v < 256 ^ Z.of_nat n -> Q v s) -> wp (field n off m) Q s.
Proof. intros Hm H1 H2 K. destruct (field_ok n off m) as (v & E & Hv); [done..|]. apply (wp_lift_ok _ v); auto. Qed.

Lemma wp_fill n off pfn m Q s : wf_message m -> 0 <= off -> off + 8 * Z.of_nat n <= 240 ->
  (forall m', wf_message m' -> Size m' = Size m -> Q m' s) -> wp (fill_pfns n off pfn m) Q s.
Proof.
  revert off pfn m. induction n as [|n IH]; intros off pfn m Hm H1 H2 K; cbn [fill_pfns].
  - apply wp_ret. auto.
  - apply wp_bind, wp_put; [done|done|lia|]. intros m' Hm' Hs. apply IH; [done|lia|lia|]. intros m2 ? ?. apply K; [done|congruence].
Qed.

Lemma calm_post n m s : base s -> wf_message m -> 0 <= Size m <= 240 -> calm (post n m) (fun _ _ => True) s.
Proof.
  intros H Hm Hs. revert s H. induction n as [|n IH]; intros s H; cbn [post]; [by apply (calm_lift _ (fun _ => True))|].
  eapply calm_bind; [by apply calm_ask|cbv beta]. intros st s1 H1 _ _.
  eapply calm_bind; [apply (calm_lift_ok _ (zslice 0 (Size m) (Data m))); [done|]|cbv beta].
  { destruct Hm as [Hl _]. apply read_run; rewrite ?(Zlength_240 _ Hl); lia. }
  intros bs s2 H2 _ _. destruct (decide _); [by apply IH|]. destruct (EFI_ERROR st); [by apply calm_ret|].
  apply wp_bind, wp_vmod, wp_ret. split_and!; [by apply (base_ext s2)| |done].
  split; try done. simpl. by apply prefix_app_r.
Qed.
Lemma calm_send m s : base s -> wf_message m -> 0 <= Size m <= 240 -> calm (VmbusRootSendMessage m) (fun _ _ => True) s.
Proof. apply calm_post. Qed.

Definition pages_in_range (g : EFI_VMBUS_GPADL) : Prop := 0 <= NumberOfPages g < 2 ^ 32.
Lemma header_room : numPfnInHeader = 26.
Proof. reflexivity. Qed.
Lemma body_room : numPfnInBody = 28.
Proof. reflexivity. Qed.

Lemma calm_send_bodies n g k s : base s -> calm (send_bodies n g k) (fun _ _ => True) s.
Proof.
  revert k s. induction n as [|n IH]; intros k s H; cbn [send_bodies]; (destruct (_ =? 0); [by apply calm_ret|]).
  { by apply (calm_lift _ (fun _ => True)). }
  pose proof (u32_range (NumberOfPages g - k)). rewrite body_room.
  apply wp_bind, wp_put; [apply init_wf|done|done|]. intros m Hm Es.
  apply wp_bind, wp_fill; [done|done|change body_Pfn with 16; lia|]. intros m' Hm' Es'.
  eapply calm_bind; [apply calm_send; [done|done|rewrite Es', Es; done]|cbv beta]. intros _ s1 H1 _ _. by apply IH.
Qed.
Lemma calm_send_gpadl id g s : base s -> pages_in_range g -> calm (send_gpadl id g) (fun _ _ => True) s.
Proof.
  intros H Hg. unfold send_gpadl, pages_in_range in *. rewrite header_room.
  apply wp_bind, wp_put; [apply init_wf|done|done|]. intros m1 M1 E1.
  apply wp_bind, wp_put; [done..|]. intros m2 M2 E2. apply wp_bind, wp_put; [done..|]. intros m3 M3 E3.
  apply wp_bind, wp_put; [done..|]. intros m4 M4 E4. apply wp_bind, wp_put; [done..|]. intros m5 M5 E5.
  apply wp_bind, wp_put; [done..|]. intros m6 M6 E6.
  apply wp_bind, wp_fill; [done|done|change (header_Range + range_PfnArray) with 28; lia|]. intros m7 M7 E7.
  eapply calm_bind; [apply calm_send; [done|done|]|cbv beta].
  - rewrite E7, E6, E5, E4, E3, E2, E1. done.
  - intros _ s1 H1 _ _. by apply calm_send_bodies.
Qed.
(** ** Handles *)
Lemma wp_create_event (Q : EFI_STATUS * Z -> vmbus -> Prop) s :
  (forall st, EFI_ERROR st = true -> Q (st, 0) (next_tick s)) ->
  (forall st e, EFI_ERROR st = false -> e <> 0 -> e ∉ events s -> Q (st, e) (set_events ({[e]} ∪ events s) (signaled s) (next_tick s))) ->
  wp CreateEvent Q s.
Proof.
  intros K1 K2. unfold wp, CreateEvent. destruct (CreateEvent_answer (tick s) (events s)) as [st e] eqn:E.
  destruct (EFI_ERROR st) eqn:Es; [by apply K1|]. destruct (event_fresh _ _ _ _ E Es). by apply K2.
Qed.

Lemma find_gpadl_spec n l i : Z.of_nat (length l) = VMBUS_MAX_GPADLS -> 0 <= i -> i + Z.of_nat n = VMBUS_MAX_GPADLS ->
  exists j, find_gpadl n l i = Ok j /\ i <= j <= VMBUS_MAX_GPADLS /\
    (forall k, i <= k < j -> exists r, l !! Z.to_nat k = Some r /\ Event r <> 0) /\
    (j < VMBUS_MAX_GPADLS -> exists r, l !! Z.to_nat j = Some r /\ Event r = 0).
Proof.
  revert i. induction n as [|n IH]; intros i Hl Hi Hn; cbn [find_gpadl].
  - exists i. split_and!; [done|lia|lia|lia|lia].
  - destruct (entry_ok l i) as (r & E & El); [unfold Zlength; lia|]. rewrite E, bind_Ok.
    destruct (Z.eqb_spec (Event r) 0) as [Er|Er].
    + exists i. split_and!; [done|lia|lia|lia|eauto].
    + destruct (IH (i + 1)) as (j & Ej & Hj & Hk & Hf); [done|lia|lia|]. exists j. split_and!; [done|lia|lia| |done].
      intros k Hk'. destruct (decide (k = i)) as [->|]; [eauto|]. apply Hk. lia.
Qed.

Lemma wp_get_free (Q : EFI_STATUS * Z -> vmbus -> Prop) s : base s ->
  (forall st s', EFI_ERROR st = true -> base s' -> quiet s s' -> Q (st, 0) s') ->
  (forall h e s', 1 <= h < VMBUS_MAX_GPADLS -> free_handle (observe s) h -> e <> 0 -> e ∉ events s -> base s' ->
     observe s' = taken h e (observe s) -> sent s' = sent s -> Q (EFI_SUCCESS, h) s') ->
  wp VmbusRootGetFreeGpadl Q s.
Proof.
  intros H K1 K2. unfold VmbusRootGetFreeGpadl. apply wp_bind, wp_create_event.
  - intros st Es. rewrite Es. apply wp_ret, K1; [done|by apply (base_ext s)|by apply still_quiet].
  - intros st e Es He Hn. rewrite Es. set (s1 := set_events _ _ _). assert (H1 : base s1) by by apply (base_ext s).
    apply wp_bind, wp_rget. destruct (find_gpadl_spec 255 (GpadlTable (root s1)) 1) as (j & Ej & Hj & Hk & Hf);
      [by rewrite (b_table _ H1)|done|done|].
    apply wp_bind, (wp_lift_ok _ _ _ _ Ej). destruct (Z.eqb_spec j VMBUS_MAX_GPADLS) as [->|Hne]; clear Ej.
    + apply wp_bind, wp_vmod, wp_ret, K1; [done|by apply (base_ext s)|]. apply observe_quiet; [|done|done].
      unfold observe. simpl. f_equal. set_solver.
    + destruct Hf as (r & Er & E0); [lia|]. apply wp_bind, wp_gpadl_entry; [done|lia|]. intros r' Er'. assert (r' = r) as -> by congruence.
      apply wp_bind. unfold set_gpadl_entry. apply wp_bind, wp_gpadl_entry; [done|lia|]. intros r2 Er2.
      apply wp_rmod, wp_ret. apply (K2 j e); [lia| |done|done| | |done].
      * unfold free_handle. simpl. change (GpadlTable (root s1)) with (GpadlTable (root s)) in Er. by rewrite list_lookup_fmap, Er, <- E0.
      * apply base_entry; [done|]. by apply (entry_wf _ _ _ H1 Er).
      * rewrite observe_entry. done.
Qed.

Lemma wp_reclaim h (Q : unit -> vmbus -> Prop) s : base s -> 0 <= h < VMBUS_MAX_GPADLS ->
  (forall s', base s' -> observe s' = dropped h (observe s) -> sent s' = sent s -> Q tt s') -> wp (VmbusRootReclaimGpadl h) Q s.
Proof.
  intros H Hh K. unfold VmbusRootReclaimGpadl. apply wp_bind, wp_gpadl_entry; [done..|]. intros r Er.
  assert (E : default 0 (v_table (observe s) !! Z.to_nat h) = Event r) by (simpl; by rewrite list_lookup_fmap, Er).
  destruct (Z.eqb_spec (Event r) 0) as [E0|E0].
  - apply wp_ret, K; [done| |done]. unfold dropped. by rewrite E, E0.
  - apply wp_bind, wp_vmod. set (s1 := set_events _ _ _). assert (H1 : base s1) by by apply (base_ext s).
    unfold set_gpadl_entry. apply wp_bind, wp_gpadl_entry; [done..|]. intros r' Er'. apply wp_rmod, K.
    + apply base_entry; [done|]. by apply (entry_wf _ _ _ H Er).
    + rewrite observe_entry. unfold dropped. rewrite E. by destruct (Z.eqb_spec (Event r) 0).
    + done.
Qed.

Lemma wp_wait_gpadl h s : base s -> 0 <= h < VMBUS_MAX_GPADLS ->
  calm (VmbusRootWaitForGpadlResponse h) (fun x _ => match x.2 with Some m => wf_message m | None => True end) s.
Proof.
  intros H Hh. unfold VmbusRootWaitForGpadlResponse. eapply calm_bind; [by apply calm_gpadl_entry|cbv beta]. intros r s1 H1 _ Er.
  destruct (_ =? 0); [by apply calm_ret|]. eapply calm_bind; [by apply calm_wait|cbv beta]. intros _ s2 H2 _ _.
  eapply calm_bind; [by apply calm_gpadl_entry|cbv beta]. intros r' s3 H3 _ Er'. apply calm_ret; [done|]. by apply (entry_wf _ _ _ H3 Er').
Qed.
(** ** Creating and tearing down *)
Definition created (s : vmbus) (g : EFI_VMBUS_GPADL) (x : EFI_STATUS * EFI_VMBUS_GPADL) (s' : vmbus) : Prop :=
  base s' /\ sent s `prefix_of` sent s' /\
  ((EFI_ERROR x.1 = true /\ x.2 = g /\ observe s' = observe s) \/
   (x.1 = EFI_SUCCESS /\ GpadlHandle g = 0 /\ exists h e, 1 <= h < VMBUS_MAX_GPADLS /\ free_handle (observe s) h /\ e <> 0 /\ e ∉ events s /\
      x.2 = set_GpadlHandle h g /\ observe s' = taken h e (observe s))).

Lemma wp_create_gpadl This c g s : base s -> channels s !! This = Some c -> pages_in_range g ->
  wp (create_gpadl This g) (created s g) s.
Proof.
  intros H Hc Hg. unfold create_gpadl. destruct (Z.eqb_spec (GpadlHandle g) 0) as [E0|E0]; simpl.
  2:{ apply wp_ret. split_and!; [done|done|by left]. }
  apply wp_bind, (wp_get_context _ c); [done|]. apply wp_bind, wp_get_free; [done|..].
  { intros st s' Es Hb Hq. rewrite Es. apply wp_ret. split_and!; [done|apply Hq|left]. by split_and!; [| |apply quiet_observe]. }
  intros h e s1 Hh Hf He Hn H1 O1 Se. cbn [EFI_ERROR].
  eapply wp_seq; [by apply calm_send_gpadl|]. intros _ s2 (H2 & Q2 & _).
  eapply wp_seq; [apply wp_wait_gpadl; [done|lia]|]. intros [st r] s3 (H3 & Q3 & Hr). simpl in Hr.
  apply wp_bind, wp_any_assert. apply wp_bind. destruct r as [m|]; [|by apply wp_lift]. apply (wp_lift_ok _ m); [done|].
  apply wp_bind, wp_field; [done..|]. intros mt _ _. apply wp_bind, wp_field; [done..|]. intros gp _ _.
  apply wp_bind, wp_field; [done..|]. intros id _ _. apply wp_bind, wp_field; [done..|]. intros cs _ _.
  do 4 (apply wp_bind, wp_failfast; intros _).
  pose proof (quiet_trans _ _ _ Q2 Q3) as Q. pose proof (quiet_observe _ _ Q) as O3. rewrite O1 in O3.
  assert (P : sent s `prefix_of` sent s3) by (rewrite <- Se; apply Q).
  destruct (_ =? 0); simpl.
  - apply wp_ret. split_and!; [done|done|right]. split_and!; [done|done|]. by exists h, e.
  - apply wp_bind, wp_reclaim; [done|lia|]. intros s4 H4 O4 S4. apply wp_ret. split_and!; [done|by rewrite S4|left].
    split_and!; [done|simpl; destruct g; simpl in *; by subst|]. by rewrite O4, O3, drop_taken.
Qed.

Lemma wp_teardown id h (Q : unit -> vmbus -> Prop) s : base s -> 0 <= h < VMBUS_MAX_GPADLS ->
  (forall s', base s' -> observe s' = dropped h (observe s) -> sent s `prefix_of` sent s' -> Q tt s') -> wp (teardown id h) Q s.
Proof.
  intros H Hh K. unfold teardown. apply wp_bind, wp_put; [apply init_wf|done|done|]. intros m M E.
  apply wp_bind, wp_put; [done..|]. intros m' M' E'.
  eapply wp_seq; [apply calm_send; [done|done|rewrite E', E; done]|]. intros _ s1 (H1 & Q1 & _).
  eapply wp_seq; [by apply wp_wait_gpadl|]. intros [st r] s2 (H2 & Q2 & Hr). simpl in Hr.
  apply wp_bind, wp_any_assert. apply wp_bind. destruct r as [r|]; [|by apply wp_lift]. apply (wp_lift_ok _ r); [done|].
  apply wp_bind, wp_field; [done..|]. intros mt _ _. apply wp_bind, wp_field; [done..|]. intros gp _ _.
  do 3 (apply wp_bind, wp_failfast; intros _). apply wp_reclaim; [done..|]. intros s3 H3 O3 S3.
  pose proof (quiet_trans _ _ _ Q1 Q2) as Qt. apply K; [done|by rewrite O3, (quiet_observe _ _ Qt)|]. rewrite S3. apply Qt.
Qed.

(** ** The GPADLs of the protocol *)
Lemma wp_get_gpadl p g (Q : EFI_VMBUS_GPADL -> vmbus -> Prop) s : gpadls s !! p = Some g -> Q g s -> wp (get_gpadl p) Q s.
Proof. intros E K. unfold wp, get_gpadl. rewrite E. by destruct (p =? 0). Qed.

(** A GPADL structure changes, and keeps its visibility. *)
Lemma base_set_gpadl p g g' s : base s -> gpadls s !! p = Some g -> Legacy g' = Legacy g -> ProtectionHandle g' = ProtectionHandle g ->
  AllocatedBuffer g' = AllocatedBuffer g -> BufferLength g' = BufferLength g -> NumberOfPages g' = NumberOfPages g -> 0 <= GpadlHandle g' < VMBUS_MAX_GPADLS ->
  base (set_gpadls (<[p := g']> (gpadls s)) s).
Proof.
  intros [H1 H2 H3 H4 H5 H6 H7 H8 H9 H10 H11 H12] Hg El Ep Ea Eb En Hh.
  assert (L : forall q x, <[p := g']> (gpadls s) !! q = Some x -> exists y, gpadls s !! q = Some y /\ ProtectionHandle x = ProtectionHandle y).
  { intros q x. destruct (decide (p = q)) as [->|].
    - rewrite lookup_insert_eq. intros. simplify_eq. eauto.
    - rewrite lookup_insert_ne by done. eauto. }
  split; simpl; auto.
  - intros q c Hc. destruct (H4 q c Hc). by split.
  - intros q m Hm. destruct (H9 q m Hm) as (? & ? & ? & ?). split_and!; auto. rewrite lookup_insert_ne; [done|]. congruence.
  - intros q x. destruct (decide (p = q)) as [->|].
    + rewrite lookup_insert_eq. intros. simplify_eq. destruct (H11 q g Hg) as (? & ? & ? & [? ? ? ?]). split_and!; auto.
      split; simpl; try congruence. rewrite Ep, Ea, Eb. done.
    + rewrite lookup_insert_ne by done. intros Hx. destruct (H11 q x Hx) as (? & ? & ? & [? ? ? ?]). split_and!; auto. by split.
  - intros q q' x x' Hx Hx' Hz He. destruct (L q x Hx) as (y & Hy & Ey). destruct (L q' x' Hx') as (y' & Hy' & Ey').
    apply (H12 q q' y y'); congruence.
Qed.
Lemma observe_set_gpadls m s : observe (set_gpadls m s) = view_gpadls m (observe s).
Proof. done. Qed.
Lemma view_gpadls_id v : view_gpadls (v_gpadls v) v = v.
Proof. by destruct v. Qed.
Lemma taken_gpadls h e m v : view_gpadls m (taken h e v) = taken h e (view_gpadls m v).
Proof. done. Qed.

Lemma wp_CreateGpadl This c p g s : base s -> channels s !! This = Some c -> gpadls s !! p = Some g -> pages_in_range g ->
  wp (VmbusChannelCreateGpadl This p) (fun st s' => base s' /\ sent s `prefix_of` sent s' /\
    ((EFI_ERROR st = true /\ observe s' = observe s) \/
     (st = EFI_SUCCESS /\ GpadlHandle g = 0 /\ exists h e, 1 <= h < VMBUS_MAX_GPADLS /\ free_handle (observe s) h /\ e <> 0 /\ e ∉ events s /\
        observe s' = taken h e (view_gpadls (<[p := set_GpadlHandle h g]> (gpadls s)) (observe s))))) s.
Proof.
  intros H Hc Hg Hp. unfold VmbusChannelCreateGpadl. apply wp_bind, (wp_get_gpadl _ g); [done|].
  eapply wp_seq; [by eapply wp_create_gpadl|]. intros [st g'] s1 (H1 & P1 & D). simpl in D.
  apply wp_bind, wp_vmod, wp_ret.
  assert (G : gpadls s1 = gpadls s).
  { destruct D as [(_ & _ & O)|(_ & _ & h & e & _ & _ & _ & _ & _ & O)]; exact (f_equal v_gpadls O). }
  pose proof (b_gpadls _ H p g Hg) as (_ & _ & _ & [_ Hh _ _]).
  destruct D as [(Es & -> & O)|(-> & E0 & h & e & Hh' & Hf & He & Hn & -> & O)].
  - split_and!; [|done|left; split; [done|]].
    + apply (base_set_gpadl p g); [done|by rewrite G|done..].
    + rewrite observe_set_gpadls, O, G, insert_id by done. apply view_gpadls_id.
  - split_and!; [|done|right]. { apply (base_set_gpadl p g); [done|by rewrite G|done..|simpl; lia]. }
    split_and!; [done|done|]. exists h, e. split_and!; [lia|lia|done|done|done|]. by rewrite observe_set_gpadls, O, G, taken_gpadls.
Qed.
(** A GPADL structure goes away, with its visibility. *)
Lemma base_release p g V s : base s -> gpadls s !! p = Some g ->
  (forall q x, q <> p -> gpadls s !! q = Some x -> ProtectionHandle x <> 0 -> V !! ProtectionHandle x = visible s !! ProtectionHandle x) ->
  base (set_gpadls (delete p (gpadls s)) (set_pool (pool s ∖ {[p]}) (set_visible V s))).
Proof.
  intros [H1 H2 H3 H4 H5 H6 H7 H8 H9 H10 H11 H12] Hg HV'.
  assert (N : forall q, q ∈ pool s -> q <> p -> q ∈ pool s ∖ {[p]}) by set_solver.
  destruct (H11 p g Hg) as (Ha & Hp & Hc & _). split; simpl; auto.
  - intros q c Hq. destruct (H4 q c Hq). split; simpl; auto. apply N; [done|]. congruence.
  - intros q m Hm. destruct (H9 q m Hm) as (? & ? & Hn & ?). split_and!; auto; [apply N; [done|congruence]|].
    rewrite lookup_delete_ne by congruence. done.
  - intros q x Hx. apply lookup_delete_Some in Hx as [Hne Hx]. destruct (H11 q x Hx) as (? & ? & ? & [? ? ? Hv]).
    split_and!; [done|by apply N|done|]. split; simpl; auto. intros Hz. rewrite (HV' q x) by done. auto.
  - intros q q' x x' Hx Hx' Hz He. apply lookup_delete_Some in Hx as [_ Hx]. apply lookup_delete_Some in Hx' as [_ Hx'].
    by apply (H12 q q' x x').
Qed.

Definition torn_down (p : Z) (g : EFI_VMBUS_GPADL) (v : view) : view :=
  let v := if GpadlHandle g =? 0 then v else dropped (GpadlHandle g) v in
  view_visible (if IsIsolated && negb (ProtectionHandle g =? 0) then delete (ProtectionHandle g) (v_visible v) else v_visible v)
    (view_gpadls (delete p (v_gpadls v)) v).

Lemma wp_validate h (Q : bool -> vmbus -> Prop) s : base s -> 0 <= h < VMBUS_MAX_GPADLS ->
  (forall b, (b = false -> free_handle (observe s) h) -> Q b s) -> wp (VmbusRootValidateGpadl h) Q s.
Proof.
  intros H Hh K. unfold VmbusRootValidateGpadl. apply wp_bind, wp_gpadl_entry; [done..|]. intros r Er. apply wp_ret, K.
  intros E. unfold free_handle. simpl. rewrite list_lookup_fmap, Er. simpl. destruct (Z.eqb_spec (Event r) 0) as [->|]; done.
Qed.

Lemma wp_free p (Q : unit -> vmbus -> Prop) s : p ∈ pool s -> Q tt (set_pool (pool s ∖ {[p]}) s) -> wp (FreePool p) Q s.
Proof. intros Hp K. unfold wp, FreePool. by rewrite decide_True. Qed.

(** Behind the teardown: visibility and memory are given back. *)
Lemma wp_give_back p g (Q : EFI_STATUS -> vmbus -> Prop) s : base s -> gpadls s !! p = Some g ->
  (forall s', base s' -> sent s' = sent s -> observe s' = torn_down p (set_GpadlHandle 0 g) (observe s) -> Q EFI_SUCCESS s') ->
  wp (_ ← (if IsIsolated && negb (Legacy g) && negb (ProtectionHandle g =? 0) then MakeAddressRangeNotHostVisible (ProtectionHandle g) else mret tt);
      _ ← (if Legacy g then mret tt else _ ← FreePool p; vmod (fun s => set_gpadls (delete p (gpadls s)) s));
      mret EFI_SUCCESS) Q s.
Proof.
  intros H Hg K. destruct (b_gpadls _ H p g Hg) as (Ha & Hp & Hc & [Hl Hh Hpg Hv]). rewrite Hl. simpl negb. rewrite andb_true_r.
  set (V := if IsIsolated && negb (ProtectionHandle g =? 0) then delete (ProtectionHandle g) (visible s) else visible s).
  apply wp_bind. apply (wp_mono _ (fun _ s' => s' = set_visible V s)).
  - unfold V. destruct IsIsolated; simpl; [|by destruct s]. destruct (Z.eqb_spec (ProtectionHandle g) 0) as [E|E]; simpl; [by destruct s|].
    unfold wp, MakeAddressRangeNotHostVisible. by rewrite (Hv E).
  - intros _ s' ->. apply wp_bind, wp_bind. apply wp_free; [done|].
    apply wp_vmod, wp_ret. apply K; [|done|].
    + apply (base_release p g V s H Hg). intros q x Hq Hx Hz. unfold V. destruct (_ && _); [|done].
      apply lookup_delete_ne. intros E. apply Hq. symmetry. by apply (b_protect _ H p q g x); [| |rewrite E|].
    + unfold torn_down, V. simpl. by destruct (_ && _).
Qed.
Lemma wp_DestroyGpadl This c p g s : base s -> channels s !! This = Some c -> gpadls s !! p = Some g ->
  wp (VmbusChannelDestroyGpadl This p) (fun st s' => base s' /\ sent s `prefix_of` sent s' /\
    ((st = EFI_INVALID_PARAMETER /\ GpadlHandle g <> 0 /\ free_handle (observe s) (GpadlHandle g) /\ s' = s) \/
     (st = EFI_SUCCESS /\ observe s' = torn_down p g (observe s)))) s.
Proof.
  intros H Hc Hg. unfold VmbusChannelDestroyGpadl. apply wp_bind, (wp_get_context _ c); [done|].
  apply wp_bind, (wp_get_gpadl _ g); [done|]. destruct (b_gpadls _ H p g Hg) as (Ha & Hp & Hcn & [Hl Hh Hpg Hv]).
  destruct (Z.eqb_spec (GpadlHandle g) 0) as [E0|E0].
  - apply wp_bind, wp_ret. simpl negb. cbv iota. apply wp_bind, wp_ret. apply wp_give_back; [done..|].
    intros s' H' S O. split_and!; [done|by rewrite S|right; split; [done|]]. rewrite O. unfold torn_down. simpl. by rewrite E0.
  - apply wp_bind, wp_validate; [done..|]. intros [] Hb; cbn [negb].
    2:{ apply wp_ret. split_and!; [done|done|left]. split_and!; auto. }
    apply wp_bind, wp_bind, wp_teardown; [done..|]. intros s1 H1 O1 S1. apply wp_vmod.
    assert (G : gpadls s1 = gpadls s).
    { apply (f_equal v_gpadls) in O1. unfold dropped in O1. by destruct (_ =? 0) in O1. }
    set (s2 := set_gpadls _ _).
    assert (H2 : base s2) by (apply (base_set_gpadl p g); [done|by rewrite G|done..]).
    apply (wp_give_back p (set_GpadlHandle 0 g)); [done|apply lookup_insert_eq|]. intros s' H' S O.
    split_and!; [done|by rewrite S|right; split; [done|]]. rewrite O. unfold s2. rewrite observe_set_gpadls, O1. unfold torn_down.
    destruct (Z.eqb_spec (GpadlHandle g) 0); [done|]. cbn [GpadlHandle set_GpadlHandle ProtectionHandle Z.eqb].
    unfold view_visible, view_gpadls. simpl. rewrite G. rewrite delete_insert_eq. f_equal.
    apply (f_equal v_gpadls) in O1. simpl in O1. rewrite <- O1, G. done.
Qed.
(** ** The legacy protocol *)
Definition legacy_pages (Buffer_ BufferLength_ : Z) : Z :=
  Z.shiftr (u32 (Z.land Buffer_ EFI_PAGE_MASK + BufferLength_ + EFI_PAGE_SIZE - 1)) EFI_PAGE_SHIFT.
Lemma legacy_pages_range b n : 0 <= legacy_pages b n < 2 ^ 32.
Proof.
  unfold legacy_pages. pose proof (u32_range (Z.land b EFI_PAGE_MASK + n + EFI_PAGE_SIZE - 1)) as R.
  rewrite Z.shiftr_div_pow2 by done. change (2 ^ EFI_PAGE_SHIFT) with 4096. zlia.
Qed.
Lemma wp_CreateLegacy This c b n s : base s -> channels s !! This = Some c ->
  wp (VmbusChannelCreateGpadlLegacy This b n) (fun x s' => base s' /\ sent s `prefix_of` sent s' /\
    ((EFI_ERROR x.1 = true /\ x.2 = 0 /\ observe s' = observe s) \/
     (x.1 = EFI_SUCCESS /\ exists e, 1 <= x.2 < VMBUS_MAX_GPADLS /\ free_handle (observe s) x.2 /\ e <> 0 /\ e ∉ events s /\
        observe s' = taken x.2 e (observe s)))) s.
Proof.
  intros H Hc. unfold VmbusChannelCreateGpadlLegacy. destruct (n =? 0); [apply wp_ret; split_and!; auto|].
  fold (legacy_pages b n). eapply wp_seq; [eapply wp_create_gpadl; [done|done|apply legacy_pages_range]|].
  intros [st g] s1 (H1 & P1 & D). simpl in D. destruct D as [(Es & -> & O)|(-> & _ & h & e & Hh & Hf & He & Hn & -> & O)].
  - rewrite Es. apply wp_ret. split_and!; auto.
  - cbn [EFI_ERROR]. apply wp_ret. split_and!; [done|done|right]. split; [done|]. exists e. split_and!; simpl; auto; lia.
Qed.
Lemma wp_DestroyLegacy This c h s : base s -> channels s !! This = Some c -> 0 <= h < VMBUS_MAX_GPADLS ->
  wp (VmbusChannelDestroyGpadlLegacy This h) (fun st s' => base s' /\ sent s `prefix_of` sent s' /\
    ((st = EFI_INVALID_PARAMETER /\ h <> 0 /\ free_handle (observe s) h /\ s' = s) \/
     (st = EFI_SUCCESS /\ observe s' = if h =? 0 then observe s else dropped h (observe s)))) s.
Proof.
  intros H Hc Hh. unfold VmbusChannelDestroyGpadlLegacy. apply wp_bind, (wp_get_context _ c); [done|].
  destruct (Z.eqb_spec h 0) as [E0|E0].
  - apply wp_bind, wp_ret. cbn [negb]. apply wp_bind, wp_ret, wp_ret. split_and!; auto.
  - apply wp_bind, wp_validate; [done..|]. intros [] Hb; cbn [negb].
    2:{ apply wp_ret. split_and!; [done|done|left]. split_and!; auto. }
    apply wp_bind, wp_teardown; [done..|]. intros s1 H1 O1 S1. apply wp_ret. split_and!; auto.
Qed.

(** ** Preparing *)
(** Whether the host has to see the buffer. *)
Definition exposed (c : VMBUS_CHANNEL_CONTEXT) (Flags : Z) : bool :=
  let isRing := negb (Z.land Flags EFI_VMBUS_PREPARE_GPADL_FLAG_RING_BUFFER =? 0) in
  IsIsolated && ((isRing && negb (ConfidentialRing c)) ||
    (negb isRing && (Z.land (VmbusFlags c) EFI_VMBUS_PROTOCOL_FLAGS_CONFIDENTIAL_EXTERNAL_MEMORY =? 0))).
Definition zeroing (Flags b n : Z) (l : list (Z * Z)) : list (Z * Z) :=
  if negb (Z.land Flags EFI_VMBUS_PREPARE_GPADL_FLAG_ZERO_PAGES =? 0) then (b, n) :: l else l.
Definition prepared (c : VMBUS_CHANNEL_CONTEXT) (b n Flags p h : Z) (v : view) : view :=
  let pa := if exposed c Flags then u64 (b + mSharedGpaBoundary) else b in
  view_zeroed (zeroing Flags b n (v_zeroed v))
    (view_visible (if exposed c Flags then <[h := (b, n)]> (v_visible v) else v_visible v)
       (view_gpadls (<[p := mkGpadl b pa n (u32 (Z.shiftr n EFI_PAGE_SHIFT)) 0 h false]> (v_gpadls v)) v)).

Lemma wp_visible b n (Q : EFI_STATUS * Z -> vmbus -> Prop) s :
  (forall st, EFI_ERROR st = true -> Q (st, 0) (next_tick s)) ->
  (forall st h, EFI_ERROR st = false -> h <> 0 -> visible s !! h = None -> Q (st, h) (set_visible (<[h := (b, n)]> (visible s)) (next_tick s))) ->
  wp (MakeAddressRangeHostVisible b n) Q s.
Proof.
  intros K1 K2. unfold wp, MakeAddressRangeHostVisible. destruct (MakeVisible_answer (tick s) (visible s)) as [st h] eqn:E.
  destruct (EFI_ERROR st) eqn:Es; [by apply K1|]. destruct (visible_fresh _ _ _ _ E Es). by apply K2.
Qed.
Lemma wp_zero z b n (Q : unit -> vmbus -> Prop) s : Q tt (set_zeroed (if z : bool then (b, n) :: zeroed s else zeroed s) s) -> wp (zero_range z b n) Q s.
Proof. unfold zero_range. destruct z; [by apply wp_vmod|]. intros K. apply wp_ret. by destruct s. Qed.

(** A new structure in memory that was just allocated. *)
Lemma base_new_gpadl p g V s : base s -> owned s p -> Legacy g = false -> GpadlHandle g = 0 -> pages_in_range g ->
  (forall h x, visible s !! h = Some x -> V !! h = Some x) ->
  (ProtectionHandle g <> 0 -> visible s !! ProtectionHandle g = None /\ V !! ProtectionHandle g = Some (AllocatedBuffer g, BufferLength g)) ->
  base (set_gpadls (<[p := g]> (gpadls s)) (set_visible V s)).
Proof.
  intros [H1 H2 H3 H4 H5 H6 H7 H8 H9 H10 H11 H12] [Ha Hp Hc Hg Hh] El Eh Hpg Hm Hv.
  assert (F : forall q x, gpadls s !! q = Some x -> ProtectionHandle x <> 0 -> ProtectionHandle x <> ProtectionHandle g).
  { intros q x Hx Hz E. destruct (H11 q x Hx) as (_ & _ & _ & [_ _ _ Hvx]). destruct Hv as [Hv _]; [congruence|].
    specialize (Hvx Hz). congruence. }
  split; simpl; auto.
  - intros q c Hq. destruct (H4 q c Hq). by split.
  - intros q m Hq. destruct (H9 q m Hq) as (? & ? & ? & ?). split_and!; auto. rewrite lookup_insert_ne; [done|]. congruence.
  - intros q x. destruct (decide (p = q)) as [->|].
    + rewrite lookup_insert_eq. intros E. injection E as <-. split_and!; auto. split; simpl; [done|rewrite Eh; done|done|]. intros Hz. by apply Hv.
    + rewrite lookup_insert_ne by done. intros Hx. destruct (H11 q x Hx) as (? & ? & ? & [? ? ? ?]). split_and!; auto. split; simpl; auto.
  - intros q q' x x'. destruct (decide (p = q)) as [->|], (decide (q = q')) as [->|]; rewrite ?lookup_insert_eq; auto.
    + rewrite (lookup_insert_ne _ q q') by done. intros E Hx' Hz He. injection E as <-. exfalso. apply (F q' x' Hx'); congruence.
    + destruct (decide (p = q')) as [->|].
      * rewrite lookup_insert_eq, lookup_insert_ne by done. intros Hx E Hz He. injection E as <-. exfalso. by apply (F q x Hx).
      * rewrite !lookup_insert_ne by done. apply H12.
Qed.

Lemma wp_PrepareGpadl This c b n Flags s : base s -> channels s !! This = Some c ->
  wp (VmbusChannelPrepareGpadl This b n Flags) (fun x s' => base s' /\ sent s `prefix_of` sent s' /\
    ((EFI_ERROR x.1 = true /\ x.2 = 0 /\ observe s' = observe s) \/
     (x.1 = EFI_SUCCESS /\ gpadls s !! x.2 = None /\ exists h, (if exposed c Flags then h <> 0 /\ visible s !! h = None else h = 0) /\
        observe s' = prepared c b n Flags x.2 h (observe s)))) s.
Proof.
  intros H Hc. unfold VmbusChannelPrepareGpadl.
  destruct (n =? 0); [apply wp_ret; split_and!; auto|]. destruct (_ || _); [apply wp_ret; split_and!; auto|].
  destruct (negb _); [apply wp_ret; split_and!; auto|]. apply wp_bind, (wp_get_context _ c); [done|].
  eapply wp_seq; [by apply calm_alloc|]. intros p s1 (H1 & Q1 & Hp). pose proof (quiet_observe _ _ Q1) as O1.
  pose proof (q_sent _ _ Q1) as P1. destruct (Z.eqb_spec p 0) as [->|Hp0]; [apply wp_ret; split_and!; auto|].
  destruct Hp as [|Hp]; [done|]. cbv zeta. fold (exposed c Flags). cbn [NumberOfPages].
  assert (G : gpadls s !! p = None) by (rewrite <- (q_gpadls _ _ Q1); apply Hp).
  destruct (exposed c Flags) eqn:Ex.
  - apply wp_bind, wp_bind, wp_visible.
    + intros st Es. rewrite Es. apply wp_ret. rewrite Es. assert (S : still s1 (next_tick s1)) by by split.
      eapply wp_seq; [apply calm_free; [by apply (base_ext s1)|by apply (owned_still s1)]|]. intros _ s2 (H2 & Q2 & _).
      apply wp_ret. pose proof (quiet_trans _ _ _ Q1 (quiet_trans _ _ _ (still_quiet _ _ S) Q2)) as Q.
      split_and!; [done|apply Q|left]. split_and!; [done|done|by apply quiet_observe].
    + intros st h Es Hh Hf. rewrite Es. apply wp_bind, wp_zero, wp_ret. cbn [EFI_ERROR]. apply wp_bind, wp_vmod, wp_ret.
      split_and!; [|done|right; split_and!; [done|done|]].
      * apply (base_ext (set_gpadls (<[p := mkGpadl b (u64 (b + mSharedGpaBoundary)) n (u32 (Z.shiftr n EFI_PAGE_SHIFT)) 0 h false]> (gpadls s1))
          (set_visible (<[h := (b, n)]> (visible s1)) s1))); [done..|]. apply base_new_gpadl; [done|done|done|done|apply u32_range| |].
        -- intros h' x Hx. rewrite lookup_insert_ne; [done|]. congruence.
        -- simpl. intros _. by rewrite lookup_insert_eq.
      * exists h. rewrite <- (q_visible _ _ Q1). split; [done|]. unfold prepared. rewrite <- O1, Ex. done.
  - apply wp_bind, wp_bind, wp_zero, wp_ret. cbn [EFI_ERROR]. apply wp_bind, wp_vmod, wp_ret.
    split_and!; [|done|right; split_and!; [done|done|]].
    + apply (base_ext (set_gpadls (<[p := mkGpadl b b n (u32 (Z.shiftr n EFI_PAGE_SHIFT)) 0 0 false]> (gpadls s1)) (set_visible (visible s1) s1))); [done..|].
      apply base_new_gpadl; try done. apply u32_range.
    + exists 0. split; [done|]. unfold prepared. rewrite <- O1, Ex. done.
Qed.
Lemma channel_kept s s' p c : v_channels (observe s') = v_channels (observe s) -> channels s !! p = Some c -> is_Some (channels s' !! p).
Proof.
  simpl. intros E Hc. apply (f_equal (lookup p)) in E. rewrite !lookup_fmap, Hc in E. by destruct (channels s' !! p).
Qed.

(** ** The whole life of a GPADL, on views *)
Definition prepared_gpadl (c : VMBUS_CHANNEL_CONTEXT) (b n Flags h : Z) : EFI_VMBUS_GPADL :=
  mkGpadl b (if exposed c Flags then u64 (b + mSharedGpaBoundary) else b) n (u32 (Z.shiftr n EFI_PAGE_SHIFT)) 0 h false.
Lemma torn_down_prepared c b n Flags p h v : v_gpadls v !! p = None ->
  (if exposed c Flags then h <> 0 /\ v_visible v !! h = None else h = 0) ->
  torn_down p (prepared_gpadl c b n Flags h) (prepared c b n Flags p h v) = view_zeroed (zeroing Flags b n (v_zeroed v)) v.
Proof.
  intros Hp Hh. unfold torn_down, prepared, prepared_gpadl, view_visible, view_gpadls, view_zeroed.
  cbn [GpadlHandle ProtectionHandle Z.eqb v_gpadls v_visible v_root v_table v_channels v_events v_published v_zeroed v_interrupted].
  rewrite delete_insert_id by done. destruct (exposed c Flags) eqn:Ex.
  - destruct Hh as [Hh Hv]. assert (I : IsIsolated = true) by (unfold exposed in Ex; by destruct IsIsolated).
    destruct (Z.eqb_spec h 0); [done|]. rewrite I. simpl. by rewrite delete_insert_id.
  - subst h. rewrite andb_false_r. done.
Qed.
Lemma torn_down_taken c b n Flags p h k e v : v_gpadls v !! p = None ->
  (if exposed c Flags then h <> 0 /\ v_visible v !! h = None else h = 0) ->
  1 <= k -> free_handle v k -> e <> 0 -> e ∉ v_events v ->
  torn_down p (set_GpadlHandle k (prepared_gpadl c b n Flags h))
    (taken k e (view_gpadls (<[p := set_GpadlHandle k (prepared_gpadl c b n Flags h)]> (v_gpadls (prepared c b n Flags p h v))) (prepared c b n Flags p h v)))
  = view_zeroed (zeroing Flags b n (v_zeroed v)) v.
Proof.
  intros Hp Hh Hk Hf He Hn. rewrite <- (torn_down_prepared c b n Flags p h v Hp Hh). unfold torn_down at 1.
  cbn [GpadlHandle set_GpadlHandle]. destruct (Z.eqb_spec k 0); [lia|]. rewrite drop_taken; [|done..].
  unfold torn_down. cbn [GpadlHandle ProtectionHandle prepared_gpadl set_GpadlHandle Z.eqb]. unfold view_visible, view_gpadls.
  cbn [v_gpadls v_visible v_root v_table v_channels v_events v_published v_zeroed v_interrupted]. by rewrite delete_insert_eq.
Qed.
End Gpadl.
End VmbusGpadl.
