(* ===== verification/VmbusChannels.v ===== *)
(** Channels of the VMBus driver: opening and closing, their interrupts, and how
    contexts are made and destroyed. *)
From stdpp Require Import base list numbers list_numbers option gmap fin_maps.
From Stdlib Require Import ZArith Lia.
From S2P Require Import Prelude Circular PkRing EmclPacket EmclPacketProps Vmbus VmbusInv VmbusInterrupt VmbusGpadl.
Open Scope Z_scope.

Module VmbusChannels.
Import PkRing EmclPacket Vmbus VmbusInv VmbusInterrupt VmbusGpadl.

Section Channels.
Context {B : BuildOptions} {HV : Hypervisor} {HL : HypervisorLaws}.

(** ** Opening and closing *)
Lemma calm_open This c h off s : base s -> channels s !! This = Some c ->
  calm (open_channel This h off) (fun st _ => st = EFI_SUCCESS \/ st = EFI_OUT_OF_RESOURCES) s.
Proof.
  intros H Hc. unfold open_channel. apply wp_bind, (wp_get_context _ c); [done|].
  apply wp_bind, wp_put; [apply init_wf|done|done|]. intros m1 M1 E1. apply wp_bind, wp_put; [done..|]. intros m2 M2 E2.
  apply wp_bind, wp_put; [done..|]. intros m3 M3 E3. apply wp_bind, wp_put; [done..|]. intros m4 M4 E4.
  eapply calm_bind; [apply calm_send; [done|done|rewrite E4, E3, E2, E1; done]|cbv beta]. intros _ s1 H1 Q1 _.
  destruct (quiet_context _ _ _ _ Q1 Hc) as (c1 & Hc1 & _). unfold VmbusRootWaitForChannelResponse.
  eapply (calm_bind _ _ (fun m _ => wf_message m)).
  { apply wp_bind, (wp_get_context _ c1); [done|]. eapply calm_bind; [by apply calm_wait|cbv beta]. intros _ s2 H2 Q2 _.
    destruct (quiet_context _ _ _ _ Q2 Hc1) as (c2 & Hc2 & _). apply wp_bind, (wp_get_context _ c2); [done|].
    apply calm_ret; [done|]. by destruct (b_contexts _ H2 This c2 Hc2). }
  intros r s2 H2 _ Hr. apply wp_bind, wp_field; [done..|]. intros mt _ _. apply wp_bind, wp_field; [done..|]. intros id _ _.
  apply wp_bind, wp_field; [done..|]. intros st _ _. do 3 (apply wp_bind, wp_failfast; intros _).
  apply calm_ret; [done|]. destruct (_ =? _); auto.
Qed.
Lemma calm_close This c s : base s -> channels s !! This = Some c -> calm (VmbusChannelCloseChannel This) (fun st _ => st = EFI_SUCCESS) s.
Proof.
  intros H Hc. unfold VmbusChannelCloseChannel. apply wp_bind, (wp_get_context _ c); [done|].
  apply wp_bind, wp_put; [apply init_wf|done|done|]. intros m1 M1 E1.
  eapply calm_bind; [apply calm_send; [done|done|rewrite E1; done]|cbv beta]. intros _ s1 H1 _ _. by apply calm_ret.
Qed.

(** ** Interrupts of channels *)
Lemma entry_unique s p q c d : base s -> channels s !! p = Some c -> channels s !! q = Some d -> ChannelId c = ChannelId d -> p = q.
Proof. intros H Hc Hd E. destruct (b_contexts _ H p c Hc), (b_contexts _ H q d Hd). congruence. Qed.

(** A context gets another interrupt, and the mark moves. *)
Lemma base_interrupt p c ev max s : base s -> channels s !! p = Some c -> 0 <= max < VMBUS_MAX_CHANNELS -> (ev <> 0 -> ChannelId c <= max) ->
  (forall q d, channels s !! q = Some d -> q <> p -> Interrupt d <> 0 -> ChannelId d <= max) ->
  base (set_channels (<[p := set_Interrupt ev c]> (channels s)) (set_root (set_MaxInterruptUsed max (root s)) s)).
Proof.
  intros [H1 H2 H3 H4 H5 H6 H7 H8 H9 H10 H11 H12] Hc Hm He Hq.
  assert (N : forall q, channels s !! q = None -> <[p := set_Interrupt ev c]> (channels s) !! q = None).
  { intros q Hn. rewrite lookup_insert_ne; [done|]. congruence. }
  split; simpl; auto.
  - intros q d. destruct (decide (p = q)) as [->|].
    + rewrite lookup_insert_eq. intros E. injection E as <-. destruct (H4 q c Hc). by split.
    + rewrite lookup_insert_ne by done. intros Hd. destruct (H4 q d Hd). split; simpl; auto.
      intros Hi. by apply (Hq q d Hd).
  - intros i q Hi. destruct (H5 i q Hi) as [->|(d & Hd & Ei)]; [by left|right]. destruct (decide (p = q)) as [->|].
    + exists (set_Interrupt ev c). rewrite lookup_insert_eq. split; [done|]. simpl. congruence.
    + exists d. by rewrite lookup_insert_ne.
  - intros q m Hm'. destruct (H9 q m Hm') as (? & ? & ? & ?). auto.
  - intros q g Hg. destruct (H11 q g Hg) as (? & ? & ? & [? ? ? ?]). split_and!; auto. by split.
Qed.

(** The scan for the highest channel with an interrupt stops at it. *)
Lemma wp_scan_back n i (Q : Z -> vmbus -> Prop) s : base s -> i = Z.of_nat n -> i < VMBUS_MAX_CHANNELS ->
  (forall j, 0 <= j <= i -> (forall p d, channels s !! p = Some d -> j < ChannelId d <= i -> Interrupt d = 0) -> Q j s) -> wp (scan_back n i) Q s.
Proof.
  intros H. revert i. induction n as [|n IH]; intros i Hi Hm K; cbn [scan_back].
  { apply wp_ret, K; [lia|]. intros. lia. }
  assert (Next : (forall p d, channels s !! p = Some d -> ChannelId d = i -> Interrupt d = 0) -> wp (scan_back n (i - 1)) Q s).
  { intros Hz. apply IH; [lia|lia|]. intros j Hj Hd. apply K; [lia|]. intros q d Hq Hr.
    destruct (decide (ChannelId d = i)); [by eapply Hz|]. eapply Hd; [done|lia]. }
  apply wp_bind, wp_channel_at; [done|lia|]. intros p Ep. destruct (b_entries _ H _ _ Ep) as [->|(c & Hc & Hid)].
  - apply Next. intros q d Hd Ei. destruct (b_contexts _ H q d Hd) as [Hne _ _ He _ _ _ _]. rewrite Ei, Ep in He. congruence.
  - destruct (Z.eqb_spec p 0) as [E|_]; [by destruct (b_contexts _ H p c Hc)|].
    apply wp_bind, (wp_get_context _ c); [done|]. destruct (Z.eqb_spec (Interrupt c) 0) as [Ez|Ez].
    + apply Next. intros q d Hd Ei. assert (q = p) as -> by (apply (entry_unique s q p d c); [done..|lia]). congruence.
    + apply wp_ret, K; [lia|]. intros. lia.
Qed.

Definition registered (This ev : Z) (c : VMBUS_CHANNEL_CONTEXT) (s s' : vmbus) : Prop :=
  channels s' = <[This := set_Interrupt ev c]> (channels s) /\
  exists max, root s' = set_MaxInterruptUsed max (root s) /\ pool s' = pool s /\ gpadls s' = gpadls s /\ hots s' = hots s /\ visible s' = visible s.
Lemma wp_RegisterIsr This c ev s : base s -> channels s !! This = Some c ->
  wp (VmbusChannelRegisterIsr This ev) (fun st s' => st = EFI_SUCCESS /\ base s' /\ registered This ev c s s') s.
Proof.
  intros H Hc. destruct (b_contexts _ H This c Hc) as [Ha _ Hid He _ _ _ _]. pose proof (b_max _ H) as Hm.
  assert (Hold : forall q d, channels s !! q = Some d -> Interrupt d <> 0 -> ChannelId d <= MaxInterruptUsed (root s)).
  { intros q d Hd. by destruct (b_contexts _ H q d Hd). }
  unfold VmbusChannelRegisterIsr. apply wp_bind, (wp_get_context _ c); [done|]. apply wp_bind. destruct (Z.eqb_spec ev 0) as [->|He0].
  - unfold VmbusRootClearInterruptEntry. apply wp_bind, wp_any_assert. apply wp_bind, wp_channel_at; [done..|]. intros p Ep.
    assert (p = This) as -> by congruence. unfold upd_context. apply wp_bind, wp_bind, (wp_get_context _ c); [done|]. apply wp_vmod.
    set (s1 := set_channels _ _). apply wp_bind, wp_rget.
    assert (H1 : base s1).
    { apply (base_ext (set_channels (<[This := set_Interrupt 0 c]> (channels s)) (set_root (set_MaxInterruptUsed (MaxInterruptUsed (root s)) (root s)) s)));
        try done; [by destruct s as [[]]|]. apply base_interrupt; eauto; lia. }
    destruct (Z.eqb_spec (ChannelId c) (MaxInterruptUsed (root s1))) as [E|E].
    + apply wp_bind, wp_scan_back; [done|simpl; lia|simpl; lia|]. intros j Hj Hz. simpl in Hj. apply wp_rmod, wp_ret.
      split_and!; [done| |split; [done|by eexists]].
      apply (base_ext (set_channels (<[This := set_Interrupt 0 c]> (channels s)) (set_root (set_MaxInterruptUsed j (root s)) s))); [done..|].
      apply base_interrupt; [done|done|lia|lia|]. intros q d Hd Hne Hi. specialize (Hold q d Hd Hi).
      destruct (Z.le_gt_cases (ChannelId d) j); [done|]. exfalso. apply Hi, (Hz q d); [|simpl; lia]. simpl. by rewrite lookup_insert_ne.
    + apply wp_ret, wp_ret. split_and!; [done|done|]. split; [done|]. exists (MaxInterruptUsed (root s)). by destruct s as [[]].
  - unfold VmbusRootSetInterruptEntry. apply wp_bind, wp_any_assert. apply wp_bind, wp_rmod.
    set (max := if MaxInterruptUsed (root s) <? ChannelId c then ChannelId c else MaxInterruptUsed (root s)).
    assert (Hmax : MaxInterruptUsed (root s) <= max /\ ChannelId c <= max /\ max < VMBUS_MAX_CHANNELS).
    { unfold max. destruct (Z.ltb_spec (MaxInterruptUsed (root s)) (ChannelId c)); lia. }
    assert (Er : (if MaxInterruptUsed (root s) <? ChannelId c then set_MaxInterruptUsed (ChannelId c) (root s) else root s) = set_MaxInterruptUsed max (root s)).
    { unfold max. destruct (_ <? _); [done|]. by destruct s as [[]]. }
    rewrite Er. set (s1 := set_root _ _). unfold channel_at. apply wp_bind, wp_bind, wp_rget.
    apply (wp_lift_ok _ This). { unfold entry. simpl. rewrite He. by destruct (Z.ltb_spec (ChannelId c) 0); [lia|]. }
    unfold upd_context. apply wp_bind, (wp_get_context _ c); [done|]. apply wp_vmod, wp_ret.
    split_and!; [done| |split; [done|by eexists]]. apply (base_interrupt This c ev max s); [done|done|lia|lia|].
    intros q d Hd _ Hi. specialize (Hold q d Hd Hi). lia.
Qed.
(** ** Making and destroying contexts *)
(** What making or destroying a channel leaves alone. *)
Record around (s s' : vmbus) : Prop := {
  a_root : root s' = set_Channels (Channels (root s')) (root s);
  a_gpadls : gpadls s' = gpadls s; a_hots : hots s' = hots s; a_visible : visible s' = visible s; a_sent : sent s' = sent s
}.
Lemma around_same s s' : root s' = root s -> gpadls s' = gpadls s -> hots s' = hots s -> visible s' = visible s -> sent s' = sent s -> around s s'.
Proof. intros E. split; try done. rewrite E. by destruct (root s). Qed.
Lemma around_chain s s' s'' : around s s' -> around s' s'' -> around s s''.
Proof. intros [R1] [R2]. split; try congruence. rewrite R2 at 1. rewrite R1. done. Qed.

Lemma base_drop_channel p c s : base s -> channels s !! p = Some c ->
  base (set_channels (delete p (channels s)) (set_pool (pool s ∖ {[p]}) (set_root (set_Channels (<[Z.to_nat (ChannelId c) := 0]> (Channels (root s))) (root s)) s))).
Proof.
  intros H Hc. pose proof H as [H1 H2 H3 H4 H5 H6 H7 H8 H9 H10 H11 H12]. destruct (H4 p c Hc) as [Ha Hp Hid He _ _ _ _].
  assert (N : forall q, q ∈ pool s -> q <> p -> q ∈ pool s ∖ {[p]}) by set_solver.
  split; simpl; auto.
  - by rewrite length_insert.
  - intros q d Hd. apply lookup_delete_Some in Hd as [Hne Hd]. destruct (H4 q d Hd) as [? ? Hidq ? ? ? ? ?]. split; simpl; auto.
    rewrite list_lookup_insert_ne; [done|]. intros E. apply Hne. apply (entry_unique s p q c d); [done..|lia].
  - intros i q Hi. destruct (decide (i = Z.to_nat (ChannelId c))) as [->|Hne].
    + rewrite list_lookup_insert_eq in Hi by (rewrite H1; unfold VMBUS_MAX_CHANNELS in Hid; lia). left. congruence.
    + rewrite list_lookup_insert_ne in Hi by done. destruct (H5 i q Hi) as [->|(d & Hd & Ei)]; [by left|right].
      exists d. split; [|done]. apply lookup_delete_Some. split; [|done]. intros ->. apply Hne. simplify_eq. lia.
  - intros q m Hm. destruct (H9 q m Hm) as (? & ? & ? & ?). split_and!; auto; [apply N; [done|congruence]|].
    apply lookup_delete_None. by right.
  - intros q g Hg. destruct (H11 q g Hg) as (? & ? & ? & [? ? ? ?]). split_and!; auto; [apply N; [done|congruence]|apply lookup_delete_None; by right|by split].
Qed.

Definition destroyed (p : Z) (c : VMBUS_CHANNEL_CONTEXT) (s : vmbus) (st : EFI_STATUS) (s' : vmbus) : Prop :=
  base s' /\ around s s' /\
  ((EFI_ERROR st = true /\ channels s' = channels s /\ root s' = root s) \/
   (st = EFI_SUCCESS /\ channels s' = delete p (channels s) /\ Channels (root s') = <[Z.to_nat (ChannelId c) := 0]> (Channels (root s)))).
Lemma wp_DestroyChannel p c s : base s -> channels s !! p = Some c -> wp (VmbusRootDestroyChannel p) (destroyed p c s) s.
Proof.
  intros H Hc. destruct (b_contexts _ H p c Hc) as [Ha Hp Hid He _ _ _ _]. unfold VmbusRootDestroyChannel, destroyed.
  apply wp_bind, (wp_get_context _ c); [done|]. apply wp_bind, wp_ask. destruct (EFI_ERROR (Uninstall_answer (tick s))) eqn:E1.
  { apply wp_ret. split_and!; [by apply (base_ext s)|by apply around_same|by left]. }
  apply wp_bind, wp_vmod, wp_bind, wp_ask. set (st := Uninstall_answer _). destruct (EFI_ERROR st) eqn:E2.
  { apply wp_ret. split_and!; [by apply (base_ext s)|by apply around_same|by left]. }
  set (s1 := next_tick _). assert (H1 : base s1) by by apply (base_ext s).
  apply wp_bind, wp_channel_at; [done..|]. intros q _. apply wp_bind, wp_any_assert. apply wp_bind, wp_rmod.
  set (s2 := set_root _ _). pose proof (base_drop_channel p c s1 H1 Hc) as Hb.
  unfold VmbusChannelDestroyContext. apply wp_bind, wp_bind, (wp_get_context _ c); [done|].
  destruct (_ =? 0).
  - apply wp_ret, wp_bind, wp_free; [done|]. apply wp_bind, wp_vmod, wp_ret. split_and!; [done|by split|by right].
  - apply wp_bind, wp_vmod. unfold upd_context. apply wp_bind, (wp_get_context _ c); [done|]. apply wp_vmod.
    apply wp_bind, wp_free; [done|]. apply wp_bind, wp_vmod, wp_ret. simpl.
    split_and!; [|by split|right; split_and!; [done|simpl; by rewrite delete_insert_eq|done]].
    eapply base_ext; [..|exact Hb]; try done. simpl. by rewrite delete_insert_eq.
Qed.

(** On a connection that is not confidential no channel claims to be. *)
Definition conf_ok (s : vmbus) : Prop :=
  VmbusRootSupportsFeatureFlag (root s) VMBUS_FEATURE_FLAG_CONFIDENTIAL_CHANNELS = true -> Confidential (root s) = true.

(** A context as an offer makes it. *)
Record offered (m : VMBUS_MESSAGE) (r : VMBUS_ROOT_CONTEXT) (c : VMBUS_CHANNEL_CONTEXT) : Prop := {
  of_id : load 4 (Data m) offer_ChildRelId = Ok (ChannelId c);
  of_type : InterfaceType c = zslice offer_InterfaceType 16 (Data m);
  of_message : wf_message (Message (Response c));
  of_interrupt : Interrupt c = 0;
  of_confidential : confidential c = true -> VmbusRootSupportsFeatureFlag r VMBUS_FEATURE_FLAG_CONFIDENTIAL_CHANNELS = true
}.
Lemma wp_init_context p m (Q : VMBUS_CHANNEL_CONTEXT -> vmbus -> Prop) s : base s -> owned s p -> wf_message m ->
  (forall c s', offered m (root s) c -> base s' -> owned s' p -> around s s' -> root s' = root s -> channels s' = channels s -> Q c s') ->
  wp (VmbusChannelInitializeContext m) Q s.
Proof.
  intros H Ho Hm K. assert (R : forall off, 0 <= off -> off + 16 <= 240 -> mem_read (Data m) off 16 = Ok (zslice off 16 (Data m))).
  { intros off ? ?. destruct Hm as [Hl _]. apply read_run; rewrite ?(Zlength_240 _ Hl); lia. }
  unfold VmbusChannelInitializeContext, offer_type. apply wp_bind, (wp_lift_ok _ _ _ _ (R offer_InterfaceType ltac:(done) ltac:(done))).
  apply wp_bind, (wp_lift_ok _ _ _ _ (R offer_InterfaceInstance ltac:(done) ltac:(done))).
  apply wp_bind, wp_field; [done..|]. intros id Ei _. apply wp_bind, wp_field; [done..|]. intros conn _ _.
  apply wp_bind, wp_field; [done..|]. intros flags _ _.
  assert (O : forall r e, root s = r -> offered m r
    (let pipe := if negb (Z.land flags VMBUS_OFFER_FLAG_NAMED_PIPE_MODE =? 0) then EFI_VMBUS_PROTOCOL_FLAGS_PIPE_MODE else 0 in
     let confidential := VmbusRootSupportsFeatureFlag r VMBUS_FEATURE_FLAG_CONFIDENTIAL_CHANNELS in
     let external := if confidential && negb (Z.land flags VMBUS_OFFER_FLAG_CONFIDENTIAL_EXTERNAL_MEMORY =? 0)
                  then EFI_VMBUS_PROTOCOL_FLAGS_CONFIDENTIAL_EXTERNAL_MEMORY else 0 in
     mkChannel 0 (Z.lor pipe external) pipe (zslice offer_InterfaceType 16 (Data m)) (zslice offer_InterfaceInstance 16 (Data m)) id conn
       (mkResponse e (mkMessage 0 (replicate 240 0))) 0 (confidential && negb (Z.land flags VMBUS_OFFER_FLAG_CONFIDENTIAL_RING_BUFFER =? 0)))).
  { intros r e _. split; try done.
    - split; cbn [Response Message Data]; [by rewrite length_replicate|by apply Forall_replicate].
    - unfold confidential. cbv zeta. cbn [ConfidentialRing VmbusFlags]. destruct (VmbusRootSupportsFeatureFlag r _); [done|]. cbn [andb orb]. by destruct (negb (Z.land flags VMBUS_OFFER_FLAG_NAMED_PIPE_MODE =? 0)). }
  apply wp_bind, wp_create_event.
  - intros st Es. apply wp_bind, wp_vget, wp_ret. apply K; [by apply O|by apply (base_ext s)|by destruct Ho|by apply around_same|done|done].
  - intros st e Es _ _. apply wp_bind, wp_vget, wp_ret. apply K; [by apply O|by apply (base_ext s)|by destruct Ho|by apply around_same|done|done].
Qed.
Lemma base_new_channel p c s : base s -> owned s p -> 0 <= ChannelId c < VMBUS_MAX_CHANNELS ->
  Channels (root s) !! Z.to_nat (ChannelId c) = Some 0 -> wf_message (Message (Response c)) ->
  VmbusRootIsChannelAllowed (InterfaceType c) = true -> Interrupt c = 0 -> (confidential c = true -> Confidential (root s) = true) ->
  base (set_root (set_Channels (<[Z.to_nat (ChannelId c) := p]> (Channels (root s))) (root s)) (set_channels (<[p := c]> (channels s)) s)).
Proof.
  intros H [Ha Hp Hn Hg Hh] Hid He Hm Hal Hi Hcf. pose proof H as [H1 H2 H3 H4 H5 H6 H7 H8 H9 H10 H11 H12].
  assert (Hlen : (Z.to_nat (ChannelId c) < length (Channels (root s)))%nat) by (rewrite H1; unfold VMBUS_MAX_CHANNELS in Hid; lia).
  split; simpl; auto.
  - by rewrite length_insert.
  - apply map_Forall_insert_2.
    + split; simpl; auto; [by apply list_lookup_insert_eq|done].
    + intros q d Hd. destruct (H4 q d Hd) as [? ? Hidq Heq ? ? ? ?]. split; simpl; auto.
      rewrite list_lookup_insert_ne; [done|]. intros E. rewrite <- E, He in Heq. congruence.
  - intros i q Hi'. destruct (decide (i = Z.to_nat (ChannelId c))) as [->|Hne].
    + rewrite list_lookup_insert_eq in Hi' by done. simplify_eq. right. exists c. rewrite lookup_insert_eq. split; [done|lia].
    + rewrite list_lookup_insert_ne in Hi' by done. destruct (H5 i q Hi') as [->|(d & Hd & Ei)]; [by left|right].
      exists d. split; [|done]. rewrite lookup_insert_ne; [done|]. congruence.
  - intros q m Hm'. destruct (H9 q m Hm') as (? & ? & ? & ?). split_and!; auto. rewrite lookup_insert_ne; [done|]. congruence.
  - intros q g Hg'. destruct (H11 q g Hg') as (? & ? & ? & [? ? ? ?]). split_and!; auto; [|by split]. rewrite lookup_insert_ne; [done|]. congruence.
Qed.

Definition made (m : VMBUS_MESSAGE) (s : vmbus) (x : EFI_STATUS * Z) (s' : vmbus) : Prop :=
  base s' /\ around s s' /\
  (EFI_ERROR x.1 = true \/
   (x.1 = EFI_SUCCESS /\ channels s !! x.2 = None /\ exists c, channels s' = <[x.2 := c]> (channels s) /\ offered m (root s) c /\
      Channels (root s) !! Z.to_nat (ChannelId c) = Some 0 /\ Channels (root s') = <[Z.to_nat (ChannelId c) := x.2]> (Channels (root s)))).

(** From the entry in the table on. *)
Lemma offered_handle m r c h : offered m r c -> offered m r (set_Handle h c).
Proof. intros []. by split. Qed.
Lemma wp_CreateChannel m s : base s -> conf_ok s -> wf_offer m -> wp (VmbusRootCreateChannel m) (made m s) s.
Proof.
  intros H Hcf (Hm & Hal & Hid). unfold VmbusRootCreateChannel. apply wp_bind, wp_alloc; [done|..].
  { intros H'. apply wp_ret. split_and!; [done|by apply around_same|by left]. }
  intros p s1 Hp H1 O1. destruct (Z.eqb_spec p 0); [done|]. 
  apply wp_bind, (wp_init_context p); [done..|]. intros c s2 Hc H2 O2 A2 R2 C2. change (root s1) with (root s) in *.
  pose proof (Hid _ (of_id _ _ _ Hc)) as Hi. set (s3 := set_channels (<[p := c]> (channels s2)) s2).
  apply wp_bind, wp_vmod, wp_bind, wp_any_assert. unfold channel_at. apply wp_bind, wp_bind, wp_rget.
  destruct (entry_ok (Channels (root s2)) (ChannelId c)) as (q & Eq & Lq); [unfold Zlength; rewrite (b_channels _ H2); done|].
  apply (wp_lift_ok _ q); [done|]. apply wp_bind, wp_failfast. intros Hq. apply Z.eqb_eq in Hq as ->. apply wp_bind, wp_rmod.
  set (s4 := set_root _ _).
  assert (H4 : base s4).
  { apply (base_new_channel p c s2); [done..|apply Hc|by rewrite (of_type _ _ _ Hc)|apply Hc|]. intros E. rewrite R2. apply Hcf, Hc, E. }
  assert (A4 : around s s4) by (destruct A2; split; simpl; try done; by rewrite R2).
  apply wp_bind, wp_ask. destruct (Install_answer (tick s4)) as [st1 h]. apply wp_bind, wp_any_assert. apply wp_bind.
  apply (wp_mono _ (fun _ s5 => base s5 /\ around s s5 /\ exists c', offered m (root s) c' /\ ChannelId c' = ChannelId c /\
    channels s5 = <[p := c']> (channels s) /\ Channels (root s5) = <[Z.to_nat (ChannelId c) := p]> (Channels (root s)))).
  { destruct (EFI_ERROR st1).
    - apply wp_ret. split_and!; [by apply (base_ext s4)|by destruct A4|]. exists c. simpl. rewrite R2, C2. by split_and!.
    - unfold upd_context. apply wp_bind, wp_bind, (wp_get_context _ c); [apply lookup_insert_eq|]. apply wp_vmod, wp_vmod.
      split_and!; [|by destruct A4|].
      + apply (base_ext (set_channels (<[p := set_Handle h c]> (channels s4)) s4)); [done..|].
        apply (base_update p c); [done|apply lookup_insert_eq|done..|apply Hc].
      + exists (set_Handle h c). simpl. rewrite R2, C2, insert_insert_eq. split_and!; [by apply offered_handle|done|done|done]. }
  intros _ s5 (H5 & A5 & c' & Hc' & Ei & C5 & R5). apply wp_bind, wp_ask. destruct (Install_answer (tick s5)) as [st2 h2].
  apply wp_bind, wp_any_assert. apply wp_bind, wp_ask. set (s6 := next_tick (next_tick s5)). assert (H6 : base s6) by by apply (base_ext s5).
  destruct (EFI_ERROR (OpenProtocol_answer _)) eqn:Eo.
  - eapply wp_seq; [apply (wp_DestroyChannel p c'); [done|]|].
    + simpl. rewrite C5. apply lookup_insert_eq.
    + intros st s7 (H7 & A7 & _). apply wp_ret. split_and!; [done| |by left].
      apply (around_chain s s5); [done|]. by apply (around_chain s5 s6); [apply around_same|].
  - apply wp_ret. split_and!; [done|by destruct A5|right]. split_and!; [done|apply O1|]. exists c'. rewrite Ei. split_and!; try done. by rewrite <- R2.
Qed.

(** ** Late offers become channels *)
Lemma base_drop_hot p m s : base s -> hots s !! p = Some m -> p ∉ HotMessageList (root s) ->
  base (set_hots (delete p (hots s)) (set_pool (pool s ∖ {[p]}) s)).
Proof.
  intros [H1 H2 H3 H4 H5 H6 H7 H8 H9 [H10 H10'] H11 H12] Hm Hq. destruct (H9 p m Hm) as (Hp & Hc & Hg & _).
  assert (N : forall q, q ∈ pool s -> q <> p -> q ∈ pool s ∖ {[p]}) by set_solver.
  split; simpl; auto.
  - intros q c Hq'. destruct (H4 q c Hq'). split; simpl; auto. apply N; [done|]. congruence.
  - intros q x Hx. apply lookup_delete_Some in Hx as [Hne Hx]. destruct (H9 q x Hx) as (? & ? & ? & ?). split_and!; auto.
  - split; [done|]. rewrite Forall_forall in H10' |- *. intros q Hin. rewrite lookup_delete_ne; [by apply H10'|]. congruence.
  - intros q g Hg'. destruct (H11 q g Hg') as (? & ? & ? & [? ? ? ?]). split_and!; auto; [apply N; [done|congruence]|by split].
Qed.
Lemma wp_hot_add l s : base s -> conf_ok s -> HotMessageList (root s) = [] -> NoDup l -> Forall (fun p => is_Some (hots s !! p)) l ->
  wp (hot_add l) (fun _ s' => base s' /\ root s' = set_Channels (Channels (root s')) (root s) /\ gpadls s' = gpadls s /\ visible s' = visible s) s.
Proof.
  revert s. induction l as [|p l IH]; intros s H Hcf Hl Hn Hf; cbn [hot_add].
  { apply wp_ret. split_and!; try done. by destruct (root s). }
  apply NoDup_cons in Hn as [Hp Hn]. apply Forall_cons in Hf as [[m Em] Hf].
  destruct (b_hots _ H p m Em) as (_ & _ & _ & Hm). apply wp_bind. unfold wp at 1. rewrite Em.
  apply wp_bind, wp_field; [apply Hm|done|done|]. intros mt _ _. apply wp_bind, wp_any_assert. apply wp_bind, wp_any_assert.
  eapply wp_seq; [by apply wp_CreateChannel|]. intros x s1 (H1 & [R1 G1 E1 V1 _] & _). rewrite <- E1 in Em.
  destruct (b_hots _ H1 p m Em) as (Hpool & _). apply wp_bind, wp_free; [done|]. apply wp_bind, wp_vmod.
  set (s2 := set_hots _ _).
  assert (H2 : base s2) by (apply (base_drop_hot p m s1); [done|done|rewrite R1; simpl; rewrite Hl; apply not_elem_of_nil]).
  eapply wp_mono; [apply IH; [done| | |done|]|].
  - unfold conf_ok. simpl. by rewrite R1.
  - simpl. by rewrite R1.
  - rewrite Forall_forall in Hf |- *. intros q Hq. simpl. rewrite E1, lookup_delete_ne; [by apply Hf|]. congruence.
  - intros _ s' (Hb & Rb & Gb & Vb). split_and!; [done| |by rewrite Gb|by rewrite Vb]. rewrite Rb at 1. simpl. by rewrite R1.
Qed.
Lemma wp_HotAdd s : base s -> conf_ok s -> wp VmbusRootHotAdd (fun _ s' => base s' /\ conf_ok s' /\ gpadls s' = gpadls s /\ Confidential (root s') = Confidential (root s)) s.
Proof.
  intros H Hcf. destruct (b_queue _ H) as [Q1 Q2]. unfold VmbusRootHotAdd. apply wp_bind, wp_rget, wp_bind, wp_rmod.
  set (s1 := set_root _ _). assert (H1 : base s1).
  { destruct H as [H1 H2 H3 H4 H5 H6 H7 H8 H9 H10 H11 H12]. split; simpl; auto.
    - intros p c Hc. destruct (H4 p c Hc). by split.
    - split; constructor.
    - intros q g Hg'. destruct (H11 q g Hg') as (? & ? & ? & [? ? ? ?]). split_and!; auto. by split. }
  eapply wp_mono; [by apply wp_hot_add|]. intros _ s' (Hb & Rb & Gb & _). split_and!; [done| |done|by rewrite Rb].
  unfold conf_ok. by rewrite Rb.
Qed.
End Channels.
End VmbusChannels.
