(* ===== verification/VmbusRootOps.v ===== *)
(** The VMBus root device: negotiation of the version, enumeration of the
    channels, and its start and stop. *)
From stdpp Require Import base list numbers list_numbers option gmap fin_maps.
From Stdlib Require Import ZArith Lia.
From S2P Require Import Prelude Circular PkRing EmclPacket EmclPacketProps Vmbus VmbusInv VmbusInterrupt VmbusGpadl VmbusChannels.
Open Scope Z_scope.

Module VmbusRootOps.
Import PkRing EmclPacket Vmbus VmbusInv VmbusInterrupt VmbusGpadl VmbusChannels.

Section Root.
Context {B : BuildOptions} {HV : Hypervisor} {HL : HypervisorLaws}.

(** ** Fields of the root context *)
Lemma base_root r s : base s -> Channels r = Channels (root s) -> GpadlTable r = GpadlTable (root s) ->
  HotMessageList r = HotMessageList (root s) -> MaxInterruptUsed r = MaxInterruptUsed (root s) ->
  (channels s = ∅ \/ Confidential r = Confidential (root s)) -> base (set_root r s).
Proof.
  intros [H1 H2 H3 H4 H5 H6 H7 H8 H9 H10 H11 H12] E1 E2 E3 E4 E5. split; simpl; rewrite ?E1, ?E2, ?E3, ?E4; auto.
  - intros p c Hc. destruct (H4 p c Hc). split; simpl; rewrite ?E1, ?E4; auto. destruct E5 as [E5|E5]; [|by rewrite E5].
    rewrite E5, lookup_empty in Hc. done.
  - intros q g Hg. destruct (H11 q g Hg) as (? & ? & ? & [? ? ? ?]). split_and!; auto. by split.
Qed.
Lemma quiet_empty s s' : quiet s s' -> channels s = ∅ -> channels s' = ∅.
Proof. intros Q E. apply map_empty. intros p. apply (quiet_no_context s); [done|]. by rewrite E, lookup_empty. Qed.

(** The feature flags in force are those this driver asks for. *)
Definition asked (c : bool) : Z := Z.lor VMBUS_SUPPORTED_FEATURE_FLAGS (if c then VMBUS_SUPPORTED_FEATURE_FLAGS_PARAVISOR else 0).
Definition flags_ok (s : vmbus) : Prop := Z.land (FeatureFlags (root s)) (asked (Confidential (root s))) = FeatureFlags (root s).
Lemma flags_conf s : flags_ok s -> conf_ok s.
Proof.
  unfold flags_ok, conf_ok, VmbusRootSupportsFeatureFlag. destruct (Confidential (root s)); [done|]. intros E. rewrite <- E.
  rewrite <- Z.land_assoc. change (Z.land (asked false) VMBUS_FEATURE_FLAG_CONFIDENTIAL_CHANNELS) with 0. by rewrite Z.land_0_r.
Qed.

(** What negotiation keeps. *)
Record linked (s s' : vmbus) : Prop := {
  l_base : base s'; l_empty : channels s' = ∅; l_conf : Confidential (root s') = true -> Confidential (root s) = true
}.
Lemma linked_trans s s' s'' : linked s s' -> linked s' s'' -> linked s s''.
Proof. intros [] []. split; auto. Qed.
Lemma linked_quiet s s' : base s' -> channels s = ∅ -> quiet s s' -> linked s s'.
Proof. intros H E Q. split; [done|by eapply quiet_empty|]. by rewrite (quiet_field Confidential s s'). Qed.
Lemma linked_root r s : base s -> channels s = ∅ -> Channels r = Channels (root s) -> GpadlTable r = GpadlTable (root s) ->
  HotMessageList r = HotMessageList (root s) -> MaxInterruptUsed r = MaxInterruptUsed (root s) ->
  (Confidential r = true -> Confidential (root s) = true) -> linked s (set_root r s).
Proof. intros. split; [apply base_root|..]; auto. Qed.
Lemma quiet_flags s s' : quiet s s' -> flags_ok s -> flags_ok s'.
Proof. intros Q. unfold flags_ok. by rewrite (quiet_field FeatureFlags s s'), (quiet_field Confidential s s'). Qed.

(** ** Negotiation *)
Lemma calm_await n m s : base s -> wf_message m -> calm (await_version n m) (fun m' _ => wf_message m') s.
Proof.
  revert m s. induction n as [|n IH]; intros m s H Hm; cbn [await_version]; [by apply (calm_lift _ wf_message)|].
  eapply calm_bind; [by apply calm_wait_message|cbv beta]. intros m' s1 H1 _ Hm'.
  apply wp_bind, wp_field; [done..|]. intros mt _ _. destruct (_ =? _); [by apply calm_ret|by apply IH].
Qed.
Definition negotiated (s : vmbus) (st : EFI_STATUS) (s' : vmbus) : Prop :=
  linked s s' /\ (EFI_ERROR st = false -> flags_ok s' /\ ContactInitiated (root s') = true).
Lemma wp_contact_response v m s : base s -> channels s = ∅ -> flags_ok s -> wf_message m -> wp (contact_response v m) (negotiated s) s.
Proof.
  intros H He Hf Hm. unfold contact_response, negotiated. eapply wp_seq; [by apply calm_await|]. intros m' s1 (H1 & Q1 & M1).
  pose proof (linked_quiet _ _ H1 He Q1) as L1. pose proof (quiet_flags _ _ Q1 Hf) as F1.
  apply wp_bind, wp_failfast. intros _. apply wp_bind, wp_field; [done..|]. intros sup _ _.
  apply wp_bind, wp_field; [done..|]. intros cs _ _. destruct (_ || _); [by apply wp_ret|]. apply wp_bind, wp_rmod.
  assert (L2 : linked s1 (set_root (set_ContactInitiated true (root s1)) s1)) by (apply linked_root; try done; apply L1).
  apply wp_bind. destruct (_ <=? _).
  - apply wp_bind, wp_failfast. intros _. apply wp_bind, wp_field; [done..|]. intros f _ _. apply wp_rmod, wp_ret. split.
    + apply (linked_trans s s1); [done|]. eapply linked_trans; [exact L2|]. apply linked_root; try done; apply L2.
    + intros _. split; [|done]. unfold flags_ok in *. simpl. rewrite <- Z.land_assoc, (Z.land_comm f), Z.land_assoc. by rewrite F1.
  - apply wp_ret, wp_ret. split; [by eapply linked_trans|]. done.
Qed.

Lemma calm_copper (copper : bool) m s : base s -> wf_message m ->
  wp (if copper then d ← vlift (mem_write (Data m) contact_ClientId gMsvmVmbusClientGuid); mret (mkMessage (Size m) d) else mret m)
    (fun m' s' => s' = s /\ wf_message m' /\ Size m' = Size m) s.
Proof.
  intros H [Hl Hy]. destruct copper; [|by apply wp_ret]. destruct client_guid as [Gl Gy].
  unfold mem_write. assert (G : Zlength gMsvmVmbusClientGuid = 16) by (unfold Zlength; lia). rewrite G.
  rewrite in_bounds_true by (rewrite ?(Zlength_240 _ Hl); done). apply wp_bind, (wp_lift_ok _ _ _ _ eq_refl), wp_ret. split_and!; [done| |done].
  split; simpl Data.
  - rewrite !length_app, length_take, length_drop, Gl. change (Z.to_nat contact_ClientId) with 40%nat.
    change (Z.to_nat (contact_ClientId + 16)) with 56%nat. lia.
  - rewrite !Forall_app. auto using Forall_take, Forall_drop.
Qed.

Lemma wp_InitiateContact v s : base s -> channels s = ∅ -> wp (VmbusRootInitiateContact v) (negotiated s) s.
Proof.
  intros H He. unfold VmbusRootInitiateContact, negotiated. apply wp_bind, wp_rget, wp_bind, wp_any_assert. cbv zeta.
  apply wp_bind, wp_rget. set (copper := VMBUS_VERSION_COPPER <=? v). set (size := if copper then sizeof_CONTACT else VMBUS_CHANNEL_INITIATE_CONTACT_MIN_SIZE).
  assert (Hs : 0 <= size <= 240) by (unfold size; by destruct copper). fold (asked (Confidential (root s))).
  set (fl := if copper then asked (Confidential (root s)) else 0).
  apply wp_bind, wp_put; [apply init_wf|done|done|]. intros m1 M1 E1. apply wp_bind, wp_put; [done..|]. intros m2 M2 E2.
  eapply wp_seq; [by apply calm_copper|]. intros m3 s' (-> & M3 & E3). apply wp_bind, wp_put; [done..|]. intros m4 M4 E4.
  assert (S4 : Size m4 = size) by (rewrite E4, E3, E2, E1; done). apply wp_bind, wp_rmod. set (s1 := set_root _ _).
  assert (L1 : linked s s1) by by apply linked_root.
  assert (F1 : flags_ok s1) by (unfold flags_ok, fl; simpl; destruct copper; [by rewrite Z.land_diag|done]).
  eapply wp_seq; [apply calm_send; [apply L1|done|by rewrite S4]|]. intros st s2 (H2 & Q2 & _).
  pose proof (linked_trans _ _ _ L1 (linked_quiet _ _ H2 (l_empty _ _ L1) Q2)) as L2. pose proof (quiet_flags _ _ Q2 F1) as F2.
  destruct (EFI_ERROR st) eqn:Est.
  2:{ eapply wp_mono; [apply wp_contact_response; [done|apply L2|done|done]|]. intros st' s3 [L3 K3]. split; [by eapply linked_trans|done]. }
  destruct (Confidential (root s)) eqn:Ec; cbn [negb].
  2:{ apply wp_ret. split; [done|]. by rewrite Est. }
  apply wp_bind, wp_rmod, wp_bind. unfold VmbusRootConnectSint, ConnectSint. apply wp_ask. set (s3 := next_tick _).
  assert (L3 : linked s s3).
  { apply (linked_trans s s2); [done|]. assert (L : linked s2 (set_root (set_Confidential false (root s2)) s2)) by (apply linked_root; try done; apply L2).
    destruct L. split; [by apply (base_ext (set_root (set_Confidential false (root s2)) s2))|done|done]. }
  match goal with |- context [EFI_ERROR ?x] => destruct (EFI_ERROR x) eqn:Ecs end; [apply wp_ret; split; [done|by rewrite Ecs]|].
  apply wp_bind. apply (wp_mono _ (fun m s4 => linked s s4 /\ flags_ok s4 /\ wf_message m /\ Size m = size)).
  { assert (R3 : FeatureFlags (root s3) = fl).
    { change (FeatureFlags (root s2) = fl). by rewrite (quiet_field FeatureFlags s1 s2). }
    unfold fl in R3. destruct copper.
    - apply wp_bind, wp_put; [done..|]. intros m5 M5 E5. apply wp_bind, wp_rmod, wp_ret. split_and!; [|done|done|congruence].
      apply (linked_trans s s3); [done|]. apply linked_root; try done; apply L3.
    - apply wp_ret. split_and!; [done| |done|done]. unfold flags_ok. by rewrite R3. }
  intros m5 s4 (L4 & F4 & M5 & S5). eapply wp_seq; [apply calm_send; [apply L4|done|by rewrite S5]|]. intros st5 s5 (H5 & Q5 & _).
  pose proof (linked_trans _ _ _ L4 (linked_quiet _ _ H5 (l_empty _ _ L4) Q5)) as L5. pose proof (quiet_flags _ _ Q5 F4) as F5.
  destruct (EFI_ERROR st5) eqn:Est5; [apply wp_ret; split; [done|by rewrite Est5]|].
  eapply wp_mono; [apply wp_contact_response; [done|apply L5|done|done]|]. intros st' s6 [L6 K6]. split; [by eapply linked_trans|done].
Qed.
Lemma wp_negotiate l st s : base s -> channels s = ∅ -> EFI_ERROR st = true -> wp (negotiate l st) (negotiated s) s.
Proof.
  revert st s. induction l as [|v l IH]; intros st s H He Hst; cbn [negotiate].
  { apply wp_ret. split; [by split|by rewrite Hst]. }
  eapply wp_seq; [by apply wp_InitiateContact|]. intros st1 s1 [L1 K1]. destruct (decide (st1 = EFI_PROTOCOL_ERROR)) as [->|]; [|by apply wp_ret].
  eapply wp_mono; [apply IH; [apply L1|apply L1|done]|]. intros st2 s2 [L2 K2]. split; [by eapply linked_trans|done].
Qed.
(** ** Enumeration *)
(** What enumeration and a stop of channels keep. *)
Record settled (s s' : vmbus) : Prop := {
  se_base : base s'; se_conf : conf_ok s'; se_confidential : Confidential (root s') = Confidential (root s); se_gpadls : gpadls s' = gpadls s
}.
Lemma settled_trans s s' s'' : settled s s' -> settled s' s'' -> settled s s''.
Proof. intros [] []. split; [done|done|congruence|congruence]. Qed.
Lemma settled_quiet s s' : base s' -> conf_ok s -> quiet s s' -> settled s s'.
Proof.
  intros H Hc Q. split; [done| |by rewrite (quiet_field Confidential s s')|apply Q]. unfold conf_ok, VmbusRootSupportsFeatureFlag in *.
  by rewrite (quiet_field FeatureFlags s s'), (quiet_field Confidential s s').
Qed.
Lemma settled_around s s' : base s' -> conf_ok s -> around s s' -> settled s s'.
Proof. intros H Hc [R]. split; [done|unfold conf_ok; by rewrite R|by rewrite R|done]. Qed.
Lemma settled_root r s : base s -> conf_ok s -> Channels r = Channels (root s) -> GpadlTable r = GpadlTable (root s) ->
  HotMessageList r = HotMessageList (root s) -> MaxInterruptUsed r = MaxInterruptUsed (root s) ->
  Confidential r = Confidential (root s) -> FeatureFlags r = FeatureFlags (root s) -> settled s (set_root r s).
Proof.
  intros H Hc ? ? ? ? E F. split; [apply base_root; auto| |done|done]. unfold conf_ok, VmbusRootSupportsFeatureFlag in *. simpl. by rewrite E, F.
Qed.

Lemma wp_enumerate n m s : base s -> conf_ok s -> wf_message m -> wp (enumerate n m) (fun _ s' => settled s s') s.
Proof.
  revert m s. induction n as [|n IH]; intros m s H Hc Hm; cbn [enumerate]; [by apply wp_lift|].
  eapply wp_seq; [by apply calm_wait_message|]. intros m1 s1 (H1 & Q1 & M1). pose proof (settled_quiet _ _ H1 Hc Q1) as S1.
  apply wp_bind, wp_field; [done..|]. intros mt _ _. destruct (_ && _).
  { apply wp_bind, wp_rmod, wp_ret. apply (settled_trans s s1); [done|]. apply settled_root; try done; apply S1. }
  destruct (_ || _); [by apply wp_ret|]. apply wp_bind, wp_field; [done..|]. intros id Ei Hid.
  apply wp_bind, wp_failfast. intros Hlt. apply Z.ltb_lt in Hlt. apply wp_bind, wp_channel_at; [done|lia|]. intros p _.
  apply wp_bind, wp_failfast. intros _. unfold offer_type.
  assert (Er : mem_read (Data m1) offer_InterfaceType 16 = Ok (zslice offer_InterfaceType 16 (Data m1))).
  { apply read_run; [done|done|]. by rewrite (Zlength_240 _ (proj1 M1)). }
  apply wp_bind, (wp_lift_ok _ _ _ _ Er). destruct (VmbusRootIsChannelAllowed _) eqn:Ha; cbn [negb].
  2:{ eapply wp_mono; [apply IH; [done|apply S1|done]|]. intros ? s2 S2. by eapply settled_trans. }
  assert (W : wf_offer m1) by (eapply wf_offer_intro; try done; lia).
  eapply wp_seq; [apply wp_CreateChannel; [done|apply S1|done]|]. intros [st q] s2 (H2 & A2 & _).
  pose proof (settled_trans _ _ _ S1 (settled_around _ _ H2 (se_conf _ _ S1) A2)) as S2.
  destruct (EFI_ERROR st); [by apply wp_ret|]. eapply wp_mono; [apply IH; [done|apply S2|done]|]. intros ? s3 S3. by eapply settled_trans.
Qed.
Lemma wp_EnumerateChildren s : base s -> conf_ok s -> wp VmbusRootEnumerateChildren (fun _ s' => settled s s') s.
Proof.
  intros H Hc. unfold VmbusRootEnumerateChildren. eapply wp_seq; [apply calm_send; [done|apply init_wf|done]|].
  intros _ s1 (H1 & Q1 & _). pose proof (settled_quiet _ _ H1 Hc Q1) as S1.
  eapply wp_mono; [apply wp_enumerate; [done|apply S1|apply init_wf]|]. intros ? s2 S2. by eapply settled_trans.
Qed.
Lemma calm_unload s : base s -> calm VmbusRootSendUnload (fun _ _ => True) s.
Proof.
  intros H. unfold VmbusRootSendUnload. eapply calm_bind; [apply calm_send; [done|apply init_wf|done]|cbv beta]. intros _ s1 H1 _ _.
  eapply (calm_bind _ _ (fun _ _ => True)).
  - generalize (init_wf ChannelMessageUnload sizeof_HEADER). generalize (VmbusRootInitializeMessage ChannelMessageUnload sizeof_HEADER).
    generalize patience. intros n. revert s1 H1. induction n as [|n IH]; intros s1 H1 m Hm; [by apply (calm_lift _ (fun _ => True))|].
    eapply calm_bind; [by apply calm_wait_message|cbv beta]. intros m' s2 H2 _ Hm'.
    apply wp_bind, wp_field; [done..|]. intros mt _ _. destruct (_ =? _); [by apply calm_ret|by apply IH].
  - intros m s2 H2 _ _. eapply calm_mono; [by apply calm_fail|done].
Qed.

(** ** Stopping children *)
Lemma wp_stop_child n i child s : base s -> conf_ok s -> 0 <= i -> i + Z.of_nat n = VMBUS_MAX_CHANNELS ->
  wp (stop_child n i child) (fun _ s' => settled s s') s.
Proof.
  intros H Hc. revert i. induction n as [|n IH]; intros i Hi Hn; cbn [stop_child].
  { apply wp_bind, wp_any_assert, wp_ret. by split. }
  apply wp_bind, wp_channel_at; [done|lia|]. intros p Ep. apply wp_bind.
  apply (wp_mono _ (fun b s' => s' = s /\ (b = true -> is_Some (channels s !! p)))).
  { destruct (b_entries _ H _ _ Ep) as [->|(c & Hcp & _)]; [by apply wp_ret|]. destruct (p =? 0); [by apply wp_ret|].
    apply wp_bind, (wp_get_context _ c); [done|]. apply wp_ret. split; [done|]. intros _. by eexists. }
  intros b s' [-> Hb]. destruct b; [|apply IH; lia]. destruct (Hb eq_refl) as [c Hcp].
  eapply wp_seq; [by apply (wp_DestroyChannel p c)|]. intros st s1 (H1 & A1 & _). pose proof (settled_around _ _ H1 Hc A1) as S1.
  destruct (EFI_ERROR st); [by apply wp_ret|]. apply wp_bind, wp_channel_at; [done|lia|]. intros q _.
  apply wp_bind, wp_any_assert. by apply wp_ret.
Qed.
Lemma wp_stop_children l s : base s -> conf_ok s -> wp (stop_children l) (fun _ s' => settled s s') s.
Proof.
  revert s. induction l as [|child l IH]; intros s H Hc; cbn [stop_children]; [apply wp_ret; by split|].
  eapply wp_seq; [by apply wp_stop_child|]. intros st s1 S1. destruct (EFI_ERROR st); [by apply wp_ret|].
  eapply wp_mono; [apply IH; apply S1|]. intros ? s2 S2. exact (settled_trans _ _ _ S1 S2).
Qed.
(** ** Stopping the root *)
(** What holds when a computation returns; for the ones a queued offer makes fault. *)
Definition returns {A} (c : V A) (Q : A -> vmbus -> Prop) (s : vmbus) : Prop := forall a s', c s = Ok (a, s') -> Q a s'.
Lemma returns_wp {A} (c : V A) Q s : wp c Q s -> returns c Q s.
Proof. unfold wp. intros W a s' E. by rewrite E in W. Qed.
Lemma returns_bind {A C} (c : V A) (k : A -> V C) P Q s :
  returns c P s -> (forall a s', P a s' -> returns (k a) Q s') -> returns (c ≫= k) Q s.
Proof.
  intros H K a s' E. unfold mbind, V_bind in E. destruct (c s) as [[x s1]|] eqn:Ec; [|done]. by apply (K x s1 (H _ _ Ec)).
Qed.

Lemma no_channels s : base s -> (forall i p, Channels (root s) !! i = Some p -> p = 0) -> channels s = ∅.
Proof.
  intros H Hz. apply map_empty. intros p. destruct (channels s !! p) as [c|] eqn:E; [|done].
  destruct (b_contexts _ H p c E) as [Ha _ _ He _ _ _ _]. by apply Hz in He.
Qed.
Lemma wp_destroy_channels n i s : base s -> 0 <= i -> i + Z.of_nat n = VMBUS_MAX_CHANNELS ->
  (forall j p, Z.of_nat j < i -> Channels (root s) !! j = Some p -> p = 0) ->
  wp (destroy_channels n i) (fun st s' => base s' /\ HotMessageList (root s') = HotMessageList (root s) /\ (EFI_ERROR st = false -> channels s' = ∅)) s.
Proof.
  revert i s. induction n as [|n IH]; intros i s H Hi Hn Hz; cbn [destroy_channels].
  { apply wp_ret. split_and!; [done|done|]. intros _. apply no_channels; [done|]. intros j p Hp. apply (Hz j); [|done].
    apply lookup_lt_Some in Hp. rewrite (b_channels _ H) in Hp. unfold VMBUS_MAX_CHANNELS in Hn. lia. }
  apply wp_bind, wp_channel_at; [done|lia|]. intros p Ep.
  destruct (Z.eqb_spec p 0) as [->|Hp].
  { apply IH; [done|lia|lia|]. intros j q Hj Hq. destruct (decide (j = Z.to_nat i)) as [->|]; [congruence|]. apply (Hz j); [lia|done]. }
  destruct (b_entries _ H _ _ Ep) as [->|(c & Hc & Hid)]; [done|].
  eapply wp_seq; [by apply (wp_DestroyChannel p c)|]. intros st s1 (H1 & A1 & D).
  assert (R1 : HotMessageList (root s1) = HotMessageList (root s)) by by rewrite (a_root _ _ A1).
  destruct D as [(Es & _)|(-> & _ & Ec)]; [rewrite Es; apply wp_ret; split_and!; [done|done|by rewrite Es]|]. cbn [EFI_ERROR].
  apply wp_bind, wp_channel_at; [done|lia|]. intros q _. apply wp_bind, wp_any_assert.
  eapply wp_mono; [apply IH; [done|lia|lia|]|].
  - intros j x Hj. rewrite Ec. destruct (decide (j = Z.to_nat (ChannelId c))) as [->|].
    + rewrite list_lookup_insert_eq; [congruence|]. rewrite (b_channels _ H). unfold VMBUS_MAX_CHANNELS in Hn. lia.
    + rewrite list_lookup_insert_ne by done. apply Hz. lia.
  - intros st2 s2 (? & R2 & ?). split_and!; [done|congruence|done].
Qed.

(** Setters of fields the invariant does not mention. *)
Definition plain (f : VMBUS_ROOT_CONTEXT -> VMBUS_ROOT_CONTEXT) : Prop :=
  forall r, Channels (f r) = Channels r /\ GpadlTable (f r) = GpadlTable r /\ HotMessageList (f r) = HotMessageList r /\
    MaxInterruptUsed (f r) = MaxInterruptUsed r /\ Confidential (f r) = Confidential r /\ FeatureFlags (f r) = FeatureFlags r.
Record tuned (s s' : vmbus) : Prop := {
  t_base : base s'; t_channels : channels s' = channels s; t_gpadls : gpadls s' = gpadls s;
  t_confidential : Confidential (root s') = Confidential (root s); t_flags : FeatureFlags (root s') = FeatureFlags (root s);
  t_queue : HotMessageList (root s') = HotMessageList (root s)
}.
Lemma tuned_refl s : base s -> tuned s s.
Proof. by split. Qed.
Lemma tuned_trans s s' s'' : tuned s s' -> tuned s' s'' -> tuned s s''.
Proof. intros [] []. split; [done|congruence..]. Qed.
Lemma tuned_rmod f s : plain f -> base s -> tuned s (set_root (f (root s)) s).
Proof. intros P H. destruct (P (root s)) as (? & ? & ? & ? & ? & ?). split; simpl; try done. apply base_root; auto. Qed.
Lemma tuned_set_events v w s : base s -> tuned s (set_events v w s).
Proof. intros H. split; try done. by apply (base_ext s). Qed.
Lemma tuned_tick s : base s -> tuned s (next_tick s).
Proof. intros H. split; try done. by apply (base_ext s). Qed.
Hint Resolve tuned_refl tuned_rmod tuned_set_events tuned_tick : vmbus.

Lemma wp_close_event get set s : base s -> plain (set 0) -> wp (close_root_event get set) (fun _ s' => tuned s s') s.
Proof.
  intros H P. unfold close_root_event. apply wp_bind, wp_rget. destruct (_ =? 0); [apply wp_ret; auto with vmbus|].
  apply wp_bind, wp_vmod, wp_rmod. eapply tuned_trans; [by apply tuned_set_events|]. apply tuned_rmod; [done|]. by apply (base_ext s).
Qed.
Lemma wp_create_root_event set s : base s -> (forall e, plain (set e)) -> wp (create_root_event set) (fun _ s' => tuned s s') s.
Proof.
  intros H P. unfold create_root_event. apply wp_bind, wp_create_event.
  - intros st Es. rewrite Es. apply wp_bind, wp_ret, wp_ret. auto with vmbus.
  - intros st e Es _ _. rewrite Es. apply wp_bind, wp_rmod, wp_ret. set (s1 := set_events _ _ _).
    assert (T : tuned s s1) by (split; try done; by apply (base_ext s)). eapply tuned_trans; [exact T|]. apply tuned_rmod; [done|apply T].
Qed.

(** A queued offer: the loop that frees the queue frees the wrong entry. *)
Lemma drop_hot_faults n s : HotMessageList (root s) <> [] -> exists f, drop_hot_messages n s = Fault f.
Proof.
  revert s. induction n as [|n IH]; intros s Hl.
  - unfold drop_hot_messages, mbind, V_bind, rget. destruct (HotMessageList (root s)); [done|eauto].
  - cbn [drop_hot_messages]. unfold mbind at 1, V_bind at 1, rget. destruct (HotMessageList (root s)) as [|first l]; [done|].
    unfold mbind, V_bind. destruct (decide _); [|eauto]. unfold rmod. destruct l as [|q l]; [eauto|]. unfold vlift, FreePool.
    destruct (decide _); [|eauto]. unfold vmod. apply IH. done.
Qed.
Lemma wp_reclaim_gpadls n i s : base s -> 0 <= i -> i + Z.of_nat n = VMBUS_MAX_GPADLS ->
  wp (reclaim_gpadls n i) (fun _ s' => base s' /\ v_channels (observe s') = v_channels (observe s) /\ gpadls s' = gpadls s) s.
Proof.
  revert i s. induction n as [|n IH]; intros i s H Hi Hn; cbn [reclaim_gpadls]; [by apply wp_ret|].
  apply wp_bind, wp_validate; [done|lia|]. intros b _. apply wp_bind, wp_any_assert. apply wp_bind, wp_reclaim; [done|lia|].
  intros s1 H1 O1 _. eapply wp_mono; [apply IH; [done|lia|lia]|]. intros _ s2 (H2 & C2 & G2). split; [done|]. rewrite C2, G2.
  change (gpadls s1) with (v_gpadls (observe s1)). rewrite O1. unfold dropped. by destruct (_ =? 0).
Qed.
Lemma returns_DestroyContext s : base s ->
  returns VmbusRootDestroyContext (fun st s' => st = EFI_SUCCESS -> base s' /\ channels s' = ∅ /\ HotMessageList (root s) = []) s.
Proof.
  intros H. unfold VmbusRootDestroyContext. eapply (returns_bind _ _ (fun _ s' => s' = s)); [by apply returns_wp, wp_rget|].
  intros contact s' ->. eapply (returns_bind _ _ (fun _ s' => base s' /\ HotMessageList (root s) `prefix_of` HotMessageList (root s'))).
  { apply returns_wp. destruct contact; [|by apply wp_ret]. eapply wp_seq; [by apply calm_unload|]. intros _ s1 (H1 & Q1 & _).
    apply wp_bind, wp_rmod, wp_rmod. assert (T : tuned s1 (set_root (set_ContactInitiated false (root s1)) s1)) by by apply tuned_rmod.
    pose proof (tuned_trans _ _ _ T (tuned_rmod (set_OffersDelivered false) _ ltac:(done) (t_base _ _ T))) as T2.
    split; [apply T2|]. rewrite (t_queue _ _ T2). apply Q1. }
  intros _ s1 [H1 P1]. eapply (returns_bind _ _ (fun _ s' => s' = s1)); [by apply returns_wp, wp_rget|]. intros conn s' ->.
  eapply (returns_bind _ _ (fun _ s' => tuned s1 s')).
  { apply returns_wp. destruct conn; [apply wp_rmod; by apply tuned_rmod|apply wp_ret; auto with vmbus]. }
  intros _ s2 T2. eapply returns_bind; [apply returns_wp, wp_destroy_channels; [apply T2|done|done|lia]|]. intros st s3 (H3 & R3 & C3).
  destruct (EFI_ERROR st) eqn:Es.
  { apply returns_wp, wp_ret. intros ->. done. }
  specialize (C3 eq_refl).
  eapply (returns_bind _ _ (fun _ s' => tuned s3 s')); [by apply returns_wp, wp_close_event|]. intros _ s4 T4.
  eapply (returns_bind _ _ (fun _ s' => tuned s4 s')); [apply returns_wp, wp_close_event; [apply T4|done]|]. intros _ s5 T5.
  eapply (returns_bind _ _ (fun _ s' => tuned s5 s')); [apply returns_wp, wp_close_event; [apply T5|done]|]. intros _ s6 T6.
  eapply (returns_bind _ _ (fun _ s' => tuned s6 s')); [apply returns_wp, wp_close_event; [apply T6|done]|]. intros _ s7 T7.
  pose proof (tuned_trans _ _ _ T4 (tuned_trans _ _ _ T5 (tuned_trans _ _ _ T6 T7))) as T.
  eapply (returns_bind _ _ (fun l s' => s' = s7 /\ l = HotMessageList (root s7))); [by apply returns_wp, wp_rget|]. intros l s' [-> ->].
  eapply (returns_bind _ _ (fun _ s' => s' = s7 /\ HotMessageList (root s7) = [])).
  { intros [] s8 E8. destruct (HotMessageList (root s7)) as [|p l] eqn:El.
    - simpl in E8. unfold mbind, V_bind, rget in E8. rewrite El in E8. by injection E8 as ->.
    - destruct (drop_hot_faults (length (p :: l)) s7) as [f Ef]; [by rewrite El|]. congruence. }
  intros _ s' [-> El]. eapply returns_bind; [apply returns_wp, wp_reclaim_gpadls; [apply T|done|done]|]. intros _ s8 (H8 & C8 & _).
  apply returns_wp, wp_ret. intros _. split_and!; [done| |].
  - simpl in C8. rewrite (t_channels _ _ T), C3, fmap_empty in C8. by apply fmap_empty_inv in C8.
  - rewrite (t_queue _ _ T), R3, (t_queue _ _ T2) in El. rewrite El in P1. by apply prefix_nil_inv in P1.
Qed.

(** ** Starting *)
Definition fresh_root : VMBUS_ROOT_CONTEXT :=
  mkRoot 0 0 0 0 [] (IsHardwareIsolated && IsParavisorPresent) false false false (replicate 256 no_response) (replicate 2048 0) 0 0.
Lemma base_fresh s : base s -> channels s = ∅ -> base (set_root fresh_root s).
Proof.
  intros [H1 H2 H3 H4 H5 H6 H7 H8 H9 H10 H11 H12] He. split; cbn -[replicate]; rewrite ?length_replicate; auto.
  - apply Forall_replicate. split; [apply length_replicate|by apply Forall_replicate].
  - rewrite He. apply map_Forall_empty.
  - intros i p Hp. apply lookup_replicate in Hp as [-> _]. by left.
  - done.
  - split; constructor.
  - intros q g Hg. destruct (H11 q g Hg) as (? & ? & ? & [? ? ? ?]). split_and!; auto. by split.
Qed.
Lemma wp_root_events s : base s -> wp root_events (fun _ s' => tuned s s') s.
Proof.
  intros H. unfold root_events. eapply wp_seq; [by apply wp_create_root_event|]. intros st s1 T1.
  destruct (EFI_ERROR st); [by apply wp_ret|]. eapply wp_seq; [apply wp_create_root_event; [apply T1|done]|]. intros st2 s2 T2.
  destruct (EFI_ERROR st2); [apply wp_ret; exact (tuned_trans _ _ _ T1 T2)|].
  eapply wp_mono; [apply wp_create_root_event; [apply T2|done]|]. intros ? s3 T3. exact (tuned_trans _ _ _ T1 (tuned_trans _ _ _ T2 T3)).
Qed.

(** A started driver. *)
Record started (s : vmbus) : Prop := {
  s_base : base s; s_conf : conf_ok s;
  s_isolated : Confidential (root s) = true -> IsHardwareIsolated && IsParavisorPresent = true
}.
Lemma wp_start_root s : base s -> channels s = ∅ ->
  wp start_root (fun st s' => base s' /\ (EFI_ERROR st = false -> conf_ok s' /\ (Confidential (root s') = true -> Confidential (root s) = true))) s.
Proof.
  intros H He. unfold start_root. apply wp_bind. unfold VmbusRootConnectSint, ConnectSint. apply wp_ask.
  match goal with |- context [EFI_ERROR ?x] => destruct (EFI_ERROR x) eqn:Ec end; [apply wp_ret; split; [by apply (base_ext s)|by rewrite Ec]|].
  apply wp_bind, wp_rmod. set (s1 := set_root _ _).
  assert (T1 : tuned s s1) by (eapply tuned_trans; [by apply tuned_tick|]; apply tuned_rmod; [done|by apply (base_ext s)]).
  eapply wp_seq; [apply wp_negotiate; [apply T1|by rewrite (t_channels _ _ T1)|done]|]. intros st s2 [L2 K2].
  destruct (EFI_ERROR st) eqn:Es; [apply wp_ret; split; [apply L2|by rewrite Es]|]. destruct (K2 eq_refl) as [F2 _].
  eapply wp_seq; [apply wp_create_root_event; [apply L2|done]|]. intros st3 s3 T3.
  destruct (EFI_ERROR st3) eqn:Es3; [apply wp_ret; split; [apply T3|by rewrite Es3]|].
  assert (C3 : conf_ok s3).
  { apply flags_conf in F2. unfold conf_ok, VmbusRootSupportsFeatureFlag in *. by rewrite (t_flags _ _ T3), (t_confidential _ _ T3). }
  eapply wp_seq; [apply wp_EnumerateChildren; [apply T3|done]|]. intros st4 s4 S4.
  destruct (EFI_ERROR st4) eqn:Es4; [apply wp_ret; split; [apply S4|by rewrite Es4]|]. apply wp_ask.
  split; [apply (base_ext s4); try done; apply S4|]. intros _. split; [apply S4|]. simpl. rewrite (se_confidential _ _ S4), (t_confidential _ _ T3).
  intros E. by apply (l_conf _ _ L2) in E.
Qed.
Lemma returns_DriverStart s : base s -> channels s = ∅ -> returns VmbusRootDriverStart (fun st s' => st = EFI_SUCCESS -> started s') s.
Proof.
  intros H He. unfold VmbusRootDriverStart.
  eapply (returns_bind _ _ (fun _ s' => tuned s s')); [by apply returns_wp, wp_ask, tuned_tick|]. intros st1 s1 T1.
  destruct (EFI_ERROR st1) eqn:E1; [apply returns_wp, wp_ret; by intros ->|].
  eapply (returns_bind _ _ (fun _ s' => tuned s1 s')); [apply returns_wp, wp_ask, tuned_tick, T1|]. intros st2 s2 T2.
  destruct (EFI_ERROR st2) eqn:E2; [apply returns_wp, wp_ret; by intros ->|].
  assert (He2 : channels s2 = ∅) by by rewrite (t_channels _ _ T2), (t_channels _ _ T1).
  eapply (returns_bind _ _ (fun st s' => EFI_ERROR st = false -> tuned (set_root fresh_root s2) s')).
  { unfold VmbusRootInitializeContext. eapply (returns_bind _ _ (fun _ s' => s' = set_root fresh_root s2)); [by apply returns_wp, wp_rmod|].
    intros _ s' ->. eapply returns_bind; [apply returns_wp, wp_root_events, base_fresh; [apply T2|done]|]. intros st3 s3 T3.
    destruct (EFI_ERROR st3) eqn:E3; [|by apply returns_wp, wp_ret].
    eapply (returns_bind _ _ (fun _ _ => True)); [done|]. intros ? s4 _. apply returns_wp, wp_ret. by rewrite E3. }
  intros st3 s3 T3. destruct (EFI_ERROR st3) eqn:E3; [apply returns_wp, wp_ret; by intros ->|]. specialize (T3 eq_refl).
  eapply returns_bind; [apply returns_wp, wp_start_root; [apply T3|by rewrite (t_channels _ _ T3)]|]. intros st4 s4 [H4 K4].
  destruct (EFI_ERROR st4) eqn:E4.
  - eapply (returns_bind _ _ (fun _ _ => True)); [done|]. intros ? s5 _. apply returns_wp, wp_ret. by intros ->.
  - apply returns_wp, wp_ret. intros _. destruct (K4 eq_refl) as [C4 F4]. split; [done|done|]. intros E. apply F4 in E.
    by rewrite (t_confidential _ _ T3) in E.
Qed.
End Root.
End VmbusRootOps.
