(* ===== verification/VmbusMachine.v ===== *)
(** The VMBus driver as a machine: from boot through start, the operations of the
    channel protocols, interrupts and late offers in any order, to stop. *)
From stdpp Require Import base list numbers list_numbers option gmap fin_maps.
From Stdlib Require Import ZArith Lia.
From S2P Require Import Prelude Circular PkRing EmclPacket EmclPacketProps Vmbus VmbusInv VmbusInterrupt VmbusGpadl VmbusChannels VmbusRootOps.
Open Scope Z_scope.

Module VmbusMachine.
Import PkRing EmclPacket Vmbus VmbusInv VmbusInterrupt VmbusGpadl VmbusChannels VmbusRootOps.

Section Machine.
Context {B : BuildOptions} {HV : Hypervisor}.

(** ** Operations *)
Inductive vmbus_op :=
  | OpInterrupt | OpHotAdd
  | OpPrepare (This b n Flags : Z) | OpCreate (This p : Z) | OpDestroy (This p : Z)
  | OpCreateLegacy (This b n : Z) | OpDestroyLegacy (This h : Z)
  | OpOpen (This p off : Z) | OpOpenLegacy (This h off : Z) | OpClose (This : Z)
  | OpRegisterIsr (This ev : Z) | OpSendInterrupt (This : Z)
  | OpStopChildren (children : list Z) | OpExitBootServices.

Definition exec (o : vmbus_op) : V unit :=
  match o with
  | OpInterrupt => take_interrupt
  | OpHotAdd => VmbusRootHotAdd
  | OpPrepare This b n f => _ ← VmbusChannelPrepareGpadl This b n f; mret tt
  | OpCreate This p => _ ← VmbusChannelCreateGpadl This p; mret tt
  | OpDestroy This p => _ ← VmbusChannelDestroyGpadl This p; mret tt
  | OpCreateLegacy This b n => _ ← VmbusChannelCreateGpadlLegacy This b n; mret tt
  | OpDestroyLegacy This h => _ ← VmbusChannelDestroyGpadlLegacy This h; mret tt
  | OpOpen This p off => _ ← VmbusChannelOpenChannel This p off; mret tt
  | OpOpenLegacy This h off => _ ← VmbusChannelOpenChannelLegacy This h off; mret tt
  | OpClose This => _ ← VmbusChannelCloseChannel This; mret tt
  | OpRegisterIsr This ev => _ ← VmbusChannelRegisterIsr This ev; mret tt
  | OpSendInterrupt This => _ ← VmbusChannelSendInterrupt This; mret tt
  | OpStopChildren l => _ ← stop_children l; mret tt
  | OpExitBootServices => VmbusRootExitBootServices
  end.

(** A client uses channels and GPADLs that exist, and handles of the table. *)
Definition op_ok (o : vmbus_op) (s : vmbus) : Prop :=
  match o with
  | OpPrepare This _ _ _ | OpCreateLegacy This _ _ | OpOpenLegacy This _ _ | OpClose This | OpRegisterIsr This _ | OpSendInterrupt This =>
    is_Some (channels s !! This)
  | OpDestroyLegacy This h => is_Some (channels s !! This) /\ 0 <= h < VMBUS_MAX_GPADLS
  | OpCreate This p | OpDestroy This p | OpOpen This p _ => is_Some (channels s !! This) /\ is_Some (gpadls s !! p)
  | _ => True
  end.

(** [mRootContext] is a global, zero at boot. *)
Definition boot : vmbus :=
  mkVmbus (mkRoot 0 0 0 0 [] false false false false (replicate 256 no_response) (replicate 2048 0) 0 0)
    ∅ ∅ ∅ ∅ ∅ ∅ ∅ ∅ [] None (replicate 32 0) (replicate 32 0) [] [] 0.

Inductive machine : bool -> vmbus -> Prop :=
  | at_boot : machine false boot
  | at_start s s' : machine false s -> VmbusRootDriverStart s = Ok (EFI_SUCCESS, s') -> machine true s'
  | at_step o s s' : machine true s -> op_ok o s -> exec o s = Ok (tt, s') -> machine true s'
  | at_stop s s' : machine true s -> VmbusRootDriverStop [] s = Ok (EFI_SUCCESS, s') -> machine false s'.

Context {HL : HypervisorLaws}.

Lemma started_skeleton s s' : base s' -> skeleton (root s') = skeleton (root s) -> started s -> started s'.
Proof.
  intros H E [_ C I]. assert (F : FeatureFlags (root s') = FeatureFlags (root s)) by exact (f_equal FeatureFlags E).
  assert (G : Confidential (root s') = Confidential (root s)) by exact (f_equal Confidential E).
  split; [done| |by rewrite G]. unfold conf_ok, VmbusRootSupportsFeatureFlag in *. by rewrite F, G.
Qed.
Lemma started_observe s s' v : base s' -> observe s' = v -> v_root v = skeleton (root s) -> started s -> started s'.
Proof. intros H E R. apply started_skeleton; [done|]. rewrite <- R, <- E. done. Qed.
Lemma started_settled s s' : settled s s' -> started s -> started s'.
Proof. intros [? ? E ?] [? ? I]. split; [done|done|]. by rewrite E. Qed.
Lemma calm_started {A} (c : V A) Q s : started s -> calm c Q s -> wp (_ ← c; mret tt) (fun _ s' => started s') s.
Proof. intros S W. eapply wp_seq; [apply W|]. intros a s' (? & Hq & _). apply wp_ret. by apply (started_skeleton s); [|apply Hq|]. Qed.
Lemma dropped_root h v : v_root (dropped h v) = v_root v.
Proof. unfold dropped. by destruct (_ =? 0). Qed.

(** Every operation a client may call keeps the driver in order, and no message
    or interrupt of the host makes it leave its objects. *)
Lemma exec_safe o s : started s -> op_ok o s -> wp (exec o) (fun _ s' => started s') s.
Proof.
  intros S Ho. pose proof (s_base _ S) as H. pose proof (s_conf _ S) as Hc. destruct o; simpl in Ho |- *.
  - eapply wp_mono; [by apply calm_interrupt|]. intros _ s' (? & Hq & _). by apply (started_skeleton s); [|apply Hq|].
  - eapply wp_mono; [by apply wp_HotAdd|]. intros _ s' (? & ? & _ & E). destruct S. split; [done|done|]. by rewrite E.
  - destruct Ho as [c Ho]. eapply wp_seq; [by eapply wp_PrepareGpadl|]. intros x s' (Hb & _ & D). apply wp_ret.
    destruct D as [(_ & _ & O)|(_ & _ & h & _ & O)]; by apply (started_observe s _ _ Hb O).
  - destruct Ho as [[c Ho] [g Hg]]. eapply wp_seq; [eapply wp_CreateGpadl; [done..|]|].
    { by destruct (b_gpadls _ H p g Hg) as (_ & _ & _ & [_ _ ? _]). }
    intros x s' (Hb & _ & D). apply wp_ret. destruct D as [(_ & O)|(_ & _ & h & e & _ & _ & _ & _ & O)]; by apply (started_observe s _ _ Hb O).
  - destruct Ho as [[c Ho] [g Hg]]. eapply wp_seq; [by eapply wp_DestroyGpadl|]. intros x s' (Hb & _ & D). apply wp_ret.
    destruct D as [(_ & _ & _ & ->)|(_ & O)]; [done|]. apply (started_observe s _ _ Hb O); [|done].
    unfold torn_down. cbv zeta. cbn [v_root view_visible view_gpadls]. destruct (GpadlHandle g =? 0); [done|apply dropped_root].
  - destruct Ho as [c Ho]. eapply wp_seq; [by eapply wp_CreateLegacy|]. intros x s' (Hb & _ & D). apply wp_ret.
    destruct D as [(_ & _ & O)|(_ & e & _ & _ & _ & _ & O)]; by apply (started_observe s _ _ Hb O).
  - destruct Ho as [[c Ho] Hh]. eapply wp_seq; [by eapply wp_DestroyLegacy|]. intros x s' (Hb & _ & D). apply wp_ret.
    destruct D as [(_ & _ & _ & ->)|(_ & O)]; [done|]. apply (started_observe s _ _ Hb O); [|done]. destruct (_ =? 0); [done|by rewrite dropped_root].
  - destruct Ho as [[c Ho] [g Hg]]. apply (calm_started _ (fun _ _ => True)); [done|]. unfold VmbusChannelOpenChannel.
    apply wp_bind, (wp_get_gpadl _ g); [done|]. by eapply calm_mono; [eapply calm_open|].
  - destruct Ho as [c Ho]. eapply calm_started; [done|]. by eapply calm_open.
  - destruct Ho as [c Ho]. eapply calm_started; [done|]. by eapply calm_close.
  - destruct Ho as [c Ho]. eapply wp_seq; [by eapply wp_RegisterIsr|]. intros x s' (_ & Hb & _ & max & R & _). apply wp_ret.
    destruct S. split; [done| |by rewrite R]. unfold conf_ok. by rewrite R.
  - destruct Ho as [c Ho]. apply wp_bind. unfold VmbusChannelSendInterrupt. apply wp_bind, (wp_get_context _ c); [done|].
    apply wp_bind, wp_vmod, wp_ask, wp_ret. by apply (started_skeleton s); [apply (base_ext s)| |].
  - eapply wp_seq; [by apply wp_stop_children|]. intros x s' S'. apply wp_ret. by apply (started_settled s).
  - eapply wp_mono; [by apply calm_unload|]. intros _ s' (? & Hq & _). by apply (started_skeleton s); [|apply Hq|].
Qed.

Lemma base_boot : base boot.
Proof.
  split; cbn -[replicate]; rewrite ?length_replicate; try done.
  - apply Forall_replicate. split; [apply length_replicate|by apply Forall_replicate].
  - intros i p Hp. apply lookup_replicate in Hp as [-> _]. by left.
  - split; constructor.
Qed.
Lemma machine_inv b s : machine b s -> base s /\ (if b then started s else channels s = ∅).
Proof.
  induction 1 as [|s s' _ [H He] E|o s s' _ [H S] Ho E|s s' _ [H S] E].
  - split; [apply base_boot|done].
  - pose proof (returns_DriverStart s H He _ _ E eq_refl) as S. split; [apply S|done].
  - pose proof (exec_safe o s S Ho) as W. unfold wp in W. rewrite E in W. split; [apply W|done].
  - destruct (returns_DestroyContext s H _ _ E eq_refl) as (? & ? & _). done.
Qed.
End Machine.
End VmbusMachine.
