(* ===== verification/VmbusMessages.v ===== *)
(** The messages that describe a GPADL to the host, read back: [host_gpadl] is the
    host's reading of a header and its bodies. *)
From stdpp Require Import base list numbers list_numbers option gmap.
From Stdlib Require Import ZArith Lia.
From S2P Require Import Prelude Circular PkRing EmclPacket EmclPacketProps Vmbus VmbusInv VmbusInterrupt VmbusGpadl.
Open Scope Z_scope.

Module VmbusMessages.
Import PkRing EmclPacket Vmbus VmbusInv VmbusInterrupt VmbusGpadl.

(** ** The host's side *)
Fixpoint read_pfns (n : nat) (b : list Z) (off : Z) : result (list Z) :=
  match n with
  | O => Ok []
  | Datatypes.S n => x ← load 8 b off; l ← read_pfns n b (off + 8); Ok (x :: l)
  end.

(** [left] page numbers are still to come, for the GPADL [h]. *)
Fixpoint host_bodies (h left : Z) (msgs : list (list Z)) : result (list Z) :=
  match msgs with
  | [] => if left =? 0 then Ok [] else Fault OutOfBounds
  | m :: msgs =>
    ty ← load 4 m 0;
    h' ← load 4 m 12;
    if (ty =? 9) && (h' =? h) then
      l ← read_pfns (Z.to_nat (Z.min left 28)) m 16;
      r ← host_bodies h (left - Z.min left 28) msgs;
      Ok (l ++ r)
    else Fault FailFast
  end.

Record host_range := mkHostRange { hr_child : Z; hr_gpadl : Z; hr_bytes : Z; hr_offset : Z; hr_pfns : list Z }.
Definition host_gpadl (msgs : list (list Z)) : result host_range :=
  match msgs with
  | [] => Fault OutOfBounds
  | m :: msgs =>
    ty ← load 4 m 0; child ← load 4 m 8; h ← load 4 m 12;
    len ← load 2 m 16; count ← load 2 m 18; bytes ← load 4 m 20; off ← load 4 m 24;
    if (ty =? 8) && (count =? 1) then
      let n := (len - 8) / 8 in
      l ← read_pfns (Z.to_nat (Z.min n 26)) m 28;
      r ← host_bodies h (n - Z.min n 26) msgs;
      Ok (mkHostRange child h bytes off (l ++ r))
    else Fault FailFast
  end.

(** ** Storing and reading back *)
Lemma zslice_lookup {A} (l : list A) off n i : (i < Z.to_nat n)%nat -> zslice off n l !! i = l !! (Z.to_nat off + i)%nat.
Proof. intros H. unfold zslice. by rewrite lookup_take_lt, lookup_drop by done. Qed.
Lemma length_zslice {A} (l : list A) off n : 0 <= off -> 0 <= n -> off + n <= Zlength l -> length (zslice off n l) = Z.to_nat n.
Proof. unfold Zlength. intros. unfold zslice. rewrite length_take, length_drop. lia. Qed.

Lemma store_ok n b off v : 0 <= off -> off + Z.of_nat n <= Zlength b ->
  exists b', store n b off v = Ok b' /\ length b' = length b /\ load n b' off = Ok (v mod 256 ^ Z.of_nat n) /\
    forall k o, 0 <= o -> o + Z.of_nat k <= off \/ off + Z.of_nat n <= o -> o + Z.of_nat k <= Zlength b -> load k b' o = load k b o.
Proof.
  intros H1 H2. unfold store, mem_write. rewrite Zlength_le_split, in_bounds_true by lia. set (b' := take _ _ ++ _).
  assert (L : length b' = length b).
  { unfold b', Zlength in *. rewrite !length_app, length_take, length_drop, length_le_split. lia. }
  assert (Lz : Zlength b' = Zlength b) by (unfold Zlength; by rewrite L).
  exists b'. split_and!; [done|done|..].
  - unfold load, mem_read. rewrite in_bounds_true, bind_Ok by (rewrite ?Lz; lia). f_equal. rewrite <- le_combine_split. f_equal.
    unfold zslice, b'. rewrite drop_app_length' by (unfold Zlength in H2; rewrite length_take; lia).
    rewrite take_app_length' by (rewrite length_le_split; lia). done.
  - intros k o Ho Hd Hk. unfold load, mem_read. rewrite !in_bounds_true, !bind_Ok by (rewrite ?Lz; lia). do 2 f_equal.
    apply list_eq_same_length with (Z.to_nat (Z.of_nat k)); [by apply length_zslice; rewrite ?Lz; lia|by apply length_zslice; lia|].
    intros i x y Hi. rewrite !zslice_lookup by done. unfold b', Zlength in *. intros Hx Hy. destruct Hd as [Hd|Hd].
    + rewrite lookup_app_l, lookup_take_lt in Hx by (rewrite ?length_take; lia). congruence.
    + rewrite lookup_app_r, lookup_app_r, lookup_drop in Hx by (rewrite ?length_take, ?length_le_split; lia).
      rewrite length_take, length_le_split in Hx. replace (Z.to_nat o + i)%nat with
        (Z.to_nat (off + Z.of_nat n) + (Z.to_nat o + i - Nat.min (Z.to_nat off) (length b) - n))%nat in Hy by lia. congruence.
Qed.

(** The message [m'] is [m] but for [off .. off+n). *)
Definition elsewhere (off n : Z) (m m' : VMBUS_MESSAGE) : Prop :=
  length (Data m') = 240%nat /\ Size m' = Size m /\
  forall k o, 0 <= o -> o + Z.of_nat k <= off \/ off + n <= o -> o + Z.of_nat k <= 240 -> load k (Data m') o = load k (Data m) o.
Lemma put_ok n off v m s : length (Data m) = 240%nat -> 0 <= off -> off + Z.of_nat n <= 240 ->
  exists m', put n off v m s = Ok (m', s) /\ elsewhere off (Z.of_nat n) m m' /\ load n (Data m') off = Ok (v mod 256 ^ Z.of_nat n).
Proof.
  intros Hl H1 H2. destruct (store_ok n (Data m) off v) as (b' & E & L & V & K); [done|by rewrite Zlength_240|].
  exists (mkMessage (Size m) b'). unfold put, mbind, V_bind, vlift. rewrite E. split_and!; [done| |done].
  split_and!; [simpl; congruence|done|]. intros k o ? ? ?. simpl. apply K; [done|done|by rewrite Zlength_240].
Qed.

Definition pfns_from (pfn : Z) (n : nat) : list Z := map (fun i => pfn + i) (seqZ 0 (Z.of_nat n)).
Lemma pfns_S pfn n : pfns_from pfn (S n) = pfn :: pfns_from (pfn + 1) n.
Proof.
  unfold pfns_from. rewrite seqZ_cons by lia. cbn [map]. f_equal; [lia|]. replace (Z.pred (Z.of_nat (S n))) with (Z.of_nat n) by lia.
  replace (seqZ (Z.succ 0) (Z.of_nat n)) with (Z.add 1 <$> seqZ 0 (Z.of_nat n)) by apply fmap_add_seqZ.
  rewrite <- (list_fmap_compose (Z.add 1)). apply list_fmap_ext. intros i x _. simpl. lia.
Qed.
Lemma pfns_app pfn n k : pfns_from pfn (n + k) = pfns_from pfn n ++ pfns_from (pfn + Z.of_nat n) k.
Proof.
  revert pfn. induction n as [|n IH]; intros pfn; [by rewrite Z.add_0_r|]. simpl Nat.add. rewrite !pfns_S, IH. simpl app. do 3 f_equal. lia.
Qed.

Lemma fill_ok n off pfn m s : length (Data m) = 240%nat -> 0 <= off -> off + 8 * Z.of_nat n <= 240 -> 0 <= pfn -> pfn + Z.of_nat n <= 2 ^ 64 ->
  exists m', fill_pfns n off pfn m s = Ok (m', s) /\ elsewhere off (8 * Z.of_nat n) m m' /\ read_pfns n (Data m') off = Ok (pfns_from pfn n).
Proof.
  revert off pfn m. induction n as [|n IH]; intros off pfn m Hl H1 H2 H3 H4; cbn [fill_pfns read_pfns].
  { exists m. split_and!; [done| |done]. by split_and!. }
  destruct (put_ok 8 off (u64 pfn) m s) as (m1 & E1 & (L1 & S1 & K1) & V1); [done|done|lia|].
  destruct (IH (off + 8) (pfn + 1) m1) as (m2 & E2 & (L2 & S2 & K2) & V2); [done|lia|lia|lia|lia|].
  exists m2. unfold mbind at 1, V_bind. rewrite E1. split_and!; [done| |].
  - split_and!; [done|congruence|]. intros k o Ho Hd Hk. rewrite K2 by lia. apply K1; lia.
  - rewrite (K2 8%nat off) by lia. rewrite V1, bind_Ok, V2, bind_Ok, pfns_S. do 2 f_equal.
    unfold u64. change (256 ^ Z.of_nat 8) with (2 ^ 64). rewrite Z.mod_mod by lia. apply Z.mod_small. lia.
Qed.
(** ** Sending *)
Section Send.
Context {B : BuildOptions} {HV : Hypervisor}.
(** The hypervisor accepts every message in the end: after answers of
    [EFI_NOT_READY], on which the driver tries again, comes a success. *)
Definition accepts (t k : nat) : Prop := (forall j, (j < k)%nat -> PostMessage_answer (t + j) = EFI_NOT_READY) /\ PostMessage_answer (t + k) = EFI_SUCCESS.
Definition delivers : Prop := forall t, exists k, (k < patience)%nat /\ accepts t k.
Context (Hd : delivers).

Lemma post_ok m n : length (Data m) = 240%nat -> Size m = 240 -> forall k s, (k < n)%nat -> accepts (tick s) k ->
  exists s', post n m s = Ok (EFI_SUCCESS, s') /\ sent s' = sent s ++ [Data m].
Proof.
  intros Hl Hs. induction n as [|n IH]; intros k s Hk [Hb Ha]; [lia|]. cbn [post].
  unfold mbind, V_bind, ask, vlift. rewrite Hs, read_run by (rewrite ?Zlength_240 by done; lia). destruct k as [|k].
  - rewrite Nat.add_0_r in Ha. rewrite Ha. rewrite decide_False by done. cbn [EFI_ERROR]. unfold vmod, mret, V_ret. eexists. split; [done|].
    unfold zslice. change (Z.to_nat 0) with O. by rewrite drop_0, take_ge by lia.
  - pose proof (Hb O ltac:(lia)) as H0. rewrite Nat.add_0_r in H0. rewrite H0, decide_True by done.
    apply (IH k (next_tick s)); [lia|]. split; cbn [tick next_tick].
    + intros j Hj. rewrite <- (Hb (Datatypes.S j)) by lia. f_equal. lia.
    + rewrite <- Ha. f_equal. lia.
Qed.

Lemma send_ok m s : length (Data m) = 240%nat -> Size m = 240 ->
  exists s', VmbusRootSendMessage m s = Ok (EFI_SUCCESS, s') /\ sent s' = sent s ++ [Data m].
Proof. intros Hl Hs. destruct (Hd (tick s)) as (k & Hk & Ha). by apply (post_ok m patience Hl Hs k). Qed.

Lemma init_length t n : length (Data (VmbusRootInitializeMessage t n)) = 240%nat.
Proof. apply init_wf. Qed.
Lemma init_type t n : 0 <= t < 2 ^ 32 -> load 4 (Data (VmbusRootInitializeMessage t n)) 0 = Ok t.
Proof.
  intros H. unfold load, VmbusRootInitializeMessage, mem_read. cbn [Data].
  rewrite in_bounds_true, bind_Ok by (unfold Zlength; rewrite ?length_app, ?length_le_split, ?length_replicate; lia).
  unfold zslice. change (Z.to_nat 0) with O. rewrite drop_0, take_app_length' by (rewrite length_le_split; lia). by rewrite le_combine_split_small.
Qed.

Lemma send_bodies_ok n g k s : 0 <= k <= NumberOfPages g -> NumberOfPages g < 2 ^ 32 -> NumberOfPages g - k <= Z.of_nat n ->
  0 <= GpadlHandle g < 2 ^ 32 -> 0 <= VisibleBufferPA g < 2 ^ 64 ->
  exists s' msgs, send_bodies n g k s = Ok (tt, s') /\ sent s' = sent s ++ msgs /\ Forall (fun m => length m = 240%nat) msgs /\
    host_bodies (GpadlHandle g) (NumberOfPages g - k) msgs =
      Ok (pfns_from (Z.shiftr (VisibleBufferPA g) EFI_PAGE_SHIFT + k) (Z.to_nat (NumberOfPages g - k))).
Proof.
  intros Hk Hp Hn Hh Ha. revert k s Hk Hn. induction n as [|n IH]; intros k s Hk Hn; cbn [send_bodies];
    rewrite (u32_small (NumberOfPages g - k)) by lia; (destruct (Z.eqb_spec (NumberOfPages g - k) 0) as [E|E];
    [exists s, []; split_and!; [done|by rewrite app_nil_r|constructor|simpl; by rewrite E]|]).
  { lia. }
  rewrite body_room. set (left := NumberOfPages g - k) in *. set (count := Z.min left 28).
  assert (Hpa : 0 <= Z.shiftr (VisibleBufferPA g) EFI_PAGE_SHIFT < 2 ^ 52).
  { rewrite Z.shiftr_div_pow2 by done. change (2 ^ EFI_PAGE_SHIFT) with 4096. zlia. }
  destruct (put_ok 4 body_Gpadl (GpadlHandle g) (VmbusRootInitializeMessage ChannelMessageGpadlBody MAXIMUM_SYNIC_MESSAGE_BYTES) s)
    as (m1 & E1 & (L1 & S1 & K1) & V1); [apply init_length|done|done|].
  destruct (fill_ok (Z.to_nat count) body_Pfn (Z.shiftr (VisibleBufferPA g) EFI_PAGE_SHIFT + k) m1 s)
    as (m2 & E2 & (L2 & S2 & K2) & V2); [done|done|change body_Pfn with 16; lia|lia|lia|].
  assert (Es : Size m2 = 240) by (rewrite S2, S1; done).
  destruct (send_ok m2 s L2 Es) as (s1 & E3 & S3).
  destruct (IH (k + count) s1) as (s' & msgs & E' & Se & F & D); [lia|lia|].
  exists s', (Data m2 :: msgs). change body_Gpadl with 12 in *. change body_Pfn with 16 in *. split_and!.
  - unfold mbind, V_bind. rewrite E1, E2, E3. rewrite u32_small by lia. exact E'.
  - rewrite Se, S3. simpl. by rewrite <- app_assoc.
  - by constructor.
  - cbn [host_bodies]. rewrite (K2 4%nat 0), (K1 4%nat 0), init_type, bind_Ok by (try done; lia).
    rewrite (K2 4%nat 12), V1, bind_Ok by lia. change (256 ^ Z.of_nat 4) with (2 ^ 32). rewrite Z.mod_small, !Z.eqb_refl by lia.
    cbn [Z.eqb Pos.eqb andb ChannelMessageGpadlBody]. fold count. rewrite V2, bind_Ok.
    replace (left - count) with (NumberOfPages g - (k + count)) by lia. rewrite D, bind_Ok. f_equal.
    replace (Z.to_nat left) with (Z.to_nat count + Z.to_nat (NumberOfPages g - (k + count)))%nat by lia.
    rewrite pfns_app, Z2Nat.id, Z.add_assoc by lia. done.
Qed.

Definition range_length_ok (pages : Z) : Prop := 1 <= pages <= 8190.
Lemma send_gpadl_ok id g s : range_length_ok (NumberOfPages g) -> 0 <= id < 2 ^ 32 -> 0 <= BufferLength g < 2 ^ 32 ->
  0 <= GpadlHandle g < 2 ^ 32 -> 0 <= VisibleBufferPA g < 2 ^ 64 ->
  exists s' msgs, send_gpadl id g s = Ok (tt, s') /\ sent s' = sent s ++ msgs /\ Forall (fun m => length m = 240%nat) msgs /\
    host_gpadl msgs = Ok (mkHostRange id (GpadlHandle g) (BufferLength g) (VisibleBufferPA g mod 4096)
      (pfns_from (VisibleBufferPA g / 4096) (Z.to_nat (NumberOfPages g)))).
Proof.
  intros Hp Hid Hb Hh Ha. unfold range_length_ok in Hp. unfold send_gpadl. rewrite header_room. set (count := Z.min (NumberOfPages g) 26).
  assert (Hpa : 0 <= Z.shiftr (VisibleBufferPA g) EFI_PAGE_SHIFT < 2 ^ 52).
  { rewrite Z.shiftr_div_pow2 by done. change (2 ^ EFI_PAGE_SHIFT) with 4096. zlia. }
  rewrite u32_small by lia. unfold u16. rewrite Z.mod_small by (change sizeof_GPA_RANGE with 16; lia).
  change header_ChildRelId with 8. change header_Gpadl with 12. change header_RangeCount with 18. change header_RangeBufLen with 16.
  change (header_Range + range_PfnArray) with 28. change (header_Range + 4) with 24. change header_Range with 20. change sizeof_GPA_RANGE with 16.
  destruct (put_ok 4 8 id (VmbusRootInitializeMessage ChannelMessageGpadlHeader MAXIMUM_SYNIC_MESSAGE_BYTES) s)
    as (m1 & E1 & (L1 & S1 & K1) & V1); [apply init_length|done|done|].
  destruct (put_ok 4 12 (GpadlHandle g) m1 s) as (m2 & E2 & (L2 & S2 & K2) & V2); [done..|].
  destruct (put_ok 2 18 1 m2 s) as (m3 & E3 & (L3 & S3 & K3) & V3); [done..|].
  destruct (put_ok 2 16 (16 + (NumberOfPages g - 1) * 8) m3 s) as (m4 & E4 & (L4 & S4 & K4) & V4); [done..|].
  destruct (put_ok 4 20 (BufferLength g) m4 s) as (m5 & E5 & (L5 & S5 & K5) & V5); [done..|].
  destruct (put_ok 4 24 (Z.land (VisibleBufferPA g) EFI_PAGE_MASK) m5 s) as (m6 & E6 & (L6 & S6 & K6) & V6); [done..|].
  destruct (fill_ok (Z.to_nat count) 28 (Z.shiftr (VisibleBufferPA g) EFI_PAGE_SHIFT) m6 s)
    as (m7 & E7 & (L7 & S7 & K7) & V7); [done|done|lia|lia|lia|].
  assert (Es : Size m7 = 240) by (rewrite S7, S6, S5, S4, S3, S2, S1; done).
  destruct (send_ok m7 s L7 Es) as (s1 & E8 & S8).
  destruct (send_bodies_ok (Z.to_nat (NumberOfPages g)) g count s1)
    as (s' & msgs & E' & Se & F & D); [lia|lia|lia|done|done|].
  exists s', (Data m7 :: msgs). split_and!.
  - unfold mbind, V_bind. rewrite E1, E2, E3, E4, E5, E6, E7, E8. exact E'.
  - rewrite Se, S8. simpl. by rewrite <- app_assoc.
  - by constructor.
  - cbn [host_gpadl]. rewrite (K7 4%nat 0), (K6 4%nat 0), (K5 4%nat 0), (K4 4%nat 0), (K3 4%nat 0), (K2 4%nat 0), (K1 4%nat 0), init_type by (try done; lia).
    rewrite (K7 4%nat 8), (K6 4%nat 8), (K5 4%nat 8), (K4 4%nat 8), (K3 4%nat 8), (K2 4%nat 8), V1 by lia.
    rewrite (K7 4%nat 12), (K6 4%nat 12), (K5 4%nat 12), (K4 4%nat 12), (K3 4%nat 12), V2 by lia.
    rewrite (K7 2%nat 16), (K6 2%nat 16), (K5 2%nat 16), V4 by lia.
    rewrite (K7 2%nat 18), (K6 2%nat 18), (K5 2%nat 18), (K4 2%nat 18), V3 by lia.
    rewrite (K7 4%nat 20), (K6 4%nat 20), V5, (K7 4%nat 24), V6 by lia. rewrite !bind_Ok.
    change (256 ^ Z.of_nat 4) with (2 ^ 32). change (256 ^ Z.of_nat 2) with (2 ^ 16).
    change EFI_PAGE_MASK with (Z.ones 12). rewrite land_low_mask by done. change (2 ^ 12) with 4096.
    rewrite !Z.mod_small by zlia. cbn [Z.eqb Pos.eqb andb ChannelMessageGpadlHeader]. cbv zeta.
    rewrite (Z.mod_small (16 + _)) by lia. replace ((16 + (NumberOfPages g - 1) * 8 - 8) / 8) with (NumberOfPages g) by zlia. fold count.
    rewrite V7, bind_Ok, D, bind_Ok. do 2 f_equal. rewrite Z.shiftr_div_pow2 by done. change (2 ^ EFI_PAGE_SHIFT) with 4096.
    replace (Z.to_nat (NumberOfPages g)) with (Z.to_nat count + Z.to_nat (NumberOfPages g - count))%nat by lia.
    rewrite pfns_app. by rewrite Z2Nat.id by lia.
Qed.
End Send.
End VmbusMessages.
