(* ===== verification/VmbusFlags.v ===== *)
(** The event flags: what a scan of a flag page signals, and when it faults. *)
From stdpp Require Import base list numbers list_numbers option gmap fin_maps.
From Stdlib Require Import ZArith Lia.
From S2P Require Import Prelude Circular PkRing EmclPacket Vmbus VmbusInv VmbusInterrupt VmbusGpadl.
Open Scope Z_scope.

Module VmbusFlags.
Import PkRing EmclPacket Vmbus VmbusInv VmbusInterrupt VmbusGpadl.

(** ** The set bits of a word, lowest first *)
Definition bits (w : Z) : list Z := List.filter (fun i => Z.testbit w i) (seqZ 0 64).

Lemma filter_found (f g : Z -> bool) l b : List.find f l = Some b -> NoDup l ->
  (forall x, x ∈ l -> g x = f x && negb (x =? b)) -> List.filter f l = b :: List.filter g l.
Proof.
  induction l as [|x l IH]; cbn [List.find List.filter]; [done|]. intros E Hn Hg. apply NoDup_cons in Hn as [Hx Hn].
  assert (G : g x = f x && negb (x =? b)) by (apply Hg, list_elem_of_here).
  destruct (f x) eqn:Ef.
  - injection E as ->. rewrite G, Z.eqb_refl. simpl. f_equal. apply List.filter_ext_in. intros y Hy. apply list_elem_of_In in Hy.
    rewrite Hg by by apply list_elem_of_further. destruct (Z.eqb_spec y b) as [->|]; [done|]. by rewrite andb_true_r.
  - rewrite G. simpl. apply IH; [done|done|]. intros y Hy. apply Hg. by apply list_elem_of_further.
Qed.
Lemma clear_bit w b k : 0 <= b < 64 -> 0 <= k < 64 ->
  Z.testbit (Z.land w (u64 (Z.lnot (Z.shiftl 1 b)))) k = Z.testbit w k && negb (k =? b).
Proof.
  intros Hb Hk. rewrite Z.land_spec. f_equal. unfold u64. rewrite Z.mod_pow2_bits_low by lia. rewrite Z.lnot_spec by lia. f_equal.
  rewrite Z.shiftl_spec by lia. destruct (Z.eqb_spec k b) as [->|]; [by rewrite Z.sub_diag|].
  destruct (Z.lt_ge_cases k b); [apply Z.testbit_neg_r; lia|]. apply Z.bits_above_log2; simpl; lia.
Qed.
Lemma bits_scan w b : BitScanForward64 w = Some b -> bits w = b :: bits (Z.land w (u64 (Z.lnot (Z.shiftl 1 b)))).
Proof.
  intros E. destruct (scan_forward w b E) as [Hb _]. apply filter_found; [done|apply NoDup_seqZ|].
  intros k Hk. apply elem_of_seqZ in Hk. apply clear_bit; lia.
Qed.
Lemma bits_none w : BitScanForward64 w = None -> bits w = [].
Proof.
  unfold BitScanForward64, bits. generalize (seqZ 0 64). intros l. induction l as [|x l IH]; simpl; [done|].
  destruct (Z.testbit w x); [done|]. apply IH.
Qed.
Lemma length_bits w : (length (bits w) <= 64)%nat.
Proof. unfold bits. etrans; [apply List.filter_length_le|]. by rewrite length_seqZ. Qed.
Lemma elem_of_bits w b : b ∈ bits w <-> 0 <= b < 64 /\ Z.testbit w b = true.
Proof. unfold bits. rewrite list_elem_of_In, List.filter_In, <- list_elem_of_In, elem_of_seqZ. split; intros [? ?]; split; auto; lia. Qed.

#[local] Opaque bits BitScanForward64.

Section Flags.
Context {B : BuildOptions} {HV : Hypervisor}.

Fixpoint signal_all (l : list Z) : V unit :=
  match l with
  | [] => mret tt
  | j :: l => p ← channel_at j; c ← get_context p; _ ← SignalEvent (Interrupt c); signal_all l
  end.
Lemma bind_ext {A C} (c : V A) (k k' : A -> V C) s : (forall a s', k a s' = k' a s') -> (c ≫= k) s = (c ≫= k') s.
Proof. intros E. unfold mbind, V_bind. destruct (c s) as [[a s']|]; auto. Qed.
Lemma scan_bits_all n i w s : (length (bits w) <= n)%nat -> scan_bits n i w s = signal_all (map (fun b => i * 64 + b) (bits w)) s.
Proof.
  revert w s. induction n as [|n IH]; intros w s Hl; cbn [scan_bits]; destruct (BitScanForward64 w) as [b|] eqn:E.
  - rewrite (bits_scan w b E) in Hl. cbn [length] in Hl. lia.
  - by rewrite (bits_none w E).
  - rewrite (bits_scan w b E) in Hl |- *. cbn [map signal_all]. apply bind_ext. intros p s1. apply bind_ext. intros c s2.
    apply bind_ext. intros _ s3. apply IH. cbn [length] in Hl. lia.
  - by rewrite (bits_none w E).
Qed.

(** The channel of flag [j], and its event if there is one. *)
Definition interrupt_of (s : vmbus) (j : Z) : option Z :=
  p ← Channels (root s) !! Z.to_nat j; c ← channels s !! p; Some (Interrupt c).
Definition signals (s : vmbus) (l : list Z) : gset Z :=
  list_to_set (List.filter (fun e => bool_decide (e ∈ events s)) (omap (interrupt_of s) l)).

Lemma signal_one s j e : base s -> 0 <= j < VMBUS_MAX_CHANNELS -> interrupt_of s j = Some e ->
  exists p c, channel_at j s = Ok (p, s) /\ get_context p s = Ok (c, s) /\ Interrupt c = e.
Proof.
  intros H Hj. unfold interrupt_of. destruct (entry_ok (Channels (root s)) j) as (p & E & El); [unfold Zlength; by rewrite (b_channels _ H)|].
  rewrite El. simpl. destruct (channels s !! p) as [c|] eqn:Ec; [|done]. intros Ei. injection Ei as <-. exists p, c. split_and!; [|..|done].
  - unfold channel_at, mbind, V_bind, rget, vlift. by rewrite E.
  - unfold get_context. rewrite Ec. destruct (Z.eqb_spec p 0); [|done]. by destruct (b_contexts _ H p c Ec).
Qed.
Lemma signal_none s j : base s -> 0 <= j < VMBUS_MAX_CHANNELS -> interrupt_of s j = None ->
  channel_at j s = Ok (0, s).
Proof.
  intros H Hj. unfold interrupt_of. destruct (entry_ok (Channels (root s)) j) as (p & E & El); [unfold Zlength; by rewrite (b_channels _ H)|].
  rewrite El. simpl. destruct (b_entries _ H _ _ El) as [->|(c & Hc & _)]; [|by rewrite Hc].
  intros _. unfold channel_at, mbind, V_bind, rget, vlift. by rewrite E.
Qed.
(** With other signals, nothing else changes. *)
Definition signalled (X : gset Z) (s : vmbus) : vmbus := set_events (events s) (X ∪ signaled s) s.
Lemma base_signalled X s : base s -> base (signalled X s).
Proof. intros H. by apply (base_ext s). Qed.
Lemma signalled_signalled X Y s : signalled X (signalled Y s) = signalled (X ∪ Y) s.
Proof. unfold signalled. cbn [events signaled set_events]. by rewrite (assoc_L (∪)). Qed.
Lemma signalled_empty s : signalled ∅ s = s.
Proof. unfold signalled. rewrite (left_id_L ∅ (∪)). by destruct s. Qed.
Lemma signal_event e s : SignalEvent e s = Ok (tt, signalled (if bool_decide (e ∈ events s) then {[e]} else ∅) s).
Proof.
  unfold SignalEvent, vmod. case_bool_decide as E; [by rewrite decide_True|]. by rewrite decide_False, signalled_empty.
Qed.
Lemma signal_all_ok l s : base s -> Forall (fun j => 0 <= j < VMBUS_MAX_CHANNELS /\ is_Some (interrupt_of s j)) l ->
  signal_all l s = Ok (tt, signalled (signals s l) s).
Proof.
  intros H Hl. revert s H Hl. induction l as [|j l IH]; intros s H Hl; cbn [signal_all].
  { unfold signals. simpl. by rewrite signalled_empty. }
  apply Forall_cons in Hl as [[Hj [e He]] Hl]. destruct (signal_one s j e H Hj He) as (p & c & E1 & E2 & Ei).
  unfold mbind, V_bind. rewrite E1, E2, signal_event, Ei. set (X := (if bool_decide (e ∈ events s) then {[e]} else ∅) : gset Z).
  rewrite IH; [|by apply base_signalled|done]. rewrite signalled_signalled. do 3 f_equal.
  unfold signals. cbn [omap list_omap]. change (interrupt_of (signalled X s)) with (interrupt_of s). rewrite He. cbn [List.filter].
  change (events (signalled X s)) with (events s). unfold X. destruct (bool_decide (e ∈ events s)); set_solver.
Qed.
(** The first flag without a channel is the last one read. *)
Lemma signal_all_null l s : base s -> Forall (fun j => 0 <= j < VMBUS_MAX_CHANNELS) l -> Exists (fun j => interrupt_of s j = None) l ->
  signal_all l s = Fault NullDeref.
Proof.
  intros H Hl He. revert s H He. induction l as [|j l IH]; intros s H He; [by apply Exists_nil in He|]. cbn [signal_all].
  apply Forall_cons in Hl as [Hj Hl]. destruct (interrupt_of s j) as [e|] eqn:Ei.
  - destruct (signal_one s j e H Hj Ei) as (p & c & E1 & E2 & Ec). unfold mbind, V_bind. rewrite E1, E2, signal_event.
    apply (IH Hl); [by apply base_signalled|]. apply Exists_cons in He as [?|?]; [congruence|done].
  - unfold mbind, V_bind. by rewrite (signal_none s j H Hj Ei).
Qed.
(** ** A whole page *)
Definition page (paravisor : bool) (s : vmbus) : list Z := if paravisor then paravisor_flags s else host_flags s.
(** The flags set in [n] words from word [i] on. *)
Fixpoint flag_list (n : nat) (i : Z) (l : list Z) : list Z :=
  match n with
  | O => []
  | Datatypes.S n => map (fun b => i * 64 + b) (bits (default 0 (l !! Z.to_nat i))) ++ flag_list n (i + 1) l
  end.
Lemma elem_of_flag_list n i l j : 0 <= i -> j ∈ flag_list n i l <->
  i * 64 <= j < (i + Z.of_nat n) * 64 /\ Z.testbit (default 0 (l !! Z.to_nat (j / 64))) (j mod 64) = true.
Proof.
  intros Hi. revert i Hi. induction n as [|n IH]; intros i Hi; cbn [flag_list].
  { split; [by intros ?%not_elem_of_nil|lia]. }
  rewrite elem_of_app, IH by lia. rewrite list_elem_of_fmap. split.
  - intros [(b & -> & Hb)|[? ?]]; [|split; [lia|done]]. apply elem_of_bits in Hb as [Hb Ht].
    replace ((i * 64 + b) / 64) with i by zlia. replace ((i * 64 + b) mod 64) with b by zlia. split; [lia|done].
  - intros [Hj Ht]. destruct (decide (j < (i + 1) * 64)); [left|right; split; [lia|done]].
    exists (j mod 64). rewrite elem_of_bits. replace (j / 64) with i in Ht by zlia. split_and!; [zlia|zlia|zlia|done].
Qed.
Lemma flag_list_insert n i l k : k < i -> 0 <= k -> flag_list n i (<[Z.to_nat k := 0]> l) = flag_list n i l.
Proof.
  revert i. induction n as [|n IH]; intros i H1 H2; cbn [flag_list]; [done|]. rewrite IH by lia. by rewrite list_lookup_insert_ne by lia.
Qed.
Lemma exchange_ok paravisor i s : base s -> 0 <= i < 32 ->
  exists s', exchange_flags paravisor i s = Ok (default 0 (page paravisor s !! Z.to_nat i), s') /\ base s' /\ still s s' /\ signaled s' = signaled s /\
    page paravisor s' = <[Z.to_nat i := 0]> (page paravisor s) /\ page (negb paravisor) s' = page (negb paravisor) s /\ slot s' = slot s.
Proof.
  intros H Hi. destruct (b_flags _ H) as [F1 F2]. destruct (entry_ok (page paravisor s) i) as (w & E & El).
  { unfold page, Zlength. destruct paravisor; lia. }
  rewrite El. unfold exchange_flags, mbind, V_bind, vget, vlift.
  replace ((if paravisor then paravisor_flags else host_flags) s) with (page paravisor s) by by destruct paravisor.
  rewrite E. eexists. split; [done|].
  match goal with |- base ?x /\ _ => assert (S : still s x) by (destruct paravisor; by split) end.
  split_and!; [|done|by destruct paravisor..]. destruct paravisor; (apply (still_base s); [done|apply H|simpl; rewrite ?length_insert; done..|done]).
Qed.

Record scanned (paravisor : bool) (n : nat) (i : Z) (s s' : vmbus) : Prop := {
  sc_base : base s'; sc_still : still s s';
  sc_signaled : signaled s' = signals s (flag_list n i (page paravisor s)) ∪ signaled s;
  sc_page : forall j, page paravisor s' !! j = if bool_decide (i <= Z.of_nat j < i + Z.of_nat n) then Some 0 else page paravisor s !! j;
  sc_other : page (negb paravisor) s' = page (negb paravisor) s
}.
Definition all_known (s : vmbus) (l : list Z) : Prop := Forall (fun j => is_Some (interrupt_of s j)) l.
Lemma flag_list_range n i l : 0 <= i -> i + Z.of_nat n <= 32 -> Forall (fun j => 0 <= j < VMBUS_MAX_CHANNELS) (flag_list n i l).
Proof. intros Hi Hn. apply Forall_forall. intros j Hj. apply elem_of_flag_list in Hj; [|done]. unfold VMBUS_MAX_CHANNELS. lia. Qed.

Lemma interrupt_of_still s s' : still s s' -> interrupt_of s' = interrupt_of s.
Proof. intros [E1 E2]. unfold interrupt_of. by rewrite E1, E2. Qed.
Lemma signals_still s s' l : still s s' -> signals s' l = signals s l.
Proof. intros S. unfold signals. rewrite (interrupt_of_still _ _ S). by destruct S as [_ _ _ _ _ -> _ _ _ _ _]. Qed.
Lemma signals_app s l l' : signals s (l ++ l') = signals s l ∪ signals s l'.
Proof. unfold signals. by rewrite omap_app, List.filter_app, list_to_set_app_L. Qed.

Lemma scan_words_ok n paravisor i s : base s -> 0 <= i -> i + Z.of_nat n <= 32 -> all_known s (flag_list n i (page paravisor s)) ->
  exists s', scan_words n paravisor i s = Ok (tt, s') /\ scanned paravisor n i s s'.
Proof.
  revert i s. induction n as [|n IH]; intros i s H Hi Hn Hk; cbn [scan_words].
  { exists s. split; [done|]. split; [done|apply still_refl|unfold signals; simpl; set_solver| |done].
    intros j. by rewrite bool_decide_eq_false_2 by lia. }
  destruct (exchange_ok paravisor i s) as (s1 & E1 & H1 & S1 & Sg1 & P1 & O1 & _); [done|lia|].
  pose proof (flag_list_range (S n) i (page paravisor s) Hi Hn) as R. cbn [flag_list] in Hk, R.
  unfold all_known in Hk. rewrite Forall_app in Hk, R. destruct Hk as [K1 K2], R as [R1 R2].
  unfold mbind, V_bind. rewrite E1, scan_bits_all by apply length_bits. set (l1 := map _ _) in *.
  rewrite signal_all_ok; [|done|].
  2:{ rewrite (interrupt_of_still _ _ S1). rewrite Forall_forall in *. intros j Hj. auto. }
  set (s2 := signalled _ _). assert (H2 : base s2) by by apply base_signalled.
  assert (S2 : still s s2) by (eapply still_trans; [exact S1|]; by split).
  assert (P2 : page paravisor s2 = <[Z.to_nat i := 0]> (page paravisor s)) by (rewrite <- P1; by destruct paravisor).
  destruct (IH (i + 1) s2) as (s3 & E3 & [H3 S3 Sg3 P3 O3]); [done|lia|lia|..].
  { unfold all_known. by rewrite (interrupt_of_still _ _ S2), P2, flag_list_insert by lia. }
  exists s3. split; [done|]. split; [done|by eapply still_trans|..].
  - rewrite Sg3, P2, flag_list_insert by lia. cbn [flag_list]. fold l1. rewrite signals_app, (signals_still _ _ _ S2).
    simpl. rewrite Sg1, (signals_still _ _ _ S1). set_solver.
  - intros j. rewrite P3, P2. destruct (decide (j = Z.to_nat i)) as [->|].
    + rewrite bool_decide_eq_false_2, bool_decide_eq_true_2 by lia. apply list_lookup_insert_eq.
      destruct (b_flags _ H). unfold page. destruct paravisor; lia.
    + rewrite list_lookup_insert_ne by done. case_bool_decide; case_bool_decide; done || lia.
  - rewrite O3, <- O1. by destruct paravisor.
Qed.
Lemma scan_words_null n paravisor i s : base s -> 0 <= i -> i + Z.of_nat n <= 32 ->
  Exists (fun j => interrupt_of s j = None) (flag_list n i (page paravisor s)) -> scan_words n paravisor i s = Fault NullDeref.
Proof.
  revert i s. induction n as [|n IH]; intros i s H Hi Hn He; cbn [scan_words]; [by apply Exists_nil in He|].
  destruct (exchange_ok paravisor i s) as (s1 & E1 & H1 & S1 & Sg1 & P1 & O1 & _); [done|lia|].
  pose proof (flag_list_range (S n) i (page paravisor s) Hi Hn) as R. cbn [flag_list] in He, R.
  rewrite Forall_app in R. destruct R as [R1 R2]. unfold mbind, V_bind. rewrite E1, scan_bits_all by apply length_bits. set (l1 := map _ _) in *.
  destruct (decide (Forall (fun j => is_Some (interrupt_of s j)) l1)) as [K|K].
  - rewrite signal_all_ok; [|done|].
    2:{ rewrite (interrupt_of_still _ _ S1). rewrite Forall_forall in *. intros j Hj. auto. }
    set (s2 := signalled _ _). assert (S2 : still s s2) by (eapply still_trans; [exact S1|]; by split).
    assert (P2 : page paravisor s2 = <[Z.to_nat i := 0]> (page paravisor s)) by (rewrite <- P1; by destruct paravisor).
    apply IH; [by apply base_signalled|lia|lia|]. rewrite (interrupt_of_still _ _ S2), P2, flag_list_insert by lia.
    apply Exists_app in He as [He|He]; [|done]. exfalso. apply Exists_exists in He as (j & Hj & Hj').
    rewrite Forall_forall in K. destruct (K j Hj). congruence.
  - rewrite signal_all_null; [done|done|done|]. rewrite (interrupt_of_still _ _ S1). apply not_Forall_Exists in K; [|apply _].
    eapply Exists_impl; [exact K|]. intros j Hj. by apply eq_None_not_Some.
Qed.
End Flags.
End VmbusFlags.
