(* ===== verification/VmbusProps.v ===== *)
(** The properties of the VMBus driver.  Their witnesses are in [VmbusConcrete]. *)
From stdpp Require Import base list numbers list_numbers option gmap fin_maps.
From Stdlib Require Import ZArith Lia.
From S2P Require Import Prelude Circular PkRing EmclPacket Vmbus VmbusInv VmbusInterrupt VmbusGpadl VmbusChannels VmbusRootOps VmbusMachine VmbusMessages VmbusFlags.
Open Scope Z_scope.

Module VmbusProps.
Import PkRing EmclPacket Vmbus VmbusInv VmbusInterrupt VmbusGpadl VmbusChannels VmbusRootOps VmbusMachine VmbusMessages VmbusFlags.

Section Props.
Context {B : BuildOptions} {HV : Hypervisor}.

(** C5. From boot on, after any start, operations, interrupts and late offers,
    an operation of a client returns in a state of the machine, or it stops at a
    deliberate fail fast, a failed assertion, a wait that has no end, or the use
    of a channel that does not exist: no message, flag or rewriting of the
    message page by the host makes it read or write outside its tables and
    buffers, use a freed context or free memory twice. *)
Theorem vmbus_survives_host (HL : HypervisorLaws) o s : machine true s -> op_ok o s ->
  match exec o s with
  | Ok (_, s') => machine true s' /\ base s'
  | Fault f => f = FailFast \/ f = AssertFailed \/ f = Diverges \/ f = NullDeref
  end.
Proof.
  intros M Ho. destruct (machine_inv _ _ M) as [_ S]. pose proof (exec_safe o s S Ho) as W. unfold wp in W.
  destruct (exec o s) as [[[] s']|f] eqn:E.
  - split; [by eapply at_step|apply W].
  - destruct f; simpl in W; tauto.
Qed.

(** C10. In every state of the machine a channel has an interface that is allowed
    in this boot, is found in the table at its own id, and is treated as
    confidential only on a connection to the paravisor of a hardware-isolated
    virtual machine; the table has no other entries. *)
Theorem channels_are_allowed (HL : HypervisorLaws) s : machine true s ->
  (forall p c, channels s !! p = Some c ->
     VmbusRootIsChannelAllowed (InterfaceType c) = true /\
     Channels (root s) !! Z.to_nat (ChannelId c) = Some p /\ p <> 0 /\
     (confidential c = true -> Confidential (root s) = true /\ IsHardwareIsolated && IsParavisorPresent = true)) /\
  (forall i p, Channels (root s) !! i = Some p -> p <> 0 -> exists c, channels s !! p = Some c /\ ChannelId c = Z.of_nat i).
Proof.
  intros M. destruct (machine_inv _ _ M) as [H S]. split.
  - intros p c Hc. destruct (b_contexts _ H p c Hc) as [? ? ? ? ? ? ? Hcf]. split_and!; auto. destruct S. auto.
  - intros i p Hp Hne. destruct (b_entries _ H i p Hp) as [?|?]; [done|eauto].
Qed.

(** C12. A GPADL described to the host is what the host reads: the header and the
    bodies that are sent decode to the channel, the handle, the byte count, the
    offset in the first page and the page numbers of the buffer, in order, for a
    buffer of up to 8190 pages; sending ends.  The hypervisor accepts every message
    after fewer than [patience] answers of [EFI_NOT_READY], on which the driver
    tries again ([delivers]); the driver ignores a message that is refused for
    good. *)
Theorem gpadl_messages_round_trip id g s : delivers -> 1 <= NumberOfPages g <= 8190 -> 0 <= id < 2 ^ 32 ->
  0 <= BufferLength g < 2 ^ 32 -> 0 <= GpadlHandle g < 2 ^ 32 -> 0 <= VisibleBufferPA g < 2 ^ 64 ->
  exists s' msgs, send_gpadl id g s = Ok (tt, s') /\ sent s' = sent s ++ msgs /\ Forall (fun m => length m = 240%nat) msgs /\
    host_gpadl msgs = Ok (mkHostRange id (GpadlHandle g) (BufferLength g) (VisibleBufferPA g mod 4096)
      (map (fun i => VisibleBufferPA g / 4096 + i) (seqZ 0 (NumberOfPages g)))).
Proof.
  intros Hd Hp Hid Hb Hh Ha. destruct (send_gpadl_ok Hd id g s) as (s' & msgs & E & Es & F & D); [done..|].
  exists s', msgs. split_and!; [done|done|done|]. rewrite D. unfold pfns_from. by rewrite Z2Nat.id by lia.
Qed.

(** A GPADL is prepared, created and destroyed. *)
Definition gpadl_life (This b n Flags : Z) : V EFI_STATUS :=
  '(st, p) ← VmbusChannelPrepareGpadl This b n Flags;
  if EFI_ERROR st then mret st
  else _ ← VmbusChannelCreateGpadl This p; VmbusChannelDestroyGpadl This p.

(** C15. Preparing, creating and destroying a GPADL, with any interrupts in
    between and whether or not the host agrees to create it, leaves handles,
    events, host visibility, GPADLs and channels as they were; only the zeroing
    of the buffer that was asked for remains. *)
Theorem gpadl_life_restores (HL : HypervisorLaws) This c b n Flags s : machine true s -> channels s !! This = Some c ->
  match gpadl_life This b n Flags s with
  | Ok (st, s') => observe s' = if EFI_ERROR st then observe s else view_zeroed (zeroing Flags b n (zeroed s)) (observe s)
  | Fault f => tolerated f
  end.
Proof.
  intros M Hc. destruct (machine_inv _ _ M) as [H _].
  change (wp (gpadl_life This b n Flags) (fun st s' => observe s' = if EFI_ERROR st then observe s else view_zeroed (zeroing Flags b n (zeroed s)) (observe s)) s).
  unfold gpadl_life. eapply wp_seq; [by apply (wp_PrepareGpadl This c)|]. intros [st p] s1 (H1 & _ & D). cbn [fst snd] in D.
  destruct D as [(Es & _ & O)|(-> & Hp & h & Hh & O)]; [rewrite Es; apply wp_ret; by rewrite Es|]. cbn [EFI_ERROR].
  destruct (channel_kept s s1 This c) as [c1 Hc1]; [by rewrite O|done|].
  assert (Hg : gpadls s1 !! p = Some (prepared_gpadl c b n Flags h)).
  { change (gpadls s1) with (v_gpadls (observe s1)). rewrite O. apply lookup_insert_eq. }
  eapply wp_seq; [apply (wp_CreateGpadl This c1 p _ _ H1 Hc1 Hg), u32_range|]. intros st2 s2 (H2 & _ & D2).
  destruct D2 as [(Es2 & O2)|(-> & _ & k & e & Hk & Hf & He & Hn & O2)].
  - destruct (channel_kept s s2 This c) as [c2 Hc2]; [by rewrite O2, O|done|].
    assert (Hg2 : gpadls s2 !! p = Some (prepared_gpadl c b n Flags h)) by (rewrite <- Hg; exact (f_equal (fun v => v_gpadls v !! p) O2)).
    eapply wp_mono; [by apply (wp_DestroyGpadl This c2 p _ s2 H2 Hc2 Hg2)|]. intros st3 s3 (_ & _ & D3).
    destruct D3 as [(_ & Hne & _)|(-> & O3)]; [done|]. rewrite O3, O2, O. by apply torn_down_prepared.
  - rewrite O in O2, Hf. destruct (channel_kept s s2 This c) as [c2 Hc2]; [by rewrite O2|done|].
    assert (Hg2 : gpadls s2 !! p = Some (set_GpadlHandle k (prepared_gpadl c b n Flags h))).
    { change (gpadls s2) with (v_gpadls (observe s2)). rewrite O2. apply lookup_insert_eq. }
    assert (He1 : e ∉ v_events (observe s)) by (apply (f_equal v_events) in O; simpl in O |- *; by rewrite <- O).
    eapply wp_mono; [by apply (wp_DestroyGpadl This c2 p _ s2 H2 Hc2 Hg2)|]. intros st3 s3 (_ & _ & D3).
    destruct D3 as [(_ & _ & Hz & _)|(-> & O3)].
    + exfalso. rewrite O2 in Hz. unfold free_handle in Hz. cbn [GpadlHandle set_GpadlHandle taken v_table] in Hz.
      rewrite list_lookup_insert_eq in Hz by (apply lookup_lt_is_Some; eauto). congruence.
    + rewrite O3, O2. change (gpadls s1) with (v_gpadls (observe s1)). rewrite O. apply torn_down_taken; [done|done|lia|done..].
Qed.

(** What preparing a GPADL exposes: on success the host is given access to
    exactly the buffer if the machine is isolated and the channel does not keep
    this kind of memory confidential, and to nothing otherwise; the address used
    from then on is the shared alias in the first case and the buffer itself in
    the second.  A failure exposes nothing. *)
Lemma prepare_exposes_buffer (HL : HypervisorLaws) This c b n Flags s : machine true s -> channels s !! This = Some c ->
  match VmbusChannelPrepareGpadl This b n Flags s with
  | Ok ((st, p), s') =>
      (EFI_ERROR st = true /\ visible s' = visible s /\ gpadls s' = gpadls s) \/
      (st = EFI_SUCCESS /\ exists g, gpadls s' = <[p := g]> (gpadls s) /\ gpadls s !! p = None /\
         if IsIsolated && (if negb (Z.land Flags EFI_VMBUS_PREPARE_GPADL_FLAG_RING_BUFFER =? 0) then negb (ConfidentialRing c)
                           else Z.land (VmbusFlags c) EFI_VMBUS_PROTOCOL_FLAGS_CONFIDENTIAL_EXTERNAL_MEMORY =? 0)
         then visible s !! ProtectionHandle g = None /\ visible s' = <[ProtectionHandle g := (b, n)]> (visible s) /\
              VisibleBufferPA g = u64 (b + mSharedGpaBoundary)
         else visible s' = visible s /\ VisibleBufferPA g = b)
  | Fault f => tolerated f
  end.
Proof.
  intros M Hc. destruct (machine_inv _ _ M) as [H _]. pose proof (wp_PrepareGpadl This c b n Flags s H Hc) as W. unfold wp in W.
  destruct (VmbusChannelPrepareGpadl This b n Flags s) as [[[st p] s']|f]; [|done]. destruct W as (_ & _ & D). cbn [fst snd] in D.
  destruct D as [(Es & _ & O)|(-> & Hp & h & Hh & O)]; [left|right].
  - split_and!; [done|exact (f_equal v_visible O)|exact (f_equal v_gpadls O)].
  - split; [done|]. exists (prepared_gpadl c b n Flags h).
    assert (Ev : visible s' = if exposed c Flags then <[h := (b, n)]> (visible s) else visible s) by exact (f_equal v_visible O).
    split_and!; [exact (f_equal v_gpadls O)|done|]. unfold prepared_gpadl. cbn [ProtectionHandle VisibleBufferPA]. rewrite Ev.
    replace (IsIsolated && _) with (exposed c Flags); [destruct (exposed c Flags); [destruct Hh|]; done|].
    unfold exposed. destruct IsIsolated; [|done]. destruct (negb (Z.land Flags _ =? 0)); cbn [andb negb orb]; [by rewrite orb_false_r|done].
Qed.

(** C21. A scan of the flags in which every flag set has a channel ends, clears the
    words it covers, and signals exactly the events registered for those
    channels; a channel with an event registered is never beyond the words that
    are covered, so none of its interrupts is missed. *)
Theorem flags_signal_channels (HL : HypervisorLaws) paravisor s : machine true s ->
  all_known s (flag_list (Z.to_nat (MaxInterruptUsed (root s) / 64 + 1)) 0 (page paravisor s)) ->
  exists s', VmbusRootScanEventFlags paravisor s = Ok (tt, s') /\ still s s' /\
    (forall j, (j <= Z.to_nat (MaxInterruptUsed (root s) / 64))%nat -> page paravisor s' !! j = Some 0) /\
    (forall e, e ∈ signaled s' -> e ∈ signaled s \/ exists p c, channels s !! p = Some c /\ Interrupt c = e) /\
    (forall p c, channels s !! p = Some c -> Interrupt c <> 0 -> Interrupt c ∈ events s ->
       Z.testbit (default 0 (page paravisor s !! Z.to_nat (ChannelId c / 64))) (ChannelId c mod 64) = true -> Interrupt c ∈ signaled s').
Proof.
  intros M Hk. destruct (machine_inv _ _ M) as [H _]. pose proof (b_max _ H) as Hm. unfold VMBUS_MAX_CHANNELS in Hm.
  set (n := Z.to_nat (MaxInterruptUsed (root s) / 64 + 1)) in *. assert (Hn : Z.of_nat n = MaxInterruptUsed (root s) / 64 + 1) by zlia.
  destruct (scan_words_ok n paravisor 0 s H) as (s' & E & [H' S Sg P _]); [lia|zlia|done|]. exists s'. split_and!; [exact E|done|..].
  - intros j Hj. rewrite P, bool_decide_eq_true_2 by zlia. done.
  - intros e. rewrite Sg. intros He. apply elem_of_union in He as [He|He]; [right|by left].
    unfold signals in He. rewrite elem_of_list_to_set, list_elem_of_In, List.filter_In, <- list_elem_of_In in He.
    destruct He as [He _]. apply list_elem_of_omap in He as (j & _ & He). unfold interrupt_of in He.
    destruct (Channels (root s) !! Z.to_nat j) as [p|]; [|done]. simpl in He. destruct (channels s !! p) as [c|] eqn:Ec; [|done].
    exists p, c. split; [done|]. by injection He.
  - intros p c Hc Hi Hev Ht. rewrite Sg. apply elem_of_union_l. destruct (b_contexts _ H p c Hc) as [_ _ Hid He _ _ Hmax _].
    unfold signals. rewrite elem_of_list_to_set, list_elem_of_In, List.filter_In, <- list_elem_of_In. split; [|by apply bool_decide_eq_true_2].
    apply list_elem_of_omap. exists (ChannelId c). split.
    + apply elem_of_flag_list; [done|]. specialize (Hmax Hi). split; [zlia|done].
    + unfold interrupt_of. rewrite He. simpl. by rewrite Hc.
Qed.

(** A flag that the host sets for a channel that does not exist, within the
    words that are scanned, makes the interrupt handler dereference a null
    channel. *)
Lemma unknown_flag_faults (HL : HypervisorLaws) paravisor s i : machine true s -> 0 <= i <= MaxInterruptUsed (root s) ->
  Channels (root s) !! Z.to_nat i = Some 0 ->
  Z.testbit (default 0 (page paravisor s !! Z.to_nat (i / 64))) (i mod 64) = true ->
  VmbusRootScanEventFlags paravisor s = Fault NullDeref.
Proof.
  intros M Hi He Ht. destruct (machine_inv _ _ M) as [H _]. pose proof (b_max _ H) as Hm. unfold VMBUS_MAX_CHANNELS in Hm.
  apply (scan_words_null (Z.to_nat (MaxInterruptUsed (root s) / 64 + 1)) paravisor 0 s H); [lia|zlia|]. apply Exists_exists. exists i. split.
  - apply elem_of_flag_list; [done|]. split; [zlia|done].
  - unfold interrupt_of. rewrite He. simpl. destruct (channels s !! 0) as [c|] eqn:E; [|done]. by destruct (b_contexts _ H 0 c E).
Qed.

(** When an offer is queued for hot add, stopping the root device never
    succeeds: the loop that frees the queue frees the entry behind the one it
    removed. *)
Lemma stop_with_queued_offer (HL : HypervisorLaws) s s' : machine true s -> HotMessageList (root s) <> [] ->
  VmbusRootDriverStop [] s <> Ok (EFI_SUCCESS, s').
Proof.
  intros M Hq E. destruct (machine_inv _ _ M) as [H _]. by destruct (returns_DestroyContext s H _ _ E eq_refl) as (_ & _ & ?).
Qed.
End Props.
End VmbusProps.
