(* ===== verification/VmbusConcrete.v ===== *)
(** A host, and witnesses for the properties of the VMBus driver: it offers one
    storage channel, answers what it is asked, and later offers another. *)
From stdpp Require Import base list numbers list_numbers option gmap fin_maps fin_map_dom.
From Stdlib Require Import ZArith Lia.
From S2P Require Import Prelude Circular PkRing EmclPacket Vmbus VmbusInv VmbusInterrupt VmbusGpadl VmbusChannels VmbusRootOps VmbusMachine VmbusMessages VmbusFlags VmbusProps.
Open Scope Z_scope.

Module VmbusConcrete.
Import PkRing EmclPacket Vmbus VmbusInv VmbusInterrupt VmbusGpadl VmbusChannels VmbusRootOps VmbusMachine VmbusMessages VmbusFlags VmbusProps.

(** ** The host *)
Definition storage : list Z := guid 0xba6163d9 0x04a1 0x4d29 [0xb6; 0x05; 0x72; 0xe2; 0xff; 0xb1; 0xdc; 0x7f].
Definition reply (size : Z) (l : list Z) : option HV_MESSAGE := Some (mkHv 1 size (take 240 (l ++ replicate 240 0))).
Definition ex_version : option HV_MESSAGE := reply 20 (le_split 4 15 ++ le_split 4 0 ++ [1; 0] ++ replicate 6 0 ++ le_split 4 8).
Definition ex_offer (id : Z) : option HV_MESSAGE :=
  reply 196 (le_split 4 1 ++ le_split 4 0 ++ storage ++ replicate 160 0 ++ le_split 4 id ++ le_split 4 0 ++ le_split 4 77).
Definition ex_delivered : option HV_MESSAGE := reply 8 (le_split 4 4).
Definition ex_created : option HV_MESSAGE := reply 20 (le_split 4 10 ++ le_split 4 0 ++ le_split 4 100 ++ le_split 4 1 ++ le_split 4 0).
Definition ex_torndown : option HV_MESSAGE := reply 12 (le_split 4 12 ++ le_split 4 0 ++ le_split 4 1).

(** By time: the start, a late offer, then a GPADL of handle 1 that is created and
    torn down.  The flags are those of channels 70 and 100. *)
Definition ex_host (n : nat) : hv_interrupt :=
  mkInterrupt [0; Z.shiftl 1 6] [0; Z.shiftl 1 36]
    (if n =? 8 then ex_version else if n =? 24 then ex_offer 100 else if n =? 50 then ex_delivered else if n =? 60 then ex_offer 5
     else if n =? 70 then ex_created else if n =? 90 then ex_torndown else None)%nat.

Definition top (s : gset Z) : Z := 1 + set_fold Z.max 0 s.
#[local] Instance ex_hv : Hypervisor := {|
  host := ex_host; refetch := fun _ m => m; patience := 20;
  PostMessage_answer := fun _ => EFI_SUCCESS; ConnectSint_answer := fun _ => EFI_SUCCESS; CompleteSint_answer := fun _ => EFI_SUCCESS;
  SignalHost_answer := fun _ => EFI_SUCCESS; CurrentVpIndex := 0;
  AllocatePool_answer := fun _ P _ => top P; CreateEvent_answer := fun _ E => (EFI_SUCCESS, top E);
  Install_answer := fun _ => (EFI_SUCCESS, 9); Uninstall_answer := fun _ => EFI_SUCCESS;
  OpenProtocol_answer := fun _ => EFI_SUCCESS; LocateProtocol_answer := fun _ => EFI_SUCCESS;
  MakeVisible_answer := fun _ v => (EFI_SUCCESS, top (dom v));
  IsIsolated := true; IsHardwareIsolated := false; IsParavisorPresent := false; PcdEnableIMCWhenIsolated := false;
  mSharedGpaBoundary := 2 ^ 47; mCanonicalizationMask := 0; gMsvmVmbusClientGuid := replicate 16 7 |}.
#[local] Instance ex_build : BuildOptions := debug_build.

Lemma top_fresh s : top s ∉ s /\ top s <> 0.
Proof.
  unfold top. assert (K : 0 <= set_fold Z.max 0 s /\ forall x, x ∈ s -> x <= set_fold Z.max 0 s).
  { apply (set_fold_ind_L (fun r X => 0 <= r /\ forall x, x ∈ X -> x <= r)); [set_solver|]. intros x X r Hx [Hr K]. split; [lia|].
    intros y Hy. apply elem_of_union in Hy as [->%elem_of_singleton|Hy]; [lia|]. apply K in Hy. lia. }
  destruct K as [K0 K]. split; [|lia]. intros Hin. apply K in Hin. lia.
Qed.
Lemma reply_wf size l m : 0 <= size -> forallb (fun z => (0 <=? z) && (z <? 256)) l = true -> reply size l = Some m -> wf_hv m.
Proof.
  intros Hs Hl E. assert (m = mkHv 1 size (take 240 (l ++ replicate 240 0))) as -> by (unfold reply in E; congruence). split_and!; cbn [PayloadSize Payload]; [done| |].
  - rewrite length_take, length_app, length_replicate. lia.
  - apply Forall_take, Forall_app. split; [|by apply Forall_replicate]. apply Forall_forall. intros z Hz.
    rewrite forallb_forall in Hl. apply list_elem_of_In, Hl, andb_prop in Hz as [?%Z.leb_le ?%Z.ltb_lt]. done.
Qed.
#[local] Instance ex_laws : HypervisorLaws.
Proof.
  split.
  - intros n m. simpl. do 6 (destruct (_ =? _)%nat; [by apply reply_wf|]). done.
  - done.
  - intros n P k _. apply top_fresh.
  - intros n E st e Ee _. injection Ee as _ <-. split; apply top_fresh.
  - intros n v st h Ee _. injection Ee as _ <-. split; [apply top_fresh|]. apply not_elem_of_dom, top_fresh.
  - split; [done|by apply Forall_replicate].
Qed.

(** ** States *)
Definition answer {A} (c : V A) (s : vmbus) : option A := match c s with Ok (a, _) => Some a | Fault _ => None end.
Definition after {A} (c : V A) (s : vmbus) : vmbus := match c s with Ok (_, s') => s' | Fault _ => s end.
Lemma run_after {A} (c : V A) s a : answer c s = Some a -> c s = Ok (a, after c s).
Proof. unfold answer, after. destruct (c s) as [[x s']|]; [|done]. intros E. by injection E as ->. Qed.
Lemma present {A} (o : option A) : (match o with Some _ => true | None => false end) = true -> is_Some o.
Proof. destruct o; [by eexists|done]. Qed.
Lemma stepped o s : machine true s -> op_ok o s -> answer (exec o) s = Some tt -> machine true (after (exec o) s).
Proof. intros M Ho E. by apply (at_step o s); [| |apply run_after]. Qed.

(** Started, with channel 100 at address 1. *)
Definition ex_started : vmbus := after VmbusRootDriverStart boot.
Lemma ex_started_machine : machine true ex_started.
Proof.
  assert (E : answer VmbusRootDriverStart boot = Some EFI_SUCCESS) by (vm_compute; reflexivity).
  exact (at_start boot _ at_boot (run_after _ _ _ E)).
Qed.
Lemma ex_started_channel : is_Some (channels ex_started !! 1).
Proof. apply present. vm_compute. reflexivity. Qed.

(** Its event registered. *)
Definition ex_registered : vmbus := after (exec (OpRegisterIsr 1 1)) ex_started.
Lemma ex_registered_machine : machine true ex_registered.
Proof. apply stepped; [apply ex_started_machine|apply ex_started_channel|]. vm_compute. reflexivity. Qed.

(** With an offer in the queue. *)
Definition ex_step (s : vmbus) : vmbus := after (exec OpInterrupt) s.
Lemma ex_step_machine s : machine true s -> answer (exec OpInterrupt) s = Some tt -> machine true (ex_step s).
Proof. intros M E. by apply stepped. Qed.
Definition ex_queued : vmbus := ex_step (ex_step (ex_step (ex_step ex_started))).
Lemma ex_queued_machine : machine true ex_queued.
Proof. do 4 (apply ex_step_machine; [|vm_compute; reflexivity]). apply ex_started_machine. Qed.

(** The whole life of a GPADL of two pages runs to its end. *)
Example ex_gpadl_life : answer (gpadl_life 1 8192 8192 1) ex_started = Some EFI_SUCCESS.
Proof. vm_compute. reflexivity. Qed.

Lemma known_flags s l : forallb (fun j => match interrupt_of s j with Some _ => true | None => false end) l = true -> all_known s l.
Proof.
  intros K. apply Forall_forall. intros j Hj. apply present. rewrite forallb_forall in K. apply K. by apply list_elem_of_In.
Qed.

Lemma not_empty {A} (l : list A) : (match l with [] => true | _ => false end) = false -> l <> [].
Proof. by destruct l. Qed.

(** ** Witnesses *)
Lemma vmbus_survives_host_witness :
  machine true ex_started /\ match exec OpInterrupt ex_started with
  | Ok (_, s') => machine true s' /\ base s'
  | Fault f => f = FailFast \/ f = AssertFailed \/ f = Diverges \/ f = NullDeref
  end.
Proof. split; [apply ex_started_machine|]. apply (vmbus_survives_host ex_laws OpInterrupt ex_started); [apply ex_started_machine|exact I]. Defined.

Lemma channels_are_allowed_witness :
  exists c, channels ex_started !! 1 = Some c /\ VmbusRootIsChannelAllowed (InterfaceType c) = true.
Proof.
  destruct ex_started_channel as [c Hc]. exists c. split; [exact Hc|].
  apply (proj1 (channels_are_allowed ex_laws ex_started ex_started_machine) 1 c Hc).
Defined.

Definition ex_gpadl : EFI_VMBUS_GPADL := mkGpadl 8192 8192 (60 * 4096) 60 1 0 false.
Lemma gpadl_messages_round_trip_witness :
  exists s' msgs, send_gpadl 100 ex_gpadl boot = Ok (tt, s') /\ sent s' = sent boot ++ msgs /\ Forall (fun m => length m = 240%nat) msgs /\
    host_gpadl msgs = Ok (mkHostRange 100 1 (60 * 4096) 0 (map (fun i => 2 + i) (seqZ 0 60))).
Proof. apply (gpadl_messages_round_trip 100 ex_gpadl boot); [intros t; exists O; split; [simpl; lia|split; [intros j Hj; lia|done]]|..]; simpl; lia. Defined.

Lemma gpadl_life_restores_witness :
  exists s', gpadl_life 1 8192 8192 1 ex_started = Ok (EFI_SUCCESS, s') /\
    observe s' = view_zeroed (zeroing 1 8192 8192 (zeroed ex_started)) (observe ex_started).
Proof.
  exists (after (gpadl_life 1 8192 8192 1) ex_started). pose proof (run_after _ _ _ ex_gpadl_life) as E. split; [exact E|].
  destruct ex_started_channel as [c Hc].
  pose proof (gpadl_life_restores ex_laws 1 c 8192 8192 1 ex_started ex_started_machine Hc) as W. rewrite E in W. exact W.
Defined.

Lemma prepare_exposes_buffer_witness :
  exists c, channels ex_started !! 1 = Some c /\
  match VmbusChannelPrepareGpadl 1 8192 8192 1 ex_started with
  | Ok ((st, p), s') => (EFI_ERROR st = true /\ visible s' = visible ex_started /\ gpadls s' = gpadls ex_started) \/ st = EFI_SUCCESS
  | Fault f => tolerated f
  end.
Proof.
  destruct ex_started_channel as [c Hc]. exists c. split; [exact Hc|].
  pose proof (prepare_exposes_buffer ex_laws 1 c 8192 8192 1 ex_started ex_started_machine Hc) as W. revert W.
  generalize (VmbusChannelPrepareGpadl 1 8192 8192 1 ex_started). intros [[[st p] s']|f]; [|tauto]. intros [?|[? _]]; auto.
Defined.

Lemma flags_signal_channels_witness : exists s', VmbusRootScanEventFlags true ex_registered = Ok (tt, s') /\ still ex_registered s'.
Proof.
  destruct (flags_signal_channels ex_laws true ex_registered ex_registered_machine) as (s' & E & S & _).
  - apply known_flags. vm_compute. reflexivity.
  - exists s'. split; [exact E|exact S].
Defined.

Lemma unknown_flag_faults_witness : VmbusRootScanEventFlags false ex_registered = Fault NullDeref.
Proof.
  apply (unknown_flag_faults ex_laws false ex_registered 70 ex_registered_machine); [|vm_compute; reflexivity|vm_compute; reflexivity].
  assert (E : MaxInterruptUsed (root ex_registered) = 100) by (vm_compute; reflexivity). rewrite E. lia.
Defined.

Lemma stop_with_queued_offer_witness : VmbusRootDriverStop [] ex_queued <> Ok (EFI_SUCCESS, ex_queued).
Proof.
  apply (stop_with_queued_offer ex_laws ex_queued ex_queued ex_queued_machine).
  apply not_empty. vm_compute. reflexivity.
Defined.
End VmbusConcrete.
