(* ===== verification/VariableDxe.v ===== *)
(** The variable services: [MsvmPkg/VariableDxe/VariableDxe.c] and
    [NvramVariableDxe.c].  Volatile variables live in a memory store of
    [STORE_MAIN_SIZE] bytes, one after the other, followed by a scratch area in
    which a new variable is put together; the others are kept by the host, which
    is reached through a command descriptor and a data buffer in shared pages.

    The state [variables] holds the globals of both files and what they designate:
    the runtime pool and the page allocations by physical address, the virtual
    address of each ([virtual], identity until [SetVirtualAddressMap]), and the
    host's device.  A [VARIABLE_HEADER *] is an offset into the store, or [None]
    for [NULL].  Callers' strings and buffers are lists of bytes, [None] for
    [NULL].  The layout of a variable's header belongs to the upstream firmware
    project: it is the class [VariableFormat], with [VariableFormatLaws]. *)
From Stdlib Require Import String Ascii ZArith Lia.
From stdpp Require Import base list numbers list_numbers option gmap.
From S2P Require Import Prelude.
Open Scope Z_scope.

Module VariableDxe.

(** ** Constants *)
Definition EFI_MAX_VARIABLE_NAME_SIZE : Z := 2 * 1024.
Definition EFI_MAX_VARIABLE_DATA_SIZE : Z := 32 * 1024.
Definition STORE_MAIN_SIZE : Z := 128 * 1024.

(** Attributes of variables (UEFI specification). *)
Definition EFI_VARIABLE_NON_VOLATILE : Z := 1.
Definition EFI_VARIABLE_BOOTSERVICE_ACCESS : Z := 2.
Definition EFI_VARIABLE_RUNTIME_ACCESS : Z := 4.
Definition EFI_VARIABLE_HARDWARE_ERROR_RECORD : Z := 8.
Definition EFI_VARIABLE_AUTHENTICATED_WRITE_ACCESS : Z := 16.
Definition EFI_VARIABLE_TIME_BASED_AUTHENTICATED_WRITE_ACCESS : Z := 32.
Definition EFI_VARIABLE_APPEND_WRITE : Z := 64.
Definition EFI_VARIABLE_ATTRIBUTES_MASK : Z := 127.

(** [Attributes & mask] is not zero. *)
Definition has (Attributes mask : Z) : bool := negb (Z.land Attributes mask =? 0).

(** Offsets in [EFI_VARIABLE_AUTHENTICATION_2] (UEFI specification): a time stamp
    of 16 bytes, then [AuthInfo], whose certificate data start 24 bytes on. *)
Definition OFFSET_OF_AuthInfo : Z := 16.
Definition OFFSET_OF_CertData : Z := 24.
Definition OFFSET_OF_AUTHINFO2_CERT_DATA : Z := OFFSET_OF_AuthInfo + OFFSET_OF_CertData.

(** A string literal [L"..."] as its characters, and as bytes with terminator. *)
Fixpoint L (s : string) : list Z :=
  match s with EmptyString => [] | String c s => Z.of_nat (nat_of_ascii c) :: L s end.
Definition wide (cs : list Z) : list Z := (cs ++ [0]) ≫= le_split 2.

Definition gEfiGlobalVariableGuid : list Z :=
  le_split 4 0x8BE4DF61 ++ le_split 2 0x93CA ++ le_split 2 0x11D2 ++ [0xAA; 0x0D; 0x00; 0xE0; 0x98; 0x03; 0x2B; 0x8C].
Definition HYPERV_PRIVATE_NAMESPACE : list Z :=
  le_split 4 0x610b9e98 ++ le_split 2 0xc6f6 ++ le_split 2 0x47f8 ++ [0x8b; 0x47; 0x2d; 0x2d; 0xa0; 0xd5; 0x2a; 0x91].
Definition OSLOADER_INDICATIONS_NAME : list Z := wide (L "OsLoaderIndications").

(** ** The format of a variable *)
Record VARIABLE_HEADER := mkHeader {
  StartId : Z; State : Z; Reserved : Z; Attributes_ : Z; NameSize : Z; DataSize_ : Z; VendorGuid_ : list Z }.

Class VariableFormat := {
  sizeof_VARIABLE_HEADER : Z;
  header_of_bytes : list Z -> VARIABLE_HEADER;
  bytes_of_header : VARIABLE_HEADER -> list Z;
  VARIABLE_DATA : Z;
  VAR_ADDED : Z;
  VAR_IN_DELETED_TRANSITION : Z;
  VAR_DELETED : Z;
  ALIGNMENT : Z;
  GET_PAD_SIZE : Z -> Z
}.

(** The fields of a header within their widths. *)
Definition header_fits (h : VARIABLE_HEADER) : Prop :=
  0 <= StartId h < 2 ^ 16 /\ 0 <= State h < 2 ^ 8 /\ 0 <= Reserved h < 2 ^ 8 /\ 0 <= Attributes_ h < 2 ^ 32 /\
  0 <= NameSize h < 2 ^ 32 /\ 0 <= DataSize_ h < 2 ^ 32 /\ List.length (VendorGuid_ h) = 16%nat /\ Forall is_byte (VendorGuid_ h).

(** What the code relies on: the header is a packed structure that starts with
    [StartId]; [VARIABLE_DATA] cannot be read where erased bytes start; the states
    are told apart; padding aligns to a small power of two. *)
Class VariableFormatLaws (VF : VariableFormat) : Prop := {
  sizeof_bounds : 0 < sizeof_VARIABLE_HEADER <= 256;
  header_length h : header_fits h -> Zlength (bytes_of_header h) = sizeof_VARIABLE_HEADER;
  header_is_bytes h : header_fits h -> Forall is_byte (bytes_of_header h);
  header_store_load h : header_fits h -> header_of_bytes (bytes_of_header h) = h;
  header_load_fits bs : Zlength bs = sizeof_VARIABLE_HEADER -> Forall is_byte bs -> header_fits (header_of_bytes bs);
  header_load_store bs : Zlength bs = sizeof_VARIABLE_HEADER -> Forall is_byte bs -> bytes_of_header (header_of_bytes bs) = bs;
  erased_id bs : StartId (header_of_bytes (255 :: bs)) <> VARIABLE_DATA;
  data_id_fits : 0 <= VARIABLE_DATA < 2 ^ 16;
  state_fits : 0 <= VAR_ADDED < 255;
  state_transition : Z.land VAR_ADDED VAR_IN_DELETED_TRANSITION <> VAR_ADDED;
  state_transition_masked : Z.land (Z.land VAR_ADDED VAR_IN_DELETED_TRANSITION) VAR_IN_DELETED_TRANSITION = Z.land VAR_ADDED VAR_IN_DELETED_TRANSITION;
  state_deleted s : Z.land s VAR_DELETED <> VAR_ADDED /\ Z.land s VAR_DELETED <> Z.land VAR_IN_DELETED_TRANSITION VAR_ADDED;
  alignment_small : ALIGNMENT = 1 \/ ALIGNMENT = 2 \/ ALIGNMENT = 4 \/ ALIGNMENT = 8;
  pad_aligns n : GET_PAD_SIZE n = (- n) mod ALIGNMENT
}.

(** ** The command descriptor

    A packed structure; [U] is a union, so fields of different commands overlap.
    A field is its offset and its width. *)
Inductive NVRAM_COMMAND : Type :=
  | NvramGetVariableCommand | NvramSetVariableCommand | NvramGetFirstVariableNameCommand
  | NvramGetNextVariableNameCommand | NvramQueryInfoCommand | NvramSignalRuntimeCommand | NvramDebugStringCommand.
Definition command_code (c : NVRAM_COMMAND) : Z :=
  match c with
  | NvramGetVariableCommand => 0 | NvramSetVariableCommand => 1 | NvramGetFirstVariableNameCommand => 2
  | NvramGetNextVariableNameCommand => 3 | NvramQueryInfoCommand => 4 | NvramSignalRuntimeCommand => 5
  | NvramDebugStringCommand => 6
  end.

Definition sizeof_NVRAM_COMMAND_DESCRIPTOR : Z := 56.
Definition Command : Z * nat := (0, 4%nat).
Definition Status : Z * nat := (4, 8%nat).
Definition VariableAttributes : Z * nat := (12, 4%nat).
Definition VariableNameAddress : Z * nat := (16, 8%nat).
Definition VariableNameBytes : Z * nat := (24, 4%nat).
Definition VariableVendorGuid : Z := 28.
Definition VariableDataAddress : Z * nat := (44, 8%nat).
Definition VariableDataBytes : Z * nat := (52, 4%nat).
Definition QueryInfo_Attributes : Z * nat := (12, 4%nat).
Definition QueryInfo_MaximumVariableStorage : Z * nat := (16, 8%nat).
Definition QueryInfo_RemainingVariableStorage : Z * nat := (24, 8%nat).
Definition QueryInfo_MaximumVariableSize : Z * nat := (32, 8%nat).
Definition SignalRuntimeCommand : Z * nat := (12, 8%nat).

Definition field (f : Z * nat) (d : list Z) : Z := le_combine (zslice f.1 (Z.of_nat f.2) d).

(** [ENCODE_ERROR] sets the top bit; the numbers are those of the specification. *)
Definition ENCODE_ERROR (n : Z) : EFI_STATUS :=
  let code := n mod 2 ^ 63 in
  match code with
  | 2 => EFI_INVALID_PARAMETER | 3 => EFI_UNSUPPORTED | 4 => EFI_BAD_BUFFER_SIZE | 5 => EFI_BUFFER_TOO_SMALL
  | 6 => EFI_NOT_READY | 7 => EFI_DEVICE_ERROR | 8 => EFI_WRITE_PROTECTED | 9 => EFI_OUT_OF_RESOURCES
  | 14 => EFI_NOT_FOUND | 17 => EFI_NO_MAPPING | 20 => EFI_ALREADY_STARTED | 24 => EFI_PROTOCOL_ERROR | 26 => EFI_SECURITY_VIOLATION
  | 31 => EFI_END_OF_FILE | 33 => EFI_COMPROMISED_DATA | _ => EFI_ENCODED code
  end.
Definition EFI_DEVICE_ERROR_code : Z := 2 ^ 63 + 7.
Definition BiosConfigNvramCommand : Z := 0x24.

(** ** Surroundings *)

(** The host's device: what writing to its registers does to it and to the pages
    it reaches, and how often a command it is not ready for is repeated before
    the model gives up. *)
Class BiosDevice := {
  device : Type;
  WriteBiosDevice_effect : device -> Z -> Z -> gmap Z (list Z) -> device * gmap Z (list Z);
  patience : nat
}.

(** What a debug message prints. *)
Inductive log_message : Type :=
  | LogReclaimStart (offset : Z) | LogReclaimStop (offset : Z)
  | LogGetVariable (name : list Z) (size : Z) | LogGetNextVariable (name : list Z)
  | LogSetVariable (name : list Z) (attributes size : Z) | LogQueryVariableInfo (attributes : Z).

(** What the boot services and libraries answer, allocations and events by time. *)
Class Firmware := {
  mdepkg_ndebug : bool;
  aarch64 : bool;
  IsHardwareIsolatedNoParavisor : bool;
  AllocateRuntimePool_answer : nat -> Z -> Z;
  AllocatePages_answer : nat -> Z -> Z -> EFI_STATUS * Z;
  fresh_bytes : nat -> Z -> list Z;
  AddMemorySpace_answer : EFI_STATUS;
  SetMemorySpaceAttributes_answer : EFI_STATUS;
  CreateEventEx_answer : nat -> EFI_STATUS * Z;
  InstallProtocols_answer : EFI_STATUS;
  EfiConvertPointer_answer : Z -> EFI_STATUS * Z;
  UnicodeVSPrintAsciiFormat : log_message -> list Z
}.

Section State.
Context {BD : BiosDevice}.

Record variables := mkVariables {
  mVariableStore : Z; mStoreFreeOffset : Z; mAppendBuffer : Z;
  mNvramCommandDescriptorGpa : Z; mNvramCommandDescriptor : Z; mNvramCommandDataBufferGpa : Z;
  mNvramCommandDataBuffer : Z; mNvramNotAllowed : bool; mVirtualAddressChangeEvent : Z;
  mExitBootServicesEvent : Z; services_installed : bool; pool : gmap Z (list Z);
  pages : gmap Z (list Z); virtual : gmap Z Z; events : gset Z;
  EfiAtRuntime : bool; bios : device; tick : nat }.

Definition set_store_ptr v0 s := mkVariables v0 (mStoreFreeOffset s) (mAppendBuffer s) (mNvramCommandDescriptorGpa s) (mNvramCommandDescriptor s) (mNvramCommandDataBufferGpa s) (mNvramCommandDataBuffer s) (mNvramNotAllowed s) (mVirtualAddressChangeEvent s) (mExitBootServicesEvent s) (services_installed s) (pool s) (pages s) (virtual s) (events s) (EfiAtRuntime s) (bios s) (tick s).
Definition set_free_offset v0 s := mkVariables (mVariableStore s) v0 (mAppendBuffer s) (mNvramCommandDescriptorGpa s) (mNvramCommandDescriptor s) (mNvramCommandDataBufferGpa s) (mNvramCommandDataBuffer s) (mNvramNotAllowed s) (mVirtualAddressChangeEvent s) (mExitBootServicesEvent s) (services_installed s) (pool s) (pages s) (virtual s) (events s) (EfiAtRuntime s) (bios s) (tick s).
Definition set_append_ptr v0 s := mkVariables (mVariableStore s) (mStoreFreeOffset s) v0 (mNvramCommandDescriptorGpa s) (mNvramCommandDescriptor s) (mNvramCommandDataBufferGpa s) (mNvramCommandDataBuffer s) (mNvramNotAllowed s) (mVirtualAddressChangeEvent s) (mExitBootServicesEvent s) (services_installed s) (pool s) (pages s) (virtual s) (events s) (EfiAtRuntime s) (bios s) (tick s).
Definition set_descriptor_gpa v0 s := mkVariables (mVariableStore s) (mStoreFreeOffset s) (mAppendBuffer s) v0 (mNvramCommandDescriptor s) (mNvramCommandDataBufferGpa s) (mNvramCommandDataBuffer s) (mNvramNotAllowed s) (mVirtualAddressChangeEvent s) (mExitBootServicesEvent s) (services_installed s) (pool s) (pages s) (virtual s) (events s) (EfiAtRuntime s) (bios s) (tick s).
Definition set_descriptor_ptr v0 s := mkVariables (mVariableStore s) (mStoreFreeOffset s) (mAppendBuffer s) (mNvramCommandDescriptorGpa s) v0 (mNvramCommandDataBufferGpa s) (mNvramCommandDataBuffer s) (mNvramNotAllowed s) (mVirtualAddressChangeEvent s) (mExitBootServicesEvent s) (services_installed s) (pool s) (pages s) (virtual s) (events s) (EfiAtRuntime s) (bios s) (tick s).
Definition set_buffer_gpa v0 s := mkVariables (mVariableStore s) (mStoreFreeOffset s) (mAppendBuffer s) (mNvramCommandDescriptorGpa s) (mNvramCommandDescriptor s) v0 (mNvramCommandDataBuffer s) (mNvramNotAllowed s) (mVirtualAddressChangeEvent s) (mExitBootServicesEvent s) (services_installed s) (pool s) (pages s) (virtual s) (events s) (EfiAtRuntime s) (bios s) (tick s).
Definition set_buffer_ptr v0 s := mkVariables (mVariableStore s) (mStoreFreeOffset s) (mAppendBuffer s) (mNvramCommandDescriptorGpa s) (mNvramCommandDescriptor s) (mNvramCommandDataBufferGpa s) v0 (mNvramNotAllowed s) (mVirtualAddressChangeEvent s) (mExitBootServicesEvent s) (services_installed s) (pool s) (pages s) (virtual s) (events s) (EfiAtRuntime s) (bios s) (tick s).
Definition set_not_allowed v0 s := mkVariables (mVariableStore s) (mStoreFreeOffset s) (mAppendBuffer s) (mNvramCommandDescriptorGpa s) (mNvramCommandDescriptor s) (mNvramCommandDataBufferGpa s) (mNvramCommandDataBuffer s) v0 (mVirtualAddressChangeEvent s) (mExitBootServicesEvent s) (services_installed s) (pool s) (pages s) (virtual s) (events s) (EfiAtRuntime s) (bios s) (tick s).
Definition set_address_event v0 s := mkVariables (mVariableStore s) (mStoreFreeOffset s) (mAppendBuffer s) (mNvramCommandDescriptorGpa s) (mNvramCommandDescriptor s) (mNvramCommandDataBufferGpa s) (mNvramCommandDataBuffer s) (mNvramNotAllowed s) v0 (mExitBootServicesEvent s) (services_installed s) (pool s) (pages s) (virtual s) (events s) (EfiAtRuntime s) (bios s) (tick s).
Definition set_exit_event v0 s := mkVariables (mVariableStore s) (mStoreFreeOffset s) (mAppendBuffer s) (mNvramCommandDescriptorGpa s) (mNvramCommandDescriptor s) (mNvramCommandDataBufferGpa s) (mNvramCommandDataBuffer s) (mNvramNotAllowed s) (mVirtualAddressChangeEvent s) v0 (services_installed s) (pool s) (pages s) (virtual s) (events s) (EfiAtRuntime s) (bios s) (tick s).
Definition set_installed v0 s := mkVariables (mVariableStore s) (mStoreFreeOffset s) (mAppendBuffer s) (mNvramCommandDescriptorGpa s) (mNvramCommandDescriptor s) (mNvramCommandDataBufferGpa s) (mNvramCommandDataBuffer s) (mNvramNotAllowed s) (mVirtualAddressChangeEvent s) (mExitBootServicesEvent s) v0 (pool s) (pages s) (virtual s) (events s) (EfiAtRuntime s) (bios s) (tick s).
Definition set_pool v0 s := mkVariables (mVariableStore s) (mStoreFreeOffset s) (mAppendBuffer s) (mNvramCommandDescriptorGpa s) (mNvramCommandDescriptor s) (mNvramCommandDataBufferGpa s) (mNvramCommandDataBuffer s) (mNvramNotAllowed s) (mVirtualAddressChangeEvent s) (mExitBootServicesEvent s) (services_installed s) v0 (pages s) (virtual s) (events s) (EfiAtRuntime s) (bios s) (tick s).
Definition set_pages v0 s := mkVariables (mVariableStore s) (mStoreFreeOffset s) (mAppendBuffer s) (mNvramCommandDescriptorGpa s) (mNvramCommandDescriptor s) (mNvramCommandDataBufferGpa s) (mNvramCommandDataBuffer s) (mNvramNotAllowed s) (mVirtualAddressChangeEvent s) (mExitBootServicesEvent s) (services_installed s) (pool s) v0 (virtual s) (events s) (EfiAtRuntime s) (bios s) (tick s).
Definition set_virtual v0 s := mkVariables (mVariableStore s) (mStoreFreeOffset s) (mAppendBuffer s) (mNvramCommandDescriptorGpa s) (mNvramCommandDescriptor s) (mNvramCommandDataBufferGpa s) (mNvramCommandDataBuffer s) (mNvramNotAllowed s) (mVirtualAddressChangeEvent s) (mExitBootServicesEvent s) (services_installed s) (pool s) (pages s) v0 (events s) (EfiAtRuntime s) (bios s) (tick s).
Definition set_events v0 s := mkVariables (mVariableStore s) (mStoreFreeOffset s) (mAppendBuffer s) (mNvramCommandDescriptorGpa s) (mNvramCommandDescriptor s) (mNvramCommandDataBufferGpa s) (mNvramCommandDataBuffer s) (mNvramNotAllowed s) (mVirtualAddressChangeEvent s) (mExitBootServicesEvent s) (services_installed s) (pool s) (pages s) (virtual s) v0 (EfiAtRuntime s) (bios s) (tick s).
Definition set_runtime v0 s := mkVariables (mVariableStore s) (mStoreFreeOffset s) (mAppendBuffer s) (mNvramCommandDescriptorGpa s) (mNvramCommandDescriptor s) (mNvramCommandDataBufferGpa s) (mNvramCommandDataBuffer s) (mNvramNotAllowed s) (mVirtualAddressChangeEvent s) (mExitBootServicesEvent s) (services_installed s) (pool s) (pages s) (virtual s) (events s) v0 (bios s) (tick s).
Definition set_bios v0 s := mkVariables (mVariableStore s) (mStoreFreeOffset s) (mAppendBuffer s) (mNvramCommandDescriptorGpa s) (mNvramCommandDescriptor s) (mNvramCommandDataBufferGpa s) (mNvramCommandDataBuffer s) (mNvramNotAllowed s) (mVirtualAddressChangeEvent s) (mExitBootServicesEvent s) (services_installed s) (pool s) (pages s) (virtual s) (events s) (EfiAtRuntime s) v0 (tick s).
Definition next_tick s := mkVariables (mVariableStore s) (mStoreFreeOffset s) (mAppendBuffer s) (mNvramCommandDescriptorGpa s) (mNvramCommandDescriptor s) (mNvramCommandDataBufferGpa s) (mNvramCommandDataBuffer s) (mNvramNotAllowed s) (mVirtualAddressChangeEvent s) (mExitBootServicesEvent s) (services_installed s) (pool s) (pages s) (virtual s) (events s) (EfiAtRuntime s) (bios s) (Datatypes.S (tick s)).

Definition boot (d : device) : variables := mkVariables 0 0 0 0 0 0 0 false 0 0 false ∅ ∅ ∅ ∅ false d 0%nat.
End State.

(** ** The monad *)
Definition V `{BiosDevice} (A : Type) : Type := variables -> result (A * variables).
#[export] Instance V_ret `{BiosDevice} : MRet V := fun A a s => Ok (a, s).
#[export] Instance V_bind `{BiosDevice} : MBind V := fun A B k c s =>
  match c s with Ok (a, s') => k a s' | Fault f => Fault f end.

Section Driver.
Context {B : BuildOptions} {BD : BiosDevice} {FW : Firmware} {VF : VariableFormat}.

Definition vlift {A} (r : result A) : V A := fun s => match r with Ok a => Ok (a, s) | Fault f => Fault f end.
Definition vget {A} (f : variables -> A) : V A := fun s => Ok (f s, s).
Definition vmod (f : variables -> variables) : V unit := fun s => Ok (tt, f s).

(** ** Memory

    A pointer is dereferenced through the current address map: an address that
    is not mapped, or that was not converted, faults. *)
Definition physical (p : Z) : V Z := fun s =>
  match virtual s !! p with Some q => Ok (q, s) | None => Fault (if p =? 0 then NullDeref else OutOfBounds) end.
Definition object (m : gmap Z (list Z)) (q : Z) : result (list Z) :=
  match m !! q with Some b => Ok b | None => Fault UseAfterFree end.

Definition pool_read (p off n : Z) : V (list Z) :=
  q ← physical p; b ← (fun s => vlift (object (pool s) q) s); vlift (mem_read b off n).
Definition pool_write (p off : Z) (bs : list Z) : V unit :=
  q ← physical p; b ← (fun s => vlift (object (pool s) q) s);
  b' ← vlift (mem_write b off bs); vmod (fun s => set_pool (<[q := b']> (pool s)) s).
Definition page_read (p off n : Z) : V (list Z) :=
  q ← physical p; b ← (fun s => vlift (object (pages s) q) s); vlift (mem_read b off n).
Definition page_write (p off : Z) (bs : list Z) : V unit :=
  q ← physical p; b ← (fun s => vlift (object (pages s) q) s);
  b' ← vlift (mem_write b off bs); vmod (fun s => set_pages (<[q := b']> (pages s)) s).

(** [n] bytes of a caller's buffer, and a copy into one. *)
Definition caller_read (b : option (list Z)) (off n : Z) : result (list Z) :=
  if n =? 0 then Ok [] else match b with Some b => mem_read b off n | None => Fault NullDeref end.
Definition caller_write (b : option (list Z)) (bs : list Z) : result (option (list Z)) :=
  if Zlength bs =? 0 then Ok b else match b with Some b => b' ← mem_write b 0 bs; Ok (Some b') | None => Fault NullDeref end.

(** [StrSize]: the bytes of a string with its terminator. *)
Fixpoint StrSize (bs : list Z) : result Z :=
  match bs with
  | lo :: hi :: rest => if (lo =? 0) && (hi =? 0) then Ok 2 else n ← StrSize rest; Ok (n + 2)
  | _ => Fault OutOfBounds
  end.

(** [CompareMem] stops at the first difference. *)
Fixpoint compare_bytes (n : nat) (a b : list Z) : result Z :=
  match n, a, b with
  | O, _, _ => Ok 0
  | S n, x :: a, y :: b => if x =? y then compare_bytes n a b else Ok (x - y)
  | _, _, _ => Fault OutOfBounds
  end.
Definition CompareMem (a b : list Z) (n : Z) : result Z := compare_bytes (Z.to_nat n) a b.

(** [StrCmp (First, L"...") == 0]. *)
Fixpoint StrCmp (first : list Z) (second : list Z) : result bool :=
  match first with
  | lo :: hi :: first =>
    let u := lo + 256 * hi in
    match second with
    | [] => Ok (u =? 0)
    | c :: second => if u =? c then StrCmp first second else Ok false
    end
  | _ => Fault OutOfBounds
  end.

(** The first character of a string. *)
Definition first_char (bs : list Z) : result Z := bs ← mem_read bs 0 2; Ok (le_combine bs).

(** ** [NvramVariableDxe.c] *)
Definition desc_set (f : Z * nat) (v : Z) : V unit :=
  p ← vget mNvramCommandDescriptor; page_write p f.1 (le_split f.2 v).
Definition desc_get (f : Z * nat) : V Z :=
  p ← vget mNvramCommandDescriptor; bs ← page_read p f.1 (Z.of_nat f.2); mret (le_combine bs).
Definition zero_descriptor : V unit :=
  p ← vget mNvramCommandDescriptor; page_write p 0 (replicate (Z.to_nat sizeof_NVRAM_COMMAND_DESCRIPTOR) 0).
Definition buffer_set (off : Z) (bs : list Z) : V unit := p ← vget mNvramCommandDataBuffer; page_write p off bs.
Definition buffer_get (off n : Z) : V (list Z) := p ← vget mNvramCommandDataBuffer; page_read p off n.
Definition desc_set_guid (g : list Z) : V unit := p ← vget mNvramCommandDescriptor; page_write p VariableVendorGuid g.
Definition desc_get_guid : V (list Z) := p ← vget mNvramCommandDescriptor; page_read p VariableVendorGuid 16.

Definition WriteBiosDevice (register value : Z) : V unit := fun s =>
  let '(d, m) := WriteBiosDevice_effect (bios s) register value (pages s) in
  Ok (tt, set_bios d (set_pages m s)).

Fixpoint issue_loop (n : nat) : V EFI_STATUS :=
  match n with
  | O => vlift (Fault Diverges)
  | S n =>
    gpa ← vget mNvramCommandDescriptorGpa;
    _ ← WriteBiosDevice BiosConfigNvramCommand (u32 gpa);
    st ← desc_get Status;
    if st =? 0 then mret EFI_SUCCESS
    else if bool_decide (ENCODE_ERROR st = EFI_NOT_READY) then issue_loop n
    else mret (ENCODE_ERROR st)
  end.

Definition IssueBiosDeviceNvramCommand : V EFI_STATUS :=
  not_allowed ← vget mNvramNotAllowed;
  if (not_allowed : bool) then mret EFI_UNSUPPORTED else issue_loop patience.

(** [gBS->AllocatePages] below a highest address, of which the driver asks for
    pages of runtime memory; addresses are identity mapped. *)
Definition EFI_SIZE_TO_PAGES (n : Z) : Z := (n + 4095) / 4096.
Definition AllocatePages (highest n : Z) : V (EFI_STATUS * Z) := fun s =>
  let '(status, p) := AllocatePages_answer (tick s) highest n in
  let bytes := fresh_bytes (tick s) (n * 4096) in
  let s := next_tick s in
  if EFI_ERROR status then Ok (status, highest, s)
  else Ok (status, p, set_virtual (<[p := p]> (virtual s)) (set_pages (<[p := bytes]> (pages s)) s)).
Definition FreePages (p : Z) : V unit := fun s =>
  match pages s !! p with
  | Some _ => Ok (tt, set_virtual (delete p (virtual s)) (set_pages (delete p (pages s)) s))
  | None => Fault DoubleFree
  end.
Definition AllocateRuntimePool (size : Z) : V Z := fun s =>
  let p := AllocateRuntimePool_answer (tick s) size in
  let bytes := fresh_bytes (tick s) size in
  let s := next_tick s in
  if p =? 0 then Ok (0, s) else Ok (p, set_virtual (<[p := p]> (virtual s)) (set_pool (<[p := bytes]> (pool s)) s)).
Definition FreePool (p : Z) : V unit := fun s =>
  match pool s !! p with
  | Some _ => Ok (tt, set_virtual (delete p (virtual s)) (set_pool (delete p (pool s)) s))
  | None => Fault DoubleFree
  end.

Definition BELOW_4GB : Z := 0xFFFFFFFF.

(** The cleanup of [NvramInitialize] once a step failed. *)
Definition nvram_cleanup (status : EFI_STATUS) : V EFI_STATUS :=
  b ← vget mNvramCommandDataBufferGpa;
  _ ← (if b =? 0 then mret tt else FreePages b;; vmod (set_buffer_gpa 0));
  d ← vget mNvramCommandDescriptorGpa;
  _ ← (if d =? 0 then mret tt else FreePages d;; vmod (set_descriptor_gpa 0));
  mret status.

(** The registers of the device, declared as runtime memory on ARM64. *)
Definition declare_registers : V EFI_STATUS :=
  if negb aarch64 then mret EFI_SUCCESS
  else
    _ ← vlift (ASSERT (negb (EFI_ERROR AddMemorySpace_answer)));
    if EFI_ERROR AddMemorySpace_answer then mret AddMemorySpace_answer
    else
      _ ← vlift (ASSERT (negb (EFI_ERROR SetMemorySpaceAttributes_answer)));
      mret SetMemorySpaceAttributes_answer.

Definition NvramInitialize : V EFI_STATUS :=
  if IsHardwareIsolatedNoParavisor then vmod (set_not_allowed true);; mret EFI_SUCCESS
  else
    '(status, d) ← AllocatePages BELOW_4GB (EFI_SIZE_TO_PAGES sizeof_NVRAM_COMMAND_DESCRIPTOR);
    if EFI_ERROR status then vmod (set_descriptor_gpa 0);; nvram_cleanup status
    else
      _ ← vmod (set_descriptor_gpa d);
      '(status, b) ← AllocatePages BELOW_4GB (EFI_SIZE_TO_PAGES (EFI_MAX_VARIABLE_NAME_SIZE + EFI_MAX_VARIABLE_DATA_SIZE));
      if EFI_ERROR status then vmod (set_buffer_gpa 0);; nvram_cleanup status
      else
        _ ← vmod (set_buffer_gpa b);
        _ ← vmod (set_descriptor_ptr d);
        _ ← vmod (set_buffer_ptr b);
        status ← declare_registers;
        if EFI_ERROR status then nvram_cleanup status else mret status.

(** [EfiConvertPointer (0, &p)]: the converted pointer, or [p] on failure. *)
Definition EfiConvertPointer (p : Z) : EFI_STATUS * Z :=
  let '(status, q) := EfiConvertPointer_answer p in (status, if EFI_ERROR status then p else q).

Definition NvramAddressChangeHandler : V unit :=
  not_allowed ← vget mNvramNotAllowed;
  if (not_allowed : bool) then mret tt
  else
    d ← vget mNvramCommandDescriptor;
    let '(status, d) := EfiConvertPointer d in
    _ ← vmod (set_descriptor_ptr d);
    _ ← vlift (ASSERT (negb (EFI_ERROR status)));
    b ← vget mNvramCommandDataBuffer;
    let '(status, b) := EfiConvertPointer b in
    _ ← vmod (set_buffer_ptr b);
    vlift (ASSERT (negb (EFI_ERROR status))).

Definition NvramExitBootServicesHandler (VsmAware : bool) : V unit :=
  not_allowed ← vget mNvramNotAllowed;
  if (not_allowed : bool) then mret tt
  else
    _ ← zero_descriptor;
    _ ← desc_set Command (command_code NvramSignalRuntimeCommand);
    _ ← desc_set SignalRuntimeCommand (if VsmAware then 1 else 0);
    _ ← IssueBiosDeviceNvramCommand;
    mret tt.

(** [ZeroMem], then the fields every command starts from. *)
Definition start_command (c : NVRAM_COMMAND) : V unit :=
  zero_descriptor;; desc_set Status EFI_DEVICE_ERROR_code;; desc_set Command (command_code c).

Record query_info := mkQuery {
  MaximumVariableStorageSize : Z; RemainingVariableStorageSize : Z; MaximumVariableSize : Z }.

(** The three out-parameters, present when the code wrote them. *)
Definition NvramQueryInfo (Attributes : Z) : V (EFI_STATUS * option query_info) :=
  not_allowed ← vget mNvramNotAllowed;
  if (not_allowed : bool) then mret (EFI_DEVICE_ERROR, None)
  else
    _ ← start_command NvramQueryInfoCommand;
    _ ← desc_set QueryInfo_Attributes Attributes;
    status ← IssueBiosDeviceNvramCommand;
    if bool_decide (status = EFI_SUCCESS) then
      a ← desc_get QueryInfo_MaximumVariableStorage;
      b ← desc_get QueryInfo_RemainingVariableStorage;
      c ← desc_get QueryInfo_MaximumVariableSize;
      mret (status, Some (mkQuery a b c))
    else mret (status, None).

Definition MAX_UINT32 : Z := 2 ^ 32 - 1.

Definition NvramSetVariable (VariableName VendorGuid : list Z) (Attributes DataSize : Z) (Data : option (list Z)) : V EFI_STATUS :=
  not_allowed ← vget mNvramNotAllowed;
  if (not_allowed : bool) then mret EFI_SUCCESS
  else
    _ ← start_command NvramSetVariableCommand;
    _ ← desc_set VariableAttributes Attributes;
    length ← vlift (StrSize VariableName);
    _ ← vlift (ASSERT (length <=? MAX_UINT32));
    if MAX_UINT32 <? length then mret EFI_INVALID_PARAMETER
    else
      _ ← vlift (ASSERT (DataSize <=? MAX_UINT32));
      if MAX_UINT32 <? DataSize then mret EFI_INVALID_PARAMETER
      else if EFI_MAX_VARIABLE_NAME_SIZE + EFI_MAX_VARIABLE_DATA_SIZE <? u64 (length + DataSize) then mret EFI_INVALID_PARAMETER
      else
        name ← vlift (mem_read VariableName 0 length);
        _ ← buffer_set 0 name;
        gpa ← vget mNvramCommandDataBufferGpa;
        _ ← desc_set VariableNameAddress gpa;
        _ ← desc_set VariableNameBytes (u32 length);
        _ ← desc_set_guid VendorGuid;
        data ← vlift (caller_read Data 0 DataSize);
        _ ← buffer_set length data;
        _ ← desc_set VariableDataAddress (u64 (gpa + length));
        _ ← desc_set VariableDataBytes (u32 DataSize);
        IssueBiosDeviceNvramCommand.

(** What [GetVariable] leaves in its out-parameters; the attributes are present
    when they were written. *)
Record get_result := mkGet {
  gr_status : EFI_STATUS; gr_attributes : option Z; gr_DataSize : Z; gr_Data : option (list Z) }.

Definition NvramGetVariable (VariableName VendorGuid : list Z) (wants_attributes : bool) (DataSize : Z) (Data : option (list Z)) : V get_result :=
  _ ← vlift (ASSERT (bool_decide (is_Some Data) || (DataSize =? 0)));
  not_allowed ← vget mNvramNotAllowed;
  if (not_allowed : bool) then mret (mkGet EFI_NOT_FOUND None DataSize Data)
  else
    _ ← start_command NvramGetVariableCommand;
    length ← vlift (StrSize VariableName);
    _ ← vlift (ASSERT (length <=? MAX_UINT32));
    if EFI_MAX_VARIABLE_NAME_SIZE <? length then mret (mkGet EFI_INVALID_PARAMETER None DataSize Data)
    else
      let dataSize := u32 DataSize in
      let dataSize := if EFI_MAX_VARIABLE_DATA_SIZE <? dataSize then EFI_MAX_VARIABLE_DATA_SIZE else dataSize in
      name ← vlift (mem_read VariableName 0 length);
      _ ← buffer_set 0 name;
      gpa ← vget mNvramCommandDataBufferGpa;
      _ ← desc_set VariableNameAddress gpa;
      _ ← desc_set VariableNameBytes (u32 length);
      _ ← desc_set_guid VendorGuid;
      _ ← desc_set VariableDataAddress (u64 (gpa + length));
      _ ← desc_set VariableDataBytes dataSize;
      status ← IssueBiosDeviceNvramCommand;
      match status with
      | EFI_SUCCESS =>
        attributes ← (if wants_attributes then a ← desc_get VariableAttributes; mret (Some a) else mret None);
        size ← desc_get VariableDataBytes;
        data ← buffer_get length size;
        Data ← vlift (caller_write Data data);
        mret (mkGet status attributes size Data)
      | EFI_BUFFER_TOO_SMALL =>
        size ← desc_get VariableDataBytes;
        if size <=? DataSize then mret (mkGet EFI_DEVICE_ERROR None DataSize Data)
        else mret (mkGet status None size Data)
      | _ => mret (mkGet status None DataSize Data)
      end.

(** The in-out parameters of the enumeration. *)
Record next_result := mkNext {
  nr_status : EFI_STATUS; nr_size : Z; nr_name : list Z; nr_guid : list Z }.

(** The answer of the host to either command of the enumeration. *)
Definition name_answer (VariableNameSize : Z) (VariableName VendorGuid : list Z) : V next_result :=
  gpa ← vget mNvramCommandDataBufferGpa;
  _ ← desc_set VariableNameAddress gpa;
  _ ← desc_set VariableNameBytes (u32 VariableNameSize);
  _ ← desc_set_guid VendorGuid;
  status ← IssueBiosDeviceNvramCommand;
  match status with
  | EFI_SUCCESS =>
    guid ← desc_get_guid;
    size ← desc_get VariableNameBytes;
    name ← buffer_get 0 size;
    VariableName ← vlift (mem_write VariableName 0 name);
    mret (mkNext status size VariableName guid)
  | EFI_BUFFER_TOO_SMALL =>
    size ← desc_get VariableNameBytes;
    mret (mkNext status size VariableName VendorGuid)
  | _ => mret (mkNext status VariableNameSize VariableName VendorGuid)
  end.

Definition NvramGetFirstVariableName (VariableNameSize : Z) (VariableName VendorGuid : list Z) : V next_result :=
  not_allowed ← vget mNvramNotAllowed;
  if (not_allowed : bool) then mret (mkNext EFI_NOT_FOUND VariableNameSize VariableName VendorGuid)
  else
    _ ← start_command NvramGetFirstVariableNameCommand;
    if MAX_UINT32 <? VariableNameSize then mret (mkNext EFI_INVALID_PARAMETER VariableNameSize VariableName VendorGuid)
    else if EFI_MAX_VARIABLE_NAME_SIZE <? VariableNameSize then mret (mkNext EFI_INVALID_PARAMETER VariableNameSize VariableName VendorGuid)
    else name_answer VariableNameSize VariableName VendorGuid.

Definition NvramGetNextVariableName (VariableNameSize : Z) (VariableName VendorGuid : list Z) : V next_result :=
  not_allowed ← vget mNvramNotAllowed;
  if (not_allowed : bool) then mret (mkNext EFI_NOT_FOUND VariableNameSize VariableName VendorGuid)
  else
    _ ← start_command NvramGetNextVariableNameCommand;
    if MAX_UINT32 <? VariableNameSize then mret (mkNext EFI_INVALID_PARAMETER VariableNameSize VariableName VendorGuid)
    else if EFI_MAX_VARIABLE_NAME_SIZE <? VariableNameSize then mret (mkNext EFI_INVALID_PARAMETER VariableNameSize VariableName VendorGuid)
    else
      name ← vlift (mem_read VariableName 0 VariableNameSize);
      _ ← buffer_set 0 name;
      name_answer VariableNameSize VariableName VendorGuid.

(** [NvramDebugLog] of a message: the printed text is at most 127 characters. *)
Definition NvramDebugLog (message : log_message) : V unit :=
  _ ← vlift (ASSERT (256 <? EFI_MAX_VARIABLE_NAME_SIZE));
  not_allowed ← vget mNvramNotAllowed;
  if (not_allowed : bool) then mret tt
  else
    let buffer := wide (UnicodeVSPrintAsciiFormat message) in
    length ← vlift (StrSize buffer);
    text ← vlift (mem_read buffer 0 length);
    _ ← buffer_set 0 text;
    _ ← zero_descriptor;
    _ ← desc_set Command (command_code NvramDebugStringCommand);
    gpa ← vget mNvramCommandDataBufferGpa;
    _ ← desc_set VariableNameAddress gpa;
    _ ← desc_set VariableNameBytes (u32 length);
    _ ← IssueBiosDeviceNvramCommand;
    mret tt.

(** [NvramDebugLog] where builds with debugging have it. *)
Definition debug_log (message : log_message) : V unit :=
  if mdepkg_ndebug then mret tt else NvramDebugLog message.

(** ** [VariableDxe.c]: the volatile store *)
Definition STORE_SCRATCH_SIZE : Z := sizeof_VARIABLE_HEADER + EFI_MAX_VARIABLE_NAME_SIZE + EFI_MAX_VARIABLE_DATA_SIZE.

Definition store_read (off n : Z) : V (list Z) := p ← vget mVariableStore; pool_read p off n.
Definition store_write (off : Z) (bs : list Z) : V unit := p ← vget mVariableStore; pool_write p off bs.
Definition header_at (off : Z) : V VARIABLE_HEADER := bs ← store_read off sizeof_VARIABLE_HEADER; mret (header_of_bytes bs).
Definition set_header (off : Z) (f : VARIABLE_HEADER -> VARIABLE_HEADER) : V unit :=
  h ← header_at off; store_write off (bytes_of_header (f h)).

Definition with_StartId v h := mkHeader v (State h) (Reserved h) (Attributes_ h) (NameSize h) (DataSize_ h) (VendorGuid_ h).
Definition with_State v h := mkHeader (StartId h) v (Reserved h) (Attributes_ h) (NameSize h) (DataSize_ h) (VendorGuid_ h).
Definition with_Reserved v h := mkHeader (StartId h) (State h) v (Attributes_ h) (NameSize h) (DataSize_ h) (VendorGuid_ h).
Definition with_Attributes v h := mkHeader (StartId h) (State h) (Reserved h) v (NameSize h) (DataSize_ h) (VendorGuid_ h).
Definition with_NameSize v h := mkHeader (StartId h) (State h) (Reserved h) (Attributes_ h) v (DataSize_ h) (VendorGuid_ h).
Definition with_DataSize v h := mkHeader (StartId h) (State h) (Reserved h) (Attributes_ h) (NameSize h) v (VendorGuid_ h).
Definition with_VendorGuid v h := mkHeader (StartId h) (State h) (Reserved h) (Attributes_ h) (NameSize h) (DataSize_ h) v.

(** [Variable->State &= mask]. *)
Definition mask_State (off mask : Z) : V unit := set_header off (fun h => with_State (Z.land (State h) mask) h).

Definition valid_header (h : VARIABLE_HEADER) : bool :=
  (StartId h =? VARIABLE_DATA) && (NameSize h <=? EFI_MAX_VARIABLE_NAME_SIZE) && (DataSize_ h <=? EFI_MAX_VARIABLE_DATA_SIZE).

Definition IsValidVariableHeader (v : option Z) : V bool :=
  match v with None => mret false | Some off => h ← header_at off; mret (valid_header h) end.

Definition GetVariableNamePtr (off : Z) : Z := off + sizeof_VARIABLE_HEADER.
Definition GetVariableDataPtr (off : Z) : V Z :=
  h ← header_at off; mret (GetVariableNamePtr off + NameSize h + GET_PAD_SIZE (NameSize h)).

Definition GetNextVariablePtr (v : option Z) : V (option Z) :=
  valid ← IsValidVariableHeader v;
  match v with
  | Some off =>
    if negb valid then mret None
    else p ← GetVariableDataPtr off; h ← header_at off; mret (Some (p + DataSize_ h + GET_PAD_SIZE (DataSize_ h)))
  | None => mret None
  end.

(** Both sizes are zero in a header of erased bytes. *)
Definition erased (h : VARIABLE_HEADER) : bool :=
  (State h =? 255) || (DataSize_ h =? 2 ^ 32 - 1) || (NameSize h =? 2 ^ 32 - 1) || (Attributes_ h =? 2 ^ 32 - 1).
Definition NameSizeOfVariable (off : Z) : V Z := h ← header_at off; mret (if erased h then 0 else NameSize h).
Definition DataSizeOfVariable (off : Z) : V Z := h ← header_at off; mret (if erased h then 0 else DataSize_ h).

Definition GetStartPointer : Z := 0.
Definition GetEndPointer : Z := STORE_MAIN_SIZE.

(** A walk visits at most as many headers as the store has bytes. *)
Definition walk_fuel : nat := Z.to_nat STORE_MAIN_SIZE + 1.

Definition is_added (h : VARIABLE_HEADER) : bool := State h =? VAR_ADDED.
Definition in_transition (h : VARIABLE_HEADER) : bool := State h =? Z.land VAR_IN_DELETED_TRANSITION VAR_ADDED.

Fixpoint reclaim_loop (n : nat) (current : Z) : V unit :=
  match n with
  | O => vlift (Fault Diverges)
  | S n =>
    valid ← IsValidVariableHeader (Some current);
    if negb valid then mret tt
    else
      next ← GetNextVariablePtr (Some current);
      h ← header_at current;
      match next with
      | None => vlift (Fault NullDeref)
      | Some next =>
        if negb (is_added h) && negb (in_transition h) then
          bs ← store_read next (u64 (GetEndPointer - next));
          _ ← store_write current bs;
          free ← vget mStoreFreeOffset;
          _ ← store_write (GetStartPointer + free) (replicate (Z.to_nat (u64 (STORE_MAIN_SIZE - free))) 255);
          _ ← vmod (fun s => set_free_offset (u64 (mStoreFreeOffset s - (next - current))) s);
          reclaim_loop n current
        else
          reclaim_loop n next
      end
  end.

Definition Reclaim : V unit :=
  free ← vget mStoreFreeOffset;
  _ ← debug_log (LogReclaimStart free);
  _ ← reclaim_loop walk_fuel GetStartPointer;
  free ← vget mStoreFreeOffset;
  debug_log (LogReclaimStop free).

(** Whether [FindVariable] has the variable at [off], a live one, in mind. *)
Definition find_matches (VariableName VendorGuid : list Z) (off : Z) : V bool :=
  c ← vlift (first_char VariableName);
  if c =? 0 then mret true
  else
    h ← header_at off;
    if bool_decide (VendorGuid = VendorGuid_ h) then
      size ← NameSizeOfVariable off;
      _ ← vlift (ASSERT (negb (size =? 0)));
      name ← store_read (GetVariableNamePtr off) size;
      d ← vlift (CompareMem VariableName name size);
      mret (d =? 0)
    else mret false.

Fixpoint find_loop (n : nat) (VariableName VendorGuid : list Z) (current : option Z) (deleted : option Z) : V (EFI_STATUS * option Z) :=
  match n with
  | O => vlift (Fault Diverges)
  | S n =>
    inside ← (match current with
              | Some off => if off <? GetEndPointer then IsValidVariableHeader current else mret false
              | None => IsValidVariableHeader None
              end);
    match current with
    | Some off =>
      if negb inside then mret (if deleted then EFI_SUCCESS else EFI_NOT_FOUND, deleted)
      else
        h ← header_at off;
        found ← (if is_added h || in_transition h then find_matches VariableName VendorGuid off else mret false);
        if found && negb (in_transition h) then mret (EFI_SUCCESS, Some off)
        else
          next ← GetNextVariablePtr current;
          find_loop n VariableName VendorGuid next (if found then Some off else deleted)
    | None => mret (if deleted then EFI_SUCCESS else EFI_NOT_FOUND, deleted)
    end
  end.

Definition FindVariable (VariableName VendorGuid : list Z) : V (EFI_STATUS * option Z) :=
  find_loop walk_fuel VariableName VendorGuid (Some GetStartPointer) None.

(** The new variable, put together in the scratch area; its size in the store. *)
Definition build_variable (VariableName VendorGuid data : list Z) (Attributes : Z) : V Z :=
  let newVariable := GetEndPointer in
  _ ← store_write newVariable (replicate (Z.to_nat STORE_SCRATCH_SIZE) 255);
  _ ← set_header newVariable (with_StartId VARIABLE_DATA);
  _ ← set_header newVariable (with_Reserved 0);
  _ ← set_header newVariable (with_Attributes (Z.land Attributes (Z.lnot EFI_VARIABLE_APPEND_WRITE)));
  let nameOffset := sizeof_VARIABLE_HEADER in
  nameSize ← vlift (StrSize VariableName);
  name ← vlift (mem_read VariableName 0 nameSize);
  _ ← store_write (newVariable + nameOffset) name;
  let dataOffset := nameOffset + nameSize + GET_PAD_SIZE nameSize in
  _ ← store_write (newVariable + dataOffset) data;
  _ ← set_header newVariable (with_VendorGuid VendorGuid);
  _ ← set_header newVariable (with_NameSize (u32 nameSize));
  _ ← set_header newVariable (with_DataSize (u32 (Zlength data)));
  mret (dataOffset + Zlength data + GET_PAD_SIZE (Zlength data)).

(** The part of [UpdateVariable] after the data to store are known. *)
Definition store_variable (VariableName VendorGuid data : list Z) (Attributes : Z) (variable : option Z) : V EFI_STATUS :=
  newVariableSize ← build_variable VariableName VendorGuid data Attributes;
  free ← vget mStoreFreeOffset;
  _ ← (if STORE_MAIN_SIZE <? u32 (newVariableSize + free) then Reclaim else mret tt);
  free ← vget mStoreFreeOffset;
  if STORE_MAIN_SIZE <? u32 (newVariableSize + free) then mret EFI_OUT_OF_RESOURCES
  else
    _ ← set_header GetEndPointer (with_State VAR_ADDED);
    bs ← store_read GetEndPointer newVariableSize;
    _ ← store_write free bs;
    _ ← vmod (set_free_offset (u64 (free + newVariableSize)));
    _ ← (match variable with Some off => mask_State off VAR_DELETED | None => mret tt end);
    mret EFI_SUCCESS.

(** [EFI_VARIABLE_APPEND_WRITE]: the old data followed by the new, put together
    in [mAppendBuffer]. *)
Definition append_data (off : Z) (Data : option (list Z)) (DataSize : Z) : V (list Z) :=
  h ← header_at off;
  let dataOffset := sizeof_VARIABLE_HEADER + NameSize h + GET_PAD_SIZE (NameSize h) in
  old ← store_read (off + dataOffset) (DataSize_ h);
  p ← vget mAppendBuffer;
  _ ← pool_write p 0 old;
  new ← vlift (caller_read Data 0 DataSize);
  _ ← pool_write p (DataSize_ h) new;
  pool_read p 0 (DataSize_ h + DataSize).

(** [variable] is the existing variable; the result is the status, or the data
    with which to go on. *)
Definition update_existing (Data : option (list Z)) (DataSize Attributes off : Z) : V (EFI_STATUS + list Z) :=
  runtime ← vget EfiAtRuntime;
  if (runtime : bool) then mret (inl EFI_WRITE_PROTECTED)
  else
    let append := has Attributes EFI_VARIABLE_APPEND_WRITE in
    if (negb append && (DataSize =? 0)) || negb (has Attributes (Z.lor EFI_VARIABLE_RUNTIME_ACCESS EFI_VARIABLE_BOOTSERVICE_ACCESS)) then
      mask_State off VAR_DELETED;; mret (inl EFI_SUCCESS)
    else
      size ← DataSizeOfVariable off;
      same ← (if size =? DataSize then
                p ← GetVariableDataPtr off;
                old ← store_read p DataSize;
                new ← vlift (caller_read Data 0 DataSize);
                d ← vlift (CompareMem new old DataSize);
                mret (d =? 0)
              else mret false);
      if same && negb append then mret (inl EFI_SUCCESS)
      else if append then
        h ← header_at off;
        if EFI_MAX_VARIABLE_DATA_SIZE <? u64 (DataSize_ h + DataSize) then mret (inl EFI_OUT_OF_RESOURCES)
        else
          data ← append_data off Data DataSize;
          mask_State off VAR_IN_DELETED_TRANSITION;; mret (inr data)
      else
        data ← vlift (caller_read Data 0 DataSize);
        mask_State off VAR_IN_DELETED_TRANSITION;; mret (inr data).

(** A new variable. *)
Definition update_new (Data : option (list Z)) (DataSize Attributes : Z) : V (EFI_STATUS + list Z) :=
  if (DataSize =? 0) && has Attributes EFI_VARIABLE_APPEND_WRITE then mret (inl EFI_SUCCESS)
  else if (DataSize =? 0) || negb (has Attributes (Z.lor EFI_VARIABLE_RUNTIME_ACCESS EFI_VARIABLE_BOOTSERVICE_ACCESS)) then mret (inl EFI_NOT_FOUND)
  else
    runtime ← vget EfiAtRuntime;
    if (runtime : bool) then mret (inl EFI_INVALID_PARAMETER)
    else data ← vlift (caller_read Data 0 DataSize); mret (inr data).

Definition UpdateVariable (VariableName VendorGuid : list Z) (Data : option (list Z)) (DataSize Attributes : Z) (variable : option Z) : V EFI_STATUS :=
  if has Attributes (Z.lor EFI_VARIABLE_AUTHENTICATED_WRITE_ACCESS EFI_VARIABLE_TIME_BASED_AUTHENTICATED_WRITE_ACCESS) then mret EFI_INVALID_PARAMETER
  else if has Attributes EFI_VARIABLE_NON_VOLATILE then mret EFI_INVALID_PARAMETER
  else
    r ← (match variable with
         | Some off => update_existing Data DataSize Attributes off
         | None => update_new Data DataSize Attributes
         end);
    match r with
    | inl status => mret status
    | inr data => store_variable VariableName VendorGuid data Attributes variable
    end.

Definition IsReadOnlyVariable (VariableName VendorGuid : list Z) : result bool :=
  if bool_decide (VendorGuid = gEfiGlobalVariableGuid) then
    a ← StrCmp VariableName (L "SetupMode");
    if (a : bool) then Ok true else
    b ← StrCmp VariableName (L "SignatureSupport");
    if (b : bool) then Ok true else
    c ← StrCmp VariableName (L "SecureBoot");
    if (c : bool) then Ok true else StrCmp VariableName (L "dbDefault")
  else Ok false.

Definition VariableInitialize : V EFI_STATUS :=
  _ ← vmod (set_store_ptr 0);
  _ ← vmod (set_append_ptr 0);
  p ← AllocateRuntimePool (STORE_MAIN_SIZE + STORE_SCRATCH_SIZE);
  _ ← vmod (set_store_ptr p);
  if p =? 0 then mret EFI_OUT_OF_RESOURCES
  else
    q ← AllocateRuntimePool EFI_MAX_VARIABLE_DATA_SIZE;
    _ ← vmod (set_append_ptr q);
    if q =? 0 then FreePool p;; mret EFI_OUT_OF_RESOURCES
    else
      _ ← store_write 0 (replicate (Z.to_nat (STORE_MAIN_SIZE + STORE_SCRATCH_SIZE)) 255);
      vmod (set_free_offset GetStartPointer);; mret EFI_SUCCESS.

Definition VariableCommonInitialize : V EFI_STATUS :=
  status ← NvramInitialize;
  if EFI_ERROR status then vlift (ASSERT false);; mret status
  else
    status ← VariableInitialize;
    if EFI_ERROR status then vlift (ASSERT false);; mret status else mret EFI_SUCCESS.

Definition ExitBootServicesHandler : V unit :=
  '(status, variable) ← FindVariable OSLOADER_INDICATIONS_NAME HYPERV_PRIVATE_NAMESPACE;
  vsmAware ← (match variable with
              | Some off =>
                if bool_decide (status = EFI_SUCCESS) then
                  size ← DataSizeOfVariable off;
                  if size =? 4 then
                    p ← GetVariableDataPtr off;
                    bs ← store_read p 4;
                    mret (Z.testbit (le_combine bs) 0)
                  else mret false
                else mret false
              | None => mret false
              end);
  NvramExitBootServicesHandler vsmAware.

Definition VirtualAddressChangeHandler : V unit :=
  _ ← NvramAddressChangeHandler;
  p ← vget mVariableStore;
  vmod (set_store_ptr (EfiConvertPointer p).2).

(** ** The services *)
Definition VariableServiceGetVariable (VariableName VendorGuid : option (list Z)) (wants_attributes : bool) (DataSize : option Z) (Data : option (list Z)) : V get_result :=
  match VariableName, VendorGuid, DataSize with
  | Some VariableName, Some VendorGuid, Some DataSize =>
    if negb (bool_decide (is_Some Data)) && negb (DataSize =? 0) then
      vlift (ASSERT false);; mret (mkGet EFI_INVALID_PARAMETER None DataSize Data)
    else
      _ ← debug_log (LogGetVariable VariableName DataSize);
      '(status, variable) ← FindVariable VariableName VendorGuid;
      match variable with
      | Some off =>
        if EFI_ERROR status then NvramGetVariable VariableName VendorGuid wants_attributes DataSize Data
        else
          h ← header_at off;
          let dataSize := DataSize_ h in
          if DataSize <? dataSize then mret (mkGet EFI_BUFFER_TOO_SMALL None dataSize Data)
          else match Data with
          | None => mret (mkGet EFI_INVALID_PARAMETER None DataSize Data)
          | Some _ =>
            p ← GetVariableDataPtr off;
            data ← store_read p dataSize;
            Data ← vlift (caller_write Data data);
            mret (mkGet EFI_SUCCESS (if wants_attributes then Some (Attributes_ h) else None) dataSize Data)
          end
      | None => NvramGetVariable VariableName VendorGuid wants_attributes DataSize Data
      end
  | _, _, _ => mret (mkGet EFI_INVALID_PARAMETER None (default 0 DataSize) Data)
  end.

Fixpoint next_loop (n : nat) (VariableNameSize : Z) (VariableName VendorGuid : list Z) (variable : option Z) : V next_result :=
  match n with
  | O => vlift (Fault Diverges)
  | S n =>
    match variable with
    | None => NvramGetFirstVariableName VariableNameSize VariableName VendorGuid
    | Some off =>
      if GetEndPointer <=? off then NvramGetFirstVariableName VariableNameSize VariableName VendorGuid
      else
        valid ← IsValidVariableHeader variable;
        h ← header_at off;
        runtime ← vget EfiAtRuntime;
        if valid && is_added h && negb (runtime && negb (has (Attributes_ h) EFI_VARIABLE_RUNTIME_ACCESS)) then
          let varNameSize := NameSize h in
          if varNameSize <=? VariableNameSize then
            name ← store_read (GetVariableNamePtr off) varNameSize;
            VariableName ← vlift (mem_write VariableName 0 name);
            mret (mkNext EFI_SUCCESS varNameSize VariableName (VendorGuid_ h))
          else mret (mkNext EFI_BUFFER_TOO_SMALL varNameSize VariableName VendorGuid)
        else
          next ← GetNextVariablePtr variable;
          next_loop n VariableNameSize VariableName VendorGuid next
    end
  end.

Definition VariableServiceGetNextVariableName (VariableNameSize : option Z) (VariableName VendorGuid : option (list Z)) : V next_result :=
  match VariableNameSize, VariableName, VendorGuid with
  | Some VariableNameSize, Some VariableName, Some VendorGuid =>
    _ ← debug_log (LogGetNextVariable VariableName);
    '(status, variable) ← FindVariable VariableName VendorGuid;
    match variable with
    | Some off =>
      if EFI_ERROR status then NvramGetNextVariableName VariableNameSize VariableName VendorGuid
      else
        c ← vlift (first_char VariableName);
        variable ← (if c =? 0 then mret variable else GetNextVariablePtr variable);
        next_loop walk_fuel VariableNameSize VariableName VendorGuid variable
    | None => NvramGetNextVariableName VariableNameSize VariableName VendorGuid
    end
  | _, _, _ => mret (mkNext EFI_INVALID_PARAMETER (default 0 VariableNameSize) (default [] VariableName) (default [] VendorGuid))
  end.

(** The size of the payload after an [EFI_VARIABLE_AUTHENTICATION_2] descriptor,
    if the descriptor is consistent. *)
Definition auth_payload (Data : option (list Z)) (DataSize : Z) : result (option Z) :=
  if DataSize <? OFFSET_OF_AUTHINFO2_CERT_DATA then Ok None
  else
    bs ← caller_read Data OFFSET_OF_AuthInfo 4;
    let dwLength := le_combine bs in
    if (DataSize - OFFSET_OF_AuthInfo <? dwLength) || (dwLength <? OFFSET_OF_CertData) then Ok None
    else Ok (Some (DataSize - (OFFSET_OF_AuthInfo + dwLength))).

(** The checks of [SetVariable] on its arguments: the status with which it
    returns, if it does. *)
Definition set_checks (VariableName VendorGuid : list Z) (Attributes DataSize : Z) (Data : option (list Z)) : result (option EFI_STATUS) :=
  readonly ← IsReadOnlyVariable VariableName VendorGuid;
  if (readonly : bool) then Ok (Some EFI_WRITE_PROTECTED)
  else if negb (DataSize =? 0) && negb (bool_decide (is_Some Data)) then Ok (Some EFI_INVALID_PARAMETER)
  else if has Attributes (Z.lnot EFI_VARIABLE_ATTRIBUTES_MASK) then Ok (Some EFI_INVALID_PARAMETER)
  else if Z.land Attributes (Z.lor EFI_VARIABLE_RUNTIME_ACCESS EFI_VARIABLE_BOOTSERVICE_ACCESS) =? EFI_VARIABLE_RUNTIME_ACCESS then Ok (Some EFI_INVALID_PARAMETER)
  else if has Attributes EFI_VARIABLE_AUTHENTICATED_WRITE_ACCESS && has Attributes EFI_VARIABLE_TIME_BASED_AUTHENTICATED_WRITE_ACCESS then Ok (Some EFI_INVALID_PARAMETER)
  else if has Attributes EFI_VARIABLE_AUTHENTICATED_WRITE_ACCESS then Ok (Some EFI_INVALID_PARAMETER)
  else
    payload ← (if has Attributes EFI_VARIABLE_TIME_BASED_AUTHENTICATED_WRITE_ACCESS then auth_payload Data DataSize else Ok (Some DataSize));
    match payload with
    | None => Ok (Some EFI_SECURITY_VIOLATION)
    | Some payloadSize =>
      if EFI_MAX_VARIABLE_DATA_SIZE <? payloadSize then Ok (Some EFI_INVALID_PARAMETER)
      else
        size ← StrSize VariableName;
        if EFI_MAX_VARIABLE_NAME_SIZE <? size then Ok (Some EFI_INVALID_PARAMETER) else Ok None
    end.

Definition VariableServiceSetVariable (VariableName VendorGuid : option (list Z)) (Attributes DataSize : Z) (Data : option (list Z)) : V EFI_STATUS :=
  match VariableName, VendorGuid with
  | Some VariableName, VendorGuid =>
    c ← vlift (first_char VariableName);
    match VendorGuid with
    | Some VendorGuid =>
      if c =? 0 then mret EFI_INVALID_PARAMETER
      else
        _ ← debug_log (LogSetVariable VariableName Attributes DataSize);
        checked ← vlift (set_checks VariableName VendorGuid Attributes DataSize Data);
        match checked with
        | Some status => mret status
        | None =>
          '(status, variable) ← FindVariable VariableName VendorGuid;
          let volatileExists := negb (EFI_ERROR status) in
          if volatileExists && has Attributes EFI_VARIABLE_TIME_BASED_AUTHENTICATED_WRITE_ACCESS then mret EFI_INVALID_PARAMETER
          else if volatileExists ||
                  (negb (has Attributes EFI_VARIABLE_NON_VOLATILE) && (0 <? DataSize) &&
                   (has Attributes EFI_VARIABLE_BOOTSERVICE_ACCESS || has Attributes EFI_VARIABLE_RUNTIME_ACCESS))
          then UpdateVariable VariableName VendorGuid Data DataSize Attributes variable
          else NvramSetVariable VariableName VendorGuid Attributes DataSize Data
        end
    | None => mret EFI_INVALID_PARAMETER
    end
  | None, _ => mret EFI_INVALID_PARAMETER
  end.

Fixpoint query_loop (n : nat) (variable : option Z) (remaining : Z) : V Z :=
  match n with
  | O => vlift (Fault Diverges)
  | S n =>
    match variable with
    | None => mret remaining
    | Some off =>
      if GetEndPointer <=? off then mret remaining
      else
        valid ← IsValidVariableHeader variable;
        if negb valid then mret remaining
        else
          next ← GetNextVariablePtr variable;
          h ← header_at off;
          runtime ← vget EfiAtRuntime;
          let variableSize := u64 (default 0 next - off) in
          query_loop n next (if runtime || is_added h then u64 (remaining - variableSize) else remaining)
    end
  end.

Definition VariableServiceQueryVariableInfo (Attributes : Z) (outputs : bool) : V (EFI_STATUS * option query_info) :=
  _ ← debug_log (LogQueryVariableInfo Attributes);
  if negb outputs || (Attributes =? 0) then mret (EFI_INVALID_PARAMETER, None)
  else if negb (has Attributes (Z.lor EFI_VARIABLE_NON_VOLATILE (Z.lor EFI_VARIABLE_BOOTSERVICE_ACCESS EFI_VARIABLE_RUNTIME_ACCESS))) then mret (EFI_UNSUPPORTED, None)
  else if Z.land Attributes (Z.lor EFI_VARIABLE_RUNTIME_ACCESS EFI_VARIABLE_BOOTSERVICE_ACCESS) =? EFI_VARIABLE_RUNTIME_ACCESS then mret (EFI_INVALID_PARAMETER, None)
  else
    runtime ← vget EfiAtRuntime;
    if runtime && negb (has Attributes EFI_VARIABLE_RUNTIME_ACCESS) then mret (EFI_INVALID_PARAMETER, None)
    else if has Attributes EFI_VARIABLE_NON_VOLATILE then NvramQueryInfo Attributes
    else
      remaining ← query_loop walk_fuel (Some GetStartPointer) STORE_MAIN_SIZE;
      let most := EFI_MAX_VARIABLE_NAME_SIZE + EFI_MAX_VARIABLE_DATA_SIZE in
      let size := if remaining <? sizeof_VARIABLE_HEADER then 0
                  else if remaining - sizeof_VARIABLE_HEADER <? most then remaining - sizeof_VARIABLE_HEADER else most in
      mret (EFI_SUCCESS, Some (mkQuery STORE_MAIN_SIZE remaining size)).

(** ** Driver entry *)
Definition CreateEventEx : V (EFI_STATUS * Z) := fun s =>
  let '(status, e) := CreateEventEx_answer (tick s) in
  let s := next_tick s in
  if EFI_ERROR status then Ok (status, 0, s) else Ok (status, e, set_events ({[e]} ∪ events s) s).
Definition CloseEvent (e : Z) : V unit := fun s =>
  if decide (e ∈ events s) then Ok (tt, set_events (events s ∖ {[e]}) s) else Fault DoubleFree.

Definition entry_cleanup (status : EFI_STATUS) : V EFI_STATUS :=
  a ← vget mVirtualAddressChangeEvent;
  _ ← (if a =? 0 then mret tt else CloseEvent a);
  e ← vget mExitBootServicesEvent;
  _ ← (if e =? 0 then mret tt else CloseEvent e);
  mret status.

Definition VariableServiceInitialize : V EFI_STATUS :=
  status ← VariableCommonInitialize;
  _ ← vlift (ASSERT (negb (EFI_ERROR status)));
  if EFI_ERROR status then mret status
  else
    _ ← vmod (set_installed true);
    '(status, e) ← CreateEventEx;
    _ ← (if EFI_ERROR status then mret tt else vmod (set_address_event e));
    _ ← vlift (ASSERT (negb (EFI_ERROR status)));
    if EFI_ERROR status then entry_cleanup status
    else
      '(status, e) ← CreateEventEx;
      _ ← (if EFI_ERROR status then mret tt else vmod (set_exit_event e));
      _ ← vlift (ASSERT (negb (EFI_ERROR status)));
      if EFI_ERROR status then entry_cleanup status
      else
        let status := InstallProtocols_answer in
        _ ← vlift (ASSERT (negb (EFI_ERROR status)));
        if EFI_ERROR status then entry_cleanup status else mret status.

(** ** The firmware's phases *)

(** [ExitBootServices] signals the driver's event; from then on it is at runtime. *)
Definition ExitBootServices : V unit := ExitBootServicesHandler;; vmod (set_runtime true).

(** [SetVirtualAddressMap] signals the driver's event and then installs the new
    addresses. *)
Definition remap (m : gmap Z Z) : gmap Z Z := list_to_map ((fun '(p, q) => ((EfiConvertPointer p).2, q)) <$> map_to_list m).
Definition SetVirtualAddressMap : V unit :=
  VirtualAddressChangeHandler;; vmod (fun s => set_virtual (remap (virtual s)) s).

End Driver.
End VariableDxe.
