(* ===== verification/VariableRep.v ===== *)
(** The volatile store as a log of variables: the bytes of an entry, of a log and
    of the whole store; walking the store ([FindVariable], [GetNextVariablePtr])
    against functions on the log. *)
From Stdlib Require Import ZArith Lia.
From stdpp Require Import base list numbers list_numbers option gmap.
From S2P Require Import Prelude Circular VariableDxe.
Open Scope Z_scope.

Module VariableRep.
Import VariableDxe.

(** ** Slices of concatenations *)
Lemma zslice_mid (pre mid post : list Z) off n :
  Zlength pre = off -> Zlength mid = n -> zslice off n (pre ++ mid ++ post) = mid.
Proof.
  unfold zslice, Zlength. intros <- <-. rewrite !Nat2Z.id, drop_app_length. apply take_app_length.
Qed.

Lemma mem_read_mid (pre mid post : list Z) off n :
  Zlength pre = off -> Zlength mid = n -> mem_read (pre ++ mid ++ post) off n = Ok mid.
Proof.
  intros Hp Hm. unfold mem_read. rewrite (zslice_mid pre mid post) by done.
  rewrite in_bounds_true; [done| | |]; rewrite ?Zlength_app; pose proof (Zlength_nonneg pre); pose proof (Zlength_nonneg mid);
    pose proof (Zlength_nonneg post); lia.
Qed.

Lemma mem_write_mid (pre mid mid' post : list Z) off :
  Zlength pre = off -> Zlength mid' = Zlength mid -> mem_write (pre ++ mid ++ post) off mid' = Ok (pre ++ mid' ++ post).
Proof.
  intros Hp Hm. unfold mem_write.
  rewrite in_bounds_true; [| | |]; rewrite ?Zlength_app; pose proof (Zlength_nonneg pre); pose proof (Zlength_nonneg mid);
    pose proof (Zlength_nonneg post); try lia.
  rewrite Hm, <- Hp. unfold Zlength.
  rewrite Nat2Z.id, take_app_length, <- Nat2Z.inj_add, Nat2Z.id, drop_app_add'; [|done]. by rewrite drop_app_length.
Qed.

(** ** Strings *)

(** The bytes of a string: its only terminator is at its end. *)
Definition is_name (nm : list Z) : Prop := StrSize nm = Ok (Zlength nm) /\ Forall is_byte nm.
(** A caller's buffer that holds a string. *)
Definition holds_name (buf nm : list Z) : Prop := is_name nm /\ Zlength nm < 2 ^ 32 /\ exists rest, buf = nm ++ rest.

#[export] Instance is_name_dec nm : Decision (is_name nm).
Proof.
  assert (Decision (StrSize nm = Ok (Zlength nm))).
  { destruct (StrSize nm) as [n|f]; [|right; done]. destruct (decide (n = Zlength nm)); [left; congruence|right; congruence]. }
  assert (Decision (Forall is_byte nm)). { apply Forall_dec. intros z. unfold is_byte. apply _. }
  unfold is_name. apply _.
Defined.

Lemma StrSize_cons lo hi rest : StrSize (lo :: hi :: rest) = if (lo =? 0) && (hi =? 0) then Ok 2 else n ← StrSize rest; Ok (n + 2).
Proof. done. Qed.

(** A string is an empty one, or a character followed by a string. *)
Lemma name_cases (P : list Z -> Prop) :
  P [0; 0] -> (forall lo hi nm, (lo =? 0) && (hi =? 0) = false -> StrSize nm = Ok (Zlength nm) -> P nm -> P (lo :: hi :: nm)) ->
  forall nm, StrSize nm = Ok (Zlength nm) -> P nm.
Proof.
  intros H0 H1 nm. remember (length nm) as n eqn:Hn. revert nm Hn.
  induction n as [n IH] using lt_wf_ind. intros [|lo [|hi nm]] Hn E; try done.
  rewrite StrSize_cons in E. destruct ((lo =? 0) && (hi =? 0)) eqn:Ez.
  - injection E as E. unfold Zlength in E. destruct nm; [|simpl in E; lia].
    apply andb_true_iff in Ez as [?%Z.eqb_eq ?%Z.eqb_eq]. by subst.
  - destruct (StrSize nm) as [k|] eqn:Ek; [|done]. injection E as E.
    assert (Ek' : StrSize nm = Ok (Zlength nm)) by (rewrite Ek; f_equal; unfold Zlength in *; simpl in E; lia).
    rewrite Ek in Ek'. injection Ek' as ->. apply H1; [done..|]. eapply IH; [|done|done]. simpl in Hn. lia.
Qed.

Lemma StrSize_app nm rest : StrSize nm = Ok (Zlength nm) -> StrSize (nm ++ rest) = Ok (Zlength nm).
Proof.
  revert nm. apply name_cases; [done|]. intros lo hi nm Hz _ IH. cbn [app]. rewrite StrSize_cons, Hz, IH.
  cbn. f_equal. unfold Zlength. simpl. lia.
Qed.

Lemma name_even nm : StrSize nm = Ok (Zlength nm) -> 2 <= Zlength nm /\ Zlength nm mod 2 = 0.
Proof.
  revert nm. apply name_cases; [done|]. intros lo hi nm _ _ [IH1 IH2]. unfold Zlength in *. cbn [length].
  rewrite !Nat2Z.inj_succ. split; [lia|zlia].
Qed.

Lemma compare_cons n x a y b : compare_bytes (S n) (x :: a) (y :: b) = if x =? y then compare_bytes n a b else Ok (x - y).
Proof. done. Qed.

(** Comparison of strings of different characters ends at the difference. *)
Lemma compare_char n lo hi a lo' hi' b : (lo, hi) <> (lo', hi') ->
  exists d, compare_bytes (S (S n)) (lo :: hi :: a) (lo' :: hi' :: b) = Ok d /\ (d =? 0) = false.
Proof.
  intros Hne. rewrite compare_cons. destruct (Z.eqb_spec lo lo') as [->|]; [|eexists; split; [done|]; apply Z.eqb_neq; lia].
  rewrite compare_cons. destruct (Z.eqb_spec hi hi') as [->|]; [done|]. eexists; split; [done|]. apply Z.eqb_neq; lia.
Qed.

(** Two strings are compared over the length of the second: equal or not, and
    never beyond the end of the first. *)
Lemma compare_names en : StrSize en = Ok (Zlength en) -> forall nm rest, StrSize nm = Ok (Zlength nm) ->
  exists d, compare_bytes (length en) (nm ++ rest) en = Ok d /\ (d =? 0) = bool_decide (nm = en).
Proof.
  assert (Hdiff : forall lo hi nm rest lo' hi' en, (lo, hi) <> (lo', hi') ->
    exists d, compare_bytes (length (lo' :: hi' :: en)) ((lo :: hi :: nm) ++ rest) (lo' :: hi' :: en) = Ok d /\
      (d =? 0) = bool_decide (lo :: hi :: nm = lo' :: hi' :: en)).
  { intros lo hi nm rest lo' hi' en' Hne. destruct (compare_char (length en') lo hi (nm ++ rest) lo' hi' en' Hne) as (d & E & Hd).
    exists d. split; [exact E|]. rewrite bool_decide_false; [done|congruence]. }
  revert en. apply (name_cases (fun en => forall nm rest, StrSize nm = Ok (Zlength nm) ->
    exists d, compare_bytes (length en) (nm ++ rest) en = Ok d /\ (d =? 0) = bool_decide (nm = en))).
  - intros nm rest. revert nm. apply name_cases; [by exists 0|]. intros lo hi nm Hz _ _. apply Hdiff. intros [= -> ->]. done.
  - intros lo hi en Hz He IH nm rest. revert nm. apply name_cases; [apply Hdiff; intros [= <- <-]; done|].
    intros lo' hi' nm Hz' Hn _. destruct (decide ((lo', hi') = (lo, hi))) as [[= -> ->]|Hne]; [|by apply Hdiff].
    cbn [length app]. rewrite !compare_cons, !Z.eqb_refl. destruct (IH nm rest Hn) as (d & -> & Hd). exists d. split; [done|]. rewrite Hd.
    destruct (decide (nm = en)) as [->|]; [by rewrite !bool_decide_true|]. rewrite !bool_decide_false by congruence. done.
Qed.

Lemma first_char_cons lo hi l : first_char (lo :: hi :: l) = Ok (lo + 256 * hi).
Proof.
  unfold first_char. change (lo :: hi :: l) with ([] ++ [lo; hi] ++ l). rewrite mem_read_mid by done.
  cbn [le_combine]. cbn. do 2 f_equal. lia.
Qed.

Lemma first_char_empty nm rest : is_name nm -> exists c, first_char (nm ++ rest) = Ok c /\ (c =? 0) = bool_decide (nm = [0; 0]).
Proof.
  intros [Hn Hb]. revert nm Hn Hb. apply (name_cases (fun nm => Forall is_byte nm -> _)).
  - intros _. exists 0. split; [apply (first_char_cons 0 0)|done].
  - intros lo hi nm Hz Hn _ Hb. exists (lo + 256 * hi). split; [apply first_char_cons|]. rewrite bool_decide_false.
    + inversion_clear Hb as [|?? Hlo Hb']. inversion_clear Hb' as [|?? Hhi _]. unfold is_byte in *.
      apply Z.eqb_neq. apply andb_false_iff in Hz as [?%Z.eqb_neq|?%Z.eqb_neq]; lia.
    + intros [= -> -> ->]. done.
Qed.

(** ** Entries and logs *)
Record entry := mkEntry { e_State : Z; e_Attributes : Z; e_guid : list Z; e_name : list Z; e_data : list Z }.
Definition with_e_State st e := mkEntry st (e_Attributes e) (e_guid e) (e_name e) (e_data e).

#[export] Instance entry_eq_dec : EqDecision entry.
Proof. solve_decision. Defined.

Section Rep.
Context {B : BuildOptions} {BD : BiosDevice} {FW : Firmware} {VF : VariableFormat} {LW : VariableFormatLaws VF}.

Definition e_header (e : entry) : VARIABLE_HEADER :=
  mkHeader VARIABLE_DATA (e_State e) 0 (e_Attributes e) (Zlength (e_name e)) (Zlength (e_data e)) (e_guid e).
Definition erased_bytes (n : Z) : list Z := replicate (Z.to_nat n) 255.
Definition padded (bs : list Z) : list Z := bs ++ erased_bytes (GET_PAD_SIZE (Zlength bs)).
Definition padded_size (bs : list Z) : Z := Zlength bs + GET_PAD_SIZE (Zlength bs).
Definition entry_bytes (e : entry) : list Z := bytes_of_header (e_header e) ++ padded (e_name e) ++ padded (e_data e).
Definition e_size (e : entry) : Z := sizeof_VARIABLE_HEADER + padded_size (e_name e) + padded_size (e_data e).

Definition entry_ok (e : entry) : Prop :=
  is_name (e_name e) /\ Zlength (e_name e) <= EFI_MAX_VARIABLE_NAME_SIZE /\
  Forall is_byte (e_data e) /\ Zlength (e_data e) <= EFI_MAX_VARIABLE_DATA_SIZE /\
  0 <= e_Attributes e < 2 ^ 32 - 1 /\ 0 <= e_State e < 255 /\ length (e_guid e) = 16%nat /\ Forall is_byte (e_guid e).

Definition log_bytes (es : list entry) : list Z := es ≫= entry_bytes.
Definition used (es : list entry) : Z := foldr (fun e n => e_size e + n) 0 es.

Definition added (e : entry) : bool := e_State e =? VAR_ADDED.
Definition transition (e : entry) : bool := e_State e =? Z.land VAR_IN_DELETED_TRANSITION VAR_ADDED.
Definition live (e : entry) : bool := added e || transition e.

Lemma pad_bounds n : 0 <= GET_PAD_SIZE n < 8.
Proof. rewrite pad_aligns. pose proof alignment_small. assert (0 < ALIGNMENT <= 8) by lia. pose proof (Z.mod_pos_bound (- n) ALIGNMENT). lia. Qed.

(** Padding does not exceed a limit that is a multiple of 8. *)
Lemma pad_limit n m : 0 <= n <= 8 * m -> n + GET_PAD_SIZE n <= 8 * m.
Proof. rewrite pad_aligns. intros H. destruct alignment_small as [->|[->|[->| ->]]]; zlia. Qed.

Lemma header_ok e : entry_ok e -> header_fits (e_header e).
Proof.
  intros (Hn & Hs & Hd & Hds & Ha & Hst & Hg & Hgb). unfold header_fits, e_header. cbn.
  pose proof data_id_fits. pose proof (Zlength_nonneg (e_name e)). pose proof (Zlength_nonneg (e_data e)).
  unfold EFI_MAX_VARIABLE_NAME_SIZE, EFI_MAX_VARIABLE_DATA_SIZE in *. repeat split; try lia; done.
Qed.

Lemma Zlength_erased n : 0 <= n -> Zlength (erased_bytes n) = n.
Proof. apply Zlength_replicate. Qed.

Lemma Zlength_padded bs : Zlength (padded bs) = padded_size bs.
Proof. unfold padded, padded_size. rewrite Zlength_app, Zlength_erased; [done|]. apply pad_bounds. Qed.

Lemma Zlength_entry e : entry_ok e -> Zlength (entry_bytes e) = e_size e.
Proof. intros H. unfold entry_bytes, e_size. rewrite !Zlength_app, !Zlength_padded, header_length by by apply header_ok. lia. Qed.

Lemma log_cons e es : log_bytes (e :: es) = entry_bytes e ++ log_bytes es.
Proof. done. Qed.
Lemma used_cons e es : used (e :: es) = e_size e + used es.
Proof. done. Qed.

Lemma Zlength_log es : Forall entry_ok es -> Zlength (log_bytes es) = used es.
Proof. induction 1 as [|e es He Hes IH]; [done|]. rewrite log_cons, used_cons, Zlength_app, Zlength_entry, IH by done. done. Qed.

Lemma size_bounds e : entry_ok e -> 2 + sizeof_VARIABLE_HEADER <= e_size e <= sizeof_VARIABLE_HEADER + EFI_MAX_VARIABLE_NAME_SIZE + EFI_MAX_VARIABLE_DATA_SIZE.
Proof.
  intros ((Hn & _) & Hs & _ & Hds & _). unfold e_size, padded_size. destruct (name_even _ Hn) as [? _].
  pose proof (pad_bounds (Zlength (e_name e))). pose proof (pad_bounds (Zlength (e_data e))). pose proof (Zlength_nonneg (e_data e)).
  unfold EFI_MAX_VARIABLE_NAME_SIZE, EFI_MAX_VARIABLE_DATA_SIZE in *.
  pose proof (pad_limit (Zlength (e_name e)) 256). pose proof (pad_limit (Zlength (e_data e)) 4096). lia.
Qed.

Lemma log_used_bounds es : Forall entry_ok es -> Z.of_nat (length es) <= used es.
Proof.
  induction 1 as [|e es He Hes IH]; [done|]. rewrite used_cons. cbn [length]. pose proof (size_bounds e He). pose proof sizeof_bounds. lia.
Qed.

Lemma log_app es es' : log_bytes (es ++ es') = log_bytes es ++ log_bytes es'.
Proof. apply bind_app. Qed.
Lemma log_used_app es es' : used (es ++ es') = used es + used es'.
Proof. unfold used. induction es as [|e es IH]; cbn [app foldr]; lia. Qed.

(** ** Access to the store *)
Definition at_store (s : variables) (q : Z) (b : list Z) : Prop :=
  virtual s !! mVariableStore s = Some q /\ pool s !! q = Some b.
Definition put_store (q : Z) (b : list Z) (s : variables) : variables := set_pool (<[q := b]> (pool s)) s.

Lemma at_put s q b b' : at_store s q b -> at_store (put_store q b' s) q b'.
Proof. intros [Hv Hp]. split; [done|]. apply lookup_insert_eq. Qed.
Lemma put_put s q b b' : put_store q b' (put_store q b s) = put_store q b' s.
Proof. unfold put_store, set_pool. cbn. by rewrite insert_insert_eq. Qed.
Lemma put_same s q b : at_store s q b -> put_store q b s = s.
Proof. intros [_ Hp]. unfold put_store, set_pool. rewrite insert_id by done. by destruct s. Qed.

Lemma vbind_Ok {A C} (c : V A) (k : A -> V C) s a s' : c s = Ok (a, s') -> (c ≫= k) s = k a s'.
Proof. intros E. unfold mbind, V_bind. by rewrite E. Qed.
Lemma vget_bind {A C} (f : variables -> A) (k : A -> V C) s : (vget f ≫= k) s = k (f s) s.
Proof. done. Qed.
Lemma vmod_bind {C} (f : variables -> variables) (k : unit -> V C) s : (vmod f ≫= k) s = k tt (f s).
Proof. done. Qed.
Lemma vret_bind {A C} (a : A) (k : A -> V C) s : ((mret a : V A) ≫= k) s = k a s.
Proof. done. Qed.
Lemma vlift_bind {A C} (r : result A) a (k : A -> V C) s : r = Ok a -> (vlift r ≫= k) s = k a s.
Proof. by intros ->. Qed.

Lemma store_read_run s q b off n bs : at_store s q b -> mem_read b off n = Ok bs -> store_read off n s = Ok (bs, s).
Proof. intros [Hv Hp] E. unfold store_read, pool_read, physical, object, vlift, vget, mbind, V_bind. rewrite Hv, Hp. cbn. by rewrite E. Qed.

Lemma store_write_run s q b off bs b' : at_store s q b -> mem_write b off bs = Ok b' -> store_write off bs s = Ok (tt, put_store q b' s).
Proof. intros [Hv Hp] E. unfold store_write, pool_write, physical, object, vlift, vget, vmod, mbind, V_bind. rewrite Hv, Hp. cbn. by rewrite E. Qed.

Lemma header_at_run s q pre e post off : at_store s q (pre ++ entry_bytes e ++ post) -> entry_ok e -> Zlength pre = off ->
  header_at off s = Ok (e_header e, s).
Proof.
  intros Hs He Ho. unfold header_at, entry_bytes in *. rewrite <- app_assoc in Hs.
  rewrite (vbind_Ok _ _ s (bytes_of_header (e_header e)) s).
  - by rewrite header_store_load by by apply header_ok.
  - eapply store_read_run; [exact Hs|]. apply mem_read_mid; [done|]. by apply header_length, header_ok.
Qed.

Lemma set_header_run s q pre e e' post off f : at_store s q (pre ++ entry_bytes e ++ post) -> entry_ok e -> entry_ok e' -> Zlength pre = off ->
  e_header e' = f (e_header e) -> e_name e' = e_name e -> e_data e' = e_data e ->
  set_header off f s = Ok (tt, put_store q (pre ++ entry_bytes e' ++ post) s).
Proof.
  intros Hs He He' Ho Hf Hn Hd. unfold set_header. rewrite (vbind_Ok _ _ _ _ _ (header_at_run _ _ _ _ _ _ Hs He Ho)).
  rewrite <- Hf. unfold entry_bytes in *. rewrite <- !app_assoc in *. rewrite Hn, Hd. eapply store_write_run; [exact Hs|].
  apply mem_write_mid; [done|]. rewrite !header_length by by apply header_ok. done.
Qed.

(** Erased bytes, of which at least a header is inside the store, are not a variable. *)
Lemma header_erased s q pre post off : at_store s q (pre ++ 255 :: post) -> sizeof_VARIABLE_HEADER <= 1 + Zlength post -> Zlength pre = off ->
  exists h, header_at off s = Ok (h, s) /\ valid_header h = false.
Proof.
  intros Hs Hl Ho. pose proof sizeof_bounds. set (n := sizeof_VARIABLE_HEADER - 1).
  exists (header_of_bytes (255 :: take (Z.to_nat n) post)). split.
  - unfold header_at. rewrite (vbind_Ok _ _ s (255 :: take (Z.to_nat n) post) s); [done|]. eapply store_read_run; [exact Hs|].
    rewrite <- (take_drop (Z.to_nat n) post) at 1. apply (mem_read_mid pre (255 :: take (Z.to_nat n) post)); [done|].
    change (255 :: take (Z.to_nat n) post) with ([255] ++ take (Z.to_nat n) post). rewrite Zlength_app, Zlength_take by (unfold n; lia).
    unfold Zlength. simpl. unfold n. lia.
  - unfold valid_header. destruct (Z.eqb_spec (StartId (header_of_bytes (255 :: take (Z.to_nat n) post))) VARIABLE_DATA) as [E|]; [|done].
    by apply erased_id in E.
Qed.

Lemma header_valid e : entry_ok e -> valid_header (e_header e) = true.
Proof.
  intros (_ & Hs & _ & Hd & _). unfold valid_header, e_header. cbn. rewrite Z.eqb_refl.
  apply andb_true_iff; split; [apply andb_true_iff; split; [done|]|]; by apply Z.leb_le.
Qed.

Lemma header_not_erased e : entry_ok e -> erased (e_header e) = false.
Proof.
  intros (_ & Hs & _ & Hd & Ha & Hst & _). unfold erased, e_header. cbn.
  unfold EFI_MAX_VARIABLE_NAME_SIZE, EFI_MAX_VARIABLE_DATA_SIZE in *.
  repeat (apply orb_false_iff; split); apply Z.eqb_neq; lia.
Qed.

(** What an entry in the store gives to the accessors. *)
Section At.
Context (s : variables) (q : Z) (pre post : list Z) (e : entry) (off : Z).
Context (Hs : at_store s q (pre ++ entry_bytes e ++ post)) (He : entry_ok e) (Ho : Zlength pre = off).

Lemma valid_run : IsValidVariableHeader (Some off) s = Ok (true, s).
Proof. unfold IsValidVariableHeader. rewrite (vbind_Ok _ _ _ _ _ (header_at_run _ _ _ _ _ _ Hs He Ho)). by rewrite header_valid. Qed.

Lemma data_ptr_run : GetVariableDataPtr off s = Ok (off + sizeof_VARIABLE_HEADER + padded_size (e_name e), s).
Proof.
  unfold GetVariableDataPtr. rewrite (vbind_Ok _ _ _ _ _ (header_at_run _ _ _ _ _ _ Hs He Ho)).
  unfold GetVariableNamePtr, padded_size, e_header, mret, V_ret. cbn. do 2 f_equal. lia.
Qed.

Lemma next_ptr_run : GetNextVariablePtr (Some off) s = Ok (Some (off + e_size e), s).
Proof.
  unfold GetNextVariablePtr. rewrite (vbind_Ok _ _ _ _ _ valid_run). cbn.
  rewrite (vbind_Ok _ _ _ _ _ data_ptr_run), (vbind_Ok _ _ _ _ _ (header_at_run _ _ _ _ _ _ Hs He Ho)).
  unfold e_size, padded_size, e_header, mret, V_ret. cbn. do 3 f_equal. lia.
Qed.

Lemma name_size_run : NameSizeOfVariable off s = Ok (Zlength (e_name e), s).
Proof. unfold NameSizeOfVariable. rewrite (vbind_Ok _ _ _ _ _ (header_at_run _ _ _ _ _ _ Hs He Ho)). by rewrite header_not_erased. Qed.

Lemma data_size_run : DataSizeOfVariable off s = Ok (Zlength (e_data e), s).
Proof. unfold DataSizeOfVariable. rewrite (vbind_Ok _ _ _ _ _ (header_at_run _ _ _ _ _ _ Hs He Ho)). by rewrite header_not_erased. Qed.

Lemma name_run : store_read (GetVariableNamePtr off) (Zlength (e_name e)) s = Ok (e_name e, s).
Proof.
  eapply store_read_run; [exact Hs|]. unfold entry_bytes, padded, GetVariableNamePtr. rewrite <- !app_assoc, (app_assoc pre).
  apply mem_read_mid; [|done]. rewrite Zlength_app, header_length by by apply header_ok. lia.
Qed.

Lemma data_run : store_read (off + sizeof_VARIABLE_HEADER + padded_size (e_name e)) (Zlength (e_data e)) s = Ok (e_data e, s).
Proof.
  eapply store_read_run; [exact Hs|].
  replace (pre ++ entry_bytes e ++ post)
    with ((pre ++ bytes_of_header (e_header e) ++ padded (e_name e)) ++ e_data e ++ (erased_bytes (GET_PAD_SIZE (Zlength (e_data e))) ++ post))
    by (unfold entry_bytes, padded; by rewrite <- !app_assoc).
  apply mem_read_mid; [|done]. rewrite !Zlength_app, Zlength_padded, header_length by by apply header_ok. lia.
Qed.

(** [State &= mask] where the result is a state again. *)
Lemma mask_run mask : 0 <= Z.land (e_State e) mask < 255 ->
  mask_State off mask s = Ok (tt, put_store q (pre ++ entry_bytes (with_e_State (Z.land (e_State e) mask) e) ++ post) s).
Proof.
  intros Hm. unfold mask_State. eapply set_header_run; [exact Hs|done| |done..]. unfold entry_ok in *. cbn. tauto.
Qed.
End At.

(** ** Walking the log *)

(** A walk that reaches [off] stops there: at the end of the store, or at erased bytes. *)
Definition ended (off : Z) (post : list Z) : Prop :=
  off = STORE_MAIN_SIZE \/ exists post', post = 255 :: post' /\ sizeof_VARIABLE_HEADER <= 1 + Zlength post'.

Definition matches (nm g : list Z) (e : entry) : bool :=
  if bool_decide (nm = [0; 0]) then true else bool_decide (g = e_guid e) && bool_decide (nm = e_name e).

(** The first added entry that matches, or else the last one in transition. *)
Fixpoint find_log (p : entry -> bool) (off : Z) (es : list entry) (deleted : option Z) : option Z :=
  match es with
  | [] => deleted
  | e :: es =>
    if live e && p e then if transition e then find_log p (off + e_size e) es (Some off) else Some off
    else find_log p (off + e_size e) es deleted
  end.
Definition find_status (r : option Z) : EFI_STATUS := if r then EFI_SUCCESS else EFI_NOT_FOUND.

Lemma added_header e : is_added (e_header e) = added e.
Proof. done. Qed.
Lemma transition_header e : in_transition (e_header e) = transition e.
Proof. done. Qed.

Lemma transition_not_added e : transition e = true -> added e = false.
Proof.
  unfold transition, added. intros ->%Z.eqb_eq. apply Z.eqb_neq. rewrite Z.land_comm. apply state_transition.
Qed.

Lemma find_matches_run s q pre e post off buf nm g : at_store s q (pre ++ entry_bytes e ++ post) -> entry_ok e -> Zlength pre = off ->
  holds_name buf nm -> find_matches buf g off s = Ok (matches nm g e, s).
Proof.
  intros Hs He Ho (Hn & _ & rest & ->). unfold find_matches, matches.
  destruct (first_char_empty nm rest Hn) as (c & Ec & Hc). rewrite (vlift_bind _ _ _ _ Ec), Hc.
  destruct (bool_decide (nm = [0; 0])); [done|].
  rewrite (vbind_Ok _ _ _ _ _ (header_at_run _ _ _ _ _ _ Hs He Ho)). unfold e_header at 1. cbn [VendorGuid_].
  destruct (bool_decide (g = e_guid e)); [|done].
  rewrite (vbind_Ok _ _ _ _ _ (name_size_run _ _ _ _ _ _ Hs He Ho)).
  destruct He as ((Hen & Heb) & He'). destruct (name_even _ Hen) as [Hlen _].
  rewrite (vlift_bind _ tt) by (apply ASSERT_holds, negb_true_iff, Z.eqb_neq; lia).
  rewrite (vbind_Ok _ _ _ _ _ (name_run _ _ _ _ _ _ Hs (conj (conj Hen Heb) He') Ho)).
  destruct (compare_names _ Hen nm rest (proj1 Hn)) as (d & Ed & Hd).
  rewrite (vlift_bind _ d) by (unfold CompareMem, Zlength; rewrite Nat2Z.id; exact Ed). by rewrite Hd.
Qed.

Lemma find_loop_run s q buf nm g post : holds_name buf nm -> forall es n pre off deleted,
  at_store s q (pre ++ log_bytes es ++ post) -> Forall entry_ok es -> Zlength pre = off -> off + used es <= STORE_MAIN_SIZE ->
  ended (off + used es) post -> (length es < n)%nat ->
  find_loop n buf g (Some off) deleted s = Ok ((find_status (find_log (matches nm g) off es deleted), find_log (matches nm g) off es deleted), s).
Proof.
  intros Hbuf es. induction es as [|e es IH]; intros [|n] pre off deleted Hs Hok Ho Hfit Hend Hn; try (simpl in Hn; lia); cbn [find_loop].
  - rewrite app_nil_l in Hs. cbn [used foldr] in *. rewrite Z.add_0_r in Hend. unfold GetEndPointer.
    destruct Hend as [->|(post' & -> & Hl)].
    + rewrite Z.ltb_irrefl. by rewrite vret_bind.
    + destruct (header_erased _ _ _ _ _ Hs Hl Ho) as (h & Eh & Hh).
      destruct (off <? STORE_MAIN_SIZE); [|by rewrite vret_bind].
      rewrite (vbind_Ok _ _ s false s); [done|]. unfold IsValidVariableHeader. rewrite (vbind_Ok _ _ _ _ _ Eh). by rewrite Hh.
  - inversion_clear Hok as [|?? He Hes]. rewrite log_cons, <- app_assoc in Hs. rewrite used_cons in *.
    pose proof (log_used_bounds _ Hes). pose proof (size_bounds _ He). pose proof sizeof_bounds.
    destruct (Z.ltb_spec off GetEndPointer) as [_|]; [|unfold GetEndPointer in *; lia].
    rewrite (vbind_Ok _ _ _ _ _ (valid_run _ _ _ _ _ _ Hs He Ho)). cbn [negb].
    rewrite (vbind_Ok _ _ _ _ _ (header_at_run _ _ _ _ _ _ Hs He Ho)), added_header, transition_header.
    rewrite (vbind_Ok _ _ s (live e && matches nm g e) s).
    2: { unfold live. destruct (added e || transition e); [|done]. by eapply find_matches_run. }
    cbn [find_log].
    assert (Hgo : forall del, (GetNextVariablePtr (Some off) ≫= (fun next => find_loop n buf g next del)) s =
      Ok ((find_status (find_log (matches nm g) (off + e_size e) es del), find_log (matches nm g) (off + e_size e) es del), s)).
    { intros del. rewrite (vbind_Ok _ _ _ _ _ (next_ptr_run _ _ _ _ _ _ Hs He Ho)).
      apply (IH n (pre ++ entry_bytes e)); [by rewrite <- !app_assoc| done| | | |simpl in Hn; lia].
      - rewrite Zlength_app, Zlength_entry by done. lia.
      - lia.
      - by rewrite <- Z.add_assoc. }
    destruct (live e && matches nm g e) eqn:Em; [|exact (Hgo deleted)].
    destruct (transition e); [exact (Hgo (Some off))|done].
Qed.

(** ** The whole store *)
Definition store_bytes (es : list entry) (tail : list Z) : list Z := log_bytes es ++ erased_bytes (STORE_MAIN_SIZE - used es) ++ tail.

Record vol (s : variables) (q : Z) (es : list entry) (tail : list Z) : Prop := {
  vol_at : at_store s q (store_bytes es tail);
  vol_free : mStoreFreeOffset s = used es;
  vol_fits : used es <= STORE_MAIN_SIZE;
  vol_ok : Forall entry_ok es;
  vol_tail : Zlength tail = STORE_SCRATCH_SIZE;
  vol_tail_bytes : Forall is_byte tail }.

Lemma scratch_bounds : STORE_SCRATCH_SIZE = sizeof_VARIABLE_HEADER + 34816.
Proof. unfold STORE_SCRATCH_SIZE, EFI_MAX_VARIABLE_NAME_SIZE, EFI_MAX_VARIABLE_DATA_SIZE. lia. Qed.

Lemma store_ended es tail : used es <= STORE_MAIN_SIZE -> Zlength tail = STORE_SCRATCH_SIZE ->
  ended (used es) (erased_bytes (STORE_MAIN_SIZE - used es) ++ tail).
Proof.
  intros Hu Ht. destruct (decide (used es = STORE_MAIN_SIZE)) as [|Hne]; [by left|]. right.
  exists (erased_bytes (STORE_MAIN_SIZE - used es - 1) ++ tail). split.
  - unfold erased_bytes. replace (Z.to_nat (STORE_MAIN_SIZE - used es)) with (S (Z.to_nat (STORE_MAIN_SIZE - used es - 1))) by lia. done.
  - rewrite Zlength_app, Zlength_erased, Ht, scratch_bounds by lia. lia.
Qed.

Lemma walk_enough es : Forall entry_ok es -> used es <= STORE_MAIN_SIZE -> (length es < walk_fuel)%nat.
Proof. intros Hok Hu. pose proof (log_used_bounds es Hok). unfold walk_fuel. lia. Qed.

Lemma FindVariable_run s q es tail buf nm g : vol s q es tail -> holds_name buf nm ->
  FindVariable buf g s = Ok ((find_status (find_log (matches nm g) 0 es None), find_log (matches nm g) 0 es None), s).
Proof.
  intros [Hs Hf Hu Hok Ht _] Hb. unfold FindVariable. eapply (find_loop_run s q buf nm g _ Hb es walk_fuel []); [exact Hs|done|done|done| |by apply walk_enough].
  by apply store_ended.
Qed.
End Rep.
End VariableRep.
