(* ===== verification/VariableNvram.v ===== *)
(** The proxy to the host ([NvramVariableDxe.c]): a program logic in which a host
    that is never ready is an accepted outcome, the descriptor and the data buffer,
    and every command against a host that reports sizes within those it was given. *)
From Stdlib Require Import ZArith Lia.
From stdpp Require Import base list numbers list_numbers option gmap.
From S2P Require Import Prelude Circular VariableDxe VariableRep.
Open Scope Z_scope.

Module VariableNvram.
Import VariableDxe VariableRep.

(** ** Overwriting a run of bytes *)
Definition overwrite (off : Z) (bs b : list Z) : list Z := take (Z.to_nat off) b ++ bs ++ drop (Z.to_nat (off + Zlength bs)) b.

Lemma mem_write_overwrite b off bs : 0 <= off -> off + Zlength bs <= Zlength b -> mem_write b off bs = Ok (overwrite off bs b).
Proof. intros H1 H2. unfold mem_write. rewrite in_bounds_true; [done|lia| |lia]. apply Zlength_nonneg. Qed.

Lemma Zlength_overwrite b off bs : 0 <= off -> off + Zlength bs <= Zlength b -> Zlength (overwrite off bs b) = Zlength b.
Proof.
  intros H1 H2. unfold overwrite. pose proof (Zlength_nonneg bs). rewrite !Zlength_app, Zlength_take, Zlength_drop by lia. lia.
Qed.

Lemma overwrite_bytes b off bs : Forall is_byte b -> Forall is_byte bs -> Forall is_byte (overwrite off bs b).
Proof. intros. unfold overwrite. apply Forall_app; split; [by apply Forall_take|]. apply Forall_app; split; [done|by apply Forall_drop]. Qed.

Lemma overwrite_same b off bs : 0 <= off -> off + Zlength bs <= Zlength b -> zslice off (Zlength bs) (overwrite off bs b) = bs.
Proof. intros H1 H2. unfold overwrite. pose proof (Zlength_nonneg bs). apply zslice_mid; [|done]. apply Zlength_take. lia. Qed.

Lemma overwrite_other b off bs o n : 0 <= off -> off + Zlength bs <= Zlength b -> 0 <= o -> 0 <= n -> o + n <= Zlength b ->
  o + n <= off \/ off + Zlength bs <= o -> zslice o n (overwrite off bs b) = zslice o n b.
Proof.
  intros H1 H2 H3 H4 H5 H6. pose proof (Zlength_nonneg bs). apply zget_ext.
  - rewrite !Zlength_zslice; [done|lia..|]. rewrite Zlength_overwrite by done. lia.
  - intros i. rewrite Zlength_zslice by (rewrite ?Zlength_overwrite by done; lia). intros Hi.
    rewrite !zget_zslice by lia. unfold overwrite. destruct H6.
    + rewrite zget_app_l by (rewrite Zlength_take by lia; lia). apply zget_take. lia.
    + rewrite zget_app_r by (rewrite ?Zlength_app, Zlength_take by lia; lia).
      rewrite zget_app_r by (rewrite Zlength_take by lia; lia). rewrite Zlength_take by lia. rewrite zget_drop by lia. f_equal. lia.
Qed.

(** ** The logic

    A device that is busy answers a command with [EFI_NOT_READY], and the driver
    issues the command again, for ever.  A device stalls if it can be busy for more
    than [patience] times in a row; this is the only way in which a computation may
    not return. *)
Fixpoint busy `{BiosDevice} (n : nat) (d : device) (v : Z) (m : gmap Z (list Z)) : Prop :=
  match n with
  | O => True
  | S n =>
    let r := WriteBiosDevice_effect d BiosConfigNvramCommand v m in
    (exists b, r.2 !! v = Some b /\ ENCODE_ERROR (field Status b) = EFI_NOT_READY) /\ busy n r.1 v r.2
  end.
Definition stalls `{BiosDevice} : Prop := exists d v m, busy patience d v m.

Definition wpv `{BiosDevice} {A} (c : V A) (s : variables) (Q : A -> variables -> Prop) : Prop :=
  match c s with Ok (a, s') => Q a s' | Fault Diverges => stalls | Fault _ => False end.

(** ** What is required of the surroundings *)
Class FirmwareLaws (FW : Firmware) : Prop := {
  printed_fits m : (length (UnicodeVSPrintAsciiFormat m) <= 127)%nat /\ Forall (fun c => 0 < c < 2 ^ 16) (UnicodeVSPrintAsciiFormat m);
  fresh_length t n : 0 <= n -> Zlength (fresh_bytes t n) = n;
  fresh_is_bytes t n : Forall is_byte (fresh_bytes t n);
  pages_below t highest n p : AllocatePages_answer t highest n = (EFI_SUCCESS, p) -> 0 < p <= highest;
  allocations_apart t t' n n' h p p' : AllocatePages_answer t h n = (EFI_SUCCESS, p) -> AllocatePages_answer t' h n' = (EFI_SUCCESS, p') -> t <> t' -> p <> p';
  pool_apart t t' n n' : AllocateRuntimePool_answer t n <> 0 -> AllocateRuntimePool_answer t' n' <> 0 -> t <> t' -> AllocateRuntimePool_answer t n <> AllocateRuntimePool_answer t' n';
  pool_pages_apart t t' n n' h p : AllocatePages_answer t h n = (EFI_SUCCESS, p) -> AllocateRuntimePool_answer t' n' <> p;
  allocation_status t h n : let st := (AllocatePages_answer t h n).1 in EFI_ERROR st = true \/ st = EFI_SUCCESS;
  convert_succeeds p : (EfiConvertPointer_answer p).1 = EFI_SUCCESS;
  convert_injective p p' : (EfiConvertPointer_answer p).2 = (EfiConvertPointer_answer p').2 -> p = p'
}.

(** The device writes bytes into the pages it was given, and reports no more than
    it was asked for: a variable's data and name fit what the descriptor offered.
    When it is not ready it leaves the request as it is. *)
Class DeviceLaws (BD : BiosDevice) : Prop := {
  device_frame d r v m q b : m !! q = Some b -> Forall is_byte b ->
    exists b', (WriteBiosDevice_effect d r v m).2 !! q = Some b' /\ Zlength b' = Zlength b /\ Forall is_byte b';
  device_honest d v m b b' : m !! v = Some b -> (WriteBiosDevice_effect d BiosConfigNvramCommand v m).2 !! v = Some b' -> field Status b' = 0 ->
    (field Command b = command_code NvramGetVariableCommand -> field VariableDataBytes b' <= field VariableDataBytes b) /\
    (field Command b = command_code NvramGetFirstVariableNameCommand \/ field Command b = command_code NvramGetNextVariableNameCommand ->
     field VariableNameBytes b' <= field VariableNameBytes b);
  device_not_ready d v m b b' : m !! v = Some b -> (WriteBiosDevice_effect d BiosConfigNvramCommand v m).2 !! v = Some b' ->
    ENCODE_ERROR (field Status b') = EFI_NOT_READY ->
    field Command b' = field Command b /\ field VariableDataBytes b' = field VariableDataBytes b /\ field VariableNameBytes b' = field VariableNameBytes b
}.

Section Nvram.
Context {B : BuildOptions} {BD : BiosDevice} {FW : Firmware} {FL : FirmwareLaws FW} {DL : DeviceLaws BD}.

Lemma wpv_bind {A C} (c : V A) (k : A -> V C) s Q : wpv c s (fun a s' => wpv (k a) s' Q) -> wpv (c ≫= k) s Q.
Proof. unfold wpv, mbind, V_bind. destruct (c s) as [[a s']|f]; [done|]. by destruct f. Qed.
Lemma wpv_run {A} (c : V A) s a s' (Q : A -> variables -> Prop) : c s = Ok (a, s') -> Q a s' -> wpv c s Q.
Proof. unfold wpv. by intros ->. Qed.
Lemma wpv_bind_run {A C} (c : V A) (k : A -> V C) s a s' Q : c s = Ok (a, s') -> wpv (k a) s' Q -> wpv (c ≫= k) s Q.
Proof. intros E H. apply wpv_bind. by eapply wpv_run. Qed.
Lemma wpv_mono {A} (c : V A) s (Q Q' : A -> variables -> Prop) : wpv c s Q -> (forall a s', Q a s' -> Q' a s') -> wpv c s Q'.
Proof. unfold wpv. destruct (c s) as [[a s']|[]]; auto. Qed.
Lemma wpv_ret {A} (a : A) s (Q : A -> variables -> Prop) : Q a s -> wpv (mret a) s Q.
Proof. done. Qed.
Lemma wpv_vget {A C} (f : variables -> A) (k : A -> V C) s Q : wpv (k (f s)) s Q -> wpv (vget f ≫= k) s Q.
Proof. done. Qed.
Lemma wpv_vmod {C} (f : variables -> variables) (k : unit -> V C) s Q : wpv (k tt) (f s) Q -> wpv (vmod f ≫= k) s Q.
Proof. done. Qed.
Lemma wpv_vlift {A C} (r : result A) a (k : A -> V C) s Q : r = Ok a -> wpv (k a) s Q -> wpv (vlift r ≫= k) s Q.
Proof. by intros ->. Qed.

(** ** The shared pages *)

(** The commands change the pages and the device only. *)
Definition frame (s s' : variables) : Prop := s' = set_bios (bios s') (set_pages (pages s') s).
Lemma frame_refl s : frame s s.
Proof. by destruct s. Qed.
Lemma frame_trans s1 s2 s3 : frame s1 s2 -> frame s2 s3 -> frame s1 s3.
Proof. unfold frame. intros H12 H23. rewrite H23, H12. by destruct s1, s2, s3. Qed.

Record shared (s : variables) (db bb : list Z) : Prop := {
  sh_desc : virtual s !! mNvramCommandDescriptor s = Some (mNvramCommandDescriptorGpa s);
  sh_buffer : virtual s !! mNvramCommandDataBuffer s = Some (mNvramCommandDataBufferGpa s);
  sh_db : pages s !! mNvramCommandDescriptorGpa s = Some db;
  sh_bb : pages s !! mNvramCommandDataBufferGpa s = Some bb;
  sh_dlen : Zlength db = 4096;
  sh_blen : Zlength bb = 36864;
  sh_dbytes : Forall is_byte db;
  sh_bbytes : Forall is_byte bb;
  sh_apart : mNvramCommandDescriptorGpa s <> mNvramCommandDataBufferGpa s;
  sh_low : 0 <= mNvramCommandDescriptorGpa s < 2 ^ 32 }.

(** The proxy is switched off, or has its pages. *)
Definition nvram_ok (s : variables) : Prop :=
  mNvramNotAllowed s = true \/ (mNvramNotAllowed s = false /\ exists db bb, shared s db bb).

(** A state reached from [s0] by commands, with the contents of the pages. *)
Definition on (s0 s : variables) (db bb : list Z) : Prop := frame s0 s /\ mNvramNotAllowed s = false /\ shared s db bb.

Lemma on_ok s0 s db bb : on s0 s db bb -> frame s0 s /\ nvram_ok s.
Proof. intros (Hf & Hn & Hs). split; [done|]. right. eauto. Qed.

Lemma page_write_desc s0 s db bb off bs Q : on s0 s db bb -> 0 <= off -> off + Zlength bs <= 4096 -> Forall is_byte bs ->
  (forall s', on s0 s' (overwrite off bs db) bb -> Q tt s') ->
  wpv (p ← vget mNvramCommandDescriptor; page_write p off bs) s Q.
Proof.
  intros (Hf & Hn & [Hd Hb Hdb Hbb Hdl Hbl Hdy Hby Hne Hlow]) Ho Hl Hbs HQ.
  eapply (wpv_run _ s tt (set_pages (<[mNvramCommandDescriptorGpa s := overwrite off bs db]> (pages s)) s)).
  { unfold page_write, physical, object, vget, vlift, vmod, mbind, V_bind. rewrite Hd, Hdb. cbn. by rewrite mem_write_overwrite by lia. }
  apply HQ. split; [|split; [done|]].
  - eapply frame_trans; [done|]. by destruct s.
  - split; try done; cbn.
    + apply lookup_insert_eq.
    + by rewrite lookup_insert_ne.
    + rewrite Zlength_overwrite by lia. done.
    + by apply overwrite_bytes.
Qed.

Lemma wp_desc_set s0 s db bb f v Q : on s0 s db bb -> 0 <= f.1 -> f.1 + Z.of_nat f.2 <= 4096 ->
  (forall s', on s0 s' (overwrite f.1 (le_split f.2 v) db) bb -> Q tt s') -> wpv (desc_set f v) s Q.
Proof. intros Hon H0 H1 HQ. eapply page_write_desc; [done|done|by rewrite Zlength_le_split|apply le_split_bytes|done]. Qed.

Lemma wp_set_guid s0 s db bb g Q : on s0 s db bb -> length g = 16%nat -> Forall is_byte g ->
  (forall s', on s0 s' (overwrite VariableVendorGuid g db) bb -> Q tt s') -> wpv (desc_set_guid g) s Q.
Proof. intros Hon Hg Hb HQ. eapply page_write_desc; [done|done| |done|done]. unfold Zlength, VariableVendorGuid. lia. Qed.

Lemma wp_zero_descriptor s0 s db bb Q : on s0 s db bb ->
  (forall s', on s0 s' (overwrite 0 (replicate 56 0) db) bb -> Q tt s') -> wpv zero_descriptor s Q.
Proof. intros Hon HQ. eapply page_write_desc; [done|done|done| |done]. apply Forall_replicate. unfold is_byte. lia. Qed.

Lemma desc_read_run s0 s db bb off n : on s0 s db bb -> 0 <= off -> 0 <= n -> off + n <= 4096 ->
  (p ← vget mNvramCommandDescriptor; page_read p off n) s = Ok (zslice off n db, s).
Proof.
  intros (Hf & Hn & [Hd Hb Hdb Hbb Hdl Hbl Hdy Hby Hne Hlow]) Ho Hn0 Hl.
  unfold page_read, physical, object, vget, vlift, mbind, V_bind. rewrite Hd, Hdb. cbn. by rewrite read_run by lia.
Qed.

Lemma desc_get_run s0 s db bb f : on s0 s db bb -> 0 <= f.1 -> f.1 + Z.of_nat f.2 <= 4096 -> desc_get f s = Ok (field f db, s).
Proof.
  intros Hon H0 H1. pose proof (desc_read_run _ _ _ _ f.1 (Z.of_nat f.2) Hon H0 ltac:(lia) H1) as E.
  rewrite vget_bind in E. unfold desc_get. rewrite vget_bind. by rewrite (vbind_Ok _ _ _ _ _ E).
Qed.

Lemma wp_buffer_set s0 s db bb off bs Q : on s0 s db bb -> 0 <= off -> off + Zlength bs <= 36864 -> Forall is_byte bs ->
  (forall s', on s0 s' db (overwrite off bs bb) -> Q tt s') -> wpv (buffer_set off bs) s Q.
Proof.
  intros (Hf & Hn & [Hd Hb Hdb Hbb Hdl Hbl Hdy Hby Hne Hlow]) Ho Hl Hbs HQ.
  eapply (wpv_run _ s tt (set_pages (<[mNvramCommandDataBufferGpa s := overwrite off bs bb]> (pages s)) s)).
  { unfold buffer_set, page_write, physical, object, vget, vlift, vmod, mbind, V_bind. rewrite Hb, Hbb. cbn. by rewrite mem_write_overwrite by lia. }
  apply HQ. split; [|split; [done|]].
  - eapply frame_trans; [done|]. by destruct s.
  - split; try done; cbn.
    + by rewrite lookup_insert_ne.
    + apply lookup_insert_eq.
    + rewrite Zlength_overwrite by lia. done.
    + by apply overwrite_bytes.
Qed.

Lemma buffer_get_run s0 s db bb off n : on s0 s db bb -> 0 <= off -> 0 <= n -> off + n <= 36864 -> buffer_get off n s = Ok (zslice off n bb, s).
Proof.
  intros (Hf & Hn & [Hd Hb Hdb Hbb Hdl Hbl Hdy Hby Hne Hlow]) Ho Hn0 Hl.
  unfold buffer_get, page_read, physical, object, vget, vlift, mbind, V_bind. rewrite Hb, Hbb. cbn. by rewrite read_run by lia.
Qed.

(** ** Fields *)
Lemma field_bound f db : Forall is_byte db -> 0 <= f.1 -> f.1 + Z.of_nat f.2 <= Zlength db -> 0 <= field f db < 256 ^ Z.of_nat f.2.
Proof.
  intros Hb H0 H1. unfold field. pose proof (le_combine_bound (zslice f.1 (Z.of_nat f.2) db)) as H.
  rewrite Zlength_zslice in H by lia. apply H. unfold zslice. by apply Forall_take, Forall_drop.
Qed.

Lemma field_same f v db : 0 <= f.1 -> f.1 + Z.of_nat f.2 <= Zlength db -> 0 <= v < 256 ^ Z.of_nat f.2 ->
  field f (overwrite f.1 (le_split f.2 v) db) = v.
Proof.
  intros H0 H1 Hv. unfold field. replace (Z.of_nat f.2) with (Zlength (le_split f.2 v)) by apply Zlength_le_split.
  rewrite overwrite_same by (rewrite ?Zlength_le_split; lia). by apply le_combine_split_small.
Qed.

Lemma field_other f off bs db : 0 <= off -> off + Zlength bs <= Zlength db -> 0 <= f.1 -> f.1 + Z.of_nat f.2 <= Zlength db ->
  f.1 + Z.of_nat f.2 <= off \/ off + Zlength bs <= f.1 -> field f (overwrite off bs db) = field f db.
Proof. intros. unfold field. by rewrite overwrite_other by lia. Qed.

(** ** Issuing a command *)
Definition answered (db : list Z) (st : EFI_STATUS) (db' : list Z) : Prop :=
  st = EFI_SUCCESS ->
  (field Command db = command_code NvramGetVariableCommand -> field VariableDataBytes db' <= field VariableDataBytes db) /\
  (field Command db = command_code NvramGetFirstVariableNameCommand \/ field Command db = command_code NvramGetNextVariableNameCommand ->
   field VariableNameBytes db' <= field VariableNameBytes db).

Lemma write_device_run s0 s db bb (Q : unit -> variables -> Prop) : on s0 s db bb ->
  (forall s' db' bb', on s0 s' db' bb' ->
     let r := WriteBiosDevice_effect (bios s) BiosConfigNvramCommand (mNvramCommandDescriptorGpa s) (pages s) in
     r.2 !! mNvramCommandDescriptorGpa s = Some db' -> bios s' = r.1 -> pages s' = r.2 -> mNvramCommandDescriptorGpa s' = mNvramCommandDescriptorGpa s -> Q tt s') ->
  wpv (WriteBiosDevice BiosConfigNvramCommand (u32 (mNvramCommandDescriptorGpa s))) s Q.
Proof.
  intros (Hf & Hn & [Hd Hb Hdb Hbb Hdl Hbl Hdy Hby Hne Hlow]) HQ. unfold wpv, WriteBiosDevice.
  rewrite u32_small by lia.
  destruct (device_frame (bios s) BiosConfigNvramCommand (mNvramCommandDescriptorGpa s) _ _ _ Hdb Hdy) as (db' & Edb & Hdl' & Hdy').
  destruct (device_frame (bios s) BiosConfigNvramCommand (mNvramCommandDescriptorGpa s) _ _ _ Hbb Hby) as (bb' & Ebb & Hbl' & Hby').
  destruct (WriteBiosDevice_effect _ _ _ _) as [d m] eqn:Ew. cbn [snd] in *.
  apply (HQ _ db' bb'); [|done..]. split; [|split; [done|]].
  - eapply frame_trans; [done|]. by destruct s.
  - split; try done; cbn; congruence.
Qed.

Lemma wp_issue_loop n : forall s0 s db bb Q, on s0 s db bb -> (busy n (bios s) (mNvramCommandDescriptorGpa s) (pages s) -> stalls) ->
  (forall st s' db' bb', on s0 s' db' bb' -> answered db st db' -> Q st s') -> wpv (issue_loop n) s Q.
Proof.
  induction n as [|n IH]; intros s0 s db bb Q Hon Hst HQ; [by apply Hst|]. cbn [issue_loop]. apply wpv_vget, wpv_bind.
  eapply write_device_run; [done|]. intros s' db' bb' Hon' r Ew Eb Ep Eg. pose proof Hon as (_ & _ & Hsh).
  eapply wpv_bind_run; [by eapply desc_get_run|].
  pose proof (device_honest _ _ _ _ _ (sh_db _ _ _ Hsh) Ew) as Hh.
  pose proof (device_not_ready _ _ _ _ _ (sh_db _ _ _ Hsh) Ew) as Hr.
  destruct (Z.eqb_spec (field Status db') 0) as [E0|E0]; [apply wpv_ret; eapply HQ; [done|]; intros _; by apply Hh|].
  destruct (bool_decide (ENCODE_ERROR (field Status db') = EFI_NOT_READY)) eqn:Er.
  - apply bool_decide_eq_true in Er. destruct (Hr Er) as (Hc & Hdb & Hnb). eapply IH; [done| |].
    { rewrite Eb, Ep, Eg. intros Hb. apply Hst. split; [by exists db'|done]. }
    intros st s2 db2 bb2 Hon2 Ha.
    eapply HQ; [done|]. unfold answered in *. rewrite <- Hc, <- Hdb, <- Hnb. done.
  - apply wpv_ret. eapply HQ; [done|]. intros E. unfold ENCODE_ERROR in E.
    repeat match type of E with match ?x with _ => _ end = _ => destruct x end; done.
Qed.

Lemma wp_issue s0 s db bb Q : on s0 s db bb ->
  (forall st s' db' bb', on s0 s' db' bb' -> answered db st db' -> Q st s') -> wpv IssueBiosDeviceNvramCommand s Q.
Proof.
  intros Hon HQ. unfold IssueBiosDeviceNvramCommand. apply wpv_vget. destruct Hon as (Hf & Hn & Hs). rewrite Hn.
  eapply wp_issue_loop; [done| |done]. intros Hb. by eexists _, _, _.
Qed.

Lemma on_len s0 s db bb : on s0 s db bb -> Zlength db = 4096.
Proof. by intros (_ & _ & Hs); apply Hs. Qed.

Ltac fside := rewrite ?Zlength_le_split;
  cbv [Command Status VariableAttributes VariableNameAddress VariableNameBytes VariableVendorGuid VariableDataAddress VariableDataBytes
       QueryInfo_Attributes QueryInfo_MaximumVariableStorage QueryInfo_RemainingVariableStorage QueryInfo_MaximumVariableSize
       SignalRuntimeCommand fst snd] in *; try lia.
(** One step of filling in the descriptor; keeps the length of the page. *)
Ltac dnext := let s' := fresh "s" in let Hon := fresh "Hon" in intros s' Hon; pose proof (on_len _ _ _ _ Hon).
Ltac dstep :=
  match goal with
  | |- wpv (mbind _ (desc_set _ _)) _ _ => apply wpv_bind; eapply wp_desc_set; [eassumption|fside|fside|dnext]
  | |- wpv (mbind _ (desc_set_guid _)) _ _ => apply wpv_bind; eapply wp_set_guid; [eassumption|assumption|assumption|dnext]
  | |- wpv (mbind _ zero_descriptor) _ _ => apply wpv_bind; eapply wp_zero_descriptor; [eassumption|dnext]
  | |- wpv (mbind _ (vget _)) _ _ => apply wpv_vget
  | |- wpv (mbind _ (buffer_set _ _)) _ _ => apply wpv_bind; eapply wp_buffer_set; [eassumption|lia| |assumption|dnext]
  | |- wpv (mbind _ (desc_get _)) _ _ => eapply wpv_bind_run; [eapply desc_get_run; [eassumption|fside|fside]|]
  end.

Lemma wp_start c s0 s db bb Q : on s0 s db bb ->
  (forall s' db', on s0 s' db' bb -> field Command db' = command_code c -> Q tt s') -> wpv (start_command c) s Q.
Proof.
  intros Hon HQ. unfold start_command. do 2 dstep. eapply wp_desc_set; [eassumption|fside|fside|]. dnext.
  eapply HQ; [done|]. rewrite field_same; [done|fside|fside|]. destruct c; cbn; lia.
Qed.

(** The part of the state other than pages and device, as a client sees it. *)
Definition safe_command {A} (c : V A) (P : A -> Prop) : Prop :=
  forall s, nvram_ok s -> wpv c s (fun a s' => frame s s' /\ nvram_ok s' /\ P a).

Lemma safe_off {A} (a : A) s (P : A -> Prop) : nvram_ok s -> P a -> wpv (mret a) s (fun a s' => frame s s' /\ nvram_ok s' /\ P a).
Proof. intros Hn HP. apply wpv_ret. split; [apply frame_refl|done]. Qed.

(** A command starts by asking whether the proxy is switched off. *)
Lemma safe_enabled {A} (a : A) (c : V A) (P : A -> Prop) : P a ->
  (forall s0 db bb, on s0 s0 db bb -> wpv c s0 (fun a s' => frame s0 s' /\ nvram_ok s' /\ P a)) ->
  safe_command (off ← vget mNvramNotAllowed; if (off : bool) then mret a else c) P.
Proof.
  intros HP Hc s Hn. apply wpv_vget. destruct Hn as [E|(E & db & bb & Hsh)]; rewrite E.
  - apply safe_off; [by left|done].
  - apply (Hc s db bb). split; [apply frame_refl|done].
Qed.

Lemma on_done s0 s db bb (R : Prop) : on s0 s db bb -> R -> frame s0 s /\ nvram_ok s /\ R.
Proof. intros Hon HP. destruct (on_ok _ _ _ _ Hon). done. Qed.

Ltac dret := apply wpv_ret; cbn beta; eapply on_done; [eassumption|try done].

Lemma NvramQueryInfo_safe Attributes : safe_command (NvramQueryInfo Attributes) (fun _ => True).
Proof.
  apply safe_enabled; [done|]. intros s0 db bb Hon.
  apply wpv_bind. eapply wp_start; [done|]. intros s1 db1 Hon1 _. dstep. apply wpv_bind. eapply wp_issue; [done|]. intros st s2 db2 bb2 Hon2 _.
  destruct (bool_decide (st = EFI_SUCCESS)); [|dret].
  repeat dstep. dret.
Qed.

Lemma NvramExitBootServicesHandler_safe VsmAware : safe_command (NvramExitBootServicesHandler VsmAware) (fun _ => True).
Proof.
  apply safe_enabled; [done|]. intros s0 db bb Hon. do 3 dstep. apply wpv_bind. eapply wp_issue; [done|]. intros st s' db' bb' Hon' _. dret.
Qed.

(** The arguments of a caller: a string in a buffer, a GUID, [n] bytes of data. *)
Definition is_guid (g : list Z) : Prop := length g = 16%nat /\ Forall is_byte g.
Definition has_data (Data : option (list Z)) (n : Z) : Prop :=
  0 <= n < 2 ^ 64 /\ match Data with Some b => n <= Zlength b /\ Forall is_byte b | None => n = 0 end.

Lemma caller_read_run Data n off k : has_data Data n -> 0 <= off -> 0 <= k -> off + k <= n ->
  exists bs, caller_read Data off k = Ok bs /\ Zlength bs = k /\ Forall is_byte bs /\ (k = 0 -> bs = []) /\
    (forall b, Data = Some b -> bs = zslice off k b).
Proof.
  intros [Hn Hd] Ho Hk Hl. unfold caller_read. destruct (Z.eqb_spec k 0) as [->|Hk0].
  - exists []. split_and!; try done.
  - destruct Data as [b|]; [|lia]. destruct Hd as [Hb1 Hb2]. exists (zslice off k b). rewrite read_run by lia.
    rewrite Zlength_zslice by lia. split_and!; try done; try lia; [|by intros ? [= ->]]. unfold zslice. by apply Forall_take, Forall_drop.
Qed.

Lemma caller_write_run Data n bs : has_data Data n -> Zlength bs <= n ->
  exists Data', caller_write Data bs = Ok Data' /\
    (forall b, Data = Some b -> Data' = Some (overwrite 0 bs b)) /\ (Data = None -> Data' = None).
Proof.
  intros [Hn Hd] Hl. unfold caller_write. destruct (Z.eqb_spec (Zlength bs) 0) as [E|E].
  - exists Data. split; [done|]. split; [|done]. intros b ->. destruct bs; [|unfold Zlength in E; simpl in E; lia]. done.
  - destruct Data as [b|].
    + rewrite mem_write_overwrite by lia. cbn. eexists; split; [done|]. split; [|done]. by intros ? [= ->].
    + pose proof (Zlength_nonneg bs). lia.
Qed.

Lemma holds_size buf nm : holds_name buf nm -> StrSize buf = Ok (Zlength nm) /\ mem_read buf 0 (Zlength nm) = Ok nm /\ 2 <= Zlength nm < 2 ^ 32 /\ Forall is_byte nm.
Proof.
  intros ((Hn & Hb) & Hl & rest & ->). split_and!; [by apply StrSize_app|by apply (mem_read_mid [] nm rest)|by apply name_even|done|done].
Qed.

Lemma NvramSetVariable_safe buf nm g Attributes DataSize Data : holds_name buf nm -> is_guid g -> has_data Data DataSize ->
  Zlength nm <= EFI_MAX_VARIABLE_NAME_SIZE -> DataSize < 2 ^ 32 ->
  safe_command (NvramSetVariable buf g Attributes DataSize Data) (fun _ => True).
Proof.
  intros Hname [Hg Hgb] Hdata Hmax Hsmall. destruct (holds_size _ _ Hname) as (Hsz & Hrd & Hlen & Hnb).
  unfold EFI_MAX_VARIABLE_NAME_SIZE in *. pose proof Hdata as [Hd0 _].
  apply safe_enabled; [done|]. intros s0 db bb Hon. apply wpv_bind. eapply wp_start; [done|]. intros s1 db1 Hon1 _. dstep.
  eapply wpv_vlift; [exact Hsz|].
  eapply wpv_vlift; [apply ASSERT_holds, Z.leb_le; unfold MAX_UINT32; lia|].
  destruct (Z.ltb_spec MAX_UINT32 (Zlength nm)); [dret|].
  eapply wpv_vlift; [apply ASSERT_holds, Z.leb_le; unfold MAX_UINT32; lia|].
  destruct (Z.ltb_spec MAX_UINT32 DataSize); [dret|].
  unfold EFI_MAX_VARIABLE_NAME_SIZE, EFI_MAX_VARIABLE_DATA_SIZE. unfold u64 at 1. rewrite Z.mod_small by lia.
  destruct (Z.ltb_spec (2 * 1024 + 32 * 1024) (Zlength nm + DataSize)); [dret|].
  eapply wpv_vlift; [exact Hrd|]. dstep; [lia|]. do 4 dstep.
  destruct (caller_read_run Data DataSize 0 DataSize Hdata) as (bs & Ebs & Hbl & Hbb & _); [lia..|].
  eapply wpv_vlift; [exact Ebs|]. dstep; [lia|]. do 2 dstep.
  eapply wp_issue; [done|]. intros st s' db' bb' Hon' _. by eapply on_done.
Qed.

(** What [GetVariable] leaves to the caller fits the caller's buffer. *)
Definition get_fits (DataSize : Z) (Data : option (list Z)) (r : get_result) : Prop :=
  (gr_status r = EFI_SUCCESS -> 0 <= gr_DataSize r <= DataSize) /\
  match gr_Data r, Data with Some b', Some b => Zlength b' = Zlength b | None, None => True | _, _ => False end.

Lemma get_kept st a n Data DataSize : st <> EFI_SUCCESS -> get_fits DataSize Data (mkGet st a n Data).
Proof. intros H. split; [done|]. by destruct Data. Qed.

Lemma u32_bounds z : 0 <= z -> 0 <= u32 z <= z.
Proof. intros H. unfold u32. pose proof (Z.mod_pos_bound z (2 ^ 32)). pose proof (Z.mod_le z (2 ^ 32)). lia. Qed.

Lemma NvramGetVariable_safe buf nm g wants DataSize Data : holds_name buf nm -> is_guid g -> has_data Data DataSize ->
  safe_command (NvramGetVariable buf g wants DataSize Data) (get_fits DataSize Data).
Proof.
  intros Hname [Hg Hgb] Hdata. destruct (holds_size _ _ Hname) as (Hsz & Hrd & Hlen & Hnb). pose proof Hdata as [Hd0 HD].
  unfold NvramGetVariable. intros s Hs. eapply wpv_vlift.
  { apply ASSERT_holds. destruct Data; [done|]. rewrite HD. by rewrite orb_true_r. }
  revert s Hs. apply safe_enabled; [by apply get_kept|]. intros s0 db bb Hon. apply wpv_bind. eapply wp_start; [done|]. intros s1 db1 Hon1 Hcmd.
  eapply wpv_vlift; [exact Hsz|].
  eapply wpv_vlift; [apply ASSERT_holds, Z.leb_le; unfold MAX_UINT32; lia|].
  unfold EFI_MAX_VARIABLE_NAME_SIZE, EFI_MAX_VARIABLE_DATA_SIZE in *.
  destruct (Z.ltb_spec (2 * 1024) (Zlength nm)); [dret; by apply get_kept|].
  set (dataSize := if 32 * 1024 <? u32 DataSize then 32 * 1024 else u32 DataSize).
  assert (Hds : 0 <= dataSize <= DataSize /\ dataSize <= 32768).
  { subst dataSize. pose proof (u32_bounds DataSize). destruct (Z.ltb_spec (32 * 1024) (u32 DataSize)); lia. }
  pose proof (on_len _ _ _ _ Hon1) as Hl1.
  eapply wpv_vlift; [exact Hrd|]. dstep; [lia|]. do 6 dstep.
  apply wpv_bind. eapply wp_issue; [done|]. intros st s' db' bb' Hon' Hans.
  assert (Hsize : st = EFI_SUCCESS -> 0 <= field VariableDataBytes db' <= dataSize).
  { intros ->. assert (Hg' : Zlength g = 16) by (unfold Zlength; lia). split.
    - apply field_bound; [apply Hon'|fside|]. rewrite (on_len _ _ _ _ Hon'). fside.
    - destruct (Hans eq_refl) as [Hget _]. rewrite field_same in Hget by fside. apply Hget.
      do 5 (rewrite field_other by fside). done. }
  destruct st; try (dret; by apply get_kept).
  - apply wpv_bind. eapply (wpv_mono _ _ (fun _ s2 => s2 = s')).
    { destruct wants; [|done]. dstep. done. }
    intros attributes ? ->. dstep. specialize (Hsize eq_refl).
    eapply wpv_bind_run; [eapply buffer_get_run; [done|lia..]|].
    destruct (caller_write_run Data DataSize (zslice (Zlength nm) (field VariableDataBytes db') bb') Hdata) as (Data' & E & HS & HN).
    { pose proof Hon' as (_ & _ & Hsh). rewrite Zlength_zslice by (rewrite ?(sh_blen _ _ _ Hsh); lia). lia. }
    eapply wpv_vlift; [exact E|]. dret. split; [cbn; lia|]. cbn. destruct Data as [b|]; [|by rewrite HN].
    rewrite (HS b eq_refl). pose proof Hon' as (_ & _ & Hsh). apply Zlength_overwrite; [lia|].
    rewrite Zlength_zslice by (rewrite ?(sh_blen _ _ _ Hsh); lia). lia.
  - dstep. destruct (field VariableDataBytes db' <=? DataSize); dret; by apply get_kept.
Qed.

(** The same for the enumeration. *)
Definition next_fits (size : Z) (name : list Z) (r : next_result) : Prop :=
  (nr_status r = EFI_SUCCESS -> 0 <= nr_size r <= size) /\ Zlength (nr_name r) = Zlength name.

Lemma next_kept st n name g size : st <> EFI_SUCCESS -> next_fits size name (mkNext st n name g).
Proof. by split. Qed.

Lemma name_answer_safe s0 s db bb size name g : on s0 s db bb ->
  field Command db = command_code NvramGetFirstVariableNameCommand \/ field Command db = command_code NvramGetNextVariableNameCommand ->
  0 <= size <= EFI_MAX_VARIABLE_NAME_SIZE -> size <= Zlength name -> is_guid g ->
  wpv (name_answer size name g) s (fun r s' => frame s0 s' /\ nvram_ok s' /\ next_fits size name r).
Proof.
  intros Hon Hcmd Hsize Hname [Hg Hgb]. unfold name_answer, EFI_MAX_VARIABLE_NAME_SIZE in *. pose proof (on_len _ _ _ _ Hon) as Hl.
  rewrite u32_small by lia. do 4 dstep. apply wpv_bind. eapply wp_issue; [done|]. intros st s' db' bb' Hon' Hans.
  assert (Hb : st = EFI_SUCCESS -> 0 <= field VariableNameBytes db' <= size).
  { intros ->. assert (Hg' : Zlength g = 16) by (unfold Zlength; lia). split.
    - apply field_bound; [apply Hon'|fside|]. rewrite (on_len _ _ _ _ Hon'). fside.
    - destruct (Hans eq_refl) as [_ Hget]. rewrite (field_other VariableNameBytes), field_same in Hget by fside. apply Hget.
      do 3 (rewrite field_other by fside). done. }
  destruct st; try (dret; by apply next_kept).
  - specialize (Hb eq_refl). eapply wpv_bind_run; [eapply desc_read_run; [done|fside|fside|fside]|]. dstep.
    eapply wpv_bind_run; [eapply buffer_get_run; [done|lia..]|]. pose proof Hon' as (_ & _ & Hsh).
    assert (Hz : Zlength (zslice 0 (field VariableNameBytes db') bb') = field VariableNameBytes db') by (apply Zlength_zslice; rewrite ?(sh_blen _ _ _ Hsh); lia).
    eapply wpv_vlift; [apply mem_write_overwrite; [lia|]; rewrite Hz; lia|]. dret. split; [cbn; lia|]. apply Zlength_overwrite; [lia|]. rewrite Hz. lia.
  - dstep. dret.
Qed.

Lemma NvramGetFirstVariableName_safe size name g : 0 <= size <= Zlength name -> is_guid g ->
  safe_command (NvramGetFirstVariableName size name g) (next_fits size name).
Proof.
  intros Hs Hg. apply safe_enabled; [by apply next_kept|]. intros s0 db bb Hon. apply wpv_bind. eapply wp_start; [done|]. intros s1 db1 Hon1 Hcmd.
  destruct (Z.ltb_spec MAX_UINT32 size); [dret; by apply next_kept|].
  destruct (Z.ltb_spec EFI_MAX_VARIABLE_NAME_SIZE size); [dret; by apply next_kept|].
  eapply name_answer_safe; eauto; lia.
Qed.

Lemma NvramGetNextVariableName_safe size name g : 0 <= size <= Zlength name -> Forall is_byte name -> is_guid g ->
  safe_command (NvramGetNextVariableName size name g) (next_fits size name).
Proof.
  intros Hs Hb Hg. apply safe_enabled; [by apply next_kept|]. intros s0 db bb Hon. apply wpv_bind. eapply wp_start; [done|]. intros s1 db1 Hon1 Hcmd.
  destruct (Z.ltb_spec MAX_UINT32 size); [dret; by apply next_kept|].
  destruct (Z.ltb_spec EFI_MAX_VARIABLE_NAME_SIZE size); [dret; by apply next_kept|].
  eapply wpv_vlift; [apply read_run; lia|]. unfold EFI_MAX_VARIABLE_NAME_SIZE in *.
  assert (Forall is_byte (zslice 0 size name)) by (unfold zslice; by apply Forall_take, Forall_drop).
  dstep; [rewrite Zlength_zslice by lia; lia|]. eapply name_answer_safe; eauto; try lia. unfold EFI_MAX_VARIABLE_NAME_SIZE. lia.
Qed.

Lemma wide_cons c cs : wide (c :: cs) = c mod 256 :: c / 256 mod 256 :: wide cs.
Proof. done. Qed.

Lemma wide_size cs : Forall (fun c => 0 < c < 2 ^ 16) cs ->
  StrSize (wide cs) = Ok (Zlength (wide cs)) /\ Zlength (wide cs) = 2 * Z.of_nat (length cs) + 2 /\ Forall is_byte (wide cs).
Proof.
  induction 1 as [|c cs Hc Hcs (IH1 & IH2 & IH3)].
  - split_and!; [done|done|]. (constructor; [unfold is_byte; zlia|]); (constructor; [unfold is_byte; zlia|constructor]).
  - rewrite wide_cons, StrSize_cons.
    replace ((c mod 256 =? 0) && (c / 256 mod 256 =? 0)) with false by (symmetry; apply andb_false_iff; rewrite !Z.eqb_neq; zlia).
    rewrite IH1, bind_Ok.
    assert (E : Zlength (c mod 256 :: c / 256 mod 256 :: wide cs) = Zlength (wide cs) + 2) by (unfold Zlength; cbn [length]; lia).
    rewrite E, IH2. cbn [length]. split_and!; [done|lia|]. constructor; [unfold is_byte; zlia|]. constructor; [unfold is_byte; zlia|done].
Qed.

Lemma NvramDebugLog_safe message : safe_command (NvramDebugLog message) (fun _ => True).
Proof.
  unfold NvramDebugLog. intros s Hs. eapply wpv_vlift; [by apply ASSERT_holds|]. revert s Hs. apply safe_enabled; [done|]. intros s0 db bb Hon.
  destruct (printed_fits message) as [Hl Hc]. destruct (wide_size _ Hc) as (H1 & H2 & H3).
  eapply wpv_vlift; [exact H1|].
  eapply (wpv_vlift _ (wide (UnicodeVSPrintAsciiFormat message))); [by rewrite <- (app_nil_r (wide _)) at 1; apply (mem_read_mid [])|].
  dstep; [lia|]. do 5 dstep. apply wpv_bind. eapply wp_issue; [done|]. intros st s' db' bb' Hon' _. dret.
Qed.

Lemma debug_log_safe message : safe_command (debug_log message) (fun _ => True).
Proof.
  unfold debug_log. destruct mdepkg_ndebug; [|apply NvramDebugLog_safe]. intros s Hs. by apply safe_off.
Qed.
End Nvram.
End VariableNvram.
