(* ===== verification/VariableReclaim.v ===== *)
(** [Reclaim] on the log: when it is benign it removes exactly the deleted
    entries and erases the space behind the others. *)
From Stdlib Require Import ZArith Lia.
From stdpp Require Import base list numbers list_numbers option gmap.
From S2P Require Import Prelude Circular VariableDxe VariableRep VariableNvram.
Open Scope Z_scope.

Module VariableReclaim.
Import VariableDxe VariableRep VariableNvram.

Section Reclaim.
Context {B : BuildOptions} {BD : BiosDevice} {FW : Firmware} {VF : VariableFormat} {LW : VariableFormatLaws VF}
  {FL : FirmwareLaws FW} {DL : DeviceLaws BD}.

(** The entries that stay. *)
Definition survivors (es : list entry) : list entry := List.filter live es.

(** Each deleted entry, when its turn comes, is no larger than the erased space
    at the end of the store, and that space is not empty. *)
Fixpoint compacts (free : Z) (es : list entry) : bool :=
  match es with
  | [] => 0 <? free
  | e :: es => if live e then compacts free es else (e_size e <=? free) && compacts (free + e_size e) es
  end.

Lemma erased_app n m : 0 <= n -> 0 <= m -> erased_bytes (n + m) = erased_bytes n ++ erased_bytes m.
Proof. intros. unfold erased_bytes. by rewrite Z2Nat.inj_add, replicate_add by lia. Qed.

Lemma set_free_put q b f s : set_free_offset f (put_store q b s) = put_store q b (set_free_offset f s).
Proof. done. Qed.
Lemma at_set_free s q b f : at_store s q b -> at_store (set_free_offset f s) q b.
Proof. done. Qed.

(** One entry is removed: what follows moves down, the end is erased. *)
Lemma shift_down {A} (k : V A) s q off (kept es tail : list Z) x n free : at_store s q (kept ++ (x ++ es ++ erased_bytes free) ++ tail) ->
  Zlength kept = off -> n = Zlength x -> 0 <= n <= free -> off + n + Zlength es + free = STORE_MAIN_SIZE -> mStoreFreeOffset s = STORE_MAIN_SIZE - free ->
  (bs ← store_read (off + n) (u64 (GetEndPointer - (off + n)));
   _ ← store_write off bs;
   f ← vget mStoreFreeOffset;
   _ ← store_write (GetStartPointer + f) (replicate (Z.to_nat (u64 (STORE_MAIN_SIZE - f))) 255);
   k) s =
  k (put_store q (kept ++ (es ++ erased_bytes (free + n)) ++ tail) s).
Proof.
  intros Hs <- Hn Hfree Hsum HF. pose proof (Zlength_nonneg kept). pose proof (Zlength_nonneg es).
  assert (HM : STORE_MAIN_SIZE = 131072) by done. unfold GetEndPointer, GetStartPointer.
  assert (Hu : forall z, 0 <= z <= 131072 -> u64 z = z) by (intros; apply Z.mod_small; lia).
  rewrite Hu by lia.
  rewrite (vbind_Ok _ _ s (es ++ erased_bytes free) s).
  2: { eapply store_read_run; [exact Hs|]. rewrite <- !app_assoc, (app_assoc kept x), (app_assoc es).
       apply mem_read_mid; rewrite Zlength_app, ?Zlength_erased by lia; lia. }
  rewrite (vbind_Ok _ _ s tt (put_store q (kept ++ (es ++ erased_bytes (free + n)) ++ tail) s)).
  2: { eapply store_write_run; [exact Hs|].
       replace (kept ++ (x ++ es ++ erased_bytes free) ++ tail) with (kept ++ (x ++ es ++ erased_bytes (free - n)) ++ (erased_bytes n ++ tail)).
       2: { replace (erased_bytes free) with (erased_bytes (free - n) ++ erased_bytes n) by (rewrite <- erased_app by lia; f_equal; lia). by rewrite <- !app_assoc. }
       rewrite mem_write_mid; [|done|]. 2: { rewrite !Zlength_app, !Zlength_erased by lia. lia. }
       by rewrite erased_app, <- !app_assoc by lia. }
  rewrite vget_bind. change (mStoreFreeOffset (put_store q (kept ++ (es ++ erased_bytes (free + n)) ++ tail) s)) with (mStoreFreeOffset s). rewrite HF.
  rewrite Hu by lia. change (replicate (Z.to_nat ?z) 255) with (erased_bytes z). replace (STORE_MAIN_SIZE - (STORE_MAIN_SIZE - free)) with free by lia.
  rewrite (vbind_Ok _ _ _ tt (put_store q (kept ++ (es ++ erased_bytes (free + n)) ++ tail) s)); [done|].
  rewrite (store_write_run _ q (kept ++ (es ++ erased_bytes (free + n)) ++ tail) _ _ (kept ++ (es ++ erased_bytes (free + n)) ++ tail));
    [by rewrite put_put|by eapply at_put|].
  rewrite (Z.add_comm free n), erased_app by lia.
  replace (kept ++ (es ++ erased_bytes n ++ erased_bytes free) ++ tail) with ((kept ++ es ++ erased_bytes n) ++ erased_bytes free ++ tail) by by rewrite <- !app_assoc.
  apply mem_write_mid; [|done]. rewrite !Zlength_app, !Zlength_erased by lia. lia.
Qed.

Lemma reclaim_loop_run q tail : Zlength tail = STORE_SCRATCH_SIZE -> forall es n kept free s,
  at_store s q (log_bytes kept ++ log_bytes es ++ erased_bytes free ++ tail) -> Forall entry_ok kept -> Forall entry_ok es ->
  mStoreFreeOffset s = used kept + used es -> 0 <= free -> used kept + used es + free = STORE_MAIN_SIZE -> compacts free es = true -> (length es < n)%nat ->
  reclaim_loop n (used kept) s =
    Ok (tt, set_free_offset (used (kept ++ survivors es)) (put_store q (store_bytes (kept ++ survivors es) tail) s)).
Proof.
  intros Ht es. induction es as [|e es IH]; intros [|n] kept free s Hs Hk Hes HF Hfree Hsum Hc Hn; try (simpl in Hn; lia); cbn [reclaim_loop].
  - cbn [used foldr log_bytes mbind list_bind app compacts survivors List.filter] in *. apply Z.ltb_lt in Hc. rewrite app_nil_r.
    replace free with (1 + (free - 1)) in Hs by lia. rewrite erased_app in Hs by lia.
    destruct (header_erased s q (log_bytes kept) (erased_bytes (free - 1) ++ tail) (used kept)) as (h & Eh & Hh).
    { exact Hs. } { rewrite Zlength_app, Zlength_erased, Ht, scratch_bounds by lia. lia. } { by apply Zlength_log. }
    rewrite (vbind_Ok _ _ s false s); [|unfold IsValidVariableHeader; rewrite (vbind_Ok _ _ _ _ _ Eh); by rewrite Hh]. cbn [negb].
    rewrite set_free_put, put_same; [replace (used kept) with (mStoreFreeOffset s) by lia; by destruct s|].
    apply at_set_free. unfold store_bytes. replace (STORE_MAIN_SIZE - used kept) with (1 + (free - 1)) by lia. rewrite erased_app by lia. by rewrite <- app_assoc.
  - inversion_clear Hes as [|?? He Hes']. rewrite log_cons, <- app_assoc in Hs. rewrite used_cons in *. cbn [length] in Hn.
    pose proof (size_bounds _ He). pose proof sizeof_bounds. pose proof (log_used_bounds _ Hes'). pose proof (log_used_bounds _ Hk).
    assert (Ho : Zlength (log_bytes kept) = used kept) by by apply Zlength_log.
    rewrite (vbind_Ok _ _ _ _ _ (valid_run _ _ _ _ _ _ Hs He Ho)). cbn [negb].
    rewrite (vbind_Ok _ _ _ _ _ (next_ptr_run _ _ _ _ _ _ Hs He Ho)), (vbind_Ok _ _ _ _ _ (header_at_run _ _ _ _ _ _ Hs He Ho)).
    rewrite added_header, transition_header, <- negb_orb. fold (live e). cbn [compacts survivors List.filter] in *. fold (survivors es).
    destruct (live e) eqn:El; cbn [negb].
    + replace (used kept + e_size e) with (used (kept ++ [e])) by (rewrite log_used_app, used_cons; cbn [used foldr]; lia).
      replace (kept ++ e :: survivors es) with ((kept ++ [e]) ++ survivors es) by by rewrite <- app_assoc.
      assert (Hu : used (kept ++ [e]) = used kept + e_size e) by (rewrite log_used_app, used_cons; cbn [used foldr]; lia).
      apply (IH n (kept ++ [e]) free); try done; try lia.
      * by rewrite log_app, log_cons, app_nil_r, <- !app_assoc.
      * apply Forall_app; split; [done|by apply Forall_singleton].
    + apply andb_true_iff in Hc as [Hsz%Z.leb_le Hc].
      rewrite (shift_down _ s q (used kept) (log_bytes kept) (log_bytes es) tail (entry_bytes e) (e_size e) free);
        [|by rewrite <- !app_assoc|done|by rewrite Zlength_entry|lia|rewrite Zlength_log by done; lia|lia].
      rewrite vmod_bind, set_free_put. change (mStoreFreeOffset (put_store q ?b s)) with (mStoreFreeOffset s).
      replace (u64 (mStoreFreeOffset s - (used kept + e_size e - used kept))) with (used kept + used es).
      2: { rewrite HF. unfold u64. rewrite Z.mod_small; unfold STORE_MAIN_SIZE in *; lia. }
      rewrite (IH n kept (free + e_size e)); try done; try lia.
      * by rewrite !set_free_put, put_put.
      * rewrite <- app_assoc. eapply at_put, at_set_free, Hs.
Qed.

(** ** In any state *)

(** What the services change: pages and device, the store and its free offset. *)
Definition same (s s' : variables) : Prop :=
  s' = set_bios (bios s') (set_pages (pages s') (set_free_offset (mStoreFreeOffset s') (set_pool (pool s') s))).
Lemma same_refl s : same s s.
Proof. by destruct s. Qed.
Lemma same_trans s1 s2 s3 : same s1 s2 -> same s2 s3 -> same s1 s3.
Proof. unfold same. intros H12 H23. rewrite H23, H12. by destruct s1, s2, s3. Qed.
Lemma frame_same s s' : frame s s' -> same s s'.
Proof. unfold frame, same. intros ->. by destruct s, s'. Qed.
Lemma put_same_state q b s : same s (put_store q b s).
Proof. by destruct s. Qed.
Lemma free_same f s : same s (set_free_offset f s).
Proof. by destruct s. Qed.

Lemma frame_fields s s' : frame s s' ->
  pool s' = pool s /\ virtual s' = virtual s /\ mVariableStore s' = mVariableStore s /\ mStoreFreeOffset s' = mStoreFreeOffset s /\
  mAppendBuffer s' = mAppendBuffer s /\ EfiAtRuntime s' = EfiAtRuntime s.
Proof. unfold frame. intros ->. by destruct s, s'. Qed.

Lemma vol_frame s s' q es tail : frame s s' -> vol s q es tail -> vol s' q es tail.
Proof.
  intros (Hp & Hv & Hm & Hf & _)%frame_fields [[V1 V2] V3 V4 V5 V6 V7]. split; try done; [|congruence]. split; congruence.
Qed.

Lemma vol_put s q es tail es' tail' : vol s q es tail -> used es' <= STORE_MAIN_SIZE -> Forall entry_ok es' -> Zlength tail' = STORE_SCRATCH_SIZE ->
  Forall is_byte tail' -> vol (set_free_offset (used es') (put_store q (store_bytes es' tail') s)) q es' tail'.
Proof. intros [V1 V2 V3 V4 V5 V6] Hu Hok Hl Hb. split; try done. by eapply at_set_free, at_put. Qed.

(** The pool but for the store. *)
Definition pool_kept (q : Z) (s s' : variables) : Prop := forall p, p <> q -> pool s' !! p = pool s !! p.
Lemma pool_kept_refl q s : pool_kept q s s.
Proof. by intros p. Qed.
Lemma pool_kept_trans q s1 s2 s3 : pool_kept q s1 s2 -> pool_kept q s2 s3 -> pool_kept q s1 s3.
Proof. intros H12 H23 p Hp. by rewrite H23, H12. Qed.
Lemma pool_kept_frame q s s' : frame s s' -> pool_kept q s s'.
Proof. intros (Hp & _)%frame_fields p _. by rewrite Hp. Qed.
Lemma pool_kept_put q b s : pool_kept q s (put_store q b s).
Proof. intros p Hp. cbn. by rewrite lookup_insert_ne. Qed.

Lemma nvram_put q b s : nvram_ok s -> nvram_ok (put_store q b s).
Proof. intros [H|(H & db & bb & [])]; [by left|]. right. split; [done|]. exists db, bb. by split. Qed.
Lemma nvram_free f s : nvram_ok s -> nvram_ok (set_free_offset f s).
Proof. intros [H|(H & db & bb & [])]; [by left|]. right. split; [done|]. exists db, bb. by split. Qed.

Lemma survivors_room es : Forall entry_ok es -> 0 <= used (List.filter live es) <= used es.
Proof.
  induction 1 as [|e es He Hes IH]; [done|]. cbn [List.filter]. pose proof (size_bounds e He). pose proof sizeof_bounds.
  destruct (live e); rewrite ?used_cons; lia.
Qed.

Lemma survivors_entries es : Forall entry_ok es -> Forall entry_ok (survivors es).
Proof. unfold survivors. induction 1 as [|e es He Hes IH]; [done|]. cbn. destruct (live e); [by constructor|done]. Qed.

Lemma wp_Reclaim s q es tail Q : vol s q es tail -> nvram_ok s -> compacts (STORE_MAIN_SIZE - used es) es = true ->
  (forall s', vol s' q (survivors es) tail -> nvram_ok s' -> same s s' -> pool_kept q s s' -> Q tt s') -> wpv Reclaim s Q.
Proof.
  intros Hvol Hnv Hc HQ. unfold Reclaim. apply wpv_vget, wpv_bind. eapply wpv_mono; [by apply debug_log_safe|].
  intros _ s1 (Hf1 & Hn1 & _). pose proof (vol_frame _ _ _ _ _ Hf1 Hvol) as Hv1. pose proof Hv1 as [V1 V2 V3 V4 V5 V6].
  eapply wpv_bind_run.
  { apply (reclaim_loop_run q tail V5 es walk_fuel [] (STORE_MAIN_SIZE - used es)); try done; [cbn [used foldr]; lia..|by apply walk_enough]. }
  cbn [app]. apply wpv_vget. eapply wpv_mono; [apply debug_log_safe; by apply nvram_free, nvram_put|]. intros [] s2 (Hf2 & Hn2 & _).
  pose proof (survivors_room _ V4). apply HQ.
  - eapply vol_frame; [exact Hf2|]. eapply vol_put; try done; [unfold survivors; lia|by apply survivors_entries].
  - done.
  - eapply same_trans; [by apply frame_same|]. eapply same_trans; [apply put_same_state|]. eapply same_trans; [apply free_same|]. by apply frame_same.
  - eapply pool_kept_trans; [by apply pool_kept_frame|]. eapply pool_kept_trans; [|by eapply pool_kept_frame]. exact (pool_kept_put q _ s1).
Qed.
End Reclaim.
End VariableReclaim.
