(* ===== verification/VariableUpdate.v ===== *)
(** [UpdateVariable] on the log: the entry a key designates, putting a variable
    together in the scratch area, storing it with or without [Reclaim], and the
    function on logs that describes the whole. *)
From Stdlib Require Import ZArith Lia.
From stdpp Require Import base list numbers list_numbers option gmap.
From S2P Require Import Prelude Circular VariableDxe VariableRep VariableNvram VariableReclaim.
Open Scope Z_scope.

Module VariableUpdate.
Import VariableDxe VariableRep VariableNvram VariableReclaim.

Section Update.
Context {B : BuildOptions} {BD : BiosDevice} {FW : Firmware} {VF : VariableFormat} {LW : VariableFormatLaws VF}
  {FL : FirmwareLaws FW} {DL : DeviceLaws BD}.

(** ** Keys *)
Definition is_key (nm g : list Z) (e : entry) : bool := live e && (bool_decide (g = e_guid e) && bool_decide (nm = e_name e)).
Definition e_key (e : entry) : list Z * list Z := (e_guid e, e_name e).

(** Live entries have different keys, and no name is empty. *)
Definition log_wf (es : list entry) : Prop := NoDup (e_key <$> survivors es) /\ Forall (fun e => e_name e <> [0; 0]) es.

Definition log_find (nm g : list Z) (es : list entry) : option entry := List.find (is_key nm g) es.
(** [f] on the entry with the key. *)
Definition at_key (nm g : list Z) (f : entry -> entry) (es : list entry) : list entry := (fun e => if is_key nm g e then f e else e) <$> es.
Definition masked (mask : Z) (e : entry) : entry := with_e_State (Z.land (e_State e) mask) e.
Definition delete_key nm g := at_key nm g (masked VAR_DELETED).
Definition hide_key nm g := at_key nm g (masked VAR_IN_DELETED_TRANSITION).

Lemma matches_key nm g e : nm <> [0; 0] -> live e && matches nm g e = is_key nm g e.
Proof. intros H. unfold matches, is_key. by rewrite bool_decide_false. Qed.

Lemma is_key_true nm g e : is_key nm g e = true <-> live e = true /\ e_guid e = g /\ e_name e = nm.
Proof.
  unfold is_key. rewrite !andb_true_iff, !bool_decide_eq_true. naive_solver.
Qed.

Lemma find_log_none nm g es : nm <> [0; 0] -> Forall (fun e => is_key nm g e = false) es -> forall off del, find_log (matches nm g) off es del = del.
Proof.
  intros Hn. induction 1 as [|e es He Hes IH]; intros off del; [done|]. cbn [find_log]. rewrite matches_key, He by done. apply IH.
Qed.

Lemma find_log_one nm g l1 e l2 : nm <> [0; 0] -> Forall (fun e => is_key nm g e = false) l1 -> is_key nm g e = true ->
  Forall (fun e => is_key nm g e = false) l2 -> forall off del, find_log (matches nm g) off (l1 ++ e :: l2) del = Some (off + used l1).
Proof.
  intros Hn H1 He H2. induction H1 as [|x l1 Hx H1 IH]; intros off del; cbn [app find_log].
  - rewrite matches_key, He by done. cbn [used foldr]. rewrite Z.add_0_r. destruct (transition e); [|done]. by apply find_log_none.
  - rewrite matches_key, Hx, IH, used_cons by done. f_equal. lia.
Qed.

Lemma log_find_none nm g es : Forall (fun e => is_key nm g e = false) es -> log_find nm g es = None.
Proof. induction 1 as [|e es He Hes IH]; [done|]. cbn. by rewrite He. Qed.
Lemma log_find_one nm g l1 e l2 : Forall (fun e => is_key nm g e = false) l1 -> is_key nm g e = true -> log_find nm g (l1 ++ e :: l2) = Some e.
Proof. intros H1 He. induction H1 as [|x l1 Hx H1 IH]; cbn; [by rewrite He|by rewrite Hx]. Qed.

Lemma at_key_none nm g f es : Forall (fun e => is_key nm g e = false) es -> at_key nm g f es = es.
Proof. unfold at_key. induction 1 as [|e es He Hes IH]; [done|]. cbn. by rewrite He, IH. Qed.
Lemma at_key_one nm g f l1 e l2 : Forall (fun e => is_key nm g e = false) l1 -> is_key nm g e = true ->
  Forall (fun e => is_key nm g e = false) l2 -> at_key nm g f (l1 ++ e :: l2) = l1 ++ f e :: l2.
Proof.
  intros H1 He H2. unfold at_key. rewrite fmap_app, fmap_cons, He. f_equal; [by apply at_key_none|]. f_equal. by apply at_key_none.
Qed.

Lemma survivors_app es es' : survivors (es ++ es') = survivors es ++ survivors es'.
Proof. apply List.filter_app. Qed.

Lemma survivors_In e es : live e = true -> e ∈ es -> e ∈ survivors es.
Proof. intros Hl Hin. rewrite list_elem_of_In in *. by apply List.filter_In. Qed.

(** The entry with a key is the only one; or there is none. *)
Lemma find_cases nm g es : log_wf es ->
  (exists l1 e l2, es = l1 ++ e :: l2 /\ is_key nm g e = true /\ Forall (fun e => is_key nm g e = false) l1 /\ Forall (fun e => is_key nm g e = false) l2) \/
  Forall (fun e => is_key nm g e = false) es.
Proof.
  intros [Hnd _]. induction es as [|x es IH]; [by right|].
  assert (Hnd' : NoDup (e_key <$> survivors es)).
  { cbn in Hnd. unfold survivors in *. destruct (live x); [|done]. cbn in Hnd. by apply NoDup_cons in Hnd as [_ ?]. }
  destruct (is_key nm g x) eqn:Ex.
  - left. exists [], x, es. split_and!; [done|done|done|]. apply Forall_forall. intros y Hy.
    destruct (is_key nm g y) eqn:Ey; [|done]. apply is_key_true in Ex as (Hlx & Hgx & Hnx), Ey as (Hly & Hgy & Hny).
    cbn in Hnd. unfold survivors in Hnd. rewrite Hlx in Hnd. cbn in Hnd. apply NoDup_cons in Hnd as [Hnot _]. exfalso. apply Hnot.
    apply list_elem_of_fmap. exists y. split; [unfold e_key; congruence|]. by apply survivors_In.
  - destruct (IH Hnd') as [(l1 & e & l2 & -> & He & H1 & H2)|H]; [left|right; by constructor].
    exists (x :: l1), e, l2. split_and!; try done. by constructor.
Qed.

(** ** Putting a variable together *)
Definition new_entry (nm g : list Z) (Attributes : Z) (data : list Z) : entry :=
  mkEntry VAR_ADDED (Z.land Attributes (Z.lnot EFI_VARIABLE_APPEND_WRITE)) g nm data.

Lemma header_at_raw s q pre h post off : at_store s q (pre ++ bytes_of_header h ++ post) -> header_fits h -> Zlength pre = off -> header_at off s = Ok (h, s).
Proof.
  intros Hs Hh Ho. unfold header_at. rewrite (vbind_Ok _ _ s (bytes_of_header h) s); [by rewrite header_store_load|].
  eapply store_read_run; [exact Hs|]. by apply mem_read_mid, header_length.
Qed.

Lemma set_header_raw s q pre h post off f : at_store s q (pre ++ bytes_of_header h ++ post) -> header_fits h -> header_fits (f h) -> Zlength pre = off ->
  set_header off f s = Ok (tt, put_store q (pre ++ bytes_of_header (f h) ++ post) s).
Proof.
  intros Hs Hh Hf Ho. unfold set_header. rewrite (vbind_Ok _ _ s h s); [|by eapply header_at_raw].
  eapply store_write_run; [exact Hs|]. apply mem_write_mid; [done|]. by rewrite !header_length.
Qed.

(** The same as a step of a longer computation. *)
Lemma set_header_step {A} (k : V A) s q pre h post off f : at_store s q (pre ++ bytes_of_header h ++ post) -> header_fits h -> header_fits (f h) -> Zlength pre = off ->
  (_ ← set_header off f; k) s = k (put_store q (pre ++ bytes_of_header (f h) ++ post) s).
Proof. intros. by rewrite (vbind_Ok _ _ _ _ _ (set_header_raw _ _ _ _ _ _ _ H H0 H1 H2)). Qed.

Lemma store_write_step {A} (k : V A) s q pre mid mid' post off : at_store s q (pre ++ mid ++ post) -> Zlength mid' = Zlength mid -> Zlength pre = off ->
  (_ ← store_write off mid'; k) s = k (put_store q (pre ++ mid' ++ post) s).
Proof. intros Hs Hl Ho. rewrite (vbind_Ok _ _ s tt (put_store q (pre ++ mid' ++ post) s)); [done|]. eapply store_write_run; [exact Hs|]. by apply mem_write_mid. Qed.

Lemma set_header_put {A} (k : V A) s q b pre h post off f : at_store s q b -> header_fits h -> header_fits (f h) -> Zlength pre = off ->
  (_ ← set_header off f; k) (put_store q (pre ++ bytes_of_header h ++ post) s) = k (put_store q (pre ++ bytes_of_header (f h) ++ post) s).
Proof. intros Hs Hh Hf Ho. erewrite set_header_step; [by rewrite put_put|by eapply at_put|done..]. Qed.

Definition scratch_rest (e : entry) : list Z := erased_bytes (STORE_SCRATCH_SIZE - e_size e).

Lemma erased_header : exists h, header_fits h /\ bytes_of_header h = erased_bytes sizeof_VARIABLE_HEADER.
Proof.
  pose proof sizeof_bounds. assert (Hb : Forall is_byte (erased_bytes sizeof_VARIABLE_HEADER)).
  { unfold erased_bytes. apply Forall_replicate. unfold is_byte. lia. }
  exists (header_of_bytes (erased_bytes sizeof_VARIABLE_HEADER)).
  split; [apply header_load_fits|apply header_load_store]; try done; apply Zlength_erased; lia.
Qed.

(** The state in a header of erased bytes. *)
Definition erased_state : Z := State (header_of_bytes (erased_bytes sizeof_VARIABLE_HEADER)).

Lemma build_variable_run s q main tail buf nm g data Attributes : at_store s q (main ++ tail) ->
  Zlength main = STORE_MAIN_SIZE -> Zlength tail = STORE_SCRATCH_SIZE -> holds_name buf nm -> entry_ok (new_entry nm g Attributes data) ->
  let e := new_entry nm g Attributes data in
  exists st, st = erased_state /\ 0 <= st < 2 ^ 8 /\
    build_variable buf g data Attributes s =
      Ok (e_size e, put_store q (main ++ bytes_of_header (with_State st (e_header e)) ++ padded nm ++ padded data ++ scratch_rest e) s).
Proof.
  intros Hs Hm Ht Hname He e. destruct (holds_size _ _ Hname) as (Hsz & Hrd & Hlen & Hnb).
  destruct erased_header as (h & Hh & Eh). exists (State h). split; [unfold erased_state; by rewrite <- Eh, header_store_load|]. split; [apply Hh|].
  pose proof (size_bounds _ He) as Hsize. pose proof sizeof_bounds as Hso. pose proof scratch_bounds as Hsc.
  pose proof (pad_bounds (Zlength nm)). pose proof (pad_bounds (Zlength data)). pose proof (Zlength_nonneg data).
  pose proof (header_ok _ He) as Hfit. fold e in Hsize, Hfit.
  assert (Hes : e_size e = sizeof_VARIABLE_HEADER + (Zlength nm + GET_PAD_SIZE (Zlength nm)) + (Zlength data + GET_PAD_SIZE (Zlength data))) by done.
  unfold EFI_MAX_VARIABLE_NAME_SIZE, EFI_MAX_VARIABLE_DATA_SIZE in Hsize.
  unfold build_variable, GetEndPointer. rewrite <- (app_nil_r tail) in Hs.
  change (replicate (Z.to_nat STORE_SCRATCH_SIZE) 255) with (erased_bytes STORE_SCRATCH_SIZE).
  rewrite (store_write_step _ s q main tail (erased_bytes STORE_SCRATCH_SIZE) [] STORE_MAIN_SIZE) by (try done; rewrite Zlength_erased; lia).
  assert (E0 : erased_bytes STORE_SCRATCH_SIZE ++ [] = bytes_of_header h ++ erased_bytes (Zlength nm) ++ erased_bytes (GET_PAD_SIZE (Zlength nm)) ++
            erased_bytes (Zlength data) ++ erased_bytes (GET_PAD_SIZE (Zlength data)) ++ scratch_rest e).
  { rewrite Eh, app_nil_r. unfold scratch_rest. rewrite <- !erased_app by lia. f_equal. lia. }
  rewrite E0. set (s1 := put_store q _ s).
  assert (Hs1 : at_store s1 q (main ++ bytes_of_header h ++ erased_bytes (Zlength nm) ++ erased_bytes (GET_PAD_SIZE (Zlength nm)) ++
            erased_bytes (Zlength data) ++ erased_bytes (GET_PAD_SIZE (Zlength data)) ++ scratch_rest e)) by (by eapply at_put).
  assert (Hfits : forall st r a n d v, 0 <= st < 2 ^ 8 -> 0 <= r < 2 ^ 8 -> 0 <= a < 2 ^ 32 -> 0 <= n < 2 ^ 32 -> 0 <= d < 2 ^ 32 ->
            length v = 16%nat -> Forall is_byte v -> header_fits (mkHeader VARIABLE_DATA st r a n d v)) by (intros; split; [apply data_id_fits|done]).
  pose proof Hfit as (_ & _ & _ & F4 & F5 & F6 & F7 & F8). pose proof Hh as (_ & G2 & G3 & G4 & G5 & G6 & G7 & G8).
  cbn [e_header Attributes_ NameSize DataSize_ VendorGuid_ e_name e_data e_guid e_Attributes e new_entry] in F4, F5, F6, F7, F8.
  unfold s1. do 3 (rewrite (set_header_put _ s q _ main _ _ _ _ Hs); [|done || by apply Hfits|by apply Hfits|done]).
  set (h3 := with_Attributes _ _).
  assert (Hh3 : header_fits h3) by by apply Hfits.
  rewrite (vlift_bind _ _ _ _ Hsz), (vlift_bind _ _ _ _ Hrd).
  pose proof (header_length _ Hh3) as Hl3.
  match goal with |- context [put_store q ?b s] => assert (Hs3 : at_store (put_store q b s) q b) by (by eapply at_put); set (s3 := put_store q b s) in * end.
  rewrite (app_assoc main) in Hs3.
  rewrite (store_write_step _ s3 q (main ++ bytes_of_header h3) (erased_bytes (Zlength nm)) nm _ _ Hs3);
    [|rewrite Zlength_erased; lia|rewrite Zlength_app; lia].
  match goal with |- context [put_store q ?b s3] => assert (Hs4 : at_store (put_store q b s3) q b) by (by eapply at_put); set (s4 := put_store q b s3) in * end.
  rewrite (app_assoc nm), (app_assoc _ (nm ++ _)) in Hs4.
  rewrite (store_write_step _ s4 q ((main ++ bytes_of_header h3) ++ nm ++ erased_bytes (GET_PAD_SIZE (Zlength nm))) (erased_bytes (Zlength data)) data _ _ Hs4);
    [|rewrite Zlength_erased; lia|rewrite !Zlength_app, Zlength_erased; lia].
  set (post := padded nm ++ padded data ++ scratch_rest e).
  match goal with |- context [put_store q ?b s4] => replace b with (main ++ bytes_of_header h3 ++ post)
     by (unfold post, padded; by rewrite <- !app_assoc) end.
  unfold s4, s3. rewrite !put_put, !(u32_small (Zlength _)) by lia.
  do 3 (rewrite (set_header_put _ s q _ main _ _ _ _ Hs); [|done || by apply Hfits|by apply Hfits|done]).
  unfold mret, V_ret. do 2 f_equal. rewrite Hes. lia.
Qed.

(** ** States *)
Lemma land_le a b : 0 <= a -> 0 <= Z.land a b <= a.
Proof. intros H. apply Z.ldiff_le; [done|]. apply Z.bits_inj'. intros n Hn. rewrite Z.ldiff_spec, Z.land_spec, Z.bits_0. by destruct (Z.testbit a n), (Z.testbit b n). Qed.

Lemma masked_ok mask e : entry_ok e -> entry_ok (masked mask e).
Proof.
  intros (H1 & H2 & H3 & H4 & H5 & H6 & H7 & H8). unfold entry_ok, masked. cbn. pose proof (land_le (e_State e) mask). split_and!; try done; lia.
Qed.

Lemma deleted_dead e : live (masked VAR_DELETED e) = false.
Proof. unfold live, added, transition, masked. cbn. apply orb_false_iff. destruct (state_deleted (e_State e)). split; by apply Z.eqb_neq. Qed.

Lemma hidden_state e : live e = true -> e_State (masked VAR_IN_DELETED_TRANSITION e) = Z.land VAR_IN_DELETED_TRANSITION VAR_ADDED.
Proof.
  unfold live, added, transition, masked. cbn. intros [E%Z.eqb_eq|E%Z.eqb_eq]%orb_true_iff; rewrite E.
  - apply Z.land_comm.
  - rewrite (Z.land_comm _ VAR_ADDED). apply state_transition_masked.
Qed.

Lemma hidden_transition e : live e = true -> transition (masked VAR_IN_DELETED_TRANSITION e) = true.
Proof. intros H. unfold transition. rewrite hidden_state by done. apply Z.eqb_refl. Qed.

Lemma hidden_live e : live e = true -> live (masked VAR_IN_DELETED_TRANSITION e) = true.
Proof. intros H. unfold live. rewrite hidden_transition by done. apply orb_true_r. Qed.

Lemma masked_size mask e : e_size (masked mask e) = e_size e.
Proof. done. Qed.

Lemma survivors_cons e es : survivors (e :: es) = if live e then e :: survivors es else survivors es.
Proof. done. Qed.

(** [f] keeps sizes and names. *)
Lemma at_key_used nm g mask es : used (at_key nm g (masked mask) es) = used es.
Proof. unfold at_key. induction es as [|e es IH]; [done|]. rewrite fmap_cons, !used_cons, IH. by destruct (is_key nm g e). Qed.
Lemma at_key_ok nm g mask es : Forall entry_ok es -> Forall entry_ok (at_key nm g (masked mask) es).
Proof. unfold at_key. induction 1 as [|e es He Hes IH]; constructor; [|done]. destruct (is_key nm g e); [by apply masked_ok|done]. Qed.
Lemma at_key_names nm g mask es : Forall (fun e => e_name e <> [0; 0]) es -> Forall (fun e => e_name e <> [0; 0]) (at_key nm g (masked mask) es).
Proof. unfold at_key. induction 1 as [|e es He Hes IH]; constructor; [|done]. by destruct (is_key nm g e). Qed.

Lemma survivors_delete nm g es : survivors (delete_key nm g es) = List.filter (fun e => negb (is_key nm g e)) (survivors es).
Proof.
  unfold delete_key, at_key. induction es as [|e es IH]; [done|]. rewrite fmap_cons, !survivors_cons, IH. destruct (is_key nm g e) eqn:Ek.
  - rewrite deleted_dead. apply is_key_true in Ek as Hk. destruct Hk as (-> & _). cbn. by rewrite Ek.
  - destruct (live e); [cbn; by rewrite Ek|done].
Qed.

Lemma survivors_hide nm g es : survivors (hide_key nm g es) = at_key nm g (masked VAR_IN_DELETED_TRANSITION) (survivors es).
Proof.
  unfold hide_key, at_key. induction es as [|e es IH]; [done|]. rewrite fmap_cons, !survivors_cons, IH. destruct (is_key nm g e) eqn:Ek.
  - apply is_key_true in Ek as Hk. destruct Hk as (Hl & _). rewrite Hl, hidden_live by done. rewrite fmap_cons. by rewrite Ek.
  - destruct (live e); [rewrite fmap_cons; by rewrite Ek|done].
Qed.

Lemma survivors_idem es : survivors (survivors es) = survivors es.
Proof. induction es as [|e es IH]; [done|]. rewrite !survivors_cons. destruct (live e) eqn:E; [|done]. by rewrite survivors_cons, E, IH. Qed.

Lemma wf_survivors es : log_wf es -> log_wf (survivors es).
Proof.
  intros [H1 H2]. split; [by rewrite survivors_idem|]. clear H1. induction H2 as [|e es He Hes IH]; [done|]. rewrite survivors_cons. destruct (live e); [by constructor|done].
Qed.

Lemma wf_hide nm g es : log_wf es -> log_wf (hide_key nm g es).
Proof.
  intros [H1 H2]. split; [|by apply at_key_names]. rewrite survivors_hide. unfold at_key.
  rewrite <- list_fmap_compose. erewrite list_fmap_ext; [exact H1|]. intros i e _. cbn. by destruct (is_key nm g e).
Qed.

Lemma wf_delete nm g es : log_wf es -> log_wf (delete_key nm g es).
Proof.
  intros [H1 H2]. split; [|by apply at_key_names]. rewrite survivors_delete. revert H1. generalize (survivors es).
  induction l as [|e l IH]; [done|]. rewrite fmap_cons, NoDup_cons. intros [Hn H]. cbn. destruct (is_key nm g e); cbn; [auto|].
  rewrite NoDup_cons. split; [|auto]. intros (x & Hx & Hin)%list_elem_of_fmap. apply Hn. apply list_elem_of_fmap. exists x. split; [done|].
  apply list_elem_of_In, List.filter_In in Hin as [Hin _]. by apply list_elem_of_In.
Qed.

(** A new variable after its predecessor has been deleted. *)
Lemma wf_add nm g es e : log_wf es -> e_name e = nm -> e_guid e = g -> nm <> [0; 0] -> log_wf (delete_key nm g es ++ [e]).
Proof.
  intros Hwf En Eg Hne. destruct (wf_delete nm g es Hwf) as [H1 H2]. split.
  - rewrite survivors_app, survivors_cons. destruct (live e); [|by rewrite app_nil_r].
    rewrite fmap_app. apply NoDup_app. split_and!; [done| |by apply NoDup_singleton].
    intros k (x & -> & Hin)%list_elem_of_fmap. cbn. intros [= Eg' En']%list_elem_of_singleton.
    rewrite survivors_delete, list_elem_of_In, List.filter_In in Hin. destruct Hin as [Hin Hk]. unfold survivors in Hin. apply List.filter_In in Hin as [_ Hl].
    apply negb_true_iff in Hk. rewrite (proj2 (is_key_true nm g x)) in Hk; [done|]. split_and!; [done|congruence|congruence].
  - apply Forall_app; split; [done|]. apply Forall_singleton. congruence.
Qed.

(** ** Storing a variable *)

(** Where [FindVariable] left the caller. *)
Definition target (nm g : list Z) (es : list entry) (variable : option Z) : Prop :=
  (variable = None /\ Forall (fun e => is_key nm g e = false) es) \/
  (exists l1 e l2, es = l1 ++ e :: l2 /\ is_key nm g e = true /\ Forall (fun e => is_key nm g e = false) l1 /\
     Forall (fun e => is_key nm g e = false) l2 /\ variable = Some (used l1)).

Lemma vol_mask s q l1 e l2 tail mask : vol s q (l1 ++ e :: l2) tail ->
  exists s', mask_State (used l1) mask s = Ok (tt, s') /\ vol s' q (l1 ++ masked mask e :: l2) tail /\ (exists b, s' = put_store q b s).
Proof.
  intros [V1 V2 V3 V4 V5 V6]. apply Forall_app in V4 as [Hl1 [He Hl2]%Forall_cons_1].
  assert (Hu : used (l1 ++ masked mask e :: l2) = used (l1 ++ e :: l2)) by (rewrite !log_used_app, !used_cons; done).
  unfold store_bytes in V1. rewrite log_app, log_cons, <- !app_assoc in V1.
  pose proof (masked_ok mask e He) as Hm. eexists; split.
  - eapply mask_run; [exact V1|done|by apply Zlength_log|]. destruct He as (_ & _ & _ & _ & _ & Hst & _). pose proof (land_le (e_State e) mask). lia.
  - split; [|by eexists]. split; try done.
    + unfold store_bytes. rewrite Hu, log_app, log_cons, <- !app_assoc. eapply at_put, V1.
    + cbn. by rewrite V2, Hu.
    + by rewrite Hu.
    + apply Forall_app. split; [done|]. by constructor.
Qed.

Definition built (st : Z) (e : entry) : list Z :=
  bytes_of_header (with_State st (e_header e)) ++ padded (e_name e) ++ padded (e_data e) ++ scratch_rest e.

Lemma built_ok st e : entry_ok e -> 0 <= st < 2 ^ 8 -> Zlength (built st e) = STORE_SCRATCH_SIZE /\ Forall is_byte (built st e).
Proof.
  intros He Hst. pose proof (header_ok _ He) as Hh. assert (Hh' : header_fits (with_State st (e_header e))) by (unfold header_fits in *; cbn in *; tauto).
  pose proof (size_bounds _ He). pose proof scratch_bounds. unfold built, EFI_MAX_VARIABLE_NAME_SIZE, EFI_MAX_VARIABLE_DATA_SIZE in *. split.
  - rewrite !Zlength_app, !Zlength_padded, header_length by done. unfold scratch_rest. rewrite Zlength_erased by lia. unfold e_size. lia.
  - destruct He as ((_ & Hn) & _ & Hd & _). assert (Hr : forall n, Forall is_byte (erased_bytes n)) by (intros; apply Forall_replicate; unfold is_byte; lia).
    unfold padded, scratch_rest. rewrite !Forall_app. split_and!; try done. by apply header_is_bytes.
Qed.

(** The log when the entry at an offset has been deleted. *)
Definition without (es : list entry) (variable : option Z) (es' : list entry) : Prop :=
  match variable with
  | None => es' = es
  | Some off => exists l1 e l2, es = l1 ++ e :: l2 /\ off = used l1 /\ es' = l1 ++ masked VAR_DELETED e :: l2
  end.

Lemma target_without nm g es variable : target nm g es variable -> without es variable (delete_key nm g es).
Proof.
  intros [(-> & Hn)|(l1 & e & l2 & -> & Hk & H1 & H2 & ->)]; cbn; unfold delete_key.
  - by rewrite at_key_none.
  - exists l1, e, l2. by rewrite at_key_one.
Qed.

(** The copy to the end of the log, and the end of the predecessor. *)
Lemma wp_place s q es st nm g Attributes data variable es' Q : let e := new_entry nm g Attributes data in
  vol s q es (built st e) -> 0 <= st < 2 ^ 8 -> entry_ok e -> without es variable es' -> e_size e + used es <= STORE_MAIN_SIZE ->
  (forall s' tail', vol s' q (es' ++ [e]) tail' -> (exists b f, s' = set_free_offset f (put_store q b s)) -> Q EFI_SUCCESS s') ->
  wpv (_ ← set_header GetEndPointer (with_State VAR_ADDED);
       bs ← store_read GetEndPointer (e_size e);
       _ ← store_write (used es) bs;
       _ ← vmod (set_free_offset (u64 (used es + e_size e)));
       _ ← (match variable with Some off => mask_State off VAR_DELETED | None => mret tt end);
       mret EFI_SUCCESS) s Q.
Proof.
  intros e Hvol Hst He Htarget Hroom HQ. pose proof Hvol as [V1 V2 V3 V4 V5 V6].
  pose proof (header_ok _ He) as Hh. assert (Hh' : header_fits (with_State st (e_header e))) by (unfold header_fits in *; cbn in *; tauto).
  pose proof (size_bounds _ He). pose proof sizeof_bounds. pose proof (log_used_bounds _ V4). assert (HM : STORE_MAIN_SIZE = 131072) by done.
  unfold store_bytes, built in V1. rewrite app_assoc in V1.
  assert (Hm : Zlength (log_bytes es ++ erased_bytes (STORE_MAIN_SIZE - used es)) = STORE_MAIN_SIZE) by (rewrite Zlength_app, Zlength_log, Zlength_erased by (done || lia); lia).
  unfold GetEndPointer. eapply wpv_bind_run; [by eapply set_header_raw|].
  replace (with_State VAR_ADDED (with_State st (e_header e))) with (e_header e) by done.
  set (b1 := _ ++ bytes_of_header (e_header e) ++ _). assert (A1 : at_store (put_store q b1 s) q b1) by by eapply at_put.
  assert (E1 : b1 = log_bytes es ++ erased_bytes (e_size e) ++ (erased_bytes (STORE_MAIN_SIZE - used es - e_size e) ++ entry_bytes e ++ scratch_rest e)).
  { unfold b1, entry_bytes. replace (STORE_MAIN_SIZE - used es) with (e_size e + (STORE_MAIN_SIZE - used es - e_size e)) at 1 by lia.
    rewrite erased_app by lia. by rewrite <- !app_assoc. }
  eapply (wpv_bind_run _ _ _ (entry_bytes e)).
  { eapply store_read_run; [exact A1|]. unfold b1. replace (bytes_of_header (e_header e) ++ padded (e_name e) ++ padded (e_data e) ++ scratch_rest e)
      with (entry_bytes e ++ scratch_rest e) by (unfold entry_bytes; by rewrite <- !app_assoc). apply mem_read_mid; [done|]. by apply Zlength_entry. }
  rewrite E1 in A1 |- *. eapply wpv_bind_run.
  { eapply store_write_run; [exact A1|]. apply mem_write_mid; [by apply Zlength_log|]. rewrite Zlength_entry, Zlength_erased by (done || lia). done. }
  apply wpv_vmod. rewrite put_put. unfold u64. rewrite Z.mod_small by lia.
  set (s1 := set_free_offset _ _). set (tail1 := entry_bytes e ++ scratch_rest e).
  assert (Hv1 : vol s1 q (es ++ [e]) tail1).
  { assert (Hu : used (es ++ [e]) = used es + e_size e) by (rewrite log_used_app, used_cons; cbn [used foldr]; lia).
    destruct (built_ok (State (e_header e)) e He) as [T1 T2]; [apply Hh|].
    assert (Et : built (State (e_header e)) e = tail1) by (unfold built, tail1, entry_bytes; by rewrite <- !app_assoc).
    rewrite Et in T1, T2. split; try done.
    - unfold s1. apply at_set_free. unfold store_bytes, tail1. rewrite Hu, log_app, log_cons. cbn [log_bytes mbind list_bind]. rewrite app_nil_r.
      replace (STORE_MAIN_SIZE - (used es + e_size e)) with (STORE_MAIN_SIZE - used es - e_size e) by lia. rewrite <- !app_assoc. eapply at_put, V1.
    - lia.
    - apply Forall_app; split; [done|by apply Forall_singleton]. }
  destruct variable as [off|]; cbn in Htarget.
  - destruct Htarget as (l1 & e0 & l2 & Ees & -> & ->). rewrite Ees, <- app_assoc in Hv1. cbn [app] in Hv1. destruct (vol_mask _ _ _ _ _ _ VAR_DELETED Hv1) as (s2 & E2 & Hv2 & b2 & Hs2).
    eapply wpv_bind_run; [exact E2|]. apply wpv_ret. eapply (HQ _ tail1).
    + by rewrite <- app_assoc.
    + rewrite Hs2. unfold s1. rewrite <- set_free_put, put_put. by do 2 eexists.
  - subst es'. apply wpv_bind, wpv_ret, wpv_ret. eapply (HQ _ tail1); [done|by do 2 eexists].
Qed.

(** [store_variable] on the log: the space of deleted entries is taken back when
    the free space does not suffice. *)
Definition log_store (es : list entry) (e : entry) : EFI_STATUS * list entry :=
  let es := if STORE_MAIN_SIZE <? e_size e + used es then survivors es else es in
  if STORE_MAIN_SIZE <? e_size e + used es then (EFI_OUT_OF_RESOURCES, es)
  else (EFI_SUCCESS, delete_key (e_name e) (e_guid e) es ++ [e]).

(** No deleted entry lies before the one with the key, which [Reclaim] would move. *)
Fixpoint settled (nm g : list Z) (es : list entry) : bool :=
  match es with [] => true | e :: es => is_key nm g e || (live e && settled nm g es) end.

(** [Reclaim] is not needed, or it is benign and does not move the predecessor. *)
Definition benign_store (es : list entry) (e : entry) : bool :=
  (e_size e + used es <=? STORE_MAIN_SIZE) ||
  (compacts (STORE_MAIN_SIZE - used es) es && (negb (existsb (is_key (e_name e) (e_guid e)) es) || settled (e_name e) (e_guid e) es)).

Lemma settled_split nm g l1 e l2 : Forall (fun e => is_key nm g e = false) l1 -> is_key nm g e = true -> settled nm g (l1 ++ e :: l2) = true ->
  survivors (l1 ++ e :: l2) = l1 ++ e :: survivors l2.
Proof.
  intros H1 Hk. pose proof (proj1 (is_key_true _ _ _) Hk) as (Hl & _). induction H1 as [|x l1 Hx H1 IH]; cbn [app settled].
  - intros _. by rewrite survivors_cons, Hl.
  - rewrite Hx. cbn [orb]. intros [Hlx Hs]%andb_true_iff. by rewrite survivors_cons, Hlx, IH.
Qed.

Lemma not_key_survivors nm g es : Forall (fun e => is_key nm g e = false) es -> Forall (fun e => is_key nm g e = false) (survivors es).
Proof. unfold survivors. induction 1 as [|e es He Hes IH]; [done|]. cbn. destruct (live e); [by constructor|done]. Qed.

Lemma target_survivors es e variable : target (e_name e) (e_guid e) es variable ->
  negb (existsb (is_key (e_name e) (e_guid e)) es) || settled (e_name e) (e_guid e) es = true ->
  target (e_name e) (e_guid e) (survivors es) variable.
Proof.
  intros [(-> & Hn)|(l1 & x & l2 & -> & Hk & H1 & H2 & ->)] Hb.
  - left. split; [done|]. by apply not_key_survivors.
  - assert (Hset : settled (e_name e) (e_guid e) (l1 ++ x :: l2) = true).
    { apply orb_true_iff in Hb as [Hb|Hb]; [|done]. apply negb_true_iff in Hb. rewrite existsb_app in Hb. cbn in Hb. by rewrite Hk, orb_true_r in Hb. }
    right. exists l1, x, (survivors l2). rewrite (settled_split (e_name e) (e_guid e)) by done.
    split_and!; try done. by apply not_key_survivors.
Qed.

(** [store_variable] wherever [variable] points to. *)
Lemma wp_store_raw s q es tail buf nm g Attributes data variable es1 es2 Q : let e := new_entry nm g Attributes data in
  vol s q es tail -> nvram_ok s -> holds_name buf nm -> nm <> [0; 0] -> entry_ok e ->
  (if STORE_MAIN_SIZE <? e_size e + used es then compacts (STORE_MAIN_SIZE - used es) es = true /\ es1 = survivors es else es1 = es) ->
  without es1 variable es2 -> let full := STORE_MAIN_SIZE <? e_size e + used es1 in
  (forall s' tail', vol s' q (if full then es1 else es2 ++ [e]) tail' -> nvram_ok s' -> same s s' -> pool_kept q s s' -> Q (if full then EFI_OUT_OF_RESOURCES else EFI_SUCCESS) s') ->
  wpv (store_variable buf g data Attributes variable) s Q.
Proof.
  intros e Hvol Hnv Hname Hne He H1 H2 full HQ. pose proof Hvol as [V1 V2 V3 V4 V5 V6].
  pose proof (size_bounds _ He) as Hsz. pose proof sizeof_bounds. pose proof (log_used_bounds _ V4).
  unfold EFI_MAX_VARIABLE_NAME_SIZE, EFI_MAX_VARIABLE_DATA_SIZE in *. assert (HM : STORE_MAIN_SIZE = 131072) by done.
  unfold store_bytes in V1. rewrite app_assoc in V1.
  destruct (build_variable_run s q (log_bytes es ++ erased_bytes (STORE_MAIN_SIZE - used es)) tail buf nm g data Attributes V1) as (st & _ & Hst & E1); try done.
  { rewrite Zlength_app, Zlength_log, Zlength_erased by (done || lia). lia. }
  fold e in E1. destruct (built_ok st e He Hst) as [T1 T2].
  unfold store_variable. eapply wpv_bind_run; [exact E1|]. rewrite <- app_assoc. change (bytes_of_header _ ++ _) with (built st e).
  change (log_bytes es ++ _ ++ built st e) with (store_bytes es (built st e)). set (s1 := put_store q _ s).
  assert (Hv1 : vol s1 q es (built st e)) by (split; try done; by eapply at_put).
  assert (Hfin : forall s2, vol s2 q es1 (built st e) -> nvram_ok s2 -> same s s2 -> pool_kept q s s2 -> used es1 <= used es ->
    wpv (free ← vget mStoreFreeOffset;
      if STORE_MAIN_SIZE <? u32 (e_size e + free) then mret EFI_OUT_OF_RESOURCES
      else _ ← set_header GetEndPointer (with_State VAR_ADDED); bs ← store_read GetEndPointer (e_size e); _ ← store_write free bs;
        _ ← vmod (set_free_offset (u64 (free + e_size e)));
        _ ← (match variable with Some off => mask_State off VAR_DELETED | None => mret tt end); mret EFI_SUCCESS) s2 Q).
  { intros s2 Hv2 Hn2 Hs2 Hp2 Hle. apply wpv_vget. rewrite (vol_free _ _ _ _ Hv2). pose proof (log_used_bounds _ (vol_ok _ _ _ _ Hv2)).
    rewrite u32_small by lia. fold full. destruct full eqn:Ef; [apply wpv_ret; by eapply HQ|]. apply Z.ltb_ge in Ef.
    eapply wp_place; try done. intros s3 tail3 Hv3 (b3 & f3 & ->). eapply HQ; [done| | |].
    + by apply nvram_free, nvram_put.
    + eapply same_trans; [done|]. eapply same_trans; [apply put_same_state|apply free_same].
    + eapply pool_kept_trans; [done|]. exact (pool_kept_put q b3 s2). }
  apply wpv_vget. rewrite (vol_free _ _ _ _ Hv1), u32_small by lia. destruct (STORE_MAIN_SIZE <? e_size e + used es).
  - destruct H1 as [Hc E]. apply wpv_bind. eapply wp_Reclaim; [exact Hv1|by apply nvram_put|done|]. intros s2 Hv2 Hn2 Hs2 Hp2. rewrite <- E in Hv2. apply Hfin; [done|done| | |].
    + eapply same_trans; [apply put_same_state|exact Hs2].
    + eapply pool_kept_trans; [apply pool_kept_put|exact Hp2].
    + pose proof (survivors_room _ V4) as Hr. fold (survivors es) in Hr. rewrite <- E in Hr. lia.
  - subst es1. apply wpv_bind, wpv_ret. apply Hfin; [done|by apply nvram_put|apply put_same_state|apply pool_kept_put|lia].
Qed.

Lemma wp_store_variable s q es tail buf nm g Attributes data variable Q : let e := new_entry nm g Attributes data in
  vol s q es tail -> log_wf es -> nvram_ok s -> holds_name buf nm -> nm <> [0; 0] -> entry_ok e -> target nm g es variable -> benign_store es e = true ->
  (forall s' tail', vol s' q (log_store es e).2 tail' -> log_wf (log_store es e).2 -> nvram_ok s' -> same s s' -> pool_kept q s s' -> Q (log_store es e).1 s') ->
  wpv (store_variable buf g data Attributes variable) s Q.
Proof.
  intros e Hvol Hwf Hnv Hname Hne He Ht Hb HQ. unfold log_store, benign_store in *.
  set (es1 := if STORE_MAIN_SIZE <? e_size e + used es then survivors es else es) in *.
  assert (H1 : log_wf es1 /\ target nm g es1 variable /\
    (if STORE_MAIN_SIZE <? e_size e + used es then compacts (STORE_MAIN_SIZE - used es) es = true /\ es1 = survivors es else es1 = es)).
  { unfold es1. destruct (Z.ltb_spec STORE_MAIN_SIZE (e_size e + used es)); [|done]. rewrite (proj2 (Z.leb_gt _ _)) in Hb by lia. apply andb_true_iff in Hb as [Hc Hb].
    split_and!; [by apply wf_survivors|exact (target_survivors es e variable Ht Hb)|done|done]. }
  destruct H1 as (Hw1 & Ht1 & H1). eapply wp_store_raw; [done|done|exact Hname|done|done|exact H1|by apply target_without|]. intros s' tail' Hv' Hn' Hs' Hp'. fold e in Hv'. fold e.
  destruct (STORE_MAIN_SIZE <? e_size e + used es1); eapply HQ; try done. by apply wf_add.
Qed.
End Update.
End VariableUpdate.
