(* ===== verification/VariableOps.v ===== *)
(** [UpdateVariable] as a function on logs, and the invariant of the driver. *)
From Stdlib Require Import ZArith Lia.
From stdpp Require Import base list numbers list_numbers option gmap.
From S2P Require Import Prelude Circular VariableDxe VariableRep VariableNvram VariableReclaim VariableUpdate.
Open Scope Z_scope.

Module VariableOps.
Import VariableDxe VariableRep VariableNvram VariableReclaim VariableUpdate.

Section Ops.
Context {B : BuildOptions} {BD : BiosDevice} {FW : Firmware} {VF : VariableFormat} {LW : VariableFormatLaws VF}
  {FL : FirmwareLaws FW} {DL : DeviceLaws BD}.

(** ** The function *)

(** An update answers at once, or stores an entry. *)
Inductive plan := Answer (st : EFI_STATUS) (es : list entry) | Store (es : list entry) (e : entry).

Definition accessible (Attributes : Z) : bool := has Attributes (Z.lor EFI_VARIABLE_RUNTIME_ACCESS EFI_VARIABLE_BOOTSERVICE_ACCESS).

Definition log_plan (es : list entry) (nm g : list Z) (Attributes : Z) (data : list Z) (runtime : bool) : plan :=
  let append := has Attributes EFI_VARIABLE_APPEND_WRITE in
  if has Attributes (Z.lor EFI_VARIABLE_AUTHENTICATED_WRITE_ACCESS EFI_VARIABLE_TIME_BASED_AUTHENTICATED_WRITE_ACCESS) then Answer EFI_INVALID_PARAMETER es
  else if has Attributes EFI_VARIABLE_NON_VOLATILE then Answer EFI_INVALID_PARAMETER es
  else match log_find nm g es with
  | Some e =>
    if runtime then Answer EFI_WRITE_PROTECTED es
    else if (negb append && bool_decide (data = [])) || negb (accessible Attributes) then Answer EFI_SUCCESS (delete_key nm g es)
    else if negb append && bool_decide (data = e_data e) then Answer EFI_SUCCESS es
    else if append && (EFI_MAX_VARIABLE_DATA_SIZE <? Zlength (e_data e ++ data)) then Answer EFI_OUT_OF_RESOURCES es
    else Store (hide_key nm g es) (new_entry nm g Attributes (if append then e_data e ++ data else data))
  | None =>
    if bool_decide (data = []) && append then Answer EFI_SUCCESS es
    else if bool_decide (data = []) || negb (accessible Attributes) then Answer EFI_NOT_FOUND es
    else if runtime then Answer EFI_INVALID_PARAMETER es
    else Store es (new_entry nm g Attributes data)
  end.

Definition outcome (p : plan) : EFI_STATUS * list entry := match p with Answer st es => (st, es) | Store es e => log_store es e end.
Definition benign (p : plan) : bool := match p with Answer _ _ => true | Store es e => benign_store es e end.

(** ** The invariant *)
Record inv (s : variables) (q a : Z) (es : list entry) : Prop := {
  inv_vol : exists tail, vol s q es tail;
  inv_wf : log_wf es;
  inv_nvram : nvram_ok s;
  inv_apart : q <> a;
  inv_append : EfiAtRuntime s = false -> virtual s !! mAppendBuffer s = Some a /\ exists ab, pool s !! a = Some ab /\ Zlength ab = EFI_MAX_VARIABLE_DATA_SIZE }.

Lemma same_fields s s' : same s s' ->
  virtual s' = virtual s /\ mVariableStore s' = mVariableStore s /\ mAppendBuffer s' = mAppendBuffer s /\ EfiAtRuntime s' = EfiAtRuntime s.
Proof. unfold same. intros ->. by destruct s, s'. Qed.

Lemma inv_same s s' q a es es' tail' : inv s q a es -> vol s' q es' tail' -> log_wf es' -> nvram_ok s' -> same s s' -> pool_kept q s s' -> inv s' q a es'.
Proof.
  intros [(tail & Hv) Hw Hn Ha Happ] Hv' Hw' Hn' (Hvirt & Hm & Hap & Hr)%same_fields Hp. split; [by eexists|done..|].
  rewrite Hr, Hvirt, Hap. intros E. destruct (Happ E) as (? & ab & Hab & Hl). split; [done|]. exists ab. split; [|done]. rewrite Hp by congruence. done.
Qed.

Lemma inv_frame s s' q a es : inv s q a es -> frame s s' -> nvram_ok s' -> inv s' q a es.
Proof.
  intros Hi Hf Hn. pose proof Hi as [(tail & Hv) Hw _ _ _]. eapply inv_same; [done|by eapply vol_frame|done|done|by apply frame_same|by apply pool_kept_frame].
Qed.

Lemma find_target nm g es : nm <> [0; 0] -> log_wf es -> target nm g es (find_log (matches nm g) 0 es None).
Proof.
  intros Hne Hwf. destruct (find_cases nm g es Hwf) as [(l1 & e & l2 & -> & Hk & H1 & H2)|H]; [right|left].
  - exists l1, e, l2. split_and!; try done. by rewrite find_log_one.
  - split; [by rewrite find_log_none|done].
Qed.

Lemma target_find nm g es variable : target nm g es variable ->
  match variable with
  | Some off => exists l1 e l2, es = l1 ++ e :: l2 /\ off = used l1 /\ is_key nm g e = true /\ log_find nm g es = Some e /\
      (forall f, at_key nm g f es = l1 ++ f e :: l2) /\ Forall (fun e => is_key nm g e = false) l1 /\ Forall (fun e => is_key nm g e = false) l2
  | None => log_find nm g es = None /\ Forall (fun e => is_key nm g e = false) es
  end.
Proof.
  intros [(-> & Hn)|(l1 & e & l2 & -> & Hk & H1 & H2 & ->)].
  - split; [by apply log_find_none|done].
  - exists l1, e, l2. split_and!; try done; [by apply log_find_one|]. intros f. by apply at_key_one.
Qed.

Lemma new_entry_ok nm g Attributes data : is_name nm -> Zlength nm <= EFI_MAX_VARIABLE_NAME_SIZE -> is_guid g -> 0 <= Attributes < 2 ^ 32 - 1 ->
  Forall is_byte data -> Zlength data <= EFI_MAX_VARIABLE_DATA_SIZE -> entry_ok (new_entry nm g Attributes data).
Proof.
  intros Hn Hl [Hg Hgb] Ha Hd Hdl. unfold entry_ok, new_entry. cbn. pose proof (land_le Attributes (Z.lnot EFI_VARIABLE_APPEND_WRITE)). pose proof state_fits.
  split_and!; try done; lia.
Qed.

(** [State &= mask] on the entry of a key. *)
Lemma wp_mask s q a es l1 e l2 mask Q : inv s q a es -> es = l1 ++ e :: l2 -> log_wf (l1 ++ masked mask e :: l2) ->
  (forall s', inv s' q a (l1 ++ masked mask e :: l2) -> same s s' -> EfiAtRuntime s' = EfiAtRuntime s -> Q tt s') -> wpv (mask_State (used l1) mask) s Q.
Proof.
  intros Hi -> Hw HQ. pose proof Hi as [(tail & Hv) _ Hn _ _]. destruct (vol_mask _ _ _ _ _ _ mask Hv) as (s' & E & Hv' & b & ->).
  eapply wpv_run; [exact E|]. apply HQ; [|apply put_same_state|done].
  eapply inv_same; [exact Hi|exact Hv'|done|by apply nvram_put|apply put_same_state|apply pool_kept_put].
Qed.

(** ** Reading the data of the caller *)
Lemma has_data_read Data n : has_data Data n -> exists data, caller_read Data 0 n = Ok data /\ Zlength data = n /\ Forall is_byte data.
Proof. intros H. pose proof H as [Hn _]. destruct (caller_read_run Data n 0 n H) as (bs & E & Hl & Hb & _); [lia..|]. by exists bs. Qed.

Lemma Zlength_nil_iff (data : list Z) : (Zlength data =? 0) = bool_decide (data = []).
Proof. by destruct data. Qed.

Lemma compare_equal (a b : list Z) : length a = length b -> exists d, compare_bytes (length a) a b = Ok d /\ (d =? 0) = bool_decide (a = b).
Proof.
  revert b. induction a as [|x a IH]; intros [|y b] Hl; try done; [by exists 0|]. cbn [length]. rewrite compare_cons.
  destruct (Z.eqb_spec x y) as [->|Hne].
  - destruct (IH b) as (d & E & Hd); [by injection Hl|]. exists d. split; [done|]. rewrite Hd.
    destruct (decide (a = b)) as [->|]; [by rewrite !bool_decide_true|]. rewrite !bool_decide_false by congruence. done.
  - eexists; split; [done|]. rewrite bool_decide_false by congruence. apply Z.eqb_neq. lia.
Qed.

(** ** Appending *)
Lemma pool_write_run s p a ab off bs : virtual s !! p = Some a -> pool s !! a = Some ab -> 0 <= off -> off + Zlength bs <= Zlength ab ->
  pool_write p off bs s = Ok (tt, put_store a (overwrite off bs ab) s).
Proof. intros Hv Hp Ho Hl. unfold pool_write, physical, object, vlift, vmod, mbind, V_bind. rewrite Hv, Hp. cbn. by rewrite mem_write_overwrite by lia. Qed.

Lemma pool_read_run s p a ab off n bs : virtual s !! p = Some a -> pool s !! a = Some ab -> mem_read ab off n = Ok bs -> pool_read p off n s = Ok (bs, s).
Proof. intros Hv Hp E. unfold pool_read, physical, object, vlift, mbind, V_bind. rewrite Hv, Hp. cbn. by rewrite E. Qed.

Lemma overwrite_tail n (old new r : list Z) : Zlength old = n -> overwrite n new (old ++ r) = old ++ new ++ drop (length new) r.
Proof.
  intros <-. unfold overwrite, Zlength. rewrite Nat2Z.id, <- Nat2Z.inj_add, Nat2Z.id, take_app_length. by rewrite drop_app_add'.
Qed.

(** Changing the append buffer does not touch the store. *)
Lemma vol_append s q a es tail b : q <> a -> vol s q es tail -> vol (put_store a b s) q es tail.
Proof. intros Hne [[V1 V2] V3 V4 V5 V6 V7]. split; try done. split; [done|]. cbn. by rewrite lookup_insert_ne. Qed.

Lemma inv_buffer s q a es b : inv s q a es -> Zlength b = EFI_MAX_VARIABLE_DATA_SIZE -> inv (put_store a b s) q a es.
Proof.
  intros [(tail & Hv) Hw Hn Ha Happ] Hb. split; [exists tail; by apply vol_append|done|by apply nvram_put|done|].
  intros E. destruct (Happ E) as (Hm & _). split; [done|]. exists b. cbn. by rewrite lookup_insert_eq.
Qed.

Lemma append_run s q a es l1 e l2 Data n data : inv s q a es -> EfiAtRuntime s = false -> es = l1 ++ e :: l2 -> has_data Data n -> caller_read Data 0 n = Ok data ->
  Zlength data = n -> Zlength (e_data e ++ data) <= EFI_MAX_VARIABLE_DATA_SIZE ->
  exists b, Zlength b = EFI_MAX_VARIABLE_DATA_SIZE /\ append_data (used l1) Data n s = Ok (e_data e ++ data, put_store a b s).
Proof.
  intros Hi Hr -> HD Hread Hn Hmax. pose proof Hi as [(tail & Hv) Hw _ Hne Happ]. destruct (Happ Hr) as (Hm & ab & Hab & Hl).
  destruct Hv as [V1 V2 V3 V4 V5 V6]. apply Forall_app in V4 as [Hl1 [He Hl2]%Forall_cons_1].
  unfold store_bytes in V1. rewrite log_app, log_cons, <- !app_assoc in V1. assert (Ho : Zlength (log_bytes l1) = used l1) by by apply Zlength_log.
  rewrite Zlength_app in Hmax. pose proof (Zlength_nonneg (e_data e)). pose proof (Zlength_nonneg data).
  unfold append_data. rewrite (vbind_Ok _ _ _ _ _ (header_at_run _ _ _ _ _ _ V1 He Ho)).
  pose proof (data_run _ _ _ _ _ _ V1 He Ho) as Hdata. unfold padded_size in Hdata. cbn [e_header NameSize DataSize_].
  replace (used l1 + (sizeof_VARIABLE_HEADER + Zlength (e_name e) + GET_PAD_SIZE (Zlength (e_name e))))
    with (used l1 + sizeof_VARIABLE_HEADER + (Zlength (e_name e) + GET_PAD_SIZE (Zlength (e_name e)))) by lia.
  rewrite (vbind_Ok _ _ _ _ _ Hdata), vget_bind.
  rewrite (vbind_Ok _ _ _ _ _ (pool_write_run _ _ _ _ 0 (e_data e) Hm Hab ltac:(lia) ltac:(lia))), (vlift_bind _ _ _ _ Hread).
  set (b1 := overwrite 0 (e_data e) ab). assert (Hb1 : Zlength b1 = EFI_MAX_VARIABLE_DATA_SIZE) by (unfold b1; rewrite Zlength_overwrite by lia; done).
  assert (A1 : pool (put_store a b1 s) !! a = Some b1) by (cbn; apply lookup_insert_eq).
  rewrite (vbind_Ok _ _ _ _ _ (pool_write_run _ _ _ _ (Zlength (e_data e)) data (Hm : virtual (put_store a b1 s) !! _ = _) A1 ltac:(lia) ltac:(lia))), put_put.
  set (b2 := overwrite _ data b1). exists b2. split; [unfold b2; rewrite Zlength_overwrite by lia; done|].
  assert (E2 : b2 = (e_data e ++ data) ++ drop (length data) (drop (Z.to_nat (Zlength (e_data e))) ab)).
  { unfold b2, b1. change (overwrite 0 (e_data e) ab) with (e_data e ++ drop (Z.to_nat (Zlength (e_data e))) ab). rewrite overwrite_tail by done. by rewrite <- app_assoc. }
  eapply pool_read_run; [exact (Hm : virtual (put_store a b2 s) !! _ = _)|apply lookup_insert_eq|].
  rewrite E2. apply (mem_read_mid []); [done|]. rewrite Zlength_app. lia.
Qed.

(** ** The update *)
Section Call.
Context (buf nm g : list Z) (Data : option (list Z)) (n : Z) (data : list Z) (Attributes : Z).
Context (Hname : holds_name buf nm) (Hne : nm <> [0; 0]) (Hnl : Zlength nm <= EFI_MAX_VARIABLE_NAME_SIZE) (Hg : is_guid g).
Context (HD : has_data Data n) (Hread : caller_read Data 0 n = Ok data) (Hn : Zlength data = n) (Hb : Forall is_byte data).
Context (Hsmall : n <= EFI_MAX_VARIABLE_DATA_SIZE) (HA : 0 <= Attributes < 2 ^ 32 - 1).

Lemma wp_store s q a es variable data' (Q : EFI_STATUS -> variables -> Prop) : inv s q a es -> target nm g es variable ->
  Forall is_byte data' -> Zlength data' <= EFI_MAX_VARIABLE_DATA_SIZE ->
  let p := Store es (new_entry nm g Attributes data') in
  benign p = true -> (forall s', inv s' q a (outcome p).2 -> same s s' -> Q (outcome p).1 s') ->
  wpv (store_variable buf g data' Attributes variable) s Q.
Proof.
  intros Hi Ht Hb' Hl' p Hben HQ. pose proof Hi as [(tail & Hv) Hw Hnv _ _]. destruct Hname as (Hnm & _).
  eapply wp_store_variable; try done; [by apply new_entry_ok|]. intros s' tail' Hv' Hw' Hn' Hs' Hp'. apply HQ; [|done].
  eapply inv_same; [exact Hi|exact Hv'|done..].
Qed.

(** The existing variable: the status, or the data and a hidden predecessor. *)
Lemma wp_update_existing s q a l1 e l2 (Q : EFI_STATUS -> variables -> Prop) : let es := l1 ++ e :: l2 in
  inv s q a es -> is_key nm g e = true -> Forall (fun e => is_key nm g e = false) l1 -> Forall (fun e => is_key nm g e = false) l2 ->
  has Attributes (Z.lor EFI_VARIABLE_AUTHENTICATED_WRITE_ACCESS EFI_VARIABLE_TIME_BASED_AUTHENTICATED_WRITE_ACCESS) = false ->
  has Attributes EFI_VARIABLE_NON_VOLATILE = false ->
  let p := log_plan es nm g Attributes data (EfiAtRuntime s) in
  benign p = true -> (forall s', inv s' q a (outcome p).2 -> same s s' -> Q (outcome p).1 s') ->
  wpv (r ← update_existing Data n Attributes (used l1);
       match r with inl status => mret status | inr data => store_variable buf g data Attributes (Some (used l1)) end) s Q.
Proof.
  intros es Hi Hk H1 H2 Hauth Hnv p Hben HQ. pose proof Hi as [(tail & [V1 V2 V3 V4 V5 V6]) Hw Hnvr Hne' Happ].
  apply Forall_app in V4 as [Hl1 [He Hl2]%Forall_cons_1]. assert (Ho : Zlength (log_bytes l1) = used l1) by by apply Zlength_log.
  unfold es, store_bytes in V1. rewrite log_app, log_cons, <- !app_assoc in V1.
  assert (Hat : forall f, at_key nm g f es = l1 ++ f e :: l2) by (intros; by apply at_key_one).
  assert (Hfind : log_find nm g es = Some e) by by apply log_find_one.
  unfold p, log_plan in Hben, HQ. rewrite Hauth, Hnv, Hfind in Hben. setoid_rewrite Hauth in HQ. setoid_rewrite Hnv in HQ. setoid_rewrite Hfind in HQ.
  unfold update_existing. apply wpv_bind, wpv_vget. destruct (EfiAtRuntime s) eqn:Er; [apply wpv_ret, wpv_ret, HQ; [done|apply same_refl]|].
  rewrite <- Hn at 1. rewrite Zlength_nil_iff. fold (accessible Attributes).
  destruct ((negb (has Attributes EFI_VARIABLE_APPEND_WRITE) && bool_decide (data = [])) || negb (accessible Attributes)) eqn:Edel.
  { apply wpv_bind. eapply wp_mask; [exact Hi|done| |].
    - rewrite <- Hat. by apply wf_delete.
    - intros s' Hi' Hs' _. apply wpv_ret, wpv_ret, HQ; [|done]. cbn. unfold delete_key. by rewrite Hat. }
  eapply wpv_bind_run; [by eapply data_size_run|].
  eapply (wpv_bind_run _ _ _ (bool_decide (data = e_data e)) s).
  { rewrite <- Hn. destruct (Z.eqb_spec (Zlength (e_data e)) (Zlength data)) as [El|El].
    - rewrite (vbind_Ok _ _ _ _ _ (data_ptr_run _ _ _ _ _ _ V1 He Ho)), <- El, (vbind_Ok _ _ _ _ _ (data_run _ _ _ _ _ _ V1 He Ho)).
      rewrite El, Hn, (vlift_bind _ _ _ _ Hread). destruct (compare_equal data (e_data e)) as (d & Ed & Hd); [unfold Zlength in El; lia|].
      rewrite (vlift_bind _ d) by (unfold CompareMem; rewrite <- Hn; unfold Zlength; rewrite Nat2Z.id; exact Ed). by rewrite Hd.
    - rewrite bool_decide_false by congruence. done. }
  rewrite (andb_comm (bool_decide _)).
  destruct (negb (has Attributes EFI_VARIABLE_APPEND_WRITE) && bool_decide (data = e_data e)) eqn:Esame; [apply wpv_ret, wpv_ret, HQ; [done|apply same_refl]|].
  assert (Hstore : forall s1 data', inv s1 q a es -> same s s1 -> Forall is_byte data' -> Zlength data' <= EFI_MAX_VARIABLE_DATA_SIZE ->
    let p := Store (hide_key nm g es) (new_entry nm g Attributes data') in
    benign p = true -> (forall s', inv s' q a (outcome p).2 -> same s s' -> Q (outcome p).1 s') ->
    wpv (mask_State (used l1) VAR_IN_DELETED_TRANSITION;; mret (inr data'))
      s1 (fun r s' => wpv (match r with inl status => mret status | inr data => store_variable buf g data Attributes (Some (used l1)) end) s' Q)).
  { intros s1 data' Hi1 Hs1 Hb' Hl' p' Hben' HQ'. apply wpv_bind. eapply wp_mask; [exact Hi1|done| |].
    - rewrite <- Hat. by apply wf_hide.
    - intros s2 Hi2 Hs2 _. apply wpv_ret. eapply (wp_store s2 q a (hide_key nm g es)); try done.
      + unfold hide_key. by rewrite Hat.
      + right. exists l1, (masked VAR_IN_DELETED_TRANSITION e), l2. split_and!; try done; [apply Hat|].
        apply is_key_true in Hk as (Hl & E1 & E2). apply is_key_true. split_and!; [by apply hidden_live|done|done].
      + intros s3 Hi3 Hs3. apply HQ'; [done|]. eapply same_trans; [exact Hs1|]. by eapply same_trans. }
  destruct (has Attributes EFI_VARIABLE_APPEND_WRITE) eqn:Eapp; cbn [negb andb] in *.
  - eapply wpv_bind_run; [by eapply header_at_run|]. cbn [e_header DataSize_].
    pose proof (Zlength_nonneg (e_data e)). pose proof (Zlength_nonneg data). pose proof He as (_ & _ & Hdb & Hdl & _).
    unfold u64. rewrite Z.mod_small by (unfold EFI_MAX_VARIABLE_DATA_SIZE in *; lia). rewrite <- Hn at 1. rewrite <- Zlength_app.
    destruct (Z.ltb_spec EFI_MAX_VARIABLE_DATA_SIZE (Zlength (e_data e ++ data))); [apply wpv_ret, wpv_ret, HQ; [done|apply same_refl]|].
    destruct (append_run s q a es l1 e l2 Data n data) as (b & Hbl & Eb); try done. eapply wpv_bind_run; [exact Eb|].
    apply Hstore; [by apply inv_buffer|apply put_same_state|by apply Forall_app|done..].
  - eapply wpv_vlift; [exact Hread|]. apply Hstore; [done|apply same_refl|done|lia|done..].
Qed.

Lemma wp_UpdateVariable s q a es (Q : EFI_STATUS -> variables -> Prop) : inv s q a es ->
  let p := log_plan es nm g Attributes data (EfiAtRuntime s) in
  benign p = true -> (forall s', inv s' q a (outcome p).2 -> same s s' -> Q (outcome p).1 s') ->
  wpv (UpdateVariable buf g Data n Attributes (find_log (matches nm g) 0 es None)) s Q.
Proof.
  intros Hi p Hben HQ. pose proof Hi as [_ Hw _ _ _]. pose proof (find_target nm g es Hne Hw) as Ht.
  unfold UpdateVariable.
  destruct (has Attributes (Z.lor EFI_VARIABLE_AUTHENTICATED_WRITE_ACCESS EFI_VARIABLE_TIME_BASED_AUTHENTICATED_WRITE_ACCESS)) eqn:Hauth.
  { unfold p, log_plan in HQ. setoid_rewrite Hauth in HQ. apply wpv_ret, HQ; [done|apply same_refl]. }
  destruct (has Attributes EFI_VARIABLE_NON_VOLATILE) eqn:Hnv.
  { unfold p, log_plan in HQ. setoid_rewrite Hauth in HQ. setoid_rewrite Hnv in HQ. apply wpv_ret, HQ; [done|apply same_refl]. }
  destruct Ht as [(E & Hnone)|(l1 & e & l2 & Ees & Hk & H1 & H2 & E)]; rewrite E.
  2: { subst es. eapply wp_update_existing; try done. }
  assert (Hfind : log_find nm g es = None) by by apply log_find_none.
  unfold p, log_plan in Hben, HQ. rewrite Hauth, Hnv, Hfind in Hben. setoid_rewrite Hauth in HQ. setoid_rewrite Hnv in HQ. setoid_rewrite Hfind in HQ.
  unfold update_new. fold (accessible Attributes). replace (n =? 0) with (bool_decide (data = [])) by (rewrite <- Hn; by rewrite Zlength_nil_iff).
  apply wpv_bind. destruct (bool_decide (data = []) && has Attributes EFI_VARIABLE_APPEND_WRITE); [apply wpv_ret, wpv_ret, HQ; [done|apply same_refl]|].
  destruct (bool_decide (data = []) || negb (accessible Attributes)); [apply wpv_ret, wpv_ret, HQ; [done|apply same_refl]|].
  apply wpv_vget. destruct (EfiAtRuntime s); [apply wpv_ret, wpv_ret, HQ; [done|apply same_refl]|].
  eapply wpv_vlift; [exact Hread|]. apply wpv_ret. eapply wp_store; try done; [by left|lia].
Qed.
End Call.
End Ops.
End VariableOps.
