(* ===== verification/VariableServices.v ===== *)
(** The four services and the two events on the invariant: what each answers as a
    function of the log, or that the host answers. *)
From Stdlib Require Import ZArith Lia.
From stdpp Require Import base list numbers list_numbers option gmap.
From S2P Require Import Prelude Circular VariableDxe VariableRep VariableNvram VariableReclaim VariableUpdate VariableOps.
Open Scope Z_scope.

Module VariableServices.
Import VariableDxe VariableRep VariableNvram VariableReclaim VariableUpdate VariableOps.

Section Services.
Context {B : BuildOptions} {BD : BiosDevice} {FW : Firmware} {VF : VariableFormat} {LW : VariableFormatLaws VF}
  {FL : FirmwareLaws FW} {DL : DeviceLaws BD}.

(** ** Searching *)

(** The entry [FindVariable] designates, with what lies before and after it. *)
Fixpoint search (p : entry -> bool) (pre es : list entry) (deleted : option (list entry * entry * list entry)) : option (list entry * entry * list entry) :=
  match es with
  | [] => deleted
  | e :: es =>
    if live e && p e then if transition e then search p (pre ++ [e]) es (Some (pre, e, es)) else Some (pre, e, es)
    else search p (pre ++ [e]) es deleted
  end.
Definition offset (r : option (list entry * entry * list entry)) : option Z := '(l1, _, _) ← r; Some (used l1).

Lemma used_snoc l e : used (l ++ [e]) = used l + e_size e.
Proof. rewrite log_used_app, used_cons. cbn [used foldr]. lia. Qed.

Lemma find_search p es : forall pre deleted, find_log p (used pre) es (offset deleted) = offset (search p pre es deleted).
Proof.
  induction es as [|e es IH]; intros pre deleted; [done|]. cbn [find_log search]. rewrite <- used_snoc.
  destruct (live e && p e); [|apply IH]. destruct (transition e); [apply (IH _ (Some (pre, e, es)))|done].
Qed.

Lemma search_split p es : forall pre deleted l1 e l2,
  (forall l1 e l2, deleted = Some (l1, e, l2) -> pre ++ es = l1 ++ e :: l2 /\ live e = true /\ p e = true) ->
  search p pre es deleted = Some (l1, e, l2) -> pre ++ es = l1 ++ e :: l2 /\ live e = true /\ p e = true.
Proof.
  induction es as [|x es IH]; intros pre deleted l1 e l2 Hdel; cbn [search]; [by apply Hdel|].
  assert (Hx : forall del, (forall l1 e l2, del = Some (l1, e, l2) -> pre ++ x :: es = l1 ++ e :: l2 /\ live e = true /\ p e = true) ->
    search p (pre ++ [x]) es del = Some (l1, e, l2) -> pre ++ x :: es = l1 ++ e :: l2 /\ live e = true /\ p e = true).
  { intros del Hd E. replace (pre ++ x :: es) with ((pre ++ [x]) ++ es) in * by by rewrite <- app_assoc. by apply (IH _ del). }
  destruct (live x && p x) eqn:Ex; [|by apply Hx]. apply andb_true_iff in Ex as [Hl Hp].
  destruct (transition x); [apply Hx; by intros ??? [= <- <- <-]|by intros [= <- <- <-]].
Qed.

Definition designated (nm g : list Z) (es : list entry) : option (list entry * entry * list entry) := search (matches nm g) [] es None.

Lemma designated_split nm g es l1 e l2 : designated nm g es = Some (l1, e, l2) -> es = l1 ++ e :: l2 /\ live e = true /\ matches nm g e = true.
Proof. intros E. by apply (search_split _ es [] None). Qed.

Lemma FindVariable_designated s q a es buf nm g : inv s q a es -> holds_name buf nm ->
  FindVariable buf g s = Ok ((find_status (offset (designated nm g es)), offset (designated nm g es)), s).
Proof.
  intros [(tail & Hv) _ _ _ _] Hb. rewrite (FindVariable_run s q es tail buf nm g Hv Hb). unfold designated. by rewrite <- (find_search _ es [] None).
Qed.

(** A designated entry in the store. *)
Lemma designated_entry s q a es l1 e l2 : inv s q a es -> es = l1 ++ e :: l2 ->
  exists post, at_store s q (log_bytes l1 ++ entry_bytes e ++ post) /\ entry_ok e /\ Zlength (log_bytes l1) = used l1.
Proof.
  intros [(tail & [V1 V2 V3 V4 V5 V6]) _ _ _ _] ->. apply Forall_app in V4 as [Hl1 [He Hl2]%Forall_cons_1].
  unfold store_bytes in V1. rewrite log_app, log_cons, <- !app_assoc in V1. eexists; split; [exact V1|]. split; [done|by apply Zlength_log].
Qed.

(** ** GetVariable *)
Definition get_reply (e : entry) (wants : bool) (DataSize : Z) (Data : option (list Z)) : get_result :=
  if DataSize <? Zlength (e_data e) then mkGet EFI_BUFFER_TOO_SMALL None (Zlength (e_data e)) Data
  else match Data with
  | None => mkGet EFI_INVALID_PARAMETER None DataSize None
  | Some b => mkGet EFI_SUCCESS (if wants then Some (e_Attributes e) else None) (Zlength (e_data e)) (Some (overwrite 0 (e_data e) b))
  end.

Lemma wp_GetVariable s q a es buf nm g wants n Data (Q : get_result -> variables -> Prop) : inv s q a es -> holds_name buf nm -> is_guid g -> has_data Data n ->
  (forall r s', inv s' q a es -> frame s s' ->
     match designated nm g es with Some (_, e, _) => r = get_reply e wants n Data | None => get_fits n Data r end -> Q r s') ->
  wpv (VariableServiceGetVariable (Some buf) (Some g) wants (Some n) Data) s Q.
Proof.
  intros Hi Hname Hg HD HQ. unfold VariableServiceGetVariable. pose proof HD as [Hn HD'].
  replace (negb (bool_decide (is_Some Data)) && negb (n =? 0)) with false by (destruct Data; [done|]; by rewrite HD').
  apply wpv_bind. eapply wpv_mono; [apply debug_log_safe, Hi|]. intros [] s1 (Hf1 & Hn1 & _). pose proof (inv_frame _ _ _ _ _ Hi Hf1 Hn1) as Hi1.
  eapply wpv_bind_run; [by eapply FindVariable_designated|].
  destruct (designated nm g es) as [[[l1 e] l2]|] eqn:Ed; cbn [offset mbind option_bind find_status].
  - apply designated_split in Ed as (Ees & Hl & Hm). destruct (designated_entry _ _ _ _ _ _ _ Hi1 Ees) as (post & Hat & He & Ho). cbn [EFI_ERROR].
    eapply wpv_bind_run; [by eapply header_at_run|]. cbn [e_header DataSize_ Attributes_].
    unfold get_reply in HQ. destruct (Z.ltb_spec n (Zlength (e_data e))); [by apply wpv_ret, HQ|].
    destruct Data as [b|]; [|by apply wpv_ret, HQ].
    eapply wpv_bind_run; [by eapply data_ptr_run|]. eapply wpv_bind_run; [by eapply data_run|].
    destruct (caller_write_run (Some b) n (e_data e) HD) as (Data' & E & HS & _); [lia|]. eapply wpv_vlift; [exact E|].
    rewrite (HS b eq_refl). by apply wpv_ret, HQ.
  - eapply wpv_mono; [by eapply NvramGetVariable_safe|]. intros r s2 (Hf2 & Hn2 & Hr). apply HQ; [by eapply inv_frame|by eapply frame_trans|done].
Qed.

(** ** GetNextVariableName *)
Definition listed (runtime : bool) (e : entry) : bool := added e && negb (runtime && negb (has (e_Attributes e) EFI_VARIABLE_RUNTIME_ACCESS)).
Definition next_reply (e : entry) (size : Z) (name g : list Z) : next_result :=
  if Zlength (e_name e) <=? size then mkNext EFI_SUCCESS (Zlength (e_name e)) (overwrite 0 (e_name e) name) (e_guid e)
  else mkNext EFI_BUFFER_TOO_SMALL (Zlength (e_name e)) name g.

Lemma log_length es : Forall entry_ok es -> 3 * Z.of_nat (length es) <= used es.
Proof.
  induction 1 as [|e es He Hes IH]; [done|]. rewrite used_cons. cbn [length]. pose proof (size_bounds e He). pose proof sizeof_bounds. lia.
Qed.

Section Next.
Context (s : variables) (q a : Z) (size : Z) (name g : list Z).
Context (Hsize : 0 <= size <= Zlength name) (Hg : is_guid g).

Lemma wp_next_loop (Q : next_result -> variables -> Prop) : forall l2 l1 n, inv s q a (l1 ++ l2) -> (length l2 + 1 < n)%nat ->
  (forall r s', inv s' q a (l1 ++ l2) -> frame s s' ->
     match List.find (listed (EfiAtRuntime s)) l2 with Some e => r = next_reply e size name g | None => next_fits size name r end -> Q r s') ->
  wpv (next_loop n size name g (Some (used l1))) s Q.
Proof.
  assert (Hfirst : forall (P : next_result -> variables -> Prop) es, inv s q a es ->
    (forall r s', inv s' q a es -> frame s s' -> next_fits size name r -> P r s') -> wpv (NvramGetFirstVariableName size name g) s P).
  { intros P es Hi HP. eapply wpv_mono; [apply NvramGetFirstVariableName_safe; [done|done|apply Hi]|]. intros r s' (Hf & Hn & Hr). apply HP; [by eapply inv_frame|done|done]. }
  induction l2 as [|e l2 IH]; intros l1 [|n] Hi Hn HQ; try (simpl in Hn; lia); cbn [next_loop].
  - rewrite app_nil_r in Hi, HQ. destruct (Z.leb_spec GetEndPointer (used l1)); [by eapply Hfirst|].
    pose proof Hi as [(tail & [V1 V2 V3 V4 V5 V6]) _ _ _ _].
    destruct (store_ended l1 tail V3 V5) as [E|(post' & E & Hl)]; [unfold GetEndPointer in *; lia|].
    unfold store_bytes in V1. rewrite E in V1. destruct (header_erased _ _ _ _ _ V1 Hl (Zlength_log _ V4)) as (h & Eh & Hh).
    assert (Ev : IsValidVariableHeader (Some (used l1)) s = Ok (false, s)) by (unfold IsValidVariableHeader; rewrite (vbind_Ok _ _ _ _ _ Eh); by rewrite Hh).
    eapply wpv_bind_run; [exact Ev|]. eapply wpv_bind_run; [exact Eh|]. apply wpv_vget. cbn [andb].
    eapply (wpv_bind_run _ _ _ None s); [unfold GetNextVariablePtr; by rewrite (vbind_Ok _ _ _ _ _ Ev)|].
    destruct n as [|n]; [simpl in Hn; lia|]. cbn [next_loop]. by eapply Hfirst.
  - destruct (designated_entry _ _ _ _ _ _ _ Hi eq_refl) as (post & Hat & He & Ho).
    destruct (Z.leb_spec GetEndPointer (used l1)) as [Hge|_].
    { pose proof Hi as [(tail & [V1 V2 V3 V4 V5 V6]) _ _ _ _]. rewrite log_used_app, used_cons in V3. apply Forall_app in V4 as [_ [_ V4]%Forall_cons_1].
      pose proof (size_bounds _ He). pose proof sizeof_bounds. pose proof (log_used_bounds _ V4). unfold GetEndPointer in Hge. lia. }
    eapply wpv_bind_run; [by eapply valid_run|]. eapply wpv_bind_run; [by eapply header_at_run|]. apply wpv_vget. rewrite added_header. cbn [e_header Attributes_ NameSize VendorGuid_ andb].
    cbn [List.find] in HQ. change (added e && _) with (listed (EfiAtRuntime s) e). destruct (listed (EfiAtRuntime s) e) eqn:El.
    + unfold next_reply in HQ. destruct (Z.leb_spec (Zlength (e_name e)) size).
      * eapply wpv_bind_run; [by eapply name_run|]. eapply wpv_vlift; [apply mem_write_overwrite; lia|]. apply wpv_ret, HQ; [done|apply frame_refl|done].
      * apply wpv_ret, HQ; [done|apply frame_refl|done].
    + eapply wpv_bind_run; [by eapply next_ptr_run|]. rewrite <- used_snoc. apply IH; [by rewrite <- app_assoc|simpl in Hn; lia|]. by rewrite <- app_assoc.
Qed.
End Next.

(** Where the enumeration continues: behind the variable that is named, or at the
    first one for an empty name. *)
Definition continuation (nm g : list Z) (es : list entry) : option (list entry) :=
  '(l1, e, l2) ← designated nm g es; Some (if bool_decide (nm = [0; 0]) then e :: l2 else l2).

Lemma wp_GetNextVariableName s q a es buf nm g size (Q : next_result -> variables -> Prop) : inv s q a es -> holds_name buf nm -> Forall is_byte buf -> is_guid g ->
  0 <= size <= Zlength buf ->
  (forall r s', inv s' q a es -> frame s s' ->
     match continuation nm g es ≫= List.find (listed (EfiAtRuntime s)) with Some e => r = next_reply e size buf g | None => next_fits size buf r end -> Q r s') ->
  wpv (VariableServiceGetNextVariableName (Some size) (Some buf) (Some g)) s Q.
Proof.
  intros Hi Hname Hbytes Hg Hsize HQ. unfold VariableServiceGetNextVariableName.
  apply wpv_bind. eapply wpv_mono; [apply debug_log_safe, Hi|]. intros [] s1 (Hf1 & Hn1 & _). pose proof (inv_frame _ _ _ _ _ Hi Hf1 Hn1) as Hi1.
  assert (Hr1 : EfiAtRuntime s1 = EfiAtRuntime s) by by apply frame_fields.
  eapply wpv_bind_run; [by eapply FindVariable_designated|]. unfold continuation in HQ.
  destruct (designated nm g es) as [[[l1 e] l2]|] eqn:Ed; cbn [offset mbind option_bind find_status] in *.
  2: { eapply wpv_mono; [apply NvramGetNextVariableName_safe; try done; apply Hi1|]. intros r s2 (Hf2 & Hn2 & Hr). apply HQ; [by eapply inv_frame|by eapply frame_trans|done]. }
  apply designated_split in Ed as (Ees & Hl & Hm). destruct (designated_entry _ _ _ _ _ _ _ Hi1 Ees) as (post & Hat & He & Ho). cbn [EFI_ERROR].
  assert (Hlen : (length es + 1 < walk_fuel)%nat).
  { pose proof Hi as [(tail & [V1 V2 V3 V4 V5 V6]) _ _ _ _]. pose proof (log_length _ V4). unfold walk_fuel, STORE_MAIN_SIZE in *. lia. }
  destruct Hname as (Hnm & _ & rest & ->). destruct (first_char_empty nm rest Hnm) as (c & Ec & Hc). eapply wpv_vlift; [exact Ec|]. rewrite Hc.
  rewrite <- Hr1 in HQ. subst es. destruct (bool_decide (nm = [0; 0])).
  - apply wpv_bind, wpv_ret. eapply wp_next_loop; [done|done|exact Hi1|rewrite length_app in Hlen; lia|].
    intros r s2 Hi2 Hf2 Hr. apply HQ; [done|by eapply frame_trans|done].
  - eapply wpv_bind_run; [by eapply next_ptr_run|]. rewrite <- used_snoc.
    eapply (wp_next_loop _ _ _ _ _ _ _ _ _ l2 (l1 ++ [e])); rewrite <- ?app_assoc; [exact Hi1|rewrite length_app in Hlen; cbn in Hlen; lia|].
    intros r s2 Hi2 Hf2 Hr. apply HQ; [done|by eapply frame_trans|done].
  Unshelve. all: done.
Qed.

(** ** SetVariable *)
Lemma has_lor a x y : has a (Z.lor x y) = has a x || has a y.
Proof.
  unfold has. rewrite Z.land_lor_distr_r. destruct (Z.eqb_spec (Z.land a x) 0) as [->|Hx]; [by rewrite Z.lor_0_l|].
  destruct (Z.eqb_spec (Z.lor (Z.land a x) (Z.land a y)) 0) as [E|]; [|done]. apply Z.lor_eq_0_iff in E as [? _]. lia.
Qed.

Lemma mask_bound a : 0 <= a -> has a (Z.lnot EFI_VARIABLE_ATTRIBUTES_MASK) = false -> a < 128.
Proof.
  unfold has, EFI_VARIABLE_ATTRIBUTES_MASK. intros Ha H%negb_false_iff%Z.eqb_eq.
  assert (E : a = Z.land a 127).
  { apply Z.bits_inj'. intros i Hi. apply (f_equal (fun z => Z.testbit z i)) in H. rewrite Z.land_spec, Z.lnot_spec, Z.bits_0 in H by lia.
    rewrite Z.land_spec. by destruct (Z.testbit a i), (Z.testbit 127 i). }
  rewrite E. change 127 with (Z.ones 7). rewrite Z.land_ones by lia. apply Z.mod_pos_bound. lia.
Qed.

Lemma StrCmp_total cs : Forall (fun c => c <> 0) cs -> forall nm rest, StrSize nm = Ok (Zlength nm) -> exists b, StrCmp (nm ++ rest) cs = Ok b.
Proof.
  induction 1 as [|c cs Hc Hcs IH]; intros nm rest; revert nm; apply name_cases; try (intros; by eexists).
  - cbn. destruct c; [done|by eexists..].
  - intros lo hi nm _ Hn _. cbn [app StrCmp]. destruct (lo + 256 * hi =? c); [by apply IH|by eexists].
Qed.

Lemma IsReadOnly_total buf nm g : holds_name buf nm -> exists b, IsReadOnlyVariable buf g = Ok b.
Proof.
  intros ((Hn & _) & _ & rest & ->). unfold IsReadOnlyVariable. destruct (bool_decide _); [|by eexists].
  assert (H : forall cs, forallb (fun c => negb (c =? 0)) cs = true -> exists b, StrCmp (nm ++ rest) cs = Ok b).
  { intros cs Hcs. apply StrCmp_total; [|done]. apply Forall_forall. intros c Hc. rewrite forallb_forall in Hcs. apply list_elem_of_In, Hcs, negb_true_iff, Z.eqb_neq in Hc. done. }
  repeat match goal with
  | |- exists b, (StrCmp _ ?cs ≫= _) = Ok b => destruct (H cs eq_refl) as ([] & ->); rewrite bind_Ok; [by eexists|]
  end.
  apply H. done.
Qed.

Lemma set_checks_total buf nm g Attributes n Data : holds_name buf nm -> has_data Data n -> 0 <= Attributes ->
  exists r, set_checks buf g Attributes n Data = Ok r /\
    (r = None -> Zlength nm <= EFI_MAX_VARIABLE_NAME_SIZE /\ Attributes < 128 /\
       (has Attributes EFI_VARIABLE_TIME_BASED_AUTHENTICATED_WRITE_ACCESS = false -> n <= EFI_MAX_VARIABLE_DATA_SIZE)).
Proof.
  intros Hname HD HA. unfold set_checks. destruct (IsReadOnly_total buf nm g Hname) as (ro & ->). rewrite bind_Ok.
  destruct ro; [by eexists|]. destruct (_ && _); [by eexists|].
  destruct (has Attributes (Z.lnot EFI_VARIABLE_ATTRIBUTES_MASK)) eqn:Emask; [by eexists|]. apply mask_bound in Emask; [|done].
  destruct (_ =? _); [by eexists|]. destruct (has Attributes EFI_VARIABLE_AUTHENTICATED_WRITE_ACCESS && _); [by eexists|].
  destruct (has Attributes EFI_VARIABLE_AUTHENTICATED_WRITE_ACCESS); [by eexists|].
  destruct (holds_size _ _ Hname) as (Hsz & _). rewrite Hsz, bind_Ok.
  set (last := fun p => if EFI_MAX_VARIABLE_DATA_SIZE <? p then Ok (Some EFI_INVALID_PARAMETER)
                        else if EFI_MAX_VARIABLE_NAME_SIZE <? Zlength nm then Ok (Some EFI_INVALID_PARAMETER) else Ok None).
  assert (Hlast : forall p, exists r, last p = Ok r /\ (r = None -> Zlength nm <= EFI_MAX_VARIABLE_NAME_SIZE /\ p <= EFI_MAX_VARIABLE_DATA_SIZE)).
  { intros p. unfold last. destruct (Z.ltb_spec EFI_MAX_VARIABLE_DATA_SIZE p); [by eexists|]. destruct (Z.ltb_spec EFI_MAX_VARIABLE_NAME_SIZE (Zlength nm)); [by eexists|]. exists None. split; [done|lia]. }
  destruct (has Attributes EFI_VARIABLE_TIME_BASED_AUTHENTICATED_WRITE_ACCESS).
  - unfold auth_payload, OFFSET_OF_AUTHINFO2_CERT_DATA, OFFSET_OF_AuthInfo, OFFSET_OF_CertData. destruct (Z.ltb_spec n (16 + 24)); [by eexists|].
    destruct (caller_read_run Data n 16 4 HD) as (bs & -> & _); [lia..|]. rewrite bind_Ok. destruct (_ || _); [by eexists|]. rewrite bind_Ok.
    destruct (Hlast (n - (16 + le_combine bs))) as (r & E & Hr). exists r. split; [exact E|]. intros Hrn. by apply Hr in Hrn as [? _].
  - rewrite bind_Ok. destruct (Hlast n) as (r & E & Hr). exists r. split; [exact E|]. intros Hrn. destruct (Hr Hrn). auto.
Qed.

(** The plan of a call, if the volatile store has one. *)
Definition log_set (es : list entry) (buf nm g : list Z) (Attributes n : Z) (Data : option (list Z)) (data : list Z) (runtime : bool) : option plan :=
  if bool_decide (nm = [0; 0]) then Some (Answer EFI_INVALID_PARAMETER es)
  else match set_checks buf g Attributes n Data with
  | Ok (Some st) => Some (Answer st es)
  | _ =>
    let volatileExists := bool_decide (is_Some (log_find nm g es)) in
    if volatileExists && has Attributes EFI_VARIABLE_TIME_BASED_AUTHENTICATED_WRITE_ACCESS then Some (Answer EFI_INVALID_PARAMETER es)
    else if volatileExists || (negb (has Attributes EFI_VARIABLE_NON_VOLATILE) && negb (bool_decide (data = [])) && accessible Attributes)
    then Some (log_plan es nm g Attributes data runtime)
    else None
  end.

Lemma designated_find nm g es : nm <> [0; 0] -> log_wf es -> find_status (offset (designated nm g es)) = if log_find nm g es then EFI_SUCCESS else EFI_NOT_FOUND.
Proof.
  intros Hne Hwf. unfold designated. rewrite <- (find_search _ es [] None). cbn [used foldr offset mbind option_bind].
  pose proof (target_find _ _ _ _ (find_target nm g es Hne Hwf)) as H. destruct (find_log _ _ _ _).
  - by destruct H as (l1 & e & l2 & _ & _ & _ & -> & _).
  - by destruct H as (-> & _).
Qed.

Lemma wp_SetVariable s q a es buf nm g Attributes n Data data (Q : EFI_STATUS -> variables -> Prop) : inv s q a es -> holds_name buf nm -> is_guid g ->
  has_data Data n -> n < 2 ^ 32 -> 0 <= Attributes < 2 ^ 32 -> caller_read Data 0 n = Ok data -> Zlength data = n -> Forall is_byte data ->
  match log_set es buf nm g Attributes n Data data (EfiAtRuntime s) with
  | Some p => benign p = true /\ (forall s', inv s' q a (outcome p).2 -> same s s' -> Q (outcome p).1 s')
  | None => forall st s', inv s' q a es -> frame s s' -> Q st s'
  end -> wpv (VariableServiceSetVariable (Some buf) (Some g) Attributes n Data) s Q.
Proof.
  intros Hi Hname Hg HD Hn32 HA Hread Hlen Hb HQ. unfold VariableServiceSetVariable.
  pose proof Hname as (Hnm & _ & rest & Ebuf). destruct (first_char_empty nm rest Hnm) as (c & Ec & Hc). rewrite <- Ebuf in Ec. eapply wpv_vlift; [exact Ec|].
  rewrite Hc. unfold log_set in HQ. destruct (bool_decide_reflect (nm = [0; 0])) as [_|Hne]; [apply wpv_ret; apply HQ; [done|apply same_refl]|].
  apply wpv_bind. eapply wpv_mono; [apply debug_log_safe, Hi|]. intros [] s1 (Hf1 & Hn1 & _). pose proof (inv_frame _ _ _ _ _ Hi Hf1 Hn1) as Hi1.
  assert (Hr1 : EfiAtRuntime s1 = EfiAtRuntime s) by by apply frame_fields.
  destruct (set_checks_total buf nm g Attributes n Data Hname HD) as (r & Er & Hr); [lia|]. rewrite Er in HQ. eapply wpv_vlift; [exact Er|].
  destruct r as [st|]; [apply wpv_ret; apply HQ; [done|by apply frame_same]|]. destruct (Hr eq_refl) as (Hnl & HA' & Hsmall).
  eapply wpv_bind_run; [by eapply FindVariable_designated|]. pose proof Hi as [_ Hwf _ _ _].
  rewrite (designated_find nm g es Hne Hwf). cbv zeta in HQ.
  replace (negb (EFI_ERROR (if log_find nm g es then EFI_SUCCESS else EFI_NOT_FOUND))) with (bool_decide (is_Some (log_find nm g es))) by by destruct (log_find nm g es).
  destruct (bool_decide (is_Some (log_find nm g es)) && has Attributes EFI_VARIABLE_TIME_BASED_AUTHENTICATED_WRITE_ACCESS) eqn:Ext;
    [apply wpv_ret; apply HQ; [done|by apply frame_same]|].
  replace (0 <? n) with (negb (bool_decide (data = []))).
  2: { rewrite <- Zlength_nil_iff, Hlen. pose proof (Zlength_nonneg data). destruct (Z.eqb_spec n 0), (Z.ltb_spec 0 n); try done; lia. }
  unfold accessible in HQ. rewrite has_lor, (orb_comm (has Attributes EFI_VARIABLE_RUNTIME_ACCESS)) in HQ.
  destruct (_ || _) eqn:Ego.
  2: { eapply wpv_mono; [eapply NvramSetVariable_safe; try done; apply Hi1|]. intros st s2 (Hf2 & Hn2 & _). apply HQ; [by eapply inv_frame|by eapply frame_trans]. }
  destruct HQ as [Hben HQ]. destruct (has Attributes EFI_VARIABLE_TIME_BASED_AUTHENTICATED_WRITE_ACCESS) eqn:Et.
  - assert (Eor : has Attributes (Z.lor EFI_VARIABLE_AUTHENTICATED_WRITE_ACCESS EFI_VARIABLE_TIME_BASED_AUTHENTICATED_WRITE_ACCESS) = true) by by rewrite has_lor, Et, orb_true_r.
    unfold UpdateVariable. rewrite Eor. unfold log_plan in HQ. setoid_rewrite Eor in HQ. apply wpv_ret, HQ; [done|by apply frame_same].
  - rewrite <- Hr1 in Hben, HQ. unfold designated. rewrite <- (find_search _ es [] None). cbn [used foldr offset mbind option_bind].
    eapply wp_UpdateVariable; try done; [by apply Hsmall|lia|]. intros s2 Hi2 Hs2. apply HQ; [done|]. eapply same_trans; [by apply frame_same|done].
Qed.

(** ** QueryVariableInfo *)

(** The space taken: by every entry at runtime, by the added ones before. *)
Definition taken (runtime : bool) (es : list entry) : Z := foldr (fun e n => (if runtime || added e then e_size e else 0) + n) 0 es.

Lemma taken_cons runtime e es : taken runtime (e :: es) = (if runtime || added e then e_size e else 0) + taken runtime es.
Proof. done. Qed.

Lemma taken_bounds runtime es : Forall entry_ok es -> 0 <= taken runtime es <= used es.
Proof.
  induction 1 as [|e es He Hes IH]; [done|]. rewrite taken_cons, used_cons. pose proof (size_bounds _ He). pose proof sizeof_bounds.
  destruct (runtime || added e); lia.
Qed.

Lemma query_loop_run s q a : forall l2 l1 n remaining, inv s q a (l1 ++ l2) -> (length l2 < n)%nat -> taken (EfiAtRuntime s) l2 <= remaining <= STORE_MAIN_SIZE ->
  query_loop n (Some (used l1)) remaining s = Ok (remaining - taken (EfiAtRuntime s) l2, s).
Proof.
  induction l2 as [|e l2 IH]; intros l1 [|n] remaining Hi Hn Hr; try (simpl in Hn; lia); cbn [query_loop].
  - rewrite app_nil_r in Hi. cbn [taken foldr]. rewrite Z.sub_0_r. destruct (Z.leb_spec GetEndPointer (used l1)); [done|].
    pose proof Hi as [(tail & [V1 V2 V3 V4 V5 V6]) _ _ _ _].
    destruct (store_ended l1 tail V3 V5) as [E|(post' & E & Hl)]; [unfold GetEndPointer in *; lia|].
    unfold store_bytes in V1. rewrite E in V1. destruct (header_erased _ _ _ _ _ V1 Hl (Zlength_log _ V4)) as (h & Eh & Hh).
    rewrite (vbind_Ok _ _ s false s); [done|]. unfold IsValidVariableHeader. rewrite (vbind_Ok _ _ _ _ _ Eh). by rewrite Hh.
  - destruct (designated_entry _ _ _ _ _ _ _ Hi eq_refl) as (post & Hat & He & Ho).
    pose proof Hi as [(tail & [V1 V2 V3 V4 V5 V6]) _ _ _ _]. rewrite log_used_app, used_cons in V3. apply Forall_app in V4 as [V4' [_ V4]%Forall_cons_1].
    pose proof (size_bounds _ He). pose proof sizeof_bounds. pose proof (log_used_bounds _ V4). pose proof (log_used_bounds _ V4').
    destruct (Z.leb_spec GetEndPointer (used l1)) as [Hge|_]; [unfold GetEndPointer in Hge; lia|].
    rewrite (vbind_Ok _ _ _ _ _ (valid_run _ _ _ _ _ _ Hat He Ho)). cbn [negb].
    rewrite (vbind_Ok _ _ _ _ _ (next_ptr_run _ _ _ _ _ _ Hat He Ho)), (vbind_Ok _ _ _ _ _ (header_at_run _ _ _ _ _ _ Hat He Ho)), vget_bind, added_header.
    cbn [default id from_option]. rewrite taken_cons in *. pose proof (taken_bounds (EfiAtRuntime s) _ V4). unfold STORE_MAIN_SIZE in *.
    rewrite <- used_snoc, used_snoc. replace (used l1 + e_size e - used l1) with (e_size e) by lia. unfold u64 at 2. rewrite (Z.mod_small (e_size e)) by lia.
    rewrite <- used_snoc. rewrite IH; [|by rewrite <- app_assoc|simpl in Hn; lia|].
    + unfold mret, V_ret. destruct (EfiAtRuntime s || added e); [unfold u64; rewrite Z.mod_small by lia|]; do 2 f_equal; lia.
    + destruct (EfiAtRuntime s || added e); [unfold u64; rewrite Z.mod_small by lia|]; unfold STORE_MAIN_SIZE; lia.
Qed.

(** What is reported for a volatile kind of variable. *)
Definition query_reply (runtime : bool) (es : list entry) : query_info :=
  let remaining := STORE_MAIN_SIZE - taken runtime es in
  mkQuery STORE_MAIN_SIZE remaining
    (if remaining <? sizeof_VARIABLE_HEADER then 0
     else Z.min (remaining - sizeof_VARIABLE_HEADER) (EFI_MAX_VARIABLE_NAME_SIZE + EFI_MAX_VARIABLE_DATA_SIZE)).

Definition query_status (runtime : bool) (Attributes : Z) (outputs : bool) : option EFI_STATUS :=
  if negb outputs || (Attributes =? 0) then Some EFI_INVALID_PARAMETER
  else if negb (has Attributes (Z.lor EFI_VARIABLE_NON_VOLATILE (Z.lor EFI_VARIABLE_BOOTSERVICE_ACCESS EFI_VARIABLE_RUNTIME_ACCESS))) then Some EFI_UNSUPPORTED
  else if Z.land Attributes (Z.lor EFI_VARIABLE_RUNTIME_ACCESS EFI_VARIABLE_BOOTSERVICE_ACCESS) =? EFI_VARIABLE_RUNTIME_ACCESS then Some EFI_INVALID_PARAMETER
  else if runtime && negb (has Attributes EFI_VARIABLE_RUNTIME_ACCESS) then Some EFI_INVALID_PARAMETER
  else None.

Lemma wp_QueryVariableInfo s q a es Attributes outputs (Q : EFI_STATUS * option query_info -> variables -> Prop) : inv s q a es ->
  (forall r s', inv s' q a es -> frame s s' ->
     match query_status (EfiAtRuntime s) Attributes outputs with
     | Some st => r = (st, None)
     | None => has Attributes EFI_VARIABLE_NON_VOLATILE = false -> r = (EFI_SUCCESS, Some (query_reply (EfiAtRuntime s) es))
     end -> Q r s') ->
  wpv (VariableServiceQueryVariableInfo Attributes outputs) s Q.
Proof.
  intros Hi HQ. unfold VariableServiceQueryVariableInfo.
  apply wpv_bind. eapply wpv_mono; [apply debug_log_safe, Hi|]. intros [] s1 (Hf1 & Hn1 & _). pose proof (inv_frame _ _ _ _ _ Hi Hf1 Hn1) as Hi1.
  assert (Hr1 : EfiAtRuntime s1 = EfiAtRuntime s) by by apply frame_fields. rewrite <- Hr1 in HQ. unfold query_status in HQ.
  destruct (negb outputs || (Attributes =? 0)); [by apply wpv_ret, HQ|].
  destruct (negb (has Attributes _)); [by apply wpv_ret, HQ|].
  destruct (_ =? EFI_VARIABLE_RUNTIME_ACCESS); [by apply wpv_ret, HQ|]. apply wpv_vget.
  destruct (EfiAtRuntime s1 && _); [by apply wpv_ret, HQ|].
  destruct (has Attributes EFI_VARIABLE_NON_VOLATILE) eqn:Env.
  { eapply wpv_mono; [apply NvramQueryInfo_safe, Hi1|]. intros r s2 (Hf2 & Hn2 & _). apply HQ; [by eapply inv_frame|by eapply frame_trans|done]. }
  pose proof Hi1 as [(tail & [V1 V2 V3 V4 V5 V6]) _ _ _ _]. pose proof (taken_bounds (EfiAtRuntime s1) _ V4). pose proof (log_length _ V4).
  eapply wpv_bind_run.
  { apply (query_loop_run s1 q a es [] walk_fuel); [done| |lia]. unfold walk_fuel. lia. }
  apply wpv_ret. apply HQ; [done|done|]. intros _. unfold query_reply. do 3 f_equal.
  destruct (_ <? sizeof_VARIABLE_HEADER); [done|]. destruct (Z.ltb_spec (STORE_MAIN_SIZE - taken (EfiAtRuntime s1) es - sizeof_VARIABLE_HEADER) (EFI_MAX_VARIABLE_NAME_SIZE + EFI_MAX_VARIABLE_DATA_SIZE)); lia.
Qed.

(** ** The events *)
Lemma nvram_runtime b s : nvram_ok s -> nvram_ok (set_runtime b s).
Proof. intros [H|(H & db & bb & [])]; [by left|]. right. split; [done|]. exists db, bb. by split. Qed.

Lemma wp_ExitBootServices s q a es (Q : unit -> variables -> Prop) : inv s q a es ->
  (forall s', inv s' q a es -> EfiAtRuntime s' = true -> Q tt s') -> wpv ExitBootServices s Q.
Proof.
  intros Hi HQ. unfold ExitBootServices, ExitBootServicesHandler.
  assert (Hname : holds_name OSLOADER_INDICATIONS_NAME OSLOADER_INDICATIONS_NAME).
  { split; [|split; [done|exists []; by rewrite app_nil_r]]. split; [done|]. apply (bool_decide_unpack _). done. }
  assert (Hend : forall v, wpv (NvramExitBootServicesHandler v) s (fun _ s' => wpv (vmod (set_runtime true)) s' Q)).
  { intros v. eapply wpv_mono; [apply NvramExitBootServicesHandler_safe, Hi|]. intros [] s1 (Hf1 & Hn1 & _). pose proof (inv_frame _ _ _ _ _ Hi Hf1 Hn1) as [Hv Hw Hn Ha _].
    apply HQ; [|done]. split; [|done|by apply nvram_runtime|done|done]. destruct Hv as (tail & [V1 V2 V3 V4 V5 V6]). exists tail. by split. }
  apply wpv_bind, wpv_bind. eapply wpv_run; [by eapply FindVariable_designated|].
  destruct (designated _ _ es) as [[[l1 e] l2]|] eqn:Ed; cbn [offset mbind option_bind find_status]; [|apply wpv_bind, wpv_ret, Hend].
  apply designated_split in Ed as (Ees & Hl & Hm). destruct (designated_entry _ _ _ _ _ _ _ Hi Ees) as (post & Hat & He & Ho).
  apply wpv_bind. rewrite bool_decide_true by done. eapply wpv_bind_run; [by eapply data_size_run|].
  destruct (Z.eqb_spec (Zlength (e_data e)) 4) as [E4|]; [|apply wpv_ret, Hend].
  eapply wpv_bind_run; [by eapply data_ptr_run|]. rewrite <- E4. eapply wpv_bind_run; [by eapply data_run|]. apply wpv_ret, Hend.
Qed.

Lemma converted p : (EfiConvertPointer p) = (EFI_SUCCESS, (EfiConvertPointer_answer p).2).
Proof. unfold EfiConvertPointer. pose proof (convert_succeeds p). destruct (EfiConvertPointer_answer p) as [st r]. cbn in *. by subst. Qed.

Lemma remap_lookup m p : remap m !! (EfiConvertPointer p).2 = m !! p.
Proof.
  unfold remap. destruct (m !! p) as [q|] eqn:E.
  - apply elem_of_list_to_map_1.
    + replace ((_ <$> (_ <$> map_to_list m))) with ((fun x => (EfiConvertPointer x).2) <$> (map_to_list m).*1).
      2: { rewrite <- !list_fmap_compose. apply list_fmap_ext. by intros ? []. }
      apply NoDup_fmap_2_strong; [|apply NoDup_fst_map_to_list]. intros x y _ _. rewrite !converted. apply convert_injective.
    + apply list_elem_of_fmap. exists (p, q). split; [done|]. by apply elem_of_map_to_list.
  - apply not_elem_of_list_to_map_1. rewrite <- list_fmap_compose. intros ([x q] & Ex & Hin)%list_elem_of_fmap. cbn in Ex.
    rewrite !converted in Ex. cbn in Ex. apply convert_injective in Ex. subst. apply elem_of_map_to_list in Hin. congruence.
Qed.

Lemma wp_SetVirtualAddressMap s q a es (Q : unit -> variables -> Prop) : inv s q a es -> EfiAtRuntime s = true ->
  (forall s', inv s' q a es -> EfiAtRuntime s' = true -> Q tt s') -> wpv SetVirtualAddressMap s Q.
Proof.
  intros Hi Hr HQ. unfold SetVirtualAddressMap, VirtualAddressChangeHandler, NvramAddressChangeHandler.
  pose proof Hi as [(tail & [[V0 V1] V2 V3 V4 V5 V6]) Hw Hn Ha Happ].
  assert (Hfin : forall s1, mNvramNotAllowed s1 = mNvramNotAllowed s -> pool s1 = pool s -> pages s1 = pages s -> virtual s1 = virtual s -> mVariableStore s1 = mVariableStore s ->
    mStoreFreeOffset s1 = mStoreFreeOffset s -> EfiAtRuntime s1 = true -> mNvramCommandDescriptorGpa s1 = mNvramCommandDescriptorGpa s ->
    mNvramCommandDataBufferGpa s1 = mNvramCommandDataBufferGpa s ->
    (mNvramNotAllowed s = false -> mNvramCommandDescriptor s1 = (EfiConvertPointer (mNvramCommandDescriptor s)).2 /\ mNvramCommandDataBuffer s1 = (EfiConvertPointer (mNvramCommandDataBuffer s)).2) ->
    wpv (p ← vget mVariableStore; vmod (set_store_ptr (EfiConvertPointer p).2)) s1
      (fun _ s' => wpv (vmod (fun s => set_virtual (remap (virtual s)) s)) s' Q)).
  { intros s1 E1 E2 E3 E4 E5 E6 E7 E8 E9 E10. apply HQ; [|done]. split; [exists tail; split; try done; [split; cbn|cbn; congruence]|done| |done|cbn; congruence].
    - rewrite E5, E4, remap_lookup. done.
    - by rewrite E2.
    - destruct Hn as [Hn|(Hn & db & bb & [])]; [left; cbn; congruence|right]. split; [cbn; congruence|]. destruct (E10 Hn) as [E11 E12].
      exists db, bb. split; cbn; rewrite ?E11, ?E12, ?E8, ?E9, ?E4, ?E3, ?remap_lookup; done. }
  apply wpv_bind, wpv_bind, wpv_vget. destruct (mNvramNotAllowed s) eqn:En; [apply wpv_ret, Hfin; by try congruence|].
  apply wpv_vget. destruct (EfiConvertPointer (mNvramCommandDescriptor s)) as [st1 d1] eqn:Ed. rewrite converted in Ed. injection Ed as <- <-.
  apply wpv_vmod. eapply wpv_vlift; [apply ASSERT_holds; done|]. apply wpv_vget. cbn [mNvramCommandDataBuffer set_descriptor_ptr].
  destruct (EfiConvertPointer (mNvramCommandDataBuffer s)) as [st2 d2] eqn:Ed2. rewrite converted in Ed2. injection Ed2 as <- <-.
  apply wpv_vmod. eapply (wpv_run _ _ tt); [unfold vlift; rewrite ASSERT_holds by done; done|]. apply Hfin; try done.
Qed.
End Services.
End VariableServices.
