(* ===== verification/VariableMachine.v ===== *)
(** The driver as a machine: from its entry point through calls and events, with
    the reference semantics of a call on logs. *)
From Stdlib Require Import ZArith Lia.
From stdpp Require Import base list numbers list_numbers option gmap.
From S2P Require Import Prelude Circular VariableDxe VariableRep VariableNvram VariableReclaim VariableUpdate VariableOps VariableServices.
Open Scope Z_scope.

Module VariableMachine.
Import VariableDxe VariableRep VariableNvram VariableReclaim VariableUpdate VariableOps VariableServices.

Section Machine.
Context {B : BuildOptions} {BD : BiosDevice} {FW : Firmware} {VF : VariableFormat} {LW : VariableFormatLaws VF}
  {FL : FirmwareLaws FW} {DL : DeviceLaws BD}.

(** ** Initialisation

    What holds if a computation returns. *)
Definition returns {A} (c : V A) (s : variables) (Q : A -> variables -> Prop) : Prop := forall a s', c s = Ok (a, s') -> Q a s'.

Lemma vreturns_bind {A C} (c : V A) (k : A -> V C) s (Q : C -> variables -> Prop) : returns c s (fun a s' => returns (k a) s' Q) -> returns (c ≫= k) s Q.
Proof. unfold returns, mbind, V_bind. intros H b s' E. destruct (c s) as [[a s1]|]; [|done]. by eapply H. Qed.
Lemma vreturns_ret {A} (a : A) s (Q : A -> variables -> Prop) : Q a s -> returns (mret a) s Q.
Proof. by intros H b s' [= <- <-]. Qed.
Lemma vreturns_vget {A C} (f : variables -> A) (k : A -> V C) s Q : returns (k (f s)) s Q -> returns (vget f ≫= k) s Q.
Proof. done. Qed.
Lemma vreturns_vmod {C} (f : variables -> variables) (k : unit -> V C) s Q : returns (k tt) (f s) Q -> returns (vmod f ≫= k) s Q.
Proof. done. Qed.
Lemma vreturns_mono {A} (c : V A) s (Q Q' : A -> variables -> Prop) : returns c s Q -> (forall a s', Q a s' -> Q' a s') -> returns c s Q'.
Proof. unfold returns. eauto. Qed.
Lemma vreturns_lift {A C} (r : result A) (k : A -> V C) s Q : (forall a, r = Ok a -> returns (k a) s Q) -> returns (vlift r ≫= k) s Q.
Proof. intros H. apply vreturns_bind. intros a s' E. unfold vlift in E. destruct r; [|done]. injection E as <- <-. by apply H. Qed.

(** Nothing is mapped twice: pages and pool memory were allocated at different times. *)
Record fresh_state (s : variables) : Prop := {
  fs_pool : pool s = ∅;
  fs_boot : EfiAtRuntime s = false;
  fs_virtual p x : virtual s !! p = Some x -> exists t h n, AllocatePages_answer t h n = (EFI_SUCCESS, p) }.

Definition error_or (P : Prop) (st : EFI_STATUS) : Prop := EFI_ERROR st = false -> P.

Lemma nvram_cleanup_returns st s (Q : EFI_STATUS -> variables -> Prop) : (forall s', Q st s') -> returns (nvram_cleanup st) s Q.
Proof. intros HQ. unfold nvram_cleanup. do 4 (apply vreturns_bind; intros ?? _). by apply vreturns_ret. Qed.

Lemma NvramInitialize_returns d : returns NvramInitialize (boot d) (fun st s => error_or (nvram_ok s /\ fresh_state s) st).
Proof.
  unfold NvramInitialize. destruct IsHardwareIsolatedNoParavisor.
  { apply vreturns_vmod, vreturns_ret. intros _. split; [by left|]. by split. }
  apply vreturns_bind. intros [st1 d1] s1 E1. unfold AllocatePages in E1. cbn [tick boot] in E1.
  destruct (AllocatePages_answer 0 BELOW_4GB _) as [st p] eqn:Ea1. destruct (EFI_ERROR st) eqn:Est.
  { injection E1 as <- <- <-. rewrite Est. apply vreturns_vmod, nvram_cleanup_returns. intros s' H. congruence. }
  injection E1 as <- <- <-. rewrite Est. apply vreturns_vmod, vreturns_bind. intros [st2 b1] s2 E2. unfold AllocatePages in E2. cbn [tick next_tick set_virtual set_pages set_descriptor_gpa boot] in E2.
  destruct (AllocatePages_answer 1 BELOW_4GB _) as [st' p'] eqn:Ea2. destruct (EFI_ERROR st') eqn:Est'.
  { injection E2 as <- <- <-. rewrite Est'. apply vreturns_vmod, nvram_cleanup_returns. intros s' H. congruence. }
  injection E2 as <- <- <-. rewrite Est'.
  pose proof (allocation_status 0 BELOW_4GB (EFI_SIZE_TO_PAGES sizeof_NVRAM_COMMAND_DESCRIPTOR)) as Hst. rewrite Ea1 in Hst. cbn in Hst. destruct Hst as [Hst|Hst]; [congruence|]. subst st.
  pose proof (allocation_status 1 BELOW_4GB (EFI_SIZE_TO_PAGES (EFI_MAX_VARIABLE_NAME_SIZE + EFI_MAX_VARIABLE_DATA_SIZE))) as Hst. rewrite Ea2 in Hst. cbn in Hst. destruct Hst as [Hst|Hst]; [congruence|]. subst st'.
  do 3 apply vreturns_vmod. apply vreturns_bind. intros st3 s3 E3.
  assert (Hne : p <> p') by (eapply allocations_apart; [exact Ea1|exact Ea2|done]). pose proof (pages_below _ _ _ _ Ea1) as Hlow.
  match type of E3 with declare_registers ?s0 = _ => assert (s3 = s0) as -> end.
  { unfold declare_registers in E3. destruct (negb aarch64); [by injection E3|]. unfold mbind, V_bind, vlift in E3. destruct (ASSERT _); [|done].
    destruct (EFI_ERROR AddMemorySpace_answer); [by injection E3|]. destruct (ASSERT _); [|done]. by injection E3. }
  destruct (EFI_ERROR st3) eqn:Est3; [apply nvram_cleanup_returns; intros s' H; congruence|]. apply vreturns_ret. intros _. split.
  - right. split; [done|]. exists (fresh_bytes 0 4096), (fresh_bytes 1 36864). split; cbn.
    + rewrite lookup_insert_ne by done. apply lookup_insert_eq.
    + apply lookup_insert_eq.
    + rewrite lookup_insert_ne by done. apply lookup_insert_eq.
    + apply lookup_insert_eq.
    + by apply fresh_length.
    + by apply fresh_length.
    + apply fresh_is_bytes.
    + apply fresh_is_bytes.
    + done.
    + unfold BELOW_4GB in Hlow. lia.
  - split; [done|done|]. cbn. intros x y. rewrite !lookup_insert_Some, lookup_empty. intros [[<- _]|[_ [[<- _]|[_ ?]]]]; [by eauto..|done].
Qed.

Lemma empty_store : store_bytes [] (erased_bytes STORE_SCRATCH_SIZE) = erased_bytes (STORE_MAIN_SIZE + STORE_SCRATCH_SIZE).
Proof.
  pose proof scratch_bounds. pose proof sizeof_bounds. assert (HM : 0 <= STORE_MAIN_SIZE) by done.
  rewrite erased_app by lia. unfold store_bytes. change (log_bytes []) with (@nil Z). change (used []) with 0. rewrite Z.sub_0_r, app_nil_l. reflexivity.
Qed.

(** What an allocation from the pool leaves of a state: everything but pool,
    addresses and time. *)
Definition alloc_same (s s' : variables) : Prop :=
  EfiAtRuntime s' = EfiAtRuntime s /\ mNvramNotAllowed s' = mNvramNotAllowed s /\ pages s' = pages s /\
  mNvramCommandDescriptor s' = mNvramCommandDescriptor s /\ mNvramCommandDescriptorGpa s' = mNvramCommandDescriptorGpa s /\
  mNvramCommandDataBuffer s' = mNvramCommandDataBuffer s /\ mNvramCommandDataBufferGpa s' = mNvramCommandDataBufferGpa s.

Lemma alloc_same_trans s1 s2 s3 : alloc_same s1 s2 -> alloc_same s2 s3 -> alloc_same s1 s3.
Proof. unfold alloc_same. intuition congruence. Qed.

Lemma AllocateRuntimePool_returns n s : returns (AllocateRuntimePool n) s (fun p s' =>
  p = 0 \/ (p <> 0 /\ p = AllocateRuntimePool_answer (tick s) n /\ alloc_same s s' /\ tick s' = S (tick s) /\ mVariableStore s' = mVariableStore s /\
    pool s' = <[p := fresh_bytes (tick s) n]> (pool s) /\ virtual s' = <[p := p]> (virtual s))).
Proof.
  intros p s' E. unfold AllocateRuntimePool in E. destruct (Z.eqb_spec (AllocateRuntimePool_answer (tick s) n) 0) as [E0|Hp].
  - injection E as <- <-. by left.
  - injection E as <- <-. right. by split_and!.
Qed.

(** The two allocations, as [VariableInitialize] finds them. *)
Lemma nvram_alloc s s' x y : nvram_ok s -> alloc_same s s' -> virtual s' = <[y := y]> (<[x := x]> (virtual s)) ->
  virtual s !! x = None -> virtual s !! y = None -> nvram_ok s'.
Proof.
  intros Hnv (_ & E1 & E2 & E3 & E4 & E5 & E6) Ev Hx Hy. destruct Hnv as [Hn0|(Hn0 & db & bb & [Hd Hb Hdb Hbb Hdl Hbl Hdy Hby Hne Hlow])]; [left; congruence|right].
  split; [congruence|]. exists db, bb. split; rewrite ?E2, ?E3, ?E4, ?E5, ?E6, ?Ev; try done; rewrite !lookup_insert_ne; try done; congruence.
Qed.

Lemma store_start s x y n b : n = STORE_MAIN_SIZE + STORE_SCRATCH_SIZE -> at_store s x b -> Zlength b = n -> nvram_ok s -> x <> y -> EfiAtRuntime s = false ->
  virtual s !! mAppendBuffer s = Some y -> (exists ab, pool s !! y = Some ab /\ Zlength ab = EFI_MAX_VARIABLE_DATA_SIZE) ->
  returns (_ ← store_write 0 (replicate (Z.to_nat n) 255); vmod (set_free_offset GetStartPointer);; mret EFI_SUCCESS) s
    (fun st s' => error_or (EfiAtRuntime s' = false /\ exists q a, inv s' q a []) st).
Proof.
  intros En Hat Hb Hnv Hxy Hr Hv (ab & Hab & Hl). pose proof scratch_bounds. pose proof sizeof_bounds.
  assert (Hn : 0 <= n) by (rewrite <- Hb; apply Zlength_nonneg). apply vreturns_bind. intros [] s3 E3.
  rewrite (store_write_run _ _ _ _ _ (erased_bytes n) Hat) in E3.
  2: { rewrite <- (app_nil_r b), <- (app_nil_r (erased_bytes n)). apply (mem_write_mid [] _ _ []); [done|]. rewrite Hb. by apply Zlength_erased. }
  injection E3 as <-. apply vreturns_vmod, vreturns_ret. intros _. split; [done|]. exists x, y. split.
  - exists (erased_bytes STORE_SCRATCH_SIZE). split; try done.
    + rewrite empty_store, <- En. by eapply at_set_free, at_put.
    + apply Zlength_erased. lia.
    + unfold erased_bytes. apply Forall_replicate. unfold is_byte. lia.
  - split; [apply NoDup_nil_2|constructor].
  - by apply nvram_free, nvram_put.
  - done.
  - intros _. split; [done|]. exists ab. split; [|done]. change (pool (set_free_offset GetStartPointer (put_store x (erased_bytes n) s))) with (<[x := erased_bytes n]> (pool s)).
    by rewrite lookup_insert_ne.
Qed.

Lemma pages_unmapped s t n : fresh_state s -> virtual s !! AllocateRuntimePool_answer t n = None.
Proof.
  intros [_ _ Hv]. destruct (virtual s !! _) eqn:Ex; [|done]. destruct (Hv _ _ Ex) as (t' & h & k & Ea). exfalso. by apply (pool_pages_apart t' t k n h _ Ea).
Qed.

Lemma nvram_pointers s p q : nvram_ok s -> nvram_ok (set_append_ptr q s) /\ nvram_ok (set_store_ptr p s).
Proof. intros [H|(H & db & bb & [])]; [by split; left|]. split; right; (split; [done|]); exists db, bb; by split. Qed.

Lemma VariableInitialize_returns s : nvram_ok s -> fresh_state s ->
  returns VariableInitialize s (fun st s' => error_or (EfiAtRuntime s' = false /\ exists q a, inv s' q a []) st).
Proof.
  intros Hnv Hfs. pose proof Hfs as [Hp Hr _]. unfold VariableInitialize. remember (STORE_MAIN_SIZE + STORE_SCRATCH_SIZE) as n eqn:En.
  assert (Hn : 0 <= n) by (rewrite En, scratch_bounds; pose proof sizeof_bounds; unfold STORE_MAIN_SIZE; lia).
  do 2 apply vreturns_vmod. apply vreturns_bind. eapply vreturns_mono; [apply AllocateRuntimePool_returns|]. intros x s1 Hx. cbv beta in *.
  apply vreturns_vmod. destruct Hx as [->|(Hx0 & Ex & Hs1 & Ht1 & Hm1 & Hp1 & Hv1)]; [by apply vreturns_ret|]. rewrite (proj2 (Z.eqb_neq x 0)) by done.
  apply vreturns_bind. eapply vreturns_mono; [apply AllocateRuntimePool_returns|]. intros y s2 Hy. cbv beta in *. apply vreturns_vmod.
  destruct Hy as [->|(Hy0 & Ey & Hs2 & Ht2 & Hm2 & Hp2 & Hv2)]; [cbn [Z.eqb]; apply vreturns_bind; intros ?? _; by apply vreturns_ret|].
  rewrite (proj2 (Z.eqb_neq y 0)) by done. cbn [tick set_store_ptr set_append_ptr virtual pool mVariableStore] in *.
  assert (Hxy : x <> y) by (rewrite Ex, Ey in *; apply pool_apart; [done|done|rewrite Ht1; lia]).
  assert (Hxn : virtual s !! x = None) by (rewrite Ex; by apply pages_unmapped). assert (Hyn : virtual s !! y = None) by (rewrite Ey; by apply pages_unmapped).
  assert (Hs : alloc_same s s2) by (eapply alloc_same_trans; [exact Hs1|exact Hs2]).
  eapply (store_start _ x y n (fresh_bytes (tick s) n)); [exact En| |by apply fresh_length| |done| | |].
  - split; cbn [virtual pool mVariableStore set_append_ptr].
    + rewrite Hm2, Hv2, lookup_insert_ne, Hv1 by done. apply lookup_insert_eq.
    + rewrite Hp2, lookup_insert_ne, Hp1 by done. apply lookup_insert_eq.
  - apply nvram_pointers; [exact x|]. eapply (nvram_alloc s s2 x y); [done|done|by rewrite Hv2, Hv1|done|done].
  - destruct Hs as (Hs & _). cbn [EfiAtRuntime set_append_ptr]. by rewrite Hs.
  - cbn [virtual mAppendBuffer set_append_ptr]. rewrite Hv2. apply lookup_insert_eq.
  - exists (fresh_bytes (tick s1) EFI_MAX_VARIABLE_DATA_SIZE). cbn [pool set_append_ptr]. rewrite Hp2. split; [apply lookup_insert_eq|by apply fresh_length].
Qed.

(** ** The entry point *)
Definition started (s : variables) : Prop := EfiAtRuntime s = false /\ exists q a, inv s q a [].

Lemma started_fields s s' : started s -> pool s' = pool s -> pages s' = pages s -> virtual s' = virtual s -> EfiAtRuntime s' = EfiAtRuntime s ->
  mVariableStore s' = mVariableStore s -> mStoreFreeOffset s' = mStoreFreeOffset s -> mAppendBuffer s' = mAppendBuffer s -> mNvramNotAllowed s' = mNvramNotAllowed s ->
  mNvramCommandDescriptor s' = mNvramCommandDescriptor s -> mNvramCommandDescriptorGpa s' = mNvramCommandDescriptorGpa s ->
  mNvramCommandDataBuffer s' = mNvramCommandDataBuffer s -> mNvramCommandDataBufferGpa s' = mNvramCommandDataBufferGpa s -> started s'.
Proof.
  intros (Hr & q & a & [(tail & [[V0 V1] V2 V3 V4 V5 V6]) Hw Hn Ha Happ]) E1 E2 E3 E4 E5 E6 E7 E8 E9 E10 E11 E12. split; [congruence|]. exists q, a. split; try done.
  - exists tail. split; try done; [split|]; congruence.
  - destruct Hn as [Hn0|(Hn0 & db & bb & [])]; [left; congruence|right]. split; [congruence|]. exists db, bb. split; congruence.
  - rewrite E1, E3, E4, E7. done.
Qed.

Lemma CreateEventEx_started s : started s -> returns CreateEventEx s (fun _ s' => started s').
Proof.
  intros Hs r s' E. unfold CreateEventEx in E. destruct (CreateEventEx_answer _) as [st e]. destruct (EFI_ERROR st); injection E as <- <-; by eapply started_fields.
Qed.

Lemma initialize_returns d : returns VariableServiceInitialize (boot d) (fun st s => st = EFI_SUCCESS -> started s).
Proof.
  assert (Hcommon : returns VariableCommonInitialize (boot d) (fun st s => error_or (started s) st)).
  { unfold VariableCommonInitialize. apply vreturns_bind. eapply vreturns_mono; [apply NvramInitialize_returns|]. intros st s1 H1. cbv beta.
    destruct (EFI_ERROR st) eqn:Est; [apply vreturns_lift; intros; apply vreturns_ret; intros ?; congruence|]. destruct (H1 Est) as [Hn Hf].
    apply vreturns_bind. eapply vreturns_mono; [by apply VariableInitialize_returns|]. intros st2 s2 H2. cbv beta.
    destruct (EFI_ERROR st2) eqn:Est2; [apply vreturns_lift; intros; apply vreturns_ret; intros ?; congruence|]. apply vreturns_ret. intros _. by apply H2. }
  assert (Hclean : forall st s, EFI_ERROR st = true -> returns (entry_cleanup st) s (fun st s => st = EFI_SUCCESS -> started s)).
  { intros st s Hst. unfold entry_cleanup. do 4 (apply vreturns_bind; intros ?? _). apply vreturns_ret. intros ->. done. }
  unfold VariableServiceInitialize. apply vreturns_bind. eapply vreturns_mono; [exact Hcommon|]. intros st s1 H1. cbv beta.
  apply vreturns_lift. intros _ _. destruct (EFI_ERROR st) eqn:Est; [apply vreturns_ret; intros ->; done|]. pose proof (H1 Est) as Hs1.
  apply vreturns_vmod, vreturns_bind. eapply vreturns_mono; [apply CreateEventEx_started; by eapply started_fields|]. clear s1 H1 Hs1. intros [st2 e2] s2 Hs2. cbv beta.
  destruct (EFI_ERROR st2) eqn:Est2; [do 2 (apply vreturns_bind; intros ?? _); by apply Hclean|].
  apply vreturns_vmod, vreturns_lift. intros _ _. apply vreturns_bind. eapply vreturns_mono; [apply CreateEventEx_started; by eapply started_fields|]. clear s2 Hs2. intros [st3 e3] s3 Hs3. cbv beta.
  destruct (EFI_ERROR st3) eqn:Est3; [do 2 (apply vreturns_bind; intros ?? _); by apply Hclean|].
  apply vreturns_vmod, vreturns_lift. intros _ _. apply vreturns_lift. intros _ _. destruct (EFI_ERROR InstallProtocols_answer) eqn:Est4; [by apply Hclean|].
  apply vreturns_ret. intros _. by eapply started_fields.
Qed.
End Machine.
End VariableMachine.
