(* ===== verification/VariableSpec.v ===== *)
(** What the volatile part of the variable services promises: an ordered list of
    variables with distinct keys and a limited total size.  The functions here know
    nothing of entries, states or the store; the lemmas relate them to the log. *)
From Stdlib Require Import ZArith Lia String Ascii.
From stdpp Require Import base list numbers list_numbers option gmap.
From S2P Require Import Prelude Circular VariableDxe VariableRep VariableNvram VariableReclaim VariableUpdate VariableOps VariableServices.
Open Scope Z_scope.

Module VariableSpec.
Import VariableDxe VariableRep VariableNvram VariableReclaim VariableUpdate VariableOps VariableServices.

(** A variable whose update failed for lack of space is hidden: it can be read,
    but is not enumerated. *)
Record var := mkVar { v_name : list Z; v_guid : list Z; v_attributes : Z; v_data : list Z; v_hidden : bool }.

(** A call, with [NULL] pointers as [None]. *)
Inductive call :=
  | CallGet (VariableName VendorGuid : option (list Z)) (wants : bool) (DataSize : option Z) (Data : option (list Z))
  | CallNext (VariableNameSize : option Z) (VariableName VendorGuid : option (list Z))
  | CallSet (VariableName VendorGuid : option (list Z)) (Attributes DataSize : Z) (Data : option (list Z))
  | CallQuery (Attributes : Z) (outputs : bool)
  | CallExitBootServices
  | CallSetVirtualAddressMap.
Inductive reply := RGet (r : get_result) | RNext (r : next_result) | RSet (st : EFI_STATUS) | RQuery (r : EFI_STATUS * option query_info) | RDone.

(** The string in a buffer. *)
Definition c_string (buf : list Z) : list Z := match StrSize buf with Ok n => take (Z.to_nat n) buf | Fault _ => [] end.
Definition EMPTY : list Z := [0; 0].

(** ** The arguments of [SetVariable]
    What the specification of UEFI lets a caller ask for, apart from the text of the
    driver: names, attribute bits and sizes are written out. *)

(** A string of ASCII characters in UCS-2, with its end. *)
Fixpoint ucs2 (s : string) : list Z :=
  match s with EmptyString => [0; 0] | String c s => Z.of_nat (nat_of_ascii c) :: 0 :: ucs2 s end.
Definition GLOBAL_VARIABLES : list Z := [0x61; 0xDF; 0xE4; 0x8B; 0xCA; 0x93; 0xD2; 0x11; 0xAA; 0x0D; 0x00; 0xE0; 0x98; 0x03; 0x2B; 0x8C].
Definition read_only (nm g : list Z) : bool :=
  bool_decide (g = GLOBAL_VARIABLES) &&
  existsb (fun s => bool_decide (nm = ucs2 s)) ["SetupMode"; "SignatureSupport"; "SecureBoot"; "dbDefault"]%string.

(** Bits: 0 non-volatile, 1 boot services, 2 runtime, 3 hardware errors, 4 count
    based authentication, 5 time based authentication, 6 append; a variable for the
    runtime is one for boot services, and bit 4 is not supported. *)
Definition attributes_wrong (Attributes : Z) : bool :=
  (128 <=? Attributes) || (Z.testbit Attributes 2 && negb (Z.testbit Attributes 1)) || Z.testbit Attributes 4.

(** The size of what is stored: all the data, or what follows the descriptor, a time
    stamp of 16 bytes and a certificate that starts with its length and has a header
    of 24 bytes. *)
Definition certified (n : Z) (data : list Z) : option Z :=
  let certificate := le_combine (zslice 16 4 data) in
  if (40 <=? n) && (24 <=? certificate) && (16 + certificate <=? n) then Some (n - 16 - certificate) else None.

(** The status with which a call is refused at once. *)
Definition refused (nm g : list Z) (Attributes n : Z) (Data : option (list Z)) : option EFI_STATUS :=
  if read_only nm g then Some EFI_WRITE_PROTECTED
  else if (0 <? n) && bool_decide (Data = None) then Some EFI_INVALID_PARAMETER
  else if attributes_wrong Attributes then Some EFI_INVALID_PARAMETER
  else match (if Z.testbit Attributes 5 then certified n (default [] Data) else Some n) with
  | None => Some EFI_SECURITY_VIOLATION
  | Some payload => if (payload <=? 32768) && (Zlength nm <=? 2048) then None else Some EFI_INVALID_PARAMETER
  end.

Section Spec.
Context {VF : VariableFormat}.

Definition v_key (nm g : list Z) (v : var) : bool := bool_decide (g = v_guid v) && bool_decide (nm = v_name v).
Definition v_find (nm g : list Z) (vs : list var) : option var := List.find (v_key nm g) vs.
Definition v_size (v : var) : Z := sizeof_VARIABLE_HEADER + padded_size (v_name v) + padded_size (v_data v).
Definition total (vs : list var) : Z := foldr (fun v n => v_size v + n) 0 vs.
Definition v_remove (nm g : list Z) (vs : list var) : list var := List.filter (fun v => negb (v_key nm g v)) vs.
Definition v_conceal (v : var) : var := mkVar (v_name v) (v_guid v) (v_attributes v) (v_data v) true.
Definition v_hide (nm g : list Z) (vs : list var) : list var := (fun v => if v_key nm g v then v_conceal v else v) <$> vs.

(** A variable goes to the end, if there is room for it beside all others, its own
    old value included. *)
Definition v_put (vs : list var) (v : var) : EFI_STATUS * list var :=
  if STORE_MAIN_SIZE <? v_size v + total vs then (EFI_OUT_OF_RESOURCES, vs) else (EFI_SUCCESS, v_remove (v_name v) (v_guid v) vs ++ [v]).

Definition v_new (nm g : list Z) (Attributes : Z) (data : list Z) : var := mkVar nm g (Z.land Attributes (Z.lnot EFI_VARIABLE_APPEND_WRITE)) data false.

Definition v_update (vs : list var) (nm g : list Z) (Attributes : Z) (data : list Z) (runtime : bool) : EFI_STATUS * list var :=
  let append := has Attributes EFI_VARIABLE_APPEND_WRITE in
  if has Attributes EFI_VARIABLE_AUTHENTICATED_WRITE_ACCESS || has Attributes EFI_VARIABLE_TIME_BASED_AUTHENTICATED_WRITE_ACCESS ||
     has Attributes EFI_VARIABLE_NON_VOLATILE then (EFI_INVALID_PARAMETER, vs)
  else match v_find nm g vs with
  | Some v =>
    if runtime then (EFI_WRITE_PROTECTED, vs)
    else if (negb append && bool_decide (data = [])) || negb (accessible Attributes) then (EFI_SUCCESS, v_remove nm g vs)
    else if negb append && bool_decide (data = v_data v) then (EFI_SUCCESS, vs)
    else if append && (EFI_MAX_VARIABLE_DATA_SIZE <? Zlength (v_data v ++ data)) then (EFI_OUT_OF_RESOURCES, vs)
    else v_put (v_hide nm g vs) (v_new nm g Attributes (if append then v_data v ++ data else data))
  | None =>
    if bool_decide (data = []) && append then (EFI_SUCCESS, vs)
    else if bool_decide (data = []) || negb (accessible Attributes) then (EFI_NOT_FOUND, vs)
    else if runtime then (EFI_INVALID_PARAMETER, vs)
    else v_put vs (v_new nm g Attributes data)
  end.

(** [SetVariable]; [None] when the host decides. *)
Definition v_set (vs : list var) (buf g : list Z) (Attributes n : Z) (Data : option (list Z)) (runtime : bool) : option (EFI_STATUS * list var) :=
  let nm := c_string buf in
  let data := match Data with Some b => zslice 0 n b | None => [] end in
  if bool_decide (nm = EMPTY) then Some (EFI_INVALID_PARAMETER, vs)
  else match refused nm g Attributes n Data with
  | Some st => Some (st, vs)
  | None =>
    let exists_ := bool_decide (is_Some (v_find nm g vs)) in
    if exists_ && has Attributes EFI_VARIABLE_TIME_BASED_AUTHENTICATED_WRITE_ACCESS then Some (EFI_INVALID_PARAMETER, vs)
    else if exists_ || (negb (has Attributes EFI_VARIABLE_NON_VOLATILE) && negb (bool_decide (data = [])) && accessible Attributes)
    then Some (v_update vs nm g Attributes data runtime)
    else None
  end.

(** [GetVariable]: the variable with the key; the empty name stands for the first
    variable that is not hidden, or else the last one. *)
Definition v_designated (nm g : list Z) (vs : list var) : option var :=
  if bool_decide (nm = EMPTY) then match List.find (fun v => negb (v_hidden v)) vs with Some v => Some v | None => last vs end
  else v_find nm g vs.
Definition v_get (v : var) (wants : bool) (n : Z) (Data : option (list Z)) : get_result :=
  if n <? Zlength (v_data v) then mkGet EFI_BUFFER_TOO_SMALL None (Zlength (v_data v)) Data
  else match Data with
  | None => mkGet EFI_INVALID_PARAMETER None n None
  | Some b => mkGet EFI_SUCCESS (if wants then Some (v_attributes v) else None) (Zlength (v_data v)) (Some (overwrite 0 (v_data v) b))
  end.

(** [GetNextVariableName]: the next variable that is not hidden and may be seen. *)
Definition v_listed (runtime : bool) (v : var) : bool := negb (v_hidden v) && negb (runtime && negb (has (v_attributes v) EFI_VARIABLE_RUNTIME_ACCESS)).
Fixpoint v_after (nm g : list Z) (vs : list var) : list var :=
  match vs with [] => [] | v :: vs => if v_key nm g v then vs else v_after nm g vs end.
Definition v_next (runtime : bool) (nm g : list Z) (vs : list var) : option var :=
  List.find (v_listed runtime) (if bool_decide (nm = EMPTY) then vs else v_after nm g vs).
Definition v_name_reply (v : var) (size : Z) (buf g : list Z) : next_result :=
  if Zlength (v_name v) <=? size then mkNext EFI_SUCCESS (Zlength (v_name v)) (overwrite 0 (v_name v) buf) (v_guid v)
  else mkNext EFI_BUFFER_TOO_SMALL (Zlength (v_name v)) buf g.

(** [QueryVariableInfo] before runtime. *)
Definition v_query (vs : list var) : query_info :=
  let remaining := STORE_MAIN_SIZE - total (List.filter (fun v => negb (v_hidden v)) vs) in
  mkQuery STORE_MAIN_SIZE remaining
    (if remaining <? sizeof_VARIABLE_HEADER then 0
     else Z.min (remaining - sizeof_VARIABLE_HEADER) (EFI_MAX_VARIABLE_NAME_SIZE + EFI_MAX_VARIABLE_DATA_SIZE)).

(** One call: the answer, unless the host gives it or it depends on deleted
    variables, and the state after it. *)
Definition vstate : Type := bool * list var.
Definition v_step (st : vstate) (c : call) : option reply * vstate :=
  let '(runtime, vs) := st in
  match c with
  | CallGet (Some buf) (Some g) wants (Some n) Data => (v ← v_designated (c_string buf) g vs; Some (RGet (v_get v wants n Data)), (runtime, vs))
  | CallGet _ _ _ n Data => (Some (RGet (mkGet EFI_INVALID_PARAMETER None (default 0 n) Data)), (runtime, vs))
  | CallNext (Some size) (Some buf) (Some g) => (v ← v_next runtime (c_string buf) g vs; Some (RNext (v_name_reply v size buf g)), (runtime, vs))
  | CallNext size buf g => (Some (RNext (mkNext EFI_INVALID_PARAMETER (default 0 size) (default [] buf) (default [] g))), (runtime, vs))
  | CallSet (Some buf) (Some g) Attributes n Data =>
    match v_set vs buf g Attributes n Data runtime with
    | Some (status, vs) => (Some (RSet status), (runtime, vs))
    | None => (None, (runtime, vs))
    end
  | CallSet _ _ _ _ _ => (Some (RSet EFI_INVALID_PARAMETER), (runtime, vs))
  | CallQuery Attributes outputs =>
    (match query_status runtime Attributes outputs with
     | Some st => Some (RQuery (st, None))
     | None => if has Attributes EFI_VARIABLE_NON_VOLATILE || runtime then None else Some (RQuery (EFI_SUCCESS, Some (v_query vs)))
     end, (runtime, vs))
  | CallExitBootServices => (Some RDone, (true, vs))
  | CallSetVirtualAddressMap => (Some RDone, (runtime, vs))
  end.
End Spec.

(** ** The checks of the driver *)
Fixpoint nonzero (s : string) : bool := match s with EmptyString => true | String c s => negb (nat_of_ascii c =? 0)%nat && nonzero s end.

Lemma StrCmp_decides s : nonzero s = true -> forall nm rest, StrSize nm = Ok (Zlength nm) -> Forall is_byte nm ->
  StrCmp (nm ++ rest) (L s) = Ok (bool_decide (nm = ucs2 s)).
Proof.
  induction s as [|c s IH]; intros Hs nm rest; revert nm; refine (name_cases _ _ _); try done; cbn [app StrCmp L ucs2].
  - intros lo hi nm Hz _ _ (? & Hb)%Forall_cons. apply Forall_cons in Hb as [? _]. unfold is_byte in *. f_equal.
    rewrite bool_decide_false; [|intros [= -> ->]; done]. destruct (Z.eqb_spec lo 0), (Z.eqb_spec hi 0); try done; apply Z.eqb_neq; lia.
  - intros _. simpl in Hs. destruct (nat_of_ascii c) eqn:Ec; [done|]. rewrite bool_decide_false; [|done].
    by rewrite (proj2 (Z.eqb_neq _ _)) by lia.
  - intros lo hi nm _ Hn _ (? & Hb)%Forall_cons. apply Forall_cons in Hb as [? Hb]. unfold is_byte in *. simpl in Hs. apply andb_true_iff in Hs as [_ Hs].
    pose proof (nat_ascii_bounded c). destruct (Z.eqb_spec (lo + 256 * hi) (Z.of_nat (nat_of_ascii c))) as [E|E].
    + rewrite (IH Hs) by done. f_equal. apply bool_decide_ext. assert (hi = 0) as -> by lia. assert (lo = Z.of_nat (nat_of_ascii c)) as -> by lia.
      split; [by intros ->|by intros [= ->]].
    + f_equal. symmetry. apply bool_decide_false. intros [= -> -> _]. lia.
Qed.

Lemma IsReadOnly_decides buf nm g : holds_name buf nm -> IsReadOnlyVariable buf g = Ok (read_only nm g).
Proof.
  intros ((Hn & Hb) & _ & rest & ->). unfold IsReadOnlyVariable, read_only. change gEfiGlobalVariableGuid with GLOBAL_VARIABLES.
  destruct (bool_decide (g = _)); [|done]. rewrite !StrCmp_decides by done. unfold mbind, result_bind. cbn [existsb andb].
  repeat match goal with |- context [bool_decide (nm = ?x)] => generalize (bool_decide (nm = x)); intros [] end; reflexivity.
Qed.

Definition attribute_checks (a : Z) : bool :=
  has a (Z.lnot EFI_VARIABLE_ATTRIBUTES_MASK) ||
  (Z.land a (Z.lor EFI_VARIABLE_RUNTIME_ACCESS EFI_VARIABLE_BOOTSERVICE_ACCESS) =? EFI_VARIABLE_RUNTIME_ACCESS) ||
  has a EFI_VARIABLE_AUTHENTICATED_WRITE_ACCESS.

Lemma attributes_decided a : 0 <= a -> attribute_checks a = attributes_wrong a /\
  (a < 128 -> has a EFI_VARIABLE_TIME_BASED_AUTHENTICATED_WRITE_ACCESS = Z.testbit a 5).
Proof.
  intros Ha. destruct (Z.leb_spec 128 a) as [H|H].
  - split; [|lia]. unfold attribute_checks, attributes_wrong. rewrite (proj2 (Z.leb_le _ _) H).
    destruct (has a (Z.lnot EFI_VARIABLE_ATTRIBUTES_MASK)) eqn:E; [done|]. apply mask_bound in E; lia.
  - assert (F : Forall (fun a => attribute_checks a = attributes_wrong a /\ has a EFI_VARIABLE_TIME_BASED_AUTHENTICATED_WRITE_ACCESS = Z.testbit a 5) (seqZ 0 128))
      by (refine (bool_decide_eq_true_1 _ _); vm_compute; reflexivity).
    rewrite Forall_forall in F. destruct (F a) as [? ?]; [apply elem_of_seqZ; lia|]. done.
Qed.

Lemma auth_payload_decides n Data : has_data Data n -> auth_payload Data n = Ok (certified n (default [] Data)).
Proof.
  intros HD. unfold auth_payload, certified, OFFSET_OF_AUTHINFO2_CERT_DATA, OFFSET_OF_AuthInfo, OFFSET_OF_CertData.
  destruct (Z.ltb_spec n (16 + 24)); [by rewrite (proj2 (Z.leb_gt 40 n)) by lia|]. rewrite (proj2 (Z.leb_le 40 n)) by lia.
  destruct Data as [b|]; [|destruct HD; lia]. destruct (caller_read_run (Some b) n 16 4 HD) as (bs & -> & _ & _ & _ & Hbs); [lia..|].
  rewrite (Hbs b eq_refl). unfold mbind, result_bind. cbn [default]. set (len := le_combine _). cbn [andb].
  destruct (Z.ltb_spec (n - 16) len), (Z.ltb_spec len 24), (Z.leb_spec 24 len), (Z.leb_spec (16 + len) n); try lia; cbn [orb andb]; [done..|].
  do 2 f_equal. lia.
Qed.

(** The checks of the driver are these. *)
Lemma set_checks_refused buf nm g Attributes n Data : holds_name buf nm -> has_data Data n \/ Data = None /\ 0 < n -> 0 <= Attributes ->
  set_checks buf g Attributes n Data = Ok (refused nm g Attributes n Data).
Proof.
  intros Hname HD HA. destruct (holds_size _ _ Hname) as (Hsz & _). unfold set_checks, refused. rewrite (IsReadOnly_decides _ _ _ Hname).
  rewrite bind_Ok. destruct (read_only nm g); [done|].
  destruct HD as [HD|[-> Hn]]; [|destruct (Z.eqb_spec n 0), (Z.ltb_spec 0 n); try lia; done].
  assert (E : negb (n =? 0) && negb (bool_decide (is_Some Data)) = false) by (destruct HD as [_ HD]; destruct Data; [apply andb_false_r|]; by rewrite HD).
  rewrite E. assert (E' : (0 <? n) && bool_decide (Data = None) = false) by (destruct HD as [_ HD]; destruct Data; [apply andb_false_r|]; by rewrite HD).
  rewrite E'. destruct (attributes_decided Attributes HA) as [Ew Et]. rewrite <- Ew. unfold attribute_checks.
  destruct (has Attributes (Z.lnot _)) eqn:Em; [done|]. apply mask_bound in Em; [|done]. rewrite (Et Em).
  destruct (_ =? EFI_VARIABLE_RUNTIME_ACCESS); [done|]. destruct (has Attributes EFI_VARIABLE_AUTHENTICATED_WRITE_ACCESS); [by destruct (Z.testbit _ _)|]. cbn [orb andb].
  assert (Hlast : forall p, (if EFI_MAX_VARIABLE_DATA_SIZE <? p then Ok (Some EFI_INVALID_PARAMETER)
      else size ← StrSize buf; if EFI_MAX_VARIABLE_NAME_SIZE <? size then Ok (Some EFI_INVALID_PARAMETER) else Ok None) =
      Ok (if (p <=? 32768) && (Zlength nm <=? 2048) then None else Some EFI_INVALID_PARAMETER)).
  { intros p. rewrite Hsz, bind_Ok. unfold EFI_MAX_VARIABLE_DATA_SIZE, EFI_MAX_VARIABLE_NAME_SIZE. change (32 * 1024) with 32768. change (2 * 1024) with 2048.
    by destruct (Z.ltb_spec 32768 p), (Z.leb_spec p 32768), (Z.ltb_spec 2048 (Zlength nm)), (Z.leb_spec (Zlength nm) 2048); try lia. }
  destruct (Z.testbit Attributes 5); rewrite ?(auth_payload_decides _ _ HD), bind_Ok; [|apply Hlast].
  destruct (certified n _); [apply Hlast|done].
Qed.

Lemma refused_error nm g Attributes n Data st : refused nm g Attributes n Data = Some st -> st <> EFI_SUCCESS.
Proof. unfold refused. intros H ->. repeat case_match; simplify_eq. Qed.
End VariableSpec.
