(* ===== verification/VariableRefine.v ===== *)
(** The log implements the ordered list of variables: every function on logs
    commutes with taking the live entries. *)
From Stdlib Require Import ZArith Lia.
From stdpp Require Import base list numbers list_numbers option gmap.
From S2P Require Import Prelude Circular VariableDxe VariableRep VariableNvram VariableReclaim VariableUpdate VariableOps VariableServices VariableSpec.
Open Scope Z_scope.

Module VariableRefine.
Import VariableDxe VariableRep VariableNvram VariableReclaim VariableUpdate VariableOps VariableServices VariableSpec.

Section Refine.
Context {B : BuildOptions} {BD : BiosDevice} {FW : Firmware} {VF : VariableFormat} {LW : VariableFormatLaws VF}
  {FL : FirmwareLaws FW} {DL : DeviceLaws BD}.

Definition abs_entry (e : entry) : var := mkVar (e_name e) (e_guid e) (e_Attributes e) (e_data e) (transition e).
Definition abs (es : list entry) : list var := abs_entry <$> survivors es.

Lemma abs_cons e es : abs (e :: es) = if live e then abs_entry e :: abs es else abs es.
Proof. unfold abs. rewrite survivors_cons. by destruct (live e). Qed.
Lemma abs_app es es' : abs (es ++ es') = abs es ++ abs es'.
Proof. unfold abs. by rewrite survivors_app, fmap_app. Qed.
Lemma abs_survivors es : abs (survivors es) = abs es.
Proof. unfold abs. by rewrite survivors_idem. Qed.

Lemma key_abs nm g e : live e = true -> v_key nm g (abs_entry e) = is_key nm g e.
Proof. intros H. unfold v_key, is_key. by rewrite H. Qed.
Lemma dead_key nm g e : live e = false -> is_key nm g e = false.
Proof. unfold is_key. by intros ->. Qed.

Lemma abs_find nm g es : v_find nm g (abs es) = abs_entry <$> log_find nm g es.
Proof.
  unfold v_find, log_find. induction es as [|e es IH]; [done|]. rewrite abs_cons. cbn [List.find]. destruct (live e) eqn:El.
  - cbn [List.find]. rewrite key_abs by done. by destruct (is_key nm g e).
  - by rewrite dead_key.
Qed.

Lemma abs_delete nm g es : abs (delete_key nm g es) = v_remove nm g (abs es).
Proof.
  unfold abs. rewrite survivors_delete. unfold v_remove. induction es as [|e es IH]; [done|]. rewrite survivors_cons. destruct (live e) eqn:El; [|done].
  rewrite fmap_cons. cbn [List.filter]. rewrite key_abs by done. destruct (is_key nm g e); cbn [negb]; [exact IH|]. rewrite fmap_cons. by f_equal.
Qed.

Lemma abs_hide nm g es : abs (hide_key nm g es) = v_hide nm g (abs es).
Proof.
  unfold abs. rewrite survivors_hide. unfold v_hide, at_key. induction es as [|e es IH]; [done|]. rewrite survivors_cons. destruct (live e) eqn:El; [|done].
  rewrite !fmap_cons, IH. f_equal. rewrite key_abs by done. destruct (is_key nm g e); [|done]. unfold abs_entry, v_conceal. by rewrite hidden_transition.
Qed.

Lemma abs_total es : total (abs es) = used (survivors es).
Proof. unfold abs, total, used. induction (survivors es) as [|e l IH]; [done|]. rewrite fmap_cons. cbn [foldr]. by rewrite IH. Qed.

Lemma new_added nm g Attributes data : let e := new_entry nm g Attributes data in live e = true /\ abs_entry e = v_new nm g Attributes data.
Proof.
  assert (Ha : added (new_entry nm g Attributes data) = true) by apply Z.eqb_refl. split; [unfold live; by rewrite Ha|].
  unfold abs_entry, v_new. f_equal. destruct (transition _) eqn:E; [|done]. apply transition_not_added in E. congruence.
Qed.

Lemma abs_store nm g Attributes data es : Forall entry_ok es -> let e := new_entry nm g Attributes data in
  ((log_store es e).1, abs (log_store es e).2) = v_put (abs es) (v_new nm g Attributes data).
Proof.
  intros Hok e. destruct (new_added nm g Attributes data) as [Hl He]. fold e in Hl, He. unfold log_store, v_put.
  rewrite abs_total. pose proof (survivors_room _ Hok) as Hs. fold (survivors es) in Hs. change (v_size (v_new nm g Attributes data)) with (e_size e).
  assert (Hput : forall l, abs l = abs es -> abs (delete_key (e_name e) (e_guid e) l ++ [e]) = v_remove nm g (abs es) ++ [v_new nm g Attributes data]).
  { intros l El. rewrite abs_app, abs_delete, El, abs_cons, Hl, He. done. }
  destruct (Z.ltb_spec STORE_MAIN_SIZE (e_size e + used es)) as [Hlt|Hge].
  - destruct (Z.ltb_spec STORE_MAIN_SIZE (e_size e + used (survivors es))); cbn [fst snd]; [by rewrite abs_survivors|].
    rewrite Hput; [done|apply abs_survivors].
  - rewrite (proj2 (Z.ltb_ge STORE_MAIN_SIZE (e_size e + used es))) by lia.
    rewrite (proj2 (Z.ltb_ge STORE_MAIN_SIZE (e_size e + used (survivors es)))) by lia. cbn [fst snd]. by rewrite Hput.
Qed.

Lemma abs_plan es nm g Attributes data runtime : Forall entry_ok es ->
  let p := log_plan es nm g Attributes data runtime in ((outcome p).1, abs (outcome p).2) = v_update (abs es) nm g Attributes data runtime.
Proof.
  intros Hok. unfold log_plan, v_update. rewrite has_lor, abs_find.
  destruct (has Attributes EFI_VARIABLE_AUTHENTICATED_WRITE_ACCESS || has Attributes EFI_VARIABLE_TIME_BASED_AUTHENTICATED_WRITE_ACCESS); [done|].
  cbn [orb]. destruct (has Attributes EFI_VARIABLE_NON_VOLATILE); [done|]. destruct (log_find nm g es) as [e|]; cbn [fmap option_fmap option_map].
  - destruct runtime; [done|]. destruct (_ || negb (accessible Attributes)); [cbn [outcome fst snd]; by rewrite abs_delete|].
    cbn [v_data abs_entry]. destruct (negb _ && bool_decide (data = e_data e)); [done|]. destruct (_ && (EFI_MAX_VARIABLE_DATA_SIZE <? _)); [done|].
    cbn [outcome]. rewrite <- abs_hide. apply abs_store. by apply at_key_ok.
  - destruct (_ && has Attributes EFI_VARIABLE_APPEND_WRITE); [done|]. destruct (_ || negb (accessible Attributes)); [done|]. destruct runtime; [done|]. by apply abs_store.
Qed.

(** ** Searching *)
Lemma search_none nm g es : nm <> EMPTY -> Forall (fun e => is_key nm g e = false) es -> forall pre del, search (matches nm g) pre es del = del.
Proof. intros Hn. induction 1 as [|e es He Hes IH]; intros pre del; [done|]. cbn [search]. by rewrite matches_key, He, IH by done. Qed.

Lemma search_one nm g l1 e l2 : nm <> EMPTY -> Forall (fun e => is_key nm g e = false) l1 -> is_key nm g e = true -> Forall (fun e => is_key nm g e = false) l2 ->
  forall pre del, search (matches nm g) pre (l1 ++ e :: l2) del = Some (pre ++ l1, e, l2).
Proof.
  intros Hn H1 He H2. induction H1 as [|x l1 Hx H1 IH]; intros pre del; cbn [app search].
  - rewrite matches_key, He, app_nil_r by done. destruct (transition e); [by rewrite search_none|done].
  - rewrite matches_key, Hx, IH by done. by rewrite <- app_assoc.
Qed.

(** With a name: the entry of the key and what follows it. *)
Lemma designated_key nm g es : nm <> EMPTY -> log_wf es ->
  match designated nm g es with
  | Some (l1, e, l2) => log_find nm g es = Some e /\ v_after nm g (abs es) = abs l2
  | None => log_find nm g es = None /\ v_after nm g (abs es) = []
  end.
Proof.
  intros Hn Hwf. unfold designated. destruct (find_cases nm g es Hwf) as [(l1 & e & l2 & -> & Hk & H1 & H2)|H].
  - rewrite search_one by done. split; [by apply log_find_one|]. rewrite abs_app. cbn [app]. clear Hwf H2. induction H1 as [|x l1 Hx H1 IH].
    + rewrite abs_cons. pose proof (proj1 (is_key_true _ _ _) Hk) as (Hl & _). rewrite Hl. cbn. by rewrite key_abs, Hk.
    + rewrite abs_cons. destruct (live x) eqn:El; [cbn; by rewrite key_abs, Hx|done].
  - rewrite search_none by done. split; [by apply log_find_none|]. clear Hwf. induction H as [|x es Hx H IH]; [done|].
    rewrite abs_cons. destruct (live x) eqn:El; [cbn; by rewrite key_abs, Hx|done].
Qed.

(** Without one: the first added entry, or else the last in transition. *)
Lemma search_empty g es : forall pre del,
  match search (matches EMPTY g) pre es del with
  | Some (l1, e, l2) =>
    (exists m, pre ++ es = l1 ++ e :: l2 /\ l1 = pre ++ m /\ added e = true /\ Forall (fun e => added e = false) m /\ List.find (fun v => negb (v_hidden v)) (abs es) = Some (abs_entry e)) \/
    (Forall (fun e => added e = false) es /\ ((del = Some (l1, e, l2) /\ abs es = []) \/ (pre ++ es = l1 ++ e :: l2 /\ last (abs es) = Some (abs_entry e))))
  | None => abs es = [] /\ del = None
  end.
Proof.
  induction es as [|x es IH]; intros pre del; cbn [search].
  { destruct del as [[[l1 e] l2]|]; [|done]. right. split; [done|]. by left. }
  assert (Hm : matches EMPTY g x = true) by done. rewrite Hm, andb_true_r, abs_cons. destruct (live x) eqn:El.
  - destruct (transition x) eqn:Et.
    + pose proof (transition_not_added _ Et) as Ha. specialize (IH (pre ++ [x]) (Some (pre, x, es))).
      destruct (search _ _ _ _) as [[[l1 e] l2]|]; [|by destruct IH]. rewrite <- app_assoc in IH. cbn [app] in IH. destruct IH as [(m & E & El1 & Hae & Hm' & Hf)|(Hna & IH)].
      * left. exists (x :: m). split_and!; [done|by rewrite El1, <- app_assoc|done|by constructor|]. cbn. by rewrite Et.
      * right. split; [by constructor|]. right. destruct IH as [([= <- <- <-] & Habs)|(E & Hl)]; [by rewrite Habs|]. split; [done|]. destruct (abs es); done.
    + assert (Ha : added x = true) by (unfold live in El; by rewrite Et, orb_false_r in El). left. exists []. split_and!; [done|by rewrite app_nil_r|done|done|]. cbn. by rewrite Et.
  - assert (Ha : added x = false) by (unfold live in El; by apply orb_false_iff in El as [? _]). specialize (IH (pre ++ [x]) del).
    destruct (search _ _ _ _) as [[[l1 e] l2]|]; [|done]. rewrite <- app_assoc in IH. cbn [app] in IH. destruct IH as [(m & E & El1 & Hae & Hm' & Hf)|(Hna & IH)].
    + left. exists (x :: m). split_and!; [done|by rewrite El1, <- app_assoc|done|by constructor|done].
    + right. split; [by constructor|done].
Qed.
End Refine.
End VariableRefine.
