(* ===== verification/VariableProps.v ===== *)
(** The properties of the variable services. *)
From Stdlib Require Import ZArith Lia.
From stdpp Require Import base list numbers list_numbers option gmap.
From S2P Require Import Prelude Circular VariableDxe VariableRep VariableNvram VariableReclaim VariableUpdate VariableOps VariableServices VariableMachine VariableSpec VariableRefine.
Open Scope Z_scope.

Module VariableProps.
Import VariableDxe VariableRep VariableNvram VariableReclaim VariableUpdate VariableOps VariableServices VariableMachine VariableSpec VariableRefine.

(** ** Calls *)

(** What a caller must respect: strings have a terminator, GUIDs 16 bytes, and
    buffers the size that is stated for them. *)
Definition string_ok (buf : option (list Z)) : Prop := match buf with Some b => holds_name b (c_string b) /\ Forall is_byte b | None => True end.
Definition guid_ok (g : option (list Z)) : Prop := match g with Some x => is_guid x | None => True end.
Definition call_ok (c : call) : Prop :=
  match c with
  | CallGet nm g _ n Data => string_ok nm /\ guid_ok g /\ match n with Some n => has_data Data n | None => True end
  | CallNext size nm g => string_ok nm /\ guid_ok g /\ match size, nm with Some n, Some b => 0 <= n <= Zlength b | _, _ => True end
  | CallSet nm g Attributes n Data => string_ok nm /\ guid_ok g /\ (has_data Data n \/ Data = None /\ 0 < n) /\ n < 2 ^ 32 /\ 0 <= Attributes < 2 ^ 32
  | _ => True
  end.

Section Props.
Context {B : BuildOptions} {BD : BiosDevice} {FW : Firmware} {VF : VariableFormat} {LW : VariableFormatLaws VF}
  {FL : FirmwareLaws FW} {DL : DeviceLaws BD}.

(** A call as the firmware makes it; [SetVirtualAddressMap] has no effect before runtime. *)
Definition serve (c : call) : V reply :=
  match c with
  | CallGet nm g wants n Data => r ← VariableServiceGetVariable nm g wants n Data; mret (RGet r)
  | CallNext size nm g => r ← VariableServiceGetNextVariableName size nm g; mret (RNext r)
  | CallSet nm g Attributes n Data => r ← VariableServiceSetVariable nm g Attributes n Data; mret (RSet r)
  | CallQuery Attributes outputs => r ← VariableServiceQueryVariableInfo Attributes outputs; mret (RQuery r)
  | CallExitBootServices => ExitBootServices;; mret RDone
  | CallSetVirtualAddressMap => runtime ← vget EfiAtRuntime; if (runtime : bool) then SetVirtualAddressMap;; mret RDone else mret RDone
  end.
Fixpoint serve_all (cs : list call) : V (list reply) :=
  match cs with [] => mret [] | c :: cs => r ← serve c; rs ← serve_all cs; mret (r :: rs) end.

(** The same on logs: whether [Reclaim] is benign if a call needs it, and the log
    after the call. *)
Definition set_data (n : Z) (Data : option (list Z)) : list Z := match Data with Some b => zslice 0 n b | None => [] end.
Definition call_plan (st : bool * list entry) (c : call) : option plan :=
  match c with
  | CallSet (Some buf) (Some g) Attributes n Data => log_set st.2 buf (c_string buf) g Attributes n Data (set_data n Data) st.1
  | _ => None
  end.
Definition log_step (st : bool * list entry) (c : call) : bool * list entry :=
  (match c with CallExitBootServices => true | _ => st.1 end, match call_plan st c with Some p => (outcome p).2 | None => st.2 end).
Definition benign_call (st : bool * list entry) (c : call) : bool := match call_plan st c with Some p => benign p | None => true end.
Fixpoint benign_run (st : bool * list entry) (cs : list call) : bool :=
  match cs with [] => true | c :: cs => benign_call st c && benign_run (log_step st c) cs end.

Definition log_run (st : bool * list entry) (cs : list call) : bool * list entry := foldl log_step st cs.

(** The answers of the reference, [None] where it leaves them to the host. *)
Fixpoint v_run (st : vstate) (cs : list call) : list (option reply) :=
  match cs with [] => [] | c :: cs => (v_step st c).1 :: v_run (v_step st c).2 cs end.
Definition agrees (o : option reply) (r : reply) : Prop := match o with Some r' => r = r' | None => True end.

(** ** The simulation of a call *)
Lemma listed_abs runtime es : List.find (v_listed runtime) (abs es) = abs_entry <$> List.find (listed runtime) es.
Proof.
  induction es as [|e es IH]; [done|]. rewrite abs_cons. cbn [List.find]. destruct (live e) eqn:El.
  - cbn [List.find]. replace (v_listed runtime (abs_entry e)) with (listed runtime e); [by destruct (listed runtime e)|].
    unfold listed, v_listed. cbn. f_equal. destruct (transition e) eqn:Et; [by apply transition_not_added|]. unfold live in El. by rewrite Et, orb_false_r in El.
  - assert (Ha : added e = false) by (unfold live in El; by apply orb_false_iff in El as [? _]). assert (Hl : listed runtime e = false) by (unfold listed; by rewrite Ha). by rewrite Hl.
Qed.

Lemma designated_abs nm g es : log_wf es -> v_designated nm g (abs es) = (fun r => abs_entry r.1.2) <$> designated nm g es.
Proof.
  intros Hwf. unfold v_designated. destruct (bool_decide_reflect (nm = EMPTY)) as [->|Hne].
  - pose proof (search_empty g es [] None) as H. unfold designated. destruct (search _ _ _ _) as [[[l1 e] l2]|]; [|destruct H as [-> _]; done].
    destruct H as [(m & _ & _ & _ & _ & ->)|(Hna & [(? & _)|(E & Hl)])]; [done|done|]. cbn. replace (List.find _ (abs es)) with (@None var); [done|].
    clear E Hl Hwf. induction Hna as [|x es Hx Hna IH]; [done|]. rewrite abs_cons. destruct (live x) eqn:El; [|done]. cbn [List.find].
    unfold live in El. rewrite Hx in El. cbn in El. cbn [v_hidden abs_entry]. by rewrite El.
  - pose proof (designated_key nm g es Hne Hwf) as H. rewrite abs_find. destruct (designated nm g es) as [[[l1 e] l2]|]; by destruct H as [-> _].
Qed.

Lemma next_abs runtime nm g es : log_wf es -> v_next runtime nm g (abs es) = abs_entry <$> (continuation nm g es ≫= List.find (listed runtime)).
Proof.
  intros Hwf. unfold v_next, continuation. destruct (bool_decide_reflect (nm = EMPTY)) as [->|Hne].
  - rewrite listed_abs. f_equal. pose proof (search_empty g es [] None) as H. unfold designated. destruct (search _ _ _ _) as [[[l1 e] l2]|].
    2: { destruct H as [H _]. cbn. pose proof (listed_abs runtime es) as Hl. rewrite H in Hl. by destruct (List.find (listed runtime) es). }
    change (bool_decide (EMPTY = [0; 0])) with true. cbn [mbind option_bind].
    assert (Hskip : forall l, Forall (fun e => added e = false) l -> List.find (listed runtime) l = None).
    { intros l Hl. induction Hl as [|x l Hx Hl IH]; [done|]. cbn. unfold listed at 1. by rewrite Hx. }
    cbn [app] in H. destruct H as [(m & E & El1 & Ha & Hm & _)|(Hna & [(? & _)|(E & _)])]; [|done|].
    + rewrite E, El1. clear E El1. induction Hm as [|x m Hx Hm IH]; [done|]. cbn. unfold listed at 1. by rewrite Hx.
    + rewrite E in Hna. apply Forall_app in Hna as [H1 H2]. rewrite E. rewrite (Hskip (l1 ++ e :: l2)) by by apply Forall_app. by rewrite Hskip.
  - pose proof (designated_key nm g es Hne Hwf) as H. rewrite bool_decide_false by done.
    destruct (designated nm g es) as [[[l1 e] l2]|]; destruct H as [_ ->]; [|done]. cbn [mbind option_bind]. apply listed_abs.
Qed.

Lemma taken_abs es : taken false es = total (List.filter (fun v => negb (v_hidden v)) (abs es)).
Proof.
  induction es as [|e es IH]; [done|]. rewrite taken_cons, abs_cons, IH. cbn [orb]. unfold live. destruct (added e) eqn:Ea; cbn [orb].
  - cbn [List.filter v_hidden abs_entry]. destruct (transition e) eqn:Et; [apply transition_not_added in Et; congruence|]. done.
  - destruct (transition e) eqn:Et; [|lia]. cbn [List.filter v_hidden abs_entry]. rewrite Et. cbn [negb]. lia.
Qed.

Lemma c_string_holds buf nm : holds_name buf nm -> c_string buf = nm.
Proof.
  intros H. destruct (holds_size _ _ H) as (E & _). destruct H as (_ & _ & rest & ->). unfold c_string. rewrite E. unfold Zlength. rewrite Nat2Z.id. apply take_app_length.
Qed.

Lemma set_data_read n Data : has_data Data n -> caller_read Data 0 n = Ok (set_data n Data) /\ Zlength (set_data n Data) = n /\ Forall is_byte (set_data n Data).
Proof.
  intros H. pose proof H as [Hn HD]. destruct (caller_read_run Data n 0 n H) as (bs & E & Hl & Hb & H0 & HS); [lia..|].
  assert (Ebs : bs = set_data n Data) by (destruct Data as [b|]; [exact (HS b eq_refl)|exact (H0 HD)]). rewrite Ebs in *. by split_and!.
Qed.

Lemma abs_set es buf g Attributes n Data runtime : Forall entry_ok es -> holds_name buf (c_string buf) ->
  has_data Data n \/ Data = None /\ 0 < n -> 0 <= Attributes ->
  v_set (abs es) buf g Attributes n Data runtime =
    (fun p => ((outcome p).1, abs (outcome p).2)) <$> log_set es buf (c_string buf) g Attributes n Data (set_data n Data) runtime.
Proof.
  intros Hok Hname HD HA. unfold v_set, log_set. fold (set_data n Data). change EMPTY with [0; 0]. destruct (bool_decide (c_string buf = [0; 0])); [done|].
  rewrite abs_find. replace (bool_decide (is_Some (abs_entry <$> log_find (c_string buf) g es))) with (bool_decide (is_Some (log_find (c_string buf) g es))) by by destruct (log_find _ _ _).
  rewrite (set_checks_refused _ _ _ _ _ _ Hname HD HA). destruct (refused _ g Attributes n Data) as [st|]; [done|].
  destruct (_ && has Attributes EFI_VARIABLE_TIME_BASED_AUTHENTICATED_WRITE_ACCESS); [done|]. destruct (_ || _); [|done]. cbn. f_equal. by rewrite <- abs_plan.
Qed.

(** A call that is refused does nothing. *)
Lemma wp_SetVariable_null s q a es buf nm g Attributes n (Q : EFI_STATUS -> variables -> Prop) : inv s q a es -> holds_name buf nm -> 0 < n -> 0 <= Attributes ->
  match log_set es buf nm g Attributes n None [] (EfiAtRuntime s) with
  | Some p => forall s', inv s' q a (outcome p).2 -> frame s s' -> Q (outcome p).1 s'
  | None => False
  end -> wpv (VariableServiceSetVariable (Some buf) (Some g) Attributes n None) s Q.
Proof.
  intros Hi Hname Hn HA HQ. unfold VariableServiceSetVariable.
  pose proof Hname as (Hnm & _ & rest & Ebuf). destruct (first_char_empty nm rest Hnm) as (c & Ec & Hc). rewrite <- Ebuf in Ec. eapply wpv_vlift; [exact Ec|].
  rewrite Hc. unfold log_set in HQ. destruct (bool_decide (nm = [0; 0])); [apply wpv_ret; apply HQ; [done|apply frame_refl]|].
  apply wpv_bind. eapply wpv_mono; [apply debug_log_safe, Hi|]. intros [] s1 (Hf1 & Hn1 & _). pose proof (inv_frame _ _ _ _ _ Hi Hf1 Hn1) as Hi1.
  pose proof (set_checks_refused buf nm g Attributes n None Hname (or_intror (conj eq_refl Hn)) HA) as E. rewrite E in HQ. eapply wpv_vlift; [exact E|].
  unfold refused in *. destruct (read_only nm g); [by apply wpv_ret, HQ|]. rewrite (proj2 (Z.ltb_lt 0 n) Hn) in *. by apply wpv_ret, HQ.
Qed.

(** What a call does to the invariant and answers. *)
Definition step_post (q a : Z) (st : bool * list entry) (c : call) (r : reply) (s' : variables) : Prop :=
  inv s' q a (log_step st c).2 /\ EfiAtRuntime s' = (log_step st c).1 /\ agrees (v_step (st.1, abs st.2) c).1 r /\
  (v_step (st.1, abs st.2) c).2 = ((log_step st c).1, abs (log_step st c).2).

Lemma serve_step s q a es c : inv s q a es -> call_ok c -> let st := (EfiAtRuntime s, es) in
  benign_call st c = true -> wpv (serve c) s (step_post q a st c).
Proof.
  intros Hi Hc st Hb. pose proof Hi as [(tail & Hv) Hwf _ _ _]. pose proof (vol_ok _ _ _ _ Hv) as Hok. unfold step_post, log_step, st.
  destruct c as [nm g wants n Data|size nm g|nm g Attributes n Data|Attributes outputs| |]; cbn [serve call_plan fst snd].
  - destruct Hc as (Hn & Hg & HD). destruct nm as [buf|]; [|by apply wpv_bind, wpv_ret, wpv_ret]. destruct g as [g|]; [|by apply wpv_bind, wpv_ret, wpv_ret].
    destruct n as [n|]; [|by apply wpv_bind, wpv_ret, wpv_ret]. destruct Hn as [Hn _]. apply wpv_bind. eapply wp_GetVariable; [done|done|done|done|].
    intros r s' Hi' Hf' Hr. apply wpv_ret. split_and!; [done|by apply frame_fields| |done]. cbn [v_step fst]. rewrite designated_abs by done.
    destruct (designated _ g es) as [[[l1 e] l2]|]; [|done]. cbn. by rewrite Hr.
  - destruct Hc as (Hn & Hg & HD). destruct size as [size|]; [|by apply wpv_bind, wpv_ret, wpv_ret]. destruct nm as [buf|]; [|by apply wpv_bind, wpv_ret, wpv_ret].
    destruct g as [g|]; [|by apply wpv_bind, wpv_ret, wpv_ret]. destruct Hn as [Hn Hbytes]. apply wpv_bind. eapply wp_GetNextVariableName; [done|done|done|done|done|].
    intros r s' Hi' Hf' Hr. apply wpv_ret. split_and!; [done|by apply frame_fields| |done]. cbn [v_step fst]. rewrite next_abs by done.
    destruct (continuation _ g es ≫= _) as [e|]; [|done]. cbn. by rewrite Hr.
  - destruct Hc as (Hn & Hg & HD & Hn32 & HA). destruct nm as [buf|]; [|by apply wpv_bind, wpv_ret, wpv_ret]. destruct Hn as [Hn _].
    apply wpv_bind. destruct g as [g|].
    2: { destruct Hn as (Hn1 & Hn2 & rest & Ebuf). destruct (first_char_empty (c_string buf)) with (rest := rest) as (c & Ec & _); [done|].
         rewrite <- Ebuf in Ec. eapply wpv_vlift; [exact Ec|]. by apply wpv_ret, wpv_ret. }
    unfold benign_call in Hb. cbn [call_plan fst snd st] in Hb. cbn [v_step]. rewrite abs_set by (done || apply HA). destruct HD as [HD|[-> HD]].
    2: { eapply wp_SetVariable_null; [done|done|done|apply HA|]. change (set_data n None) with (@nil Z) in *.
         assert (exists p, log_set es buf (c_string buf) g Attributes n None [] (EfiAtRuntime s) = Some p) as (p & Ep).
         { unfold log_set. destruct (bool_decide _); [by eexists|]. rewrite (set_checks_refused buf (c_string buf)) by (try done; try apply HA; by right).
           unfold refused. destruct (read_only _ _); [by eexists|]. rewrite (proj2 (Z.ltb_lt 0 n) HD). by eexists. }
         rewrite Ep. intros s' Hi' Hf'. apply wpv_ret. cbn. split_and!; [done|by apply frame_fields|done|done]. }
    destruct (set_data_read n Data HD) as (Hread & Hlen & Hbytes). eapply wp_SetVariable; try done. destruct (log_set es buf (c_string buf) g Attributes n Data (set_data n Data) (EfiAtRuntime s)) as [p|].
    + split; [done|]. intros s' Hi' Hs'. apply wpv_ret. cbn. split_and!; [done|by apply same_fields|done|done].
    + intros status s' Hi' Hf'. apply wpv_ret. split_and!; [done|by apply frame_fields|done|done].
  - apply wpv_bind. eapply wp_QueryVariableInfo; [done|]. intros r s' Hi' Hf' Hr. apply wpv_ret. split_and!; [done|by apply frame_fields| |done].
    cbn [v_step fst]. destruct (query_status (EfiAtRuntime s) Attributes outputs); [cbn; by rewrite Hr|].
    destruct (has Attributes EFI_VARIABLE_NON_VOLATILE); [done|]. cbn [orb]. destruct (EfiAtRuntime s); [done|]. cbn. rewrite (Hr eq_refl).
    unfold query_reply, v_query. by rewrite taken_abs.
  - apply wpv_bind. eapply wp_ExitBootServices; [done|]. intros s' Hi' Hr'. apply wpv_ret. by split_and!.
  - apply wpv_vget. destruct (EfiAtRuntime s) eqn:Er; [|apply wpv_ret; by split_and!].
    apply wpv_bind. eapply wp_SetVirtualAddressMap; [done|done|]. intros s' Hi' Hr'. apply wpv_ret. by split_and!.
Qed.

Lemma serve_run q a cs : forall s es, inv s q a es -> Forall call_ok cs -> benign_run (EfiAtRuntime s, es) cs = true ->
  wpv (serve_all cs) s (fun rs s' => Forall2 agrees (v_run (EfiAtRuntime s, abs es) cs) rs /\ inv s' q a (log_run (EfiAtRuntime s, es) cs).2 /\
    EfiAtRuntime s' = (log_run (EfiAtRuntime s, es) cs).1).
Proof.
  induction cs as [|c cs IH]; intros s es Hi Hok Hb; cbn [serve_all v_run].
  { by apply wpv_ret. }
  inversion_clear Hok as [|?? Hc Hcs]. cbn [benign_run] in Hb. apply andb_true_iff in Hb as [Hb1 Hb2].
  apply wpv_bind. eapply wpv_mono; [by apply serve_step|]. intros r s1 (Hi1 & Hr1 & Ha & Hst). cbn [fst snd] in *.
  apply wpv_bind. rewrite <- Hr1 in *. eapply wpv_mono; [apply (IH s1 (log_step (EfiAtRuntime s, es) c).2); [done|done|]|].
  { by rewrite Hr1, <- surjective_pairing. }
  intros rs s2 (Hrs & Hi2 & Hr2). rewrite Hr1, <- surjective_pairing in Hi2, Hr2. apply wpv_ret. split; [|by split]. constructor; [done|]. by rewrite Hst.
Qed.

(** With a device that does not stall, what [wpv] states is a result. *)
Lemma wpv_total {A} (c : V A) s (Q : A -> variables -> Prop) : ~ stalls -> wpv c s Q -> exists r s', c s = Ok (r, s') /\ Q r s'.
Proof. unfold wpv. intros Hst. destruct (c s) as [[r s']|[]]; try done. intros H. by exists r, s'. Qed.

(** ** Enumeration *)

(** The caller's loop around [GetNextVariableName], with a buffer of [size] bytes
    and at most [n] calls: the names and GUIDs it is given. *)
Fixpoint enumerate (n : nat) (size : Z) (buf g : list Z) : V (list (list Z * list Z)) :=
  match n with
  | O => mret []
  | S n =>
    r ← VariableServiceGetNextVariableName (Some size) (Some buf) (Some g);
    if bool_decide (nr_status r = EFI_SUCCESS) then
      rest ← enumerate n size (nr_name r) (nr_guid r); mret ((c_string (nr_name r), nr_guid r) :: rest)
    else mret []
  end.

(** The variables of a log are well named and have distinct keys. *)
Definition var_ok (v : var) : Prop := is_name (v_name v) /\ v_name v <> EMPTY /\ Zlength (v_name v) <= EFI_MAX_VARIABLE_NAME_SIZE /\ is_guid (v_guid v).
Definition v_id (v : var) : list Z * list Z := (v_guid v, v_name v).

Lemma abs_ok es : Forall entry_ok es -> log_wf es -> Forall var_ok (abs es) /\ NoDup (v_id <$> abs es).
Proof.
  intros Hok [Hnd Hne]. split.
  - clear Hnd. induction Hok as [|e es He Hok IH]; [done|]. apply Forall_cons in Hne as [Hne1 Hne2]. rewrite abs_cons.
    destruct (live e); [constructor; [|by apply IH]|by apply IH]. destruct He as (? & ? & ? & ? & ? & ? & ? & ?). by split_and!.
  - unfold abs. rewrite <- list_fmap_compose. exact Hnd.
Qed.

Lemma v_after_skip v pre L : NoDup (v_id <$> pre ++ v :: L) -> v_after (v_name v) (v_guid v) (pre ++ v :: L) = L.
Proof.
  induction pre as [|x pre IH]; cbn [app fmap list_fmap v_after]; intros Hnd; unfold v_key at 1.
  - by rewrite !bool_decide_true.
  - apply NoDup_cons in Hnd as [Hx Hnd]. destruct (bool_decide_reflect (v_guid v = v_guid x)) as [Eg|]; cbn [andb]; [|by apply IH].
    destruct (bool_decide_reflect (v_name v = v_name x)) as [En|]; [|by apply IH]. destruct Hx. apply list_elem_of_fmap. exists v.
    split; [unfold v_id; congruence|]. apply elem_of_app. right. by left.
Qed.

Lemma find_split {A} (P : A -> bool) l x : List.find P l = Some x -> exists m r, l = m ++ x :: r /\ P x = true /\ List.filter P l = x :: List.filter P r.
Proof.
  induction l as [|y l IH]; [done|]. cbn. destruct (P y) eqn:E; [intros [= ->]; by exists [], l|].
  intros (m & r & -> & Hx & Hf)%IH. by exists (y :: m), r.
Qed.

Lemma find_none_filter {A} (P : A -> bool) l : List.find P l = None -> List.filter P l = [].
Proof. induction l as [|y l IH]; [done|]. cbn. destruct (P y); [done|exact IH]. Qed.

Lemma enumerate_from q a es size : EFI_MAX_VARIABLE_NAME_SIZE <= size -> forall n L pre buf nm g s, inv s q a es -> holds_name buf nm -> Forall is_byte buf -> is_guid g ->
  Zlength buf = size -> abs es = pre ++ L -> v_next (EfiAtRuntime s) nm g (abs es) = List.find (v_listed (EfiAtRuntime s)) L ->
  (n <= length (List.filter (v_listed (EfiAtRuntime s)) L))%nat ->
  wpv (enumerate n size buf g) s (fun ids s' => inv s' q a es /\ ids = (fun v => (v_name v, v_guid v)) <$> take n (List.filter (v_listed (EfiAtRuntime s)) L)).
Proof.
  intros Hsize. induction n as [|n IH]; intros L pre buf nm g s Hi Hname Hb Hg Hl Habs Hnext Hn; cbn [enumerate]; [by apply wpv_ret|].
  pose proof Hi as [(tail & Hv) Hwf _ _ _]. destruct (abs_ok es (vol_ok _ _ _ _ Hv) Hwf) as [Hok Hnd].
  destruct (List.find _ L) as [v|] eqn:Ef. 2: { rewrite (find_none_filter _ _ Ef) in Hn. cbn in Hn. lia. }
  destruct (find_split _ _ _ Ef) as (m & r & -> & Hx & Hf). rewrite Habs in Hok, Hnd. rewrite Hf in Hn |- *. cbn [length] in Hn.
  apply Forall_app in Hok as [_ Hok]. apply Forall_app in Hok as [_ Hok]. apply Forall_cons in Hok as [(Hv1 & Hv2 & Hv3 & Hv4) _].
  apply wpv_bind. eapply wp_GetNextVariableName; [done|done|done|done|unfold EFI_MAX_VARIABLE_NAME_SIZE in *; lia|]. intros r' s' Hi' Hf' Hr. rewrite next_abs in Hnext by done.
  destruct (continuation nm g es ≫= _) as [e|]; [|done]. injection Hnext as <-. cbn [v_name v_guid abs_entry] in *.
  assert (Er : r' = mkNext EFI_SUCCESS (Zlength (e_name e)) (overwrite 0 (e_name e) buf) (e_guid e)) by (rewrite Hr; unfold next_reply; by rewrite (proj2 (Z.leb_le _ _)) by lia).
  rewrite Er. cbn [nr_status nr_name nr_guid]. rewrite bool_decide_true by done.
  assert (Hname' : holds_name (overwrite 0 (e_name e) buf) (e_name e)).
  { split; [done|]. split; [unfold EFI_MAX_VARIABLE_NAME_SIZE in *; lia|]. unfold overwrite. by eexists. }
  assert (Hrt : EfiAtRuntime s' = EfiAtRuntime s) by by apply frame_fields.
  apply wpv_bind. eapply wpv_mono; [eapply (IH r (pre ++ m ++ [abs_entry e])); [done|exact Hname'| |done| | | |]|].
  - apply overwrite_bytes; [done|apply Hv1].
  - rewrite Zlength_overwrite by lia. done.
  - by rewrite Habs, <- !app_assoc.
  - unfold v_next. rewrite bool_decide_false by done. f_equal. rewrite Habs, app_assoc. apply (v_after_skip (abs_entry e)). by rewrite <- app_assoc, <- Habs in *.
  - rewrite Hrt. lia.
  - intros ids s2 [Hi2 ->]. apply wpv_ret. split; [done|]. rewrite Hrt. cbn [take fmap list_fmap v_name v_guid abs_entry]. by rewrite (c_string_holds _ _ Hname').
Qed.

(** ** Setting and reading *)

(** A variable as [GetVariable] shows it. *)
Definition shows (v v' : var) : Prop := v_attributes v' = v_attributes v /\ v_data v' = v_data v.

Lemma v_find_hide nm g nm' g' vs v : v_find nm' g' vs = Some v -> exists v', v_find nm' g' (v_hide nm g vs) = Some v' /\ shows v v'.
Proof.
  unfold v_find, v_hide. induction vs as [|x vs IH]; [done|]. cbn [List.find fmap list_fmap]. intros H.
  assert (Ek : v_key nm' g' (if v_key nm g x then v_conceal x else x) = v_key nm' g' x) by by destruct (v_key nm g x). rewrite Ek.
  destruct (v_key nm' g' x); [|by apply IH]. injection H as ->. eexists. split; [done|]. by destruct (v_key nm g v).
Qed.

Lemma v_update_fails vs nm g Attributes data runtime nm' g' v : let r := v_update vs nm g Attributes data runtime in
  r.1 <> EFI_SUCCESS -> v_find nm' g' vs = Some v -> exists v', v_find nm' g' r.2 = Some v' /\ shows v v'.
Proof.
  intros r Hr Hv. assert (Hsame : exists v', v_find nm' g' vs = Some v' /\ shows v v') by by exists v.
  unfold r, v_update, v_put in *. clear r. repeat case_match; cbn [fst snd] in *; try done. all: by apply v_find_hide.
Qed.

Lemma v_find_put vs v : v_find (v_name v) (v_guid v) (v_remove (v_name v) (v_guid v) vs ++ [v]) = Some v.
Proof.
  unfold v_find, v_remove. induction vs as [|x vs IH]; cbn [List.filter app List.find].
  - unfold v_key. by rewrite !bool_decide_true.
  - destruct (v_key _ _ x) eqn:E; cbn [negb app List.find]; [exact IH|]. by rewrite E.
Qed.

Lemma v_update_sets vs nm g Attributes data runtime : let r := v_update vs nm g Attributes data runtime in
  r.1 = EFI_SUCCESS -> has Attributes EFI_VARIABLE_APPEND_WRITE = false -> data <> [] -> accessible Attributes = true ->
  exists v, v_find nm g r.2 = Some v /\ v_data v = data /\ (v = v_new nm g Attributes data \/ v_find nm g vs = Some v).
Proof.
  intros r Hr Ha Hd Hacc. unfold r, v_update in *. clear r. rewrite Ha, Hacc in *. rewrite (bool_decide_false (data = [])) in * by done. cbn [andb orb negb] in *.
  assert (Hput : forall vs', (v_put vs' (v_new nm g Attributes data)).1 = EFI_SUCCESS -> v_find nm g (v_put vs' (v_new nm g Attributes data)).2 = Some (v_new nm g Attributes data)).
  { intros vs'. unfold v_put. destruct (_ <? _); [done|]. intros _. exact (v_find_put vs' (v_new nm g Attributes data)). }
  case_match; [done|]. destruct (v_find nm g vs) as [v|] eqn:Ev; (destruct runtime; [done|]).
  - destruct (bool_decide_reflect (data = v_data v)) as [E|]; [exists v; auto|]. eexists. split; [by apply Hput|]. auto.
  - eexists. split; [by apply Hput|]. auto.
Qed.

(** What two calls in a row answer, when the reference answers both. *)
Lemma serve_two s q a es c c' r r' : inv s q a es -> call_ok c -> call_ok c' -> benign_call (EfiAtRuntime s, es) c = true -> ~ stalls ->
  (forall st, benign_call st c' = true) -> let st := (EfiAtRuntime s, abs es) in
  (v_step st c).1 = Some r -> (v_step (v_step st c).2 c').1 = Some r' -> exists s', serve_all [c; c'] s = Ok ([r; r'], s').
Proof.
  intros Hi Hc Hc' Hb Hst Hb' st E E'. destruct (wpv_total _ _ _ Hst (serve_run q a [c; c'] s es Hi ltac:(by repeat constructor) ltac:(cbn; by rewrite Hb, Hb')))
    as (rs & s' & Es & Ha & _). fold st in Ha. cbn [v_run] in Ha. rewrite E, E' in Ha. apply Forall2_cons_inv_l in Ha as (r1 & l1 & A1 & Ha & ->).
  apply Forall2_cons_inv_l in Ha as (r2 & l2 & A2 & Ha & ->). apply Forall2_nil_inv_l in Ha as ->. cbn in A1, A2. subst. by exists s'.
Qed.

(** ** The properties *)

(** C3. The driver implements the variable services: when its entry point reports
    success and the device does not stall, every sequence of calls, the end of boot
    services and the change of the address map among them, returns without a fault,
    and each answer is the one of the ordered list of variables that starts empty,
    wherever that list gives one (it leaves to the host what is not kept in the
    volatile store).  The list decides by itself which calls of [SetVariable] are
    refused and with which status.  Two conditions: [benign_run] excludes calls that
    need [Reclaim] in a store where it goes wrong, and the laws of the device
    ([DeviceLaws]) say that the host reports no more bytes of a name or of data than
    it was offered, which the driver does not check. *)
Theorem services_refine (d : device) (s : variables) (cs : list call) : ~ stalls -> VariableServiceInitialize (boot d) = Ok (EFI_SUCCESS, s) ->
  Forall call_ok cs -> benign_run (false, []) cs = true ->
  exists rs s', serve_all cs s = Ok (rs, s') /\ Forall2 agrees (v_run (false, []) cs) rs.
Proof.
  intros Hst E Hok Hb. destruct (initialize_returns d _ _ E eq_refl) as (Hr & q & a & Hi). rewrite <- Hr in Hb.
  destruct (wpv_total _ _ _ Hst (serve_run q a cs s [] Hi Hok Hb)) as (rs & s' & Es & Ha & _). rewrite Hr in Ha. by exists rs, s'.
Qed.

(** C26. The store is a typed log after every call: a call made where the store is
    a sequence of well-formed entries with distinct live keys, followed by erased
    space up to the scratch area, leaves such a sequence, namely the one that
    [log_step] computes, and keeps the append buffer, the pages of the device and
    the pointers to them valid.  This is for calls that do not need [Reclaim] in a
    store where it goes wrong ([benign_call]; [VariableLimits] shows what happens
    in the others), a device that does not stall, and a host that reports no more
    bytes than it was offered ([DeviceLaws]). *)
Theorem serve_typed s q a es c : inv s q a es -> call_ok c -> benign_call (EfiAtRuntime s, es) c = true -> ~ stalls ->
  exists r s', serve c s = Ok (r, s') /\ inv s' q a (log_step (EfiAtRuntime s, es) c).2 /\ EfiAtRuntime s' = (log_step (EfiAtRuntime s, es) c).1.
Proof.
  intros Hi Hc Hb Hst. destruct (wpv_total _ _ _ Hst (serve_step _ _ _ _ _ Hi Hc Hb)) as (r & s' & E & Hi' & Hr & _). by exists r, s'.
Qed.


(** C28. Enumeration is complete: a caller that starts with the empty name and
    hands each answer back is given the variables in the order in which they were
    set, each once, without those that are hidden or, at runtime, that lack runtime
    access. *)
Theorem names_enumerated s q a es buf g n : inv s q a es -> holds_name buf EMPTY -> Forall is_byte buf -> EFI_MAX_VARIABLE_NAME_SIZE <= Zlength buf -> is_guid g ->
  ~ stalls -> let vs := List.filter (v_listed (EfiAtRuntime s)) (abs es) in (n <= length vs)%nat ->
  exists s', enumerate n (Zlength buf) buf g s = Ok ((fun v => (v_name v, v_guid v)) <$> take n vs, s') /\ inv s' q a es.
Proof.
  intros Hi Hname Hb Hl Hg Hst vs Hn. destruct (wpv_total _ _ _ Hst (enumerate_from q a es (Zlength buf) Hl n (abs es) [] buf EMPTY g s Hi Hname Hb Hg eq_refl eq_refl eq_refl Hn))
    as (ids & s' & E & Hi' & ->). by exists s'.
Qed.

(** C29. What was set is read back: when [SetVariable] with data, an access
    attribute and no append answers success for a variable of this store, without
    needing [Reclaim] in a store where it goes wrong ([benign_call]),
    [GetVariable] with a buffer that is large enough returns exactly these data; the
    attributes are the new ones, unless the variable had the same data before.  The
    device does not stall and keeps to [DeviceLaws].  Without [benign_call] it fails:
    [VariableLimits] has a call that answers success and leaves the variable deleted. *)
Theorem set_then_get s q a es buf g Attributes n bs wants m b : inv s q a es -> let set := CallSet (Some buf) (Some g) Attributes n (Some bs) in
  let get := CallGet (Some buf) (Some g) wants (Some m) (Some b) in
  call_ok set -> call_ok get -> benign_call (EfiAtRuntime s, es) set = true -> ~ stalls ->
  (v_step (EfiAtRuntime s, abs es) set).1 = Some (RSet EFI_SUCCESS) ->
  has Attributes EFI_VARIABLE_APPEND_WRITE = false -> 0 < n <= m -> accessible Attributes = true ->
  exists at_ s', serve_all [set; get] s = Ok ([RSet EFI_SUCCESS; RGet (mkGet EFI_SUCCESS (if wants then Some at_ else None) n (Some (overwrite 0 (zslice 0 n bs) b)))], s') /\
    (at_ = Z.land Attributes (Z.lnot EFI_VARIABLE_APPEND_WRITE) \/
     exists v, v_find (c_string buf) g (abs es) = Some v /\ v_data v = zslice 0 n bs /\ v_attributes v = at_).
Proof.
  intros Hi set get Hset Hget Hb Hst Hok Ha Hn Hacc. pose proof Hset as (_ & _ & [HD|[HD _]] & _); [|done].
  destruct (set_data_read n (Some bs) HD) as (_ & Hlen & _). cbn [set_data] in Hlen.
  assert (Hne : zslice 0 n bs <> []) by (intros E; rewrite E in Hlen; unfold Zlength in Hlen; simpl in Hlen; lia).
  assert (Hfind : exists v, v_designated (c_string buf) g (v_step (EfiAtRuntime s, abs es) set).2.2 = Some v /\ v_data v = zslice 0 n bs /\
    (v = v_new (c_string buf) g Attributes (zslice 0 n bs) \/ v_find (c_string buf) g (abs es) = Some v)).
  { unfold set in Hok |- *. cbn [v_step] in *. unfold v_set in *. unfold v_designated. destruct (bool_decide (c_string buf = EMPTY)); [done|].
    destruct (refused (c_string buf) g Attributes n (Some bs)) as [st|] eqn:Echk.
    { cbn in Hok. injection Hok as ->. by apply refused_error in Echk. }
    destruct (_ && has Attributes EFI_VARIABLE_TIME_BASED_AUTHENTICATED_WRITE_ACCESS); [done|]; destruct (_ || _); [|done];
      destruct (v_update (abs es) (c_string buf) g Attributes (zslice 0 n bs) (EfiAtRuntime s)) as [st vs] eqn:Eu; cbn in Hok; injection Hok as ->;
      pose proof (v_update_sets (abs es) (c_string buf) g Attributes (zslice 0 n bs) (EfiAtRuntime s)) as H; rewrite Eu in H; by apply H. }
  destruct Hfind as (v & Ev & Ed & Hv). exists (v_attributes v).
  destruct (serve_two s q a es set get (RSet EFI_SUCCESS) (RGet (v_get v wants m (Some b))) Hi Hset Hget Hb Hst) as (s' & Es); [done|done| |].
  { unfold get. destruct (v_step _ set).2 as [rt vs]. cbn [snd v_step fst] in *. by rewrite Ev. }
  exists s'. split.
  - rewrite Es. unfold v_get. rewrite Ed, Hlen. by rewrite (proj2 (Z.ltb_ge m n)) by lia.
  - destruct Hv as [->|Hv]; [by left|right; by exists v].
Qed.

(** C30. A [SetVariable] that the volatile store answers with an error loses
    nothing: whatever its arguments and that error, a variable of the store that
    could be read before is read with the same data and attributes afterwards, the
    target of the call included.  This covers the errors of the argument checks and
    of the volatile store, not those of the host, for calls that do not need
    [Reclaim] in a store where it goes wrong ([benign_call]), with a device that does
    not stall and keeps to [DeviceLaws]. *)
Theorem failed_set_keeps s q a es buf g Attributes n Data st buf' g' wants m Data' v : inv s q a es ->
  let set := CallSet buf g Attributes n Data in let get := CallGet (Some buf') (Some g') wants (Some m) Data' in
  call_ok set -> call_ok get -> benign_call (EfiAtRuntime s, es) set = true -> ~ stalls ->
  (v_step (EfiAtRuntime s, abs es) set).1 = Some (RSet st) -> st <> EFI_SUCCESS ->
  c_string buf' <> EMPTY -> v_find (c_string buf') g' (abs es) = Some v ->
  exists s', serve_all [set; get] s = Ok ([RSet st; RGet (v_get v wants m Data')], s').
Proof.
  intros Hi set get Hset Hget Hb Hst Hok Hne Hname Hv.
  assert (Hfind : exists v', v_designated (c_string buf') g' (v_step (EfiAtRuntime s, abs es) set).2.2 = Some v' /\ shows v v').
  { unfold v_designated. rewrite bool_decide_false by done. assert (Hsame : exists v', v_find (c_string buf') g' (abs es) = Some v' /\ shows v v') by by exists v.
    unfold set in Hok |- *. destruct buf as [buf|]; [|done]. destruct g as [g|]; [|done]. cbn [v_step] in *. unfold v_set in *. destruct (bool_decide _); [done|].
    destruct (refused (c_string buf) g Attributes n Data) as [?|]; [done|];
      (destruct (_ && has Attributes EFI_VARIABLE_TIME_BASED_AUTHENTICATED_WRITE_ACCESS); [done|]; destruct (_ || _); [|done];
       match goal with H : context [v_update ?vs ?nm ?g ?A ?data ?rt] |- _ => pose proof (v_update_fails vs nm g A data rt (c_string buf') g' v) as Hu; destruct (v_update vs nm g A data rt) end;
       cbn in Hok; injection Hok as ->; by apply Hu). }
  destruct Hfind as (v' & Ev & Ea & Ed).
  apply (serve_two s q a es set get (RSet st) (RGet (v_get v wants m Data')) Hi Hset Hget Hb Hst); [done|done|].
  unfold get. destruct (v_step _ set).2 as [rt vs]. cbn [snd v_step fst] in *. rewrite Ev. cbn. unfold v_get. by rewrite Ea, Ed.
Qed.
End Props.
End VariableProps.
