(* ===== verification/VariableLimits.v ===== *)
(** Where [Reclaim] goes wrong: stores that the other theorems exclude, and what
    the code does with them. *)
From Stdlib Require Import ZArith Lia.
From stdpp Require Import base list numbers list_numbers option gmap.
From S2P Require Import Prelude Circular VariableDxe VariableRep VariableNvram VariableReclaim VariableUpdate VariableOps VariableServices VariableMachine VariableSpec VariableRefine VariableProps.
Open Scope Z_scope.

Module VariableLimits.
Import VariableDxe VariableRep VariableNvram VariableReclaim VariableUpdate VariableOps VariableServices VariableMachine VariableSpec VariableRefine VariableProps.

Section Limits.
Context {B : BuildOptions} {BD : BiosDevice} {FW : Firmware} {VF : VariableFormat} {LW : VariableFormatLaws VF}
  {FL : FirmwareLaws FW} {DL : DeviceLaws BD}.

(** [Reclaim] passes over live entries. *)
Lemma reclaim_skips q post : forall es n kept s, at_store s q (log_bytes kept ++ log_bytes es ++ post) -> Forall entry_ok kept -> Forall entry_ok es ->
  Forall (fun e => live e = true) es -> reclaim_loop (length es + n) (used kept) s = reclaim_loop n (used (kept ++ es)) s.
Proof.
  induction es as [|e es IH]; intros n kept s Hs Hk Hes Hl; [by rewrite app_nil_r|]. cbn [length Nat.add reclaim_loop].
  apply Forall_cons in Hes as [He Hes]. apply Forall_cons in Hl as [El Hl]. rewrite log_cons, <- app_assoc in Hs.
  assert (Ho : Zlength (log_bytes kept) = used kept) by by apply Zlength_log.
  rewrite (vbind_Ok _ _ _ _ _ (valid_run _ _ _ _ _ _ Hs He Ho)). cbn [negb].
  rewrite (vbind_Ok _ _ _ _ _ (next_ptr_run _ _ _ _ _ _ Hs He Ho)), (vbind_Ok _ _ _ _ _ (header_at_run _ _ _ _ _ _ Hs He Ho)).
  rewrite added_header, transition_header, <- negb_orb. fold (live e). rewrite El. cbn [negb].
  replace (used kept + e_size e) with (used (kept ++ [e])) by (rewrite log_used_app, used_cons; cbn [used foldr]; lia).
  rewrite (IH n (kept ++ [e])); [by rewrite <- app_assoc| |by apply Forall_app_2; [|apply Forall_singleton]|done|done].
  by rewrite log_app, log_cons, app_nil_r, <- !app_assoc.
Qed.

Lemma vbind_Fault {A C} (c : V A) (k : A -> V C) s f : c s = Fault f -> (c ≫= k) s = Fault f.
Proof. unfold mbind, V_bind. by intros ->. Qed.

(** An entry in the scratch area that counts as deleted. *)
Lemma reclaim_scratch_faults n s q main h post : at_store s q (main ++ bytes_of_header h ++ post) -> Zlength main = STORE_MAIN_SIZE -> header_fits h ->
  valid_header h = true -> is_added h = false -> in_transition h = false -> Zlength post = STORE_SCRATCH_SIZE - sizeof_VARIABLE_HEADER ->
  reclaim_loop (S n) STORE_MAIN_SIZE s = Fault OutOfBounds.
Proof.
  intros Hs Hm Hh Hv Ha Ht Hp. pose proof (header_at_raw _ _ _ _ _ _ Hs Hh Hm) as Eh. pose proof (header_length h Hh) as Hlen. cbn [reclaim_loop].
  assert (Ev : IsValidVariableHeader (Some STORE_MAIN_SIZE) s = Ok (true, s)) by (unfold IsValidVariableHeader; rewrite (vbind_Ok _ _ _ _ _ Eh); by rewrite Hv).
  rewrite (vbind_Ok _ _ _ _ _ Ev). cbn [negb]. pose proof (pad_bounds (NameSize h)). pose proof (pad_bounds (DataSize_ h)). pose proof sizeof_bounds as Hso. pose proof scratch_bounds as Hsc.
  destruct Hh as (_ & _ & _ & _ & Hn & Hd & _). apply andb_true_iff in Hv as [Hv Hd']. apply andb_true_iff in Hv as [_ Hn']. apply Z.leb_le in Hn', Hd'.
  set (next := STORE_MAIN_SIZE + sizeof_VARIABLE_HEADER + NameSize h + GET_PAD_SIZE (NameSize h) + DataSize_ h + GET_PAD_SIZE (DataSize_ h)).
  assert (En : GetNextVariablePtr (Some STORE_MAIN_SIZE) s = Ok (Some next, s)).
  { unfold GetNextVariablePtr, GetVariableDataPtr. rewrite (vbind_Ok _ _ _ _ _ Ev). cbn [negb]. rewrite (vbind_Ok _ _ s (GetVariableNamePtr STORE_MAIN_SIZE + NameSize h + GET_PAD_SIZE (NameSize h)) s)
      by by rewrite (vbind_Ok _ _ _ _ _ Eh). by rewrite (vbind_Ok _ _ _ _ _ Eh). }
  rewrite (vbind_Ok _ _ _ _ _ En), (vbind_Ok _ _ _ _ _ Eh), Ha, Ht. cbn [negb andb]. apply vbind_Fault.
  destruct Hs as [Hvirt Hpool]. unfold store_read, pool_read, physical, object, vlift, vget, mbind, V_bind. rewrite Hvirt, Hpool. cbn. unfold mem_read, in_bounds.
  assert (HM : STORE_MAIN_SIZE = 131072) by done. unfold EFI_MAX_VARIABLE_NAME_SIZE, EFI_MAX_VARIABLE_DATA_SIZE in *.
  assert (Hu : u64 (GetEndPointer - next) = 2 ^ 64 - (next - STORE_MAIN_SIZE)).
  { unfold u64, GetEndPointer. rewrite <- (Z.mod_add _ 1), Z.mod_small by (unfold next; lia). lia. }
  rewrite Hu, (proj2 (Z.leb_gt (next + _) _)); [by rewrite andb_false_r|]. rewrite !Zlength_app, Hm, Hp. lia.
Qed.

(** A store that is full to its last byte breaks the next update: with nothing
    deleted, [Reclaim] walks beyond the last entry into the scratch area, takes the
    variable being built there for a deleted entry, and copies a negative number of
    bytes, which as an unsigned length lies outside of the store. *)
Lemma full_store_faults s q es tail buf nm g Attributes data variable : vol s q es tail -> nvram_ok s -> ~ stalls ->
  Forall (fun e => live e = true) es -> used es = STORE_MAIN_SIZE -> holds_name buf nm -> entry_ok (new_entry nm g Attributes data) ->
  erased_state <> VAR_ADDED -> erased_state <> Z.land VAR_IN_DELETED_TRANSITION VAR_ADDED ->
  store_variable buf g data Attributes variable s = Fault OutOfBounds.
Proof.
  intros Hvol Hnv Hst Hl Hu Hname He F1 F2. set (e := new_entry nm g Attributes data) in *. pose proof Hvol as [V1 V2 V3 V4 V5 V6]. pose proof (size_bounds _ He) as Hsz. pose proof sizeof_bounds.
  unfold store_bytes in V1. assert (HM : STORE_MAIN_SIZE = 131072) by done. unfold EFI_MAX_VARIABLE_NAME_SIZE, EFI_MAX_VARIABLE_DATA_SIZE in *.
  rewrite Hu, Z.sub_diag in V1. cbn [erased_bytes Z.to_nat replicate app] in V1. assert (Hlen : Zlength (log_bytes es) = STORE_MAIN_SIZE) by by rewrite Zlength_log.
  destruct (build_variable_run s q (log_bytes es) tail buf nm g data Attributes V1) as (st & Est & Hst8 & E1); try done. fold e in E1.
  destruct (built_ok st e He Hst8) as [T1 T2]. unfold store_variable. rewrite (vbind_Ok _ _ _ _ _ E1), vget_bind.
  change (bytes_of_header _ ++ _) with (built st e). set (s1 := put_store q _ s).
  change (mStoreFreeOffset s1) with (mStoreFreeOffset s). rewrite V2, u32_small, (proj2 (Z.ltb_lt _ _)) by lia. apply vbind_Fault.
  unfold Reclaim. rewrite vget_bind. destruct (wpv_total _ _ _ Hst (debug_log_safe (LogReclaimStart (mStoreFreeOffset s1)) s1 ltac:(by apply nvram_put))) as ([] & s2 & E2 & Hf & _).
  rewrite (vbind_Ok _ _ _ _ _ E2). apply vbind_Fault. assert (A2 : at_store s2 q (log_bytes es ++ built st e)).
  { destruct (frame_fields _ _ Hf) as (Hp & Hv & Hm & _). assert (A1 : at_store s1 q (log_bytes es ++ built st e)) by by eapply at_put. destruct A1 as [A1 A1']. split; congruence. }
  pose proof (walk_enough es V4 V3) as Hfuel. replace walk_fuel with (length es + S (walk_fuel - length es - 1))%nat by lia.
  change GetStartPointer with (used []). rewrite (reclaim_skips q (built st e) es _ []); [|done..]. cbn [app]. rewrite Hu.
  pose proof (header_ok _ He) as Hh. eapply reclaim_scratch_faults; [exact A2|done| | | | |].
  - unfold header_fits in *. cbn in *. tauto.
  - exact (header_valid e He).
  - apply Z.eqb_neq. cbn. congruence.
  - apply Z.eqb_neq. cbn. congruence.
  - unfold built in T1. rewrite Zlength_app, header_length in T1 by (unfold header_fits in *; cbn in *; tauto). lia.
Qed.

(** What stays of an entry [x] and the entries [es] behind it, when [x] is removed
    and is larger than the free space. *)
Definition remains (free : Z) (x es : list Z) : list Z := zslice (Zlength es + free) (Zlength x - free) (x ++ es).

Lemma shift_remains {A} (k : V A) s q off (kept es tail : list Z) x n free : at_store s q (kept ++ (x ++ es ++ erased_bytes free) ++ tail) ->
  Zlength kept = off -> n = Zlength x -> 0 <= free <= n -> off + n + Zlength es + free = STORE_MAIN_SIZE -> mStoreFreeOffset s = STORE_MAIN_SIZE - free ->
  (bs ← store_read (off + n) (u64 (GetEndPointer - (off + n)));
   _ ← store_write off bs;
   f ← vget mStoreFreeOffset;
   _ ← store_write (GetStartPointer + f) (replicate (Z.to_nat (u64 (STORE_MAIN_SIZE - f))) 255);
   k) s =
  k (put_store q (kept ++ es ++ erased_bytes free ++ remains free x es ++ erased_bytes free ++ tail) s).
Proof.
  intros Hs <- -> Hfree Hsum HF. pose proof (Zlength_nonneg kept). pose proof (Zlength_nonneg es).
  assert (HM : STORE_MAIN_SIZE = 131072) by done. unfold GetEndPointer, GetStartPointer.
  assert (Hu : forall z, 0 <= z <= 131072 -> u64 z = z) by (intros; apply Z.mod_small; lia). rewrite Hu by lia.
  assert (Hxes : Zlength (x ++ es) = Zlength x + Zlength es) by apply Zlength_app.
  assert (Hsplit : x ++ es = take (Z.to_nat (Zlength es + free)) (x ++ es) ++ remains free x es).
  { unfold remains, zslice. rewrite (take_ge (drop _ _)); [by rewrite take_drop|]. rewrite length_drop. unfold Zlength in *. lia. }
  assert (Hr : Zlength (remains free x es) = Zlength x - free) by (apply Zlength_zslice; lia).
  set (new := kept ++ es ++ erased_bytes free ++ remains free x es ++ erased_bytes free ++ tail).
  rewrite (vbind_Ok _ _ s (es ++ erased_bytes free) s).
  2: { eapply store_read_run; [exact Hs|]. rewrite <- !app_assoc, (app_assoc kept x), (app_assoc es).
       apply mem_read_mid; rewrite Zlength_app, ?Zlength_erased by lia; lia. }
  rewrite (vbind_Ok _ _ s tt (put_store q new s)).
  2: { eapply store_write_run; [exact Hs|]. rewrite (app_assoc x), Hsplit, <- !app_assoc. unfold new. rewrite (app_assoc es). apply mem_write_mid; [done|].
       rewrite Zlength_take, Zlength_app, Zlength_erased by lia. lia. }
  rewrite vget_bind. change (mStoreFreeOffset (put_store q new s)) with (mStoreFreeOffset s). rewrite HF. replace (STORE_MAIN_SIZE - (STORE_MAIN_SIZE - free)) with free by lia.
  rewrite Hu by lia. change (replicate (Z.to_nat ?z) 255) with (erased_bytes z).
  rewrite (vbind_Ok _ _ _ tt (put_store q new s)); [done|].
  rewrite (store_write_run _ q new _ _ new); [by rewrite put_put|by eapply at_put|].
  unfold new. replace (kept ++ es ++ erased_bytes free ++ remains free x es ++ erased_bytes free ++ tail)
    with ((kept ++ es ++ erased_bytes free ++ remains free x es) ++ erased_bytes free ++ tail) by by rewrite <- !app_assoc.
  apply mem_write_mid; [|done]. rewrite !Zlength_app, Zlength_erased by lia. lia.
Qed.

(** The store after that. *)
Definition remains_bytes (free : Z) (l1 : list entry) (x : entry) (l2 : list entry) (tail : list Z) : list Z :=
  log_bytes (l1 ++ l2) ++ erased_bytes free ++ remains free (entry_bytes x) (log_bytes l2) ++ erased_bytes free ++ tail.

(** Nothing follows the log. *)
Lemma reclaim_stops n s q es free post : at_store s q (log_bytes es ++ erased_bytes free ++ post) -> Forall entry_ok es -> 0 < free ->
  sizeof_VARIABLE_HEADER <= free + Zlength post -> reclaim_loop (S n) (used es) s = Ok (tt, s).
Proof.
  intros Hs Hes Hfree Hl. cbn [reclaim_loop]. replace free with (1 + (free - 1)) in Hs by lia. rewrite erased_app, <- app_assoc in Hs by lia.
  destruct (header_erased s q (log_bytes es) (erased_bytes (free - 1) ++ post) (used es)) as (h & Eh & Hh).
  { exact Hs. } { rewrite Zlength_app, Zlength_erased by lia. lia. } { by apply Zlength_log. }
  rewrite (vbind_Ok _ _ s false s); [done|]. unfold IsValidVariableHeader. rewrite (vbind_Ok _ _ _ _ _ Eh). by rewrite Hh.
Qed.

Lemma reclaim_loop_remains n s q l1 x l2 tail free : at_store s q (store_bytes (l1 ++ x :: l2) tail) -> mStoreFreeOffset s = used (l1 ++ x :: l2) ->
  Forall entry_ok l1 -> entry_ok x -> Forall entry_ok l2 -> Zlength tail = STORE_SCRATCH_SIZE ->
  Forall (fun e => live e = true) l1 -> Forall (fun e => live e = true) l2 -> live x = false -> free = STORE_MAIN_SIZE - used (l1 ++ x :: l2) -> 0 < free < e_size x ->
  reclaim_loop (length l1 + S (length l2 + S n)) (used []) s = Ok (tt, set_free_offset (used (l1 ++ l2)) (put_store q (remains_bytes free l1 x l2 tail) s)).
Proof.
  intros A1 F1 V41 V4x V42 V5 H1 H2 Hx Ef Hfree. pose proof (log_used_bounds _ V41). pose proof (log_used_bounds _ V42). pose proof (size_bounds _ V4x). pose proof sizeof_bounds.
  assert (Hu : used (l1 ++ x :: l2) = used l1 + e_size x + used l2) by (rewrite log_used_app, used_cons; lia). assert (Hl12 : used (l1 ++ l2) = used l1 + used l2) by apply log_used_app.
  assert (HM : STORE_MAIN_SIZE = 131072) by done. unfold store_bytes in A1. rewrite <- Ef, log_app, log_cons, <- !app_assoc in A1.
  rewrite (reclaim_skips q (entry_bytes x ++ log_bytes l2 ++ erased_bytes free ++ tail) l1 _ []); [|done..]. cbn [app reclaim_loop].
  assert (Ho : Zlength (log_bytes l1) = used l1) by by apply Zlength_log.
  rewrite (vbind_Ok _ _ _ _ _ (valid_run _ _ _ _ _ _ A1 V4x Ho)). cbn [negb].
  rewrite (vbind_Ok _ _ _ _ _ (next_ptr_run _ _ _ _ _ _ A1 V4x Ho)), (vbind_Ok _ _ _ _ _ (header_at_run _ _ _ _ _ _ A1 V4x Ho)).
  rewrite added_header, transition_header, <- negb_orb. fold (live x). rewrite Hx. cbn [negb].
  rewrite (shift_remains _ s q (used l1) (log_bytes l1) (log_bytes l2) tail (entry_bytes x) (e_size x) free);
    [|by rewrite <- !app_assoc|done|by rewrite Zlength_entry|lia|rewrite Zlength_log by done; lia|lia].
  rewrite vmod_bind. change (mStoreFreeOffset (put_store q ?b s)) with (mStoreFreeOffset s).
  replace (u64 (mStoreFreeOffset s - (used l1 + e_size x - used l1))) with (used (l1 ++ l2)) by (rewrite F1; unfold u64; rewrite Z.mod_small by lia; lia).
  rewrite (app_assoc (log_bytes l1)), <- log_app. fold (remains_bytes free l1 x l2 tail). set (s2 := set_free_offset _ _).
  assert (A2 : at_store s2 q (remains_bytes free l1 x l2 tail)) by by eapply at_set_free, at_put.
  rewrite (reclaim_skips q (erased_bytes free ++ remains free (entry_bytes x) (log_bytes l2) ++ erased_bytes free ++ tail) l2);
    [|unfold remains_bytes in A2; by rewrite log_app, <- app_assoc in A2|done..].
  eapply reclaim_stops; [exact A2|by apply Forall_app|lia|]. pose proof scratch_bounds. rewrite !Zlength_app, Zlength_erased, V5 by lia.
  pose proof (Zlength_nonneg (remains free (entry_bytes x) (log_bytes l2))). lia.
Qed.

(** [Reclaim] erases too little: it clears from the free offset as it was
    before the deleted entry was taken out, so when that entry is larger than the
    free space, a piece of the old log stays behind the new one in space that counts
    as free. *)
Lemma Reclaim_leaves_remains s q l1 x l2 tail : let free := STORE_MAIN_SIZE - used (l1 ++ x :: l2) in
  vol s q (l1 ++ x :: l2) tail -> nvram_ok s -> ~ stalls -> Forall (fun e => live e = true) l1 -> Forall (fun e => live e = true) l2 -> live x = false ->
  0 < free < e_size x ->
  exists s', Reclaim s = Ok (tt, s') /\ mStoreFreeOffset s' = used (l1 ++ l2) /\ at_store s' q (remains_bytes free l1 x l2 tail).
Proof.
  intros free Hvol Hnv Hst H1 H2 Hx Hfree. pose proof Hvol as [V1 V2 V3 V4 V5 V6]. pose proof V4 as [V41 [V4x V42]%Forall_cons]%Forall_app.
  unfold Reclaim. rewrite vget_bind. destruct (wpv_total _ _ _ Hst (debug_log_safe (LogReclaimStart (mStoreFreeOffset s)) s Hnv)) as ([] & s1 & E1 & Hf1 & Hn1 & _).
  rewrite (vbind_Ok _ _ _ _ _ E1). pose proof (vol_frame _ _ _ _ _ Hf1 Hvol) as [A1 F1 _ _ _ _].
  pose proof (walk_enough _ V4 V3) as Hfuel. rewrite length_app in Hfuel. cbn [length] in Hfuel.
  replace walk_fuel with (length l1 + S (length l2 + S (walk_fuel - length l1 - length l2 - 2)))%nat by lia. change GetStartPointer with (used []).
  rewrite (vbind_Ok _ _ _ _ _ (reclaim_loop_remains _ s1 q l1 x l2 tail free A1 F1 V41 V4x V42 V5 H1 H2 Hx eq_refl Hfree)), vget_bind.
  set (s2 := set_free_offset _ _). assert (A2 : at_store s2 q (remains_bytes free l1 x l2 tail)) by by eapply at_set_free, at_put.
  destruct (wpv_total _ _ _ Hst (debug_log_safe (LogReclaimStop (mStoreFreeOffset s2)) s2 ltac:(by apply nvram_free, nvram_put))) as ([] & s3 & E3 & Hf3 & _).
  exists s3. destruct (frame_fields _ _ Hf3) as (Hp & Hv & Hm & Hfr & _). split; [exact E3|]. split; [exact Hfr|]. destruct A2 as [B1 B2]. split; congruence.
Qed.

(** C31. An update that needs [Reclaim] deletes the wrong entry: [UpdateVariable]
    keeps the address of the entry that it replaces while [Reclaim] moves the
    entries, so what it deletes in the end is the entry that has come to lie there;
    the one that it replaces stays. *)
Theorem stale_offset_deletes s q l1 o l2 tail k1 n k2 buf nm g Attributes data : let e := new_entry nm g Attributes data in let es := l1 ++ o :: l2 in
  vol s q es tail -> nvram_ok s -> ~ stalls -> holds_name buf nm -> nm <> EMPTY -> entry_ok e -> compacts (STORE_MAIN_SIZE - used es) es = true ->
  STORE_MAIN_SIZE < e_size e + used es -> e_size e + used (survivors es) <= STORE_MAIN_SIZE -> survivors es = k1 ++ n :: k2 -> used k1 = used l1 ->
  exists s' tail', store_variable buf g data Attributes (Some (used l1)) s = Ok (EFI_SUCCESS, s') /\ vol s' q (k1 ++ masked VAR_DELETED n :: k2 ++ [e]) tail'.
Proof.
  intros e es Hvol Hnv Hst Hname Hne He Hc Hbig Hfit Hs Hk.
  destruct (wpv_total (store_variable buf g data Attributes (Some (used l1))) s
    (fun st s' => st = EFI_SUCCESS /\ exists tail', vol s' q (k1 ++ masked VAR_DELETED n :: k2 ++ [e]) tail') Hst) as (st & s' & E & -> & tail' & Hv').
  - eapply (wp_store_raw s q es tail buf nm g Attributes data _ (survivors es) (k1 ++ masked VAR_DELETED n :: k2)); try done.
    + fold e. by rewrite (proj2 (Z.ltb_lt _ _)).
    + cbn. exists k1, n, k2. split_and!; [done|congruence|done].
    + fold e. rewrite (proj2 (Z.ltb_ge _ _)) by done. intros s' tail' Hv' _ _ _. split; [done|]. exists tail'. by rewrite <- app_assoc in Hv'.
  - by exists s', tail'.
Qed.
End Limits.
End VariableLimits.
