(* ===== verification/VariableConcrete.v ===== *)
(** The variable services at work: the header of the edk2 variable format, a
    firmware that grants every allocation, and a device that has no variables.
    The witnesses of the properties, and runs in which [Reclaim] goes wrong. *)
From Stdlib Require Import String Ascii ZArith Lia.
From stdpp Require Import base list numbers list_numbers option gmap.
From S2P Require Import Prelude Circular VariableDxe VariableRep VariableNvram VariableReclaim VariableUpdate VariableOps VariableServices VariableMachine VariableSpec VariableRefine VariableProps VariableLimits.
Open Scope Z_scope.

Module VariableConcrete.
Import VariableDxe VariableRep VariableNvram VariableReclaim VariableUpdate VariableOps VariableServices VariableMachine VariableSpec VariableRefine VariableProps VariableLimits.

(** ** The surroundings *)

(** The packed header of 32 bytes. *)
Definition ex_load (bs : list Z) : VARIABLE_HEADER :=
  mkHeader (field (0, 2%nat) bs) (field (2, 1%nat) bs) (field (3, 1%nat) bs) (field (4, 4%nat) bs) (field (8, 4%nat) bs) (field (12, 4%nat) bs) (zslice 16 16 bs).
Definition ex_save (h : VARIABLE_HEADER) : list Z :=
  le_split 2 (StartId h) ++ le_split 1 (State h) ++ le_split 1 (Reserved h) ++ le_split 4 (Attributes_ h) ++ le_split 4 (NameSize h) ++ le_split 4 (DataSize_ h) ++ VendorGuid_ h.
#[export] Instance ex_format : VariableFormat := {|
  sizeof_VARIABLE_HEADER := 32; header_of_bytes := ex_load; bytes_of_header := ex_save;
  VARIABLE_DATA := 0x55AA; VAR_ADDED := 0x3f; VAR_IN_DELETED_TRANSITION := 0xfe; VAR_DELETED := 0xfd; ALIGNMENT := 1; GET_PAD_SIZE n := (- n) mod 1 |}.

(** The device answers every command with [EFI_NOT_FOUND], as far as the page goes. *)
Definition ex_answer (b : list Z) : list Z := take 4 b ++ take (List.length b - 4) [14; 0; 0; 0; 0; 0; 0; 128] ++ drop 12 b.
#[export] Instance ex_device : BiosDevice := {|
  device := unit; patience := 2%nat;
  WriteBiosDevice_effect d r v m := (d, if r =? BiosConfigNvramCommand then alter ex_answer v m else m) |}.

#[export] Instance ex_firmware : Firmware := {|
  mdepkg_ndebug := true; aarch64 := false; IsHardwareIsolatedNoParavisor := false;
  AllocateRuntimePool_answer t n := 0x1000000 * Z.of_nat (S t) + 0x80;
  AllocatePages_answer t highest n := if 0x100000 * Z.of_nat (S t) <=? highest then (EFI_SUCCESS, 0x100000 * Z.of_nat (S t)) else (EFI_OUT_OF_RESOURCES, 0);
  fresh_bytes t n := replicate (Z.to_nat n) 0; AddMemorySpace_answer := EFI_SUCCESS; SetMemorySpaceAttributes_answer := EFI_SUCCESS;
  CreateEventEx_answer t := (EFI_SUCCESS, Z.of_nat (S t)); InstallProtocols_answer := EFI_SUCCESS;
  EfiConvertPointer_answer p := (EFI_SUCCESS, p + 2 ^ 47); UnicodeVSPrintAsciiFormat m := [] |}.
#[export] Instance ex_build : BuildOptions := release_build.

(** ** The laws hold *)
#[export] Instance ex_firmware_laws : FirmwareLaws ex_firmware.
Proof.
  split; cbn.
  - intros _. split; [lia|constructor].
  - intros _ n Hn. unfold Zlength. rewrite length_replicate. lia.
  - intros _ n. apply Forall_replicate. unfold is_byte. lia.
  - intros t highest n p. destruct (Z.leb_spec (0x100000 * Z.of_nat (S t)) highest); [|done]. intros [= <-]. lia.
  - intros t t' n n' h p p'. do 2 case_match; try done. intros [= <-] [= <-]. lia.
  - intros. lia.
  - intros t t' n n' h p. case_match; [|done]. intros [= <-]. lia.
  - intros t h n. case_match; [by right|by left].
  - done.
  - intros p p' H. lia.
Qed.

Lemma ex_answer_status b : (field Status (ex_answer b) = 0 /\ ex_answer b = b) \/ field Status (ex_answer b) mod 2 ^ 63 = 14 .
Proof.
  do 5 (destruct b as [|? b]; [left; split; reflexivity|]). right.
  do 8 (destruct b as [|? b]; [reflexivity|]). reflexivity.
Qed.
Lemma ex_never_busy b : ENCODE_ERROR (field Status (ex_answer b)) <> EFI_NOT_READY.
Proof. destruct (ex_answer_status b) as [[E _]|E]; [rewrite E|unfold ENCODE_ERROR; rewrite E]; done. Qed.

#[export] Instance ex_device_laws : DeviceLaws ex_device.
Proof.
  assert (Halter : forall v (m : gmap Z (list Z)) b b', m !! v = Some b -> alter ex_answer v m !! v = Some b' -> b' = ex_answer b).
  { intros v m b b' Hb. rewrite lookup_alter_eq, Hb. by intros [= <-]. }
  split; cbn.
  - intros d r v m q b Hb Hbytes. assert (Hsame : exists b', m !! q = Some b' /\ Zlength b' = Zlength b /\ Forall is_byte b') by by exists b.
    destruct (r =? _); [|done]. destruct (decide (v = q)) as [->|Hne]; [|by rewrite lookup_alter_ne]. exists (ex_answer b). split_and!.
    + by rewrite lookup_alter_eq, Hb.
    + unfold Zlength, ex_answer. rewrite !length_app, !length_take, length_drop. f_equal. cbn [length]. lia.
    + unfold ex_answer. repeat apply Forall_app_2; [by apply Forall_take| |by apply Forall_drop]. apply Forall_take. repeat constructor; unfold is_byte; lia.
  - intros _ v m b b' Hb Hb' Hs. rewrite (Halter _ _ _ _ Hb Hb') in *. destruct (ex_answer_status b) as [[_ E]|E]; [rewrite E; lia|by rewrite Hs in E].
  - intros _ v m b b' Hb Hb' Hs. rewrite (Halter _ _ _ _ Hb Hb') in Hs. by apply ex_never_busy in Hs.
Qed.

Lemma ex_never_stalls : ~ stalls.
Proof.
  intros (d & v & m & (b & Hb & Hs) & _). cbn in Hb. rewrite lookup_alter_eq in Hb. destruct (m !! v) as [b0|]; [|done]. injection Hb as <-. by apply ex_never_busy in Hs.
Qed.

Lemma ex_load_save h : header_fits h -> ex_load (ex_save h) = h.
Proof.
  destruct h as [i st r at_ ns ds g]. unfold header_fits, ex_load, ex_save, field. cbn [StartId State Reserved Attributes_ NameSize DataSize_ VendorGuid_ fst snd].
  intros (Hi & Hst & Hr & Ha & Hn & Hd & Hg & _).
  assert (Hf : forall k v bs, bs = le_split k v -> 0 <= v < 256 ^ Z.of_nat k -> le_combine bs = v) by (intros k v bs ->; apply le_combine_split_small).
  f_equal; [apply (Hf 2%nat)|apply (Hf 1%nat)|apply (Hf 1%nat)|apply (Hf 4%nat)|apply (Hf 4%nat)|apply (Hf 4%nat)|]; try reflexivity; try (cbn; lia).
  unfold zslice. cbn [le_split app Z.to_nat Pos.to_nat Pos.iter_op Nat.add drop]. apply take_ge. by rewrite Hg.
Qed.

Lemma field_fits f bs : 0 <= f.1 -> f.1 + Z.of_nat f.2 <= Zlength bs -> Forall is_byte bs -> 0 <= field f bs < 256 ^ Z.of_nat f.2.
Proof.
  intros H0 H1 Hb. unfold field. pose proof (le_combine_bound (zslice f.1 (Z.of_nat f.2) bs)) as H. rewrite Zlength_zslice in H by lia. apply H. unfold zslice. by apply Forall_take, Forall_drop.
Qed.

Lemma split_field o k bs : 0 <= o -> o + Z.of_nat k <= Zlength bs -> Forall is_byte bs -> le_split k (field (o, k) bs) = zslice o (Z.of_nat k) bs.
Proof.
  intros H0 H1 Hb. unfold field. cbn [fst snd]. pose proof (Zlength_zslice o (Z.of_nat k) bs H0 ltac:(lia) H1) as Hl. unfold Zlength in Hl.
  replace k with (length (zslice o (Z.of_nat k) bs)) at 1 by lia. apply le_split_combine. unfold zslice. by apply Forall_take, Forall_drop.
Qed.

#[export] Instance ex_format_laws : VariableFormatLaws ex_format.
Proof.
  split; cbn [sizeof_VARIABLE_HEADER header_of_bytes bytes_of_header VARIABLE_DATA VAR_ADDED VAR_IN_DELETED_TRANSITION VAR_DELETED ALIGNMENT GET_PAD_SIZE ex_format].
  - lia.
  - intros h (_ & _ & _ & _ & _ & _ & Hg & _). unfold Zlength, ex_save. rewrite !length_app, !length_le_split, Hg. done.
  - intros h (_ & _ & _ & _ & _ & _ & _ & Hb). unfold ex_save. repeat apply Forall_app_2; try apply le_split_bytes. done.
  - apply ex_load_save.
  - intros bs Hl Hb. unfold header_fits, ex_load. cbn [StartId State Reserved Attributes_ NameSize DataSize_ VendorGuid_].
    assert (Hf : forall f, 0 <= f.1 -> f.1 + Z.of_nat f.2 <= 32 -> 0 <= field f bs < 256 ^ Z.of_nat f.2) by (intros f H0 H1; apply field_fits; [done|lia|done]).
    assert (Hz : Zlength (zslice 16 16 bs) = 16) by (apply Zlength_zslice; lia). unfold Zlength in Hz.
    split_and!; try (eapply Hf; cbn; lia); try lia; [..|unfold zslice; by apply Forall_take, Forall_drop].
  - intros bs Hl Hb. unfold ex_save, ex_load. cbn [StartId State Reserved Attributes_ NameSize DataSize_ VendorGuid_].
    rewrite !split_field by (done || (cbn; lia)). assert (Hn : length bs = 32%nat) by (unfold Zlength in Hl; lia). clear Hl Hb.
    do 32 (destruct bs as [|? bs]; [discriminate|]). destruct bs; [reflexivity|discriminate].
  - intros bs. unfold ex_load, field. cbn [StartId fst snd]. unfold zslice. destruct bs as [|x bs]; [done|]. change (255 + 256 * (x + 256 * 0) <> 21930). lia.
  - done.
  - done.
  - done.
  - done.
  - assert (Hbit : forall s z, Z.testbit z 1 = true -> Z.land s 0xfd <> z).
    { intros s z Hz E. apply (f_equal (fun z => Z.testbit z 1)) in E. rewrite Z.land_spec, Hz, andb_false_r in E. done. }
    intros s. by split; apply Hbit.
  - by left.
  - done.
Qed.

(** ** A run *)

Definition G : list Z := replicate 16 7.
Definition name (n : string) : list Z := wide (L n).
Definition set_call (n : string) (size value : Z) : call := CallSet (Some (name n)) (Some G) EFI_VARIABLE_BOOTSERVICE_ACCESS size (Some (replicate (Z.to_nat size) value)).
Definition get_call (n : string) (size : Z) : call := CallGet (Some (name n)) (Some G) true (Some size) (Some (replicate (Z.to_nat size) 0)).

Definition succeeded (r : result (EFI_STATUS * variables)) : bool := match r with Ok (st, _) => bool_decide (st = EFI_SUCCESS) | Fault _ => false end.
Lemma succeeded_Ok r : succeeded r = true -> exists s, r = Ok (EFI_SUCCESS, s).
Proof. destruct r as [[st s]|]; [|done]. cbn. intros ->%bool_decide_eq_true. by exists s. Qed.

Lemma ex_starts : exists s, VariableServiceInitialize (boot tt) = Ok (EFI_SUCCESS, s).
Proof. apply succeeded_Ok. vm_compute. reflexivity. Qed.

Lemma ex_string_ok n : StrSize (name n) = Ok (Zlength (name n)) -> is_name (name n) -> Zlength (name n) < 2 ^ 32 -> string_ok (Some (name n)).
Proof.
  intros E Hn Hl. split; [|apply Hn]. unfold c_string. rewrite E. unfold Zlength. rewrite Nat2Z.id, take_ge by lia. split; [done|]. split; [done|]. exists []. by rewrite app_nil_r.
Qed.

Lemma ex_guid : is_guid G.
Proof. split; [done|]. apply Forall_replicate. unfold is_byte. lia. Qed.
Lemma ex_set_ok n size value : StrSize (name n) = Ok (Zlength (name n)) -> is_name (name n) -> Zlength (name n) < 2 ^ 32 -> 0 <= size < 2 ^ 32 -> is_byte value -> call_ok (set_call n size value).
Proof.
  intros E Hn Hl Hs Hv. unfold set_call, call_ok, has_data. split; [by apply ex_string_ok|]. split; [apply ex_guid|]. split; [left|]; split_and!; try done; try lia.
  - unfold Zlength. rewrite length_replicate. lia.
  - by apply Forall_replicate.
Qed.
Lemma ex_get_ok n size : StrSize (name n) = Ok (Zlength (name n)) -> is_name (name n) -> Zlength (name n) < 2 ^ 32 -> 0 <= size < 2 ^ 32 -> call_ok (get_call n size).
Proof.
  intros E Hn Hl Hs. unfold get_call, call_ok, has_data. split; [by apply ex_string_ok|]. split; [apply ex_guid|]. split_and!; try done; try lia.
  - unfold Zlength. rewrite length_replicate. lia.
  - apply Forall_replicate. unfold is_byte. lia.
Qed.
Ltac ex_ok := first [apply ex_set_ok | apply ex_get_ok]; first [reflexivity | lia | apply (bool_decide_unpack _); reflexivity | unfold is_byte; lia].

Lemma ex_after cs : Forall call_ok cs -> benign_run (false, []) cs = true -> exists s q a, inv s q a (log_run (false, []) cs).2 /\ EfiAtRuntime s = (log_run (false, []) cs).1.
Proof.
  intros Hok Hb. destruct ex_starts as [s0 E]. destruct (initialize_returns (BD := ex_device) tt _ _ E eq_refl) as (Hr & q & a & Hi). clear E.
  destruct (wpv_total _ _ _ ex_never_stalls (serve_run q a cs s0 [] Hi Hok ltac:(by rewrite Hr))) as (rs & s & _ & _ & Hi' & Hr'). rewrite Hr in Hi', Hr'. by exists s, q, a.
Qed.

(** ** The witnesses *)
Definition ex_calls : list call := [set_call "a" 3 7; get_call "a" 2; get_call "a" 5; CallExitBootServices; CallSetVirtualAddressMap; get_call "a" 5].
Lemma ex_calls_ok : Forall call_ok ex_calls.
Proof. repeat apply Forall_cons_2; first [ex_ok | exact I | constructor]. Qed.
Lemma services_refine_witness : exists s rs s', VariableServiceInitialize (boot tt) = Ok (EFI_SUCCESS, s) /\ serve_all ex_calls s = Ok (rs, s') /\ Forall2 agrees (v_run (false, []) ex_calls) rs.
Proof.
  destruct ex_starts as [s E]. exists s. destruct (services_refine (BD := ex_device) tt s ex_calls ex_never_stalls E ex_calls_ok) as (rs & s' & H); [reflexivity|].
  exists rs, s'. split; [exact E|exact H].
Defined.

Definition ex_two : list call := [set_call "a" 3 7; set_call "b" 2 5].
Lemma ex_two_after : exists s q a, inv s q a (log_run (false, []) ex_two).2 /\ EfiAtRuntime s = false.
Proof. apply (ex_after ex_two); [repeat apply Forall_cons_2; first [ex_ok | constructor]|reflexivity]. Qed.

Lemma serve_typed_witness : exists s q a r s', inv s q a (log_run (false, []) ex_two).2 /\ serve (set_call "a" 0 0) s = Ok (r, s') /\
  inv s' q a (log_run (false, []) (ex_two ++ [set_call "a" 0 0])).2.
Proof.
  destruct ex_two_after as (s & q & a & Hi & Hr). exists s, q, a.
  destruct (serve_typed s q a _ (set_call "a" 0 0) Hi) as (r & s' & E & Hi' & _); [ex_ok|by rewrite Hr|apply ex_never_stalls|].
  exists r, s'. split; [done|]. split; [done|]. rewrite Hr in Hi'. exact Hi'.
Defined.


Definition ex_buffer : list Z := replicate 2048 0.
Lemma ex_buffer_empty : holds_name ex_buffer EMPTY.
Proof. split; [by apply (bool_decide_unpack _)|]. split; [done|]. by exists (replicate 2046 0). Qed.
Lemma names_enumerated_witness : exists s q a s', inv s q a (log_run (false, []) ex_two).2 /\ enumerate 2 2048 ex_buffer G s = Ok ([(name "a", G); (name "b", G)], s').
Proof.
  destruct ex_two_after as (s & q & a & Hi & Hr). exists s, q, a.
  destruct (names_enumerated s q a _ ex_buffer G 2 Hi ex_buffer_empty) as (s' & E & _); [..|rewrite Hr in E; exists s'; split; [exact Hi|exact E]].
  - apply Forall_replicate. unfold is_byte. lia.
  - reflexivity || (vm_compute; discriminate).
  - apply ex_guid.
  - apply ex_never_stalls.
  - rewrite Hr. vm_compute. lia.
Defined.

Lemma set_then_get_witness : exists s q a at_ s', inv s q a (log_run (false, []) ex_two).2 /\
  serve_all [set_call "a" 1 9; get_call "a" 4] s = Ok ([RSet EFI_SUCCESS; RGet (mkGet EFI_SUCCESS (Some at_) 1 (Some [9; 0; 0; 0]))], s').
Proof.
  destruct ex_two_after as (s & q & a & Hi & Hr). exists s, q, a.
  destruct (set_then_get s q a _ (name "a") G EFI_VARIABLE_BOOTSERVICE_ACCESS 1 [9] true 4 [0; 0; 0; 0] Hi) as (at_ & s' & E & _);
    [change (call_ok (set_call "a" 1 9)); ex_ok|change (call_ok (get_call "a" 4)); ex_ok|by rewrite Hr|apply ex_never_stalls|by rewrite Hr|done|lia|done|].
  exists at_, s'. split; [exact Hi|exact E].
Defined.

Lemma failed_set_keeps_witness : exists s q a s', inv s q a (log_run (false, []) ex_two).2 /\
  serve_all [set_call "a" 40000 9; get_call "a" 4] s = Ok ([RSet EFI_INVALID_PARAMETER; RGet (mkGet EFI_SUCCESS (Some 2) 3 (Some [7; 7; 7; 0]))], s').
Proof.
  destruct ex_two_after as (s & q & a & Hi & Hr). exists s, q, a.
  destruct (failed_set_keeps s q a _ (Some (name "a")) (Some G) EFI_VARIABLE_BOOTSERVICE_ACCESS 40000 (Some (replicate (Z.to_nat 40000) 9)) EFI_INVALID_PARAMETER
    (name "a") G true 4 (Some [0; 0; 0; 0]) (mkVar (name "a") G 2 [7; 7; 7] false) Hi) as (s' & E);
    [change (call_ok (set_call "a" 40000 9)); ex_ok|change (call_ok (get_call "a" 4)); ex_ok|rewrite Hr; vm_compute; reflexivity|apply ex_never_stalls|rewrite Hr; vm_compute; reflexivity|done|done|vm_compute; reflexivity|].
  exists s'. split; [exact Hi|exact E].
Defined.

(** ** Where the code goes wrong *)

(** Four variables of 32768 bytes fill the store to its last byte. *)
Definition ex_full : list call := [set_call "a" 32732 1; set_call "b" 32732 2; set_call "c" 32732 3; set_call "d" 32732 4].
Lemma ex_full_after : exists s q a, inv s q a (log_run (false, []) ex_full).2 /\ EfiAtRuntime s = false.
Proof. apply (ex_after ex_full); [repeat apply Forall_cons_2; first [ex_ok | constructor]|vm_compute; reflexivity]. Qed.

Lemma all_live (es : list entry) : forallb live es = true -> Forall (fun e => live e = true) es.
Proof. intros H. apply List.Forall_forall. by apply forallb_forall. Qed.

Definition ex_entry (n : string) (size value : Z) : entry := new_entry (name n) G EFI_VARIABLE_BOOTSERVICE_ACCESS (replicate (Z.to_nat size) value).
Lemma ex_entry_ok n size value : is_name (name n) -> Zlength (name n) <= EFI_MAX_VARIABLE_NAME_SIZE -> 0 <= size <= EFI_MAX_VARIABLE_DATA_SIZE -> is_byte value -> entry_ok (ex_entry n size value).
Proof.
  intros Hn Hl Hs Hv. apply new_entry_ok; try done; [apply ex_guid|by apply Forall_replicate|]. unfold Zlength. rewrite length_replicate. lia.
Qed.
Lemma ex_holds n : StrSize (name n) = Ok (Zlength (name n)) -> is_name (name n) -> Zlength (name n) < 2 ^ 32 -> holds_name (name n) (name n).
Proof. intros E Hn Hl. split; [done|]. split; [done|]. exists []. by rewrite app_nil_r. Qed.

Lemma full_store_faults_witness : exists s q a, inv s q a (log_run (false, []) ex_full).2 /\
  store_variable (name "e") G (replicate (Z.to_nat 10) 5) EFI_VARIABLE_BOOTSERVICE_ACCESS None s = Fault OutOfBounds.
Proof.
  destruct ex_full_after as (s & q & a & Hi & _). exists s, q, a. split; [exact Hi|]. destruct Hi as [(tail & Hv) _ Hn _ _].
  apply (full_store_faults s q _ tail (name "e") (name "e") G EFI_VARIABLE_BOOTSERVICE_ACCESS (replicate (Z.to_nat 10) 5) None Hv Hn ex_never_stalls).
  - apply all_live. vm_compute. reflexivity.
  - vm_compute. reflexivity.
  - apply ex_holds; [reflexivity|by apply (bool_decide_unpack _)|done].
  - apply (ex_entry_ok "e" 10 5); [by apply (bool_decide_unpack _)|vm_compute; discriminate|vm_compute; split; discriminate|unfold is_byte; lia].
  - vm_compute. discriminate.
  - vm_compute. discriminate.
Defined.

(** Logs are compared by computation. *)
Fixpoint bytes_eqb (a b : list Z) : bool := match a, b with [], [] => true | x :: a, y :: b => if x =? y then bytes_eqb a b else false | _, _ => false end.
Lemma bytes_eqb_eq a b : bytes_eqb a b = true -> a = b.
Proof. revert b. induction a as [|x a IH]; intros [|y b]; cbn; try done. destruct (Z.eqb_spec x y) as [->|]; [|done]. intros H. f_equal. by apply IH. Qed.
Definition entry_eqb (e e' : entry) : bool :=
  bytes_eqb (e_name e) (e_name e') && bytes_eqb (e_guid e) (e_guid e') && (e_Attributes e =? e_Attributes e') && (e_State e =? e_State e') && bytes_eqb (e_data e) (e_data e').
Fixpoint log_eqb (es es' : list entry) : bool := match es, es' with [], [] => true | e :: es, e' :: es' => entry_eqb e e' && log_eqb es es' | _, _ => false end.
Lemma log_eqb_eq es es' : log_eqb es es' = true -> es = es'.
Proof.
  revert es'. induction es as [|e es IH]; intros [|e' es']; cbn; try done. intros [He Hs]%andb_true_iff. f_equal; [|by apply IH].
  apply andb_true_iff in He as [He H5]. apply andb_true_iff in He as [He H4%Z.eqb_eq]. apply andb_true_iff in He as [He H3%Z.eqb_eq]. apply andb_true_iff in He as [H1 H2].
  apply bytes_eqb_eq in H1, H2, H5. destruct e, e'. cbn in *. congruence.
Qed.

(** The deleted ["a"] takes 30036 bytes, and 10500 are free. *)
Definition ex_ghost : list call := [set_call "a" 30000 1; set_call "b" 32732 2; set_call "c" 32732 3; set_call "d" 14964 3; set_call "e" 9964 4; set_call "a" 0 0].
Lemma ex_ghost_after : exists s q a, inv s q a (masked VAR_DELETED (ex_entry "a" 30000 1) :: [ex_entry "b" 32732 2; ex_entry "c" 32732 3; ex_entry "d" 14964 3; ex_entry "e" 9964 4]) /\ EfiAtRuntime s = false.
Proof.
  assert (E : (log_run (false, []) ex_ghost).2 = masked VAR_DELETED (ex_entry "a" 30000 1) :: [ex_entry "b" 32732 2; ex_entry "c" 32732 3; ex_entry "d" 14964 3; ex_entry "e" 9964 4]) by (apply log_eqb_eq; vm_compute; reflexivity).
  rewrite <- E. apply (ex_after ex_ghost); [repeat apply Forall_cons_2; first [ex_ok | constructor]|vm_compute; reflexivity].
Qed.
Lemma Reclaim_leaves_remains_witness : exists s q tail s', let l2 := [ex_entry "b" 32732 2; ex_entry "c" 32732 3; ex_entry "d" 14964 3; ex_entry "e" 9964 4] in
  vol s q ([] ++ masked VAR_DELETED (ex_entry "a" 30000 1) :: l2) tail /\ Reclaim s = Ok (tt, s') /\ mStoreFreeOffset s' = 90536 /\
  at_store s' q (remains_bytes 10500 [] (masked VAR_DELETED (ex_entry "a" 30000 1)) l2 tail).
Proof.
  destruct ex_ghost_after as (s & q & a & [(tail & Hv) _ Hn _ _] & _). exists s, q, tail.
  destruct (Reclaim_leaves_remains s q [] (masked VAR_DELETED (ex_entry "a" 30000 1)) [ex_entry "b" 32732 2; ex_entry "c" 32732 3; ex_entry "d" 14964 3; ex_entry "e" 9964 4] tail Hv Hn ex_never_stalls)
    as (s' & E & Hf & Ha); [apply all_live; vm_compute; reflexivity|apply all_live; vm_compute; reflexivity|vm_compute; reflexivity|vm_compute; split; reflexivity|].
  exists s'. split; [exact Hv|]. split; [exact E|]. split; [rewrite Hf; vm_compute; reflexivity|].
  replace 10500 with (STORE_MAIN_SIZE - used ([] ++ masked VAR_DELETED (ex_entry "a" 30000 1) :: [ex_entry "b" 32732 2; ex_entry "c" 32732 3; ex_entry "d" 14964 3; ex_entry "e" 9964 4]))
    by (vm_compute; reflexivity). exact Ha.
Defined.

(** ["a"], which is deleted, and ["b"], which is replaced, have the same size. *)
Definition ex_stale : list call := [set_call "a" 20000 1; set_call "b" 20000 2; set_call "c" 30000 3; set_call "d" 30000 4; set_call "e" 5892 5; set_call "a" 0 0].
Definition ex_rest : list entry := [ex_entry "d" 30000 4; ex_entry "e" 5892 5].
Lemma ex_stale_after : exists s q a, inv s q a (masked VAR_DELETED (ex_entry "a" 20000 1) :: ex_entry "b" 20000 2 :: ex_entry "c" 30000 3 :: ex_rest) /\ EfiAtRuntime s = false.
Proof.
  assert (E : (log_run (false, []) ex_stale).2 = masked VAR_DELETED (ex_entry "a" 20000 1) :: ex_entry "b" 20000 2 :: ex_entry "c" 30000 3 :: ex_rest) by (apply log_eqb_eq; vm_compute; reflexivity).
  rewrite <- E. apply (ex_after ex_stale); [repeat apply Forall_cons_2; first [ex_ok | constructor]|vm_compute; reflexivity].
Qed.
Lemma stale_offset_deletes_witness : exists s q tail s' tail',
  vol s q (masked VAR_DELETED (ex_entry "a" 20000 1) :: ex_entry "b" 20000 2 :: ex_entry "c" 30000 3 :: ex_rest) tail /\
  store_variable (name "b") G (replicate (Z.to_nat 26000) 9) EFI_VARIABLE_BOOTSERVICE_ACCESS (Some (used [masked VAR_DELETED (ex_entry "a" 20000 1)])) s = Ok (EFI_SUCCESS, s') /\
  vol s' q ([ex_entry "b" 20000 2] ++ masked VAR_DELETED (ex_entry "c" 30000 3) :: ex_rest ++ [ex_entry "b" 26000 9]) tail'.
Proof.
  destruct ex_stale_after as (s & q & a & [(tail & Hv) _ Hn _ _] & _). exists s, q, tail.
  destruct (stale_offset_deletes s q [masked VAR_DELETED (ex_entry "a" 20000 1)] (ex_entry "b" 20000 2) (ex_entry "c" 30000 3 :: ex_rest) tail
    [ex_entry "b" 20000 2] (ex_entry "c" 30000 3) ex_rest (name "b") (name "b") G EFI_VARIABLE_BOOTSERVICE_ACCESS (replicate (Z.to_nat 26000) 9) Hv Hn ex_never_stalls)
    as (s' & tail' & E & Hv'); [..|exists s', tail'; split; [exact Hv|split; [exact E|exact Hv']]].
  - apply ex_holds; [reflexivity|by apply (bool_decide_unpack _)|done].
  - done.
  - apply (ex_entry_ok "b" 26000 9); [by apply (bool_decide_unpack _)|vm_compute; discriminate|vm_compute; split; discriminate|unfold is_byte; lia].
  - vm_compute. reflexivity.
  - vm_compute. reflexivity.
  - vm_compute. discriminate.
  - reflexivity.
  - vm_compute. reflexivity.
Defined.

(** ** Consequences of the contract *)
Definition next_call : call := CallNext (Some 8) (Some (replicate 8 0)) (Some G).
Lemma ex_next_ok : call_ok next_call.
Proof.
  split; [|split; [apply ex_guid|done]]. split; [|apply Forall_replicate; unfold is_byte; lia].
  split; [by apply (bool_decide_unpack _)|]. split; [done|]. by exists (replicate 6 0).
Qed.
Lemma ex_replies cs : Forall call_ok cs -> benign_run (false, []) cs = true -> exists s rs s', started s /\ serve_all cs s = Ok (rs, s') /\ Forall2 agrees (v_run (false, []) cs) rs.
Proof.
  intros Hok Hb. destruct ex_starts as [s0 E]. pose proof (initialize_returns (BD := ex_device) tt _ _ E eq_refl) as Hs. clear E. destruct Hs as (Hr & q & a & Hi).
  destruct (wpv_total _ _ _ ex_never_stalls (serve_run q a cs s0 [] Hi Hok ltac:(by rewrite Hr))) as (rs & s & E & Ha & _). rewrite Hr in Ha. exists s0, rs, s.
  split; [split; [exact Hr|by exists q, a]|]. by split.
Qed.

Lemma ex_agrees (rs rs' : list reply) : Forall2 agrees (Some <$> rs) rs' -> rs' = rs.
Proof. revert rs'. induction rs as [|r rs IH]; intros rs' H; [by apply Forall2_nil_inv_l in H|]. apply Forall2_cons_inv_l in H as (r' & l & -> & H & ->). f_equal. by apply IH. Qed.
Lemma ex_answers cs rs : Forall call_ok cs -> benign_run (false, []) cs = true -> v_run (false, []) cs = Some <$> rs -> exists s s', started s /\ serve_all cs s = Ok (rs, s').
Proof. intros Hok Hb Hv. destruct (ex_replies cs Hok Hb) as (s & rs' & s' & Hs & E & Ha). rewrite Hv in Ha. apply ex_agrees in Ha as ->. by exists s, s'. Qed.

(** At runtime [GetVariable] reads a variable without runtime access, which
    [GetNextVariableName] does not list; and the empty name reads the first variable. *)
Definition ex_runtime : list call := [set_call "a" 3 7; CallExitBootServices; get_call "a" 5; get_call "" 5].
Lemma runtime_access_ignored : v_next true EMPTY G (v_step (false, []) (set_call "a" 3 7)).2.2 = None /\
  exists s s', started s /\ serve_all ex_runtime s =
    Ok ([RSet EFI_SUCCESS; RDone; RGet (mkGet EFI_SUCCESS (Some 2) 3 (Some [7; 7; 7; 0; 0])); RGet (mkGet EFI_SUCCESS (Some 2) 3 (Some [7; 7; 7; 0; 0]))], s').
Proof.
  split; [reflexivity|]. apply ex_answers; [repeat apply Forall_cons_2; first [ex_ok | exact I | constructor]|reflexivity|vm_compute; reflexivity].
Qed.

(** An update that fails for lack of space hides the variable from the
    enumeration; setting the old data again does not bring it back. *)
Definition ex_hidden : list call :=
  [set_call "a" 100 7; set_call "b" 32732 2; set_call "c" 32732 3; set_call "d" 32732 4; set_call "a" 32700 1; next_call; set_call "a" 100 7; next_call; get_call "a" 1].
Lemma failed_update_hides : let next := RNext (mkNext EFI_SUCCESS 4 (name "b" ++ replicate 4 0) G) in
  exists s s', started s /\ serve_all ex_hidden s = Ok ([RSet EFI_SUCCESS; RSet EFI_SUCCESS; RSet EFI_SUCCESS; RSet EFI_SUCCESS; RSet EFI_OUT_OF_RESOURCES; next; RSet EFI_SUCCESS; next;
    RGet (mkGet EFI_BUFFER_TOO_SMALL None 100 (Some [0]))], s').
Proof.
  intros next. apply ex_answers; [repeat apply Forall_cons_2; first [ex_ok | apply ex_next_ok | constructor]|vm_compute; reflexivity|vm_compute; reflexivity].
Qed.
End VariableConcrete.
