(* ===== verification/SynthKeyLayout.v ===== *)
(** The layout of the synthetic keyboard ([MsvmPkg/SynthKeyDxe/SynthKeyLayout.c]):
    from the keystrokes of the host to the keys of the UEFI console.  Key data and
    the values of scan codes and state bits are those of the UEFI specification. *)
From Stdlib Require Import String Ascii ZArith Lia.
From stdpp Require Import base list numbers option.
From S2P Require Import Prelude.
Open Scope Z_scope.

Module SynthKeyLayout.

(** ** Keys *)
Record EFI_INPUT_KEY := mkKey { ScanCode : Z; UnicodeChar : Z }.
Record EFI_KEY_STATE := mkKeyState { KeyShiftState : Z; KeyToggleState : Z }.
Record EFI_KEY_DATA := mkKeyData { Key : EFI_INPUT_KEY; KeyState : EFI_KEY_STATE }.
Definition zero_key : EFI_KEY_DATA := mkKeyData (mkKey 0 0) (mkKeyState 0 0).

#[export] Instance EFI_INPUT_KEY_eq_dec : EqDecision EFI_INPUT_KEY.
Proof. solve_decision. Defined.
#[export] Instance EFI_KEY_STATE_eq_dec : EqDecision EFI_KEY_STATE.
Proof. solve_decision. Defined.
#[export] Instance EFI_KEY_DATA_eq_dec : EqDecision EFI_KEY_DATA.
Proof. solve_decision. Defined.

Definition EFI_SHIFT_STATE_VALID : Z := 0x80000000.
Definition EFI_RIGHT_SHIFT_PRESSED : Z := 0x1.
Definition EFI_LEFT_SHIFT_PRESSED : Z := 0x2.
Definition EFI_RIGHT_CONTROL_PRESSED : Z := 0x4.
Definition EFI_LEFT_CONTROL_PRESSED : Z := 0x8.
Definition EFI_RIGHT_ALT_PRESSED : Z := 0x10.
Definition EFI_LEFT_ALT_PRESSED : Z := 0x20.
Definition EFI_RIGHT_LOGO_PRESSED : Z := 0x40.
Definition EFI_LEFT_LOGO_PRESSED : Z := 0x80.
Definition EFI_MENU_KEY_PRESSED : Z := 0x100.
Definition EFI_SYS_REQ_PRESSED : Z := 0x200.
Definition EFI_TOGGLE_STATE_VALID : Z := 0x80.
Definition EFI_KEY_STATE_EXPOSED : Z := 0x40.
Definition EFI_SCROLL_LOCK_ACTIVE : Z := 0x1.
Definition EFI_NUM_LOCK_ACTIVE : Z := 0x2.
Definition EFI_CAPS_LOCK_ACTIVE : Z := 0x4.

Definition SCAN_NULL : Z := 0.
Definition SCAN_UP : Z := 1.
Definition SCAN_DOWN : Z := 2.
Definition SCAN_RIGHT : Z := 3.
Definition SCAN_LEFT : Z := 4.
Definition SCAN_HOME : Z := 5.
Definition SCAN_END : Z := 6.
Definition SCAN_INSERT : Z := 7.
Definition SCAN_DELETE : Z := 8.
Definition SCAN_PAGE_UP : Z := 9.
Definition SCAN_PAGE_DOWN : Z := 10.
Definition SCAN_F1 : Z := 11.
Definition SCAN_F2 : Z := 12.
Definition SCAN_F3 : Z := 13.
Definition SCAN_F4 : Z := 14.
Definition SCAN_F5 : Z := 15.
Definition SCAN_F6 : Z := 16.
Definition SCAN_F7 : Z := 17.
Definition SCAN_F8 : Z := 18.
Definition SCAN_F9 : Z := 19.
Definition SCAN_F10 : Z := 20.
Definition SCAN_F11 : Z := 21.
Definition SCAN_F12 : Z := 22.
Definition SCAN_ESC : Z := 23.
Definition SCAN_PAUSE : Z := 72.
Definition CHAR_NULL : Z := 0.

(** Make codes of the keyboard (scan code set 1). *)
Definition SCANCODE_CTRL_MAKE : Z := 0x1D.
Definition SCANCODE_ALT_MAKE : Z := 0x38.
Definition SCANCODE_LEFT_SHIFT_MAKE : Z := 0x2A.
Definition SCANCODE_RIGHT_SHIFT_MAKE : Z := 0x36.
Definition SCANCODE_CAPS_LOCK_MAKE : Z := 0x3A.
Definition SCANCODE_NUM_LOCK_MAKE : Z := 0x45.
Definition SCANCODE_SCROLL_LOCK_MAKE : Z := 0x46.
Definition SCANCODE_LEFT_LOGO_MAKE : Z := 0x5B.
Definition SCANCODE_RIGHT_LOGO_MAKE : Z := 0x5C.
Definition SCANCODE_MENU_MAKE : Z := 0x5D.
Definition SCANCODE_SYS_REQ_MAKE : Z := 0x37.
Definition SCANCODE_SYS_REQ_MAKE_WITH_ALT : Z := 0x54.

Definition TEST_FLAGS (flags value : Z) : bool := negb (Z.land flags value =? 0).
Definition EFI_KEY_SHIFT_ACTIVE (state : Z) : bool := TEST_FLAGS state (Z.lor EFI_LEFT_SHIFT_PRESSED EFI_RIGHT_SHIFT_PRESSED).
Definition EFI_KEY_CTRL_ACTIVE (state : Z) : bool := TEST_FLAGS state (Z.lor EFI_LEFT_CONTROL_PRESSED EFI_RIGHT_CONTROL_PRESSED).
Definition EFI_KEY_ALT_ACTIVE (state : Z) : bool := TEST_FLAGS state (Z.lor EFI_LEFT_ALT_PRESSED EFI_RIGHT_ALT_PRESSED).

(** A keystroke of the host. *)
Record HK_MESSAGE_KEYSTROKE := mkStroke { MakeCode : Z; IsUnicode : bool; IsBreak : bool; IsE0 : bool; IsE1 : bool }.

(** [SYNTH_KEYBOARD_STATE]: the key state and the flags. *)
Record SYNTH_KEYBOARD_STATE := mkState {
  KeyState_ : EFI_KEY_STATE; ChannelOpen : bool; ChannelConnected : bool; SimpleTextInstalled : bool; PauseSequence : bool }.
Definition set_KeyState v s := mkState v (ChannelOpen s) (ChannelConnected s) (SimpleTextInstalled s) (PauseSequence s).
Definition set_ChannelOpen v s := mkState (KeyState_ s) v (ChannelConnected s) (SimpleTextInstalled s) (PauseSequence s).
Definition set_ChannelConnected v s := mkState (KeyState_ s) (ChannelOpen s) v (SimpleTextInstalled s) (PauseSequence s).
Definition set_SimpleTextInstalled v s := mkState (KeyState_ s) (ChannelOpen s) (ChannelConnected s) v (PauseSequence s).
Definition set_PauseSequence v s := mkState (KeyState_ s) (ChannelOpen s) (ChannelConnected s) (SimpleTextInstalled s) v.
Definition shift_of (s : SYNTH_KEYBOARD_STATE) : Z := KeyShiftState (KeyState_ s).
Definition toggle_of (s : SYNTH_KEYBOARD_STATE) : Z := KeyToggleState (KeyState_ s).
Definition set_shift v s := set_KeyState (mkKeyState v (toggle_of s)) s.
Definition set_toggle v s := set_KeyState (mkKeyState (shift_of s) v) s.

(** ** The table *)
Record SYNTHKEY_KEY_MAP_ENTRY := mkEntry { MapScanCode : Z; EfiScanCode : Z; MapUnicodeChar : Z; ShiftUnicodeChar : Z }.
Definition TABLE_END : Z := 0.
Definition chr (s : string) : Z := match s with String c _ => Z.of_nat (nat_of_ascii c) | EmptyString => 0 end.

(** The table in six parts: Escape, digits and the keys beside them; from Q to the
    quotes; from the accent to Caps Lock; function keys and locks; the keypad; the
    rest and the end mark. *)
Definition number_row : list SYNTHKEY_KEY_MAP_ENTRY := [
    mkEntry 0x01 SCAN_ESC 0 0; mkEntry 0x02 SCAN_NULL (chr "1") (chr "!"); mkEntry 0x03 SCAN_NULL (chr "2") (chr "@");
    mkEntry 0x04 SCAN_NULL (chr "3") (chr "#"); mkEntry 0x05 SCAN_NULL (chr "4") (chr "$");
    mkEntry 0x06 SCAN_NULL (chr "5") (chr "%"); mkEntry 0x07 SCAN_NULL (chr "6") (chr "^");
    mkEntry 0x08 SCAN_NULL (chr "7") (chr "&"); mkEntry 0x09 SCAN_NULL (chr "8") 42;
    mkEntry 0x0A SCAN_NULL (chr "9") 40; mkEntry 0x0B SCAN_NULL (chr "0") 41;
    mkEntry 0x0C SCAN_NULL (chr "-") (chr "_"); mkEntry 0x0D SCAN_NULL (chr "=") (chr "+");
    mkEntry 0x0E SCAN_NULL 8 8; mkEntry 0x0F SCAN_NULL 9 9].
Definition letter_keys : list SYNTHKEY_KEY_MAP_ENTRY := [
    mkEntry 0x10 SCAN_NULL (chr "q") (chr "Q"); mkEntry 0x11 SCAN_NULL (chr "w") (chr "W");
    mkEntry 0x12 SCAN_NULL (chr "e") (chr "E"); mkEntry 0x13 SCAN_NULL (chr "r") (chr "R");
    mkEntry 0x14 SCAN_NULL (chr "t") (chr "T"); mkEntry 0x15 SCAN_NULL (chr "y") (chr "Y");
    mkEntry 0x16 SCAN_NULL (chr "u") (chr "U"); mkEntry 0x17 SCAN_NULL (chr "i") (chr "I");
    mkEntry 0x18 SCAN_NULL (chr "o") (chr "O"); mkEntry 0x19 SCAN_NULL (chr "p") (chr "P");
    mkEntry 0x1a SCAN_NULL (chr "[") (chr "{"); mkEntry 0x1b SCAN_NULL (chr "]") (chr "}");
    mkEntry 0x1c SCAN_NULL 13 13; mkEntry 0x1d SCAN_NULL 0 0; mkEntry 0x1e SCAN_NULL (chr "a") (chr "A");
    mkEntry 0x1f SCAN_NULL (chr "s") (chr "S"); mkEntry 0x20 SCAN_NULL (chr "d") (chr "D");
    mkEntry 0x21 SCAN_NULL (chr "f") (chr "F"); mkEntry 0x22 SCAN_NULL (chr "g") (chr "G");
    mkEntry 0x23 SCAN_NULL (chr "h") (chr "H"); mkEntry 0x24 SCAN_NULL (chr "j") (chr "J");
    mkEntry 0x25 SCAN_NULL (chr "k") (chr "K"); mkEntry 0x26 SCAN_NULL (chr "l") (chr "L");
    mkEntry 0x27 SCAN_NULL (chr ";") (chr ":"); mkEntry 0x28 SCAN_NULL 39 34].
Definition bottom_keys : list SYNTHKEY_KEY_MAP_ENTRY := [
    mkEntry 0x29 SCAN_NULL (chr "`") (chr "~"); mkEntry 0x2a SCAN_NULL 0 0; mkEntry 0x2b SCAN_NULL 92 (chr "|");
    mkEntry 0x2c SCAN_NULL (chr "z") (chr "Z"); mkEntry 0x2d SCAN_NULL (chr "x") (chr "X");
    mkEntry 0x2e SCAN_NULL (chr "c") (chr "C"); mkEntry 0x2f SCAN_NULL (chr "v") (chr "V");
    mkEntry 0x30 SCAN_NULL (chr "b") (chr "B"); mkEntry 0x31 SCAN_NULL (chr "n") (chr "N");
    mkEntry 0x32 SCAN_NULL (chr "m") (chr "M"); mkEntry 0x33 SCAN_NULL (chr ",") (chr "<");
    mkEntry 0x34 SCAN_NULL (chr ".") (chr ">"); mkEntry 0x35 SCAN_NULL (chr "/") (chr "?");
    mkEntry 0x36 SCAN_NULL 0 0; mkEntry 0x37 SCAN_NULL 42 42; mkEntry 0x38 SCAN_NULL 0 0;
    mkEntry 0x39 SCAN_NULL (chr " ") (chr " "); mkEntry 0x3A SCAN_NULL 0 0].
Definition function_keys : list SYNTHKEY_KEY_MAP_ENTRY := [
    mkEntry 0x3B SCAN_F1 0 0; mkEntry 0x3C SCAN_F2 0 0; mkEntry 0x3D SCAN_F3 0 0; mkEntry 0x3E SCAN_F4 0 0;
    mkEntry 0x3F SCAN_F5 0 0; mkEntry 0x40 SCAN_F6 0 0; mkEntry 0x41 SCAN_F7 0 0; mkEntry 0x42 SCAN_F8 0 0;
    mkEntry 0x43 SCAN_F9 0 0; mkEntry 0x44 SCAN_F10 0 0; mkEntry 0x45 SCAN_NULL 0 0; mkEntry 0x46 SCAN_NULL 0 0].
Definition keypad_keys : list SYNTHKEY_KEY_MAP_ENTRY := [
    mkEntry 0x47 SCAN_HOME (chr "7") (chr "7"); mkEntry 0x48 SCAN_UP (chr "8") (chr "8");
    mkEntry 0x49 SCAN_PAGE_UP (chr "9") (chr "9"); mkEntry 0x4a SCAN_NULL (chr "-") (chr "-");
    mkEntry 0x4b SCAN_LEFT (chr "4") (chr "4"); mkEntry 0x4c SCAN_NULL (chr "5") (chr "5");
    mkEntry 0x4d SCAN_RIGHT (chr "6") (chr "6"); mkEntry 0x4e SCAN_NULL (chr "+") (chr "+");
    mkEntry 0x4f SCAN_END (chr "1") (chr "1"); mkEntry 0x50 SCAN_DOWN (chr "2") (chr "2");
    mkEntry 0x51 SCAN_PAGE_DOWN (chr "3") (chr "3"); mkEntry 0x52 SCAN_INSERT (chr "0") (chr "0");
    mkEntry 0x53 SCAN_DELETE (chr ".") (chr ".")].
Definition last_keys : list SYNTHKEY_KEY_MAP_ENTRY := [
    mkEntry 0x57 SCAN_F11 0 0; mkEntry 0x58 SCAN_F12 0 0; mkEntry 0x5B SCAN_NULL 0 0; mkEntry 0x5C SCAN_NULL 0 0;
    mkEntry 0x5D SCAN_NULL 0 0; mkEntry TABLE_END TABLE_END SCAN_NULL SCAN_NULL].
Definition ScanCodeToEfiKey_En_Us : list SYNTHKEY_KEY_MAP_ENTRY :=
  number_row ++ letter_keys ++ bottom_keys ++ function_keys ++ keypad_keys ++ last_keys.

(** ** State changes *)
Inductive SynthKeyStateChangeType := KeyChangeNone | KeyChangeShift | KeyChangeToggle.

(** The flags a make code stands for: shift state, toggle state, and whether the
    pause sequence starts. *)
Definition key_flags (RawKey : HK_MESSAGE_KEYSTROKE) (pause : bool) : Z * Z * bool :=
  let code := MakeCode RawKey in
  if code =? SCANCODE_CTRL_MAKE then
    if IsE0 RawKey then (EFI_RIGHT_CONTROL_PRESSED, 0, pause)
    else if IsE1 RawKey then (0, 0, true)
    else (EFI_LEFT_CONTROL_PRESSED, 0, pause)
  else if code =? SCANCODE_ALT_MAKE then (if IsE0 RawKey then EFI_RIGHT_ALT_PRESSED else EFI_LEFT_ALT_PRESSED, 0, pause)
  else if code =? SCANCODE_LEFT_SHIFT_MAKE then (if IsE0 RawKey then 0 else EFI_LEFT_SHIFT_PRESSED, 0, pause)
  else if code =? SCANCODE_RIGHT_SHIFT_MAKE then (EFI_RIGHT_SHIFT_PRESSED, 0, pause)
  else if code =? SCANCODE_LEFT_LOGO_MAKE then (EFI_LEFT_LOGO_PRESSED, 0, pause)
  else if code =? SCANCODE_RIGHT_LOGO_MAKE then (EFI_RIGHT_LOGO_PRESSED, 0, pause)
  else if code =? SCANCODE_MENU_MAKE then (EFI_MENU_KEY_PRESSED, 0, pause)
  else if code =? SCANCODE_SYS_REQ_MAKE then (if IsE0 RawKey then EFI_SYS_REQ_PRESSED else 0, 0, pause)
  else if code =? SCANCODE_SYS_REQ_MAKE_WITH_ALT then (EFI_SYS_REQ_PRESSED, 0, pause)
  else if code =? SCANCODE_CAPS_LOCK_MAKE then (0, EFI_CAPS_LOCK_ACTIVE, pause)
  else if code =? SCANCODE_NUM_LOCK_MAKE then (0, if pause then 0 else EFI_NUM_LOCK_ACTIVE, pause)
  else if code =? SCANCODE_SCROLL_LOCK_MAKE then (0, if IsE0 RawKey then 0 else EFI_SCROLL_LOCK_ACTIVE, pause)
  else (0, 0, pause).

Definition SynthKeyLayoutUpdateKeyState (RawKey : HK_MESSAGE_KEYSTROKE) (s : SYNTH_KEYBOARD_STATE) : SynthKeyStateChangeType * SYNTH_KEYBOARD_STATE :=
  if IsUnicode RawKey then (KeyChangeNone, s)
  else
    let '(newShiftState, newToggleState, pause) := key_flags RawKey (PauseSequence s) in
    let s := set_PauseSequence pause s in
    if negb (newShiftState =? 0) then
      if IsBreak RawKey then
        if TEST_FLAGS (shift_of s) newShiftState then (KeyChangeShift, set_shift (Z.land (shift_of s) (Z.lnot newShiftState)) s)
        else (KeyChangeNone, s)
      else (KeyChangeShift, set_shift (Z.lor (shift_of s) newShiftState) s)
    else if negb (newToggleState =? 0) && negb (IsBreak RawKey) then
      (KeyChangeToggle, set_toggle (Z.lxor (toggle_of s) newToggleState) s)
    else (KeyChangeNone, s).

(** ** Translation *)
Definition between (a c z : Z) : bool := (a <=? c) && (c <=? z).

(** The loop over the table, up to its end mark. *)
Fixpoint find_entry (code : Z) (table : list SYNTHKEY_KEY_MAP_ENTRY) : option SYNTHKEY_KEY_MAP_ENTRY :=
  match table with
  | [] => None
  | e :: table => if MapScanCode e =? TABLE_END then None else if code =? MapScanCode e then Some e else find_entry code table
  end.

Definition caps_char (c : Z) : Z :=
  if between (chr "a") c (chr "z") then u16 (c - chr "a" + chr "A")
  else if between (chr "A") c (chr "Z") then u16 (c - chr "A" + chr "a") else c.
Definition ctrl_char (c : Z) : Z :=
  if between (chr "a") c (chr "z") then u16 (c - chr "a" + 1)
  else if between (chr "A") c (chr "Z") then u16 (c - chr "A" + 1) else c.

Definition apply_entry (s : SYNTH_KEYBOARD_STATE) (e : SYNTHKEY_KEY_MAP_ENTRY) (k : EFI_KEY_DATA) : EFI_KEY_DATA :=
  let k := mkKeyData (mkKey (EfiScanCode e) (MapUnicodeChar e)) (KeyState k) in
  let k := if EFI_KEY_SHIFT_ACTIVE (shift_of s) && negb (MapUnicodeChar e =? ShiftUnicodeChar e)
           then mkKeyData (mkKey (ScanCode (Key k)) (ShiftUnicodeChar e))
                  (mkKeyState (Z.land (KeyShiftState (KeyState k)) (Z.lnot (Z.lor EFI_LEFT_SHIFT_PRESSED EFI_RIGHT_SHIFT_PRESSED))) (KeyToggleState (KeyState k)))
           else k in
  if TEST_FLAGS (toggle_of s) EFI_CAPS_LOCK_ACTIVE then mkKeyData (mkKey (ScanCode (Key k)) (caps_char (UnicodeChar (Key k)))) (KeyState k) else k.

Definition convert_key (RawKey : HK_MESSAGE_KEYSTROKE) (s : SYNTH_KEYBOARD_STATE) (k : EFI_KEY_DATA) : EFI_KEY_DATA :=
  let k := match find_entry (MakeCode RawKey) ScanCodeToEfiKey_En_Us with Some e => apply_entry s e k | None => k end in
  if EFI_KEY_CTRL_ACTIVE (shift_of s) then mkKeyData (mkKey (ScanCode (Key k)) (ctrl_char (UnicodeChar (Key k)))) (KeyState k) else k.

Definition keypad (RawKey : HK_MESSAGE_KEYSTROKE) (s : SYNTH_KEYBOARD_STATE) (k : EFI_KEY_DATA) : EFI_KEY_DATA :=
  if between 0x47 (MakeCode RawKey) 0x53 then
    if TEST_FLAGS (toggle_of s) EFI_NUM_LOCK_ACTIVE && negb (EFI_KEY_SHIFT_ACTIVE (shift_of s)) && negb (IsE0 RawKey)
    then mkKeyData (mkKey SCAN_NULL (UnicodeChar (Key k))) (KeyState k)
    else if negb (MakeCode RawKey =? 0x4a) && negb (MakeCode RawKey =? 0x4e)
    then mkKeyData (mkKey (ScanCode (Key k)) CHAR_NULL) (KeyState k)
    else k
  else k.

Definition SynthKeyLayoutTranslateKey (RawKey : HK_MESSAGE_KEYSTROKE) (s : SYNTH_KEYBOARD_STATE) : EFI_STATUS * EFI_KEY_DATA :=
  let k := zero_key in
  if IsBreak RawKey || IsE1 RawKey then (EFI_NO_MAPPING, k)
  else if IsUnicode RawKey then (EFI_SUCCESS, mkKeyData (mkKey SCAN_NULL (MakeCode RawKey)) (KeyState k))
  else
    let k :=
      if PauseSequence s && (MakeCode RawKey =? SCANCODE_NUM_LOCK_MAKE) then mkKeyData (mkKey SCAN_PAUSE CHAR_NULL) (KeyState k)
      else if IsE0 RawKey && (MakeCode RawKey =? SCANCODE_SCROLL_LOCK_MAKE) then mkKeyData (mkKey SCAN_PAUSE CHAR_NULL) (KeyState k)
      else if IsE0 RawKey && (MakeCode RawKey =? SCANCODE_SYS_REQ_MAKE) then mkKeyData (mkKey SCAN_NULL CHAR_NULL) (KeyState k)
      else convert_key RawKey s k in
    (EFI_SUCCESS, keypad RawKey s k).
End SynthKeyLayout.
