(* ===== verification/SynthKey.v ===== *)
(** The synthetic keyboard ([MsvmPkg/SynthKeyDxe]): the text input protocols
    ([SynthSimpleTextIn.c]), the channel to the host ([SynthKeyChannel.c]) and the
    driver binding ([SynthKeyDxe.c]).

    The state [keyboard] is the device structure with what it designates: the
    notifications allocated in the pool by address, the events that exist, the
    protocols that are open, and a record of what left the driver (messages,
    signals, completed packets, resets, notification functions called).  [NotifyList]
    is [None] while the list head is zeroed memory.  Changes of the task priority
    level have no effect here, and [ResetSystem] is taken to return, which the code
    allows for. *)
From Stdlib Require Import ZArith Lia.
From stdpp Require Import base list numbers list_numbers option gmap.
From S2P Require Import Prelude SynthKeyLayout.
Open Scope Z_scope.

Module SynthKey.
Import SynthKeyLayout.

(** ** State *)
Definition SYNTHKEY_KEY_BUFFER_SIZE : Z := 256.
Record EFI_KEY_BUFFER := mkQueue { Buffer : list EFI_KEY_DATA; Head : Z; Tail : Z }.
Record SYNTH_KEYBOARD_EX_NOTIFY := mkNotify { NotifyHandle : Z; KeyNotificationFn : Z; NotifyKeyData : EFI_KEY_DATA }.

Record keyboard := mkKeyboard {
  State : SYNTH_KEYBOARD_STATE; EfiKeyQueue : EFI_KEY_BUFFER; NotifyList : option (list Z);
  WaitForKey : Z; WaitForKeyEx : Z; InitCompleteEvent : Z;
  DevicePath : bool; Emcl : bool; allocated : bool; emcl_installed : bool;
  notifies : gmap Z SYNTH_KEYBOARD_EX_NOTIFY; events : gset Z; signalled : gset Z;
  sent : list (list Z); completed : nat; resets : nat; notified : list (Z * EFI_KEY_DATA); tick : nat }.
Definition set_State v k := mkKeyboard v (EfiKeyQueue k) (NotifyList k) (WaitForKey k) (WaitForKeyEx k) (InitCompleteEvent k) (DevicePath k) (Emcl k) (allocated k) (emcl_installed k) (notifies k) (events k) (signalled k) (sent k) (completed k) (resets k) (notified k) (tick k).
Definition set_EfiKeyQueue v k := mkKeyboard (State k) v (NotifyList k) (WaitForKey k) (WaitForKeyEx k) (InitCompleteEvent k) (DevicePath k) (Emcl k) (allocated k) (emcl_installed k) (notifies k) (events k) (signalled k) (sent k) (completed k) (resets k) (notified k) (tick k).
Definition set_NotifyList v k := mkKeyboard (State k) (EfiKeyQueue k) v (WaitForKey k) (WaitForKeyEx k) (InitCompleteEvent k) (DevicePath k) (Emcl k) (allocated k) (emcl_installed k) (notifies k) (events k) (signalled k) (sent k) (completed k) (resets k) (notified k) (tick k).
Definition set_WaitForKey v k := mkKeyboard (State k) (EfiKeyQueue k) (NotifyList k) v (WaitForKeyEx k) (InitCompleteEvent k) (DevicePath k) (Emcl k) (allocated k) (emcl_installed k) (notifies k) (events k) (signalled k) (sent k) (completed k) (resets k) (notified k) (tick k).
Definition set_WaitForKeyEx v k := mkKeyboard (State k) (EfiKeyQueue k) (NotifyList k) (WaitForKey k) v (InitCompleteEvent k) (DevicePath k) (Emcl k) (allocated k) (emcl_installed k) (notifies k) (events k) (signalled k) (sent k) (completed k) (resets k) (notified k) (tick k).
Definition set_InitCompleteEvent v k := mkKeyboard (State k) (EfiKeyQueue k) (NotifyList k) (WaitForKey k) (WaitForKeyEx k) v (DevicePath k) (Emcl k) (allocated k) (emcl_installed k) (notifies k) (events k) (signalled k) (sent k) (completed k) (resets k) (notified k) (tick k).
Definition set_DevicePath v k := mkKeyboard (State k) (EfiKeyQueue k) (NotifyList k) (WaitForKey k) (WaitForKeyEx k) (InitCompleteEvent k) v (Emcl k) (allocated k) (emcl_installed k) (notifies k) (events k) (signalled k) (sent k) (completed k) (resets k) (notified k) (tick k).
Definition set_Emcl v k := mkKeyboard (State k) (EfiKeyQueue k) (NotifyList k) (WaitForKey k) (WaitForKeyEx k) (InitCompleteEvent k) (DevicePath k) v (allocated k) (emcl_installed k) (notifies k) (events k) (signalled k) (sent k) (completed k) (resets k) (notified k) (tick k).
Definition set_allocated v k := mkKeyboard (State k) (EfiKeyQueue k) (NotifyList k) (WaitForKey k) (WaitForKeyEx k) (InitCompleteEvent k) (DevicePath k) (Emcl k) v (emcl_installed k) (notifies k) (events k) (signalled k) (sent k) (completed k) (resets k) (notified k) (tick k).
Definition set_emcl_installed v k := mkKeyboard (State k) (EfiKeyQueue k) (NotifyList k) (WaitForKey k) (WaitForKeyEx k) (InitCompleteEvent k) (DevicePath k) (Emcl k) (allocated k) v (notifies k) (events k) (signalled k) (sent k) (completed k) (resets k) (notified k) (tick k).
Definition set_notifies v k := mkKeyboard (State k) (EfiKeyQueue k) (NotifyList k) (WaitForKey k) (WaitForKeyEx k) (InitCompleteEvent k) (DevicePath k) (Emcl k) (allocated k) (emcl_installed k) v (events k) (signalled k) (sent k) (completed k) (resets k) (notified k) (tick k).
Definition set_events v k := mkKeyboard (State k) (EfiKeyQueue k) (NotifyList k) (WaitForKey k) (WaitForKeyEx k) (InitCompleteEvent k) (DevicePath k) (Emcl k) (allocated k) (emcl_installed k) (notifies k) v (signalled k) (sent k) (completed k) (resets k) (notified k) (tick k).
Definition set_signalled v k := mkKeyboard (State k) (EfiKeyQueue k) (NotifyList k) (WaitForKey k) (WaitForKeyEx k) (InitCompleteEvent k) (DevicePath k) (Emcl k) (allocated k) (emcl_installed k) (notifies k) (events k) v (sent k) (completed k) (resets k) (notified k) (tick k).
Definition set_sent v k := mkKeyboard (State k) (EfiKeyQueue k) (NotifyList k) (WaitForKey k) (WaitForKeyEx k) (InitCompleteEvent k) (DevicePath k) (Emcl k) (allocated k) (emcl_installed k) (notifies k) (events k) (signalled k) v (completed k) (resets k) (notified k) (tick k).
Definition set_completed v k := mkKeyboard (State k) (EfiKeyQueue k) (NotifyList k) (WaitForKey k) (WaitForKeyEx k) (InitCompleteEvent k) (DevicePath k) (Emcl k) (allocated k) (emcl_installed k) (notifies k) (events k) (signalled k) (sent k) v (resets k) (notified k) (tick k).
Definition set_resets v k := mkKeyboard (State k) (EfiKeyQueue k) (NotifyList k) (WaitForKey k) (WaitForKeyEx k) (InitCompleteEvent k) (DevicePath k) (Emcl k) (allocated k) (emcl_installed k) (notifies k) (events k) (signalled k) (sent k) (completed k) v (notified k) (tick k).
Definition set_notified v k := mkKeyboard (State k) (EfiKeyQueue k) (NotifyList k) (WaitForKey k) (WaitForKeyEx k) (InitCompleteEvent k) (DevicePath k) (Emcl k) (allocated k) (emcl_installed k) (notifies k) (events k) (signalled k) (sent k) (completed k) (resets k) v (tick k).
Definition next_tick k := mkKeyboard (State k) (EfiKeyQueue k) (NotifyList k) (WaitForKey k) (WaitForKeyEx k) (InitCompleteEvent k) (DevicePath k) (Emcl k) (allocated k) (emcl_installed k) (notifies k) (events k) (signalled k) (sent k) (completed k) (resets k) (notified k) (S (tick k)).

(** ** The monad *)
Definition K (A : Type) : Type := keyboard -> result (A * keyboard).
#[export] Instance K_ret : MRet K := fun A a k => Ok (a, k).
#[export] Instance K_bind : MBind K := fun A C f c k => match c k with Ok (a, k') => f a k' | Fault e => Fault e end.
Definition klift {A} (r : result A) : K A := fun k => match r with Ok a => Ok (a, k) | Fault e => Fault e end.
Definition kget {A} (f : keyboard -> A) : K A := fun k => Ok (f k, k).
Definition kmod (f : keyboard -> keyboard) : K unit := fun k => Ok (tt, f k).
Definition smod (f : SYNTH_KEYBOARD_STATE -> SYNTH_KEYBOARD_STATE) : K unit := kmod (fun k => set_State (f (State k)) k).

(** ** Surroundings *)

(** What a notification function may do with the protocols of the device. *)
Inductive op : Type :=
  | OpReset | OpRead | OpReadEx (out : bool) | OpSetState (t : option Z)
  | OpRegister (data : option EFI_KEY_DATA) (fn : Z) (out : bool) | OpUnregister (h : Z) | OpWaitForKey (e : Z).

(** The answers of the boot services and of the EMCL protocol, by time; the
    packets of the host that arrive while the driver waits; and the notification
    functions of the applications. *)
Class KeyboardSystem := {
  AllocateZeroPool_answer : nat -> Z;
  CreateEvent_answer : nat -> EFI_STATUS * Z;
  SetReceiveCallback_answer : nat -> EFI_STATUS;
  StartChannel_answer : nat -> EFI_STATUS;
  SendPacket_answer : nat -> EFI_STATUS;
  WaitForEvent_answer : nat -> EFI_STATUS;
  arrivals : nat -> list (list Z);
  InstallProtocols_answer : nat -> EFI_STATUS;
  UninstallProtocols_answer : nat -> EFI_STATUS;
  OpenProtocol_answer : nat -> EFI_STATUS;
  EmclInstallProtocol_answer : nat -> EFI_STATUS;
  notification : Z -> EFI_KEY_DATA -> list op
}.

(** ** The key buffer *)
Definition KeyBufferInitialize (q : EFI_KEY_BUFFER) : EFI_KEY_BUFFER := mkQueue (Buffer q) 0 0.

Definition buffer_get (q : EFI_KEY_BUFFER) (i : Z) : result EFI_KEY_DATA :=
  if (0 <=? i) && (i <? Zlength (Buffer q)) then match Buffer q !! Z.to_nat i with Some d => Ok d | None => Fault OutOfBounds end else Fault OutOfBounds.
Definition buffer_set (q : EFI_KEY_BUFFER) (i : Z) (d : EFI_KEY_DATA) : result (list EFI_KEY_DATA) :=
  if (0 <=? i) && (i <? Zlength (Buffer q)) then Ok (<[Z.to_nat i := d]> (Buffer q)) else Fault OutOfBounds.

Definition KeyBufferInsert (q : EFI_KEY_BUFFER) (KeyData : EFI_KEY_DATA) : result EFI_KEY_BUFFER :=
  let newTail := u64 (Tail q + 1) mod SYNTHKEY_KEY_BUFFER_SIZE in
  let head := if newTail =? Head q then u64 (Head q + 1) mod SYNTHKEY_KEY_BUFFER_SIZE else Head q in
  b ← buffer_set q (Tail q) KeyData;
  Ok (mkQueue b head newTail).

Definition KeyBufferIsEmpty (q : EFI_KEY_BUFFER) : bool := Head q =? Tail q.

(** The key is copied when the caller gives a place for it. *)
Definition KeyBufferRemove (q : EFI_KEY_BUFFER) (out : bool) : result (EFI_STATUS * option EFI_KEY_DATA * EFI_KEY_BUFFER) :=
  if KeyBufferIsEmpty q then Ok (EFI_NOT_READY, None, q)
  else
    d ← (if out then d ← buffer_get q (Head q); Ok (Some d) else Ok None);
    Ok (EFI_SUCCESS, d, mkQueue (Buffer q) (u64 (Head q + 1) mod SYNTHKEY_KEY_BUFFER_SIZE) (Tail q)).

(** ** Matching *)
Definition KeyNotifyIsPartialKey (k : EFI_INPUT_KEY) : bool := (ScanCode k =? SCAN_NULL) && (UnicodeChar k =? CHAR_NULL).

Definition KeyNotifyIsKeyRegistered (RegisteredData InputData : EFI_KEY_DATA) : bool :=
  if negb (ScanCode (Key RegisteredData) =? ScanCode (Key InputData)) || negb (UnicodeChar (Key RegisteredData) =? UnicodeChar (Key InputData)) then false
  else if negb (KeyShiftState (KeyState RegisteredData) =? 0) && negb (KeyShiftState (KeyState RegisteredData) =? KeyShiftState (KeyState InputData)) then false
  else if negb (KeyToggleState (KeyState RegisteredData) =? 0) && negb (KeyToggleState (KeyState RegisteredData) =? KeyToggleState (KeyState InputData)) then false
  else true.

Section Driver.
Context {B : BuildOptions} {SY : KeyboardSystem}.

(** ** Services *)
Definition AllocateZeroPool : K Z := fun k => Ok (AllocateZeroPool_answer (tick k), next_tick k).
Definition SignalEvent (e : Z) : K unit := kmod (fun k => set_signalled ({[e]} ∪ signalled k) k).
Definition CreateEvent : K (EFI_STATUS * Z) := fun k =>
  let '(st, e) := CreateEvent_answer (tick k) in
  let k := next_tick k in
  if EFI_ERROR st then Ok (st, 0, k) else Ok (st, e, set_events ({[e]} ∪ events k) k).
Definition CloseEvent (e : Z) : K unit := fun k =>
  if bool_decide (e ∈ events k) then Ok (tt, set_signalled (signalled k ∖ {[e]}) (set_events (events k ∖ {[e]}) k)) else Fault UseAfterFree.
Definition answer (f : nat -> EFI_STATUS) : K EFI_STATUS := fun k => Ok (f (tick k), next_tick k).

(** ** Messages to the host *)
Definition HkMessageProtocolRequest : Z := 1.
Definition HkMessageProtocolResponse : Z := 2.
Definition HkMessageEvent : Z := 3.
Definition HkMessageSetLedIndicators : Z := 4.
Definition HK_VERSION_WIN8 : Z := Z.lor (Z.shiftl 1 16) 0.
Definition sizeof_HK_MESSAGE_HEADER : Z := 4.
Definition sizeof_HK_MESSAGE_PROTOCOL_RESPONSE : Z := 8.
Definition sizeof_HK_MESSAGE_KEYSTROKE : Z := 12.

Definition SynthKeyChannelSendMessage (Message : list Z) : K EFI_STATUS :=
  open ← kget (fun k => ChannelOpen (State k));
  _ ← klift (ASSERT open);
  status ← answer SendPacket_answer;
  _ ← (if EFI_ERROR status then mret tt else kmod (fun k => set_sent (sent k ++ [Message]) k));
  mret status.

Definition SynthKeyChannelSetIndicators : K EFI_STATUS :=
  open ← kget (fun k => ChannelOpen (State k));
  _ ← klift (ASSERT open);
  t ← kget (fun k => toggle_of (State k));
  let flags := Z.land t (Z.lor (Z.lor EFI_SCROLL_LOCK_ACTIVE EFI_NUM_LOCK_ACTIVE) EFI_CAPS_LOCK_ACTIVE) in
  SynthKeyChannelSendMessage (le_split 4 HkMessageSetLedIndicators ++ le_split 2 flags ++ [0; 0]).

(** ** The text input protocols *)
Definition SimpleTextInDequeueKey (out : bool) : K (EFI_STATUS * option EFI_KEY_DATA) :=
  connected ← kget (fun k => ChannelConnected (State k));
  if negb connected then mret (EFI_DEVICE_ERROR, None)
  else
    q ← kget EfiKeyQueue;
    '(status, d, q) ← klift (KeyBufferRemove q out);
    _ ← kmod (set_EfiKeyQueue q);
    mret (status, d).

Definition SimpleTextInReset : K EFI_STATUS :=
  connected ← kget (fun k => ChannelConnected (State k));
  let status := if negb connected then EFI_DEVICE_ERROR else EFI_SUCCESS in
  _ ← kmod (fun k => set_EfiKeyQueue (KeyBufferInitialize (EfiKeyQueue k)) k);
  _ ← smod (set_KeyState (mkKeyState EFI_SHIFT_STATE_VALID EFI_TOGGLE_STATE_VALID));
  mret status.
Definition SimpleTextInResetEx : K EFI_STATUS := SimpleTextInReset.

(** The loops that drop partial keys; the buffer bounds them. *)
Definition drop_fuel : nat := Z.to_nat SYNTHKEY_KEY_BUFFER_SIZE.
Fixpoint read_loop (n : nat) : K (EFI_STATUS * option EFI_INPUT_KEY) :=
  match n with
  | O => klift (Fault Diverges)
  | S n =>
    '(status, d) ← SimpleTextInDequeueKey true;
    if EFI_ERROR status then mret (status, None)
    else match d with
    | Some d => if negb (KeyNotifyIsPartialKey (Key d)) then mret (status, Some (Key d)) else read_loop n
    | None => klift (Fault NullDeref)
    end
  end.
Definition SimpleTextInReadKeyStroke : K (EFI_STATUS * option EFI_INPUT_KEY) := read_loop drop_fuel.

Definition SimpleTextInReadKeyStrokeEx (out : bool) : K (EFI_STATUS * option EFI_KEY_DATA) :=
  if negb out then mret (EFI_INVALID_PARAMETER, None) else SimpleTextInDequeueKey true.

Fixpoint wait_loop (n : nat) (Event : Z) : K unit :=
  match n with
  | O => klift (Fault Diverges)
  | S n =>
    q ← kget EfiKeyQueue;
    if KeyBufferIsEmpty q then mret tt
    else
      d ← klift (buffer_get q (Head q));
      if negb (KeyNotifyIsPartialKey (Key d)) then SignalEvent Event
      else
        '(_, _, q) ← klift (KeyBufferRemove q false);
        _ ← kmod (set_EfiKeyQueue q);
        wait_loop n Event
  end.
Definition SimpleTextInWaitForKey (Event : Z) : K unit :=
  connected ← kget (fun k => ChannelConnected (State k));
  if negb connected then mret tt else wait_loop drop_fuel Event.
Definition SimpleTextInWaitForKeyEx (Event : Z) : K unit := SimpleTextInWaitForKey Event.

Definition SimpleTextInSetState (KeyToggleState : option Z) : K EFI_STATUS :=
  match KeyToggleState with
  | None => mret EFI_INVALID_PARAMETER
  | Some t =>
    if negb (Z.land t EFI_TOGGLE_STATE_VALID =? EFI_TOGGLE_STATE_VALID) then mret EFI_UNSUPPORTED
    else
      connected ← kget (fun k => ChannelConnected (State k));
      if negb connected then mret EFI_DEVICE_ERROR
      else
        _ ← smod (set_toggle t);
        status ← SynthKeyChannelSetIndicators;
        mret (if EFI_ERROR status then EFI_DEVICE_ERROR else status)
  end.

(** ** Notifications *)
Definition notify_at (p : Z) : K SYNTH_KEYBOARD_EX_NOTIFY := fun k =>
  match notifies k !! p with Some n => Ok (n, k) | None => Fault UseAfterFree end.
(** The list, which must have been initialised. *)
Definition notify_list : K (list Z) := fun k => match NotifyList k with Some l => Ok (l, k) | None => Fault NullDeref end.

(** An existing registration for the same keys and function. *)
Fixpoint find_registered (l : list Z) (data : EFI_KEY_DATA) (fn : Z) : K (option Z) :=
  match l with
  | [] => mret None
  | p :: l =>
    n ← notify_at p;
    if KeyNotifyIsKeyRegistered (NotifyKeyData n) data && (KeyNotificationFn n =? fn) then mret (Some (NotifyHandle n)) else find_registered l data fn
  end.

(** The result is the status and [*NotifyHandle]. *)
Definition SimpleTextInRegisterKeyNotify (KeyData : option EFI_KEY_DATA) (fn : Z) (out : bool) : K (EFI_STATUS * Z) :=
  match KeyData with
  | Some data =>
    if negb out || (fn =? 0) then mret (EFI_INVALID_PARAMETER, 0)
    else
      l ← notify_list;
      found ← find_registered l data fn;
      match found with
      | Some h => mret (EFI_SUCCESS, h)
      | None =>
        p ← AllocateZeroPool;
        if p =? 0 then mret (EFI_OUT_OF_RESOURCES, 0)
        else
          _ ← kmod (fun k => set_notifies (<[p := mkNotify p fn data]> (notifies k)) (set_NotifyList (Some (l ++ [p])) k));
          mret (EFI_SUCCESS, p)
      end
  | None => mret (EFI_INVALID_PARAMETER, 0)
  end.

Fixpoint find_handle (l : list Z) (h : Z) : K (option Z) :=
  match l with
  | [] => mret None
  | p :: l => n ← notify_at p; if NotifyHandle n =? h then mret (Some p) else find_handle l h
  end.

(** The handle is dereferenced to read its signature, which every notification has. *)
Definition SimpleTextInUnregisterKeyNotify (NotificationHandle : Z) : K EFI_STATUS :=
  if NotificationHandle =? 0 then mret EFI_INVALID_PARAMETER
  else
    _ ← notify_at NotificationHandle;
    l ← notify_list;
    found ← find_handle l NotificationHandle;
    match found with
    | Some p =>
      _ ← kmod (fun k => set_notifies (delete p (notifies k)) (set_NotifyList (Some (filter (fun x => x <> p) l)) k));
      mret EFI_SUCCESS
    | None => mret EFI_INVALID_PARAMETER
    end.

(** What a notification function does. *)
Definition run_op (o : op) : K unit :=
  match o with
  | OpReset => SimpleTextInResetEx;; mret tt
  | OpRead => SimpleTextInReadKeyStroke;; mret tt
  | OpReadEx out => SimpleTextInReadKeyStrokeEx out;; mret tt
  | OpSetState t => SimpleTextInSetState t;; mret tt
  | OpRegister data fn out => SimpleTextInRegisterKeyNotify data fn out;; mret tt
  | OpUnregister h => SimpleTextInUnregisterKeyNotify h;; mret tt
  | OpWaitForKey e => SimpleTextInWaitForKey e
  end.
Fixpoint run_ops (os : list op) : K unit := match os with [] => mret tt | o :: os => run_op o;; run_ops os end.

(** The entry behind [p]; reading [p]'s link requires that it still exists. *)
Fixpoint next_in (l : list Z) (p : Z) : option Z :=
  match l with x :: ((y :: _) as l') => if x =? p then Some y else next_in l' p | _ => None end.
Definition next_link (p : Z) : K (option Z) := _ ← notify_at p; l ← notify_list; mret (next_in l p).

Fixpoint fire_loop (n : nat) (link : option Z) (pKey : EFI_KEY_DATA) : K unit :=
  match n with
  | O => klift (Fault Diverges)
  | S n =>
    match link with
    | None => mret tt
    | Some p =>
      notify ← notify_at p;
      _ ← (if KeyNotifyIsKeyRegistered (NotifyKeyData notify) pKey then
             _ ← kmod (fun k => set_notified (notified k ++ [(KeyNotificationFn notify, pKey)]) k);
             run_ops (notification (KeyNotificationFn notify) pKey)
           else mret tt);
      link ← next_link p;
      fire_loop n link pKey
    end
  end.
(** Fuel for the notifications there are and for 4096 more that functions add
    while they run (a function that registers others for the same key can keep the
    loop of the code going for ever). *)
Definition fire_fuel (l : list Z) : nat := S (length l + 4096).
Definition KeyNotifyFire (pKey : EFI_KEY_DATA) : K unit := l ← notify_list; fire_loop (fire_fuel l) (head l) pKey.

Definition SimpleTextInQueueKey (k : EFI_KEY_DATA) : K unit :=
  s ← kget (fun d => shift_of (State d));
  _ ← (if EFI_KEY_CTRL_ACTIVE s && EFI_KEY_ALT_ACTIVE s && (ScanCode (Key k) =? SCAN_DELETE)
       then kmod (fun d => set_resets (S (resets d)) d) else mret tt);
  _ ← KeyNotifyFire k;
  q ← kget EfiKeyQueue;
  q ← klift (KeyBufferInsert q k);
  kmod (set_EfiKeyQueue q).

(** ** Messages of the host *)
Definition load (w : nat) (m : list Z) (off : Z) : result Z := bs ← mem_read m off (Z.of_nat w); Ok (le_combine bs).

Definition OnProtocolResponse (m : list Z) : K EFI_STATUS :=
  t ← klift (load 4 m 0);
  _ ← klift (ASSERT (t =? HkMessageProtocolResponse));
  w ← klift (load 4 m 4);
  _ ← (if Z.testbit w 0 then smod (set_ChannelConnected true) else mret tt);
  e ← kget InitCompleteEvent;
  _ ← SignalEvent e;
  mret EFI_SUCCESS.

(** The flags are bit fields of a word of their own, behind the make code. *)
Definition load_keystroke (m : list Z) : result HK_MESSAGE_KEYSTROKE :=
  code ← load 2 m 4;
  w ← load 4 m 8;
  Ok (mkStroke code (Z.testbit w 0) (Z.testbit w 1) (Z.testbit w 2) (Z.testbit w 3)).

Definition OnMessageEvent (m : list Z) : K EFI_STATUS :=
  t ← klift (load 4 m 0);
  _ ← klift (ASSERT (t =? HkMessageEvent));
  raw ← klift (load_keystroke m);
  s ← kget State;
  let '(changeType, s) := SynthKeyLayoutUpdateKeyState raw s in
  _ ← kmod (set_State s);
  match changeType with
  | KeyChangeNone =>
    s ← kget State;
    let '(status, keyData) := SynthKeyLayoutTranslateKey raw s in
    _ ← (if EFI_ERROR status then mret tt else SimpleTextInQueueKey keyData);
    mret status
  | _ =>
    _ ← (match changeType with KeyChangeToggle => SynthKeyChannelSetIndicators;; mret tt | _ => mret tt end);
    s ← kget State;
    _ ← (if TEST_FLAGS (toggle_of s) EFI_KEY_STATE_EXPOSED then SimpleTextInQueueKey (mkKeyData (mkKey 0 0) (KeyState_ s)) else mret tt);
    mret EFI_SUCCESS
  end.

Definition SynthKeyChannelReceivePacketCallback (m : list Z) (BufferLength : Z) : K unit :=
  _ ← klift (ASSERT (sizeof_HK_MESSAGE_HEADER <? BufferLength));
  t ← klift (load 4 m 0);
  _ ← (if t =? HkMessageProtocolResponse then
         klift (ASSERT (sizeof_HK_MESSAGE_PROTOCOL_RESPONSE <=? BufferLength));; OnProtocolResponse m;; mret tt
       else if t =? HkMessageEvent then
         klift (ASSERT (sizeof_HK_MESSAGE_KEYSTROKE <=? BufferLength));; OnMessageEvent m;; mret tt
       else klift (ASSERT false));
  kmod (fun k => set_completed (S (completed k)) k).

Fixpoint deliver (ms : list (list Z)) : K unit :=
  match ms with [] => mret tt | m :: ms => SynthKeyChannelReceivePacketCallback m (Zlength m);; deliver ms end.

(** [WaitForEvent] while packets arrive; it does not return before the event is
    signalled. *)
Definition WaitForEvent (e : Z) : K EFI_STATUS := 
  t ← kget tick;
  _ ← kmod next_tick;
  let status := WaitForEvent_answer t in
  _ ← deliver (arrivals t);
  s ← kget signalled;
  if EFI_ERROR status then mret status
  else if bool_decide (e ∈ s) then kmod (set_signalled (s ∖ {[e]}));; mret status else klift (Fault Diverges).

(** ** The channel *)
Definition SynthKeyChannelClose : K EFI_STATUS :=
  emcl ← kget Emcl;
  _ ← klift (ASSERT emcl);
  open ← kget (fun k => ChannelOpen (State k));
  _ ← (if (open : bool) then
         (if negb emcl then klift (Fault NullDeref) else mret tt);;
         smod (set_ChannelOpen false);; smod (set_ChannelConnected false)
       else mret tt);
  e ← kget InitCompleteEvent;
  _ ← (if e =? 0 then mret tt else CloseEvent e;; kmod (set_InitCompleteEvent 0));
  mret EFI_SUCCESS.

Definition SynthKeyChannelEstablishCommunications : K EFI_STATUS :=
  let request := le_split 4 HkMessageProtocolRequest ++ le_split 4 HK_VERSION_WIN8 in
  '(status, e) ← CreateEvent;
  if EFI_ERROR status then mret status
  else
    _ ← kmod (set_InitCompleteEvent e);
    status ← SynthKeyChannelSendMessage request;
    if EFI_ERROR status then mret status
    else
      status ← WaitForEvent e;
      if EFI_ERROR status then mret status
      else
        connected ← kget (fun k => ChannelConnected (State k));
        mret (if negb connected then EFI_NOT_READY else status).

Definition SynthKeyChannelOpen : K EFI_STATUS :=
  emcl ← kget Emcl;
  _ ← klift (ASSERT emcl);
  open ← kget (fun k => ChannelOpen (State k));
  _ ← klift (ASSERT (negb open));
  _ ← smod (set_ChannelConnected false);
  _ ← (if negb emcl then klift (Fault NullDeref) else mret tt);
  status ← answer SetReceiveCallback_answer;
  status ← (if EFI_ERROR status then mret status
            else
              status ← answer StartChannel_answer;
              if EFI_ERROR status then mret status
              else smod (set_ChannelOpen true);; SynthKeyChannelEstablishCommunications);
  _ ← (if EFI_ERROR status then SynthKeyChannelClose;; mret tt else mret tt);
  mret status.

(** ** Setting up and taking down *)

(** [IsListEmpty] and [RemoveEntryList] need an initialised head. *)
Fixpoint cleanup_loop (l : list Z) : K unit :=
  match l with
  | [] => kmod (set_NotifyList (Some []))
  | p :: l => _ ← notify_at p; _ ← kmod (fun k => set_notifies (delete p (notifies k)) (set_NotifyList (Some l) k)); cleanup_loop l
  end.
Definition KeyNotifyCleanup : K unit := l ← notify_list; cleanup_loop l.

Definition SimpleTextInCleanup : K unit :=
  installed ← kget (fun k => SimpleTextInstalled (State k));
  status ← (if (installed : bool) then
              status ← answer UninstallProtocols_answer;
              if EFI_ERROR status then mret status else smod (set_SimpleTextInstalled false);; mret status
            else mret EFI_SUCCESS);
  if EFI_ERROR status then mret tt
  else
    status ← SynthKeyChannelClose;
    if EFI_ERROR status then mret tt
    else
      e ← kget WaitForKey;
      _ ← (if e =? 0 then mret tt else CloseEvent e;; kmod (set_WaitForKey 0));
      e ← kget WaitForKeyEx;
      _ ← (if e =? 0 then mret tt else CloseEvent e;; kmod (set_WaitForKeyEx 0));
      KeyNotifyCleanup.

Definition text_setup : K EFI_STATUS :=
  _ ← kmod (set_NotifyList (Some []));
  '(status, e) ← CreateEvent;
  if EFI_ERROR status then mret status
  else
    _ ← kmod (set_WaitForKey e);
    '(status, e) ← CreateEvent;
    if EFI_ERROR status then mret status
    else
      _ ← kmod (set_WaitForKeyEx e);
      _ ← SimpleTextInReset;
      status ← SynthKeyChannelOpen;
      if EFI_ERROR status then mret status
      else
        status ← answer InstallProtocols_answer;
        if EFI_ERROR status then mret status
        else smod (set_SimpleTextInstalled true);; mret status.

Definition SimpleTextInInitialize : K EFI_STATUS :=
  status ← text_setup;
  _ ← (if EFI_ERROR status then SimpleTextInCleanup else mret tt);
  mret status.

(** ** The driver binding *)

(** A field of the device structure is read. *)
Definition touch_device : K unit := fun k => if allocated k then Ok (tt, k) else Fault UseAfterFree.

Definition SynthKeyDriverCleanup : K unit :=
  _ ← SimpleTextInCleanup;
  _ ← kmod (set_DevicePath false);
  _ ← kmod (set_Emcl false);
  kmod (set_allocated false).

Definition zero_buffer : EFI_KEY_BUFFER := mkQueue (replicate (Z.to_nat SYNTHKEY_KEY_BUFFER_SIZE) zero_key) 0 0.
(** [AllocateZeroPool] of the device structure. *)
Definition fresh_device (k : keyboard) : keyboard :=
  mkKeyboard (mkState (mkKeyState 0 0) false false false false) zero_buffer None 0 0 0 false false true (emcl_installed k)
    (notifies k) (events k) (signalled k) (sent k) (completed k) (resets k) (notified k) (tick k).

Definition device_setup : K EFI_STATUS :=
  status ← answer OpenProtocol_answer;
  if EFI_ERROR status then mret status
  else
    _ ← kmod (set_DevicePath true);
    status ← answer OpenProtocol_answer;
    if EFI_ERROR status then mret status
    else kmod (set_Emcl true);; SimpleTextInInitialize.

Definition SynthKeyDriverStart : K EFI_STATUS :=
  status ← answer EmclInstallProtocol_answer;
  if EFI_ERROR status then mret status
  else
    _ ← kmod (set_emcl_installed true);
    p ← AllocateZeroPool;
    if p =? 0 then klift (Fault NullDeref)
    else
      _ ← kmod fresh_device;
      status ← device_setup;
      if EFI_ERROR status then
        _ ← SynthKeyDriverCleanup;
        _ ← touch_device;
        _ ← kmod (set_emcl_installed false);
        mret status
      else mret status.

Definition SynthKeyDriverStop : K EFI_STATUS :=
  status ← answer OpenProtocol_answer;
  if EFI_ERROR status then mret status
  else
    status ← answer OpenProtocol_answer;
    if EFI_ERROR status then mret status
    else
      _ ← touch_device;
      _ ← SynthKeyDriverCleanup;
      _ ← kmod (set_emcl_installed false);
      mret EFI_SUCCESS.
End Driver.
End SynthKey.
