(* ===== verification/SynthKeyBuffer.v ===== *)
(** The key buffer of the synthetic keyboard and the two ways of reading it: the
    ring of 256 slots behaves as a queue of at most 255 keys that forgets the oldest
    key when it is full. *)
From Stdlib Require Import ssreflect ZArith Lia.
From stdpp Require Import base list numbers list_numbers option gmap.
From S2P Require Import Prelude SynthKeyLayout SynthKey.
Open Scope Z_scope.

Module SynthKeyBuffer.
Import SynthKeyLayout SynthKey.

(** ** The queue a buffer stands for *)
Definition slot (b : list EFI_KEY_DATA) (j : Z) : EFI_KEY_DATA := default zero_key (b !! Z.to_nat (j mod 256)).
Definition ring (b : list EFI_KEY_DATA) (h : Z) (n : nat) : list EFI_KEY_DATA := (fun i => slot b (h + Z.of_nat i)) <$> seq 0 n.
Definition count (q : EFI_KEY_BUFFER) : nat := Z.to_nat ((Tail q - Head q) mod 256).
Definition keys_of (q : EFI_KEY_BUFFER) : list EFI_KEY_DATA := ring (Buffer q) (Head q) (count q).
Definition wf_queue (q : EFI_KEY_BUFFER) : Prop := length (Buffer q) = 256%nat /\ 0 <= Head q < 256 /\ 0 <= Tail q < 256.

(** The specification: a queue that keeps the newest 255 keys. *)
Definition newest (ks : list EFI_KEY_DATA) : list EFI_KEY_DATA := drop (length ks - 255) ks.
Definition enqueue (ks : list EFI_KEY_DATA) (d : EFI_KEY_DATA) : list EFI_KEY_DATA := newest (ks ++ [d]).

(** ** Rings *)
Lemma ring_front b h n : ring b h (S n) = slot b h :: ring b (h + 1) n.
Proof.
  rw /ring -cons_seq fmap_cons Z.add_0_r -fmap_S_seq -list_fmap_compose. f_equal. apply list_fmap_ext. intros i x _. simpl. f_equal. lia.
Qed.

Lemma ring_back b h n : ring b h (S n) = ring b h n ++ [slot b (h + Z.of_nat n)].
Proof. by rw /ring seq_S fmap_app. Qed.

Lemma ring_mod b h n : ring b (h mod 256) n = ring b h n.
Proof.
  apply list_fmap_ext. intros i x _. rw /slot. do 3 f_equal. apply Zplus_mod_idemp_l.
Qed.

Lemma ring_set b h n j d : 0 <= j < 256 -> (forall i, (i < n)%nat -> (h + Z.of_nat i) mod 256 <> j) ->
  ring (<[Z.to_nat j := d]> b) h n = ring b h n.
Proof.
  intros Hj H. apply list_fmap_ext. intros i x Hi. apply lookup_seq in Hi as [-> Hi].
  rw /slot list_lookup_insert_ne //. specialize (H i Hi).
  pose proof (Z.mod_pos_bound (h + Z.of_nat i) 256 ltac:(lia)). simpl. lia.
Qed.

Lemma ring_length b h n : length (ring b h n) = n.
Proof. by rw /ring length_fmap length_seq. Qed.

Lemma slot_set b t j d : length b = 256%nat -> 0 <= t < 256 -> j mod 256 = t -> slot (<[Z.to_nat t := d]> b) j = d.
Proof. intros L H E. rw /slot E list_lookup_insert_eq //. lia. Qed.

Lemma keys_length q : length (keys_of q) = count q.
Proof. apply ring_length. Qed.

Lemma count_bound q : (count q <= 255)%nat.
Proof. rw /count. pose proof (Z.mod_pos_bound (Tail q - Head q) 256 ltac:(lia)). lia. Qed.

Lemma next_index i : 0 <= i < 256 -> u64 (i + 1) mod SYNTHKEY_KEY_BUFFER_SIZE = (i + 1) mod 256.
Proof. intros H. rw /u64 (Z.mod_small (i + 1) (2 ^ 64)) //. lia. Qed.

Lemma newest_short ks : (length ks <= 255)%nat -> newest ks = ks.
Proof. intros H. rw /newest. replace (length ks - 255)%nat with 0%nat by lia. done. Qed.

Lemma newest_full x ks d : length ks = 254%nat -> newest ((x :: ks) ++ [d]) = ks ++ [d].
Proof. intros H. rw /newest /= length_app H //. Qed.

Lemma newest_idem ks l : newest (newest ks ++ l) = newest (ks ++ l).
Proof.
  rw /newest. destruct (decide (length ks <= 255)%nat) as [H|H].
  - by replace (length ks - 255)%nat with 0%nat by lia.
  - rw -drop_app_le; first lia.
    rw drop_drop length_drop !length_app. f_equal. lia.
Qed.

(** ** The buffer *)
Lemma in_range i : 0 <= i < 256 -> (0 <=? i) && (i <? Z.of_nat 256) = true.
Proof. intros [H1 H2]. apply andb_true_iff. split; [by apply Z.leb_le | apply Z.ltb_lt; lia]. Qed.

Lemma get_head q : wf_queue q -> buffer_get q (Head q) = Ok (slot (Buffer q) (Head q)).
Proof.
  intros (L & Hh & _). rw /buffer_get. rw /Zlength L.
  rw in_range //.
  rw /slot Z.mod_small //.
  destruct (lookup_lt_is_Some_2 (Buffer q) (Z.to_nat (Head q))) as [d ->]; [lia|done].
Qed.

Lemma empty_keys q : wf_queue q -> KeyBufferIsEmpty q = true <-> keys_of q = [].
Proof.
  intros (L & Hh & Ht). rw /KeyBufferIsEmpty Z.eqb_eq -length_zero_iff_nil keys_length /count.
  pose proof (Z.mod_pos_bound (Tail q - Head q) 256 ltac:(lia)).
  split; [intros ->; by rw Z.sub_diag | intros E].
  assert (H0 : (Tail q - Head q) mod 256 = 0) by lia. Z.div_mod_to_equations. lia.
Qed.

Lemma empty_keys_false q : wf_queue q -> keys_of q <> [] -> KeyBufferIsEmpty q = false.
Proof. intros W N. apply not_true_is_false. by rw empty_keys. Qed.

(** A key that is inserted. *)
Lemma insert_keys q d : wf_queue q -> exists q', KeyBufferInsert q d = Ok q' /\ wf_queue q' /\ keys_of q' = enqueue (keys_of q) d.
Proof.
  intros (L & Hh & Ht). rw /KeyBufferInsert /buffer_set /Zlength L !next_index //.
  rw in_range //.
  eexists; split; [reflexivity|]. split.
  { split; [by rw length_insert|]. simpl. split; [|apply Z.mod_pos_bound; lia].
    destruct (_ =? _); [apply Z.mod_pos_bound|]; lia. }
  pose proof (count_bound q). rw /keys_of /enqueue. simpl.
  destruct (Z.eqb_spec ((Tail q + 1) mod 256) (Head q)) as [F|F].
  - assert (C : count q = 255%nat) by (rw /count; Z.div_mod_to_equations; lia).
    replace (count _) with 255%nat by (rw /count /=; Z.div_mod_to_equations; lia).
    rw C ring_mod ring_back (ring_front _ (Head q)) newest_full ?ring_length //.
    f_equal; [apply ring_set; [done|intros i Hi; Z.div_mod_to_equations; lia]|].
    f_equal. apply slot_set; [done..|]. Z.div_mod_to_equations; lia.
  - assert (C : (count q < 255)%nat) by (rw /count; Z.div_mod_to_equations; lia).
    replace (count _) with (S (count q)) at 1 by (rw /count /=; Z.div_mod_to_equations; lia).
    rw ring_back newest_short; [by rw length_app ring_length /=; lia|].
    assert (D : Z.of_nat (count q) = (Tail q - Head q) mod 256) by (rw /count; Z.div_mod_to_equations; lia).
    f_equal; [apply ring_set; [done|intros i Hi; Z.div_mod_to_equations; lia]|].
    f_equal. apply slot_set; [done..|]. rw D. Z.div_mod_to_equations; lia.
Qed.

(** A key that is removed. *)
Lemma remove_none q out : wf_queue q -> keys_of q = [] -> KeyBufferRemove q out = Ok (EFI_NOT_READY, None, q).
Proof. intros W E. rw /KeyBufferRemove. by apply (empty_keys q W) in E as ->. Qed.

Definition popped (q : EFI_KEY_BUFFER) : EFI_KEY_BUFFER := mkQueue (Buffer q) ((Head q + 1) mod 256) (Tail q).
Lemma popped_ok q d ks : wf_queue q -> keys_of q = d :: ks -> wf_queue (popped q) /\ keys_of (popped q) = ks /\ slot (Buffer q) (Head q) = d.
Proof.
  intros (L & Hh & Ht) E.
  assert (C : count q = S (length ks)) by (rw -keys_length E //).
  split; [split_and!; simpl; try lia; apply Z.mod_pos_bound; lia|].
  revert E. rw /keys_of C ring_front. intros [= -> E]. split; [|done]. rw -E. simpl. rw ring_mod. f_equal.
  revert C. rw /count /=. Z.div_mod_to_equations; lia.
Qed.

Lemma remove_some q d ks out : wf_queue q -> keys_of q = d :: ks ->
  KeyBufferRemove q out = Ok (EFI_SUCCESS, if out then Some d else None, popped q).
Proof.
  intros W E. destruct (popped_ok q d ks W E) as (_ & _ & S).
  rw /KeyBufferRemove empty_keys_false ?E //. rw next_index; [apply W|].
  destruct out; [rw get_head // S|]; done.
Qed.

Lemma initialize_keys q : wf_queue q -> wf_queue (KeyBufferInitialize q) /\ keys_of (KeyBufferInitialize q) = [].
Proof. intros (L & _). split; [split_and!; simpl; lia | done]. Qed.

(** ** Sequences of operations *)
Inductive qop : Type := QInsert (d : EFI_KEY_DATA) | QRemove | QReset.

Fixpoint run_queue (os : list qop) (q : EFI_KEY_BUFFER) : result (list (EFI_STATUS * option EFI_KEY_DATA) * EFI_KEY_BUFFER) :=
  match os with
  | [] => Ok ([], q)
  | QInsert d :: os => q ← KeyBufferInsert q d; run_queue os q
  | QReset :: os => run_queue os (KeyBufferInitialize q)
  | QRemove :: os => '(st, d, q) ← KeyBufferRemove q true; '(rs, q) ← run_queue os q; Ok ((st, d) :: rs, q)
  end.

Fixpoint spec_queue (os : list qop) (ks : list EFI_KEY_DATA) : list (EFI_STATUS * option EFI_KEY_DATA) * list EFI_KEY_DATA :=
  match os with
  | [] => ([], ks)
  | QInsert d :: os => spec_queue os (enqueue ks d)
  | QReset :: os => spec_queue os []
  | QRemove :: os =>
    let r := match ks with [] => (EFI_NOT_READY, None) | d :: _ => (EFI_SUCCESS, Some d) end in
    let '(rs, ks) := spec_queue os (tail ks) in (r :: rs, ks)
  end.

(** C36. The key buffer is a bounded queue.  Whatever keys are inserted, removed
    and reset, in any order and number, on a buffer with its indices in range, no
    operation leaves the array, and removing answers as a queue of at most 255 keys
    that forgets its oldest key to make room: the keys come out oldest first, and
    EFI_NOT_READY exactly when there is none. *)
Theorem key_queue_refines os q : wf_queue q ->
  exists q', run_queue os q = Ok (fst (spec_queue os (keys_of q)), q') /\ wf_queue q' /\ keys_of q' = snd (spec_queue os (keys_of q)).
Proof.
  revert q. induction os as [|[d| |] os IH]; intros q W; simpl.
  - eauto.
  - destruct (insert_keys q d W) as (q1 & -> & W1 & <-). exact (IH q1 W1).
  - destruct (keys_of q) as [|d ks] eqn:E.
    + rw remove_none //=. destruct (IH q W) as (q' & -> & W' & E'). rw E in E' |- *. simpl. destruct (spec_queue os []); eauto.
    + rw (remove_some q d ks) //=. destruct (popped_ok q d ks W E) as (W1 & E1 & _).
      destruct (IH _ W1) as (q' & -> & W' & E'). rw E1 in E' |- *. simpl. destruct (spec_queue os ks); eauto.
  - destruct (initialize_keys q W) as [W1 E1]. destruct (IH _ W1) as (q' & H). rw E1 in H. eauto.
Qed.

(** ** Reading *)
Fixpoint skip_partial (ks : list EFI_KEY_DATA) : list EFI_KEY_DATA :=
  match ks with [] => [] | d :: ks' => if KeyNotifyIsPartialKey (Key d) then skip_partial ks' else ks end.

Section Reading.
Context {B : BuildOptions} {SY : KeyboardSystem}.

Definition read_result (ks : list EFI_KEY_DATA) : EFI_STATUS * option EFI_INPUT_KEY :=
  match skip_partial ks with [] => (EFI_NOT_READY, None) | d :: _ => (EFI_SUCCESS, Some (Key d)) end.

(** The device with another queue. *)
Definition queue_becomes (k k' : keyboard) (ks : list EFI_KEY_DATA) : Prop :=
  exists q, k' = set_EfiKeyQueue q k /\ wf_queue q /\ keys_of q = ks.

Lemma dequeue_keys k : ChannelConnected (State k) = true -> wf_queue (EfiKeyQueue k) ->
  exists k', SimpleTextInDequeueKey true k =
      Ok (match keys_of (EfiKeyQueue k) with [] => (EFI_NOT_READY, None) | d :: _ => (EFI_SUCCESS, Some d) end, k')
    /\ queue_becomes k k' (tail (keys_of (EfiKeyQueue k))).
Proof.
  intros C W. rw /SimpleTextInDequeueKey /mbind /K_bind /kget C /=.
  destruct (keys_of (EfiKeyQueue k)) as [|d ks] eqn:E.
  - rw remove_none //=. eexists; split; [done|]. by exists (EfiKeyQueue k).
  - rw (remove_some _ d ks) //=. eexists; split; [done|]. exists (popped (EfiKeyQueue k)).
    by destruct (popped_ok _ d ks W E) as (? & ? & _).
Qed.

Lemma read_loop_keys n k : ChannelConnected (State k) = true -> wf_queue (EfiKeyQueue k) -> (count (EfiKeyQueue k) < n)%nat ->
  exists k', read_loop n k = Ok (read_result (keys_of (EfiKeyQueue k)), k')
    /\ queue_becomes k k' (tail (skip_partial (keys_of (EfiKeyQueue k)))).
Proof.
  revert k. induction n as [|n IH]; intros k C W L; [lia|].
  destruct (dequeue_keys k C W) as (k1 & D & q & -> & Wq & Eq).
  simpl. rw {1}/mbind /K_bind D. rw -keys_length in L. rw /read_result.
  destruct (keys_of (EfiKeyQueue k)) as [|d ks] eqn:E; simpl in *.
  { eexists; split; [done|]. by exists q. }
  destruct (KeyNotifyIsPartialKey (Key d)); simpl.
  - destruct (IH (set_EfiKeyQueue q k) C Wq) as (k' & R & q' & -> & H); [rw -keys_length /= Eq; lia|].
    simpl in *. rw Eq in R H. eexists; split; [exact R|]. by exists q'.
  - eexists; split; [done|]. by exists q.
Qed.

(** Reading returns with the oldest key that is not partial, and drops the partial
    keys before it; when there is none, with EFI_NOT_READY. *)
Lemma read_skips_partial k : ChannelConnected (State k) = true -> wf_queue (EfiKeyQueue k) ->
  exists k', SimpleTextInReadKeyStroke k = Ok (read_result (keys_of (EfiKeyQueue k)), k')
    /\ queue_becomes k k' (tail (skip_partial (keys_of (EfiKeyQueue k)))).
Proof. intros C W. apply read_loop_keys; [done..|]. pose proof (count_bound (EfiKeyQueue k)). rw /drop_fuel /SYNTHKEY_KEY_BUFFER_SIZE. lia. Qed.

(** Waiting signals exactly when a key could be read, and drops the partial keys. *)
Definition wait_result (e : Z) (ks : list EFI_KEY_DATA) (k : keyboard) : keyboard :=
  match skip_partial ks with [] => k | _ => set_signalled ({[e]} ∪ signalled k) k end.

Lemma wait_loop_keys n e k : wf_queue (EfiKeyQueue k) -> (count (EfiKeyQueue k) < n)%nat ->
  exists k', wait_loop n e k = Ok (tt, k')
    /\ queue_becomes (wait_result e (keys_of (EfiKeyQueue k)) k) k' (skip_partial (keys_of (EfiKeyQueue k))).
Proof.
  revert k. induction n as [|n IH]; intros k W L; [lia|].
  simpl. rw /mbind /K_bind /kget. rw -keys_length in L. rw /wait_result.
  destruct (keys_of (EfiKeyQueue k)) as [|d ks] eqn:E; simpl in *.
  { apply (empty_keys _ W) in E as E'. rw E'. eexists; split; [done|]. by exists (EfiKeyQueue k); destruct k. }
  rw empty_keys_false ?E // get_head //=. destruct (popped_ok _ d ks W E) as (Wp & Ep & ->).
  destruct (KeyNotifyIsPartialKey (Key d)); simpl.
  - rw (remove_some _ d ks) //=. destruct (IH (set_EfiKeyQueue (popped (EfiKeyQueue k)) k) Wp) as (k' & R & q' & -> & H); [rw -keys_length /= Ep; lia|].
    simpl in *. rw Ep in R H. eexists; split; [exact R|]. exists q'. split; [|done]. rw /wait_result. by destruct (skip_partial ks).
  - eexists; split; [done|]. by exists (EfiKeyQueue k); destruct k.
Qed.
End Reading.
End SynthKeyBuffer.
