(* ===== verification/SynthKeyTyping.v ===== *)
(** The layout of the synthetic keyboard: which keys are held and which locks are
    on after a sequence of keystrokes, and what the letters translate to. *)
From Stdlib Require Import ssreflect String ZArith Lia.
From stdpp Require Import base list numbers list_numbers option.
From S2P Require Import Prelude SynthKeyLayout.
Open Scope Z_scope.

Module SynthKeyTyping.
Import SynthKeyLayout.

(** ** Held keys *)
Definition step (s : SYNTH_KEYBOARD_STATE) (r : HK_MESSAGE_KEYSTROKE) : SYNTH_KEYBOARD_STATE := snd (SynthKeyLayoutUpdateKeyState r s).
Definition steps : SYNTH_KEYBOARD_STATE -> list HK_MESSAGE_KEYSTROKE -> SYNTH_KEYBOARD_STATE := foldl step.

(** The shift flag of a keystroke; the pause sequence has no part in it. *)
Definition shift_flag (r : HK_MESSAGE_KEYSTROKE) : Z := if IsUnicode r then 0 else (key_flags r false).1.1.
Definition toggle_flag (r : HK_MESSAGE_KEYSTROKE) (pause : bool) : Z :=
  if IsUnicode r then 0 else (key_flags r pause).1.2.
Definition starts_pause (r : HK_MESSAGE_KEYSTROKE) : bool := negb (IsUnicode r) && (MakeCode r =? SCANCODE_CTRL_MAKE) && negb (IsE0 r) && IsE1 r.


(** ** The keyboard
    What is expected, from the tables of scan code set 1 and of the UEFI key state
    bits: the codes of each key, and the bit of each key. *)
Inductive shift_key := RightShift | LeftShift | RightControl | LeftControl | RightAlt | LeftAlt | RightLogo | LeftLogo | MenuKey | SysReq.
Inductive lock_key := ScrollLock | NumLock | CapsLock.

Definition shift_bit (k : shift_key) : Z :=
  match k with
  | RightShift => 0 | LeftShift => 1 | RightControl => 2 | LeftControl => 3 | RightAlt => 4 | LeftAlt => 5
  | RightLogo => 6 | LeftLogo => 7 | MenuKey => 8 | SysReq => 9
  end.
Definition lock_bit (k : lock_key) : Z := match k with ScrollLock => 0 | NumLock => 1 | CapsLock => 2 end.

(** A make code, with the prefixes it must or must not have. *)
Record code := mkCode { make : Z; with_E0 : option bool; with_E1 : option bool }.
Definition prefix_ok (want : option bool) (b : bool) : bool := match want with None => true | Some w => eqb w b end.
Definition sends (c : code) (r : HK_MESSAGE_KEYSTROKE) : bool :=
  negb (IsUnicode r) && (MakeCode r =? make c) && prefix_ok (with_E0 c) (IsE0 r) && prefix_ok (with_E1 c) (IsE1 r).
Definition no := Some false.
Definition yes := Some true.

Definition shift_codes (k : shift_key) : list code :=
  match k with
  | LeftControl => [mkCode 0x1d no no]
  | RightControl => [mkCode 0x1d yes None]
  | LeftAlt => [mkCode 0x38 no None]
  | RightAlt => [mkCode 0x38 yes None]
  | LeftShift => [mkCode 0x2a no None]
  | RightShift => [mkCode 0x36 None None]
  | LeftLogo => [mkCode 0x5b None None]
  | RightLogo => [mkCode 0x5c None None]
  | MenuKey => [mkCode 0x5d None None]
  | SysReq => [mkCode 0x37 yes None; mkCode 0x54 None None]
  end.
Definition lock_codes (k : lock_key) : code :=
  match k with
  | ScrollLock => mkCode 0x46 no None
  | NumLock => mkCode 0x45 None None
  | CapsLock => mkCode 0x3a None None
  end.
Definition pause_code : code := mkCode 0x1d no yes.

Definition moves (k : shift_key) (r : HK_MESSAGE_KEYSTROKE) : bool := existsb (fun c => sends c r) (shift_codes k).
(** Once a Pause was pressed the code of Num Lock is taken for the rest of its sequence. *)
Definition turns (k : lock_key) (paused : bool) (r : HK_MESSAGE_KEYSTROKE) : bool :=
  negb (IsBreak r) && sends (lock_codes k) r && negb (match k with NumLock => paused | _ => false end).

(** A key is held when its last keystroke pressed it. *)
Definition held (k : shift_key) : bool -> list HK_MESSAGE_KEYSTROKE -> bool :=
  foldl (fun b r => if moves k r then negb (IsBreak r) else b).
(** Whether a lock was pressed an odd number of times. *)
Fixpoint toggled (k : lock_key) (paused : bool) (l : list HK_MESSAGE_KEYSTROKE) : bool :=
  match l with
  | [] => false
  | r :: l => xorb (turns k paused r) (toggled k (paused || sends pause_code r) l)
  end.

(** ** The flags *)
Ltac flag_cases r := rw /key_flags; repeat (destruct (_ =? _); [destruct (IsE0 r), (IsE1 r); simpl; try done|]); simpl; try done.

Lemma flags_split r p :
  key_flags r p = ((key_flags r false).1.1, (key_flags r p).1.2, p || ((MakeCode r =? SCANCODE_CTRL_MAKE) && negb (IsE0 r) && IsE1 r)).
Proof. flag_cases r; by destruct p. Qed.

Lemma flag_pow r : (key_flags r false).1.1 = 0 \/ 0 <= Z.log2 (key_flags r false).1.1 /\ (key_flags r false).1.1 = 2 ^ Z.log2 (key_flags r false).1.1.
Proof. flag_cases r; try (by left); by right. Qed.

Lemma flags_exclusive r p : (key_flags r false).1.1 <> 0 -> (key_flags r p).1.2 = 0.
Proof. flag_cases r. Qed.

Lemma test_pow x j : 0 <= j -> TEST_FLAGS x (2 ^ j) = Z.testbit x j.
Proof.
  intros Hj. rw /TEST_FLAGS. destruct (Z.testbit x j) eqn:E.
  - apply negb_true_iff, Z.eqb_neq. intros Z0.
    assert (H : Z.testbit (Z.land x (2 ^ j)) j = true) by (rw Z.land_spec E Z.pow2_bits_true //). by rw Z0 Z.bits_0 in H.
  - apply negb_false_iff, Z.eqb_eq, Z.bits_inj_0. intros n. rw Z.land_spec Z.pow2_bits_eqb //.
    destruct (Z.eqb_spec j n) as [->|]; by rw ?E ?andb_false_r.
Qed.

Lemma clear_shift_bit x j i : 0 <= j -> Z.testbit (Z.land x (Z.lnot (2 ^ j))) i = if Z.testbit (2 ^ j) i then false else Z.testbit x i.
Proof.
  intros Hj. rw Z.land_spec. destruct (Z.ltb_spec i 0); [rw !Z.testbit_neg_r //|].
  rw Z.lnot_spec //. by destruct (Z.testbit (2 ^ j) i); rw ?andb_false_r ?andb_true_r.
Qed.

(** ** One keystroke *)
Lemma step_shift s r i : Z.testbit (shift_of (step s r)) i = if Z.testbit (shift_flag r) i then negb (IsBreak r) else Z.testbit (shift_of s) i.
Proof.
  rw /step /SynthKeyLayoutUpdateKeyState /shift_flag. destruct (IsUnicode r); [by rw Z.bits_0|]. rw flags_split.
  destruct (flag_pow r) as [->|[Hj ->]]; [rw Z.bits_0 /=; by destruct (_ && _)|].
  set (j := Z.log2 _). assert (P : 0 < 2 ^ j) by (apply Z.pow_pos_nonneg; lia).
  rw (proj2 (Z.eqb_neq (2 ^ j) 0)) /=; [lia|]. destruct (IsBreak r); rw ?test_pow //= /shift_of /=.
  - destruct (Z.testbit (KeyShiftState (KeyState_ s)) j) eqn:E; simpl; [by apply clear_shift_bit|].
    rw Z.pow2_bits_eqb //. destruct (Z.eqb_spec j i) as [<-|]; done.
  - rw Z.lor_spec. by destruct (Z.testbit (2 ^ j) i); rw ?orb_true_r ?orb_false_r.
Qed.

Lemma step_toggle s r i : Z.testbit (toggle_of (step s r)) i = xorb (Z.testbit (toggle_of s) i) (negb (IsBreak r) && Z.testbit (toggle_flag r (PauseSequence s)) i).
Proof.
  rw /step /SynthKeyLayoutUpdateKeyState /toggle_flag. destruct (IsUnicode r); [by rw Z.bits_0 andb_false_r xorb_false_r|]. rw flags_split.
  destruct (Z.eqb_spec (key_flags r false).1.1 0) as [->|N]; simpl.
  - destruct (Z.eqb_spec (key_flags r (PauseSequence s)).1.2 0) as [->|]; simpl; [by rw Z.bits_0 andb_false_r xorb_false_r|].
    destruct (IsBreak r); simpl; [by rw xorb_false_r|]. by rw Z.lxor_spec.
  - rw (flags_exclusive r _ N) Z.bits_0 andb_false_r xorb_false_r. destruct (IsBreak r); [destruct (TEST_FLAGS _ _)|]; done.
Qed.

Lemma step_pause s r : PauseSequence (step s r) = PauseSequence s || starts_pause r.
Proof.
  rw /step /SynthKeyLayoutUpdateKeyState /starts_pause. destruct (IsUnicode r); simpl; [by rw orb_false_r|]. rw flags_split.
  destruct (negb (_ =? 0)); [destruct (IsBreak r); [destruct (TEST_FLAGS _ _)|]; done|]. by destruct (_ && _).
Qed.

(** ** The flags of the code against the keyboard *)
Ltac code_cases r :=
  destruct r as [n [] [] [] []]; try done; rw /key_flags; cbn -[Z.testbit Z.eqb];
  cbv [SCANCODE_CTRL_MAKE SCANCODE_ALT_MAKE SCANCODE_LEFT_SHIFT_MAKE SCANCODE_RIGHT_SHIFT_MAKE SCANCODE_LEFT_LOGO_MAKE SCANCODE_RIGHT_LOGO_MAKE
       SCANCODE_MENU_MAKE SCANCODE_SYS_REQ_MAKE SCANCODE_SYS_REQ_MAKE_WITH_ALT SCANCODE_CAPS_LOCK_MAKE SCANCODE_NUM_LOCK_MAKE SCANCODE_SCROLL_LOCK_MAKE];
  repeat match goal with |- context [n =? ?c] => destruct (Z.eqb_spec n c) as [->|]; [reflexivity|] end; reflexivity.

Lemma shift_flag_bit k r : Z.testbit (shift_flag r) (shift_bit k) = moves k r.
Proof. destruct k; rw /shift_flag /moves /shift_codes /sends; code_cases r. Qed.

Lemma toggle_flag_bit k p r : negb (IsBreak r) && Z.testbit (toggle_flag r p) (lock_bit k) = turns k p r.
Proof. destruct k, p; rw /toggle_flag /turns /lock_codes /sends; code_cases r. Qed.

Definition all_shifts : list shift_key := [RightShift; LeftShift; RightControl; LeftControl; RightAlt; LeftAlt; RightLogo; LeftLogo; MenuKey; SysReq].
Definition all_locks : list lock_key := [ScrollLock; NumLock; CapsLock].

Lemma pow_bit (K : Type) (bit : K -> Z) l x i :
  x ∈ 0 :: map (fun k => 2 ^ bit k) l -> (forall k, bit k <> i) -> Z.testbit x i = false.
Proof.
  intros [->|M]%elem_of_cons H; [by rw Z.bits_0|]. apply list_elem_of_In, in_map_iff in M as (k & <- & Hk).
  apply Z.pow2_bits_false. apply H.
Qed.

(** The other bits are left alone. *)
Lemma shift_flag_other r i : (forall k, shift_bit k <> i) -> Z.testbit (shift_flag r) i = false.
Proof.
  apply (pow_bit _ shift_bit all_shifts). apply list_elem_of_In.
  rw /shift_flag. destruct (IsUnicode r); [by left|]. flag_cases r; tauto.
Qed.
Lemma toggle_flag_other p r i : (forall k, lock_bit k <> i) -> Z.testbit (toggle_flag r p) i = false.
Proof.
  apply (pow_bit _ lock_bit all_locks). apply list_elem_of_In.
  rw /toggle_flag. destruct (IsUnicode r); [by left|]. destruct p; flag_cases r; tauto.
Qed.

Lemma pause_sent r : starts_pause r = sends pause_code r.
Proof. rw /starts_pause /sends /pause_code /=. by destruct (IsE0 r), (IsE1 r). Qed.

Lemma shift_history k l : forall s, Z.testbit (shift_of (steps s l)) (shift_bit k) = held k (Z.testbit (shift_of s) (shift_bit k)) l.
Proof. induction l as [|r l IH]; intros s; [done|]. simpl. by rw IH step_shift shift_flag_bit. Qed.

Lemma lock_history k l : forall s,
  Z.testbit (toggle_of (steps s l)) (lock_bit k) = xorb (Z.testbit (toggle_of s) (lock_bit k)) (toggled k (PauseSequence s) l).
Proof.
  induction l as [|r l IH]; intros s; simpl; [by rw xorb_false_r|].
  by rw IH step_toggle step_pause toggle_flag_bit pause_sent xorb_assoc.
Qed.

Lemma other_history l i : forall s,
  ((forall k, shift_bit k <> i) -> Z.testbit (shift_of (steps s l)) i = Z.testbit (shift_of s) i) /\
  ((forall k, lock_bit k <> i) -> Z.testbit (toggle_of (steps s l)) i = Z.testbit (toggle_of s) i).
Proof.
  induction l as [|r l IH]; intros s; [done|]. destruct (IH (step s r)) as [A B]. simpl. split; intros H.
  - by rw A // step_shift shift_flag_other.
  - by rw B // step_toggle toggle_flag_other // andb_false_r xorb_false_r.
Qed.

(** C37. The state of the keyboard is the history of its keys.  After any sequence
    of keystrokes, makes and breaks in any order, with keys released that were never
    pressed, the bit of every shift key (left and right Shift, Control, Alt and Logo,
    Menu, SysReq) is set exactly when the last keystroke with one of the scan codes
    of the key pressed it (or it was set before and the key has not moved); the bit of every
    lock (Scroll, Num, Caps) is turned over once for each press of its key, where
    presses of Num Lock count up to the first Pause; and no other bit changes.  The
    scan codes and the bits are the tables above, written without the code's. *)
Theorem keys_held s l :
  (forall k, Z.testbit (shift_of (steps s l)) (shift_bit k) = held k (Z.testbit (shift_of s) (shift_bit k)) l) /\
  (forall k, Z.testbit (toggle_of (steps s l)) (lock_bit k) = xorb (Z.testbit (toggle_of s) (lock_bit k)) (toggled k (PauseSequence s) l)) /\
  (forall i, (forall k, shift_bit k <> i) -> Z.testbit (shift_of (steps s l)) i = Z.testbit (shift_of s) i) /\
  (forall i, (forall k, lock_bit k <> i) -> Z.testbit (toggle_of (steps s l)) i = Z.testbit (toggle_of s) i).
Proof.
  split; [intros k; apply shift_history|]. split; [intros k; apply lock_history|].
  split; intros i; apply (other_history l i s).
Qed.

(** ** Pause *)
Lemma toggled_paused l : toggled NumLock true l = false.
Proof. induction l as [|r l IH]; cbn [toggled orb]; [done|]. by rw IH /turns /= andb_false_r. Qed.

(** The pause sequence is never over: after a Pause, whatever is typed, Num Lock does
    not change and its key is taken for Pause. *)
Lemma pause_never_ends s r l :
  starts_pause r = true ->
  Z.testbit (toggle_of (steps s (r :: l))) 1 = Z.testbit (toggle_of s) 1 /\
  forall e0, SynthKeyLayoutTranslateKey (mkStroke SCANCODE_NUM_LOCK_MAKE false false e0 false) (steps s (r :: l))
    = (EFI_SUCCESS, mkKeyData (mkKey SCAN_PAUSE CHAR_NULL) (mkKeyState 0 0)).
Proof.
  intros P. split.
  - change 1 with (lock_bit NumLock). rw lock_history. cbn [toggled]. rw -pause_sent P orb_true_r toggled_paused xorb_false_r.
    assert (T : turns NumLock (PauseSequence s) r = false); [|by rw T xorb_false_r].
    revert P. rw /starts_pause /turns /sends /=. destruct (Z.eqb_spec (MakeCode r) SCANCODE_CTRL_MAKE) as [->|]; simpl; by rw ?andb_false_r.
  - intros e0. assert (Q : PauseSequence (steps s (r :: l)) = true).
    { simpl. assert (H : PauseSequence (step s r) = true) by (rw step_pause P orb_true_r //). clear P.
      revert H. generalize (step s r). induction l as [|r' l IH]; intros s' H; simpl; [done|]. apply IH. by rw step_pause H. }
    rw /SynthKeyLayoutTranslateKey Q. by destruct e0.
Qed.

(** ** Letters *)
Fixpoint codes (s : string) : list Z := match s with EmptyString => [] | String c s => chr (String c EmptyString) :: codes s end.
(** The letters of the three rows, by make code. *)
Definition letters : list (Z * Z) :=
  zip (seqZ 0x10 10) (codes "qwertyuiop") ++ zip (seqZ 0x1e 9) (codes "asdfghjkl") ++ zip (seqZ 0x2c 7) (codes "zxcvbnm").

Definition letter_entry (p : Z * Z) : Prop :=
  find_entry p.1 ScanCodeToEfiKey_En_Us = Some (mkEntry p.1 SCAN_NULL p.2 (p.2 - 32)) /\ 97 <= p.2 <= 122 /\ p.1 < 0x37.
Lemma letters_entries : Forall letter_entry letters.
Proof.
  let l := eval vm_compute in letters in change letters with l.
  repeat (apply Forall_cons; [split; [reflexivity|simpl; lia]|]). apply Forall_nil.
Qed.

(** What a letter becomes. *)
Definition letter_char (c : Z) (s : SYNTH_KEYBOARD_STATE) : Z :=
  if EFI_KEY_CTRL_ACTIVE (shift_of s) then c - 96
  else if xorb (EFI_KEY_SHIFT_ACTIVE (shift_of s)) (TEST_FLAGS (toggle_of s) EFI_CAPS_LOCK_ACTIVE) then c - 32 else c.

Ltac char_case := intros; rw ?/caps_char ?/ctrl_char /between;
  change (chr "a") with 97; change (chr "z") with 122; change (chr "A") with 65; change (chr "Z") with 90;
  repeat (case: Z.leb_spec => ?; simpl; try lia); rw /u16 Z.mod_small; lia.

Lemma caps_lower c : 97 <= c <= 122 -> caps_char c = c - 32.
Proof. char_case. Qed.
Lemma caps_upper c : 97 <= c <= 122 -> caps_char (c - 32) = c.
Proof. char_case. Qed.
Lemma ctrl_lower c : 97 <= c <= 122 -> ctrl_char c = c - 96.
Proof. char_case. Qed.
Lemma ctrl_upper c : 97 <= c <= 122 -> ctrl_char (c - 32) = c - 96.
Proof. char_case. Qed.

Lemma letter_entry_applied code c s : 97 <= c <= 122 ->
  apply_entry s (mkEntry code SCAN_NULL c (c - 32)) zero_key
    = mkKeyData (mkKey SCAN_NULL (if xorb (EFI_KEY_SHIFT_ACTIVE (shift_of s)) (TEST_FLAGS (toggle_of s) EFI_CAPS_LOCK_ACTIVE) then c - 32 else c)) (mkKeyState 0 0).
Proof.
  intros H. rw /apply_entry /=. rw (proj2 (Z.eqb_neq c (c - 32))) /=; [lia|].
  destruct (EFI_KEY_SHIFT_ACTIVE _), (TEST_FLAGS _ _); simpl; by rw ?caps_upper ?caps_lower.
Qed.

Lemma entry_translated s code c e0 :
  letter_entry (code, c) ->
  SynthKeyLayoutTranslateKey (mkStroke code false false e0 false) s
    = (EFI_SUCCESS, mkKeyData (mkKey SCAN_NULL (letter_char c s)) (mkKeyState 0 0)).
Proof.
  rw /letter_entry. cbn [fst snd]. intros (F & C & L).
  assert (N : forall x, 0x37 <= x -> (code =? x) = false) by (intros x Hx; apply Z.eqb_neq; lia).
  rw /SynthKeyLayoutTranslateKey; cbn [IsBreak IsE1 IsUnicode orb MakeCode IsE0].
  rw (N SCANCODE_NUM_LOCK_MAKE) // (N SCANCODE_SCROLL_LOCK_MAKE) // (N SCANCODE_SYS_REQ_MAKE) // !andb_false_r.
  rw /keypad /between; cbn [MakeCode]. rw (proj2 (Z.leb_gt 71 code)); [lia|]. cbn [andb].
  rw /convert_key; cbn [MakeCode]. rw F letter_entry_applied // /letter_char. cbn [Key ScanCode UnicodeChar KeyState].
  destruct (EFI_KEY_CTRL_ACTIVE _), (xorb _ _); rw ?ctrl_upper ?ctrl_lower //.
Qed.

(** A letter key gives the control code of its letter while Ctrl is held, and
    otherwise the capital letter when exactly one of Shift and Caps Lock applies. *)
Lemma letter_translated s code c e0 :
  (code, c) ∈ letters ->
  SynthKeyLayoutTranslateKey (mkStroke code false false e0 false) s
    = (EFI_SUCCESS, mkKeyData (mkKey SCAN_NULL (letter_char c s)) (mkKeyState 0 0)).
Proof. intros M. apply entry_translated. exact (proj1 (Forall_forall _ _) letters_entries _ (proj1 (list_elem_of_In _ _) M)). Qed.

Lemma every_letter c : 97 <= c <= 122 -> exists code, (code, c) ∈ letters.
Proof.
  intros H.
  assert (F : Forall (fun c => c ∈ letters.*2) (seqZ 97 26)) by (refine (bool_decide_eq_true_1 (Forall (fun c => c ∈ letters.*2) (seqZ 97 26)) _); vm_compute; reflexivity).
  assert (E : c ∈ letters.*2) by (apply (proj1 (Forall_forall _ _) F), list_elem_of_In, elem_of_seqZ; lia).
  apply list_elem_of_fmap in E as ([code c'] & -> & M). eauto.
Qed.
End SynthKeyTyping.
