(* ===== verification/SynthKeyEvents.v ===== *)
(** Keystrokes of the host on their way through the synthetic keyboard: the packets
    are decoded, the state and the locks follow, the registered functions are
    called, and the keys are queued. *)
From Stdlib Require Import ssreflect ZArith Lia.
From stdpp Require Import base list numbers list_numbers option gmap.
From S2P Require Import Prelude SynthKeyLayout SynthKey SynthKeyBuffer SynthKeyTyping.
Open Scope Z_scope.

Module SynthKeyEvents.
Import SynthKeyLayout SynthKey SynthKeyBuffer SynthKeyTyping.

Lemma kbind_ok {A C} (c : K A) (f : A -> K C) k a k' : c k = Ok (a, k') -> (c ≫= f) k = f a k'.
Proof. intros E. by rw /mbind /K_bind E. Qed.
Lemma kseq_ok {C} (c : K unit) (d : K C) k k' : c k = Ok (tt, k') -> (_ ← c; d) k = d k'.
Proof. intros E. by rw /mbind /K_bind E. Qed.

Lemma kget_bind {A C} (g : keyboard -> A) (f : A -> K C) k : (kget g ≫= f) k = f (g k) k.
Proof. done. Qed.
Lemma kmod_bind {C} (g : keyboard -> keyboard) (f : unit -> K C) k : (kmod g ≫= f) k = f tt (g k).
Proof. done. Qed.

(** ** Registered functions *)
Definition calls (m : gmap Z SYNTH_KEYBOARD_EX_NOTIFY) (l : list Z) (key : EFI_KEY_DATA) : list (Z * EFI_KEY_DATA) :=
  omap (fun p => n ← m !! p; if KeyNotifyIsKeyRegistered (NotifyKeyData n) key then Some (KeyNotificationFn n, key) else None) l.

(** The list of notifications and the structures it links. *)
Definition listed (k : keyboard) (l : list Z) : Prop :=
  NotifyList k = Some l /\ NoDup l /\ Forall (fun p => is_Some (notifies k !! p)) l.

Lemma next_in_app l1 p l2 : NoDup (l1 ++ p :: l2) -> next_in (l1 ++ p :: l2) p = head l2.
Proof.
  induction l1 as [|x l1 IH]; simpl.
  - intros _. destruct l2; simpl; by rw ?Z.eqb_refl.
  - intros [N D]%NoDup_cons. rw -IH //. assert (x <> p) by set_solver.
    destruct l1; simpl in *; rw (proj2 (Z.eqb_neq x p)) //.
Qed.

(** What a sequence of keystrokes makes of the device: its state, the keys it
    queues and the functions it calls. *)
Record typed_to (k k' : keyboard) (l : list Z) (s : SYNTH_KEYBOARD_STATE) (ks : list EFI_KEY_DATA) : Prop := mkTyped {
  typed_state : State k' = s;
  typed_wf : wf_queue (EfiKeyQueue k');
  typed_keys : keys_of (EfiKeyQueue k') = newest (keys_of (EfiKeyQueue k) ++ ks);
  typed_list : NotifyList k' = NotifyList k;
  typed_notifies : notifies k' = notifies k;
  typed_notified : notified k' = notified k ++ (ks ≫= calls (notifies k) l) }.

Lemma typed_none k k' l : wf_queue (EfiKeyQueue k) ->
  EfiKeyQueue k' = EfiKeyQueue k -> NotifyList k' = NotifyList k -> notifies k' = notifies k -> notified k' = notified k ->
  typed_to k k' l (State k') [].
Proof.
  intros W Q L N C. constructor; simpl; rw ?app_nil_r ?Q //. rw newest_short // keys_length. apply count_bound.
Qed.

Lemma typed_trans k1 k2 k3 l s2 s3 ks2 ks3 : typed_to k1 k2 l s2 ks2 -> typed_to k2 k3 l s3 ks3 -> typed_to k1 k3 l s3 (ks2 ++ ks3).
Proof.
  intros [S W Q L N C] [S' W' Q' L' N' C']. constructor; [done|done| | | |].
  - rw Q' Q newest_idem app_assoc //.
  - by rw L'.
  - by rw N'.
  - rw C' C N bind_app app_assoc //.
Qed.

Section Events.
Context {B : BuildOptions} {SY : KeyboardSystem}.
(** The functions that are registered leave the keyboard alone. *)
Hypothesis passive : forall fn key, notification fn key = [].

Lemma fire_loop_passive n l2 l1 key k : listed k (l1 ++ l2) -> (length l2 < n)%nat ->
  fire_loop n (head l2) key k = Ok (tt, set_notified (notified k ++ calls (notifies k) l2 key) k).
Proof.
  revert l2 l1 k. induction n as [|n IH]; intros l2 l1 k H L; [lia|].
  destruct l2 as [|p l2]; simpl; [rw app_nil_r; by destruct k|].
  destruct H as (HL & D & F).
  assert (exists nt, notifies k !! p = Some nt) as [nt P].
  { apply Forall_app in F as [_ F]. by apply Forall_cons in F as [[nt ?] _]; eauto. }
  rw /notify_at /mbind /K_bind P /=.
  assert (R : forall k0, listed k0 ((l1 ++ [p]) ++ l2) -> notifies k0 !! p = Some nt ->
    (link ← next_link p; fire_loop n link key) k0 = Ok (tt, set_notified (notified k0 ++ calls (notifies k0) l2 key) k0)).
  { intros k0 H0 P0. rw -(IH l2 (l1 ++ [p]) k0 H0); [simpl in L; lia|]. destruct H0 as (HL0 & D0 & _).
    rw /mbind /K_bind /next_link /notify_at /notify_list /mbind /K_bind P0 HL0 /=.
    rw -app_assoc /=. rw next_in_app; [by rw -app_assoc in D0|done]. }
  rw /mbind /K_bind in R.
  destruct (KeyNotifyIsKeyRegistered (NotifyKeyData nt) key); simpl.
  - rw passive /=. rw R //; [by rw /listed -app_assoc|]. by rw /= -app_assoc.
  - rw R //. by rw /listed -app_assoc.
Qed.

Lemma fire_passive l key k : listed k l ->
  KeyNotifyFire key k = Ok (tt, set_notified (notified k ++ calls (notifies k) l key) k).
Proof.
  intros H. rw /KeyNotifyFire /notify_list /mbind /K_bind. destruct (H) as (-> & _).
  apply (fire_loop_passive _ l []); [done|]. rw /fire_fuel. lia.
Qed.
Lemma queue_key l key k : listed k l -> wf_queue (EfiKeyQueue k) ->
  exists k', SimpleTextInQueueKey key k = Ok (tt, k') /\ typed_to k k' l (State k) [key] /\ listed k' l.
Proof.
  intros H W. rw /SimpleTextInQueueKey /mbind /K_bind /kget.
  set (pre := if _ then _ else _).
  assert (P : exists k1, pre k = Ok (tt, k1) /\ State k1 = State k /\ EfiKeyQueue k1 = EfiKeyQueue k /\ NotifyList k1 = NotifyList k
    /\ notifies k1 = notifies k /\ notified k1 = notified k).
  { rw /pre. destruct (_ && _); eauto 10. }
  destruct P as (k1 & -> & S1 & Q1 & L1 & N1 & C1).
  rw (fire_passive l); [by rw /listed L1 N1|]. simpl. rw Q1.
  destruct (insert_keys (EfiKeyQueue k) key W) as (q & -> & Wq & Eq). simpl.
  eexists; split; [done|]. split; [|by rw /listed /= L1 N1].
  constructor; simpl; rw ?app_nil_r ?C1 ?N1 //.
Qed.

(** ** Keystrokes *)
Definition stroke_change (s : SYNTH_KEYBOARD_STATE) (r : HK_MESSAGE_KEYSTROKE) : SynthKeyStateChangeType := fst (SynthKeyLayoutUpdateKeyState r s).
(** The keys a keystroke queues: its translation, or the change of the state for
    an application that asked for partial keys. *)
Definition stroke_keys (s : SYNTH_KEYBOARD_STATE) (r : HK_MESSAGE_KEYSTROKE) : list EFI_KEY_DATA :=
  let s' := step s r in
  match stroke_change s r with
  | KeyChangeNone => let '(status, key) := SynthKeyLayoutTranslateKey r s' in if EFI_ERROR status then [] else [key]
  | _ => if TEST_FLAGS (toggle_of s') EFI_KEY_STATE_EXPOSED then [mkKeyData (mkKey 0 0) (KeyState_ s')] else []
  end.
Fixpoint strokes_keys (s : SYNTH_KEYBOARD_STATE) (l : list HK_MESSAGE_KEYSTROKE) : list EFI_KEY_DATA :=
  match l with [] => [] | r :: l => stroke_keys s r ++ strokes_keys (step s r) l end.

(** The message of a keystroke. *)
Definition keystroke_flags (r : HK_MESSAGE_KEYSTROKE) : Z :=
  Z.b2z (IsUnicode r) + 2 * Z.b2z (IsBreak r) + 4 * Z.b2z (IsE0 r) + 8 * Z.b2z (IsE1 r).
Definition event_message (r : HK_MESSAGE_KEYSTROKE) : list Z :=
  le_split 4 HkMessageEvent ++ le_split 2 (MakeCode r) ++ [0; 0] ++ le_split 4 (keystroke_flags r).

Lemma load_event r : load 4 (event_message r) 0 = Ok HkMessageEvent.
Proof. reflexivity. Qed.

Lemma load_event_keystroke r : 0 <= MakeCode r < 2 ^ 16 -> load_keystroke (event_message r) = Ok r.
Proof.
  intros H. destruct r as [code u b e0 e1]. simpl in H. rw /load_keystroke /load.
  change (mem_read (event_message _) 4 (Z.of_nat 2)) with (Ok (le_split 2 code)).
  cbn [mbind result_bind]. rw le_combine_split Z.mod_small; [change (256 ^ Z.of_nat 2) with (2 ^ 16); lia|].
  by destruct u, b, e0, e1.
Qed.

Lemma step_open s r : ChannelOpen (step s r) = ChannelOpen s.
Proof.
  rw /step /SynthKeyLayoutUpdateKeyState. destruct (IsUnicode r); [done|]. destruct (key_flags r _) as [[f t] p].
  destruct (negb (f =? 0)); [destruct (IsBreak r); [destruct (TEST_FLAGS _ _)|]; done|]. by destruct (_ && _).
Qed.

Lemma indicators k : ChannelOpen (State k) = true ->
  exists st k', SynthKeyChannelSetIndicators k = Ok (st, k') /\ State k' = State k /\ EfiKeyQueue k' = EfiKeyQueue k /\ NotifyList k' = NotifyList k
    /\ notifies k' = notifies k /\ notified k' = notified k.
Proof.
  intros H. rw /SynthKeyChannelSetIndicators /SynthKeyChannelSendMessage /mbind /K_bind /kget /klift H ASSERT_true /= H ASSERT_true /answer /=.
  destruct (EFI_ERROR _); simpl; eauto 15.
Qed.

(** Whether the change is queued for an application that wants partial keys. *)
Lemma exposed_key l k : listed k l -> wf_queue (EfiKeyQueue k) ->
  exists k', (s ← kget State;
     _ ← (if TEST_FLAGS (toggle_of s) EFI_KEY_STATE_EXPOSED then SimpleTextInQueueKey (mkKeyData (mkKey 0 0) (KeyState_ s)) else mret tt);
     mret EFI_SUCCESS) k = Ok (EFI_SUCCESS, k')
    /\ typed_to k k' l (State k) (if TEST_FLAGS (toggle_of (State k)) EFI_KEY_STATE_EXPOSED then [mkKeyData (mkKey 0 0) (KeyState_ (State k))] else [])
    /\ listed k' l.
Proof.
  intros H W. rw /mbind /K_bind /kget. destruct (TEST_FLAGS _ _).
  - destruct (queue_key l (mkKeyData (mkKey 0 0) (KeyState_ (State k))) k H W) as (k' & -> & T). eauto.
  - eexists; split; [done|]. split; [by apply typed_none|done].
Qed.

Lemma message_event l r k : listed k l -> wf_queue (EfiKeyQueue k) -> ChannelOpen (State k) = true -> 0 <= MakeCode r < 2 ^ 16 ->
  exists st k', OnMessageEvent (event_message r) k = Ok (st, k') /\ typed_to k k' l (step (State k) r) (stroke_keys (State k) r) /\ listed k' l.
Proof.
  intros H W O M. rw /OnMessageEvent /stroke_keys /stroke_change /step.
  rw (kbind_ok _ _ k HkMessageEvent k) //. rw (kbind_ok _ _ k tt k); [by rw /klift Z.eqb_refl ASSERT_true|].
  rw (kbind_ok _ _ k r k); [by rw /klift load_event_keystroke|]. rw (kbind_ok _ _ k (State k) k) //.
  pose proof (step_open (State k) r) as SO. rw /step in SO.
  destruct (SynthKeyLayoutUpdateKeyState r (State k)) as [c s]. cbn [fst snd] in *.
  set (k1 := set_State s k). assert (T1 : typed_to k k1 l s []) by (by apply (typed_none k k1)).
  rw (kseq_ok (kmod (set_State s)) _ k k1) //. destruct c.
  - rw (kbind_ok _ _ k1 (State k1) k1) //. change (State k1) with s. destruct (SynthKeyLayoutTranslateKey r s) as [st key]. destruct (EFI_ERROR st).
    + eexists _, _; split; [done|]. by split.
    + destruct (queue_key l key k1 H W) as (k' & E & T & H'). eexists _, _; split; [by rw (kseq_ok _ _ _ _ E)|]. split; [|done].
      exact (typed_trans _ _ _ _ _ _ [] _ T1 T).
  - destruct (exposed_key l k1 H W) as (k' & E & T & H'). eexists _, _; split; [exact E|]. split; [|done].
    exact (typed_trans _ _ _ _ _ _ [] _ T1 T).
  - destruct (indicators k1) as (st & k2 & I & S2 & Q2 & L2 & N2 & C2); [simpl; congruence|].
    assert (T2 : typed_to k1 k2 l s []) by (rw -(_ : State k2 = s) //; by apply typed_none).
    destruct (exposed_key l k2) as (k' & E & T & H'); [by rw /listed L2 N2|by rw Q2|].
    rw S2 in T. eexists _, _. split; [|split; [exact (typed_trans _ _ _ _ _ _ [] _ T1 (typed_trans _ _ _ _ _ _ [] _ T2 T))|done]].
    rw (kseq_ok _ _ k1 k2); [by rw (kbind_ok _ _ _ _ _ I)|exact E].
Qed.

Lemma receive_event l r k : listed k l -> wf_queue (EfiKeyQueue k) -> ChannelOpen (State k) = true -> 0 <= MakeCode r < 2 ^ 16 ->
  exists k', SynthKeyChannelReceivePacketCallback (event_message r) (Zlength (event_message r)) k = Ok (tt, k')
    /\ typed_to k k' l (step (State k) r) (stroke_keys (State k) r) /\ listed k' l.
Proof.
  intros H W O M. destruct (message_event l r k H W O M) as (st & k' & E & T & H').
  exists (set_completed (S (completed k')) k'). split; [|by split; [destruct T; constructor|]].
  change (Zlength (event_message r)) with 12.
  rw /SynthKeyChannelReceivePacketCallback (kbind_ok _ _ k tt k); [by rw /klift ASSERT_true|].
  rw (kbind_ok _ _ k HkMessageEvent k) //. rw (kbind_ok _ _ k tt k') //.
  change (HkMessageEvent =? HkMessageProtocolResponse) with false.
  rw (kbind_ok _ _ k tt k); [by rw /klift ASSERT_true|]. by rw (kbind_ok _ _ _ _ _ E).
Qed.

(** C38. From the packets of the host to the keys of the console.  When the channel
    is open and the registered functions leave the keyboard alone, the callback
    takes any sequence of keystroke messages without a fault; the state is that of the
    keystrokes, the keys they translate to (and the changes of state, for an
    application that exposed them) are appended to the queue in order, of which the
    newest 255 are kept, and for each key every registered function that matches it
    is called once, in the order of registration. *)
Theorem keystrokes_queued l rs k :
  listed k l -> wf_queue (EfiKeyQueue k) -> ChannelOpen (State k) = true -> Forall (fun r => 0 <= MakeCode r < 2 ^ 16) rs ->
  exists k', deliver (event_message <$> rs) k = Ok (tt, k') /\ typed_to k k' l (steps (State k) rs) (strokes_keys (State k) rs).
Proof.
  revert k. induction rs as [|r rs IH]; intros k H W O F.
  - exists k. split; [done|]. by apply typed_none.
  - apply Forall_cons in F as [M F]. destruct (receive_event l r k H W O M) as (k1 & E & T & H1).
    destruct (IH k1 H1) as (k' & E' & T'); [apply T| |done|].
    + destruct T as [-> _ _ _ _ _]. by rw step_open.
    + exists k'. split; [cbn [fmap list_fmap deliver]; rw (kseq_ok _ _ _ _ E) //|].
      destruct (T) as [S _ _ _ _ _]. rw S in T'. exact (typed_trans _ _ _ _ _ _ _ _ T T').
Qed.
End Events.
End SynthKeyEvents.
