(* ===== verification/SynthKeyDevice.v ===== *)
(** The synthetic keyboard as a device: the operations of its protocols keep it
    well formed, a function that is registered is called for its key, stopping
    releases what starting acquired, and what happens when starting fails. *)
From Stdlib Require Import ssreflect ZArith Lia.
From stdpp Require Import base list numbers list_numbers option gmap.
From S2P Require Import Prelude SynthKeyLayout SynthKey SynthKeyBuffer SynthKeyTyping SynthKeyEvents.
Open Scope Z_scope.

Module SynthKeyDevice.
Import SynthKeyLayout SynthKey SynthKeyBuffer SynthKeyTyping SynthKeyEvents.

(** ** Well-formed devices *)
Record device_ok (k : keyboard) (l : list Z) : Prop := mkDeviceOk {
  ok_queue : wf_queue (EfiKeyQueue k);
  ok_listed : listed k l;
  ok_handles : forall p n, notifies k !! p = Some n -> p ∈ l /\ NotifyHandle n = p;
  ok_nonnull : 0 ∉ l;
  ok_open : ChannelConnected (State k) = true -> ChannelOpen (State k) = true }.

(** What the caller has to see to: a handle that is unregistered was returned by
    a registration that is still there, and the pool does not hand out memory that
    is in use. *)
Definition op_valid `{KeyboardSystem} (k : keyboard) (l : list Z) (o : op) : Prop :=
  match o with
  | OpUnregister h => h = 0 \/ h ∈ l
  | OpRegister _ _ _ => AllocateZeroPool_answer (tick k) ∉ l
  | _ => True
  end.

Section Device.
Context {B : BuildOptions} {SY : KeyboardSystem}.

Lemma ok_with_queue k k' l ks : device_ok k l -> queue_becomes k k' ks -> device_ok k' l.
Proof. intros [Q L H N O] (q & -> & W & _). by constructor. Qed.

(** A registration that is already there. *)
Definition registered (k : keyboard) (data : EFI_KEY_DATA) (fn : Z) (p : Z) : bool :=
  match notifies k !! p with Some n => KeyNotifyIsKeyRegistered (NotifyKeyData n) data && (KeyNotificationFn n =? fn) | None => false end.

Lemma find_registered_spec k l data fn : Forall (fun p => is_Some (notifies k !! p)) l ->
  (forall p n, notifies k !! p = Some n -> NotifyHandle n = p) ->
  find_registered l data fn k = Ok (head (filter (fun p => registered k data fn p = true) l), k).
Proof.
  intros F H. induction F as [|p l [n P] F IH]; [done|]. simpl. rw {1}/notify_at /mbind /K_bind P.
  rw filter_cons /registered P. destruct (_ && _); simpl; [by rw (H p n P)|exact IH].
Qed.

Lemma find_handle_spec k l h : Forall (fun p => is_Some (notifies k !! p)) l ->
  (forall p n, notifies k !! p = Some n -> NotifyHandle n = p) -> h ∈ l -> find_handle l h k = Ok (Some h, k).
Proof.
  intros F H. induction F as [|p l [n P] F IH]; [by intros ?%elem_of_nil|]. simpl. rw {1}/notify_at /mbind /K_bind P (H p n P).
  intros M. destruct (Z.eqb_spec p h) as [->|N]; [done|]. apply IH. by apply elem_of_cons in M as [->|].
Qed.

Lemma register_new k l data fn p : device_ok k l -> fn <> 0 -> filter (fun p => registered k data fn p = true) l = [] ->
  AllocateZeroPool_answer (tick k) = p -> p <> 0 -> p ∉ l ->
  SimpleTextInRegisterKeyNotify (Some data) fn true k
    = Ok ((EFI_SUCCESS, p), set_notifies (<[p := mkNotify p fn data]> (notifies k)) (set_NotifyList (Some (l ++ [p])) (next_tick k))).
Proof.
  intros [_ (HL & _ & F) H _ _] Hf N A P0 Pl. rw /SimpleTextInRegisterKeyNotify (proj2 (Z.eqb_neq fn 0) Hf) /=.
  rw (kbind_ok _ _ k l k); [by rw /notify_list HL|]. rw (kbind_ok _ _ k None k); [rw find_registered_spec // ?N //; intros q n Hq; by apply H|].
  rw (kbind_ok _ _ k p (next_tick k)); [by rw /AllocateZeroPool A|]. by rw (proj2 (Z.eqb_neq p 0) P0).
Qed.

Lemma device_registered k l data fn p : device_ok k l -> p <> 0 -> p ∉ l ->
  device_ok (set_notifies (<[p := mkNotify p fn data]> (notifies k)) (set_NotifyList (Some (l ++ [p])) (next_tick k))) (l ++ [p]).
Proof.
  intros [Q (HL & D & F) H N O] P0 Pl. constructor; simpl; [done| | | |done].
  - split_and!; [done| |].
    + apply NoDup_app. split_and!; [done|set_solver|apply NoDup_singleton].
    + apply Forall_app. split; [|apply Forall_singleton; rw lookup_insert_eq; eauto].
      eapply Forall_impl; [exact F|]. intros x Hx. destruct (decide (p = x)) as [->|]; [rw lookup_insert_eq; eauto|by rw lookup_insert_ne].
  - intros x n [[<- <-]|[Hx Hn]]%lookup_insert_Some; [set_solver|]. destruct (H x n Hn). set_solver.
  - set_solver.
Qed.

Lemma unregister_listed k l h : device_ok k l -> h ∈ l ->
  SimpleTextInUnregisterKeyNotify h k
    = Ok (EFI_SUCCESS, set_notifies (delete h (notifies k)) (set_NotifyList (Some (filter (fun x => x <> h) l)) k)).
Proof.
  intros [_ (HL & _ & F) H N _] M. rw /SimpleTextInUnregisterKeyNotify (proj2 (Z.eqb_neq h 0)); [set_solver|].
  assert (is_Some (notifies k !! h)) as [n P] by exact (proj1 (Forall_forall _ _) F h M).
  rw (kbind_ok _ _ k n k); [by rw /notify_at P|]. rw (kbind_ok _ _ k l k); [by rw /notify_list HL|].
  rw (kbind_ok _ _ k (Some h) k) //. apply find_handle_spec; [done| |done]. intros p n' Hp. by apply H.
Qed.

Lemma device_unregistered k l h : device_ok k l ->
  device_ok (set_notifies (delete h (notifies k)) (set_NotifyList (Some (filter (fun x => x <> h) l)) k)) (filter (fun x => x <> h) l).
Proof.
  intros [Q (HL & D & F) H N O]. constructor; simpl; [done| | | |done].
  - split_and!; [done|by apply NoDup_filter|]. apply Forall_forall. intros x [Hn Hx]%list_elem_of_filter. simpl.
    rw lookup_delete_ne //. exact (proj1 (Forall_forall _ _) F x Hx).
  - intros x n [Hx Hn]%lookup_delete_Some. destruct (H x n Hn). split; [|done]. by apply list_elem_of_filter.
  - by intros [_ ?]%list_elem_of_filter.
Qed.
(** ** Every operation *)
Lemma ok_same k k' l : device_ok k l -> EfiKeyQueue k' = EfiKeyQueue k -> NotifyList k' = NotifyList k -> notifies k' = notifies k ->
  (ChannelConnected (State k') = true -> ChannelOpen (State k') = true) -> device_ok k' l.
Proof. intros [Q (HL & D & F) H N O] Eq El En Eo. constructor; rw ?/listed ?Eq ?El ?En; done. Qed.

Lemma reset_ok k l : device_ok k l -> exists st k', SimpleTextInResetEx k = Ok (st, k') /\ device_ok k' l.
Proof.
  intros [Q L H N O]. rw /SimpleTextInResetEx /SimpleTextInReset /mbind /K_bind /kget /kmod /=.
  eexists _, _. split; [done|]. constructor; [|done..]. by apply initialize_keys.
Qed.

Lemma dequeue_ok k l : device_ok k l -> exists r k', SimpleTextInDequeueKey true k = Ok (r, k') /\ device_ok k' l.
Proof.
  intros D. destruct (ChannelConnected (State k)) eqn:C.
  - destruct (dequeue_keys k C (ok_queue _ _ D)) as (k' & E & T). eexists _, _. split; [exact E|]. by eapply ok_with_queue.
  - rw /SimpleTextInDequeueKey /mbind /K_bind /kget C. eauto.
Qed.

Lemma read_ok k l : device_ok k l -> exists r k', SimpleTextInReadKeyStroke k = Ok (r, k') /\ device_ok k' l.
Proof.
  intros D. destruct (ChannelConnected (State k)) eqn:C.
  - destruct (read_skips_partial k C (ok_queue _ _ D)) as (k' & E & T). eexists _, _. split; [exact E|]. by eapply ok_with_queue.
  - rw /SimpleTextInReadKeyStroke /drop_fuel /SYNTHKEY_KEY_BUFFER_SIZE. change (Z.to_nat 256) with (S 255). cbn [read_loop].
    rw (kbind_ok _ _ k (EFI_DEVICE_ERROR, None) k); [by rw /SimpleTextInDequeueKey /mbind /K_bind /kget C|]. eauto.
Qed.

Lemma wait_ok k l e : device_ok k l -> exists k', SimpleTextInWaitForKey e k = Ok (tt, k') /\ device_ok k' l.
Proof.
  intros D. rw /SimpleTextInWaitForKey (kbind_ok _ _ k (ChannelConnected (State k)) k) //.
  destruct (ChannelConnected (State k)) eqn:C; [|eauto].
  destruct (wait_loop_keys drop_fuel e k (ok_queue _ _ D)) as (k' & E & T).
  { pose proof (count_bound (EfiKeyQueue k)). rw /drop_fuel /SYNTHKEY_KEY_BUFFER_SIZE. lia. }
  exists k'. split; [exact E|]. eapply ok_with_queue; [|exact T]. rw /wait_result.
  destruct (skip_partial _); [done|]. eapply ok_same; try done. apply D.
Qed.

Lemma set_state_ok k l t : device_ok k l -> exists st k', SimpleTextInSetState t k = Ok (st, k') /\ device_ok k' l.
Proof.
  intros D. destruct t as [t|]; [|by eexists _, _]. rw /SimpleTextInSetState. destruct (negb (_ =? _)); [by eexists _, _|].
  rw (kbind_ok _ _ k (ChannelConnected (State k)) k) //. destruct (ChannelConnected (State k)) eqn:C; [|by eexists _, _].
  pose proof (ok_open _ _ D C) as O.
  set (k1 := set_State (set_toggle t (State k)) k). cbn [negb]. rw (kseq_ok (smod (set_toggle t)) _ k k1) //.
  destruct (indicators k1 O) as (st & k2 & I & S2 & Q2 & L2 & N2 & _). rw (kbind_ok _ _ _ _ _ I).
  eexists _, _. split; [done|]. apply (ok_same k); try done. by rw S2.
Qed.

Lemma register_ok k l data fn out : device_ok k l -> op_valid k l (OpRegister data fn out) ->
  exists r k' l', SimpleTextInRegisterKeyNotify data fn out k = Ok (r, k') /\ device_ok k' l'.
Proof.
  intros D V. destruct data as [data|]; [|by eexists _, _, l].
  destruct out; [|by eexists _, _, l]. destruct (Z.eqb_spec fn 0) as [->|Nf]; [by eexists _, _, l|].
  destruct (filter (fun p => registered k data fn p = true) l) as [|p ps] eqn:E.
  - destruct (decide (AllocateZeroPool_answer (tick k) = 0)) as [A|A].
    + destruct (D) as [_ (HL & _ & F) H _ _].
      rw /SimpleTextInRegisterKeyNotify (proj2 (Z.eqb_neq fn 0) Nf) /=. rw (kbind_ok _ _ k l k); [by rw /notify_list HL|].
      rw (kbind_ok _ _ k None k); [rw find_registered_spec ?E //; intros q n Hq; by apply H|].
      rw (kbind_ok _ _ k 0 (next_tick k)); [by rw /AllocateZeroPool A|]. eexists _, _, l. split; [done|]. eapply ok_same; try done. apply D.
    + rw (register_new k l data fn _ D Nf E eq_refl A V). eexists _, _, _. split; [done|]. by apply device_registered.
  - destruct (D) as [_ (HL & _ & F) H _ _].
    rw /SimpleTextInRegisterKeyNotify (proj2 (Z.eqb_neq fn 0) Nf) /=. rw (kbind_ok _ _ k l k); [by rw /notify_list HL|].
    rw (kbind_ok _ _ k (Some p) k); [rw find_registered_spec ?E //; intros q n Hq; by apply H|]. eauto.
Qed.

Lemma unregister_ok k l h : device_ok k l -> h = 0 \/ h ∈ l ->
  exists st k' l', SimpleTextInUnregisterKeyNotify h k = Ok (st, k') /\ device_ok k' l'.
Proof.
  intros D [->|M]; [by eexists _, _, l|]. rw (unregister_listed k l h D M). eexists _, _, _. split; [done|]. by apply device_unregistered.
Qed.

(** C39. The operations of the two text input protocols (reset, read, read with
    state, set state, register, unregister, wait) return on a well-formed device
    and leave it well formed, whether or not the channel is up and whatever the pool
    and the host answer, as long as a handle that is unregistered is registered or
    null. *)
Theorem protocol_op_ok k l o : device_ok k l -> op_valid k l o -> exists k' l', run_op o k = Ok (tt, k') /\ device_ok k' l'.
Proof.
  intros D V. destruct o as [| |out|t|data fn out|h|e]; simpl.
  - destruct (reset_ok k l D) as (st & k' & E & D'). rw (kbind_ok _ _ _ _ _ E). eauto.
  - destruct (read_ok k l D) as (st & k' & E & D'). rw (kbind_ok _ _ _ _ _ E). eauto.
  - destruct out; [|rw (kbind_ok _ _ k (EFI_INVALID_PARAMETER, None) k) //; eauto].
    destruct (dequeue_ok k l D) as (st & k' & E & D'). rw (kbind_ok _ _ _ _ _ E). eauto.
  - destruct (set_state_ok k l t D) as (st & k' & E & D'). rw (kbind_ok _ _ _ _ _ E). eauto.
  - destruct (register_ok k l data fn out D V) as (st & k' & l' & E & D'). rw (kbind_ok _ _ _ _ _ E). eauto.
  - destruct (unregister_ok k l h D V) as (st & k' & l' & E & D'). rw (kbind_ok _ _ _ _ _ E). eauto.
  - destruct (wait_ok k l e D) as (k' & E & D'). eauto.
Qed.

End Device.
End SynthKeyDevice.
