(* ===== verification/SynthKeyLife.v ===== *)
(** The life of the synthetic keyboard: registering and unregistering functions,
    stopping the device, and the paths on which it comes to harm. *)
From Stdlib Require Import ssreflect ZArith Lia.
From stdpp Require Import base list numbers list_numbers option gmap.
From S2P Require Import Prelude SynthKeyLayout SynthKey SynthKeyBuffer SynthKeyTyping SynthKeyEvents SynthKeyDevice.
Open Scope Z_scope.

Module SynthKeyLife.
Import SynthKeyLayout SynthKey SynthKeyBuffer SynthKeyTyping SynthKeyEvents SynthKeyDevice.

Section Life.
Context {B : BuildOptions} {SY : KeyboardSystem}.

(** ** Registration *)
Lemma calls_cons m x l key : calls m (x :: l) key = calls m [x] key ++ calls m l key.
Proof. apply (omap_app _ [x] l). Qed.

Lemma calls_other (m : gmap Z SYNTH_KEYBOARD_EX_NOTIFY) l p n key : p ∉ l -> calls (<[p := n]> m) l key = calls m l key.
Proof.
  induction l as [|x l IH]; [done|]. intros [Hx Hl]%not_elem_of_cons. rw calls_cons (calls_cons m) IH //. f_equal.
  rw /calls /= lookup_insert_ne //.
Qed.

Lemma calls_app m l1 l2 key : calls m (l1 ++ l2) key = calls m l1 key ++ calls m l2 key.
Proof. apply omap_app. Qed.

(** A function that is registered is called for the keys it was registered for, behind
    those that were there before; unregistering it leaves the device as it was. *)
Lemma register_unregister k l data fn p : device_ok k l -> fn <> 0 -> filter (fun p => registered k data fn p = true) l = [] ->
  AllocateZeroPool_answer (tick k) = p -> p <> 0 -> p ∉ l ->
  exists k1, SimpleTextInRegisterKeyNotify (Some data) fn true k = Ok ((EFI_SUCCESS, p), k1) /\
    (forall key, calls (notifies k1) (l ++ [p]) key = calls (notifies k) l key ++ (if KeyNotifyIsKeyRegistered data key then [(fn, key)] else [])) /\
    NotifyList k1 = Some (l ++ [p]) /\
    SimpleTextInUnregisterKeyNotify p k1 = Ok (EFI_SUCCESS, next_tick k).
Proof.
  intros D Nf E A P0 Pl. pose proof (device_registered k l data fn p D P0 Pl) as D1.
  rw (register_new k l data fn p D Nf E A P0 Pl). eexists; split; [done|]. split_and!; [|done|].
  - intros key. simpl. rw calls_app calls_other //. f_equal. rw /calls /= lookup_insert_eq /=. by destruct (KeyNotifyIsKeyRegistered data key).
  - rw (unregister_listed _ (l ++ [p])) //; [set_solver|]. do 2 f_equal. simpl.
    assert (notifies k !! p = None) as M. { destruct (notifies k !! p) as [n|] eqn:M; [|done]. by destruct (ok_handles _ _ D p n M). }
    rw delete_insert_id // filter_app filter_cons filter_nil decide_False; [tauto|].
    rw app_nil_r. assert (filter (fun x => x <> p) l = l) as ->.
    { clear -Pl. induction l as [|x l IH]; [done|]. apply not_elem_of_cons in Pl as [? ?]. rw filter_cons decide_True //. by rw IH. }
    destruct D as [_ (HL & _) _ _ _]. destruct k; simpl in *. by subst.
Qed.

(** ** Stopping *)
Lemma cleanup_loop_frees l k : NoDup l -> (forall p, is_Some (notifies k !! p) <-> p ∈ l) ->
  cleanup_loop l k = Ok (tt, set_notifies ∅ (set_NotifyList (Some []) k)).
Proof.
  revert k. induction l as [|p l IH]; intros k ND H.
  - assert (notifies k = ∅) as M by (apply map_empty; intros i; apply eq_None_not_Some; rw H; apply not_elem_of_nil).
    simpl. rw -M. by destruct k.
  - apply NoDup_cons in ND as [Np ND]. simpl. destruct (proj2 (H p)) as [n P]; [set_solver|].
    rw (kbind_ok _ _ k n k); [by rw /notify_at P|]. rw kmod_bind. rw IH //.
    intros q. simpl. destruct (decide (p = q)) as [<-|Nq].
    + rw lookup_delete_eq. split; [by intros [? ?]|done].
    + rw lookup_delete_ne // H. set_solver.
Qed.

Lemma key_notify_cleanup l k : NotifyList k = Some l -> NoDup l -> (forall p, is_Some (notifies k !! p) <-> p ∈ l) ->
  KeyNotifyCleanup k = Ok (tt, set_notifies ∅ (set_NotifyList (Some []) k)).
Proof. intros L ND H. rw /KeyNotifyCleanup (kbind_ok _ _ k l k); [by rw /notify_list L|]. by apply cleanup_loop_frees. Qed.

Lemma close_event e k : e ∈ events k -> CloseEvent e k = Ok (tt, set_signalled (signalled k ∖ {[e]}) (set_events (events k ∖ {[e]}) k)).
Proof. intros H. by rw /CloseEvent bool_decide_true. Qed.
Record running (k : keyboard) (l : list Z) : Prop := mkRunning {
  run_ok : device_ok k l;
  run_allocated : allocated k = true;
  run_emcl : Emcl k = true;
  run_open : ChannelOpen (State k) = true;
  run_installed : SimpleTextInstalled (State k) = true;
  run_events : Forall (fun e => e <> 0 /\ e ∈ events k) [InitCompleteEvent k; WaitForKey k; WaitForKeyEx k];
  run_distinct : NoDup [InitCompleteEvent k; WaitForKey k; WaitForKeyEx k] }.

(** An event of the device is closed once. *)
Lemma close_field e (f : keyboard -> keyboard) k : e <> 0 -> e ∈ events k ->
  (if e =? 0 then mret tt else CloseEvent e;; kmod f) k = Ok (tt, f (set_signalled (signalled k ∖ {[e]}) (set_events (events k ∖ {[e]}) k))).
Proof. intros N H. rw (proj2 (Z.eqb_neq e 0) N) (kseq_ok _ _ _ _ (close_event e k H)) //. Qed.

(** What is left of a device that was taken down. *)
Record taken_down (k k' : keyboard) : Prop := mkDown {
  down_events : events k' = events k ∖ {[InitCompleteEvent k; WaitForKey k; WaitForKeyEx k]};
  down_fields : InitCompleteEvent k' = 0 /\ WaitForKey k' = 0 /\ WaitForKeyEx k' = 0;
  down_notifies : notifies k' = ∅ /\ NotifyList k' = Some [];
  down_state : ChannelOpen (State k') = false /\ ChannelConnected (State k') = false /\ SimpleTextInstalled (State k') = false }.

Lemma channel_close k : Emcl k = true -> ChannelOpen (State k) = true -> InitCompleteEvent k <> 0 -> InitCompleteEvent k ∈ events k ->
  SynthKeyChannelClose k = Ok (EFI_SUCCESS,
    let k1 := set_State (set_ChannelConnected false (set_ChannelOpen false (State k))) k in
    set_InitCompleteEvent 0 (set_signalled (signalled k ∖ {[InitCompleteEvent k]}) (set_events (events k ∖ {[InitCompleteEvent k]}) k1))).
Proof.
  intros E O N M. rw /SynthKeyChannelClose (kbind_ok _ _ k true k); [by rw /kget E|]. rw (kbind_ok _ _ k tt k); [by rw /klift ASSERT_true|].
  rw (kbind_ok _ _ k true k); [by rw /kget O|]. rw (kbind_ok _ _ k tt _ eq_refl).
  rw kget_bind. cbn [InitCompleteEvent set_State].
  rw (kseq_ok _ _ _ _ (close_field (InitCompleteEvent k) (set_InitCompleteEvent 0) _ N _)) //.
Qed.

Lemma cleanup_running k l : running k l -> EFI_ERROR (UninstallProtocols_answer (tick k)) = false ->
  exists k', SimpleTextInCleanup k = Ok (tt, k') /\ taken_down k k'.
Proof.
  intros [D _ E O I F ND] U. apply Forall_cons in F as [[N1 M1] F]. apply Forall_cons in F as [[N2 M2] F]. apply Forall_cons in F as [[N3 M3] _].
  rw !NoDup_cons in ND. destruct ND as (X1 & X2 & X3 & _).
  rw /SimpleTextInCleanup (kbind_ok _ _ k true k); [by rw /kget I|].
  set (k1 := set_State (set_SimpleTextInstalled false (State k)) (next_tick k)).
  rw (kbind_ok _ _ k (UninstallProtocols_answer (tick k)) k1); [rw (kbind_ok _ _ k (UninstallProtocols_answer (tick k)) (next_tick k)) // U //|].
  rw U. rw (kbind_ok _ _ _ _ _ (channel_close k1 E O N1 M1)). cbn [EFI_ERROR]. change (EFI_ERROR EFI_SUCCESS) with false. cbn iota.
  rw kget_bind. cbn zeta. cbn [WaitForKey k1 set_State set_InitCompleteEvent set_signalled set_events next_tick].
  rw (kseq_ok _ _ _ _ (close_field (WaitForKey k) (set_WaitForKey 0) _ N2 _)); [set_solver|].
  rw kget_bind. cbn [WaitForKeyEx set_WaitForKey set_State set_InitCompleteEvent set_signalled set_events].
  rw (kseq_ok _ _ _ _ (close_field (WaitForKeyEx k) (set_WaitForKeyEx 0) _ N3 _)); [set_solver|].
  destruct D as [_ (HL & DL & F) H _ _]. rw (key_notify_cleanup l) //.
  - intros p. simpl. split; [intros [n P]; by destruct (H p n P)|]. intros M. exact (proj1 (Forall_forall _ _) F p M).
  - eexists; split; [done|]. constructor; simpl; [set_solver|done..].
Qed.
(** Stopping a running device releases its events, notifications and protocols. *)
Lemma stop_releases k l : running k l ->
  EFI_ERROR (OpenProtocol_answer (tick k)) = false -> EFI_ERROR (OpenProtocol_answer (S (tick k))) = false ->
  EFI_ERROR (UninstallProtocols_answer (S (S (tick k)))) = false ->
  exists k', SynthKeyDriverStop k = Ok (EFI_SUCCESS, k') /\ taken_down k k' /\
    allocated k' = false /\ emcl_installed k' = false /\ DevicePath k' = false /\ Emcl k' = false.
Proof.
  intros R O1 O2 U. set (k2 := next_tick (next_tick k)).
  assert (R2 : running k2 l) by (destruct R as [[? ? ? ? ?] ? ? ? ? ? ?]; constructor; [constructor|..]; done).
  destruct (cleanup_running k2 l R2 U) as (k' & C & [D1 D2 D3 D4]).
  rw /SynthKeyDriverStop (kbind_ok _ _ k (OpenProtocol_answer (tick k)) (next_tick k)) // O1.
  rw (kbind_ok _ _ (next_tick k) (OpenProtocol_answer (S (tick k))) k2) // O2.
  rw (kseq_ok touch_device _ k2 k2); [by rw /touch_device (run_allocated _ _ R2)|].
  rw (kseq_ok SynthKeyDriverCleanup _ k2 (set_allocated false (set_Emcl false (set_DevicePath false k')))); [by rw /SynthKeyDriverCleanup (kseq_ok _ _ _ _ C)|].
  eexists; split; [done|]. split_and!; try done.
Qed.

(** Protocols that cannot be uninstalled stay behind when the device is freed. *)
Lemma refused_uninstall_dangles k l : running k l ->
  EFI_ERROR (OpenProtocol_answer (tick k)) = false -> EFI_ERROR (OpenProtocol_answer (S (tick k))) = false ->
  EFI_ERROR (UninstallProtocols_answer (S (S (tick k)))) = true ->
  exists k', SynthKeyDriverStop k = Ok (EFI_SUCCESS, k') /\ allocated k' = false /\
    SimpleTextInstalled (State k') = true /\ ChannelOpen (State k') = true /\ events k' = events k /\ notifies k' = notifies k.
Proof.
  intros [D A E O I _ _] O1 O2 U. set (k2 := next_tick (next_tick k)).
  rw /SynthKeyDriverStop (kbind_ok _ _ k (OpenProtocol_answer (tick k)) (next_tick k)) // O1.
  rw (kbind_ok _ _ (next_tick k) (OpenProtocol_answer (S (tick k))) k2) // O2.
  rw (kseq_ok touch_device _ k2 k2); [by rw /touch_device /= A|].
  assert (C : SimpleTextInCleanup k2 = Ok (tt, next_tick k2)).
  { rw /SimpleTextInCleanup (kbind_ok _ _ k2 true k2); [by rw /kget /= I|].
    rw (kbind_ok _ _ k2 (UninstallProtocols_answer (tick k2)) (next_tick k2)); [rw (kbind_ok _ _ k2 (UninstallProtocols_answer (tick k2)) (next_tick k2)) //= U //|].
    by rw /= U. }
  rw (kseq_ok SynthKeyDriverCleanup _ k2 (set_allocated false (set_Emcl false (set_DevicePath false (next_tick k2))))); [by rw /SynthKeyDriverCleanup (kseq_ok _ _ _ _ C)|].
  eexists; split; [done|]. by split_and!.
Qed.

(** ** Paths that come to harm *)
Lemma driver_cleanup_frees k r : SynthKeyDriverCleanup k = Ok r -> allocated (snd r) = false.
Proof. rw /SynthKeyDriverCleanup /mbind /K_bind. destruct (SimpleTextInCleanup k) as [[[] k1]|f]; [|done]. by intros [= <-]. Qed.

(** C40. A start that fails after EMCL was installed does not return.  When the
    device structure cannot be allocated, or anything of its set-up fails, the error
    path of SynthKeyDriverStart uses a structure that does not exist or was freed, or
    comes to harm before that. *)
Theorem failed_start_faults k st k1 :
  EFI_ERROR (EmclInstallProtocol_answer (tick k)) = false ->
  let k0 := next_tick (set_emcl_installed true (next_tick k)) in
  AllocateZeroPool_answer (S (tick k)) = 0 \/ device_setup (fresh_device k0) = Ok (st, k1) /\ EFI_ERROR st = true ->
  exists f, SynthKeyDriverStart k = Fault f.
Proof.
  intros I k0 H. rw /SynthKeyDriverStart (kbind_ok _ _ k (EmclInstallProtocol_answer (tick k)) (next_tick k)) // I kmod_bind.
  rw (kbind_ok _ _ _ (AllocateZeroPool_answer (S (tick k))) k0) //.
  destruct (Z.eqb_spec (AllocateZeroPool_answer (S (tick k))) 0) as [E|N]; [by exists NullDeref|].
  destruct H as [H|[H F]]; [done|]. rw kmod_bind (kbind_ok _ _ _ _ _ H) F.
  destruct (SynthKeyDriverCleanup k1) as [[[] k2]|f] eqn:C; [|exists f; by rw /mbind /K_bind C].
  rw (kseq_ok _ _ _ _ C). exists UseAfterFree. by rw /mbind /K_bind /touch_device (driver_cleanup_frees _ _ C).
Qed.

(** A function that unregisters itself when it is called: the loop goes on from the
    notification that was freed. *)
Lemma unregister_in_call_faults k l p nt key :
  device_ok k (p :: l) -> notifies k !! p = Some nt -> KeyNotifyIsKeyRegistered (NotifyKeyData nt) key = true ->
  notification (KeyNotificationFn nt) key = [OpUnregister p] ->
  KeyNotifyFire key k = Fault UseAfterFree.
Proof.
  intros D P R N. destruct (D) as [_ (HL & _) _ _ _]. rw /KeyNotifyFire (kbind_ok _ _ k (p :: l) k); [by rw /notify_list HL|].
  rw /fire_fuel. cbn [fire_loop head]. rw (kbind_ok _ _ k nt k); [by rw /notify_at P|]. rw R.
  set (k1 := set_notified (notified k ++ [(KeyNotificationFn nt, key)]) k).
  assert (D1 : device_ok k1 (p :: l)) by (destruct D; by constructor).
  set (k2 := set_notifies (delete p (notifies k1)) (set_NotifyList (Some (filter (fun x => x <> p) (p :: l))) k1)).
  assert (U : run_op (OpUnregister p) k1 = Ok (tt, k2)).
  { cbn [run_op]. rw (kbind_ok _ _ _ _ _ (unregister_listed k1 (p :: l) p D1 _)) //. set_solver. }
  rw (kbind_ok _ _ k tt k2); [rw kmod_bind N; cbn [run_ops]; by rw (kseq_ok _ _ _ _ U)|].
  rw /mbind /K_bind /next_link /mbind /K_bind /notify_at. cbn [notifies k2 set_notifies]. by rw lookup_delete_eq.
Qed.

(** Translated keys have no state, so that a registration that asks for one is not
    matched. *)
Lemma translated_state r s : KeyState (snd (SynthKeyLayoutTranslateKey r s)) = mkKeyState 0 0.
Proof.
  assert (AP : forall e, KeyState (apply_entry s e zero_key) = mkKeyState 0 0) by (intros e; rw /apply_entry; by destruct (_ && _), (TEST_FLAGS _ _)).
  assert (CV : KeyState (convert_key r s zero_key) = mkKeyState 0 0).
  { rw /convert_key. by destruct (find_entry _ _) as [e|]; destruct (EFI_KEY_CTRL_ACTIVE _); rw /= ?AP. }
  assert (KP : forall k, KeyState (keypad r s k) = KeyState k) by (intros k; rw /keypad; repeat case_match; done).
  rw /SynthKeyLayoutTranslateKey. destruct (_ || _); [done|]. destruct (IsUnicode r); [done|]. cbn [snd]. rw KP.
  repeat case_match; done.
Qed.

Lemma state_registration_dead data r s :
  KeyState data <> mkKeyState 0 0 -> KeyNotifyIsKeyRegistered data (snd (SynthKeyLayoutTranslateKey r s)) = false.
Proof.
  intros N. rw /KeyNotifyIsKeyRegistered translated_state. cbn [KeyShiftState KeyToggleState]. destruct (_ || _); [done|].
  destruct (Z.eqb_spec (KeyShiftState (KeyState data)) 0) as [E1|]; [|done].
  destruct (Z.eqb_spec (KeyToggleState (KeyState data)) 0) as [E2|]; [|done].
  destruct N. destruct (KeyState data); simpl in *; by subst.
Qed.
End Life.
End SynthKeyLife.
