(* ===== verification/SynthKeyStart.v ===== *)
(** Starting the synthetic keyboard with a host and a firmware that answer: the
    negotiation completes and the device runs. *)
From Stdlib Require Import ssreflect ZArith Lia.
From stdpp Require Import base list numbers list_numbers option gmap.
From S2P Require Import Prelude SynthKeyLayout SynthKey SynthKeyBuffer SynthKeyTyping SynthKeyEvents SynthKeyDevice SynthKeyLife.
Open Scope Z_scope.

Module SynthKeyStart.
Import SynthKeyLayout SynthKey SynthKeyBuffer SynthKeyTyping SynthKeyEvents SynthKeyDevice SynthKeyLife.

(** The host accepts the version. *)
Definition accept_message : list Z := le_split 4 HkMessageProtocolResponse ++ le_split 4 1.

(** The services answer without an error, events are new and not null, and the
    host answers the request. *)
Record cooperative `{KeyboardSystem} (t : nat) : Prop := mkCooperative {
  co_emcl : EFI_ERROR (EmclInstallProtocol_answer t) = false;
  co_pool : AllocateZeroPool_answer (1 + t)%nat <> 0;
  co_open1 : EFI_ERROR (OpenProtocol_answer (2 + t)%nat) = false;
  co_open2 : EFI_ERROR (OpenProtocol_answer (3 + t)%nat) = false;
  co_event1 : EFI_ERROR (CreateEvent_answer (4 + t)%nat).1 = false;
  co_event2 : EFI_ERROR (CreateEvent_answer (5 + t)%nat).1 = false;
  co_receive : EFI_ERROR (SetReceiveCallback_answer (6 + t)%nat) = false;
  co_start : EFI_ERROR (StartChannel_answer (7 + t)%nat) = false;
  co_event3 : EFI_ERROR (CreateEvent_answer (8 + t)%nat).1 = false;
  co_send : EFI_ERROR (SendPacket_answer (9 + t)%nat) = false;
  co_wait : EFI_ERROR (WaitForEvent_answer (10 + t)%nat) = false;
  co_arrivals : arrivals (10 + t)%nat = [accept_message];
  co_install : EFI_ERROR (InstallProtocols_answer (11 + t)%nat) = false;
  co_events : NoDup [(CreateEvent_answer (8 + t)%nat).2; (CreateEvent_answer (4 + t)%nat).2; (CreateEvent_answer (5 + t)%nat).2];
  co_nonnull : 0 ∉ [(CreateEvent_answer (8 + t)%nat).2; (CreateEvent_answer (4 + t)%nat).2; (CreateEvent_answer (5 + t)%nat).2] }.

Section Start.
Context {B : BuildOptions} {SY : KeyboardSystem}.

Lemma answer_bind {C} (g : nat -> EFI_STATUS) (f : EFI_STATUS -> K C) k : (answer g ≫= f) k = f (g (tick k)) (next_tick k).
Proof. done. Qed.

Lemma create_bind {C} (f : EFI_STATUS * Z -> K C) k st e : CreateEvent_answer (tick k) = (st, e) -> EFI_ERROR st = false ->
  (CreateEvent ≫= f) k = f (st, e) (set_events ({[e]} ∪ events k) (next_tick k)).
Proof. intros E N. by rw /mbind /K_bind /CreateEvent E N. Qed.

Lemma key_send_ok m k : ChannelOpen (State k) = true -> EFI_ERROR (SendPacket_answer (tick k)) = false ->
  SynthKeyChannelSendMessage m k = Ok (SendPacket_answer (tick k), set_sent (sent k ++ [m]) (next_tick k)).
Proof. intros O E. rw /SynthKeyChannelSendMessage kget_bind O (kbind_ok _ _ k tt k); [by rw /klift ASSERT_true|]. by rw answer_bind E. Qed.

Lemma receive_accept k :
  SynthKeyChannelReceivePacketCallback accept_message 8 k
    = Ok (tt, set_completed (S (completed k)) (set_signalled ({[InitCompleteEvent k]} ∪ signalled k) (set_State (set_ChannelConnected true (State k)) k))).
Proof.
  rw /SynthKeyChannelReceivePacketCallback (kbind_ok _ _ k tt k); [by rw /klift ASSERT_true|].
  rw (kbind_ok _ _ k HkMessageProtocolResponse k) //.
  rw (kbind_ok _ _ k tt (set_signalled ({[InitCompleteEvent k]} ∪ signalled k) (set_State (set_ChannelConnected true (State k)) k))) //.
  rw (kbind_ok _ _ k tt k); [by rw /klift ASSERT_true|].
  rw /OnProtocolResponse (kbind_ok _ _ k EFI_SUCCESS (set_signalled ({[InitCompleteEvent k]} ∪ signalled k) (set_State (set_ChannelConnected true (State k)) k))) //.
  rw (kbind_ok _ _ k HkMessageProtocolResponse k) //. rw (kbind_ok _ _ k tt k); [by rw /klift ASSERT_true|]. done.
Qed.

Lemma deliver_accept k :
  deliver [accept_message] k
    = Ok (tt, set_completed (S (completed k)) (set_signalled ({[InitCompleteEvent k]} ∪ signalled k) (set_State (set_ChannelConnected true (State k)) k))).
Proof. cbn [deliver]. change (Zlength accept_message) with 8. by rw (kseq_ok _ _ _ _ (receive_accept k)). Qed.

Lemma wait_accepted k : let t := tick k in EFI_ERROR (WaitForEvent_answer t) = false -> arrivals t = [accept_message] ->
  exists k', WaitForEvent (InitCompleteEvent k) k = Ok (WaitForEvent_answer t, k') /\
    exists c s, k' = set_signalled s (set_completed c (set_State (set_ChannelConnected true (State k)) (next_tick k))).
Proof.
  intros t W A. rw /WaitForEvent kget_bind kmod_bind. cbn zeta. rw -/t A.
  rw (kseq_ok _ _ _ _ (deliver_accept (next_tick k))).
  rw kget_bind W. rw bool_decide_true; [set_solver|]. rw kmod_bind. eexists; split; [done|]. by eexists _, _.
Qed.
(** The version is agreed on. *)
Lemma establishes k st e : let t := tick k in ChannelOpen (State k) = true ->
  CreateEvent_answer t = (st, e) -> EFI_ERROR st = false -> EFI_ERROR (SendPacket_answer (S t)) = false ->
  EFI_ERROR (WaitForEvent_answer (S (S t))) = false -> arrivals (S (S t)) = [accept_message] ->
  exists k', SynthKeyChannelEstablishCommunications k = Ok (WaitForEvent_answer (S (S t)), k') /\
    exists c s m, k' = set_signalled s (set_completed c (set_State (set_ChannelConnected true (State k))
      (set_sent m (set_InitCompleteEvent e (set_events ({[e]} ∪ events k) (next_tick (next_tick (next_tick k)))))))).
Proof.
  intros t O C N P W A. rw /SynthKeyChannelEstablishCommunications (create_bind _ k st e) // N kmod_bind.
  set (k1 := set_InitCompleteEvent e _). rw (kbind_ok _ _ _ _ _ (key_send_ok _ k1 O P)). rw P.
  set (k2 := set_sent _ _). destruct (wait_accepted k2 W A) as (k' & Wk & c & s & ->).
  rw (kbind_ok _ _ _ _ _ Wk). rw W kget_bind. eexists; split; [done|]. by eexists _, _, _.
Qed.

(** The channel is opened. *)
Lemma channel_opens k st e : let t := tick k in Emcl k = true -> ChannelOpen (State k) = false ->
  EFI_ERROR (SetReceiveCallback_answer t) = false -> EFI_ERROR (StartChannel_answer (S t)) = false ->
  CreateEvent_answer (S (S t)) = (st, e) -> EFI_ERROR st = false -> EFI_ERROR (SendPacket_answer (S (S (S t)))) = false ->
  EFI_ERROR (WaitForEvent_answer (S (S (S (S t))))) = false -> arrivals (S (S (S (S t)))) = [accept_message] ->
  exists k', SynthKeyChannelOpen k = Ok (WaitForEvent_answer (S (S (S (S t)))), k') /\
    exists c s m, k' = set_signalled s (set_completed c (set_State (set_ChannelConnected true (set_ChannelOpen true (State k)))
      (set_sent m (set_InitCompleteEvent e (set_events ({[e]} ∪ events k) (Nat.iter 5 next_tick k)))))).
Proof.
  intros t E O R St C N P W A.
  set (k1 := set_State (set_ChannelOpen true (set_ChannelConnected false (State k))) (next_tick (next_tick k))).
  destruct (establishes k1 st e eq_refl C N P W A) as (k' & H & c & s & m & Ek).
  rw /SynthKeyChannelOpen kget_bind E (kbind_ok _ _ k tt k); [by rw /klift ASSERT_true|].
  rw kget_bind O (kbind_ok _ _ k tt k); [by rw /klift ASSERT_true|]. rw kmod_bind.
  rw (kseq_ok _ _ _ _ eq_refl) answer_bind R.
  rw (kbind_ok _ _ _ (WaitForEvent_answer (S (S (S (S t))))) k'); [rw answer_bind St; exact H|].
  rw W. eexists; split; [done|]. exists c, s, m. rw Ek //.
Qed.
(** The text input protocols are set up. *)
Lemma text_starts k st1 e1 st2 e2 st3 e3 : let t := tick k in Emcl k = true -> ChannelOpen (State k) = false -> 
  CreateEvent_answer t = (st1, e1) -> EFI_ERROR st1 = false -> CreateEvent_answer (1 + t)%nat = (st2, e2) -> EFI_ERROR st2 = false ->
  EFI_ERROR (SetReceiveCallback_answer (2 + t)%nat) = false -> EFI_ERROR (StartChannel_answer (3 + t)%nat) = false ->
  CreateEvent_answer (4 + t)%nat = (st3, e3) -> EFI_ERROR st3 = false -> EFI_ERROR (SendPacket_answer (5 + t)%nat) = false ->
  EFI_ERROR (WaitForEvent_answer (6 + t)%nat) = false -> arrivals (6 + t)%nat = [accept_message] ->
  EFI_ERROR (InstallProtocols_answer (7 + t)%nat) = false ->
  exists k', SimpleTextInInitialize k = Ok (InstallProtocols_answer (7 + t)%nat, k') /\
    State k' = set_SimpleTextInstalled true (set_ChannelConnected true (set_ChannelOpen true (set_KeyState (mkKeyState EFI_SHIFT_STATE_VALID EFI_TOGGLE_STATE_VALID) (State k)))) /\
    InitCompleteEvent k' = e3 /\ WaitForKey k' = e1 /\ WaitForKeyEx k' = e2 /\ events k' = {[e3]} ∪ ({[e2]} ∪ ({[e1]} ∪ events k)) /\
    EfiKeyQueue k' = KeyBufferInitialize (EfiKeyQueue k) /\ NotifyList k' = Some [] /\ notifies k' = notifies k /\ allocated k' = allocated k /\ Emcl k' = Emcl k.
Proof.
  intros t E O C1 N1 C2 N2 R St C3 N3 P W A I.
  set (k0 := set_NotifyList (Some []) k).
  set (k2 := set_WaitForKeyEx e2 (set_events ({[e2]} ∪ ({[e1]} ∪ events k)) (next_tick (set_WaitForKey e1 (set_events ({[e1]} ∪ events k) (next_tick k0)))))).
  set (k3 := set_State (set_KeyState (mkKeyState EFI_SHIFT_STATE_VALID EFI_TOGGLE_STATE_VALID) (State k)) (set_EfiKeyQueue (KeyBufferInitialize (EfiKeyQueue k)) k2)).
  destruct (channel_opens k3 st3 e3 E O R St C3 N3 P W A) as (k4 & H & c & s & m & Ek).
  assert (Tk : tick k4 = (7 + t)%nat) by (rw Ek //).
  assert (T : text_setup k = Ok (InstallProtocols_answer (7 + t)%nat, set_State (set_SimpleTextInstalled true (State k4)) (next_tick k4))).
  { rw /text_setup kmod_bind (create_bind _ k0 st1 e1) // N1 kmod_bind. rw (create_bind _ _ st2 e2) // N2 kmod_bind.
    rw (kbind_ok SimpleTextInReset _ k2 (if negb (ChannelConnected (State k)) then EFI_DEVICE_ERROR else EFI_SUCCESS) k3) //.
    rw (kbind_ok _ _ _ _ _ H) W answer_bind Tk I kmod_bind. reflexivity. }
  rw /SimpleTextInInitialize (kbind_ok _ _ _ _ _ T) I. eexists; split; [done|]. rw Ek. by split_and!.
Qed.
Lemma fresh_queue : wf_queue (KeyBufferInitialize zero_buffer) /\ keys_of (KeyBufferInitialize zero_buffer) = [].
Proof. apply initialize_keys. split; [done|done]. Qed.

(** C35. Starting.  When the boot services answer without an error with distinct
    events and the host accepts the version it is offered, SynthKeyDriverStart returns
    without an error with a well-formed, connected device, its protocols installed, an
    empty queue and no notification. *)
Theorem start_runs k : cooperative (tick k) -> notifies k = ∅ ->
  exists k', SynthKeyDriverStart k = Ok (InstallProtocols_answer (11 + tick k)%nat, k') /\ running k' [] /\
    ChannelConnected (State k') = true /\ keys_of (EfiKeyQueue k') = [].
Proof.
  intros [Ce Cp Co1 Co2 C1 C2 Cr Cs C3 Cn Cw Ca Ci Cd C0] M. set (t := tick k).
  destruct (CreateEvent_answer (4 + t)%nat) as [st1 e1] eqn:E1. destruct (CreateEvent_answer (5 + t)%nat) as [st2 e2] eqn:E2.
  destruct (CreateEvent_answer (8 + t)%nat) as [st3 e3] eqn:E3. rw E1 in C1. rw E2 in C2. rw E3 in C3. rw E1 E2 E3 in Cd C0. cbn [fst snd] in *.
  set (k0 := next_tick (set_emcl_installed true (next_tick k))).
  set (k1 := set_Emcl true (next_tick (set_DevicePath true (next_tick (fresh_device k0))))).
  destruct (text_starts k1 st1 e1 st2 e2 st3 e3 eq_refl eq_refl E1 C1 E2 C2 Cr Cs E3 C3 Cn Cw Ca Ci) as (k' & H & S' & I' & W' & X' & V' & Q' & L' & N' & A' & Em').
  exists k'. split; [|split; [constructor|]].
  - rw /SynthKeyDriverStart answer_bind Ce kmod_bind (kbind_ok _ _ _ (AllocateZeroPool_answer (S t)) k0) //.
    rw (proj2 (Z.eqb_neq _ 0) Cp) kmod_bind. rw (kbind_ok device_setup _ _ (InstallProtocols_answer (11 + t)%nat) k'); [|by rw Ci].
    rw /device_setup answer_bind Co1 kmod_bind answer_bind Co2 kmod_bind. exact H.
  - destruct fresh_queue as [Wf Kf]. constructor; rw ?/listed ?Q' ?L' ?N' ?S' //.
    + split_and!; [done|apply NoDup_nil_2|by apply Forall_nil].
    + intros p n. change (notifies k1) with (notifies k). by rw M lookup_empty.
    + apply not_elem_of_nil.
  - by rw A'.
  - by rw Em'.
  - by rw S'.
  - by rw S'.
  - rw I' W' X' V'. rw !Forall_cons. set_solver.
  - by rw I' W' X'.
  - rw S' Q'. split; [done|apply fresh_queue].
Qed.
End Start.
End SynthKeyStart.
