(* ===== verification/SynthKeyConcrete.v ===== *)
(** The synthetic keyboard on concrete inputs: a firmware and a host that answer, a
    device with a registered function, and a firmware that refuses a protocol. *)
From Stdlib Require Import ssreflect ZArith Lia.
From stdpp Require Import base list numbers list_numbers option gmap.
From S2P Require Import Prelude SynthKeyLayout SynthKey SynthKeyBuffer SynthKeyTyping SynthKeyEvents SynthKeyDevice SynthKeyLife SynthKeyStart.
Open Scope Z_scope.

Module SynthKeyConcrete.
Import SynthKeyLayout SynthKey SynthKeyBuffer SynthKeyTyping SynthKeyEvents SynthKeyDevice SynthKeyLife SynthKeyStart.

Definition answering (open : EFI_STATUS) : KeyboardSystem := {|
  AllocateZeroPool_answer t := 0x1000 + 16 * Z.of_nat t;
  CreateEvent_answer t := (EFI_SUCCESS, 100 + Z.of_nat t);
  SetReceiveCallback_answer _ := EFI_SUCCESS;
  StartChannel_answer _ := EFI_SUCCESS;
  SendPacket_answer _ := EFI_SUCCESS;
  WaitForEvent_answer _ := EFI_SUCCESS;
  arrivals _ := [accept_message];
  InstallProtocols_answer _ := EFI_SUCCESS;
  UninstallProtocols_answer _ := EFI_SUCCESS;
  OpenProtocol_answer _ := open;
  EmclInstallProtocol_answer _ := EFI_SUCCESS;
  notification _ _ := [] |}.

(** Nothing is started. *)
Definition blank : keyboard :=
  mkKeyboard (mkState (mkKeyState 0 0) false false false false) zero_buffer None 0 0 0 false false false false ∅ ∅ ∅ [] 0 0 [] 0.

(** An open device with a function (7) registered for the letter [a]. *)
Definition key_a : EFI_KEY_DATA := mkKeyData (mkKey 0 97) (mkKeyState 0 0).
Definition listening : keyboard :=
  mkKeyboard (mkState (mkKeyState EFI_SHIFT_STATE_VALID EFI_TOGGLE_STATE_VALID) true true true false) zero_buffer (Some [16]) 1 2 3 true true true true
    {[ 16 := mkNotify 16 7 key_a ]} {[ 1; 2; 3 ]} ∅ [] 0 0 [] 0.

Lemma zero_buffer_wf : wf_queue zero_buffer.
Proof. split; [reflexivity|]. split; simpl; lia. Qed.

Lemma listening_listed : listed listening [16].
Proof. split_and!; [done|apply NoDup_singleton|]. apply Forall_singleton. by exists (mkNotify 16 7 key_a). Qed.

Lemma listening_ok : device_ok listening [16].
Proof.
  constructor; [apply zero_buffer_wf|apply listening_listed| |set_solver|done].
  intros p n H. change (({[16 := mkNotify 16 7 key_a]} : gmap Z SYNTH_KEYBOARD_EX_NOTIFY) !! p = Some n) in H.
  apply lookup_singleton_Some in H as [<- <-]. split; [set_solver|done].
Qed.

(** Two keys go in and three are asked for. *)
Lemma key_queue_refines_witness : exists q',
  run_queue [QInsert key_a; QInsert zero_key; QRemove; QRemove; QRemove] zero_buffer
    = Ok ([(EFI_SUCCESS, Some key_a); (EFI_SUCCESS, Some zero_key); (EFI_NOT_READY, None)], q') /\ keys_of q' = [].
Proof.
  destruct (key_queue_refines [QInsert key_a; QInsert zero_key; QRemove; QRemove; QRemove] zero_buffer zero_buffer_wf) as (q' & E & _ & K).
  exists q'. split; [exact E|exact K].
Defined.

(** The letter [a] is pressed and released while Shift is down and Ctrl is not. *)
Definition shift_a : list HK_MESSAGE_KEYSTROKE :=
  [mkStroke 0x2a false false false false; mkStroke 0x1e false false false false; mkStroke 0x1e false true false false;
   mkStroke 0x2a false true false false; mkStroke 0x1e false false false false].

Lemma keystrokes_queued_witness : exists k',
  deliver (B := debug_build) (SY := answering EFI_SUCCESS) (event_message <$> shift_a) listening = Ok (tt, k') /\
  keys_of (EfiKeyQueue k') = [mkKeyData (mkKey 0 65) (mkKeyState 0 0); key_a] /\ notified k' = [(7, key_a)].
Proof.
  destruct (keystrokes_queued (B := debug_build) (SY := answering EFI_SUCCESS) (fun _ _ => eq_refl) [16] shift_a listening
    listening_listed zero_buffer_wf eq_refl) as (k' & E & T).
  - repeat (apply Forall_cons; split; [simpl; lia|]). by apply Forall_nil.
  - exists k'. split; [exact E|]. destruct T as [_ _ K _ _ N]. split; [rw K; by vm_compute|rw N; by vm_compute].
Defined.

Lemma protocol_op_ok_witness : exists k' l',
  run_op (B := debug_build) (SY := answering EFI_SUCCESS) (OpUnregister 16) listening = Ok (tt, k') /\ device_ok k' l'.
Proof. apply (protocol_op_ok (B := debug_build) (SY := answering EFI_SUCCESS) listening [16] (OpUnregister 16) listening_ok). right. set_solver. Defined.

Lemma start_runs_witness : exists k',
  SynthKeyDriverStart (B := debug_build) (SY := answering EFI_SUCCESS) blank = Ok (EFI_SUCCESS, k') /\ running k' [].
Proof.
  destruct (start_runs (B := debug_build) (SY := answering EFI_SUCCESS) blank) as (k' & E & R & _); [|reflexivity|].
  - constructor; try reflexivity; simpl; [lia|refine (bool_decide_eq_true_1 (NoDup [108; 104; 105]) _); reflexivity|set_solver].
  - exists k'. split; [exact E|exact R].
Defined.

(** The device path cannot be opened. *)
Lemma failed_start_faults_witness : exists f,
  SynthKeyDriverStart (B := release_build) (SY := answering EFI_NOT_FOUND) blank = Fault f.
Proof.
  apply (failed_start_faults (B := release_build) (SY := answering EFI_NOT_FOUND) blank EFI_NOT_FOUND
    (next_tick (fresh_device (next_tick (set_emcl_installed true (next_tick blank)))))); [reflexivity|].
  right. split; reflexivity.
Defined.
End SynthKeyConcrete.
